(* ===== verification/_CoqProject ===== *)
-Q . S2P
Prelude.v
Codecs.v
BitData.v
Integer.v
Descriptor.v
OerSupport.v
OerPrim.v
OerConstr.v
OerSpec.v
OerPrimOk.v
OerSem.v
OerCodec.v
OerSeqOk.v
OerCodecOk.v
Pqc.v
StandardTables.v
OerTheorems.v
OerSafety.v
OerPrefix.v
Certificates.v
Asn1Wrapper.v
SameValue.v
SecurityTypes.v
CertificateV3.v
CertificateV3Ok.v
HybridCertificate.v
HybridCertificateOk.v
CertificateStores.v
CertificateValidator.v
ValidatorOk.v
AcceptOk.v
Samples.v
HybridTheorems.v
CertificateTheorems.v
ValidatorTheorems.v
GeoSerial.v
SecuredMessageV3.v
SecuredMessageOk.v
GeoHeaders.v
GeoHeadersOk.v
GeoPdu.v
GeoPduOk.v
GeoHeaderTheorems.v
Double.v
RateControl.v
SigningPolicy.v
Runtime.v
BtpHeader.v
NetPackets.v
GeoArea.v
GeoRequest.v
GeoContainers.v
SoftState.v
CbfBuffer.v
CbfBufferOk.v
GeoSamples.v
CbfTheorems.v
LocationTable.v
LocationTheorems.v
GeoPending.v
GeoIndication.v
SecurityServices.v
SecurityTheorems.v
RouterState.v
RouterForward.v
RouterIndicate.v
Router.v
PortDispatcher.v
Station.v
FlowControl.v
RouterOk.v
RouterIndicateOk.v
RouterSteady.v
RouterRunOk.v
RouterTheorems.v
ForwardingTheorems.v
RouterSamples.v
BtpTheorems.v
DeliveryTheorems.v
StationSamples.v
