(* ===== verification/Prelude.v ===== *)
(** * Verification of Stack_PQC: ASN.1 runtime, certificates, secured messages, GeoNetworking,
    congestion control

    Stack_PQC is Vanetza, a vehicle-to-everything protocol stack, with a hybrid
    post-quantum certificate profile.  Certificates and signed messages are ASN.1
    values in Octet Encoding Rules (OER, X.696); the codec is the C code of
    vanetza/asn1: a runtime library (support/, the asn1c runtime) that interprets
    tables describing the types (systemx-pqc/ for the hybrid profile, security/ for
    IEEE 1609.2, its/ for the ITS messages).  Every signature is computed and checked
    over the octets this code writes, and every octet from the radio goes through it
    first.  On top of it the C++ code of vanetza/security signs certificates with a
    classical and a post-quantum key, stores them, decides whether a certificate
    chain is to be trusted, and signs and verifies messages.  Packets between vehicles are GeoNetworking packets
    (vanetza/geonet), whose router parses every packet, knows its neighbours from them,
    filters duplicates, passes packets up and forwards them, and sends packets of its
    own.  Above it the Basic Transport Protocol (vanetza/btp) brings packets to the ports of
    applications; below it congestion control (vanetza/dcc) decides when a packet may leave
    the station.  This library models the OER half of the runtime, the certificate
    and message tables, the certificate layer, secured messages with the services that sign
    and verify them, the GeoNetworking router with everything it is made of, the
    transport protocol up to the stations of tools/socktap, and congestion control, and
    proves what they do.

    ** How the parts fit together

    An application calls [oer_encode_to_buffer] or [oer_decode] with a type descriptor.
    They call through the descriptor's operation table; the codec of a SEQUENCE, CHOICE
    or SET OF calls through the tables of its members.  Encoders hand octets to a
    callback and learn whether it accepted them.  Decoders are restartable: they may
    return RC_WMORE and resume later from the phase kept in the structure.

    The C++ wrappers (asn1c_wrapper.cpp) turn failures into exceptions and copy
    structures by encoding and decoding them.  A certificate (v3/certificate.cpp) is
    such a structure; its digest is the hash of its encoding in canonical form.  A
    hybrid certificate (pqc/hybrid_certificate.cpp) carries an alternative key and an
    alternative signature; the alternative signature is made first, over the
    certificate without it, the classical one over the certificate with it.  The
    stores (trust_store.cpp, issuer_memory_lookup.cpp, certificate_cache.cpp,
    revocation_lookup.cpp) file certificates under their digest.  The validators
    (certificate_validator.cpp, hybrid_certificate_validator.cpp) walk from a
    certificate over its issuers to a trusted root.

    A secured message (v3/secured_message.cpp) is a structure of the same kind around the
    octets of a packet.  The sign service (v3/sign_service.cpp) builds it, lets the header
    policy (v3/sign_header_policy.cpp) choose between the certificate of the station and
    its digest, and signs it; the verify service (straight_verify_service.cpp) finds the
    certificate in the message or in the cache, asks the validator, and checks the
    signature.  Both share the policy, which learns from received messages which
    certificates others miss and which ones the station misses; the requests wait in
    trackers (peer_request_tracker.cpp).  The security entity of the router
    (delegating_security_entity.cpp) is made of the two services.

    A GeoNetworking packet is a basic header, then either a secured message or a common
    and an extended header.  The parser (parser.cpp) deserializes them from an archive
    (common/archives.cpp).  The router keeps what it learns in a location table
    (location_table.cpp), a map with expiring entries (soft_state_map.hpp); it drops
    packets whose sequence number it has seen (duplicate_packet_list.cpp,
    gbc_memory.cpp) and stores packets it cannot forward yet (packet_buffer.cpp).  A
    packet that is to be forwarded is sent at once, towards the neighbour that is closest
    to the destination, or waits in contention with the other routers
    (cbf_packet_buffer.cpp) until its timer expires or another router is overheard.
    Requests of the application are validated (data_confirm.cpp), made into packets,
    signed by the security entity, and repeated (repeater.cpp); beacons are sent from a
    timer.  All timers are callbacks in one scheduler (common/manual_runtime.cpp).

    What the router passes up goes to the port dispatcher (btp/port_dispatcher.cpp), which
    reads the transport header and calls the hooks and the handler of the port.  In a
    station (tools/socktap) applications are such handlers; they send through the router,
    whose packets leave in Ethernet frames, and frames that are read go to the router.

    The stations of socktap hand the packets of the router to the link at once; a station
    with congestion control hands them to the flow control (dcc/flow_control.cpp), which
    keeps a queue for every access category.  It asks a rate control for the delay of a
    packet and tells it what was sent.  The rate controls combine a state machine that
    follows the measured channel load (fully_meshed_state_machine.cpp,
    gradual_state_machine.cpp) or the adaptive algorithm of limeric.cpp with budgets that
    turn an interval into a delay (state_machine_budget.cpp, burst_budget.cpp,
    limeric_budget.cpp).

    ** Files of the runtime

    - Prelude: bytes, buffers, machine integers, bit strings, hint databases.
    - Codecs: asn_codecs.h, asn_internal.h.  Decoder results; [enc], the monad of
      computations that call the output callback; [run] executes one with a stateful
      callback, [emits] describes the run in which every call is accepted.
    - BitData: asn_bit_data.c.  [BitIn] reads, [BitOut] writes.
    - Integer: INTEGER.c.  Conversions, comparison, decimal parsing.
    - Descriptor: constr_TYPE.h and the specifics; [obj], decoded structures as trees;
      the operation table [asn_TYPE_operation], the interface between the codecs.
    - OerSupport: length determinants (oer_support.c), quantities (constr_SET_OF_oer.c),
      tags and tag maps (constr_CHOICE_oer.c).
    - OerPrim: *_oer.c of the primitive types, oer_decode_primitive.
    - OerConstr: constr_SEQUENCE_oer.c ([Sequence], one definition per phase of the
      decoder), constr_CHOICE_oer.c ([Choice]), constr_SET_OF_oer.c ([SetOf]),
      OPEN_TYPE_oer.c and the open types of oer_decoder.c and oer_encoder.c.
    - OerCodec: [op], the asn_OP_* tables; the entry points; the built-in descriptors.
    - OerSpec, OerSem: the specification.  [aval] is the type of abstract values; [sem td]
      gives a descriptor the canonical encoding of each value and the relation between
      structures and values; the classes [Encodes] and [Decodes] are the contract
      between an operation table and such a meaning; [wf_td] is the decidable condition
      on tables under which the contract holds.
    - OerPrimOk, OerSeqOk, OerCodecOk: the contract for each type, and for every
      well-formed descriptor by induction.
    - OerTheorems: the contract as theorems about the entry points.
    - OerSafety: arbitrary input.
    - OerPrefix: incomplete input.
    - Pqc, StandardTables: the generated tables, row for row; [unfolded] for the message
      type that contains itself.
    - Certificates: what follows for the certificates, and concrete departures.

    ** Files of the certificate layer

    - Asn1Wrapper: asn1c_wrapper.cpp; [cpp], the monad of calls that return, throw or
      have no defined outcome, and [state_cpp] with a state; weakest preconditions [wp];
      reading and writing members of structures.
    - SameValue: [same], two structures that stand for the same value; copying,
      encoding and the accessors respect it, and [max_size] bounds encodings.
    - SecurityTypes: keys, digests and signatures (key_type.cpp, hashed_id.cpp), the
      members and enumerators of a certificate.
    - CertificateV3: v3/certificate.cpp, v3/asn1_conversions.cpp, v3/hash.cpp.
    - CertificateV3Ok: the routines respect values; canonical form.
    - HybridCertificate: pqc/hybrid_certificate.cpp and pqc/fndsa512_oqs.cpp.
    - HybridCertificateOk: what signing writes and verification reads.
    - CertificateStores: the four stores with their invariants; the class
      [IssuerLookupOk] is what they promise to the validators.
    - CertificateValidator: both validators with their configuration.
    - ValidatorOk: chains of certificates as lists, and the walks against them.
    - AcceptOk: from signing a certificate to accepting it; calls that always have a
      defined outcome.
    - Samples: concrete certificates, a root and a ticket, and back ends.
    - HybridTheorems, CertificateTheorems, ValidatorTheorems: the theorems.

    ** Files of secured messages

    - SecuredMessageV3: v3/secured_message.cpp (the module [Msg]).
    - SecuredMessageOk: what is read from a message depends on its value; the messages that
      are built stand for values.
    - SigningPolicy: peer_request_tracker.cpp (the module [Tracker], its specification
      [TrackerSpec] and the refinement), v3/sign_header_policy.cpp (the module [Policy]).
    - SecurityServices: v3/sign_service.cpp, straight_verify_service.cpp,
      delegating_security_entity.cpp and the entity of tools/socktap/security.cpp.
    - SecurityTheorems: the theorems, and two stations that exchange a message.

    ** Files of GeoNetworking

    - GeoSerial: common/archives.cpp, common/serialization.hpp, net/mac_address.cpp.
      [des], deserialization into an object that an exception leaves half read; the
      class [Wire], what the serialization of a type promises to the types around it.
    - GeoHeaders, GeoHeadersOk: the headers (the sources named ..._header.cpp, and the types of their fields),
      and an instance of [Wire] for each.
    - GeoPdu, GeoPduOk: pdu.cpp, parser.cpp; every outcome of the parser.
    - GeoContainers: duplicate_packet_list.cpp, gbc_memory.cpp, packet_buffer.cpp, a
      Module each.
    - SoftState: soft_state_map.hpp, with its invariant and its specification [abs].
    - LocationTable: location_table.cpp, and from router.cpp [detect_duplicate_packet] and
      [decide_pass_up].
    - GeoHeaderTheorems, LocationTheorems: the theorems.
    - Double: binary64 arithmetic, units/time.hpp, the lifetimes of lifetime.cpp.
    - Runtime: common/manual_runtime.cpp, the scheduler.
    - NetPackets: net/chunk_packet.cpp, net/cohesive_packet.cpp, net/packet.cpp.
    - GeoArea: areas.cpp, header_type.cpp, destinations of gbc_gac_header.cpp.
    - GeoRequest: mib.cpp, data_request.cpp, data_confirm.cpp, extended_pdu.hpp.
    - CbfBuffer, CbfBufferOk, CbfTheorems: cbf_counter.cpp, cbf_packet_buffer.cpp, the
      invariant that links packets, timers and the scheduler, and the theorems.
    - GeoPending: pending_packet.hpp, next_hop.hpp; packets with what remains to be done.
    - GeoIndication: indication_context.cpp, data_indication.hpp, and the interface of the
      security entity.
    - RouterState: the members of the Router, the monad [router] of its member functions,
      set-up, the beacon timer, the repeater (repeater.cpp).
    - RouterForward: from router.cpp sending, encapsulation and the forwarding algorithms.
    - RouterIndicate: reception, from the basic header to the extended headers.
    - Router: requests, beacons and the loop of the scheduler.
    - RouterOk, RouterIndicateOk, RouterSteady, RouterRunOk: weakest preconditions for
      the monad, the invariant of the router, and that every member function keeps it.
    - RouterTheorems, ForwardingTheorems: the theorems about the router.
    - GeoSamples, RouterSamples: instances of the interfaces, concrete routers, and inputs
      on which the code departs from its comments.

    ** Files of the transport protocol and of stations

    - BtpHeader: btp/header.cpp, the two headers, and an instance of [Wire] for each.
    - PortDispatcher: btp/port_dispatcher.cpp, btp/data_indication.cpp (the module [Btp]).
    - Station: net/ethernet_header.cpp and the frames of raw_socket_link.cpp, application.cpp,
      router_context.cpp and the rest of tools/socktap between an application and the link.
    - BtpTheorems: dispatching after any history of calls.
    - DeliveryTheorems: frames and layers, a broadcast at its sender and at its receiver;
      from application to application.
    - StationSamples: two stations, and a frame that ends one.

    ** Files of congestion control

    - RateControl: common/unit_interval.cpp, the channel load, both state machines
      ([FullyMeshed], [Gradual], instances of the class [StateMachine]), the budgets
      ([StateMachineBudget], [BurstBudget], [LimericBudget]), [Limeric], and the rate
      controls, instances of the class [TransmitRateControl]; their theorems.
    - FlowControl: dcc/flow_control.cpp over any such instance; the class [TrcOk] is what a
      rate control promises, with an instance for the one with bursts; the invariant of
      the queues, the theorems, and a station on a busy road.

    ** What the theorems show

    - Refinement (OerTheorems, OerPrefix): encoding a structure writes the canonical
      octets of its value; decoding these octets, whatever follows, gives the value back
      and consumes exactly them; the two compose; the encoder's output determines the
      value; any proper part of an encoding makes the decoder ask for more, and once it
      does not ask for more, further input changes nothing.
    - Bounds and safety (OerTheorems, OerSafety): a run of the encoder that ends writes only
      inside the buffer; no octet is consumed that is not there; for types all of whose
      members have decoders, no undefined behaviour on any input from a fresh structure.
    - The tables (Certificates): the certificate tables satisfy [wf_td], so all of the
      above holds for them; key encodings; what older receivers make of a hybrid
      certificate; which certificate reaches a NULL decoder and which types cannot;
      inputs on which the codec loses an error, its place, or the value.
    - Building blocks (BitData, OerSupport, Integer): bit streams, determinants, tags.
    - Hybrid certificates (HybridTheorems): signing in both layers verifies in both;
      equal signature inputs mean equal contents; keys and signatures read back; a
      failed call changes nothing; canonical form is idempotent and keeps what the
      certificate says; digests belong to values; where the test for canonical form
      and the conversion disagree.
    - Stores (CertificateTheorems): invariants over every sequence of calls, revocation as a
      refinement of its history.
    - Time (CertificateTheorems): the 64-bit comparison is exact, the 32-bit one overflows
      and wraps around.
    - Validators (ValidatorTheorems): the walk decides whether an authentic chain exists
      and always answers; the verdict Valid implies one chain that is anchored,
      verified, permitted, enclosed in time (in the wrapping seconds of the code) and not
      revoked, as far as the checks are enabled; what an authentic authority signs is
      authentic.
    - Messages (SecurityTheorems, SigningPolicy): success is reported exactly when the signer
      is known and valid for the validator, if there is one, and the signature verifies, for
      every message, and every message gets an answer; what one station signs another one
      accepts, after encoding and decoding; what the header of an awareness message carries,
      and that the last message with the certificate is never older than 950 ms while the
      station may sign; the tracker is a bounded queue without repetitions; messages with
      an unknown digest algorithm are not protected at all.
    - Headers (GeoHeaderTheorems): the parser reads back what was written, accepts only
      what serializing writes, and refuses exactly incomplete packets and types that are
      not implemented; sequence numbers and time stamps are ordered on the circle.
    - Containers (LocationTheorems): each bounded container is the
      most recent part of its history; the packet buffer counts right, drops no more
      than it must and flushes in order; the soft state map refines a map with expiry;
      position vectors are replaced by newer valid ones only; duplicates are detected
      per link-layer address, as long as the entry of the source does not expire.
    - Contention (CbfTheorems): over every sequence of calls the buffer keeps its books and
      multiplies no packet; while no timer is updated and nothing is dropped for room, it
      lets packets go in time.
    - The router (RouterTheorems): from its constructor on, and whatever is received,
      requested or scheduled, every call returns, without exception, failed assertion or
      use of an iterator that leads nowhere, for requests of a known protocol, a sensible
      configuration and collaborators that do not throw; the invariant that makes this so;
      the scheduler drains; a packet whose message the security entity does not accept has
      no effect under strict handling; the timer of the beacon is never lost without
      security; a rejected request changes nothing.
    - Forwarding (ForwardingTheorems): greedy forwarding picks a closest neighbour;
      contention in the destination area buffers, or suppresses what was overheard; a
      topologically scoped broadcast is passed up and forwarded, with one hop less, unless
      the duplicate list of its source has it.
    - Dispatching (BtpTheorems): every hook and the handler registered last are called, once,
      with the header and the payload of the packet; short packets make it throw.
    - Delivery (DeliveryTheorems): what an application sends as a single-hop broadcast
      reaches the application at the same port of another station, octet for octet, through
      every layer of both stations, without security and while packets are not suppressed.
    - Congestion control (FlowControl, RateControl): for every sequence of calls each packet
      is sent, destroyed or waiting, in order within its category, and none waits for
      ever; the burst budget lets bursts of bounded size and length pass, a period apart;
      the gradual machine converges to the state that the load calls for; where the delay
      of a packet is not kept.

    ** Modelling decisions

    - 64-bit little-endian machine: long, size_t, intmax_t have 64 bits, int has 32.  A
      number is a [Z]; conversions that can wrap are written with [wrap] or [s64].
    - Allocation succeeds and freeing has no effect; a pointer member is an option, an
      inline member that was never written is zeroed memory.
    - Undefined behaviour that the code can reach is the result [RC_UNDEFINED] of a
      decoder and [NoResult] of a C++ call: a call through a NULL decoder, a NULL
      presence bitmap, an alternative outside the member table, a signed overflow, a
      read of uninitialised octets, a failed assertion.
    - The stack check compares addresses of frames; the distance per nesting depth is a
      parameter of the decoders ([stack_used]), and the theorems that need it assume
      that it stays below the default limit (class [StackFits]).
    - SHA-2, the elliptic curve back end, liboqs and the distance on the globe are
      parameters (classes [Sha], [Backend], [Liboqs], [Geodesy]).  The theorems about
      signing assume of the back ends that signatures are octets and that a signature
      which verifies has the type of its key ([BackendOk], [PqcBackendOk]), those about
      messages that digests have their size ([ShaOk]), that checking a signature does not
      crash ([BackendDefined]) and that what the key of a station signs verifies with its
      certificate ([key_matches]); Samples has instances that satisfy this.
    - Containers of boost: a circular buffer and a multi-index container are lists, in the
      order of their queue; the binomial heap is a parameter of which [HeapTopOk] says
      that its top has the smallest expiry (LocationTheorems has an instance).  Times are
      numbers of microseconds; that they fit in 64 bits is not tracked.  Angles, speeds
      and distances of the headers are the integers of their unit.
    - Numbers of type double are those of SpecFloat with 53 bits, so comparisons with NaN
      and rounding are those of the machine; trigonometric functions, the distance on the
      globe and the local coordinates of GeographicLib are parameters ([Geodesy] of
      GeoArea).  A conversion of a double to an integer that does not fit is
      undefined in C++; [int64_of] is what the instruction of x86-64 does there.
    - Lambda expressions and bound functions are constructors of [Callback], [MacAction] and
      [GbcAction], with what they capture; running one is [run_callback], [mac_action],
      [gbc_action].  The nodes of lists that iterators point to are numbers, which the
      class [Allocator] chooses.  Where the code uses an iterator that may have been
      invalidated, the model does what compiled code does with the nodes: [add] of CbfBuffer
      compares the addresses of nodes, and [cache_lookup3] finds the element that a stored
      iterator was made for.
    - What the router does to the outside is the list [m_events]: packets handed to the
      access and transport layers, and hooks.  A receiver does not call the router back
      while it is being called, and does not throw into it; where the stations of socktap do
      so (the port dispatcher throws on short packets, the request of the link updates the
      runtime) Station composes the parts, see its header.  The management information base is the one the router was made
      with.  The security entity, the generator of congestion control fields and the
      random numbers are interfaces with a state of their own; the theorems assume of the
      entity that it reports errors in its results and that the payload of a received
      message is one buffer ([SecurityEntityOk]; RouterSamples has an instance).
    - The order in which a hash map is iterated is that of [map_to_list]; the lemma on the
      choice of greedy forwarding ([closest_neighbour_spec]) holds for any order.
    - The security layer is modelled for the hybrid profile, the one security_profile.hpp
      selects when the experimental profile is built.
    - A collaborator of a validator is what it returns at the time of the call; both
      validators read the clock and the position at most once.
    - Fuel: [skip_rest] gets one more than the number of presence bits, which OerSafety
      shows to be enough; [bsearch] one more than the length of the table;
      [quantity_bytes], [put_tag_loop] and [enum_loop] at most the octets of a 64-bit
      number, shown enough by the emission lemmas; [zeros_loop] has a parameter, because
      the loop of the code does not end.  The walks along a chain count down from the
      bound of the code, eight certificates.  The loops that drop packets or expired
      entries get one more than the number of elements, shown enough by their lemmas.
      [trigger] gets one more round than there are callbacks in the queue, which
      [scheduler_drains] shows to be enough although callbacks schedule new ones.  The same
      loop with the callbacks of the flow control, [run_due], gets one more than there are
      callbacks and waiting packets: a callback adds a callback only if it takes a packet.
    - A descriptor is a finite tree of tables.  The only recursive type, the data of
      IEEE 1609.2, which can be carried in signed data again, is unfolded to a depth that
      is a parameter (class [Nesting]); the theorems hold for every depth.
    - The verify service is called through references to the cache and the policy of its
      station; the model passes them in [VerifyContext] and puts them back.  The validator
      is called through its interface, as a function.

    ** Not modelled, and what remains to be done

    BER, PER, XER and JER codecs, printing, random fill, freeing, comparison of
    structures other than INTEGER, REAL; of the C++ code, version 2 of the security
    layer, encryption, certificate files and the provider that makes certificates, the
    location checker, the facilities above the transport protocol and
    most of the tools.  Of the scheduler ManualRuntime::reset, of the location table its
    filters and visitors, and destructors are left out.  Of a station the periodic update of
    the position, which is a callback in the scheduler of the router, is left out, and the
    callbacks that the request of the link finds due run behind the request of the router.
    The router is proved against the interface of the security entity and the
    services against their own contract; an instance of the one by the other needs the
    layers of a packet inside a secured message, and of the decoder that it does not crash,
    which it does on a message with a contributed extension (SecurityTheorems).  The flow control is proved
    apart from the router that calls it.  What could follow: that instance; the
    generated constraint checks, with the theorem that a structure that passes them can be
    encoded; resuming a decoder outside the departures above; UPER on the bit streams of
    BitData. *)

From Stdlib Require Import ZArith Lia.
From stdpp Require Import prelude.

Open Scope Z_scope.

(** * Bytes and buffers *)

(** A C buffer [(ptr, size)] is the list of the bytes it gives access to. *)
Abbreviation bytes := (list Z).

Definition is_byte (b : Z) : Prop := 0 <= b < 256.

Abbreviation all_bytes l := (Forall is_byte l).

(** [size] of a buffer, as the [size_t] of the C interfaces. *)
Definition size {A} (l : list A) : Z := Z.of_nat (length l).

(** [memcpy(dst, ptr, n)] reads [ztake n ptr]; [ptr += n] is [zdrop n ptr];
    [buf[i]] is [znth buf i]. *)
Definition ztake {A} (n : Z) (l : list A) : list A := take (Z.to_nat n) l.
Definition zdrop {A} (n : Z) (l : list A) : list A := drop (Z.to_nat n) l.
Definition znth (l : bytes) (i : Z) : Z := nth (Z.to_nat i) l 0.

(** * Machine integers *)

(** Conversion to the [w]-bit unsigned and to the 64-bit signed type. *)
Definition wrap (w z : Z) : Z := z mod 2 ^ w.
Abbreviation u8 := (wrap 8).
Abbreviation u32 := (wrap 32).
Abbreviation u64 := (wrap 64).
Definition s64 (z : Z) : Z := (z + 2 ^ 63) mod 2 ^ 64 - 2 ^ 63.

(** [SIZE_MAX >> 1] of asn_system.h. *)
Definition RSIZE_MAX : Z := 2 ^ 63 - 1.

(** C's truth of an integer. *)
Definition ctrue (z : Z) : bool := negb (z =? 0).

(** * Automation *)

Create HintDb asn discriminated.

Ltac zify_size := unfold size, ztake, zdrop in *.

(** Splits every boolean comparison in sight into the proposition it decides. *)
Ltac bool_cases :=
  repeat match goal with
  | |- context [ (?a =? ?b) ] => destruct (Z.eqb_spec a b)
  | |- context [ (?a <=? ?b) ] => destruct (Z.leb_spec a b)
  | |- context [ (?a <? ?b) ] => destruct (Z.ltb_spec a b)
  | |- context [ (?a >=? ?b) ] => rewrite (Z.geb_leb a b)
  | |- context [ (?a >? ?b) ] => rewrite (Z.gtb_ltb a b)
  end.

(** * Sizes, prefixes and suffixes *)

Lemma size_nonneg {A} (l : list A) : 0 <= size l.
Proof. unfold size; lia. Qed.

Lemma size_app {A} (l k : list A) : size (l ++ k) = size l + size k.
Proof. unfold size; rewrite length_app; lia. Qed.

Lemma size_cons {A} (x : A) (l : list A) : size (x :: l) = 1 + size l.
Proof. unfold size; simpl length; lia. Qed.

Lemma size_nil {A} : size (@nil A) = 0.
Proof. reflexivity. Qed.

Lemma size_replicate {A} n (x : A) : size (replicate n x) = Z.of_nat n.
Proof. unfold size; by rewrite length_replicate. Qed.

Lemma size_zdrop {A} n (l : list A) :
  0 <= n <= size l -> size (zdrop n l) = size l - n.
Proof. unfold size, zdrop; rewrite length_drop; lia. Qed.

Lemma size_ztake {A} n (l : list A) :
  0 <= n <= size l -> size (ztake n l) = n.
Proof. unfold size, ztake; rewrite length_take; lia. Qed.

Lemma ztake_app {A} n (l k : list A) : size l = n -> ztake n (l ++ k) = l.
Proof. intros <-. unfold ztake, size. rewrite Nat2Z.id. apply take_app_length. Qed.

Lemma zdrop_app {A} n (l k : list A) : size l = n -> zdrop n (l ++ k) = k.
Proof. intros <-. unfold zdrop, size. rewrite Nat2Z.id. apply drop_app_length. Qed.

Lemma ztake_all {A} n (l : list A) : size l <= n -> ztake n l = l.
Proof. intros. unfold ztake, size in *. apply take_ge. lia. Qed.

Lemma ztake_zdrop {A} n (l : list A) : ztake n l ++ zdrop n l = l.
Proof. apply take_drop. Qed.

Lemma zdrop_0 {A} (l : list A) : zdrop 0 l = l.
Proof. done. Qed.

Lemma zdrop_zdrop {A} a b (l : list A) :
  0 <= a -> 0 <= b -> zdrop b (zdrop a l) = zdrop (a + b) l.
Proof. intros. unfold zdrop. rewrite drop_drop. f_equal. lia. Qed.

Lemma zdrop_1_cons {A} (x : A) l : zdrop 1 (x :: l) = l.
Proof. done. Qed.

Lemma all_bytes_ztake n l : all_bytes l -> all_bytes (ztake n l).
Proof. apply Forall_take. Qed.

Lemma all_bytes_zdrop n l : all_bytes l -> all_bytes (zdrop n l).
Proof. apply Forall_drop. Qed.

Lemma is_byte_u8 z : is_byte (u8 z).
Proof. unfold is_byte, wrap. apply Z.mod_pos_bound. lia. Qed.

#[export] Hint Resolve is_byte_u8 all_bytes_ztake all_bytes_zdrop size_nonneg : asn.
Create Rewrite HintDb size.
#[export] Hint Rewrite @size_app @size_cons @size_nil @size_replicate : size.

Lemma wrap_id w z : 0 <= w -> 0 <= z < 2 ^ w -> wrap w z = z.
Proof. intros. by apply Z.mod_small. Qed.

Lemma s64_id z : - 2 ^ 63 <= z < 2 ^ 63 -> s64 z = z.
Proof. intros. unfold s64. rewrite Z.mod_small; lia. Qed.

Lemma s64_range z : - 2 ^ 63 <= s64 z < 2 ^ 63.
Proof. unfold s64. pose proof (Z.mod_pos_bound (z + 2 ^ 63) (2 ^ 64)). lia. Qed.

Lemma lookup_map {A B} (f : A -> B) l i : map f l !! i = f <$> l !! i.
Proof. revert i. induction l as [|x l IH]; intros [|i]; simpl; auto. Qed.

Lemma lookup_map_Some {A B} (f : A -> B) l i y :
  map f l !! i = Some y <-> exists x, y = f x /\ l !! i = Some x.
Proof.
  rewrite lookup_map. destruct (l !! i) as [x|]; simpl; split.
  - intros [= <-]. eauto.
  - by intros (x' & -> & [= <-]).
  - done.
  - by intros (x & _ & ?).
Qed.

(** * Big-endian numbers *)

(** The accumulating loop [for(v = 0; b < bend; b++) v = (v << 8) + *b]. *)
Definition be_from (v : Z) (l : bytes) : Z :=
  fold_left (fun v b => Z.shiftl v 8 + b) l v.
Abbreviation be := (be_from 0).

(** The [n] low-order bytes of [z], most significant first. *)
Fixpoint be_bytes (n : nat) (z : Z) : bytes :=
  match n with
  | O => []
  | S n => u8 (Z.shiftr z (8 * Z.of_nat n)) :: be_bytes n z
  end.

Lemma be_from_app v l k : be_from v (l ++ k) = be_from (be_from v l) k.
Proof. apply fold_left_app. Qed.

Lemma be_from_cons v b l : be_from v (b :: l) = be_from (v * 256 + b) l.
Proof. unfold be_from; simpl. by rewrite Z.shiftl_mul_pow2 by lia. Qed.

Lemma be_from_shift v l : be_from v l = v * 256 ^ size l + be l.
Proof.
  revert v; induction l as [|b l IH]; intros v.
  { unfold be_from, size; simpl. lia. }
  rewrite !be_from_cons, IH, (IH (0 * 256 + b)), size_cons.
  rewrite Z.pow_add_r by (auto with asn; lia). ring.
Qed.

Lemma be_cons b l : be (b :: l) = b * 256 ^ size l + be l.
Proof. by rewrite be_from_cons, be_from_shift, Z.mul_0_l, Z.add_0_l. Qed.

Lemma be_app l k : be (l ++ k) = be l * 256 ^ size k + be k.
Proof. by rewrite be_from_app, be_from_shift. Qed.

Lemma be_bound l : all_bytes l -> 0 <= be l < 256 ^ size l.
Proof.
  induction 1 as [|b l Hb _ IH]; [done|].
  rewrite be_cons, size_cons, Z.pow_add_r by (auto with asn; lia).
  unfold is_byte in Hb. nia.
Qed.

Lemma length_be_bytes n z : length (be_bytes n z) = n.
Proof. induction n; simpl; auto. Qed.

Lemma size_be_bytes n z : size (be_bytes n z) = Z.of_nat n.
Proof. unfold size. by rewrite length_be_bytes. Qed.

Lemma all_bytes_be_bytes n z : all_bytes (be_bytes n z).
Proof. induction n; simpl; constructor; auto with asn. Qed.

Lemma be_be_bytes n z : be (be_bytes n z) = z mod 256 ^ Z.of_nat n.
Proof.
  induction n as [|n IH]; [by rewrite Z.mod_1_r|].
  simpl be_bytes. rewrite be_cons, IH, size_be_bytes.
  unfold wrap. rewrite Z.shiftr_div_pow2, Z.pow_mul_r by lia.
  replace (Z.of_nat (S n)) with (Z.of_nat n + 1) by lia.
  rewrite Z.pow_add_r by lia. change (2 ^ 8) with 256. change (256 ^ 1) with 256.
  rewrite (Z.rem_mul_r z (256 ^ Z.of_nat n) 256) by (try apply Z.pow_nonzero; lia). ring.
Qed.

Lemma be_bytes_be l : all_bytes l -> be_bytes (length l) (be l) = l.
Proof.
  induction 1 as [|b l Hb Hl IH]; [done|].
  pose proof (be_bound l Hl) as Hbd.
  assert (forall n z k, 0 <= k -> be_bytes n (k * 256 ^ Z.of_nat n + z) = be_bytes n z) as Hsh.
  { clear. induction n as [|n IH]; intros z k Hk; [done|]. simpl. f_equal.
    - unfold wrap. rewrite !Z.shiftr_div_pow2, !Z.pow_mul_r by lia.
      replace (Z.of_nat (S n)) with (1 + Z.of_nat n) by lia.
      rewrite Z.pow_add_r, Z.mul_assoc, Z.div_add_l by (try apply Z.pow_nonzero; lia).
      change (256 ^ 1) with 256. change (2 ^ 8) with 256.
      by rewrite Z.add_comm, Z.mod_add.
    - replace (Z.of_nat (S n)) with (1 + Z.of_nat n) by lia.
      rewrite Z.pow_add_r, Z.mul_assoc by lia. apply IH. nia. }
  unfold is_byte, size in *. rewrite be_cons. cbn [be_bytes length]. f_equal.
  - unfold wrap. rewrite Z.shiftr_div_pow2, Z.pow_mul_r by lia. change (2 ^ 8) with 256.
    fold (size l). rewrite Z.div_add_l, Z.div_small, Z.add_0_r, Z.mod_small; unfold size; lia.
  - unfold size. rewrite Hsh by lia. exact IH.
Qed.

Lemma be_inj l k :
  all_bytes l -> all_bytes k -> length l = length k -> be l = be k -> l = k.
Proof.
  intros Hl Hk Hlen Heq.
  rewrite <- (be_bytes_be l Hl), <- (be_bytes_be k Hk). congruence.
Qed.

(** * Bit strings *)

(** The [n] low-order bits of [z], most significant first. *)
Fixpoint Z_to_bits (n : nat) (z : Z) : list bool :=
  match n with
  | O => []
  | S n => Z.testbit z (Z.of_nat n) :: Z_to_bits n z
  end.

Definition bits_to_Z (l : list bool) : Z :=
  fold_left (fun v b => 2 * v + Z.b2z b) l 0.

(** The bits of a byte buffer in transmission order. *)
Definition bytes_bits (l : bytes) : list bool := concat (map (Z_to_bits 8) l).

Lemma length_Z_to_bits n z : length (Z_to_bits n z) = n.
Proof. induction n; simpl; auto. Qed.

Lemma Z_to_bits_ext n a b :
  (forall i, 0 <= i < Z.of_nat n -> Z.testbit a i = Z.testbit b i) ->
  Z_to_bits n a = Z_to_bits n b.
Proof.
  induction n as [|n IH]; intros H; [done|]. simpl. f_equal.
  - apply H. lia.
  - apply IH. intros. apply H. lia.
Qed.

Lemma Z_to_bits_app n m z :
  Z_to_bits (n + m) z = Z_to_bits n (Z.shiftr z (Z.of_nat m)) ++ Z_to_bits m z.
Proof.
  induction n as [|n IH]; [done|]. simpl. f_equal; [|done].
  rewrite Z.shiftr_spec by lia. f_equal. lia.
Qed.

Lemma take_Z_to_bits k n z :
  (k <= n)%nat -> take k (Z_to_bits n z) = Z_to_bits k (Z.shiftr z (Z.of_nat (n - k))).
Proof.
  intros. replace n with (k + (n - k))%nat at 1 by lia. rewrite Z_to_bits_app.
  rewrite take_app_le by (rewrite length_Z_to_bits; lia).
  apply take_ge. rewrite length_Z_to_bits. lia.
Qed.

Lemma drop_Z_to_bits k n z :
  (k <= n)%nat -> drop k (Z_to_bits n z) = Z_to_bits (n - k) z.
Proof.
  intros. replace n with (k + (n - k))%nat at 1 by lia. rewrite Z_to_bits_app.
  rewrite drop_app_ge by (rewrite length_Z_to_bits; lia).
  by rewrite length_Z_to_bits, Nat.sub_diag.
Qed.

Lemma bits_to_Z_snoc l b : bits_to_Z (l ++ [b]) = 2 * bits_to_Z l + Z.b2z b.
Proof. unfold bits_to_Z. by rewrite fold_left_app. Qed.

Lemma bits_to_Z_bits n z : bits_to_Z (Z_to_bits n z) = z mod 2 ^ Z.of_nat n.
Proof.
  revert z; induction n as [|n IH]; intros z; [by rewrite Z.mod_1_r|].
  replace (S n) with (n + 1)%nat by lia.
  rewrite Z_to_bits_app. simpl Z_to_bits. rewrite bits_to_Z_snoc, IH.
  replace (Z.of_nat (n + 1)) with (1 + Z.of_nat n) by lia.
  rewrite Z.pow_add_r by lia. change (2 ^ 1) with 2.
  rewrite (Z.rem_mul_r z 2) by lia. rewrite Z.shiftr_div_pow2 by lia.
  change (Z.of_nat 0) with 0. change (Z.of_nat 1) with 1.
  rewrite <- Z.bit0_odd, Z.bit0_mod. change (2 ^ 1) with 2. lia.
Qed.

Lemma bits_to_Z_bound l : 0 <= bits_to_Z l < 2 ^ Z.of_nat (length l).
Proof.
  induction l as [|b l IH] using rev_ind; [done|].
  rewrite bits_to_Z_snoc, length_app. simpl length.
  replace (Z.of_nat (length l + 1)) with (1 + Z.of_nat (length l)) by lia.
  rewrite Z.pow_add_r by lia. change (2 ^ 1) with 2. destruct b; simpl Z.b2z; lia.
Qed.

Lemma Z_to_bits_to_Z l : Z_to_bits (length l) (bits_to_Z l) = l.
Proof.
  induction l as [|b l IH] using rev_ind; [done|].
  rewrite length_app. simpl length. rewrite Z_to_bits_app, bits_to_Z_snoc.
  pose proof (bits_to_Z_bound l). f_equal.
  - rewrite Z.shiftr_div_pow2 by lia. change (2 ^ Z.of_nat 1) with 2.
    rewrite Z.mul_comm, Z.div_add_l by lia. rewrite (Z.div_small (Z.b2z b) 2) by (destruct b; simpl; lia).
    by rewrite Z.add_0_r.
  - cbn [Z_to_bits]. change (Z.of_nat 0) with 0. by rewrite Z.add_comm, Z.add_b2z_double_bit0.
Qed.

Lemma bytes_bits_cons b l : bytes_bits (b :: l) = Z_to_bits 8 b ++ bytes_bits l.
Proof. done. Qed.

Lemma length_bytes_bits l : length (bytes_bits l) = (8 * length l)%nat.
Proof.
  induction l as [|b l IH]; [done|].
  rewrite bytes_bits_cons, length_app, length_Z_to_bits, IH. simpl length. lia.
Qed.

Lemma bytes_bits_app l k : bytes_bits (l ++ k) = bytes_bits l ++ bytes_bits k.
Proof. unfold bytes_bits. by rewrite map_app, concat_app. Qed.

Lemma bytes_bits_be l : all_bytes l -> bytes_bits l = Z_to_bits (8 * length l) (be l).
Proof.
  induction 1 as [|b l Hb Hl IH]; [done|].
  rewrite bytes_bits_cons, IH, be_cons.
  replace (8 * length (b :: l))%nat with (8 + 8 * length l)%nat by (simpl; lia).
  pose proof (be_bound l Hl) as Hbd. unfold size in *.
  replace (256 ^ Z.of_nat (length l)) with (2 ^ Z.of_nat (8 * length l)) in *
    by (rewrite Nat2Z.inj_mul, Z.pow_mul_r by lia; done).
  rewrite Z_to_bits_app. f_equal.
  - f_equal. rewrite Z.shiftr_div_pow2, Z.div_add_l, Z.div_small by lia. lia.
  - apply Z_to_bits_ext. intros i Hi.
    rewrite <- (Z.mod_pow2_bits_low (b * _ + be l) (Z.of_nat (8 * length l))) by lia.
    rewrite Z.add_comm, Z.mod_add, Z.mod_small by lia. done.
Qed.

Lemma bytes_bits_inj l k :
  all_bytes l -> all_bytes k -> bytes_bits l = bytes_bits k -> l = k.
Proof.
  intros Hl; revert k. induction Hl as [|b l Hb Hl IH]; intros k Hk E.
  - destruct k; [done|]. apply (f_equal length) in E. by rewrite !length_bytes_bits in E.
  - destruct Hk as [|c k Hc Hk].
    { apply (f_equal length) in E. by rewrite !length_bytes_bits in E. }
    rewrite !bytes_bits_cons in E. apply app_inj_1 in E as [E1 E2];
      [|by rewrite !length_Z_to_bits].
    f_equal; [|by apply IH].
    apply (f_equal bits_to_Z) in E1. rewrite !bits_to_Z_bits in E1.
    unfold is_byte in *. rewrite !Z.mod_small in E1; simpl; lia.
Qed.

(** * Bitwise reasoning *)

Lemma mask_ones n : Z.shiftl 1 n - 1 = Z.ones n.
Proof. unfold Z.ones. lia. Qed.

Lemma testbit_wrap w z i : 0 <= w -> Z.testbit (wrap w z) i = (i <? w) && Z.testbit z i.
Proof.
  intros. unfold wrap. destruct (Z.ltb_spec i w).
  - by rewrite Z.mod_pow2_bits_low.
  - by rewrite Z.mod_pow2_bits_high.
Qed.

Lemma testbit_ones n i : 0 <= n -> 0 <= i -> Z.testbit (Z.ones n) i = (i <? n).
Proof.
  intros. destruct (Z.ltb_spec i n).
  - by apply Z.ones_spec_low.
  - by apply Z.ones_spec_high.
Qed.

Lemma testbit_byte_high b i : is_byte b -> 8 <= i -> Z.testbit b i = false.
Proof.
  intros [??] ?. destruct (Z.eq_dec b 0) as [->|]; [apply Z.bits_0|].
  apply Z.bits_above_log2; [lia|].
  apply Z.lt_le_trans with 8; [|lia]. apply Z.log2_lt_pow2; lia.
Qed.

Lemma testbit_high z n i : 0 <= z < 2 ^ n -> n <= i -> Z.testbit z i = false.
Proof.
  intros [??] ?. destruct (Z.eq_dec z 0) as [->|]; [apply Z.bits_0|].
  apply Z.bits_above_log2; [lia|].
  apply Z.lt_le_trans with n; [|lia]. apply Z.log2_lt_pow2; lia.
Qed.

(** Pushes [Z.testbit] to the leaves. *)
Ltac push_testbit :=
  repeat first
    [ rewrite Z.lor_spec | rewrite Z.land_spec
    | rewrite testbit_wrap by lia
    | rewrite Z.shiftl_spec by lia | rewrite Z.shiftr_spec by lia
    | rewrite Z.lnot_spec by lia | rewrite testbit_ones by lia
    | rewrite Z.bits_0 ].

(** Decides the remaining comparisons and negative positions. *)
Ltac bit_cases :=
  repeat match goal with
  | |- context [ (?a <? ?b) ] => destruct (Z.ltb_spec a b)
  | |- context [ Z.testbit _ ?i ] => rewrite (Z.testbit_neg_r _ i) by lia
  end;
  cbn [negb andb orb];
  repeat first [ rewrite andb_false_r | rewrite andb_true_r | rewrite orb_true_r
               | rewrite orb_false_r | rewrite orb_false_l ];
  try done; try lia.

Lemma bytes_bits_be_bytes k z : bytes_bits (be_bytes k z) = Z_to_bits (8 * k) z.
Proof.
  induction k as [|k IH]; [done|].
  cbn [be_bytes]. rewrite bytes_bits_cons, IH.
  replace (8 * S k)%nat with (8 + 8 * k)%nat by lia. rewrite Z_to_bits_app. f_equal.
  apply Z_to_bits_ext. intros i Hi. push_testbit. bit_cases. f_equal. lia.
Qed.

Lemma bits_to_Z_app l k :
  bits_to_Z (l ++ k) = bits_to_Z l * 2 ^ Z.of_nat (length k) + bits_to_Z k.
Proof.
  induction k as [|b k IH] using rev_ind.
  - rewrite app_nil_r. change (bits_to_Z []) with 0. simpl. lia.
  - rewrite app_assoc, !bits_to_Z_snoc, IH, length_app. simpl length.
    replace (Z.of_nat (length k + 1)) with (1 + Z.of_nat (length k)) by lia.
    rewrite Z.pow_add_r by lia. change (2 ^ 1) with 2. ring.
Qed.

Lemma lor_shiftl_add a b n : 0 <= n -> 0 <= b < 2 ^ n -> Z.lor (Z.shiftl a n) b = a * 2 ^ n + b.
Proof.
  intros Hn Hb. rewrite <- Z.shiftl_mul_pow2 by lia.
  assert (Z.land (Z.shiftl a n) b = 0) as Hd.
  { apply Z.bits_inj'. intros i Hi. rewrite Z.land_spec, Z.bits_0, Z.shiftl_spec by lia.
    destruct (Z.ltb_spec i n).
    - by rewrite Z.testbit_neg_r by lia.
    - rewrite (testbit_high b n) by lia. apply andb_false_r. }
  rewrite <- Z.lxor_lor by done. symmetry. by apply Z.add_nocarry_lxor.
Qed.

Lemma land_lnot7 z : Z.land z (Z.lnot 7) = 8 * (z / 8).
Proof.
  change 7 with (Z.ones 3).
  rewrite <- Z.ldiff_land, Z.ldiff_ones_r, Z.shiftl_mul_pow2, Z.shiftr_div_pow2 by lia.
  change (2 ^ 3) with 8. lia.
Qed.

Lemma land_7 z : Z.land z 7 = z mod 8.
Proof. change 7 with (Z.ones 3). by rewrite Z.land_ones by lia. Qed.

Lemma shiftr_3 z : Z.shiftr z 3 = z / 8.
Proof. by rewrite Z.shiftr_div_pow2 by lia. Qed.

(** The byte combinations written out in the C code. *)
Lemma be_take_1 a l : be (take 1 (a :: l)) = a.
Proof. unfold be_from; simpl. rewrite Z.shiftl_0_l. lia. Qed.

Lemma be_take_2 a b l : be (take 2 (a :: b :: l)) = Z.shiftl a 8 + b.
Proof. unfold be_from; simpl. rewrite Z.shiftl_0_l. done. Qed.

Lemma be_take_3 a b c l :
  be (take 3 (a :: b :: c :: l)) = Z.shiftl a 16 + Z.shiftl b 8 + c.
Proof. unfold be_from; simpl. rewrite ?Z.shiftl_mul_pow2 by lia. lia. Qed.

Lemma be_take_4 a b c d l :
  be (take 4 (a :: b :: c :: d :: l)) =
  Z.shiftl a 24 + Z.shiftl b 16 + Z.shiftl c 8 + d.
Proof. unfold be_from; simpl. rewrite ?Z.shiftl_mul_pow2 by lia. lia. Qed.

Lemma Z_to_bits_0 n : Z_to_bits n 0 = replicate n false.
Proof. induction n as [|n IH]; simpl; [done|]. by rewrite Z.bits_0, IH. Qed.

Lemma Z_to_bits_shiftl n k v :
  Z_to_bits (n + k) (Z.shiftl v (Z.of_nat k)) = Z_to_bits n v ++ replicate k false.
Proof.
  rewrite Z_to_bits_app, <- (Z_to_bits_0 k). f_equal.
  - by rewrite Z.shiftr_shiftl_l, Z.sub_diag, Z.shiftl_0_r by lia.
  - apply Z_to_bits_ext. intros i Hi. push_testbit. by rewrite Z.testbit_neg_r by lia.
Qed.

Lemma Z_to_bits_take_stream n (l : list bool) :
  (n <= length l)%nat -> Z_to_bits n (bits_to_Z (take n l)) = take n l.
Proof.
  intros. rewrite <- (Z_to_bits_to_Z (take n l)) at 2. f_equal. rewrite length_take. lia.
Qed.

(** [byte & 0x80] and [byte & 0x7f]. *)
Lemma land_0x7f b : is_byte b -> Z.land b 0x7f = b mod 128.
Proof. intros _. change 0x7f with (Z.ones 7). by rewrite Z.land_ones by lia. Qed.

Lemma land_128 b : is_byte b -> (Z.land b 0x80 =? 0) = (b <? 128).
Proof.
  intros Hb. change 0x80 with (2 ^ 7).
  assert (Z.land b (2 ^ 7) = if Z.testbit b 7 then 2 ^ 7 else 0) as ->.
  { apply Z.bits_inj'. intros i Hi. rewrite Z.land_spec, Z.pow2_bits_eqb by lia.
    destruct (Z.eqb_spec 7 i) as [<-|Hne].
    - rewrite andb_true_r. by destruct (Z.testbit b 7).
    - rewrite andb_false_r. destruct (Z.testbit b 7); [|by rewrite Z.bits_0].
      rewrite Z.pow2_bits_eqb by lia. destruct (Z.eqb_spec 7 i); [lia|done]. }
  rewrite Z.testbit_odd, Z.shiftr_div_pow2 by lia. change (2 ^ 7) with 128.
  unfold is_byte in Hb. destruct (Z.ltb_spec b 128).
  - by rewrite Z.div_small by lia.
  - replace (b / 128) with 1; [done|]. apply (Z.div_unique b 128 1 (b - 128)); lia.
Qed.
