(* ===== verification/Codecs.v ===== *)
(** Result values and output callbacks shared by all codecs.

    Models support/asn_codecs.h (asn_dec_rval_t, asn_enc_rval_t and the
    ASN__DECODE_* / ASN__ENCODE_* macros), the stack check of
    support/asn_internal.h, and the callback interface
    [asn_app_consume_bytes_f] through which every encoder writes. *)

From stdpp Require Import prelude strings.
From S2P Require Import Prelude.

(** * Decoding results *)

(** [RC_UNDEFINED] is not a value of the C enumeration: it marks a run that has no
    defined result: a call through a NULL function pointer, a NULL presence bitmap,
    a member outside its table. *)
Inductive asn_dec_rval_code := RC_OK | RC_WMORE | RC_FAIL | RC_UNDEFINED.

#[export] Instance asn_dec_rval_code_eq_dec : EqDecision asn_dec_rval_code.
Proof. solve_decision. Defined.

Record asn_dec_rval := { code : asn_dec_rval_code; consumed : Z }.

Definition ASN__DECODE_FAILED : asn_dec_rval := {| code := RC_FAIL; consumed := 0 |}.
Definition ASN__DECODE_STARVED : asn_dec_rval := {| code := RC_WMORE; consumed := 0 |}.
Definition UNDEFINED : asn_dec_rval := {| code := RC_UNDEFINED; consumed := 0 |}.
Definition RETURN (c : asn_dec_rval_code) (consumed_myself : Z) : asn_dec_rval :=
  {| code := c; consumed := consumed_myself |}.

(** * Encoding results *)

(** [failed_type] carries the name of the type descriptor that failed. *)
Record asn_enc_rval := { encoded : Z; failed_type : option string }.

Definition ASN__ENCODE_FAILED (td_name : string) : asn_enc_rval :=
  {| encoded := -1; failed_type := Some td_name |}.
Definition ASN__ENCODED_OK (n : Z) : asn_enc_rval :=
  {| encoded := n; failed_type := None |}.

(** * The codec context and its stack limit *)

(** The stack check of asn_internal.h measures the distance between the context
    and the current frame. [stack_used d] is that distance at nesting depth
    [d]; it depends on the compiler and the platform, so it stays a parameter. *)
Record asn_codec_ctx := {
  max_stack_size : Z;
  stack_used : nat -> Z;
  depth : nat;
}.

Definition ASN__DEFAULT_STACK_MAX : Z := 30000.

(** Non-zero result of the C function. *)
Definition ASN__STACK_OVERFLOW_CHECK (ctx : asn_codec_ctx) : bool :=
  ctrue ctx.(max_stack_size) && (ctx.(max_stack_size) <? ctx.(stack_used) ctx.(depth)).

(** The context as seen by a nested decoder call. *)
Definition nested (ctx : asn_codec_ctx) : asn_codec_ctx :=
  {| max_stack_size := ctx.(max_stack_size); stack_used := ctx.(stack_used);
     depth := S ctx.(depth) |}.

(** No frame exceeds the stack limit. *)
Definition stack_ok (ctx : asn_codec_ctx) : Prop :=
  forall d, ctx.(max_stack_size) = 0 \/ ctx.(stack_used) d <= ctx.(max_stack_size).

Lemma stack_ok_check ctx : stack_ok ctx -> ASN__STACK_OVERFLOW_CHECK ctx = false.
Proof.
  intros H. unfold ASN__STACK_OVERFLOW_CHECK, ctrue.
  destruct (H ctx.(depth)) as [->|]; [done|].
  destruct (Z.ltb_spec (max_stack_size ctx) (stack_used ctx (depth ctx))); [lia|].
  by rewrite andb_false_r.
Qed.

Lemma stack_ok_nested ctx : stack_ok ctx -> stack_ok (nested ctx).
Proof. done. Qed.

#[export] Hint Resolve stack_ok_nested : asn.

(** * Output programs *)

(** An encoder is a program whose only effect is to hand chunks of bytes to the
    application callback and to look at what the callback returned.  [NoFuel]
    marks a run without a result: a loop that was cut off before it terminated,
    or an encoder that dereferences a NULL structure pointer. *)
Inductive enc (A : Type) : Type :=
  | Ret (a : A)
  | Out (chunk : bytes) (k : Z -> enc A)
  | NoFuel.
Arguments Ret {A} a.
Arguments Out {A} chunk k.
Arguments NoFuel {A}.

#[export] Instance enc_ret : MRet enc := @Ret.
#[export] Instance enc_bind : MBind enc := fun A B (f : A -> enc B) =>
  fix bind (m : enc A) : enc B :=
    match m with
    | Ret a => f a
    | Out c k => Out c (fun r => bind (k r))
    | NoFuel => NoFuel
    end.

(** [cb(chunk, size, app_key)] *)
Definition cb (chunk : bytes) : enc Z := Out chunk Ret.

(** Runs a program against a callback with its [app_key] state. *)
Fixpoint run {A S} (f : bytes -> S -> Z * S) (m : enc A) (s : S) : option (A * S) :=
  match m with
  | Ret a => Some (a, s)
  | Out c k => let (r, s') := f c s in run f (k r) s'
  | NoFuel => None
  end.

(** [emits m a bs]: with a callback that accepts everything (and returns 0),
    [m] terminates with [a] after writing exactly [bs]. *)
Inductive emits {A} : enc A -> A -> bytes -> Prop :=
  | emits_ret a : emits (Ret a) a []
  | emits_out c k a bs : emits (k 0) a bs -> emits (Out c k) a (c ++ bs).

Lemma run_bind {A B S} (f : bytes -> S -> Z * S) (m : enc A) (g : A -> enc B) s :
  run f (m ≫= g) s = match run f m s with
                     | Some (a, s') => run f (g a) s'
                     | None => None
                     end.
Proof.
  revert s. induction m as [a|c k IH|]; intros s; [done| |done].
  simpl. destruct (f c s) as [r s']. apply IH.
Qed.

Lemma emits_bind {A B} (m : enc A) (g : A -> enc B) a b bs cs :
  emits m a bs -> emits (g a) b cs -> emits (m ≫= g) b (bs ++ cs).
Proof.
  induction 1 as [|c k a bs _ IH]; intros Hg; [done|].
  rewrite <- app_assoc. by constructor; apply IH.
Qed.

Lemma emits_cb_bind {B} c (g : Z -> enc B) b cs :
  emits (g 0) b cs -> emits (cb c ≫= g) b (c ++ cs).
Proof. intros. by constructor. Qed.

Lemma emits_bind_last {A B} (m : enc A) (g : A -> enc B) a b bs :
  emits m a bs -> g a = Ret b -> emits (m ≫= g) b bs.
Proof.
  intros Hm E. rewrite <- (app_nil_r bs). eapply emits_bind; [done|]. rewrite E. constructor.
Qed.

Lemma emits_cb_last {B} c (g : Z -> enc B) b : g 0 = Ret b -> emits (cb c ≫= g) b c.
Proof. intros E. rewrite <- (app_nil_r c) at 2. apply emits_cb_bind. rewrite E. constructor. Qed.

Lemma emits_det {A} (m : enc A) a a' bs bs' :
  emits m a bs -> emits m a' bs' -> a = a' /\ bs = bs'.
Proof.
  intros H; revert a' bs'. induction H as [|c k a bs _ IH]; intros a' bs' H'.
  - by inv H'.
  - inv H'. edestruct IH as [-> ->]; done.
Qed.

Lemma emits_bind_inv {A B} (m : enc A) (g : A -> enc B) b bs :
  emits (m ≫= g) b bs ->
  exists a bs1 bs2, bs = bs1 ++ bs2 /\ emits m a bs1 /\ emits (g a) b bs2.
Proof.
  revert b bs. induction m as [a|c k IH|]; intros b bs H.
  - exists a, [], bs. repeat split; [constructor|done].
  - simpl in H. inv H.
    match goal with H : emits _ _ _ |- _ => apply IH in H as (a & bs1 & bs2 & -> & H1 & H2) end.
    exists a, (c ++ bs1), bs2. rewrite <- app_assoc. repeat split; [by constructor|done].
  - inv H.
Qed.

(** The callback that appends to a list: [emits] is its behaviour. *)
Definition collect_cb (chunk : bytes) (s : bytes) : Z * bytes := (0, s ++ chunk).

Lemma emits_collect {A} (m : enc A) a bs :
  emits m a bs <-> run collect_cb m [] = Some (a, bs).
Proof.
  enough (forall s, (emits m a bs <-> run collect_cb m s = Some (a, s ++ bs))) as H by apply (H []).
  revert bs. induction m as [a'|c k IH|]; intros bs s; simpl.
  - split; intros H.
    + inv H. by rewrite app_nil_r.
    + inv H. replace bs with (@nil Z); [constructor|].
      apply (app_inv_head s). by rewrite app_nil_r.
  - split; intros H.
    + inv H. rewrite (app_assoc s). by apply IH.
    + assert (exists bs', bs = c ++ bs') as [bs' ->].
      { clear IH. assert (forall (m : enc A) s' t, run collect_cb m s' = Some (a, t) ->
          exists u, t = s' ++ u) as Hp.
        { clear. intros m. induction m as [a'|c k IH|]; intros s' t H; simpl in H.
          - inv H. exists []. by rewrite app_nil_r.
          - apply IH in H as [u ->]. exists (c ++ u). by rewrite app_assoc.
          - done. }
        apply Hp in H as [u Hu]. rewrite <- app_assoc in Hu. apply app_inv_head in Hu. eauto. }
      constructor. apply (IH 0 bs' (s ++ c)). by rewrite <- app_assoc.
  - split; intros H; inv H.
Qed.
