(* ===== verification/BitData.v ===== *)
(** Bit streams: support/asn_bit_data.c and asn_bit_data.h.

    [asn_bit_data] is the reading side (a position inside a byte buffer),
    [asn_bit_outp] the writing side (a 32-byte scratch area flushed through
    the output callback).  The theorems relate both to plain lists of bits in
    transmission order: reading returns and removes the next bits, writing
    appends bits, and reading back what was written returns the same values. *)

From stdpp Require Import prelude.
From S2P Require Import Prelude Codecs.

(** * Reading *)

Module BitIn.

(** [asn_bit_data_t]; the buffer pointer is the list of bytes from it on, or
    [None] for NULL. The [refill] callback is an argument of the reader. *)
Record asn_bit_data := {
  buffer : option bytes;
  nboff : Z;
  nbits : Z;
  moved : Z;
}.

#[export] Instance asn_bit_data_eq_dec : EqDecision asn_bit_data.
Proof. solve_decision. Defined.

Definition buf (pd : asn_bit_data) : bytes := default [] pd.(buffer).

Definition asn_bit_data_new_contiguous (data : bytes) (size_bits : Z) : asn_bit_data :=
  let size_bytes := (size_bits + 7) / 8 in
  {| buffer := Some (ztake size_bytes data ++ [0]);
     nboff := 0; nbits := size_bits; moved := 0 |}.

Definition asn_get_undo (pd : asn_bit_data) (n : Z) : asn_bit_data :=
  if pd.(nboff) <? n then pd
  else {| buffer := pd.(buffer); nboff := pd.(nboff) - n; nbits := pd.(nbits);
          moved := pd.(moved) - n |}.

(** Normalization of the position indicator. *)
Definition normalize (pd : asn_bit_data) : asn_bit_data :=
  if 8 <=? pd.(nboff) then
    {| buffer := zdrop (Z.shiftr pd.(nboff) 3) <$> pd.(buffer);
       nboff := Z.land pd.(nboff) 7;
       nbits := pd.(nbits) - Z.land pd.(nboff) (Z.lnot 7);
       moved := pd.(moved) |}
  else pd.

(** [asn_get_few_bits]; [fuel] bounds the recursive calls.  The function calls
    itself around [refill] and to split a read that spans five bytes. *)
Fixpoint asn_get_few_bits_n (fuel : nat)
    (refill : option (asn_bit_data -> Z * asn_bit_data))
    (pd : asn_bit_data) (n : Z) : Z * asn_bit_data :=
  match fuel with
  | O => (-1, pd)
  | S fuel =>
    if n <? 0 then (-1, pd) else
    let nleft := pd.(nbits) - pd.(nboff) in
    if nleft <? n then
      match refill with
      | None => (-1, pd)
      | Some refill_f =>
        if 31 <? n then (-1, pd) else
        let (tailv, pd) := asn_get_few_bits_n fuel refill pd nleft in
        if tailv <? 0 then (-1, pd) else
        let (r, pd) := refill_f pd in
        if ctrue r then (-1, pd) else
        let n := n - nleft in
        let (vhead, pd) := asn_get_few_bits_n fuel refill pd n in
        (Z.lor (Z.shiftl tailv n) vhead, pd)
      end
    else
      let pd := normalize pd in
      let pd := {| buffer := pd.(buffer); nboff := pd.(nboff) + n; nbits := pd.(nbits);
                   moved := pd.(moved) + n |} in
      let off := pd.(nboff) in
      let b := znth (buf pd) in
      let mask accum := Z.land accum (Z.shiftl 1 n - 1) in
      if off <=? 8 then
        (mask (if ctrue n then Z.shiftr (b 0) (8 - off) else 0), pd)
      else if off <=? 16 then
        (mask (Z.shiftr (Z.shiftl (b 0) 8 + b 1) (16 - off)), pd)
      else if off <=? 24 then
        (mask (Z.shiftr (Z.shiftl (b 0) 16 + Z.shiftl (b 1) 8 + b 2) (24 - off)), pd)
      else if off <=? 31 then
        (mask (Z.shiftr (Z.shiftl (b 0) 24 + Z.shiftl (b 1) 16 + Z.shiftl (b 2) 8 + b 3)
                 (32 - off)), pd)
      else if n <=? 31 then
        let tpd := asn_get_undo pd n in
        let (hi, tpd) := asn_get_few_bits_n fuel refill tpd (n - 24) in
        let (lo, _) := asn_get_few_bits_n fuel refill tpd 24 in
        (mask (Z.lor (Z.shiftl hi 24) lo), pd)
      else (-1, asn_get_undo pd n)
  end.

(** Reading from a stream without [refill]: one nested call is enough. *)
Definition asn_get_few_bits (pd : asn_bit_data) (n : Z) : Z * asn_bit_data :=
  asn_get_few_bits_n 2 None pd n.

(** [asn_get_many_bits]; returns the result code, the bytes stored through
    [dst], and the new position. The loop runs at most [n/24 + 1] times. *)
Fixpoint asn_get_many_bits_loop (fuel : nat) (pd : asn_bit_data) (n : Z)
    : Z * bytes * asn_bit_data :=
  match fuel with
  | O => (-1, [], pd)
  | S fuel =>
    if n =? 0 then (0, [], pd)
    else if 24 <=? n then
      let (value, pd) := asn_get_few_bits pd 24 in
      if value <? 0 then (-1, [], pd) else
      let '(r, rest, pd) := asn_get_many_bits_loop fuel pd (n - 24) in
      (r, u8 (Z.shiftr value 16) :: u8 (Z.shiftr value 8) :: u8 value :: rest, pd)
    else
      let (value, pd) := asn_get_few_bits pd n in
      if value <? 0 then (-1, [], pd) else
      let '(value, n) :=
        if ctrue (Z.land n 7)
        then (Z.shiftl value (8 - Z.land n 7), n + (8 - Z.land n 7))
        else (value, n) in
      (0, (if 24 <? n then [u8 (Z.shiftr value 24)] else []) ++
          (if 16 <? n then [u8 (Z.shiftr value 16)] else []) ++
          (if 8 <? n then [u8 (Z.shiftr value 8)] else []) ++ [u8 value], pd)
  end.

Definition asn_get_many_bits (pd : asn_bit_data) (alright : bool) (n : Z)
    : Z * bytes * asn_bit_data :=
  let loop pd n := asn_get_many_bits_loop (S (Z.to_nat (n / 24))) pd n in
  if alright && ctrue (Z.land n 7) then
    let (value, pd) := asn_get_few_bits pd (Z.land n 7) in
    if value <? 0 then (-1, [], pd) else
    let '(r, rest, pd) := loop pd (Z.land n (Z.lnot 7)) in
    (r, u8 value :: rest, pd)
  else loop pd n.

(** ** Correctness of reading *)

(** The bits still to be read. *)
Definition stream (pd : asn_bit_data) : list bool :=
  take (Z.to_nat (pd.(nbits) - pd.(nboff))) (drop (Z.to_nat pd.(nboff)) (bytes_bits (buf pd))).

Definition wf (pd : asn_bit_data) : Prop :=
  0 <= pd.(nboff) <= pd.(nbits) /\ pd.(nbits) <= 8 * size (buf pd) /\ all_bytes (buf pd).

Definition left_bits (pd : asn_bit_data) : Z := pd.(nbits) - pd.(nboff).

Lemma length_stream pd : wf pd -> Z.of_nat (length (stream pd)) = left_bits pd.
Proof.
  intros ((? & ?) & ? & ?). unfold stream, left_bits, size in *.
  rewrite length_take, length_drop, length_bytes_bits. lia.
Qed.

Lemma drop_bytes_bits n l : drop (8 * n) (bytes_bits l) = bytes_bits (drop n l).
Proof.
  revert n; induction l as [|b l IH]; intros n.
  { change (bytes_bits []) with (@nil bool). by rewrite !drop_nil. }
  destruct n as [|n]; [done|].
  rewrite bytes_bits_cons. replace (8 * S n)%nat with (8 + 8 * n)%nat by lia.
  rewrite <- drop_drop, drop_app_length' by (by rewrite length_Z_to_bits). apply IH.
Qed.

Lemma normalize_ok pd : wf pd ->
  wf (normalize pd) /\ 0 <= (normalize pd).(nboff) < 8 /\
  left_bits (normalize pd) = left_bits pd /\ stream (normalize pd) = stream pd /\
  (normalize pd).(moved) = pd.(moved).
Proof.
  intros Hwf. unfold normalize. destruct (Z.leb_spec 8 pd.(nboff)).
  2: { destruct Hwf as ((? & ?) & ? & ?). repeat split; auto; lia. }
  destruct Hwf as ((? & ?) & Hsz & Hb).
  assert (exists l, buffer pd = Some l) as [l Hl].
  { destruct (buffer pd) eqn:E; eauto. unfold buf in Hsz. rewrite E in Hsz.
    change (size (default [] None)) with 0 in Hsz. lia. }
  unfold wf, left_bits, stream, buf in *. rewrite Hl in *. simpl in *.
  rewrite land_7, land_lnot7, shiftr_3 in *.
  pose proof (Z.div_mod (nboff pd) 8 ltac:(lia)). pose proof (Z.mod_pos_bound (nboff pd) 8 ltac:(lia)).
  rewrite size_zdrop by lia.
  repeat split; auto with asn; try lia.
  f_equal; [f_equal; lia|].
  replace (Z.to_nat (nboff pd)) with (8 * Z.to_nat (nboff pd / 8) + Z.to_nat (nboff pd mod 8))%nat by lia.
  by rewrite <- drop_drop, drop_bytes_bits.
Qed.

(** Reading [n] bits at offset [o] of a buffer, from its first [k] bytes. *)
Lemma read_bits l k o n :
  all_bytes l -> (k <= length l)%nat -> (o + n <= 8 * k)%nat ->
  bits_to_Z (take n (drop o (bytes_bits l))) =
  Z.land (Z.shiftr (be (take k l)) (Z.of_nat (8 * k - o - n))) (Z.ones (Z.of_nat n)).
Proof.
  intros Hl Hk Hon. rewrite <- (take_drop k l) at 1.
  assert (length (take k l) = k) as Hlen by (rewrite length_take; lia).
  rewrite bytes_bits_app, bytes_bits_be by auto using Forall_take. rewrite Hlen.
  rewrite drop_app_le by (rewrite length_Z_to_bits; lia).
  rewrite drop_Z_to_bits by lia.
  rewrite take_app_le by (rewrite length_Z_to_bits; lia).
  rewrite take_Z_to_bits, bits_to_Z_bits, Z.land_ones by lia. do 2 f_equal.
Qed.

(** The position after reading [n] bits. *)
Definition advance (pd : asn_bit_data) (n : Z) : asn_bit_data :=
  let pd := normalize pd in
  {| buffer := pd.(buffer); nboff := pd.(nboff) + n; nbits := pd.(nbits);
     moved := pd.(moved) + n |}.

Lemma advance_ok pd n : wf pd -> 0 <= n <= left_bits pd ->
  wf (advance pd n) /\ stream (advance pd n) = drop (Z.to_nat n) (stream pd) /\
  left_bits (advance pd n) = left_bits pd - n /\ (advance pd n).(moved) = pd.(moved) + n.
Proof.
  intros Hwf Hn. destruct (normalize_ok pd Hwf) as (Hwf' & Hoff & Hleft & Hstr & Hmv).
  unfold advance. destruct Hwf' as ((? & ?) & ? & ?).
  unfold left_bits in *. simpl. repeat split; simpl; auto; try lia.
  rewrite <- Hstr. unfold stream, buf. simpl.
  rewrite skipn_firstn_comm, drop_drop. f_equal; [lia|]. f_equal. lia.
Qed.

Lemma take_stream pd n : 0 <= n <= left_bits pd ->
  take (Z.to_nat n) (stream pd) =
  take (Z.to_nat n) (drop (Z.to_nat pd.(nboff)) (bytes_bits (buf pd))).
Proof. intros. unfold stream, left_bits in *. rewrite take_take. f_equal. lia. Qed.

(** A read that stays within four bytes. *)
Lemma get_small f refill pd n : wf pd -> 0 <= n <= left_bits pd ->
  pd.(nboff) mod 8 + n <= 31 ->
  asn_get_few_bits_n (S f) refill pd n =
  (bits_to_Z (take (Z.to_nat n) (stream pd)), advance pd n).
Proof.
  intros Hwf Hn Hsmall. cbn [asn_get_few_bits_n].
  destruct (normalize_ok pd Hwf) as (Hwf' & Hoff & Hleft & Hstr & Hmv).
  destruct (Z.ltb_spec n 0); [lia|]. destruct (Z.ltb_spec (nbits pd - nboff pd) n);
    [unfold left_bits in *; lia|].
  fold (advance pd n). rewrite <- Hstr, take_stream by lia.
  assert (nboff (normalize pd) + n <= 31) as Hmod.
  { unfold normalize in *. destruct (Z.leb_spec 8 (nboff pd)); simpl in *.
    - by rewrite land_7. - rewrite Z.mod_small in Hsmall; lia. }
  change (nboff (advance pd n)) with (nboff (normalize pd) + n).
  change (buf (advance pd n)) with (buf (normalize pd)).
  set (o := nboff (normalize pd)) in *. set (l := buf (normalize pd)) in *.
  destruct Hwf' as ((_ & Hle) & Hsz & Hb). fold o l in Hle, Hsz, Hb.
  unfold left_bits in *. fold o in Hleft. rewrite mask_ones.
  assert (forall k, (k <= length l)%nat -> o + n <= 8 * Z.of_nat k ->
    bits_to_Z (take (Z.to_nat n) (drop (Z.to_nat o) (bytes_bits l))) =
    Z.land (Z.shiftr (be (take k l)) (8 * Z.of_nat k - (o + n))) (Z.ones n)) as Hread.
  { intros k Hk Hok. rewrite (read_bits l k) by (auto; lia).
    rewrite Z2Nat.id by lia. do 2 f_equal. lia. }
  unfold size in Hsz.
  repeat match goal with |- context [?a <=? ?b] => destruct (Z.leb_spec a b); [try lia|] end.
  - unfold ctrue. destruct (Z.eqb_spec n 0) as [->|]; simpl negb; cbv iota; [done|].
    f_equal. rewrite (Hread 1%nat) by lia. destruct l; simpl in Hsz; [lia|].
    by rewrite be_take_1.
  - f_equal. rewrite (Hread 2%nat) by lia. do 2 (destruct l; simpl in Hsz; [lia|]).
    by rewrite be_take_2.
  - f_equal. rewrite (Hread 3%nat) by lia. do 3 (destruct l; simpl in Hsz; [lia|]).
    by rewrite be_take_3.
  - f_equal. rewrite (Hread 4%nat) by lia. do 4 (destruct l; simpl in Hsz; [lia|]).
    by rewrite be_take_4.
  - lia.
Qed.

(** A read of up to 31 bits, whatever the alignment. *)
Lemma get_few_bits_n_ok f refill pd n : wf pd -> 0 <= n <= 31 -> n <= left_bits pd ->
  asn_get_few_bits_n (S (S f)) refill pd n =
  (bits_to_Z (take (Z.to_nat n) (stream pd)), advance pd n).
Proof.
  intros Hwf Hn Hl.
  destruct (Z.le_gt_cases (pd.(nboff) mod 8 + n) 31) as [|Hbig]; [apply get_small; auto; lia|].
  destruct (normalize_ok pd Hwf) as (Hwf' & Hoff & Hleft & Hstr & Hmv).
  assert (nboff (normalize pd) = nboff pd mod 8) as Hmod.
  { unfold normalize. destruct (Z.leb_spec 8 (nboff pd)); [apply land_7|].
    destruct Hwf as ((? & ?) & _). rewrite Z.mod_small; lia. }
  remember (S f) as g eqn:Hg. cbn [asn_get_few_bits_n]. fold (advance pd n).
  destruct (Z.ltb_spec n 0); [lia|].
  destruct (Z.ltb_spec (nbits pd - nboff pd) n); [unfold left_bits in *; lia|].
  change (nboff (advance pd n)) with (nboff (normalize pd) + n).
  rewrite Hmod.
  repeat match goal with |- context [?a <=? ?b] => destruct (Z.leb_spec a b); [try lia|] end; [|lia].
  assert (asn_get_undo (advance pd n) n = normalize pd) as ->.
  { unfold asn_get_undo, advance. simpl. destruct (Z.ltb_spec (nboff (normalize pd) + n) n); [lia|].
    destruct (normalize pd) as [bu o nb mv]; simpl. f_equal; lia. }
  subst g. rewrite get_small by (rewrite ?Hmod, ?Z.mod_mod; auto; lia).
  destruct (advance_ok (normalize pd) (n - 24)) as (Hwf2 & Hstr2 & Hleft2 & _); [auto|lia|].
  assert (nboff (advance (normalize pd) (n - 24)) mod 8 <= 7) by
    (pose proof (Z.mod_pos_bound (nboff (advance (normalize pd) (n - 24))) 8); lia).
  rewrite get_small by (auto; lia). f_equal.
  rewrite Hstr2, Hstr.
  replace (Z.to_nat n) with (Z.to_nat (n - 24) + Z.to_nat 24)%nat by lia.
  rewrite <- (take_drop (Z.to_nat (n - 24)) (stream pd)) at 3.
  pose proof (length_stream pd Hwf) as Hls.
  assert (length (take (Z.to_nat (n - 24)) (stream pd)) = Z.to_nat (n - 24)) as Hlt
    by (rewrite length_take; lia).
  rewrite take_app_add', bits_to_Z_app by done.
  set (a := bits_to_Z (take _ _)). set (w := take (Z.to_nat 24) _).
  assert (length w = 24%nat) as Hw by (unfold w; rewrite length_take, length_drop; lia).
  pose proof (bits_to_Z_bound w) as Hbw. pose proof (bits_to_Z_bound (take (Z.to_nat (n - 24)) (stream pd))) as Hba.
  rewrite Hw in *. fold a in Hba. rewrite Hlt in Hba. change (Z.of_nat 24) with 24 in *.
  rewrite Z2Nat.id in Hba by lia.
  assert (0 <= a * 2 ^ 24 + bits_to_Z w < 2 ^ n).
  { replace n with ((n - 24) + 24) by lia. rewrite Z.pow_add_r by lia. nia. }
  by rewrite lor_shiftl_add, mask_ones, Z.land_ones, Z.mod_small by lia.
Qed.

Lemma undo_advance pd n : wf pd -> 0 <= n ->
  asn_get_undo (advance pd n) n = normalize pd.
Proof.
  intros Hwf Hn. destruct (normalize_ok pd Hwf) as (_ & Hoff & _).
  unfold asn_get_undo, advance. simpl.
  destruct (Z.ltb_spec (nboff (normalize pd) + n) n); [lia|].
  destruct (normalize pd); simpl. f_equal; lia.
Qed.

Lemma get_few_bits_ok pd n : wf pd -> 0 <= n <= 31 -> n <= left_bits pd ->
  asn_get_few_bits pd n = (bits_to_Z (take (Z.to_nat n) (stream pd)), advance pd n).
Proof. intros. by apply get_few_bits_n_ok. Qed.

Lemma get_few_bits_end pd n : wf pd -> left_bits pd < n -> asn_get_few_bits pd n = (-1, pd).
Proof.
  intros Hwf Hn. unfold asn_get_few_bits. cbn [asn_get_few_bits_n].
  destruct Hwf as ((? & ?) & _). unfold left_bits in *.
  destruct (Z.ltb_spec n 0); [lia|].
  destruct (Z.ltb_spec (nbits pd - nboff pd) n); [done|lia].
Qed.

(** More recursion fuel never changes a read from a stream without refill. *)
Lemma get_few_bits_fuel f pd n : wf pd -> n <= 31 ->
  asn_get_few_bits_n (2 + f) None pd n = asn_get_few_bits pd n.
Proof.
  intros Hwf Hn. destruct (Z.lt_ge_cases n 0).
  { unfold asn_get_few_bits. cbn [asn_get_few_bits_n Nat.add].
    by destruct (Z.ltb_spec n 0); [|lia]. }
  destruct (Z.le_gt_cases n (left_bits pd)).
  - rewrite get_few_bits_ok by (auto; lia). by apply get_few_bits_n_ok.
  - rewrite get_few_bits_end by (auto; lia). cbn [asn_get_few_bits_n Nat.add].
    destruct Hwf as ((? & ?) & _). unfold left_bits in *.
    destruct (Z.ltb_spec n 0); [lia|].
    destruct (Z.ltb_spec (nbits pd - nboff pd) n); [done|lia].
Qed.

(** The padding that aligns [n] bits to whole bytes. *)
Definition pad8 (n : Z) : nat := Z.to_nat ((- n) mod 8).

(** The last, incomplete round of the loop of [asn_get_many_bits]. *)
Lemma many_bits_last v n : 0 < n < 24 ->
  let k := Z.land n 7 in
  let '(w, m) := if ctrue k then (Z.shiftl v (8 - k), n + (8 - k)) else (v, n) in
  (if 24 <? m then [u8 (Z.shiftr w 24)] else []) ++
  (if 16 <? m then [u8 (Z.shiftr w 16)] else []) ++
  (if 8 <? m then [u8 (Z.shiftr w 8)] else []) ++ [u8 w] =
  be_bytes (Z.to_nat ((n + 7) / 8)) (Z.shiftl v (Z.of_nat (pad8 n))).
Proof.
  intros Hn k. subst k. rewrite land_7. unfold ctrue, pad8.
  pose proof (Z.mod_pos_bound n 8 ltac:(lia)). pose proof (Z.div_mod n 8 ltac:(lia)).
  destruct (Z.eqb_spec (n mod 8) 0) as [Hz|Hz]; simpl negb; cbv iota.
  - rewrite Z.mod_opp_l_z by lia.
    assert (n = 8 \/ n = 16) as [-> | ->] by lia; cbn -[wrap Z.shiftr]; by rewrite ?Z.shiftr_0_r, ?Z.shiftl_0_r.
  - rewrite Z.mod_opp_l_nz by lia. rewrite Z2Nat.id by lia.
    set (w := Z.shiftl v (8 - n mod 8)).
    assert (n + (8 - n mod 8) = 8 * ((n + 7) / 8)) as ->.
    { replace (n + 7) with (n / 8 * 8 + (n mod 8 + 7)) by lia. rewrite Z.div_add_l by lia.
      replace (n mod 8 + 7) with (1 * 8 + (n mod 8 - 1)) by lia.
      rewrite Z.div_add_l, (Z.div_small (n mod 8 - 1)) by lia. lia. }
    assert ((n + 7) / 8 = 1 \/ (n + 7) / 8 = 2 \/ (n + 7) / 8 = 3) as [-> | [-> | ->]]
      by (pose proof (Z.div_mod (n + 7) 8 ltac:(lia));
          pose proof (Z.mod_pos_bound (n + 7) 8 ltac:(lia)); lia);
      cbn -[wrap Z.shiftr]; by rewrite ?Z.shiftr_0_r.
Qed.

Lemma length_pad8 n : 0 <= n ->
  (8 * Z.to_nat ((n + 7) / 8) = Z.to_nat n + pad8 n)%nat.
Proof.
  intros. unfold pad8.
  pose proof (Z.div_mod n 8 ltac:(lia)). pose proof (Z.mod_pos_bound n 8 ltac:(lia)).
  pose proof (Z.div_mod (n + 7) 8 ltac:(lia)). pose proof (Z.mod_pos_bound (n + 7) 8 ltac:(lia)).
  destruct (Z.eq_dec (n mod 8) 0).
  - rewrite Z.mod_opp_l_z by lia. lia.
  - rewrite Z.mod_opp_l_nz by lia. lia.
Qed.

Lemma get_many_bits_loop_ok fuel pd n : wf pd -> 0 <= n <= left_bits pd ->
  n / 24 < Z.of_nat fuel ->
  exists dst pd', asn_get_many_bits_loop fuel pd n = (0, dst, pd') /\ wf pd' /\
    stream pd' = drop (Z.to_nat n) (stream pd) /\ all_bytes dst /\
    bytes_bits dst = take (Z.to_nat n) (stream pd) ++ replicate (pad8 n) false.
Proof.
  revert pd n. induction fuel as [|fuel IH]; intros pd n Hwf Hn Hf.
  { pose proof (Z.div_pos n 24). lia. }
  cbn [asn_get_many_bits_loop]. pose proof (length_stream pd Hwf) as Hls.
  destruct (Z.eqb_spec n 0) as [->|Hnz].
  { exists [], pd. split; [done|]. split; [done|]. split; [done|]. split; [constructor|done]. }
  destruct (Z.leb_spec 24 n).
  - rewrite get_few_bits_ok by (auto; lia).
    destruct (advance_ok pd 24) as (Hwf' & Hstr & Hleft & _); [done|lia|].
    pose proof (bits_to_Z_bound (take (Z.to_nat 24) (stream pd))) as Hb.
    destruct (Z.ltb_spec (bits_to_Z (take (Z.to_nat 24) (stream pd))) 0); [lia|].
    destruct (IH (advance pd 24) (n - 24)) as (dst & pd' & -> & Hwf2 & Hstr2 & Hd & Hbits);
      [done|lia| |].
    { replace n with ((n - 24) + 1 * 24) in Hf by lia. rewrite Z.div_add in Hf; lia. }
    set (v := bits_to_Z _) in *. exists (be_bytes 3 v ++ dst), pd'.
    split; [cbn; by rewrite ?Z.shiftr_0_r|]. split; [done|].
    rewrite Hstr2, Hstr, drop_drop.
    split; [f_equal; lia|]. split; [auto using Forall_app_2, all_bytes_be_bytes|].
    rewrite bytes_bits_app, bytes_bits_be_bytes, Hbits, Hstr.
    subst v. change (8 * 3)%nat with (Z.to_nat 24). rewrite Z_to_bits_take_stream by lia.
    rewrite app_assoc, take_take_drop.
    assert (pad8 (n - 24) = pad8 n) as ->.
    { unfold pad8. replace (- (n - 24)) with (- n + 3 * 8) by lia. by rewrite Z.mod_add by lia. }
    do 2 f_equal. lia.
  - rewrite get_few_bits_ok by (auto; lia).
    destruct (advance_ok pd n) as (Hwf' & Hstr & _); [done|lia|].
    set (v := bits_to_Z (take (Z.to_nat n) (stream pd))).
    pose proof (bits_to_Z_bound (take (Z.to_nat n) (stream pd))).
    destruct (Z.ltb_spec v 0); [lia|].
    pose proof (many_bits_last v n ltac:(lia)) as Hlast. cbv zeta in Hlast.
    destruct (if ctrue (Z.land n 7) then _ else _) as [w m]. rewrite Hlast.
    eexists _, _. split; [done|]. split; [done|]. split; [done|].
    split; [apply all_bytes_be_bytes|].
    rewrite bytes_bits_be_bytes, length_pad8, Z_to_bits_shiftl by lia. f_equal.
    subst v. apply Z_to_bits_take_stream. lia.
Qed.
End BitIn.

(** * Writing *)

Module BitOut.

(** [asn_bit_outp_t]; [buffer] is an index into [tmpspace], [None] for NULL.
    The [output] callback and its key are those of the output program. *)
Record asn_bit_outp := {
  buffer : option Z;
  nboff : Z;
  nbits : Z;
  tmpspace : bytes;
  flushed_bytes : Z;
}.

(** [memset(&po, 0, sizeof(po))] *)
Definition outp_zero : asn_bit_outp :=
  {| buffer := None; nboff := 0; nbits := 0; tmpspace := replicate 32 0; flushed_bytes := 0 |}.

Definition idx (po : asn_bit_outp) : Z := default 0 po.(buffer).

Definition normalize_outp (po : asn_bit_outp) : asn_bit_outp :=
  if 8 <=? po.(nboff) then
    {| buffer := (fun i => i + Z.shiftr po.(nboff) 3) <$> po.(buffer);
       nboff := Z.land po.(nboff) 7;
       nbits := po.(nbits) - Z.land po.(nboff) (Z.lnot 7);
       tmpspace := po.(tmpspace); flushed_bytes := po.(flushed_bytes) |}
  else po.

(** [tmpspace[i] = v] *)
Definition set_tmp (i v : Z) (t : bytes) : bytes := <[Z.to_nat i := u8 v]> t.

(** "Flush whole-bytes output, if necessary." *)
Definition flush_complete (po : asn_bit_outp) (obits : Z) : enc (Z * asn_bit_outp) :=
  if po.(nbits) <? po.(nboff) + obits then
    let i := idx po in
    let complete_bytes := i in
    let po := {| buffer := Some i; nboff := po.(nboff); nbits := po.(nbits);
                 tmpspace := po.(tmpspace); flushed_bytes := po.(flushed_bytes) |} in
    r ← cb (ztake complete_bytes po.(tmpspace));
    if r <? 0 then Ret (-1, po) else
    Ret (0, {| buffer := Some 0; nboff := po.(nboff); nbits := 8 * 32;
               tmpspace := if ctrue po.(nboff)
                           then set_tmp 0 (znth po.(tmpspace) i) po.(tmpspace)
                           else po.(tmpspace);
               flushed_bytes := po.(flushed_bytes) + complete_bytes |})
  else Ret (0, po).

(** [asn_put_few_bits]; [fuel] bounds the recursion that splits a write
    spanning five bytes. *)
Fixpoint asn_put_few_bits_n (fuel : nat) (po : asn_bit_outp) (bits obits : Z)
    : enc (Z * asn_bit_outp) :=
  match fuel with
  | O => NoFuel
  | S fuel =>
    if (obits <=? 0) || (32 <=? obits) then Ret (if ctrue obits then -1 else 0, po) else
    p ← flush_complete (normalize_outp po) obits;
    let '(r, po) := p in
    if r <? 0 then Ret (-1, po) else
    let i := idx po in
    let b0 := znth po.(tmpspace) i in
    let omsk := Z.lnot (Z.shiftl 1 (8 - po.(nboff)) - 1) in
    let off := po.(nboff) + obits in
    let bits := Z.land bits (Z.shiftl 1 obits - 1) in
    let done t := Ret (0, {| buffer := po.(buffer); nboff := off; nbits := po.(nbits);
                             tmpspace := t; flushed_bytes := po.(flushed_bytes) |}) in
    let t := po.(tmpspace) in
    if off <=? 8 then
      let bits := u32 (Z.shiftl bits (8 - off)) in
      done (set_tmp i (Z.lor (Z.land b0 omsk) bits) t)
    else if off <=? 16 then
      let bits := u32 (Z.shiftl bits (16 - off)) in
      done (set_tmp (i + 1) bits
           (set_tmp i (Z.lor (Z.land b0 omsk) (Z.shiftr bits 8)) t))
    else if off <=? 24 then
      let bits := u32 (Z.shiftl bits (24 - off)) in
      done (set_tmp (i + 2) bits
           (set_tmp (i + 1) (Z.shiftr bits 8)
           (set_tmp i (Z.lor (Z.land b0 omsk) (Z.shiftr bits 16)) t)))
    else if off <=? 31 then
      let bits := u32 (Z.shiftl bits (32 - off)) in
      done (set_tmp (i + 3) bits
           (set_tmp (i + 2) (Z.shiftr bits 8)
           (set_tmp (i + 1) (Z.shiftr bits 16)
           (set_tmp i (Z.lor (Z.land b0 omsk) (Z.shiftr bits 24)) t))))
    else
      p ← asn_put_few_bits_n fuel po (Z.shiftr bits (obits - 24)) 24;
      let '(r, po) := p in
      if ctrue r then Ret (-1, po) else
      p ← asn_put_few_bits_n fuel po bits (obits - 24);
      let '(r, po) := p in
      if ctrue r then Ret (-1, po) else Ret (0, po)
  end.

Definition asn_put_few_bits (po : asn_bit_outp) (bits obits : Z) : enc (Z * asn_bit_outp) :=
  asn_put_few_bits_n 2 po bits obits.

Fixpoint asn_put_many_bits_loop (fuel : nat) (po : asn_bit_outp) (src : bytes) (n : Z)
    : enc (Z * asn_bit_outp) :=
  match fuel with
  | O => NoFuel
  | S fuel =>
    if n =? 0 then Ret (0, po)
    else if 24 <=? n then
      let value := Z.lor (Z.lor (Z.shiftl (znth src 0) 16) (Z.shiftl (znth src 1) 8)) (znth src 2) in
      p ← asn_put_few_bits po value 24;
      let '(r, po) := p in
      if ctrue r then Ret (-1, po) else
      asn_put_many_bits_loop fuel po (zdrop 3 src) (n - 24)
    else
      let value := znth src 0 in
      let value := if 8 <? n then Z.lor (Z.shiftl value 8) (znth src 1) else value in
      let value := if 16 <? n then Z.lor (Z.shiftl value 8) (znth src 2) else value in
      let value := if ctrue (Z.land n 7) then Z.shiftr value (8 - Z.land n 7) else value in
      p ← asn_put_few_bits po value n;
      let '(r, po) := p in
      if ctrue r then Ret (-1, po) else Ret (0, po)
  end.

Definition asn_put_many_bits (po : asn_bit_outp) (src : bytes) (n : Z) : enc (Z * asn_bit_outp) :=
  asn_put_many_bits_loop (S (Z.to_nat (n / 24))) po src n.

Definition asn_put_aligned_flush (po : asn_bit_outp) : enc (Z * asn_bit_outp) :=
  let unused_bits := Z.land 7 (8 - Z.land po.(nboff) 7) in
  let complete_bytes := idx po + Z.shiftr (po.(nboff) + 7) 3 in
  let t := if ctrue unused_bits
           then let j := idx po + Z.shiftr po.(nboff) 3 in
                set_tmp j (Z.land (znth po.(tmpspace) j) (Z.shiftl (Z.lnot 0) unused_bits))
                  po.(tmpspace)
           else po.(tmpspace) in
  r ← cb (ztake complete_bytes t);
  if r <? 0 then
    Ret (-1, {| buffer := po.(buffer); nboff := po.(nboff); nbits := po.(nbits);
                tmpspace := t; flushed_bytes := po.(flushed_bytes) |})
  else
    Ret (0, {| buffer := Some 0; nboff := 0; nbits := 8 * 32; tmpspace := t;
               flushed_bytes := po.(flushed_bytes) + complete_bytes |}).

(** ** Correctness of writing *)

Definition wf (po : asn_bit_outp) : Prop :=
  length po.(tmpspace) = 32%nat /\ all_bytes po.(tmpspace) /\
  match po.(buffer) with
  | None => po.(nboff) = 0 /\ po.(nbits) = 0
  | Some i => 0 <= i /\ 0 <= po.(nboff) <= po.(nbits) /\ 8 * i + po.(nbits) = 256
  end.

(** The bits written but not yet handed to the callback. *)
Definition pending (po : asn_bit_outp) : list bool :=
  take (Z.to_nat (8 * idx po + po.(nboff))) (bytes_bits po.(tmpspace)).

Lemma wf_zero : wf outp_zero.
Proof.
  split; [done|]. split; [|done]. apply Forall_replicate. unfold is_byte. lia.
Qed.

Lemma normalize_outp_ok po : wf po ->
  wf (normalize_outp po) /\ 0 <= (normalize_outp po).(nboff) < 8 /\ pending (normalize_outp po) = pending po /\
  flushed_bytes (normalize_outp po) = flushed_bytes po.
Proof.
  intros (Hlen & Hb & Hi). unfold normalize_outp.
  destruct (Z.leb_spec 8 (nboff po)).
  2: { destruct (buffer po) eqn:E; repeat split; auto; rewrite ?E; try lia. }
  destruct (buffer po) as [i|] eqn:E; [|lia].
  unfold wf, pending, idx. simpl. rewrite E, land_7, land_lnot7, shiftr_3. simpl.
  pose proof (Z.div_mod (nboff po) 8 ltac:(lia)). pose proof (Z.mod_pos_bound (nboff po) 8 ltac:(lia)).
  pose proof (Z.div_pos (nboff po) 8).
  repeat split; auto; try lia. f_equal. lia.
Qed.

(** Replacing [k] bytes of the scratch area by the merged old and new bits. *)
Lemma merge_bits pre x l k o obits bits :
  all_bytes (x :: l) -> (1 <= k <= 1 + length l)%nat -> 0 <= o < 8 -> 0 < obits -> o + obits <= 8 * Z.of_nat k ->
  let W := Z.lor (Z.shiftl (Z.land x (Z.lnot (Z.ones (8 - o)))) (8 * (Z.of_nat k - 1)))
             (Z.shiftl (Z.land bits (Z.ones obits)) (8 * Z.of_nat k - (o + obits))) in
  take (8 * length pre + Z.to_nat (o + obits)) (bytes_bits (pre ++ be_bytes k W ++ drop (k - 1) l)) =
  take (8 * length pre + Z.to_nat o) (bytes_bits (pre ++ x :: l)) ++ Z_to_bits (Z.to_nat obits) bits.
Proof.
  intros Hb Hk Ho Hob Hoff W. rewrite !bytes_bits_app, !take_app_add' by (by rewrite length_bytes_bits).
  rewrite <- app_assoc. f_equal. rewrite bytes_bits_be_bytes, bytes_bits_cons.
  rewrite take_app_le by (rewrite length_Z_to_bits; lia).
  rewrite (take_app_le (Z_to_bits 8 x)) by (rewrite length_Z_to_bits; lia).
  rewrite !take_Z_to_bits by lia.
  replace (Z.to_nat (o + obits)) with (Z.to_nat o + Z.to_nat obits)%nat by lia.
  rewrite Z_to_bits_app.
  f_equal; apply Z_to_bits_ext; intros i Hi; subst W; push_testbit; bit_cases.
  - f_equal. lia.
  - match goal with |- Z.testbit x ?j && _ || _ = _ =>
      destruct (Z.lt_ge_cases j 0); [rewrite (Z.testbit_neg_r x j) by lia|]
    end; push_testbit; bit_cases; f_equal; lia.
Qed.

(** Storing bytes [i .. i+k-1] of the scratch area one after the other. *)
Lemma set_tmp_app pre l i j v :
  Z.of_nat (length pre) = i -> 0 <= j ->
  set_tmp (i + j) v (pre ++ l) = pre ++ <[Z.to_nat j := u8 v]> l.
Proof.
  intros. unfold set_tmp. rewrite insert_app_r_alt by lia. do 2 f_equal. lia.
Qed.

Lemma set_tmp_app_0 pre l i v :
  Z.of_nat (length pre) = i -> set_tmp i v (pre ++ l) = pre ++ <[0%nat := u8 v]> l.
Proof. intros <-. unfold set_tmp. by rewrite Nat2Z.id, insert_app_r_alt, Nat.sub_diag by lia. Qed.

(** The new position after a direct write. *)
Definition written (po : asn_bit_outp) (off : Z) (t : bytes) : asn_bit_outp :=
  {| buffer := po.(buffer); nboff := off; nbits := po.(nbits); tmpspace := t;
     flushed_bytes := po.(flushed_bytes) |}.

(** A direct write of at most four bytes. *)
Lemma write_ok po k obits bits :
  wf po -> 0 <= nboff po < 8 -> 0 < obits < 32 -> nboff po + obits <= nbits po ->
  (1 <= k <= 4)%nat -> 8 * (Z.of_nat k - 1) < nboff po + obits \/ k = 1%nat ->
  nboff po + obits <= 8 * Z.of_nat k ->
  let o := nboff po in
  let W := Z.lor (Z.shiftl (Z.land (znth (tmpspace po) (idx po)) (Z.lnot (Z.ones (8 - o)))) (8 * (Z.of_nat k - 1)))
             (Z.shiftl (Z.land bits (Z.ones obits)) (8 * Z.of_nat k - (o + obits))) in
  forall t,
  (forall pre x l, tmpspace po = pre ++ x :: l -> Z.of_nat (length pre) = idx po ->
     (k <= 1 + length l)%nat ->
     t = pre ++ be_bytes k W ++ drop (k - 1) l) ->
  wf (written po (o + obits) t) /\
  pending (written po (o + obits) t) = pending po ++ Z_to_bits (Z.to_nat obits) bits.
Proof.
  intros (Hlen & Hb & Hbuf) Ho Hob Hfit Hk Hlow Hup o W t Ht.
  destruct (buffer po) as [i|] eqn:Ebuf; [|lia]. destruct Hbuf as (Hi0 & Hn & Hsum).
  assert (idx po = i) as Hi by (unfold idx; by rewrite Ebuf).
  assert (i + Z.of_nat k <= 32) as Hik by lia.
  destruct (drop (Z.to_nat i) (tmpspace po)) as [|x l] eqn:Edrop.
  { apply (f_equal length) in Edrop. rewrite length_drop in Edrop. simpl in Edrop. lia. }
  pose proof (take_drop (Z.to_nat i) (tmpspace po)) as Hsplit. rewrite Edrop in Hsplit.
  set (pre := take (Z.to_nat i) (tmpspace po)) in *.
  assert (length pre = Z.to_nat i) as Hpre by (unfold pre; rewrite length_take; lia).
  assert (length l = 31 - Z.to_nat i)%nat as Hl.
  { apply (f_equal length) in Hsplit. rewrite length_app in Hsplit. simpl in Hsplit. lia. }
  assert (znth (tmpspace po) (idx po) = x) as Hx.
  { unfold znth. rewrite Hi, <- Hsplit, app_nth2 by lia. by rewrite Hpre, Nat.sub_diag. }
  rewrite <- Hsplit in Hb. apply Forall_app in Hb as [Hbp Hbx].
  specialize (Ht pre x l (eq_sym Hsplit) ltac:(lia) ltac:(lia)). subst t W. rewrite Hx.
  pose proof (merge_bits pre x l k o obits bits Hbx) as Hm. cbv zeta in Hm.
  unfold o in *. set (W := Z.lor _ _) in *.
  split.
  - unfold wf, written. simpl. rewrite Ebuf. split; [|split; [|lia]].
    + rewrite !length_app, length_be_bytes, length_drop. lia.
    + inv Hbx. apply Forall_app. split; [done|]. apply Forall_app.
      split; [apply all_bytes_be_bytes|by apply Forall_drop].
  - unfold pending. change (idx (written po _ _)) with (idx po).
    cbn [nboff tmpspace written]. rewrite Hi, <- Hsplit.
    replace (Z.to_nat (8 * i + (nboff po + obits)))
      with (8 * length pre + Z.to_nat (nboff po + obits))%nat by lia.
    replace (Z.to_nat (8 * i + nboff po)) with (8 * length pre + Z.to_nat (nboff po))%nat by lia.
    apply Hm; lia.
Qed.

Lemma flush_complete_ok po obits :
  wf po -> 0 <= nboff po < 8 -> 0 < obits < 32 ->
  exists bs po', emits (flush_complete po obits) (0, po') bs /\ wf po' /\
    0 <= nboff po' < 8 /\ nboff po' = nboff po /\ nboff po' + obits <= nbits po' /\
    all_bytes bs /\ flushed_bytes po' = flushed_bytes po + size bs /\
    bytes_bits bs ++ pending po' = pending po.
Proof.
  intros Hwf Ho Hob. unfold flush_complete.
  destruct (Z.ltb_spec (nbits po) (nboff po + obits)) as [Hfull|].
  2: { exists [], po. destruct Hwf as (? & ? & ?).
       repeat split; auto using emits_ret; try lia. unfold size; simpl; lia. }
  destruct Hwf as (Hlen & Hb & Hbuf).
  assert (0 <= idx po <= 32 /\ (0 < nboff po -> idx po < 32)) as [Hi Hi'].
  { unfold idx. destruct (buffer po) as [i|]; simpl; lia. }
  set (t := tmpspace po) in *. set (i := idx po) in *.
  eexists _, _. split; [apply emits_cb_bind; apply emits_ret|].
  rewrite app_nil_r. cbn [nboff nbits flushed_bytes tmpspace buffer].
  set (t' := if ctrue (nboff po) then _ else _).
  assert (length t' = 32%nat /\ all_bytes t') as [Hlen' Hb'].
  { unfold t'. destruct (ctrue (nboff po)); [|done]. unfold set_tmp. rewrite length_insert.
    split; [done|]. apply Forall_insert; auto with asn. }
  split; [split; [done|split; [done|simpl; lia]]|].
  split; [done|]. split; [done|]. split; [lia|]. split; [auto with asn|].
  split; [rewrite size_ztake by (unfold size; lia); done|].
  unfold pending. cbn [idx buffer default nboff tmpspace]. fold i t.
  replace (Z.to_nat (8 * i + nboff po)) with (8 * Z.to_nat i + Z.to_nat (nboff po))%nat by lia.
  replace (Z.to_nat (8 * _ + nboff po)) with (Z.to_nat (nboff po)) by (simpl; lia).
  rewrite <- (take_drop (Z.to_nat i) t) at 2. unfold ztake.
  rewrite bytes_bits_app, take_app_add' by (rewrite length_bytes_bits, length_take; lia).
  f_equal. destruct (Z.eq_dec (nboff po) 0) as [->|Hnz]; [done|].
  assert (znth t i :: drop (S (Z.to_nat i)) t = drop (Z.to_nat i) t) as <-.
  { symmetry. apply drop_S. by destruct (nth_lookup_or_length t (Z.to_nat i) 0); [|lia]. }
  unfold t', ctrue. destruct (Z.eqb_spec (nboff po) 0); [lia|]. simpl negb. cbv iota.
  destruct t as [|t0 t1] eqn:Et; [done|]. 
  change (set_tmp 0 ?v (t0 :: t1)) with (u8 v :: t1).
  rewrite !bytes_bits_cons, !take_app_le by (rewrite length_Z_to_bits; lia).
  f_equal. apply Z_to_bits_ext. intros j Hj. push_testbit. bit_cases.
Qed.

(** What a successful write does: the bits handed to the callback followed by
    the pending ones are the old bits followed by the new ones. *)
Definition puts (po : asn_bit_outp) (new : list bool) (m : enc (Z * asn_bit_outp)) : Prop :=
  exists bs po', emits m (0, po') bs /\ wf po' /\ all_bytes bs /\
    flushed_bytes po' = flushed_bytes po + size bs /\
    bytes_bits bs ++ pending po' = pending po ++ new.

Lemma u32_shiftl bits obits o s : 0 <= o -> 0 < obits -> 0 <= s -> s + o + obits <= 32 ->
  u32 (Z.shiftl (Z.land bits (Z.ones obits)) s) = Z.shiftl (Z.land bits (Z.ones obits)) s.
Proof.
  intros. apply wrap_id; [lia|]. rewrite Z.shiftl_mul_pow2, Z.land_ones by lia.
  pose proof (Z.mod_pos_bound bits (2 ^ obits)).
  assert (2 ^ obits * 2 ^ s <= 2 ^ 32).
  { rewrite <- Z.pow_add_r by lia. apply Z.pow_le_mono_r; lia. }
  assert (0 < 2 ^ s) by (apply Z.pow_pos_nonneg; lia). nia.
Qed.

Lemma put_finish po k obits bits t :
  wf po -> 0 <= nboff po < 8 -> 0 < obits < 32 -> nboff po + obits <= nbits po ->
  (1 <= k <= 4)%nat -> 8 * (Z.of_nat k - 1) < nboff po + obits \/ k = 1%nat ->
  nboff po + obits <= 8 * Z.of_nat k ->
  (forall pre x l, tmpspace po = pre ++ x :: l -> Z.of_nat (length pre) = idx po ->
     (k <= 1 + length l)%nat ->
     t = pre ++ be_bytes k
       (Z.lor (Z.shiftl (Z.land x (Z.lnot (Z.ones (8 - nboff po)))) (8 * (Z.of_nat k - 1)))
             (Z.shiftl (Z.land bits (Z.ones obits)) (8 * Z.of_nat k - (nboff po + obits))))
       ++ drop (k - 1) l) ->
  exists po', emits (Ret (0, written po (nboff po + obits) t)) (0, po') [] /\ wf po' /\
    flushed_bytes po' = flushed_bytes po /\
    pending po' = pending po ++ Z_to_bits (Z.to_nat obits) bits.
Proof.
  intros Hwf Ho Hob Hfit Hk Hlow Hup Ht.
  destruct (write_ok po k obits bits) with (t := t) as [Hw Hp]; auto.
  - intros pre x l Hpre Hlen Hl. rewrite (Ht pre x l) by done.
    do 5 f_equal. unfold znth. rewrite Hpre, <- Hlen, Nat2Z.id, app_nth2, Nat.sub_diag by lia. done.
  - eexists. split; [apply emits_ret|]. done.
Qed.

(** The bytes stored by the C code are those of the merged value. *)
Lemma merged_bytes k x o obits bits : (1 <= k <= 4)%nat -> is_byte x -> 0 <= o < 8 -> 0 < obits ->
  o + obits <= 8 * Z.of_nat k ->
  let B := Z.shiftl (Z.land bits (Z.ones obits)) (8 * Z.of_nat k - (o + obits)) in
  let hi := Z.land x (Z.lnot (Z.ones (8 - o))) in
  be_bytes k (Z.lor (Z.shiftl hi (8 * (Z.of_nat k - 1))) B) =
  u8 (Z.lor hi (Z.shiftr B (8 * (Z.of_nat k - 1)))) :: be_bytes (k - 1) B.
Proof.
  intros Hk Hx Ho Hob Hoff B hi. destruct k as [|k]; [lia|]. simpl (S k - 1)%nat. rewrite Nat.sub_0_r.
  replace (Z.of_nat (S k) - 1) with (Z.of_nat k) by lia. cbn [be_bytes]. f_equal.
  - unfold wrap. f_equal. rewrite Z.shiftr_lor. f_equal.
    by rewrite Z.shiftr_shiftl_l, Z.sub_diag, Z.shiftl_0_r by lia.
  - assert (forall n, (n <= k)%nat ->
      be_bytes n (Z.lor (Z.shiftl hi (8 * Z.of_nat k)) B) = be_bytes n B) as H; [|by apply H].
    induction n as [|n IH]; intros Hn; [done|]. cbn [be_bytes]. f_equal; [|apply IH; lia].
    apply Z.bits_inj'. intros i Hi. push_testbit. destruct (Z.ltb_spec i 8); [|done].
    by rewrite (Z.testbit_neg_r hi) by lia.
Qed.

Tactic Notation "put_branch" constr(po2) constr(k) integer(m) :=
  apply (put_finish po2 k); auto; try lia;
  let pre := fresh "pre" in let x := fresh "x" in let l := fresh "l" in
  intros pre x l Hpre Hlen Hl; rewrite Hpre;
  assert (is_byte x) by
    (match goal with H : wf po2 |- _ => destruct H as (_ & Hall & _); rewrite Hpre in Hall;
       apply Forall_app in Hall as [_ Hall]; by inv Hall end);
  rewrite merged_bytes by (auto; lia);
  replace (znth (pre ++ x :: l) (idx po2)) with x by
    (unfold znth; rewrite <- Hlen, Nat2Z.id, app_nth2, Nat.sub_diag by lia; done);
  rewrite set_tmp_app_0 by done; rewrite ?set_tmp_app by lia;
  do m (destruct l as [|? l]; [simpl in Hl; lia|]); reflexivity.

Lemma put_small f po bits obits :
  wf po -> 0 < obits < 32 -> nboff po mod 8 + obits <= 31 ->
  puts po (Z_to_bits (Z.to_nat obits) bits) (asn_put_few_bits_n (S f) po bits obits).
Proof.
  intros Hwf Hob Hsm. cbn [asn_put_few_bits_n].
  destruct (Z.leb_spec obits 0); [lia|]. destruct (Z.leb_spec 32 obits); [lia|]. cbn [orb].
  destruct (normalize_outp_ok po Hwf) as (Hwf1 & Ho1 & Hp1 & Hf1).
  assert (nboff (normalize_outp po) = nboff po mod 8) as Hmod.
  { unfold normalize_outp. destruct (Z.leb_spec 8 (nboff po)); [apply land_7|].
    destruct Hwf as (_ & _ & Hbuf). rewrite Z.mod_small; [done|].
    destruct (buffer po); lia. }
  destruct (flush_complete_ok (normalize_outp po) obits Hwf1 Ho1 Hob)
    as (bs & po2 & Hem & Hwf2 & Ho2 & Heq2 & Hfit & Hbs & Hfl & Hpend).
  match goal with |- puts _ _ (mbind ?g _) =>
    enough (exists po', emits (g (0, po2)) (0, po') [] /\ wf po' /\
      flushed_bytes po' = flushed_bytes po2 /\
      pending po' = pending po2 ++ Z_to_bits (Z.to_nat obits) bits)
      as (po' & He & Hwf' & Hfl' & Hpd')
  end.
  { exists bs, po'. split; [rewrite <- (app_nil_r bs); eapply emits_bind; [exact Hem|exact He]|].
    split; [done|]. split; [done|]. split; [lia|]. by rewrite Hpd', app_assoc, Hpend, Hp1. }
  cbv beta iota zeta. cbn [Z.ltb Z.compare]. rewrite !mask_ones.
  repeat match goal with |- context [nboff po2 + obits <=? ?b] =>
    destruct (Z.leb_spec (nboff po2 + obits) b);
      [rewrite ?(u32_shiftl bits obits (nboff po2)) by lia|] end.
  - put_branch po2 1%nat 0.
  - put_branch po2 2%nat 1.
  - put_branch po2 3%nat 2.
  - put_branch po2 4%nat 3.
  - lia.
Qed.

(** Sequencing two writes, the second one guarded by the result code. *)
Lemma puts_seq po new1 new2 m (g : asn_bit_outp -> enc (Z * asn_bit_outp)) :
  puts po new1 m -> (forall po', wf po' -> puts po' new2 (g po')) ->
  puts po (new1 ++ new2)
    (p ← m; let '(r, po) := p in if ctrue r then Ret (-1, po) else g po).
Proof.
  intros (bs & po1 & Hem & Hwf & Hb & Hf & Hp) Hg.
  destruct (Hg po1 Hwf) as (cs & po2 & Hem2 & Hwf2 & Hb2 & Hf2 & Hp2).
  exists (bs ++ cs), po2. split; [by eapply emits_bind|]. split; [done|].
  split; [by apply Forall_app|]. split; [rewrite size_app; lia|].
  by rewrite bytes_bits_app, <- app_assoc, Hp2, !app_assoc, Hp.
Qed.

Lemma puts_ret po : wf po -> puts po [] (Ret (0, po)).
Proof.
  intros. exists [], po. split; [constructor|]. split; [done|]. split; [constructor|].
  split; [rewrite size_nil; lia|]. by rewrite app_nil_r.
Qed.

Lemma put_few_bits_n_ok f po bits obits : wf po -> 0 < obits < 32 ->
  puts po (Z_to_bits (Z.to_nat obits) bits) (asn_put_few_bits_n (S (S f)) po bits obits).
Proof.
  intros Hwf Hob.
  destruct (Z.le_gt_cases (nboff po mod 8 + obits) 31) as [|Hbig]; [by apply put_small|].
  remember (S f) as g eqn:Hg. cbn [asn_put_few_bits_n].
  destruct (Z.leb_spec obits 0); [lia|]. destruct (Z.leb_spec 32 obits); [lia|]. cbn [orb].
  destruct (normalize_outp_ok po Hwf) as (Hwf1 & Ho1 & Hp1 & Hf1).
  assert (nboff (normalize_outp po) = nboff po mod 8) as Hmod.
  { unfold normalize_outp. destruct (Z.leb_spec 8 (nboff po)); [apply land_7|].
    destruct Hwf as (_ & _ & Hbuf). rewrite Z.mod_small; [done|]. destruct (buffer po); lia. }
  destruct (flush_complete_ok (normalize_outp po) obits Hwf1 Ho1 Hob)
    as (bs & po2 & Hem & Hwf2 & Ho2 & Heq2 & Hfit & Hbs & Hfl & Hpend).
  match goal with |- puts _ _ (mbind ?k _) =>
    enough (puts po2 (Z_to_bits (Z.to_nat obits) bits) (k (0, po2)))
      as (cs & po3 & Hem3 & Hwf3 & Hcs & Hf3 & Hp3)
  end.
  { exists (bs ++ cs), po3. split; [by eapply emits_bind|]. split; [done|].
    split; [by apply Forall_app|]. split; [rewrite size_app; lia|].
    by rewrite bytes_bits_app, <- app_assoc, Hp3, !app_assoc, Hpend, Hp1. }
  cbv beta iota zeta. cbn [Z.ltb Z.compare]. rewrite !mask_ones.
  repeat match goal with |- context [nboff po2 + obits <=? ?b] =>
    destruct (Z.leb_spec (nboff po2 + obits) b); [lia|] end.
  replace (Z.to_nat obits) with (Z.to_nat 24 + Z.to_nat (obits - 24))%nat at 1 by lia.
  rewrite Z_to_bits_app.
  subst g. pose proof (Z.mod_pos_bound (nboff po2) 8 ltac:(lia)).
  replace (Z_to_bits (Z.to_nat 24) (Z.shiftr bits (Z.of_nat (Z.to_nat (obits - 24)))))
    with (Z_to_bits (Z.to_nat 24) (Z.shiftr (Z.land bits (Z.ones obits)) (obits - 24))).
  2: { apply Z_to_bits_ext. intros i Hi. push_testbit. bit_cases. f_equal. lia. }
  apply puts_seq; [apply put_small; auto; lia|].
  intros po4 Hwf4. pose proof (Z.mod_pos_bound (nboff po4) 8 ltac:(lia)).
  rewrite <- (app_nil_r (Z_to_bits (Z.to_nat (obits - 24)) bits)).
  apply puts_seq; [|by apply puts_ret].
  rewrite (Z_to_bits_ext _ bits (Z.land bits (Z.ones obits))).
  2: { intros i Hi. push_testbit. bit_cases. }
  apply put_small; auto; lia.
Qed.

Lemma put_few_bits_ok po bits obits : wf po -> 0 < obits < 32 ->
  puts po (Z_to_bits (Z.to_nat obits) bits) (asn_put_few_bits po bits obits).
Proof. apply put_few_bits_n_ok. Qed.

Lemma take_bytes_bits n l : take (8 * n) (bytes_bits l) = bytes_bits (take n l).
Proof.
  revert n; induction l as [|b l IH]; intros n.
  { change (bytes_bits []) with (@nil bool). by rewrite !take_nil. }
  destruct n as [|n]; [done|]. rewrite bytes_bits_cons.
  replace (8 * S n)%nat with (8 + 8 * n)%nat by lia.
  rewrite take_app_add' by (by rewrite length_Z_to_bits). by rewrite IH.
Qed.

(** Clearing the [8 - o] low-order bits of an octet. *)
Lemma masked_byte x o : 0 < o < 8 ->
  Z_to_bits 8 (u8 (Z.land x (Z.shiftl (Z.lnot 0) (8 - o)))) =
  take (Z.to_nat o) (Z_to_bits 8 x) ++ replicate (Z.to_nat (8 - o)) false.
Proof.
  intros Ho. rewrite take_Z_to_bits by lia. rewrite <- Z_to_bits_shiftl.
  replace (Z.to_nat o + Z.to_nat (8 - o))%nat with 8%nat by lia.
  apply Z_to_bits_ext. intros k Hk. push_testbit.
  destruct (Z.lt_ge_cases (k - (8 - o)) 0).
  - rewrite (Z.testbit_neg_r _ (k - Z.of_nat (Z.to_nat (8 - o)))) by lia.
    rewrite (Z.testbit_neg_r _ (k - (8 - o))) by lia. by rewrite !andb_false_r.
  - rewrite Z.lnot_spec, Z.bits_0 by lia. bit_cases.
    rewrite Z.shiftr_spec by lia. f_equal. lia.
Qed.

(** The octets up to and including a last one with [o] used bits. *)
Lemma masked_prefix t j o : 0 <= j < size t -> 0 < o < 8 ->
  bytes_bits (take (Z.to_nat (j + 1)) (set_tmp j (Z.land (znth t j) (Z.shiftl (Z.lnot 0) (8 - o))) t)) =
  take (8 * Z.to_nat j + Z.to_nat o) (bytes_bits t) ++ replicate (Z.to_nat (8 - o)) false.
Proof.
  intros Hj Ho.
  assert (exists pre x l, t = pre ++ x :: l /\ length pre = Z.to_nat j) as (pre & x & l & Et & Hpre).
  { destruct (drop (Z.to_nat j) t) as [|x l] eqn:E.
    { apply (f_equal length) in E. rewrite length_drop in E. unfold size in *. simpl in E. lia. }
    exists (take (Z.to_nat j) t), x, l. rewrite <- E, take_drop, length_take. unfold size in *. split; [done|lia]. }
  assert (znth t j = x) as -> by (unfold znth; by rewrite Et, <- Hpre, app_nth2, Nat.sub_diag by lia).
  rewrite Et, set_tmp_app_0 by lia. change (<[0%nat := ?v]> (x :: l)) with (v :: l).
  replace (Z.to_nat (j + 1)) with (length pre + 1)%nat by lia.
  rewrite <- Hpre, take_app_add. simpl take. rewrite !bytes_bits_app.
  rewrite take_app_add' by (by rewrite length_bytes_bits).
  rewrite <- app_assoc. f_equal. rewrite !bytes_bits_cons.
  rewrite take_app_le by (rewrite ?length_Z_to_bits; lia).
  change (bytes_bits []) with (@nil bool). rewrite app_nil_r. by apply masked_byte.
Qed.

Lemma pad8_aligned n : n mod 8 = 0 -> BitIn.pad8 n = 0%nat.
Proof. intros H. unfold BitIn.pad8. by rewrite Z.mod_opp_l_z. Qed.

Lemma pad8_unaligned n : n mod 8 <> 0 -> BitIn.pad8 n = Z.to_nat (8 - n mod 8).
Proof. intros H. unfold BitIn.pad8. by rewrite Z.mod_opp_l_nz. Qed.

(** The octets a flush hands out are the pending bits, padded with zero bits. *)
Lemma flush_contents t n : 0 <= n <= 256 -> length t = 32%nat ->
  bytes_bits (ztake ((n + 7) / 8)
    (if ctrue ((8 - n mod 8) mod 8)
     then set_tmp (n / 8) (Z.land (znth t (n / 8)) (Z.shiftl (Z.lnot 0) ((8 - n mod 8) mod 8))) t else t)) =
  take (Z.to_nat n) (bytes_bits t) ++ replicate (BitIn.pad8 n) false.
Proof.
  intros Hn Ht. pose proof (Z.div_mod n 8 ltac:(lia)) as Hdm. pose proof (Z.mod_pos_bound n 8 ltac:(lia)) as Hmb.
  unfold ztake. destruct (Z.eq_dec (n mod 8) 0) as [Hz|Hz].
  - rewrite Hz, (pad8_aligned n Hz). change (ctrue ((8 - 0) mod 8)) with false. cbv iota. cbn [replicate].
    rewrite app_nil_r, <- take_bytes_bits. f_equal.
    replace (n + 7) with (n / 8 * 8 + 7) by lia. rewrite Z.div_add_l by lia. change (7 / 8) with 0. lia.
  - rewrite (Z.mod_small (8 - n mod 8)), (pad8_unaligned n Hz) by lia.
    unfold ctrue. destruct (Z.eqb_spec (8 - n mod 8) 0); [lia|]. cbn [negb].
    assert ((n + 7) / 8 = n / 8 + 1) as ->.
    { replace (n + 7) with ((n / 8 + 1) * 8 + (n mod 8 - 1)) by lia.
      rewrite Z.div_add_l, (Z.div_small (_ - 1)) by lia. lia. }
    pose proof (Z.div_pos n 8 ltac:(lia) ltac:(lia)).
    replace (Z.to_nat n) with (8 * Z.to_nat (n / 8) + Z.to_nat (n mod 8))%nat by lia.
    apply masked_prefix; unfold size; lia.
Qed.

(** The final flush emits the pending bits, zero-padded to whole bytes. *)
Lemma aligned_flush_ok po : wf po ->
  exists bs po', emits (asn_put_aligned_flush po) (0, po') bs /\ wf po' /\ all_bytes bs /\
    flushed_bytes po' = flushed_bytes po + size bs /\ pending po' = [] /\
    bytes_bits bs = pending po ++ replicate (BitIn.pad8 (size (pending po))) false.
Proof.
  intros (Hlen & Hb & Hbuf). unfold asn_put_aligned_flush.
  assert (0 <= idx po /\ 0 <= nboff po /\ 8 * idx po + nboff po <= 256) as (Hi & Ho & Hsum).
  { unfold idx. destruct (buffer po); simpl; lia. }
  rewrite !land_7, !shiftr_3, (Z.land_comm 7), land_7.
  set (n := 8 * idx po + nboff po).
  assert (size (pending po) = n) as Hsz.
  { unfold pending, size. rewrite length_take, length_bytes_bits. unfold n. lia. }
  assert (nboff po mod 8 = n mod 8) as -> by (unfold n; by rewrite Z.mul_comm, Z.add_comm, Z.mod_add by lia).
  assert (idx po + (nboff po + 7) / 8 = (n + 7) / 8) as ->.
  { unfold n. replace (8 * idx po + nboff po + 7) with (idx po * 8 + (nboff po + 7)) by lia. by rewrite Z.div_add_l by lia. }
  assert (idx po + nboff po / 8 = n / 8) as ->.
  { unfold n. replace (8 * idx po + nboff po) with (idx po * 8 + nboff po) by lia. by rewrite Z.div_add_l by lia. }
  pose proof (flush_contents (tmpspace po) n ltac:(lia) Hlen) as Hc.
  set (t' := if ctrue _ then _ else _) in *.
  assert (length t' = 32%nat /\ all_bytes t') as [Hlen' Hb'].
  { unfold t'. destruct (ctrue _); [|done]. unfold set_tmp. rewrite length_insert.
    split; [done|]. apply Forall_insert; auto with asn. }
  assert (0 <= (n + 7) / 8 <= 32) as Hcb.
  { split; [apply Z.div_pos; lia|]. apply Z.lt_succ_r, Z.div_lt_upper_bound; lia. }
  eexists _, _. split; [apply emits_cb_bind, emits_ret|]. rewrite app_nil_r.
  split; [split; [done|split; [done|simpl; lia]]|]. split; [auto with asn|]. cbn [flushed_bytes].
  assert (size (ztake ((n + 7) / 8) t') = (n + 7) / 8) as -> by (apply size_ztake; unfold size; lia).
  split; [done|]. split; [done|]. rewrite Hsz, Hc. done.
Qed.

Lemma put_last_value src n : 0 < n < 24 -> all_bytes src -> n <= 8 * size src ->
  Z_to_bits (Z.to_nat n)
    (let value := znth src 0 in
     let value := if 8 <? n then Z.lor (Z.shiftl value 8) (znth src 1) else value in
     let value := if 16 <? n then Z.lor (Z.shiftl value 8) (znth src 2) else value in
     if ctrue (Z.land n 7) then Z.shiftr value (8 - Z.land n 7) else value) =
  take (Z.to_nat n) (bytes_bits src).
Proof.
  intros Hn Hb Hsz. rewrite land_7. pose proof (Z.mod_pos_bound n 8 ltac:(lia)).
  pose proof (Z.div_mod n 8 ltac:(lia)). unfold ctrue, size in *.
  assert (forall a b, is_byte b -> Z.lor (Z.shiftl a 8) b = a * 256 + b) as Hor.
  { intros a b ?. rewrite lor_shiftl_add; [done|lia|]. by unfold is_byte in *. }
  assert (forall k v, (k <= length src)%nat -> 8 * (Z.of_nat k - 1) < n <= 8 * Z.of_nat k ->
    be (take k src) = v ->
    Z_to_bits (Z.to_nat n) (if negb (n mod 8 =? 0) then Z.shiftr v (8 - n mod 8) else v) =
    take (Z.to_nat n) (bytes_bits src)) as Hk.
  { intros k v Hk Hkn <-.
    replace (bytes_bits src) with (bytes_bits (take k src ++ drop k src)) by (by rewrite take_drop).
    assert (length (take k src) = k) as Hlen by (rewrite length_take; lia).
    rewrite bytes_bits_app, bytes_bits_be, Hlen by auto using Forall_take.
    rewrite take_app_le, take_Z_to_bits by (rewrite ?length_Z_to_bits; lia).
    destruct (Z.eqb_spec (n mod 8) 0); simpl negb; cbv iota; f_equal.
    - replace (8 * k - Z.to_nat n)%nat with 0%nat by lia. by rewrite Z.shiftr_0_r.
    - f_equal. lia. }
  destruct (Z.ltb_spec 8 n); destruct (Z.ltb_spec 16 n); try lia; cbv zeta.
  - do 3 (destruct src as [|? src]; [simpl in Hsz; lia|]).
    apply (Hk 3%nat); [simpl; lia|lia|]. rewrite be_take_3, Z.shiftl_mul_pow2, (Z.shiftl_mul_pow2 z0) by lia.
    rewrite !Forall_cons in Hb. destruct Hb as (? & ? & ? & _).
    change (znth _ 0) with z. change (znth _ 1) with z0. change (znth _ 2) with z1.
    rewrite !Hor by done. change (2 ^ 16) with 65536. change (2 ^ 8) with 256. lia.
  - do 2 (destruct src as [|? src]; [simpl in Hsz; lia|]).
    apply (Hk 2%nat); [simpl; lia|lia|]. rewrite be_take_2, Z.shiftl_mul_pow2 by lia.
    rewrite !Forall_cons in Hb. destruct Hb as (? & ? & _).
    by rewrite !Hor.
  - destruct src as [|? src]; [simpl in Hsz; lia|].
    apply (Hk 1%nat); [simpl; lia|lia|]. by rewrite be_take_1.
Qed.

Lemma put_many_bits_loop_ok fuel po src n :
  wf po -> all_bytes src -> 0 <= n <= 8 * size src -> n / 24 < Z.of_nat fuel ->
  puts po (take (Z.to_nat n) (bytes_bits src)) (asn_put_many_bits_loop fuel po src n).
Proof.
  revert po src n. induction fuel as [|fuel IH]; intros po src n Hwf Hb Hn Hf.
  { pose proof (Z.div_pos n 24). lia. }
  cbn [asn_put_many_bits_loop]. destruct (Z.eqb_spec n 0) as [->|].
  { by apply puts_ret. }
  destruct (Z.leb_spec 24 n).
  - replace (Z.to_nat n) with (8 * 3 + Z.to_nat (n - 24))%nat by lia.
    rewrite <- take_take_drop, take_bytes_bits, BitIn.drop_bytes_bits.
    unfold size in Hn.
    replace (bytes_bits (take 3 src)) with (Z_to_bits (Z.to_nat 24) (Z.lor (Z.lor (Z.shiftl (znth src 0) 16) (Z.shiftl (znth src 1) 8)) (znth src 2))).
    + apply puts_seq; [apply put_few_bits_ok; auto; lia|].
      intros po' Hwf'. apply IH; auto with asn.
      * unfold zdrop, size. rewrite length_drop. lia.
      * replace n with ((n - 24) + 1 * 24) in Hf by lia. rewrite Z.div_add in Hf; lia.
    + do 3 (destruct src as [|? src]; [simpl in Hn; lia|]). rewrite !Forall_cons in Hb. destruct Hb as (? & ? & ? & _).
      rewrite bytes_bits_be by (do 3 (constructor; [done|]); constructor).
      rewrite be_take_3. f_equal.
      change (znth _ 0) with z. change (znth _ 1) with z0. change (znth _ 2) with z1.
      unfold is_byte in *.
      change 16 with (8 + 8). rewrite <- (Z.shiftl_shiftl z 8 8), <- Z.shiftl_lor by lia.
      rewrite !lor_shiftl_add, !Z.shiftl_mul_pow2 by lia. lia.
  - rewrite <- put_last_value by (auto; lia).
    rewrite <- (app_nil_r (Z_to_bits _ _)). apply puts_seq; [apply put_few_bits_ok; auto; lia|].
    intros. by apply puts_ret.
Qed.

Lemma put_many_bits_ok po src n :
  wf po -> all_bytes src -> 0 <= n <= 8 * size src ->
  puts po (take (Z.to_nat n) (bytes_bits src)) (asn_put_many_bits po src n).
Proof.
  intros. apply put_many_bits_loop_ok; auto. pose proof (Z.div_pos n 24). lia.
Qed.

End BitOut.

(** * Theorems *)

(** Reading from a well-formed stream: with enough bits left, the call returns
    the value of the next [n] bits, moves exactly past them, and
    [asn_get_undo] gives them back; with too few bits left it returns -1 and
    changes nothing. *)
Theorem asn_get_few_bits_correct pd n :
  BitIn.wf pd -> 0 <= n <= 31 ->
  if n <=? BitIn.left_bits pd then
    let (v, pd') := BitIn.asn_get_few_bits pd n in
    v = bits_to_Z (take (Z.to_nat n) (BitIn.stream pd)) /\ BitIn.wf pd' /\
    BitIn.stream pd' = drop (Z.to_nat n) (BitIn.stream pd) /\
    BitIn.moved pd' = BitIn.moved pd + n /\
    BitIn.stream (BitIn.asn_get_undo pd' n) = BitIn.stream pd
  else BitIn.asn_get_few_bits pd n = (-1, pd).
Proof.
  intros Hwf Hn. destruct (Z.leb_spec n (BitIn.left_bits pd)).
  - rewrite BitIn.get_few_bits_ok by (auto; lia).
    destruct (BitIn.advance_ok pd n) as (? & ? & ? & ?); [done|lia|].
    rewrite BitIn.undo_advance by (auto; lia).
    destruct (BitIn.normalize_ok pd Hwf) as (_ & _ & _ & ? & _). done.
  - by apply BitIn.get_few_bits_end.
Qed.

Lemma asn_get_few_bits_correct_witness :
  BitIn.asn_get_few_bits (BitIn.asn_bit_data_new_contiguous [0xa5; 0xff] 12) 5 =
    (20, {| BitIn.buffer := Some [0xa5; 0xff; 0]; BitIn.nboff := 5; BitIn.nbits := 12; BitIn.moved := 5 |}) /\
  fst (BitIn.asn_get_few_bits (BitIn.asn_bit_data_new_contiguous [0xa5; 0xff] 12) 5) = 20.
Proof.
  assert (BitIn.wf (BitIn.asn_bit_data_new_contiguous [0xa5; 0xff] 12)) as Hwf.
  { split; [simpl; lia|]. split; [vm_compute; discriminate|].
    repeat constructor; unfold is_byte; lia. }
  pose proof (asn_get_few_bits_correct _ 5 Hwf ltac:(lia)) as H.
  split; [reflexivity|]. exact (proj1 H).
Defined.

(** Writing: with a callback that accepts the data, [asn_put_few_bits] followed by
    nothing else appends exactly the [obits] low-order bits of [bits], most
    significant first, to what was written before. *)
Theorem asn_put_few_bits_correct po bits obits :
  BitOut.wf po -> 0 < obits < 32 ->
  exists bs po', emits (BitOut.asn_put_few_bits po bits obits) (0, po') bs /\
    BitOut.wf po' /\ BitOut.flushed_bytes po' = BitOut.flushed_bytes po + size bs /\
    bytes_bits bs ++ BitOut.pending po' =
      BitOut.pending po ++ Z_to_bits (Z.to_nat obits) bits.
Proof.
  intros Hwf Hob. destruct (BitOut.put_few_bits_ok po bits obits Hwf Hob)
    as (bs & po' & ? & ? & ? & ? & ?). by exists bs, po'.
Qed.

Lemma asn_put_few_bits_correct_witness :
  exists bs po', emits (BitOut.asn_put_few_bits BitOut.outp_zero 5 3) (0, po') bs /\
    bytes_bits bs ++ BitOut.pending po' = [true; false; true].
Proof.
  destruct (asn_put_few_bits_correct BitOut.outp_zero 5 3 BitOut.wf_zero ltac:(lia)) as (bs & po' & He & _ & _ & E).
  exists bs, po'. split; [exact He|exact E].
Defined.

(** ** Writing fields and reading them back *)

(** Writes the fields [(value, width)] one after the other and flushes. *)
Fixpoint put_fields (fs : list (Z * Z)) (po : BitOut.asn_bit_outp) : enc (Z * BitOut.asn_bit_outp) :=
  match fs with
  | [] => BitOut.asn_put_aligned_flush po
  | (v, n) :: fs =>
    p ← BitOut.asn_put_few_bits po v n;
    let '(r, po) := p in
    if r <? 0 then Ret (r, po) else put_fields fs po
  end.

Fixpoint get_fields (ns : list Z) (pd : BitIn.asn_bit_data) : list Z :=
  match ns with
  | [] => []
  | n :: ns => let (v, pd) := BitIn.asn_get_few_bits pd n in v :: get_fields ns pd
  end.

Definition field_bits (fs : list (Z * Z)) : list bool :=
  concat (map (fun f => Z_to_bits (Z.to_nat f.2) f.1) fs).

Lemma put_fields_ok fs : Forall (fun f => 0 < f.2 < 32) fs -> forall po, BitOut.wf po ->
  exists bs po' k, emits (put_fields fs po) (0, po') bs /\ all_bytes bs /\
    bytes_bits bs = BitOut.pending po ++ field_bits fs ++ replicate k false.
Proof.
  induction 1 as [|[v n] fs Hf _ IH]; intros po Hwf; cbn [put_fields].
  - destruct (BitOut.aligned_flush_ok po Hwf) as (bs & po' & He & _ & Hb & _ & _ & E).
    exists bs, po'. eexists. split; [exact He|]. split; [done|exact E].
  - destruct (BitOut.put_few_bits_ok po v n Hwf Hf) as (bs1 & po1 & He1 & Hwf1 & Hb1 & _ & E1).
    destruct (IH po1 Hwf1) as (bs2 & po2 & k & He2 & Hb2 & E2).
    exists (bs1 ++ bs2), po2, k. split; [by eapply emits_bind; [exact He1|]|]. split; [by apply Forall_app|].
    rewrite bytes_bits_app, E2, app_assoc, E1. unfold field_bits. cbn [map concat]. by rewrite <- !app_assoc.
Qed.

Lemma get_fields_ok fs : Forall (fun f => 0 < f.2 < 32) fs -> forall pd rest, BitIn.wf pd ->
  BitIn.stream pd = field_bits fs ++ rest ->
  get_fields (map snd fs) pd = map (fun f => f.1 mod 2 ^ f.2) fs.
Proof.
  induction 1 as [|[v n] fs Hf _ IH]; intros pd rest Hwf Hs; [done|]. cbn [map fst snd get_fields] in *.
  unfold field_bits in Hs. cbn [map concat fst snd] in Hs. rewrite <- app_assoc in Hs.
  pose proof (BitIn.length_stream pd Hwf) as Hlen. rewrite Hs, length_app, length_Z_to_bits in Hlen.
  rewrite BitIn.get_few_bits_ok by (auto; lia). rewrite Hs, take_app_length' by (by rewrite length_Z_to_bits).
  rewrite bits_to_Z_bits, Z2Nat.id by lia. f_equal.
  destruct (BitIn.advance_ok pd n Hwf) as (Hwf' & Hs' & _); [lia|]. apply (IH _ rest Hwf').
  rewrite Hs', Hs, drop_app_length' by (by rewrite length_Z_to_bits). done.
Qed.

(** A fresh position at the start of whole octets. *)
Lemma new_contiguous_stream bs : all_bytes bs ->
  let pd := BitIn.asn_bit_data_new_contiguous bs (8 * size bs) in BitIn.wf pd /\ BitIn.stream pd = bytes_bits bs.
Proof.
  intros Hb pd. unfold pd, BitIn.asn_bit_data_new_contiguous, BitIn.wf, BitIn.stream, BitIn.buf.
  cbn [BitIn.buffer BitIn.nboff BitIn.nbits from_option id].
  assert ((8 * size bs + 7) / 8 = size bs) as ->.
  { rewrite Z.mul_comm, Z.div_add_l by lia. change (7 / 8) with 0. lia. }
  rewrite ztake_all by lia. pose proof (size_nonneg bs). split.
  - split; [lia|]. rewrite size_app. change (size [0]) with 1. split; [lia|].
    apply Forall_app. split; [done|]. repeat constructor; lia.
  - rewrite bytes_bits_app, drop_0, take_app_length'; [done|]. rewrite length_bytes_bits. unfold size. lia.
Qed.

(** Bit fields round trip: any sequence of fields of 1 to 31 bits, written with
    [asn_put_few_bits] and flushed, is read back field by field with
    [asn_get_few_bits], each value reduced to its width. *)
Theorem bit_fields_roundtrip fs : Forall (fun f => 0 < f.2 < 32) fs ->
  exists bs po, emits (put_fields fs BitOut.outp_zero) (0, po) bs /\
    get_fields (map snd fs) (BitIn.asn_bit_data_new_contiguous bs (8 * size bs)) = map (fun f => f.1 mod 2 ^ f.2) fs.
Proof.
  intros Hf. destruct (put_fields_ok fs Hf BitOut.outp_zero BitOut.wf_zero) as (bs & po & k & He & Hb & E).
  exists bs, po. split; [done|]. destruct (new_contiguous_stream bs Hb) as [Hwf Hs].
  apply (get_fields_ok fs Hf _ (replicate k false) Hwf). by rewrite Hs, E.
Qed.

Lemma bit_fields_roundtrip_witness :
  exists bs po, emits (put_fields [(5, 3); (1000, 10); (70000, 31)] BitOut.outp_zero) (0, po) bs /\
    get_fields [3; 10; 31] (BitIn.asn_bit_data_new_contiguous bs (8 * size bs)) = [5; 1000; 70000].
Proof. apply (bit_fields_roundtrip [(5, 3); (1000, 10); (70000, 31)]). repeat constructor; done. Defined.
