(* ===== verification/Integer.v ===== *)
(** The INTEGER type: support/INTEGER.c and INTEGER.h.

    Conversions between the arbitrary-size big-endian INTEGER_t and the native
    64-bit types, the comparison function and the decimal parsers.  The
    theorems give the exact numeric meaning of each conversion, including the
    range checks, in terms of two's complement ([twos]) and unsigned ([be])
    values of the byte buffer. *)

From stdpp Require Import prelude strings.
From S2P Require Import Prelude.

(** [INTEGER_t]: the buffer pointer ([None] for NULL); [size] is its length. *)
Abbreviation INTEGER_t := (option bytes).

Definition INTMAX_MIN : Z := - 2 ^ 63.
Definition INTMAX_MAX : Z := 2 ^ 63 - 1.
Definition UINTMAX_MAX : Z := 2 ^ 64 - 1.
Abbreviation LONG_MIN := INTMAX_MIN.
Abbreviation LONG_MAX := INTMAX_MAX.
Abbreviation ULONG_MAX := UINTMAX_MAX.

(** * From INTEGER to native integers *)

(** The conversion engine [value = (value << 8) | *b] on [uintmax_t]. *)
Definition convert_from (value : Z) (l : bytes) : Z :=
  fold_left (fun value b => u64 (Z.lor (Z.shiftl value 8) b)) l value.

Definition asn__integer_convert (b : bytes) : Z :=
  let value := if ctrue (Z.shiftr (znth b 0) 7) then u64 (-1) else 0 in
  s64 (convert_from value b).

(** "Skip out the insignificant leading bytes": the loop over
    [b < end - 1] that drops a 0x00 before a clear and a 0xff before a set
    sign bit. *)
Fixpoint skip_insignificant (b : bytes) : bytes :=
  match b with
  | b0 :: (b1 :: _) as b' =>
    if (b0 =? 0) && (Z.land b1 128 =? 0) then skip_insignificant b'
    else if (b0 =? 255) && negb (Z.land b1 128 =? 0) then skip_insignificant b'
    else b
  | _ => b
  end.

(** [None] is the result -1 with errno set; [Some v] stores [v]. *)
Definition asn_INTEGER2imax (iptr : INTEGER_t) : option Z :=
  match iptr with
  | None => None
  | Some b =>
    let b := if 8 <? size b then skip_insignificant b else b in
    if 8 <? size b then None
    else match b with
         | [] => Some 0
         | _ => Some (asn__integer_convert b)
         end
  end.

(** "If all extra leading bytes are zeroes, ignore them." *)
Fixpoint skip_leading_zeroes (b : bytes) : option bytes :=
  if 8 <? size b then
    match b with
    | [] => Some []
    | b0 :: b' => if ctrue b0 then None else skip_leading_zeroes b'
    end
  else Some b.

Definition asn_INTEGER2umax (iptr : INTEGER_t) : option Z :=
  match iptr with
  | None => None
  | Some b =>
    match skip_leading_zeroes b with
    | None => None
    | Some b => Some (convert_from 0 b)
    end
  end.

Definition asn_INTEGER2long (iptr : INTEGER_t) : option Z :=
  match asn_INTEGER2imax iptr with
  | Some v => if (v <? LONG_MIN) || (LONG_MAX <? v) then None else Some v
  | None => None
  end.

Definition asn_INTEGER2ulong (iptr : INTEGER_t) : option Z :=
  match asn_INTEGER2umax iptr with
  | Some v => if ULONG_MAX <? v then None else Some v
  | None => None
  end.

Definition asn_INTEGER2int64 (st : INTEGER_t) : option Z :=
  match asn_INTEGER2imax st with
  | Some v => if (v <? INTMAX_MIN) || (INTMAX_MAX <? v) then None else Some v
  | None => None
  end.

Definition asn_INTEGER2uint64 (st : INTEGER_t) : option Z :=
  match asn_INTEGER2umax st with
  | Some v => if UINTMAX_MAX <? v then None else Some v
  | None => None
  end.

(** * From native integers to INTEGER *)

(** The eight bytes of the [intmax_t] are scanned from the most significant
    one; the rest after the insignificant ones is copied. *)
Definition asn_imax2INTEGER (value : Z) : INTEGER_t :=
  Some (skip_insignificant (be_bytes 8 value)).

Definition asn_umax2INTEGER (value : Z) : INTEGER_t :=
  if value <=? UINTMAX_MAX / 2 then asn_imax2INTEGER (s64 value)
  else Some (0 :: be_bytes 8 value).

Definition asn_long2INTEGER (value : Z) : INTEGER_t := asn_imax2INTEGER value.

(** The [unsigned long] argument is converted to [intmax_t] by the call. *)
Definition asn_ulong2INTEGER (value : Z) : INTEGER_t := asn_imax2INTEGER (s64 value).

Definition asn_int642INTEGER (value : Z) : INTEGER_t :=
  Some (skip_insignificant (be_bytes 8 value)).

Definition asn_uint642INTEGER (value : Z) : INTEGER_t :=
  if value <=? INTMAX_MAX then asn_int642INTEGER (s64 value)
  else Some (0 :: be_bytes 8 value).

(** * Comparison *)

(** [memcmp] of two buffers of the same size, up to the sign of its result. *)
Fixpoint memcmp (a b : bytes) : Z :=
  match a, b with
  | x :: a, y :: b => if x <? y then -1 else if y <? x then 1 else memcmp a b
  | _, _ => 0
  end.

Definition sign_of (b : bytes) : Z := if ctrue (Z.land (znth b 0) 128) then -1 else 1.

(** [INTEGER_compare]; [None] is a NULL structure pointer and [Some l] a
    structure with contents [l].  When only [b] has contents the code takes the
    sign from [a->buf[0]], outside [a]'s contents: that byte is [junk]. *)
Definition INTEGER_compare (junk : Z) (aptr bptr : option bytes) : Z :=
  match aptr, bptr with
  | Some a, Some b =>
    if ctrue (size a) && ctrue (size b) then
      let sign_a := sign_of a in
      let sign_b := sign_of b in
      if sign_a <? sign_b then -1 else
      if sign_b <? sign_a then 1 else
      if size a <? size b then -1 * sign_a
      else if size b <? size a then 1 * sign_b
      else sign_a * memcmp a b
    else if ctrue (size a) then 1 * sign_of a
    else if ctrue (size b) then -1 * (if ctrue (Z.land junk 128) then -1 else 1)
    else 0
  | None, None => 0
  | None, Some _ => -1
  | Some _, None => 1
  end.

(** [INTEGER_copy]: the new contents of the destination. *)
Definition INTEGER_copy (bptr : option INTEGER_t) : option INTEGER_t :=
  match bptr with
  | None => None
  | Some None | Some (Some []) => Some None
  | Some (Some b) => Some (Some b)
  end.

(** * Decimal numbers *)

Inductive asn_strtox_result :=
  | ASN_STRTOX_ERROR_RANGE
  | ASN_STRTOX_ERROR_INVAL
  | ASN_STRTOX_EXPECT_MORE
  | ASN_STRTOX_OK
  | ASN_STRTOX_EXTRA_DATA.

#[export] Instance asn_strtox_result_eq_dec : EqDecision asn_strtox_result.
Proof. solve_decision. Defined.

Definition is_digit (c : Z) : bool := (0x30 <=? c) && (c <=? 0x39).

(** The digit loop of [asn_strtoimax_lim]: [pos] is [str] relative to the start
    of the string, [l] the characters between [str] and [*end]. Returns the
    result, the new [*end] and the value stored (if any). *)
Fixpoint strtoimax_loop (sign last_digit_max value : Z) (pos : Z) (l : bytes)
    : asn_strtox_result * Z * option Z :=
  let upper_boundary := INTMAX_MAX / 10 in
  match l with
  | [] => (ASN_STRTOX_OK, pos, Some (sign * value))
  | c :: l' =>
    if is_digit c then
      let d := c - 0x30 in
      if value <? upper_boundary then
        strtoimax_loop sign last_digit_max (value * 10 + d) (pos + 1) l'
      else if value =? upper_boundary then
        if d <=? last_digit_max then
          let '(sign, value) :=
            if 0 <? sign then (sign, value * 10 + d) else (1, - value * 10 - d) in
          match l' with
          | c' :: _ =>
            if is_digit c' then (ASN_STRTOX_ERROR_RANGE, pos + 1, None)
            else (ASN_STRTOX_EXTRA_DATA, pos + 1, Some (sign * value))
          | [] => (ASN_STRTOX_OK, pos + 1, Some (sign * value))
          end
        else (ASN_STRTOX_ERROR_RANGE, pos, None)
      else (ASN_STRTOX_ERROR_RANGE, pos, None)
    else (ASN_STRTOX_EXTRA_DATA, pos, Some (sign * value))
  end.

(** [str] is the string up to the given [*end]. *)
Definition asn_strtoimax_lim (str : bytes) : asn_strtox_result * Z * option Z :=
  let last_digit_max := INTMAX_MAX mod 10 in
  match str with
  | [] => (ASN_STRTOX_ERROR_INVAL, 0, None)
  | c :: str' =>
    if c =? 0x2d then
      match str' with
      | [] => (ASN_STRTOX_EXPECT_MORE, 1, None)
      | _ => strtoimax_loop (-1) (last_digit_max + 1) 0 1 str'
      end
    else if c =? 0x2b then
      match str' with
      | [] => (ASN_STRTOX_EXPECT_MORE, 1, None)
      | _ => strtoimax_loop 1 last_digit_max 0 1 str'
      end
    else strtoimax_loop 1 last_digit_max 0 0 str
  end.

Fixpoint strtoumax_loop (value : Z) (pos : Z) (l : bytes)
    : asn_strtox_result * Z * option Z :=
  let upper_boundary := UINTMAX_MAX / 10 in
  let last_digit_max := UINTMAX_MAX mod 10 in
  match l with
  | [] => (ASN_STRTOX_OK, pos, Some value)
  | c :: l' =>
    if is_digit c then
      let d := c - 0x30 in
      if value <? upper_boundary then strtoumax_loop (value * 10 + d) (pos + 1) l'
      else if value =? upper_boundary then
        if d <=? last_digit_max then
          let value := value * 10 + d in
          match l' with
          | c' :: _ =>
            if is_digit c' then (ASN_STRTOX_ERROR_RANGE, pos + 1, None)
            else (ASN_STRTOX_EXTRA_DATA, pos + 1, Some value)
          | [] => (ASN_STRTOX_OK, pos + 1, Some value)
          end
        else (ASN_STRTOX_ERROR_RANGE, pos, None)
      else (ASN_STRTOX_ERROR_RANGE, pos, None)
    else (ASN_STRTOX_EXTRA_DATA, pos, Some value)
  end.

Definition asn_strtoumax_lim (str : bytes) : asn_strtox_result * Z * option Z :=
  match str with
  | [] => (ASN_STRTOX_ERROR_INVAL, 0, None)
  | c :: str' =>
    if c =? 0x2d then (ASN_STRTOX_ERROR_INVAL, size str, None)
    else if c =? 0x2b then
      match str' with
      | [] => (ASN_STRTOX_EXPECT_MORE, 1, None)
      | _ => strtoumax_loop 0 1 str'
      end
    else strtoumax_loop 0 0 str
  end.

Definition asn_strtol_lim (str : bytes) : asn_strtox_result * Z * option Z :=
  match asn_strtoimax_lim str with
  | (ASN_STRTOX_OK, e, Some v) =>
    if (LONG_MIN <=? v) && (v <=? LONG_MAX) then (ASN_STRTOX_OK, e, Some v)
    else (ASN_STRTOX_ERROR_RANGE, e, None)
  | (ASN_STRTOX_EXTRA_DATA, e, Some v) =>
    if (LONG_MIN <=? v) && (v <=? LONG_MAX) then (ASN_STRTOX_EXTRA_DATA, e, Some v)
    else (ASN_STRTOX_ERROR_RANGE, e, None)
  | (r, e, _) => (r, e, None)
  end.

Definition asn_strtoul_lim (str : bytes) : asn_strtox_result * Z * option Z :=
  match asn_strtoumax_lim str with
  | (ASN_STRTOX_OK, e, Some v) =>
    if v <=? ULONG_MAX then (ASN_STRTOX_OK, e, Some v) else (ASN_STRTOX_ERROR_RANGE, e, None)
  | (ASN_STRTOX_EXTRA_DATA, e, Some v) =>
    if v <=? ULONG_MAX then (ASN_STRTOX_EXTRA_DATA, e, Some v)
    else (ASN_STRTOX_ERROR_RANGE, e, None)
  | (r, e, _) => (r, e, None)
  end.

(** * Two's complement *)

Definition sbyte (b : Z) : Z := if 128 <=? b then b - 256 else b.

(** The number an INTEGER's contents stand for. *)
Definition twos (l : bytes) : Z :=
  match l with
  | [] => 0
  | b :: t => sbyte b * 256 ^ size t + be t
  end.

Lemma twos_cons_be b t : twos (b :: t) = be (b :: t) - (if 128 <=? b then 256 ^ size (b :: t) else 0).
Proof.
  unfold twos, sbyte. rewrite be_cons, size_cons, Z.pow_add_r by (auto with asn; lia).
  change (256 ^ 1) with 256. destruct (128 <=? b); ring.
Qed.

Lemma skip_cons b0 b1 t :
  skip_insignificant (b0 :: b1 :: t) =
  if (b0 =? 0) && (Z.land b1 128 =? 0) then skip_insignificant (b1 :: t)
  else if (b0 =? 255) && negb (Z.land b1 128 =? 0) then skip_insignificant (b1 :: t)
  else b0 :: b1 :: t.
Proof. done. Qed.

Lemma twos_skip l : all_bytes l -> twos (skip_insignificant l) = twos l.
Proof.
  induction 1 as [|b0 [|b1 t] Hb Hl IH]; [done|done|].
  rewrite skip_cons. inv Hl. rewrite land_128 by done.
  unfold is_byte in *.
  assert (b0 = 0 -> b1 < 128 -> twos (b1 :: t) = twos (b0 :: b1 :: t)) as Hz.
  { intros -> ?. rewrite !twos_cons_be, (be_cons 0).
    destruct (Z.leb_spec 128 b1); [lia|]. change (128 <=? 0) with false. cbv iota. ring. }
  assert (b0 = 255 -> 128 <= b1 -> twos (b1 :: t) = twos (b0 :: b1 :: t)) as Hf.
  { intros -> ?. rewrite !twos_cons_be, (be_cons 255), (size_cons 255).
    destruct (Z.leb_spec 128 b1); [|lia]. change (128 <=? 255) with true. cbv iota.
    rewrite (Z.pow_add_r 256 1) by (auto with asn; lia). change (256 ^ 1) with 256. ring. }
  destruct (Z.eqb_spec b0 0), (Z.ltb_spec b1 128); cbn [andb negb];
    try (rewrite IH; auto);
    destruct (Z.eqb_spec b0 255); cbn [andb negb]; try done; try (rewrite IH; auto).
Qed.

Lemma twos_range l : all_bytes l -> l <> [] ->
  - (128 * 256 ^ (size l - 1)) <= twos l < 128 * 256 ^ (size l - 1).
Proof.
  intros Hl Hne. destruct Hl as [|b t Hb Ht]; [done|].
  unfold twos, sbyte. rewrite size_cons. replace (1 + size t - 1) with (size t) by lia.
  pose proof (be_bound t Ht). unfold is_byte in Hb. destruct (Z.leb_spec 128 b); nia.
Qed.

(** No further leading byte can be dropped. *)
Definition minimal (l : bytes) : Prop :=
  match l with
  | b0 :: b1 :: _ => ~ (b0 = 0 /\ b1 < 128) /\ ~ (b0 = 255 /\ 128 <= b1)
  | _ => True
  end.

Lemma minimal_skip l : all_bytes l -> minimal (skip_insignificant l).
Proof.
  induction 1 as [|b0 [|b1 t] Hb Hl IH]; [done|done|].
  rewrite skip_cons. inv Hl. rewrite land_128 by done.
  destruct (Z.eqb_spec b0 0), (Z.ltb_spec b1 128); cbn [andb negb]; try done;
    destruct (Z.eqb_spec b0 255); cbn [andb negb]; try done; simpl; lia.
Qed.

Lemma skip_suffix l : exists p, l = p ++ skip_insignificant l.
Proof.
  induction l as [|b0 [|b1 t] IH]; [by exists []|by exists []|].
  destruct IH as [p Hp]. rewrite skip_cons.
  destruct ((b0 =? 0) && _); [exists (b0 :: p); cbn [app]; by f_equal|].
  destruct ((b0 =? 255) && _); [exists (b0 :: p); cbn [app]; by f_equal|]. by exists [].
Qed.

Lemma skip_bytes l : all_bytes l -> all_bytes (skip_insignificant l).
Proof. intros H. destruct (skip_suffix l) as [p Hp]. rewrite Hp in H. by apply Forall_app in H as [_ H]. Qed.

Lemma skip_nonempty l : l <> [] -> skip_insignificant l <> [].
Proof.
  induction l as [|b0 [|b1 t] IH]; intros Hne; [by destruct Hne|done|]. rewrite skip_cons.
  destruct ((b0 =? 0) && _); [by apply IH|]. destruct ((b0 =? 255) && _); [by apply IH|done].
Qed.

(** A minimal buffer of more than [n] bytes does not fit [n] bytes. *)
Lemma minimal_large l n : all_bytes l -> minimal l -> 1 <= n < size l ->
  twos l < - (128 * 256 ^ (n - 1)) \/ 128 * 256 ^ (n - 1) <= twos l.
Proof.
  intros Hl Hm Hn. destruct Hl as [|b0 t Hb Ht]; [rewrite size_nil in Hn; lia|].
  destruct Ht as [|b1 t Hb1 Ht]; [rewrite size_cons, size_nil in Hn; lia|].
  rewrite !size_cons in Hn. simpl in Hm. unfold is_byte in *.
  assert (256 ^ (n - 1) <= 256 ^ size t) by (apply Z.pow_le_mono_r; lia).
  pose proof (be_bound t Ht) as Hbe.
  unfold twos, sbyte. rewrite be_cons, size_cons, Z.pow_add_r by (auto with asn; lia).
  change (256 ^ 1) with 256. assert (0 < 256 ^ size t) by (apply Z.pow_pos_nonneg; auto with asn; lia).
  destruct (Z.leb_spec 128 b0).
  - left. assert (b0 - 256 <= -2 \/ b0 = 255 /\ b1 < 128) as [|[-> ?]] by lia; nia.
  - right. assert (1 <= b0 \/ b0 = 0 /\ 128 <= b1) as [|[-> ?]] by lia; nia.
Qed.

(** ** The conversion engine *)

Lemma convert_from_mod v l : all_bytes l -> convert_from v l mod 2 ^ 64 = be_from v l mod 2 ^ 64.
Proof.
  intros Hl. revert v. induction Hl as [|b l Hb Hl IH]; intros v; [done|].
  change (convert_from v (b :: l)) with (convert_from (u64 (Z.lor (Z.shiftl v 8) b)) l).
  rewrite IH, be_from_cons, (be_from_shift (u64 _) l), (be_from_shift (v * 256 + b) l). unfold is_byte in Hb.
  rewrite lor_shiftl_add by lia. change (2 ^ 8) with 256. unfold wrap.
  by rewrite <- Z.add_mod_idemp_l, Z.mul_mod_idemp_l, Z.add_mod_idemp_l by lia.
Qed.

Lemma convert_from_range v l : 0 <= v < 2 ^ 64 -> 0 <= convert_from v l < 2 ^ 64.
Proof.
  revert v. induction l as [|b l IH]; intros v Hv; [done|].
  apply (IH (u64 _)). unfold wrap. apply Z.mod_pos_bound. lia.
Qed.

Lemma s64_mod a b : a mod 2 ^ 64 = b mod 2 ^ 64 -> s64 a = s64 b.
Proof. intros H. unfold s64. by rewrite <- Z.add_mod_idemp_l, H, Z.add_mod_idemp_l by lia. Qed.

Lemma shiftr_7 b : is_byte b -> ctrue (Z.shiftr b 7) = (128 <=? b).
Proof.
  intros [? ?]. unfold ctrue. rewrite Z.shiftr_div_pow2 by lia. change (2 ^ 7) with 128.
  destruct (Z.leb_spec 128 b).
  - destruct (Z.eqb_spec (b / 128) 0) as [E|]; [|done].
    apply Z.div_small_iff in E; lia.
  - by rewrite Z.div_small by lia.
Qed.

Lemma integer_convert_twos l : all_bytes l -> l <> [] -> size l <= 8 ->
  asn__integer_convert l = twos l.
Proof.
  intros Hl Hne Hs. pose proof (twos_range l Hl Hne) as Hr.
  assert (128 * 256 ^ (size l - 1) <= 2 ^ 63).
  { change (2 ^ 63) with (128 * 256 ^ 7).
    apply Z.mul_le_mono_nonneg_l; [lia|]. apply Z.pow_le_mono_r; lia. }
  rewrite <- (s64_id (twos l)) by lia. unfold asn__integer_convert. apply s64_mod.
  rewrite convert_from_mod by done. destruct l as [|b t]; [done|].
  change (znth (b :: t) 0) with b. inv Hl. rewrite shiftr_7 by done.
  rewrite twos_cons_be, be_from_shift.
  destruct (128 <=? b); [|f_equal; lia].
  unfold wrap. rewrite <- Z.add_mod_idemp_l, Z.mul_mod_idemp_l, Z.add_mod_idemp_l by lia. f_equal. ring.
Qed.

(** * Theorems *)

(** The signed conversion yields the two's complement value of the contents
    exactly when it fits. *)
Lemma INTEGER2imax_twos l : all_bytes l -> l <> [] ->
  asn_INTEGER2imax (Some l) =
  if (INTMAX_MIN <=? twos l) && (twos l <=? INTMAX_MAX) then Some (twos l) else None.
Proof.
  intros Hl Hne. unfold asn_INTEGER2imax.
  set (b := if 8 <? size l then _ else _).
  assert (all_bytes b /\ b <> [] /\ twos b = twos l /\ (8 < size b -> minimal b)) as (Hb & Hbne & Ht & Hmin).
  { unfold b. destruct (Z.ltb_spec 8 (size l)).
    - split; [by apply skip_bytes|]. split; [by apply skip_nonempty|].
      split; [by apply twos_skip|]. intros _. by apply minimal_skip.
    - repeat split; auto; lia. }
  pose proof (twos_range b Hb Hbne) as Hr. rewrite <- Ht.
  change INTMAX_MIN with (- (128 * 256 ^ (8 - 1))). change INTMAX_MAX with (128 * 256 ^ (8 - 1) - 1).
  destruct (Z.ltb_spec 8 (size b)).
  - destruct (minimal_large b 8 Hb (Hmin ltac:(lia)) ltac:(lia)).
    + destruct (Z.leb_spec (- (128 * 256 ^ (8 - 1))) (twos b)); [lia|done].
    + destruct (Z.leb_spec (twos b) (128 * 256 ^ (8 - 1) - 1)); [lia|].
      by rewrite andb_false_r.
  - assert (256 ^ (size b - 1) <= 256 ^ (8 - 1)) by (apply Z.pow_le_mono_r; lia).
    destruct (Z.leb_spec (- (128 * 256 ^ (8 - 1))) (twos b)); [|lia].
    destruct (Z.leb_spec (twos b) (128 * 256 ^ (8 - 1) - 1)); [|lia]. cbn [andb].
    destruct b as [|b0 b'] eqn:E; [done|]. rewrite <- E in *.
    by rewrite integer_convert_twos by auto.
Qed.

Lemma skip_leading_zeroes_ok l : all_bytes l ->
  skip_leading_zeroes l = None /\ 2 ^ 64 <= be l \/
  exists k, skip_leading_zeroes l = Some k /\ all_bytes k /\ size k <= 8 /\ be k = be l.
Proof.
  induction 1 as [|b l Hb Hl IH]; cbn [skip_leading_zeroes].
  { right. by exists []. }
  destruct (Z.ltb_spec 8 (size (b :: l))) as [Hs|Hs].
  - unfold ctrue. destruct (Z.eqb_spec b 0) as [->|Hnz]; simpl negb; cbv iota.
    + rewrite be_cons, Z.mul_0_l, Z.add_0_l. exact IH.
    + left. split; [done|]. rewrite be_cons, size_cons in *. pose proof (be_bound l Hl).
      assert (256 ^ 8 <= 256 ^ size l) by (apply Z.pow_le_mono_r; lia).
      unfold is_byte in Hb. change (2 ^ 64) with (256 ^ 8). nia.
  - right. exists (b :: l). repeat split; auto.
Qed.

(** The unsigned conversion yields the unsigned value of the contents exactly
    when it fits. *)
Lemma INTEGER2umax_be l : all_bytes l ->
  asn_INTEGER2umax (Some l) = if be l <=? UINTMAX_MAX then Some (be l) else None.
Proof.
  intros Hl. unfold asn_INTEGER2umax, UINTMAX_MAX.
  destruct (skip_leading_zeroes_ok l Hl) as [[-> Hbig]|(k & -> & Hk & Hs & <-)].
  - destruct (Z.leb_spec (be l) (2 ^ 64 - 1)); [lia|done].
  - pose proof (be_bound k Hk) as Hb.
    assert (256 ^ size k <= 256 ^ 8) by (apply Z.pow_le_mono_r; lia). change (256 ^ 8) with (2 ^ 64) in *.
    destruct (Z.leb_spec (be k) (2 ^ 64 - 1)); [|lia]. f_equal.
    pose proof (convert_from_range 0 k ltac:(lia)) as Hr.
    rewrite <- (Z.mod_small (convert_from 0 k) (2 ^ 64)), convert_from_mod, Z.mod_small by (auto; lia). done.
Qed.

Lemma INTEGER2long_twos l : all_bytes l -> l <> [] ->
  asn_INTEGER2long (Some l) =
  if (LONG_MIN <=? twos l) && (twos l <=? LONG_MAX) then Some (twos l) else None.
Proof.
  intros Hl Hne. unfold asn_INTEGER2long. rewrite INTEGER2imax_twos by done.
  destruct (Z.leb_spec LONG_MIN (twos l)), (Z.leb_spec (twos l) LONG_MAX); cbn [andb]; try done.
  destruct (Z.ltb_spec (twos l) LONG_MIN), (Z.ltb_spec LONG_MAX (twos l)); try lia. done.
Qed.

Lemma INTEGER2ulong_be l : all_bytes l ->
  asn_INTEGER2ulong (Some l) = if be l <=? ULONG_MAX then Some (be l) else None.
Proof.
  intros Hl. unfold asn_INTEGER2ulong. rewrite INTEGER2umax_be by done.
  destruct (Z.leb_spec (be l) UINTMAX_MAX); [|done].
  by destruct (Z.ltb_spec UINTMAX_MAX (be l)); [lia|].
Qed.

(** The conversions to [long] and [unsigned long] yield the two's complement and
    the unsigned value of the contents exactly when it fits the 64-bit type,
    whatever the number of leading padding bytes, and report a range error
    otherwise; a negative INTEGER converts to a large unsigned number. *)
Theorem asn_INTEGER2long_correct l : all_bytes l -> l <> [] ->
  asn_INTEGER2long (Some l) =
    (if (LONG_MIN <=? twos l) && (twos l <=? LONG_MAX) then Some (twos l) else None) /\
  asn_INTEGER2ulong (Some l) = (if be l <=? ULONG_MAX then Some (be l) else None).
Proof. intros Hl Hne. split; [by apply INTEGER2long_twos|by apply INTEGER2ulong_be]. Qed.

Lemma asn_INTEGER2long_correct_witness :
  asn_INTEGER2long (Some [0xff; 0xff; 0xff; 0xff; 0xff; 0xff; 0xff; 0xff; 0xff; 0x85]) = Some (-123) /\
  asn_INTEGER2ulong (Some [0xff; 0xff; 0xff; 0xff; 0xff; 0xff; 0xff; 0xff; 0xff; 0x85]) = None.
Proof.
  apply (asn_INTEGER2long_correct [0xff; 0xff; 0xff; 0xff; 0xff; 0xff; 0xff; 0xff; 0xff; 0x85]);
    [repeat constructor; unfold is_byte; lia|discriminate].
Defined.

Lemma imax_contents v : INTMAX_MIN <= v <= INTMAX_MAX ->
  exists l, asn_imax2INTEGER v = Some l /\ all_bytes l /\ l <> [] /\ minimal l /\
            twos l = v /\ size l <= 8.
Proof.
  intros Hv. eexists. split; [done|].
  pose proof (all_bytes_be_bytes 8 v) as Hb.
  split; [by apply skip_bytes|]. split; [by apply skip_nonempty|].
  split; [by apply minimal_skip|]. split.
  - rewrite twos_skip by done. rewrite <- integer_convert_twos by (auto; done).
    unfold asn__integer_convert.
    transitivity (s64 v); [apply s64_mod|apply s64_id; unfold INTMAX_MIN, INTMAX_MAX in *; lia].
    rewrite convert_from_mod, be_from_shift, be_be_bytes by done. rewrite size_be_bytes.
    change (256 ^ Z.of_nat 8) with (2 ^ 64). rewrite Z.add_comm, Z.mod_add, Z.mod_mod; lia.
  - destruct (skip_suffix (be_bytes 8 v)) as [p Hp]. apply (f_equal size) in Hp.
    rewrite size_be_bytes, size_app in Hp. pose proof (size_nonneg p). lia.
Qed.

(** Signed round trip: what [asn_imax2INTEGER] stores is the shortest two's
    complement representation, and it converts back to the same number. *)
Theorem asn_imax2INTEGER_roundtrip v : INTMAX_MIN <= v <= INTMAX_MAX ->
  (exists l, asn_imax2INTEGER v = Some l /\ twos l = v /\
     forall k, all_bytes k -> k <> [] -> twos k = v -> size l <= size k) /\
  asn_INTEGER2imax (asn_imax2INTEGER v) = Some v.
Proof.
  intros Hv. destruct (imax_contents v Hv) as (l & -> & Hl & Hne & Hmin & Ht & Hs).
  split.
  - exists l. split; [done|]. split; [done|]. intros k Hk Hkne Htk.
    destruct (Z.le_gt_cases (size l) (size k)); [done|].
    assert (1 <= size k) by (destruct k; [done|rewrite size_cons; pose proof (size_nonneg k); lia]).
    pose proof (twos_range k Hk Hkne). pose proof (minimal_large l (size k) Hl Hmin ltac:(lia)). lia.
  - rewrite INTEGER2imax_twos, Ht by done. unfold INTMAX_MIN, INTMAX_MAX in *.
    destruct (Z.leb_spec (- 2 ^ 63) v); [|lia]. by destruct (Z.leb_spec v (2 ^ 63 - 1)); [|lia].
Qed.

Lemma asn_imax2INTEGER_roundtrip_witness :
  asn_INTEGER2imax (asn_imax2INTEGER (-32768)) = Some (-32768) /\
  asn_imax2INTEGER (-32768) = Some [128; 0].
Proof.
  split; [|reflexivity].
  apply (asn_imax2INTEGER_roundtrip (-32768)). unfold INTMAX_MIN, INTMAX_MAX. lia.
Defined.

(** Unsigned round trip through [asn_umax2INTEGER] over the whole range. *)
Theorem asn_umax2INTEGER_roundtrip v : 0 <= v <= UINTMAX_MAX ->
  asn_INTEGER2umax (asn_umax2INTEGER v) = Some v.
Proof.
  intros Hv. unfold asn_umax2INTEGER, UINTMAX_MAX in *. change ((2 ^ 64 - 1) / 2) with (2 ^ 63 - 1).
  destruct (Z.leb_spec v (2 ^ 63 - 1)).
  - rewrite s64_id by lia.
    destruct (imax_contents v) as (l & -> & Hl & Hne & _ & Ht & Hs); [unfold INTMAX_MIN, INTMAX_MAX; lia|].
    rewrite INTEGER2umax_be by done. destruct l as [|b t]; [done|].
    rewrite twos_cons_be in Ht. pose proof (be_bound (b :: t) Hl).
    destruct (Z.leb_spec 128 b); [lia|]. replace (be (b :: t)) with v by lia.
    unfold UINTMAX_MAX. by destruct (Z.leb_spec v (2 ^ 64 - 1)); [|lia].
  - rewrite INTEGER2umax_be.
    + rewrite be_cons, be_be_bytes, Z.mul_0_l, Z.add_0_l. change (256 ^ Z.of_nat 8) with (2 ^ 64).
      rewrite Z.mod_small by lia. unfold UINTMAX_MAX. by destruct (Z.leb_spec v (2 ^ 64 - 1)); [|lia].
    + constructor; [unfold is_byte; lia|apply all_bytes_be_bytes].
Qed.

Lemma asn_umax2INTEGER_roundtrip_witness :
  asn_INTEGER2umax (asn_umax2INTEGER (2 ^ 64 - 1)) = Some (2 ^ 64 - 1).
Proof. apply (asn_umax2INTEGER_roundtrip (2 ^ 64 - 1)). unfold UINTMAX_MAX. lia. Defined.

Lemma s64_high v : 2 ^ 63 <= v <= ULONG_MAX -> s64 v = v - 2 ^ 64.
Proof.
  intros Hv. unfold UINTMAX_MAX in Hv. unfold s64. replace (v + 2 ^ 63) with ((v - 2 ^ 63) + 1 * 2 ^ 64) by lia.
  rewrite Z.mod_add, Z.mod_small by lia. lia.
Qed.

(** What the upper half of the unsigned range is stored as. *)
Lemma ulong_contents v : 2 ^ 63 <= v <= ULONG_MAX ->
  exists l, asn_ulong2INTEGER v = Some l /\ all_bytes l /\ l <> [] /\ twos l = v - 2 ^ 64 /\ twos l < 0.
Proof.
  intros Hv. unfold asn_ulong2INTEGER. rewrite s64_high by done. unfold UINTMAX_MAX in Hv.
  destruct (imax_contents (v - 2 ^ 64)) as (l & -> & Hl & Hne & _ & Ht & _);
    [unfold INTMAX_MIN, INTMAX_MAX; lia|].
  exists l. repeat split; auto. lia.
Qed.

(** [asn_ulong2INTEGER] goes through the signed conversion: numbers from 2^63 on
    are stored as the negative number with the same bit pattern. *)
Theorem asn_ulong2INTEGER_truncates v : 2 ^ 63 <= v <= ULONG_MAX ->
  exists l, asn_ulong2INTEGER v = Some l /\ twos l = v - 2 ^ 64 /\ twos l < 0.
Proof. intros Hv. destruct (ulong_contents v Hv) as (l & ? & _ & _ & ? & ?). by exists l. Qed.

Lemma asn_ulong2INTEGER_truncates_witness :
  exists l, asn_ulong2INTEGER (2 ^ 64 - 1) = Some l /\ twos l = -1 /\ twos l < 0.
Proof.
  destruct (asn_ulong2INTEGER_truncates (2 ^ 64 - 1)) as (l & H1 & H2 & H3).
  - unfold UINTMAX_MAX. lia.
  - exists l. split; [exact H1|]. split; [exact H2|exact H3].
Defined.

(** ** Comparison *)

Lemma memcmp_be a b : all_bytes a -> all_bytes b -> length a = length b ->
  Z.sgn (memcmp a b) = Z.sgn (be a - be b).
Proof.
  intros Ha. revert b. induction Ha as [|x a Hx Ha IH]; intros b Hb Hlen.
  { destruct b; done. }
  destruct Hb as [|y b Hy Hb]; [done|]. simpl in Hlen.
  cbn [memcmp]. rewrite !be_cons. assert (size a = size b) as -> by (unfold size; lia).
  pose proof (be_bound a Ha) as H1. pose proof (be_bound b Hb) as H2.
  assert (size a = size b) as E by (unfold size; lia). rewrite E in H1.
  destruct (Z.ltb_spec x y); [rewrite (Z.sgn_neg (_ - _)) by nia; done|].
  destruct (Z.ltb_spec y x); [rewrite (Z.sgn_pos (_ - _)) by nia; done|].
  rewrite IH by (auto; lia). f_equal. nia.
Qed.

Lemma sign_of_cons b t : is_byte b -> sign_of (b :: t) = if 128 <=? b then -1 else 1.
Proof.
  intros Hb. unfold sign_of, ctrue. change (znth (b :: t) 0) with b. rewrite land_128 by done.
  destruct (Z.ltb_spec b 128), (Z.leb_spec 128 b); auto; lia.
Qed.

Lemma twos_sign b t : all_bytes (b :: t) -> (twos (b :: t) < 0 <-> 128 <= b).
Proof.
  intros H. inv H. rewrite twos_cons_be. pose proof (be_bound (b :: t)) as Hb.
  specialize (Hb ltac:(by constructor)).
  unfold is_byte in *. destruct (Z.leb_spec 128 b); lia.
Qed.

(** Minimal representations of different size are ordered by their size. *)
Lemma minimal_size_order a b : all_bytes a -> all_bytes b -> a <> [] -> minimal b ->
  size a < size b ->
  twos b < twos a /\ twos b < 0 \/ twos a < twos b /\ 0 <= twos b.
Proof.
  intros Ha Hb Hne Hm Hs.
  assert (1 <= size a) by (destruct a; [done|rewrite size_cons; pose proof (size_nonneg a); lia]).
  pose proof (twos_range a Ha Hne). pose proof (minimal_large b (size a) Hb Hm ltac:(lia)).
  assert (0 < 256 ^ (size a - 1)) by (apply Z.pow_pos_nonneg; lia). lia.
Qed.

(** The comparison orders minimal INTEGERs numerically, except two negative ones
    of the same size. *)
Theorem INTEGER_compare_correct junk a b :
  all_bytes a -> all_bytes b -> a <> [] -> b <> [] -> minimal a -> minimal b ->
  0 <= twos a \/ 0 <= twos b \/ size a <> size b ->
  Z.sgn (INTEGER_compare junk (Some a) (Some b)) = Z.sgn (twos a - twos b).
Proof.
  intros Ha Hb Hane Hbne Hma Hmb Hcase. unfold INTEGER_compare.
  destruct a as [|x a]; [done|]. destruct b as [|y b]; [done|].
  assert (ctrue (size (x :: a)) = true /\ ctrue (size (y :: b)) = true) as [-> ->].
  { unfold ctrue. rewrite !size_cons. pose proof (size_nonneg a). pose proof (size_nonneg b).
    split; apply negb_true_iff, Z.eqb_neq; lia. }
  cbn [andb]. pose proof (Forall_cons_1 _ _ _ Ha) as [Hx _]. pose proof (Forall_cons_1 _ _ _ Hb) as [Hy _].
  rewrite !sign_of_cons by done.
  pose proof (twos_sign x a Ha) as Hsa. pose proof (twos_sign y b Hb) as Hsb.
  set (A := x :: a) in *. set (B := y :: b) in *.
  assert (size A < size B -> twos B < twos A /\ twos B < 0 \/ twos A < twos B /\ 0 <= twos B) as H1.
  { intros. destruct (minimal_size_order A B); auto; lia. }
  assert (size B < size A -> twos A < twos B /\ twos A < 0 \/ twos B < twos A /\ 0 <= twos A) as H2.
  { intros. destruct (minimal_size_order B A); auto; lia. }
  destruct (Z.leb_spec 128 x), (Z.leb_spec 128 y); rewrite ?Z.ltb_irrefl.
  - destruct (Z.ltb_spec (size A) (size B)); [rewrite (Z.sgn_pos (_ - _)) by lia; done|].
    destruct (Z.ltb_spec (size B) (size A)); [rewrite (Z.sgn_neg (_ - _)) by lia; done|]. lia.
  - rewrite (Z.sgn_neg (_ - _)) by lia. done.
  - rewrite (Z.sgn_pos (_ - _)) by lia. done.
  - destruct (Z.ltb_spec (size A) (size B)); [rewrite (Z.sgn_neg (_ - _)) by lia; done|].
    destruct (Z.ltb_spec (size B) (size A)); [rewrite (Z.sgn_pos (_ - _)) by lia; done|].
    rewrite Z.mul_1_l, memcmp_be by (auto; unfold size in *; lia). f_equal.
    unfold A, B. rewrite !twos_cons_be.
    destruct (Z.leb_spec 128 x), (Z.leb_spec 128 y); lia.
Qed.

Lemma INTEGER_compare_correct_witness :
  Z.sgn (INTEGER_compare 0 (Some [0x80; 0]) (Some [0xff])) = Z.sgn (twos [0x80; 0] - twos [0xff]).
Proof.
  apply (INTEGER_compare_correct 0 [0x80; 0] [0xff]); try discriminate.
  - repeat constructor; unfold is_byte; lia.
  - repeat constructor; unfold is_byte; lia.
  - simpl; lia.
  - exact I.
  - right. right. vm_compute. discriminate.
Defined.

(** Two negative INTEGERs of the same size come out in reverse order. *)
Theorem INTEGER_compare_negatives_reversed junk a b :
  all_bytes a -> all_bytes b -> a <> [] -> b <> [] ->
  twos a < 0 -> twos b < 0 -> size a = size b ->
  Z.sgn (INTEGER_compare junk (Some a) (Some b)) = Z.sgn (twos b - twos a).
Proof.
  intros Ha Hb Hane Hbne Hna Hnb Hs. unfold INTEGER_compare.
  destruct a as [|x a]; [done|]. destruct b as [|y b]; [done|].
  assert (ctrue (size (x :: a)) = true /\ ctrue (size (y :: b)) = true) as [-> ->].
  { unfold ctrue. rewrite !size_cons. pose proof (size_nonneg a). pose proof (size_nonneg b).
    split; apply negb_true_iff, Z.eqb_neq; lia. }
  cbn [andb]. pose proof (Forall_cons_1 _ _ _ Ha) as [Hx _]. pose proof (Forall_cons_1 _ _ _ Hb) as [Hy _].
  rewrite !sign_of_cons by done.
  apply (twos_sign x a Ha) in Hna as Hx'. apply (twos_sign y b Hb) in Hnb as Hy'.
  destruct (Z.leb_spec 128 x); [|lia]. destruct (Z.leb_spec 128 y); [|lia]. cbn [Z.ltb Z.compare].
  rewrite Hs, !Z.ltb_irrefl, Z.sgn_mul, memcmp_be by (auto; unfold size in *; lia).
  rewrite !twos_cons_be, Hs.
  destruct (Z.leb_spec 128 x); [|lia]. destruct (Z.leb_spec 128 y); [|lia].
  change (Z.sgn (-1)) with (-1). rewrite Z.mul_comm, <- Z.opp_eq_mul_m1, <- Z.sgn_opp. f_equal. lia.
Qed.

Lemma INTEGER_compare_negatives_reversed_witness :
  Z.sgn (INTEGER_compare 0 (Some [0xff]) (Some [0xfe])) = Z.sgn (twos [0xfe] - twos [0xff]) /\
  twos [0xff] = -1 /\ twos [0xfe] = -2.
Proof.
  split; [|split; reflexivity].
  apply (INTEGER_compare_negatives_reversed 0 [0xff] [0xfe]); try discriminate; try reflexivity.
  - repeat constructor; unfold is_byte; lia.
  - repeat constructor; unfold is_byte; lia.
Defined.

(** ** Decimal numbers *)

Definition dec_from (v : Z) (l : bytes) : Z := fold_left (fun v c => v * 10 + (c - 0x30)) l v.

Abbreviation digits l := (Forall (fun c => is_digit c = true) l).

(** What follows the digits of a number is not a digit. *)
Definition no_digit (rest : bytes) : Prop :=
  match rest with [] => True | c :: _ => is_digit c = false end.

(** The result code for a number followed by [rest]. *)
Definition strtox_code (rest : bytes) : asn_strtox_result :=
  match rest with [] => ASN_STRTOX_OK | _ => ASN_STRTOX_EXTRA_DATA end.

Lemma is_digit_range c : is_digit c = true -> 0 <= c - 0x30 <= 9.
Proof. unfold is_digit. rewrite andb_true_iff, !Z.leb_le. lia. Qed.

Lemma dec_from_cons v c l : dec_from v (c :: l) = dec_from (v * 10 + (c - 0x30)) l.
Proof. done. Qed.

Lemma dec_from_ge l : forall v, digits l -> 0 <= v -> v <= dec_from v l.
Proof.
  induction l as [|c l IH]; intros v Hl Hv; [done|].
  apply Forall_cons in Hl as [Hc Hl]. apply is_digit_range in Hc.
  rewrite dec_from_cons. specialize (IH (v * 10 + (c - 0x30)) Hl). lia.
Qed.

(** The digit loop with the limit [INTMAX_MAX / 10 * 10 + last_digit_max]. *)
Lemma strtoimax_loop_ok sign m ds rest : forall v pos,
  digits ds -> no_digit rest -> sign = 1 \/ sign = -1 -> 0 <= m <= 9 -> 0 <= v ->
  let lim := INTMAX_MAX / 10 * 10 + m in
  v <= lim ->
  if dec_from v ds <=? lim
  then strtoimax_loop sign m v pos (ds ++ rest) =
       (strtox_code rest, pos + size ds, Some (sign * dec_from v ds))
  else exists e, strtoimax_loop sign m v pos (ds ++ rest) = (ASN_STRTOX_ERROR_RANGE, e, None).
Proof.
  change (INTMAX_MAX / 10) with 922337203685477580.
  induction ds as [|c ds IH]; intros v pos Hd Hr Hs Hm Hv lim Hlim; unfold lim in *.
  { change (dec_from v []) with v. destruct (Z.leb_spec v (922337203685477580 * 10 + m)); [|lia].
    rewrite size_nil, Z.add_0_r. destruct rest as [|c rest]; [done|].
    cbn [app strtoimax_loop]. simpl in Hr. by rewrite Hr. }
  apply Forall_cons in Hd as [Hc Hd]. pose proof (is_digit_range c Hc) as Hcr.
  cbn [app strtoimax_loop]. rewrite Hc. change (INTMAX_MAX / 10) with 922337203685477580.
  rewrite dec_from_cons, size_cons.
  pose proof (dec_from_ge ds (v * 10 + (c - 48)) Hd ltac:(lia)) as Hge.
  destruct (Z.ltb_spec v 922337203685477580).
  { rewrite Z.add_assoc. apply IH; auto; lia. }
  destruct (Z.eqb_spec v 922337203685477580) as [->|].
  2: { destruct (Z.leb_spec (dec_from (v * 10 + (c - 48)) ds) (922337203685477580 * 10 + m)); [lia|]. eauto. }
  destruct (Z.leb_spec (c - 48) m).
  2: { destruct (Z.leb_spec (dec_from (922337203685477580 * 10 + (c - 48)) ds) (922337203685477580 * 10 + m)); [lia|]. eauto. }
  destruct ds as [|c' ds].
  - change (dec_from (922337203685477580 * 10 + (c - 48)) []) with (922337203685477580 * 10 + (c - 48)).
    destruct (Z.leb_spec (922337203685477580 * 10 + (c - 48)) (922337203685477580 * 10 + m)); [|lia].
    change (1 + size []) with 1. destruct Hs as [-> | ->]; cbn [app];
      (destruct rest as [|c' rest]; [|simpl in Hr; rewrite Hr]); f_equal; f_equal; lia.
  - apply Forall_cons in Hd as [Hc' Hd]. pose proof (is_digit_range c' Hc') as Hcr'.
    rewrite dec_from_cons in *.
    pose proof (dec_from_ge ds ((922337203685477580 * 10 + (c - 48)) * 10 + (c' - 48)) Hd ltac:(lia)).
    destruct (Z.leb_spec (dec_from ((922337203685477580 * 10 + (c - 48)) * 10 + (c' - 48)) ds)
                         (922337203685477580 * 10 + m)); [lia|].
    cbn [app]. rewrite Hc'. destruct Hs as [-> | ->]; eauto.
Qed.

(** The decimal parser accepts exactly the numbers of the 64-bit signed range:
    an optionally signed digit string followed by anything but a digit yields
    its value and the end of the digits when it fits, and a range error (no
    value stored) when it does not. *)
Theorem asn_strtoimax_lim_correct (neg : bool) d ds rest :
  digits (d :: ds) -> no_digit rest ->
  let str := (if neg then [0x2d] else []) ++ (d :: ds) ++ rest in
  let v := (if neg then -1 else 1) * dec_from 0 (d :: ds) in
  if (INTMAX_MIN <=? v) && (v <=? INTMAX_MAX)
  then asn_strtoimax_lim str =
       (strtox_code rest, (if neg then 1 else 0) + size (d :: ds), Some v)
  else exists e, asn_strtoimax_lim str = (ASN_STRTOX_ERROR_RANGE, e, None).
Proof.
  intros Hd Hr. pose proof (dec_from_ge (d :: ds) 0 Hd ltac:(lia)) as Hge.
  pose proof (Forall_inv Hd) as Hd0. apply is_digit_range in Hd0 as Hd0'.
  cbv zeta. unfold asn_strtoimax_lim, INTMAX_MIN.
  change (INTMAX_MAX mod 10) with 7. destruct neg; cbn [app].
  - change (45 =? 45) with true. cbv iota.
    pose proof (strtoimax_loop_ok (-1) (7 + 1) (d :: ds) rest 0 1 Hd Hr ltac:(auto) ltac:(lia) ltac:(lia)) as H.
    cbn zeta in H. change (INTMAX_MAX / 10 * 10 + (7 + 1)) with (2 ^ 63) in H. specialize (H ltac:(lia)).
    replace ((- 2 ^ 63 <=? -1 * dec_from 0 (d :: ds)) && (-1 * dec_from 0 (d :: ds) <=? INTMAX_MAX))
      with (dec_from 0 (d :: ds) <=? 2 ^ 63); [exact H|].
    change INTMAX_MAX with (2 ^ 63 - 1). bool_cases; simpl; lia.
  - destruct (Z.eqb_spec d 45); [lia|]. destruct (Z.eqb_spec d 43); [lia|].
    pose proof (strtoimax_loop_ok 1 7 (d :: ds) rest 0 0 Hd Hr ltac:(auto) ltac:(lia) ltac:(lia)) as H.
    cbn zeta in H. change (INTMAX_MAX / 10 * 10 + 7) with INTMAX_MAX in H.
    specialize (H ltac:(unfold INTMAX_MAX; lia)). rewrite !Z.mul_1_l in *.
    replace ((- 2 ^ 63 <=? dec_from 0 (d :: ds)) && (dec_from 0 (d :: ds) <=? INTMAX_MAX))
      with (dec_from 0 (d :: ds) <=? INTMAX_MAX); [exact H|].
    bool_cases; simpl; lia.
Qed.

Lemma asn_strtoimax_lim_correct_witness :
  asn_strtoimax_lim [0x2d; 0x34; 0x32; 0x20] = (ASN_STRTOX_EXTRA_DATA, 3, Some (-42)).
Proof.
  exact (asn_strtoimax_lim_correct true 0x34 [0x32] [0x20]
           ltac:(repeat constructor) ltac:(reflexivity)).
Defined.
