(* ===== verification/Descriptor.v ===== *)
(** Type descriptors and decoded structures.

    Models support/constr_TYPE.h (asn_TYPE_descriptor_t, asn_TYPE_member_t,
    asn_struct_ctx_t), the specifics of each kind of type, the target
    structures the decoders fill ([obj]), the presence index of a CHOICE
    (constr_CHOICE.c) and the outermost tag of a type (constr_TYPE.c).

    A descriptor is the finite tree the generated tables spell out; a recursive
    ASN.1 type is represented by its unfolding to some depth.  Type codecs see
    the types of their members only through the interface
    [asn_TYPE_operation], the model of the [op] table. *)

From stdpp Require Import prelude strings.
From S2P Require Import Prelude Codecs BitData.

(** * Descriptors *)

(** [asn_oer_constraints_t]: [value.width], [value.positive], [size]. *)
Record asn_oer_constraints := {
  width : Z;
  positive : bool;
  csize : Z;
}.

Abbreviation oer_cts := (option asn_oer_constraints).

(** [asn_INTEGER_specifics_t], the field the OER codecs look at. *)
Record asn_INTEGER_specifics := { field_unsigned : bool }.

Inductive asn_OS_Subvariant :=
  | ASN_OSUBV_ANY | ASN_OSUBV_BIT | ASN_OSUBV_STR | ASN_OSUBV_U16 | ASN_OSUBV_U32.

Record asn_SEQUENCE_specifics := {
  roms_count : Z;
  aoms_count : Z;
  first_extension : Z;
}.

Record asn_TYPE_tag2member := { el_tag : Z; el_no : Z }.

Record asn_CHOICE_specifics := {
  tag2el : list asn_TYPE_tag2member;
  ext_start : Z;
}.

(** The [op] of a descriptor together with the [specifics] that go with it. *)
Inductive asn_kind :=
  | BOOLEAN
  | ASN_NULL
  | PRIMITIVE
  | INTEGER (specs : option asn_INTEGER_specifics)
  | NativeInteger (specs : option asn_INTEGER_specifics)
  | NativeEnumerated (specs : option asn_INTEGER_specifics)
  | OCTET_STRING (specs : option asn_OS_Subvariant)
  | BIT_STRING
  | SEQUENCE (specs : asn_SEQUENCE_specifics)
  | CHOICE (specs : asn_CHOICE_specifics)
  | SET_OF
  | OPEN_TYPE (specs : asn_CHOICE_specifics)
  | ANY.

(** The pair [default_value_cmp], [default_value_set] generated for a DEFAULT
    of a native integer member: the number both functions contain. *)
Record asn_DFL := { dfl_value : Z }.

(** The information object table behind a generated [type_selector]: the member
    that holds the constraining value, and the value of each row with a type. *)
Record asn_ioc_set := { governor : nat; rows : list Z }.

(** [asn_TYPE_member_t], with the type of the member abstract. *)
Record asn_TYPE_member (T : Type) := {
  ATF_POINTER : bool;
  ATF_OPEN_TYPE : bool;
  optional : bool;
  tag : Z;
  tag_mode : Z;
  type : T;
  type_selector : option asn_ioc_set;
  oer_constraints : oer_cts;
  default_value : option asn_DFL;
  memb_name : string;
}.
Arguments ATF_POINTER {T}.
Arguments ATF_OPEN_TYPE {T}.
Arguments optional {T}.
Arguments tag {T}.
Arguments tag_mode {T}.
Arguments type {T}.
Arguments type_selector {T}.
Arguments oer_constraints {T}.
Arguments default_value {T}.
Arguments memb_name {T}.

(** The same member seen through another view of its type. *)
Definition map_type {T U} (f : T -> U) (e : asn_TYPE_member T) : asn_TYPE_member U :=
  {| ATF_POINTER := e.(ATF_POINTER); ATF_OPEN_TYPE := e.(ATF_OPEN_TYPE);
     optional := e.(optional); tag := e.(tag); tag_mode := e.(tag_mode);
     type := f e.(type); type_selector := e.(type_selector);
     oer_constraints := e.(oer_constraints); default_value := e.(default_value);
     memb_name := e.(memb_name) |}.

(** [asn_TYPE_descriptor_t]: name, op with specifics, tags,
    [encoding_constraints.oer_constraints] and elements. *)
Inductive asn_TYPE_descriptor :=
  TD (name : string) (op : asn_kind) (tags : list Z) (cts : oer_cts)
     (elements : list (asn_TYPE_member asn_TYPE_descriptor)).

Definition td_name (td : asn_TYPE_descriptor) : string := let '(TD n _ _ _ _) := td in n.
Definition td_tags (td : asn_TYPE_descriptor) : list Z := let '(TD _ _ ts _ _) := td in ts.
Definition elements (td : asn_TYPE_descriptor) : list (asn_TYPE_member asn_TYPE_descriptor) :=
  let '(TD _ _ _ _ es) := td in es.

(** Induction over descriptors with the hypothesis for every member type. *)
Fixpoint descriptor_ind (P : asn_TYPE_descriptor -> Prop)
    (H : forall n k ts c es, Forall (fun e => P e.(type)) es -> P (TD n k ts c es))
    (td : asn_TYPE_descriptor) : P td :=
  match td with
  | TD n k ts c es =>
    H n k ts c es
      ((fix go es : Forall (fun e => P e.(type)) es :=
          match es with
          | [] => Forall_nil_2 _
          | e :: es => Forall_cons_2 _ _ _ (descriptor_ind P H e.(type)) (go es)
          end) es)
  end.

(** * Decoded structures *)

(** [asn_struct_ctx_t] without its pointer, which the structures below carry
    with the type they use it at. *)
Record asn_struct_ctx := { phase : Z; step : Z; left : Z }.
Definition ctx_zero : asn_struct_ctx := {| phase := 0; step := 0; left := 0 |}.
Definition NEXT_PHASE (c : asn_struct_ctx) : asn_struct_ctx :=
  {| phase := c.(phase) + 1; step := 0; left := c.(left) |}.
Definition SET_PHASE (c : asn_struct_ctx) (v : Z) : asn_struct_ctx :=
  {| phase := v; step := 0; left := c.(left) |}.
Definition set_step (c : asn_struct_ctx) (v : Z) : asn_struct_ctx :=
  {| phase := c.(phase); step := v; left := c.(left) |}.
Definition set_phase (c : asn_struct_ctx) (v : Z) : asn_struct_ctx :=
  {| phase := v; step := c.(step); left := c.(left) |}.
Definition set_left (c : asn_struct_ctx) (v : Z) : asn_struct_ctx :=
  {| phase := c.(phase); step := c.(step); left := v |}.

(** A target structure.  [None] stands for a NULL pointer, both for buffers and
    for members.  The union of a CHOICE holds the selected member only. *)
Inductive obj :=
  | O_BOOLEAN (v : Z)
  | O_NULL
  | O_long (v : Z)
  | O_BUF (buf : option bytes)
  | O_BITS (buf : option bytes) (bits_unused : Z)
  | O_SEQ (ctx : asn_struct_ctx) (ptr : option BitIn.asn_bit_data) (members : list (option obj))
  | O_CHOICE (ctx : asn_struct_ctx) (present : Z) (member : option obj)
  | O_SET_OF (ctx : asn_struct_ctx) (ptr : option obj) (array : list (option obj)).

(** * The operations of a type *)

(** [oer_type_decoder_f] and [oer_type_encoder_f] applied to a descriptor.  The
    decoder returns what [*struct_ptr] points to afterwards. *)
Abbreviation decoder :=
  (asn_codec_ctx -> oer_cts -> option obj -> bytes -> asn_dec_rval * option obj).
Abbreviation encoder := (oer_cts -> option obj -> enc asn_enc_rval).

Inductive asn_TYPE_operation := OP {
  op_name : string;
  op_zero : obj;
  oer_decoder : option decoder;
  oer_encoder : option encoder;
  outmost_tag : option obj -> Z;
  op_tags : list Z;
  op_elements : list (asn_TYPE_member asn_TYPE_operation);
}.

Abbreviation member := (asn_TYPE_member asn_TYPE_operation).

(** [element_ptr] / [*element_ptrptr]: what the member pointer points to.  An
    inline member always points into the structure. *)
Definition element_ptr (e : member) (m : option obj) : option obj :=
  if e.(ATF_POINTER) then m else Some (default e.(type).(op_zero) m).

(** [default_value_cmp(memb_ptr)], 0 for the default value. *)
Definition default_value_cmp (d : asn_DFL) (sptr : option obj) : Z :=
  match sptr with
  | Some (O_long v) => if v =? d.(dfl_value) then 0 else 1
  | _ => -1
  end.

Definition default_value_set (d : asn_DFL) (sptr : option obj) : option obj :=
  Some (O_long d.(dfl_value)).

(** The condition [elm->default_value_cmp && elm->default_value_cmp(memb_ptr) == 0]. *)
Definition is_default (e : member) (memb_ptr : option obj) : bool :=
  match e.(default_value) with
  | Some d => default_value_cmp d memb_ptr =? 0
  | None => false
  end.

(** A generated type selector: the presence index of the first row whose value
    equals the constraining member, 0 when there is none. *)
Fixpoint select_row (rows : list Z) (presence_index : Z) (v : Z) : Z :=
  match rows with
  | [] => 0
  | r :: rows => if v =? r then presence_index + 1 else select_row rows (presence_index + 1) v
  end.

Definition select_type (s : asn_ioc_set) (members : list (option obj)) : Z :=
  match members !! s.(governor) with
  | Some (Some (O_long v)) => select_row s.(rows) 0 v
  | _ => 0
  end.

(** [asn_TYPE_outmost_tag] *)
Definition asn_TYPE_outmost_tag (t : asn_TYPE_operation) (sptr : option obj)
    (tag_mode tag : Z) : Z :=
  if ctrue tag_mode then tag
  else match t.(op_tags) with
       | tg :: _ => tg
       | [] => t.(outmost_tag) sptr
       end.

(** [CHOICE_outmost_tag]; [(ber_tlv_tag_t)-1] when no variant is selected. *)
Definition CHOICE_outmost_tag (elements : list member) (sptr : option obj) : Z :=
  match sptr with
  | Some (O_CHOICE _ present m) =>
    if (0 <? present) && (present <=? size elements) then
      match elements !! Z.to_nat (present - 1) with
      | Some elm => asn_TYPE_outmost_tag elm.(type) (element_ptr elm m) elm.(tag_mode) elm.(tag)
      | None => 2 ^ 32 - 1
      end
    else 2 ^ 32 - 1
  | _ => 2 ^ 32 - 1
  end.

(** [CHOICE_variant_get_presence] *)
Definition CHOICE_variant_get_presence (sptr : obj) : Z :=
  match sptr with
  | O_CHOICE _ present _ => present
  | _ => 0
  end.

(** [CHOICE_variant_set_presence]: [None] is -1.  Selecting another variant
    frees and zeroes the whole structure, decoder context included. *)
Definition CHOICE_variant_set_presence (elements_count : Z) (sptr : option obj) (present : Z)
    : option obj :=
  match sptr with
  | Some (O_CHOICE ctx old_present m) =>
    if elements_count <? present then None
    else if present =? old_present then Some (O_CHOICE ctx old_present m)
    else if ctrue old_present then Some (O_CHOICE ctx_zero present None)
    else Some (O_CHOICE ctx present m)
  | _ => None
  end.
