(* ===== verification/OerSupport.v ===== *)
(** OER building blocks: length determinants, quantities and tags.

    Models support/oer_support.c, the quantity field of
    support/constr_SET_OF_oer.c and the tag functions of
    support/constr_CHOICE_oer.c.  Readers return the pair of their [ssize_t]
    result and the value stored through the result pointer. *)

From stdpp Require Import prelude strings.
From S2P Require Import Prelude Codecs Descriptor.

(** * Shared loops *)

(** [for(; b < bend && *b == 0; b++)] *)
Fixpoint skip_zeros (b : bytes) : bytes :=
  match b with
  | x :: b' => if x =? 0 then skip_zeros b' else b
  | [] => []
  end.

(** The same loop stopping at the last byte. *)
Fixpoint skip_zeros_last (b : bytes) : bytes :=
  match b with
  | x :: (_ :: _) as b' => if x =? 0 then skip_zeros_last b' else b
  | _ => b
  end.

(** * Length determinants *)

(** [oer_fetch_length].  The accumulation of at most [sizeof(size_t)] bytes does
    not wrap. *)
Definition oer_fetch_length (bufptr : bytes) : Z * Z :=
  match bufptr with
  | [] => (0, 0)
  | first_byte :: rest =>
    if Z.land first_byte 0x80 =? 0 then (1, first_byte)
    else
      let len_len := Z.land first_byte 0x7f in
      if size bufptr <? 1 + len_len then (0, 0)
      else
        let b := skip_zeros (ztake len_len rest) in
        if 8 <? size b then (-1, 0)
        else
          let len := be b in
          if RSIZE_MAX <? len then (-1, 0) else (len_len + 1, len)
  end.

(** [oer_serialize_length] (little-endian branch of the run-time detection). *)
Definition oer_serialize_length (length : Z) : enc Z :=
  if length <=? 127 then
    r ← cb [u8 length];
    mret (if r <? 0 then -1 else 1)
  else
    let b := skip_zeros_last (be_bytes 8 length) in
    r ← cb (u8 (0x80 + size b) :: b);
    mret (if r <? 0 then -1 else 1 + size b).

(** * Quantities *)

Definition oer_fetch_quantity (ptr : bytes) : Z * Z :=
  let '(len_len, len) := oer_fetch_length ptr in
  if len_len <=? 0 then (len_len, 0)
  else if size ptr <? len_len + len then (0, 0)
  else
    let b := skip_zeros (ztake len (zdrop len_len ptr)) in
    if 8 <? size b then (-1, 0)
    else
      let qty := be b in
      if RSIZE_MAX <? qty then (-1, 0) else (len_len + len, qty).

(** The loop [do { *b-- = qty; qty >>= 8; } while(qty)] fills the buffer from
    its end; [fuel] is its size. *)
Fixpoint quantity_bytes (fuel : nat) (qty : Z) (acc : bytes) : bytes :=
  match fuel with
  | O => acc
  | S fuel =>
    let acc := u8 qty :: acc in
    let qty := Z.shiftr qty 8 in
    if ctrue qty then quantity_bytes fuel qty acc else acc
  end.

Definition oer_put_quantity (qty : Z) : enc Z :=
  let b := quantity_bytes 8 qty [] in
  r ← cb (size b :: b);
  mret (if r <? 0 then -1 else 1 + size b).

(** * Tags *)

Definition BER_TAG_CLASS (tag : Z) : Z := Z.land tag 0x3.
Definition BER_TAG_VALUE (tag : Z) : Z := Z.shiftr tag 2.

(** The octets after a leading 0x3F; [val] is the [ber_tlv_tag_t] accumulator. *)
Fixpoint fetch_tag_loop (val skipped tclass : Z) (ptr : bytes) : Z * Z :=
  match ptr with
  | [] => (0, 0)
  | oct :: ptr' =>
    if ctrue (Z.land oct 0x80) then
      let val := u32 (Z.lor (Z.shiftl val 7) (Z.land oct 0x7F)) in
      if ctrue (Z.shiftr val 23) then (-1, 0)
      else fetch_tag_loop val (skipped + 1) tclass ptr'
    else
      let val := u32 (Z.lor (Z.shiftl val 7) oct) in
      (skipped, u32 (Z.lor (Z.shiftl val 2) tclass))
  end.

Definition oer_fetch_tag (ptr : bytes) : Z * Z :=
  match ptr with
  | [] => (0, 0)
  | val :: ptr' =>
    let tclass := Z.shiftr val 6 in
    if negb (Z.land val 0x3F =? 0x3F) then
      (1, Z.lor (Z.shiftl (Z.land val 0x3F) 2) tclass)
    else fetch_tag_loop 0 2 tclass ptr'
  end.

(** The loop that writes the tag number backwards from the end of [buf]. *)
Fixpoint put_tag_loop (fuel : nat) (tval : Z) (acc : bytes) : bytes :=
  match fuel with
  | O => acc
  | S fuel =>
    if ctrue (Z.shiftr tval 7) then
      put_tag_loop fuel (Z.shiftr tval 7) (Z.lor 0x80 (Z.land tval 0x7f) :: acc)
    else Z.land tval 0x7f :: acc
  end.

Definition oer_put_tag (tag : Z) : enc Z :=
  let tclass := BER_TAG_CLASS tag in
  let tval := BER_TAG_VALUE tag in
  if tval <? 0x3F then
    r ← cb [u8 (Z.lor (Z.shiftl tclass 6) tval)];
    mret (if r <? 0 then -1 else 1)
  else
    let b := u8 (Z.lor (Z.shiftl tclass 6) 0x3F) :: put_tag_loop 8 tval [] in
    r ← cb b;
    mret (if r <? 0 then -1 else size b).

(** ** The tag to member table *)

(** [_search4tag] on the key and a table entry. *)
Definition _search4tag (a b : Z) : Z :=
  let a_class := BER_TAG_CLASS a in
  let b_class := BER_TAG_CLASS b in
  if a_class =? b_class then
    let a_value := BER_TAG_VALUE a in
    let b_value := BER_TAG_VALUE b in
    if a_value =? b_value then 0 else if a_value <? b_value then -1 else 1
  else if a_class <? b_class then -1 else 1.

(** The C library's [bsearch] over [tag2el]: halves the range until the
    comparison yields 0 or the range is empty. *)
Fixpoint bsearch (fuel : nat) (key : Z) (tbl : list asn_TYPE_tag2member) : option asn_TYPE_tag2member :=
  match fuel with
  | O => None
  | S fuel =>
    match tbl !! (length tbl / 2)%nat with
    | None => None
    | Some m =>
      let c := _search4tag key m.(el_tag) in
      if c =? 0 then Some m
      else if c <? 0 then bsearch fuel key (take (length tbl / 2) tbl)
      else bsearch fuel key (drop (S (length tbl / 2)) tbl)
    end
  end.

Definition find_tag (key : Z) (tbl : list asn_TYPE_tag2member) : option asn_TYPE_tag2member :=
  bsearch (S (length tbl)) key tbl.

(** * Canonical encodings *)

(** The shortest big-endian representation of a non-negative number. *)
Definition min_bytes (n : Z) : bytes := skip_zeros_last (be_bytes 8 n).

(** X.696 8.6 length determinant and 17.2 quantity field, in canonical form. *)
Definition length_det (n : Z) : bytes :=
  if n <=? 127 then [n] else (0x80 + size (min_bytes n)) :: min_bytes n.

Definition quantity_det (n : Z) : bytes := size (min_bytes n) :: min_bytes n.

(** The octets of a tag whose number fits one octet or one leading 0x3F octet
    followed by one. *)
Definition tag_det (tag : Z) : bytes :=
  if BER_TAG_VALUE tag <? 0x3F then [BER_TAG_CLASS tag * 64 + BER_TAG_VALUE tag]
  else [BER_TAG_CLASS tag * 64 + 0x3F; BER_TAG_VALUE tag].

Lemma skip_zeros_ok l : all_bytes l ->
  be (skip_zeros l) = be l /\ size (skip_zeros l) <= size l /\ all_bytes (skip_zeros l).
Proof.
  induction 1 as [|x l Hx Hl IH]; [done|]. cbn [skip_zeros].
  destruct (Z.eqb_spec x 0) as [->|].
  - rewrite be_cons, size_cons, Z.mul_0_l, Z.add_0_l. destruct IH as (? & ? & ?). repeat split; auto; lia.
  - repeat split; auto; lia.
Qed.

Lemma skip_zeros_last_ok l : all_bytes l -> l <> [] ->
  be (skip_zeros_last l) = be l /\ 1 <= size (skip_zeros_last l) <= size l /\
  all_bytes (skip_zeros_last l) /\
  (1 < size (skip_zeros_last l) -> 256 ^ (size (skip_zeros_last l) - 1) <= be l).
Proof.
  induction 1 as [|x l Hx Hl IH]; [done|]. intros _.
  destruct l as [|y l].
  - cbn [skip_zeros_last]. change (size [x]) with 1. repeat split; auto; lia.
  - change (skip_zeros_last (x :: y :: l)) with
      (if x =? 0 then skip_zeros_last (y :: l) else x :: y :: l).
    destruct (Z.eqb_spec x 0) as [->|].
    + destruct (IH ltac:(done)) as (E & Hs & Hb & Hm).
      rewrite be_cons, Z.mul_0_l, Z.add_0_l, (size_cons 0). repeat split; auto; lia.
    + pose proof (size_nonneg l). rewrite !size_cons. repeat split; auto; try lia.
      intros _. rewrite be_cons, size_cons. pose proof (be_bound (y :: l) Hl).
      replace (1 + (1 + size l) - 1) with (1 + size l) by lia.
      assert (0 < 256 ^ (1 + size l)) by (apply Z.pow_pos_nonneg; lia).
      unfold is_byte in Hx. nia.
Qed.

Lemma min_bytes_ok n : 0 <= n < 2 ^ 64 ->
  be (min_bytes n) = n /\ 1 <= size (min_bytes n) <= 8 /\ all_bytes (min_bytes n).
Proof.
  intros Hn. destruct (skip_zeros_last_ok (be_bytes 8 n)) as (E & Hs & Hb & _);
    [apply all_bytes_be_bytes|done|].
  fold (min_bytes n) in *. rewrite size_be_bytes in Hs. repeat split; auto; try lia.
  rewrite E, be_be_bytes. apply Z.mod_small. lia.
Qed.

(** No shorter buffer holds the number. *)
Lemma min_bytes_minimal n l : 0 <= n < 2 ^ 64 -> all_bytes l -> l <> [] -> be l = n ->
  size (min_bytes n) <= size l.
Proof.
  intros Hn Hl Hne E. destruct (skip_zeros_last_ok (be_bytes 8 n)) as (E' & Hs & Hb & Hm);
    [apply all_bytes_be_bytes|done|]. fold (min_bytes n) in *.
  rewrite be_be_bytes, Z.mod_small in Hm by (change (256 ^ Z.of_nat 8) with (2 ^ 64); lia).
  pose proof (be_bound l Hl) as Hb'.
  assert (1 <= size l) by (destruct l; [done|rewrite size_cons; pose proof (size_nonneg l); lia]).
  destruct (Z.le_gt_cases (size (min_bytes n)) (size l)); [done|].
  specialize (Hm ltac:(lia)).
  assert (256 ^ size l <= 256 ^ (size (min_bytes n) - 1)) by (apply Z.pow_le_mono_r; lia). lia.
Qed.

Lemma be_bytes_shift_cons k n acc :
  be_bytes k (Z.shiftr n 8) ++ u8 n :: acc = be_bytes (S k) n ++ acc.
Proof.
  revert acc. induction k as [|k IH]; intros acc; [cbn; by rewrite Z.shiftr_0_r|].
  cbn [be_bytes app]. rewrite IH. cbn [be_bytes app]. f_equal.
  rewrite Z.shiftr_shiftr by lia. do 2 f_equal. lia.
Qed.

Lemma skip_zeros_last_zero_head l : l <> [] -> skip_zeros_last (0 :: l) = skip_zeros_last l.
Proof. by destruct l. Qed.

Lemma be_bytes_0 k : be_bytes k 0 = replicate k 0.
Proof. induction k as [|k IH]; [done|]. cbn [be_bytes replicate]. by rewrite Z.shiftr_0_l, IH. Qed.

Lemma skip_zeros_last_replicate k l : l <> [] ->
  skip_zeros_last (replicate k 0 ++ l) = skip_zeros_last l.
Proof.
  intros Hl. induction k as [|k IH]; [done|]. cbn [replicate app].
  rewrite skip_zeros_last_zero_head; [done|]. by destruct k, l.
Qed.

Lemma quantity_bytes_ok k n acc : 0 <= n < 256 ^ Z.of_nat (S k) ->
  match acc with [] => True | x :: _ => 0 < n end ->
  quantity_bytes (S k) n acc = skip_zeros_last (be_bytes (S k) n ++ acc).
Proof.
  revert n acc. induction k as [|k IH]; intros n acc Hn Hacc.
  { cbn [quantity_bytes be_bytes app]. change (256 ^ Z.of_nat 1) with 256 in Hn.
    change (8 * Z.of_nat 0) with 0. rewrite Z.shiftr_0_r.
    destruct (Z.eqb_spec n 0) as [->|].
    { destruct acc; [done|lia]. }
    replace (skip_zeros_last (u8 n :: acc)) with (u8 n :: acc).
    { destruct (ctrue _); done. }
    destruct acc; [done|]. cbn [skip_zeros_last].
    destruct (Z.eqb_spec (u8 n) 0) as [E|]; [|done].
    rewrite wrap_id in E by lia. lia. }
  cbn [quantity_bytes]. unfold ctrue.
  destruct (Z.eqb_spec (Z.shiftr n 8) 0) as [E|E]; cbn [negb].
  - rewrite <- be_bytes_shift_cons, E, be_bytes_0, skip_zeros_last_replicate by done.
    destruct acc as [|x acc]; [done|]. change (u8 n :: x :: acc = if u8 n =? 0 then skip_zeros_last (x :: acc) else u8 n :: x :: acc).
    destruct (Z.eqb_spec (u8 n) 0) as [E'|]; [|done].
    rewrite Z.shiftr_div_pow2 in E by lia. change (2 ^ 8) with 256 in E. unfold wrap in E'.
    change (2 ^ 8) with 256 in E'. pose proof (Z.div_mod n 256). lia.
  - assert (0 <= Z.shiftr n 8 < 256 ^ Z.of_nat (S k)) as Hr.
    { rewrite Z.shiftr_div_pow2 by lia. change (2 ^ 8) with 256. split.
      - apply Z.div_pos; lia.
      - apply Z.div_lt_upper_bound; [lia|]. replace (Z.of_nat (S (S k))) with (1 + Z.of_nat (S k)) in Hn by lia.
        rewrite Z.pow_add_r in Hn by lia. lia. }
    transitivity (skip_zeros_last (be_bytes (S k) (Z.shiftr n 8) ++ u8 n :: acc)).
    { apply IH; [done|cbn; lia]. }
    by rewrite be_bytes_shift_cons.
Qed.

Lemma quantity_bytes_min n : 0 <= n < 2 ^ 64 -> quantity_bytes 8 n [] = min_bytes n.
Proof.
  intros Hn. rewrite quantity_bytes_ok by done. by rewrite app_nil_r.
Qed.

Lemma length_det_emits n : 0 <= n < 2 ^ 64 ->
  emits (oer_serialize_length n) (size (length_det n)) (length_det n).
Proof.
  intros Hn. unfold oer_serialize_length, length_det.
  destruct (Z.leb_spec n 127).
  - rewrite wrap_id by lia. by apply emits_cb_last.
  - destruct (min_bytes_ok n Hn) as (_ & Hs & _). fold (min_bytes n). rewrite wrap_id by lia.
    rewrite size_cons. by apply emits_cb_last.
Qed.

Lemma quantity_det_emits n : 0 <= n < 2 ^ 64 ->
  emits (oer_put_quantity n) (size (quantity_det n)) (quantity_det n).
Proof.
  intros Hn. unfold oer_put_quantity, quantity_det. rewrite quantity_bytes_min by done.
  rewrite size_cons. by apply emits_cb_last.
Qed.

Lemma length_det_bytes n : 0 <= n < 2 ^ 64 -> all_bytes (length_det n).
Proof.
  intros Hn. unfold length_det. destruct (min_bytes_ok n Hn) as (_ & Hs & Hb).
  destruct (Z.leb_spec n 127); repeat constructor; auto; unfold is_byte; lia.
Qed.

Lemma quantity_det_bytes n : 0 <= n < 2 ^ 64 -> all_bytes (quantity_det n).
Proof.
  intros Hn. unfold quantity_det. destruct (min_bytes_ok n Hn) as (_ & Hs & Hb).
  constructor; auto; unfold is_byte; lia.
Qed.

Lemma size_length_det n : 0 <= n < 2 ^ 64 -> 1 <= size (length_det n) <= 9.
Proof.
  intros Hn. unfold length_det. destruct (min_bytes_ok n Hn) as (_ & Hs & _).
  destruct (Z.leb_spec n 127); [change (size [n]) with 1; lia|rewrite size_cons; lia].
Qed.

(** Reading a length determinant in any representation that is long enough:
    this is the complete behaviour of [oer_fetch_length] on byte buffers. *)
Lemma fetch_length_long k l rest : 0 <= k < 128 -> size l = k -> all_bytes l ->
  oer_fetch_length ((0x80 + k) :: l ++ rest) =
  if be l <=? RSIZE_MAX then (1 + k, be l) else (-1, 0).
Proof.
  intros Hk Hs Hl. unfold oer_fetch_length.
  rewrite land_128 by (unfold is_byte; lia). destruct (Z.ltb_spec (0x80 + k) 128); [lia|].
  rewrite land_0x7f by (unfold is_byte; lia).
  replace ((0x80 + k) mod 128) with k.
  2: { replace (0x80 + k) with (k + 1 * 128) by lia. rewrite Z.mod_add, Z.mod_small by lia. done. }
  rewrite size_cons, size_app. pose proof (size_nonneg rest).
  destruct (Z.ltb_spec (1 + (size l + size rest)) (1 + k)); [lia|].
  rewrite ztake_app by done. destruct (skip_zeros_ok l Hl) as (E & Hsz & Hb).
  pose proof (be_bound _ Hb) as Hbd. rewrite E in *.
  destruct (Z.ltb_spec 8 (size (skip_zeros l))) as [H8|H8].
  - destruct (Z.leb_spec (be l) RSIZE_MAX) as [Hle|]; [|done].
    enough (256 ^ 8 <= be l) by (unfold RSIZE_MAX in *; change (256 ^ 8) with (2 ^ 64) in *; lia).
    clear -Hl H8 E. destruct (skip_zeros l) as [|x t] eqn:Es; [rewrite size_nil in H8; lia|].
    assert (x <> 0) as Hx.
    { clear -Es. induction l as [|y l IH]; [done|]. cbn [skip_zeros] in Es.
      destruct (Z.eqb_spec y 0); [by apply IH|]. by inv Es. }
    rewrite <- E, be_cons. assert (all_bytes (x :: t)) as Ht.
    { rewrite <- Es. by apply skip_zeros_ok. }
    rewrite Forall_cons in Ht. destruct Ht as [Hxb Ht]. pose proof (be_bound t Ht).
    rewrite size_cons in H8. assert (256 ^ 8 <= 256 ^ size t) by (apply Z.pow_le_mono_r; lia).
    unfold is_byte in Hxb. nia.
  - rewrite Z.ltb_antisym. destruct (be l <=? RSIZE_MAX); cbn [negb]; [|done]. f_equal; lia.
Qed.

Lemma fetch_length_det n rest : 0 <= n <= RSIZE_MAX ->
  oer_fetch_length (length_det n ++ rest) = (size (length_det n), n).
Proof.
  intros Hn. unfold length_det, RSIZE_MAX in *. destruct (Z.leb_spec n 127).
  - cbn [app]. unfold oer_fetch_length. rewrite land_128 by (unfold is_byte; lia).
    destruct (Z.ltb_spec n 128); [done|lia].
  - destruct (min_bytes_ok n ltac:(lia)) as (E & Hs & Hb). cbn [app].
    rewrite fetch_length_long, E by (auto; lia). rewrite size_cons.
    destruct (Z.leb_spec n RSIZE_MAX); [done|unfold RSIZE_MAX in *; lia].
Qed.

(** A successful read stays inside the buffer, and the value fits a [size_t]. *)
Lemma fetch_length_bounds l r len : all_bytes l -> oer_fetch_length l = (r, len) ->
  -1 <= r <= size l /\ 0 <= len <= RSIZE_MAX /\ (0 < r -> l <> []).
Proof.
  intros Hl. unfold oer_fetch_length. destruct Hl as [|b t Hb Ht]; [intros [= <- <-]; done|].
  rewrite size_cons. pose proof (size_nonneg t). rewrite land_128, land_0x7f by done.
  unfold is_byte in Hb. assert (0 <= b mod 128 < 128) by (apply Z.mod_pos_bound; lia).
  destruct (Z.ltb_spec b 128); [intros [= <- <-]; unfold RSIZE_MAX; repeat split; auto; lia|].
  destruct (Z.ltb_spec (1 + size t) (1 + b mod 128)); [intros [= <- <-]; unfold RSIZE_MAX; repeat split; auto; lia|].
  destruct (8 <? size _); [intros [= <- <-]; unfold RSIZE_MAX; repeat split; auto; lia|].
  destruct (skip_zeros_ok (ztake (b mod 128) t)) as (E & _ & Hsb); [auto with asn|].
  pose proof (be_bound _ Hsb).
  destruct (Z.ltb_spec RSIZE_MAX (be (skip_zeros (ztake (b mod 128) t))));
    intros [= <- <-]; unfold RSIZE_MAX in *; repeat split; auto; lia.
Qed.

Lemma fetch_quantity_det n rest : 0 <= n <= RSIZE_MAX ->
  oer_fetch_quantity (quantity_det n ++ rest) = (size (quantity_det n), n).
Proof.
  intros Hn. unfold RSIZE_MAX in Hn. destruct (min_bytes_ok n ltac:(lia)) as (E & Hs & Hb).
  unfold oer_fetch_quantity, quantity_det. cbn [app].
  assert (oer_fetch_length (size (min_bytes n) :: min_bytes n ++ rest) = (1, size (min_bytes n))) as ->.
  { unfold oer_fetch_length. rewrite land_128 by (unfold is_byte; lia).
    by destruct (Z.ltb_spec (size (min_bytes n)) 128); [|lia]. }
  rewrite !size_cons, size_app, zdrop_1_cons, ztake_app by done. pose proof (size_nonneg rest).
  destruct (Z.leb_spec 1 0); [lia|].
  destruct (Z.ltb_spec (1 + (size (min_bytes n) + size rest)) (1 + size (min_bytes n))); [lia|].
  destruct (skip_zeros_ok _ Hb) as (E' & Hsz & _). rewrite E', E.
  destruct (Z.ltb_spec 8 (size (skip_zeros (min_bytes n)))); [lia|].
  unfold RSIZE_MAX. by destruct (Z.ltb_spec (2 ^ 63 - 1) n); [lia|].
Qed.

Lemma fetch_quantity_bounds l r q : all_bytes l -> oer_fetch_quantity l = (r, q) ->
  -1 <= r <= size l /\ 0 <= q <= RSIZE_MAX.
Proof.
  intros Hl. unfold oer_fetch_quantity.
  destruct (oer_fetch_length l) as [r' len] eqn:E.
  apply fetch_length_bounds in E as (Hr & Hlen & _); [|done].
  destruct (Z.leb_spec r' 0); [intros [= <- <-]; unfold RSIZE_MAX; lia|].
  destruct (Z.ltb_spec (size l) (r' + len)); [intros [= <- <-]; unfold RSIZE_MAX; lia|].
  destruct (8 <? size _); [intros [= <- <-]; unfold RSIZE_MAX; lia|].
  destruct (skip_zeros_ok (ztake len (zdrop r' l))) as (_ & _ & Hsb); [auto with asn|].
  pose proof (be_bound _ Hsb).
  destruct (Z.ltb_spec RSIZE_MAX (be (skip_zeros (ztake len (zdrop r' l)))));
    intros [= <- <-]; unfold RSIZE_MAX in *; lia.
Qed.

(** ** Tags *)

Lemma tag_split tag : tag = 4 * BER_TAG_VALUE tag + BER_TAG_CLASS tag /\ 0 <= BER_TAG_CLASS tag < 4.
Proof.
  unfold BER_TAG_VALUE, BER_TAG_CLASS. change 3 with (Z.ones 2).
  rewrite Z.land_ones, Z.shiftr_div_pow2 by lia. change (2 ^ 2) with 4.
  split; [apply Z.div_mod; lia|apply Z.mod_pos_bound; lia].
Qed.

Lemma lor_tag v c : 0 <= c < 4 -> Z.lor (Z.shiftl v 2) c = 4 * v + c.
Proof. intros. rewrite lor_shiftl_add by (change (2 ^ 2) with 4; lia). lia. Qed.

Lemma tag_det_emits tag : 0 <= BER_TAG_VALUE tag < 128 ->
  emits (oer_put_tag tag) (size (tag_det tag)) (tag_det tag).
Proof.
  intros Hv. destruct (tag_split tag) as [_ Hc]. unfold oer_put_tag, tag_det.
  destruct (Z.ltb_spec (BER_TAG_VALUE tag) 0x3F).
  - rewrite lor_shiftl_add, wrap_id by (change (2 ^ 6) with 64; lia). by apply emits_cb_last.
  - rewrite lor_shiftl_add, wrap_id by (change (2 ^ 6) with 64; lia).
    change (put_tag_loop 8 (BER_TAG_VALUE tag) []) with
      (if ctrue (Z.shiftr (BER_TAG_VALUE tag) 7)
       then put_tag_loop 7 (Z.shiftr (BER_TAG_VALUE tag) 7) [Z.lor 0x80 (Z.land (BER_TAG_VALUE tag) 0x7f)]
       else [Z.land (BER_TAG_VALUE tag) 0x7f]).
    rewrite (Z.shiftr_div_pow2 _ 7), Z.div_small by (change (2 ^ 7) with 128; lia).
    change (ctrue 0) with false. cbv iota. change 0x7f with (Z.ones 7). rewrite Z.land_ones, Z.mod_small by (change (2 ^ 7) with 128; lia).
    by apply emits_cb_last.
Qed.

Lemma fetch_tag_det tag rest : 0 <= BER_TAG_VALUE tag < 128 ->
  oer_fetch_tag (tag_det tag ++ rest) = (size (tag_det tag), tag).
Proof.
  intros Hv. destruct (tag_split tag) as [Ht Hc]. unfold oer_fetch_tag, tag_det.
  assert (forall v, 0 <= v < 64 -> Z.land (BER_TAG_CLASS tag * 64 + v) 0x3F = v /\
                    Z.shiftr (BER_TAG_CLASS tag * 64 + v) 6 = BER_TAG_CLASS tag) as Hd.
  { intros v Hv'. change 0x3F with (Z.ones 6). rewrite Z.land_ones, Z.shiftr_div_pow2 by lia.
    change (2 ^ 6) with 64. rewrite Z.div_add_l, Z.add_comm, Z.mod_add, Z.mod_small, Z.div_small by lia. lia. }
  destruct (Z.ltb_spec (BER_TAG_VALUE tag) 0x3F); cbn [app].
  - destruct (Hd (BER_TAG_VALUE tag)) as [-> ->]; [lia|].
    destruct (Z.eqb_spec (BER_TAG_VALUE tag) 0x3F); [lia|]. cbn [negb].
    rewrite lor_tag by lia. rewrite <- Ht. done.
  - destruct (Hd 0x3F) as [-> ->]; [lia|]. cbn [negb Z.eqb Pos.eqb]. cbn [fetch_tag_loop]. unfold ctrue.
    rewrite land_128 by (unfold is_byte; lia). destruct (Z.ltb_spec (BER_TAG_VALUE tag) 128); [|lia].
    cbn [negb]. rewrite Z.shiftl_0_l, Z.lor_0_l, (wrap_id 32 (BER_TAG_VALUE tag)) by lia.
    rewrite lor_tag, <- Ht, wrap_id by lia. done.
Qed.

Lemma size_tag_det tag : 1 <= size (tag_det tag) <= 2.
Proof. unfold tag_det, size. destruct (_ <? _); simpl length; lia. Qed.

Lemma tag_det_bytes tag : 0 <= BER_TAG_VALUE tag < 128 -> all_bytes (tag_det tag).
Proof.
  intros Hv. destruct (tag_split tag) as [_ Hc]. unfold tag_det.
  destruct (Z.ltb_spec (BER_TAG_VALUE tag) 0x3F); repeat constructor; unfold is_byte; lia.
Qed.

Lemma fetch_tag_loop_bounds l : forall val skipped tclass r t, 2 <= skipped ->
  fetch_tag_loop val skipped tclass l = (r, t) ->
  -1 <= r /\ r < skipped + size l /\ 0 <= t < 2 ^ 32.
Proof.
  induction l as [|oct l IH]; intros val skipped tclass r t Hs; cbn [fetch_tag_loop].
  { intros [= <- <-]. change (size []) with 0. lia. }
  rewrite size_cons. pose proof (size_nonneg l). destruct (ctrue _).
  - destruct (ctrue _); [intros [= <- <-]; lia|]. intros E. apply IH in E; lia.
  - intros [= <- <-]. pose proof (Z.mod_pos_bound (Z.lor (Z.shiftl (u32 (Z.lor (Z.shiftl val 7) oct)) 2) tclass) (2 ^ 32)).
    unfold wrap at 1 3. lia.
Qed.

Lemma fetch_tag_bounds l r t : oer_fetch_tag l = (r, t) -> -1 <= r <= size l.
Proof.
  unfold oer_fetch_tag. destruct l as [|b l]; [intros [= <- <-]; done|].
  rewrite size_cons. pose proof (size_nonneg l).
  destruct (negb _); [intros [= <- <-]; lia|].
  intros E. apply fetch_tag_loop_bounds in E; lia.
Qed.

(** ** The tag to member table *)

Lemma search4tag_eq a b : _search4tag a b = 0 <-> a = b.
Proof.
  unfold _search4tag. destruct (tag_split a) as [Ha _], (tag_split b) as [Hb _].
  destruct (Z.eqb_spec (BER_TAG_CLASS a) (BER_TAG_CLASS b)) as [Ec|].
  - destruct (Z.eqb_spec (BER_TAG_VALUE a) (BER_TAG_VALUE b)) as [Ev|].
    + split; [intros _|done]. congruence.
    + destruct (_ <? _); split; try done; intros ->; congruence.
  - destruct (_ <? _); split; try done; intros ->; congruence.
Qed.

Lemma search4tag_sym a b : _search4tag a b < 0 -> 0 < _search4tag b a.
Proof.
  unfold _search4tag. rewrite (Z.eqb_sym (BER_TAG_CLASS b)), (Z.eqb_sym (BER_TAG_VALUE b)).
  destruct (Z.eqb_spec (BER_TAG_CLASS a) (BER_TAG_CLASS b)).
  - destruct (Z.eqb_spec (BER_TAG_VALUE a) (BER_TAG_VALUE b)); [lia|].
    destruct (Z.ltb_spec (BER_TAG_VALUE a) (BER_TAG_VALUE b)); [|lia].
    destruct (Z.ltb_spec (BER_TAG_VALUE b) (BER_TAG_VALUE a)); lia.
  - destruct (Z.ltb_spec (BER_TAG_CLASS a) (BER_TAG_CLASS b)); [|lia].
    destruct (Z.ltb_spec (BER_TAG_CLASS b) (BER_TAG_CLASS a)); lia.
Qed.

(** "Tags are canonically sorted in the tag to member table." *)
Definition tags_sorted (tbl : list asn_TYPE_tag2member) : Prop :=
  forall i j a b, (i < j)%nat -> tbl !! i = Some a -> tbl !! j = Some b ->
  _search4tag a.(el_tag) b.(el_tag) < 0.

Lemma bsearch_sound fuel key : forall tbl m,
  bsearch fuel key tbl = Some m -> m ∈ tbl /\ m.(el_tag) = key.
Proof.
  induction fuel as [|fuel IH]; intros tbl m; [done|]. cbn [bsearch].
  destruct (tbl !! _) as [x|] eqn:Ex; [|done].
  destruct (Z.eqb_spec (_search4tag key (el_tag x)) 0) as [E|].
  - intros [= <-]. apply search4tag_eq in E as ->.
    split; [|done]. by apply list_elem_of_lookup_2 in Ex.
  - destruct (_ <? 0); intros H; apply IH in H as [H ->]; (split; [|done]).
    + apply elem_of_take in H as (i & H & _). by apply list_elem_of_lookup_2 in H.
    + apply list_elem_of_lookup in H as [i H]. rewrite lookup_drop in H. by apply list_elem_of_lookup_2 in H.
Qed.

Lemma bsearch_complete fuel : forall tbl i m, (length tbl < fuel)%nat -> tags_sorted tbl ->
  tbl !! i = Some m -> bsearch fuel m.(el_tag) tbl = Some m.
Proof.
  induction fuel as [|fuel IH]; intros tbl i m Hlen Hs Hi; [lia|]. cbn [bsearch].
  pose proof (lookup_lt_Some _ _ _ Hi) as Hlt.
  pose proof (Nat.div_lt (length tbl) 2 ltac:(lia) ltac:(lia)) as Hmid.
  destruct (lookup_lt_is_Some_2 tbl (length tbl / 2)) as [x Ex]; [done|]. rewrite Ex.
  destruct (Nat.lt_trichotomy i (length tbl / 2)) as [H|[->|H]].
  - pose proof (Hs _ _ _ _ H Hi Ex) as Hc.
    destruct (Z.eqb_spec (_search4tag (el_tag m) (el_tag x)) 0); [lia|].
    destruct (Z.ltb_spec (_search4tag (el_tag m) (el_tag x)) 0); [|lia].
    apply (IH _ i); [rewrite length_take; lia| |by rewrite lookup_take_lt].
    intros j k a b Hjk Hj Hk. apply lookup_take_Some in Hj as [Hj _], Hk as [Hk _]. by apply (Hs j k).
  - rewrite Hi in Ex. injection Ex as <-. by rewrite (proj2 (search4tag_eq _ _) eq_refl).
  - pose proof (search4tag_sym _ _ (Hs _ _ _ _ H Ex Hi)) as Hc.
    destruct (Z.eqb_spec (_search4tag (el_tag m) (el_tag x)) 0); [lia|].
    destruct (Z.ltb_spec (_search4tag (el_tag m) (el_tag x)) 0); [lia|].
    apply (IH _ (i - S (length tbl / 2))%nat); [rewrite length_drop; lia| |].
    + intros j k a b Hjk Hj Hk. rewrite lookup_drop in Hj, Hk. eapply Hs; [|exact Hj|exact Hk]. lia.
    + rewrite lookup_drop. rewrite <- Hi. f_equal. lia.
Qed.

(** * Theorems *)

Lemma fetch_length_shortest l r n : all_bytes l -> oer_fetch_length l = (r, n) -> 0 < r ->
  size (length_det n) <= r.
Proof.
  intros Hl E Hr. unfold oer_fetch_length in E. destruct Hl as [|b t Hb Ht]; [inv E; lia|].
  rewrite land_128, land_0x7f in E by done. unfold is_byte in Hb.
  assert (0 <= b mod 128 < 128) as Hm by (apply Z.mod_pos_bound; lia).
  destruct (Z.ltb_spec b 128).
  { inv E. unfold length_det. by destruct (Z.leb_spec n 127); [|lia]. }
  rewrite size_cons in E.
  destruct (Z.ltb_spec (1 + size t) (1 + b mod 128)); [inv E; lia|].
  destruct (8 <? size _); [inv E; lia|]. destruct (Z.ltb_spec RSIZE_MAX (be (skip_zeros (ztake (b mod 128) t)))); inv E; [lia|].
  destruct (skip_zeros_ok (ztake (b mod 128) t)) as (-> & _ & _); [auto with asn|].
  unfold length_det. destruct (Z.leb_spec (be (ztake (b mod 128) t)) 127); [change (size [_]) with 1; lia|].
  assert (all_bytes (ztake (b mod 128) t)) as Hb' by auto with asn.
  destruct (skip_zeros_ok _ Hb') as (Ez & _ & _). pose proof (be_bound _ Hb').
  assert (size (min_bytes (be (ztake (b mod 128) t))) <= size (ztake (b mod 128) t)).
  { apply min_bytes_minimal; auto; [rewrite Ez in *; unfold RSIZE_MAX in *; lia|].
    intros E0. rewrite E0 in *. change (be []) with 0 in *. lia. }
  rewrite size_ztake in * by lia. rewrite size_cons. lia.
Qed.

(** The length determinant written for [n] reads back as [n], with exactly its
    own bytes consumed whatever follows, and no accepted determinant of [n] is
    shorter. *)
Theorem oer_length_canonical n : 0 <= n <= RSIZE_MAX ->
  exists bs, emits (oer_serialize_length n) (size bs) bs /\
    (forall rest, oer_fetch_length (bs ++ rest) = (size bs, n)) /\
    (forall l r, all_bytes l -> oer_fetch_length l = (r, n) -> 0 < r -> size bs <= r).
Proof.
  intros Hn. exists (length_det n). split; [apply length_det_emits; unfold RSIZE_MAX in *; lia|].
  split; [intros; by apply fetch_length_det|]. intros. by eapply fetch_length_shortest.
Qed.

Lemma oer_length_canonical_witness :
  exists bs, emits (oer_serialize_length 1330) (size bs) bs /\
    oer_fetch_length (bs ++ [1; 2]) = (size bs, 1330).
Proof.
  destruct (oer_length_canonical 1330) as (bs & H1 & H2 & _).
  - unfold RSIZE_MAX. lia.
  - exists bs. split; [exact H1|exact (H2 [1; 2])].
Defined.

(** A reader that is given only part of a length determinant asks for more. *)
Theorem oer_length_truncated n bs more : 0 <= n <= RSIZE_MAX ->
  bs ++ more = length_det n -> more <> [] -> oer_fetch_length bs = (0, 0).
Proof.
  intros Hn E Hne. unfold length_det, RSIZE_MAX in *. destruct (Z.leb_spec n 127).
  - destruct bs as [|b [|]]; [done| |].
    + by inv E.
    + by apply (f_equal length) in E.
  - destruct (min_bytes_ok n ltac:(lia)) as (_ & Hs & _). destruct bs as [|b bs]; [done|].
    injection E as -> Em. unfold oer_fetch_length.
    rewrite land_128, land_0x7f by (unfold is_byte; lia).
    destruct (Z.ltb_spec (128 + size (min_bytes n)) 128); [lia|].
    replace ((128 + size (min_bytes n)) mod 128) with (size (min_bytes n)).
    2: { replace (128 + size (min_bytes n)) with (size (min_bytes n) + 1 * 128) by lia.
         rewrite Z.mod_add, Z.mod_small by lia. done. }
    rewrite <- Em, size_cons, size_app in *. destruct more as [|m more]; [done|]. rewrite size_cons.
    pose proof (size_nonneg more). by destruct (Z.ltb_spec (1 + size bs) (1 + (size bs + (1 + size more)))); [|lia].
Qed.

Lemma oer_length_truncated_witness : oer_fetch_length [0x82; 5] = (0, 0).
Proof.
  apply (oer_length_truncated 1330 [0x82; 5] [50]); [unfold RSIZE_MAX; lia|reflexivity|discriminate].
Defined.

(** Quantities round trip. *)
Theorem oer_quantity_roundtrip n : 0 <= n <= RSIZE_MAX ->
  exists bs, emits (oer_put_quantity n) (size bs) bs /\
    forall rest, oer_fetch_quantity (bs ++ rest) = (size bs, n).
Proof.
  intros Hn. exists (quantity_det n). split; [apply quantity_det_emits; unfold RSIZE_MAX in *; lia|].
  intros. by apply fetch_quantity_det.
Qed.

Lemma oer_quantity_roundtrip_witness :
  exists bs, emits (oer_put_quantity 300) (size bs) bs /\
    oer_fetch_quantity (bs ++ [7]) = (size bs, 300).
Proof.
  destruct (oer_quantity_roundtrip 300) as (bs & H1 & H2).
  - unfold RSIZE_MAX. lia.
  - exists bs. split; [exact H1|exact (H2 [7])].
Defined.

(** Tags with a number below 128 round trip. *)
Theorem oer_tag_roundtrip tag : 0 <= BER_TAG_VALUE tag < 128 ->
  exists bs, emits (oer_put_tag tag) (size bs) bs /\
    forall rest, oer_fetch_tag (bs ++ rest) = (size bs, tag).
Proof. intros H. exists (tag_det tag). split; [by apply tag_det_emits|]. intros. by apply fetch_tag_det. Qed.

Lemma oer_tag_roundtrip_witness :
  exists bs, emits (oer_put_tag (100 * 4 + 2)) (size bs) bs /\
    oer_fetch_tag (bs ++ [0]) = (size bs, 100 * 4 + 2).
Proof.
  destruct (oer_tag_roundtrip (100 * 4 + 2)) as (bs & H1 & H2).
  - vm_compute. split; [discriminate|reflexivity].
  - exists bs. split; [exact H1|exact (H2 [0])].
Defined.

(** The most significant digit comes first, without the continuation bit. *)
Lemma put_tag_loop_head fuel : forall tval acc, 0 <= tval < 128 ^ Z.of_nat fuel -> (0 < fuel)%nat ->
  exists d l, put_tag_loop fuel tval acc = d :: l ++ acc /\ 0 <= d < 128 /\
    (128 <= tval -> l <> [] /\ d < tval) /\ all_bytes l.
Proof.
  induction fuel as [|fuel IH]; intros tval acc Ht Hf; [lia|]. cbn [put_tag_loop].
  change 0x7f with (Z.ones 7). rewrite Z.land_ones, Z.shiftr_div_pow2 by lia. change (2 ^ 7) with 128.
  unfold ctrue. assert (0 <= tval mod 128 < 128) by (apply Z.mod_pos_bound; lia).
  pose proof (Z.div_mod tval 128 ltac:(lia)) as Hdm.
  destruct (Z.eqb_spec (tval / 128) 0) as [E|E]; cbn [negb].
  - exists (tval mod 128), []. split; [done|]. split; [lia|]. split; [intros; lia|done].
  - replace (Z.of_nat (S fuel)) with (1 + Z.of_nat fuel) in Ht by lia. rewrite Z.pow_add_r in Ht by lia.
    assert (0 <= tval / 128 < 128 ^ Z.of_nat fuel) as Hq
      by (split; [apply Z.div_pos; lia|apply Z.div_lt_upper_bound; lia]).
    destruct fuel as [|fuel]; [change (128 ^ Z.of_nat 0) with 1 in Hq; lia|].
    destruct (IH (tval / 128) (Z.lor 128 (tval mod 128) :: acc) Hq ltac:(lia)) as (d & l & -> & Hd & Hl & Hb).
    exists d, (l ++ [Z.lor 128 (tval mod 128)]). rewrite <- app_assoc. split; [done|].
    split; [done|]. split.
    + intros _. split; [by destruct l|]. destruct (Z.le_gt_cases 128 (tval / 128)); [|lia].
      destruct Hl as [_ ?]; [done|]. lia.
    + apply Forall_app. split; [done|]. apply Forall_singleton.
      pose proof (lor_shiftl_add 1 (tval mod 128) 7 ltac:(lia) ltac:(change (2 ^ 7) with 128; lia)) as Ho.
      change (Z.shiftl 1 7) with 128 in Ho. change (1 * 2 ^ 7) with 128 in Ho.
      rewrite Ho. unfold is_byte. lia.
Qed.

(** [oer_put_tag] sets the continuation bit on the wrong octets: a tag number of
    128 or more is written so that the decoder stops after two octets and sees
    a different tag. *)
Theorem oer_put_tag_large_misread tag : 128 <= BER_TAG_VALUE tag < 2 ^ 30 ->
  exists bs tag', emits (oer_put_tag tag) (size bs) bs /\
    oer_fetch_tag bs = (2, tag') /\ 2 < size bs /\ tag' <> tag.
Proof.
  intros Hv. destruct (tag_split tag) as [Ht Hc].
  destruct (put_tag_loop_head 8 (BER_TAG_VALUE tag) []) as (d & l & E & Hd & Hl & _);
    [change (128 ^ Z.of_nat 8) with (2 ^ 56); lia|lia|].
  destruct Hl as [Hl Hlt]; [lia|]. rewrite app_nil_r in E.
  exists ((BER_TAG_CLASS tag * 64 + 0x3F) :: d :: l), (4 * d + BER_TAG_CLASS tag).
  split; [|split; [|split]].
  - unfold oer_put_tag. destruct (Z.ltb_spec (BER_TAG_VALUE tag) 0x3F); [lia|]. rewrite E.
    rewrite lor_shiftl_add, wrap_id by (change (2 ^ 6) with 64; lia). by apply emits_cb_last.
  - unfold oer_fetch_tag. change 0x3F with (Z.ones 6) at 2. rewrite Z.land_ones, Z.shiftr_div_pow2 by lia.
    change (2 ^ 6) with 64. rewrite Z.div_add_l, (Z.add_comm _ 63), Z.mod_add by lia.
    change (63 mod 64 =? 63) with true. cbn [negb fetch_tag_loop]. unfold ctrue.
    rewrite land_128 by (unfold is_byte; lia). destruct (Z.ltb_spec d 128); [|lia]. cbn [negb].
    rewrite Z.shiftl_0_l, Z.lor_0_l, (wrap_id 32 d) by lia.
    change (63 / 64) with 0. rewrite Z.add_0_r, lor_tag, wrap_id by lia. done.
  - rewrite !size_cons. destruct l; [done|]. rewrite size_cons. pose proof (size_nonneg l). lia.
  - lia.
Qed.

Lemma oer_put_tag_large_misread_witness :
  exists bs tag', emits (oer_put_tag (128 * 4 + 2)) (size bs) bs /\
    oer_fetch_tag bs = (2, tag') /\ 2 < size bs /\ tag' <> 128 * 4 + 2.
Proof.
  apply (oer_put_tag_large_misread (128 * 4 + 2)). vm_compute. split; [discriminate|reflexivity].
Defined.

(** On a table sorted by [_search4tag] the binary search finds the entry of a tag
    exactly when there is one. *)
Theorem find_tag_correct tbl key : tags_sorted tbl ->
  match find_tag key tbl with
  | Some m => m ∈ tbl /\ m.(el_tag) = key
  | None => forall m, m ∈ tbl -> m.(el_tag) <> key
  end.
Proof.
  intros Hs. unfold find_tag. destruct (bsearch _ _ _) as [m|] eqn:E.
  - by apply bsearch_sound in E.
  - intros m Hm <-. apply list_elem_of_lookup in Hm as [i Hi].
    rewrite (bsearch_complete _ _ i m) in E; [done|lia|done|done].
Qed.

Lemma find_tag_correct_witness :
  match find_tag 6 [{| el_tag := 2; el_no := 0 |}; {| el_tag := 6; el_no := 1 |}] with
  | Some m => m.(el_tag) = 6
  | None => False
  end.
Proof.
  assert (tags_sorted [{| el_tag := 2; el_no := 0 |}; {| el_tag := 6; el_no := 1 |}]) as Hs.
  { intros [|[|i]] [|[|j]] a b Hij Ha Hb; try lia; try discriminate.
    injection Ha as <-. injection Hb as <-. reflexivity. }
  pose proof (find_tag_correct _ 6 Hs) as H. vm_compute in H |- *. exact (proj2 H).
Defined.
