(* ===== verification/OerPrim.v ===== *)
(** OER codecs of the primitive types.

    Models support/INTEGER_oer.c, NativeInteger_oer.c, NativeEnumerated_oer.c,
    BOOLEAN_oer.c, NULL_oer.c, OCTET_STRING_oer.c, BIT_STRING_oer.c and the
    generic primitive codec of oer_decoder.c / oer_encoder.c.  Memory
    allocation is taken to succeed. *)

From stdpp Require Import prelude strings.
From S2P Require Import Prelude Codecs Integer Descriptor OerSupport.

(** [if(!constraints) constraints = td->encoding_constraints.oer_constraints] *)
Definition pick_cts (constraints td_cts : oer_cts) : oer_cts :=
  match constraints with Some _ => constraints | None => td_cts end.

(** [struct asn_oer_constraint_number_s ct]: width and positive. *)
Definition ct_value (cts : oer_cts) : Z * bool :=
  match cts with Some c => (c.(width), c.(positive)) | None => (0, false) end.

Definition ct_size (cts : oer_cts) : Z :=
  match cts with Some c => c.(csize) | None => -1 end.

Definition ok (consumed : Z) : asn_dec_rval := RETURN RC_OK consumed.

(** * INTEGER *)

Definition INTEGER_decode_oer (td_cts : oer_cts) : decoder := fun _ constraints sptr ptr =>
  let st := Some (O_BUF None) in
  let '(w, pos) := ct_value (pick_cts constraints td_cts) in
  let '(consumed, req_bytes) := if ctrue w then (0, w) else oer_fetch_length ptr in
  if negb (ctrue w) && (consumed =? 0) then (ASN__DECODE_STARVED, st)
  else if negb (ctrue w) && (consumed =? -1) then (ASN__DECODE_FAILED, st)
  else
    let ptr := zdrop consumed ptr in
    if (req_bytes =? 0) || (size ptr <? req_bytes) then (ASN__DECODE_STARVED, st)
    else if pos then
      let msb := Z.shiftr (znth ptr 0) 7 in
      let buf := if ctrue msb then 0 :: ztake req_bytes ptr else ztake req_bytes ptr in
      (ok (consumed + req_bytes), Some (O_BUF (Some buf)))
    else (ok (consumed + req_bytes), Some (O_BUF (Some (ztake req_bytes ptr)))).

(** The padding loop: [n] single-byte calls. *)
Fixpoint pad_loop (n : nat) (b : Z) : enc bool :=
  match n with
  | O => mret true
  | S n => r ← cb [b]; if r <? 0 then mret false else pad_loop n b
  end.

Definition INTEGER_encode_oer (name : string) (td_cts : oer_cts) (constraints : oer_cts)
    (st : INTEGER_t) : enc asn_enc_rval :=
  match st with
  | None | Some [] => mret (ASN__ENCODE_FAILED name)
  | Some buf =>
    let '(w, pos) := ct_value (pick_cts constraints td_cts) in
    let sign := Z.land (znth buf 0) 0x80 in
    if pos && ctrue sign then mret (ASN__ENCODE_FAILED name)
    else
      let buf := if pos then skip_zeros_last buf else skip_insignificant buf in
      let useful_bytes := size buf in
      r ← (if ctrue w then mret 0 else oer_serialize_length useful_bytes);
      if r <? 0 then mret (ASN__ENCODE_FAILED name)
      else
        let req_bytes := if ctrue w then w else useful_bytes in
        if req_bytes <? useful_bytes then mret (ASN__ENCODE_FAILED name)
        else
          padded ← pad_loop (Z.to_nat (req_bytes - useful_bytes)) (if ctrue sign then 0xff else 0);
          if negb padded then mret (ASN__ENCODE_FAILED name)
          else
            c ← cb buf;
            mret (if c <? 0 then ASN__ENCODE_FAILED name else ASN__ENCODED_OK (r + req_bytes))
  end.

Definition INTEGER_encoder (name : string) (td_cts : oer_cts) : encoder := fun constraints sptr =>
  match sptr with
  | Some (O_BUF st) => INTEGER_encode_oer name td_cts constraints st
  | _ => mret (ASN__ENCODE_FAILED name)
  end.

(** * NativeInteger *)

Definition is_unsigned (specs : option asn_INTEGER_specifics) : bool :=
  match specs with Some s => s.(field_unsigned) | None => false end.

Definition NativeInteger_decode_oer (specs : option asn_INTEGER_specifics) (td_cts : oer_cts)
    : decoder := fun ctx constraints nint_ptr ptr =>
  let native := default (O_long 0) nint_ptr in
  match INTEGER_decode_oer td_cts ctx constraints (Some (O_BUF None)) ptr with
  | (rval, Some (O_BUF tmpint)) =>
    if decide (rval.(code) = RC_OK) then
      if is_unsigned specs then
        match asn_INTEGER2ulong tmpint with
        | Some ul => (rval, Some (O_long (s64 ul)))
        | None => (RETURN RC_FAIL rval.(consumed), Some native)
        end
      else
        match asn_INTEGER2long tmpint with
        | Some l => (rval, Some (O_long l))
        | None => (RETURN RC_FAIL rval.(consumed), Some native)
        end
    else (rval, Some native)
  | (rval, _) => (rval, Some native)
  end.

Definition NativeInteger_encode_oer (name : string) (specs : option asn_INTEGER_specifics)
    (td_cts : oer_cts) : encoder := fun constraints sptr =>
  match sptr with
  | Some (O_long native) =>
    let tmpint := if is_unsigned specs then asn_ulong2INTEGER (u64 native)
                  else asn_long2INTEGER native in
    INTEGER_encode_oer name td_cts constraints tmpint
  | _ => mret (ASN__ENCODE_FAILED name)
  end.

(** * BOOLEAN and NULL *)

Definition BOOLEAN_decode_oer : decoder := fun _ _ sptr ptr =>
  match ptr with
  | [] => (ASN__DECODE_STARVED, sptr)
  | b :: _ => (ok 1, Some (O_BOOLEAN b))
  end.

Definition BOOLEAN_encode_oer (name : string) : encoder := fun _ sptr =>
  match sptr with
  | Some (O_BOOLEAN st) =>
    r ← cb [if ctrue st then 0xff else 0];
    mret (if r <? 0 then ASN__ENCODE_FAILED name else ASN__ENCODED_OK 1)
  | _ => NoFuel
  end.

Definition NULL_decode_oer : decoder := fun _ _ sptr _ =>
  (ok 0, match sptr with None => Some O_NULL | Some _ => sptr end).

Definition NULL_encode_oer : encoder := fun _ _ => mret (ASN__ENCODED_OK 0).

(** * OCTET STRING *)

(** [None] for a subvariant the octet string codec rejects. *)
Definition unit_bytes_of (specs : option asn_OS_Subvariant) : option Z :=
  match default ASN_OSUBV_STR specs with
  | ASN_OSUBV_BIT => None
  | ASN_OSUBV_ANY | ASN_OSUBV_STR => Some 1
  | ASN_OSUBV_U16 => Some 2
  | ASN_OSUBV_U32 => Some 4
  end.

Definition OCTET_STRING_decode_oer (specs : option asn_OS_Subvariant) (td_cts : oer_cts)
    : decoder := fun _ constraints sptr ptr =>
  let ct := ct_size (pick_cts constraints td_cts) in
  match unit_bytes_of specs with
  | None => (ASN__DECODE_FAILED, sptr)
  | Some unit_bytes =>
    let st := Some (default (O_BUF None) sptr) in
    let '(len_len, expected_length) :=
      if 0 <=? ct then (0, unit_bytes * ct) else oer_fetch_length ptr in
    if (ct <? 0) && (len_len =? 0) then (ASN__DECODE_STARVED, st)
    else if (ct <? 0) && (len_len <? 0) then (ASN__DECODE_FAILED, st)
    else if (ct <? 0) && negb (expected_length mod unit_bytes =? 0) then (ASN__DECODE_FAILED, st)
    else
      let ptr := zdrop len_len ptr in
      if size ptr <? expected_length then (ASN__DECODE_STARVED, st)
      else (ok (len_len + expected_length), Some (O_BUF (Some (ztake expected_length ptr))))
  end.

Definition OCTET_STRING_encode_oer (name : string) (specs : option asn_OS_Subvariant)
    (td_cts : oer_cts) : encoder := fun constraints sptr =>
  match sptr with
  | Some (O_BUF st) =>
    let buf := default [] st in
    let ct := ct_size (pick_cts constraints td_cts) in
    if 0 <=? ct then
      match unit_bytes_of specs with
      | None => mret (ASN__ENCODE_FAILED name)
      | Some unit_bytes =>
        if negb (size buf =? unit_bytes * ct) then mret (ASN__ENCODE_FAILED name)
        else
          r ← cb buf;
          mret (if r <? 0 then ASN__ENCODE_FAILED name else ASN__ENCODED_OK (size buf))
      end
    else
      ret ← oer_serialize_length (size buf);
      if ret <? 0 then mret (ASN__ENCODE_FAILED name)
      else
        r ← cb buf;
        mret (if r <? 0 then ASN__ENCODE_FAILED name else ASN__ENCODED_OK (ret + size buf))
  | _ => mret (ASN__ENCODE_FAILED name)
  end.

(** * The generic primitive codec *)

Definition oer_decode_primitive : decoder := fun _ _ sptr ptr =>
  let st := Some (default (O_BUF None) sptr) in
  let '(len_len, expected_length) := oer_fetch_length ptr in
  if len_len =? 0 then (ASN__DECODE_STARVED, st)
  else if len_len <? 0 then (ASN__DECODE_FAILED, st)
  else
    let ptr := zdrop len_len ptr in
    if size ptr <? expected_length then (ASN__DECODE_STARVED, st)
    else (ok (len_len + expected_length), Some (O_BUF (Some (ztake expected_length ptr)))).

Definition oer_encode_primitive (name : string) : encoder := fun _ sptr =>
  match sptr with
  | Some (O_BUF st) =>
    let buf := default [] st in
    ret ← oer_serialize_length (size buf);
    if ret <? 0 then mret (ASN__ENCODE_FAILED name)
    else
      r ← cb buf;
      mret (if r <? 0 then ASN__ENCODE_FAILED name else ASN__ENCODED_OK (ret + size buf))
  | _ => mret (ASN__ENCODE_FAILED name)
  end.

(** * BIT STRING *)

(** [buf[expected_length - 1] &= (0xff << bits_unused)] *)
Definition mask_last (buf : bytes) (bits_unused : Z) : bytes :=
  match buf with
  | [] => []
  | _ => ztake (size buf - 1) buf ++
         [u8 (Z.land (znth buf (size buf - 1)) (Z.shiftl 0xff bits_unused))]
  end.

Definition BIT_STRING_decode_oer (td_cts : oer_cts) : decoder := fun _ constraints sptr ptr =>
  let ct := ct_size (pick_cts constraints td_cts) in
  let '(st_buf, st_unused) :=
    match sptr with Some (O_BITS b u) => (b, u) | _ => (None, 0) end in
  let finish len_len expected_length bits_unused ptr :=
    if size ptr <? expected_length then
      (ASN__DECODE_STARVED, Some (O_BITS st_buf bits_unused))
    else (ok (len_len + expected_length),
          Some (O_BITS (Some (mask_last (ztake expected_length ptr) bits_unused)) bits_unused)) in
  if 0 <=? ct then
    finish 0 (Z.shiftr (ct + 7) 3) (Z.land (8 - Z.land ct 7) 7) ptr
  else
    let '(len_len, expected_length) := oer_fetch_length ptr in
    if len_len =? 0 then (ASN__DECODE_STARVED, Some (O_BITS st_buf st_unused))
    else if len_len <? 0 then (ASN__DECODE_FAILED, Some (O_BITS st_buf st_unused))
    else
      let ptr := zdrop len_len ptr in
      if expected_length <? 1 then (ASN__DECODE_FAILED, Some (O_BITS st_buf st_unused))
      else if size ptr <? expected_length then
        (ASN__DECODE_STARVED, Some (O_BITS st_buf st_unused))
      else
        let bits_unused := znth ptr 0 in
        if ctrue (Z.land bits_unused (Z.lnot 7)) then
          (ASN__DECODE_FAILED, Some (O_BITS st_buf bits_unused))
        else finish (len_len + 1) (expected_length - 1) bits_unused (zdrop 1 ptr).

(** The loop over [trailing_zeros], which the body never changes. *)
Fixpoint zeros_loop (fuel : nat) (name : string) (trailing_zeros encoded : Z) : enc asn_enc_rval :=
  if trailing_zeros <=? 0 then mret (ASN__ENCODED_OK encoded)
  else match fuel with
  | O => NoFuel
  | S fuel =>
    let n := if trailing_zeros <? 16 then trailing_zeros else 16 in
    ret ← cb (replicate (Z.to_nat n) 0);
    if ret <? 0 then mret (ASN__ENCODE_FAILED name)
    else zeros_loop fuel name trailing_zeros (encoded + n)
  end.

Definition BIT_STRING_encode_oer (fuel : nat) (name : string) (td_cts : oer_cts) : encoder :=
  fun constraints sptr =>
  match sptr with
  | Some (O_BITS st bits_unused) =>
    let buf := default [] st in
    let ct := ct_size (pick_cts constraints td_cts) in
    let ct_bytes := Z.shiftr (ct + 7) 3 in
    if ctrue (Z.land bits_unused (Z.lnot 7)) then mret (ASN__ENCODE_FAILED name)
    else if ctrue bits_unused && (size buf =? 0) then mret (ASN__ENCODE_FAILED name)
    else if (0 <=? ct) && (ct_bytes <? size buf) then mret (ASN__ENCODE_FAILED name)
    else
      let trailing_zeros := if 0 <=? ct then ct_bytes - size buf else 0 in
      encoded ←
        (if 0 <=? ct then mret 0
         else
           len_len ← oer_serialize_length (1 + size buf);
           if len_len <? 0 then mret (-1)
           else r ← cb [Z.land bits_unused 7]; mret (if r <? 0 then -1 else len_len + 1));
      if encoded <? 0 then mret (ASN__ENCODE_FAILED name)
      else
        let last := Z.land (znth buf (size buf - 1)) (Z.shiftl 0xff bits_unused) in
        let fix_last_byte := ctrue bits_unused && ctrue last in
        r ← cb (if fix_last_byte then ztake (size buf - 1) buf else buf);
        if r <? 0 then mret (ASN__ENCODE_FAILED name)
        else
          r ← (if fix_last_byte then cb [u8 last] else mret 0);
          if r <? 0 then mret (ASN__ENCODE_FAILED name)
          else zeros_loop fuel name trailing_zeros (encoded + size buf)
  | _ => mret (ASN__ENCODE_FAILED name)
  end.

(** * Native ENUMERATED *)

Definition asn__nativeenumerated_convert (b : bytes) : Z :=
  let value := if ctrue (Z.shiftr (znth b 0) 7) then u64 (-1) else 0 in
  s64 (fold_left (fun value x => u64 (Z.lor (Z.shiftl value 8) x)) b value).

Definition NativeEnumerated_decode_oer (specs : option asn_INTEGER_specifics) : decoder :=
  fun _ _ nint_ptr ptr =>
  match ptr with
  | [] => (ASN__DECODE_STARVED, nint_ptr)
  | b :: rest =>
    if Z.land b 0x80 =? 0 then (ok 1, Some (O_long b))
    else
      let length := Z.land b 0x7f in
      if (length <? 1) || (8 <? length) then (ASN__DECODE_FAILED, nint_ptr)
      else if size ptr <? 1 + length then (ASN__DECODE_STARVED, nint_ptr)
      else
        let value := asn__nativeenumerated_convert (ztake length rest) in
        if (value <? 0) && is_unsigned specs then (ASN__DECODE_FAILED, nint_ptr)
        else (ok (1 + length), Some (O_long value))
  end.

(** The loop that writes [native] backwards until only its sign is left. *)
Fixpoint enum_loop (fuel : nat) (native final_pattern : Z) (acc : bytes) : bytes :=
  match fuel with
  | O => acc
  | S fuel =>
    let acc := u8 native :: acc in
    let top := Z.land (u8 native) 0x80 in
    let native := Z.shiftr native 8 in
    if (native =? final_pattern) &&
       (if ctrue final_pattern then ctrue top else negb (ctrue top))
    then acc
    else enum_loop fuel native final_pattern acc
  end.

Definition NativeEnumerated_encode_oer (name : string) : encoder := fun _ sptr =>
  match sptr with
  | Some (O_long native) =>
    if (0 <=? native) && (native <=? 127) then
      r ← cb [u8 native];
      mret (if r <? 0 then ASN__ENCODE_FAILED name else ASN__ENCODED_OK 1)
    else
      let b := enum_loop 8 native (if native <? 0 then -1 else 0) [] in
      r ← cb (Z.lor 0x80 (size b) :: b);
      mret (if r <? 0 then ASN__ENCODE_FAILED name else ASN__ENCODED_OK (1 + size b))
  | _ => mret (ASN__ENCODE_FAILED name)
  end.
