(* ===== verification/OerConstr.v ===== *)
(** OER codecs of the constructed types.

    Models support/constr_SEQUENCE_oer.c, constr_CHOICE_oer.c,
    constr_SET_OF_oer.c, OPEN_TYPE_oer.c and the open type functions of
    oer_decoder.c / oer_encoder.c.  The decoders are restartable: each resumes
    from the phase and step kept in the structure.  Member codecs are reached
    through [asn_TYPE_operation].

    An inline member stored as [None] is its zeroed memory.  A call through a
    missing decoder, a NULL presence bitmap and an alternative outside the member
    table give [RC_UNDEFINED], which every caller passes on; a call through a
    missing encoder gives [NoFuel].  Branches that no structure of the
    type reaches (a CHOICE where the descriptor says SEQUENCE) return RC_FAIL. *)

From stdpp Require Import prelude strings.
From S2P Require Import Prelude Codecs BitData Descriptor OerSupport OerPrim.

(** * Open types *)

(** Reads the length determinant only. *)
Definition oer_open_type_skip (bufptr : bytes) : Z := (oer_fetch_length bufptr).1.

(** In place of the [ssize_t] result of a call without a defined result. *)
Definition OT_UNDEFINED : Z := -2.

(** Returns the [ssize_t] result and the new [*struct_ptr].  On failure the
    structure is freed and the pointer cleared. *)
Definition oer_open_type_get (ctx : asn_codec_ctx) (t : asn_TYPE_operation) (constraints : oer_cts)
    (struct_ptr : option obj) (bufptr : bytes) : Z * option obj :=
  let '(len_len, container_len) := oer_fetch_length bufptr in
  if len_len <=? 0 then (len_len, struct_ptr)
  else if size bufptr - len_len <? container_len then (0, struct_ptr)
  else match t.(oer_decoder) with
  | None => (OT_UNDEFINED, struct_ptr)
  | Some d =>
    let '(dr, st) := d (nested ctx) constraints struct_ptr (ztake container_len (zdrop len_len bufptr)) in
    match dr.(code) with
    | RC_OK => (len_len + container_len, st)
    | RC_UNDEFINED => (OT_UNDEFINED, struct_ptr)
    | _ => (-1, None)
    end
  end.

(** The callback of the counting pass. *)
Definition oer__count_bytes (chunk : bytes) (n : Z) : Z * Z := (0, n + size chunk).

(** One pass to count, then the length and a second pass to write. *)
Definition oer_open_type_put (t : asn_TYPE_operation) (constraints : oer_cts) (sptr : option obj)
    : enc Z :=
  match t.(oer_encoder) with
  | None => NoFuel
  | Some e =>
    match run oer__count_bytes (e constraints sptr) 0 with
    | None => NoFuel
    | Some (er, serialized_byte_count) =>
      if er.(encoded) <? 0 then mret (-1)
      else
        len_len ← oer_serialize_length serialized_byte_count;
        if len_len =? -1 then mret (-1)
        else
          er ← e constraints sptr;
          mret (if er.(encoded) <? 0 then -1 else len_len + er.(encoded))
    end
  end.

(** [OPEN_TYPE_oer_get]: the result and the new contents of the member [m]. *)
Definition OPEN_TYPE_oer_get (ctx : asn_codec_ctx) (elm : member) (members : list (option obj))
    (m : option obj) (ptr : bytes) : asn_dec_rval * option obj :=
  if negb elm.(ATF_OPEN_TYPE) then (ASN__DECODE_FAILED, m)
  else match elm.(type_selector) with
  | None => (ASN__DECODE_FAILED, m)
  | Some sel =>
    let presence_index := select_type sel members in
    if presence_index =? 0 then (ASN__DECODE_FAILED, m)
    else
      let variants := elm.(type).(op_elements) in
      match CHOICE_variant_set_presence (size variants) (element_ptr elm m) 0 with
      | Some (O_CHOICE c _ inner) =>
        match variants !! Z.to_nat (presence_index - 1) with
        | None => (ASN__DECODE_FAILED, m)
        | Some velm =>
          let inner_value := Some (default velm.(type).(op_zero) inner) in
          let '(ot_ret, inner_value) :=
            oer_open_type_get ctx velm.(type) None inner_value ptr in
          if ot_ret =? OT_UNDEFINED then (UNDEFINED, m)
          else if ot_ret =? 0 then (RETURN RC_WMORE 0, None)
          else if ot_ret =? -1 then (RETURN RC_FAIL (u64 (-1)), None)
          else
            match CHOICE_variant_set_presence (size variants) (Some (O_CHOICE c 0 inner_value))
                    presence_index with
            | Some st => (RETURN RC_OK ot_ret, Some st)
            | None => (RETURN RC_FAIL ot_ret, None)
            end
        end
      | _ => (ASN__DECODE_FAILED, m)
      end
  end.

Definition OPEN_TYPE_encode_oer (name : string) (elements : list member) : encoder := fun _ sptr =>
  match sptr with
  | None => mret (ASN__ENCODE_FAILED name)
  | Some st =>
    let present := CHOICE_variant_get_presence st in
    if (present =? 0) || (size elements <? present) then mret (ASN__ENCODE_FAILED name)
    else match elements !! Z.to_nat (present - 1), st with
    | Some elm, O_CHOICE _ _ m =>
      match element_ptr elm m with
      | None => mret (ASN__ENCODE_FAILED name)
      | memb_ptr =>
        encoded ← oer_open_type_put elm.(type) elm.(oer_constraints) memb_ptr;
        mret (if encoded <? 0 then ASN__ENCODE_FAILED name else ASN__ENCODED_OK encoded)
      end
    | _, _ => mret (ASN__ENCODE_FAILED name)
    end
  end.

(** * SEQUENCE *)

Module Sequence.

(** The structure being decoded, the input left and [consumed_myself]. *)
Record state := {
  ctx : asn_struct_ctx;
  bits : option BitIn.asn_bit_data;
  members : list (option obj);
  ptr : bytes;
  consumed_myself : Z;
}.

Definition ADVANCE (n : Z) (s : state) : state :=
  {| ctx := s.(ctx); bits := s.(bits); members := s.(members);
     ptr := zdrop n s.(ptr); consumed_myself := s.(consumed_myself) + n |}.
Definition set_ctx (s : state) (c : asn_struct_ctx) : state :=
  {| ctx := c; bits := s.(bits); members := s.(members); ptr := s.(ptr);
     consumed_myself := s.(consumed_myself) |}.
Definition set_bits (s : state) (b : BitIn.asn_bit_data) : state :=
  {| ctx := s.(ctx); bits := Some b; members := s.(members); ptr := s.(ptr);
     consumed_myself := s.(consumed_myself) |}.
Definition set_member (s : state) (i : nat) (m : option obj) : state :=
  {| ctx := s.(ctx); bits := s.(bits); members := <[i := m]> s.(members); ptr := s.(ptr);
     consumed_myself := s.(consumed_myself) |}.

(** A phase either returns from the decoder or falls through. *)
Inductive outcome :=
  | Stop (rv : asn_dec_rval) (s : state)
  | Go (s : state).

Definition bind (o : outcome) (f : state -> outcome) : outcome :=
  match o with Stop rv s => Stop rv s | Go s => f s end.

(** [RETURN(_code)] *)
Definition return_ (c : asn_dec_rval_code) (s : state) : outcome :=
  Stop (RETURN c s.(consumed_myself)) s.

Section Codec.
Context (name : string) (specs : asn_SEQUENCE_specifics) (elements : list member).
Context (opt_codec_ctx : asn_codec_ctx).

Definition has_extensions_bit : Z := if 0 <=? specs.(first_extension) then 1 else 0.

(** The bound of [IN_ROOT_GROUP_PRED]. *)
Definition root_count : Z :=
  if specs.(first_extension) <? 0 then size elements else specs.(first_extension).

(** Phase 0: fetch preamble. *)
Definition phase0 (s : state) : outcome :=
  let preamble_bits := has_extensions_bit + specs.(roms_count) in
  let preamble_bytes := Z.shiftr (7 + preamble_bits) 3 in
  if size s.(ptr) <? preamble_bytes then Stop ASN__DECODE_STARVED s
  else
    let p := BitIn.asn_bit_data_new_contiguous s.(ptr) preamble_bits in
    let p := {| BitIn.buffer := p.(BitIn.buffer); BitIn.nboff := has_extensions_bit;
                BitIn.nbits := p.(BitIn.nbits); BitIn.moved := p.(BitIn.moved) |} in
    let s := ADVANCE preamble_bytes (set_bits s p) in
    Go (set_ctx s (NEXT_PHASE s.(ctx))).

(** [edx++, ctx->step = (ctx->step & ~1) + 2] *)
Definition next_member (s : state) : state :=
  set_ctx s (set_step s.(ctx) (Z.land s.(ctx).(step) (Z.lnot 1) + 2)).

(** "MICROPHASE 2: Invoke the member-specific decoder." *)
Definition decode_member (edx : nat) (elm : member) (s : state) : outcome :=
  let m := default None (s.(members) !! edx) in
  let '(rval, m) :=
    if elm.(ATF_OPEN_TYPE) then
      OPEN_TYPE_oer_get opt_codec_ctx elm s.(members) m s.(ptr)
    else match elm.(type).(oer_decoder) with
         | Some d => d (nested opt_codec_ctx) elm.(oer_constraints) (element_ptr elm m) s.(ptr)
         | None => (UNDEFINED, m)
         end in
  let s := set_member s edx m in
  match rval.(code) with
  | RC_OK => Go (next_member (ADVANCE rval.(consumed) s))
  | RC_WMORE => return_ RC_WMORE (ADVANCE rval.(consumed) s)
  | c => return_ c s
  end.

(** One iteration over the root members. *)
Definition root_member (edx : nat) (elm : member) (s : state) : outcome :=
  let enter s := decode_member edx elm (set_ctx s (set_step s.(ctx) (Z.lor s.(ctx).(step) 1))) in
  if ctrue (Z.land s.(ctx).(step) 1) then decode_member edx elm s
  else if elm.(optional) then
    match s.(bits) with
    | None => return_ RC_UNDEFINED s
    | Some preamble =>
      let '(present, preamble) := BitIn.asn_get_few_bits preamble 1 in
      let s := set_bits s preamble in
      if present <? 0 then return_ RC_FAIL s
      else if present =? 0 then
        Go (next_member
              (match elm.(default_value) with
               | Some d => set_member s edx
                             (default_value_set d (element_ptr elm (default None (s.(members) !! edx))))
               | None => s
               end))
      else enter s
    end
  else enter s.

(** The loop over [elms = elements[edx..root_count)]. *)
Fixpoint root_members (edx : nat) (elms : list member) (s : state) : outcome :=
  match elms with
  | [] => Go s
  | elm :: elms => bind (root_member edx elm s) (root_members (S edx) elms)
  end.

(** Phase 1: decode components of the extension root. *)
Definition phase1 (s : state) : outcome :=
  match s.(bits) with
  | None => return_ RC_UNDEFINED s
  | Some _ =>
    let edx := Z.to_nat (Z.shiftr s.(ctx).(step) 1) in
    bind (root_members edx (drop edx (ztake root_count elements)) s)
         (fun s => Go (set_ctx s (NEXT_PHASE s.(ctx))))
  end.

(** Phase 2: extension addition presence bitmap. *)
Definition phase2 (s : state) : outcome :=
  match s.(bits) with
  | None => return_ RC_UNDEFINED s
  | Some preamble =>
    let extensions_present :=
      ctrue has_extensions_bit &&
      match preamble.(BitIn.buffer) with
      | None => true
      | Some b => ctrue (Z.land (znth b 0) 0x80)
      end in
    let s := set_bits s {| BitIn.buffer := None; BitIn.nboff := preamble.(BitIn.nboff);
                           BitIn.nbits := preamble.(BitIn.nbits);
                           BitIn.moved := preamble.(BitIn.moved) |} in
    if negb extensions_present then return_ RC_OK (set_ctx s (set_phase s.(ctx) 10))
    else
      let '(len_len, len) := oer_fetch_length s.(ptr) in
      if len_len =? 0 then return_ RC_WMORE s
      else if len_len <? 0 then return_ RC_FAIL s
      else
        let s := ADVANCE len_len s in
        let next s := Go (set_ctx s (set_step (NEXT_PHASE s.(ctx)) root_count)) in
        if len =? 0 then next (set_bits s (BitIn.asn_bit_data_new_contiguous [0] 0))
        else if size s.(ptr) <? len then return_ RC_WMORE s
        else
          let unused_bits := Z.land 0x7 (znth s.(ptr) 0) in
          let s := ADVANCE 1 s in
          let len := len - 1 in
          if ctrue unused_bits && (len =? 0) then return_ RC_FAIL s
          else
            let s := set_bits s (BitIn.asn_bit_data_new_contiguous s.(ptr) (len * 8 - unused_bits)) in
            next (ADVANCE len s)
  end.

(** One extension addition: [switch(asn_get_few_bits(extadds, 1))]. *)
Definition extension_member (edx : nat) (elm : member) (s : state) : outcome :=
  let next s := Go (set_ctx s (set_step s.(ctx) (s.(ctx).(step) + 1))) in
  match s.(bits) with
  | None => return_ RC_UNDEFINED s
  | Some extadds =>
    let m := element_ptr elm (default None (s.(members) !! edx)) in
    let '(b, extadds) := BitIn.asn_get_few_bits extadds 1 in
    let s := set_bits s extadds in
    if (b =? -1) || (b =? 0) then
      next (match elm.(default_value) with
            | Some d => set_member s edx (default_value_set d m)
            | None => s
            end)
    else if b =? 1 then
      let '(ot_size, m) := oer_open_type_get opt_codec_ctx elm.(type) elm.(oer_constraints) m s.(ptr) in
      let s := set_member s edx m in
      if ot_size =? OT_UNDEFINED then return_ RC_UNDEFINED s
      else if 0 <? ot_size then next (ADVANCE ot_size s)
      else if ot_size <? 0 then return_ RC_FAIL s
      else return_ RC_WMORE (set_bits s (BitIn.asn_get_undo extadds 1))
    else return_ RC_FAIL s
  end.

Fixpoint extension_members (edx : nat) (elms : list member) (s : state) : outcome :=
  match elms with
  | [] => Go s
  | elm :: elms => bind (extension_member edx elm s) (extension_members (S edx) elms)
  end.

(** Phase 3: decode extension additions. *)
Definition phase3 (s : state) : outcome :=
  let edx := Z.to_nat s.(ctx).(step) in
  bind (extension_members edx (drop edx elements) s)
       (fun s => Go (set_ctx s (NEXT_PHASE s.(ctx)))).

(** "Read in the rest of Open Types while ignoring them".  Each iteration takes
    one bit; [fuel] exceeds the number of bits left. *)
Fixpoint skip_rest (fuel : nat) (s : state) : outcome :=
  match fuel, s.(bits) with
  | S fuel, Some extadds =>
    let '(b, extadds) := BitIn.asn_get_few_bits extadds 1 in
    let s := set_bits s extadds in
    if b =? 0 then skip_rest fuel s
    else if b =? 1 then
      let skipped := oer_open_type_skip s.(ptr) in
      if 0 <? skipped then skip_rest fuel (ADVANCE skipped s)
      else if skipped <? 0 then return_ RC_FAIL s
      else return_ RC_WMORE (set_bits s (BitIn.asn_get_undo extadds 1))
    else if b =? -1 then return_ RC_OK s
    else return_ RC_FAIL s
  | _, _ => return_ RC_UNDEFINED s
  end.

Definition bits_left (s : state) : nat :=
  match s.(bits) with
  | Some b => Z.to_nat (b.(BitIn.nbits) - b.(BitIn.nboff))
  | None => 0
  end.

Definition phase4 (s : state) : outcome := skip_rest (S (bits_left s)) s.

(** [switch(ctx->phase)] with the phases falling through. *)
Definition run_phases (s : state) : outcome :=
  let from2 s := bind (bind (phase2 s) phase3) phase4 in
  let from1 s := bind (phase1 s) from2 in
  if s.(ctx).(phase) =? 0 then bind (phase0 s) from1
  else if s.(ctx).(phase) =? 1 then from1 s
  else if s.(ctx).(phase) =? 2 then from2 s
  else if s.(ctx).(phase) =? 3 then bind (phase3 s) phase4
  else if s.(ctx).(phase) =? 4 then phase4 s
  else return_ RC_OK s.

End Codec.

(** The zeroed structure. *)
Definition zero_members (elements : list member) : list (option obj) :=
  map (fun e => if e.(ATF_POINTER) then None else Some e.(type).(op_zero)) elements.

Definition SEQUENCE_decode_oer (specs : asn_SEQUENCE_specifics) (elements : list member)
    : decoder := fun opt_codec_ctx _ struct_ptr ptr =>
  if ASN__STACK_OVERFLOW_CHECK opt_codec_ctx then (ASN__DECODE_FAILED, struct_ptr)
  else
    let '(c, b, ms) :=
      match struct_ptr with
      | Some (O_SEQ c b ms) => (c, b, ms)
      | _ => (ctx_zero, None, zero_members elements)
      end in
    let s := {| ctx := c; bits := b; members := ms; ptr := ptr; consumed_myself := 0 |} in
    match run_phases specs elements opt_codec_ctx s with
    | Stop rv s => (rv, Some (O_SEQ s.(Sequence.ctx) s.(bits) s.(members)))
    | Go s => (RETURN RC_OK s.(consumed_myself), Some (O_SEQ s.(Sequence.ctx) s.(bits) s.(members)))
    end.

(** ** Encoding *)

(** A member with what its [element_ptr] points to. *)
Abbreviation slot := (member * option obj)%type.

Definition slots (elements : list member) (ms : list (option obj)) : list slot :=
  zip_with (fun e m => (e, element_ptr e m)) elements ms.

(** The member is there and does not hold its DEFAULT. *)
Definition has_component (x : slot) : bool :=
  match x.2 with Some _ => negb (is_default x.1 x.2) | None => false end.

Definition put_bit (po : BitOut.asn_bit_outp) (b : bool) : enc (Z * BitOut.asn_bit_outp) :=
  BitOut.asn_put_few_bits po (Z.b2z b) 1.

(** "Encode optional components bitmap." *)
Fixpoint put_root_bits (xs : list slot) (po : BitOut.asn_bit_outp) : enc (Z * BitOut.asn_bit_outp) :=
  match xs with
  | [] => mret (0, po)
  | x :: xs =>
    if x.1.(optional) then
      p ← put_bit po (has_component x);
      let '(ret, po) := p in
      if ret <? 0 then mret (ret, po) else put_root_bits xs po
    else put_root_bits xs po
  end.

(** "Encode presence bitmap": [ret |= asn_put_few_bits(...)]. *)
Fixpoint put_extension_bits (xs : list slot) (ret : Z) (po : BitOut.asn_bit_outp)
    : enc (Z * BitOut.asn_bit_outp) :=
  match xs with
  | [] => mret (ret, po)
  | x :: xs =>
    p ← put_bit po (has_component x);
    let '(r, po) := p in
    put_extension_bits xs (Z.lor ret r) po
  end.

(** "Put root components": [inl] is an early return. *)
Fixpoint encode_root (name : string) (xs : list slot) (computed_size : Z) : enc (asn_enc_rval + Z) :=
  match xs with
  | [] => mret (inr computed_size)
  | (elm, memb_ptr) :: xs =>
    match memb_ptr with
    | Some _ =>
      if is_default elm memb_ptr then encode_root name xs computed_size
      else match elm.(type).(oer_encoder) with
      | None => mret (inl (ASN__ENCODE_FAILED name))
      | Some e =>
        er ← e elm.(oer_constraints) memb_ptr;
        if er.(encoded) =? -1 then mret (inl er)
        else encode_root name xs (computed_size + er.(encoded))
      end
    | None =>
      if elm.(optional) then encode_root name xs computed_size
      else mret (inl (ASN__ENCODE_FAILED name))
    end
  end.

(** "Now, encode extensions". *)
Fixpoint encode_extensions (name : string) (xs : list slot) (computed_size : Z)
    : enc (asn_enc_rval + Z) :=
  match xs with
  | [] => mret (inr computed_size)
  | (elm, memb_ptr) :: xs =>
    match memb_ptr with
    | Some _ =>
      if is_default elm memb_ptr then encode_extensions name xs computed_size
      else
        wrote ← oer_open_type_put elm.(type) elm.(oer_constraints) memb_ptr;
        if wrote =? -1 then mret (inl (ASN__ENCODE_FAILED name))
        else encode_extensions name xs (computed_size + wrote)
    | None =>
      if elm.(optional) then encode_extensions name xs computed_size
      else mret (inl (ASN__ENCODE_FAILED name))
    end
  end.

(** The preamble; the result of the flush is ignored. *)
Definition encode_preamble (specs : asn_SEQUENCE_specifics) (root : list slot) (has_extensions : bool)
    : enc (option Z) :=
  let has_extensions_bit := has_extensions_bit specs in
  if ctrue (has_extensions_bit + specs.(roms_count)) then
    p ← (if ctrue has_extensions_bit then put_bit BitOut.outp_zero has_extensions
         else mret (0, BitOut.outp_zero));
    let '(ret, po) := p in
    if ret <? 0 then mret None
    else
      p ← (if ctrue specs.(roms_count) then put_root_bits root po else mret (0, po));
      let '(ret, po) := p in
      if ret <? 0 then mret None
      else
        p ← BitOut.asn_put_aligned_flush po;
        mret (Some p.2.(BitOut.flushed_bytes))
  else mret (Some 0).

(** The presence bitmap of the extension additions. *)
Definition encode_extension_bitmap (specs : asn_SEQUENCE_specifics) (exts : list slot) : enc (option Z) :=
  let aoms_length_bytes := Z.shiftr (7 + specs.(aoms_count)) 3 in
  let unused_bits := Z.land 0x07 (8 - Z.land specs.(aoms_count) 0x07) in
  p ← BitOut.asn_put_few_bits BitOut.outp_zero (1 + aoms_length_bytes) 8;
  let '(ret, po) := p in
  if ret <? 0 then mret None
  else
    p ← BitOut.asn_put_few_bits po unused_bits 8;
    let '(ret, po) := p in
    if ret <? 0 then mret None
    else
      p ← put_extension_bits exts ret po;
      let '(ret, po) := p in
      if ret <? 0 then mret None
      else
        p ← BitOut.asn_put_aligned_flush po;
        mret (Some p.2.(BitOut.flushed_bytes)).

Definition SEQUENCE_encode_oer (name : string) (specs : asn_SEQUENCE_specifics) (elements : list member)
    : encoder := fun _ sptr =>
  match sptr with
  | Some (O_SEQ _ _ ms) =>
    let xs := slots elements ms in
    let root := ztake (root_count specs elements) xs in
    let exts := zdrop (root_count specs elements) xs in
    let has_extensions := ctrue (has_extensions_bit specs) && existsb has_component exts in
    p ← encode_preamble specs root has_extensions;
    match p with
    | None => mret (ASN__ENCODE_FAILED name)
    | Some computed_size =>
      r ← encode_root name root computed_size;
      match r with
      | inl er => mret er
      | inr computed_size =>
        if has_extensions then
          p ← encode_extension_bitmap specs exts;
          match p with
          | None => mret (ASN__ENCODE_FAILED name)
          | Some n =>
            r ← encode_extensions name exts (computed_size + n);
            mret (match r with inl er => er | inr n => ASN__ENCODED_OK n end)
          end
        else mret (ASN__ENCODED_OK computed_size)
      end
    end
  | _ => NoFuel
  end.

End Sequence.

(** * CHOICE *)

Module Choice.

(** The member union as [*memb_ptr2] sees it. *)
Definition CHOICE_decode_member (specs : asn_CHOICE_specifics) (elements : list member)
    (opt_codec_ctx : asn_codec_ctx) (st : obj) (consumed_myself : Z) (ptr : bytes)
    : asn_dec_rval * option obj :=
  match st with
  | O_CHOICE c present m =>
    match elements !! Z.to_nat c.(step) with
    | None => (UNDEFINED, Some st)
    | Some elm =>
      let st := default st (CHOICE_variant_set_presence (size elements) (Some st) (c.(step) + 1)) in
      match st with
      | O_CHOICE c present m =>
        let m := element_ptr elm m in
        if (0 <=? specs.(ext_start)) && (specs.(ext_start) <=? c.(step)) then
          let '(got, m) := oer_open_type_get opt_codec_ctx elm.(type) elm.(oer_constraints) m ptr in
          if got =? OT_UNDEFINED then (UNDEFINED, Some (O_CHOICE c present m))
          else if got <? 0 then (ASN__DECODE_FAILED, Some (O_CHOICE c present m))
          else if got =? 0 then (ASN__DECODE_STARVED, Some (O_CHOICE c present m))
          else (RETURN RC_OK (got + consumed_myself), Some (O_CHOICE (NEXT_PHASE c) present m))
        else match elm.(type).(oer_decoder) with
        | None => (UNDEFINED, Some st)
        | Some d =>
          let '(rval, m) := d (nested opt_codec_ctx) elm.(oer_constraints) m ptr in
          let c := match rval.(code) with
                   | RC_OK => NEXT_PHASE c
                   | RC_FAIL => SET_PHASE c 3
                   | _ => c
                   end in
          (RETURN rval.(code) (rval.(consumed) + consumed_myself), Some (O_CHOICE c present m))
        end
      | _ => (ASN__DECODE_FAILED, Some st)
      end
    end
  | _ => (ASN__DECODE_FAILED, Some st)
  end.

Definition CHOICE_decode_oer (specs : asn_CHOICE_specifics) (elements : list member) : decoder :=
  fun opt_codec_ctx _ struct_ptr ptr =>
  let '(c, present, m) :=
    match struct_ptr with
    | Some (O_CHOICE c p m) => (c, p, m)
    | _ => (ctx_zero, 0, None)
    end in
  let st := O_CHOICE c present m in
  if c.(phase) =? 0 then
    let '(tag_len, tlv_tag) := oer_fetch_tag ptr in
    if tag_len =? 0 then (ASN__DECODE_STARVED, Some st)
    else if tag_len =? -1 then (ASN__DECODE_FAILED, Some st)
    else match find_tag tlv_tag specs.(tag2el) with
    | Some t2m =>
      CHOICE_decode_member specs elements opt_codec_ctx
        (O_CHOICE (set_step (NEXT_PHASE c) t2m.(el_no)) present m) tag_len (zdrop tag_len ptr)
    | None => (RETURN RC_FAIL 0, Some st)
    end
  else if c.(phase) =? 1 then CHOICE_decode_member specs elements opt_codec_ctx st 0 ptr
  else if c.(phase) =? 2 then (RETURN RC_OK 0, Some st)
  else (RETURN RC_FAIL 0, Some st).

Definition CHOICE_encode_oer (name : string) (specs : asn_CHOICE_specifics) (elements : list member)
    : encoder := fun _ sptr =>
  match sptr with
  | None => mret (ASN__ENCODE_FAILED name)
  | Some st =>
    let present := CHOICE_variant_get_presence st in
    if (present =? 0) || (size elements <? present) then mret (ASN__ENCODE_FAILED name)
    else match elements !! Z.to_nat (present - 1), st with
    | Some elm, O_CHOICE _ _ m =>
      match element_ptr elm m with
      | None => mret (ASN__ENCODE_FAILED name)
      | memb_ptr =>
        let tg := asn_TYPE_outmost_tag elm.(type) memb_ptr elm.(tag_mode) elm.(tag) in
        if tg =? 0 then mret (ASN__ENCODE_FAILED name)
        else
          tag_len ← oer_put_tag tg;
          if tag_len <? 0 then mret (ASN__ENCODE_FAILED name)
          else if (0 <=? specs.(ext_start)) && (specs.(ext_start) <=? present - 1) then
            encoded ← oer_open_type_put elm.(type) elm.(oer_constraints) memb_ptr;
            mret (if encoded <? 0 then ASN__ENCODE_FAILED name
                  else ASN__ENCODED_OK (tag_len + encoded))
          else match elm.(type).(oer_encoder) with
          | None => NoFuel
          | Some e =>
            er ← e elm.(oer_constraints) memb_ptr;
            mret (if 0 <=? er.(encoded)
                  then {| encoded := er.(encoded) + tag_len; failed_type := er.(failed_type) |}
                  else er)
          end
      end
    | _, _ => mret (ASN__ENCODE_FAILED name)
    end
  end.

End Choice.

(** * SET OF and SEQUENCE OF *)

Module SetOf.

(** Phase 1, with [base] the bytes consumed in this call before the loop and
    [base_left] the count at its start.  [n] is [ctx->left]. *)
Fixpoint decode_elements (elm : member) (opt_codec_ctx : asn_codec_ctx) (base_left base : Z)
    (n : nat) (c : asn_struct_ctx) (p : option obj) (array : list (option obj))
    (ptr : bytes) (consumed_myself : Z) : asn_dec_rval * option obj :=
  match n with
  | O => (RETURN RC_OK consumed_myself, Some (O_SET_OF (NEXT_PHASE (set_left c 0)) p array))
  | S n' =>
    let c := set_left c (Z.of_nat n) in
    match elm.(type).(oer_decoder) with
    | None => (UNDEFINED, Some (O_SET_OF c p array))
    | Some d =>
      let '(rv, p) := d (nested opt_codec_ctx) elm.(oer_constraints) p ptr in
      let ptr := zdrop rv.(consumed) ptr in
      let consumed_myself := consumed_myself + rv.(consumed) in
      match rv.(code) with
      | RC_OK =>
        if (rv.(consumed) =? 0) && (consumed_myself =? base) && (200 <? base_left - Z.of_nat n) then
          (ASN__DECODE_FAILED, Some (O_SET_OF c None (array ++ [p])))
        else decode_elements elm opt_codec_ctx base_left base n' c None (array ++ [p]) ptr consumed_myself
      | RC_WMORE => (RETURN RC_WMORE consumed_myself, Some (O_SET_OF c p array))
      | RC_FAIL => (RETURN RC_FAIL consumed_myself, Some (O_SET_OF (SET_PHASE c 3) None array))
      | RC_UNDEFINED => (UNDEFINED, Some (O_SET_OF c p array))
      end
    end
  end.

Definition SET_OF_decode_oer (elm : member) : decoder := fun opt_codec_ctx _ struct_ptr ptr =>
  if ASN__STACK_OVERFLOW_CHECK opt_codec_ctx then (ASN__DECODE_FAILED, struct_ptr)
  else
    let '(c, p, array) :=
      match struct_ptr with
      | Some (O_SET_OF c p array) => (c, p, array)
      | _ => (ctx_zero, None, [])
      end in
    let phase1 c ptr consumed_myself :=
      decode_elements elm opt_codec_ctx c.(left) consumed_myself (Z.to_nat c.(left)) c p array
        ptr consumed_myself in
    if c.(phase) =? 0 then
      let '(len_size, length) := oer_fetch_quantity ptr in
      if len_size =? 0 then (RETURN RC_WMORE 0, Some (O_SET_OF c p array))
      else if len_size =? -1 then (RETURN RC_FAIL 0, Some (O_SET_OF c p array))
      else phase1 (NEXT_PHASE (set_left c length)) (zdrop len_size ptr) len_size
    else if c.(phase) =? 1 then phase1 c ptr 0
    else if c.(phase) =? 2 then (RETURN RC_OK 0, Some (O_SET_OF c p array))
    else if c.(phase) =? 3 then (RETURN RC_FAIL 0, Some (O_SET_OF c p array))
    else (RETURN RC_OK 0, Some (O_SET_OF c p array)).

Fixpoint encode_elements (elm : member) (array : list (option obj)) (computed_size : Z)
    : enc asn_enc_rval :=
  match array with
  | [] => mret (ASN__ENCODED_OK computed_size)
  | memb_ptr :: array =>
    match elm.(type).(oer_encoder) with
    | None => NoFuel
    | Some e =>
      er ← e elm.(oer_constraints) memb_ptr;
      if er.(encoded) <? 0 then mret er
      else encode_elements elm array (computed_size + er.(encoded))
    end
  end.

Definition SET_OF_encode_oer (name : string) (elm : member) : encoder := fun _ sptr =>
  match sptr with
  | Some (O_SET_OF _ _ array) =>
    qty_len ← oer_put_quantity (size array);
    if qty_len <? 0 then mret (ASN__ENCODE_FAILED name)
    else encode_elements elm array qty_len
  | _ => mret (ASN__ENCODE_FAILED name)
  end.

End SetOf.
