(* ===== verification/OerSpec.v ===== *)
(** Abstract specification of the Octet Encoding Rules.

    [aval] is the type of abstract ASN.1 values.  An [oer_type] gives a type its
    meaning: the canonical encoding of each value (X.696, Canonical OER) and the
    relation between target structures and values.  The classes [Encodes] and
    [Decodes] are the contract between a type and the codecs that call it through
    its [op] table: constructed types are verified against these classes and
    every type discharges them. *)

From stdpp Require Import prelude strings.
From S2P Require Import Prelude Codecs Integer Descriptor OerSupport OerPrim.

(** * Values *)

Inductive aval :=
  | A_BOOL (b : bool)
  | A_NULL
  | A_INT (z : Z)
  | A_OCTETS (l : bytes)
  | A_BITS (l : list bool)
  | A_SEQ (l : list (option aval))
  | A_CHOICE (i : nat) (v : aval)
  | A_LIST (l : list aval).

Record oer_type := {
  sp_bytes : oer_cts -> aval -> option bytes;
  sp_repr : obj -> aval -> Prop;
}.

(** * The contract of a type *)

(** The encoder writes the canonical encoding of the value a structure stands
    for and reports its size. *)
Class Encodes (t : asn_TYPE_operation) (s : oer_type) : Prop :=
  enc_ok : forall c o a bs, s.(sp_repr) o a -> s.(sp_bytes) c a = Some bs ->
    exists e, t.(oer_encoder) = Some e /\
              emits (e c (Some o)) (ASN__ENCODED_OK (size bs)) bs.

(** The decoder, given a fresh structure or none, reads a canonical encoding back
    to a structure for the same value and consumes exactly the encoding. *)
Class Decodes (t : asn_TYPE_operation) (s : oer_type) : Prop :=
  dec_ok : forall ctx c a bs p rest, stack_ok ctx -> s.(sp_bytes) c a = Some bs ->
    p = None \/ p = Some t.(op_zero) ->
    exists d o, t.(oer_decoder) = Some d /\
                d ctx c p (bs ++ rest) = (ok (size bs), Some o) /\ s.(sp_repr) o a.

(** * Numbers *)

(** Number of content octets of a signed and of an unsigned number. *)
Definition bit_length (m : Z) : Z := if m =? 0 then 0 else Z.log2 m + 1.
Definition sbytes (z : Z) : nat :=
  Z.to_nat (bit_length (if z <? 0 then - z - 1 else z) / 8 + 1).
Definition ubytes (z : Z) : nat := Z.to_nat (Z.max 1 ((bit_length z + 7) / 8)).

#[export] Instance is_byte_dec b : Decision (is_byte b).
Proof. unfold is_byte. apply _. Defined.

(** A length determinant and the octets it counts. *)
Definition with_length (bs : bytes) : option bytes :=
  if size bs <=? RSIZE_MAX then Some (length_det (size bs) ++ bs) else None.

(** X.696 10: fixed width when the constraint gives one, else a length
    determinant and the shortest representation. *)
Definition int_bytes (ct : Z * bool) (z : Z) : option bytes :=
  let '(w, pos) := ct in
  if 0 <? w then
    if (if pos then (0 <=? z) && (z <? 256 ^ w)
        else (- (128 * 256 ^ (w - 1)) <=? z) && (z <? 128 * 256 ^ (w - 1)))
    then Some (be_bytes (Z.to_nat w) z) else None
  else if w =? 0 then
    if pos then if 0 <=? z then with_length (be_bytes (ubytes z) z) else None
    else with_length (be_bytes (sbytes z) z)
  else None.

Definition native_range (uns : bool) (z : Z) : bool :=
  if uns then (0 <=? z) && (z <=? INTMAX_MAX) else (INTMAX_MIN <=? z) && (z <=? INTMAX_MAX).

(** * Bit strings *)

(** Bits packed into octets, the last one padded with zero bits. *)
Definition pad_bits (l : list bool) : nat := Z.to_nat ((- size l) mod 8).
Definition pack (l : list bool) : bytes :=
  be_bytes (Z.to_nat ((size l + 7) / 8)) (bits_to_Z (l ++ replicate (pad_bits l) false)).

(** * Primitive types *)

Definition sp_boolean : oer_type := {|
  sp_bytes _ a := match a with A_BOOL b => Some [if b then 0xff else 0] | _ => None end;
  sp_repr o a := match o, a with
                 | O_BOOLEAN v, A_BOOL b => ctrue v = b
                 | _, _ => False
                 end |}.

Definition sp_null : oer_type := {|
  sp_bytes _ a := match a with A_NULL => Some [] | _ => None end;
  sp_repr o a := match o, a with O_NULL, A_NULL => True | _, _ => False end |}.

Definition repr_int (o : obj) (a : aval) : Prop :=
  match o, a with
  | O_BUF (Some l), A_INT z => all_bytes l /\ l <> [] /\ twos l = z
  | _, _ => False
  end.

Definition sp_integer (td_cts : oer_cts) : oer_type := {|
  sp_bytes c a := match a with
                  | A_INT z => int_bytes (ct_value (pick_cts c td_cts)) z
                  | _ => None
                  end;
  sp_repr := repr_int |}.

Definition repr_long (o : obj) (a : aval) : Prop :=
  match o, a with
  | O_long v, A_INT z => v = z
  | _, _ => False
  end.

Definition sp_native_integer (specs : option asn_INTEGER_specifics) (td_cts : oer_cts) : oer_type := {|
  sp_bytes c a := match a with
                  | A_INT z => if native_range (is_unsigned specs) z
                               then int_bytes (ct_value (pick_cts c td_cts)) z else None
                  | _ => None
                  end;
  sp_repr := repr_long |}.

(** X.696 11: short form for 0..127, else a counted two's complement number. *)
Definition enum_bytes (z : Z) : bytes :=
  if (0 <=? z) && (z <=? 127) then [z]
  else (0x80 + Z.of_nat (sbytes z)) :: be_bytes (sbytes z) z.

Definition sp_enumerated (specs : option asn_INTEGER_specifics) : oer_type := {|
  sp_bytes _ a := match a with
                  | A_INT z => if native_range (is_unsigned specs) z
                               then Some (enum_bytes z) else None
                  | _ => None
                  end;
  sp_repr := repr_long |}.

Definition repr_buf (o : obj) (a : aval) : Prop :=
  match o, a with
  | O_BUF b, A_OCTETS l => default [] b = l
  | _, _ => False
  end.

(** X.696 14: fixed size without a length determinant, else counted octets. *)
Definition sp_octet_string (specs : option asn_OS_Subvariant) (td_cts : oer_cts) : oer_type := {|
  sp_bytes c a :=
    match a, unit_bytes_of specs with
    | A_OCTETS l, Some u =>
      let ct := ct_size (pick_cts c td_cts) in
      if bool_decide (all_bytes l) then
        if 0 <=? ct then if size l =? u * ct then Some l else None
        else if size l mod u =? 0 then with_length l else None
      else None
    | _, _ => None
    end;
  sp_repr := repr_buf |}.

Definition sp_primitive : oer_type := {|
  sp_bytes _ a :=
    match a with
    | A_OCTETS l => if bool_decide (all_bytes l) then with_length l else None
    | _ => None
    end;
  sp_repr := repr_buf |}.

(** The unused bits of the last octet are zero, or some used bit of it is set. *)
Definition clean_unused (buf : bytes) (junk : list bool) (u : Z) : Prop :=
  junk = replicate (Z.to_nat u) false \/
  Z.land (znth buf (size buf - 1)) (Z.shiftl 0xff u) <> 0.

Definition repr_bits (o : obj) (a : aval) : Prop :=
  match o, a with
  | O_BITS b u, A_BITS l =>
    all_bytes (default [] b) /\ 0 <= u < 8 /\
    exists junk, bytes_bits (default [] b) = l ++ junk /\ length junk = Z.to_nat u /\
                 clean_unused (default [] b) junk u
  | _, _ => False
  end.

(** X.696 13: fixed size without a prefix, else a count and the number of
    unused bits. *)
Definition sp_bit_string (td_cts : oer_cts) : oer_type := {|
  sp_bytes c a :=
    match a with
    | A_BITS l =>
      let ct := ct_size (pick_cts c td_cts) in
      if 0 <=? ct then if size l =? ct then Some (pack l) else None
      else with_length (Z.of_nat (pad_bits l) :: pack l)
    | _ => None
    end;
  sp_repr := repr_bits |}.
