(* ===== verification/OerPrimOk.v ===== *)
(** Correctness of the primitive OER codecs against OerSpec: each encoder writes
    the canonical encoding, each decoder reads it back. *)

From stdpp Require Import prelude strings.
From S2P Require Import Prelude Codecs BitData Integer Descriptor OerSupport OerPrim OerSpec.

(** * Shortest representations *)

(** The numbers [n] octets hold in two's complement. *)
Definition srange (n z : Z) : Prop := - (128 * 256 ^ (n - 1)) <= z < 128 * 256 ^ (n - 1).

Lemma pow256 n : 1 <= n -> 128 * 256 ^ (n - 1) = 2 ^ (8 * n - 1).
Proof.
  intros. replace (8 * n - 1) with (7 + 8 * (n - 1)) by lia.
  rewrite Z.pow_add_r, Z.pow_mul_r by lia. done.
Qed.

Lemma bit_length_le m k : 0 <= m -> 0 <= k -> (bit_length m <= k <-> m < 2 ^ k).
Proof.
  intros Hm Hk. unfold bit_length. destruct (Z.eqb_spec m 0) as [->|].
  - split; intros; [|lia]. apply Z.pow_pos_nonneg; lia.
  - rewrite Z.log2_lt_pow2 by lia. lia.
Qed.

Lemma srange_bits n z : 1 <= n ->
  srange n z <-> bit_length (if z <? 0 then - z - 1 else z) <= 8 * n - 1.
Proof.
  intros. unfold srange. rewrite pow256 by lia.
  rewrite bit_length_le by (destruct (Z.ltb_spec z 0); lia).
  assert (0 < 2 ^ (8 * n - 1)) by (apply Z.pow_pos_nonneg; lia).
  destruct (Z.ltb_spec z 0); lia.
Qed.

Lemma bit_length_nonneg m : 0 <= bit_length m.
Proof. unfold bit_length. destruct (m =? 0); [lia|]. pose proof (Z.log2_nonneg m). lia. Qed.

Lemma sbytes_pos z : 1 <= Z.of_nat (sbytes z).
Proof.
  unfold sbytes. pose proof (bit_length_nonneg (if z <? 0 then - z - 1 else z)).
  pose proof (Z.div_pos (bit_length (if z <? 0 then - z - 1 else z)) 8). lia.
Qed.

(** [sbytes z] is the least number of octets that hold [z]. *)
Lemma sbytes_le n z : 1 <= n -> (Z.of_nat (sbytes z) <= n <-> srange n z).
Proof.
  intros Hn. rewrite srange_bits by done. unfold sbytes.
  set (b := bit_length _). assert (0 <= b) by apply bit_length_nonneg.
  pose proof (Z.div_mod b 8). pose proof (Z.mod_pos_bound b 8).
  pose proof (Z.div_pos b 8). clearbody b. lia.
Qed.

Lemma ubytes_le n z : 0 <= z -> 1 <= n -> (Z.of_nat (ubytes z) <= n <-> z < 256 ^ n).
Proof.
  intros Hz Hn. change 256 with (2 ^ 8). rewrite <- Z.pow_mul_r, <- bit_length_le by lia.
  unfold ubytes. pose proof (bit_length_nonneg z).
  pose proof (Z.div_mod (bit_length z + 7) 8). pose proof (Z.mod_pos_bound (bit_length z + 7) 8). lia.
Qed.

Lemma ubytes_pos z : 1 <= Z.of_nat (ubytes z).
Proof. unfold ubytes. lia. Qed.

Lemma be_bytes_mod n a b :
  a mod 256 ^ Z.of_nat n = b mod 256 ^ Z.of_nat n -> be_bytes n a = be_bytes n b.
Proof.
  intros H. apply be_inj; try apply all_bytes_be_bytes; [by rewrite !length_be_bytes|].
  by rewrite !be_be_bytes.
Qed.

Lemma twos_be l : l <> [] -> exists k, twos l = be l + k * 256 ^ size l.
Proof.
  destruct l as [|b t]; [done|]. intros _. rewrite twos_cons_be.
  destruct (128 <=? b); [exists (-1)|exists 0]; lia.
Qed.

Lemma be_bytes_twos l : all_bytes l -> l <> [] -> be_bytes (length l) (twos l) = l.
Proof.
  intros Hl Hne. destruct (twos_be l Hne) as [k ->].
  transitivity (be_bytes (length l) (be l)); [|by apply be_bytes_be]. apply be_bytes_mod. unfold size. by rewrite Z.mod_add by (apply Z.pow_nonzero; lia).
Qed.

Lemma twos_be_bytes n z : srange (Z.of_nat n) z -> (1 <= n)%nat -> twos (be_bytes n z) = z.
Proof.
  intros Hz Hn. pose proof (all_bytes_be_bytes n z) as Hb.
  assert (be_bytes n z <> []) as Hne by (by destruct n; [lia|]).
  pose proof (twos_range _ Hb Hne) as Hr. rewrite size_be_bytes in Hr.
  destruct (twos_be _ Hne) as [k Hk]. rewrite be_be_bytes, size_be_bytes in Hk. unfold srange in Hz.
  assert (256 ^ Z.of_nat n = 256 * 256 ^ (Z.of_nat n - 1)) as Hp.
  { rewrite <- Z.pow_succ_r by lia. f_equal. lia. }
  pose proof (Z.div_mod z (256 ^ Z.of_nat n) ltac:(apply Z.pow_nonzero; lia)) as Hdm.
  assert (0 < 256 ^ (Z.of_nat n - 1)) by (apply Z.pow_pos_nonneg; lia).
  assert (k - z / 256 ^ Z.of_nat n = 0) as Hd by nia.
  replace k with (z / 256 ^ Z.of_nat n) in Hk by lia. lia.
Qed.

Lemma minimal_sbytes l : all_bytes l -> l <> [] -> minimal l -> l = be_bytes (sbytes (twos l)) (twos l).
Proof.
  intros Hl Hne Hm. rewrite <- (be_bytes_twos l Hl Hne) at 1. f_equal.
  assert (1 <= size l) by (destruct l; [done|rewrite size_cons; pose proof (size_nonneg l); lia]).
  apply Nat2Z.inj, Z.le_antisymm.
  - destruct (Z.le_gt_cases (Z.of_nat (length l)) (Z.of_nat (sbytes (twos l)))); [done|].
    pose proof (sbytes_pos (twos l)). pose proof (minimal_large l (Z.of_nat (sbytes (twos l))) Hl Hm).
    assert (srange (Z.of_nat (sbytes (twos l))) (twos l)) by (apply sbytes_le; lia).
    unfold srange, size in *. lia.
  - apply sbytes_le; [done|]. by apply twos_range.
Qed.

Lemma skip_insignificant_sbytes l : all_bytes l -> l <> [] ->
  skip_insignificant l = be_bytes (sbytes (twos l)) (twos l).
Proof.
  intros Hl Hne. rewrite <- (twos_skip l Hl).
  apply minimal_sbytes; [by apply skip_bytes|by apply skip_nonempty|by apply minimal_skip].
Qed.

Lemma skip_zeros_last_ubytes l : all_bytes l -> l <> [] ->
  skip_zeros_last l = be_bytes (ubytes (be l)) (be l).
Proof.
  intros Hl Hne. destruct (skip_zeros_last_ok l Hl Hne) as (E & Hs & Hb & Hm).
  rewrite <- (be_bytes_be _ Hb), E. f_equal. pose proof (be_bound l Hl).
  pose proof (be_bound _ Hb) as Hb'. rewrite E in Hb'.
  apply Nat2Z.inj, Z.le_antisymm.
  - destruct (Z.le_gt_cases (size (skip_zeros_last l)) (Z.of_nat (ubytes (be l)))); [done|].
    pose proof (ubytes_pos (be l)). specialize (Hm ltac:(lia)).
    assert (be l < 256 ^ Z.of_nat (ubytes (be l))) by (apply ubytes_le; lia).
    assert (256 ^ Z.of_nat (ubytes (be l)) <= 256 ^ (size (skip_zeros_last l) - 1))
      by (apply Z.pow_le_mono_r; lia). lia.
  - apply ubytes_le; [lia|unfold size in *; lia|]. unfold size in *. lia.
Qed.

Lemma twos_nonneg_be l : all_bytes l -> l <> [] -> 0 <= twos l -> be l = twos l.
Proof.
  intros Hl Hne Hz. destruct l as [|b t]; [done|]. rewrite twos_cons_be in *.
  pose proof (be_bound _ Hl). destruct (128 <=? b); lia.
Qed.

Lemma sign_bit l : all_bytes l -> l <> [] -> ctrue (Z.land (znth l 0) 0x80) = (twos l <? 0).
Proof.
  intros Hl Hne. destruct l as [|b t]; [done|]. pose proof (twos_sign b t Hl) as Hs.
  rewrite Forall_cons in Hl. destruct Hl as [Hb _]. change (znth (b :: t) 0) with b.
  unfold ctrue. rewrite land_128 by done.
  destruct (Z.ltb_spec b 128), (Z.ltb_spec (twos (b :: t)) 0); auto; lia.
Qed.

(** Sign or zero extension to a fixed width. *)
Lemma be_bytes_extend n k z : (1 <= k)%nat -> (k <= n)%nat ->
  (srange (Z.of_nat k) z -> be_bytes n z = replicate (n - k) (if z <? 0 then 0xff else 0) ++ be_bytes k z) /\
  (0 <= z < 256 ^ Z.of_nat k -> be_bytes n z = replicate (n - k) 0 ++ be_bytes k z).
Proof.
  intros Hk Hkn. replace n with ((n - k) + k)%nat at 1 3 by lia.
  induction (n - k)%nat as [|j [IH1 IH2]]; [done|]. cbn [Nat.add be_bytes replicate app].
  assert (256 ^ (Z.of_nat k - 1) * 256 = 256 ^ Z.of_nat k) as Hp.
  { rewrite Z.mul_comm, <- Z.pow_succ_r by lia. f_equal. lia. }
  assert (forall e, 0 <= e -> 0 <= e < 256 -> u8 e = e) as Hu by (intros; apply wrap_id; lia).
  assert (2 ^ (8 * Z.of_nat (j + k)) = 256 ^ Z.of_nat (j + k)) as H2
    by (rewrite Z.pow_mul_r by lia; done).
  assert (256 ^ Z.of_nat k <= 256 ^ Z.of_nat (j + k)) as Hle by (apply Z.pow_le_mono_r; lia).
  split; intros Hz.
  - f_equal; [|by apply IH1]. unfold srange in Hz. rewrite Z.shiftr_div_pow2, H2 by lia.
    unfold wrap. destruct (Z.ltb_spec z 0).
    + replace (z / 256 ^ Z.of_nat (j + k)) with (-1); [done|].
      apply (Z.div_unique _ _ _ (z + 256 ^ Z.of_nat (j + k))); lia.
    + rewrite Z.div_small by lia. done.
  - f_equal; [|by apply IH2]. rewrite Z.shiftr_div_pow2, H2, Z.div_small by lia. done.
Qed.

(** * INTEGER *)

Lemma pad_loop_emits n b : emits (pad_loop n b) true (replicate n b).
Proof.
  induction n as [|n IH]; [constructor|]. cbn [pad_loop replicate].
  change (b :: replicate n b) with ([b] ++ replicate n b). by apply emits_cb_bind.
Qed.

Lemma with_length_Some (l bs : bytes) : with_length l = Some bs ->
  size l <= RSIZE_MAX /\ bs = length_det (size l) ++ l.
Proof. unfold with_length. destruct (Z.leb_spec (size l) RSIZE_MAX); [|done]. by intros [= <-]. Qed.

Lemma serialize_length_emits (l : bytes) : size l <= RSIZE_MAX ->
  emits (oer_serialize_length (size l)) (size (length_det (size l))) (length_det (size l)).
Proof. intros. apply length_det_emits. pose proof (size_nonneg l). unfold RSIZE_MAX in *. lia. Qed.

Lemma length_det_pos (l : bytes) : size l <= RSIZE_MAX -> 1 <= size (length_det (size l)) <= 9.
Proof. intros. apply size_length_det. pose proof (size_nonneg l). unfold RSIZE_MAX in *. lia. Qed.

(** The part of the encoder after the leading bytes are stripped. *)
Lemma integer_tail_ok name w (buf bs : bytes) (neg : bool) :
  buf <> [] ->
  (if ctrue w then size buf <= w /\ bs = replicate (Z.to_nat (w - size buf)) (if neg then 0xff else 0) ++ buf
   else with_length buf = Some bs) ->
  emits (r ← (if ctrue w then mret 0 else oer_serialize_length (size buf));
         if r <? 0 then mret (ASN__ENCODE_FAILED name)
         else
           let req_bytes := if ctrue w then w else size buf in
           if req_bytes <? size buf then mret (ASN__ENCODE_FAILED name)
           else
             padded ← pad_loop (Z.to_nat (req_bytes - size buf)) (if neg : bool then 0xff else 0);
             if negb padded then mret (ASN__ENCODE_FAILED name)
             else
               c ← cb buf;
               mret (if c <? 0 then ASN__ENCODE_FAILED name else ASN__ENCODED_OK (r + req_bytes)))
        (ASN__ENCODED_OK (size bs)) bs.
Proof.
  intros Hne Hw. destruct (ctrue w).
  - destruct Hw as [Hle ->]. refine (emits_bind _ _ 0 _ [] _ (emits_ret _) _). cbv beta. destruct (Z.ltb_spec 0 0); [lia|].
    cbv zeta. destruct (Z.ltb_spec w (size buf)); [lia|].
    apply (emits_bind _ _ true); [apply pad_loop_emits|]. cbn [negb].
    apply emits_cb_last. rewrite Z.add_0_l. do 2 f_equal.
    rewrite size_app, size_replicate. change (0 <? 0) with false. cbv iota. f_equal. lia.
  - apply with_length_Some in Hw as [Hsz ->]. pose proof (length_det_pos buf Hsz).
    apply (emits_bind _ _ (size (length_det (size buf)))); [by apply serialize_length_emits|]. cbv beta.
    destruct (Z.ltb_spec (size (length_det (size buf))) 0); [lia|]. cbv zeta.
    rewrite Z.ltb_irrefl, Z.sub_diag. 
    refine (emits_bind _ _ true _ [] _ (emits_ret _) _). cbn [negb].
    apply emits_cb_last. by rewrite size_app.
Qed.

Lemma be_bytes_nonempty n z : (1 <= n)%nat -> be_bytes n z <> [].
Proof. by destruct n; [lia|]. Qed.

Lemma INTEGER_encode_ok name tc c l z bs : all_bytes l -> l <> [] -> twos l = z ->
  int_bytes (ct_value (pick_cts c tc)) z = Some bs ->
  emits (INTEGER_encode_oer name tc c (Some l)) (ASN__ENCODED_OK (size bs)) bs.
Proof.
  intros Hl Hne Hz Hbs. unfold INTEGER_encode_oer. destruct (ct_value _) as [w pos].
  rewrite sign_bit, Hz by done. destruct l as [|b t] eqn:El; [done|]. rewrite <- El in *. clear El b t.
  unfold int_bytes in Hbs. pose proof (sbytes_pos z) as Hs1. pose proof (ubytes_pos z) as Hu1.
  destruct (Z.ltb_spec 0 w).
  - assert (ctrue w = true) as Hw by (unfold ctrue; apply negb_true_iff, Z.eqb_neq; lia).
    destruct pos; cbn [andb].
    + destruct (Z.leb_spec 0 z), (Z.ltb_spec z (256 ^ w)); cbn [andb] in Hbs; try discriminate.
      destruct (Z.ltb_spec z 0); [lia|]. injection Hbs as <-.
      rewrite skip_zeros_last_ubytes, twos_nonneg_be, Hz by (auto; lia).
      apply (integer_tail_ok name w _ _ false); [apply be_bytes_nonempty; lia|]. rewrite Hw, size_be_bytes.
      assert (Z.of_nat (ubytes z) <= w) by (apply ubytes_le; lia). split; [done|].
      replace (Z.to_nat (w - Z.of_nat (ubytes z))) with (Z.to_nat w - ubytes z)%nat by lia.
      apply be_bytes_extend; [lia|lia|]. split; [done|]. apply ubytes_le; lia.
    + destruct (Z.leb_spec (- (128 * 256 ^ (w - 1))) z), (Z.ltb_spec z (128 * 256 ^ (w - 1)));
        cbn [andb] in Hbs; try discriminate. injection Hbs as <-.
      rewrite skip_insignificant_sbytes, Hz by done.
      apply integer_tail_ok; [apply be_bytes_nonempty; lia|]. rewrite Hw, size_be_bytes.
      assert (Z.of_nat (sbytes z) <= w) by (apply sbytes_le; [lia|]; unfold srange; lia). split; [done|].
      replace (Z.to_nat (w - Z.of_nat (sbytes z))) with (Z.to_nat w - sbytes z)%nat by lia.
      apply be_bytes_extend; [lia|lia|]. apply sbytes_le; lia.
  - destruct (Z.eqb_spec w 0) as [->|]; [|discriminate].
    destruct pos; cbn [andb].
    + destruct (Z.leb_spec 0 z); [|discriminate]. destruct (Z.ltb_spec z 0); [lia|].
      rewrite skip_zeros_last_ubytes, twos_nonneg_be, Hz by (auto; lia).
      apply (integer_tail_ok name 0 _ _ false); [apply be_bytes_nonempty; lia|done].
    + rewrite skip_insignificant_sbytes, Hz by done.
      apply integer_tail_ok; [apply be_bytes_nonempty; lia|done].
Qed.

Lemma positive_contents l : all_bytes l -> l <> [] ->
  let buf := if ctrue (Z.shiftr (znth l 0) 7) then 0 :: l else l in
  all_bytes buf /\ buf <> [] /\ twos buf = be l.
Proof.
  intros Hl Hne. destruct l as [|b t]; [done|]. change (znth (b :: t) 0) with b. cbv zeta.
  rewrite shiftr_7 by (by inv Hl). destruct (Z.leb_spec 128 b).
  - split; [constructor; [unfold is_byte; lia|done]|]. split; [done|].
    rewrite twos_cons_be, (be_cons 0). change (128 <=? 0) with false. cbv iota. lia.
  - split; [done|]. split; [done|]. rewrite twos_cons_be. destruct (Z.leb_spec 128 b); lia.
Qed.

(** Reading [l] as the contents of an INTEGER. *)
Lemma integer_read_ok tc ctx c p l bs rest :
  let '(w, pos) := ct_value (pick_cts c tc) in
  all_bytes l -> l <> [] ->
  (if ctrue w then size l = w /\ bs = l else with_length l = Some bs) ->
  exists k, INTEGER_decode_oer tc ctx c p (bs ++ rest) = (ok (size bs), Some (O_BUF (Some k))) /\
    all_bytes k /\ k <> [] /\ twos k = if pos then be l else twos l.
Proof.
  destruct (ct_value _) as [w pos] eqn:Ec. intros Hl Hne Hw.
  unfold INTEGER_decode_oer. rewrite Ec.
  assert (0 < size l) as Hsl by (destruct l; [done|rewrite size_cons; pose proof (size_nonneg l); lia]).
  assert (exists n, (if ctrue w then (0, w) else oer_fetch_length (bs ++ rest)) = (n, size l) /\
            (ctrue w = false -> 0 < n) /\ zdrop n (bs ++ rest) = l ++ rest /\ n + size l = size bs)
    as (n & -> & Hn & Hd & Hsz).
  { destruct (ctrue w).
    - destruct Hw as [<- ->]. exists 0. done.
    - apply with_length_Some in Hw as [Hle ->]. exists (size (length_det (size l))).
      rewrite <- app_assoc, fetch_length_det by lia. split; [done|].
      split; [intros _; pose proof (length_det_pos l Hle); lia|]. split; [by apply zdrop_app|].
      by rewrite size_app. }
  rewrite Hd. replace (negb (ctrue w) && (n =? 0)) with false.
  2: { destruct (ctrue w); [done|]. destruct (Z.eqb_spec n 0); [specialize (Hn eq_refl); lia|done]. }
  replace (negb (ctrue w) && (n =? -1)) with false.
  2: { destruct (ctrue w); [done|]. destruct (Z.eqb_spec n (-1)); [specialize (Hn eq_refl); lia|done]. }
  destruct (Z.eqb_spec (size l) 0); [lia|]. cbn [orb]. rewrite size_app. pose proof (size_nonneg rest).
  destruct (Z.ltb_spec (size l + size rest) (size l)); [lia|]. rewrite ztake_app, Hsz by done.
  destruct pos; [|by eauto].
  assert (znth (l ++ rest) 0 = znth l 0) as -> by (by destruct l).
  destruct (positive_contents l Hl Hne) as (H1 & H2 & H3). cbv zeta in *. eauto.
Qed.

Lemma INTEGER_decode_ok tc ctx c p z bs rest :
  int_bytes (ct_value (pick_cts c tc)) z = Some bs ->
  exists l, INTEGER_decode_oer tc ctx c p (bs ++ rest) = (ok (size bs), Some (O_BUF (Some l))) /\
    all_bytes l /\ l <> [] /\ twos l = z.
Proof.
  intros Hbs. pose proof (integer_read_ok tc ctx c p) as Hread.
  destruct (ct_value _) as [w pos]. unfold int_bytes in Hbs.
  pose proof (sbytes_pos z) as Hs1. pose proof (ubytes_pos z) as Hu1.
  assert (forall n, (1 <= n)%nat -> (if pos then 0 <= z < 256 ^ Z.of_nat n else srange (Z.of_nat n) z) ->
    (if ctrue w then Z.of_nat n = w /\ bs = be_bytes n z else with_length (be_bytes n z) = Some bs) ->
    exists l, INTEGER_decode_oer tc ctx c p (bs ++ rest) = (ok (size bs), Some (O_BUF (Some l))) /\
      all_bytes l /\ l <> [] /\ twos l = z) as Hgo.
  { intros n Hn Hz Hw.
    destruct (Hread (be_bytes n z) bs rest) as (k & E & Hk & Hne & Ht);
      [apply all_bytes_be_bytes|by apply be_bytes_nonempty|rewrite size_be_bytes; done|].
    exists k. split; [done|]. split; [done|]. split; [done|]. rewrite Ht. destruct pos.
    - rewrite be_be_bytes, Z.mod_small by lia. done.
    - by apply twos_be_bytes. }
  destruct (Z.ltb_spec 0 w).
  - assert (ctrue w = true) as Hw by (unfold ctrue; apply negb_true_iff, Z.eqb_neq; lia).
    rewrite Hw in Hgo.
    destruct pos.
    + destruct (Z.leb_spec 0 z), (Z.ltb_spec z (256 ^ w)); cbn [andb] in Hbs; try discriminate.
      injection Hbs as <-. apply (Hgo (Z.to_nat w)); rewrite ?Z2Nat.id by lia; auto; lia.
    + destruct (Z.leb_spec (- (128 * 256 ^ (w - 1))) z), (Z.ltb_spec z (128 * 256 ^ (w - 1)));
        cbn [andb] in Hbs; try discriminate. injection Hbs as <-.
      apply (Hgo (Z.to_nat w)); rewrite ?Z2Nat.id by lia; auto; unfold srange; lia.
  - destruct (Z.eqb_spec w 0) as [->|]; [|discriminate]. change (ctrue 0) with false in *.
    destruct pos.
    + destruct (Z.leb_spec 0 z); [|discriminate]. apply (Hgo (ubytes z)); [lia| |done].
      split; [done|]. apply ubytes_le; lia.
    + apply (Hgo (sbytes z)); [lia| |done]. apply sbytes_le; lia.
Qed.

Lemma length_det_all_bytes (l : bytes) : size l <= RSIZE_MAX -> all_bytes (length_det (size l)).
Proof. intros. apply length_det_bytes. pose proof (size_nonneg l). unfold RSIZE_MAX in *. lia. Qed.

Lemma with_length_bytes l bs : all_bytes l -> with_length l = Some bs -> all_bytes bs.
Proof.
  intros Hl H. apply with_length_Some in H as [Hle ->].
  apply Forall_app. split; [by apply length_det_all_bytes|done].
Qed.

Lemma int_bytes_bytes ct z bs : int_bytes ct z = Some bs -> all_bytes bs.
Proof.
  destruct ct as [w pos]. unfold int_bytes. destruct (0 <? w).
  - destruct (if pos then _ else _); [|done]. intros [= <-]. apply all_bytes_be_bytes.
  - destruct (w =? 0); [|done]. destruct pos.
    + destruct (0 <=? z); [|done]. apply with_length_bytes, all_bytes_be_bytes.
    + apply with_length_bytes, all_bytes_be_bytes.
Qed.

(** * NativeInteger *)

Lemma NativeInteger_encode_ok name specs tc c z bs :
  (sp_native_integer specs tc).(sp_bytes) c (A_INT z) = Some bs ->
  emits (NativeInteger_encode_oer name specs tc c (Some (O_long z))) (ASN__ENCODED_OK (size bs)) bs.
Proof.
  cbn [sp_bytes sp_native_integer]. destruct (native_range _ z) eqn:Hr; [|done]. intros Hbs.
  unfold NativeInteger_encode_oer.
  assert (INTMAX_MIN <= z <= INTMAX_MAX /\
          (if is_unsigned specs then asn_ulong2INTEGER (u64 z) else asn_long2INTEGER z) = asn_imax2INTEGER z)
    as [Hz ->].
  { unfold native_range, INTMAX_MIN, INTMAX_MAX in *.
    destruct (is_unsigned specs); rewrite andb_true_iff, !Z.leb_le in Hr; (split; [lia|]); [|done].
    unfold asn_ulong2INTEGER. rewrite wrap_id, s64_id by lia. done. }
  destruct (imax_contents z Hz) as (l & -> & Hl & Hne & _ & Ht & _).
  by apply INTEGER_encode_ok with z.
Qed.

Lemma NativeInteger_decode_ok specs tc ctx c p z bs rest :
  (sp_native_integer specs tc).(sp_bytes) c (A_INT z) = Some bs ->
  NativeInteger_decode_oer specs tc ctx c p (bs ++ rest) = (ok (size bs), Some (O_long z)).
Proof.
  cbn [sp_bytes sp_native_integer]. destruct (native_range _ z) eqn:Hr; [|done]. intros Hbs.
  unfold NativeInteger_decode_oer.
  destruct (INTEGER_decode_ok tc ctx c (Some (O_BUF None)) z bs rest Hbs) as (l & -> & Hl & Hne & Ht).
  rewrite decide_True by done. unfold native_range, INTMAX_MIN, INTMAX_MAX in *.
  destruct (is_unsigned specs); rewrite andb_true_iff, !Z.leb_le in Hr.
  - rewrite INTEGER2ulong_be by done. rewrite twos_nonneg_be, Ht by (auto; lia).
    unfold UINTMAX_MAX. destruct (Z.leb_spec z (2 ^ 64 - 1)); [|lia]. by rewrite s64_id by lia.
  - rewrite INTEGER2long_twos, Ht by done. unfold INTMAX_MIN, INTMAX_MAX.
    destruct (Z.leb_spec (- 2 ^ 63) z), (Z.leb_spec z (2 ^ 63 - 1)); try lia. done.
Qed.

(** * Native ENUMERATED *)

Lemma srange_shift n z : 1 <= n -> (srange n (Z.shiftr z 8) <-> srange (n + 1) z).
Proof.
  intros Hn. unfold srange. rewrite Z.shiftr_div_pow2 by lia. change (2 ^ 8) with 256.
  replace (n + 1 - 1) with (Z.succ (n - 1)) by lia. rewrite Z.pow_succ_r by lia.
  pose proof (Z.div_mod z 256 ltac:(lia)). pose proof (Z.mod_pos_bound z 256 ltac:(lia)). lia.
Qed.

Lemma sbytes_shift z : 1 < Z.of_nat (sbytes z) ->
  Z.of_nat (sbytes (Z.shiftr z 8)) = Z.of_nat (sbytes z) - 1.
Proof.
  intros H. pose proof (sbytes_pos (Z.shiftr z 8)). apply Z.le_antisymm.
  - apply sbytes_le; [lia|]. apply srange_shift; [lia|]. apply sbytes_le; lia.
  - enough (Z.of_nat (sbytes z) <= Z.of_nat (sbytes (Z.shiftr z 8)) + 1) by lia.
    apply sbytes_le; [lia|]. apply srange_shift; [lia|]. apply sbytes_le; lia.
Qed.

(** The exit condition of the loop: one octet is enough. *)
Lemma enum_exit z :
  (Z.shiftr z 8 =? (if z <? 0 then -1 else 0)) &&
  (if ctrue (if z <? 0 then -1 else 0) then ctrue (Z.land (u8 z) 0x80)
   else negb (ctrue (Z.land (u8 z) 0x80))) = (Z.of_nat (sbytes z) <=? 1).
Proof.
  apply eq_true_iff_eq. rewrite andb_true_iff, Z.eqb_eq, Z.leb_le, sbytes_le by lia.
  unfold srange. change (128 * 256 ^ (1 - 1)) with 128. unfold ctrue. rewrite land_128 by apply is_byte_u8.
  rewrite Z.shiftr_div_pow2 by lia. unfold wrap. change (2 ^ 8) with 256.
  pose proof (Z.div_mod z 256 ltac:(lia)). pose proof (Z.mod_pos_bound z 256 ltac:(lia)).
  destruct (Z.ltb_spec z 0); cbn [Z.eqb negb]; rewrite ?negb_involutive, ?negb_true_iff, ?Z.ltb_lt, ?Z.ltb_ge; lia.
Qed.

Lemma enum_loop_ok fuel : forall z acc, Z.of_nat (sbytes z) <= Z.of_nat fuel ->
  enum_loop fuel z (if z <? 0 then -1 else 0) acc = be_bytes (sbytes z) z ++ acc.
Proof.
  induction fuel as [|fuel IH]; intros z acc Hf; [pose proof (sbytes_pos z); lia|].
  cbn [enum_loop]. rewrite enum_exit. pose proof (sbytes_pos z).
  destruct (Z.leb_spec (Z.of_nat (sbytes z)) 1).
  - replace (sbytes z) with 1%nat by lia. cbn [be_bytes app]. by rewrite Z.shiftr_0_r.
  - pose proof (sbytes_shift z ltac:(lia)) as Hs.
    replace (if z <? 0 then -1 else 0) with (if Z.shiftr z 8 <? 0 then -1 else 0).
    + rewrite IH by lia. rewrite be_bytes_shift_cons. do 2 f_equal. lia.
    + rewrite Z.shiftr_div_pow2 by lia. change (2 ^ 8) with 256.
      pose proof (Z.div_mod z 256 ltac:(lia)). pose proof (Z.mod_pos_bound z 256 ltac:(lia)).
      destruct (Z.ltb_spec (z / 256) 0), (Z.ltb_spec z 0); auto; lia.
Qed.

Lemma native_range_sbytes uns z : native_range uns z = true ->
  INTMAX_MIN <= z <= INTMAX_MAX /\ 1 <= Z.of_nat (sbytes z) <= 8.
Proof.
  intros Hr. pose proof (sbytes_pos z).
  assert (INTMAX_MIN <= z <= INTMAX_MAX) as Hz.
  { unfold native_range, INTMAX_MIN, INTMAX_MAX in *.
    destruct uns; rewrite andb_true_iff, !Z.leb_le in Hr; lia. }
  split; [done|]. split; [done|]. apply sbytes_le; [lia|].
  unfold srange, INTMAX_MIN, INTMAX_MAX in *. change (128 * 256 ^ (8 - 1)) with (2 ^ 63). lia.
Qed.

Lemma NativeEnumerated_encode_ok name specs c z bs :
  (sp_enumerated specs).(sp_bytes) c (A_INT z) = Some bs ->
  emits (NativeEnumerated_encode_oer name c (Some (O_long z))) (ASN__ENCODED_OK (size bs)) bs.
Proof.
  cbn [sp_bytes sp_enumerated]. destruct (native_range _ z) eqn:Hr; [|done]. intros [= <-].
  apply native_range_sbytes in Hr as [_ Hs].
  unfold NativeEnumerated_encode_oer, enum_bytes.
  destruct (Z.leb_spec 0 z), (Z.leb_spec z 127); cbn [andb];
    [rewrite wrap_id by lia; by apply emits_cb_last| | |];
    rewrite enum_loop_ok, app_nil_r, size_be_bytes by lia;
    change (Z.lor 0x80 ?x) with (Z.lor (Z.shiftl 1 7) x);
    rewrite lor_shiftl_add by (change (2 ^ 7) with 128; lia); apply emits_cb_last;
    by rewrite size_cons, size_be_bytes.
Qed.

Lemma NativeEnumerated_decode_ok specs ctx c p z bs rest :
  (sp_enumerated specs).(sp_bytes) c (A_INT z) = Some bs ->
  NativeEnumerated_decode_oer specs ctx c p (bs ++ rest) = (ok (size bs), Some (O_long z)).
Proof.
  cbn [sp_bytes sp_enumerated]. destruct (native_range _ z) eqn:Hr; [|done]. intros [= <-].
  pose proof (native_range_sbytes _ _ Hr) as [Hz Hs]. unfold NativeEnumerated_decode_oer, enum_bytes.
  destruct ((0 <=? z) && (z <=? 127)) eqn:Es.
  - rewrite andb_true_iff, !Z.leb_le in Es. cbn [app]. rewrite land_128 by (unfold is_byte; lia).
    by destruct (Z.ltb_spec z 128); [|lia].
  - cbn [app]. rewrite land_128, land_0x7f by (unfold is_byte; lia).
    destruct (Z.ltb_spec (128 + Z.of_nat (sbytes z)) 128); [lia|].
    replace ((128 + Z.of_nat (sbytes z)) mod 128) with (Z.of_nat (sbytes z)).
    2: { replace (128 + Z.of_nat (sbytes z)) with (Z.of_nat (sbytes z) + 1 * 128) by lia.
         rewrite Z.mod_add, Z.mod_small by lia. done. }
    destruct (Z.ltb_spec (Z.of_nat (sbytes z)) 1), (Z.ltb_spec 8 (Z.of_nat (sbytes z))); try lia. cbn [orb].
    rewrite !size_cons, size_app, size_be_bytes. pose proof (size_nonneg rest).
    destruct (Z.ltb_spec (1 + (Z.of_nat (sbytes z) + size rest)) (1 + Z.of_nat (sbytes z))); [lia|].
    rewrite ztake_app by apply size_be_bytes.
    change (asn__nativeenumerated_convert ?l) with (asn__integer_convert l).
    rewrite integer_convert_twos, twos_be_bytes;
      [|apply sbytes_le; lia|lia|apply all_bytes_be_bytes|apply be_bytes_nonempty; lia|rewrite size_be_bytes; lia].
    replace ((z <? 0) && is_unsigned specs) with false; [done|].
    unfold native_range in Hr. destruct (is_unsigned specs); [|by rewrite andb_false_r].
    rewrite andb_true_iff, Z.leb_le in Hr. destruct (Z.ltb_spec z 0); [lia|done].
Qed.

(** * Octet strings *)

(** Writing [ret] length octets and then [l]. *)
Lemma counted_emits name (l bs : bytes) : with_length l = Some bs ->
  emits (ret ← oer_serialize_length (size l);
         if ret <? 0 then mret (ASN__ENCODE_FAILED name)
         else r ← cb l;
              mret (if r <? 0 then ASN__ENCODE_FAILED name else ASN__ENCODED_OK (ret + size l)))
        (ASN__ENCODED_OK (size bs)) bs.
Proof.
  intros H. apply with_length_Some in H as [Hle ->]. pose proof (length_det_pos l Hle).
  apply (emits_bind _ _ (size (length_det (size l)))); [by apply serialize_length_emits|].
  destruct (Z.ltb_spec (size (length_det (size l))) 0); [lia|].
  apply emits_cb_last. by rewrite size_app.
Qed.

(** Reading a length determinant and finding the contents complete. *)
Lemma counted_read (l bs rest : bytes) : with_length l = Some bs ->
  exists n, oer_fetch_length (bs ++ rest) = (n, size l) /\ 0 < n /\
    zdrop n (bs ++ rest) = l ++ rest /\ n + size l = size bs.
Proof.
  intros H. apply with_length_Some in H as [Hle ->]. pose proof (length_det_pos l Hle).
  exists (size (length_det (size l))). rewrite <- app_assoc, fetch_length_det by (pose proof (size_nonneg l); lia).
  split; [done|]. split; [lia|]. split; [by apply zdrop_app|by rewrite size_app].
Qed.

Lemma OCTET_STRING_encode_ok name specs tc c b l bs : default [] b = l ->
  (sp_octet_string specs tc).(sp_bytes) c (A_OCTETS l) = Some bs ->
  emits (OCTET_STRING_encode_oer name specs tc c (Some (O_BUF b))) (ASN__ENCODED_OK (size bs)) bs.
Proof.
  intros Hb. cbn [sp_bytes sp_octet_string]. unfold OCTET_STRING_encode_oer. rewrite Hb.
  destruct (unit_bytes_of specs) as [u|]; [|done]. case_bool_decide; [|done].
  destruct (0 <=? _).
  - destruct (Z.eqb_spec (size l) (u * ct_size (pick_cts c tc))); [|done]. intros [= <-]. by apply emits_cb_last.
  - destruct (_ =? 0); [|done]. apply counted_emits.
Qed.

Lemma OCTET_STRING_decode_ok specs tc ctx c p l bs rest :
  (sp_octet_string specs tc).(sp_bytes) c (A_OCTETS l) = Some bs ->
  OCTET_STRING_decode_oer specs tc ctx c p (bs ++ rest) = (ok (size bs), Some (O_BUF (Some l))).
Proof.
  cbn [sp_bytes sp_octet_string]. unfold OCTET_STRING_decode_oer.
  destruct (unit_bytes_of specs) as [u|]; [|done]. case_bool_decide; [|done].
  pose proof (size_nonneg rest). destruct (Z.leb_spec 0 (ct_size (pick_cts c tc))).
  - destruct (Z.eqb_spec (size l) (u * ct_size (pick_cts c tc))) as [<-|]; [|done]. intros [= <-].
    destruct (Z.ltb_spec (ct_size (pick_cts c tc)) 0); [lia|]. cbn [andb]. rewrite zdrop_0, size_app.
    destruct (Z.ltb_spec (size l + size rest) (size l)); [lia|]. by rewrite ztake_app.
  - destruct (Z.eqb_spec (size l mod u) 0) as [Em|]; [|done]. intros Hw.
    destruct (counted_read l bs rest Hw) as (n & -> & Hn & -> & <-).
    destruct (Z.ltb_spec (ct_size (pick_cts c tc)) 0); [|lia]. rewrite Em, size_app. cbn [andb].
    destruct (Z.eqb_spec n 0); [lia|]. destruct (Z.ltb_spec n 0); [lia|]. cbn [negb Z.eqb].
    destruct (Z.ltb_spec (size l + size rest) (size l)); [lia|]. by rewrite ztake_app.
Qed.

Lemma primitive_encode_ok name c b l bs : default [] b = l ->
  sp_primitive.(sp_bytes) c (A_OCTETS l) = Some bs ->
  emits (oer_encode_primitive name c (Some (O_BUF b))) (ASN__ENCODED_OK (size bs)) bs.
Proof.
  intros Hb. cbn [sp_bytes sp_primitive]. unfold oer_encode_primitive. rewrite Hb.
  case_bool_decide; [|done]. apply counted_emits.
Qed.

Lemma primitive_decode_ok ctx c p l bs rest :
  sp_primitive.(sp_bytes) c (A_OCTETS l) = Some bs ->
  oer_decode_primitive ctx c p (bs ++ rest) = (ok (size bs), Some (O_BUF (Some l))).
Proof.
  cbn [sp_bytes sp_primitive]. unfold oer_decode_primitive. case_bool_decide; [|done]. intros Hw.
  destruct (counted_read l bs rest Hw) as (n & -> & Hn & -> & <-). pose proof (size_nonneg rest).
  destruct (Z.eqb_spec n 0); [lia|]. destruct (Z.ltb_spec n 0); [lia|]. rewrite size_app.
  destruct (Z.ltb_spec (size l + size rest) (size l)); [lia|]. by rewrite ztake_app.
Qed.

(** * Bit strings *)

Lemma pack_bits l : bytes_bits (pack l) = l ++ replicate (pad_bits l) false.
Proof.
  unfold pack. rewrite bytes_bits_be_bytes.
  replace (8 * Z.to_nat ((size l + 7) / 8))%nat with (length (l ++ replicate (pad_bits l) false));
    [apply Z_to_bits_to_Z|].
  rewrite length_app, length_replicate. unfold pad_bits, size.
  pose proof (Z.div_mod (Z.of_nat (length l) + 7) 8 ltac:(lia)).
  pose proof (Z.mod_pos_bound (Z.of_nat (length l) + 7) 8 ltac:(lia)).
  pose proof (Z.div_mod (- Z.of_nat (length l)) 8 ltac:(lia)).
  pose proof (Z.mod_pos_bound (- Z.of_nat (length l)) 8 ltac:(lia)).
  assert (0 <= (Z.of_nat (length l) + 7) / 8) by (apply Z.div_pos; lia). lia.
Qed.

Lemma pack_bytes l : all_bytes (pack l).
Proof. apply all_bytes_be_bytes. Qed.

Lemma pad_bits_lt l : 0 <= Z.of_nat (pad_bits l) < 8.
Proof. unfold pad_bits. pose proof (Z.mod_pos_bound (- size l) 8 ltac:(lia)). lia. Qed.

Lemma pack_size l : 8 * size (pack l) = size l + Z.of_nat (pad_bits l).
Proof.
  pose proof (pack_bits l) as H. apply (f_equal length) in H.
  rewrite length_bytes_bits, length_app, length_replicate in H. unfold size. lia.
Qed.

(** A buffer whose bits are [l] followed by at most seven others has the size of
    the packed bits, and clearing those others packs the bits. *)
Lemma bits_buffer buf l junk : bytes_bits buf = l ++ junk -> (length junk < 8)%nat ->
  length junk = pad_bits l /\ length buf = length (pack l).
Proof.
  intros E Hj. apply (f_equal length) in E. rewrite length_bytes_bits, length_app in E.
  pose proof (pack_size l) as Hp. pose proof (pad_bits_lt l). unfold size in Hp. lia.
Qed.

Lemma bits_zero_pack buf l n : all_bytes buf -> bytes_bits buf = l ++ replicate n false -> (n < 8)%nat ->
  buf = pack l.
Proof.
  intros Hb E Hn. apply bytes_bits_inj; [done|apply pack_bytes|]. rewrite E, pack_bits. do 2 f_equal.
  destruct (bits_buffer _ _ _ E) as [H _]; rewrite length_replicate in *; lia.
Qed.

Lemma mask_last_snoc t x u : mask_last (t ++ [x]) u = t ++ [u8 (Z.land x (Z.shiftl 0xff u))].
Proof.
  unfold mask_last. destruct (t ++ [x]) as [|y r] eqn:E; [by destruct t|]. rewrite <- E.
  rewrite size_app. change (size [x]) with 1. replace (size t + 1 - 1) with (size t) by lia.
  rewrite ztake_app by done. do 4 f_equal. unfold znth, size. by rewrite Nat2Z.id, nth_middle.
Qed.

(** Masking clears the last [u] bits. *)
Lemma mask_byte_bits x u : is_byte x -> 0 <= u < 8 ->
  Z_to_bits 8 (u8 (Z.land x (Z.shiftl 0xff u))) =
  take (8 - Z.to_nat u) (Z_to_bits 8 x) ++ replicate (Z.to_nat u) false.
Proof.
  intros Hx Hu. rewrite take_Z_to_bits by lia.
  replace 8%nat with ((8 - Z.to_nat u) + Z.to_nat u)%nat at 1 by lia. rewrite Z_to_bits_app. f_equal.
  - replace (8 - (8 - Z.to_nat u))%nat with (Z.to_nat u) by lia. apply Z_to_bits_ext. intros i Hi.
    change 0xff with (Z.ones 8). push_testbit. bit_cases.
  - rewrite <- Z_to_bits_0. apply Z_to_bits_ext. intros i Hi.
    change 0xff with (Z.ones 8). push_testbit. bit_cases.
Qed.

Lemma mask_last_pack buf l junk : all_bytes buf -> bytes_bits buf = l ++ junk -> (length junk < 8)%nat ->
  mask_last buf (Z.of_nat (length junk)) = pack l.
Proof.
  intros Hb E Hj. destruct buf as [|x t _] using rev_ind.
  { symmetry in E. apply app_eq_nil in E as [-> ->]. done. }
  rewrite mask_last_snoc. apply Forall_app in Hb as [Ht Hx]. rewrite Forall_singleton in Hx.
  apply (bits_zero_pack _ _ (length junk)); [| |done].
  { apply Forall_app. split; [done|]. apply Forall_singleton. apply is_byte_u8. }
  rewrite bytes_bits_app in *. change (bytes_bits [?b]) with (Z_to_bits 8 b ++ []) in *.
  rewrite app_nil_r in *. rewrite mask_byte_bits, Nat2Z.id, app_assoc by (auto; lia). f_equal.
  rewrite <- (take_drop (8 - length junk) (Z_to_bits 8 x)), app_assoc in E.
  apply app_inj_2 in E as [E _]; [done|]. rewrite length_drop, length_Z_to_bits. lia.
Qed.

Lemma zeros_loop_none fuel name n encoded : n <= 0 ->
  zeros_loop fuel name n encoded = Ret (ASN__ENCODED_OK encoded).
Proof. intros. destruct fuel; cbn [zeros_loop]; by destruct (Z.leb_spec n 0); [|lia]. Qed.

Lemma small_unused u : 0 <= u < 8 -> ctrue (Z.land u (Z.lnot 7)) = false /\ Z.land u 7 = u.
Proof.
  intros. rewrite land_lnot7, land_7, Z.mod_small, Z.div_small by lia. done.
Qed.

(** What the encoder writes for the buffer: the bits with the unused ones cleared. *)
Lemma bits_body_emits name fuel (buf : bytes) (l junk : list bool) n encoded :
  all_bytes buf -> bytes_bits buf = l ++ junk -> (length junk < 8)%nat ->
  clean_unused buf junk (Z.of_nat (length junk)) -> n <= 0 ->
  let u := Z.of_nat (length junk) in
  let last := Z.land (znth buf (size buf - 1)) (Z.shiftl 0xff u) in
  let fix_last_byte := ctrue u && ctrue last in
  emits (r ← cb (if fix_last_byte then ztake (size buf - 1) buf else buf);
         if r <? 0 then mret (ASN__ENCODE_FAILED name)
         else
           r ← (if fix_last_byte then cb [u8 last] else mret 0);
           if r <? 0 then mret (ASN__ENCODE_FAILED name)
           else zeros_loop fuel name n (encoded + size buf))
        (ASN__ENCODED_OK (encoded + size (pack l))) (pack l).
Proof.
  intros Hb E Hj Hc Hn u last fl.
  destruct (bits_buffer _ _ _ E Hj) as [_ Hlen]. assert (size buf = size (pack l)) as Hsz by (unfold size; lia).
  rewrite zeros_loop_none, <- Hsz by done. destruct fl eqn:Hf; unfold fl in Hf.
  - rewrite <- (mask_last_pack buf l junk) by done. fold u.
    destruct buf as [|x t _] using rev_ind.
    { symmetry in E. apply app_eq_nil in E as [-> ->]. done. }
    rewrite mask_last_snoc. unfold last. rewrite !size_app. change (size [x]) with 1.
    replace (size t + 1 - 1) with (size t) by lia. rewrite ztake_app by done.
    apply emits_cb_bind. cbv beta. change (0 <? 0) with false. cbv iota.
    assert (znth (t ++ [x]) (size t) = x) as -> by (unfold znth, size; by rewrite Nat2Z.id, nth_middle).
    rewrite <- (app_nil_r [u8 _]). apply emits_cb_bind. constructor.
  - replace (pack l) with buf; [by apply emits_cb_last|].
    apply (bits_zero_pack _ _ (length junk)); auto. rewrite E. f_equal.
    destruct Hc as [Hc|Hc]; [by rewrite Nat2Z.id in Hc|].
    apply andb_false_iff in Hf as [Hu|Hl].
    + unfold u, ctrue in Hu. rewrite negb_false_iff, Z.eqb_eq in Hu.
      destruct junk; [done|cbn [length] in Hu; lia].
    + unfold ctrue in Hl. rewrite negb_false_iff, Z.eqb_eq in Hl. fold u last in Hc. lia.
Qed.

Lemma BIT_STRING_encode_ok fuel name tc c b u l bs : repr_bits (O_BITS b u) (A_BITS l) ->
  (sp_bit_string tc).(sp_bytes) c (A_BITS l) = Some bs ->
  emits (BIT_STRING_encode_oer fuel name tc c (Some (O_BITS b u))) (ASN__ENCODED_OK (size bs)) bs.
Proof.
  intros (Hb & Hu & junk & E & Hj & Hc). cbn [sp_bytes sp_bit_string]. unfold BIT_STRING_encode_oer.
  set (buf := default [] b) in *.
  assert (u = Z.of_nat (length junk)) as -> by lia. clear Hj.
  destruct (bits_buffer buf l junk E ltac:(lia)) as [Hpad Hlen].
  assert (size buf = size (pack l)) as Hsz by (unfold size; lia). pose proof (pack_size l) as Hps.
  destruct (small_unused _ Hu) as [-> H7].
  replace (ctrue (Z.of_nat (length junk)) && (size buf =? 0)) with false.
  2: { destruct (Z.eqb_spec (size buf) 0) as [E0|]; [|by rewrite andb_false_r].
       destruct buf; [|rewrite size_cons in E0; pose proof (size_nonneg buf); lia].
       symmetry in E. by apply app_eq_nil in E as [-> ->]. }
  pose proof (bits_body_emits name fuel buf l junk) as Hbody. cbv zeta in Hbody.
  destruct (Z.leb_spec 0 (ct_size (pick_cts c tc))).
  - destruct (Z.eqb_spec (size l) (ct_size (pick_cts c tc))) as [<-|]; [|done]. intros [= <-].
    assert (Z.shiftr (size l + 7) 3 = size (pack l)) as ->.
    { rewrite shiftr_3. pose proof (pad_bits_lt l). symmetry.
      apply (Z.div_unique _ _ _ (7 - Z.of_nat (pad_bits l))); lia. }
    destruct (Z.ltb_spec (size (pack l)) (size buf)); [lia|]. cbn [andb].
    refine (emits_bind _ _ 0 _ [] _ (emits_ret _) _). cbv beta. change (0 <? 0) with false. cbv iota.
    apply (Hbody _ 0); auto; lia.
  - cbn [andb]. intros Hw. rewrite <- Hpad in Hw. apply with_length_Some in Hw as [Hle ->].
    rewrite size_cons, <- Hsz in *. pose proof (size_nonneg buf).
    pose proof (size_length_det (1 + size buf) ltac:(unfold RSIZE_MAX in *; lia)) as Hld.
    change (Z.of_nat (length junk) :: pack l) with ([Z.of_nat (length junk)] ++ pack l). rewrite app_assoc.
    apply (emits_bind _ _ (size (length_det (1 + size buf)) + 1)).
    + apply (emits_bind _ _ (size (length_det (1 + size buf)))); [apply length_det_emits; unfold RSIZE_MAX in *; lia|].
      destruct (Z.ltb_spec (size (length_det (1 + size buf))) 0); [lia|].
      rewrite H7. by apply emits_cb_last.
    + cbv beta. destruct (Z.ltb_spec (size (length_det (1 + size buf)) + 1) 0); [lia|].
      replace (size ((length_det (1 + size buf) ++ [Z.of_nat (length junk)]) ++ pack l))
        with (size (length_det (1 + size buf)) + 1 + size buf) by (by rewrite !size_app, <- Hsz).
      apply Hbody; auto; lia.
Qed.

Lemma mask_pack l : mask_last (pack l) (Z.of_nat (pad_bits l)) = pack l.
Proof.
  pose proof (pad_bits_lt l). rewrite <- (length_replicate (pad_bits l) false) at 1.
  apply mask_last_pack; [apply pack_bytes|apply pack_bits|rewrite length_replicate; lia].
Qed.

Lemma repr_pack l : repr_bits (O_BITS (Some (pack l)) (Z.of_nat (pad_bits l))) (A_BITS l).
Proof.
  pose proof (pad_bits_lt l). split; [apply pack_bytes|]. split; [done|].
  exists (replicate (pad_bits l) false). change (default [] (Some (pack l))) with (pack l).
  split; [apply pack_bits|]. split; [rewrite length_replicate; lia|]. left. by rewrite Nat2Z.id.
Qed.

Lemma BIT_STRING_decode_ok tc ctx c p l bs rest :
  (sp_bit_string tc).(sp_bytes) c (A_BITS l) = Some bs ->
  BIT_STRING_decode_oer tc ctx c p (bs ++ rest) =
    (ok (size bs), Some (O_BITS (Some (pack l)) (Z.of_nat (pad_bits l)))).
Proof.
  cbn [sp_bytes sp_bit_string]. unfold BIT_STRING_decode_oer.
  destruct (match p with Some (O_BITS b u) => (b, u) | _ => (None, 0) end) as [st_buf st_unused].
  pose proof (pack_size l) as Hps. pose proof (pad_bits_lt l) as Hpad. pose proof (size_nonneg rest).
  destruct (Z.leb_spec 0 (ct_size (pick_cts c tc))).
  - destruct (Z.eqb_spec (size l) (ct_size (pick_cts c tc))) as [<-|]; [|done]. intros [= <-].
    assert (Z.shiftr (size l + 7) 3 = size (pack l)) as ->.
    { rewrite shiftr_3. symmetry. apply (Z.div_unique _ _ _ (7 - Z.of_nat (pad_bits l))); lia. }
    assert (Z.land (8 - Z.land (size l) 7) 7 = Z.of_nat (pad_bits l)) as ->.
    { rewrite !land_7. unfold pad_bits. rewrite Z2Nat.id by (apply Z.mod_pos_bound; lia).
      rewrite Zminus_mod_idemp_r. replace (8 - size l) with (- size l + 1 * 8) by lia. by rewrite Z.mod_add. }
    rewrite size_app. destruct (Z.ltb_spec (size (pack l) + size rest) (size (pack l))); [lia|].
    by rewrite ztake_app, mask_pack.
  - intros Hw. destruct (counted_read _ _ rest Hw) as (n & -> & Hn & -> & <-).
    rewrite size_cons in *. pose proof (size_nonneg (pack l)).
    destruct (Z.eqb_spec n 0); [lia|]. destruct (Z.ltb_spec n 0); [lia|].
    destruct (Z.ltb_spec (1 + size (pack l)) 1); [lia|]. cbn [app]. rewrite size_cons, size_app.
    destruct (Z.ltb_spec (1 + (size (pack l) + size rest)) (1 + size (pack l))); [lia|].
    change (znth (?x :: _) 0) with x. destruct (small_unused _ Hpad) as [-> _].
    rewrite zdrop_1_cons, size_app. replace (1 + size (pack l) - 1) with (size (pack l)) by lia.
    destruct (Z.ltb_spec (size (pack l) + size rest) (size (pack l))); [lia|].
    rewrite ztake_app, mask_pack by done. do 2 f_equal. lia.
Qed.
