(* ===== verification/OerSem.v ===== *)
(** Abstract meaning of constructed types and of whole descriptors.

    [sem td] gives every descriptor its canonical encodings and its
    representation relation; [wf_td] is the decidable condition on the generated
    tables under which the codecs implement that meaning. *)

From stdpp Require Import prelude strings.
From S2P Require Import Prelude Codecs Integer Descriptor OerSupport OerPrim OerConstr OerSpec.

(** A member with the meaning of its type. *)
Abbreviation smember := (asn_TYPE_member oer_type).

(** * SEQUENCE *)

(** Whether a component is encoded, and its octets: a DEFAULT value is left out. *)
Definition comp_bytes (e : smember) (v : option aval) : option (bool * bytes) :=
  match e.(default_value), v with
  | Some d, Some (A_INT z) =>
    if z =? d.(dfl_value) then Some (false, [])
    else pair true <$> e.(type).(sp_bytes) e.(oer_constraints) (A_INT z)
  | Some _, _ => None
  | None, Some a => pair true <$> e.(type).(sp_bytes) e.(oer_constraints) a
  | None, None => if e.(optional) then Some (false, []) else None
  end.

Definition comp_repr (e : smember) (m : option obj) (v : option aval) : Prop :=
  match v with
  | Some a =>
    (exists o, m = Some o /\ e.(type).(sp_repr) o a) \/
    (m = None /\ e.(ATF_POINTER) = true /\ e.(optional) = true /\
     exists d, e.(default_value) = Some d /\ a = A_INT d.(dfl_value))
  | None => m = None /\ e.(ATF_POINTER) = true /\ e.(optional) = true /\ e.(default_value) = None
  end.

Fixpoint repr_members (es : list smember) (ms : list (option obj)) (vs : list (option aval)) : Prop :=
  match es, ms, vs with
  | [], [], [] => True
  | e :: es, m :: ms, v :: vs => comp_repr e m v /\ repr_members es ms vs
  | _, _, _ => False
  end.

(** The value chosen for an open type is the one its governor selects. *)
Definition selected_ok (e : smember) (v : option aval) (vs : list (option aval)) : bool :=
  match e.(type_selector) with
  | None => true
  | Some sel =>
    match v, vs !! sel.(governor) with
    | Some (A_CHOICE i _), Some (Some (A_INT z)) => select_row sel.(rows) 0 z =? Z.of_nat i + 1
    | _, _ => false
    end
  end.

(** The components in order, with their bytes. *)
Fixpoint comps (es : list smember) (vs : list (option aval)) : option (list (bool * bytes)) :=
  match es, vs with
  | [], [] => Some []
  | e :: es, v :: vs =>
    match comp_bytes e v, comps es vs with
    | Some c, Some cs => Some (c :: cs)
    | _, _ => None
    end
  | _, _ => None
  end.

(** The presence bits of the OPTIONAL components. *)
Definition optional_bits (es : list smember) (cs : list (bool * bytes)) : list bool :=
  concat (zip_with (fun e c => if e.(optional) then [c.1] else []) es cs).

(** The extension additions, each in an open type. *)
Fixpoint wrap_all (cs : list (bool * bytes)) : option bytes :=
  match cs with
  | [] => Some []
  | (b, bs) :: cs =>
    match (if b : bool then with_length bs else Some []), wrap_all cs with
    | Some x, Some y => Some (x ++ y)
    | _, _ => None
    end
  end.

(** X.696 16: preamble, root components, extension bitmap, additions. *)
Definition seq_bytes (specs : asn_SEQUENCE_specifics) (es : list smember) (vs : list (option aval))
    : option bytes :=
  let k := if specs.(first_extension) <? 0 then length es else Z.to_nat specs.(first_extension) in
  if forallb (fun p => selected_ok p.1 p.2 vs) (zip es vs) then
    match comps es vs with
    | None => None
    | Some cs =>
      let root := take k cs in
      let exts := drop k cs in
      let has_ext := existsb fst exts in
      let preamble := (if specs.(first_extension) <? 0 then [] else [has_ext]) ++ optional_bits (take k es) root in
      let body := pack preamble ++ concat (map snd root) in
      if has_ext then
        let bm := pack (map fst exts) in
        match wrap_all exts with
        | None => None
        | Some x => Some (body ++ (1 + size bm) :: Z.of_nat (pad_bits (map fst exts)) :: bm ++ x)
        end
      else Some body
    end
  else None.

Definition sp_sequence (specs : asn_SEQUENCE_specifics) (es : list smember) : oer_type := {|
  sp_bytes _ a := match a with A_SEQ vs => seq_bytes specs es vs | _ => None end;
  sp_repr o a := match o, a with
                 | O_SEQ _ _ ms, A_SEQ vs => repr_members es ms vs
                 | _, _ => False
                 end |}.

(** * CHOICE *)

Definition repr_choice (es : list smember) (o : obj) (a : aval) : Prop :=
  match o, a with
  | O_CHOICE _ p m, A_CHOICE i v =>
    p = Z.of_nat i + 1 /\
    exists e o', es !! i = Some e /\ m = Some o' /\ e.(type).(sp_repr) o' v
  | _, _ => False
  end.

(** X.696 20: the tag, then the alternative, in an open type when it is an
    extension addition. *)
Definition sp_choice (specs : asn_CHOICE_specifics) (es : list smember) : oer_type := {|
  sp_bytes _ a :=
    match a with
    | A_CHOICE i v =>
      e ← es !! i;
      bs ← e.(type).(sp_bytes) e.(oer_constraints) v;
      x ← (if (0 <=? specs.(ext_start)) && (specs.(ext_start) <=? Z.of_nat i)
           then with_length bs else Some bs);
      Some (tag_det e.(tag) ++ x)
    | _ => None
    end;
  sp_repr := repr_choice es |}.

(** X.696 30: an open type holds one of its variants behind a length. *)
Definition sp_open_type (es : list smember) : oer_type := {|
  sp_bytes _ a :=
    match a with
    | A_CHOICE i v =>
      e ← es !! i;
      bs ← e.(type).(sp_bytes) e.(oer_constraints) v;
      with_length bs
    | _ => None
    end;
  sp_repr := repr_choice es |}.

(** * SET OF, SEQUENCE OF *)

(** More than 201 leading elements without contents are refused by the decoder
    ("compression bomb"); the number of elements fits an [int]. *)
Definition no_bomb (bss : list bytes) : bool :=
  negb ((201 <? size bss) && forallb (fun bs => size bs =? 0) (take 202 bss)).

Definition sp_set_of (e : smember) : oer_type := {|
  sp_bytes _ a :=
    match a with
    | A_LIST l =>
      bss ← mapM (e.(type).(sp_bytes) e.(oer_constraints)) l;
      if (size l <? 2 ^ 31) && no_bomb bss then Some (quantity_det (size l) ++ concat bss) else None
    | _ => None
    end;
  sp_repr o a :=
    match o, a with
    | O_SET_OF _ _ array, A_LIST l =>
      Forall2 (fun m v => exists o', m = Some o' /\ e.(type).(sp_repr) o' v) array l
    | _, _ => False
    end |}.

Definition sp_none : oer_type := {| sp_bytes _ _ := None; sp_repr _ _ := False |}.

(** * Descriptors *)

Definition sem_of (k : asn_kind) (cts : oer_cts) (es : list smember) : oer_type :=
  match k with
  | BOOLEAN => sp_boolean
  | ASN_NULL => sp_null
  | PRIMITIVE => sp_primitive
  | INTEGER _ => sp_integer cts
  | NativeInteger specs => sp_native_integer specs cts
  | NativeEnumerated specs => sp_enumerated specs
  | OCTET_STRING specs => sp_octet_string specs cts
  | BIT_STRING => sp_bit_string cts
  | SEQUENCE specs => sp_sequence specs es
  | CHOICE specs => sp_choice specs es
  | SET_OF => match es with [e] => sp_set_of e | _ => sp_none end
  | OPEN_TYPE _ => sp_open_type es
  | ANY => sp_none
  end.

Fixpoint sem (td : asn_TYPE_descriptor) : oer_type :=
  match td with
  | TD _ k _ cts es => sem_of k cts (map (map_type sem) es)
  end.

(** * Well-formed descriptors *)

Definition kind (td : asn_TYPE_descriptor) : asn_kind := let '(TD _ k _ _ _) := td in k.

Definition is_open_type (td : asn_TYPE_descriptor) : bool :=
  match kind td with OPEN_TYPE _ => true | _ => false end.

Definition is_native (td : asn_TYPE_descriptor) : bool :=
  match kind td with NativeInteger _ | NativeEnumerated _ => true | _ => false end.

Abbreviation tmember := (asn_TYPE_member asn_TYPE_descriptor).

(** A member the governor of an open type can be read from at once. *)
Definition plain_native (e : tmember) : bool :=
  is_native e.(type) && negb e.(ATF_POINTER) && negb e.(optional) &&
  match e.(default_value) with None => true | Some _ => false end.

(** Conditions on the member at position [i] of a SEQUENCE: only open types have
    selectors, governed by an earlier plain integer; a DEFAULT is a native
    integer and makes the member optional; an OPTIONAL member is a pointer. *)
Definition wf_member (es : list tmember) (i : nat) (e : tmember) : bool :=
  implb e.(optional)
    (e.(ATF_POINTER) || match e.(default_value) with Some _ => true | None => false end) &&
  match e.(default_value) with
  | Some _ => e.(optional) && is_native e.(type)
  | None => true
  end &&
  eqb e.(ATF_OPEN_TYPE) (is_open_type e.(type)) &&
  match e.(type_selector) with
  | None => negb e.(ATF_OPEN_TYPE)
  | Some sel =>
    e.(ATF_OPEN_TYPE) && negb e.(ATF_POINTER) && negb e.(optional) &&
    bool_decide (sel.(governor) < i)%nat &&
    match es !! sel.(governor) with Some g => plain_native g | None => false end
  end.

(** The tag the encoder writes for an alternative is the one of its member row. *)
Definition wf_tag (e : tmember) : bool :=
  ctrue e.(tag_mode) || match td_tags e.(type) with t :: _ => t =? e.(tag) | [] => false end.

Definition wf_kind (k : asn_kind) (es : list tmember) : bool :=
  match k with
  | SEQUENCE specs =>
    let n := Z.to_nat specs.(first_extension) in
    let root := if specs.(first_extension) <? 0 then es else take n es in
    (specs.(roms_count) =? size (filter (fun e => Is_true e.(optional)) root)) &&
    (if specs.(first_extension) <? 0 then true
     else bool_decide (n <= length es)%nat && (specs.(roms_count) <=? 7) &&
          (specs.(aoms_count) =? size es - specs.(first_extension)) &&
          (specs.(aoms_count) <=? 1000) &&
          forallb (fun e => e.(optional) && negb e.(ATF_OPEN_TYPE) && e.(ATF_POINTER)) (drop n es)) &&
    forallb (fun p => wf_member es p.1 p.2) (imap pair es)
  | CHOICE specs =>
    forallb (fun p : nat * tmember =>
        let e := p.2 in
        wf_tag e && (0 <? e.(tag)) && (e.(tag) <? 512) &&
        negb (is_open_type e.(type)) &&
        match find_tag e.(tag) specs.(tag2el) with
        | Some t2m => t2m.(el_no) =? Z.of_nat p.1
        | None => false
        end) (imap pair es)
  | SET_OF => match es with [e] => negb (is_open_type e.(type)) | _ => false end
  | OPEN_TYPE _ =>
    forallb (fun e : tmember =>
        negb (is_open_type e.(type)) && negb e.(ATF_POINTER) &&
        match e.(oer_constraints) with None => true | Some _ => false end) es
  | _ => true
  end.

Fixpoint wf_td (td : asn_TYPE_descriptor) : bool :=
  match td with
  | TD _ k _ _ es => wf_kind k es && forallb (fun e => wf_td e.(type)) es
  end.
