(* ===== verification/OerCodec.v ===== *)
(** The OER codec of a type descriptor, and the built-in types.

    [op] builds the [op] table of a descriptor (INTEGER.c, NativeInteger.c,
    constr_SEQUENCE.c, ... : the initialisers of [asn_OP_*]) from the codecs of
    the previous files and the tables of the member types; [oer_decode],
    [oer_encode] and [oer_encode_to_buffer] are the entry points of
    support/oer_decoder.c and oer_encoder.c.

    Then the vocabulary of the generated tables: tags and member flags as
    ber_tlv_tag.h and constr_TYPE.h number them, and the [asn_DEF_*] descriptors the
    support library declares next to each built-in type (NULL.c, OCTET_STRING.c,
    BIT_STRING.c, NativeInteger.c, ANY.c, ...). *)

From stdpp Require Import prelude strings.
From S2P Require Import Prelude Codecs BitData Integer Descriptor OerSupport OerPrim OerConstr OerSpec OerSem.

(** The structure [CALLOC] returns for a type: NULL pointers, zero numbers and
    zeroed inline members. *)
Definition zero_of (k : asn_kind) (elements : list member) : obj :=
  match k with
  | BOOLEAN => O_BOOLEAN 0
  | ASN_NULL => O_NULL
  | NativeInteger _ | NativeEnumerated _ => O_long 0
  | PRIMITIVE | INTEGER _ | OCTET_STRING _ | ANY => O_BUF None
  | BIT_STRING => O_BITS None 0
  | SEQUENCE _ => O_SEQ ctx_zero None (Sequence.zero_members elements)
  | CHOICE _ | OPEN_TYPE _ => O_CHOICE ctx_zero 0 None
  | SET_OF => O_SET_OF ctx_zero None []
  end.

Definition decoder_of (k : asn_kind) (cts : oer_cts) (elements : list member) : option decoder :=
  match k with
  | BOOLEAN => Some BOOLEAN_decode_oer
  | ASN_NULL => Some NULL_decode_oer
  | PRIMITIVE => Some oer_decode_primitive
  | INTEGER _ => Some (INTEGER_decode_oer cts)
  | NativeInteger specs => Some (NativeInteger_decode_oer specs cts)
  | NativeEnumerated specs => Some (NativeEnumerated_decode_oer specs)
  | OCTET_STRING specs => Some (OCTET_STRING_decode_oer specs cts)
  | BIT_STRING => Some (BIT_STRING_decode_oer cts)
  | SEQUENCE specs => Some (Sequence.SEQUENCE_decode_oer specs elements)
  | CHOICE specs => Some (Choice.CHOICE_decode_oer specs elements)
  | SET_OF =>
    match elements with
    | [elm] => Some (SetOf.SET_OF_decode_oer elm)
    | _ => None
    end
  | OPEN_TYPE _ | ANY => None
  end.

(** [fuel] bounds the padding loop of the BIT STRING encoder. *)
Definition encoder_of (fuel : nat) (name : string) (k : asn_kind) (cts : oer_cts)
    (elements : list member) : option encoder :=
  match k with
  | BOOLEAN => Some (BOOLEAN_encode_oer name)
  | ASN_NULL => Some NULL_encode_oer
  | PRIMITIVE => Some (oer_encode_primitive name)
  | INTEGER _ => Some (INTEGER_encoder name cts)
  | NativeInteger specs => Some (NativeInteger_encode_oer name specs cts)
  | NativeEnumerated _ => Some (NativeEnumerated_encode_oer name)
  | OCTET_STRING specs => Some (OCTET_STRING_encode_oer name specs cts)
  | BIT_STRING => Some (BIT_STRING_encode_oer fuel name cts)
  | SEQUENCE specs => Some (Sequence.SEQUENCE_encode_oer name specs elements)
  | CHOICE specs => Some (Choice.CHOICE_encode_oer name specs elements)
  | SET_OF =>
    match elements with
    | [elm] => Some (SetOf.SET_OF_encode_oer name elm)
    | _ => None
    end
  | OPEN_TYPE _ => Some (OPEN_TYPE_encode_oer name elements)
  | ANY => None
  end.

(** Only CHOICE has an [outmost_tag] operation; the other types have tags. *)
Definition outmost_tag_of (k : asn_kind) (elements : list member) : option obj -> Z :=
  match k with
  | CHOICE _ => CHOICE_outmost_tag elements
  | _ => fun _ => 0
  end.

Fixpoint op (fuel : nat) (td : asn_TYPE_descriptor) : asn_TYPE_operation :=
  match td with
  | TD name k tags cts es =>
    let els := map (map_type (op fuel)) es in
    {| op_name := name;
       op_zero := zero_of k els;
       oer_decoder := decoder_of k cts els;
       oer_encoder := encoder_of fuel name k cts els;
       outmost_tag := outmost_tag_of k els;
       op_tags := tags;
       op_elements := els |}
  end.

(** * Entry points *)

(** [oer_decode]: a missing context gets the default stack limit.  [used] is the
    stack consumption by depth, see [asn_codec_ctx]. *)
Definition oer_decode (used : nat -> Z) (opt_codec_ctx : option Z) (td : asn_TYPE_descriptor)
    (struct_ptr : option obj) (ptr : bytes) : asn_dec_rval * option obj :=
  let ctx := {| max_stack_size := match opt_codec_ctx with
                                  | Some m => m
                                  | None => ASN__DEFAULT_STACK_MAX
                                  end;
                stack_used := used; depth := 0 |} in
  match (op 0 td).(oer_decoder) with
  | Some d => d ctx None struct_ptr ptr
  | None => (UNDEFINED, struct_ptr)
  end.

Definition oer_encode (fuel : nat) (td : asn_TYPE_descriptor) (struct_ptr : option obj)
    : enc asn_enc_rval :=
  match (op fuel td).(oer_encoder) with
  | Some e => e None struct_ptr
  | None => NoFuel
  end.

(** [enc_to_buf_arg]: the bytes written so far and the space left. *)
Record enc_to_buf_arg := { eb_buffer : bytes; eb_left : Z }.

Definition encode_to_buffer_cb (chunk : bytes) (arg : enc_to_buf_arg) : Z * enc_to_buf_arg :=
  if arg.(eb_left) <? size chunk then (-1, arg)
  else (0, {| eb_buffer := arg.(eb_buffer) ++ chunk; eb_left := arg.(eb_left) - size chunk |}).

(** The result and the bytes stored in the buffer. *)
Definition oer_encode_to_buffer (fuel : nat) (td : asn_TYPE_descriptor) (constraints : oer_cts)
    (struct_ptr : option obj) (buffer_size : Z) : option (asn_enc_rval * enc_to_buf_arg) :=
  let arg := {| eb_buffer := []; eb_left := buffer_size |} in
  match (op fuel td).(oer_encoder) with
  | None => Some (ASN__ENCODE_FAILED (td_name td), arg)
  | Some e => run encode_to_buffer_cb (e constraints struct_ptr) arg
  end.

(** * The vocabulary of the tables *)

(** [enum asn_tag_class] and [(class | (number << 2))]. *)
Definition UNIVERSAL : Z := 0.
Definition CONTEXT : Z := 2.
Definition TAG (class number : Z) : Z := Z.lor class (Z.shiftl number 2).

(** [enum asn_TYPE_flags_e]: ATF_NOFLAGS, ATF_POINTER, ATF_OPEN_TYPE, ATF_ANY_TYPE. *)
Definition NOFLAGS : Z := 0.
Definition POINTER : Z := 1.
Definition OPEN : Z := 2.
Definition ANY_TYPE : Z := 4.

(** One row of a member table.  [opt] counts the optional members that follow
    without a break; the OER codecs only test it for zero. *)
Definition MBR (flags opt tg mode : Z) (td : asn_TYPE_descriptor) (selector : option asn_ioc_set)
    (cts : oer_cts) (dfl : option asn_DFL) (name : string) : tmember :=
  {| ATF_POINTER := ctrue (Z.land flags POINTER); ATF_OPEN_TYPE := ctrue (Z.land flags OPEN);
     optional := ctrue opt; tag := tg; tag_mode := mode; type := td; type_selector := selector;
     oer_constraints := cts; default_value := dfl; memb_name := name |}.

(** One row of a tag map. *)
Definition T2M (tg el : Z) : asn_TYPE_tag2member := {| el_tag := tg; el_no := el |}.

Definition asn_DEF_BOOLEAN : asn_TYPE_descriptor := TD "BOOLEAN" BOOLEAN [TAG UNIVERSAL 1] None [].
Definition asn_DEF_NULL : asn_TYPE_descriptor := TD "NULL" ASN_NULL [TAG UNIVERSAL 5] None [].
Definition asn_DEF_INTEGER : asn_TYPE_descriptor := TD "INTEGER" (INTEGER None) [TAG UNIVERSAL 2] None [].
Definition asn_DEF_NativeInteger : asn_TYPE_descriptor :=
  TD "INTEGER" (NativeInteger None) [TAG UNIVERSAL 2] None [].
Definition asn_DEF_OCTET_STRING : asn_TYPE_descriptor :=
  TD "OCTET STRING" (OCTET_STRING (Some ASN_OSUBV_STR)) [TAG UNIVERSAL 4] None [].
Definition asn_DEF_BIT_STRING : asn_TYPE_descriptor := TD "BIT STRING" BIT_STRING [TAG UNIVERSAL 3] None [].

(** [asn_OP_ANY] has no OER decoder and no OER encoder. *)
Definition asn_DEF_ANY : asn_TYPE_descriptor := TD "ANY" ANY [] None [].
