(* ===== verification/OerSeqOk.v ===== *)
(** The SEQUENCE codec implements its meaning.

    The encoder and the decoder of constr_SEQUENCE_oer.c are verified against the
    contracts of the member types: [seq_encodes] and [seq_decodes]. *)

From stdpp Require Import prelude strings.
From S2P Require Import Prelude Codecs BitData Integer Descriptor OerSupport OerPrim.
From S2P Require Import OerSpec OerPrimOk OerConstr OerSem OerCodec.
Import Sequence.

(** * Contracts of the members *)

(** A descriptor whose codec implements its meaning.  An open type has no decoder
    of its own; its variants have. *)
Record good (f : nat) (td : asn_TYPE_descriptor) : Prop := {
  good_enc : Encodes (op f td) (sem td);
  good_dec : is_open_type td = false -> Decodes (op f td) (sem td);
  good_variants : is_open_type td = true ->
    Forall (fun e => Decodes (op f e.(type)) (sem e.(type))) (elements td);
}.

(** The two views of a member. *)
Abbreviation opm f := (map_type (op f)).
Abbreviation semm := (map_type sem).

Lemma native_repr td : is_native td = true -> (sem td).(sp_repr) = repr_long.
Proof. destruct td as [n k ts c es]. by destruct k. Qed.

Lemma native_not_open td : is_native td = true -> is_open_type td = false.
Proof. destruct td as [n k ts c es]. by destruct k. Qed.

Definition default_native (e : tmember) : Prop :=
  match e.(default_value) with
  | Some _ => e.(optional) = true /\ is_native e.(type) = true
  | None => True
  end.

(** What the encoder finds in a slot, against the component it stands for. *)
Lemma slot_component f e m v b bs :
  default_native e -> comp_repr (semm e) m v -> comp_bytes (semm e) v = Some (b, bs) ->
  let x := (opm f e, element_ptr (opm f e) m) in
  has_component x = b /\
  (if b then exists o a, x.2 = Some o /\ is_default x.1 x.2 = false /\
                         (sem e.(type)).(sp_repr) o a /\
                         (sem e.(type)).(sp_bytes) e.(oer_constraints) a = Some bs
   else bs = [] /\ (x.2 = None /\ e.(optional) = true \/
                    exists o, x.2 = Some o /\ is_default x.1 x.2 = true)).
Proof.
  intros Hdn Hr Hb x. unfold x, has_component. cbn [fst snd]. clear x.
  unfold comp_bytes in Hb. unfold comp_repr in Hr. unfold default_native in Hdn.
  unfold is_default, element_ptr. cbn [default_value optional type oer_constraints ATF_POINTER map_type] in *.
  destruct (default_value e) as [d|].
  - destruct Hdn as [Ho Hn]. rewrite (native_repr _ Hn) in *.
    destruct v as [[| |z| | | | |]|]; try discriminate.
    destruct Hr as [(o & -> & Hr)|(-> & -> & _ & d' & Hd & Ha)].
    + destruct o; try done. cbn in Hr. subst v.
      assert ((if ATF_POINTER e then Some (O_long z) else Some (default (op_zero (op f (type e))) (Some (O_long z))))
              = Some (O_long z)) as -> by (by destruct (ATF_POINTER e)).
      cbn [default_value_cmp]. destruct (Z.eqb_spec z (dfl_value d)).
      * injection Hb as <- <-. split; [done|]. split; [done|]. right. eauto.
      * apply fmap_Some in Hb as (bs' & Hb & [= -> ->]). split; [done|].
        exists (O_long z), (A_INT z). done.
    + injection Hd as <-. injection Ha as ->. rewrite Z.eqb_refl in Hb. injection Hb as <- <-. auto.
  - destruct v as [a|].
    + apply fmap_Some in Hb as (bs' & Hb & [= -> ->]).
      destruct Hr as [(o & -> & Hr)|(_ & _ & _ & d' & Hd & _)]; [|done].
      assert ((if ATF_POINTER e then Some o else Some (default (op_zero (op f (type e))) (Some o))) = Some o)
        as -> by (by destruct (ATF_POINTER e)).
      split; [done|]. exists o, a. done.
    + destruct Hr as (-> & -> & Ho & _). rewrite Ho in Hb. injection Hb as <- <-. auto.
Qed.

(** * Encoding *)

(** Generic shape of the statements about a list of members. *)
Lemma comps_cons e es v vs cs : comps (e :: es) (v :: vs) = Some cs ->
  exists b bs cs', comp_bytes e v = Some (b, bs) /\ comps es vs = Some cs' /\ cs = (b, bs) :: cs'.
Proof.
  cbn [comps]. destruct (comp_bytes e v) as [[b bs]|]; [|done]. destruct (comps es vs) as [cs'|]; [|done].
  intros [= <-]. by exists b, bs, cs'.
Qed.

(** Induction over members with their representation and encodings. *)
Lemma members_ind (P : list tmember -> list (option obj) -> list (option aval) -> list (bool * bytes) -> Prop) :
  P [] [] [] [] ->
  (forall e es m ms v vs b bs cs,
     comp_repr (semm e) m v -> comp_bytes (semm e) v = Some (b, bs) ->
     P es ms vs cs -> P (e :: es) (m :: ms) (v :: vs) ((b, bs) :: cs)) ->
  forall es ms vs cs, repr_members (map semm es) ms vs -> comps (map semm es) vs = Some cs -> P es ms vs cs.
Proof.
  intros Hnil Hcons es. induction es as [|e es IH]; intros ms vs cs Hr Hc.
  - destruct ms, vs; try done. by injection Hc as <-.
  - destruct ms as [|m ms], vs as [|v vs]; try done. destruct Hr as [Hr1 Hr2].
    apply comps_cons in Hc as (b & bs & cs' & Hb & Hc & ->). by apply Hcons; [| |apply IH].
Qed.

Abbreviation good_all f es := (Forall (fun e : tmember => good f e.(type)) es).
Abbreviation contents cs := (concat (map snd (cs : list (bool * bytes)))).

Lemma encode_root_ok f name es ms vs cs n :
  good_all f es -> Forall default_native es ->
  repr_members (map semm es) ms vs -> comps (map semm es) vs = Some cs ->
  emits (encode_root name (slots (map (opm f) es) ms) n) (inr (n + size (contents cs))) (contents cs).
Proof.
  intros Hg Hd Hr Hc. revert n Hg Hd.
  revert es ms vs cs Hr Hc. refine (members_ind _ _ _).
  { intros n _ _. cbn. rewrite Z.add_0_r. constructor. }
  intros e es m ms v vs b bs cs Hr Hb IH n Hg Hd.
  apply Forall_cons in Hg as [Hg Hgs], Hd as [Hd Hds].
  change (contents ((b, bs) :: cs)) with (bs ++ contents cs). rewrite size_app.
  cbn [map slots zip_with encode_root]. fold (slots (map (opm f) es) ms).
  destruct (slot_component f e m v b bs Hd Hr Hb) as [_ Hx]. cbn [fst snd] in Hx.
  destruct b.
  - destruct Hx as (o & a & -> & -> & Ho & Ha). destruct (good_enc _ _ Hg _ _ _ _ Ho Ha) as (enc & He & Hem).
    cbn [type map_type oer_constraints]. rewrite He.
    eapply emits_bind; [exact Hem|]. cbn [encoded ASN__ENCODED_OK].
    pose proof (size_nonneg bs). destruct (Z.eqb_spec (size bs) (-1)); [lia|].
    rewrite Z.add_assoc. by apply IH.
  - destruct Hx as [-> Hx]. change (size []) with 0. rewrite Z.add_0_l. cbn [app].
    destruct Hx as [[-> Ho]|(o & -> & ->)]; [|by apply IH].
    cbn [optional map_type]. rewrite Ho. by apply IH.
Qed.

Lemma count_bytes_run {A} (m : enc A) a bs : emits m a bs -> forall n,
  run oer__count_bytes m n = Some (a, n + size bs).
Proof.
  induction 1 as [a|c k a bs _ IH]; intros n; [change (size []) with 0; by rewrite Z.add_0_r|].
  cbn [run oer__count_bytes]. rewrite IH, size_app. do 2 f_equal. lia.
Qed.

(** An open type around a member. *)
Lemma open_type_put_ok t s c o a bs x : Encodes t s ->
  s.(sp_repr) o a -> s.(sp_bytes) c a = Some bs -> with_length bs = Some x ->
  emits (oer_open_type_put t c (Some o)) (size x) x.
Proof.
  intros Hok Hr Hb Hw. destruct (Hok _ _ _ _ Hr Hb) as (e & He & Hem). unfold oer_open_type_put. rewrite He.
  rewrite (count_bytes_run _ _ _ Hem), Z.add_0_l.
  pose proof (size_nonneg bs). cbn [encoded ASN__ENCODED_OK]. destruct (Z.ltb_spec (size bs) 0); [lia|].
  apply with_length_Some in Hw as [Hle ->]. pose proof (length_det_pos bs Hle).
  eapply emits_bind; [by apply serialize_length_emits|]. cbv beta.
  destruct (Z.eqb_spec (size (length_det (size bs))) (-1)); [lia|].
  eapply emits_bind_last; [exact Hem|]. cbn [encoded ASN__ENCODED_OK].
  destruct (Z.ltb_spec (size bs) 0); [lia|]. by rewrite size_app.
Qed.

Lemma wrap_all_cons b bs cs x : wrap_all ((b, bs) :: cs) = Some x ->
  exists y z, (if b : bool then with_length bs else Some []) = Some y /\ wrap_all cs = Some z /\ x = y ++ z.
Proof.
  cbn [wrap_all]. destruct (if b then _ else _) as [y|]; [|done].
  destruct (wrap_all cs) as [z|]; [|done]. intros [= <-]. by exists y, z.
Qed.

Lemma encode_extensions_ok f name es ms vs cs n x :
  good_all f es -> Forall default_native es ->
  repr_members (map semm es) ms vs -> comps (map semm es) vs = Some cs -> wrap_all cs = Some x ->
  emits (encode_extensions name (slots (map (opm f) es) ms) n) (inr (n + size x)) x.
Proof.
  intros Hg Hd Hr Hc. revert n x Hg Hd.
  revert es ms vs cs Hr Hc. refine (members_ind _ _ _).
  { intros n x _ _ [= <-]. cbn. rewrite Z.add_0_r. constructor. }
  intros e es m ms v vs b bs cs Hr Hb IH n x Hg Hd Hx.
  apply Forall_cons in Hg as [Hg Hgs], Hd as [Hd Hds].
  apply wrap_all_cons in Hx as (y & z & Hy & Hz & ->). rewrite size_app.
  cbn [map slots zip_with encode_extensions]. fold (slots (map (opm f) es) ms).
  destruct (slot_component f e m v b bs Hd Hr Hb) as [_ Hx]. cbn [fst snd] in Hx.
  destruct b.
  - destruct Hx as (o & a & -> & -> & Ho & Ha). cbn [type map_type oer_constraints].
    eapply emits_bind; [eapply open_type_put_ok; [apply (good_enc _ _ Hg)|done..]|]. cbv beta.
    pose proof (size_nonneg y). destruct (Z.eqb_spec (size y) (-1)); [lia|].
    rewrite Z.add_assoc. by apply IH.
  - injection Hy as <-. destruct Hx as [-> Hx]. change (size []) with 0. rewrite Z.add_0_l. cbn [app].
    destruct Hx as [[-> Ho]|(o & -> & ->)]; [|by apply IH].
    cbn [optional map_type]. rewrite Ho. by apply IH.
Qed.

(** ** Presence bitmaps *)

(** A program that writes [l] after the pending bits of [po] and flushes. *)
Definition flushes (po : BitOut.asn_bit_outp) (l : list bool) (m : enc (option Z)) : Prop :=
  exists bs, emits m (Some (BitOut.flushed_bytes po + size bs)) bs /\ all_bytes bs /\
    bytes_bits bs = (BitOut.pending po ++ l) ++
                    replicate (BitIn.pad8 (size (BitOut.pending po ++ l))) false.

Definition flush_size (po : BitOut.asn_bit_outp) : enc (option Z) :=
  p ← BitOut.asn_put_aligned_flush po; mret (Some p.2.(BitOut.flushed_bytes)).

Lemma flushes_flush po : BitOut.wf po -> flushes po [] (flush_size po).
Proof.
  intros Hwf. destruct (BitOut.aligned_flush_ok po Hwf) as (bs & po' & Hem & _ & Hb & Hf & _ & Hbits).
  exists bs. rewrite app_nil_r. split; [|done]. eapply emits_bind_last; [exact Hem|]. cbn [snd]. by rewrite Hf.
Qed.

Lemma flushes_bind po new l m g : BitOut.puts po new m ->
  (forall po', BitOut.wf po' -> flushes po' l (g (0, po'))) -> flushes po (new ++ l) (m ≫= g).
Proof.
  intros (bs & po' & Hem & Hwf & Hb & Hf & Hp) Hg.
  destruct (Hg po' Hwf) as (cs & Hem2 & Hb2 & Hbits).
  exists (bs ++ cs). split; [|split; [by apply Forall_app|]].
  - rewrite size_app, Z.add_assoc, <- Hf. by eapply emits_bind.
  - rewrite bytes_bits_app, Hbits, !app_assoc, Hp. f_equal. f_equal.
    apply (f_equal length) in Hp. rewrite !length_app, length_bytes_bits in Hp.
    unfold BitIn.pad8, size. rewrite !length_app. f_equal.
    replace (- Z.of_nat (length (BitOut.pending po) + length new + length l))
      with (- Z.of_nat (length (BitOut.pending po') + length l) + (- Z.of_nat (length bs)) * 8) by lia.
    by rewrite Z.mod_add.
Qed.

Lemma flushes_zero l m : flushes BitOut.outp_zero l m -> emits m (Some (size (pack l))) (pack l).
Proof.
  intros (bs & Hem & Hb & Hbits).
  change (BitOut.pending BitOut.outp_zero ++ l) with l in Hbits.
  replace (pack l) with bs; [done|].
  apply (bits_zero_pack _ _ _ Hb Hbits). pose proof (pad_bits_lt l). unfold pad_bits in *. unfold BitIn.pad8. lia.
Qed.

Lemma puts_bind po new1 new2 m g : BitOut.puts po new1 m ->
  (forall po', BitOut.wf po' -> BitOut.puts po' new2 (g (0, po'))) -> BitOut.puts po (new1 ++ new2) (m ≫= g).
Proof.
  intros (bs & po1 & Hem & Hwf & Hb & Hf & Hp) Hg.
  destruct (Hg po1 Hwf) as (cs & po2 & Hem2 & Hwf2 & Hb2 & Hf2 & Hp2).
  exists (bs ++ cs), po2. split; [by eapply emits_bind|]. split; [done|].
  split; [by apply Forall_app|]. split; [rewrite size_app; lia|].
  by rewrite bytes_bits_app, <- app_assoc, Hp2, !app_assoc, Hp.
Qed.

Lemma put_bit_ok po b : BitOut.wf po -> BitOut.puts po [b] (put_bit po b).
Proof.
  intros Hwf. pose proof (BitOut.put_few_bits_ok po (Z.b2z b) 1 Hwf ltac:(lia)) as H.
  by replace (Z_to_bits (Z.to_nat 1) (Z.b2z b)) with [b] in H by (by destruct b).
Qed.

Lemma put_root_bits_ok xs : forall po, BitOut.wf po ->
  BitOut.puts po (concat (map (fun x : slot => if x.1.(optional) then [has_component x] else []) xs))
    (put_root_bits xs po).
Proof.
  induction xs as [|x xs IH]; intros po Hwf; [by apply BitOut.puts_ret|].
  cbn [map concat put_root_bits]. destruct (optional x.1); [|by apply IH].
  apply puts_bind; [by apply put_bit_ok|]. intros po' Hwf'. by apply IH.
Qed.

Lemma put_extension_bits_ok xs : forall po, BitOut.wf po ->
  BitOut.puts po (map has_component xs) (put_extension_bits xs 0 po).
Proof.
  induction xs as [|x xs IH]; intros po Hwf; [by apply BitOut.puts_ret|].
  cbn [map put_extension_bits]. change (has_component x :: ?l) with ([has_component x] ++ l).
  apply puts_bind; [by apply put_bit_ok|]. intros po' Hwf'. by apply IH.
Qed.

(** The bits the encoder computes are those of the specification. *)
Lemma slots_bits f es ms vs cs : Forall default_native es ->
  repr_members (map semm es) ms vs -> comps (map semm es) vs = Some cs ->
  map has_component (slots (map (opm f) es) ms) = map fst cs /\
  concat (map (fun x : slot => if x.1.(optional) then [has_component x] else [])
            (slots (map (opm f) es) ms)) = optional_bits (map semm es) cs /\
  length cs = length es /\ length ms = length es.
Proof.
  intros Hd Hr Hc. revert Hd. revert es ms vs cs Hr Hc. refine (members_ind _ _ _); [done|].
  intros e es m ms v vs b bs cs Hr Hb IH Hd. apply Forall_cons in Hd as [Hd Hds].
  destruct (IH Hds) as (IH1 & IH2 & IH3 & IH4).
  destruct (slot_component f e m v b bs Hd Hr Hb) as [Hx _].
  unfold optional_bits in *. cbn [map slots zip_with concat length fst]. fold (slots (map (opm f) es) ms).
  rewrite Hx, IH1, IH2, IH3, IH4. done.
Qed.

Lemma encode_preamble_ok specs root has_ext bits :
  bits = (if specs.(first_extension) <? 0 then [] else [has_ext]) ++
         concat (map (fun x : slot => if x.1.(optional) then [has_component x] else []) root) ->
  specs.(roms_count) = size (concat (map (fun x : slot => if x.1.(optional) then [has_component x] else []) root)) ->
  emits (encode_preamble specs root has_ext) (Some (size (pack bits))) (pack bits).
Proof.
  intros -> Hroms. unfold encode_preamble, has_extensions_bit.
  set (ob := concat _) in *. pose proof (size_nonneg ob).
  assert (forall po, BitOut.wf po -> flushes po ob
    (p ← (if ctrue (roms_count specs) then put_root_bits root po else mret (0, po));
     let '(ret, po) := p in
     if ret <? 0 then mret None
     else p ← BitOut.asn_put_aligned_flush po; mret (Some p.2.(BitOut.flushed_bytes)))) as Hroot.
  { intros po Hwf. rewrite <- (app_nil_r ob). apply flushes_bind; [|intros po' Hwf'; by apply flushes_flush].
    unfold ctrue. destruct (Z.eqb_spec (roms_count specs) 0) as [E|]; cbn [negb].
    - destruct ob; [|rewrite size_cons in *; pose proof (size_nonneg ob); lia]. by apply BitOut.puts_ret.
    - by apply put_root_bits_ok. }
  destruct (Z.ltb_spec (first_extension specs) 0), (Z.leb_spec 0 (first_extension specs)); try lia.
  - cbn [app]. unfold ctrue at 1. destruct (Z.eqb_spec (0 + roms_count specs) 0); cbn [negb].
    + destruct ob; [|rewrite size_cons in *; pose proof (size_nonneg ob); lia]. constructor.
    + change (ctrue 0) with false. cbv iota. apply flushes_zero.
      change ob with ([] ++ ob). apply flushes_bind; [apply BitOut.puts_ret, BitOut.wf_zero|exact Hroot].
  - unfold ctrue at 1. destruct (Z.eqb_spec (1 + roms_count specs) 0); [lia|]. cbn [negb].
    change (ctrue 1) with true. cbv iota. apply flushes_zero.
    apply flushes_bind; [apply put_bit_ok, BitOut.wf_zero|exact Hroot].
Qed.

Lemma encode_extension_bitmap_ok specs exts :
  let bm := pack (map has_component exts) in
  specs.(aoms_count) = size exts -> specs.(aoms_count) <= 1000 ->
  emits (encode_extension_bitmap specs exts) (Some (2 + size bm))
    ((1 + size bm) :: Z.of_nat (pad_bits (map has_component exts)) :: bm).
Proof.
  intros bm Ha Hle. pose proof (size_nonneg exts) as Hn.
  set (l := map has_component exts) in *.
  assert (size l = size exts) as Hl by (unfold l, size; by rewrite length_map).
  pose proof (pack_size l) as Hp. pose proof (pad_bits_lt l) as Hlt. fold bm in Hp.
  set (u := Z.of_nat (pad_bits l)) in *.
  assert (Z.shiftr (7 + aoms_count specs) 3 = size bm) as Hsh.
  { rewrite shiftr_3. symmetry. apply (Z.div_unique _ _ _ (7 - u)); lia. }
  assert (Z.land 7 (8 - Z.land (aoms_count specs) 7) = u) as Hun.
  { rewrite Z.land_comm, !land_7, Zminus_mod_idemp_r, Ha. unfold u, pad_bits.
    rewrite Z2Nat.id by (apply Z.mod_pos_bound; lia). rewrite Hl.
    replace (8 - size exts) with (- size exts + 1 * 8) by lia. by rewrite Z.mod_add. }
  assert (pack (Z_to_bits 8 (1 + size bm) ++ Z_to_bits 8 u ++ l ++ []) = (1 + size bm) :: u :: bm) as Hpk.
  { rewrite app_nil_r. symmetry. apply (bits_zero_pack _ _ (pad_bits l)); [| |lia].
    - constructor; [unfold is_byte; pose proof (size_nonneg bm); lia|].
      constructor; [unfold is_byte; lia|apply pack_bytes].
    - rewrite !bytes_bits_cons. change (bytes_bits bm) with (bytes_bits (pack l)).
      by rewrite pack_bits, <- !app_assoc. }
  replace (2 + size bm) with (size ((1 + size bm) :: u :: bm)) by (rewrite !size_cons; lia).
  rewrite <- Hpk. apply flushes_zero. unfold encode_extension_bitmap. rewrite Hsh, Hun.
  apply flushes_bind; [apply BitOut.put_few_bits_ok; [apply BitOut.wf_zero|lia]|]. intros po Hwf.
  change (0 <? 0) with false. cbv iota beta.
  apply flushes_bind; [apply BitOut.put_few_bits_ok; [done|lia]|]. intros po' Hwf'.
  change (0 <? 0) with false. cbv iota beta.
  apply flushes_bind; [by apply put_extension_bits_ok|]. intros po2 Hwf2. by apply flushes_flush.
Qed.

(** ** The whole encoder *)

(** Extension additions are optional pointers to types with a decoder. *)
Definition extension_ok (e : tmember) : Prop :=
  e.(optional) = true /\ e.(ATF_OPEN_TYPE) = false /\ e.(ATF_POINTER) = true.

(** The conditions of [wf_kind] on a SEQUENCE, as propositions. *)
Record wf_seq (specs : asn_SEQUENCE_specifics) (es : list tmember) (k : nat) : Prop := {
  ws_k : k = if specs.(first_extension) <? 0 then length es else Z.to_nat specs.(first_extension);
  ws_le : (k <= length es)%nat;
  ws_roms : specs.(roms_count) = size (filter (fun e : tmember => Is_true e.(optional)) (take k es));
  ws_ext : 0 <= specs.(first_extension) ->
    specs.(roms_count) <= 7 /\ specs.(aoms_count) = size (drop k es) /\ specs.(aoms_count) <= 1000;
  ws_exts : Forall extension_ok (drop k es);
  ws_member i e : es !! i = Some e -> wf_member es i e = true;
}.

Lemma wf_kind_seq specs es : wf_kind (SEQUENCE specs) es = true -> exists k, wf_seq specs es k.
Proof.
  intros H. cbn [wf_kind] in H. rewrite !andb_true_iff in H. destruct H as [[Hr He] Hm].
  rewrite forallb_forall in Hm.
  assert (forall i e, es !! i = Some e -> wf_member es i e = true) as Hmem.
  { intros i e Hi. apply (Hm (i, e)). apply list_elem_of_In, list_elem_of_lookup.
    exists i. by rewrite list_lookup_imap, Hi. }
  apply Z.eqb_eq in Hr.
  destruct (Z.ltb_spec (first_extension specs) 0).
  - exists (length es). split; auto; try lia.
    + destruct (Z.ltb_spec (first_extension specs) 0); [done|lia].
    + by rewrite take_ge.
    + by rewrite drop_ge.
  - rewrite !andb_true_iff in He. destruct He as [[[[Hn H7] Ha] H1000] Hx].
    apply bool_decide_eq_true in Hn. rewrite Z.eqb_eq in Ha. rewrite Z.leb_le in *.
    exists (Z.to_nat (first_extension specs)). split; auto.
    + destruct (Z.ltb_spec (first_extension specs) 0); [lia|done].
    + intros _. repeat split; auto. rewrite Ha. unfold size. rewrite length_drop. lia.
    + rewrite forallb_forall in Hx. apply Forall_forall. intros e He%list_elem_of_In. apply Hx in He.
      unfold extension_ok. rewrite !andb_true_iff, negb_true_iff in He. tauto.
Qed.

Lemma wf_seq_default specs es k : wf_seq specs es k -> Forall default_native es.
Proof.
  intros Hw. apply Forall_lookup. intros i e Hi. apply (ws_member _ _ _ Hw) in Hi.
  unfold wf_member in Hi. rewrite !andb_true_iff in Hi. destruct Hi as [[[_ Hd] _] _].
  unfold default_native. destruct (default_value e); [|done]. by rewrite andb_true_iff in Hd.
Qed.

Lemma repr_members_split k : forall es ms vs, repr_members es ms vs ->
  repr_members (take k es) (take k ms) (take k vs) /\ repr_members (drop k es) (drop k ms) (drop k vs).
Proof.
  induction k as [|k IH]; intros es ms vs H; [done|].
  destruct es, ms, vs; try done. destruct H as [H1 H2]. apply IH in H2 as [H2 H3].
  cbn [take drop repr_members]. done.
Qed.

Lemma comps_split k : forall es vs cs, comps es vs = Some cs ->
  comps (take k es) (take k vs) = Some (take k cs) /\ comps (drop k es) (drop k vs) = Some (drop k cs).
Proof.
  induction k as [|k IH]; intros es vs cs H; [done|].
  destruct es as [|e es], vs as [|v vs]; try done.
  - injection H as <-. done.
  - apply comps_cons in H as (b & bs & cs' & Hb & Hc & ->). apply IH in Hc as [Hc1 Hc2].
    cbn [take drop comps]. by rewrite Hb, Hc1.
Qed.

Lemma optional_bits_size es : forall cs, length cs = length es ->
  size (optional_bits (map semm es) cs) = size (filter (fun e : tmember => Is_true e.(optional)) es).
Proof.
  induction es as [|e es IH]; intros [|c cs] Hl; try done.
  unfold optional_bits in *. cbn [map zip_with concat]. rewrite size_app, IH by (simpl in Hl; lia).
  rewrite filter_cons. cbn [optional map_type]. destruct (optional e).
  - rewrite decide_True by done. by rewrite (size_cons e).
  - rewrite decide_False by (by intros []). done.
Qed.

Lemma slots_take f k es ms : take k (slots (map (opm f) es) ms) = slots (map (opm f) (take k es)) (take k ms).
Proof. unfold slots. rewrite zip_with_take, firstn_map. done. Qed.

Lemma slots_drop f k es ms : drop k (slots (map (opm f) es) ms) = slots (map (opm f) (drop k es)) (drop k ms).
Proof. unfold slots. rewrite zip_with_drop, skipn_map. done. Qed.

Lemma root_count_k f specs es k : wf_seq specs es k -> root_count specs (map (opm f) es) = Z.of_nat k.
Proof.
  intros Hw. unfold root_count. rewrite (ws_k _ _ _ Hw). unfold size. rewrite length_map.
  destruct (Z.ltb_spec (first_extension specs) 0); lia.
Qed.

Lemma existsb_map_fst (cs : list (bool * bytes)) xs : map has_component xs = map fst cs ->
  existsb has_component xs = existsb fst cs.
Proof.
  revert cs. induction xs as [|x xs IH]; intros [|c cs] H; try done.
  cbn [map] in H. injection H as H1 H2. cbn [existsb]. by rewrite H1, (IH cs).
Qed.

Lemma no_extensions specs es k cs : wf_seq specs es k -> length cs = length es -> first_extension specs < 0 ->
  drop k (cs : list (bool * bytes)) = [].
Proof.
  intros Hw Hcl Hneg. apply drop_ge. rewrite (ws_k _ _ _ Hw). destruct (Z.ltb_spec (first_extension specs) 0); lia.
Qed.

Lemma seq_encode_ok f name specs es k c o a bs : wf_seq specs es k -> good_all f es ->
  (sp_sequence specs (map semm es)).(sp_repr) o a ->
  (sp_sequence specs (map semm es)).(sp_bytes) c a = Some bs ->
  emits (SEQUENCE_encode_oer name specs (map (opm f) es) c (Some o)) (ASN__ENCODED_OK (size bs)) bs.
Proof.
  intros Hw Hg Hr Hb. destruct o as [| | | | |ct pt ms| |], a as [| | | | |vs| |]; try done.
  cbn [sp_bytes sp_repr sp_sequence] in Hr, Hb. unfold seq_bytes in Hb.
  destruct (forallb _ _); [|done]. destruct (comps _ vs) as [cs|] eqn:Hc; [|done].
  pose proof (wf_seq_default _ _ _ Hw) as Hd.
  destruct (repr_members_split k _ _ _ Hr) as [Hr1 Hr2]. destruct (comps_split k _ _ _ Hc) as [Hc1 Hc2].
  rewrite firstn_map in Hr1, Hc1. rewrite skipn_map in Hr2, Hc2.
  destruct (slots_bits f _ _ _ _ Hd Hr Hc) as (_ & _ & Hcl & _).
  pose proof (no_extensions _ _ _ cs Hw Hcl) as Hnoext.
  destruct (slots_bits f _ _ _ _ (Forall_take _ k _ Hd) Hr1 Hc1) as (_ & Hbits1 & Hlen1 & _).
  destruct (slots_bits f _ _ _ _ (Forall_drop _ k _ Hd) Hr2 Hc2) as (Hbits2 & _ & Hlen2 & Hms2).
  rewrite length_map in Hb. rewrite <- (ws_k _ _ _ Hw), firstn_map in Hb.
  unfold SEQUENCE_encode_oer. rewrite (root_count_k f _ _ _ Hw). unfold ztake, zdrop. rewrite Nat2Z.id, slots_take, slots_drop.
  rewrite (existsb_map_fst _ _ Hbits2).
  set (root := slots (map (opm f) (take k es)) (take k ms)) in *.
  set (exts := slots (map (opm f) (drop k es)) (drop k ms)) in *.
  assert (ctrue (has_extensions_bit specs) && existsb fst (drop k cs) = existsb fst (drop k cs)) as ->.
  { unfold has_extensions_bit. destruct (Z.leb_spec 0 (first_extension specs)); [done|].
    by rewrite Hnoext by lia. }
  set (he := existsb fst (drop k cs)) in *.
  set (pre := (if first_extension specs <? 0 then [] else [he]) ++ optional_bits (map semm (take k es)) (take k cs)) in *.
  assert (forall tail b (g : option Z -> enc asn_enc_rval), emits (g (Some (size (pack pre)))) b tail ->
    emits (encode_preamble specs root he ≫= g) b (pack pre ++ tail)) as Hpre.
  { intros tail b g Hgt. eapply emits_bind; [|done]. apply encode_preamble_ok; [by rewrite Hbits1|].
    rewrite Hbits1, optional_bits_size by done. apply (ws_roms _ _ _ Hw). }
  assert (forall n, emits (encode_root name root n) (inr (n + size (contents (take k cs)))) (contents (take k cs))) as Hroot.
  { intros n. eapply encode_root_ok; [by apply Forall_take|by apply Forall_take|exact Hr1|exact Hc1]. }
  destruct he eqn:Hhe.
  - destruct (wrap_all (drop k cs)) as [x|] eqn:Hx; [|done]. injection Hb as <-. rewrite <- !app_assoc.
    apply Hpre. cbv beta iota. eapply emits_bind; [apply Hroot|]. cbv beta iota.
    rewrite <- Hbits2. change (?h :: ?u :: ?bm ++ x) with ((h :: u :: bm) ++ x).
    eapply emits_bind.
    { assert (0 <= first_extension specs) as Hpos.
      { destruct (Z.lt_ge_cases (first_extension specs) 0) as [Hneg|]; [|lia].
        unfold he in Hhe. by rewrite Hnoext in Hhe. }
      destruct (ws_ext _ _ _ Hw Hpos) as (_ & Ha & Ha'). apply encode_extension_bitmap_ok; [|done].
      rewrite Ha. unfold size, exts, slots. rewrite length_zip_with, length_map, Hms2. lia. }
    cbv beta iota. eapply emits_bind_last.
    { eapply encode_extensions_ok; [by apply Forall_drop|by apply Forall_drop|exact Hr2|exact Hc2|exact Hx]. }
    cbv beta iota. unfold mret, enc_ret. do 2 f_equal. rewrite !size_app, !size_cons. lia.
  - injection Hb as <-. apply Hpre. cbv beta iota. eapply emits_bind_last; [apply Hroot|].
    cbv beta iota. by rewrite size_app.
Qed.

(** * Decoding *)

Lemma open_type_get_ok t s ctx c a bs x p rest : Decodes t s -> stack_ok ctx ->
  s.(sp_bytes) c a = Some bs -> with_length bs = Some x -> p = None \/ p = Some t.(op_zero) ->
  exists o, oer_open_type_get ctx t c p (x ++ rest) = (size x, Some o) /\ s.(sp_repr) o a.
Proof.
  intros Hdec Hs Hb Hw Hp. unfold oer_open_type_get.
  destruct (counted_read bs x rest Hw) as (n & -> & Hn & Hz & Hsz).
  destruct (Z.leb_spec n 0); [lia|].
  assert (size (x ++ rest) - n = size bs + size rest) as ->.
  { rewrite size_app. lia. }
  pose proof (size_nonneg rest). destruct (Z.ltb_spec (size bs + size rest) (size bs)); [lia|].
  destruct (Hdec (nested ctx) c a bs p []) as (d & o & Hd & Ho & Hr); [by apply stack_ok_nested|done|done|].
  rewrite Hd, Hz, ztake_app by done.
  rewrite app_nil_r in Ho. rewrite Ho. exists o. split; [|done]. cbn [code ok RETURN].
  by rewrite Hsz.
Qed.

(** One presence bit. *)
Lemma read_bit pd b rest : BitIn.wf pd -> BitIn.stream pd = b :: rest ->
  exists pd', BitIn.asn_get_few_bits pd 1 = (Z.b2z b, pd') /\ BitIn.wf pd' /\ BitIn.stream pd' = rest /\
    (BitIn.nbits pd <= 8 -> BitIn.nbits pd' = BitIn.nbits pd /\ BitIn.buffer pd' = BitIn.buffer pd).
Proof.
  intros Hwf Hs. pose proof (BitIn.length_stream pd Hwf) as Hl. rewrite Hs in Hl. cbn [length] in Hl.
  exists (BitIn.advance pd 1). rewrite BitIn.get_few_bits_ok, Hs by (auto; lia).
  destruct (BitIn.advance_ok pd 1 Hwf ltac:(lia)) as (Hwf' & Hs' & _ & _).
  split; [by destruct b|]. split; [done|]. split; [by rewrite Hs', Hs|].
  intros H8. unfold BitIn.advance, BitIn.normalize. unfold BitIn.left_bits in Hl.
  destruct (Z.leb_spec 8 (BitIn.nboff pd)); [lia|]. done.
Qed.

Lemma read_no_bit pd : BitIn.wf pd -> BitIn.stream pd = [] -> BitIn.asn_get_few_bits pd 1 = (-1, pd).
Proof.
  intros Hwf Hs. apply BitIn.get_few_bits_end; [done|].
  rewrite <- BitIn.length_stream, Hs by done. cbn. lia.
Qed.

(** A bit reader over [n] of the bits of a buffer, from position [k]. *)
Lemma new_contiguous_ok (l : bytes) n k rest : all_bytes l -> 0 <= k <= n -> size l = (n + 7) / 8 ->
  let pd := BitIn.asn_bit_data_new_contiguous (l ++ rest) n in
  let pd := {| BitIn.buffer := BitIn.buffer pd; BitIn.nboff := k;
               BitIn.nbits := BitIn.nbits pd; BitIn.moved := BitIn.moved pd |} in
  BitIn.wf pd /\ BitIn.stream pd = drop (Z.to_nat k) (take (Z.to_nat n) (bytes_bits l)) /\
  BitIn.buffer pd = Some (l ++ [0]) /\ BitIn.nbits pd = n.
Proof.
  intros Hl Hk Hs pd pd'. unfold pd', pd, BitIn.asn_bit_data_new_contiguous. cbn [BitIn.buffer BitIn.nboff BitIn.nbits].
  rewrite ztake_app by done. pose proof (Z.div_mod (n + 7) 8 ltac:(lia)).
  pose proof (Z.mod_pos_bound (n + 7) 8 ltac:(lia)).
  unfold BitIn.wf, BitIn.stream, BitIn.buf. cbn [BitIn.buffer BitIn.nboff BitIn.nbits].
  change (default [] (Some (l ++ [0]))) with (l ++ [0]).
  split; [|split; [|done]].
  - split; [done|]. rewrite size_app. change (size [0]) with 1. split; [lia|].
    apply Forall_app. split; [done|]. repeat constructor; lia.
  - rewrite bytes_bits_app. unfold size in *. rewrite take_drop_commute.
    replace (Z.to_nat k + Z.to_nat (n - k))%nat with (Z.to_nat n) by lia. f_equal.
    rewrite take_app_le; [done|]. rewrite length_bytes_bits. lia.
Qed.

(** * One member *)

Definition zero_member (f : nat) (e : tmember) : option obj :=
  if e.(ATF_POINTER) then None else Some (op f e.(type)).(op_zero).

Lemma zero_members_map f es : zero_members (map (opm f) es) = map (zero_member f) es.
Proof. unfold zero_members. by rewrite map_map. Qed.

Lemma zero_element_ptr f e : let p := element_ptr (opm f e) (zero_member f e) in
  p = None \/ p = Some (op f e.(type)).(op_zero).
Proof. unfold element_ptr, zero_member. cbn [ATF_POINTER map_type type]. destruct (ATF_POINTER e); auto. Qed.

(** Reading a governor that has been decoded. *)
Lemma governor_value es ms vs g e z : repr_members (map semm es) ms vs ->
  es !! g = Some e -> plain_native e = true -> vs !! g = Some (Some (A_INT z)) ->
  ms !! g = Some (Some (O_long z)).
Proof.
  revert g ms vs. induction es as [|e' es IH]; intros g ms vs Hr He Hp Hv; [done|].
  destruct ms as [|m ms], vs as [|v vs]; try done. destruct Hr as [Hr1 Hr2].
  destruct g as [|g]; [|by apply (IH g ms vs)]. cbn in He, Hv |- *. injection He as ->. injection Hv as ->.
  unfold plain_native in Hp. rewrite !andb_true_iff, !negb_true_iff in Hp. destruct Hp as [[[Hn Hpt] _] _].
  cbn [comp_repr] in Hr1. destruct Hr1 as [(o & -> & Ho)|(_ & Hpt' & _)].
  - cbn [type map_type] in Ho. rewrite native_repr in Ho by done. destruct o; try done. cbn in Ho. by subst.
  - cbn [ATF_POINTER map_type] in Hpt'. congruence.
Qed.

Lemma lookup_middle {A} (l : list A) x k : (l ++ x :: k) !! length l = Some x.
Proof. by rewrite list_lookup_middle. Qed.

(** The governor of an open type selects the alternative of the value. *)
Lemma select_governed es e vs a edx done m sel : type_selector e = Some sel -> (governor sel < edx)%nat ->
  length done = edx -> match es !! governor sel with Some g => plain_native g | None => false end = true ->
  repr_members (map semm (take edx es)) done (take edx vs) -> selected_ok (semm e) (Some a) vs = true ->
  exists i a', a = A_CHOICE i a' /\ select_type sel (done ++ m) = Z.of_nat i + 1.
Proof.
  intros Hsel' Hgov <- Hplain Hr Hsel. destruct (es !! governor sel) as [ge|] eqn:Hge; [|done].
  unfold selected_ok in Hsel. cbn [type_selector map_type] in Hsel. rewrite Hsel' in Hsel.
  destruct a as [| | | | | |i a|]; try discriminate.
  destruct (vs !! governor sel) as [[[| |z| | | | |]|]|] eqn:Hv; try discriminate. apply Z.eqb_eq in Hsel.
  exists i, a. split; [done|]. unfold select_type. rewrite (lookup_app_l done) by done.
  rewrite (governor_value (take (length done) es) done (take (length done) vs) (governor sel) ge z);
    [done|done|by rewrite lookup_take_lt|done|by rewrite lookup_take_lt].
Qed.

(** The member of an open type: the governor selects the variant. *)
Lemma open_type_member_ok f ctx es e vs a bs done zrest rest :
  let edx := length done in
  good f e.(type) -> wf_kind (kind e.(type)) (elements e.(type)) = true ->
  wf_member es edx e = true -> e.(ATF_OPEN_TYPE) = true ->
  repr_members (map semm (take edx es)) done (take edx vs) ->
  selected_ok (semm e) (Some a) vs = true -> stack_ok ctx ->
  (sem e.(type)).(sp_bytes) e.(oer_constraints) a = Some bs ->
  exists o, OPEN_TYPE_oer_get ctx (opm f e) (done ++ zero_member f e :: zrest) (zero_member f e) (bs ++ rest) =
              (RETURN RC_OK (size bs), Some o) /\ (sem e.(type)).(sp_repr) o a.
Proof.
  intros edx Hg Hwk Hwf Hot Hr Hsel Hs Hb.
  unfold wf_member in Hwf. rewrite !andb_true_iff in Hwf. destruct Hwf as [[_ Hopen] Hsl].
  apply eqb_prop in Hopen. rewrite Hot in Hopen. symmetry in Hopen.
  unfold OPEN_TYPE_oer_get. cbn [ATF_OPEN_TYPE type_selector map_type type]. rewrite Hot. cbn [negb].
  destruct (type_selector e) as [sel|] eqn:Hsel'; [|by rewrite Hot in Hsl].
  rewrite !andb_true_iff, !negb_true_iff in Hsl. destruct Hsl as [[[[_ Hnp] _] Hgov] Hplain].
  apply bool_decide_eq_true in Hgov.
  destruct (select_governed es e vs a _ done (zero_member f e :: zrest) sel Hsel' Hgov eq_refl Hplain Hr Hsel)
    as (i & a' & -> & ->). destruct (Z.eqb_spec (Z.of_nat i + 1) 0); [lia|]. clear Hsel. rename a' into a.
  (* the variant *)
  unfold element_ptr, zero_member. cbn [ATF_POINTER map_type type]. rewrite Hnp.
  pose proof (good_variants _ _ Hg Hopen) as Hvar. destruct (type e) as [nm k ts c ves]. cbn in Hopen.
  destruct k; try discriminate. cbn [kind elements wf_kind] in Hwk, Hvar. clear Hopen.
  cbn [op op_zero zero_of op_elements sem sem_of] in *.
  change (default (O_CHOICE ctx_zero 0 None) (Some (O_CHOICE ctx_zero 0 None))) with (O_CHOICE ctx_zero 0 None).
  cbn [sp_bytes sp_open_type] in Hb. apply bind_Some in Hb as (se & Hse & Hb).
  apply bind_Some in Hb as (bs' & Hbs' & Hw).
  apply lookup_map_Some in Hse as (ve & -> & Hve).
  cbn [type oer_constraints map_type] in Hbs'.
  rewrite forallb_forall in Hwk. specialize (Hwk ve ltac:(apply list_elem_of_In; by eapply list_elem_of_lookup_2)).
  rewrite !andb_true_iff in Hwk. destruct Hwk as [_ Hcts]. destruct (oer_constraints ve); [done|].
  assert (Z.of_nat i < size (map (opm f) ves)) as Hlt.
  { apply lookup_lt_Some in Hve. unfold size. rewrite length_map. lia. }
  unfold CHOICE_variant_set_presence at 1. destruct (Z.ltb_spec (size (map (opm f) ves)) 0); [lia|].
  change (0 =? 0) with true. cbv iota.
  replace (Z.to_nat (Z.of_nat i + 1 - 1)) with i by lia.
  rewrite lookup_map, Hve. cbn [fmap option_fmap option_map type map_type].
  change (default ?z None) with z.
  rewrite Forall_lookup in Hvar.
  destruct (open_type_get_ok _ _ ctx None a bs' bs (Some (op_zero (op f (type ve)))) rest (Hvar _ _ Hve) Hs Hbs' Hw)
    as (o & Ho & Hro); [by right|]. rewrite Ho.
  pose proof (with_length_Some _ _ Hw) as [Hle Ex]. pose proof (length_det_pos bs' Hle).
  assert (0 < size bs) by (rewrite Ex, size_app; pose proof (size_nonneg bs'); lia).
  destruct (Z.eqb_spec (size bs) OT_UNDEFINED); [unfold OT_UNDEFINED in *; lia|].
  destruct (Z.eqb_spec (size bs) 0); [lia|]. destruct (Z.eqb_spec (size bs) (-1)); [lia|].
  unfold CHOICE_variant_set_presence.
  destruct (Z.ltb_spec (size (map (opm f) ves)) (Z.of_nat i + 1)); [lia|].
  destruct (Z.eqb_spec (Z.of_nat i + 1) 0); [lia|]. change (ctrue 0) with false. cbv iota.
  eexists. split; [done|]. cbn [sp_repr sp_open_type repr_choice]. split; [done|].
  exists (semm ve), o. split; [|done]. by rewrite lookup_map, Hve.
Qed.

Lemma decode_member_ok f ctx es e vs a bs done zrest rest s :
  let edx := length done in
  good f e.(type) -> wf_kind (kind e.(type)) (elements e.(type)) = true ->
  wf_member es edx e = true ->
  repr_members (map semm (take edx es)) done (take edx vs) ->
  selected_ok (semm e) (Some a) vs = true -> stack_ok ctx ->
  (sem e.(type)).(sp_bytes) e.(oer_constraints) a = Some bs ->
  s.(members) = done ++ zero_member f e :: zrest -> s.(ptr) = bs ++ rest ->
  exists o, (sem e.(type)).(sp_repr) o a /\
    decode_member ctx edx (opm f e) s = Go (next_member (ADVANCE (size bs) (set_member s edx (Some o)))).
Proof.
  intros edx Hg Hwk Hwf Hr Hsel Hs Hb Hm Hp. unfold decode_member.
  assert (default None (members s !! edx) = zero_member f e) as -> by (unfold edx; by rewrite Hm, lookup_middle).
  cbn [ATF_OPEN_TYPE map_type type oer_constraints]. rewrite Hp.
  destruct (ATF_OPEN_TYPE e) eqn:Hot.
  - rewrite Hm. destruct (open_type_member_ok f ctx es e vs a bs done zrest rest) as (o & -> & Ho); auto.
    exists o. done.
  - assert (is_open_type (type e) = false) as Hno.
    { unfold wf_member in Hwf. rewrite !andb_true_iff in Hwf. destruct Hwf as [[_ Hopen] _].
      apply eqb_prop in Hopen. congruence. }
    destruct (good_dec _ _ Hg Hno (nested ctx) (oer_constraints e) a bs (element_ptr (opm f e) (zero_member f e)) rest)
      as (d & o & -> & -> & Ho); auto using stack_ok_nested, zero_element_ptr.
    exists o. done.
Qed.

Lemma next_even x : Z.land (Z.land x (Z.lnot 1) + 2) 1 = 0.
Proof.
  change 1 with (Z.ones 1) at 2. rewrite Z.land_ones by lia. change (2 ^ 1) with 2.
  change (Z.lnot 1) with (Z.lnot (Z.ones 1)).
  rewrite <- Z.ldiff_land, Z.ldiff_ones_r, Z.shiftl_mul_pow2 by lia. change (2 ^ 1) with 2.
  replace (Z.shiftr x 1 * 2 + 2) with ((Z.shiftr x 1 + 1) * 2) by lia. apply Z.mod_mul. lia.
Qed.

Lemma insert_middle {A} (l : list A) x y k : <[length l := y]> (l ++ x :: k) = l ++ y :: k.
Proof. by rewrite insert_app_r_alt, Nat.sub_diag by done. Qed.

(** What the loops over members preserve. *)
Record progress (s s' : state) (n : Z) (ms : list (option obj)) (rest : bytes) : Prop := {
  pg_phase : s'.(Sequence.ctx).(phase) = s.(Sequence.ctx).(phase);
  pg_left : s'.(Sequence.ctx).(Descriptor.left) = s.(Sequence.ctx).(Descriptor.left);
  pg_members : s'.(members) = ms;
  pg_ptr : s'.(ptr) = rest;
  pg_consumed : s'.(consumed_myself) = s.(consumed_myself) + n;
}.

(** Reading the presence bits: the reader that is left, and when its buffer has
    not moved. *)
Definition read_to (pd pd' : BitIn.asn_bit_data) (rest : list bool) : Prop :=
  BitIn.wf pd' /\ BitIn.stream pd' = rest /\
  (BitIn.nbits pd <= 8 -> BitIn.nbits pd' = BitIn.nbits pd /\ BitIn.buffer pd' = BitIn.buffer pd).

Lemma read_to_refl pd : BitIn.wf pd -> read_to pd pd (BitIn.stream pd).
Proof. done. Qed.

Lemma read_to_trans pd pd1 pd2 l : read_to pd pd1 (BitIn.stream pd1) -> read_to pd1 pd2 l -> read_to pd pd2 l.
Proof.
  intros (_ & _ & H1) (Hw & Hs & H2). split; [done|]. split; [done|]. intros H8.
  destruct (H1 H8) as [E1 E2]. destruct H2 as [E3 E4]; [lia|]. split; congruence.
Qed.

(** A component of an OPTIONAL member: its value is there exactly when it is
    encoded or the DEFAULT. *)
Lemma optional_component e v b bs : e.(optional) = true -> comp_bytes (semm e) v = Some (b, bs) ->
  if b then exists a, v = Some a /\ (sem e.(type)).(sp_bytes) e.(oer_constraints) a = Some bs
  else bs = [] /\ match e.(default_value) with
                  | Some d => v = Some (A_INT (dfl_value d))
                  | None => v = None
                  end.
Proof.
  intros Hopt Hc. unfold comp_bytes in Hc.
  cbn [default_value optional type oer_constraints map_type] in Hc.
  destruct (default_value e) as [d|].
  - destruct v as [[| |z| | | | |]|]; try discriminate.
    destruct (Z.eqb_spec z (dfl_value d)) as [->|].
    + by injection Hc as <- <-.
    + apply fmap_Some in Hc as (? & Hc & [= -> ->]). eauto.
  - destruct v as [a|].
    + apply fmap_Some in Hc as (? & Hc & [= -> ->]). eauto.
    + rewrite Hopt in Hc. by injection Hc as <- <-.
Qed.

(** The member an absent OPTIONAL component leaves behind. *)
Lemma absent_member f es i e v : wf_member es i e = true -> e.(optional) = true ->
  match e.(default_value) with
  | Some d => v = Some (A_INT (dfl_value d))
  | None => v = None
  end ->
  comp_repr (semm e) (match e.(default_value) with
                      | Some d => Some (O_long (dfl_value d))
                      | None => zero_member f e
                      end) v.
Proof.
  intros Hwf Hopt Hv. unfold wf_member in Hwf. rewrite Hopt in Hwf. cbn [implb] in Hwf.
  rewrite !andb_true_iff in Hwf. destruct Hwf as [[[Hptr Hdf] _] _].
  destruct (default_value e) as [d|] eqn:Hd; subst v.
  - left. exists (O_long (dfl_value d)). split; [done|]. cbn [type map_type].
    by rewrite native_repr by (by rewrite andb_true_iff in Hdf; destruct Hdf).
  - rewrite orb_false_r in Hptr. unfold zero_member. rewrite Hptr. done.
Qed.

(** The component of a mandatory member is the encoding of its value. *)
Lemma mandatory_component es i e v b bs : wf_member es i e = true -> e.(optional) = false ->
  comp_bytes (semm e) v = Some (b, bs) ->
  b = true /\ exists a, v = Some a /\ (sem e.(type)).(sp_bytes) e.(oer_constraints) a = Some bs.
Proof.
  intros Hwf Hopt Hc. unfold wf_member in Hwf. rewrite Hopt in Hwf. cbn [andb] in Hwf. rewrite !andb_true_iff in Hwf.
  destruct Hwf as [[[_ Hdf] _] _]. unfold comp_bytes in Hc. cbn [default_value optional type oer_constraints map_type] in Hc.
  destruct (default_value e); [discriminate|]. destruct v as [a|]; [|rewrite Hopt in Hc; discriminate].
  apply fmap_Some in Hc as (? & Hc & [= -> ->]). eauto.
Qed.

(** Decoding a member from a state [s0] that differs from [s] in its step and bits. *)
Lemma decode_member_progress f ctx es e vs a bs done zrest rest s s0 pd0 :
  let edx := length done in
  good f e.(type) -> wf_kind (kind e.(type)) (elements e.(type)) = true ->
  wf_member es edx e = true ->
  repr_members (map semm (take edx es)) done (take edx vs) ->
  selected_ok (semm e) (Some a) vs = true -> stack_ok ctx ->
  s.(members) = done ++ zero_member f e :: zrest -> s.(ptr) = bs ++ rest ->
  (sem e.(type)).(sp_bytes) e.(oer_constraints) a = Some bs ->
  members s0 = members s -> ptr s0 = ptr s -> bits s0 = Some pd0 ->
  s0.(Sequence.ctx).(phase) = s.(Sequence.ctx).(phase) ->
  s0.(Sequence.ctx).(Descriptor.left) = s.(Sequence.ctx).(Descriptor.left) ->
  consumed_myself s0 = consumed_myself s ->
  exists m s', comp_repr (semm e) m (Some a) /\ decode_member ctx edx (opm f e) s0 = Go s' /\
    progress s s' (size bs) (done ++ m :: zrest) rest /\
    Z.land s'.(Sequence.ctx).(step) 1 = 0 /\ s'.(bits) = Some pd0.
Proof.
  intros edx Hg Hwk Hwf Hr Hsel Hst Hm Hp Hb Em Ep Eb Eph El Ec. subst edx.
  destruct (decode_member_ok f ctx es e vs a bs done zrest rest s0) as (o & Ho & ->); auto; try congruence.
  exists (Some o). eexists. split; [by left; eauto|]. split; [done|]. split; [|split; [apply next_even|done]].
  split; cbn; auto.
  - rewrite Em, Hm. apply insert_middle.
  - rewrite Ep, Hp. by apply zdrop_app.
  - by rewrite Ec.
Qed.

(** One iteration of the root loop on an encoded component. *)
Lemma root_member_ok f ctx es e vs v b bs done zrest rest s pd bits_rest :
  let edx := length done in
  good f e.(type) -> wf_kind (kind e.(type)) (elements e.(type)) = true ->
  wf_member es edx e = true ->
  repr_members (map semm (take edx es)) done (take edx vs) ->
  selected_ok (semm e) v vs = true -> stack_ok ctx ->
  comp_bytes (semm e) v = Some (b, bs) ->
  s.(members) = done ++ zero_member f e :: zrest -> s.(ptr) = bs ++ rest ->
  Z.land s.(Sequence.ctx).(step) 1 = 0 -> s.(bits) = Some pd -> BitIn.wf pd ->
  BitIn.stream pd = (if e.(optional) then [b] else []) ++ bits_rest ->
  exists m s' pd', comp_repr (semm e) m v /\
    root_member ctx edx (opm f e) s = Go s' /\
    progress s s' (size bs) (done ++ m :: zrest) rest /\
    Z.land s'.(Sequence.ctx).(step) 1 = 0 /\ s'.(bits) = Some pd' /\ read_to pd pd' bits_rest.
Proof.
  intros edx Hg Hwk Hwf Hr Hsel Hst Hc Hm Hp Hstep Hbits Hpd Hstream. subst edx.
  unfold root_member. rewrite Hstep. change (ctrue 0) with false. cbv iota. cbn [optional map_type default_value].
  pose proof (fun a s0 pd0 Hv => decode_member_progress f ctx es e vs a bs done zrest rest s s0 pd0 Hg Hwk Hwf Hr
                (eq_ind v (fun v => selected_ok (semm e) v vs = true) Hsel (Some a) Hv) Hst Hm Hp) as Hdec.
  destruct (optional e) eqn:Hopt.
  - rewrite Hbits. cbn [app] in Hstream.
    destruct (read_bit pd b bits_rest Hpd Hstream) as (pd' & -> & Hwf' & Hs' & Hkeep).
    assert (read_to pd pd' bits_rest) as Hrt by done.
    pose proof (optional_component e v b bs Hopt Hc) as Hcomp.
    destruct b; cbn [Z.b2z Z.ltb Z.compare Z.eqb].
    + (* present *)
      destruct Hcomp as (a & -> & Hb).
      edestruct (Hdec a) as (m & s' & H1 & H2 & H3 & H4 & H5); [done|done|..|
        exists m, s', pd'; split; [exact H1|]; split; [exact H2|]; done]; cbn; done.
    + (* absent: left out or DEFAULT *)
      destruct Hcomp as [-> Hv]. pose proof (absent_member f es _ e v Hwf Hopt Hv) as Habs.
      destruct (default_value e); eexists; eexists; exists pd'; (split; [exact Habs|]); (split; [done|]);
        (split; [|split; [apply next_even|done]]).
      * split; [done|done| |exact Hp|cbn; change (size []) with 0; lia]. cbn. rewrite Hm. apply insert_middle.
      * split; [done|done| |exact Hp|cbn; change (size []) with 0; lia]. cbn. by rewrite Hm.
  - (* mandatory *)
    destruct (mandatory_component es _ e v b bs Hwf Hopt Hc) as (-> & a & -> & Hb).
    edestruct (Hdec a (set_ctx s (set_step s.(Sequence.ctx) (Z.lor s.(Sequence.ctx).(step) 1))) pd)
      as (m & s' & H1 & H2 & H3 & H4 & H5); try done.
    exists m, s', pd. split; [exact H1|]. split; [exact H2|]. split; [exact H3|]. split; [exact H4|].
    split; [exact H5|]. cbn [app] in Hstream. rewrite <- Hstream. by apply read_to_refl.
Qed.

(** What the loops need to know about each member. *)
Definition member_ready (f : nat) (es : list tmember) (vs : list (option aval)) (i : nat)
    (e : tmember) (v : option aval) : Prop :=
  good f e.(type) /\ wf_kind (kind e.(type)) (elements e.(type)) = true /\
  wf_member es i e = true /\ selected_ok (semm e) v vs = true.

Lemma repr_members_app es1 es2 ms1 ms2 vs1 vs2 :
  repr_members es1 ms1 vs1 -> repr_members es2 ms2 vs2 ->
  repr_members (es1 ++ es2) (ms1 ++ ms2) (vs1 ++ vs2).
Proof.
  revert ms1 vs1. induction es1 as [|e es1 IH]; intros [|m ms1] [|v vs1] H1 H2; try done.
  destruct H1 as [Hc H1]. split; [done|]. by apply IH.
Qed.

Lemma repr_members_length es ms vs : repr_members es ms vs -> length ms = length es /\ length vs = length es.
Proof.
  revert ms vs. induction es as [|e es IH]; intros [|m ms] [|v vs] H; try done.
  destruct H as [_ H]. apply IH in H as [H1 H2]. cbn. lia.
Qed.

Lemma root_members_ok f ctx es vs : stack_ok ctx ->
  forall es2 vs2 cs2 es1 vs1 es3 vs3 done zrest rest s pd,
  es = es1 ++ es2 ++ es3 -> vs = vs1 ++ vs2 ++ vs3 ->
  (forall i e v, es !! i = Some e -> vs !! i = Some v -> member_ready f es vs i e v) ->
  repr_members (map semm es1) done vs1 ->
  comps (map semm es2) vs2 = Some cs2 ->
  s.(members) = done ++ map (zero_member f) es2 ++ zrest -> s.(ptr) = contents cs2 ++ rest ->
  Z.land s.(Sequence.ctx).(step) 1 = 0 -> s.(bits) = Some pd -> BitIn.wf pd ->
  BitIn.stream pd = optional_bits (map semm es2) cs2 ->
  exists ms s' pd', repr_members (map semm es2) ms vs2 /\
    root_members ctx (length done) (map (opm f) es2) s = Go s' /\
    progress s s' (size (contents cs2)) (done ++ ms ++ zrest) rest /\
    s'.(bits) = Some pd' /\ read_to pd pd' [].
Proof.
  intros Hst es2. induction es2 as [|e es2 IH]; intros vs2 cs2 es1 vs1 es3 vs3 done zrest rest s pd Ees Evs Hrd Hr1 Hc Hm Hp Hstep Hbits Hpd Hstr.
  - destruct vs2; [|done]. injection Hc as <-. exists [], s, pd. split; [done|]. split; [done|].
    split; [|split; [done|pose proof (read_to_refl pd Hpd) as Hrt; by rewrite Hstr in Hrt]].
    split; [done|done|done|done|]. change (size (contents [])) with 0. lia.
  - destruct vs2 as [|v vs2]; [done|]. apply comps_cons in Hc as (b & bs & cs' & Hcb & Hc & ->).
    destruct (repr_members_length _ _ _ Hr1) as [Hl1 Hl2]. rewrite length_map in Hl1, Hl2.
    assert (es !! length done = Some e) as Hes by (rewrite Ees, Hl1; apply lookup_middle).
    assert (vs !! length done = Some v) as Hvs by (rewrite Evs, Hl1, <- Hl2; apply lookup_middle).
    destruct (Hrd _ _ _ Hes Hvs) as (Hg & Hwk & Hwf & Hsel).
    change (optional_bits (map semm (e :: es2)) ((b, bs) :: cs')) with
      ((if optional e then [b] else []) ++ optional_bits (map semm es2) cs') in Hstr.
    change (contents ((b, bs) :: cs')) with (bs ++ contents cs') in *. rewrite <- app_assoc in Hp.
    cbn [map app] in Hm.
    assert (take (length done) es = es1 /\ take (length done) vs = vs1) as [Et1 Et2].
    { rewrite Ees, Evs. split; rewrite take_app_length'; auto; lia. }
    edestruct (root_member_ok f ctx es e vs v b bs done) as (m & s1 & pd1 & Hcr & E1 & Hpg & Hstep1 & Hb1 & Hrt1);
      try done; [by rewrite Et1, Et2|].
    assert (read_to pd pd1 (BitIn.stream pd1)) as Hrt1' by (destruct Hrt1 as (? & ? & ?); done).
    destruct Hrt1 as (Hwf1 & Hstr1 & _).
    edestruct (IH vs2 cs' (es1 ++ [e]) (vs1 ++ [v]) es3 vs3 (done ++ [m]) zrest rest s1 pd1)
      as (ms & s2 & pd2 & Hr2 & E2 & Hpg2 & Hb2 & Hrt2);
      [by rewrite <- !app_assoc|by rewrite <- !app_assoc|done| |done| |by apply (pg_ptr _ _ _ _ _ Hpg)|done|done|done|done|].
    { rewrite map_app. apply repr_members_app; [done|]. done. }
    { rewrite (pg_members _ _ _ _ _ Hpg), <- app_assoc. done. }
    exists (m :: ms), s2, pd2. split; [by cbn|]. split.
    { cbn [map root_members]. rewrite E1. cbn [bind]. rewrite length_app in E2. cbn in E2.
      by rewrite Nat.add_1_r in E2. }
    split; [|split; [done|by eapply read_to_trans]]. destruct Hpg as [P1 P2 P3 P4 P5], Hpg2 as [Q1 Q2 Q3 Q4 Q5].
    split; [congruence|congruence| |done|rewrite size_app; lia].
    rewrite Q3, <- app_assoc. done.
Qed.

Lemma extension_member_ok f ctx es e i v b bs x done zrest rest s pd bits_rest :
  let edx := length done in
  good f e.(type) -> wf_member es i e = true -> e.(optional) = true -> e.(ATF_OPEN_TYPE) = false ->
  stack_ok ctx -> comp_bytes (semm e) v = Some (b, bs) ->
  (if b then with_length bs else Some []) = Some x ->
  s.(members) = done ++ zero_member f e :: zrest -> s.(ptr) = x ++ rest ->
  s.(bits) = Some pd -> BitIn.wf pd -> BitIn.stream pd = b :: bits_rest ->
  exists m s' pd', comp_repr (semm e) m v /\
    extension_member ctx edx (opm f e) s = Go s' /\
    progress s s' (size x) (done ++ m :: zrest) rest /\
    s'.(bits) = Some pd' /\ read_to pd pd' bits_rest.
Proof.
  intros edx Hg Hwf Hopt Hno Hst Hc Hx Hm Hp Hbits Hpd Hstream. subst edx.
  unfold extension_member. rewrite Hbits.
  destruct (read_bit pd b bits_rest Hpd Hstream) as (pd' & -> & Hwf' & Hs' & Hkeep).
  assert (default None (members s !! length done) = zero_member f e) as -> by (by rewrite Hm, lookup_middle).
  pose proof (optional_component e v b bs Hopt Hc) as Hcomp.
  destruct b; cbn [Z.b2z Z.eqb Pos.eqb orb].
  - destruct Hcomp as (a & -> & Hb).
    assert (is_open_type (type e) = false) as Hnot.
    { unfold wf_member in Hwf. rewrite !andb_true_iff in Hwf. destruct Hwf as [[_ Hopen] _].
      apply eqb_prop in Hopen. congruence. }
    cbn [type oer_constraints map_type]. cbn [ptr set_bits]. rewrite Hp.
    destruct (open_type_get_ok _ _ ctx (oer_constraints e) a bs x
                (element_ptr (opm f e) (zero_member f e)) rest (good_dec _ _ Hg Hnot) Hst Hb Hx)
      as (o & -> & Ho); [apply zero_element_ptr|].
    pose proof (with_length_Some _ _ Hx) as [Hle Ex]. pose proof (length_det_pos bs Hle).
    assert (0 < size x) by (rewrite Ex, size_app; pose proof (size_nonneg bs); lia).
    destruct (Z.eqb_spec (size x) OT_UNDEFINED); [unfold OT_UNDEFINED in *; lia|].
    destruct (Z.ltb_spec 0 (size x)); [|lia].
    exists (Some o). eexists. exists pd'. split; [by left; eauto|]. split; [done|].
    split; [|split; [done|done]].
    split; [done|done| | |done]; cbn.
    + rewrite Hm. apply insert_middle.
    + rewrite Hp. by apply zdrop_app.
  - destruct Hcomp as [-> Hv]. injection Hx as <-. cbn [default_value map_type].
    pose proof (absent_member f es i e v Hwf Hopt Hv) as Habs.
    destruct (default_value e); eexists; eexists; exists pd'; (split; [exact Habs|]); (split; [done|]);
      (split; [|done]).
    + split; [done|done| |exact Hp|cbn; change (size []) with 0; lia]. cbn. rewrite Hm. apply insert_middle.
    + split; [done|done| |exact Hp|cbn; change (size []) with 0; lia]. cbn. by rewrite Hm.
Qed.

Lemma extension_members_ok f ctx es : stack_ok ctx ->
  forall es2 vs2 cs2 x done rest s pd,
  good_all f es2 -> Forall extension_ok es2 ->
  Forall (fun e => exists i, wf_member es i e = true) es2 ->
  comps (map semm es2) vs2 = Some cs2 -> wrap_all cs2 = Some x ->
  s.(members) = done ++ map (zero_member f) es2 -> s.(ptr) = x ++ rest ->
  s.(bits) = Some pd -> BitIn.wf pd -> BitIn.stream pd = map fst cs2 ->
  exists ms s' pd', repr_members (map semm es2) ms vs2 /\
    extension_members ctx (length done) (map (opm f) es2) s = Go s' /\
    progress s s' (size x) (done ++ ms) rest /\
    s'.(bits) = Some pd' /\ BitIn.wf pd' /\ BitIn.stream pd' = [].
Proof.
  intros Hst es2. induction es2 as [|e es2 IH]; intros vs2 cs2 x done rest s pd Hg Hopt Hwf Hc Hx Hm Hp Hbits Hpd Hstr.
  - destruct vs2; [|done]. injection Hc as <-. injection Hx as <-. exists [], s, pd.
    split; [done|]. split; [done|]. split; [|done].
    split; [done|done|done|done|]. change (size []) with 0. lia.
  - destruct vs2 as [|v vs2]; [done|]. apply comps_cons in Hc as (b & bs & cs' & Hcb & Hc & ->).
    apply wrap_all_cons in Hx as (y & z & Hy & Hz & ->). rewrite <- app_assoc in Hp.
    apply Forall_cons in Hg as [Hg Hgs], Hopt as [(Ho & Hno & _) Hopts], Hwf as [[i Hwf] Hwfs].
    destruct (extension_member_ok f ctx es e i v b bs y done (map (zero_member f) es2) (z ++ rest) s pd (map fst cs'))
      as (m & s1 & pd1 & Hcr & E1 & Hpg & Hb1 & Hwf1 & Hstr1 & _); auto.
    assert (members s1 = (done ++ [m]) ++ map (zero_member f) es2) as Hm1
      by (by rewrite (pg_members _ _ _ _ _ Hpg), <- app_assoc).
    pose proof (pg_ptr _ _ _ _ _ Hpg) as Hp1.
    destruct (IH vs2 cs' z (done ++ [m]) rest s1 pd1) as (ms & s2 & pd2 & Hr2 & E2 & Hpg2 & Hb2); auto.
    exists (m :: ms), s2, pd2. split; [by cbn|]. split.
    { cbn [map extension_members]. rewrite E1. cbn [bind]. rewrite length_app in E2. cbn in E2.
      by rewrite Nat.add_1_r in E2. }
    split; [|done]. destruct Hpg as [P1 P2 P3 P4 P5], Hpg2 as [Q1 Q2 Q3 Q4 Q5].
    split; [congruence|congruence| |done|rewrite size_app; lia].
    rewrite Q3, <- app_assoc. done.
Qed.

(** * The phases *)

Lemma phase0_ok specs s pre rest :
  size pre = has_extensions_bit specs + specs.(roms_count) -> s.(ptr) = pack pre ++ rest ->
  0 <= specs.(roms_count) ->
  exists pd s', phase0 specs s = Go s' /\
    progress (set_ctx s (NEXT_PHASE s.(Sequence.ctx))) s' (size (pack pre)) s.(members) rest /\
    s'.(Sequence.ctx).(step) = 0 /\ s'.(bits) = Some pd /\ BitIn.wf pd /\
    BitIn.stream pd = drop (Z.to_nat (has_extensions_bit specs)) pre /\
    BitIn.buffer pd = Some (pack pre ++ [0]) /\ BitIn.nbits pd = size pre.
Proof.
  intros Hsz Hp Hroms. unfold phase0. rewrite <- Hsz, Hp, size_app.
  pose proof (pack_size pre) as Hps. pose proof (pad_bits_lt pre). pose proof (size_nonneg rest).
  assert (Z.shiftr (7 + size pre) 3 = size (pack pre)) as ->.
  { rewrite shiftr_3. symmetry. apply (Z.div_unique _ _ _ (7 - Z.of_nat (pad_bits pre))); lia. }
  destruct (Z.ltb_spec (size (pack pre) + size rest) (size (pack pre))); [lia|].
  assert (0 <= has_extensions_bit specs) by (unfold has_extensions_bit; destruct (_ <=? _); lia).
  destruct (new_contiguous_ok (pack pre) (size pre) (has_extensions_bit specs) rest) as (Hwf & Hstr & Hbuf & Hnb);
    [apply pack_bytes|lia| |].
  { apply (Z.div_unique _ _ _ (7 - Z.of_nat (pad_bits pre))); lia. }
  eexists. eexists. split; [done|]. cbv zeta in *.
  split; [|split; [done|split; [done|split; [exact Hwf|split; [|done]]]]].
  - split; [done|done|done| |done]. cbn. rewrite Hp. by apply zdrop_app.
  - rewrite Hstr, pack_bits. f_equal. unfold size. rewrite Nat2Z.id. apply take_app_length.
Qed.

(** The extension bit is the top bit of the preamble. *)
Lemma pack_first he l k : ctrue (Z.land (znth (pack (he :: l) ++ k) 0) 0x80) = he.
Proof.
  pose proof (pack_bits (he :: l)) as H. pose proof (pack_bytes (he :: l)) as Hb.
  destruct (pack (he :: l)) as [|x t]; [done|]. rewrite Forall_cons in Hb. destruct Hb as [Hx _].
  change (znth ((x :: t) ++ k) 0) with x. unfold ctrue. rewrite land_128 by done.
  rewrite bytes_bits_cons in H. apply (f_equal (fun l => hd false l)) in H.
  change (Z.testbit x 7 = he) in H. unfold is_byte in Hx.
  rewrite Z.testbit_odd, Z.shiftr_div_pow2 in H by lia. change (2 ^ 7) with 128 in H.
  rewrite <- H. destruct (Z.ltb_spec x 128).
  - by rewrite Z.div_small by lia.
  - replace (x / 128) with 1; [done|]. apply (Z.div_unique x 128 1 (x - 128)); lia.
Qed.

Lemma phase2_none specs els s pd : s.(bits) = Some pd ->
  (0 <= specs.(first_extension) -> exists b, BitIn.buffer pd = Some b /\ ctrue (Z.land (znth b 0) 0x80) = false) ->
  exists s', phase2 specs els s = Stop (RETURN RC_OK s.(consumed_myself)) s' /\ s'.(members) = s.(members).
Proof.
  intros Hb Hx. unfold phase2. rewrite Hb. unfold has_extensions_bit.
  destruct (Z.leb_spec 0 (first_extension specs)) as [Hpos|].
  - destruct (Hx Hpos) as (b & -> & ->). cbn [ctrue negb Z.eqb andb]. eexists. split; done.
  - cbn [ctrue negb Z.eqb andb]. eexists. split; done.
Qed.

Lemma phase2_ext specs els s pd b l rest : s.(bits) = Some pd -> 0 <= specs.(first_extension) ->
  BitIn.buffer pd = Some b -> ctrue (Z.land (znth b 0) 0x80) = true ->
  l <> [] -> size l <= 1000 ->
  s.(ptr) = (1 + size (pack l)) :: Z.of_nat (pad_bits l) :: pack l ++ rest ->
  exists s' pd', phase2 specs els s = Go s' /\
    progress (set_ctx s (NEXT_PHASE s.(Sequence.ctx))) s' (2 + size (pack l)) s.(members) rest /\
    s'.(Sequence.ctx).(step) = root_count specs els /\
    s'.(bits) = Some pd' /\ BitIn.wf pd' /\ BitIn.stream pd' = l.
Proof.
  intros Hb Hpos Hbuf Hbit Hne Hl Hp. unfold phase2. rewrite Hb. unfold has_extensions_bit.
  destruct (Z.leb_spec 0 (first_extension specs)); [|lia]. rewrite Hbuf, Hbit.
  cbn [ctrue negb Z.eqb andb]. cbn [ptr set_bits].
  pose proof (pack_size l) as Hps. pose proof (pad_bits_lt l) as Hpl.
  pose proof (size_nonneg (pack l)). pose proof (size_nonneg rest).
  assert (0 < size l) by (destruct l; [done|rewrite size_cons; pose proof (size_nonneg l); lia]).
  assert (oer_fetch_length (ptr s) = (1, 1 + size (pack l))) as ->.
  { rewrite Hp. unfold oer_fetch_length. rewrite land_128 by (unfold is_byte; lia).
    by destruct (Z.ltb_spec (1 + size (pack l)) 128); [|lia]. }
  cbn [Z.eqb Z.ltb Z.compare Pos.compare]. unfold ADVANCE. cbn [ptr set_bits Sequence.bits members Sequence.ctx consumed_myself].
  rewrite Hp, zdrop_1_cons. destruct (Z.eqb_spec (1 + size (pack l)) 0); [lia|].
  rewrite size_cons, size_app.
  destruct (Z.ltb_spec (1 + (size (pack l) + size rest)) (1 + size (pack l))); [lia|].
  change (znth (?x :: _) 0) with x. rewrite Z.land_comm, land_7, Z.mod_small by lia.
  rewrite zdrop_1_cons. replace (1 + size (pack l) - 1) with (size (pack l)) by lia.
  destruct (Z.eqb_spec (size (pack l)) 0); [lia|]. rewrite andb_false_r.
  replace (size (pack l) * 8 - Z.of_nat (pad_bits l)) with (size l) by lia.
  destruct (new_contiguous_ok (pack l) (size l) 0 rest) as (Hwf & Hstr & _ & _);
    [apply pack_bytes|lia| |].
  { apply (Z.div_unique _ _ _ (7 - Z.of_nat (pad_bits l))); lia. }
  eexists. eexists. split; [done|].
  split; [|split; [done|split; [done|split; [exact Hwf|]]]].
  - split; [done|done|done| |].
    + cbn. by apply zdrop_app.
    + cbn. lia.
  - change (BitIn.stream (BitIn.asn_bit_data_new_contiguous (pack l ++ rest) (size l))) with
      (BitIn.stream {| BitIn.buffer := BitIn.buffer (BitIn.asn_bit_data_new_contiguous (pack l ++ rest) (size l));
                       BitIn.nboff := 0; BitIn.nbits := size l; BitIn.moved := 0 |}).
    cbv zeta in Hstr. etransitivity; [exact Hstr|]. rewrite pack_bits, drop_0.
    unfold size. rewrite Nat2Z.id. apply take_app_length.
Qed.

Lemma phase4_ok s pd : s.(bits) = Some pd -> BitIn.wf pd -> BitIn.stream pd = [] ->
  exists s', phase4 s = Stop (RETURN RC_OK s.(consumed_myself)) s' /\ s'.(members) = s.(members).
Proof.
  intros Hb Hwf Hs. unfold phase4. cbn [skip_rest]. rewrite Hb, read_no_bit by done.
  cbn [Z.eqb]. eexists. split; done.
Qed.

Lemma selected_all es vs i e v : forallb (fun p => selected_ok p.1 p.2 vs) (zip (map semm es) vs) = true ->
  es !! i = Some e -> vs !! i = Some v -> selected_ok (semm e) v vs = true.
Proof.
  intros H He Hv. rewrite forallb_forall in H. apply (H (semm e, v)).
  apply list_elem_of_In, list_elem_of_lookup. exists i.
  rewrite lookup_zip_with, lookup_map, He. cbn. by rewrite Hv.
Qed.

Lemma map_fst_existsb (cs : list (bool * bytes)) : existsb fst cs = true -> map fst cs <> [].
Proof. by destruct cs. Qed.

Lemma map_zero_split f k es : map (zero_member f) es = map (zero_member f) (take k es) ++ map (zero_member f) (drop k es).
Proof. by rewrite <- map_app, take_drop. Qed.

(** Extension additions none of which is encoded. *)
Lemma absent_tail f es : forall vs cs, Forall extension_ok es -> comps (map semm es) vs = Some cs ->
  existsb fst cs = false -> repr_members (map semm es) (map (zero_member f) es) vs.
Proof.
  induction es as [|e es IH]; intros [|v vs] cs Hx Hc Hn; try done.
  apply comps_cons in Hc as (b & bs & cs' & Hcb & Hc & ->). cbn [existsb fst] in Hn.
  apply orb_false_iff in Hn as [-> Hn]. apply Forall_cons in Hx as [(Ho & _ & Hp) Hx].
  destruct (optional_component e v false bs Ho Hcb) as [_ Hv].
  cbn [map repr_members]. split; [|by eapply IH]. unfold zero_member. rewrite Hp.
  destruct (default_value e) as [d|] eqn:Hd; subst v; [|done].
  right. split; [done|]. split; [done|]. split; [done|]. exists d. split; [exact Hd|done].
Qed.

(** The phases in sequence on the encoding of a value. *)
Lemma comps_length es : forall vs cs, comps es vs = Some cs -> length cs = length es /\ length vs = length es.
Proof.
  induction es as [|e es IH]; intros [|v vs] cs H; try done; [by injection H as <-|].
  apply comps_cons in H as (b & bs & cs' & _ & H & ->). apply IH in H as [H1 H2]. cbn. lia.
Qed.

(** The parts of an encoding: preamble, root components, extension additions. *)
Definition preamble_bits (specs : asn_SEQUENCE_specifics) (es : list tmember) (k : nat) (cs : list (bool * bytes)) : list bool :=
  (if specs.(first_extension) <? 0 then [] else [existsb fst (drop k cs)]) ++
  optional_bits (map semm (take k es)) (take k cs).

Definition extension_bytes (cs : list (bool * bytes)) : option bytes :=
  if existsb fst cs then
    match wrap_all cs with
    | Some x => Some ((1 + size (pack (map fst cs))) :: Z.of_nat (pad_bits (map fst cs)) :: pack (map fst cs) ++ x)
    | None => None
    end
  else Some [].

Lemma seq_bytes_split specs es k vs bs : wf_seq specs es k -> seq_bytes specs (map semm es) vs = Some bs ->
  forallb (fun p => selected_ok p.1 p.2 vs) (zip (map semm es) vs) = true /\
  exists cs tl, comps (map semm es) vs = Some cs /\ extension_bytes (drop k cs) = Some tl /\
    bs = pack (preamble_bits specs es k cs) ++ contents (take k cs) ++ tl.
Proof.
  intros Hw Hb. unfold seq_bytes in Hb. destruct (forallb _ _); [|done]. split; [done|].
  destruct (comps _ vs) as [cs|]; [|done]. rewrite length_map in Hb. rewrite <- (ws_k _ _ _ Hw), firstn_map in Hb.
  exists cs. unfold extension_bytes, preamble_bits. destruct (existsb fst (drop k cs)).
  - destruct (wrap_all (drop k cs)) as [x|]; [|done]. injection Hb as <-. eexists. split; [done|]. split; [done|].
    by rewrite <- app_assoc.
  - injection Hb as <-. exists []. split; [done|]. split; [done|]. by rewrite app_nil_r.
Qed.

Lemma preamble_size specs es k vs cs : wf_seq specs es k -> comps (map semm es) vs = Some cs ->
  size (preamble_bits specs es k cs) = has_extensions_bit specs + roms_count specs.
Proof.
  intros Hw Hc. destruct (comps_split k _ _ _ Hc) as [Hc1 _]. rewrite firstn_map in Hc1.
  destruct (comps_length _ _ _ Hc1) as [Hl1 _]. rewrite length_map in Hl1.
  unfold preamble_bits, has_extensions_bit. rewrite size_app, optional_bits_size, (ws_roms _ _ _ Hw) by done.
  destruct (Z.ltb_spec (first_extension specs) 0), (Z.leb_spec 0 (first_extension specs)); try lia; done.
Qed.

(** Phases 2 to 4, from the end of the root components. *)
Section Tail.
Context (f : nat) (specs : asn_SEQUENCE_specifics) (es : list tmember) (k : nat) (ctx : asn_codec_ctx).
Context (vs : list (option aval)) (cs : list (bool * bytes)) (ms1 : list (option obj)) (pd : BitIn.asn_bit_data).
Context (tl rest b : bytes) (s : state).
Context (Hw : wf_seq specs es k) (Hg : good_all f es) (Hst : stack_ok ctx).
Context (Hc : comps (map semm es) vs = Some cs) (Htl : extension_bytes (drop k cs) = Some tl).
Context (Hbits : s.(bits) = Some pd) (Hptr : s.(ptr) = tl ++ rest).
Context (Hext : 0 <= specs.(first_extension) ->
  BitIn.buffer pd = Some b /\ ctrue (Z.land (znth b 0) 0x80) = existsb fst (drop k cs)).
Context (Hr1 : repr_members (map semm (take k es)) ms1 (take k vs)).
Context (Hm : s.(members) = ms1 ++ map (zero_member f) (drop k es)).

Definition tail_done : Prop :=
  exists s', bind (bind (phase2 specs (map (opm f) es) s) (phase3 (map (opm f) es) ctx)) phase4 =
      Stop (ok (s.(consumed_myself) + size tl)) s' /\
    repr_members (map semm es) s'.(members) vs.

Lemma repr_both ms2 : repr_members (map semm (drop k es)) ms2 (drop k vs) ->
  repr_members (map semm es) (ms1 ++ ms2) vs.
Proof.
  intros Hr2. rewrite <- (take_drop k es), <- (take_drop k vs), map_app. by apply repr_members_app.
Qed.

Lemma tail_absent : existsb fst (drop k cs) = false -> tail_done.
Proof.
  intros Hhe. destruct (comps_split k _ _ _ Hc) as [_ Hc2]. rewrite skipn_map in Hc2.
  unfold extension_bytes in Htl. rewrite Hhe in Htl. apply (inj Some) in Htl as Etl.
  destruct (phase2_none specs (map (opm f) es) s pd Hbits) as (s3 & E3 & Hm3).
  { intros Hpos. destruct (Hext Hpos) as [-> Hbit]. rewrite Hhe in Hbit. eauto. }
  unfold tail_done. rewrite E3. cbn [bind]. exists s3. split.
  - rewrite <- Etl. change (size []) with 0. by rewrite Z.add_0_r.
  - rewrite Hm3, Hm. apply repr_both. by apply (absent_tail f _ _ _ (ws_exts _ _ _ Hw) Hc2).
Qed.

(** Extensions can only be present in an extensible type. *)
Lemma present_extensible : existsb fst (drop k cs) = true -> 0 <= specs.(first_extension).
Proof.
  intros Hhe. destruct (Z.lt_ge_cases (first_extension specs) 0); [|lia].
  rewrite (drop_ge cs) in Hhe; [done|]. destruct (comps_length _ _ _ Hc) as [Hl _]. rewrite length_map in Hl.
  rewrite (ws_k _ _ _ Hw). destruct (Z.ltb_spec (first_extension specs) 0); lia.
Qed.

Lemma tail_present : existsb fst (drop k cs) = true -> tail_done.
Proof.
  intros Hhe. pose proof (present_extensible Hhe) as Hpos. destruct (comps_split k _ _ _ Hc) as [_ Hc2]. rewrite skipn_map in Hc2.
  unfold extension_bytes in Htl. rewrite Hhe in Htl. destruct (wrap_all (drop k cs)) as [x|] eqn:Hx; [|done].
  apply (inj Some) in Htl as Etl. destruct (Hext Hpos) as [Hbuf Hbit]. rewrite Hhe in Hbit. destruct (ws_ext _ _ _ Hw Hpos) as (_ & Ha & Ha').
  destruct (comps_length _ _ _ Hc2) as [Hl2 _]. rewrite length_map in Hl2.
  edestruct (phase2_ext specs (map (opm f) es) s pd b (map fst (drop k cs)) (x ++ rest))
    as (s3 & pd3 & E3 & Hpg3 & Hstep3 & Hb3 & Hwf3 & Hstr3);
    [done|done|exact Hbuf|exact Hbit|by apply map_fst_existsb| | |].
  { unfold size in *. rewrite length_map. lia. }
  { rewrite Hptr, <- Etl. cbn [app]. by rewrite <- app_assoc. }
  unfold tail_done. rewrite E3. cbn [bind]. unfold phase3. rewrite Hstep3, (root_count_k f _ _ _ Hw), Nat2Z.id, skipn_map.
  assert (length ms1 = k) as Hms1.
  { apply repr_members_length in Hr1 as [-> _]. rewrite length_map, length_take. pose proof (ws_le _ _ _ Hw). lia. }
  edestruct (extension_members_ok f ctx es Hst (drop k es) (drop k vs) (drop k cs) x ms1 rest s3 pd3)
    as (ms2 & s4 & pd4 & Hr2 & E4 & Hpg4 & Hb4 & Hwf4 & Hstr4); auto.
  { by apply Forall_drop. }
  { apply (ws_exts _ _ _ Hw). }
  { apply Forall_lookup. intros i e Hi. rewrite lookup_drop in Hi. exists (k + i)%nat. by apply (ws_member _ _ _ Hw). }
  { by rewrite (pg_members _ _ _ _ _ Hpg3). }
  { apply (pg_ptr _ _ _ _ _ Hpg3). }
  rewrite Hms1 in E4. rewrite E4. cbn [bind].
  destruct (phase4_ok (set_ctx s4 (NEXT_PHASE (Sequence.ctx s4))) pd4 Hb4 Hwf4 Hstr4) as (s5 & -> & Hm5).
  exists s5. split.
  - f_equal. unfold ok, RETURN. f_equal. cbn [consumed_myself set_ctx].
    pose proof (pg_consumed _ _ _ _ _ Hpg3) as Hcm3. pose proof (pg_consumed _ _ _ _ _ Hpg4) as Hcm4.
    cbn [consumed_myself set_ctx] in Hcm3. rewrite <- Etl, !size_cons, size_app. lia.
  - rewrite Hm5. cbn [members set_ctx]. rewrite (pg_members _ _ _ _ _ Hpg4). by apply repr_both.
Qed.

End Tail.

(** Phase 1, from the beginning of the root components. *)
Lemma phase1_ok f specs es k ctx vs cs rest s pd :
  wf_seq specs es k -> good_all f es ->
  Forall (fun e : tmember => wf_kind (kind e.(type)) (elements e.(type)) = true) es -> stack_ok ctx ->
  forallb (fun p => selected_ok p.1 p.2 vs) (zip (map semm es) vs) = true -> comps (map semm es) vs = Some cs ->
  s.(Sequence.ctx).(step) = 0 -> s.(bits) = Some pd -> BitIn.wf pd ->
  BitIn.stream pd = optional_bits (map semm (take k es)) (take k cs) ->
  s.(members) = map (zero_member f) es -> s.(ptr) = contents (take k cs) ++ rest ->
  exists ms1 s' pd', phase1 specs (map (opm f) es) ctx s = Go s' /\ repr_members (map semm (take k es)) ms1 (take k vs) /\
    s'.(members) = ms1 ++ map (zero_member f) (drop k es) /\ s'.(ptr) = rest /\
    s'.(consumed_myself) = s.(consumed_myself) + size (contents (take k cs)) /\
    s'.(bits) = Some pd' /\ read_to pd pd' [].
Proof.
  intros Hw Hg Hwk Hst Hsel Hc Hstep Hb Hwf Hstr Hm Hp.
  destruct (comps_split k _ _ _ Hc) as [Hc1 _]. rewrite firstn_map in Hc1.
  unfold phase1. rewrite Hb, Hstep. cbv zeta. change (Z.to_nat (Z.shiftr 0 1)) with (length (@nil (option obj))).
  unfold ztake. rewrite (root_count_k f _ _ _ Hw), Nat2Z.id, firstn_map.
  change (drop (length (@nil (option obj))) ?l) with l.
  edestruct (root_members_ok f ctx es vs Hst (take k es) (take k vs) (take k cs) [] [] (drop k es) (drop k vs)
               [] (map (zero_member f) (drop k es)) rest s pd)
    as (ms1 & s2 & pd2 & Hr1 & E2 & Hpg2 & Hb2 & Hrd);
    [by rewrite app_nil_l, take_drop|by rewrite app_nil_l, take_drop| |done|done| |done|by rewrite Hstep|done|done|done|].
  { intros i e v He Hv. rewrite Forall_lookup in Hg, Hwk. split; [by apply (Hg i)|]. split; [by apply (Hwk i)|].
    split; [by apply (ws_member _ _ _ Hw)|by eapply selected_all]. }
  { rewrite Hm. cbn [app]. apply map_zero_split. }
  rewrite E2. cbn [bind]. eexists ms1, _, pd2. split; [done|]. split; [done|].
  split; [exact (pg_members _ _ _ _ _ Hpg2)|]. split; [exact (pg_ptr _ _ _ _ _ Hpg2)|].
  split; [exact (pg_consumed _ _ _ _ _ Hpg2)|]. by split.
Qed.

Lemma run_phases_ok f specs es k ctx vs bs rest s :
  wf_seq specs es k -> good_all f es ->
  Forall (fun e : tmember => wf_kind (kind e.(type)) (elements e.(type)) = true) es ->
  stack_ok ctx -> seq_bytes specs (map semm es) vs = Some bs ->
  s = {| Sequence.ctx := ctx_zero; bits := None; members := map (zero_member f) es;
         ptr := bs ++ rest; consumed_myself := 0 |} ->
  exists s', run_phases specs (map (opm f) es) ctx s = Stop (ok (size bs)) s' /\
    repr_members (map semm es) s'.(members) vs.
Proof.
  intros Hw Hg Hwk Hst Hb Hs. apply (seq_bytes_split _ _ _ _ _ Hw) in Hb as (Hsel & cs & tl & Hc & Htl & ->).
  pose proof (preamble_size _ _ _ _ _ Hw Hc) as Hpre. set (pre := preamble_bits specs es k cs) in *.
  assert (0 <= roms_count specs) as Hroms by (rewrite (ws_roms _ _ _ Hw); apply size_nonneg).
  unfold run_phases. replace (phase s.(Sequence.ctx)) with 0 by (by subst s). cbn [Z.eqb].
  destruct (phase0_ok specs s pre (contents (take k cs) ++ tl ++ rest) Hpre) as
    (pd & s1 & E1 & Hpg1 & Hstep1 & Hb1 & Hwf1 & Hstr1 & Hbuf1 & Hnb1); [by subst s; cbn; rewrite <- !app_assoc|done|].
  rewrite E1. cbn [bind].
  destruct (phase1_ok f specs es k ctx vs cs (tl ++ rest) s1 pd) as
    (ms1 & s2 & pd2 & E2 & Hr1 & Hm2 & Hp2 & Hn2 & Hb2 & Hwf2 & _ & Hkeep); auto.
  { rewrite Hstr1. unfold pre, preamble_bits, has_extensions_bit.
    destruct (Z.ltb_spec (first_extension specs) 0), (Z.leb_spec 0 (first_extension specs)); try lia; done. }
  { rewrite (pg_members _ _ _ _ _ Hpg1). by subst s. }
  { apply (pg_ptr _ _ _ _ _ Hpg1). }
  rewrite E2. cbn [bind].
  assert (tail_done f specs es ctx vs tl s2) as (s3 & E3 & Hr3).
  { assert (0 <= first_extension specs -> BitIn.buffer pd2 = Some (pack pre ++ [0]) /\
              ctrue (Z.land (znth (pack pre ++ [0]) 0) 0x80) = existsb fst (drop k cs)) as Hext.
    { intros Hpos. destruct (ws_ext _ _ _ Hw Hpos) as (H7 & _ & _).
      destruct Hkeep as [_ ->]; [rewrite Hnb1, Hpre; unfold has_extensions_bit; destruct (_ <=? _); lia|].
      split; [done|]. unfold pre, preamble_bits. destruct (Z.ltb_spec (first_extension specs) 0); [lia|]. apply pack_first. }
    destruct (decide (existsb fst (drop k cs) = true)) as [Hhe|Hhe%not_true_is_false];
      [by eapply tail_present|by eapply tail_absent]. }
  exists s3. split; [|done]. rewrite E3. f_equal. unfold ok, RETURN. f_equal. pose proof (pg_consumed _ _ _ _ _ Hpg1) as Hn1.
  rewrite Hn2, Hn1. subst s. cbn [consumed_myself set_ctx]. rewrite !size_app. lia.
Qed.

Lemma seq_decode_ok f specs es k ctx c a bs p rest :
  wf_seq specs es k -> good_all f es ->
  Forall (fun e : tmember => wf_kind (kind e.(type)) (elements e.(type)) = true) es ->
  stack_ok ctx -> (sp_sequence specs (map semm es)).(sp_bytes) c a = Some bs ->
  p = None \/ p = Some (O_SEQ ctx_zero None (zero_members (map (opm f) es))) ->
  exists o, SEQUENCE_decode_oer specs (map (opm f) es) ctx c p (bs ++ rest) = (ok (size bs), Some o) /\
    (sp_sequence specs (map semm es)).(sp_repr) o a.
Proof.
  intros Hw Hg Hwk Hst Hb Hp. destruct a as [| | | | |vs| |]; try done. cbn [sp_bytes sp_sequence] in Hb.
  unfold SEQUENCE_decode_oer. rewrite stack_ok_check by done.
  assert (match p with Some (O_SEQ c b ms) => (c, b, ms) | _ => (ctx_zero, None, zero_members (map (opm f) es)) end
          = (ctx_zero, None, map (zero_member f) es)) as ->.
  { rewrite zero_members_map in *. destruct Hp as [-> | ->]; done. }
  destruct (run_phases_ok f specs es k ctx vs bs rest _ Hw Hg Hwk Hst Hb eq_refl) as (s & -> & Hr).
  eexists. split; [done|exact Hr].
Qed.
