(* ===== verification/OerCodecOk.v ===== *)
(** Every well-formed descriptor is implemented by its codec.

    Contracts of CHOICE, SET OF, open types and the primitive types, and the
    structural induction that ties them together: [codec_ok]. *)

From stdpp Require Import prelude strings.
From S2P Require Import Prelude Codecs BitData Integer Descriptor OerSupport OerPrim.
From S2P Require Import OerSpec OerPrimOk OerConstr OerSem OerCodec OerSeqOk.

(** * CHOICE *)

Record wf_choice (specs : asn_CHOICE_specifics) (es : list tmember) : Prop := {
  wc_member i e : es !! i = Some e ->
    wf_tag e = true /\ 0 < e.(tag) < 512 /\ is_open_type e.(type) = false /\
    exists t2m, find_tag e.(tag) specs.(tag2el) = Some t2m /\ t2m.(el_no) = Z.of_nat i;
}.

Lemma wf_kind_choice specs es : wf_kind (CHOICE specs) es = true -> wf_choice specs es.
Proof.
  intros H. cbn [wf_kind] in H. rewrite forallb_forall in H. split. intros i e Hi.
  specialize (H (i, e)). cbn [fst snd] in H. rewrite !andb_true_iff, negb_true_iff, !Z.ltb_lt in H.
  destruct H as [[[[H1 H2] H3] H4] H5].
  { apply list_elem_of_In, list_elem_of_lookup. exists i. by rewrite list_lookup_imap, Hi. }
  repeat split; auto. destruct (find_tag _ _) as [t2m|]; [|done]. exists t2m. split; [done|]. by apply Z.eqb_eq.
Qed.

Lemma wf_tag_ok f e sptr : wf_tag e = true ->
  asn_TYPE_outmost_tag (op f e.(type)) sptr e.(tag_mode) e.(tag) = e.(tag).
Proof.
  unfold wf_tag, asn_TYPE_outmost_tag. destruct (ctrue e.(tag_mode)); [done|]. cbn [orb].
  destruct e.(type) as [n k ts c es]. cbn [td_tags op op_tags]. destruct ts; [done|]. by intros ?%Z.eqb_eq.
Qed.

Lemma tag_value_small t : 0 < t < 512 -> 0 <= BER_TAG_VALUE t < 128.
Proof.
  intros. unfold BER_TAG_VALUE. rewrite Z.shiftr_div_pow2 by lia. change (2 ^ 2) with 4.
  split; [apply Z.div_pos; lia|apply Z.div_lt_upper_bound; lia].
Qed.

(** The alternative chosen in an abstract value. *)
Lemma choice_bytes_inv specs es i v c bs :
  (sp_choice specs (map semm es)).(sp_bytes) c (A_CHOICE i v) = Some bs ->
  exists e bs' x, es !! i = Some e /\ (sem e.(type)).(sp_bytes) e.(oer_constraints) v = Some bs' /\
    (if (0 <=? specs.(ext_start)) && (specs.(ext_start) <=? Z.of_nat i) then with_length bs' else Some bs') = Some x /\
    bs = tag_det e.(tag) ++ x.
Proof.
  cbn [sp_bytes sp_choice]. intros H. apply bind_Some in H as (se & Hse & H).
  apply lookup_map_Some in Hse as (e & -> & He). apply bind_Some in H as (bs' & Hbs & H).
  apply bind_Some in H as (x & Hx & [= <-]). exists e, bs', x. done.
Qed.

Lemma choice_encode_ok f name specs es c o a bs : wf_choice specs es -> good_all f es ->
  (sp_choice specs (map semm es)).(sp_repr) o a -> (sp_choice specs (map semm es)).(sp_bytes) c a = Some bs ->
  emits (Choice.CHOICE_encode_oer name specs (map (opm f) es) c (Some o)) (ASN__ENCODED_OK (size bs)) bs.
Proof.
  intros Hw Hg Hr Hb. destruct o as [| | | | | |ct p m|], a as [| | | | | |i av|]; try done.
  cbn [sp_repr sp_choice repr_choice] in Hr. destruct Hr as [-> (se & o & Hse & -> & Hro)].
  apply choice_bytes_inv in Hb as (e & bs' & x & He & Hbs & Hx & ->).
  apply lookup_map_Some in Hse as (e' & -> & He'). rewrite He in He'. injection He' as <-.
  cbn [type map_type] in Hro. unfold Choice.CHOICE_encode_oer. cbn [CHOICE_variant_get_presence].
  pose proof (lookup_lt_Some _ _ _ He) as Hlt. destruct (Z.eqb_spec (Z.of_nat i + 1) 0); [lia|].
  destruct (Z.ltb_spec (size (map (opm f) es)) (Z.of_nat i + 1)) as [Hbad|_];
    [unfold size in Hbad; rewrite length_map in Hbad; lia|]. cbn [orb].
  replace (Z.to_nat (Z.of_nat i + 1 - 1)) with i by lia. rewrite lookup_map, He. cbn [fmap option_fmap option_map].
  assert (element_ptr (opm f e) (Some o) = Some o) as -> by (unfold element_ptr; by destruct (ATF_POINTER _)).
  destruct (wc_member _ _ Hw _ _ He) as (Htm & Htg & _ & _). pose proof (tag_value_small _ Htg) as Htv.
  cbn [tag_mode tag map_type type oer_constraints]. rewrite wf_tag_ok by done. cbv zeta.
  destruct (Z.eqb_spec (tag e) 0); [lia|]. pose proof (size_tag_det (tag e)).
  eapply emits_bind; [by apply tag_det_emits|]. cbv beta. destruct (Z.ltb_spec (size (tag_det (tag e))) 0); [lia|].
  rewrite Forall_lookup in Hg. pose proof (good_enc _ _ (Hg _ _ He)) as Henc.
  replace (Z.of_nat i + 1 - 1) with (Z.of_nat i) by lia. destruct (_ && _).
  - eapply emits_bind_last; [by eapply open_type_put_ok|]. cbv beta. pose proof (size_nonneg x).
    destruct (Z.ltb_spec (size x) 0); [lia|]. by rewrite size_app.
  - injection Hx as <-. destruct (Henc _ _ _ _ Hro Hbs) as (en & -> & Hen).
    eapply emits_bind_last; [exact Hen|]. cbn [encoded ASN__ENCODED_OK failed_type].
    pose proof (size_nonneg bs'). destruct (Z.leb_spec 0 (size bs')); [|lia]. rewrite size_app, Z.add_comm. done.
Qed.

Lemma choice_decode_ok f specs es ctx c a bs p rest : wf_choice specs es -> good_all f es -> stack_ok ctx ->
  (sp_choice specs (map semm es)).(sp_bytes) c a = Some bs ->
  p = None \/ p = Some (O_CHOICE ctx_zero 0 None) ->
  exists o, Choice.CHOICE_decode_oer specs (map (opm f) es) ctx c p (bs ++ rest) = (ok (size bs), Some o) /\
    (sp_choice specs (map semm es)).(sp_repr) o a.
Proof.
  intros Hw Hg Hst Hb Hp. destruct a as [| | | | | |i v|]; try done.
  apply choice_bytes_inv in Hb as (e & bs' & x & He & Hbs & Hx & ->).
  unfold Choice.CHOICE_decode_oer.
  assert (match p with Some (O_CHOICE c p m) => (c, p, m) | _ => (ctx_zero, 0, None) end = (ctx_zero, 0, None)) as ->
    by (by destruct Hp as [-> | ->]).
  destruct (wc_member _ _ Hw _ _ He) as (Htm & Htg & Hno & t2m & Hfind & Hno'). pose proof (tag_value_small _ Htg) as Htv.
  pose proof (size_tag_det (tag e)).
  cbn [phase ctx_zero Z.eqb]. rewrite <- app_assoc, fetch_tag_det by done.
  destruct (Z.eqb_spec (size (tag_det (tag e))) 0); [lia|]. destruct (Z.eqb_spec (size (tag_det (tag e))) (-1)); [lia|].
  rewrite Hfind, Hno', zdrop_app by done. unfold Choice.CHOICE_decode_member.
  cbn [step set_step NEXT_PHASE]. rewrite Nat2Z.id, lookup_map, He. cbn [fmap option_fmap option_map].
  pose proof (lookup_lt_Some _ _ _ He) as Hlt. unfold CHOICE_variant_set_presence.
  destruct (Z.ltb_spec (size (map (opm f) es)) (Z.of_nat i + 1)) as [Hbad|_];
    [unfold size in Hbad; rewrite length_map in Hbad; lia|].
  destruct (Z.eqb_spec (Z.of_nat i + 1) 0); [lia|]. change (ctrue 0) with false.
  cbv iota. cbn [from_option id step set_step NEXT_PHASE type oer_constraints map_type].
  assert (let q := element_ptr (opm f e) None in q = None \/ q = Some (op_zero (op f (type e)))) as Hq.
  { unfold element_ptr. cbn [ATF_POINTER map_type type]. destruct (ATF_POINTER e); auto. }
  rewrite Forall_lookup in Hg. pose proof (good_dec _ _ (Hg _ _ He) Hno) as Hdec.
  assert (forall ct o, repr_choice (map semm es) (O_CHOICE ct (Z.of_nat i + 1) (Some o)) (A_CHOICE i v) <->
                       (sem (type e)).(sp_repr) o v) as Hrepr.
  { intros ct o. cbn [repr_choice]. split.
    - intros [_ (e' & o' & He' & [= <-] & Ho)]. rewrite lookup_map, He in He'. by injection He' as <-.
    - intros Ho. split; [done|]. exists (semm e), o. by rewrite lookup_map, He. }
  rewrite size_app. destruct (_ && _).
  - destruct (open_type_get_ok _ _ ctx _ v bs' x _ rest Hdec Hst Hbs Hx Hq) as (o & -> & Ho).
    pose proof (with_length_Some _ _ Hx) as [Hle Ex]. pose proof (length_det_pos bs' Hle).
    assert (0 < size x) by (rewrite Ex, size_app; pose proof (size_nonneg bs'); lia).
    destruct (Z.eqb_spec (size x) OT_UNDEFINED); [unfold OT_UNDEFINED in *; lia|].
    destruct (Z.ltb_spec (size x) 0); [lia|]. destruct (Z.eqb_spec (size x) 0); [lia|].
    eexists. split; [unfold ok; do 2 f_equal; lia|]. by apply Hrepr.
  - injection Hx as <-. 
    destruct (Hdec (nested ctx) (oer_constraints e) v bs' _ rest (stack_ok_nested _ Hst) Hbs Hq) as (d & o & -> & -> & Ho).
    cbn [code consumed ok RETURN]. eexists. split; [unfold ok, RETURN; do 2 f_equal; lia|]. by apply Hrepr.
Qed.

(** * SET OF and SEQUENCE OF *)

Lemma encode_elements_ok f e : good f e.(type) -> forall array l bss n,
  Forall2 (fun m v => exists o, m = Some o /\ (sem e.(type)).(sp_repr) o v) array l ->
  Forall2 (fun v bs => (sem e.(type)).(sp_bytes) e.(oer_constraints) v = Some bs) l bss ->
  emits (SetOf.encode_elements (opm f e) array n) (ASN__ENCODED_OK (n + size (concat bss))) (concat bss).
Proof.
  intros Hg.
  intros array. induction array as [|m array IH]; intros l bss n Hr Hb.
  - inv Hr. inv Hb. change (size (concat [])) with 0. rewrite Z.add_0_r. constructor.
  - inv Hr. inv Hb. match goal with H : exists o, _ |- _ => destruct H as (o & -> & Ho) end.
    cbn [SetOf.encode_elements type map_type oer_constraints concat].
    match goal with Hb : sp_bytes _ _ _ = Some _ |- _ => destruct (good_enc _ _ Hg _ _ _ _ Ho Hb) as (en & -> & Hen) end.
    eapply emits_bind; [exact Hen|]. cbn [encoded ASN__ENCODED_OK].
    match goal with |- context [size ?b <? 0] => pose proof (size_nonneg b); destruct (Z.ltb_spec (size b) 0); [lia|] end.
    rewrite size_app, Z.add_assoc. by eapply IH.
Qed.

Lemma set_of_encode_ok f name e c o a bs : good f e.(type) ->
  (sp_set_of (semm e)).(sp_repr) o a -> (sp_set_of (semm e)).(sp_bytes) c a = Some bs ->
  emits (SetOf.SET_OF_encode_oer name (opm f e) c (Some o)) (ASN__ENCODED_OK (size bs)) bs.
Proof.
  intros Hg Hr Hb. destruct o as [| | | | | | |ct p array], a as [| | | | | | |l]; try done.
  cbn [sp_repr sp_set_of type map_type] in Hr. cbn [sp_bytes sp_set_of type map_type oer_constraints] in Hb.
  apply bind_Some in Hb as (bss & Hm & Hb). apply mapM_Some in Hm.
  destruct (Z.ltb_spec (size l) (2 ^ 31)); [|done]. destruct (no_bomb bss); [|done].
  apply (inj Some) in Hb as <-.
  cbn [SetOf.SET_OF_encode_oer]. assert (size array = size l) as -> by (unfold size; by rewrite (Forall2_length _ _ _ Hr)).
  pose proof (size_nonneg l).
  eapply emits_bind; [apply quantity_det_emits; lia|]. cbv beta. pose proof (size_nonneg (quantity_det (size l))).
  destruct (Z.ltb_spec (size (quantity_det (size l))) 0); [lia|]. rewrite size_app.
  by eapply encode_elements_ok.
Qed.

Lemma concat_empty (bss : list bytes) : size (concat bss) = 0 -> forallb (fun bs => size bs =? 0) bss = true.
Proof.
  induction bss as [|bs bss IH]; [done|]. cbn [concat forallb]. rewrite size_app.
  pose proof (size_nonneg bs). pose proof (size_nonneg (concat bss)). intros.
  rewrite IH by lia. by destruct (Z.eqb_spec (size bs) 0); [|lia].
Qed.

(** The empty-element guard does not fire on the encodings of the specification. *)
Lemma no_bomb_prefix pre bs rest : no_bomb (pre ++ bs :: rest) = true ->
  size bs = 0 -> size (concat pre) = 0 -> size pre <= 200.
Proof.
  intros Hn Hb Hp. destruct (Z.le_gt_cases (size pre) 200); [done|]. exfalso. unfold no_bomb in Hn.
  rewrite size_app, size_cons in Hn. pose proof (size_nonneg rest).
  destruct (Z.ltb_spec 201 (size pre + (1 + size rest))); [|lia]. cbn [andb] in Hn.
  rewrite negb_true_iff in Hn.
  assert (forallb (fun b => size b =? 0) (pre ++ [bs]) = true) as Hall.
  { apply concat_empty. rewrite concat_app, size_app. cbn [concat]. rewrite app_nil_r. lia. }
  rewrite cons_middle, app_assoc, take_app_le in Hn by (rewrite length_app; unfold size in *; cbn; lia).
  rewrite forallb_forall in Hall. apply not_true_iff_false in Hn. apply Hn.
  apply forallb_forall. intros y Hy. apply Hall. apply list_elem_of_In. apply list_elem_of_In in Hy.
  apply elem_of_take in Hy as (j & Hj & _). by eapply list_elem_of_lookup_2.
Qed.

Lemma decode_elements_ok f e ctx : good f e.(type) -> is_open_type e.(type) = false -> stack_ok ctx ->
  forall l bss pre base_left base c done rest consumed,
  Forall2 (fun v bs => (sem e.(type)).(sp_bytes) e.(oer_constraints) v = Some bs) l bss ->
  no_bomb (pre ++ bss) = true -> consumed = base + size (concat pre) -> base_left = size pre + size l ->
  exists c' ms, Forall2 (fun m v => exists o, m = Some o /\ (sem e.(type)).(sp_repr) o v) ms l /\
    SetOf.decode_elements (opm f e) ctx base_left base (length l) c None done (concat bss ++ rest) consumed =
      (ok (consumed + size (concat bss)), Some (O_SET_OF c' None (done ++ ms))).
Proof.
  intros Hg Hno Hst. pose proof (good_dec _ _ Hg Hno) as Hdec.
  intros l. induction l as [|v l IH]; intros bss pre base_left base c done rest n Hb Hnb Hn Hl.
  - inv Hb. eexists _, []. split; [constructor|]. cbn [length SetOf.decode_elements].
    change (size (concat [])) with 0. by rewrite Z.add_0_r, app_nil_r.
  - apply Forall2_cons_inv_l in Hb as (bs & bss' & Hbv & Hb & ->).
    cbn [length SetOf.decode_elements type map_type oer_constraints concat]. rewrite <- app_assoc.
    destruct (Hdec (nested ctx) (oer_constraints e) v bs None (concat bss' ++ rest)) as (d & o & -> & -> & Ho);
      [by apply stack_ok_nested|done|by left|]. cbn [consumed code ok RETURN].
    rewrite size_cons in Hl.
    match goal with |- context [if ?b then (ASN__DECODE_FAILED, _) else _] => replace b with false end.
    2: { symmetry. apply not_true_iff_false. rewrite !andb_true_iff, !Z.eqb_eq, Z.ltb_lt. intros [[H1 H2] H3].
         apply no_bomb_prefix in Hnb; [|done|lia]. unfold size in *. lia. }
    rewrite zdrop_app by done.
    destruct (IH bss' (pre ++ [bs]) base_left base (set_left c (Z.of_nat (S (length l)))) (done ++ [Some o]) rest (n + size bs))
      as (c' & ms & Hms & ->); [done|by rewrite <- app_assoc| | |].
    { rewrite concat_app, size_app. cbn [concat]. rewrite app_nil_r. lia. }
    { rewrite size_app. change (size [bs]) with 1. lia. }
    exists c', (Some o :: ms). split; [constructor; eauto|]. rewrite size_app, Z.add_assoc, <- app_assoc. done.
Qed.

Lemma set_of_decode_ok f e ctx c a bs p rest : good f e.(type) -> is_open_type e.(type) = false -> stack_ok ctx ->
  (sp_set_of (semm e)).(sp_bytes) c a = Some bs -> p = None \/ p = Some (O_SET_OF ctx_zero None []) ->
  exists o, SetOf.SET_OF_decode_oer (opm f e) ctx c p (bs ++ rest) = (ok (size bs), Some o) /\
    (sp_set_of (semm e)).(sp_repr) o a.
Proof.
  intros Hg Hno Hst Hb Hp. destruct a as [| | | | | | |l]; try done.
  cbn [sp_bytes sp_set_of type map_type oer_constraints] in Hb.
  apply bind_Some in Hb as (bss & Hm & Hb). apply mapM_Some in Hm.
  destruct (Z.ltb_spec (size l) (2 ^ 31)); [|done]. destruct (no_bomb bss) eqn:Hnb; [|done].
  apply (inj Some) in Hb as <-.
  unfold SetOf.SET_OF_decode_oer. rewrite stack_ok_check by done.
  assert (match p with Some (O_SET_OF c p a) => (c, p, a) | _ => (ctx_zero, None, []) end = (ctx_zero, None, [])) as ->
    by (by destruct Hp as [-> | ->]).
  change (phase ctx_zero =? 0) with true. cbv iota. pose proof (size_nonneg l).
  rewrite <- app_assoc, fetch_quantity_det by (unfold RSIZE_MAX; lia).
  destruct (min_bytes_ok (size l) ltac:(lia)) as (_ & Hmb & _).
  assert (1 < size (quantity_det (size l))) by (unfold quantity_det; rewrite size_cons; lia).
  destruct (Z.eqb_spec (size (quantity_det (size l))) 0); [lia|].
  destruct (Z.eqb_spec (size (quantity_det (size l))) (-1)); [lia|].
  change (left (NEXT_PHASE (set_left ctx_zero (size l)))) with (size l). rewrite zdrop_app by done.
  destruct (decode_elements_ok f e ctx Hg Hno Hst l bss [] (size l) (size (quantity_det (size l)))
              (NEXT_PHASE (set_left ctx_zero (size l))) [] rest (size (quantity_det (size l))))
    as (c' & ms & Hms & E); [done|done|change (size (concat [])) with 0; lia|change (size []) with 0; lia|].
  replace (Z.to_nat (size l)) with (length l) by (unfold size; lia).
  rewrite E.
  eexists. split; [by rewrite size_app|exact Hms].
Qed.

(** * Open types *)

Lemma open_type_encode_ok f name es c o a bs : good_all f es ->
  (sp_open_type (map semm es)).(sp_repr) o a -> (sp_open_type (map semm es)).(sp_bytes) c a = Some bs ->
  emits (OPEN_TYPE_encode_oer name (map (opm f) es) c (Some o)) (ASN__ENCODED_OK (size bs)) bs.
Proof.
  intros Hg Hr Hb. destruct o as [| | | | | |ct p m|], a as [| | | | | |i av|]; try done.
  cbn [sp_repr sp_open_type repr_choice] in Hr. destruct Hr as [-> (se & o & Hse & -> & Hro)].
  cbn [sp_bytes sp_open_type] in Hb. rewrite Hse in Hb. cbn [mbind option_bind] in Hb.
  apply bind_Some in Hb as (bs' & Hbs & Hw). apply lookup_map_Some in Hse as (e & -> & He).
  cbn [type map_type oer_constraints] in *. unfold OPEN_TYPE_encode_oer. cbn [CHOICE_variant_get_presence].
  pose proof (lookup_lt_Some _ _ _ He) as Hlt. destruct (Z.eqb_spec (Z.of_nat i + 1) 0); [lia|].
  destruct (Z.ltb_spec (size (map (opm f) es)) (Z.of_nat i + 1)) as [Hbad|_];
    [unfold size in Hbad; rewrite length_map in Hbad; lia|]. cbn [orb].
  replace (Z.to_nat (Z.of_nat i + 1 - 1)) with i by lia. rewrite lookup_map, He. cbn [fmap option_fmap option_map].
  assert (element_ptr (opm f e) (Some o) = Some o) as -> by (unfold element_ptr; by destruct (ATF_POINTER _)).
  rewrite Forall_lookup in Hg. cbn [type map_type oer_constraints].
  eapply emits_bind_last; [eapply open_type_put_ok; [apply (good_enc _ _ (Hg _ _ He))|done..]|]. cbv beta.
  pose proof (size_nonneg bs). by destruct (Z.ltb_spec (size bs) 0); [lia|].
Qed.

(** * Primitive types *)

(** Assembles a contract from the two codec lemmas of a type without variants. *)
Lemma good_intro f n k ts c es (e : encoder) (d : decoder) :
  encoder_of f n k c (map (opm f) es) = Some e -> decoder_of k c (map (opm f) es) = Some d ->
  let s := sem_of k c (map semm es) in
  (forall c o a bs, s.(sp_repr) o a -> s.(sp_bytes) c a = Some bs -> emits (e c (Some o)) (ASN__ENCODED_OK (size bs)) bs) ->
  (forall ctx c a bs p rest, stack_ok ctx -> s.(sp_bytes) c a = Some bs ->
     p = None \/ p = Some (zero_of k (map (opm f) es)) ->
     exists o, d ctx c p (bs ++ rest) = (ok (size bs), Some o) /\ s.(sp_repr) o a) ->
  good f (TD n k ts c es).
Proof.
  intros He Hd s Henc Hdec. split.
  - intros ct o a bs Hr Hb. exists e. split; [exact He|by apply (Henc _ _ a)].
  - intros _ ctx ct a bs p rest Hs Hb Hp. destruct (Hdec ctx ct a bs p rest Hs Hb Hp) as (o & Ho & Hr).
    by exists d, o.
  - intros Ho. destruct k; discriminate.
Qed.

Lemma good_primitive f n k ts c es :
  match k with SEQUENCE _ | CHOICE _ | SET_OF | OPEN_TYPE _ | ANY => False | _ => True end ->
  good f (TD n k ts c es).
Proof.
  intros Hk. destruct k; try done; (eapply good_intro; [reflexivity|reflexivity|..]); cbv zeta; cbn [sem_of].
  - intros ct o a bs Hr Hb. destruct o, a; try done. injection Hb as <-. cbn in Hr. cbn [BOOLEAN_encode_oer].
    rewrite Hr. by apply emits_cb_last.
  - intros ctx ct a bs p rest _ Hb _. destruct a; try done. injection Hb as <-. eexists. split; [done|]. by destruct b.
  - intros ct o a bs Hr Hb. destruct o, a; try done. injection Hb as <-. constructor.
  - intros ctx ct a bs p rest _ Hb [-> | ->]; (destruct a; try done); injection Hb as <-; by eexists.
  - intros ct o a bs Hr Hb. destruct o, a; try done. by apply primitive_encode_ok with l.
  - intros ctx ct a bs p rest _ Hb _. destruct a; try done. eexists. split; [by apply primitive_decode_ok|done].
  - intros ct o a bs Hr Hb. destruct o as [| | |[l|]| | | |], a; try done. destruct Hr as (Hl & Hne & Ht).
    by apply INTEGER_encode_ok with z.
  - intros ctx ct a bs p rest _ Hb _. destruct a; try done.
    destruct (INTEGER_decode_ok c ctx ct p z bs rest Hb) as (l & E & Hl). eexists. split; [exact E|exact Hl].
  - intros ct o a bs Hr Hb. destruct o, a; try done. cbn in Hr. subst. by apply NativeInteger_encode_ok.
  - intros ctx ct a bs p rest _ Hb _. destruct a; try done. eexists. split; [by apply NativeInteger_decode_ok|done].
  - intros ct o a bs Hr Hb. destruct o, a; try done. cbn in Hr. subst. by apply NativeEnumerated_encode_ok with specs.
  - intros ctx ct a bs p rest _ Hb _. destruct a; try done. eexists. split; [by apply NativeEnumerated_decode_ok|done].
  - intros ct o a bs Hr Hb. destruct o, a; try done. by apply OCTET_STRING_encode_ok with l.
  - intros ctx ct a bs p rest _ Hb _. destruct a; try done. eexists. split; [by apply OCTET_STRING_decode_ok|done].
  - intros ct o a bs Hr Hb. destruct o, a; try done. by apply BIT_STRING_encode_ok with l.
  - intros ctx ct a bs p rest _ Hb _. destruct a; try done. eexists.
    split; [by apply BIT_STRING_decode_ok|apply repr_pack].
Qed.

(** * All types *)

Lemma wf_td_kind td : wf_td td = true -> wf_kind (kind td) (elements td) = true.
Proof. destruct td as [n k ts c es]. cbn [wf_td kind elements]. by intros [? _]%andb_true_iff. Qed.

(** Every well-formed descriptor is implemented by its codec, whatever the fuel of
    the padding loop. *)
Lemma codec_ok f td : wf_td td = true -> good f td.
Proof.
  induction td as [n k ts c es IH] using descriptor_ind. cbn [wf_td].
  intros [Hk Hes]%andb_true_iff. rewrite forallb_forall in Hes.
  assert (Forall (fun e : tmember => wf_td e.(type) = true) es) as Hwf.
  { apply Forall_forall. intros e He. apply Hes. by apply list_elem_of_In. }
  assert (good_all f es) as Hg.
  { rewrite Forall_forall in IH, Hwf |- *. intros e He. apply IH; auto. }
  assert (Forall (fun e : tmember => wf_kind (kind e.(type)) (elements e.(type)) = true) es) as Hwk.
  { eapply Forall_impl; [exact Hwf|]. intros e. apply wf_td_kind. }
  destruct k as [| | | | | | | |specs|specs| |specs|]; try (by apply good_primitive).
  - destruct (wf_kind_seq _ _ Hk) as [k Hw]. eapply good_intro; [reflexivity|reflexivity|..]; cbv zeta; cbn [sem_of].
    + intros. by eapply seq_encode_ok.
    + intros. by eapply seq_decode_ok.
  - pose proof (wf_kind_choice _ _ Hk) as Hw. eapply good_intro; [reflexivity|reflexivity|..]; cbv zeta; cbn [sem_of].
    + intros. by eapply choice_encode_ok.
    + intros. by eapply choice_decode_ok.
  - cbn [wf_kind] in Hk. destruct es as [|e [|]]; try done. rewrite negb_true_iff in Hk.
    rewrite Forall_singleton in Hg. eapply good_intro; [reflexivity|reflexivity|..]; cbv zeta; cbn [sem_of map].
    + intros. by eapply set_of_encode_ok.
    + intros. by eapply set_of_decode_ok.
  - split.
    + intros ct o a bs Hr Hb. eexists. split; [reflexivity|]. by eapply open_type_encode_ok.
    + done.
    + intros _. cbn [elements wf_kind] in *. rewrite forallb_forall in Hk.
      rewrite Forall_forall in Hg |- *. intros e He. apply good_dec; [by apply Hg|].
      specialize (Hk e ltac:(by apply list_elem_of_In)). rewrite !andb_true_iff, !negb_true_iff in Hk. tauto.
  - by split; intros ?.
Qed.
