(* ===== verification/Pqc.v ===== *)
(** The post-quantum profile: hybrid certificates and secured messages.

    Type descriptors of the certificate, of the secured message and of every type
    they are built from, as
    the tables of asn1/systemx-pqc/*.c spell them out: members, tag maps,
    specifics, OER constraints, defaults and type selectors.  Names are those of
    the C tables without the prefix [Vanetza_Security_]; a [static] table whose
    name occurs in two files also carries the name of its file. *)

From stdpp Require Import prelude strings.
From S2P Require Import Prelude Descriptor OerSem OerCodec.

Definition asn_OER_type_Certificate_constr_1 : asn_oer_constraints :=
  {| width := 0; positive := false; csize := -1 |}.

Definition asn_OER_type_Uint8_constr_1 : asn_oer_constraints :=
  {| width := 1; positive := true; csize := -1 |}.

Definition asn_DEF_Uint8 : asn_TYPE_descriptor :=
  TD "Uint8" (NativeInteger None) [(TAG UNIVERSAL 2)] (Some asn_OER_type_Uint8_constr_1) [].

Definition asn_OER_memb_version_constr_2 : asn_oer_constraints :=
  {| width := 1; positive := true; csize := -1 |}.

Definition asn_OER_type_CertificateType_constr_1 : asn_oer_constraints :=
  {| width := 0; positive := false; csize := -1 |}.

Definition asn_SPC_CertificateType_specs_1 : asn_INTEGER_specifics := {| field_unsigned := false |}.

Definition asn_DEF_CertificateType : asn_TYPE_descriptor :=
  TD "CertificateType" (NativeEnumerated (Some asn_SPC_CertificateType_specs_1))
    [(TAG UNIVERSAL 10)] (Some asn_OER_type_CertificateType_constr_1) [].

Definition asn_OER_type_IssuerIdentifier_constr_1 : asn_oer_constraints :=
  {| width := 0; positive := false; csize := -1 |}.

Definition asn_OER_type_HashedId8_constr_1 : asn_oer_constraints :=
  {| width := 0; positive := false; csize := 8 |}.

Definition asn_DEF_HashedId8 : asn_TYPE_descriptor :=
  TD "HashedId8" (OCTET_STRING (Some ASN_OSUBV_STR))
    [(TAG UNIVERSAL 4)] (Some asn_OER_type_HashedId8_constr_1) [].

Definition asn_OER_type_HashAlgorithm_constr_1 : asn_oer_constraints :=
  {| width := 0; positive := false; csize := -1 |}.

Definition asn_SPC_HashAlgorithm_specs_1 : asn_INTEGER_specifics := {| field_unsigned := false |}.

Definition asn_DEF_HashAlgorithm : asn_TYPE_descriptor :=
  TD "HashAlgorithm" (NativeEnumerated (Some asn_SPC_HashAlgorithm_specs_1))
    [(TAG UNIVERSAL 10)] (Some asn_OER_type_HashAlgorithm_constr_1) [].

Definition asn_MBR_IssuerIdentifier_1 : list tmember :=
  [ MBR NOFLAGS 0 (TAG CONTEXT 0) (-1) asn_DEF_HashedId8 None None None "sha256AndDigest"
  ; MBR NOFLAGS 0 (TAG CONTEXT 1) (-1) asn_DEF_HashAlgorithm None None None "self"
  ; MBR NOFLAGS 0 (TAG CONTEXT 2) (-1) asn_DEF_HashedId8 None None None "sha384AndDigest"
  ; MBR NOFLAGS 0 (TAG CONTEXT 3) (-1) asn_DEF_HashedId8 None None None "sm3AndDigest" ].

Definition asn_MAP_IssuerIdentifier_tag2el_1 : list asn_TYPE_tag2member :=
  [ T2M (TAG CONTEXT 0) 0
  ; T2M (TAG CONTEXT 1) 1
  ; T2M (TAG CONTEXT 2) 2
  ; T2M (TAG CONTEXT 3) 3 ].

Definition asn_SPC_IssuerIdentifier_specs_1 : asn_CHOICE_specifics :=
  {| tag2el := asn_MAP_IssuerIdentifier_tag2el_1; ext_start := 2 |}.

Definition asn_DEF_IssuerIdentifier : asn_TYPE_descriptor :=
  TD "IssuerIdentifier" (CHOICE asn_SPC_IssuerIdentifier_specs_1)
    [] (Some asn_OER_type_IssuerIdentifier_constr_1) asn_MBR_IssuerIdentifier_1.

Definition asn_OER_type_ToBeSignedCertificate_constr_1 : asn_oer_constraints :=
  {| width := 0; positive := false; csize := -1 |}.

Definition asn_OER_type_CertificateId_constr_1 : asn_oer_constraints :=
  {| width := 0; positive := false; csize := -1 |}.

Definition asn_OER_type_IValue_constr_1 : asn_oer_constraints :=
  {| width := 2; positive := true; csize := -1 |}.

Definition asn_DEF_IValue : asn_TYPE_descriptor :=
  TD "IValue" (NativeInteger None) [(TAG UNIVERSAL 2)] (Some asn_OER_type_IValue_constr_1) [].

Definition asn_OER_type_LinkageValue_constr_1 : asn_oer_constraints :=
  {| width := 0; positive := false; csize := 9 |}.

Definition asn_DEF_LinkageValue : asn_TYPE_descriptor :=
  TD "LinkageValue" (OCTET_STRING (Some ASN_OSUBV_STR))
    [(TAG UNIVERSAL 4)] (Some asn_OER_type_LinkageValue_constr_1) [].

Definition asn_OER_memb_jValue_constr_2 : asn_oer_constraints :=
  {| width := 0; positive := false; csize := 4 |}.

Definition asn_OER_memb_value_constr_3 : asn_oer_constraints :=
  {| width := 0; positive := false; csize := 9 |}.

Definition asn_MBR_GroupLinkageValue_1 : list tmember :=
  [ MBR NOFLAGS 0 (TAG CONTEXT 0) (-1) asn_DEF_OCTET_STRING None (Some asn_OER_memb_jValue_constr_2) None "jValue"
  ; MBR NOFLAGS 0 (TAG CONTEXT 1) (-1) asn_DEF_OCTET_STRING None (Some asn_OER_memb_value_constr_3) None "value" ].

Definition asn_SPC_GroupLinkageValue_specs_1 : asn_SEQUENCE_specifics :=
  {| roms_count := 0; aoms_count := 0; first_extension := -1 |}.

Definition asn_DEF_GroupLinkageValue : asn_TYPE_descriptor :=
  TD "GroupLinkageValue" (SEQUENCE asn_SPC_GroupLinkageValue_specs_1)
    [(TAG UNIVERSAL 16)] None asn_MBR_GroupLinkageValue_1.

Definition asn_MBR_LinkageData_1 : list tmember :=
  [ MBR NOFLAGS 0 (TAG CONTEXT 0) (-1) asn_DEF_IValue None None None "iCert"
  ; MBR NOFLAGS 0 (TAG CONTEXT 1) (-1) asn_DEF_LinkageValue None None None "linkage-value"
  ; MBR POINTER 1 (TAG CONTEXT 2) (-1) asn_DEF_GroupLinkageValue None None None "group-linkage-value" ].

Definition asn_SPC_LinkageData_specs_1 : asn_SEQUENCE_specifics :=
  {| roms_count := 1; aoms_count := 0; first_extension := -1 |}.

Definition asn_DEF_LinkageData : asn_TYPE_descriptor :=
  TD "LinkageData" (SEQUENCE asn_SPC_LinkageData_specs_1)
    [(TAG UNIVERSAL 16)] None asn_MBR_LinkageData_1.

Definition asn_OER_type_Hostname_constr_1 : asn_oer_constraints :=
  {| width := 0; positive := false; csize := -1 |}.

Definition asn_DEF_Hostname : asn_TYPE_descriptor :=
  TD "Hostname" (OCTET_STRING None) [(TAG UNIVERSAL 12)] (Some asn_OER_type_Hostname_constr_1) [].

Definition asn_OER_memb_binaryId_constr_4 : asn_oer_constraints :=
  {| width := 0; positive := false; csize := -1 |}.

Definition asn_MBR_CertificateId_1 : list tmember :=
  [ MBR NOFLAGS 0 (TAG CONTEXT 0) (-1) asn_DEF_LinkageData None None None "linkageData"
  ; MBR NOFLAGS 0 (TAG CONTEXT 1) (-1) asn_DEF_Hostname None None None "name"
  ; MBR NOFLAGS 0 (TAG CONTEXT 2) (-1) asn_DEF_OCTET_STRING None (Some asn_OER_memb_binaryId_constr_4) None "binaryId"
  ; MBR NOFLAGS 0 (TAG CONTEXT 3) (-1) asn_DEF_NULL None None None "none" ].

Definition asn_MAP_CertificateId_tag2el_1 : list asn_TYPE_tag2member :=
  [ T2M (TAG CONTEXT 0) 0
  ; T2M (TAG CONTEXT 1) 1
  ; T2M (TAG CONTEXT 2) 2
  ; T2M (TAG CONTEXT 3) 3 ].

Definition asn_SPC_CertificateId_specs_1 : asn_CHOICE_specifics :=
  {| tag2el := asn_MAP_CertificateId_tag2el_1; ext_start := 4 |}.

Definition asn_DEF_CertificateId : asn_TYPE_descriptor :=
  TD "CertificateId" (CHOICE asn_SPC_CertificateId_specs_1)
    [] (Some asn_OER_type_CertificateId_constr_1) asn_MBR_CertificateId_1.

Definition asn_OER_type_HashedId3_constr_1 : asn_oer_constraints :=
  {| width := 0; positive := false; csize := 3 |}.

Definition asn_DEF_HashedId3 : asn_TYPE_descriptor :=
  TD "HashedId3" (OCTET_STRING (Some ASN_OSUBV_STR))
    [(TAG UNIVERSAL 4)] (Some asn_OER_type_HashedId3_constr_1) [].

Definition asn_OER_type_CrlSeries_constr_1 : asn_oer_constraints :=
  {| width := 2; positive := true; csize := -1 |}.

Definition asn_DEF_CrlSeries : asn_TYPE_descriptor :=
  TD "CrlSeries" (NativeInteger None) [(TAG UNIVERSAL 2)] (Some asn_OER_type_CrlSeries_constr_1) [].

Definition asn_OER_type_Time32_constr_1 : asn_oer_constraints :=
  {| width := 4; positive := true; csize := -1 |}.

Definition asn_SPC_Uint32_specs_1 : asn_INTEGER_specifics := {| field_unsigned := true |}.

Definition asn_DEF_Time32 : asn_TYPE_descriptor :=
  TD "Time32" (NativeInteger (Some asn_SPC_Uint32_specs_1))
    [(TAG UNIVERSAL 2)] (Some asn_OER_type_Time32_constr_1) [].

Definition asn_OER_type_Duration_constr_1 : asn_oer_constraints :=
  {| width := 0; positive := false; csize := -1 |}.

Definition asn_OER_type_Uint16_constr_1 : asn_oer_constraints :=
  {| width := 2; positive := true; csize := -1 |}.

Definition asn_DEF_Uint16 : asn_TYPE_descriptor :=
  TD "Uint16" (NativeInteger None) [(TAG UNIVERSAL 2)] (Some asn_OER_type_Uint16_constr_1) [].

Definition asn_MBR_Duration_1 : list tmember :=
  [ MBR NOFLAGS 0 (TAG CONTEXT 0) (-1) asn_DEF_Uint16 None None None "microseconds"
  ; MBR NOFLAGS 0 (TAG CONTEXT 1) (-1) asn_DEF_Uint16 None None None "milliseconds"
  ; MBR NOFLAGS 0 (TAG CONTEXT 2) (-1) asn_DEF_Uint16 None None None "seconds"
  ; MBR NOFLAGS 0 (TAG CONTEXT 3) (-1) asn_DEF_Uint16 None None None "minutes"
  ; MBR NOFLAGS 0 (TAG CONTEXT 4) (-1) asn_DEF_Uint16 None None None "hours"
  ; MBR NOFLAGS 0 (TAG CONTEXT 5) (-1) asn_DEF_Uint16 None None None "sixtyHours"
  ; MBR NOFLAGS 0 (TAG CONTEXT 6) (-1) asn_DEF_Uint16 None None None "years" ].

Definition asn_MAP_Duration_tag2el_1 : list asn_TYPE_tag2member :=
  [ T2M (TAG CONTEXT 0) 0
  ; T2M (TAG CONTEXT 1) 1
  ; T2M (TAG CONTEXT 2) 2
  ; T2M (TAG CONTEXT 3) 3
  ; T2M (TAG CONTEXT 4) 4
  ; T2M (TAG CONTEXT 5) 5
  ; T2M (TAG CONTEXT 6) 6 ].

Definition asn_SPC_Duration_specs_1 : asn_CHOICE_specifics :=
  {| tag2el := asn_MAP_Duration_tag2el_1; ext_start := -1 |}.

Definition asn_DEF_Duration : asn_TYPE_descriptor :=
  TD "Duration" (CHOICE asn_SPC_Duration_specs_1)
    [] (Some asn_OER_type_Duration_constr_1) asn_MBR_Duration_1.

Definition asn_MBR_ValidityPeriod_1 : list tmember :=
  [ MBR NOFLAGS 0 (TAG CONTEXT 0) (-1) asn_DEF_Time32 None None None "start"
  ; MBR NOFLAGS 0 (TAG CONTEXT 1) 1 asn_DEF_Duration None None None "duration" ].

Definition asn_SPC_ValidityPeriod_specs_1 : asn_SEQUENCE_specifics :=
  {| roms_count := 0; aoms_count := 0; first_extension := -1 |}.

Definition asn_DEF_ValidityPeriod : asn_TYPE_descriptor :=
  TD "ValidityPeriod" (SEQUENCE asn_SPC_ValidityPeriod_specs_1)
    [(TAG UNIVERSAL 16)] None asn_MBR_ValidityPeriod_1.

Definition asn_OER_type_GeographicRegion_constr_1 : asn_oer_constraints :=
  {| width := 0; positive := false; csize := -1 |}.

Definition asn_OER_type_Latitude_constr_1 : asn_oer_constraints :=
  {| width := 4; positive := false; csize := -1 |}.

Definition asn_DEF_Latitude : asn_TYPE_descriptor :=
  TD "Latitude" (NativeInteger None) [(TAG UNIVERSAL 2)] (Some asn_OER_type_Latitude_constr_1) [].

Definition asn_OER_type_Longitude_constr_1 : asn_oer_constraints :=
  {| width := 4; positive := false; csize := -1 |}.

Definition asn_DEF_Longitude : asn_TYPE_descriptor :=
  TD "Longitude" (NativeInteger None) [(TAG UNIVERSAL 2)] (Some asn_OER_type_Longitude_constr_1) [].

Definition asn_MBR_TwoDLocation_1 : list tmember :=
  [ MBR NOFLAGS 0 (TAG CONTEXT 0) (-1) asn_DEF_Latitude None None None "latitude"
  ; MBR NOFLAGS 0 (TAG CONTEXT 1) (-1) asn_DEF_Longitude None None None "longitude" ].

Definition asn_SPC_TwoDLocation_specs_1 : asn_SEQUENCE_specifics :=
  {| roms_count := 0; aoms_count := 0; first_extension := -1 |}.

Definition asn_DEF_TwoDLocation : asn_TYPE_descriptor :=
  TD "TwoDLocation" (SEQUENCE asn_SPC_TwoDLocation_specs_1)
    [(TAG UNIVERSAL 16)] None asn_MBR_TwoDLocation_1.

Definition asn_MBR_CircularRegion_1 : list tmember :=
  [ MBR NOFLAGS 0 (TAG CONTEXT 0) (-1) asn_DEF_TwoDLocation None None None "center"
  ; MBR NOFLAGS 0 (TAG CONTEXT 1) (-1) asn_DEF_Uint16 None None None "radius" ].

Definition asn_SPC_CircularRegion_specs_1 : asn_SEQUENCE_specifics :=
  {| roms_count := 0; aoms_count := 0; first_extension := -1 |}.

Definition asn_DEF_CircularRegion : asn_TYPE_descriptor :=
  TD "CircularRegion" (SEQUENCE asn_SPC_CircularRegion_specs_1)
    [(TAG UNIVERSAL 16)] None asn_MBR_CircularRegion_1.

Definition asn_MBR_RectangularRegion_1 : list tmember :=
  [ MBR NOFLAGS 0 (TAG CONTEXT 0) (-1) asn_DEF_TwoDLocation None None None "northWest"
  ; MBR NOFLAGS 0 (TAG CONTEXT 1) (-1) asn_DEF_TwoDLocation None None None "southEast" ].

Definition asn_SPC_RectangularRegion_specs_1 : asn_SEQUENCE_specifics :=
  {| roms_count := 0; aoms_count := 0; first_extension := -1 |}.

Definition asn_DEF_RectangularRegion : asn_TYPE_descriptor :=
  TD "RectangularRegion" (SEQUENCE asn_SPC_RectangularRegion_specs_1)
    [(TAG UNIVERSAL 16)] None asn_MBR_RectangularRegion_1.

Definition asn_MBR_SequenceOfRectangularRegion_1 : list tmember :=
  [ MBR POINTER 0 (TAG UNIVERSAL 16) 0 asn_DEF_RectangularRegion None None None "" ].

Definition asn_DEF_SequenceOfRectangularRegion : asn_TYPE_descriptor :=
  TD "SequenceOfRectangularRegion" SET_OF
    [(TAG UNIVERSAL 16)] None asn_MBR_SequenceOfRectangularRegion_1.

Definition asn_OER_type_PolygonalRegion_constr_1 : asn_oer_constraints :=
  {| width := 0; positive := false; csize := -1 |}.

Definition asn_MBR_PolygonalRegion_1 : list tmember :=
  [ MBR POINTER 0 (TAG UNIVERSAL 16) 0 asn_DEF_TwoDLocation None None None "" ].

Definition asn_DEF_PolygonalRegion : asn_TYPE_descriptor :=
  TD "PolygonalRegion" SET_OF
    [(TAG UNIVERSAL 16)] (Some asn_OER_type_PolygonalRegion_constr_1) asn_MBR_PolygonalRegion_1.

Definition asn_OER_type_IdentifiedRegion_constr_1 : asn_oer_constraints :=
  {| width := 0; positive := false; csize := -1 |}.

Definition asn_OER_type_UnCountryId_constr_1 : asn_oer_constraints :=
  {| width := 2; positive := true; csize := -1 |}.

Definition asn_DEF_UnCountryId : asn_TYPE_descriptor :=
  TD "UnCountryId" (NativeInteger None)
    [(TAG UNIVERSAL 2)] (Some asn_OER_type_UnCountryId_constr_1) [].

Definition asn_MBR_SequenceOfUint8_1 : list tmember :=
  [ MBR POINTER 0 (TAG UNIVERSAL 2) 0 asn_DEF_Uint8 None None None "" ].

Definition asn_DEF_SequenceOfUint8 : asn_TYPE_descriptor :=
  TD "SequenceOfUint8" SET_OF [(TAG UNIVERSAL 16)] None asn_MBR_SequenceOfUint8_1.

Definition asn_MBR_CountryAndRegions_1 : list tmember :=
  [ MBR NOFLAGS 0 (TAG CONTEXT 0) (-1) asn_DEF_UnCountryId None None None "countryOnly"
  ; MBR NOFLAGS 0 (TAG CONTEXT 1) (-1) asn_DEF_SequenceOfUint8 None None None "regions" ].

Definition asn_SPC_CountryAndRegions_specs_1 : asn_SEQUENCE_specifics :=
  {| roms_count := 0; aoms_count := 0; first_extension := -1 |}.

Definition asn_DEF_CountryAndRegions : asn_TYPE_descriptor :=
  TD "CountryAndRegions" (SEQUENCE asn_SPC_CountryAndRegions_specs_1)
    [(TAG UNIVERSAL 16)] None asn_MBR_CountryAndRegions_1.

Definition asn_MBR_SequenceOfUint16_1 : list tmember :=
  [ MBR POINTER 0 (TAG UNIVERSAL 2) 0 asn_DEF_Uint16 None None None "" ].

Definition asn_DEF_SequenceOfUint16 : asn_TYPE_descriptor :=
  TD "SequenceOfUint16" SET_OF [(TAG UNIVERSAL 16)] None asn_MBR_SequenceOfUint16_1.

Definition asn_MBR_RegionAndSubregions_1 : list tmember :=
  [ MBR NOFLAGS 0 (TAG CONTEXT 0) (-1) asn_DEF_Uint8 None None None "region"
  ; MBR NOFLAGS 0 (TAG CONTEXT 1) (-1) asn_DEF_SequenceOfUint16 None None None "subregions" ].

Definition asn_SPC_RegionAndSubregions_specs_1 : asn_SEQUENCE_specifics :=
  {| roms_count := 0; aoms_count := 0; first_extension := -1 |}.

Definition asn_DEF_RegionAndSubregions : asn_TYPE_descriptor :=
  TD "RegionAndSubregions" (SEQUENCE asn_SPC_RegionAndSubregions_specs_1)
    [(TAG UNIVERSAL 16)] None asn_MBR_RegionAndSubregions_1.

Definition asn_MBR_SequenceOfRegionAndSubregions_1 : list tmember :=
  [ MBR POINTER 0 (TAG UNIVERSAL 16) 0 asn_DEF_RegionAndSubregions None None None "" ].

Definition asn_DEF_SequenceOfRegionAndSubregions : asn_TYPE_descriptor :=
  TD "SequenceOfRegionAndSubregions" SET_OF
    [(TAG UNIVERSAL 16)] None asn_MBR_SequenceOfRegionAndSubregions_1.

Definition asn_MBR_CountryAndSubregions_1 : list tmember :=
  [ MBR NOFLAGS 0 (TAG CONTEXT 0) (-1) asn_DEF_UnCountryId None None None "countryOnly"
  ; MBR NOFLAGS 0 (TAG CONTEXT 1) (-1) asn_DEF_SequenceOfRegionAndSubregions None None None "regionAndSubregions" ].

Definition asn_SPC_CountryAndSubregions_specs_1 : asn_SEQUENCE_specifics :=
  {| roms_count := 0; aoms_count := 0; first_extension := -1 |}.

Definition asn_DEF_CountryAndSubregions : asn_TYPE_descriptor :=
  TD "CountryAndSubregions" (SEQUENCE asn_SPC_CountryAndSubregions_specs_1)
    [(TAG UNIVERSAL 16)] None asn_MBR_CountryAndSubregions_1.

Definition asn_MBR_IdentifiedRegion_1 : list tmember :=
  [ MBR NOFLAGS 0 (TAG CONTEXT 0) (-1) asn_DEF_UnCountryId None None None "countryOnly"
  ; MBR NOFLAGS 0 (TAG CONTEXT 1) (-1) asn_DEF_CountryAndRegions None None None "countryAndRegions"
  ; MBR NOFLAGS 0 (TAG CONTEXT 2) (-1) asn_DEF_CountryAndSubregions None None None "countryAndSubregions" ].

Definition asn_MAP_IdentifiedRegion_tag2el_1 : list asn_TYPE_tag2member :=
  [ T2M (TAG CONTEXT 0) 0
  ; T2M (TAG CONTEXT 1) 1
  ; T2M (TAG CONTEXT 2) 2 ].

Definition asn_SPC_IdentifiedRegion_specs_1 : asn_CHOICE_specifics :=
  {| tag2el := asn_MAP_IdentifiedRegion_tag2el_1; ext_start := 3 |}.

Definition asn_DEF_IdentifiedRegion : asn_TYPE_descriptor :=
  TD "IdentifiedRegion" (CHOICE asn_SPC_IdentifiedRegion_specs_1)
    [] (Some asn_OER_type_IdentifiedRegion_constr_1) asn_MBR_IdentifiedRegion_1.

Definition asn_MBR_SequenceOfIdentifiedRegion_1 : list tmember :=
  [ MBR POINTER 0 (-1) 0 asn_DEF_IdentifiedRegion None None None "" ].

Definition asn_DEF_SequenceOfIdentifiedRegion : asn_TYPE_descriptor :=
  TD "SequenceOfIdentifiedRegion" SET_OF
    [(TAG UNIVERSAL 16)] None asn_MBR_SequenceOfIdentifiedRegion_1.

Definition asn_MBR_GeographicRegion_1 : list tmember :=
  [ MBR NOFLAGS 0 (TAG CONTEXT 0) (-1) asn_DEF_CircularRegion None None None "circularRegion"
  ; MBR NOFLAGS 0 (TAG CONTEXT 1) (-1) asn_DEF_SequenceOfRectangularRegion None None None "rectangularRegion"
  ; MBR NOFLAGS 0 (TAG CONTEXT 2) (-1) asn_DEF_PolygonalRegion None None None "polygonalRegion"
  ; MBR NOFLAGS 0 (TAG CONTEXT 3) (-1) asn_DEF_SequenceOfIdentifiedRegion None None None "identifiedRegion" ].

Definition asn_MAP_GeographicRegion_tag2el_1 : list asn_TYPE_tag2member :=
  [ T2M (TAG CONTEXT 0) 0
  ; T2M (TAG CONTEXT 1) 1
  ; T2M (TAG CONTEXT 2) 2
  ; T2M (TAG CONTEXT 3) 3 ].

Definition asn_SPC_GeographicRegion_specs_1 : asn_CHOICE_specifics :=
  {| tag2el := asn_MAP_GeographicRegion_tag2el_1; ext_start := 4 |}.

Definition asn_DEF_GeographicRegion : asn_TYPE_descriptor :=
  TD "GeographicRegion" (CHOICE asn_SPC_GeographicRegion_specs_1)
    [] (Some asn_OER_type_GeographicRegion_constr_1) asn_MBR_GeographicRegion_1.

Definition asn_OER_type_SubjectAssurance_constr_1 : asn_oer_constraints :=
  {| width := 0; positive := false; csize := 1 |}.

Definition asn_DEF_SubjectAssurance : asn_TYPE_descriptor :=
  TD "SubjectAssurance" (OCTET_STRING (Some ASN_OSUBV_STR))
    [(TAG UNIVERSAL 4)] (Some asn_OER_type_SubjectAssurance_constr_1) [].

Definition asn_OER_type_Psid_constr_1 : asn_oer_constraints :=
  {| width := 0; positive := true; csize := -1 |}.

Definition asn_SPC_Psid_specs_1 : asn_INTEGER_specifics := {| field_unsigned := true |}.

Definition asn_DEF_Psid : asn_TYPE_descriptor :=
  TD "Psid" (NativeInteger (Some asn_SPC_Psid_specs_1))
    [(TAG UNIVERSAL 2)] (Some asn_OER_type_Psid_constr_1) [].

Definition asn_OER_type_ServiceSpecificPermissions_constr_1 : asn_oer_constraints :=
  {| width := 0; positive := false; csize := -1 |}.

Definition asn_OER_memb_opaque_constr_2 : asn_oer_constraints :=
  {| width := 0; positive := false; csize := -1 |}.

Definition asn_OER_type_BitmapSsp_constr_1 : asn_oer_constraints :=
  {| width := 0; positive := false; csize := -1 |}.

Definition asn_DEF_BitmapSsp : asn_TYPE_descriptor :=
  TD "BitmapSsp" (OCTET_STRING (Some ASN_OSUBV_STR))
    [(TAG UNIVERSAL 4)] (Some asn_OER_type_BitmapSsp_constr_1) [].

Definition asn_MBR_ServiceSpecificPermissions_1 : list tmember :=
  [ MBR NOFLAGS 0 (TAG CONTEXT 0) (-1) asn_DEF_OCTET_STRING None (Some asn_OER_memb_opaque_constr_2) None "opaque"
  ; MBR NOFLAGS 0 (TAG CONTEXT 1) (-1) asn_DEF_BitmapSsp None None None "bitmapSsp" ].

Definition asn_MAP_ServiceSpecificPermissions_tag2el_1 : list asn_TYPE_tag2member :=
  [ T2M (TAG CONTEXT 0) 0
  ; T2M (TAG CONTEXT 1) 1 ].

Definition asn_SPC_ServiceSpecificPermissions_specs_1 : asn_CHOICE_specifics :=
  {| tag2el := asn_MAP_ServiceSpecificPermissions_tag2el_1; ext_start := 1 |}.

Definition asn_DEF_ServiceSpecificPermissions : asn_TYPE_descriptor :=
  TD "ServiceSpecificPermissions" (CHOICE asn_SPC_ServiceSpecificPermissions_specs_1)
    [] (Some asn_OER_type_ServiceSpecificPermissions_constr_1) asn_MBR_ServiceSpecificPermissions_1.

Definition asn_MBR_PsidSsp_1 : list tmember :=
  [ MBR NOFLAGS 0 (TAG CONTEXT 0) (-1) asn_DEF_Psid None None None "psid"
  ; MBR POINTER 1 (TAG CONTEXT 1) 1 asn_DEF_ServiceSpecificPermissions None None None "ssp" ].

Definition asn_SPC_PsidSsp_specs_1 : asn_SEQUENCE_specifics :=
  {| roms_count := 1; aoms_count := 0; first_extension := -1 |}.

Definition asn_DEF_PsidSsp : asn_TYPE_descriptor :=
  TD "PsidSsp" (SEQUENCE asn_SPC_PsidSsp_specs_1) [(TAG UNIVERSAL 16)] None asn_MBR_PsidSsp_1.

Definition asn_MBR_SequenceOfPsidSsp_1 : list tmember :=
  [ MBR POINTER 0 (TAG UNIVERSAL 16) 0 asn_DEF_PsidSsp None None None "" ].

Definition asn_DEF_SequenceOfPsidSsp : asn_TYPE_descriptor :=
  TD "SequenceOfPsidSsp" SET_OF [(TAG UNIVERSAL 16)] None asn_MBR_SequenceOfPsidSsp_1.

Definition asn_OER_type_SubjectPermissions_constr_1 : asn_oer_constraints :=
  {| width := 0; positive := false; csize := -1 |}.

Definition asn_OER_type_SspRange_constr_1 : asn_oer_constraints :=
  {| width := 0; positive := false; csize := -1 |}.

Definition asn_OER_type_SequenceOfOctetString_constr_1 : asn_oer_constraints :=
  {| width := 0; positive := false; csize := -1 |}.

Definition asn_OER_memb_Member_constr_2 : asn_oer_constraints :=
  {| width := 0; positive := false; csize := -1 |}.

Definition asn_MBR_SequenceOfOctetString_1 : list tmember :=
  [ MBR POINTER 0 (TAG UNIVERSAL 4) 0 asn_DEF_OCTET_STRING None (Some asn_OER_memb_Member_constr_2) None "" ].

Definition asn_DEF_SequenceOfOctetString : asn_TYPE_descriptor :=
  TD "SequenceOfOctetString" SET_OF
    [(TAG UNIVERSAL 16)] (Some asn_OER_type_SequenceOfOctetString_constr_1) asn_MBR_SequenceOfOctetString_1.

Definition asn_OER_memb_sspValue_constr_2 : asn_oer_constraints :=
  {| width := 0; positive := false; csize := -1 |}.

Definition asn_OER_memb_sspBitmask_constr_3 : asn_oer_constraints :=
  {| width := 0; positive := false; csize := -1 |}.

Definition asn_MBR_BitmapSspRange_1 : list tmember :=
  [ MBR NOFLAGS 0 (TAG CONTEXT 0) (-1) asn_DEF_OCTET_STRING None (Some asn_OER_memb_sspValue_constr_2) None "sspValue"
  ; MBR NOFLAGS 0 (TAG CONTEXT 1) (-1) asn_DEF_OCTET_STRING None (Some asn_OER_memb_sspBitmask_constr_3) None "sspBitmask" ].

Definition asn_SPC_BitmapSspRange_specs_1 : asn_SEQUENCE_specifics :=
  {| roms_count := 0; aoms_count := 0; first_extension := -1 |}.

Definition asn_DEF_BitmapSspRange : asn_TYPE_descriptor :=
  TD "BitmapSspRange" (SEQUENCE asn_SPC_BitmapSspRange_specs_1)
    [(TAG UNIVERSAL 16)] None asn_MBR_BitmapSspRange_1.

Definition asn_MBR_SspRange_1 : list tmember :=
  [ MBR NOFLAGS 0 (TAG CONTEXT 0) (-1) asn_DEF_SequenceOfOctetString None None None "opaque"
  ; MBR NOFLAGS 0 (TAG CONTEXT 1) (-1) asn_DEF_NULL None None None "all"
  ; MBR NOFLAGS 0 (TAG CONTEXT 2) (-1) asn_DEF_BitmapSspRange None None None "bitmapSspRange" ].

Definition asn_MAP_SspRange_tag2el_1 : list asn_TYPE_tag2member :=
  [ T2M (TAG CONTEXT 0) 0
  ; T2M (TAG CONTEXT 1) 1
  ; T2M (TAG CONTEXT 2) 2 ].

Definition asn_SPC_SspRange_specs_1 : asn_CHOICE_specifics :=
  {| tag2el := asn_MAP_SspRange_tag2el_1; ext_start := 2 |}.

Definition asn_DEF_SspRange : asn_TYPE_descriptor :=
  TD "SspRange" (CHOICE asn_SPC_SspRange_specs_1)
    [] (Some asn_OER_type_SspRange_constr_1) asn_MBR_SspRange_1.

Definition asn_MBR_PsidSspRange_1 : list tmember :=
  [ MBR NOFLAGS 0 (TAG CONTEXT 0) (-1) asn_DEF_Psid None None None "psid"
  ; MBR POINTER 1 (TAG CONTEXT 1) 1 asn_DEF_SspRange None None None "sspRange" ].

Definition asn_SPC_PsidSspRange_specs_1 : asn_SEQUENCE_specifics :=
  {| roms_count := 1; aoms_count := 0; first_extension := -1 |}.

Definition asn_DEF_PsidSspRange : asn_TYPE_descriptor :=
  TD "PsidSspRange" (SEQUENCE asn_SPC_PsidSspRange_specs_1)
    [(TAG UNIVERSAL 16)] None asn_MBR_PsidSspRange_1.

Definition asn_MBR_SequenceOfPsidSspRange_1 : list tmember :=
  [ MBR POINTER 0 (TAG UNIVERSAL 16) 0 asn_DEF_PsidSspRange None None None "" ].

Definition asn_DEF_SequenceOfPsidSspRange : asn_TYPE_descriptor :=
  TD "SequenceOfPsidSspRange" SET_OF [(TAG UNIVERSAL 16)] None asn_MBR_SequenceOfPsidSspRange_1.

Definition asn_MBR_SubjectPermissions_1 : list tmember :=
  [ MBR NOFLAGS 0 (TAG CONTEXT 0) (-1) asn_DEF_SequenceOfPsidSspRange None None None "explicit"
  ; MBR NOFLAGS 0 (TAG CONTEXT 1) (-1) asn_DEF_NULL None None None "all" ].

Definition asn_MAP_SubjectPermissions_tag2el_1 : list asn_TYPE_tag2member :=
  [ T2M (TAG CONTEXT 0) 0
  ; T2M (TAG CONTEXT 1) 1 ].

Definition asn_SPC_SubjectPermissions_specs_1 : asn_CHOICE_specifics :=
  {| tag2el := asn_MAP_SubjectPermissions_tag2el_1; ext_start := 2 |}.

Definition asn_DEF_SubjectPermissions : asn_TYPE_descriptor :=
  TD "SubjectPermissions" (CHOICE asn_SPC_SubjectPermissions_specs_1)
    [] (Some asn_OER_type_SubjectPermissions_constr_1) asn_MBR_SubjectPermissions_1.

Definition asn_DFL_3_PsidGroupPermissions : asn_DFL := {| dfl_value := 1 |}.

Definition asn_DFL_4_PsidGroupPermissions : asn_DFL := {| dfl_value := 0 |}.

Definition asn_OER_type_EndEntityType_constr_1 : asn_oer_constraints :=
  {| width := 0; positive := false; csize := 8 |}.

Definition asn_DEF_EndEntityType : asn_TYPE_descriptor :=
  TD "EndEntityType" BIT_STRING [(TAG UNIVERSAL 3)] (Some asn_OER_type_EndEntityType_constr_1) [].

Definition asn_MBR_PsidGroupPermissions_1 : list tmember :=
  [ MBR NOFLAGS 0 (TAG CONTEXT 0) 1 asn_DEF_SubjectPermissions None None None "subjectPermissions"
  ; MBR POINTER 3 (TAG CONTEXT 1) (-1) asn_DEF_NativeInteger None None (Some asn_DFL_3_PsidGroupPermissions) "minChainLength"
  ; MBR NOFLAGS 2 (TAG CONTEXT 2) (-1) asn_DEF_NativeInteger None None (Some asn_DFL_4_PsidGroupPermissions) "chainLengthRange"
  ; MBR POINTER 1 (TAG CONTEXT 3) (-1) asn_DEF_EndEntityType None None None "eeType" ].

Definition asn_SPC_PsidGroupPermissions_specs_1 : asn_SEQUENCE_specifics :=
  {| roms_count := 3; aoms_count := 0; first_extension := -1 |}.

Definition asn_DEF_PsidGroupPermissions : asn_TYPE_descriptor :=
  TD "PsidGroupPermissions" (SEQUENCE asn_SPC_PsidGroupPermissions_specs_1)
    [(TAG UNIVERSAL 16)] None asn_MBR_PsidGroupPermissions_1.

Definition asn_MBR_SequenceOfPsidGroupPermissions_1 : list tmember :=
  [ MBR POINTER 0 (TAG UNIVERSAL 16) 0 asn_DEF_PsidGroupPermissions None None None "" ].

Definition asn_DEF_SequenceOfPsidGroupPermissions : asn_TYPE_descriptor :=
  TD "SequenceOfPsidGroupPermissions" SET_OF
    [(TAG UNIVERSAL 16)] None asn_MBR_SequenceOfPsidGroupPermissions_1.

Definition asn_OER_type_SymmAlgorithm_constr_1 : asn_oer_constraints :=
  {| width := 0; positive := false; csize := -1 |}.

Definition asn_SPC_SymmAlgorithm_specs_1 : asn_INTEGER_specifics := {| field_unsigned := false |}.

Definition asn_DEF_SymmAlgorithm : asn_TYPE_descriptor :=
  TD "SymmAlgorithm" (NativeEnumerated (Some asn_SPC_SymmAlgorithm_specs_1))
    [(TAG UNIVERSAL 10)] (Some asn_OER_type_SymmAlgorithm_constr_1) [].

Definition asn_OER_type_BasePublicEncryptionKey_constr_1 : asn_oer_constraints :=
  {| width := 0; positive := false; csize := -1 |}.

Definition asn_OER_type_EccP256CurvePoint_constr_1 : asn_oer_constraints :=
  {| width := 0; positive := false; csize := -1 |}.

Definition asn_OER_memb_x_only_constr_2 : asn_oer_constraints :=
  {| width := 0; positive := false; csize := 32 |}.

Definition asn_OER_memb_compressed_y_0_constr_4 : asn_oer_constraints :=
  {| width := 0; positive := false; csize := 32 |}.

Definition asn_OER_memb_compressed_y_1_constr_5 : asn_oer_constraints :=
  {| width := 0; positive := false; csize := 32 |}.

Definition asn_OER_memb_x_constr_7 : asn_oer_constraints :=
  {| width := 0; positive := false; csize := 32 |}.

Definition asn_OER_memb_y_constr_8 : asn_oer_constraints :=
  {| width := 0; positive := false; csize := 32 |}.

Definition asn_MBR_uncompressedP256_6 : list tmember :=
  [ MBR NOFLAGS 0 (TAG CONTEXT 0) (-1) asn_DEF_OCTET_STRING None (Some asn_OER_memb_x_constr_7) None "x"
  ; MBR NOFLAGS 0 (TAG CONTEXT 1) (-1) asn_DEF_OCTET_STRING None (Some asn_OER_memb_y_constr_8) None "y" ].

Definition asn_SPC_uncompressedP256_specs_6 : asn_SEQUENCE_specifics :=
  {| roms_count := 0; aoms_count := 0; first_extension := -1 |}.

Definition asn_DEF_uncompressedP256_6 : asn_TYPE_descriptor :=
  TD "uncompressedP256" (SEQUENCE asn_SPC_uncompressedP256_specs_6)
    [(TAG CONTEXT 4)] None asn_MBR_uncompressedP256_6.

Definition asn_MBR_EccP256CurvePoint_1 : list tmember :=
  [ MBR NOFLAGS 0 (TAG CONTEXT 0) (-1) asn_DEF_OCTET_STRING None (Some asn_OER_memb_x_only_constr_2) None "x-only"
  ; MBR NOFLAGS 0 (TAG CONTEXT 1) (-1) asn_DEF_NULL None None None "fill"
  ; MBR NOFLAGS 0 (TAG CONTEXT 2) (-1) asn_DEF_OCTET_STRING None (Some asn_OER_memb_compressed_y_0_constr_4) None "compressed-y-0"
  ; MBR NOFLAGS 0 (TAG CONTEXT 3) (-1) asn_DEF_OCTET_STRING None (Some asn_OER_memb_compressed_y_1_constr_5) None "compressed-y-1"
  ; MBR NOFLAGS 0 (TAG CONTEXT 4) 0 asn_DEF_uncompressedP256_6 None None None "uncompressedP256" ].

Definition asn_MAP_EccP256CurvePoint_tag2el_1 : list asn_TYPE_tag2member :=
  [ T2M (TAG CONTEXT 0) 0
  ; T2M (TAG CONTEXT 1) 1
  ; T2M (TAG CONTEXT 2) 2
  ; T2M (TAG CONTEXT 3) 3
  ; T2M (TAG CONTEXT 4) 4 ].

Definition asn_SPC_EccP256CurvePoint_specs_1 : asn_CHOICE_specifics :=
  {| tag2el := asn_MAP_EccP256CurvePoint_tag2el_1; ext_start := -1 |}.

Definition asn_DEF_EccP256CurvePoint : asn_TYPE_descriptor :=
  TD "EccP256CurvePoint" (CHOICE asn_SPC_EccP256CurvePoint_specs_1)
    [] (Some asn_OER_type_EccP256CurvePoint_constr_1) asn_MBR_EccP256CurvePoint_1.

Definition asn_MBR_BasePublicEncryptionKey_1 : list tmember :=
  [ MBR NOFLAGS 0 (TAG CONTEXT 0) 1 asn_DEF_EccP256CurvePoint None None None "eciesNistP256"
  ; MBR NOFLAGS 0 (TAG CONTEXT 1) 1 asn_DEF_EccP256CurvePoint None None None "eciesBrainpoolP256r1"
  ; MBR NOFLAGS 0 (TAG CONTEXT 2) 1 asn_DEF_EccP256CurvePoint None None None "ecencSm2" ].

Definition asn_MAP_BasePublicEncryptionKey_tag2el_1 : list asn_TYPE_tag2member :=
  [ T2M (TAG CONTEXT 0) 0
  ; T2M (TAG CONTEXT 1) 1
  ; T2M (TAG CONTEXT 2) 2 ].

Definition asn_SPC_BasePublicEncryptionKey_specs_1 : asn_CHOICE_specifics :=
  {| tag2el := asn_MAP_BasePublicEncryptionKey_tag2el_1; ext_start := 2 |}.

Definition asn_DEF_BasePublicEncryptionKey : asn_TYPE_descriptor :=
  TD "BasePublicEncryptionKey" (CHOICE asn_SPC_BasePublicEncryptionKey_specs_1)
    [] (Some asn_OER_type_BasePublicEncryptionKey_constr_1) asn_MBR_BasePublicEncryptionKey_1.

Definition asn_MBR_PublicEncryptionKey_1 : list tmember :=
  [ MBR NOFLAGS 0 (TAG CONTEXT 0) (-1) asn_DEF_SymmAlgorithm None None None "supportedSymmAlg"
  ; MBR NOFLAGS 0 (TAG CONTEXT 1) 1 asn_DEF_BasePublicEncryptionKey None None None "publicKey" ].

Definition asn_SPC_PublicEncryptionKey_specs_1 : asn_SEQUENCE_specifics :=
  {| roms_count := 0; aoms_count := 0; first_extension := -1 |}.

Definition asn_DEF_PublicEncryptionKey : asn_TYPE_descriptor :=
  TD "PublicEncryptionKey" (SEQUENCE asn_SPC_PublicEncryptionKey_specs_1)
    [(TAG UNIVERSAL 16)] None asn_MBR_PublicEncryptionKey_1.

Definition asn_OER_type_VerificationKeyIndicator_constr_1 : asn_oer_constraints :=
  {| width := 0; positive := false; csize := -1 |}.

Definition asn_OER_type_PublicVerificationKey_constr_1 : asn_oer_constraints :=
  {| width := 0; positive := false; csize := -1 |}.

Definition asn_OER_type_EccP384CurvePoint_constr_1 : asn_oer_constraints :=
  {| width := 0; positive := false; csize := -1 |}.

Definition asn_OER_memb_x_only_constr_2_EccP384CurvePoint : asn_oer_constraints :=
  {| width := 0; positive := false; csize := 48 |}.

Definition asn_OER_memb_compressed_y_0_constr_4_EccP384CurvePoint : asn_oer_constraints :=
  {| width := 0; positive := false; csize := 48 |}.

Definition asn_OER_memb_compressed_y_1_constr_5_EccP384CurvePoint : asn_oer_constraints :=
  {| width := 0; positive := false; csize := 48 |}.

Definition asn_OER_memb_x_constr_7_EccP384CurvePoint : asn_oer_constraints :=
  {| width := 0; positive := false; csize := 48 |}.

Definition asn_OER_memb_y_constr_8_EccP384CurvePoint : asn_oer_constraints :=
  {| width := 0; positive := false; csize := 48 |}.

Definition asn_MBR_uncompressedP384_6 : list tmember :=
  [ MBR NOFLAGS 0 (TAG CONTEXT 0) (-1) asn_DEF_OCTET_STRING None (Some asn_OER_memb_x_constr_7_EccP384CurvePoint) None "x"
  ; MBR NOFLAGS 0 (TAG CONTEXT 1) (-1) asn_DEF_OCTET_STRING None (Some asn_OER_memb_y_constr_8_EccP384CurvePoint) None "y" ].

Definition asn_SPC_uncompressedP384_specs_6 : asn_SEQUENCE_specifics :=
  {| roms_count := 0; aoms_count := 0; first_extension := -1 |}.

Definition asn_DEF_uncompressedP384_6 : asn_TYPE_descriptor :=
  TD "uncompressedP384" (SEQUENCE asn_SPC_uncompressedP384_specs_6)
    [(TAG CONTEXT 4)] None asn_MBR_uncompressedP384_6.

Definition asn_MBR_EccP384CurvePoint_1 : list tmember :=
  [ MBR NOFLAGS 0 (TAG CONTEXT 0) (-1) asn_DEF_OCTET_STRING None (Some asn_OER_memb_x_only_constr_2_EccP384CurvePoint) None "x-only"
  ; MBR NOFLAGS 0 (TAG CONTEXT 1) (-1) asn_DEF_NULL None None None "fill"
  ; MBR NOFLAGS 0 (TAG CONTEXT 2) (-1) asn_DEF_OCTET_STRING None (Some asn_OER_memb_compressed_y_0_constr_4_EccP384CurvePoint) None "compressed-y-0"
  ; MBR NOFLAGS 0 (TAG CONTEXT 3) (-1) asn_DEF_OCTET_STRING None (Some asn_OER_memb_compressed_y_1_constr_5_EccP384CurvePoint) None "compressed-y-1"
  ; MBR NOFLAGS 0 (TAG CONTEXT 4) 0 asn_DEF_uncompressedP384_6 None None None "uncompressedP384" ].

Definition asn_MAP_EccP384CurvePoint_tag2el_1 : list asn_TYPE_tag2member :=
  [ T2M (TAG CONTEXT 0) 0
  ; T2M (TAG CONTEXT 1) 1
  ; T2M (TAG CONTEXT 2) 2
  ; T2M (TAG CONTEXT 3) 3
  ; T2M (TAG CONTEXT 4) 4 ].

Definition asn_SPC_EccP384CurvePoint_specs_1 : asn_CHOICE_specifics :=
  {| tag2el := asn_MAP_EccP384CurvePoint_tag2el_1; ext_start := -1 |}.

Definition asn_DEF_EccP384CurvePoint : asn_TYPE_descriptor :=
  TD "EccP384CurvePoint" (CHOICE asn_SPC_EccP384CurvePoint_specs_1)
    [] (Some asn_OER_type_EccP384CurvePoint_constr_1) asn_MBR_EccP384CurvePoint_1.

Definition asn_OER_type_FnDsa512Key_constr_1 : asn_oer_constraints :=
  {| width := 0; positive := false; csize := 897 |}.

Definition asn_DEF_FnDsa512Key : asn_TYPE_descriptor :=
  TD "FnDsa512Key" (OCTET_STRING (Some ASN_OSUBV_STR))
    [(TAG UNIVERSAL 4)] (Some asn_OER_type_FnDsa512Key_constr_1) [].

Definition asn_MBR_PublicVerificationKey_1 : list tmember :=
  [ MBR NOFLAGS 0 (TAG CONTEXT 0) 1 asn_DEF_EccP256CurvePoint None None None "ecdsaNistP256"
  ; MBR NOFLAGS 0 (TAG CONTEXT 1) 1 asn_DEF_EccP256CurvePoint None None None "ecdsaBrainpoolP256r1"
  ; MBR NOFLAGS 0 (TAG CONTEXT 2) 1 asn_DEF_EccP384CurvePoint None None None "ecdsaBrainpoolP384r1"
  ; MBR NOFLAGS 0 (TAG CONTEXT 3) 1 asn_DEF_EccP384CurvePoint None None None "ecdsaNistP384"
  ; MBR NOFLAGS 0 (TAG CONTEXT 4) 1 asn_DEF_EccP256CurvePoint None None None "ecsigSm2"
  ; MBR NOFLAGS 0 (TAG CONTEXT 5) (-1) asn_DEF_FnDsa512Key None None None "fnDsa512" ].

Definition asn_MAP_PublicVerificationKey_tag2el_1 : list asn_TYPE_tag2member :=
  [ T2M (TAG CONTEXT 0) 0
  ; T2M (TAG CONTEXT 1) 1
  ; T2M (TAG CONTEXT 2) 2
  ; T2M (TAG CONTEXT 3) 3
  ; T2M (TAG CONTEXT 4) 4
  ; T2M (TAG CONTEXT 5) 5 ].

Definition asn_SPC_PublicVerificationKey_specs_1 : asn_CHOICE_specifics :=
  {| tag2el := asn_MAP_PublicVerificationKey_tag2el_1; ext_start := 2 |}.

Definition asn_DEF_PublicVerificationKey : asn_TYPE_descriptor :=
  TD "PublicVerificationKey" (CHOICE asn_SPC_PublicVerificationKey_specs_1)
    [] (Some asn_OER_type_PublicVerificationKey_constr_1) asn_MBR_PublicVerificationKey_1.

Definition asn_MBR_VerificationKeyIndicator_1 : list tmember :=
  [ MBR NOFLAGS 0 (TAG CONTEXT 0) 1 asn_DEF_PublicVerificationKey None None None "verificationKey"
  ; MBR NOFLAGS 0 (TAG CONTEXT 1) 1 asn_DEF_EccP256CurvePoint None None None "reconstructionValue" ].

Definition asn_MAP_VerificationKeyIndicator_tag2el_1 : list asn_TYPE_tag2member :=
  [ T2M (TAG CONTEXT 0) 0
  ; T2M (TAG CONTEXT 1) 1 ].

Definition asn_SPC_VerificationKeyIndicator_specs_1 : asn_CHOICE_specifics :=
  {| tag2el := asn_MAP_VerificationKeyIndicator_tag2el_1; ext_start := 2 |}.

Definition asn_DEF_VerificationKeyIndicator : asn_TYPE_descriptor :=
  TD "VerificationKeyIndicator" (CHOICE asn_SPC_VerificationKeyIndicator_specs_1)
    [] (Some asn_OER_type_VerificationKeyIndicator_constr_1) asn_MBR_VerificationKeyIndicator_1.

Definition asn_OER_memb_flags_constr_15 : asn_oer_constraints :=
  {| width := 0; positive := false; csize := 8 |}.

Definition asn_OER_type_SequenceOfAppExtensions_constr_1 : asn_oer_constraints :=
  {| width := 0; positive := false; csize := -1 |}.

Definition asn_OER_type_ExtId_constr_1 : asn_oer_constraints :=
  {| width := 1; positive := true; csize := -1 |}.

Definition asn_DEF_ExtId : asn_TYPE_descriptor :=
  TD "ExtId" (NativeInteger None) [(TAG UNIVERSAL 2)] (Some asn_OER_type_ExtId_constr_1) [].

Definition asn_OER_memb_id_constr_2 : asn_oer_constraints :=
  {| width := 1; positive := true; csize := -1 |}.

Definition asn_DEF_OperatingOrganizationId : asn_TYPE_descriptor :=
  TD "OperatingOrganizationId" PRIMITIVE [(TAG UNIVERSAL 6)] None [].

Definition asn_MBR_content_3 : list tmember :=
  [ MBR NOFLAGS 0 (TAG UNIVERSAL 6) 0 asn_DEF_OperatingOrganizationId None None None "OperatingOrganizationId" ].

Definition asn_MAP_content_tag2el_3 : list asn_TYPE_tag2member :=
  [ T2M (TAG UNIVERSAL 6) 0 ].

Definition asn_SPC_content_specs_3 : asn_CHOICE_specifics :=
  {| tag2el := asn_MAP_content_tag2el_3; ext_start := -1 |}.

Definition asn_DEF_content_3 : asn_TYPE_descriptor :=
  TD "content" (OPEN_TYPE asn_SPC_content_specs_3) [] None asn_MBR_content_3.

Definition select_AppExtension_content_type : asn_ioc_set :=
  {| governor := 0; rows := [1] |}.

Definition asn_OER_memb_content_constr_3 : asn_oer_constraints :=
  {| width := 0; positive := false; csize := -1 |}.

Definition asn_MBR_AppExtension_1 : list tmember :=
  [ MBR NOFLAGS 0 (TAG CONTEXT 0) (-1) asn_DEF_ExtId None (Some asn_OER_memb_id_constr_2) None "id"
  ; MBR OPEN 0 (TAG CONTEXT 1) 1 asn_DEF_content_3 (Some select_AppExtension_content_type) (Some asn_OER_memb_content_constr_3) None "content" ].

Definition asn_SPC_AppExtension_specs_1 : asn_SEQUENCE_specifics :=
  {| roms_count := 0; aoms_count := 0; first_extension := -1 |}.

Definition asn_DEF_AppExtension : asn_TYPE_descriptor :=
  TD "AppExtension" (SEQUENCE asn_SPC_AppExtension_specs_1)
    [(TAG UNIVERSAL 16)] None asn_MBR_AppExtension_1.

Definition asn_MBR_SequenceOfAppExtensions_1 : list tmember :=
  [ MBR POINTER 0 (TAG UNIVERSAL 16) 0 asn_DEF_AppExtension None None None "" ].

Definition asn_DEF_SequenceOfAppExtensions : asn_TYPE_descriptor :=
  TD "SequenceOfAppExtensions" SET_OF
    [(TAG UNIVERSAL 16)] (Some asn_OER_type_SequenceOfAppExtensions_constr_1) asn_MBR_SequenceOfAppExtensions_1.

Definition asn_OER_type_SequenceOfCertIssueExtensions_constr_1 : asn_oer_constraints :=
  {| width := 0; positive := false; csize := -1 |}.

Definition asn_OER_memb_id_constr_2_CertIssueExtension : asn_oer_constraints :=
  {| width := 1; positive := true; csize := -1 |}.

Definition asn_OER_type_permissions_constr_3 : asn_oer_constraints :=
  {| width := 0; positive := false; csize := -1 |}.

Definition asn_OER_memb_specific_constr_4 : asn_oer_constraints :=
  {| width := 0; positive := false; csize := -1 |}.

Definition asn_MBR_permissions_3 : list tmember :=
  [ MBR NOFLAGS 0 (TAG CONTEXT 0) 1 asn_DEF_ANY None (Some asn_OER_memb_specific_constr_4) None "specific"
  ; MBR NOFLAGS 0 (TAG CONTEXT 1) (-1) asn_DEF_NULL None None None "all" ].

Definition asn_MAP_permissions_tag2el_3 : list asn_TYPE_tag2member :=
  [ T2M (TAG CONTEXT 0) 0
  ; T2M (TAG CONTEXT 1) 1 ].

Definition asn_SPC_permissions_specs_3 : asn_CHOICE_specifics :=
  {| tag2el := asn_MAP_permissions_tag2el_3; ext_start := -1 |}.

Definition asn_DEF_permissions_3 : asn_TYPE_descriptor :=
  TD "permissions" (CHOICE asn_SPC_permissions_specs_3)
    [] (Some asn_OER_type_permissions_constr_3) asn_MBR_permissions_3.

Definition asn_MBR_CertIssueExtension_1 : list tmember :=
  [ MBR NOFLAGS 0 (TAG CONTEXT 0) (-1) asn_DEF_ExtId None (Some asn_OER_memb_id_constr_2_CertIssueExtension) None "id"
  ; MBR NOFLAGS 0 (TAG CONTEXT 1) 1 asn_DEF_permissions_3 None None None "permissions" ].

Definition asn_SPC_CertIssueExtension_specs_1 : asn_SEQUENCE_specifics :=
  {| roms_count := 0; aoms_count := 0; first_extension := -1 |}.

Definition asn_DEF_CertIssueExtension : asn_TYPE_descriptor :=
  TD "CertIssueExtension" (SEQUENCE asn_SPC_CertIssueExtension_specs_1)
    [(TAG UNIVERSAL 16)] None asn_MBR_CertIssueExtension_1.

Definition asn_MBR_SequenceOfCertIssueExtensions_1 : list tmember :=
  [ MBR POINTER 0 (TAG UNIVERSAL 16) 0 asn_DEF_CertIssueExtension None None None "" ].

Definition asn_DEF_SequenceOfCertIssueExtensions : asn_TYPE_descriptor :=
  TD "SequenceOfCertIssueExtensions" SET_OF
    [(TAG UNIVERSAL 16)] (Some asn_OER_type_SequenceOfCertIssueExtensions_constr_1) asn_MBR_SequenceOfCertIssueExtensions_1.

Definition asn_OER_type_SequenceOfCertRequestExtensions_constr_1 : asn_oer_constraints :=
  {| width := 0; positive := false; csize := -1 |}.

Definition asn_OER_memb_id_constr_2_CertRequestExtension : asn_oer_constraints :=
  {| width := 1; positive := true; csize := -1 |}.

Definition asn_OER_type_permissions_constr_3_CertRequestExtension : asn_oer_constraints :=
  {| width := 0; positive := false; csize := -1 |}.

Definition asn_OER_memb_content_constr_4 : asn_oer_constraints :=
  {| width := 0; positive := false; csize := -1 |}.

Definition asn_MBR_permissions_3_CertRequestExtension : list tmember :=
  [ MBR NOFLAGS 0 (TAG CONTEXT 0) 1 asn_DEF_ANY None (Some asn_OER_memb_content_constr_4) None "content"
  ; MBR NOFLAGS 0 (TAG CONTEXT 1) (-1) asn_DEF_NULL None None None "all" ].

Definition asn_MAP_permissions_tag2el_3_CertRequestExtension : list asn_TYPE_tag2member :=
  [ T2M (TAG CONTEXT 0) 0
  ; T2M (TAG CONTEXT 1) 1 ].

Definition asn_SPC_permissions_specs_3_CertRequestExtension : asn_CHOICE_specifics :=
  {| tag2el := asn_MAP_permissions_tag2el_3_CertRequestExtension; ext_start := -1 |}.

Definition asn_DEF_permissions_3_CertRequestExtension : asn_TYPE_descriptor :=
  TD "permissions" (CHOICE asn_SPC_permissions_specs_3_CertRequestExtension)
    [] (Some asn_OER_type_permissions_constr_3_CertRequestExtension) asn_MBR_permissions_3_CertRequestExtension.

Definition asn_MBR_CertRequestExtension_1 : list tmember :=
  [ MBR NOFLAGS 0 (TAG CONTEXT 0) (-1) asn_DEF_ExtId None (Some asn_OER_memb_id_constr_2_CertRequestExtension) None "id"
  ; MBR NOFLAGS 0 (TAG CONTEXT 1) 1 asn_DEF_permissions_3_CertRequestExtension None None None "permissions" ].

Definition asn_SPC_CertRequestExtension_specs_1 : asn_SEQUENCE_specifics :=
  {| roms_count := 0; aoms_count := 0; first_extension := -1 |}.

Definition asn_DEF_CertRequestExtension : asn_TYPE_descriptor :=
  TD "CertRequestExtension" (SEQUENCE asn_SPC_CertRequestExtension_specs_1)
    [(TAG UNIVERSAL 16)] None asn_MBR_CertRequestExtension_1.

Definition asn_MBR_SequenceOfCertRequestExtensions_1 : list tmember :=
  [ MBR POINTER 0 (TAG UNIVERSAL 16) 0 asn_DEF_CertRequestExtension None None None "" ].

Definition asn_DEF_SequenceOfCertRequestExtensions : asn_TYPE_descriptor :=
  TD "SequenceOfCertRequestExtensions" SET_OF
    [(TAG UNIVERSAL 16)] (Some asn_OER_type_SequenceOfCertRequestExtensions_constr_1) asn_MBR_SequenceOfCertRequestExtensions_1.

Definition asn_OER_type_Signature_constr_1 : asn_oer_constraints :=
  {| width := 0; positive := false; csize := -1 |}.

Definition asn_OER_memb_sSig_constr_3 : asn_oer_constraints :=
  {| width := 0; positive := false; csize := 32 |}.

Definition asn_MBR_EcdsaP256Signature_1 : list tmember :=
  [ MBR NOFLAGS 0 (TAG CONTEXT 0) 1 asn_DEF_EccP256CurvePoint None None None "rSig"
  ; MBR NOFLAGS 0 (TAG CONTEXT 1) (-1) asn_DEF_OCTET_STRING None (Some asn_OER_memb_sSig_constr_3) None "sSig" ].

Definition asn_SPC_EcdsaP256Signature_specs_1 : asn_SEQUENCE_specifics :=
  {| roms_count := 0; aoms_count := 0; first_extension := -1 |}.

Definition asn_DEF_EcdsaP256Signature : asn_TYPE_descriptor :=
  TD "EcdsaP256Signature" (SEQUENCE asn_SPC_EcdsaP256Signature_specs_1)
    [(TAG UNIVERSAL 16)] None asn_MBR_EcdsaP256Signature_1.

Definition asn_OER_memb_sSig_constr_3_EcdsaP384Signature : asn_oer_constraints :=
  {| width := 0; positive := false; csize := 48 |}.

Definition asn_MBR_EcdsaP384Signature_1 : list tmember :=
  [ MBR NOFLAGS 0 (TAG CONTEXT 0) 1 asn_DEF_EccP384CurvePoint None None None "rSig"
  ; MBR NOFLAGS 0 (TAG CONTEXT 1) (-1) asn_DEF_OCTET_STRING None (Some asn_OER_memb_sSig_constr_3_EcdsaP384Signature) None "sSig" ].

Definition asn_SPC_EcdsaP384Signature_specs_1 : asn_SEQUENCE_specifics :=
  {| roms_count := 0; aoms_count := 0; first_extension := -1 |}.

Definition asn_DEF_EcdsaP384Signature : asn_TYPE_descriptor :=
  TD "EcdsaP384Signature" (SEQUENCE asn_SPC_EcdsaP384Signature_specs_1)
    [(TAG UNIVERSAL 16)] None asn_MBR_EcdsaP384Signature_1.

Definition asn_OER_memb_rSig_constr_2 : asn_oer_constraints :=
  {| width := 0; positive := false; csize := 32 |}.

Definition asn_OER_memb_sSig_constr_3_EcsigP256Signature : asn_oer_constraints :=
  {| width := 0; positive := false; csize := 32 |}.

Definition asn_MBR_EcsigP256Signature_1 : list tmember :=
  [ MBR NOFLAGS 0 (TAG CONTEXT 0) (-1) asn_DEF_OCTET_STRING None (Some asn_OER_memb_rSig_constr_2) None "rSig"
  ; MBR NOFLAGS 0 (TAG CONTEXT 1) (-1) asn_DEF_OCTET_STRING None (Some asn_OER_memb_sSig_constr_3_EcsigP256Signature) None "sSig" ].

Definition asn_SPC_EcsigP256Signature_specs_1 : asn_SEQUENCE_specifics :=
  {| roms_count := 0; aoms_count := 0; first_extension := -1 |}.

Definition asn_DEF_EcsigP256Signature : asn_TYPE_descriptor :=
  TD "EcsigP256Signature" (SEQUENCE asn_SPC_EcsigP256Signature_specs_1)
    [(TAG UNIVERSAL 16)] None asn_MBR_EcsigP256Signature_1.

Definition asn_OER_type_FnDsa512Signature_constr_1 : asn_oer_constraints :=
  {| width := 0; positive := false; csize := 666 |}.

Definition asn_DEF_FnDsa512Signature : asn_TYPE_descriptor :=
  TD "FnDsa512Signature" (OCTET_STRING (Some ASN_OSUBV_STR))
    [(TAG UNIVERSAL 4)] (Some asn_OER_type_FnDsa512Signature_constr_1) [].

Definition asn_MBR_Signature_1 : list tmember :=
  [ MBR NOFLAGS 0 (TAG CONTEXT 0) (-1) asn_DEF_EcdsaP256Signature None None None "ecdsaNistP256Signature"
  ; MBR NOFLAGS 0 (TAG CONTEXT 1) (-1) asn_DEF_EcdsaP256Signature None None None "ecdsaBrainpoolP256r1Signature"
  ; MBR NOFLAGS 0 (TAG CONTEXT 2) (-1) asn_DEF_EcdsaP384Signature None None None "ecdsaBrainpoolP384r1Signature"
  ; MBR NOFLAGS 0 (TAG CONTEXT 3) (-1) asn_DEF_EcdsaP384Signature None None None "ecdsaNistP384Signature"
  ; MBR NOFLAGS 0 (TAG CONTEXT 4) (-1) asn_DEF_EcsigP256Signature None None None "sm2Signature"
  ; MBR NOFLAGS 0 (TAG CONTEXT 5) (-1) asn_DEF_FnDsa512Signature None None None "fnDsa512Signature" ].

Definition asn_MAP_Signature_tag2el_1 : list asn_TYPE_tag2member :=
  [ T2M (TAG CONTEXT 0) 0
  ; T2M (TAG CONTEXT 1) 1
  ; T2M (TAG CONTEXT 2) 2
  ; T2M (TAG CONTEXT 3) 3
  ; T2M (TAG CONTEXT 4) 4
  ; T2M (TAG CONTEXT 5) 5 ].

Definition asn_SPC_Signature_specs_1 : asn_CHOICE_specifics :=
  {| tag2el := asn_MAP_Signature_tag2el_1; ext_start := 2 |}.

Definition asn_DEF_Signature : asn_TYPE_descriptor :=
  TD "Signature" (CHOICE asn_SPC_Signature_specs_1)
    [] (Some asn_OER_type_Signature_constr_1) asn_MBR_Signature_1.

Definition asn_MBR_ToBeSignedCertificate_1_part1 : list tmember :=
  [ MBR NOFLAGS 0 (TAG CONTEXT 0) 1 asn_DEF_CertificateId None None None "id"
  ; MBR NOFLAGS 0 (TAG CONTEXT 1) (-1) asn_DEF_HashedId3 None None None "cracaId"
  ; MBR NOFLAGS 0 (TAG CONTEXT 2) (-1) asn_DEF_CrlSeries None None None "crlSeries"
  ; MBR NOFLAGS 0 (TAG CONTEXT 3) (-1) asn_DEF_ValidityPeriod None None None "validityPeriod"
  ; MBR POINTER 7 (TAG CONTEXT 4) 1 asn_DEF_GeographicRegion None None None "region"
  ; MBR POINTER 6 (TAG CONTEXT 5) (-1) asn_DEF_SubjectAssurance None None None "assuranceLevel" ].

Definition asn_MBR_ToBeSignedCertificate_1_part2 : list tmember :=
  [ MBR POINTER 5 (TAG CONTEXT 6) (-1) asn_DEF_SequenceOfPsidSsp None None None "appPermissions"
  ; MBR POINTER 4 (TAG CONTEXT 7) (-1) asn_DEF_SequenceOfPsidGroupPermissions None None None "certIssuePermissions"
  ; MBR POINTER 3 (TAG CONTEXT 8) (-1) asn_DEF_SequenceOfPsidGroupPermissions None None None "certRequestPermissions"
  ; MBR POINTER 2 (TAG CONTEXT 9) (-1) asn_DEF_NULL None None None "canRequestRollover"
  ; MBR POINTER 1 (TAG CONTEXT 10) (-1) asn_DEF_PublicEncryptionKey None None None "encryptionKey"
  ; MBR NOFLAGS 0 (TAG CONTEXT 11) 1 asn_DEF_VerificationKeyIndicator None None None "verifyKeyIndicator" ].

Definition asn_MBR_ToBeSignedCertificate_1_part3 : list tmember :=
  [ MBR POINTER 6 (TAG CONTEXT 12) (-1) asn_DEF_BIT_STRING None (Some asn_OER_memb_flags_constr_15) None "flags"
  ; MBR POINTER 5 (TAG CONTEXT 13) (-1) asn_DEF_SequenceOfAppExtensions None None None "appExtensions"
  ; MBR POINTER 4 (TAG CONTEXT 14) (-1) asn_DEF_SequenceOfCertIssueExtensions None None None "certIssueExtensions"
  ; MBR POINTER 3 (TAG CONTEXT 15) (-1) asn_DEF_SequenceOfCertRequestExtensions None None None "certRequestExtension"
  ; MBR POINTER 2 (TAG CONTEXT 16) 1 asn_DEF_PublicVerificationKey None None None "altVerificationKey"
  ; MBR POINTER 1 (TAG CONTEXT 17) 1 asn_DEF_Signature None None None "altSignatureValue" ].

Definition asn_MBR_ToBeSignedCertificate_1 : list tmember :=
  asn_MBR_ToBeSignedCertificate_1_part1 ++ asn_MBR_ToBeSignedCertificate_1_part2 ++ asn_MBR_ToBeSignedCertificate_1_part3.

Definition asn_SPC_ToBeSignedCertificate_specs_1 : asn_SEQUENCE_specifics :=
  {| roms_count := 7; aoms_count := 6; first_extension := 12 |}.

Definition asn_DEF_ToBeSignedCertificate : asn_TYPE_descriptor :=
  TD "ToBeSignedCertificate" (SEQUENCE asn_SPC_ToBeSignedCertificate_specs_1)
    [(TAG UNIVERSAL 16)] (Some asn_OER_type_ToBeSignedCertificate_constr_1) asn_MBR_ToBeSignedCertificate_1.

Definition asn_MBR_CertificateBase_1 : list tmember :=
  [ MBR NOFLAGS 0 (TAG CONTEXT 0) (-1) asn_DEF_Uint8 None (Some asn_OER_memb_version_constr_2) None "version"
  ; MBR NOFLAGS 0 (TAG CONTEXT 1) (-1) asn_DEF_CertificateType None None None "type"
  ; MBR NOFLAGS 0 (TAG CONTEXT 2) 1 asn_DEF_IssuerIdentifier None None None "issuer"
  ; MBR NOFLAGS 0 (TAG CONTEXT 3) (-1) asn_DEF_ToBeSignedCertificate None None None "toBeSigned"
  ; MBR POINTER 1 (TAG CONTEXT 4) 1 asn_DEF_Signature None None None "signature" ].

Definition asn_SPC_CertificateBase_specs_1 : asn_SEQUENCE_specifics :=
  {| roms_count := 1; aoms_count := 0; first_extension := -1 |}.

Definition asn_DEF_Certificate : asn_TYPE_descriptor :=
  TD "Certificate" (SEQUENCE asn_SPC_CertificateBase_specs_1)
    [(TAG UNIVERSAL 16)] (Some asn_OER_type_Certificate_constr_1) asn_MBR_CertificateBase_1.

(** * Secured messages

    The tables of EtsiTs103097Data.  Its type is recursive: the payload of signed data
    is Ieee1609Dot2Data again.  The tables below are written over the descriptor of
    that nested data, [nested]; [unfolded] ties the knot to a depth, below which the
    nested data has no codec. *)

Section Data.
Variable nested : asn_TYPE_descriptor.

Definition asn_OER_type_SignedDataPayload_constr_1 : asn_oer_constraints :=
  {| width := 0; positive := false; csize := -1 |}.

Definition asn_OER_type_HashedData_constr_1 : asn_oer_constraints :=
  {| width := 0; positive := false; csize := -1 |}.

Definition asn_OER_type_HashedId32_constr_1 : asn_oer_constraints :=
  {| width := 0; positive := false; csize := 32 |}.

Definition asn_DEF_HashedId32 : asn_TYPE_descriptor :=
  TD "HashedId32" (OCTET_STRING (Some ASN_OSUBV_STR))
    [(TAG UNIVERSAL 4)] (Some asn_OER_type_HashedId32_constr_1) [].

Definition asn_OER_type_HashedId48_constr_1 : asn_oer_constraints :=
  {| width := 0; positive := false; csize := 48 |}.

Definition asn_DEF_HashedId48 : asn_TYPE_descriptor :=
  TD "HashedId48" (OCTET_STRING (Some ASN_OSUBV_STR))
    [(TAG UNIVERSAL 4)] (Some asn_OER_type_HashedId48_constr_1) [].

Definition asn_MBR_HashedData_1 : list tmember :=
  [ MBR NOFLAGS 0 (TAG CONTEXT 0) (-1) asn_DEF_HashedId32 None None None "sha256HashedData"
  ; MBR NOFLAGS 0 (TAG CONTEXT 1) (-1) asn_DEF_HashedId48 None None None "sha384HashedData"
  ; MBR NOFLAGS 0 (TAG CONTEXT 2) (-1) asn_DEF_HashedId32 None None None "sm3HashedData" ].

Definition asn_MAP_HashedData_tag2el_1 : list asn_TYPE_tag2member :=
  [ T2M (TAG CONTEXT 0) 0
  ; T2M (TAG CONTEXT 1) 1
  ; T2M (TAG CONTEXT 2) 2 ].

Definition asn_SPC_HashedData_specs_1 : asn_CHOICE_specifics :=
  {| tag2el := asn_MAP_HashedData_tag2el_1; ext_start := 1 |}.

Definition asn_DEF_HashedData : asn_TYPE_descriptor :=
  TD "HashedData" (CHOICE asn_SPC_HashedData_specs_1)
    [] (Some asn_OER_type_HashedData_constr_1) asn_MBR_HashedData_1.

Definition asn_MBR_SignedDataPayload_1 : list tmember :=
  [ MBR POINTER 3 (TAG CONTEXT 0) (-1) nested None None None "data"
  ; MBR POINTER 2 (TAG CONTEXT 1) 1 asn_DEF_HashedData None None None "extDataHash"
  ; MBR POINTER 1 (TAG CONTEXT 2) (-1) asn_DEF_NULL None None None "omitted" ].

Definition asn_SPC_SignedDataPayload_specs_1 : asn_SEQUENCE_specifics :=
  {| roms_count := 2; aoms_count := 1; first_extension := 2 |}.

Definition asn_DEF_SignedDataPayload : asn_TYPE_descriptor :=
  TD "SignedDataPayload" (SEQUENCE asn_SPC_SignedDataPayload_specs_1)
    [(TAG UNIVERSAL 16)] (Some asn_OER_type_SignedDataPayload_constr_1) asn_MBR_SignedDataPayload_1.

Definition asn_OER_type_Time64_constr_1 : asn_oer_constraints :=
  {| width := 8; positive := true; csize := -1 |}.

Definition asn_SPC_Time64_specs_1 : asn_INTEGER_specifics := {| field_unsigned := true |}.

Definition asn_DEF_Time64 : asn_TYPE_descriptor :=
  TD "Time64" (INTEGER (Some asn_SPC_Time64_specs_1))
    [(TAG UNIVERSAL 2)] (Some asn_OER_type_Time64_constr_1) [].

Definition asn_OER_type_Elevation_constr_1 : asn_oer_constraints :=
  {| width := 2; positive := true; csize := -1 |}.

Definition asn_DEF_Elevation : asn_TYPE_descriptor :=
  TD "Elevation" (NativeInteger None) [(TAG UNIVERSAL 2)] (Some asn_OER_type_Elevation_constr_1) [].

Definition asn_MBR_ThreeDLocation_1 : list tmember :=
  [ MBR NOFLAGS 0 (TAG CONTEXT 0) (-1) asn_DEF_Latitude None None None "latitude"
  ; MBR NOFLAGS 0 (TAG CONTEXT 1) (-1) asn_DEF_Longitude None None None "longitude"
  ; MBR NOFLAGS 0 (TAG CONTEXT 2) (-1) asn_DEF_Elevation None None None "elevation" ].

Definition asn_SPC_ThreeDLocation_specs_1 : asn_SEQUENCE_specifics :=
  {| roms_count := 0; aoms_count := 0; first_extension := -1 |}.

Definition asn_DEF_ThreeDLocation : asn_TYPE_descriptor :=
  TD "ThreeDLocation" (SEQUENCE asn_SPC_ThreeDLocation_specs_1)
    [(TAG UNIVERSAL 16)] None asn_MBR_ThreeDLocation_1.

Definition asn_MBR_MissingCrlIdentifier_1 : list tmember :=
  [ MBR NOFLAGS 0 (TAG CONTEXT 0) (-1) asn_DEF_HashedId3 None None None "cracaId"
  ; MBR NOFLAGS 0 (TAG CONTEXT 1) (-1) asn_DEF_CrlSeries None None None "crlSeries" ].

Definition asn_SPC_MissingCrlIdentifier_specs_1 : asn_SEQUENCE_specifics :=
  {| roms_count := 0; aoms_count := 0; first_extension := 2 |}.

Definition asn_DEF_MissingCrlIdentifier : asn_TYPE_descriptor :=
  TD "MissingCrlIdentifier" (SEQUENCE asn_SPC_MissingCrlIdentifier_specs_1)
    [(TAG UNIVERSAL 16)] None asn_MBR_MissingCrlIdentifier_1.

Definition asn_OER_type_EncryptionKey_constr_1 : asn_oer_constraints :=
  {| width := 0; positive := false; csize := -1 |}.

Definition asn_OER_type_SymmetricEncryptionKey_constr_1 : asn_oer_constraints :=
  {| width := 0; positive := false; csize := -1 |}.

Definition asn_OER_memb_aes128Ccm_constr_2 : asn_oer_constraints :=
  {| width := 0; positive := false; csize := 16 |}.

Definition asn_OER_memb_sm4Ccm_constr_4 : asn_oer_constraints :=
  {| width := 0; positive := false; csize := 16 |}.

Definition asn_MBR_SymmetricEncryptionKey_1 : list tmember :=
  [ MBR NOFLAGS 0 (TAG CONTEXT 0) (-1) asn_DEF_OCTET_STRING None (Some asn_OER_memb_aes128Ccm_constr_2) None "aes128Ccm"
  ; MBR NOFLAGS 0 (TAG CONTEXT 1) (-1) asn_DEF_OCTET_STRING None (Some asn_OER_memb_sm4Ccm_constr_4) None "sm4Ccm" ].

Definition asn_MAP_SymmetricEncryptionKey_tag2el_1 : list asn_TYPE_tag2member :=
  [ T2M (TAG CONTEXT 0) 0
  ; T2M (TAG CONTEXT 1) 1 ].

Definition asn_SPC_SymmetricEncryptionKey_specs_1 : asn_CHOICE_specifics :=
  {| tag2el := asn_MAP_SymmetricEncryptionKey_tag2el_1; ext_start := 1 |}.

Definition asn_DEF_SymmetricEncryptionKey : asn_TYPE_descriptor :=
  TD "SymmetricEncryptionKey" (CHOICE asn_SPC_SymmetricEncryptionKey_specs_1)
    [] (Some asn_OER_type_SymmetricEncryptionKey_constr_1) asn_MBR_SymmetricEncryptionKey_1.

Definition asn_MBR_EncryptionKey_1 : list tmember :=
  [ MBR NOFLAGS 0 (TAG CONTEXT 0) (-1) asn_DEF_PublicEncryptionKey None None None "public"
  ; MBR NOFLAGS 0 (TAG CONTEXT 1) 1 asn_DEF_SymmetricEncryptionKey None None None "symmetric" ].

Definition asn_MAP_EncryptionKey_tag2el_1 : list asn_TYPE_tag2member :=
  [ T2M (TAG CONTEXT 0) 0
  ; T2M (TAG CONTEXT 1) 1 ].

Definition asn_SPC_EncryptionKey_specs_1 : asn_CHOICE_specifics :=
  {| tag2el := asn_MAP_EncryptionKey_tag2el_1; ext_start := -1 |}.

Definition asn_DEF_EncryptionKey : asn_TYPE_descriptor :=
  TD "EncryptionKey" (CHOICE asn_SPC_EncryptionKey_specs_1)
    [] (Some asn_OER_type_EncryptionKey_constr_1) asn_MBR_EncryptionKey_1.

Definition asn_MBR_SequenceOfHashedId3_1 : list tmember :=
  [ MBR POINTER 0 (TAG UNIVERSAL 4) 0 asn_DEF_HashedId3 None None None "" ].

Definition asn_DEF_SequenceOfHashedId3 : asn_TYPE_descriptor :=
  TD "SequenceOfHashedId3" SET_OF [(TAG UNIVERSAL 16)] None asn_MBR_SequenceOfHashedId3_1.

Definition asn_OER_type_PduFunctionalType_constr_1 : asn_oer_constraints :=
  {| width := 1; positive := true; csize := -1 |}.

Definition asn_DEF_PduFunctionalType : asn_TYPE_descriptor :=
  TD "PduFunctionalType" (NativeInteger None)
    [(TAG UNIVERSAL 2)] (Some asn_OER_type_PduFunctionalType_constr_1) [].

Definition asn_OER_type_ContributedExtensionBlocks_constr_1 : asn_oer_constraints :=
  {| width := 0; positive := false; csize := -1 |}.

Definition asn_OER_type_HeaderInfoContributorId_constr_1 : asn_oer_constraints :=
  {| width := 1; positive := true; csize := -1 |}.

Definition asn_DEF_HeaderInfoContributorId : asn_TYPE_descriptor :=
  TD "HeaderInfoContributorId" (NativeInteger None)
    [(TAG UNIVERSAL 2)] (Some asn_OER_type_HeaderInfoContributorId_constr_1) [].

Definition asn_OER_memb_contributorId_constr_2 : asn_oer_constraints :=
  {| width := 1; positive := true; csize := -1 |}.

Definition asn_OER_type_extns_constr_3 : asn_oer_constraints :=
  {| width := 0; positive := false; csize := -1 |}.

Definition asn_OER_memb_Member_constr_4 : asn_oer_constraints :=
  {| width := 0; positive := false; csize := -1 |}.

Definition asn_MBR_extns_3 : list tmember :=
  [ MBR (Z.lor ANY_TYPE POINTER) 0 (-1) 0 asn_DEF_ANY None (Some asn_OER_memb_Member_constr_4) None "" ].

Definition asn_DEF_extns_3 : asn_TYPE_descriptor :=
  TD "extns" SET_OF [(TAG CONTEXT 1)] (Some asn_OER_type_extns_constr_3) asn_MBR_extns_3.

Definition asn_OER_memb_extns_constr_3 : asn_oer_constraints :=
  {| width := 0; positive := false; csize := -1 |}.

Definition asn_MBR_ContributedExtensionBlock_1 : list tmember :=
  [ MBR NOFLAGS 0 (TAG CONTEXT 0) (-1) asn_DEF_HeaderInfoContributorId
      None (Some asn_OER_memb_contributorId_constr_2) None "contributorId"
  ; MBR NOFLAGS 0 (TAG CONTEXT 1) 0 asn_DEF_extns_3 None (Some asn_OER_memb_extns_constr_3) None "extns" ].

Definition asn_SPC_ContributedExtensionBlock_specs_1 : asn_SEQUENCE_specifics :=
  {| roms_count := 0; aoms_count := 0; first_extension := -1 |}.

Definition asn_DEF_ContributedExtensionBlock : asn_TYPE_descriptor :=
  TD "ContributedExtensionBlock" (SEQUENCE asn_SPC_ContributedExtensionBlock_specs_1)
    [(TAG UNIVERSAL 16)] None asn_MBR_ContributedExtensionBlock_1.

Definition asn_MBR_ContributedExtensionBlocks_1 : list tmember :=
  [ MBR POINTER 0 (TAG UNIVERSAL 16) 0 asn_DEF_ContributedExtensionBlock None None None "" ].

Definition asn_DEF_ContributedExtensionBlocks : asn_TYPE_descriptor :=
  TD "ContributedExtensionBlocks" SET_OF
    [(TAG UNIVERSAL 16)] (Some asn_OER_type_ContributedExtensionBlocks_constr_1) asn_MBR_ContributedExtensionBlocks_1.

Definition asn_MBR_HeaderInfo_1_part1 : list tmember :=
  [ MBR NOFLAGS 0 (TAG CONTEXT 0) (-1) asn_DEF_Psid None None None "psid"
  ; MBR POINTER 10 (TAG CONTEXT 1) (-1) asn_DEF_Time64 None None None "generationTime"
  ; MBR POINTER 9 (TAG CONTEXT 2) (-1) asn_DEF_Time64 None None None "expiryTime"
  ; MBR POINTER 8 (TAG CONTEXT 3) (-1) asn_DEF_ThreeDLocation None None None "generationLocation"
  ; MBR POINTER 7 (TAG CONTEXT 4) (-1) asn_DEF_HashedId3 None None None "p2pcdLearningRequest"
  ; MBR POINTER 6 (TAG CONTEXT 5) (-1) asn_DEF_MissingCrlIdentifier None None None "missingCrlIdentifier" ].

Definition asn_MBR_HeaderInfo_1_part2 : list tmember :=
  [ MBR POINTER 5 (TAG CONTEXT 6) 1 asn_DEF_EncryptionKey None None None "encryptionKey"
  ; MBR POINTER 4 (TAG CONTEXT 7) (-1) asn_DEF_SequenceOfHashedId3 None None None "inlineP2pcdRequest"
  ; MBR POINTER 3 (TAG CONTEXT 8) (-1) asn_DEF_Certificate None None None "requestedCertificate"
  ; MBR POINTER 2 (TAG CONTEXT 9) (-1) asn_DEF_PduFunctionalType None None None "pduFunctionalType"
  ; MBR POINTER 1 (TAG CONTEXT 10) (-1) asn_DEF_ContributedExtensionBlocks None None None "contributedExtensions" ].

Definition asn_MBR_HeaderInfo_1 : list tmember :=
  asn_MBR_HeaderInfo_1_part1 ++ asn_MBR_HeaderInfo_1_part2.

Definition asn_SPC_HeaderInfo_specs_1 : asn_SEQUENCE_specifics :=
  {| roms_count := 6; aoms_count := 4; first_extension := 7 |}.

Definition asn_DEF_HeaderInfo : asn_TYPE_descriptor :=
  TD "HeaderInfo" (SEQUENCE asn_SPC_HeaderInfo_specs_1)
    [(TAG UNIVERSAL 16)] None asn_MBR_HeaderInfo_1.

Definition asn_MBR_ToBeSignedData_1 : list tmember :=
  [ MBR POINTER 0 (TAG CONTEXT 0) (-1) asn_DEF_SignedDataPayload None None None "payload"
  ; MBR NOFLAGS 0 (TAG CONTEXT 1) (-1) asn_DEF_HeaderInfo None None None "headerInfo" ].

Definition asn_SPC_ToBeSignedData_specs_1 : asn_SEQUENCE_specifics :=
  {| roms_count := 0; aoms_count := 0; first_extension := -1 |}.

Definition asn_DEF_ToBeSignedData : asn_TYPE_descriptor :=
  TD "ToBeSignedData" (SEQUENCE asn_SPC_ToBeSignedData_specs_1)
    [(TAG UNIVERSAL 16)] None asn_MBR_ToBeSignedData_1.

Definition asn_OER_type_Ieee1609Dot2Content_constr_1 : asn_oer_constraints :=
  {| width := 0; positive := false; csize := -1 |}.

Definition asn_DEF_Opaque : asn_TYPE_descriptor :=
  TD "Opaque" (OCTET_STRING (Some ASN_OSUBV_STR)) [(TAG UNIVERSAL 4)] None [].

Definition asn_OER_type_SignerIdentifier_constr_1 : asn_oer_constraints :=
  {| width := 0; positive := false; csize := -1 |}.

Definition asn_MBR_SequenceOfCertificate_1 : list tmember :=
  [ MBR POINTER 0 (TAG UNIVERSAL 16) 0 asn_DEF_Certificate None None None "" ].

Definition asn_DEF_SequenceOfCertificate : asn_TYPE_descriptor :=
  TD "SequenceOfCertificate" SET_OF [(TAG UNIVERSAL 16)] None asn_MBR_SequenceOfCertificate_1.

Definition asn_MBR_SignerIdentifier_1 : list tmember :=
  [ MBR NOFLAGS 0 (TAG CONTEXT 0) (-1) asn_DEF_HashedId8 None None None "digest"
  ; MBR NOFLAGS 0 (TAG CONTEXT 1) (-1) asn_DEF_SequenceOfCertificate None None None "certificate"
  ; MBR NOFLAGS 0 (TAG CONTEXT 2) (-1) asn_DEF_NULL None None None "self" ].

Definition asn_MAP_SignerIdentifier_tag2el_1 : list asn_TYPE_tag2member :=
  [ T2M (TAG CONTEXT 0) 0
  ; T2M (TAG CONTEXT 1) 1
  ; T2M (TAG CONTEXT 2) 2 ].

Definition asn_SPC_SignerIdentifier_specs_1 : asn_CHOICE_specifics :=
  {| tag2el := asn_MAP_SignerIdentifier_tag2el_1; ext_start := 3 |}.

Definition asn_DEF_SignerIdentifier : asn_TYPE_descriptor :=
  TD "SignerIdentifier" (CHOICE asn_SPC_SignerIdentifier_specs_1)
    [] (Some asn_OER_type_SignerIdentifier_constr_1) asn_MBR_SignerIdentifier_1.

Definition asn_MBR_SignedData_1 : list tmember :=
  [ MBR NOFLAGS 0 (TAG CONTEXT 0) (-1) asn_DEF_HashAlgorithm None None None "hashId"
  ; MBR POINTER 0 (TAG CONTEXT 1) (-1) asn_DEF_ToBeSignedData None None None "tbsData"
  ; MBR NOFLAGS 0 (TAG CONTEXT 2) 1 asn_DEF_SignerIdentifier None None None "signer"
  ; MBR NOFLAGS 0 (TAG CONTEXT 3) 1 asn_DEF_Signature None None None "signature" ].

Definition asn_SPC_SignedData_specs_1 : asn_SEQUENCE_specifics :=
  {| roms_count := 0; aoms_count := 0; first_extension := -1 |}.

Definition asn_DEF_SignedData : asn_TYPE_descriptor :=
  TD "SignedData" (SEQUENCE asn_SPC_SignedData_specs_1)
    [(TAG UNIVERSAL 16)] None asn_MBR_SignedData_1.

Definition asn_OER_type_RecipientInfo_constr_1 : asn_oer_constraints :=
  {| width := 0; positive := false; csize := -1 |}.

Definition asn_OER_type_PreSharedKeyRecipientInfo_constr_1 : asn_oer_constraints :=
  {| width := 0; positive := false; csize := 8 |}.

Definition asn_DEF_PreSharedKeyRecipientInfo : asn_TYPE_descriptor :=
  TD "PreSharedKeyRecipientInfo" (OCTET_STRING (Some ASN_OSUBV_STR))
    [(TAG UNIVERSAL 4)] (Some asn_OER_type_PreSharedKeyRecipientInfo_constr_1) [].

Definition asn_OER_type_SymmetricCiphertext_constr_1 : asn_oer_constraints :=
  {| width := 0; positive := false; csize := -1 |}.

Definition asn_OER_memb_nonce_constr_2 : asn_oer_constraints :=
  {| width := 0; positive := false; csize := 12 |}.

Definition asn_MBR_One28BitCcmCiphertext_1 : list tmember :=
  [ MBR NOFLAGS 0 (TAG CONTEXT 0) (-1) asn_DEF_OCTET_STRING None (Some asn_OER_memb_nonce_constr_2) None "nonce"
  ; MBR NOFLAGS 0 (TAG CONTEXT 1) (-1) asn_DEF_Opaque None None None "ccmCiphertext" ].

Definition asn_SPC_One28BitCcmCiphertext_specs_1 : asn_SEQUENCE_specifics :=
  {| roms_count := 0; aoms_count := 0; first_extension := -1 |}.

Definition asn_DEF_One28BitCcmCiphertext : asn_TYPE_descriptor :=
  TD "One28BitCcmCiphertext" (SEQUENCE asn_SPC_One28BitCcmCiphertext_specs_1)
    [(TAG UNIVERSAL 16)] None asn_MBR_One28BitCcmCiphertext_1.

Definition asn_MBR_SymmetricCiphertext_1 : list tmember :=
  [ MBR NOFLAGS 0 (TAG CONTEXT 0) (-1) asn_DEF_One28BitCcmCiphertext None None None "aes128ccm"
  ; MBR NOFLAGS 0 (TAG CONTEXT 1) (-1) asn_DEF_One28BitCcmCiphertext None None None "sm4Ccm" ].

Definition asn_MAP_SymmetricCiphertext_tag2el_1 : list asn_TYPE_tag2member :=
  [ T2M (TAG CONTEXT 0) 0
  ; T2M (TAG CONTEXT 1) 1 ].

Definition asn_SPC_SymmetricCiphertext_specs_1 : asn_CHOICE_specifics :=
  {| tag2el := asn_MAP_SymmetricCiphertext_tag2el_1; ext_start := 1 |}.

Definition asn_DEF_SymmetricCiphertext : asn_TYPE_descriptor :=
  TD "SymmetricCiphertext" (CHOICE asn_SPC_SymmetricCiphertext_specs_1)
    [] (Some asn_OER_type_SymmetricCiphertext_constr_1) asn_MBR_SymmetricCiphertext_1.

Definition asn_MBR_SymmRecipientInfo_1 : list tmember :=
  [ MBR NOFLAGS 0 (TAG CONTEXT 0) (-1) asn_DEF_HashedId8 None None None "recipientId"
  ; MBR NOFLAGS 0 (TAG CONTEXT 1) 1 asn_DEF_SymmetricCiphertext None None None "encKey" ].

Definition asn_SPC_SymmRecipientInfo_specs_1 : asn_SEQUENCE_specifics :=
  {| roms_count := 0; aoms_count := 0; first_extension := -1 |}.

Definition asn_DEF_SymmRecipientInfo : asn_TYPE_descriptor :=
  TD "SymmRecipientInfo" (SEQUENCE asn_SPC_SymmRecipientInfo_specs_1)
    [(TAG UNIVERSAL 16)] None asn_MBR_SymmRecipientInfo_1.

Definition asn_OER_type_EncryptedDataEncryptionKey_constr_1 : asn_oer_constraints :=
  {| width := 0; positive := false; csize := -1 |}.

Definition asn_OER_memb_c_constr_3 : asn_oer_constraints :=
  {| width := 0; positive := false; csize := 16 |}.

Definition asn_OER_memb_t_constr_4 : asn_oer_constraints :=
  {| width := 0; positive := false; csize := 16 |}.

Definition asn_MBR_EciesP256EncryptedKey_1 : list tmember :=
  [ MBR NOFLAGS 0 (TAG CONTEXT 0) 1 asn_DEF_EccP256CurvePoint None None None "v"
  ; MBR NOFLAGS 0 (TAG CONTEXT 1) (-1) asn_DEF_OCTET_STRING None (Some asn_OER_memb_c_constr_3) None "c"
  ; MBR NOFLAGS 0 (TAG CONTEXT 2) (-1) asn_DEF_OCTET_STRING None (Some asn_OER_memb_t_constr_4) None "t" ].

Definition asn_SPC_EciesP256EncryptedKey_specs_1 : asn_SEQUENCE_specifics :=
  {| roms_count := 0; aoms_count := 0; first_extension := -1 |}.

Definition asn_DEF_EciesP256EncryptedKey : asn_TYPE_descriptor :=
  TD "EciesP256EncryptedKey" (SEQUENCE asn_SPC_EciesP256EncryptedKey_specs_1)
    [(TAG UNIVERSAL 16)] None asn_MBR_EciesP256EncryptedKey_1.

Definition asn_OER_memb_c_constr_3_EcencP256EncryptedKey : asn_oer_constraints :=
  {| width := 0; positive := false; csize := 16 |}.

Definition asn_OER_memb_t_constr_4_EcencP256EncryptedKey : asn_oer_constraints :=
  {| width := 0; positive := false; csize := 32 |}.

Definition asn_MBR_EcencP256EncryptedKey_1 : list tmember :=
  [ MBR NOFLAGS 0 (TAG CONTEXT 0) 1 asn_DEF_EccP256CurvePoint None None None "v"
  ; MBR NOFLAGS 0 (TAG CONTEXT 1) (-1) asn_DEF_OCTET_STRING
      None (Some asn_OER_memb_c_constr_3_EcencP256EncryptedKey) None "c"
  ; MBR NOFLAGS 0 (TAG CONTEXT 2) (-1) asn_DEF_OCTET_STRING
      None (Some asn_OER_memb_t_constr_4_EcencP256EncryptedKey) None "t" ].

Definition asn_SPC_EcencP256EncryptedKey_specs_1 : asn_SEQUENCE_specifics :=
  {| roms_count := 0; aoms_count := 0; first_extension := -1 |}.

Definition asn_DEF_EcencP256EncryptedKey : asn_TYPE_descriptor :=
  TD "EcencP256EncryptedKey" (SEQUENCE asn_SPC_EcencP256EncryptedKey_specs_1)
    [(TAG UNIVERSAL 16)] None asn_MBR_EcencP256EncryptedKey_1.

Definition asn_MBR_EncryptedDataEncryptionKey_1 : list tmember :=
  [ MBR NOFLAGS 0 (TAG CONTEXT 0) (-1) asn_DEF_EciesP256EncryptedKey None None None "eciesNistP256"
  ; MBR NOFLAGS 0 (TAG CONTEXT 1) (-1) asn_DEF_EciesP256EncryptedKey None None None "eciesBrainpoolP256r1"
  ; MBR NOFLAGS 0 (TAG CONTEXT 2) (-1) asn_DEF_EcencP256EncryptedKey None None None "ecencSm2256" ].

Definition asn_MAP_EncryptedDataEncryptionKey_tag2el_1 : list asn_TYPE_tag2member :=
  [ T2M (TAG CONTEXT 0) 0
  ; T2M (TAG CONTEXT 1) 1
  ; T2M (TAG CONTEXT 2) 2 ].

Definition asn_SPC_EncryptedDataEncryptionKey_specs_1 : asn_CHOICE_specifics :=
  {| tag2el := asn_MAP_EncryptedDataEncryptionKey_tag2el_1; ext_start := 2 |}.

Definition asn_DEF_EncryptedDataEncryptionKey : asn_TYPE_descriptor :=
  TD "EncryptedDataEncryptionKey" (CHOICE asn_SPC_EncryptedDataEncryptionKey_specs_1)
    [] (Some asn_OER_type_EncryptedDataEncryptionKey_constr_1) asn_MBR_EncryptedDataEncryptionKey_1.

Definition asn_MBR_PKRecipientInfo_1 : list tmember :=
  [ MBR NOFLAGS 0 (TAG CONTEXT 0) (-1) asn_DEF_HashedId8 None None None "recipientId"
  ; MBR NOFLAGS 0 (TAG CONTEXT 1) 1 asn_DEF_EncryptedDataEncryptionKey None None None "encKey" ].

Definition asn_SPC_PKRecipientInfo_specs_1 : asn_SEQUENCE_specifics :=
  {| roms_count := 0; aoms_count := 0; first_extension := -1 |}.

Definition asn_DEF_PKRecipientInfo : asn_TYPE_descriptor :=
  TD "PKRecipientInfo" (SEQUENCE asn_SPC_PKRecipientInfo_specs_1)
    [(TAG UNIVERSAL 16)] None asn_MBR_PKRecipientInfo_1.

Definition asn_MBR_RecipientInfo_1 : list tmember :=
  [ MBR NOFLAGS 0 (TAG CONTEXT 0) (-1) asn_DEF_PreSharedKeyRecipientInfo None None None "pskRecipInfo"
  ; MBR NOFLAGS 0 (TAG CONTEXT 1) (-1) asn_DEF_SymmRecipientInfo None None None "symmRecipInfo"
  ; MBR NOFLAGS 0 (TAG CONTEXT 2) (-1) asn_DEF_PKRecipientInfo None None None "certRecipInfo"
  ; MBR NOFLAGS 0 (TAG CONTEXT 3) (-1) asn_DEF_PKRecipientInfo None None None "signedDataRecipInfo"
  ; MBR NOFLAGS 0 (TAG CONTEXT 4) (-1) asn_DEF_PKRecipientInfo None None None "rekRecipInfo" ].

Definition asn_MAP_RecipientInfo_tag2el_1 : list asn_TYPE_tag2member :=
  [ T2M (TAG CONTEXT 0) 0
  ; T2M (TAG CONTEXT 1) 1
  ; T2M (TAG CONTEXT 2) 2
  ; T2M (TAG CONTEXT 3) 3
  ; T2M (TAG CONTEXT 4) 4 ].

Definition asn_SPC_RecipientInfo_specs_1 : asn_CHOICE_specifics :=
  {| tag2el := asn_MAP_RecipientInfo_tag2el_1; ext_start := -1 |}.

Definition asn_DEF_RecipientInfo : asn_TYPE_descriptor :=
  TD "RecipientInfo" (CHOICE asn_SPC_RecipientInfo_specs_1)
    [] (Some asn_OER_type_RecipientInfo_constr_1) asn_MBR_RecipientInfo_1.

Definition asn_MBR_SequenceOfRecipientInfo_1 : list tmember :=
  [ MBR POINTER 0 (-1) 0 asn_DEF_RecipientInfo None None None "" ].

Definition asn_DEF_SequenceOfRecipientInfo : asn_TYPE_descriptor :=
  TD "SequenceOfRecipientInfo" SET_OF [(TAG UNIVERSAL 16)] None asn_MBR_SequenceOfRecipientInfo_1.

Definition asn_MBR_EncryptedData_1 : list tmember :=
  [ MBR NOFLAGS 0 (TAG CONTEXT 0) (-1) asn_DEF_SequenceOfRecipientInfo None None None "recipients"
  ; MBR NOFLAGS 0 (TAG CONTEXT 1) 1 asn_DEF_SymmetricCiphertext None None None "ciphertext" ].

Definition asn_SPC_EncryptedData_specs_1 : asn_SEQUENCE_specifics :=
  {| roms_count := 0; aoms_count := 0; first_extension := -1 |}.

Definition asn_DEF_EncryptedData : asn_TYPE_descriptor :=
  TD "EncryptedData" (SEQUENCE asn_SPC_EncryptedData_specs_1)
    [(TAG UNIVERSAL 16)] None asn_MBR_EncryptedData_1.

Definition asn_MBR_Ieee1609Dot2Content_1 : list tmember :=
  [ MBR NOFLAGS 0 (TAG CONTEXT 0) (-1) asn_DEF_Opaque None None None "unsecuredData"
  ; MBR POINTER 0 (TAG CONTEXT 1) (-1) asn_DEF_SignedData None None None "signedData"
  ; MBR NOFLAGS 0 (TAG CONTEXT 2) (-1) asn_DEF_EncryptedData None None None "encryptedData"
  ; MBR NOFLAGS 0 (TAG CONTEXT 3) (-1) asn_DEF_Opaque None None None "signedCertificateRequest"
  ; MBR NOFLAGS 0 (TAG CONTEXT 4) (-1) asn_DEF_Opaque None None None "signedX509CertificateRequest" ].

Definition asn_MAP_Ieee1609Dot2Content_tag2el_1 : list asn_TYPE_tag2member :=
  [ T2M (TAG CONTEXT 0) 0
  ; T2M (TAG CONTEXT 1) 1
  ; T2M (TAG CONTEXT 2) 2
  ; T2M (TAG CONTEXT 3) 3
  ; T2M (TAG CONTEXT 4) 4 ].

Definition asn_SPC_Ieee1609Dot2Content_specs_1 : asn_CHOICE_specifics :=
  {| tag2el := asn_MAP_Ieee1609Dot2Content_tag2el_1; ext_start := 4 |}.

Definition asn_DEF_Ieee1609Dot2Content : asn_TYPE_descriptor :=
  TD "Ieee1609Dot2Content" (CHOICE asn_SPC_Ieee1609Dot2Content_specs_1)
    [] (Some asn_OER_type_Ieee1609Dot2Content_constr_1) asn_MBR_Ieee1609Dot2Content_1.

Definition asn_OER_memb_protocolVersion_constr_2 : asn_oer_constraints :=
  {| width := 1; positive := true; csize := -1 |}.

Definition asn_MBR_Ieee1609Dot2Data_1 : list tmember :=
  [ MBR NOFLAGS 0 (TAG CONTEXT 0) (-1) asn_DEF_Uint8
      None (Some asn_OER_memb_protocolVersion_constr_2) None "protocolVersion"
  ; MBR POINTER 0 (TAG CONTEXT 1) 1 asn_DEF_Ieee1609Dot2Content None None None "content" ].

Definition asn_SPC_Ieee1609Dot2Data_specs_1 : asn_SEQUENCE_specifics :=
  {| roms_count := 0; aoms_count := 0; first_extension := -1 |}.

Definition asn_DEF_Ieee1609Dot2Data : asn_TYPE_descriptor :=
  TD "Ieee1609Dot2Data" (SEQUENCE asn_SPC_Ieee1609Dot2Data_specs_1)
    [(TAG UNIVERSAL 16)] None asn_MBR_Ieee1609Dot2Data_1.

Definition asn_OER_type_EtsiTs103097Data_constr_1 : asn_oer_constraints :=
  {| width := 0; positive := false; csize := -1 |}.

Definition asn_DEF_EtsiTs103097Data : asn_TYPE_descriptor :=
  TD "EtsiTs103097Data" (SEQUENCE asn_SPC_Ieee1609Dot2Data_specs_1)
    [(TAG UNIVERSAL 16)] (Some asn_OER_type_EtsiTs103097Data_constr_1) asn_MBR_Ieee1609Dot2Data_1.

End Data.

Fixpoint unfolded (depth : nat) : asn_TYPE_descriptor :=
  match depth with
  | O => asn_DEF_ANY
  | S depth => asn_DEF_Ieee1609Dot2Data (unfolded depth)
  end.
