(* ===== verification/StandardTables.v ===== *)
(** Tables of the standard profiles.

    The certificate of the standard security profile, release 1: the same tables as in
    the post-quantum profile, from asn1/security/*.c, where the certificate has no
    extension additions.  The C names are the same in both profiles; here they end in
    [_r1].  Then the full position vector of the ITS message set, from asn1/its/*.c;
    its names end in [_its]. *)

From stdpp Require Import prelude strings.
From S2P Require Import Prelude Descriptor OerSem OerCodec.

Definition asn_OER_type_Certificate_constr_1_r1 : asn_oer_constraints :=
  {| width := 0; positive := false; csize := -1 |}.

Definition asn_OER_type_Uint8_constr_1_r1 : asn_oer_constraints :=
  {| width := 1; positive := true; csize := -1 |}.

Definition asn_DEF_Uint8_r1 : asn_TYPE_descriptor :=
  TD "Uint8" (NativeInteger None) [(TAG UNIVERSAL 2)] (Some asn_OER_type_Uint8_constr_1_r1) [].

Definition asn_OER_memb_version_constr_2_r1 : asn_oer_constraints :=
  {| width := 1; positive := true; csize := -1 |}.

Definition asn_OER_type_CertificateType_constr_1_r1 : asn_oer_constraints :=
  {| width := 0; positive := false; csize := -1 |}.

Definition asn_SPC_CertificateType_specs_1_r1 : asn_INTEGER_specifics := {| field_unsigned := false |}.

Definition asn_DEF_CertificateType_r1 : asn_TYPE_descriptor :=
  TD "CertificateType" (NativeEnumerated (Some asn_SPC_CertificateType_specs_1_r1))
    [(TAG UNIVERSAL 10)] (Some asn_OER_type_CertificateType_constr_1_r1) [].

Definition asn_OER_type_IssuerIdentifier_constr_1_r1 : asn_oer_constraints :=
  {| width := 0; positive := false; csize := -1 |}.

Definition asn_OER_type_HashedId8_constr_1_r1 : asn_oer_constraints :=
  {| width := 0; positive := false; csize := 8 |}.

Definition asn_DEF_HashedId8_r1 : asn_TYPE_descriptor :=
  TD "HashedId8" (OCTET_STRING (Some ASN_OSUBV_STR))
    [(TAG UNIVERSAL 4)] (Some asn_OER_type_HashedId8_constr_1_r1) [].

Definition asn_OER_type_HashAlgorithm_constr_1_r1 : asn_oer_constraints :=
  {| width := 0; positive := false; csize := -1 |}.

Definition asn_SPC_HashAlgorithm_specs_1_r1 : asn_INTEGER_specifics := {| field_unsigned := false |}.

Definition asn_DEF_HashAlgorithm_r1 : asn_TYPE_descriptor :=
  TD "HashAlgorithm" (NativeEnumerated (Some asn_SPC_HashAlgorithm_specs_1_r1))
    [(TAG UNIVERSAL 10)] (Some asn_OER_type_HashAlgorithm_constr_1_r1) [].

Definition asn_MBR_IssuerIdentifier_1_r1 : list tmember :=
  [ MBR NOFLAGS 0 (TAG CONTEXT 0) (-1) asn_DEF_HashedId8_r1 None None None "sha256AndDigest"
  ; MBR NOFLAGS 0 (TAG CONTEXT 1) (-1) asn_DEF_HashAlgorithm_r1 None None None "self"
  ; MBR NOFLAGS 0 (TAG CONTEXT 2) (-1) asn_DEF_HashedId8_r1 None None None "sha384AndDigest" ].

Definition asn_MAP_IssuerIdentifier_tag2el_1_r1 : list asn_TYPE_tag2member :=
  [ T2M (TAG CONTEXT 0) 0
  ; T2M (TAG CONTEXT 1) 1
  ; T2M (TAG CONTEXT 2) 2 ].

Definition asn_SPC_IssuerIdentifier_specs_1_r1 : asn_CHOICE_specifics :=
  {| tag2el := asn_MAP_IssuerIdentifier_tag2el_1_r1; ext_start := 2 |}.

Definition asn_DEF_IssuerIdentifier_r1 : asn_TYPE_descriptor :=
  TD "IssuerIdentifier" (CHOICE asn_SPC_IssuerIdentifier_specs_1_r1)
    [] (Some asn_OER_type_IssuerIdentifier_constr_1_r1) asn_MBR_IssuerIdentifier_1_r1.

Definition asn_OER_type_ToBeSignedCertificate_constr_1_r1 : asn_oer_constraints :=
  {| width := 0; positive := false; csize := -1 |}.

Definition asn_OER_type_CertificateId_constr_1_r1 : asn_oer_constraints :=
  {| width := 0; positive := false; csize := -1 |}.

Definition asn_OER_type_IValue_constr_1_r1 : asn_oer_constraints :=
  {| width := 2; positive := true; csize := -1 |}.

Definition asn_DEF_IValue_r1 : asn_TYPE_descriptor :=
  TD "IValue" (NativeInteger None) [(TAG UNIVERSAL 2)] (Some asn_OER_type_IValue_constr_1_r1) [].

Definition asn_OER_type_LinkageValue_constr_1_r1 : asn_oer_constraints :=
  {| width := 0; positive := false; csize := 9 |}.

Definition asn_DEF_LinkageValue_r1 : asn_TYPE_descriptor :=
  TD "LinkageValue" (OCTET_STRING (Some ASN_OSUBV_STR))
    [(TAG UNIVERSAL 4)] (Some asn_OER_type_LinkageValue_constr_1_r1) [].

Definition asn_OER_memb_jValue_constr_2_r1 : asn_oer_constraints :=
  {| width := 0; positive := false; csize := 4 |}.

Definition asn_OER_memb_value_constr_3_r1 : asn_oer_constraints :=
  {| width := 0; positive := false; csize := 9 |}.

Definition asn_MBR_GroupLinkageValue_1_r1 : list tmember :=
  [ MBR NOFLAGS 0 (TAG CONTEXT 0) (-1) asn_DEF_OCTET_STRING None (Some asn_OER_memb_jValue_constr_2_r1) None "jValue"
  ; MBR NOFLAGS 0 (TAG CONTEXT 1) (-1) asn_DEF_OCTET_STRING None (Some asn_OER_memb_value_constr_3_r1) None "value" ].

Definition asn_SPC_GroupLinkageValue_specs_1_r1 : asn_SEQUENCE_specifics :=
  {| roms_count := 0; aoms_count := 0; first_extension := -1 |}.

Definition asn_DEF_GroupLinkageValue_r1 : asn_TYPE_descriptor :=
  TD "GroupLinkageValue" (SEQUENCE asn_SPC_GroupLinkageValue_specs_1_r1)
    [(TAG UNIVERSAL 16)] None asn_MBR_GroupLinkageValue_1_r1.

Definition asn_MBR_LinkageData_1_r1 : list tmember :=
  [ MBR NOFLAGS 0 (TAG CONTEXT 0) (-1) asn_DEF_IValue_r1 None None None "iCert"
  ; MBR NOFLAGS 0 (TAG CONTEXT 1) (-1) asn_DEF_LinkageValue_r1 None None None "linkage-value"
  ; MBR POINTER 1 (TAG CONTEXT 2) (-1) asn_DEF_GroupLinkageValue_r1 None None None "group-linkage-value" ].

Definition asn_SPC_LinkageData_specs_1_r1 : asn_SEQUENCE_specifics :=
  {| roms_count := 1; aoms_count := 0; first_extension := -1 |}.

Definition asn_DEF_LinkageData_r1 : asn_TYPE_descriptor :=
  TD "LinkageData" (SEQUENCE asn_SPC_LinkageData_specs_1_r1)
    [(TAG UNIVERSAL 16)] None asn_MBR_LinkageData_1_r1.

Definition asn_OER_type_Hostname_constr_1_r1 : asn_oer_constraints :=
  {| width := 0; positive := false; csize := -1 |}.

Definition asn_DEF_Hostname_r1 : asn_TYPE_descriptor :=
  TD "Hostname" (OCTET_STRING None)
    [(TAG UNIVERSAL 12)] (Some asn_OER_type_Hostname_constr_1_r1) [].

Definition asn_OER_memb_binaryId_constr_4_r1 : asn_oer_constraints :=
  {| width := 0; positive := false; csize := -1 |}.

Definition asn_MBR_CertificateId_1_r1 : list tmember :=
  [ MBR NOFLAGS 0 (TAG CONTEXT 0) (-1) asn_DEF_LinkageData_r1 None None None "linkageData"
  ; MBR NOFLAGS 0 (TAG CONTEXT 1) (-1) asn_DEF_Hostname_r1 None None None "name"
  ; MBR NOFLAGS 0 (TAG CONTEXT 2) (-1) asn_DEF_OCTET_STRING None (Some asn_OER_memb_binaryId_constr_4_r1) None "binaryId"
  ; MBR NOFLAGS 0 (TAG CONTEXT 3) (-1) asn_DEF_NULL None None None "none" ].

Definition asn_MAP_CertificateId_tag2el_1_r1 : list asn_TYPE_tag2member :=
  [ T2M (TAG CONTEXT 0) 0
  ; T2M (TAG CONTEXT 1) 1
  ; T2M (TAG CONTEXT 2) 2
  ; T2M (TAG CONTEXT 3) 3 ].

Definition asn_SPC_CertificateId_specs_1_r1 : asn_CHOICE_specifics :=
  {| tag2el := asn_MAP_CertificateId_tag2el_1_r1; ext_start := 4 |}.

Definition asn_DEF_CertificateId_r1 : asn_TYPE_descriptor :=
  TD "CertificateId" (CHOICE asn_SPC_CertificateId_specs_1_r1)
    [] (Some asn_OER_type_CertificateId_constr_1_r1) asn_MBR_CertificateId_1_r1.

Definition asn_OER_type_HashedId3_constr_1_r1 : asn_oer_constraints :=
  {| width := 0; positive := false; csize := 3 |}.

Definition asn_DEF_HashedId3_r1 : asn_TYPE_descriptor :=
  TD "HashedId3" (OCTET_STRING (Some ASN_OSUBV_STR))
    [(TAG UNIVERSAL 4)] (Some asn_OER_type_HashedId3_constr_1_r1) [].

Definition asn_OER_type_CrlSeries_constr_1_r1 : asn_oer_constraints :=
  {| width := 2; positive := true; csize := -1 |}.

Definition asn_DEF_CrlSeries_r1 : asn_TYPE_descriptor :=
  TD "CrlSeries" (NativeInteger None)
    [(TAG UNIVERSAL 2)] (Some asn_OER_type_CrlSeries_constr_1_r1) [].

Definition asn_OER_type_Time32_constr_1_r1 : asn_oer_constraints :=
  {| width := 4; positive := true; csize := -1 |}.

Definition asn_SPC_Uint32_specs_1_r1 : asn_INTEGER_specifics := {| field_unsigned := true |}.

Definition asn_DEF_Time32_r1 : asn_TYPE_descriptor :=
  TD "Time32" (NativeInteger (Some asn_SPC_Uint32_specs_1_r1))
    [(TAG UNIVERSAL 2)] (Some asn_OER_type_Time32_constr_1_r1) [].

Definition asn_OER_type_Duration_constr_1_r1 : asn_oer_constraints :=
  {| width := 0; positive := false; csize := -1 |}.

Definition asn_OER_type_Uint16_constr_1_r1 : asn_oer_constraints :=
  {| width := 2; positive := true; csize := -1 |}.

Definition asn_DEF_Uint16_r1 : asn_TYPE_descriptor :=
  TD "Uint16" (NativeInteger None) [(TAG UNIVERSAL 2)] (Some asn_OER_type_Uint16_constr_1_r1) [].

Definition asn_MBR_Duration_1_r1 : list tmember :=
  [ MBR NOFLAGS 0 (TAG CONTEXT 0) (-1) asn_DEF_Uint16_r1 None None None "microseconds"
  ; MBR NOFLAGS 0 (TAG CONTEXT 1) (-1) asn_DEF_Uint16_r1 None None None "milliseconds"
  ; MBR NOFLAGS 0 (TAG CONTEXT 2) (-1) asn_DEF_Uint16_r1 None None None "seconds"
  ; MBR NOFLAGS 0 (TAG CONTEXT 3) (-1) asn_DEF_Uint16_r1 None None None "minutes"
  ; MBR NOFLAGS 0 (TAG CONTEXT 4) (-1) asn_DEF_Uint16_r1 None None None "hours"
  ; MBR NOFLAGS 0 (TAG CONTEXT 5) (-1) asn_DEF_Uint16_r1 None None None "sixtyHours"
  ; MBR NOFLAGS 0 (TAG CONTEXT 6) (-1) asn_DEF_Uint16_r1 None None None "years" ].

Definition asn_MAP_Duration_tag2el_1_r1 : list asn_TYPE_tag2member :=
  [ T2M (TAG CONTEXT 0) 0
  ; T2M (TAG CONTEXT 1) 1
  ; T2M (TAG CONTEXT 2) 2
  ; T2M (TAG CONTEXT 3) 3
  ; T2M (TAG CONTEXT 4) 4
  ; T2M (TAG CONTEXT 5) 5
  ; T2M (TAG CONTEXT 6) 6 ].

Definition asn_SPC_Duration_specs_1_r1 : asn_CHOICE_specifics :=
  {| tag2el := asn_MAP_Duration_tag2el_1_r1; ext_start := -1 |}.

Definition asn_DEF_Duration_r1 : asn_TYPE_descriptor :=
  TD "Duration" (CHOICE asn_SPC_Duration_specs_1_r1)
    [] (Some asn_OER_type_Duration_constr_1_r1) asn_MBR_Duration_1_r1.

Definition asn_MBR_ValidityPeriod_1_r1 : list tmember :=
  [ MBR NOFLAGS 0 (TAG CONTEXT 0) (-1) asn_DEF_Time32_r1 None None None "start"
  ; MBR NOFLAGS 0 (TAG CONTEXT 1) 1 asn_DEF_Duration_r1 None None None "duration" ].

Definition asn_SPC_ValidityPeriod_specs_1_r1 : asn_SEQUENCE_specifics :=
  {| roms_count := 0; aoms_count := 0; first_extension := -1 |}.

Definition asn_DEF_ValidityPeriod_r1 : asn_TYPE_descriptor :=
  TD "ValidityPeriod" (SEQUENCE asn_SPC_ValidityPeriod_specs_1_r1)
    [(TAG UNIVERSAL 16)] None asn_MBR_ValidityPeriod_1_r1.

Definition asn_OER_type_GeographicRegion_constr_1_r1 : asn_oer_constraints :=
  {| width := 0; positive := false; csize := -1 |}.

Definition asn_OER_type_Latitude_constr_1_r1 : asn_oer_constraints :=
  {| width := 4; positive := false; csize := -1 |}.

Definition asn_DEF_Latitude_r1 : asn_TYPE_descriptor :=
  TD "Latitude" (NativeInteger None)
    [(TAG UNIVERSAL 2)] (Some asn_OER_type_Latitude_constr_1_r1) [].

Definition asn_OER_type_Longitude_constr_1_r1 : asn_oer_constraints :=
  {| width := 4; positive := false; csize := -1 |}.

Definition asn_DEF_Longitude_r1 : asn_TYPE_descriptor :=
  TD "Longitude" (NativeInteger None)
    [(TAG UNIVERSAL 2)] (Some asn_OER_type_Longitude_constr_1_r1) [].

Definition asn_MBR_TwoDLocation_1_r1 : list tmember :=
  [ MBR NOFLAGS 0 (TAG CONTEXT 0) (-1) asn_DEF_Latitude_r1 None None None "latitude"
  ; MBR NOFLAGS 0 (TAG CONTEXT 1) (-1) asn_DEF_Longitude_r1 None None None "longitude" ].

Definition asn_SPC_TwoDLocation_specs_1_r1 : asn_SEQUENCE_specifics :=
  {| roms_count := 0; aoms_count := 0; first_extension := -1 |}.

Definition asn_DEF_TwoDLocation_r1 : asn_TYPE_descriptor :=
  TD "TwoDLocation" (SEQUENCE asn_SPC_TwoDLocation_specs_1_r1)
    [(TAG UNIVERSAL 16)] None asn_MBR_TwoDLocation_1_r1.

Definition asn_MBR_CircularRegion_1_r1 : list tmember :=
  [ MBR NOFLAGS 0 (TAG CONTEXT 0) (-1) asn_DEF_TwoDLocation_r1 None None None "center"
  ; MBR NOFLAGS 0 (TAG CONTEXT 1) (-1) asn_DEF_Uint16_r1 None None None "radius" ].

Definition asn_SPC_CircularRegion_specs_1_r1 : asn_SEQUENCE_specifics :=
  {| roms_count := 0; aoms_count := 0; first_extension := -1 |}.

Definition asn_DEF_CircularRegion_r1 : asn_TYPE_descriptor :=
  TD "CircularRegion" (SEQUENCE asn_SPC_CircularRegion_specs_1_r1)
    [(TAG UNIVERSAL 16)] None asn_MBR_CircularRegion_1_r1.

Definition asn_MBR_RectangularRegion_1_r1 : list tmember :=
  [ MBR NOFLAGS 0 (TAG CONTEXT 0) (-1) asn_DEF_TwoDLocation_r1 None None None "northWest"
  ; MBR NOFLAGS 0 (TAG CONTEXT 1) (-1) asn_DEF_TwoDLocation_r1 None None None "southEast" ].

Definition asn_SPC_RectangularRegion_specs_1_r1 : asn_SEQUENCE_specifics :=
  {| roms_count := 0; aoms_count := 0; first_extension := -1 |}.

Definition asn_DEF_RectangularRegion_r1 : asn_TYPE_descriptor :=
  TD "RectangularRegion" (SEQUENCE asn_SPC_RectangularRegion_specs_1_r1)
    [(TAG UNIVERSAL 16)] None asn_MBR_RectangularRegion_1_r1.

Definition asn_MBR_SequenceOfRectangularRegion_1_r1 : list tmember :=
  [ MBR POINTER 0 (TAG UNIVERSAL 16) 0 asn_DEF_RectangularRegion_r1 None None None "" ].

Definition asn_DEF_SequenceOfRectangularRegion_r1 : asn_TYPE_descriptor :=
  TD "SequenceOfRectangularRegion" SET_OF
    [(TAG UNIVERSAL 16)] None asn_MBR_SequenceOfRectangularRegion_1_r1.

Definition asn_OER_type_PolygonalRegion_constr_1_r1 : asn_oer_constraints :=
  {| width := 0; positive := false; csize := -1 |}.

Definition asn_MBR_PolygonalRegion_1_r1 : list tmember :=
  [ MBR POINTER 0 (TAG UNIVERSAL 16) 0 asn_DEF_TwoDLocation_r1 None None None "" ].

Definition asn_DEF_PolygonalRegion_r1 : asn_TYPE_descriptor :=
  TD "PolygonalRegion" SET_OF
    [(TAG UNIVERSAL 16)] (Some asn_OER_type_PolygonalRegion_constr_1_r1) asn_MBR_PolygonalRegion_1_r1.

Definition asn_OER_type_IdentifiedRegion_constr_1_r1 : asn_oer_constraints :=
  {| width := 0; positive := false; csize := -1 |}.

Definition asn_OER_type_CountryOnly_constr_1_r1 : asn_oer_constraints :=
  {| width := 2; positive := true; csize := -1 |}.

Definition asn_DEF_CountryOnly_r1 : asn_TYPE_descriptor :=
  TD "CountryOnly" (NativeInteger None)
    [(TAG UNIVERSAL 2)] (Some asn_OER_type_CountryOnly_constr_1_r1) [].

Definition asn_MBR_SequenceOfUint8_1_r1 : list tmember :=
  [ MBR POINTER 0 (TAG UNIVERSAL 2) 0 asn_DEF_Uint8_r1 None None None "" ].

Definition asn_DEF_SequenceOfUint8_r1 : asn_TYPE_descriptor :=
  TD "SequenceOfUint8" SET_OF [(TAG UNIVERSAL 16)] None asn_MBR_SequenceOfUint8_1_r1.

Definition asn_MBR_CountryAndRegions_1_r1 : list tmember :=
  [ MBR NOFLAGS 0 (TAG CONTEXT 0) (-1) asn_DEF_CountryOnly_r1 None None None "countryOnly"
  ; MBR NOFLAGS 0 (TAG CONTEXT 1) (-1) asn_DEF_SequenceOfUint8_r1 None None None "regions" ].

Definition asn_SPC_CountryAndRegions_specs_1_r1 : asn_SEQUENCE_specifics :=
  {| roms_count := 0; aoms_count := 0; first_extension := -1 |}.

Definition asn_DEF_CountryAndRegions_r1 : asn_TYPE_descriptor :=
  TD "CountryAndRegions" (SEQUENCE asn_SPC_CountryAndRegions_specs_1_r1)
    [(TAG UNIVERSAL 16)] None asn_MBR_CountryAndRegions_1_r1.

Definition asn_MBR_SequenceOfUint16_1_r1 : list tmember :=
  [ MBR POINTER 0 (TAG UNIVERSAL 2) 0 asn_DEF_Uint16_r1 None None None "" ].

Definition asn_DEF_SequenceOfUint16_r1 : asn_TYPE_descriptor :=
  TD "SequenceOfUint16" SET_OF [(TAG UNIVERSAL 16)] None asn_MBR_SequenceOfUint16_1_r1.

Definition asn_MBR_RegionAndSubregions_1_r1 : list tmember :=
  [ MBR NOFLAGS 0 (TAG CONTEXT 0) (-1) asn_DEF_Uint8_r1 None None None "region"
  ; MBR NOFLAGS 0 (TAG CONTEXT 1) (-1) asn_DEF_SequenceOfUint16_r1 None None None "subregions" ].

Definition asn_SPC_RegionAndSubregions_specs_1_r1 : asn_SEQUENCE_specifics :=
  {| roms_count := 0; aoms_count := 0; first_extension := -1 |}.

Definition asn_DEF_RegionAndSubregions_r1 : asn_TYPE_descriptor :=
  TD "RegionAndSubregions" (SEQUENCE asn_SPC_RegionAndSubregions_specs_1_r1)
    [(TAG UNIVERSAL 16)] None asn_MBR_RegionAndSubregions_1_r1.

Definition asn_MBR_SequenceOfRegionAndSubregions_1_r1 : list tmember :=
  [ MBR POINTER 0 (TAG UNIVERSAL 16) 0 asn_DEF_RegionAndSubregions_r1 None None None "" ].

Definition asn_DEF_SequenceOfRegionAndSubregions_r1 : asn_TYPE_descriptor :=
  TD "SequenceOfRegionAndSubregions" SET_OF
    [(TAG UNIVERSAL 16)] None asn_MBR_SequenceOfRegionAndSubregions_1_r1.

Definition asn_MBR_CountryAndSubregions_1_r1 : list tmember :=
  [ MBR NOFLAGS 0 (TAG CONTEXT 0) (-1) asn_DEF_CountryOnly_r1 None None None "country"
  ; MBR NOFLAGS 0 (TAG CONTEXT 1) (-1) asn_DEF_SequenceOfRegionAndSubregions_r1 None None None "regionAndSubregions" ].

Definition asn_SPC_CountryAndSubregions_specs_1_r1 : asn_SEQUENCE_specifics :=
  {| roms_count := 0; aoms_count := 0; first_extension := -1 |}.

Definition asn_DEF_CountryAndSubregions_r1 : asn_TYPE_descriptor :=
  TD "CountryAndSubregions" (SEQUENCE asn_SPC_CountryAndSubregions_specs_1_r1)
    [(TAG UNIVERSAL 16)] None asn_MBR_CountryAndSubregions_1_r1.

Definition asn_MBR_IdentifiedRegion_1_r1 : list tmember :=
  [ MBR NOFLAGS 0 (TAG CONTEXT 0) (-1) asn_DEF_CountryOnly_r1 None None None "countryOnly"
  ; MBR NOFLAGS 0 (TAG CONTEXT 1) (-1) asn_DEF_CountryAndRegions_r1 None None None "countryAndRegions"
  ; MBR NOFLAGS 0 (TAG CONTEXT 2) (-1) asn_DEF_CountryAndSubregions_r1 None None None "countryAndSubregions" ].

Definition asn_MAP_IdentifiedRegion_tag2el_1_r1 : list asn_TYPE_tag2member :=
  [ T2M (TAG CONTEXT 0) 0
  ; T2M (TAG CONTEXT 1) 1
  ; T2M (TAG CONTEXT 2) 2 ].

Definition asn_SPC_IdentifiedRegion_specs_1_r1 : asn_CHOICE_specifics :=
  {| tag2el := asn_MAP_IdentifiedRegion_tag2el_1_r1; ext_start := 3 |}.

Definition asn_DEF_IdentifiedRegion_r1 : asn_TYPE_descriptor :=
  TD "IdentifiedRegion" (CHOICE asn_SPC_IdentifiedRegion_specs_1_r1)
    [] (Some asn_OER_type_IdentifiedRegion_constr_1_r1) asn_MBR_IdentifiedRegion_1_r1.

Definition asn_MBR_SequenceOfIdentifiedRegion_1_r1 : list tmember :=
  [ MBR POINTER 0 (-1) 0 asn_DEF_IdentifiedRegion_r1 None None None "" ].

Definition asn_DEF_SequenceOfIdentifiedRegion_r1 : asn_TYPE_descriptor :=
  TD "SequenceOfIdentifiedRegion" SET_OF
    [(TAG UNIVERSAL 16)] None asn_MBR_SequenceOfIdentifiedRegion_1_r1.

Definition asn_MBR_GeographicRegion_1_r1 : list tmember :=
  [ MBR NOFLAGS 0 (TAG CONTEXT 0) (-1) asn_DEF_CircularRegion_r1 None None None "circularRegion"
  ; MBR NOFLAGS 0 (TAG CONTEXT 1) (-1) asn_DEF_SequenceOfRectangularRegion_r1 None None None "rectangularRegion"
  ; MBR NOFLAGS 0 (TAG CONTEXT 2) (-1) asn_DEF_PolygonalRegion_r1 None None None "polygonalRegion"
  ; MBR NOFLAGS 0 (TAG CONTEXT 3) (-1) asn_DEF_SequenceOfIdentifiedRegion_r1 None None None "identifiedRegion" ].

Definition asn_MAP_GeographicRegion_tag2el_1_r1 : list asn_TYPE_tag2member :=
  [ T2M (TAG CONTEXT 0) 0
  ; T2M (TAG CONTEXT 1) 1
  ; T2M (TAG CONTEXT 2) 2
  ; T2M (TAG CONTEXT 3) 3 ].

Definition asn_SPC_GeographicRegion_specs_1_r1 : asn_CHOICE_specifics :=
  {| tag2el := asn_MAP_GeographicRegion_tag2el_1_r1; ext_start := 4 |}.

Definition asn_DEF_GeographicRegion_r1 : asn_TYPE_descriptor :=
  TD "GeographicRegion" (CHOICE asn_SPC_GeographicRegion_specs_1_r1)
    [] (Some asn_OER_type_GeographicRegion_constr_1_r1) asn_MBR_GeographicRegion_1_r1.

Definition asn_OER_type_SubjectAssurance_constr_1_r1 : asn_oer_constraints :=
  {| width := 0; positive := false; csize := 1 |}.

Definition asn_DEF_SubjectAssurance_r1 : asn_TYPE_descriptor :=
  TD "SubjectAssurance" (OCTET_STRING (Some ASN_OSUBV_STR))
    [(TAG UNIVERSAL 4)] (Some asn_OER_type_SubjectAssurance_constr_1_r1) [].

Definition asn_OER_type_Psid_constr_1_r1 : asn_oer_constraints :=
  {| width := 0; positive := true; csize := -1 |}.

Definition asn_SPC_Psid_specs_1_r1 : asn_INTEGER_specifics := {| field_unsigned := true |}.

Definition asn_DEF_Psid_r1 : asn_TYPE_descriptor :=
  TD "Psid" (NativeInteger (Some asn_SPC_Psid_specs_1_r1))
    [(TAG UNIVERSAL 2)] (Some asn_OER_type_Psid_constr_1_r1) [].

Definition asn_OER_type_ServiceSpecificPermissions_constr_1_r1 : asn_oer_constraints :=
  {| width := 0; positive := false; csize := -1 |}.

Definition asn_OER_memb_opaque_constr_2_r1 : asn_oer_constraints :=
  {| width := 0; positive := false; csize := -1 |}.

Definition asn_OER_type_BitmapSsp_constr_1_r1 : asn_oer_constraints :=
  {| width := 0; positive := false; csize := -1 |}.

Definition asn_DEF_BitmapSsp_r1 : asn_TYPE_descriptor :=
  TD "BitmapSsp" (OCTET_STRING (Some ASN_OSUBV_STR))
    [(TAG UNIVERSAL 4)] (Some asn_OER_type_BitmapSsp_constr_1_r1) [].

Definition asn_MBR_ServiceSpecificPermissions_1_r1 : list tmember :=
  [ MBR NOFLAGS 0 (TAG CONTEXT 0) (-1) asn_DEF_OCTET_STRING None (Some asn_OER_memb_opaque_constr_2_r1) None "opaque"
  ; MBR NOFLAGS 0 (TAG CONTEXT 1) (-1) asn_DEF_BitmapSsp_r1 None None None "bitmapSsp" ].

Definition asn_MAP_ServiceSpecificPermissions_tag2el_1_r1 : list asn_TYPE_tag2member :=
  [ T2M (TAG CONTEXT 0) 0
  ; T2M (TAG CONTEXT 1) 1 ].

Definition asn_SPC_ServiceSpecificPermissions_specs_1_r1 : asn_CHOICE_specifics :=
  {| tag2el := asn_MAP_ServiceSpecificPermissions_tag2el_1_r1; ext_start := 1 |}.

Definition asn_DEF_ServiceSpecificPermissions_r1 : asn_TYPE_descriptor :=
  TD "ServiceSpecificPermissions" (CHOICE asn_SPC_ServiceSpecificPermissions_specs_1_r1)
    [] (Some asn_OER_type_ServiceSpecificPermissions_constr_1_r1) asn_MBR_ServiceSpecificPermissions_1_r1.

Definition asn_MBR_PsidSsp_1_r1 : list tmember :=
  [ MBR NOFLAGS 0 (TAG CONTEXT 0) (-1) asn_DEF_Psid_r1 None None None "psid"
  ; MBR POINTER 1 (TAG CONTEXT 1) 1 asn_DEF_ServiceSpecificPermissions_r1 None None None "ssp" ].

Definition asn_SPC_PsidSsp_specs_1_r1 : asn_SEQUENCE_specifics :=
  {| roms_count := 1; aoms_count := 0; first_extension := -1 |}.

Definition asn_DEF_PsidSsp_r1 : asn_TYPE_descriptor :=
  TD "PsidSsp" (SEQUENCE asn_SPC_PsidSsp_specs_1_r1) [(TAG UNIVERSAL 16)] None asn_MBR_PsidSsp_1_r1.

Definition asn_MBR_SequenceOfPsidSsp_1_r1 : list tmember :=
  [ MBR POINTER 0 (TAG UNIVERSAL 16) 0 asn_DEF_PsidSsp_r1 None None None "" ].

Definition asn_DEF_SequenceOfPsidSsp_r1 : asn_TYPE_descriptor :=
  TD "SequenceOfPsidSsp" SET_OF [(TAG UNIVERSAL 16)] None asn_MBR_SequenceOfPsidSsp_1_r1.

Definition asn_OER_type_SubjectPermissions_constr_1_r1 : asn_oer_constraints :=
  {| width := 0; positive := false; csize := -1 |}.

Definition asn_OER_type_SspRange_constr_1_r1 : asn_oer_constraints :=
  {| width := 0; positive := false; csize := -1 |}.

Definition asn_OER_type_SequenceOfOctetString_constr_1_r1 : asn_oer_constraints :=
  {| width := 0; positive := false; csize := -1 |}.

Definition asn_OER_memb_Member_constr_2_r1 : asn_oer_constraints :=
  {| width := 0; positive := false; csize := -1 |}.

Definition asn_MBR_SequenceOfOctetString_1_r1 : list tmember :=
  [ MBR POINTER 0 (TAG UNIVERSAL 4) 0 asn_DEF_OCTET_STRING None (Some asn_OER_memb_Member_constr_2_r1) None "" ].

Definition asn_DEF_SequenceOfOctetString_r1 : asn_TYPE_descriptor :=
  TD "SequenceOfOctetString" SET_OF
    [(TAG UNIVERSAL 16)] (Some asn_OER_type_SequenceOfOctetString_constr_1_r1) asn_MBR_SequenceOfOctetString_1_r1.

Definition asn_OER_memb_sspValue_constr_2_r1 : asn_oer_constraints :=
  {| width := 0; positive := false; csize := -1 |}.

Definition asn_OER_memb_sspBitmask_constr_3_r1 : asn_oer_constraints :=
  {| width := 0; positive := false; csize := -1 |}.

Definition asn_MBR_BitmapSspRange_1_r1 : list tmember :=
  [ MBR NOFLAGS 0 (TAG CONTEXT 0) (-1) asn_DEF_OCTET_STRING None (Some asn_OER_memb_sspValue_constr_2_r1) None "sspValue"
  ; MBR NOFLAGS 0 (TAG CONTEXT 1) (-1) asn_DEF_OCTET_STRING None (Some asn_OER_memb_sspBitmask_constr_3_r1) None "sspBitmask" ].

Definition asn_SPC_BitmapSspRange_specs_1_r1 : asn_SEQUENCE_specifics :=
  {| roms_count := 0; aoms_count := 0; first_extension := -1 |}.

Definition asn_DEF_BitmapSspRange_r1 : asn_TYPE_descriptor :=
  TD "BitmapSspRange" (SEQUENCE asn_SPC_BitmapSspRange_specs_1_r1)
    [(TAG UNIVERSAL 16)] None asn_MBR_BitmapSspRange_1_r1.

Definition asn_MBR_SspRange_1_r1 : list tmember :=
  [ MBR NOFLAGS 0 (TAG CONTEXT 0) (-1) asn_DEF_SequenceOfOctetString_r1 None None None "opaque"
  ; MBR NOFLAGS 0 (TAG CONTEXT 1) (-1) asn_DEF_NULL None None None "all"
  ; MBR NOFLAGS 0 (TAG CONTEXT 2) (-1) asn_DEF_BitmapSspRange_r1 None None None "bitmapSspRange" ].

Definition asn_MAP_SspRange_tag2el_1_r1 : list asn_TYPE_tag2member :=
  [ T2M (TAG CONTEXT 0) 0
  ; T2M (TAG CONTEXT 1) 1
  ; T2M (TAG CONTEXT 2) 2 ].

Definition asn_SPC_SspRange_specs_1_r1 : asn_CHOICE_specifics :=
  {| tag2el := asn_MAP_SspRange_tag2el_1_r1; ext_start := 2 |}.

Definition asn_DEF_SspRange_r1 : asn_TYPE_descriptor :=
  TD "SspRange" (CHOICE asn_SPC_SspRange_specs_1_r1)
    [] (Some asn_OER_type_SspRange_constr_1_r1) asn_MBR_SspRange_1_r1.

Definition asn_MBR_PsidSspRange_1_r1 : list tmember :=
  [ MBR NOFLAGS 0 (TAG CONTEXT 0) (-1) asn_DEF_Psid_r1 None None None "psid"
  ; MBR POINTER 1 (TAG CONTEXT 1) 1 asn_DEF_SspRange_r1 None None None "sspRange" ].

Definition asn_SPC_PsidSspRange_specs_1_r1 : asn_SEQUENCE_specifics :=
  {| roms_count := 1; aoms_count := 0; first_extension := -1 |}.

Definition asn_DEF_PsidSspRange_r1 : asn_TYPE_descriptor :=
  TD "PsidSspRange" (SEQUENCE asn_SPC_PsidSspRange_specs_1_r1)
    [(TAG UNIVERSAL 16)] None asn_MBR_PsidSspRange_1_r1.

Definition asn_MBR_SequenceOfPsidSspRange_1_r1 : list tmember :=
  [ MBR POINTER 0 (TAG UNIVERSAL 16) 0 asn_DEF_PsidSspRange_r1 None None None "" ].

Definition asn_DEF_SequenceOfPsidSspRange_r1 : asn_TYPE_descriptor :=
  TD "SequenceOfPsidSspRange" SET_OF [(TAG UNIVERSAL 16)] None asn_MBR_SequenceOfPsidSspRange_1_r1.

Definition asn_MBR_SubjectPermissions_1_r1 : list tmember :=
  [ MBR NOFLAGS 0 (TAG CONTEXT 0) (-1) asn_DEF_SequenceOfPsidSspRange_r1 None None None "explicit"
  ; MBR NOFLAGS 0 (TAG CONTEXT 1) (-1) asn_DEF_NULL None None None "all" ].

Definition asn_MAP_SubjectPermissions_tag2el_1_r1 : list asn_TYPE_tag2member :=
  [ T2M (TAG CONTEXT 0) 0
  ; T2M (TAG CONTEXT 1) 1 ].

Definition asn_SPC_SubjectPermissions_specs_1_r1 : asn_CHOICE_specifics :=
  {| tag2el := asn_MAP_SubjectPermissions_tag2el_1_r1; ext_start := 2 |}.

Definition asn_DEF_SubjectPermissions_r1 : asn_TYPE_descriptor :=
  TD "SubjectPermissions" (CHOICE asn_SPC_SubjectPermissions_specs_1_r1)
    [] (Some asn_OER_type_SubjectPermissions_constr_1_r1) asn_MBR_SubjectPermissions_1_r1.

Definition asn_DFL_3_PsidGroupPermissions_r1 : asn_DFL := {| dfl_value := 1 |}.

Definition asn_DFL_4_PsidGroupPermissions_r1 : asn_DFL := {| dfl_value := 0 |}.

Definition asn_OER_type_EndEntityType_constr_1_r1 : asn_oer_constraints :=
  {| width := 0; positive := false; csize := 8 |}.

Definition asn_DEF_EndEntityType_r1 : asn_TYPE_descriptor :=
  TD "EndEntityType" BIT_STRING
    [(TAG UNIVERSAL 3)] (Some asn_OER_type_EndEntityType_constr_1_r1) [].

Definition asn_MBR_PsidGroupPermissions_1_r1 : list tmember :=
  [ MBR NOFLAGS 0 (TAG CONTEXT 0) 1 asn_DEF_SubjectPermissions_r1 None None None "subjectPermissions"
  ; MBR POINTER 3 (TAG CONTEXT 1) (-1) asn_DEF_NativeInteger None None (Some asn_DFL_3_PsidGroupPermissions_r1) "minChainLength"
  ; MBR NOFLAGS 2 (TAG CONTEXT 2) (-1) asn_DEF_NativeInteger None None (Some asn_DFL_4_PsidGroupPermissions_r1) "chainLengthRange"
  ; MBR POINTER 1 (TAG CONTEXT 3) (-1) asn_DEF_EndEntityType_r1 None None None "eeType" ].

Definition asn_SPC_PsidGroupPermissions_specs_1_r1 : asn_SEQUENCE_specifics :=
  {| roms_count := 3; aoms_count := 0; first_extension := -1 |}.

Definition asn_DEF_PsidGroupPermissions_r1 : asn_TYPE_descriptor :=
  TD "PsidGroupPermissions" (SEQUENCE asn_SPC_PsidGroupPermissions_specs_1_r1)
    [(TAG UNIVERSAL 16)] None asn_MBR_PsidGroupPermissions_1_r1.

Definition asn_MBR_SequenceOfPsidGroupPermissions_1_r1 : list tmember :=
  [ MBR POINTER 0 (TAG UNIVERSAL 16) 0 asn_DEF_PsidGroupPermissions_r1 None None None "" ].

Definition asn_DEF_SequenceOfPsidGroupPermissions_r1 : asn_TYPE_descriptor :=
  TD "SequenceOfPsidGroupPermissions" SET_OF
    [(TAG UNIVERSAL 16)] None asn_MBR_SequenceOfPsidGroupPermissions_1_r1.

Definition asn_OER_type_SymmAlgorithm_constr_1_r1 : asn_oer_constraints :=
  {| width := 0; positive := false; csize := -1 |}.

Definition asn_SPC_SymmAlgorithm_specs_1_r1 : asn_INTEGER_specifics := {| field_unsigned := false |}.

Definition asn_DEF_SymmAlgorithm_r1 : asn_TYPE_descriptor :=
  TD "SymmAlgorithm" (NativeEnumerated (Some asn_SPC_SymmAlgorithm_specs_1_r1))
    [(TAG UNIVERSAL 10)] (Some asn_OER_type_SymmAlgorithm_constr_1_r1) [].

Definition asn_OER_type_BasePublicEncryptionKey_constr_1_r1 : asn_oer_constraints :=
  {| width := 0; positive := false; csize := -1 |}.

Definition asn_OER_type_EccP256CurvePoint_constr_1_r1 : asn_oer_constraints :=
  {| width := 0; positive := false; csize := -1 |}.

Definition asn_OER_memb_x_only_constr_2_r1 : asn_oer_constraints :=
  {| width := 0; positive := false; csize := 32 |}.

Definition asn_OER_memb_compressed_y_0_constr_4_r1 : asn_oer_constraints :=
  {| width := 0; positive := false; csize := 32 |}.

Definition asn_OER_memb_compressed_y_1_constr_5_r1 : asn_oer_constraints :=
  {| width := 0; positive := false; csize := 32 |}.

Definition asn_OER_memb_x_constr_7_r1 : asn_oer_constraints :=
  {| width := 0; positive := false; csize := 32 |}.

Definition asn_OER_memb_y_constr_8_r1 : asn_oer_constraints :=
  {| width := 0; positive := false; csize := 32 |}.

Definition asn_MBR_uncompressedP256_6_r1 : list tmember :=
  [ MBR NOFLAGS 0 (TAG CONTEXT 0) (-1) asn_DEF_OCTET_STRING None (Some asn_OER_memb_x_constr_7_r1) None "x"
  ; MBR NOFLAGS 0 (TAG CONTEXT 1) (-1) asn_DEF_OCTET_STRING None (Some asn_OER_memb_y_constr_8_r1) None "y" ].

Definition asn_SPC_uncompressedP256_specs_6_r1 : asn_SEQUENCE_specifics :=
  {| roms_count := 0; aoms_count := 0; first_extension := -1 |}.

Definition asn_DEF_uncompressedP256_6_r1 : asn_TYPE_descriptor :=
  TD "uncompressedP256" (SEQUENCE asn_SPC_uncompressedP256_specs_6_r1)
    [(TAG CONTEXT 4)] None asn_MBR_uncompressedP256_6_r1.

Definition asn_MBR_EccP256CurvePoint_1_r1 : list tmember :=
  [ MBR NOFLAGS 0 (TAG CONTEXT 0) (-1) asn_DEF_OCTET_STRING None (Some asn_OER_memb_x_only_constr_2_r1) None "x-only"
  ; MBR NOFLAGS 0 (TAG CONTEXT 1) (-1) asn_DEF_NULL None None None "fill"
  ; MBR NOFLAGS 0 (TAG CONTEXT 2) (-1) asn_DEF_OCTET_STRING None (Some asn_OER_memb_compressed_y_0_constr_4_r1) None "compressed-y-0"
  ; MBR NOFLAGS 0 (TAG CONTEXT 3) (-1) asn_DEF_OCTET_STRING None (Some asn_OER_memb_compressed_y_1_constr_5_r1) None "compressed-y-1"
  ; MBR NOFLAGS 0 (TAG CONTEXT 4) 0 asn_DEF_uncompressedP256_6_r1 None None None "uncompressedP256" ].

Definition asn_MAP_EccP256CurvePoint_tag2el_1_r1 : list asn_TYPE_tag2member :=
  [ T2M (TAG CONTEXT 0) 0
  ; T2M (TAG CONTEXT 1) 1
  ; T2M (TAG CONTEXT 2) 2
  ; T2M (TAG CONTEXT 3) 3
  ; T2M (TAG CONTEXT 4) 4 ].

Definition asn_SPC_EccP256CurvePoint_specs_1_r1 : asn_CHOICE_specifics :=
  {| tag2el := asn_MAP_EccP256CurvePoint_tag2el_1_r1; ext_start := -1 |}.

Definition asn_DEF_EccP256CurvePoint_r1 : asn_TYPE_descriptor :=
  TD "EccP256CurvePoint" (CHOICE asn_SPC_EccP256CurvePoint_specs_1_r1)
    [] (Some asn_OER_type_EccP256CurvePoint_constr_1_r1) asn_MBR_EccP256CurvePoint_1_r1.

Definition asn_MBR_BasePublicEncryptionKey_1_r1 : list tmember :=
  [ MBR NOFLAGS 0 (TAG CONTEXT 0) 1 asn_DEF_EccP256CurvePoint_r1 None None None "eciesNistP256"
  ; MBR NOFLAGS 0 (TAG CONTEXT 1) 1 asn_DEF_EccP256CurvePoint_r1 None None None "eciesBrainpoolP256r1" ].

Definition asn_MAP_BasePublicEncryptionKey_tag2el_1_r1 : list asn_TYPE_tag2member :=
  [ T2M (TAG CONTEXT 0) 0
  ; T2M (TAG CONTEXT 1) 1 ].

Definition asn_SPC_BasePublicEncryptionKey_specs_1_r1 : asn_CHOICE_specifics :=
  {| tag2el := asn_MAP_BasePublicEncryptionKey_tag2el_1_r1; ext_start := 2 |}.

Definition asn_DEF_BasePublicEncryptionKey_r1 : asn_TYPE_descriptor :=
  TD "BasePublicEncryptionKey" (CHOICE asn_SPC_BasePublicEncryptionKey_specs_1_r1)
    [] (Some asn_OER_type_BasePublicEncryptionKey_constr_1_r1) asn_MBR_BasePublicEncryptionKey_1_r1.

Definition asn_MBR_PublicEncryptionKey_1_r1 : list tmember :=
  [ MBR NOFLAGS 0 (TAG CONTEXT 0) (-1) asn_DEF_SymmAlgorithm_r1 None None None "supportedSymmAlg"
  ; MBR NOFLAGS 0 (TAG CONTEXT 1) 1 asn_DEF_BasePublicEncryptionKey_r1 None None None "publicKey" ].

Definition asn_SPC_PublicEncryptionKey_specs_1_r1 : asn_SEQUENCE_specifics :=
  {| roms_count := 0; aoms_count := 0; first_extension := -1 |}.

Definition asn_DEF_PublicEncryptionKey_r1 : asn_TYPE_descriptor :=
  TD "PublicEncryptionKey" (SEQUENCE asn_SPC_PublicEncryptionKey_specs_1_r1)
    [(TAG UNIVERSAL 16)] None asn_MBR_PublicEncryptionKey_1_r1.

Definition asn_OER_type_VerificationKeyIndicator_constr_1_r1 : asn_oer_constraints :=
  {| width := 0; positive := false; csize := -1 |}.

Definition asn_OER_type_PublicVerificationKey_constr_1_r1 : asn_oer_constraints :=
  {| width := 0; positive := false; csize := -1 |}.

Definition asn_OER_type_EccP384CurvePoint_constr_1_r1 : asn_oer_constraints :=
  {| width := 0; positive := false; csize := -1 |}.

Definition asn_OER_memb_x_only_constr_2_EccP384CurvePoint_r1 : asn_oer_constraints :=
  {| width := 0; positive := false; csize := 48 |}.

Definition asn_OER_memb_compressed_y_0_constr_4_EccP384CurvePoint_r1 : asn_oer_constraints :=
  {| width := 0; positive := false; csize := 48 |}.

Definition asn_OER_memb_compressed_y_1_constr_5_EccP384CurvePoint_r1 : asn_oer_constraints :=
  {| width := 0; positive := false; csize := 48 |}.

Definition asn_OER_memb_x_constr_7_EccP384CurvePoint_r1 : asn_oer_constraints :=
  {| width := 0; positive := false; csize := 48 |}.

Definition asn_OER_memb_y_constr_8_EccP384CurvePoint_r1 : asn_oer_constraints :=
  {| width := 0; positive := false; csize := 48 |}.

Definition asn_MBR_uncompressedP384_6_r1 : list tmember :=
  [ MBR NOFLAGS 0 (TAG CONTEXT 0) (-1) asn_DEF_OCTET_STRING None (Some asn_OER_memb_x_constr_7_EccP384CurvePoint_r1) None "x"
  ; MBR NOFLAGS 0 (TAG CONTEXT 1) (-1) asn_DEF_OCTET_STRING None (Some asn_OER_memb_y_constr_8_EccP384CurvePoint_r1) None "y" ].

Definition asn_SPC_uncompressedP384_specs_6_r1 : asn_SEQUENCE_specifics :=
  {| roms_count := 0; aoms_count := 0; first_extension := -1 |}.

Definition asn_DEF_uncompressedP384_6_r1 : asn_TYPE_descriptor :=
  TD "uncompressedP384" (SEQUENCE asn_SPC_uncompressedP384_specs_6_r1)
    [(TAG CONTEXT 4)] None asn_MBR_uncompressedP384_6_r1.

Definition asn_MBR_EccP384CurvePoint_1_r1 : list tmember :=
  [ MBR NOFLAGS 0 (TAG CONTEXT 0) (-1) asn_DEF_OCTET_STRING None (Some asn_OER_memb_x_only_constr_2_EccP384CurvePoint_r1) None "x-only"
  ; MBR NOFLAGS 0 (TAG CONTEXT 1) (-1) asn_DEF_NULL None None None "fill"
  ; MBR NOFLAGS 0 (TAG CONTEXT 2) (-1) asn_DEF_OCTET_STRING None (Some asn_OER_memb_compressed_y_0_constr_4_EccP384CurvePoint_r1) None "compressed-y-0"
  ; MBR NOFLAGS 0 (TAG CONTEXT 3) (-1) asn_DEF_OCTET_STRING None (Some asn_OER_memb_compressed_y_1_constr_5_EccP384CurvePoint_r1) None "compressed-y-1"
  ; MBR NOFLAGS 0 (TAG CONTEXT 4) 0 asn_DEF_uncompressedP384_6_r1 None None None "uncompressedP384" ].

Definition asn_MAP_EccP384CurvePoint_tag2el_1_r1 : list asn_TYPE_tag2member :=
  [ T2M (TAG CONTEXT 0) 0
  ; T2M (TAG CONTEXT 1) 1
  ; T2M (TAG CONTEXT 2) 2
  ; T2M (TAG CONTEXT 3) 3
  ; T2M (TAG CONTEXT 4) 4 ].

Definition asn_SPC_EccP384CurvePoint_specs_1_r1 : asn_CHOICE_specifics :=
  {| tag2el := asn_MAP_EccP384CurvePoint_tag2el_1_r1; ext_start := -1 |}.

Definition asn_DEF_EccP384CurvePoint_r1 : asn_TYPE_descriptor :=
  TD "EccP384CurvePoint" (CHOICE asn_SPC_EccP384CurvePoint_specs_1_r1)
    [] (Some asn_OER_type_EccP384CurvePoint_constr_1_r1) asn_MBR_EccP384CurvePoint_1_r1.

Definition asn_MBR_PublicVerificationKey_1_r1 : list tmember :=
  [ MBR NOFLAGS 0 (TAG CONTEXT 0) 1 asn_DEF_EccP256CurvePoint_r1 None None None "ecdsaNistP256"
  ; MBR NOFLAGS 0 (TAG CONTEXT 1) 1 asn_DEF_EccP256CurvePoint_r1 None None None "ecdsaBrainpoolP256r1"
  ; MBR NOFLAGS 0 (TAG CONTEXT 2) 1 asn_DEF_EccP384CurvePoint_r1 None None None "ecdsaBrainpoolP384r1" ].

Definition asn_MAP_PublicVerificationKey_tag2el_1_r1 : list asn_TYPE_tag2member :=
  [ T2M (TAG CONTEXT 0) 0
  ; T2M (TAG CONTEXT 1) 1
  ; T2M (TAG CONTEXT 2) 2 ].

Definition asn_SPC_PublicVerificationKey_specs_1_r1 : asn_CHOICE_specifics :=
  {| tag2el := asn_MAP_PublicVerificationKey_tag2el_1_r1; ext_start := 2 |}.

Definition asn_DEF_PublicVerificationKey_r1 : asn_TYPE_descriptor :=
  TD "PublicVerificationKey" (CHOICE asn_SPC_PublicVerificationKey_specs_1_r1)
    [] (Some asn_OER_type_PublicVerificationKey_constr_1_r1) asn_MBR_PublicVerificationKey_1_r1.

Definition asn_MBR_VerificationKeyIndicator_1_r1 : list tmember :=
  [ MBR NOFLAGS 0 (TAG CONTEXT 0) 1 asn_DEF_PublicVerificationKey_r1 None None None "verificationKey"
  ; MBR NOFLAGS 0 (TAG CONTEXT 1) 1 asn_DEF_EccP256CurvePoint_r1 None None None "reconstructionValue" ].

Definition asn_MAP_VerificationKeyIndicator_tag2el_1_r1 : list asn_TYPE_tag2member :=
  [ T2M (TAG CONTEXT 0) 0
  ; T2M (TAG CONTEXT 1) 1 ].

Definition asn_SPC_VerificationKeyIndicator_specs_1_r1 : asn_CHOICE_specifics :=
  {| tag2el := asn_MAP_VerificationKeyIndicator_tag2el_1_r1; ext_start := 2 |}.

Definition asn_DEF_VerificationKeyIndicator_r1 : asn_TYPE_descriptor :=
  TD "VerificationKeyIndicator" (CHOICE asn_SPC_VerificationKeyIndicator_specs_1_r1)
    [] (Some asn_OER_type_VerificationKeyIndicator_constr_1_r1) asn_MBR_VerificationKeyIndicator_1_r1.

Definition asn_MBR_ToBeSignedCertificate_1_part1_r1 : list tmember :=
  [ MBR NOFLAGS 0 (TAG CONTEXT 0) 1 asn_DEF_CertificateId_r1 None None None "id"
  ; MBR NOFLAGS 0 (TAG CONTEXT 1) (-1) asn_DEF_HashedId3_r1 None None None "cracaId"
  ; MBR NOFLAGS 0 (TAG CONTEXT 2) (-1) asn_DEF_CrlSeries_r1 None None None "crlSeries"
  ; MBR NOFLAGS 0 (TAG CONTEXT 3) (-1) asn_DEF_ValidityPeriod_r1 None None None "validityPeriod"
  ; MBR POINTER 7 (TAG CONTEXT 4) 1 asn_DEF_GeographicRegion_r1 None None None "region"
  ; MBR POINTER 6 (TAG CONTEXT 5) (-1) asn_DEF_SubjectAssurance_r1 None None None "assuranceLevel" ].

Definition asn_MBR_ToBeSignedCertificate_1_part2_r1 : list tmember :=
  [ MBR POINTER 5 (TAG CONTEXT 6) (-1) asn_DEF_SequenceOfPsidSsp_r1 None None None "appPermissions"
  ; MBR POINTER 4 (TAG CONTEXT 7) (-1) asn_DEF_SequenceOfPsidGroupPermissions_r1 None None None "certIssuePermissions"
  ; MBR POINTER 3 (TAG CONTEXT 8) (-1) asn_DEF_SequenceOfPsidGroupPermissions_r1 None None None "certRequestPermissions"
  ; MBR POINTER 2 (TAG CONTEXT 9) (-1) asn_DEF_NULL None None None "canRequestRollover"
  ; MBR POINTER 1 (TAG CONTEXT 10) (-1) asn_DEF_PublicEncryptionKey_r1 None None None "encryptionKey"
  ; MBR NOFLAGS 0 (TAG CONTEXT 11) 1 asn_DEF_VerificationKeyIndicator_r1 None None None "verifyKeyIndicator" ].

Definition asn_MBR_ToBeSignedCertificate_1_r1 : list tmember :=
  asn_MBR_ToBeSignedCertificate_1_part1_r1 ++ asn_MBR_ToBeSignedCertificate_1_part2_r1.

Definition asn_SPC_ToBeSignedCertificate_specs_1_r1 : asn_SEQUENCE_specifics :=
  {| roms_count := 7; aoms_count := 0; first_extension := 12 |}.

Definition asn_DEF_ToBeSignedCertificate_r1 : asn_TYPE_descriptor :=
  TD "ToBeSignedCertificate" (SEQUENCE asn_SPC_ToBeSignedCertificate_specs_1_r1)
    [(TAG UNIVERSAL 16)] (Some asn_OER_type_ToBeSignedCertificate_constr_1_r1) asn_MBR_ToBeSignedCertificate_1_r1.

Definition asn_OER_type_Signature_constr_1_r1 : asn_oer_constraints :=
  {| width := 0; positive := false; csize := -1 |}.

Definition asn_OER_memb_sSig_constr_3_r1 : asn_oer_constraints :=
  {| width := 0; positive := false; csize := 32 |}.

Definition asn_MBR_EcdsaP256Signature_1_r1 : list tmember :=
  [ MBR NOFLAGS 0 (TAG CONTEXT 0) 1 asn_DEF_EccP256CurvePoint_r1 None None None "rSig"
  ; MBR NOFLAGS 0 (TAG CONTEXT 1) (-1) asn_DEF_OCTET_STRING None (Some asn_OER_memb_sSig_constr_3_r1) None "sSig" ].

Definition asn_SPC_EcdsaP256Signature_specs_1_r1 : asn_SEQUENCE_specifics :=
  {| roms_count := 0; aoms_count := 0; first_extension := -1 |}.

Definition asn_DEF_EcdsaP256Signature_r1 : asn_TYPE_descriptor :=
  TD "EcdsaP256Signature" (SEQUENCE asn_SPC_EcdsaP256Signature_specs_1_r1)
    [(TAG UNIVERSAL 16)] None asn_MBR_EcdsaP256Signature_1_r1.

Definition asn_OER_memb_sSig_constr_3_EcdsaP384Signature_r1 : asn_oer_constraints :=
  {| width := 0; positive := false; csize := 48 |}.

Definition asn_MBR_EcdsaP384Signature_1_r1 : list tmember :=
  [ MBR NOFLAGS 0 (TAG CONTEXT 0) 1 asn_DEF_EccP384CurvePoint_r1 None None None "rSig"
  ; MBR NOFLAGS 0 (TAG CONTEXT 1) (-1) asn_DEF_OCTET_STRING None (Some asn_OER_memb_sSig_constr_3_EcdsaP384Signature_r1) None "sSig" ].

Definition asn_SPC_EcdsaP384Signature_specs_1_r1 : asn_SEQUENCE_specifics :=
  {| roms_count := 0; aoms_count := 0; first_extension := -1 |}.

Definition asn_DEF_EcdsaP384Signature_r1 : asn_TYPE_descriptor :=
  TD "EcdsaP384Signature" (SEQUENCE asn_SPC_EcdsaP384Signature_specs_1_r1)
    [(TAG UNIVERSAL 16)] None asn_MBR_EcdsaP384Signature_1_r1.

Definition asn_MBR_Signature_1_r1 : list tmember :=
  [ MBR NOFLAGS 0 (TAG CONTEXT 0) (-1) asn_DEF_EcdsaP256Signature_r1 None None None "ecdsaNistP256Signature"
  ; MBR NOFLAGS 0 (TAG CONTEXT 1) (-1) asn_DEF_EcdsaP256Signature_r1 None None None "ecdsaBrainpoolP256r1Signature"
  ; MBR NOFLAGS 0 (TAG CONTEXT 2) (-1) asn_DEF_EcdsaP384Signature_r1 None None None "ecdsaBrainpoolP384r1Signature" ].

Definition asn_MAP_Signature_tag2el_1_r1 : list asn_TYPE_tag2member :=
  [ T2M (TAG CONTEXT 0) 0
  ; T2M (TAG CONTEXT 1) 1
  ; T2M (TAG CONTEXT 2) 2 ].

Definition asn_SPC_Signature_specs_1_r1 : asn_CHOICE_specifics :=
  {| tag2el := asn_MAP_Signature_tag2el_1_r1; ext_start := 2 |}.

Definition asn_DEF_Signature_r1 : asn_TYPE_descriptor :=
  TD "Signature" (CHOICE asn_SPC_Signature_specs_1_r1)
    [] (Some asn_OER_type_Signature_constr_1_r1) asn_MBR_Signature_1_r1.

Definition asn_MBR_CertificateBase_1_r1 : list tmember :=
  [ MBR NOFLAGS 0 (TAG CONTEXT 0) (-1) asn_DEF_Uint8_r1 None (Some asn_OER_memb_version_constr_2_r1) None "version"
  ; MBR NOFLAGS 0 (TAG CONTEXT 1) (-1) asn_DEF_CertificateType_r1 None None None "type"
  ; MBR NOFLAGS 0 (TAG CONTEXT 2) 1 asn_DEF_IssuerIdentifier_r1 None None None "issuer"
  ; MBR NOFLAGS 0 (TAG CONTEXT 3) (-1) asn_DEF_ToBeSignedCertificate_r1 None None None "toBeSigned"
  ; MBR POINTER 1 (TAG CONTEXT 4) 1 asn_DEF_Signature_r1 None None None "signature" ].

Definition asn_SPC_CertificateBase_specs_1_r1 : asn_SEQUENCE_specifics :=
  {| roms_count := 1; aoms_count := 0; first_extension := -1 |}.

Definition asn_DEF_Certificate_r1 : asn_TYPE_descriptor :=
  TD "Certificate" (SEQUENCE asn_SPC_CertificateBase_specs_1_r1)
    [(TAG UNIVERSAL 16)] (Some asn_OER_type_Certificate_constr_1_r1) asn_MBR_CertificateBase_1_r1.

Definition asn_OER_type_DYear_constr_1_its : asn_oer_constraints :=
  {| width := 2; positive := true; csize := -1 |}.

Definition asn_DEF_DYear_its : asn_TYPE_descriptor :=
  TD "DYear" (NativeInteger None) [(TAG UNIVERSAL 2)] (Some asn_OER_type_DYear_constr_1_its) [].

Definition asn_OER_type_DMonth_constr_1_its : asn_oer_constraints :=
  {| width := 1; positive := true; csize := -1 |}.

Definition asn_DEF_DMonth_its : asn_TYPE_descriptor :=
  TD "DMonth" (NativeInteger None) [(TAG UNIVERSAL 2)] (Some asn_OER_type_DMonth_constr_1_its) [].

Definition asn_OER_type_DDay_constr_1_its : asn_oer_constraints :=
  {| width := 1; positive := true; csize := -1 |}.

Definition asn_DEF_DDay_its : asn_TYPE_descriptor :=
  TD "DDay" (NativeInteger None) [(TAG UNIVERSAL 2)] (Some asn_OER_type_DDay_constr_1_its) [].

Definition asn_OER_type_DHour_constr_1_its : asn_oer_constraints :=
  {| width := 1; positive := true; csize := -1 |}.

Definition asn_DEF_DHour_its : asn_TYPE_descriptor :=
  TD "DHour" (NativeInteger None) [(TAG UNIVERSAL 2)] (Some asn_OER_type_DHour_constr_1_its) [].

Definition asn_OER_type_DMinute_constr_1_its : asn_oer_constraints :=
  {| width := 1; positive := true; csize := -1 |}.

Definition asn_DEF_DMinute_its : asn_TYPE_descriptor :=
  TD "DMinute" (NativeInteger None) [(TAG UNIVERSAL 2)] (Some asn_OER_type_DMinute_constr_1_its) [].

Definition asn_OER_type_DSecond_constr_1_its : asn_oer_constraints :=
  {| width := 2; positive := true; csize := -1 |}.

Definition asn_DEF_DSecond_its : asn_TYPE_descriptor :=
  TD "DSecond" (NativeInteger None) [(TAG UNIVERSAL 2)] (Some asn_OER_type_DSecond_constr_1_its) [].

Definition asn_OER_type_DOffset_constr_1_its : asn_oer_constraints :=
  {| width := 2; positive := false; csize := -1 |}.

Definition asn_DEF_DOffset_its : asn_TYPE_descriptor :=
  TD "DOffset" (NativeInteger None) [(TAG UNIVERSAL 2)] (Some asn_OER_type_DOffset_constr_1_its) [].

Definition asn_MBR_DDateTime_1_its : list tmember :=
  [ MBR POINTER 7 (TAG CONTEXT 0) (-1) asn_DEF_DYear_its None None None "year"
  ; MBR POINTER 6 (TAG CONTEXT 1) (-1) asn_DEF_DMonth_its None None None "month"
  ; MBR POINTER 5 (TAG CONTEXT 2) (-1) asn_DEF_DDay_its None None None "day"
  ; MBR POINTER 4 (TAG CONTEXT 3) (-1) asn_DEF_DHour_its None None None "hour"
  ; MBR POINTER 3 (TAG CONTEXT 4) (-1) asn_DEF_DMinute_its None None None "minute"
  ; MBR POINTER 2 (TAG CONTEXT 5) (-1) asn_DEF_DSecond_its None None None "second"
  ; MBR POINTER 1 (TAG CONTEXT 6) (-1) asn_DEF_DOffset_its None None None "offset" ].

Definition asn_SPC_DDateTime_specs_1_its : asn_SEQUENCE_specifics :=
  {| roms_count := 7; aoms_count := 0; first_extension := -1 |}.

Definition asn_DEF_DDateTime_its : asn_TYPE_descriptor :=
  TD "DDateTime" (SEQUENCE asn_SPC_DDateTime_specs_1_its)
    [(TAG UNIVERSAL 16)] None asn_MBR_DDateTime_1_its.

Definition asn_OER_type_Longitude_constr_1_its : asn_oer_constraints :=
  {| width := 4; positive := false; csize := -1 |}.

Definition asn_DEF_Longitude_its : asn_TYPE_descriptor :=
  TD "Longitude" (NativeInteger None)
    [(TAG UNIVERSAL 2)] (Some asn_OER_type_Longitude_constr_1_its) [].

Definition asn_OER_type_Latitude_constr_1_its : asn_oer_constraints :=
  {| width := 4; positive := false; csize := -1 |}.

Definition asn_DEF_Latitude_its : asn_TYPE_descriptor :=
  TD "Latitude" (NativeInteger None)
    [(TAG UNIVERSAL 2)] (Some asn_OER_type_Latitude_constr_1_its) [].

Definition asn_OER_type_Elevation_constr_1_its : asn_oer_constraints :=
  {| width := 4; positive := false; csize := -1 |}.

Definition asn_DEF_Elevation_its : asn_TYPE_descriptor :=
  TD "Elevation" (NativeInteger None)
    [(TAG UNIVERSAL 2)] (Some asn_OER_type_Elevation_constr_1_its) [].

Definition asn_OER_type_HeadingIso_constr_1_its : asn_oer_constraints :=
  {| width := 2; positive := true; csize := -1 |}.

Definition asn_DEF_HeadingIso_its : asn_TYPE_descriptor :=
  TD "HeadingIso" (NativeInteger None)
    [(TAG UNIVERSAL 2)] (Some asn_OER_type_HeadingIso_constr_1_its) [].

Definition asn_OER_type_TransmissionState_constr_1_its : asn_oer_constraints :=
  {| width := 0; positive := false; csize := -1 |}.

Definition asn_SPC_TransmissionState_specs_1_its : asn_INTEGER_specifics := {| field_unsigned := false |}.

Definition asn_DEF_TransmissionState_its : asn_TYPE_descriptor :=
  TD "TransmissionState" (NativeEnumerated (Some asn_SPC_TransmissionState_specs_1_its))
    [(TAG UNIVERSAL 10)] (Some asn_OER_type_TransmissionState_constr_1_its) [].

Definition asn_OER_type_Velocity_constr_1_its : asn_oer_constraints :=
  {| width := 2; positive := true; csize := -1 |}.

Definition asn_DEF_Velocity_its : asn_TYPE_descriptor :=
  TD "Velocity" (NativeInteger None)
    [(TAG UNIVERSAL 2)] (Some asn_OER_type_Velocity_constr_1_its) [].

Definition asn_MBR_TransmissionAndSpeed_1_its : list tmember :=
  [ MBR NOFLAGS 0 (TAG CONTEXT 0) (-1) asn_DEF_TransmissionState_its None None None "transmisson"
  ; MBR NOFLAGS 0 (TAG CONTEXT 1) (-1) asn_DEF_Velocity_its None None None "speed" ].

Definition asn_SPC_TransmissionAndSpeed_specs_1_its : asn_SEQUENCE_specifics :=
  {| roms_count := 0; aoms_count := 0; first_extension := -1 |}.

Definition asn_DEF_TransmissionAndSpeed_its : asn_TYPE_descriptor :=
  TD "TransmissionAndSpeed" (SEQUENCE asn_SPC_TransmissionAndSpeed_specs_1_its)
    [(TAG UNIVERSAL 16)] None asn_MBR_TransmissionAndSpeed_1_its.

Definition asn_OER_type_SemiMajorAxisAccuracy_constr_1_its : asn_oer_constraints :=
  {| width := 1; positive := true; csize := -1 |}.

Definition asn_DEF_SemiMajorAxisAccuracy_its : asn_TYPE_descriptor :=
  TD "SemiMajorAxisAccuracy" (NativeInteger None)
    [(TAG UNIVERSAL 2)] (Some asn_OER_type_SemiMajorAxisAccuracy_constr_1_its) [].

Definition asn_OER_type_SemiMinorAxisAccuracy_constr_1_its : asn_oer_constraints :=
  {| width := 1; positive := true; csize := -1 |}.

Definition asn_DEF_SemiMinorAxisAccuracy_its : asn_TYPE_descriptor :=
  TD "SemiMinorAxisAccuracy" (NativeInteger None)
    [(TAG UNIVERSAL 2)] (Some asn_OER_type_SemiMinorAxisAccuracy_constr_1_its) [].

Definition asn_OER_type_SemiMajorAxisOrientation_constr_1_its : asn_oer_constraints :=
  {| width := 2; positive := true; csize := -1 |}.

Definition asn_DEF_SemiMajorAxisOrientation_its : asn_TYPE_descriptor :=
  TD "SemiMajorAxisOrientation" (NativeInteger None)
    [(TAG UNIVERSAL 2)] (Some asn_OER_type_SemiMajorAxisOrientation_constr_1_its) [].

Definition asn_MBR_PositionalAccuracy_1_its : list tmember :=
  [ MBR NOFLAGS 0 (TAG CONTEXT 0) (-1) asn_DEF_SemiMajorAxisAccuracy_its None None None "semiMajor"
  ; MBR NOFLAGS 0 (TAG CONTEXT 1) (-1) asn_DEF_SemiMinorAxisAccuracy_its None None None "semiMinor"
  ; MBR NOFLAGS 0 (TAG CONTEXT 2) (-1) asn_DEF_SemiMajorAxisOrientation_its None None None "orientation" ].

Definition asn_SPC_PositionalAccuracy_specs_1_its : asn_SEQUENCE_specifics :=
  {| roms_count := 0; aoms_count := 0; first_extension := -1 |}.

Definition asn_DEF_PositionalAccuracy_its : asn_TYPE_descriptor :=
  TD "PositionalAccuracy" (SEQUENCE asn_SPC_PositionalAccuracy_specs_1_its)
    [(TAG UNIVERSAL 16)] None asn_MBR_PositionalAccuracy_1_its.

Definition asn_OER_type_TimeConfidence_constr_1_its : asn_oer_constraints :=
  {| width := 0; positive := false; csize := -1 |}.

Definition asn_SPC_TimeConfidence_specs_1_its : asn_INTEGER_specifics := {| field_unsigned := false |}.

Definition asn_DEF_TimeConfidence_its : asn_TYPE_descriptor :=
  TD "TimeConfidence" (NativeEnumerated (Some asn_SPC_TimeConfidence_specs_1_its))
    [(TAG UNIVERSAL 10)] (Some asn_OER_type_TimeConfidence_constr_1_its) [].

Definition asn_OER_type_PositionConfidence_constr_1_its : asn_oer_constraints :=
  {| width := 0; positive := false; csize := -1 |}.

Definition asn_SPC_PositionConfidence_specs_1_its : asn_INTEGER_specifics := {| field_unsigned := false |}.

Definition asn_DEF_PositionConfidence_its : asn_TYPE_descriptor :=
  TD "PositionConfidence" (NativeEnumerated (Some asn_SPC_PositionConfidence_specs_1_its))
    [(TAG UNIVERSAL 10)] (Some asn_OER_type_PositionConfidence_constr_1_its) [].

Definition asn_OER_type_ElevationConfidence_constr_1_its : asn_oer_constraints :=
  {| width := 0; positive := false; csize := -1 |}.

Definition asn_SPC_ElevationConfidence_specs_1_its : asn_INTEGER_specifics := {| field_unsigned := false |}.

Definition asn_DEF_ElevationConfidence_its : asn_TYPE_descriptor :=
  TD "ElevationConfidence" (NativeEnumerated (Some asn_SPC_ElevationConfidence_specs_1_its))
    [(TAG UNIVERSAL 10)] (Some asn_OER_type_ElevationConfidence_constr_1_its) [].

Definition asn_MBR_PositionConfidenceSet_1_its : list tmember :=
  [ MBR NOFLAGS 0 (TAG CONTEXT 0) (-1) asn_DEF_PositionConfidence_its None None None "pos"
  ; MBR NOFLAGS 0 (TAG CONTEXT 1) (-1) asn_DEF_ElevationConfidence_its None None None "elevation" ].

Definition asn_SPC_PositionConfidenceSet_specs_1_its : asn_SEQUENCE_specifics :=
  {| roms_count := 0; aoms_count := 0; first_extension := -1 |}.

Definition asn_DEF_PositionConfidenceSet_its : asn_TYPE_descriptor :=
  TD "PositionConfidenceSet" (SEQUENCE asn_SPC_PositionConfidenceSet_specs_1_its)
    [(TAG UNIVERSAL 16)] None asn_MBR_PositionConfidenceSet_1_its.

Definition asn_OER_type_HeadingIsoConfidenceIso_constr_1_its : asn_oer_constraints :=
  {| width := 0; positive := false; csize := -1 |}.

Definition asn_SPC_HeadingIsoConfidenceIso_specs_1_its : asn_INTEGER_specifics := {| field_unsigned := false |}.

Definition asn_DEF_HeadingIsoConfidenceIso_its : asn_TYPE_descriptor :=
  TD "HeadingIsoConfidenceIso" (NativeEnumerated (Some asn_SPC_HeadingIsoConfidenceIso_specs_1_its))
    [(TAG UNIVERSAL 10)] (Some asn_OER_type_HeadingIsoConfidenceIso_constr_1_its) [].

Definition asn_OER_type_SpeedConfidenceIso_constr_1_its : asn_oer_constraints :=
  {| width := 0; positive := false; csize := -1 |}.

Definition asn_SPC_SpeedConfidenceIso_specs_1_its : asn_INTEGER_specifics := {| field_unsigned := false |}.

Definition asn_DEF_SpeedConfidenceIso_its : asn_TYPE_descriptor :=
  TD "SpeedConfidenceIso" (NativeEnumerated (Some asn_SPC_SpeedConfidenceIso_specs_1_its))
    [(TAG UNIVERSAL 10)] (Some asn_OER_type_SpeedConfidenceIso_constr_1_its) [].

Definition asn_OER_type_ThrottleConfidence_constr_1_its : asn_oer_constraints :=
  {| width := 0; positive := false; csize := -1 |}.

Definition asn_SPC_ThrottleConfidence_specs_1_its : asn_INTEGER_specifics := {| field_unsigned := false |}.

Definition asn_DEF_ThrottleConfidence_its : asn_TYPE_descriptor :=
  TD "ThrottleConfidence" (NativeEnumerated (Some asn_SPC_ThrottleConfidence_specs_1_its))
    [(TAG UNIVERSAL 10)] (Some asn_OER_type_ThrottleConfidence_constr_1_its) [].

Definition asn_MBR_SpeedandHeadingIsoandThrottleConfidence_1_its : list tmember :=
  [ MBR NOFLAGS 0 (TAG CONTEXT 0) (-1) asn_DEF_HeadingIsoConfidenceIso_its None None None "heading"
  ; MBR NOFLAGS 0 (TAG CONTEXT 1) (-1) asn_DEF_SpeedConfidenceIso_its None None None "speed"
  ; MBR NOFLAGS 0 (TAG CONTEXT 2) (-1) asn_DEF_ThrottleConfidence_its None None None "throttle" ].

Definition asn_SPC_SpeedandHeadingIsoandThrottleConfidence_specs_1_its : asn_SEQUENCE_specifics :=
  {| roms_count := 0; aoms_count := 0; first_extension := -1 |}.

Definition asn_DEF_SpeedandHeadingIsoandThrottleConfidence_its : asn_TYPE_descriptor :=
  TD "SpeedandHeadingIsoandThrottleConfidence" (SEQUENCE asn_SPC_SpeedandHeadingIsoandThrottleConfidence_specs_1_its)
    [(TAG UNIVERSAL 16)] None asn_MBR_SpeedandHeadingIsoandThrottleConfidence_1_its.

Definition asn_MBR_FullPositionVector_1_part1_its : list tmember :=
  [ MBR POINTER 1 (TAG CONTEXT 0) (-1) asn_DEF_DDateTime_its None None None "utcTime"
  ; MBR NOFLAGS 0 (TAG CONTEXT 1) (-1) asn_DEF_Longitude_its None None None "long"
  ; MBR NOFLAGS 0 (TAG CONTEXT 2) (-1) asn_DEF_Latitude_its None None None "lat"
  ; MBR POINTER 7 (TAG CONTEXT 3) (-1) asn_DEF_Elevation_its None None None "elevation"
  ; MBR POINTER 6 (TAG CONTEXT 4) (-1) asn_DEF_HeadingIso_its None None None "heading"
  ; MBR POINTER 5 (TAG CONTEXT 5) (-1) asn_DEF_TransmissionAndSpeed_its None None None "speed" ].

Definition asn_MBR_FullPositionVector_1_part2_its : list tmember :=
  [ MBR POINTER 4 (TAG CONTEXT 6) (-1) asn_DEF_PositionalAccuracy_its None None None "posAccuracy"
  ; MBR POINTER 3 (TAG CONTEXT 7) (-1) asn_DEF_TimeConfidence_its None None None "timeConfidence"
  ; MBR POINTER 2 (TAG CONTEXT 8) (-1) asn_DEF_PositionConfidenceSet_its None None None "posConfidence"
  ; MBR POINTER 1 (TAG CONTEXT 9) (-1) asn_DEF_SpeedandHeadingIsoandThrottleConfidence_its None None None "speedConfidence" ].

Definition asn_MBR_FullPositionVector_1_its : list tmember :=
  asn_MBR_FullPositionVector_1_part1_its ++ asn_MBR_FullPositionVector_1_part2_its.

Definition asn_SPC_FullPositionVector_specs_1_its : asn_SEQUENCE_specifics :=
  {| roms_count := 8; aoms_count := 0; first_extension := 10 |}.

Definition asn_DEF_FullPositionVector_its : asn_TYPE_descriptor :=
  TD "FullPositionVector" (SEQUENCE asn_SPC_FullPositionVector_specs_1_its)
    [(TAG UNIVERSAL 16)] None asn_MBR_FullPositionVector_1_its.
