(* ===== verification/OerTheorems.v ===== *)
(** Correctness of the OER codec for whole type descriptors.

    The entry points of oer_encoder.c and oer_decoder.c against the abstract
    meaning of a descriptor: encoding writes the canonical octets, decoding
    inverts it, canonical encodings are unambiguous, and the buffer given to the
    encoder is never overrun. *)

From stdpp Require Import prelude strings.
From S2P Require Import Prelude Codecs Integer Descriptor OerSupport OerPrim OerConstr OerSpec.
From S2P Require Import OerPrimOk OerSem OerCodec OerSeqOk OerCodecOk Pqc.

(** * Representation is functional *)

(** A structure stands for at most one value. *)
Definition functional (s : oer_type) : Prop :=
  forall o a a', s.(sp_repr) o a -> s.(sp_repr) o a' -> a = a'.

Lemma comp_repr_functional e m v v' : functional e.(type) ->
  comp_repr e m v -> comp_repr e m v' -> v = v'.
Proof.
  intros Hf H H'. unfold comp_repr in *. destruct v as [a|], v' as [a'|]; [| | |done].
  - destruct H as [(o & -> & H)|(-> & _ & _ & d & Hd & ->)], H' as [(o' & Ho & H')|(Hm & _ & _ & d' & Hd' & ->)];
      try discriminate.
    + injection Ho as <-. f_equal. by eapply Hf.
    + rewrite Hd in Hd'. by injection Hd' as <-.
  - destruct H' as (-> & _ & _ & Hn). destruct H as [(o & Ho & _)|(_ & _ & _ & d & Hd & _)]; congruence.
  - destruct H as (-> & _ & _ & Hn). destruct H' as [(o & Ho & _)|(_ & _ & _ & d & Hd & _)]; congruence.
Qed.

Lemma repr_members_functional es : Forall (fun e => functional e.(type)) es ->
  forall ms vs vs', repr_members es ms vs -> repr_members es ms vs' -> vs = vs'.
Proof.
  induction 1 as [|e es He _ IH]; intros ms vs vs' H H'; destruct ms, vs, vs'; try done.
  destruct H as [H1 H2], H' as [H1' H2']. f_equal; [by eapply comp_repr_functional|by eapply IH].
Qed.

Lemma repr_choice_functional es : Forall (fun e => functional e.(type)) es ->
  forall o a a', repr_choice es o a -> repr_choice es o a' -> a = a'.
Proof.
  intros Hf o a a' H H'. destruct o as [| | | | | |ct p m|], a as [| | | | | |i av|]; try done.
  destruct a' as [| | | | | |i' av'|]; try done.
  destruct H as [-> (e & o & He & -> & Hr)], H' as [Hi (e' & o' & He' & Ho & Hr')].
  assert (i = i') as <- by lia. rewrite He in He'. injection He' as <-. injection Ho as <-.
  f_equal. rewrite Forall_lookup in Hf. by eapply (Hf i e He).
Qed.

Lemma set_of_functional e : functional e.(type) -> functional (sp_set_of e).
Proof.
  intros Hf o a a' H H'. destruct o as [| | | | | | |ct p array], a as [| | | | | | |l]; try done.
  destruct a' as [| | | | | | |l']; try done. cbn [sp_repr sp_set_of] in *. f_equal.
  revert l l' H H'. induction array as [|m array IH]; intros l l' H H'.
  - inv H. by inv H'.
  - apply Forall2_cons_inv_l in H as (v & l1 & (o & -> & Hv) & H & ->).
    apply Forall2_cons_inv_l in H' as (v' & l1' & (o' & Ho & Hv') & H' & ->). injection Ho as <-.
    f_equal; [by eapply Hf|by apply IH].
Qed.

Lemma repr_bits_functional o a a' : repr_bits o a -> repr_bits o a' -> a = a'.
Proof.
  intros H H'. destruct o, a, a'; try done. destruct H as (_ & _ & j & E & Hj & _), H' as (_ & _ & j' & E' & Hj' & _).
  f_equal. rewrite E in E'. by apply app_inj_2 in E' as [-> _]; [|congruence].
Qed.

(** The primitive types. *)
Lemma repr_int_functional o a a' : repr_int o a -> repr_int o a' -> a = a'.
Proof.
  intros H H'. destruct o as [| | |[l|]| | | |], a, a'; try done.
  destruct H as (_ & _ & <-), H' as (_ & _ & <-). done.
Qed.

Lemma repr_long_functional o a a' : repr_long o a -> repr_long o a' -> a = a'.
Proof. intros H H'. destruct o, a, a'; try done. cbn in *. congruence. Qed.

Lemma repr_buf_functional o a a' : repr_buf o a -> repr_buf o a' -> a = a'.
Proof. intros H H'. destruct o, a, a'; try done. cbn in *. congruence. Qed.

Lemma sem_functional td : functional (sem td).
Proof.
  induction td as [n k ts c es IH] using descriptor_ind.
  assert (Forall (fun e : smember => functional e.(type)) (map semm es)) as Hf by (apply List.Forall_map; exact IH).
  cbn [sem]. destruct k; cbn [sem_of].
  - intros o a a' H H'. destruct o, a, a'; try done. cbn in *. congruence.
  - intros o a a' H H'. by destruct o, a, a'.
  - exact repr_buf_functional.
  - exact repr_int_functional.
  - exact repr_long_functional.
  - exact repr_long_functional.
  - exact repr_buf_functional.
  - exact repr_bits_functional.
  - intros o a a' H H'. destruct o, a, a'; try done. f_equal. exact (repr_members_functional _ Hf _ _ _ H H').
  - exact (repr_choice_functional _ Hf).
  - destruct (map semm es) as [|e [|]]; try (by intros ??? []). apply set_of_functional. by inv Hf.
  - exact (repr_choice_functional _ Hf).
  - by intros ??? [].
Qed.

(** * Encoding *)

(** The buffer callback: what is written and what is left add up, and what is left
    never becomes negative. *)
Lemma buffer_run {A} (m : enc A) : forall arg r arg', run encode_to_buffer_cb m arg = Some (r, arg') ->
  0 <= arg.(eb_left) ->
  (exists w, arg'.(eb_buffer) = arg.(eb_buffer) ++ w /\ size w = arg.(eb_left) - arg'.(eb_left)) /\
  0 <= arg'.(eb_left).
Proof.
  induction m as [a|c k IH|]; intros arg r arg' H Hl; [| |done].
  - injection H as <- <-. split; [|done]. exists []. rewrite app_nil_r. change (size []) with 0. split; [done|lia].
  - cbn [run] in H. unfold encode_to_buffer_cb at 1 in H. destruct (Z.ltb_spec arg.(eb_left) (size c)).
    + by apply IH in H.
    + apply IH in H; [|cbn; lia]. cbn [eb_buffer eb_left] in H. destruct H as [(w & -> & Hw) Hl']. split; [|done].
      exists (c ++ w). rewrite app_assoc, size_app. split; [done|lia].
Qed.

(** A buffer that is large enough receives what the program writes. *)
Lemma emits_buffer {A} (m : enc A) a bs : emits m a bs -> forall arg, size bs <= arg.(eb_left) ->
  run encode_to_buffer_cb m arg =
    Some (a, {| eb_buffer := arg.(eb_buffer) ++ bs; eb_left := arg.(eb_left) - size bs |}).
Proof.
  induction 1 as [a|c k a bs _ IH]; intros arg Hl.
  - cbn [run]. change (size []) with 0. rewrite app_nil_r, Z.sub_0_r. by destruct arg.
  - rewrite size_app in Hl. pose proof (size_nonneg bs). cbn [run]. unfold encode_to_buffer_cb at 1.
    destruct (Z.ltb_spec arg.(eb_left) (size c)); [lia|]. rewrite IH by (cbn; lia). cbn [eb_buffer eb_left].
    rewrite <- app_assoc, size_app, Z.sub_add_distr. done.
Qed.

(** A concrete key for the witnesses: the compressed point [2, 2, ...] on NIST P-256,
    as value, as structure and as octets. *)
Definition sample_key : aval := A_CHOICE 0 (A_CHOICE 2 (A_OCTETS (replicate 32 2))).
Definition sample_key_obj : obj :=
  O_CHOICE ctx_zero 1 (Some (O_CHOICE ctx_zero 3 (Some (O_BUF (Some (replicate 32 2)))))).
Definition sample_key_octets : bytes := 0x80 :: 0x82 :: replicate 32 2.

Lemma sample_key_repr : (sem asn_DEF_PublicVerificationKey).(sp_repr) sample_key_obj sample_key.
Proof. split; [done|]. eexists _, _. split; [reflexivity|]. split; [done|]. split; [done|]. eexists _, _. by split. Qed.

Lemma sample_key_bytes : (sem asn_DEF_PublicVerificationKey).(sp_bytes) None sample_key = Some sample_key_octets.
Proof. by vm_compute. Qed.

Lemma wf_key : wf_td asn_DEF_PublicVerificationKey = true.
Proof. by vm_compute. Qed.

Lemma encode_ok f td o a bs : wf_td td = true ->
  (sem td).(sp_repr) o a -> (sem td).(sp_bytes) None a = Some bs ->
  emits (oer_encode f td (Some o)) (ASN__ENCODED_OK (size bs)) bs.
Proof.
  intros Hw Hr Hb. unfold oer_encode.
  by destruct (good_enc _ _ (codec_ok f td Hw) _ _ _ _ Hr Hb) as (e & -> & He).
Qed.

(** C8. Refinement of the encoder: for every well-formed descriptor, encoding a
    structure that stands for the value [a] succeeds and writes exactly the
    canonical OER octets of [a], whatever bound is put on the padding loop. *)
Theorem oer_encode_canonical f td o a bs : wf_td td = true ->
  (sem td).(sp_repr) o a -> (sem td).(sp_bytes) None a = Some bs ->
  emits (oer_encode f td (Some o)) (ASN__ENCODED_OK (size bs)) bs.
Proof. apply encode_ok. Qed.

Lemma oer_encode_canonical_witness :
  emits (oer_encode 0 asn_DEF_PublicVerificationKey (Some sample_key_obj)) (ASN__ENCODED_OK 34) sample_key_octets.
Proof. exact (oer_encode_canonical 0 _ _ _ _ wf_key sample_key_repr sample_key_bytes). Defined.

(** The stack stays below the default limit of [oer_decode]. *)
Definition stack_fits (used : nat -> Z) : Prop := forall d, used d <= ASN__DEFAULT_STACK_MAX.

Lemma decode_ok used td a bs rest : wf_td td = true -> is_open_type td = false -> stack_fits used ->
  (sem td).(sp_bytes) None a = Some bs ->
  exists o, oer_decode used None td None (bs ++ rest) = (ok (size bs), Some o) /\ (sem td).(sp_repr) o a.
Proof.
  intros Hw Hno Hs Hb. unfold oer_decode.
  destruct (good_dec _ _ (codec_ok 0 td Hw) Hno
              {| max_stack_size := ASN__DEFAULT_STACK_MAX; stack_used := used; depth := 0 |} None a bs None rest)
    as (d & o & -> & Hd & Hr); [by right|done|by left|]. by exists o.
Qed.

(** C9. Refinement of the decoder: given the canonical octets of [a], followed by
    anything, [oer_decode] returns RC_OK, consumes exactly those octets and builds
    a structure that stands for [a]. *)
Theorem oer_decode_canonical used td a bs rest : wf_td td = true -> is_open_type td = false ->
  stack_fits used -> (sem td).(sp_bytes) None a = Some bs ->
  exists o, oer_decode used None td None (bs ++ rest) = (RETURN RC_OK (size bs), Some o) /\
            (sem td).(sp_repr) o a.
Proof. apply decode_ok. Qed.

Lemma oer_decode_canonical_witness :
  exists o, oer_decode (fun _ => 0) None asn_DEF_PublicVerificationKey None (sample_key_octets ++ [1; 2; 3]) =
              (RETURN RC_OK 34, Some o).
Proof.
  destruct (oer_decode_canonical (fun _ => 0) _ _ _ [1; 2; 3] wf_key eq_refl ltac:(done) sample_key_bytes) as (o & Ho & _).
  by exists o.
Defined.

(** C10. Round trip through a buffer: a structure for [a] is encoded into any buffer
    that is large enough, and decoding the octets written there gives back a
    structure for [a], which encodes to the same octets again. *)
Theorem oer_roundtrip f used td o a bs n : wf_td td = true -> is_open_type td = false -> stack_fits used ->
  (sem td).(sp_repr) o a -> (sem td).(sp_bytes) None a = Some bs -> size bs <= n ->
  exists arg o', oer_encode_to_buffer f td None (Some o) n = Some (ASN__ENCODED_OK (size bs), arg) /\
    arg.(eb_left) = n - size bs /\
    oer_decode used None td None arg.(eb_buffer) = (RETURN RC_OK (size bs), Some o') /\
    (sem td).(sp_repr) o' a /\
    oer_encode_to_buffer f td None (Some o') n = Some (ASN__ENCODED_OK (size bs), arg).
Proof.
  intros Hw Hno Hs Hr Hb Hn. destruct (decode_ok used td a bs [] Hw Hno Hs Hb) as (o' & Hd & Hr').
  rewrite app_nil_r in Hd. exists {| eb_buffer := bs; eb_left := n - size bs |}, o'.
  pose proof (good_enc _ _ (codec_ok f td Hw)) as He. unfold oer_encode_to_buffer.
  destruct (He _ _ _ _ Hr Hb) as (e & Ee & Hem), (He _ _ _ _ Hr' Hb) as (e' & Ee' & Hem').
  rewrite Ee in Ee' |- *. injection Ee' as <-.
  split; [by rewrite (emits_buffer _ _ _ Hem)|]. repeat split; [exact Hd|done|by rewrite (emits_buffer _ _ _ Hem')].
Qed.

Lemma oer_roundtrip_witness :
  exists arg o', oer_encode_to_buffer 0 asn_DEF_PublicVerificationKey None (Some sample_key_obj) 40 =
                   Some (ASN__ENCODED_OK 34, arg) /\
    oer_decode (fun _ => 0) None asn_DEF_PublicVerificationKey None arg.(eb_buffer) = (RETURN RC_OK 34, Some o').
Proof.
  destruct (oer_roundtrip 0 (fun _ => 0) _ _ _ _ 40 wf_key eq_refl ltac:(done) sample_key_repr sample_key_bytes
              ltac:(by vm_compute)) as (arg & o' & He & _ & Hd & _).
  by exists arg, o'.
Defined.

(** The encoder's output is prefix-free and determines the value: if what it writes
    for two structures of a type starts the same input, the structures stand for the
    same value and the octets are the same.  A signature over the encoding is thus a
    signature over the value. *)
Theorem oer_canonical_injective f td o o' a a' r r' w w' rest rest' : wf_td td = true -> is_open_type td = false ->
  (sem td).(sp_repr) o a -> (sem td).(sp_repr) o' a' ->
  is_Some ((sem td).(sp_bytes) None a) -> is_Some ((sem td).(sp_bytes) None a') ->
  emits (oer_encode f td (Some o)) r w -> emits (oer_encode f td (Some o')) r' w' ->
  w ++ rest = w' ++ rest' -> a = a' /\ w = w'.
Proof.
  intros Hw Hno Hr Hr' [bs Hb] [bs' Hb'] He He' E.
  pose proof (encode_ok f td o a bs Hw Hr Hb) as Hc. pose proof (encode_ok f td o' a' bs' Hw Hr' Hb') as Hc'.
  destruct (emits_det _ _ _ _ _ Hc He) as [_ <-], (emits_det _ _ _ _ _ Hc' He') as [_ <-].
  destruct (decode_ok (fun _ => 0) td a bs rest Hw Hno ltac:(done) Hb) as (p & Hd & Hp).
  destruct (decode_ok (fun _ => 0) td a' bs' rest' Hw Hno ltac:(done) Hb') as (p' & Hd' & Hp').
  rewrite E, Hd' in Hd. injection Hd as Hsz Ho. subst p'. split; [by eapply sem_functional|].
  apply app_inj_1 in E as [-> _]; [done|]. unfold size in Hsz. lia.
Qed.

Lemma oer_canonical_injective_witness : sample_key = sample_key /\ sample_key_octets = sample_key_octets.
Proof.
  pose proof (encode_ok 0 _ _ _ _ wf_key sample_key_repr sample_key_bytes) as He.
  exact (oer_canonical_injective 0 _ _ _ _ _ _ _ _ _ [1] [1] wf_key eq_refl sample_key_repr sample_key_repr
           (mk_is_Some _ _ sample_key_bytes) (mk_is_Some _ _ sample_key_bytes) He He eq_refl).
Defined.

(** The encoder never writes outside the buffer it was given, for any
    descriptor and any structure, well-formed or not, and on every path, errors
    included: the octets stored and the space left add up to the buffer size. *)
Theorem oer_encode_to_buffer_bounds f td c o n r arg : 0 <= n ->
  oer_encode_to_buffer f td c o n = Some (r, arg) ->
  size arg.(eb_buffer) + arg.(eb_left) = n /\ 0 <= arg.(eb_left).
Proof.
  intros Hn H. unfold oer_encode_to_buffer in H. destruct (oer_encoder (op f td)) as [e|].
  - apply buffer_run in H as [(w & -> & Hw) Hl]; [|done]. cbn [eb_buffer eb_left app] in *. lia.
  - injection H as _ <-. cbn. change (size []) with 0. lia.
Qed.

Lemma oer_encode_to_buffer_bounds_witness :
  exists arg, oer_encode_to_buffer 0 asn_DEF_PublicVerificationKey None (Some sample_key_obj) 10 =
      Some (ASN__ENCODE_FAILED "OCTET STRING", arg) /\
    size arg.(eb_buffer) + arg.(eb_left) = 10 /\ 0 <= arg.(eb_left).
Proof.
  exists {| eb_buffer := [0x80; 0x82]; eb_left := 8 |}. split; [by vm_compute|].
  apply (oer_encode_to_buffer_bounds 0 asn_DEF_PublicVerificationKey None (Some sample_key_obj) 10
           (ASN__ENCODE_FAILED "OCTET STRING")); [lia|by vm_compute].
Defined.
