(* ===== verification/OerSafety.v ===== *)
(** Safety of the OER decoders on arbitrary input.

    Whatever octets arrive and whatever state the target structure is in, no
    decoder reports more octets consumed than it was given.  A decoder that starts
    on a fresh structure and can only reach types with a decoder has a defined
    result: it never calls through a NULL function pointer, always has its presence
    bitmap, and its loops end. *)

From stdpp Require Import prelude strings.
From S2P Require Import Prelude Codecs BitData Integer Descriptor OerSupport OerPrim OerConstr.
From S2P Require Import OerSpec OerPrimOk OerSem OerCodec OerSeqOk Pqc.
Import Sequence.

(** * The contract *)

(** The width of a constraint is unsigned. *)
Definition cts_ok (c : oer_cts) : bool :=
  match c with Some c => 0 <=? c.(width) | None => true end.

(** A structure no decoder has worked on: all contexts are in their first phase. *)
Fixpoint fresh (o : obj) : bool :=
  let fresh_opt m := match m with Some o => fresh o | None => true end in
  match o with
  | O_SEQ c _ ms => (c.(phase) =? 0) && forallb fresh_opt ms
  | O_CHOICE c _ m => (c.(phase) =? 0) && fresh_opt m
  | O_SET_OF c p array => (c.(phase) =? 0) && fresh_opt p
  | _ => true
  end.

Definition fresh_opt (m : option obj) : bool := match m with Some o => fresh o | None => true end.

(** [b] says whether undefined behaviour is to be excluded. *)
Definition safe_result (b : bool) (n : Z) (rv : asn_dec_rval) : Prop :=
  0 <= rv.(consumed) <= n /\ (b = true -> rv.(code) <> RC_UNDEFINED).

Definition safe (b : bool) (d : decoder) : Prop :=
  forall ctx c p ptr, cts_ok c = true -> all_bytes ptr -> (b = true -> fresh_opt p = true) ->
  safe_result b (size ptr) (d ctx c p ptr).1.

(** Only where undefined behaviour is allowed may a decoder be missing. *)
Class SafeType (b : bool) (t : asn_TYPE_operation) : Prop := {
  safe_type : match t.(oer_decoder) with Some d => safe b d | None => b = false end;
  safe_zero : fresh t.(op_zero) = true;
}.

(** ** Results *)

Lemma safe_failed b n : 0 <= n -> safe_result b n ASN__DECODE_FAILED.
Proof. by split. Qed.

Lemma safe_starved b n : 0 <= n -> safe_result b n ASN__DECODE_STARVED.
Proof. by split. Qed.

Lemma safe_return b n c k : 0 <= k <= n -> (b = true -> c <> RC_UNDEFINED) -> safe_result b n (RETURN c k).
Proof. by split. Qed.

Lemma safe_undefined n : 0 <= n -> safe_result false n UNDEFINED.
Proof. by split. Qed.

#[export] Hint Resolve safe_failed safe_starved safe_undefined : asn.

(** * Primitive types *)

(** A length determinant that was read. *)
Lemma fetched_length ptr : all_bytes ptr -> exists n len, oer_fetch_length ptr = (n, len) /\
  -1 <= n <= size ptr /\ 0 <= len.
Proof.
  intros Hp. destruct (oer_fetch_length ptr) as [n len] eqn:E.
  apply fetch_length_bounds in E as (? & ? & _); [|done]. exists n, len. auto with lia.
Qed.

(** The octets after a length determinant of [n] octets hold [len] more. *)
Lemma safe_contents b n len k (ptr : bytes) : 0 <= n <= size ptr -> 0 <= len -> (size (zdrop n ptr) <? len) = false ->
  k = n + len -> safe_result b (size ptr) (ok k).
Proof.
  intros Hn Hlen Hlt ->. rewrite size_zdrop, Z.ltb_ge in Hlt by done. by apply safe_return; [lia|].
Qed.

Lemma INTEGER_safe b tc : cts_ok tc = true -> safe b (INTEGER_decode_oer tc).
Proof.
  intros Htc ctx c p ptr Hc Hp _. unfold INTEGER_decode_oer. pose proof (size_nonneg ptr).
  assert (0 <= (ct_value (pick_cts c tc)).1) as Hw by (destruct c as [c|], tc as [tc|]; cbn in *; lia).
  destruct (ct_value _) as [w pos]. cbn [fst] in Hw. destruct (ctrue w) eqn:Ew; cbn [negb andb].
  - destruct (_ || _) eqn:E; [by auto with asn|]. apply orb_false_iff in E as [_ E].
    destruct pos; apply (safe_contents b 0 w); auto with lia.
  - destruct (fetched_length ptr Hp) as (n & len & -> & Hn & Hlen).
    destruct (Z.eqb_spec n 0); [by auto with asn|]. destruct (Z.eqb_spec n (-1)); [by auto with asn|].
    destruct (_ || _) eqn:E; [by auto with asn|]. apply orb_false_iff in E as [_ E].
    destruct pos; apply (safe_contents b n len); auto with lia.
Qed.

Lemma NativeInteger_safe b specs tc : cts_ok tc = true -> safe b (NativeInteger_decode_oer specs tc).
Proof.
  intros Htc ctx c p ptr Hc Hp _. unfold NativeInteger_decode_oer.
  pose proof (INTEGER_safe b tc Htc ctx c (Some (O_BUF None)) ptr Hc Hp ltac:(done)) as Hs.
  destruct (INTEGER_decode_oer _ _ _ _ _) as [rv o]. cbn [fst] in Hs.
  assert (safe_result b (size ptr) (RETURN RC_FAIL (consumed rv))) by (by destruct Hs as [? _]; apply safe_return).
  destruct o as [[| | |t| | | |]|]; try done. destruct (decide _); [|done].
  destruct (is_unsigned specs); [by destruct (asn_INTEGER2ulong t)|by destruct (asn_INTEGER2long t)].
Qed.

Lemma BOOLEAN_safe b : safe b BOOLEAN_decode_oer.
Proof.
  intros ctx c p ptr _ _ _. destruct ptr as [|x ptr]; [by apply safe_starved|]. cbn.
  rewrite size_cons. pose proof (size_nonneg ptr). by apply safe_return; [lia|].
Qed.

Lemma NULL_safe b : safe b NULL_decode_oer.
Proof. intros ctx c p ptr _ _ _. pose proof (size_nonneg ptr). by apply safe_return. Qed.

Lemma OCTET_STRING_safe b specs tc : safe b (OCTET_STRING_decode_oer specs tc).
Proof.
  intros ctx c p ptr _ Hp _. unfold OCTET_STRING_decode_oer. pose proof (size_nonneg ptr).
  destruct (unit_bytes_of specs) as [u|] eqn:Eu; [|by auto with asn].
  assert (0 < u) by (unfold unit_bytes_of in Eu; destruct (default _ _); try discriminate; injection Eu as <-; lia).
  set (ct := ct_size _). rewrite Z.ltb_antisym. destruct (Z.leb_spec 0 ct); cbn [negb andb].
  - destruct (_ <? _) eqn:E; [by auto with asn|]. apply (safe_contents b 0 (u * ct)); auto with lia.
  - destruct (fetched_length ptr Hp) as (n & len & -> & Hn & Hlen).
    destruct (Z.eqb_spec n 0); [by auto with asn|]. destruct (Z.ltb_spec n 0); [by auto with asn|].
    destruct (negb _); [by auto with asn|]. destruct (_ <? _) eqn:E; [by auto with asn|].
    apply (safe_contents b n len); auto with lia.
Qed.

Lemma primitive_safe b : safe b oer_decode_primitive.
Proof.
  intros ctx c p ptr _ Hp _. unfold oer_decode_primitive. pose proof (size_nonneg ptr).
  destruct (fetched_length ptr Hp) as (n & len & -> & Hn & Hlen).
  destruct (Z.eqb_spec n 0); [by auto with asn|]. destruct (Z.ltb_spec n 0); [by auto with asn|].
  destruct (_ <? _) eqn:E; [by auto with asn|]. apply (safe_contents b n len); auto with lia.
Qed.

Lemma BIT_STRING_safe b tc : safe b (BIT_STRING_decode_oer tc).
Proof.
  intros ctx c p ptr _ Hp _. unfold BIT_STRING_decode_oer. pose proof (size_nonneg ptr).
  destruct (match p with Some (O_BITS b u) => (b, u) | _ => (None, 0) end) as [sb su].
  set (ct := ct_size _). destruct (Z.leb_spec 0 ct).
  - assert (0 <= Z.shiftr (ct + 7) 3) by (rewrite shiftr_3; apply Z.div_pos; lia).
    destruct (size ptr <? _) eqn:E; [by auto with asn|]. apply (safe_contents b 0 (Z.shiftr (ct + 7) 3)); auto with lia.
  - destruct (fetched_length ptr Hp) as (n & len & -> & Hn & Hlen).
    destruct (Z.eqb_spec n 0); [by auto with asn|]. destruct (Z.ltb_spec n 0); [by auto with asn|].
    destruct (Z.ltb_spec len 1); [by auto with asn|].
    destruct (size (zdrop n ptr) <? len) eqn:E; [by auto with asn|].
    destruct (ctrue _); [by auto with asn|]. destruct (_ <? len - 1); [by auto with asn|].
    apply (safe_contents b n len); auto with lia.
Qed.

Lemma NativeEnumerated_safe b specs : safe b (NativeEnumerated_decode_oer specs).
Proof.
  intros ctx c p ptr _ Hp _. unfold NativeEnumerated_decode_oer. destruct ptr as [|x ptr]; [by apply safe_starved|].
  assert (0 <= size (x :: ptr)) by auto with asn. assert (1 <= size (x :: ptr)) by (rewrite size_cons; pose proof (size_nonneg ptr); lia).
  destruct (_ =? 0); [by apply safe_return; [lia|]|]. set (len := Z.land x 0x7f).
  destruct (_ || _) eqn:E1; [by auto with asn|]. apply orb_false_iff in E1 as [E1 _]. rewrite Z.ltb_ge in E1.
  destruct (Z.ltb_spec (size (x :: ptr)) (1 + len)); [by auto with asn|].
  destruct (_ && _); [by auto with asn|]. by apply safe_return; [lia|].
Qed.

(** * Open types *)

(** The result of [oer_open_type_get]: an error, or octets within the input. *)
Definition safe_size (b : bool) (n : Z) (r : Z) : Prop :=
  OT_UNDEFINED <= r <= n /\ (b = true -> r <> OT_UNDEFINED).

Lemma open_type_get_safe b t ctx c p ptr : SafeType b t -> cts_ok c = true -> all_bytes ptr ->
  (b = true -> fresh_opt p = true) -> safe_size b (size ptr) (oer_open_type_get ctx t c p ptr).1.
Proof.
  intros [Ht _] Hc Hp Hf. pose proof (size_nonneg ptr). unfold oer_open_type_get, safe_size, OT_UNDEFINED.
  destruct (fetched_length ptr Hp) as (n & len & -> & Hn & Hlen).
  destruct (Z.leb_spec n 0); [cbn; lia|]. destruct (Z.ltb_spec (size ptr - n) len); [cbn; lia|].
  destruct (oer_decoder t) as [d|]; [|subst b; cbn; lia].
  assert (all_bytes (ztake len (zdrop n ptr))) as Hb by auto with asn.
  specialize (Ht (nested ctx) c p _ Hc Hb Hf). destruct (d _ _ _ _) as [rv o]. destruct Ht as [_ Hu]. cbn [fst] in Hu.
  destruct (code rv); cbn; try lia. split; [lia|]. intros Hbt. by destruct (Hu Hbt).
Qed.

(** The variants of an open type behind a member; they are only looked at where
    undefined behaviour is allowed. *)
Definition variants_safe (e : member) : Prop :=
  Forall (fun v : member => SafeType false v.(type)) e.(type).(op_elements).

Lemma OPEN_TYPE_oer_get_safe ctx elm ms m ptr : variants_safe elm -> all_bytes ptr ->
  let rv := (OPEN_TYPE_oer_get ctx elm ms m ptr).1 in
  rv.(code) <> RC_FAIL -> 0 <= rv.(consumed) <= size ptr.
Proof.
  intros Hv Hp. pose proof (size_nonneg ptr). unfold OPEN_TYPE_oer_get. cbv zeta.
  destruct (negb _); [done|]. destruct (type_selector elm) as [sel|]; [|done]. destruct (_ =? 0); [done|].
  destruct (CHOICE_variant_set_presence _ _ _) as [[| | | | | |c pr inner|]|]; try done.
  destruct (op_elements _ !! _) as [v|] eqn:Ev; [|done].
  assert (SafeType false v.(type)) as Hs by (unfold variants_safe in Hv; rewrite Forall_lookup in Hv; by eapply Hv).
  pose proof (open_type_get_safe false v.(type) ctx None (Some (default (op_zero (type v)) inner)) ptr Hs eq_refl Hp
                ltac:(done)) as [Hle _].
  destruct (oer_open_type_get _ _ _ _ _) as [r iv]. cbn [fst] in Hle. unfold OT_UNDEFINED in *.
  destruct (Z.eqb_spec r (-2)); [done|]. destruct (Z.eqb_spec r 0); [done|]. destruct (Z.eqb_spec r (-1)); [done|].
  destruct (CHOICE_variant_set_presence _ _ _); cbn; lia || done.
Qed.

(** * SEQUENCE *)

(** What is known of a run with defined behaviour: the presence bits are there and
    the members from [k] on have not been touched. *)
Definition untouched (k : nat) (s : state) : Prop :=
  (exists pd, s.(bits) = Some pd /\ BitIn.wf pd) /\
  forall i m, (k <= i)%nat -> s.(members) !! i = Some m -> fresh_opt m = true.

(** Input consumed and input left add up to the input given. *)
Definition inv (b : bool) (n : Z) (k : nat) (s : state) : Prop :=
  0 <= s.(consumed_myself) /\ s.(consumed_myself) + size s.(ptr) = n /\ all_bytes s.(ptr) /\
  (b = true -> untouched k s).

Definition outcome_ok (b : bool) (n : Z) (Q : state -> Prop) (o : outcome) : Prop :=
  match o with Stop rv _ => safe_result b n rv | Go s => Q s end.

Abbreviation safe_outcome b n k := (outcome_ok b n (inv b n k)).

(** What a step does to the parts the invariant looks at. *)
Lemma inv_change b n k k' s s' : inv b n k s -> (k <= k')%nat -> s'.(ptr) = s.(ptr) ->
  s'.(consumed_myself) = s.(consumed_myself) ->
  (b = true -> forall pd, s.(bits) = Some pd -> BitIn.wf pd -> exists pd', s'.(bits) = Some pd' /\ BitIn.wf pd') ->
  (b = true -> forall i, (k' <= i)%nat -> s'.(members) !! i = s.(members) !! i) -> inv b n k' s'.
Proof.
  intros (H1 & H2 & H3 & H4) Hk Hp Hc Hb Hm. unfold inv. rewrite Hp, Hc. repeat split; auto.
  - destruct (H4 H) as [(pd & Hpd & Hwf) _]. by apply (Hb H pd).
  - intros i m Hi Hl. rewrite Hm in Hl by done. destruct (H4 H) as [_ Hf]. apply (Hf i); [lia|done].
Qed.

Lemma inv_ctx b n k s c : inv b n k s -> inv b n k (set_ctx s c).
Proof. by intros H. Qed.

Lemma inv_bits b n k s pd : inv b n k s -> BitIn.wf pd -> inv b n k (set_bits s pd).
Proof. intros H Hwf. eapply inv_change; eauto. Qed.

(** Bits that need not be well-formed when nothing is claimed about them. *)
Lemma inv_bits' b n k s pd : inv b n k s -> (b = true -> BitIn.wf pd) -> inv b n k (set_bits s pd).
Proof. intros H Hwf. eapply inv_change; eauto. Qed.

Lemma inv_member b n s edx m : inv b n edx s -> inv b n (S edx) (set_member s edx m).
Proof.
  intros H. eapply inv_change; eauto. intros _ i Hi. cbn. apply list_lookup_insert_ne. lia.
Qed.

Lemma inv_weaken b n k k' s : inv b n k s -> (k <= k')%nat -> inv b n k' s.
Proof. intros H Hk. eapply inv_change; eauto. Qed.

Lemma inv_ADVANCE b n k j s : inv b n k s -> 0 <= j <= size s.(ptr) -> inv b n k (ADVANCE j s).
Proof.
  intros (H1 & H2 & H3 & H4) Hj. unfold inv. cbn. rewrite size_zdrop by done.
  split; [lia|]. split; [lia|]. split; [by auto with asn|exact H4].
Qed.

Lemma inv_bound b n k s : inv b n k s -> 0 <= s.(consumed_myself) <= n.
Proof. intros (H1 & H2 & _). pose proof (size_nonneg s.(ptr)). lia. Qed.

Lemma inv_some b n k s : inv b n k s -> s.(bits) = None -> b = false.
Proof.
  intros (_ & _ & _ & H) E. apply not_true_iff_false. intros Hb. destruct (H Hb) as [(pd & Hpd & _) _]. congruence.
Qed.

Lemma inv_wf b n k s pd : inv b n k s -> s.(bits) = Some pd -> b = true -> BitIn.wf pd.
Proof. intros (_ & _ & _ & H) E Hb. destruct (H Hb) as [(pd' & Hpd & Hwf) _]. congruence. Qed.

Lemma inv_fresh b n k s edx : inv b n k s -> (k <= edx)%nat -> b = true ->
  fresh_opt (default None (s.(members) !! edx)) = true.
Proof.
  intros (_ & _ & _ & H) Hk Hb. destruct (H Hb) as [_ Hf].
  destruct (members s !! edx) as [m|] eqn:E; [by apply (Hf edx)|done].
Qed.

Lemma safe_return_ b b' n k Q c s : inv b' n k s -> (b = true -> c <> RC_UNDEFINED) -> outcome_ok b n Q (return_ c s).
Proof. intros H Hc. by apply safe_return; [eapply inv_bound|]. Qed.

Lemma safe_no_bits b n k Q s : inv b n k s -> s.(bits) = None -> outcome_ok b n Q (return_ RC_UNDEFINED s).
Proof. intros H E. eapply safe_return_; [done|]. by rewrite (inv_some _ _ _ _ H E). Qed.

Lemma safe_bind b n Q Q' o f : outcome_ok b n Q o -> (forall s, Q s -> outcome_ok b n Q' (f s)) ->
  outcome_ok b n Q' (bind o f).
Proof. destruct o; cbn; auto. Qed.

(** The bounds alone. *)
Lemma inv_base b n k s : inv b n k s -> inv false n k s.
Proof. intros (H1 & H2 & H3 & _). by repeat split. Qed.

Lemma contiguous_wf l n k : all_bytes l -> 0 <= k <= n -> (n + 7) / 8 <= size l ->
  let pd := BitIn.asn_bit_data_new_contiguous l n in
  BitIn.wf {| BitIn.buffer := BitIn.buffer pd; BitIn.nboff := k; BitIn.nbits := BitIn.nbits pd; BitIn.moved := BitIn.moved pd |}.
Proof.
  intros Hl Hk Hs pd. pose proof (Z.div_pos (n + 7) 8 ltac:(lia) ltac:(lia)).
  destruct (new_contiguous_ok (ztake ((n + 7) / 8) l) n k (zdrop ((n + 7) / 8) l)) as (Hwf & _);
    [by auto with asn|done|by apply size_ztake|]. by rewrite ztake_zdrop in Hwf.
Qed.

(** Reading one presence bit. *)
Lemma one_bit_wf pd v pd' : BitIn.wf pd -> BitIn.asn_get_few_bits pd 1 = (v, pd') -> BitIn.wf pd'.
Proof.
  intros Hwf E. destruct (BitIn.stream pd) as [|x l] eqn:Es.
  - rewrite read_no_bit in E by done. by injection E as <- <-.
  - destruct (read_bit pd x l Hwf Es) as (pd2 & Hr & Hwf2 & _). rewrite Hr in E. by injection E as <- <-.
Qed.

Lemma Forall_ztake {A} (P : A -> Prop) k l : Forall P l -> Forall P (ztake k l).
Proof. intros. unfold ztake. by apply Forall_take. Qed.

(** A member the decoder can be called for. *)
Record safe_member (b : bool) (e : member) : Prop := {
  sm_cts : cts_ok e.(oer_constraints) = true;
  sm_type : SafeType b e.(type);
  sm_variants : e.(ATF_OPEN_TYPE) = true -> b = false /\ variants_safe e;
}.

(** The pointer a member decoder is given. *)
Lemma element_ptr_fresh b e m : SafeType b e.(type) -> fresh_opt m = true -> fresh_opt (element_ptr e m) = true.
Proof.
  intros [_ Hz] Hm. unfold element_ptr. destruct (ATF_POINTER e); [done|]. by destruct m.
Qed.

Section Sequence.
Context (b : bool) (specs : asn_SEQUENCE_specifics) (elements : list member) (ctx : asn_codec_ctx) (n : Z).
Context (Hspecs : 0 <= specs.(roms_count)).

Lemma decode_member_safe edx e s : safe_member b e -> inv b n edx s ->
  safe_outcome b n (S edx) (decode_member ctx edx e s).
Proof.
  intros He H. unfold decode_member. set (m := default None _).
  match goal with |- context [let '(r, m) := ?x in _] => set (d := x) end.
  assert ((d.1.(code) <> RC_FAIL -> 0 <= d.1.(consumed) <= size (ptr s)) /\ (b = true -> d.1.(code) <> RC_UNDEFINED))
    as [Hc Hu].
  { unfold d. pose proof (size_nonneg (ptr s)). destruct (ATF_OPEN_TYPE e) eqn:Ho.
    - destruct (sm_variants _ _ He Ho) as [-> Hv]. split; [|done]. apply OPEN_TYPE_oer_get_safe; [done|apply H].
    - destruct (sm_type _ _ He) as [Ht Hz]. destruct (oer_decoder _) as [dec|]; [|by subst b].
      destruct (Ht (nested ctx) (oer_constraints e) (element_ptr e m) (ptr s) (sm_cts _ _ He)) as [? ?];
        [apply H| |auto]. intros Hb. eapply element_ptr_fresh; [apply (sm_type _ _ He)|]. by eapply inv_fresh. }
  destruct d as [rv m']. cbn [fst] in *. pose proof (inv_member b n s edx m' H) as Hm. destruct (code rv) eqn:E.
  - apply (inv_ADVANCE b n _ _ (set_member s edx m') Hm (Hc ltac:(done))).
  - eapply safe_return_; [|done]. exact (inv_ADVANCE b n _ _ (set_member s edx m') Hm (Hc ltac:(done))).
  - by eapply safe_return_.
  - by eapply safe_return_.
Qed.

Lemma root_member_safe edx e s : safe_member b e -> inv b n edx s ->
  safe_outcome b n (S edx) (root_member ctx edx e s).
Proof.
  intros He H. unfold root_member. destruct (ctrue _); [by apply decode_member_safe|].
  destruct (optional e); [|by apply decode_member_safe].
  destruct (bits s) as [pre|] eqn:Eb; [|by eapply safe_no_bits].
  destruct (BitIn.asn_get_few_bits pre 1) as [v pre'] eqn:Ev.
  assert (inv b n edx (set_bits s pre')) as H'.
  { apply inv_bits'; [done|]. intros Hb. eapply one_bit_wf; [|exact Ev]. by eapply inv_wf. }
  destruct (v <? 0); [by eapply safe_return_|]. destruct (v =? 0); [|by apply decode_member_safe].
  destruct (default_value e) as [dv|]; [by apply (inv_member b n (set_bits s pre'))|].
  by apply (inv_weaken b n edx _ (set_bits s pre')); [|lia].
Qed.

Lemma root_members_safe es : Forall (safe_member b) es -> forall edx s, inv b n edx s ->
  safe_outcome b n (edx + length es) (root_members ctx edx es s).
Proof.
  induction 1 as [|e es He _ IH]; intros edx s H; cbn [root_members length].
  - by rewrite Nat.add_0_r.
  - eapply safe_bind; [by apply root_member_safe|]. intros s' H'.
    replace (edx + S (length es))%nat with (S edx + length es)%nat by lia. by apply IH.
Qed.

Lemma extension_member_safe edx e s : cts_ok e.(oer_constraints) = true -> SafeType b e.(type) -> inv b n edx s ->
  safe_outcome b n (S edx) (extension_member ctx edx e s).
Proof.
  intros Hc Ht H. unfold extension_member. destruct (bits s) as [ext|] eqn:Eb; [|by eapply safe_no_bits]. cbv zeta.
  destruct (BitIn.asn_get_few_bits ext 1) as [v ext'] eqn:Ev.
  assert (inv b n edx (set_bits s ext')) as H'.
  { apply inv_bits'; [done|]. intros Hb. eapply one_bit_wf; [|exact Ev]. by eapply inv_wf. }
  set (m := element_ptr e _). destruct (_ || _).
  { destruct (default_value e) as [dv|]; [by apply (inv_member b n (set_bits s ext'))|].
    by apply (inv_weaken b n edx _ (set_bits s ext')); [|lia]. }
  destruct (v =? 1); [|by eapply safe_return_].
  destruct (open_type_get_safe b (type e) ctx (oer_constraints e) m (ptr (set_bits s ext')) Ht Hc) as [Hle Hu].
  { apply H. }
  { intros Hb. eapply element_ptr_fresh; [done|]. by eapply inv_fresh. }
  destruct (oer_open_type_get _ _ _ _ _) as [r m']. cbn [fst] in Hle, Hu.
  pose proof (inv_member b n (set_bits s ext') edx m' H') as H1.
  destruct (Z.eqb_spec r OT_UNDEFINED).
  { eapply safe_return_; [done|]. intros Hb. by destruct (Hu Hb). }
  destruct (Z.ltb_spec 0 r); [apply (inv_ADVANCE b n _ r _ H1); cbn in *; lia|].
  destruct (r <? 0); by apply safe_return; [apply (inv_bound b n _ _ H1)|].
Qed.

Lemma extension_members_safe es :
  Forall (fun e : member => cts_ok e.(oer_constraints) = true /\ SafeType b e.(type)) es ->
  forall edx s, inv b n edx s -> safe_outcome b n (edx + length es) (extension_members ctx edx es s).
Proof.
  induction 1 as [|e es [Hc Ht] _ IH]; intros edx s H; cbn [extension_members length].
  - by rewrite Nat.add_0_r.
  - eapply safe_bind; [by apply extension_member_safe|]. intros s' H'.
    replace (edx + S (length es))%nat with (S edx + length es)%nat by lia. by apply IH.
Qed.

Lemma phase0_safe s : inv false n 0 s -> (b = true -> forall i m, s.(members) !! i = Some m -> fresh_opt m = true) ->
  outcome_ok b n (fun s => inv b n 0 s /\ s.(Sequence.ctx).(step) = 0) (phase0 specs s).
Proof.
  intros H Hf. pose proof (inv_bound _ _ _ _ H). unfold phase0, has_extensions_bit.
  set (e := if 0 <=? _ then 1 else 0). assert (0 <= e) by (unfold e; destruct (_ <=? _); lia).
  cbv zeta. set (k := Z.shiftr _ _). assert (k = (e + roms_count specs + 7) / 8) as Ek
    by (unfold k; rewrite shiftr_3; f_equal; lia).
  assert (0 <= k) by (rewrite Ek; apply Z.div_pos; lia).
  destruct (Z.ltb_spec (size (ptr s)) k); [apply safe_starved; lia|].
  split; [|done]. destruct (inv_ADVANCE false n 0 k s H ltac:(lia)) as (Ha & Hc & Hd & _).
  split; [exact Ha|]. split; [exact Hc|]. split; [exact Hd|]. intros Hb.
  split; [|intros i m _; apply (Hf Hb i m)]. eexists. split; [reflexivity|]. apply contiguous_wf; [apply H|lia|lia].
Qed.

(** Where the root members end. *)
Definition root_end : nat := length (ztake (root_count specs elements) elements).

Lemma phase1_safe s : Forall (safe_member b) elements -> inv b n 0 s -> (b = true -> s.(Sequence.ctx).(step) = 0) ->
  safe_outcome b n root_end (phase1 specs elements ctx s).
Proof.
  intros Hm H Hstep. unfold phase1. destruct (bits s) eqn:Eb; [|by eapply safe_no_bits].
  set (edx := Z.to_nat _). assert (inv b n edx s) as H' by (eapply inv_weaken; [done|lia]).
  eapply safe_bind; [apply root_members_safe; [by apply Forall_drop, Forall_ztake|exact H']|].
  intros s' Hs'. cbn [outcome_ok]. apply inv_ctx. destruct b; [|by destruct Hs' as (? & ? & ? & _); repeat split].
  assert (edx = 0%nat) as E0 by (unfold edx; by rewrite Hstep). rewrite E0 in Hs'. exact Hs'.
Qed.

Lemma phase2_safe k s : inv b n k s ->
  outcome_ok b n (fun s => inv b n k s /\ s.(Sequence.ctx).(step) = root_count specs elements) (phase2 specs elements s).
Proof.
  intros H. unfold phase2. destruct (bits s) as [pre|] eqn:Eb; [|by eapply safe_no_bits]. cbv zeta.
  set (s1 := set_bits s _). assert (inv false n k s1) as H1 by (apply inv_bits'; [by eapply inv_base|done]).
  destruct (negb _); [by eapply (safe_return_ b false n k _ _ (set_ctx s1 _))|].
  destruct (fetched_length (ptr s1)) as (j & len & -> & Hj & Hlen); [by apply H1|].
  destruct (Z.eqb_spec j 0); [by eapply safe_return_|]. destruct (Z.ltb_spec j 0); [by eapply safe_return_|].
  assert (inv false n k (ADVANCE j s1)) as Hadk by (apply inv_ADVANCE; [done|lia]).
  assert (forall s2 pd, inv false n k s2 -> s2.(members) = s.(members) -> s2.(bits) = Some pd -> BitIn.wf pd ->
            inv b n k s2) as Hback.
  { intros s2 pd (Ha & Hb & Hc & _) Hm Hbt Hwf. destruct H as (_ & _ & _ & Hu).
    split; [done|]. split; [done|]. split; [done|]. intros E. split; [by exists pd|]. rewrite Hm. by apply (Hu E). }
  destruct (Z.eqb_spec len 0).
  { split; [|done]. eapply (Hback (set_bits (ADVANCE j s1) _)); [by apply inv_bits'|done|reflexivity|].
    apply (contiguous_wf [0] 0 0); [repeat constructor; lia|lia|by vm_compute]. }
  destruct (Z.ltb_spec (size (ptr (ADVANCE j s1))) len) as [|Hsz]; [by eapply safe_return_|].
  assert (inv false n k (ADVANCE 1 (ADVANCE j s1))) as Hadv by (apply inv_ADVANCE; [done|lia]).
  destruct (_ && _) eqn:Eu; [by eapply safe_return_|]. set (s2 := ADVANCE 1 _) in *.
  assert (size (ptr s2) = size (ptr (ADVANCE j s1)) - 1) as Hs2 by (unfold s2; cbn; apply size_zdrop; cbn in *; lia).
  split; [|done]. eapply (Hback (ADVANCE (len - 1) (set_bits s2 _)));
    [apply inv_ADVANCE; [by apply inv_bits'|cbn [ptr set_bits]; lia]|done|reflexivity|].
  rewrite (Z.land_comm 7), land_7 in *. pose proof (Z.mod_pos_bound (znth (ptr (ADVANCE j s1)) 0) 8 ltac:(lia)).
  apply (contiguous_wf (ptr s2) _ 0); [apply Hadv| |].
  - split; [lia|]. unfold ctrue in Eu. destruct (Z.eqb_spec (znth (ptr (ADVANCE j s1)) 0 mod 8) 0); [lia|].
    destruct (Z.eqb_spec (len - 1) 0); [done|lia].
  - apply Z.lt_succ_r, Z.div_lt_upper_bound; lia.
Qed.

Lemma phase3_safe k s : Forall (fun e : member => cts_ok e.(oer_constraints) = true /\ SafeType b e.(type)) elements ->
  inv b n k s -> (b = true -> (k <= Z.to_nat s.(Sequence.ctx).(step))%nat) ->
  outcome_ok b n (fun s => exists k', inv b n k' s) (phase3 elements ctx s).
Proof.
  intros He H Hstep. unfold phase3. set (edx := Z.to_nat s.(Sequence.ctx).(step)).
  eapply safe_bind; [|intros s' Hs'; eexists; exact Hs']. apply extension_members_safe; [by apply Forall_drop|].
  destruct b; [eapply inv_weaken; [done|by apply Hstep]|by destruct H as (? & ? & ? & _); repeat split].
Qed.

(** The number of presence bits bounds the iterations of the last loop. *)
Lemma skip_rest_safe fuel Q : forall k s, inv b n k s -> (b = true -> (bits_left s < fuel)%nat) ->
  outcome_ok b n Q (skip_rest fuel s).
Proof.
  induction fuel as [|fuel IH]; intros k s H Hf; cbn [skip_rest].
  { eapply safe_return_; [done|]. intros Hb. specialize (Hf Hb). lia. }
  destruct (bits s) as [ext|] eqn:Eb; [|by eapply safe_no_bits]. cbv zeta.
  destruct (BitIn.asn_get_few_bits ext 1) as [v ext'] eqn:Ev. set (s1 := set_bits s ext').
  assert (inv b n k s1) as H1.
  { apply inv_bits'; [done|]. intros Hb. eapply one_bit_wf; [|exact Ev]. by eapply inv_wf. }
  assert (b = true -> v = 0 \/ v = 1 -> (bits_left s1 < fuel)%nat) as Hless.
  { intros Hb Hv. specialize (Hf Hb). pose proof (inv_wf b n k s ext H Eb Hb) as Hwf.
    destruct (BitIn.stream ext) as [|x l] eqn:Es; [rewrite read_no_bit in Ev by done; injection Ev as <- _; lia|].
    pose proof (BitIn.length_stream ext Hwf) as Hl. rewrite Es in Hl. cbn [length] in Hl.
    rewrite BitIn.get_few_bits_ok in Ev by (auto; lia). injection Ev as _ <-.
    destruct (BitIn.advance_ok ext 1 Hwf ltac:(lia)) as (_ & _ & Hll & _).
    unfold bits_left, s1 in *. cbn [bits set_bits]. rewrite Eb in Hf. unfold BitIn.left_bits in *. lia. }
  destruct (Z.eqb_spec v 0); [eapply IH; eauto|]. destruct (Z.eqb_spec v 1).
  - unfold oer_open_type_skip. destruct (fetched_length (ptr s1)) as (j & len & -> & Hj & Hlen); [by apply H1|]. cbn [fst].
    destruct (Z.ltb_spec 0 j); [eapply IH; [apply inv_ADVANCE; [exact H1|lia]|auto]|].
    destruct (j <? 0); by apply safe_return; [apply (inv_bound b n k s1 H1)|].
  - destruct (v =? -1); by eapply safe_return_.
Qed.

Lemma phase4_safe Q k s : inv b n k s -> outcome_ok b n Q (phase4 s).
Proof. intros H. eapply skip_rest_safe; [done|]. intros _. lia. Qed.

(** From phase 3 on, from phase 2 on and from phase 1 on. *)
Context (Hm : Forall (safe_member b) elements).
Context (He : Forall (fun e : member => cts_ok e.(oer_constraints) = true /\ SafeType b e.(type)) elements).

Lemma from3_safe Q k s : inv b n k s -> (b = true -> (k <= Z.to_nat s.(Sequence.ctx).(step))%nat) ->
  outcome_ok b n Q (bind (phase3 elements ctx s) phase4).
Proof.
  intros H Hstep. eapply safe_bind; [by eapply phase3_safe|]. intros s' [k' H']. by eapply phase4_safe.
Qed.

Lemma from2_safe Q k s : inv b n k s -> (b = true -> (k <= Z.to_nat (root_count specs elements))%nat) ->
  outcome_ok b n Q (bind (bind (phase2 specs elements s) (phase3 elements ctx)) phase4).
Proof.
  intros H Hk. apply (safe_bind _ _ (fun s => exists k', inv b n k' s)); [|intros s' [k' H']; by eapply phase4_safe].
  eapply safe_bind; [by eapply phase2_safe|]. intros s' [H' E']. eapply phase3_safe; [done|done|]. by rewrite E'.
Qed.

Lemma from1_safe Q s : inv b n 0 s -> (b = true -> s.(Sequence.ctx).(step) = 0) ->
  outcome_ok b n Q (bind (phase1 specs elements ctx s)
    (fun s => bind (bind (phase2 specs elements s) (phase3 elements ctx)) phase4)).
Proof.
  intros H Hstep. eapply safe_bind; [by apply phase1_safe|]. intros s' H'. eapply from2_safe; [done|].
  intros _. unfold root_end, ztake. rewrite length_take. lia.
Qed.

Lemma run_phases_safe Q s : inv false n 0 s ->
  (b = true -> s.(Sequence.ctx).(phase) = 0 /\ forall i m, s.(members) !! i = Some m -> fresh_opt m = true) ->
  outcome_ok b n Q (run_phases specs elements ctx s).
Proof.
  intros H Hf. unfold run_phases. cbv zeta. destruct (Z.eqb_spec (phase s.(Sequence.ctx)) 0) as [E0|E0].
  { eapply safe_bind; [apply phase0_safe; [done|by apply Hf]|]. intros s' [H' E']. by apply from1_safe. }
  assert (b = false) as Eb by (apply not_true_iff_false; intros Hb; by destruct (Hf Hb)).
  assert (inv b n 0 s) as H' by (by rewrite Eb). assert (forall P : Prop, b = true -> P) as Hno by congruence.
  destruct (_ =? 1); [by apply from1_safe; [done|apply Hno]|]. destruct (_ =? 2); [by eapply from2_safe; [done|apply Hno]|].
  destruct (_ =? 3); [by eapply from3_safe; [done|apply Hno]|]. destruct (_ =? 4); [by eapply phase4_safe|].
  by eapply safe_return_.
Qed.

End Sequence.

(** Extension additions are decoded through their type. *)
Definition safe_extension (b : bool) (e : member) : Prop :=
  cts_ok e.(oer_constraints) = true /\ SafeType b e.(type).

Lemma forallb_lookup {A} (f : A -> bool) l i x : forallb f l = true -> l !! i = Some x -> f x = true.
Proof. rewrite forallb_forall. intros H Hi. apply H, list_elem_of_In. by eapply list_elem_of_lookup_2. Qed.

Lemma zero_members_fresh b es : Forall (safe_extension b) es -> forall i m,
  zero_members es !! i = Some m -> fresh_opt m = true.
Proof.
  intros He i m Hi. unfold zero_members in Hi. apply lookup_map_Some in Hi as (e & -> & Hi).
  rewrite Forall_lookup in He. destruct (He _ _ Hi) as [_ [_ Hz]]. by destruct (ATF_POINTER e).
Qed.

Lemma SEQUENCE_safe b specs es : 0 <= specs.(roms_count) ->
  Forall (safe_member b) es -> Forall (safe_extension b) es -> safe b (SEQUENCE_decode_oer specs es).
Proof.
  intros Hs Hm He ctx c p ptr _ Hp Hf. pose proof (size_nonneg ptr). unfold SEQUENCE_decode_oer.
  destruct (ASN__STACK_OVERFLOW_CHECK ctx); [by auto with asn|].
  destruct (match p with Some (O_SEQ c b ms) => (c, b, ms) | _ => _ end) as [[ct bt] ms] eqn:E.
  set (s := {| Sequence.ctx := ct |}).
  assert (b = true -> phase ct = 0 /\ forall i m, ms !! i = Some m -> fresh_opt m = true) as Hfr.
  { intros Hb. specialize (Hf Hb).
    destruct p as [[| | | | |c' b' ms'| |]|]; injection E as <- <- <-;
      try (split; [done|]; by eapply zero_members_fresh).
    cbn [fresh_opt fresh] in Hf. rewrite andb_true_iff, Z.eqb_eq in Hf. destruct Hf as [Hph Hms]. split; [done|].
    intros i m Hi. exact (forallb_lookup _ _ _ _ Hms Hi). }
  assert (outcome_ok b (size ptr) (inv false (size ptr) 0) (run_phases specs es ctx s)) as Hr.
  { apply run_phases_safe; auto. split; [done|]. split; [cbn; lia|done]. }
  destruct (run_phases _ _ _ _) as [rv s'|s']; [exact Hr|]. by apply safe_return; [eapply inv_bound|].
Qed.

(** * CHOICE *)

(** Selecting a variant leaves the member as it is or clears it. *)
Lemma set_presence_fresh k c p m v c' p' m' : fresh_opt m = true ->
  default (O_CHOICE c p m) (CHOICE_variant_set_presence k (Some (O_CHOICE c p m)) v) = O_CHOICE c' p' m' ->
  fresh_opt m' = true.
Proof.
  intros Hm. unfold CHOICE_variant_set_presence. destruct (_ <? _); [by intros [= _ _ <-]|].
  destruct (_ =? _); [by intros [= _ _ <-]|]. destruct (ctrue p); by intros [= _ _ <-].
Qed.

Lemma CHOICE_member_safe b specs es ctx c p m k ptr : Forall (safe_extension b) es -> 0 <= k -> all_bytes ptr ->
  (b = true -> fresh_opt m = true /\ is_Some (es !! Z.to_nat c.(step))) ->
  safe_result b (k + size ptr) (Choice.CHOICE_decode_member specs es ctx (O_CHOICE c p m) k ptr).1.
Proof.
  intros He Hk Hp Hf. pose proof (size_nonneg ptr). unfold Choice.CHOICE_decode_member.
  destruct (es !! _) as [e|] eqn:Ee.
  2: { split; [cbn; lia|]. intros Hb. destruct (Hf Hb) as [_ []]. congruence. }
  rewrite Forall_lookup in He. destruct (He _ _ Ee) as [Hc Ht].
  cbv zeta. destruct (default _ _) as [| | | | | |c' p' m'|] eqn:Ed; try (apply safe_failed; lia).
  assert (b = true -> fresh_opt (element_ptr e m') = true) as Hfe.
  { intros Hb. eapply element_ptr_fresh; [exact Ht|]. eapply set_presence_fresh; [|exact Ed]. by apply Hf. }
  destruct (_ && _).
  - pose proof (open_type_get_safe b (type e) ctx (oer_constraints e) (element_ptr e m') ptr Ht Hc Hp Hfe) as [Hle Hu].
    destruct (oer_open_type_get _ _ _ _ _) as [r o]. cbn [fst] in Hle, Hu.
    destruct (Z.eqb_spec r OT_UNDEFINED); [split; [cbn; lia|]; intros Hb; by destruct (Hu Hb)|].
    destruct (Z.ltb_spec r 0); [apply safe_failed; lia|]. destruct (Z.eqb_spec r 0); [apply safe_starved; lia|].
    by apply safe_return; [lia|].
  - destruct Ht as [Ht _]. destruct (oer_decoder _) as [d|]; [|subst b; apply safe_undefined; lia].
    destruct (Ht (nested ctx) (oer_constraints e) (element_ptr e m') ptr Hc Hp Hfe) as [Hn Hu].
    destruct (d _ _ _ _) as [rv o]. cbn [fst] in *. by apply safe_return; [lia|].
Qed.

(** Every row of the tag map points into the member table. *)
Definition map_ok (specs : asn_CHOICE_specifics) (count : Z) : bool :=
  forallb (fun t => (0 <=? t.(el_no)) && (t.(el_no) <? count)) specs.(tag2el).

Lemma map_ok_lookup specs (es : list member) tg t2m : map_ok specs (size es) = true ->
  find_tag tg specs.(tag2el) = Some t2m -> is_Some (es !! Z.to_nat t2m.(el_no)).
Proof.
  unfold map_ok. rewrite forallb_forall. intros H Hf. apply bsearch_sound in Hf as [Hf _]. apply list_elem_of_In in Hf.
  specialize (H _ Hf). rewrite andb_true_iff, Z.leb_le, Z.ltb_lt in H. apply lookup_lt_is_Some. unfold size in H. lia.
Qed.

Lemma CHOICE_safe b specs es : Forall (safe_extension b) es -> (b = true -> map_ok specs (size es) = true) ->
  safe b (Choice.CHOICE_decode_oer specs es).
Proof.
  intros He Hmap ctx c p ptr _ Hp Hf. pose proof (size_nonneg ptr). unfold Choice.CHOICE_decode_oer.
  destruct (match p with Some (O_CHOICE c p m) => (c, p, m) | _ => _ end) as [[ct pr] m] eqn:E.
  assert (b = true -> phase ct = 0 /\ fresh_opt m = true) as Hfr.
  { intros Hb. specialize (Hf Hb). destruct p as [[| | | | | |c' p' m'|]|]; injection E as <- <- <-; try done.
    cbn [fresh_opt fresh] in Hf. by rewrite andb_true_iff, Z.eqb_eq in Hf. }
  destruct (Z.eqb_spec (phase ct) 0) as [E0|E0].
  - destruct (oer_fetch_tag ptr) as [k tlv] eqn:Et. pose proof (fetch_tag_bounds _ _ _ Et).
    destruct (Z.eqb_spec k 0); [by auto with asn|]. destruct (Z.eqb_spec k (-1)); [by auto with asn|].
    destruct (find_tag _ _) as [t2m|] eqn:Ef; [|by apply safe_return; [lia|]].
    replace (size ptr) with (k + size (zdrop k ptr)) by (rewrite size_zdrop; lia).
    apply CHOICE_member_safe; auto with asn; [lia|]. intros Hb. split; [by apply Hfr|].
    cbn [step set_step NEXT_PHASE]. by eapply map_ok_lookup; [apply Hmap|].
  - assert (b = false) as -> by (apply not_true_iff_false; intros Hb; by destruct (Hfr Hb)).
    destruct (_ =? 1); [|destruct (_ =? 2); by apply safe_return; [lia|]].
    by apply (CHOICE_member_safe false specs es ctx ct pr m 0 ptr He ltac:(done) Hp).
Qed.

(** * SET OF *)

Lemma decode_elements_safe b e ctx bl base n : safe_extension b e -> forall k c p array ptr done,
  0 <= done -> done + size ptr = n -> all_bytes ptr -> (b = true -> fresh_opt p = true) ->
  safe_result b n (SetOf.decode_elements e ctx bl base k c p array ptr done).1.
Proof.
  intros [Hc [Ht _]]. induction k as [|k IH]; intros c p array ptr don Hd Hn Hp Hf; pose proof (size_nonneg ptr);
    cbn [SetOf.decode_elements]; [by apply safe_return; [lia|]|].
  destruct (oer_decoder _) as [d|]; [|subst b; apply safe_undefined; lia].
  destruct (Ht (nested ctx) (oer_constraints e) p ptr Hc Hp Hf) as [Hr Hu].
  destruct (d _ _ _ _) as [rv o]. cbn [fst] in Hr, Hu. destruct (code rv).
  - destruct (_ && _); [apply safe_failed; lia|]. apply IH; [lia| |by auto with asn|done]. rewrite size_zdrop; lia.
  - by apply safe_return; [lia|].
  - by apply safe_return; [lia|].
  - split; [cbn; lia|]. intros Hb. by destruct (Hu Hb).
Qed.

Lemma SET_OF_safe b e : safe_extension b e -> safe b (SetOf.SET_OF_decode_oer e).
Proof.
  intros He ctx c p ptr _ Hp Hf. pose proof (size_nonneg ptr). unfold SetOf.SET_OF_decode_oer.
  destruct (ASN__STACK_OVERFLOW_CHECK ctx); [by auto with asn|].
  destruct (match p with Some (O_SET_OF c p a) => (c, p, a) | _ => _ end) as [[ct pr] array] eqn:E. cbv zeta.
  assert (b = true -> fresh_opt pr = true) as Hfr.
  { intros Hb. specialize (Hf Hb). destruct p as [[| | | | | | |c' p' a']|]; injection E as <- <- <-; try done.
    cbn [fresh_opt fresh] in Hf. apply andb_true_iff in Hf. apply Hf. }
  destruct (phase ct =? 0).
  - destruct (oer_fetch_quantity ptr) as [k q] eqn:Eq. apply fetch_quantity_bounds in Eq as [Hk Hq]; [|done].
    destruct (Z.eqb_spec k 0); [by apply safe_return; [lia|]|]. destruct (Z.eqb_spec k (-1)); [by apply safe_return; [lia|]|].
    apply decode_elements_safe; [done|lia| |by auto with asn|done]. rewrite size_zdrop; lia.
  - destruct (phase ct =? 1); [apply decode_elements_safe; [done|lia|lia|done|done]|].
    destruct (_ =? 2); [|destruct (_ =? 3)]; by apply safe_return; [lia|].
Qed.

(** * Descriptors *)

(** Counts and widths that are unsigned in C are not negative. *)
Fixpoint sane (td : asn_TYPE_descriptor) : bool :=
  match td with
  | TD _ k _ c es =>
    cts_ok c && match k with SEQUENCE specs => 0 <=? specs.(roms_count) | _ => true end &&
    forallb (fun e => cts_ok e.(oer_constraints) && sane e.(type)) es
  end.

Definition has_decoder (td : asn_TYPE_descriptor) : bool :=
  match td with
  | TD _ (OPEN_TYPE _ | ANY) _ _ _ => false
  | TD _ SET_OF _ _ es => match es with [_] => true | _ => false end
  | _ => true
  end.

(** Every type below this one has a decoder, and the tag map of every CHOICE
    points into its member table. *)
Fixpoint callable (td : asn_TYPE_descriptor) : bool :=
  match td with
  | TD _ k _ _ es =>
    match k with CHOICE specs => map_ok specs (size es) | _ => true end &&
    forallb (fun e => negb e.(ATF_OPEN_TYPE) && has_decoder e.(type) && callable e.(type)) es
  end.

Section Descriptors.
Context (f : nat) (b : bool).

Definition td_safe (td : asn_TYPE_descriptor) : Prop :=
  forall d, (op f td).(oer_decoder) = Some d -> safe b d.

Lemma has_decoder_ok td : has_decoder td = true -> is_Some (op f td).(oer_decoder).
Proof.
  destruct td as [n k ts c es]. cbn [op oer_decoder]. destruct k; try done. destruct es as [|e [|]]; done.
Qed.

(** Memory fresh from [CALLOC] holds no used context. *)
Lemma zero_fresh td : fresh (op f td).(op_zero) = true.
Proof.
  induction td as [n k ts c es IH] using descriptor_ind. cbn [op op_zero]. destruct k; try done.
  cbn [zero_of fresh ctx_zero phase andb]. change (forallb fresh_opt (zero_members (map (map_type (op f)) es)) = true).
  unfold zero_members. rewrite map_map, forallb_forall. intros m (e & <- & He)%in_map_iff.
  rewrite Forall_forall in IH. apply list_elem_of_In in He. specialize (IH e He).
  cbn [ATF_POINTER map_type type]. by destruct (ATF_POINTER e).
Qed.

Lemma td_safe_type td : td_safe td -> (b = true -> has_decoder td = true) -> SafeType b (op f td).
Proof.
  intros Hs Hd. split; [|apply zero_fresh]. destruct (oer_decoder (op f td)) as [d|] eqn:E; [by apply Hs|].
  destruct b; [|done]. destruct (has_decoder_ok td (Hd eq_refl)) as [d Hd']. congruence.
Qed.

(** What a member contributes to the decoder of the type around it. *)
Lemma member_safe (e : tmember) : cts_ok e.(oer_constraints) = true -> td_safe e.(type) ->
  Forall (fun v : tmember => td_safe v.(type)) (elements e.(type)) ->
  (b = true -> negb e.(ATF_OPEN_TYPE) && has_decoder e.(type) && callable e.(type) = true) ->
  safe_member b (map_type (op f) e) /\ safe_extension b (map_type (op f) e).
Proof.
  intros Hc Hs Hv Hb.
  assert (SafeType b (op f e.(type))) as Ht.
  { apply td_safe_type; [done|]. intros E. specialize (Hb E). rewrite !andb_true_iff in Hb. tauto. }
  split; [|by split]. split; [done|done|]. intros Ho. unfold variants_safe. cbn [type map_type ATF_OPEN_TYPE] in *.
  assert (b = false) as Eb.
  { apply not_true_iff_false. intros E. specialize (Hb E). rewrite Ho in Hb. done. }
  split; [done|].
  destruct e.(type) as [n k ts c es]. cbn [op op_elements elements] in *. apply List.Forall_map.
  eapply Forall_impl; [exact Hv|]. intros v Hv'. rewrite <- Eb. apply td_safe_type; [done|]. by rewrite Eb.
Qed.

Lemma op_safe td : sane td = true -> (b = true -> callable td = true) ->
  td_safe td /\ Forall (fun e : tmember => td_safe e.(type)) (elements td).
Proof.
  induction td as [n k ts c es IH] using descriptor_ind. cbn [sane callable elements].
  rewrite !andb_true_iff, forallb_forall. intros [[Hc Hk] Hes] Hb.
  assert (Forall (fun e : tmember => (td_safe e.(type) /\ Forall (fun v : tmember => td_safe v.(type)) (elements e.(type))) /\
      cts_ok e.(oer_constraints) = true /\
      (b = true -> negb e.(ATF_OPEN_TYPE) && has_decoder e.(type) && callable e.(type) = true)) es) as Hm.
  { rewrite Forall_forall in IH |- *. intros e He. apply list_elem_of_In in He as Hin.
    specialize (Hes e Hin). rewrite andb_true_iff in Hes. destruct Hes as [Hce Hse].
    assert (b = true -> negb e.(ATF_OPEN_TYPE) && has_decoder e.(type) && callable e.(type) = true) as Hbe.
    { intros E. specialize (Hb E). rewrite forallb_forall in Hb. by apply Hb. }
    split; [|done]. apply IH; [done|done|]. intros E. specialize (Hbe E). rewrite !andb_true_iff in Hbe. tauto. }
  assert (Forall (fun e : tmember => safe_member b (map_type (op f) e) /\ safe_extension b (map_type (op f) e)) es) as Hs.
  { eapply Forall_impl; [exact Hm|]. intros e ([? ?] & ? & ?). by apply member_safe. }
  split; [|eapply Forall_impl; [exact Hm|]; by intros e ([? ?] & _)].
  assert (Forall (safe_member b) (map (map_type (op f)) es)) as Hs1
    by (apply List.Forall_map; eapply Forall_impl; [exact Hs|]; by intros e [? ?]).
  assert (Forall (safe_extension b) (map (map_type (op f)) es)) as Hs2
    by (apply List.Forall_map; eapply Forall_impl; [exact Hs|]; by intros e [? ?]).
  intros d. cbn [op oer_decoder]. destruct k; cbn [decoder_of]; try (intros [= <-]).
  - apply BOOLEAN_safe.
  - apply NULL_safe.
  - apply primitive_safe.
  - by apply INTEGER_safe.
  - by apply NativeInteger_safe.
  - apply NativeEnumerated_safe.
  - apply OCTET_STRING_safe.
  - apply BIT_STRING_safe.
  - apply SEQUENCE_safe; [|done|done]. by apply Z.leb_le.
  - apply CHOICE_safe; [done|]. intros E. unfold size. rewrite length_map. by apply (Hb E).
  - destruct (map (map_type (op f)) es) as [|e [|]]; try done. intros [= <-]. apply SET_OF_safe. by inv Hs2.
Qed.

End Descriptors.

Lemma decode_consumed used octx td p ptr : sane td = true -> all_bytes ptr ->
  0 <= (oer_decode used octx td p ptr).1.(consumed) <= size ptr.
Proof.
  intros Hs Hp. unfold oer_decode. pose proof (size_nonneg ptr).
  destruct (oer_decoder (op 0 td)) as [d|] eqn:E; [|done].
  by apply (proj1 (op_safe 0 false td Hs ltac:(done)) d E).
Qed.

(** No over-read: on any octets and any target structure, fresh, resumed or
    corrupt, [oer_decode] never reports more octets consumed than it was given. *)
Theorem oer_decode_consumed used octx td p ptr : sane td = true -> all_bytes ptr ->
  0 <= (oer_decode used octx td p ptr).1.(consumed) <= size ptr.
Proof. apply decode_consumed. Qed.

Lemma oer_decode_consumed_witness :
  0 <= (oer_decode (fun _ => 0) None asn_DEF_Certificate None [0x80; 3; 0; 0x81]).1.(consumed) <= 4.
Proof.
  apply (oer_decode_consumed (fun _ => 0) None asn_DEF_Certificate None [0x80; 3; 0; 0x81]); [by vm_compute|].
  apply (bool_decide_unpack (all_bytes [0x80; 3; 0; 0x81])). by vm_compute.
Defined.

(** Defined behaviour on any octets: when every type below [td] has a decoder and
    the structure is absent or fresh, [oer_decode] calls no NULL function pointer, reads
    no missing presence bitmap, decodes no alternative outside a member table, and
    its loops end: the result is success, failure or a request for more data. *)
Theorem oer_decode_defined used octx td p ptr : sane td = true -> has_decoder td = true -> callable td = true ->
  fresh_opt p = true -> all_bytes ptr -> (oer_decode used octx td p ptr).1.(code) <> RC_UNDEFINED.
Proof.
  intros Hs Hd Hc Hf Hp. unfold oer_decode. destruct (has_decoder_ok 0 td Hd) as [d E]. rewrite E.
  by apply (proj1 (op_safe 0 true td Hs ltac:(done)) d E).
Qed.

Lemma oer_decode_defined_witness :
  (oer_decode (fun _ => 0) None asn_DEF_Signature None [0x85; 1]).1.(code) <> RC_UNDEFINED.
Proof.
  apply (oer_decode_defined (fun _ => 0) None asn_DEF_Signature None [0x85; 1]);
    [by vm_compute|done|by vm_compute|done|].
  apply (bool_decide_unpack (all_bytes [0x85; 1])). by vm_compute.
Defined.
