(* ===== verification/OerPrefix.v ===== *)
(** Decoding incomplete input.

    A decoder that is given the beginning of an input and does not ask for more has
    decided: with the rest of the input it returns the same result and the same
    structure.  This holds for every descriptor, structure and input, and with the
    refinement theorem it determines what happens to a truncated encoding: the
    decoder asks for more. *)

From stdpp Require Import prelude strings.
From S2P Require Import Prelude Codecs BitData Integer Descriptor OerSupport OerPrim OerConstr.
From S2P Require Import OerSpec OerPrimOk OerSem OerCodec OerSeqOk Pqc OerTheorems OerSafety.
Import Sequence.

(** * The contract *)

(** The input continues with [y]; a result other than RC_WMORE stays. *)
Definition settles (y : bytes) (d : bytes -> asn_dec_rval * option obj) (x : bytes) : Prop :=
  (d x).1.(code) = RC_WMORE \/ d (x ++ y) = d x.

Definition final (d : decoder) : Prop :=
  forall ctx c p x y, cts_ok c = true -> all_bytes x -> settles y (d ctx c p) x.

Class FinalType (t : asn_TYPE_operation) : Prop := {
  final_safe : SafeType false t;
  final_type : match t.(oer_decoder) with Some d => final d | None => True end;
}.

(** * Prefixes *)

Lemma ztake_prefix {A} n (x y : list A) : n <= size x -> ztake n (x ++ y) = ztake n x.
Proof. intros H. unfold ztake, size in *. apply take_app_le. lia. Qed.

Lemma zdrop_prefix {A} n (x y : list A) : n <= size x -> zdrop n (x ++ y) = zdrop n x ++ y.
Proof. intros H. unfold zdrop, size in *. apply drop_app_le. lia. Qed.

Lemma znth_prefix (x y : bytes) : 1 <= size x -> znth (x ++ y) 0 = znth x 0.
Proof. by destruct x. Qed.

(** A determinant that was read is read again. *)
Lemma fetch_length_prefix x y n len : oer_fetch_length x = (n, len) -> n <> 0 -> oer_fetch_length (x ++ y) = (n, len).
Proof.
  unfold oer_fetch_length. destruct x as [|b x]; [by intros [= <- <-]|]. cbn [app].
  destruct (_ =? 0); [done|]. rewrite !size_cons, size_app. pose proof (size_nonneg y).
  pose proof (size_nonneg x). set (k := Z.land b 0x7f).
  destruct (Z.ltb_spec (1 + size x) (1 + k)); [by intros [= <- <-]|].
  destruct (Z.ltb_spec (1 + (size x + size y)) (1 + k)); [lia|]. by rewrite ztake_prefix by lia.
Qed.

Lemma fetch_quantity_prefix x y n q : all_bytes x -> oer_fetch_quantity x = (n, q) -> n <> 0 ->
  oer_fetch_quantity (x ++ y) = (n, q).
Proof.
  intros Hx. unfold oer_fetch_quantity. destruct (oer_fetch_length x) as [k len] eqn:E.
  pose proof (fetch_length_bounds _ _ _ Hx E) as (Hk & Hl & _). destruct (Z.leb_spec k 0) as [Hk0|Hk0].
  - intros [= <- <-] Hn. rewrite (fetch_length_prefix _ _ _ _ E Hn). by destruct (Z.leb_spec k 0); [|lia].
  - rewrite (fetch_length_prefix _ y _ _ E) by lia. destruct (Z.leb_spec k 0); [lia|]. rewrite size_app.
    pose proof (size_nonneg y). destruct (Z.ltb_spec (size x) (k + len)); [by intros [= <- <-]|].
    destruct (Z.ltb_spec (size x + size y) (k + len)); [lia|].
    by rewrite zdrop_prefix, ztake_prefix by (try rewrite size_zdrop; lia).
Qed.

Lemma fetch_tag_loop_prefix y : forall x v k tc n tg, fetch_tag_loop v k tc x = (n, tg) -> n <> 0 ->
  fetch_tag_loop v k tc (x ++ y) = (n, tg).
Proof.
  induction x as [|o x IH]; intros v k tc n tg; cbn [fetch_tag_loop app]; [by intros [= <- <-]|].
  destruct (ctrue _); [|done]. destruct (ctrue _); [done|]. apply IH.
Qed.

Lemma fetch_tag_prefix x y n tg : oer_fetch_tag x = (n, tg) -> n <> 0 -> oer_fetch_tag (x ++ y) = (n, tg).
Proof.
  unfold oer_fetch_tag. destruct x as [|v x]; [by intros [= <- <-]|]. cbn [app].
  destruct (negb _); [done|]. apply fetch_tag_loop_prefix.
Qed.

(** The three outcomes of reading a length determinant. *)
Lemma read_length x y : all_bytes x -> exists n len, oer_fetch_length x = (n, len) /\ -1 <= n <= size x /\ 0 <= len /\
  (n = 0 \/ oer_fetch_length (x ++ y) = (n, len)).
Proof.
  intros Hx. destruct (fetched_length x Hx) as (n & len & E & Hn & Hl). exists n, len.
  repeat split; try lia; [done|]. destruct (decide (n = 0)); [by left|]. right. by apply fetch_length_prefix.
Qed.

(** * Primitive types *)

(** Contents of [len] octets after a determinant of [n] octets. *)
Lemma contents_prefix n len (x y : bytes) : 0 <= n <= size x -> (size (zdrop n x) <? len) = false ->
  (size (zdrop n (x ++ y)) <? len) = false /\ ztake len (zdrop n (x ++ y)) = ztake len (zdrop n x).
Proof.
  intros Hn. rewrite zdrop_prefix, size_app, !Z.ltb_ge by lia. intros Hl. pose proof (size_nonneg y).
  split; [lia|]. by rewrite ztake_prefix by lia.
Qed.

Lemma INTEGER_final tc : cts_ok tc = true -> final (INTEGER_decode_oer tc).
Proof.
  intros Htc ctx c p x y Hc Hx. unfold settles, INTEGER_decode_oer. pose proof (size_nonneg x).
  assert (0 <= (ct_value (pick_cts c tc)).1) as Hw by (destruct c as [c|], tc as [tc|]; cbn in *; lia).
  destruct (ct_value _) as [w pos]. cbn [fst] in Hw.
  assert (forall n len, 0 <= n <= size x -> 0 <= len -> (len =? 0) || (size (zdrop n x) <? len) = false ->
    (len =? 0) || (size (zdrop n (x ++ y)) <? len) = false /\ ztake len (zdrop n (x ++ y)) = ztake len (zdrop n x) /\
    znth (zdrop n (x ++ y)) 0 = znth (zdrop n x) 0) as Hcont.
  { intros n len Hn Hl [E0 E]%orb_false_iff. destruct (contents_prefix n len x y Hn E) as [E' ->].
    rewrite E0, E'. repeat split. by rewrite zdrop_prefix, znth_prefix by lia. }
  destruct (ctrue w) eqn:Ew; cbn [negb andb].
  - destruct (_ || _) eqn:E; [by left|]. right. by destruct (Hcont 0 w ltac:(lia) Hw E) as (-> & -> & ->).
  - destruct (read_length x y Hx) as (n & len & -> & Hn & Hl & [-> | ->]); [by left|].
    destruct (Z.eqb_spec n 0); [by left|]. destruct (Z.eqb_spec n (-1)); [by right|].
    destruct (_ || _) eqn:E; [by left|]. right. by destruct (Hcont n len ltac:(lia) Hl E) as (-> & -> & ->).
Qed.

Lemma NativeInteger_final specs tc : cts_ok tc = true -> final (NativeInteger_decode_oer specs tc).
Proof.
  intros Htc ctx c p x y Hc Hx. unfold settles, NativeInteger_decode_oer.
  destruct (INTEGER_final tc Htc ctx c (Some (O_BUF None)) x y Hc Hx) as [E| ->]; [|by right].
  left. destruct (INTEGER_decode_oer _ _ _ _ _) as [rv o]. cbn [fst] in E.
  destruct o as [[| | |t| | | |]|]; try done. rewrite decide_False by congruence. done.
Qed.

Lemma BOOLEAN_final : final BOOLEAN_decode_oer.
Proof. intros ctx c p x y _ _. destruct x; [by left|by right]. Qed.

Lemma NULL_final : final NULL_decode_oer.
Proof. intros ctx c p x y _ _. by right. Qed.

Lemma OCTET_STRING_final specs tc : final (OCTET_STRING_decode_oer specs tc).
Proof.
  intros ctx c p x y _ Hx. unfold settles, OCTET_STRING_decode_oer. pose proof (size_nonneg x).
  destruct (unit_bytes_of specs) as [u|]; [|by right]. set (ct := ct_size _). rewrite Z.ltb_antisym.
  destruct (Z.leb_spec 0 ct); cbn [negb andb].
  - destruct (_ <? _) eqn:E; [by left|]. right. by destruct (contents_prefix 0 _ x y ltac:(lia) E) as [-> ->].
  - destruct (read_length x y Hx) as (n & len & -> & Hn & Hl & [-> | ->]); [by left|].
    destruct (Z.eqb_spec n 0); [by left|]. destruct (Z.ltb_spec n 0); [by right|]. destruct (negb _); [by right|].
    destruct (_ <? _) eqn:E; [by left|]. right. by destruct (contents_prefix n len x y ltac:(lia) E) as [-> ->].
Qed.

Lemma primitive_final : final oer_decode_primitive.
Proof.
  intros ctx c p x y _ Hx. unfold settles, oer_decode_primitive.
  destruct (read_length x y Hx) as (n & len & -> & Hn & Hl & [-> | ->]); [by left|].
  destruct (Z.eqb_spec n 0); [by left|]. destruct (Z.ltb_spec n 0); [by right|].
  destruct (_ <? _) eqn:E; [by left|]. right. by destruct (contents_prefix n len x y ltac:(lia) E) as [-> ->].
Qed.

Lemma BIT_STRING_final tc : final (BIT_STRING_decode_oer tc).
Proof.
  intros ctx c p x y _ Hx. unfold settles, BIT_STRING_decode_oer. pose proof (size_nonneg x).
  destruct (match p with Some (O_BITS b u) => (b, u) | _ => (None, 0) end) as [sb su].
  set (ct := ct_size _). destruct (Z.leb_spec 0 ct).
  - destruct (size x <? _) eqn:E; [by left|]. right.
    destruct (contents_prefix 0 (Z.shiftr (ct + 7) 3) x y ltac:(lia) E) as [E' E2].
    rewrite !zdrop_0 in E', E2. by rewrite E', E2.
  - destruct (read_length x y Hx) as (n & len & -> & Hn & Hl & [-> | ->]); [by left|].
    destruct (Z.eqb_spec n 0); [by left|]. destruct (Z.ltb_spec n 0); [by right|].
    destruct (Z.ltb_spec len 1); [by right|]. destruct (size (zdrop n x) <? len) eqn:E; [by left|].
    destruct (contents_prefix n len x y ltac:(lia) E) as [-> _]. rewrite Z.ltb_ge in E.
    rewrite (zdrop_prefix n x y), znth_prefix by lia. destruct (ctrue _); [by right|].
    destruct (_ <? len - 1) eqn:E1; [by left|]. right.
    by destruct (contents_prefix 1 (len - 1) (zdrop n x) y ltac:(lia) E1) as [-> ->].
Qed.

Lemma NativeEnumerated_final specs : final (NativeEnumerated_decode_oer specs).
Proof.
  intros ctx c p x y _ Hx. unfold settles, NativeEnumerated_decode_oer. destruct x as [|b x]; [by left|]. cbn [app].
  destruct (_ =? 0); [by right|]. set (len := Z.land b 0x7f). destruct (_ || _); [by right|].
  rewrite !size_cons, size_app. pose proof (size_nonneg y).
  destruct (Z.ltb_spec (1 + size x) (1 + len)); [by left|].
  destruct (Z.ltb_spec (1 + (size x + size y)) (1 + len)); [lia|]. rewrite ztake_prefix by lia. by right.
Qed.

(** * Open types *)

(** The container is complete before its contents are decoded. *)
Lemma open_type_get_final ctx t c p x y : all_bytes x ->
  (oer_open_type_get ctx t c p x).1 = 0 \/ oer_open_type_get ctx t c p (x ++ y) = oer_open_type_get ctx t c p x.
Proof.
  intros Hx. unfold oer_open_type_get. destruct (read_length x y Hx) as (n & len & -> & Hn & Hl & [-> | ->]); [by left|].
  destruct (Z.leb_spec n 0); [by right|]. rewrite size_app. pose proof (size_nonneg y).
  destruct (Z.ltb_spec (size x - n) len); [by left|]. destruct (Z.ltb_spec (size x + size y - n) len); [lia|].
  rewrite zdrop_prefix, ztake_prefix by (try rewrite size_zdrop; lia). by right.
Qed.

Lemma OPEN_TYPE_oer_get_final ctx elm ms m x y : all_bytes x -> settles y (OPEN_TYPE_oer_get ctx elm ms m) x.
Proof.
  intros Hx. unfold settles, OPEN_TYPE_oer_get. destruct (negb _); [by right|].
  destruct (type_selector elm) as [sel|]; [|by right]. cbv zeta. destruct (_ =? 0); [by right|].
  destruct (CHOICE_variant_set_presence _ _ _) as [[| | | | | |c pr inner|]|]; try by right.
  destruct (op_elements _ !! _) as [v|]; [|by right].
  destruct (open_type_get_final ctx v.(type) None (Some (default (op_zero v.(type)) inner)) x y Hx) as [E| ->]; [|by right].
  left. destruct (oer_open_type_get _ _ _ _ _) as [r iv]. cbn [fst] in E. by subst r.
Qed.

(** * SEQUENCE *)

(** The same state with more input. *)
Definition extend (y : bytes) (s : state) : state :=
  {| Sequence.ctx := s.(Sequence.ctx); bits := s.(bits); members := s.(members); ptr := s.(ptr) ++ y;
     consumed_myself := s.(consumed_myself) |}.

Definition settled (y : bytes) (o o' : outcome) : Prop :=
  match o with
  | Go s => o' = Go (extend y s) /\ all_bytes s.(ptr)
  | Stop rv s => rv.(code) = RC_WMORE \/ o' = Stop rv (extend y s)
  end.

(** A part of the decoder that does the same with more input. *)
Definition lifts (y : bytes) (f : state -> outcome) : Prop :=
  forall s, all_bytes s.(ptr) -> settled y (f s) (f (extend y s)).

Lemma lifts_bind y f g : lifts y f -> lifts y g -> lifts y (fun s => bind (f s) g).
Proof.
  intros Hf Hg s Hs. specialize (Hf s Hs). destruct (f s) as [rv s'|s']; cbn [settled bind] in *.
  - by destruct Hf as [?| ->]; [left|right].
  - destruct Hf as [-> Hs']. by apply Hg.
Qed.

Lemma lifts_Go y f : (forall s, f (extend y s) = extend y (f s) /\ (f s).(ptr) = s.(ptr)) -> lifts y (fun s => Go (f s)).
Proof. intros H s Hs. destruct (H s) as [E Ep]. cbn. by rewrite E, Ep. Qed.

Lemma lifts_ext y f g : (forall s, f s = g s) -> lifts y g -> lifts y f.
Proof. intros E H s Hs. rewrite !E. by apply H. Qed.

Lemma settled_return y c s : settled y (return_ c s) (return_ c (extend y s)).
Proof. by right. Qed.

Lemma settled_more y s o : settled y (return_ RC_WMORE s) o.
Proof. by left. Qed.

Lemma extend_ADVANCE y n s : n <= size s.(ptr) -> ADVANCE n (extend y s) = extend y (ADVANCE n s).
Proof. intros H. unfold ADVANCE, extend. cbn. by rewrite zdrop_prefix. Qed.

Lemma ADVANCE_bytes n s : all_bytes s.(ptr) -> all_bytes (ADVANCE n s).(ptr).
Proof. intros. cbn. by auto with asn. Qed.

#[export] Hint Resolve settled_return settled_more ADVANCE_bytes : asn.

(** A member whose decoder is final and safe. *)
Record final_member (e : member) : Prop := {
  fm_cts : cts_ok e.(oer_constraints) = true;
  fm_type : FinalType e.(type);
  fm_variants : e.(ATF_OPEN_TYPE) = true -> variants_safe e;
}.

Section Sequence.
Context (specs : asn_SEQUENCE_specifics) (elements : list member) (octx : asn_codec_ctx) (y : bytes).

Lemma phase0_lifts : lifts y (phase0 specs).
Proof.
  intros s Hs. unfold phase0. cbv zeta. set (k := Z.shiftr _ 3). cbn [ptr extend]. rewrite size_app.
  pose proof (size_nonneg y). destruct (Z.ltb_spec (size (ptr s)) k); [by left|].
  destruct (Z.ltb_spec (size (ptr s) + size y) k); [lia|]. split; [|by apply ADVANCE_bytes].
  unfold BitIn.asn_bit_data_new_contiguous, ADVANCE, set_bits, set_ctx, extend. cbn.
  rewrite zdrop_prefix by done. rewrite ztake_prefix; [done|].
  unfold k in *. rewrite shiftr_3 in *. rewrite (Z.add_comm _ 7). done.
Qed.

(** What is left to do once the member is decoded. *)
Lemma decode_member_lifts edx e : final_member e -> lifts y (decode_member octx edx e).
Proof.
  intros [Hc [[Hsafe _] Hfin] Hv] s Hs. unfold decode_member. cbn [members ptr extend].
  set (m := default None _). set (r := if ATF_OPEN_TYPE e then _ else _).
  set (r' := if ATF_OPEN_TYPE e then OPEN_TYPE_oer_get _ _ _ _ (_ ++ _) else _).
  assert ((r.1.(code) = RC_WMORE \/ r' = r) /\ (r.1.(code) = RC_OK -> r.1.(consumed) <= size s.(ptr))) as [Hr Hb].
  { unfold r, r'. destruct (ATF_OPEN_TYPE e).
    - split; [by apply OPEN_TYPE_oer_get_final|]. intros E. apply OPEN_TYPE_oer_get_safe; [by apply Hv|done|by rewrite E].
    - destruct (oer_decoder _) as [d|]; [|by split; [right|]]. split; [by apply Hfin|]. intros _.
      by apply (Hsafe (nested octx) (oer_constraints e) (element_ptr e m) (ptr s) Hc Hs). }
  destruct Hr as [E| ->]; destruct r as [rv o]; cbn [fst] in *; [rewrite E; by left|].
  destruct (code rv); try by right.
  - split; [|by apply ADVANCE_bytes]. specialize (Hb eq_refl).
    change (set_member (extend y s) edx o) with (extend y (set_member s edx o)). by rewrite extend_ADVANCE.
  - by left.
Qed.

Lemma root_member_lifts edx e : final_member e -> lifts y (root_member octx edx e).
Proof.
  intros He s Hs. unfold root_member. cbn [Sequence.ctx bits extend]. cbv zeta.
  assert (forall b s, all_bytes s.(ptr) ->
    settled y (decode_member octx edx e (set_ctx s (set_step s.(Sequence.ctx) b)))
              (decode_member octx edx e (set_ctx (extend y s) (set_step s.(Sequence.ctx) b)))) as Hd.
  { intros b s' Hs'. by apply (decode_member_lifts edx e He (set_ctx s' _)). }
  destruct (ctrue _); [by apply decode_member_lifts|]. destruct (optional e); [|by apply Hd].
  destruct (bits s) as [pre|]; [|by right]. destruct (BitIn.asn_get_few_bits pre 1) as [b pre'].
  destruct (b <? 0); [by right|]. destruct (b =? 0); [|by apply (Hd _ (set_bits s pre'))].
  by destruct (default_value e).
Qed.

Lemma root_members_lifts es : Forall final_member es -> forall edx, lifts y (root_members octx edx es).
Proof.
  induction 1 as [|e es He _ IH]; intros edx; [by intros s Hs|]. cbn [root_members].
  apply (lifts_bind y _ _ (root_member_lifts edx e He) (IH (S edx))).
Qed.

Lemma next_phase_lifts : lifts y (fun s => Go (set_ctx s (NEXT_PHASE s.(Sequence.ctx)))).
Proof. by apply lifts_Go. Qed.

Lemma phase1_lifts : Forall final_member elements -> lifts y (phase1 specs elements octx).
Proof.
  intros He s Hs. unfold phase1. cbn [bits Sequence.ctx extend]. destruct (bits s); [|by right].
  eapply (lifts_bind y); [|exact next_phase_lifts|exact Hs].
  apply root_members_lifts. by apply Forall_drop, Forall_ztake.
Qed.

Lemma phase2_lifts : lifts y (phase2 specs elements).
Proof.
  intros s Hs. unfold phase2. cbn [bits extend]. destruct (bits s) as [pre|]; [|by right]. cbv zeta.
  match goal with |- context [set_bits (extend y s) ?b] =>
    change (set_bits (extend y s) b) with (extend y (set_bits s b)); set (s1 := set_bits s b) end.
  assert (all_bytes s1.(ptr)) as Hs1 by done. destruct (negb _); [by right|]. cbn [ptr extend].
  destruct (read_length s1.(ptr) y Hs1) as (n & len & -> & Hn & Hl & [-> | ->]); [by left|].
  destruct (n =? 0) eqn:E0; [by left|]. destruct (Z.ltb_spec n 0); [by right|].
  rewrite extend_ADVANCE by lia. set (s2 := ADVANCE n s1).
  assert (all_bytes s2.(ptr)) as Hs2 by (by apply ADVANCE_bytes).
  destruct (Z.eqb_spec len 0); [by split|]. cbn [ptr extend]. rewrite size_app. pose proof (size_nonneg y).
  destruct (Z.ltb_spec (size s2.(ptr)) len); [by left|]. destruct (Z.ltb_spec (size s2.(ptr) + size y) len); [lia|].
  rewrite znth_prefix by lia. set (u := Z.land 7 _). assert (0 <= u) by (apply Z.land_nonneg; lia).
  rewrite extend_ADVANCE by lia. set (s3 := ADVANCE 1 s2). destruct (_ && _); [by right|].
  assert (size s3.(ptr) = size s2.(ptr) - 1) as Hsz by (unfold s3; cbn; rewrite size_zdrop; cbn in *; lia).
  split; [|by apply ADVANCE_bytes, ADVANCE_bytes]. cbn [ptr extend].
  assert (((len - 1) * 8 - u + 7) / 8 <= size s3.(ptr)) as Hbits.
  { rewrite Hsz. apply Z.lt_succ_r, Z.div_lt_upper_bound; lia. }
  unfold BitIn.asn_bit_data_new_contiguous. rewrite ztake_prefix by done.
  match goal with |- context [set_bits (extend y s3) ?b] =>
    change (set_bits (extend y s3) b) with (extend y (set_bits s3 b)) end.
  rewrite extend_ADVANCE by (cbn [ptr set_bits]; lia). done.
Qed.

Lemma extension_member_lifts edx e : SafeType false e.(type) -> cts_ok e.(oer_constraints) = true ->
  lifts y (extension_member octx edx e).
Proof.
  intros Ht Hc s Hs. unfold extension_member. cbv zeta. cbn [bits extend]. destruct (bits s) as [ext|]; [|by right].
  destruct (BitIn.asn_get_few_bits ext 1) as [b ext'].
  change (set_bits (extend y s) ext') with (extend y (set_bits s ext')). set (s1 := set_bits s ext').
  destruct (_ || _); [by destruct (default_value e)|]. destruct (b =? 1); [|by right]. cbn [members ptr extend].
  set (m := element_ptr e _).
  destruct (open_type_get_final octx e.(type) e.(oer_constraints) m s1.(ptr) y Hs) as [E|E];
    pose proof (open_type_get_safe false e.(type) octx e.(oer_constraints) m s1.(ptr) Ht Hc Hs ltac:(done)) as [Hle _].
  - change (ptr s1) with (ptr s) in *. destruct (oer_open_type_get _ _ _ _ (ptr s)) as [r o]. cbn [fst] in E. subst r.
    by left.
  - change (ptr s1) with (ptr s) in *. rewrite E. destruct (oer_open_type_get _ _ _ _ (ptr s)) as [r o]. cbn [fst] in Hle.
    destruct (r =? OT_UNDEFINED); [by right|]. destruct (0 <? r); [|destruct (r <? 0); [by right|by left]].
    change (set_member (extend y s1) edx o) with (extend y (set_member s1 edx o)).
    rewrite extend_ADVANCE by apply Hle. split; [done|]. by apply ADVANCE_bytes.
Qed.

Lemma extension_members_lifts es : Forall final_member es -> forall edx, lifts y (extension_members octx edx es).
Proof.
  induction 1 as [|e es [Hc [Ht _] _] _ IH]; intros edx; [by intros s Hs|]. cbn [extension_members].
  apply (lifts_bind y _ _ (extension_member_lifts edx e Ht Hc) (IH (S edx))).
Qed.

Lemma phase3_lifts : Forall final_member elements -> lifts y (phase3 elements octx).
Proof.
  intros He s Hs. unfold phase3. cbn [Sequence.ctx extend].
  eapply (lifts_bind y); [|exact next_phase_lifts|exact Hs]. apply extension_members_lifts. by apply Forall_drop.
Qed.

Lemma skip_rest_lifts fuel : lifts y (skip_rest fuel).
Proof.
  induction fuel as [|fuel IH]; intros s Hs; cbn [skip_rest]; [by right|]. cbn [bits extend].
  destruct (bits s) as [ext|]; [|by right]. destruct (BitIn.asn_get_few_bits ext 1) as [b ext'].
  change (set_bits (extend y s) ext') with (extend y (set_bits s ext')). set (s1 := set_bits s ext').
  destruct (b =? 0); [by apply IH|]. destruct (b =? 1); [|destruct (b =? -1); by right]. cbv zeta. cbn [ptr extend].
  unfold oer_open_type_skip. assert (all_bytes s1.(ptr)) as Hs1 by done.
  destruct (read_length s1.(ptr) y Hs1) as (n & len & -> & Hn & Hl & [-> | ->]); [by left|]. cbn [fst].
  destruct (Z.ltb_spec 0 n); [|destruct (n <? 0); [by right|by left]].
  rewrite extend_ADVANCE by lia. apply IH. by apply ADVANCE_bytes.
Qed.

Lemma phase4_lifts : lifts y phase4.
Proof. intros s Hs. unfold phase4. change (bits_left (extend y s)) with (bits_left s). by apply skip_rest_lifts. Qed.

Lemma run_phases_lifts : Forall final_member elements -> lifts y (run_phases specs elements octx).
Proof.
  intros He. pose proof phase4_lifts as H4. pose proof (phase3_lifts He) as H3. pose proof phase2_lifts as H2.
  pose proof (phase1_lifts He) as H1. pose proof phase0_lifts as H0.
  pose proof (lifts_bind y _ _ (lifts_bind y _ _ H2 H3) H4) as H24. cbv beta in H24.
  pose proof (lifts_bind y _ _ H1 H24) as H14. pose proof (lifts_bind y _ _ H0 H14) as H04.
  pose proof (lifts_bind y _ _ H3 H4) as H34.
  intros s Hs. unfold run_phases. cbn [Sequence.ctx extend]. cbv zeta.
  destruct (_ =? 0); [by apply H04|]. destruct (_ =? 1); [by apply H14|]. destruct (_ =? 2); [by apply H24|].
  destruct (_ =? 3); [by apply H34|]. destruct (_ =? 4); [by apply H4|]. by right.
Qed.
End Sequence.

Lemma SEQUENCE_final specs es : Forall final_member es -> final (SEQUENCE_decode_oer specs es).
Proof.
  intros He ctx c p x y _ Hx. unfold settles, SEQUENCE_decode_oer.
  destruct (ASN__STACK_OVERFLOW_CHECK ctx); [by right|].
  destruct (match p with Some (O_SEQ c b ms) => (c, b, ms) | _ => _ end) as [[ct bt] ms].
  pose proof (run_phases_lifts specs es ctx y He
    {| Sequence.ctx := ct; bits := bt; members := ms; ptr := x; consumed_myself := 0 |} Hx) as H. cbn [extend] in H.
  unfold extend in H at 1. cbn in H. destruct (run_phases specs es ctx _) as [rv s|s]; cbn [settled] in H.
  - destruct H as [?| ->]; [by left|by right].
  - destruct H as [-> _]. by right.
Qed.

(** * CHOICE *)

Lemma CHOICE_member_final specs es ctx st k x y : Forall final_member es -> all_bytes x ->
  settles y (Choice.CHOICE_decode_member specs es ctx st k) x.
Proof.
  intros He Hx. unfold settles, Choice.CHOICE_decode_member. destruct st as [| | | | | |c p m|]; try by right.
  destruct (es !! _) as [e|] eqn:Ee; [|by right]. rewrite Forall_lookup in He. destruct (He _ _ Ee) as [Hc [_ Ht] _].
  cbv zeta. destruct (default _ _) as [| | | | | |c' p' m'|]; try by right. destruct (_ && _).
  - destruct (open_type_get_final ctx e.(type) e.(oer_constraints) (element_ptr e m') x y Hx) as [E| ->]; [|by right].
    left. destruct (oer_open_type_get _ _ _ _ _) as [r o]. cbn [fst] in E. by subst r.
  - destruct (oer_decoder _) as [d|]; [|by right].
    destruct (Ht (nested ctx) e.(oer_constraints) (element_ptr e m') x y Hc Hx) as [E| ->]; [|by right].
    left. by destruct (d _ _ _ _) as [rv o].
Qed.

Lemma CHOICE_final specs es : Forall final_member es -> final (Choice.CHOICE_decode_oer specs es).
Proof.
  intros He ctx c p x y _ Hx. unfold settles, Choice.CHOICE_decode_oer.
  destruct (match p with Some (O_CHOICE c p m) => (c, p, m) | _ => _ end) as [[ct pr] m]. cbv zeta.
  destruct (_ =? 0).
  - destruct (oer_fetch_tag x) as [k tlv] eqn:Et. destruct (Z.eqb_spec k 0); [by left|].
    rewrite (fetch_tag_prefix _ y _ _ Et) by done. pose proof (fetch_tag_bounds _ _ _ Et).
    destruct (Z.eqb_spec k 0); [done|]. destruct (Z.eqb_spec k (-1)); [by right|].
    destruct (find_tag _ _) as [t2m|]; [|by right]. rewrite zdrop_prefix by lia.
    by apply CHOICE_member_final; auto with asn.
  - destruct (_ =? 1); [by apply CHOICE_member_final|]. destruct (_ =? 2); by right.
Qed.

(** * SET OF *)

Lemma decode_elements_final e ctx bl base y : final_member e -> forall k c p array x n, all_bytes x ->
  settles y (fun x => SetOf.decode_elements e ctx bl base k c p array x n) x.
Proof.
  intros [Hc [[Hs _] Ht] _]. unfold settles. induction k as [|k IH]; intros c p array x n Hx;
    cbn [SetOf.decode_elements]; [by right|]. destruct (oer_decoder _) as [d|]; [|by right].
  destruct (Ht (nested ctx) e.(oer_constraints) p x y Hc Hx) as [E| ->].
  { left. destruct (d _ _ _ _) as [rv o]. cbn [fst] in E. by rewrite E. }
  destruct (Hs (nested ctx) e.(oer_constraints) p x Hc Hx ltac:(done)) as [Hn _].
  destruct (d _ _ _ _) as [rv o]. cbn [fst] in Hn. destruct (code rv); try by right.
  destruct (_ && _); [by right|]. rewrite zdrop_prefix by lia. apply IH. by auto with asn.
Qed.

Lemma SET_OF_final e : final_member e -> final (SetOf.SET_OF_decode_oer e).
Proof.
  intros He ctx c p x y _ Hx. unfold settles, SetOf.SET_OF_decode_oer.
  destruct (ASN__STACK_OVERFLOW_CHECK ctx); [by right|].
  destruct (match p with Some (O_SET_OF c p a) => (c, p, a) | _ => _ end) as [[ct pr] array]. cbv zeta.
  destruct (phase ct =? 0).
  - destruct (oer_fetch_quantity x) as [k q] eqn:Eq. destruct (Z.eqb_spec k 0); [by left|].
    rewrite (fetch_quantity_prefix _ y _ _ Hx Eq) by done. apply fetch_quantity_bounds in Eq as [Hk _]; [|done].
    destruct (Z.eqb_spec k 0); [done|]. destruct (Z.eqb_spec k (-1)); [by right|]. rewrite zdrop_prefix by lia.
    apply (decode_elements_final e ctx q k y He _ _ _ _ (zdrop k x) k). by auto with asn.
  - destruct (phase ct =? 1); [by apply (decode_elements_final e ctx (left ct) 0 y He _ ct _ _ x 0)|].
    destruct (_ =? 2); [by right|]. destruct (_ =? 3); by right.
Qed.

(** * Descriptors *)

Section Descriptors.
Context (f : nat).

Definition td_final (td : asn_TYPE_descriptor) : Prop := FinalType (op f td).

Lemma sane_member n k ts c es e : sane (TD n k ts c es) = true -> In e es ->
  cts_ok e.(oer_constraints) = true /\ sane e.(type) = true.
Proof.
  cbn [sane]. rewrite !andb_true_iff, forallb_forall. intros [_ H] He. specialize (H e He). by rewrite andb_true_iff in H.
Qed.

Lemma sane_safe td : sane td = true -> SafeType false (op f td).
Proof. intros H. apply td_safe_type; [|done]. by apply (op_safe f false td H). Qed.

Lemma sane_variants e : sane e.(type) = true -> variants_safe (map_type (op f) e).
Proof.
  intros H. unfold variants_safe. cbn [type map_type]. destruct e.(type) as [n k ts c es]. cbn [op op_elements].
  apply List.Forall_map, Forall_forall. intros v Hv%list_elem_of_In. apply sane_safe. by apply (sane_member _ _ _ _ _ _ H).
Qed.

Lemma op_final td : sane td = true -> td_final td.
Proof.
  induction td as [n k ts c es IH] using descriptor_ind. intros Hsane. split; [by apply sane_safe|].
  assert (Forall final_member (map (map_type (op f)) es)) as Hm.
  { apply List.Forall_map. rewrite Forall_forall in IH |- *. intros e He. apply list_elem_of_In in He as Hin.
    destruct (sane_member _ _ _ _ _ _ Hsane Hin) as [Hc Hs]. split; [done|by apply IH|]. intros _. by apply sane_variants. }
  cbn [sane] in Hsane. rewrite !andb_true_iff in Hsane. destruct Hsane as [[Hc _] _].
  cbn [op oer_decoder]. destruct k; cbn [decoder_of]; try done.
  - apply BOOLEAN_final.
  - apply NULL_final.
  - apply primitive_final.
  - by apply INTEGER_final.
  - by apply NativeInteger_final.
  - apply NativeEnumerated_final.
  - apply OCTET_STRING_final.
  - apply BIT_STRING_final.
  - by apply SEQUENCE_final.
  - by apply CHOICE_final.
  - destruct (map (map_type (op f)) es) as [|e [|]]; try done. apply SET_OF_final. by inv Hm.
Qed.

End Descriptors.

Lemma decode_final used octx td p x y : sane td = true -> all_bytes x ->
  (oer_decode used octx td p x).1.(code) = RC_WMORE \/ oer_decode used octx td p (x ++ y) = oer_decode used octx td p x.
Proof.
  intros Hs Hx. unfold oer_decode. destruct (op_final 0 td Hs) as [_ Hf].
  destruct (oer_decoder (op 0 td)) as [d|]; [|by right]. by apply Hf.
Qed.

(** C23. Truncated encodings: given any proper part of the canonical octets of a value,
    [oer_decode] asks for more; it neither accepts nor rejects the beginning of an
    encoding. *)
Theorem oer_decode_truncated used td a x y : wf_td td = true -> is_open_type td = false -> sane td = true ->
  stack_fits used -> (sem td).(sp_bytes) None a = Some (x ++ y) -> all_bytes x -> y <> [] ->
  (oer_decode used None td None x).1.(code) = RC_WMORE.
Proof.
  intros Hw Hno Hs Hst Hb Hx Hy. destruct (decode_ok used td a _ [] Hw Hno Hst Hb) as (o & Hd & _).
  rewrite app_nil_r in Hd. destruct (decode_final used None td None x y Hs Hx) as [|E]; [done|].
  pose proof (decode_consumed used None td None x Hs Hx) as Hn. rewrite <- E, Hd in Hn. cbn in Hn.
  rewrite size_app in Hn. destruct y as [|b y]; [done|]. rewrite size_cons in Hn. pose proof (size_nonneg y). lia.
Qed.

Lemma oer_decode_truncated_witness :
  (oer_decode (fun _ => 0) None asn_DEF_PublicVerificationKey None (take 20 sample_key_octets)).1.(code) = RC_WMORE.
Proof.
  apply (oer_decode_truncated (fun _ => 0) asn_DEF_PublicVerificationKey sample_key _ (drop 20 sample_key_octets) wf_key);
    [done|by vm_compute|done|rewrite take_drop; exact sample_key_bytes| |done].
  apply (bool_decide_unpack (all_bytes (take 20 sample_key_octets))). by vm_compute.
Defined.

(** C24. Decisions are final: when [oer_decode] does not ask for more, octets that follow
    change neither the result, nor the number of octets consumed, nor the structure.
    This holds for any structure, fresh or resumed, and any octets. *)
Theorem oer_decode_final used octx td p x y rv o : sane td = true -> all_bytes x ->
  oer_decode used octx td p x = (rv, o) -> rv.(code) <> RC_WMORE ->
  oer_decode used octx td p (x ++ y) = (rv, o).
Proof.
  intros Hs Hx E Hc. destruct (decode_final used octx td p x y Hs Hx) as [E'|E']; [by rewrite E in E'|congruence].
Qed.

Lemma oer_decode_final_witness :
  oer_decode (fun _ => 0) None asn_DEF_Signature None ([0xff; 0] ++ [1; 2; 3]) =
    oer_decode (fun _ => 0) None asn_DEF_Signature None [0xff; 0].
Proof.
  destruct (oer_decode (fun _ => 0) None asn_DEF_Signature None [0xff; 0]) as [rv o] eqn:E.
  apply (oer_decode_final (fun _ => 0) None asn_DEF_Signature None [0xff; 0] [1; 2; 3] rv o);
    [by vm_compute| |exact E|by vm_compute in E; injection E as <- _].
  apply (bool_decide_unpack (all_bytes [0xff; 0])). by vm_compute.
Defined.
