(* ===== verification/Certificates.v ===== *)
(** The hybrid certificate and its keys under the OER codec.

    Consequences of the codec theorems for the descriptors of the post-quantum
    profile (systemx-pqc) and of the standard profile (security), and the inputs
    on which the codec of these very types departs from its specification. *)

From stdpp Require Import prelude strings.
From S2P Require Import Prelude Codecs BitData Integer Descriptor OerSupport OerPrim OerConstr OerSpec OerPrimOk OerSem.
From S2P Require Import OerCodec OerSeqOk OerCodecOk Pqc StandardTables OerTheorems OerSafety.

(** * Sample values *)

(** A ToBeSignedCertificate with the given extension additions: no name, valid for
    24 hours, permission for PSID 36, a compressed NIST P-256 key. *)
Definition sample_tbs (key : bytes) (extensions : list (option aval)) : aval :=
  A_SEQ ([Some (A_CHOICE 3 A_NULL); Some (A_OCTETS [0; 0; 0]); Some (A_INT 0);
          Some (A_SEQ [Some (A_INT 660000000); Some (A_CHOICE 4 (A_INT 24))]);
          None; None; Some (A_LIST [A_SEQ [Some (A_INT 36); None]]); None; None; None; None;
          Some (A_CHOICE 0 (A_CHOICE 0 (A_CHOICE 2 (A_OCTETS key))))] ++ extensions).

(** The FN-DSA-512 key and signature alternatives. *)
Definition fnDsa512 (octets : bytes) : aval := A_CHOICE 5 (A_OCTETS octets).

(** Both alternative key and alternative signature: a hybrid certificate. *)
Definition sample_hybrid_tbs : aval :=
  sample_tbs (replicate 32 0x11)
    [None; None; None; None; Some (fnDsa512 (replicate 897 9)); Some (fnDsa512 (replicate 666 7))].

(** Self-issued, explicit, version 3, with an ECDSA signature. *)
Definition sample_certificate (tbs : aval) : aval :=
  A_SEQ [Some (A_INT 3); Some (A_INT 0); Some (A_CHOICE 1 (A_INT 0)); Some tbs;
         Some (A_CHOICE 0 (A_SEQ [Some (A_CHOICE 0 (A_OCTETS (replicate 32 0x22)));
                                  Some (A_OCTETS (replicate 32 0x33))]))].

Definition octets_of (td : asn_TYPE_descriptor) (a : aval) : bytes := default [] ((sem td).(sp_bytes) None a).

(** A stack that never reaches the limit. *)
Definition no_stack (d : nat) : Z := 0.

Lemma no_stack_fits : stack_fits no_stack.
Proof. by intros d. Qed.

(** * The generated tables *)

(** The generated tables of the hybrid certificate and of the standard
    certificate meet every assumption of the codec: presence counts and extension
    positions agree with the members, every alternative is found under the tag it
    is written with, open types are governed by an earlier member. *)
Theorem certificate_tables_wf :
  wf_td asn_DEF_Certificate = true /\ wf_td asn_DEF_Certificate_r1 = true /\
  sane asn_DEF_Certificate = true /\ sane asn_DEF_Certificate_r1 = true.
Proof. vm_compute. repeat split. Qed.

Lemma wf_certificate : wf_td asn_DEF_Certificate = true.
Proof. by vm_compute. Qed.

(** Round trip of the hybrid certificate: every certificate value, classical or
    with alternative key and signature, survives encoding into a buffer and
    decoding, octet for octet. *)
Theorem hybrid_certificate_roundtrip f used o a bs n : stack_fits used ->
  (sem asn_DEF_Certificate).(sp_repr) o a -> (sem asn_DEF_Certificate).(sp_bytes) None a = Some bs -> size bs <= n ->
  exists o', oer_encode_to_buffer f asn_DEF_Certificate None (Some o) n =
               Some (ASN__ENCODED_OK (size bs), {| eb_buffer := bs; eb_left := n - size bs |}) /\
    oer_decode used None asn_DEF_Certificate None bs = (RETURN RC_OK (size bs), Some o') /\
    (sem asn_DEF_Certificate).(sp_repr) o' a.
Proof.
  intros Hs Hr Hb Hn. destruct (decode_ok used _ a bs [] wf_certificate eq_refl Hs Hb) as (o' & Hd & Hr').
  rewrite app_nil_r in Hd. exists o'. split; [|by split].
  destruct (good_enc _ _ (codec_ok f _ wf_certificate) _ _ _ _ Hr Hb) as (e & Ee & Hem).
  unfold oer_encode_to_buffer. rewrite Ee. by rewrite (emits_buffer _ _ _ Hem).
Qed.

(** The octets of the sample hybrid certificate. *)
Definition hybrid_octets : bytes := octets_of asn_DEF_Certificate (sample_certificate sample_hybrid_tbs).

Lemma hybrid_size : size hybrid_octets = 1705.
Proof. by vm_compute. Qed.

Lemma hybrid_bytes :
  (sem asn_DEF_Certificate).(sp_bytes) None (sample_certificate sample_hybrid_tbs) = Some hybrid_octets.
Proof. by vm_compute. Qed.

Lemma hybrid_certificate_roundtrip_witness :
  exists o o', oer_encode_to_buffer 0 asn_DEF_Certificate None (Some o) 2000 =
      Some (ASN__ENCODED_OK 1705, {| eb_buffer := hybrid_octets; eb_left := 2000 - 1705 |}) /\
    oer_decode no_stack None asn_DEF_Certificate None hybrid_octets = (RETURN RC_OK 1705, Some o').
Proof.
  destruct (decode_ok no_stack asn_DEF_Certificate _ _ [] wf_certificate eq_refl no_stack_fits hybrid_bytes)
    as (o & _ & Hr).
  rewrite <- hybrid_size.
  destruct (hybrid_certificate_roundtrip 0 no_stack o _ hybrid_octets 2000 no_stack_fits Hr hybrid_bytes)
    as (o' & He & Hd & _); [by rewrite hybrid_size|].
  exists o, o'. split; [exact He|exact Hd].
Defined.

(** * FN-DSA-512 keys *)

Definition O_fnDsa512 (c : asn_struct_ctx) (key : bytes) : obj := O_CHOICE c 6 (Some (O_BUF (Some key))).

Lemma length_det_897 : length_det 897 = [0x82; 0x03; 0x81].
Proof. by vm_compute. Qed.

Lemma fnDsa512_bytes key : all_bytes key -> size key = 897 ->
  (sem asn_DEF_PublicVerificationKey).(sp_bytes) None (fnDsa512 key) = Some ([0x85; 0x82; 0x03; 0x81] ++ key).
Proof.
  intros Hb Hs. cbv [sem asn_DEF_PublicVerificationKey]. cbn [sem_of sp_bytes sp_choice fnDsa512].
  change (map (map_type _) asn_MBR_PublicVerificationKey_1 !! 5%nat)
    with (Some (semm (MBR NOFLAGS 0 (TAG CONTEXT 5) (-1) asn_DEF_FnDsa512Key None None None "fnDsa512"))).
  cbn [mbind option_bind type map_type MBR oer_constraints sem asn_DEF_FnDsa512Key sem_of sp_octet_string sp_bytes
       unit_bytes_of from_option id pick_cts ct_size csize asn_OER_type_FnDsa512Key_constr_1].
  rewrite bool_decide_true by done. rewrite Hs.
  change ((if 0 <=? 897 then if 897 =? 1 * 897 then Some key else None
           else if 897 mod 1 =? 0 then with_length key else None) ≫= ?g) with (g key).
  change ((if (0 <=? _) && (_ <=? Z.of_nat 5) then ?x else ?y) ≫= ?g) with (x ≫= g).
  unfold with_length. rewrite Hs, length_det_897. reflexivity.
Qed.

Lemma fnDsa512_repr c key : (sem asn_DEF_PublicVerificationKey).(sp_repr) (O_fnDsa512 c key) (fnDsa512 key).
Proof. split; [done|]. eexists _, _. split; [reflexivity|]. by split. Qed.

(** An FN-DSA-512 key of 897 octets is encoded as tag 5, length 897 and the key
    itself, 901 octets in all. *)
Theorem fnDsa512_key_octets f c key : all_bytes key -> size key = 897 ->
  emits (oer_encode f asn_DEF_PublicVerificationKey (Some (O_fnDsa512 c key))) (ASN__ENCODED_OK 901)
        ([0x85; 0x82; 0x03; 0x81] ++ key).
Proof.
  intros Hb Hs.
  destruct (good_enc _ _ (codec_ok f asn_DEF_PublicVerificationKey ltac:(by vm_compute)) None
              (O_fnDsa512 c key) _ _ (fnDsa512_repr c key) (fnDsa512_bytes key Hb Hs)) as (e & Ee & He).
  unfold oer_encode. rewrite Ee. rewrite size_app, Hs in He. exact He.
Qed.

Lemma fnDsa512_key_octets_witness :
  emits (oer_encode 0 asn_DEF_PublicVerificationKey (Some (O_fnDsa512 ctx_zero (replicate 897 9)))) (ASN__ENCODED_OK 901)
        ([0x85; 0x82; 0x03; 0x81] ++ replicate 897 9).
Proof.
  apply (fnDsa512_key_octets 0 ctx_zero (replicate 897 9)); [|by vm_compute].
  apply (bool_decide_unpack (all_bytes (replicate 897 9))). by vm_compute.
Defined.

(** The member row of the FN-DSA-512 alternative. *)
Definition fnDsa512_row : member :=
  map_type (op 0) (MBR NOFLAGS 0 (TAG CONTEXT 5) (-1) asn_DEF_FnDsa512Key None None None "fnDsa512").

(** Decoding an alternative with tag 5 is decoding its open type. *)
Lemma decode_fnDsa512 used l : oer_decode used None asn_DEF_PublicVerificationKey None (0x85 :: l) =
  let ctx := {| max_stack_size := ASN__DEFAULT_STACK_MAX; stack_used := used; depth := 0 |} in
  let c := {| phase := 1; step := 5; left := 0 |} in
  let '(got, m) := oer_open_type_get ctx (op 0 asn_DEF_FnDsa512Key) None (Some (O_BUF None)) l in
  if got =? OT_UNDEFINED then (UNDEFINED, Some (O_CHOICE c 6 m))
  else if got <? 0 then (ASN__DECODE_FAILED, Some (O_CHOICE c 6 m))
  else if got =? 0 then (ASN__DECODE_STARVED, Some (O_CHOICE c 6 m))
  else (RETURN RC_OK (got + 1), Some (O_CHOICE (NEXT_PHASE c) 6 m)).
Proof. reflexivity. Qed.

(** The open type reader does not look at what is left of the container: any
    octets after the key, inside the announced length, are skipped and the result
    is the same structure.  Different octet strings thus decode to the same key. *)
Theorem open_type_trailing_octets used key junk : all_bytes key -> size key = 897 -> 897 + size junk <= RSIZE_MAX ->
  let x := 0x85 :: length_det (897 + size junk) ++ key ++ junk in
  oer_decode used None asn_DEF_PublicVerificationKey None x =
    (RETURN RC_OK (size x), Some (O_fnDsa512 {| phase := 2; step := 0; left := 0 |} key)).
Proof.
  intros Hb Hs Hn x. unfold x. rewrite decode_fnDsa512. cbv zeta.
  assert (with_length (key ++ junk) = Some (length_det (897 + size junk) ++ key ++ junk)) as Hw.
  { unfold with_length. rewrite size_app, Hs. by destruct (Z.leb_spec (897 + size junk) RSIZE_MAX); [|lia]. }
  unfold oer_open_type_get. destruct (counted_read _ _ [] Hw) as (n & Hf & Hn1 & Hz & Hsz). rewrite app_nil_r in Hf, Hz.
  rewrite Hf, Hz. pose proof (size_nonneg junk). destruct (Z.leb_spec n 0); [lia|].
  rewrite size_app in Hsz. rewrite size_cons, <- !Hsz, size_app.
  destruct (Z.ltb_spec (n + (size key + size junk) - n) (size key + size junk)); [lia|].
  rewrite app_nil_r, ztake_all by (rewrite size_app; lia).
  assert (forall c, (OCTET_STRING_decode_oer (Some ASN_OSUBV_STR) (Some asn_OER_type_FnDsa512Key_constr_1)) c None
            (Some (O_BUF None)) (key ++ junk) = (ok 897, Some (O_BUF (Some key)))) as Hd.
  { intros c. unfold OCTET_STRING_decode_oer. cbn [pick_cts ct_size csize asn_OER_type_FnDsa512Key_constr_1 unit_bytes_of
      from_option id]. change (0 <=? 897) with true. change (897 <? 0) with false. cbv iota. cbn [andb].
    change (1 * 897) with 897. rewrite zdrop_0, size_app. destruct (Z.ltb_spec (size key + size junk) 897); [lia|].
    by rewrite ztake_app. }
  change (oer_decoder (op 0 asn_DEF_FnDsa512Key))
    with (Some (OCTET_STRING_decode_oer (Some ASN_OSUBV_STR) (Some asn_OER_type_FnDsa512Key_constr_1))).
  cbv iota beta. rewrite Hd. cbn [code ok RETURN]. unfold OT_UNDEFINED.
  destruct (Z.eqb_spec (n + (size key + size junk)) (-2)); [lia|]. destruct (Z.ltb_spec (n + (size key + size junk)) 0); [lia|].
  destruct (Z.eqb_spec (n + (size key + size junk)) 0); [lia|]. unfold RETURN. rewrite (Z.add_comm _ 1). done.
Qed.

Lemma open_type_trailing_octets_witness :
  let key := replicate 897 9 in
  oer_decode no_stack None asn_DEF_PublicVerificationKey None (0x85 :: length_det 899 ++ key ++ [1; 2]) =
    (RETURN RC_OK 903, Some (O_fnDsa512 {| phase := 2; step := 0; left := 0 |} key)).
Proof.
  refine (open_type_trailing_octets no_stack (replicate 897 9) [1; 2] _ _ _); [|by vm_compute|by vm_compute].
  apply (bool_decide_unpack (all_bytes (replicate 897 9))). by vm_compute.
Defined.

(** * Extension additions and older receivers *)

(** [oer_open_type_skip] returns the size of the length determinant only. *)
Lemma open_type_skip_short bs x rest : with_length bs = Some x -> bs <> [] ->
  oer_open_type_skip (x ++ rest) < size x.
Proof.
  intros Hw Hne. unfold oer_open_type_skip. destruct (counted_read bs x rest Hw) as (n & -> & Hn & _ & Hs). cbn [fst].
  destruct bs as [|b bs]; [done|]. rewrite size_cons in Hs. pose proof (size_nonneg bs). lia.
Qed.

(** A receiver of the standard profile, which does not know the extension
    additions of the hybrid certificate, does not skip them: it accepts the to-be-
    signed part after 66 of its 1634 octets, and so looks for the signature inside
    the FN-DSA-512 key; the certificate as a whole is rejected. *)
Theorem legacy_receiver_misreads_hybrid :
  let tbs := octets_of asn_DEF_ToBeSignedCertificate sample_hybrid_tbs in
  size tbs = 1634 /\
  (oer_decode no_stack None asn_DEF_ToBeSignedCertificate None tbs).1 = RETURN RC_OK 1634 /\
  (oer_decode no_stack None asn_DEF_ToBeSignedCertificate_r1 None tbs).1 = RETURN RC_OK 66 /\
  (oer_decode no_stack None asn_DEF_Certificate None hybrid_octets).1 = RETURN RC_OK 1705 /\
  (oer_decode no_stack None asn_DEF_Certificate_r1 None hybrid_octets).1.(code) = RC_FAIL.
Proof. vm_compute. repeat split. Qed.

(** * The missing decoder of ANY *)

(** The root of the sample certificate, with the extension bit set. *)
Definition root_octets : bytes := take 54 (octets_of asn_DEF_ToBeSignedCertificate sample_hybrid_tbs).

(** A certificate that carries a certIssueExtension with the alternative
    [specific] makes the decoder of the hybrid profile call the OER decoder of
    ANY, which is a NULL function pointer: 62 octets are enough. *)
Theorem certIssueExtension_calls_null :
  let x := root_octets ++ [2; 2; 0x20; 4; 1; 1; 1; 0x80] in
  size x = 62 /\ (oer_decode no_stack None asn_DEF_ToBeSignedCertificate None x).1.(code) = RC_UNDEFINED.
Proof. vm_compute. repeat split. Qed.

(** The decoder of the standard certificate, and those of the verification keys and
    signatures of the hybrid profile, never do, whatever octets arrive: every type they
    reach has a decoder, every tag map points into its member table. *)
Theorem standard_certificate_defined used octx td p ptr :
  In td [asn_DEF_Certificate_r1; asn_DEF_PublicVerificationKey; asn_DEF_Signature] ->
  fresh_opt p = true -> all_bytes ptr -> (oer_decode used octx td p ptr).1.(code) <> RC_UNDEFINED.
Proof.
  intros Htd Hf Hp. unfold oer_decode.
  assert (sane td = true /\ has_decoder td = true /\ callable td = true) as (Hs & Hd & Hc).
  { destruct Htd as [<-|[<-|[<-|[]]]]; by vm_compute. }
  destruct (has_decoder_ok 0 td Hd) as [d E]. rewrite E. by apply (proj1 (op_safe 0 true td Hs ltac:(done)) d E).
Qed.

Lemma standard_certificate_defined_witness :
  (oer_decode no_stack None asn_DEF_Certificate_r1 None [0x80; 3; 0]).1.(code) <> RC_UNDEFINED.
Proof.
  apply (standard_certificate_defined no_stack None asn_DEF_Certificate_r1 None [0x80; 3; 0]); [by left|done|].
  apply (bool_decide_unpack (all_bytes [0x80; 3; 0])). by vm_compute.
Defined.

(** * Errors of the callback that are dropped *)

(** The structure decoded from a certificate whose only addition is [flags]. *)
Definition flags_octets : bytes := root_octets ++ [2; 2; 0x80; 1; 0xff].
Definition flags_obj : option obj := (oer_decode no_stack None asn_DEF_ToBeSignedCertificate None flags_octets).2.

(** [SEQUENCE_encode_oer] drops the result of the flush of the extension bitmap:
    into a buffer of 56 octets it writes the encoding (59 octets) without the three
    octets of the bitmap, and reports 56 octets and no error. *)
Theorem sequence_encoder_drops_error :
  oer_encode_to_buffer 0 asn_DEF_ToBeSignedCertificate None flags_obj 59 =
    Some (ASN__ENCODED_OK 59, {| eb_buffer := flags_octets; eb_left := 0 |}) /\
  oer_encode_to_buffer 0 asn_DEF_ToBeSignedCertificate None flags_obj 56 =
    Some (ASN__ENCODED_OK 56, {| eb_buffer := root_octets ++ [1; 0xff]; eb_left := 0 |}).
Proof. vm_compute. repeat split. Qed.

(** * Resuming a decoder *)

(** Two calls: the second gets what the first did not consume and the next chunk. *)
Definition decode_twice (td : asn_TYPE_descriptor) (x y : bytes) : asn_dec_rval * asn_dec_rval :=
  let '(rv, o) := oer_decode no_stack None td None x in
  (rv, (oer_decode no_stack None td o (zdrop rv.(consumed) x ++ y)).1).

(** Resuming inside the extension bitmap loses the place: the decoder has
    consumed the length of the bitmap but starts over with it.  The whole input
    decodes; split after 55 octets it asks for more at the end. *)
Theorem sequence_resume_loses_bitmap :
  (oer_decode no_stack None asn_DEF_ToBeSignedCertificate None flags_octets).1 = RETURN RC_OK 59 /\
  decode_twice asn_DEF_ToBeSignedCertificate (take 54 flags_octets) (drop 54 flags_octets) =
    (RETURN RC_WMORE 54, RETURN RC_OK 5) /\
  decode_twice asn_DEF_ToBeSignedCertificate (take 55 flags_octets) (drop 55 flags_octets) =
    (RETURN RC_WMORE 55, RETURN RC_WMORE 3).
Proof. vm_compute. repeat split. Qed.

(** A CHOICE whose alternative is an extension addition cannot be resumed: the
    decoder reports that the tag was not consumed but does not read it again. *)
Theorem choice_resume_loses_tag :
  let x := [0x85; 0x82; 0x03; 0x81] ++ replicate 897 9 in
  (oer_decode no_stack None asn_DEF_PublicVerificationKey None x).1 = RETURN RC_OK 901 /\
  decode_twice asn_DEF_PublicVerificationKey (take 100 x) (drop 100 x) = (RETURN RC_WMORE 0, RETURN RC_WMORE 0).
Proof. vm_compute. repeat split. Qed.

(** * Padding of fixed-size bit strings *)

(** The loop that should write the missing octets repeats for ever as long as the
    callback accepts: no number of iterations is enough. *)
Lemma zeros_loop_endless fuel : forall name n encoded r bs, 0 < n -> ~ emits (zeros_loop fuel name n encoded) r bs.
Proof.
  induction fuel as [|fuel IH]; intros name n encoded r bs Hn H; cbn [zeros_loop] in H;
    (destruct (Z.leb_spec n 0); [lia|]); [by inv H|].
  apply emits_bind_inv in H as (x & b1 & b2 & _ & H1 & H2). inv H1.
  match goal with H : emits (Ret _) _ _ |- _ => inv H end. by apply IH in H2.
Qed.

(** Encoding a bit string shorter than its fixed size does not terminate: for an
    empty EndEntityType (SIZE(8)) and any bound on the loop there is no result. *)
Theorem short_bit_string_never_encoded f r bs :
  ~ emits (oer_encode f asn_DEF_EndEntityType (Some (O_BITS None 0))) r bs.
Proof.
  intros H. unfold oer_encode in H. cbn [op oer_encoder encoder_of asn_DEF_EndEntityType] in H.
  change (emits (x ← cb []; if x <? 0 then mret (ASN__ENCODE_FAILED "EndEntityType")
                            else zeros_loop f "EndEntityType" 1 0) r bs) in H.
  apply emits_bind_inv in H as (x & b1 & b2 & _ & H1 & H2). inv H1.
  match goal with H : emits (Ret _) _ _ |- _ => inv H end. by apply zeros_loop_endless in H2.
Qed.

(** * Unsigned numbers above the signed range *)

(** A PSID of 2^63 or more is decoded but cannot be encoded again: the
    conversion of the unsigned native value goes through the signed one. *)
Theorem psid_high_half_not_encoded f v : 2 ^ 63 <= v < 2 ^ 64 ->
  oer_decode no_stack None asn_DEF_Psid None (8 :: be_bytes 8 v) = (RETURN RC_OK 9, Some (O_long (s64 v))) /\
  emits (oer_encode f asn_DEF_Psid (Some (O_long (s64 v)))) (ASN__ENCODE_FAILED "Psid") [].
Proof.
  intros Hv. assert (2 ^ 63 <= v <= ULONG_MAX) as Hv' by (unfold UINTMAX_MAX; lia).
  split.
  - assert (int_bytes (0, true) v = Some (8 :: be_bytes 8 v)) as Hi.
    { assert (ubytes v = 8%nat) as Hu.
      { pose proof (ubytes_le 8 v ltac:(lia) ltac:(lia)). pose proof (ubytes_le 7 v ltac:(lia) ltac:(lia)). lia. }
      unfold int_bytes. destruct (Z.leb_spec 0 v); [|lia]. rewrite Hu. unfold with_length. by rewrite size_be_bytes. }
    unfold oer_decode. cbn [op oer_decoder decoder_of asn_DEF_Psid]. unfold NativeInteger_decode_oer.
    destruct (INTEGER_decode_ok (Some asn_OER_type_Psid_constr_1)
                {| max_stack_size := ASN__DEFAULT_STACK_MAX; stack_used := no_stack; depth := 0 |} None
                (Some (O_BUF None)) v (8 :: be_bytes 8 v) [] Hi) as (l & El & Hl & Hne & Ht).
    rewrite app_nil_r in El. rewrite El. cbn [code ok RETURN].
    rewrite decide_True by done. change (is_unsigned (Some asn_SPC_Psid_specs_1)) with true. cbv iota.
    rewrite INTEGER2ulong_be by done. rewrite twos_nonneg_be, Ht by (try done; lia).
    unfold UINTMAX_MAX. destruct (Z.leb_spec v (2 ^ 64 - 1)); [|lia]. by rewrite size_cons, size_be_bytes.
  - unfold oer_encode. cbn [op oer_encoder encoder_of asn_DEF_Psid]. unfold NativeInteger_encode_oer.
    change (is_unsigned (Some asn_SPC_Psid_specs_1)) with true. cbv iota.
    assert (u64 (s64 v) = v) as ->.
    { rewrite s64_high by done. unfold u64, wrap. replace (v - 2 ^ 64) with (v + (-1) * 2 ^ 64) by lia.
      rewrite Z.mod_add, Z.mod_small; lia. }
    destruct (ulong_contents v Hv') as (l & -> & Hl & Hne & _ & Hneg). unfold INTEGER_encode_oer.
    pose proof (sign_bit l Hl Hne) as Hsign. destruct (Z.ltb_spec (twos l) 0); [|lia].
    destruct l as [|x k]; [done|]. cbn [pick_cts ct_value asn_OER_type_Psid_constr_1 width positive].
    rewrite Hsign. constructor.
Qed.

Lemma psid_high_half_not_encoded_witness :
  emits (oer_encode 0 asn_DEF_Psid (Some (O_long (s64 (2 ^ 63))))) (ASN__ENCODE_FAILED "Psid") [].
Proof. apply (psid_high_half_not_encoded 0 (2 ^ 63)). lia. Defined.

(** * Eight or more optional members *)

(** A position without extensions in which only the last optional member is set. *)
Definition sample_position : obj :=
  O_SEQ ctx_zero None
    [None; Some (O_long 20000000); Some (O_long 480000000); None; None; None; None; None; None;
     Some (O_SEQ ctx_zero None [Some (O_long 1); Some (O_long 1); Some (O_long 1)])].

(** In an extensible SEQUENCE with eight optional root members the decoder takes
    the extension bit from the wrong octet of the preamble: what the encoder wrote
    for a FullPositionVector without extensions is consumed to the end and then
    more input is asked for. *)
Theorem extension_bit_of_long_preamble :
  exists x, oer_encode_to_buffer 0 asn_DEF_FullPositionVector_its None (Some sample_position) 100 =
              Some (ASN__ENCODED_OK 13, {| eb_buffer := x; eb_left := 87 |}) /\
    (oer_decode no_stack None asn_DEF_FullPositionVector_its None x).1 = RETURN RC_WMORE 13.
Proof. eexists. split; [vm_compute; reflexivity|by vm_compute]. Qed.
