(* ===== verification/Asn1Wrapper.v ===== *)
(** The C++ wrapper around the generated types.

    Models asn1/asn1c_wrapper.cpp and the OER wrapper class template of
    asn1c_wrapper.hpp: encoding into a ByteBuffer, decoding, and the copy of a
    structure, which is an encoding followed by a decoding.  C++ functions return
    in [cpp]: a value, an exception, or no result at all; member functions that change
    an object in [state_cpp], with [wp] to reason about them.

    The second half reads and writes members of a structure the way the C++ code
    does ([memb], [present], [choice], ...), and defines [same]: two structures
    stand for the same encodable value.  The operations of the wrapper and of the
    accessors are compatible with it. *)

From stdpp Require Import prelude strings.
From S2P Require Import Prelude Codecs Integer Descriptor OerSupport OerPrim OerConstr OerSpec.
From S2P Require Import OerPrimOk OerSem OerCodec OerSeqOk OerCodecOk OerTheorems.

(** * Results of C++ functions *)

Inductive exception :=
  | runtime_error (what : string)
  | invalid_argument (what : string)
  | backend_exception (what : string)
  | bad_get.

(** [NoResult]: undefined behaviour, or a loop that does not end. *)
Inductive cpp (A : Type) :=
  | Returns (a : A)
  | Throws (e : exception)
  | NoResult.
Arguments Returns {A} a.
Arguments Throws {A} e.
Arguments NoResult {A}.

#[export] Instance cpp_ret : MRet cpp := @Returns.
#[export] Instance cpp_bind : MBind cpp := fun A B (f : A -> cpp B) (m : cpp A) =>
  match m with
  | Returns a => f a
  | Throws e => Throws e
  | NoResult => NoResult
  end.

(** [try { m } catch (const std::exception&) { h }] *)
Definition try_catch {A} (m h : cpp A) : cpp A :=
  match m with
  | Throws _ => h
  | _ => m
  end.

(** [if (condition) throw e;] *)
Definition throw_if (condition : bool) (e : exception) : cpp unit :=
  if condition then Throws e else Returns ().

(** [a && b] and [a || b] with the right operand evaluated on demand. *)
Definition cand (a b : cpp bool) : cpp bool := x ← a; if x : bool then b else Returns false.
Definition cor (a b : cpp bool) : cpp bool := x ← a; if x : bool then Returns true else b.
Definition cnot (a : cpp bool) : cpp bool := x ← a; Returns (negb x).

Lemma bind_returns {A B} (m : cpp A) (f : A -> cpp B) b : m ≫= f = Returns b ->
  exists a, m = Returns a /\ f a = Returns b.
Proof. destruct m as [a| |]; intros H; [by exists a|done|done]. Qed.

Lemma throw_if_returns c e u : throw_if c e = Returns u -> c = false.
Proof. by destruct c. Qed.

Lemma try_catch_returns {A} (m h : cpp A) a : try_catch m h = Returns a ->
  m = Returns a \/ (exists e, m = Throws e) /\ h = Returns a.
Proof. destruct m; intros H; [by left|right; eauto|done]. Qed.

Lemma cand_true a b : cand a b = Returns true <-> a = Returns true /\ b = Returns true.
Proof. destruct a as [[]| |]; naive_solver. Qed.

(** Splits a bind that returned. *)
Ltac inv_returns :=
  repeat match goal with
  | H : mbind _ _ = Returns _ |- _ =>
    let x := fresh "x" in let Hx := fresh "Hx" in apply bind_returns in H as (x & Hx & H)
  | H : throw_if _ _ = Returns _ |- _ => apply throw_if_returns in H
  | H : Returns _ = Returns _ |- _ => injection H as H
  end.

(** ** Member functions that change an object

    They return, throw an exception, which leaves the object as it is at that point, or
    have no defined result. *)

Definition state_cpp (S A : Type) : Type := S -> cpp A * S.

#[export] Instance state_cpp_ret {S} : MRet (state_cpp S) := fun A a s => (Returns a, s).
#[export] Instance state_cpp_bind {S} : MBind (state_cpp S) :=
  fun A B (f : A -> state_cpp S B) (m : state_cpp S A) s =>
  match m s with
  | (Returns a, s) => f a s
  | (Throws e, s) => (Throws e, s)
  | (NoResult, s) => (NoResult, s)
  end.

Section monad.
Context {S : Type}.

Definition gets {A} (f : S -> A) : state_cpp S A := fun s => (Returns (f s), s).
Definition modify (f : S -> S) : state_cpp S unit := fun s => (Returns (), f s).
Definition throw {A} (e : exception) : state_cpp S A := fun s => (Throws e, s).
Definition lift {A} (m : cpp A) : state_cpp S A := fun s => (m, s).
Definition defined {A} (m : option A) : state_cpp S A :=
  match m with Some a => mret a | None => lift NoResult end.
Definition assert_that (condition : bool) : state_cpp S unit :=
  if condition then mret () else lift NoResult.

(** [for (auto& x : xs) f(x);] *)
Fixpoint for_each {A} (f : A -> state_cpp S unit) (xs : list A) : state_cpp S unit :=
  match xs with
  | [] => mret ()
  | x :: xs => _ ← f x; for_each f xs
  end.

(** [if (condition) m] *)
Definition when (condition : bool) (m : state_cpp S unit) : state_cpp S unit :=
  if condition then m else mret ().

End monad.

(** ** Weakest preconditions *)

Section wp.
Context {S : Type}.
Implicit Types x : S.

(** The computation returns, and its result and the new state satisfy [Q]. *)
Definition wp {A} (m : state_cpp S A) (Q : A -> S -> Prop) (x : S) : Prop :=
  match m x with
  | (Returns a, x) => Q a x
  | _ => False
  end.

Lemma wp_ret {A} (a : A) Q x : Q a x -> wp (mret a) Q x.
Proof. done. Qed.

Lemma wp_bind {A B} (m : state_cpp S A) (f : A -> state_cpp S B) Q x :
  wp m (fun a => wp (f a) Q) x -> wp (m ≫= f) Q x.
Proof. unfold wp, mbind, state_cpp_bind. by destruct (m x) as [[] ?]. Qed.

Lemma wp_mono {A} (m : state_cpp S A) (P Q : A -> S -> Prop) x :
  wp m P x -> (forall a x, P a x -> Q a x) -> wp m Q x.
Proof. unfold wp. destruct (m x) as [[] ?]; auto. Qed.

Lemma wp_gets {A} (f : S -> A) Q x : Q (f x) x -> wp (gets f) Q x.
Proof. done. Qed.

Lemma wp_modify (f : S -> S) Q x : Q () (f x) -> wp (modify f) Q x.
Proof. done. Qed.

Lemma wp_lift {A} (m : cpp A) Q a x : m = Returns a -> Q a x -> wp (lift m) Q x.
Proof. by intros -> ?. Qed.

Lemma wp_defined {A} (m : option A) Q a x : m = Some a -> Q a x -> wp (defined m) Q x.
Proof. by intros -> ?. Qed.

Lemma wp_assert b Q x : b = true -> Q () x -> wp (assert_that b) Q x.
Proof. by intros -> ?. Qed.

Lemma wp_when b (m : state_cpp S unit) Q x :
  (b = true -> wp m Q x) -> (b = false -> Q () x) -> wp (when b m) Q x.
Proof. destruct b; unfold when; intros H1 H2; [auto|by apply wp_ret, H2]. Qed.

Lemma wp_assert_when b c Q x : (b = true -> c = true) -> Q () x -> wp (when b (assert_that c)) Q x.
Proof. intros Hc HQ. apply wp_when; [|done]. intros Hb. apply wp_assert; auto. Qed.

Lemma wp_for_each {A} (f : A -> state_cpp S unit) (P : S -> Prop) xs x :
  P x -> (forall a x, a ∈ xs -> P x -> wp (f a) (fun _ => P) x) -> wp (for_each f xs) (fun _ => P) x.
Proof.
  revert x. induction xs as [|a xs IH]; intros x HP Hf; simpl; [done|].
  apply wp_bind. eapply (wp_mono _ (fun _ => P)); [apply Hf; [left|done]|]. intros ? x' HP'.
  apply IH; [done|]. intros b y Hb. apply Hf. by right.
Qed.

Lemma wp_returns {A} (m : state_cpp S A) Q x : wp m Q x ->
  exists a x', m x = (Returns a, x') /\ Q a x'.
Proof. unfold wp. destruct (m x) as [[a| |] x']; [|done..]. eauto. Qed.

End wp.

Ltac wp_simple :=
  match goal with
  | |- wp (_ ≫= _) _ _ => apply wp_bind
  | |- wp (mret _) _ _ => apply wp_ret
  | |- wp (defined (Some _)) _ _ => apply wp_ret
  | |- wp (gets _) _ _ => apply wp_gets
  | |- wp (modify _) _ _ => apply wp_modify
  end.

(** * Encoding, decoding, copying *)

(** The bound on the padding loop of the BIT STRING encoder and the stack
    consumption by nesting depth. *)
Class Platform := { pf_fuel : nat; pf_used : nat -> Z }.

(** The stack never reaches the limit of the decoder. *)
Class StackFits (pf : Platform) : Prop := stack_fits_pf : stack_fits pf.(pf_used).

Section Wrapper.
Context {pf : Platform}.

Definition write_buffer (chunk out : bytes) : Z * bytes := (0, out ++ chunk).
Definition write_null (chunk : bytes) (out : unit) : Z * unit := (0, out).

(** The name of the failed type, or "unknown". *)
Definition failed_name (ec : asn_enc_rval) : string := default "unknown"%string ec.(failed_type).

Definition encode_oer (td : asn_TYPE_descriptor) (t : option obj) : cpp bytes :=
  match run write_buffer (oer_encode pf_fuel td t) [] with
  | None => NoResult
  | Some (ec, buffer) =>
    _ ← throw_if (ec.(encoded) =? -1)
          (runtime_error ("OER encoding of type " +:+ td_name td +:+ " failed because of " +:+
                          failed_name ec +:+ " sub-type"));
    Returns buffer
  end.

Definition size_oer (td : asn_TYPE_descriptor) (t : option obj) : cpp Z :=
  match run write_null (oer_encode pf_fuel td t) () with
  | None => NoResult
  | Some (ec, _) =>
    _ ← throw_if (ec.(encoded) <? 0)
          (runtime_error ("Can't determine size for OER encoding of type " +:+ td_name td +:+
                          " because of " +:+ failed_name ec +:+ " sub-type"));
    Returns ec.(encoded)
  end.

(** The result and what [*t] points to afterwards. *)
Definition decode_oer (td : asn_TYPE_descriptor) (t : option obj) (buffer : bytes)
    : cpp (bool * option obj) :=
  let '(ec, t') := oer_decode pf_used (Some ASN__DEFAULT_STACK_MAX) td t buffer in
  match ec.(code) with
  | RC_UNDEFINED => NoResult
  | c => Returns (bool_decide (c = RC_OK), t')
  end.

Definition copy (td : asn_TYPE_descriptor) (original : option obj) : cpp obj :=
  match run write_buffer (oer_encode pf_fuel td original) [] with
  | None => NoResult
  | Some (ec, buffer) =>
    _ ← throw_if (ec.(encoded) =? -1) (runtime_error "OER encoding failed");
    let '(dc, t) := oer_decode pf_used None td None buffer in
    match dc.(code), t with
    | RC_UNDEFINED, _ => NoResult
    | RC_OK, Some t => Returns t
    | RC_OK, None => NoResult
    | _, _ => Throws (runtime_error "OER decoding failed")
    end
  end.

(** [allocate<T>()]: a zeroed structure; the allocation itself succeeds. *)
Definition allocate (td : asn_TYPE_descriptor) : obj := (op 0 td).(op_zero).

End Wrapper.

(** * Access to members *)

(** [p->member], by position: [None] is a NULL pointer or a zeroed inline member. *)
Definition memb (i : nat) (p : option obj) : option obj :=
  match p with
  | Some (O_SEQ _ _ ms) => mjoin (ms !! i)
  | _ => None
  end.

(** [p->member = v] *)
Definition set_memb (i : nat) (v : option obj) (o : obj) : obj :=
  match o with
  | O_SEQ c b ms => O_SEQ c b (<[i := v]> ms)
  | _ => o
  end.

(** [p->present] and [p->choice.<the selected alternative>] *)
Definition present (p : option obj) : Z :=
  match p with
  | Some (O_CHOICE _ n _) => n
  | _ => 0
  end.

Definition choice (p : option obj) : option obj :=
  match p with
  | Some (O_CHOICE _ _ m) => m
  | _ => None
  end.

(** Replaces what the selected alternative holds. *)
Definition set_choice (v : obj) (o : obj) : obj :=
  match o with
  | O_CHOICE c n _ => O_CHOICE c n (Some v)
  | _ => o
  end.

(** The octets of an OCTET STRING, the value of a native integer, and
    [list.array] of a SET OF. *)
Definition octets (p : option obj) : bytes :=
  match p with
  | Some (O_BUF (Some l)) => l
  | _ => []
  end.

Definition number (p : option obj) : Z :=
  match p with
  | Some (O_long v) => v
  | _ => 0
  end.

Definition array (p : option obj) : list (option obj) :=
  match p with
  | Some (O_SET_OF _ _ l) => l
  | _ => []
  end.

(** [ASN_SEQUENCE_ADD] *)
Definition array_add (v : obj) (o : obj) : obj :=
  match o with
  | O_SET_OF c p l => O_SET_OF c p (l ++ [Some v])
  | _ => o
  end.

(** [OCTET_STRING_fromBuf] of a buffer without octets clears, else copies; the
    allocation succeeds. *)
Definition OCTET_STRING_fromBuf (str : bytes) : obj :=
  match str with
  | [] => O_BUF None
  | _ => O_BUF (Some str)
  end.
