(* ===== verification/SameValue.v ===== *)
(** Structures that stand for the same value.

    [max_size] is a static bound on the encodings of a type.  [same td c o o']
    holds when two structures of type [td] stand for one encodable value: the
    equivalence under which structures that were copied, decoded or rewritten are
    compared.  Reading and writing members respects it. *)

From stdpp Require Import prelude strings.
From S2P Require Import Prelude Codecs Integer Descriptor OerSupport OerPrim OerConstr OerSpec.
From S2P Require Import OerPrimOk OerSem OerCodec OerSeqOk OerCodecOk OerTheorems Asn1Wrapper.

(** * Static bounds on encodings *)

Definition osum (x y : option Z) : option Z := n ← x; m ← y; Some (n + m).
Definition omax (x y : option Z) : option Z := n ← x; m ← y; Some (Z.max n m).

(** The largest encoding of a type, when the table bounds it: numbers of fixed width,
    strings of fixed size, and sequences without extensions and choices of these. *)
Fixpoint max_size (td : asn_TYPE_descriptor) (c : oer_cts) : option Z :=
  match td with
  | TD _ k _ cts es =>
    match k with
    | BOOLEAN => Some 1
    | ASN_NULL => Some 0
    | INTEGER _ | NativeInteger _ =>
      let w := (ct_value (pick_cts c cts)).1 in if 0 <? w then Some w else None
    | OCTET_STRING specs =>
      let ct := ct_size (pick_cts c cts) in
      u ← unit_bytes_of specs; if 0 <=? ct then Some (u * ct) else None
    | SEQUENCE specs =>
      if specs.(first_extension) <? 0 then
        osum (Some ((size (filter (fun e : tmember => Is_true e.(optional)) es) + 7) / 8))
             (foldr (fun e => osum (max_size e.(type) e.(oer_constraints))) (Some 0) es)
      else None
    | CHOICE specs =>
      foldr (fun e => omax (osum (Some (size (tag_det e.(tag)) + 9)) (max_size e.(type) e.(oer_constraints))))
            (Some 0) es
    | _ => None
    end
  end.

Lemma osum_inv x y n : osum x y = Some n -> exists a b, x = Some a /\ y = Some b /\ n = a + b.
Proof. destruct x as [a|], y as [b|]; intros H; try done. injection H as <-. by exists a, b. Qed.

Lemma omax_inv x y n : omax x y = Some n -> exists a b, x = Some a /\ y = Some b /\ n = Z.max a b.
Proof. destruct x as [a|], y as [b|]; intros H; try done. injection H as <-. by exists a, b. Qed.

Lemma size_with_length bs x : with_length bs = Some x -> size x <= 9 + size bs.
Proof.
  unfold with_length. destruct (Z.leb_spec (size bs) RSIZE_MAX); [|done]. intros [= <-].
  pose proof (size_nonneg bs). pose proof (size_length_det (size bs) ltac:(unfold RSIZE_MAX in *; lia)).
  rewrite size_app. lia.
Qed.

(** Every encoding of [td] has at most the size the table gives. *)
Definition bounded (td : asn_TYPE_descriptor) : Prop := forall c n, max_size td c = Some n ->
  0 <= n /\ forall a bs, (sem td).(sp_bytes) c a = Some bs -> size bs <= n.

Lemma int_bytes_bound w pos z bs : 0 < w -> int_bytes (w, pos) z = Some bs -> size bs <= w.
Proof.
  intros Hw H. unfold int_bytes in H. destruct (Z.ltb_spec 0 w); [|lia].
  destruct (if pos then _ else _); [|done]. injection H as <-. rewrite size_be_bytes. lia.
Qed.

Lemma comp_bytes_bound (e : tmember) v b bs n : bounded e.(type) ->
  max_size e.(type) e.(oer_constraints) = Some n -> comp_bytes (semm e) v = Some (b, bs) -> size bs <= n.
Proof.
  intros He Hn Hb. apply He in Hn as [Hn He'].
  unfold comp_bytes in Hb. cbn [default_value map_type type oer_constraints optional] in Hb.
  destruct (default_value e) as [d|], v as [a|]; try done.
  - destruct a; try done. destruct (_ =? _); [injection Hb as _ <-; change (size []) with 0; lia|].
    apply fmap_Some in Hb as (x & Hx & [= _ ->]). by eapply He'.
  - apply fmap_Some in Hb as (x & Hx & [= _ ->]). by eapply He'.
  - destruct (optional e); [|done]. injection Hb as _ <-. change (size []) with 0. lia.
Qed.

Lemma comps_bound es : Forall (fun e : tmember => bounded e.(type)) es -> forall n,
  foldr (fun e => osum (max_size e.(type) e.(oer_constraints))) (Some 0) es = Some n ->
  0 <= n /\ forall vs cs, comps (map semm es) vs = Some cs -> size (contents cs) <= n.
Proof.
  induction 1 as [|e es He _ IH]; intros n Hn.
  - injection Hn as <-. split; [lia|]. intros [|v vs] cs Hc; [|done]. by injection Hc as <-.
  - apply osum_inv in Hn as (x & y & Hx & Hy & ->). apply IH in Hy as [Hy IHy].
    split; [apply He in Hx as [Hx _]; lia|].
    intros [|v vs] cs Hc; [done|]. apply comps_cons in Hc as (b & bs & cs' & Hb & Hc & ->).
    change (contents ((b, bs) :: cs')) with (bs ++ contents cs'). rewrite size_app.
    pose proof (IHy vs cs' Hc). pose proof (comp_bytes_bound e v b bs x He Hx Hb). lia.
Qed.

Lemma choice_bound es : Forall (fun e : tmember => bounded e.(type)) es -> forall n,
  foldr (fun e => omax (osum (Some (size (tag_det e.(tag)) + 9)) (max_size e.(type) e.(oer_constraints)))) (Some 0) es = Some n ->
  0 <= n /\ forall i e, es !! i = Some e -> exists m, max_size e.(type) e.(oer_constraints) = Some m /\
    size (tag_det e.(tag)) + 9 + m <= n.
Proof.
  induction 1 as [|e es He _ IH]; intros n Hn.
  - injection Hn as <-. split; [lia|done].
  - apply omax_inv in Hn as (x & y & Hx & Hy & ->). apply IH in Hy as [Hy IHy]. split; [lia|].
    apply osum_inv in Hx as (? & m & [= <-] & Hm & ->). intros [|i] e' Hi.
    + injection Hi as <-. exists m. split; [done|lia].
    + apply IHy in Hi as (m' & Hm' & Hle). exists m'. split; [done|lia].
Qed.

Lemma max_size_seq specs es c n : Forall (fun e : tmember => bounded e.(type)) es ->
  max_size (TD "" (SEQUENCE specs) [] None es) c = Some n -> 0 <= n /\
  forall vs bs, seq_bytes specs (map semm es) vs = Some bs -> size bs <= n.
Proof.
  intros Hes Hn. cbn [max_size] in Hn. destruct (Z.ltb_spec (first_extension specs) 0) as [Hx|]; [|done].
  apply osum_inv in Hn as (? & m & [= <-] & Hm & ->). apply (comps_bound es Hes) in Hm as [Hm Hcs].
  set (k := size (filter _ _)). assert (0 <= k) by apply size_nonneg. split; [pose proof (Z.div_pos (k + 7) 8); lia|].
  intros vs bs Hb. unfold seq_bytes in Hb. destruct (forallb _ _); [|done].
  destruct (comps _ vs) as [cs|] eqn:Hc; [|done]. destruct (comps_length _ _ _ Hc) as [Hl _]. rewrite length_map in Hl.
  destruct (Z.ltb_spec (first_extension specs) 0); [|lia]. rewrite length_map, drop_ge, !take_ge in Hb
    by (rewrite ?length_map; lia). cbn [existsb app] in Hb. injection Hb as <-.
  rewrite size_app. specialize (Hcs vs cs Hc).
  enough (size (pack (optional_bits (map semm es) cs)) = (k + 7) / 8) by lia.
  pose proof (pack_size (optional_bits (map semm es) cs)) as Hp. rewrite optional_bits_size in Hp by done. fold k in Hp.
  unfold pad_bits in Hp. rewrite optional_bits_size in Hp by done. fold k in Hp.
  pose proof (Z.mod_pos_bound (- k) 8 ltac:(lia)). rewrite Z2Nat.id in Hp by lia.
  Z.div_mod_to_equations. lia.
Qed.

Lemma max_size_ok td : bounded td.
Proof.
  induction td as [n k ts cts es IH] using descriptor_ind. intros c m Hm. cbn [sem].
  destruct k; cbn [max_size] in Hm; try done; cbn [sem_of].
  - injection Hm as <-. split; [lia|]. intros [] bs Hb; try done. by injection Hb as <-.
  - injection Hm as <-. split; [lia|]. intros [] bs Hb; try done. by injection Hb as <-.
  - destruct (ct_value _) as [w p] eqn:E. cbn [fst] in Hm. destruct (Z.ltb_spec 0 w); [|done]. injection Hm as <-.
    split; [lia|]. intros [] bs Hb; try done. cbn [sp_bytes sp_integer] in Hb. rewrite E in Hb. by eapply int_bytes_bound.
  - destruct (ct_value _) as [w p] eqn:E. cbn [fst] in Hm. destruct (Z.ltb_spec 0 w); [|done]. injection Hm as <-.
    split; [lia|]. intros [] bs Hb; try done. cbn [sp_bytes sp_native_integer] in Hb. destruct (native_range _ _); [|done].
    rewrite E in Hb. by eapply int_bytes_bound.
  - apply bind_Some in Hm as (u & Hu & Hm). destruct (Z.leb_spec 0 (ct_size (pick_cts c cts))); [|done].
    injection Hm as <-. assert (0 < u) by (destruct specs as [[]|]; cbn in Hu; try discriminate; injection Hu as <-; lia). split; [lia|].
    intros [] bs Hb; try done. cbn [sp_bytes sp_octet_string] in Hb. rewrite Hu in Hb.
    destruct (bool_decide _); [|done]. destruct (Z.leb_spec 0 (ct_size (pick_cts c cts))); [|lia].
    destruct (Z.eqb_spec (size l) (u * ct_size (pick_cts c cts))); [|done]. injection Hb as <-. lia.
  - destruct (max_size_seq specs es c m IH Hm) as [H1 H2]. split; [done|]. intros [] bs Hb; try done. by apply (H2 l).
  - apply (choice_bound es IH) in Hm as [H1 H2]. split; [done|]. intros [] bs Hb; try done.
    apply choice_bytes_inv in Hb as (e & bs' & x & He & Hbs & Hx & ->). destruct (H2 _ _ He) as (n' & Hn' & Hle).
    rewrite Forall_lookup in IH. apply (IH _ _ He) in Hn' as [_ Hs]. apply Hs in Hbs. rewrite size_app.
    destruct (_ && _); [apply size_with_length in Hx; lia|injection Hx as <-; lia].
Qed.

(** * Members of a SEQUENCE value *)

Lemma repr_lookup es : forall ms vs i e, repr_members es ms vs -> es !! i = Some e ->
  exists m v, ms !! i = Some m /\ vs !! i = Some v /\ comp_repr e m v.
Proof.
  induction es as [|e' es IH]; intros ms vs i e H Hi; [done|]. destruct ms as [|m ms], vs as [|v vs]; try done.
  destruct H as [H1 H2]. destruct i as [|i]; [injection Hi as <-; by exists m, v|exact (IH _ _ _ _ H2 Hi)].
Qed.

Lemma repr_insert es : forall ms vs i e m v, repr_members es ms vs -> es !! i = Some e -> comp_repr e m v ->
  repr_members es (<[i := m]> ms) (<[i := v]> vs).
Proof.
  induction es as [|e' es IH]; intros ms vs i e m v H Hi Hr; [done|]. destruct ms as [|m' ms], vs as [|v' vs]; try done.
  destruct H as [H1 H2]. destruct i as [|i]; [by injection Hi as ->|]. split; [done|by eapply IH].
Qed.

Lemma comps_lookup es : forall vs cs i e, comps es vs = Some cs -> es !! i = Some e ->
  exists v c, vs !! i = Some v /\ cs !! i = Some c /\ comp_bytes e v = Some c.
Proof.
  induction es as [|e' es IH]; intros vs cs i e H Hi; [done|]. destruct vs as [|v vs]; [done|].
  apply comps_cons in H as (b & bs & cs' & Hb & Hc & ->).
  destruct i as [|i]; [injection Hi as <-; by exists v, (b, bs)|exact (IH _ _ _ _ Hc Hi)].
Qed.

Lemma comps_insert es : forall vs cs i e v c, comps es vs = Some cs -> es !! i = Some e -> comp_bytes e v = Some c ->
  comps es (<[i := v]> vs) = Some (<[i := c]> cs).
Proof.
  induction es as [|e' es IH]; intros vs cs i e v c H Hi Hv; [done|]. destruct vs as [|v' vs]; [done|].
  apply comps_cons in H as (b & bs & cs' & Hb & Hc & ->). destruct i as [|i].
  - injection Hi as ->. change (<[0%nat := v]> (v' :: vs)) with (v :: vs). cbn [comps]. by rewrite Hv, Hc.
  - change (<[S i := v]> (v' :: vs)) with (v' :: <[i := v]> vs). cbn [comps]. by rewrite Hb, (IH _ _ _ _ _ _ Hc Hi Hv).
Qed.

(** An extension addition can be wrapped. *)
Definition wraps (c : bool * bytes) : Prop := c.1 = true -> size c.2 <= RSIZE_MAX.

Lemma wrap_all_some cs : is_Some (wrap_all cs) <-> Forall wraps cs.
Proof.
  induction cs as [|[b bs] cs IH]; [split; [constructor|by eexists]|].
  rewrite Forall_cons, <- IH. unfold wraps. cbn [wrap_all fst snd]. split.
  - intros [x Hx]. apply wrap_all_cons in Hx as (y & z & Hy & Hz & _). split; [|by eexists].
    intros ->. unfold with_length in Hy. by destruct (Z.leb_spec (size bs) RSIZE_MAX).
  - intros [Hb [z ->]]. destruct b; [|by eexists]. unfold with_length.
    destruct (Z.leb_spec (size bs) RSIZE_MAX); [by eexists|]. specialize (Hb eq_refl). lia.
Qed.

Definition no_selector (e : tmember) : bool := match e.(type_selector) with None => true | Some _ => false end.

Lemma no_selectors_ok es vs ws : forallb no_selector es = true ->
  forallb (fun p => selected_ok p.1 p.2 ws) (zip (map semm es) vs) = true.
Proof.
  revert vs. induction es as [|e es IH]; intros [|v vs] H; try done. cbn [forallb map zip_with] in *.
  apply andb_true_iff in H as [H1 H2]. apply andb_true_iff. split; [|by apply IH].
  unfold selected_ok, no_selector in *. cbn [fst type_selector map_type]. by destruct (type_selector e).
Qed.

(** Position of the first extension addition. *)
Definition root_length (specs : asn_SEQUENCE_specifics) (es : list tmember) : nat :=
  if specs.(first_extension) <? 0 then length es else Z.to_nat specs.(first_extension).

(** A SEQUENCE value is encodable when its components are. *)
Lemma seq_encodable specs es vs : forallb no_selector es = true ->
  is_Some (seq_bytes specs (map semm es) vs) <->
  exists cs, comps (map semm es) vs = Some cs /\ Forall wraps (drop (root_length specs es) cs).
Proof.
  intros Hs. unfold seq_bytes. rewrite no_selectors_ok, length_map by done. fold (root_length specs es).
  split.
  - intros [bs H]. destruct (comps _ vs) as [cs|]; [|done]. exists cs. split; [done|]. apply wrap_all_some.
    destruct (existsb _ _) eqn:E; [by destruct (wrap_all _); [eexists|]|]. apply wrap_all_some, Forall_forall.
    intros c Hc Hb. enough (existsb fst (drop (root_length specs es) cs) = true) by congruence.
    apply existsb_exists. exists c. split; [by apply list_elem_of_In|done].
  - intros (cs & -> & [x ->]%wrap_all_some). by destruct (existsb _ _); eexists.
Qed.

(** * The same value *)

Definition same (td : asn_TYPE_descriptor) (c : oer_cts) (o o' : obj) : Prop :=
  exists a, (sem td).(sp_repr) o a /\ (sem td).(sp_repr) o' a /\ is_Some ((sem td).(sp_bytes) c a).

#[export] Instance same_sym td c : Symmetric (same td c).
Proof. intros o o' (a & H & H' & Ha). by exists a. Qed.

#[export] Instance same_trans td c : Transitive (same td c).
Proof.
  intros o1 o2 o3 (a & H1 & H2 & Ha) (a' & H2' & H3 & Ha'). pose proof (sem_functional _ _ _ _ H2 H2'). subst a'. by exists a.
Qed.

Lemma same_refl_l td c o o' : same td c o o' -> same td c o o.
Proof. intros H. by transitivity o'. Qed.

Lemma same_refl_r td c o o' : same td c o o' -> same td c o' o'.
Proof. intros H. by transitivity o. Qed.

(** Two members: both absent where the table allows it, or both present with the
    same value. *)
Definition same_member (e : tmember) (m m' : option obj) : Prop :=
  match m, m' with
  | Some o, Some o' => same e.(type) e.(oer_constraints) o o'
  | None, None => e.(ATF_POINTER) = true /\ e.(optional) = true
  | _, _ => False
  end.

(** [e] is the plain member at position [i] of the SEQUENCE [td]. *)
Definition seq_member (td : asn_TYPE_descriptor) (i : nat) (e : tmember) : Prop :=
  exists specs, kind td = SEQUENCE specs /\ elements td !! i = Some e /\
    forallb no_selector (elements td) = true /\ e.(default_value) = None.

(** As an extension addition, the encodings of the member can be wrapped. *)
Definition member_wraps (td : asn_TYPE_descriptor) (i : nat) (e : tmember) : bool :=
  match kind td with
  | SEQUENCE specs =>
    bool_decide (i < root_length specs (elements td))%nat ||
    match max_size e.(type) e.(oer_constraints) with Some n => n <=? RSIZE_MAX | None => false end
  | _ => false
  end.

Lemma sem_sequence td specs : kind td = SEQUENCE specs -> sem td = sp_sequence specs (map semm (elements td)).
Proof. destruct td. cbn [kind Descriptor.elements sem]. by intros ->. Qed.

Lemma sem_choice td specs : kind td = CHOICE specs -> sem td = sp_choice specs (map semm (elements td)).
Proof. destruct td. cbn [kind Descriptor.elements sem]. by intros ->. Qed.

Lemma seq_member_sem td i e : seq_member td i e -> map semm (elements td) !! i = Some (semm e).
Proof. intros (specs & _ & He & _). by rewrite lookup_map, He. Qed.

Lemma comp_repr_plain e m v : e.(default_value) = None -> comp_repr e m v ->
  match m, v with
  | Some o, Some a => e.(type).(sp_repr) o a
  | None, None => e.(ATF_POINTER) = true /\ e.(optional) = true
  | _, _ => False
  end.
Proof.
  intros Hd. unfold comp_repr. destruct v as [a|].
  - intros [(o & -> & H)|(_ & _ & _ & d & Hd' & _)]; [done|congruence].
  - intros (-> & H1 & H2 & _). done.
Qed.

Lemma same_memb td c i e o o' : seq_member td i e -> same td c o o' ->
  same_member e (memb i (Some o)) (memb i (Some o')).
Proof.
  intros He (a & H & H' & Ha). pose proof (seq_member_sem _ _ _ He) as Hse. destruct He as (specs & Hk & He & Hn & Hd).
  rewrite (sem_sequence _ _ Hk) in *. destruct o, o', a as [| | | | |vs| |]; try done. cbn [sp_repr sp_bytes sp_sequence] in *.
  apply seq_encodable in Ha as (cs & Hc & _); [|done].
  destruct (repr_lookup _ _ _ _ _ H Hse) as (m & v & Hm & Hv & Hr), (repr_lookup _ _ _ _ _ H' Hse) as (m' & v' & Hm' & Hv' & Hr').
  destruct (comps_lookup _ _ _ _ _ Hc Hse) as (w & b & Hw & _ & Hb).
  rewrite Hv in Hv', Hw. injection Hv' as <-. injection Hw as <-. cbn [memb]. rewrite Hm, Hm'. cbn [mjoin option_join].
  apply comp_repr_plain in Hr, Hr'; [|done..]. destruct m, m', v; try done.
  exists a. split; [done|]. split; [done|]. unfold comp_bytes in Hb. cbn [default_value map_type] in Hb. rewrite Hd in Hb.
  apply fmap_Some in Hb as (bs & Hb & _). by exists bs.
Qed.

Lemma same_member_value e m m' : e.(default_value) = None -> same_member e m m' ->
  exists v b bs, comp_repr (semm e) m v /\ comp_repr (semm e) m' v /\ comp_bytes (semm e) v = Some (b, bs) /\
    (b = true -> exists a, (sem e.(type)).(sp_bytes) e.(oer_constraints) a = Some bs).
Proof.
  intros Hd H. unfold comp_bytes. cbn [default_value map_type type oer_constraints optional]. rewrite Hd.
  destruct m as [o|], m' as [o'|]; try done.
  - destruct H as (a & H & H' & [bs Hb]). exists (Some a), true, bs. rewrite Hb. cbn. repeat split; eauto.
  - destruct H as [Hp Ho]. exists None, false, []. rewrite Ho. by repeat split.
Qed.

Lemma same_set_memb td c i e o o' m m' : seq_member td i e -> member_wraps td i e = true ->
  same td c o o' -> same_member e m m' -> same td c (set_memb i m o) (set_memb i m' o').
Proof.
  intros He Hx (a & H & H' & Ha) Hm. pose proof (seq_member_sem _ _ _ He) as Hse. destruct He as (specs & Hk & He & Hn & Hd).
  unfold same. rewrite (sem_sequence _ _ Hk) in *. destruct o, o', a as [| | | | |vs| |]; try done.
  cbn [sp_repr sp_bytes sp_sequence] in *. apply seq_encodable in Ha as (cs & Hc & Hw); [|done].
  destruct (same_member_value e m m' Hd Hm) as (v & b & bs & Hr & Hr' & Hb & Hbs).
  exists (A_SEQ (<[i := v]> vs)). split; [by eapply repr_insert|]. split; [by eapply repr_insert|].
  apply seq_encodable; [done|]. exists (<[i := (b, bs)]> cs). split; [by eapply comps_insert|].
  unfold member_wraps in Hx. rewrite Hk in Hx.
  destruct (decide (i < root_length specs (elements td))%nat) as [Hlt|Hge]; [by rewrite drop_insert_lt|].
  rewrite bool_decide_false in Hx by done. cbn [orb] in Hx. rewrite drop_insert_ge by lia. apply Forall_insert; [done|].
  intros Hbt. cbn [fst snd] in *. destruct (Hbs Hbt) as [a Ha]. destruct (max_size _ _) as [n|] eqn:En; [|done].
  apply Z.leb_le in Hx. pose proof (proj2 (max_size_ok _ _ _ En) _ _ Ha). lia.
Qed.

(** ** Alternatives of a CHOICE *)

Definition choice_wraps (td : asn_TYPE_descriptor) (i : nat) (e : tmember) : bool :=
  match kind td with
  | CHOICE specs =>
    negb ((0 <=? specs.(ext_start)) && (specs.(ext_start) <=? Z.of_nat i)) ||
    match max_size e.(type) e.(oer_constraints) with Some n => n <=? RSIZE_MAX | None => false end
  | _ => false
  end.

(** Two structures of a CHOICE with the same value select the same alternative. *)
Lemma same_choice td specs c o o' : kind td = CHOICE specs -> same td c o o' ->
  exists i e ct ct' m m', elements td !! i = Some e /\ same e.(type) e.(oer_constraints) m m' /\
    o = O_CHOICE ct (Z.of_nat i + 1) (Some m) /\ o' = O_CHOICE ct' (Z.of_nat i + 1) (Some m').
Proof.
  intros Hk (a & H & H' & [bs Hb]). rewrite (sem_choice _ _ Hk) in *.
  destruct o as [| | | | | |ct n m|], o' as [| | | | | |ct' n' m'|], a as [| | | | | |i w|]; try done.
  destruct H as [-> (se & o & Hse & -> & Hr)], H' as [-> (se' & o' & Hse' & -> & Hr')].
  rewrite Hse in Hse'. injection Hse' as <-. apply choice_bytes_inv in Hb as (e & bs' & x & He & Hbs & _).
  rewrite lookup_map, He in Hse. injection Hse as <-.
  exists i, e, ct, ct', o, o'. split; [done|]. split; [|done]. exists w. by repeat split.
Qed.

Lemma same_choice_intro td specs c i e ct ct' m m' : kind td = CHOICE specs -> elements td !! i = Some e ->
  choice_wraps td i e = true -> same e.(type) e.(oer_constraints) m m' ->
  same td c (O_CHOICE ct (Z.of_nat i + 1) (Some m)) (O_CHOICE ct' (Z.of_nat i + 1) (Some m')).
Proof.
  intros Hk He Hx (a & H & H' & [bs Hb]). exists (A_CHOICE i a). unfold choice_wraps in Hx.
  rewrite (sem_choice _ _ Hk). rewrite Hk in Hx.
  assert (map semm (elements td) !! i = Some (semm e)) as Hse by (by rewrite lookup_map, He).
  split; [split; [done|]; by exists (semm e), m|]. split; [split; [done|]; by exists (semm e), m'|].
  cbn [sp_bytes sp_choice]. rewrite Hse. cbn [mbind option_bind type map_type oer_constraints]. rewrite Hb.
  destruct (_ && _); [|by eexists]. cbn [negb orb] in Hx. destruct (max_size _ _) as [n|] eqn:En; [|done].
  apply Z.leb_le in Hx. pose proof (proj2 (max_size_ok _ _ _ En) _ _ Hb). cbn [mbind option_bind]. unfold with_length.
  destruct (Z.leb_spec (size bs) RSIZE_MAX); [by eexists|lia].
Qed.

(** ** Leaves *)

Lemma same_octets td specs c o o' : kind td = OCTET_STRING specs -> same td c o o' ->
  octets (Some o) = octets (Some o').
Proof.
  destruct td as [n k ts cts es]. cbn [kind]. intros -> (a & H & H' & _). cbn [sem sem_of sp_repr sp_octet_string] in *.
  destruct o as [| | |b| | | |], o' as [| | |b'| | | |], a; try done. unfold repr_buf in *. cbn [octets].
  destruct b, b'; cbn in *; congruence.
Qed.

(** Octets that fit a string of fixed size. *)
Lemma same_octets_intro td specs c b b' : kind td = OCTET_STRING (Some specs) ->
  unit_bytes_of (Some specs) = Some 1 -> 0 <= ct_size (pick_cts c (let '(TD _ _ _ cts _) := td in cts)) ->
  default [] b = default [] b' -> all_bytes (default [] b) ->
  size (default [] b) = ct_size (pick_cts c (let '(TD _ _ _ cts _) := td in cts)) ->
  same td c (O_BUF b) (O_BUF b').
Proof.
  destruct td as [n k ts cts es]. cbn [kind]. intros -> Hu Hp E Hb Hs. exists (A_OCTETS (default [] b)).
  cbn [sem sem_of sp_repr sp_octet_string sp_bytes]. split; [done|]. split; [by unfold repr_buf|].
  rewrite Hu, bool_decide_true by done. destruct (Z.leb_spec 0 (ct_size (pick_cts c cts))); [|lia].
  rewrite Hs, Z.mul_1_l, Z.eqb_refl. by eexists.
Qed.

Lemma same_number td c o o' : is_native td = true -> same td c o o' -> number (Some o) = number (Some o').
Proof.
  intros Hn (a & H & H' & _). rewrite native_repr in H, H' by done. destruct o, o', a; try done. cbn in *. congruence.
Qed.

(** ** What a value says about its structure *)

(** A string of fixed size has that size. *)
Lemma octets_size td specs c o n : kind td = OCTET_STRING (Some specs) -> unit_bytes_of (Some specs) = Some 1 ->
  ct_size (pick_cts c (let '(TD _ _ _ cts _) := td in cts)) = n -> 0 <= n -> same td c o o -> size (octets (Some o)) = n.
Proof.
  destruct td as [nm k ts cts es]. cbn [kind]. intros -> Hu Hn Hp (a & H & _ & [bs Hb]).
  cbn [sem sem_of sp_repr sp_bytes sp_octet_string] in *. destruct o as [| | |b| | | |], a as [| | |l| | | |]; try done.
  unfold repr_buf in H. subst l. rewrite Hu, Hn in Hb. destruct (Z.leb_spec 0 n); [|lia].
  repeat (case_match; try done). cbn [octets]. destruct b; cbn in *; lia.
Qed.

(** An unsigned integer of fixed width is in range. *)
Lemma number_range td specs c o w : kind td = NativeInteger specs ->
  ct_value (pick_cts c (let '(TD _ _ _ cts _) := td in cts)) = (w, true) -> 0 < w ->
  same td c o o -> 0 <= number (Some o) < 256 ^ w.
Proof.
  destruct td as [nm k ts cts es]. cbn [kind]. intros -> Hc Hw (a & H & _ & [bs Hb]).
  cbn [sem sem_of sp_repr sp_bytes sp_native_integer] in *. destruct o as [| |v| | | | |], a as [| |z| | | | |]; try done.
  cbn in H. subst v. rewrite Hc in Hb. unfold int_bytes in Hb. destruct (Z.ltb_spec 0 w); [|lia].
  destruct (native_range _ z); [|done]. destruct (_ && _) eqn:E; [|done]. cbn [number]. lia.
Qed.

(** * Copies *)

Section Copies.
Context {pf : Platform}.

Lemma encode_of_value td o a bs : wf_td td = true -> (sem td).(sp_repr) o a -> (sem td).(sp_bytes) None a = Some bs ->
  run write_buffer (oer_encode pf_fuel td (Some o)) [] = Some (ASN__ENCODED_OK (size bs), bs).
Proof. intros Hw Hr Hb. apply (emits_collect _ (ASN__ENCODED_OK (size bs)) bs). by apply encode_ok with a. Qed.

Lemma encode_oer_value td o a bs : wf_td td = true -> (sem td).(sp_repr) o a -> (sem td).(sp_bytes) None a = Some bs ->
  encode_oer td (Some o) = Returns bs.
Proof.
  intros Hw Hr Hb. unfold encode_oer. rewrite (encode_of_value _ _ _ _ Hw Hr Hb). cbn [encoded ASN__ENCODED_OK].
  pose proof (size_nonneg bs). by destruct (Z.eqb_spec (size bs) (-1)); [lia|].
Qed.

(** Structures with the same value have the same encoding. *)
Lemma encode_same td o o' : wf_td td = true -> same td None o o' ->
  exists bs, encode_oer td (Some o) = Returns bs /\ encode_oer td (Some o') = Returns bs.
Proof. intros Hw (a & H & H' & [bs Hb]). exists bs. split; by eapply encode_oer_value. Qed.

Lemma size_oer_value td o a bs : wf_td td = true -> (sem td).(sp_repr) o a -> (sem td).(sp_bytes) None a = Some bs ->
  size_oer td (Some o) = Returns (size bs).
Proof.
  intros Hw Hr Hb. unfold size_oer. pose proof (encode_ok pf_fuel td o a bs Hw Hr Hb) as He.
  assert (forall m (r : asn_enc_rval) w, emits m r w -> run write_null m () = Some (r, ())) as Hrun.
  { clear. induction 1 as [|x k r w _ IH]; [done|]. exact IH. }
  rewrite (Hrun _ _ _ He). cbn [encoded ASN__ENCODED_OK].
  pose proof (size_nonneg bs). by destruct (Z.ltb_spec (size bs) 0); [lia|].
Qed.

(** Conversely, equal encodings come from the same value. *)
Lemma same_encode td o o' bs : wf_td td = true -> is_open_type td = false -> same td None o o -> same td None o' o' ->
  encode_oer td (Some o) = Returns bs -> encode_oer td (Some o') = Returns bs -> same td None o o'.
Proof.
  intros Hw Hno (a & H & _ & [x Hx]) (a' & H' & _ & [x' Hx']) E E'.
  rewrite (encode_oer_value _ _ _ _ Hw H Hx) in E. rewrite (encode_oer_value _ _ _ _ Hw H' Hx') in E'.
  injection E as ->. injection E' as ->.
  destruct (decode_ok (fun _ => 0) td a bs [] Hw Hno ltac:(done) Hx) as (p & Hd & Hp).
  destruct (decode_ok (fun _ => 0) td a' bs [] Hw Hno ltac:(done) Hx') as (p' & Hd' & Hp').
  rewrite Hd' in Hd. injection Hd as <-. rewrite (sem_functional _ _ _ _ Hp Hp') in *. by exists a'.
Qed.

Context {fits : StackFits pf}.

(** Decoding an encoding gives the same value, into no structure or a zeroed one. *)
Lemma decode_oer_same td o bs p : wf_td td = true -> is_open_type td = false -> same td None o o ->
  encode_oer td (Some o) = Returns bs -> p = None \/ p = Some (allocate td) ->
  exists o', decode_oer td p bs = Returns (true, Some o') /\ same td None o o'.
Proof.
  intros Hw Hno (a & H & _ & [x Hx]) E Hp. rewrite (encode_oer_value _ _ _ _ Hw H Hx) in E. injection E as ->.
  unfold decode_oer, oer_decode.
  destruct (good_dec _ _ (codec_ok 0 td Hw) Hno
              {| max_stack_size := ASN__DEFAULT_STACK_MAX; stack_used := pf_used; depth := 0 |} None a bs p [])
    as (d & o' & -> & Hd & Hr); [by right; apply fits|done|done|].
  rewrite app_nil_r in Hd. rewrite Hd. exists o'. split; [done|]. exists a. by repeat split.
Qed.

(** A copy has the value of the original. *)
Lemma copy_same td o : wf_td td = true -> is_open_type td = false -> same td None o o ->
  exists o', copy td (Some o) = Returns o' /\ same td None o o'.
Proof.
  intros Hw Hno (a & H & _ & [bs Hb]). unfold copy. rewrite (encode_of_value _ _ _ _ Hw H Hb). cbn [encoded ASN__ENCODED_OK].
  pose proof (size_nonneg bs). destruct (Z.eqb_spec (size bs) (-1)); [lia|]. cbn [throw_if mbind cpp_bind].
  destruct (decode_ok pf_used td a bs [] Hw Hno fits Hb) as (o' & Hd & Hr'). rewrite app_nil_r in Hd. rewrite Hd.
  exists o'. split; [done|]. exists a. by repeat split.
Qed.

End Copies.

(** * Reading structures with the same value *)

(** Pointers to structures with the same value, or both NULL. *)
Definition same_opt (td : asn_TYPE_descriptor) (c : oer_cts) : option obj -> option obj -> Prop :=
  option_Forall2 (same td c).

Lemma same_opt_some td c o o' : same td c o o' -> same_opt td c (Some o) (Some o').
Proof. by constructor. Qed.

Lemma same_opt_memb td c i e m m' : seq_member td i e -> same_opt td c m m' ->
  same_opt e.(type) e.(oer_constraints) (memb i m) (memb i m').
Proof.
  intros He H. destruct H as [o o' H|]; [|constructor]. apply (same_memb _ _ _ _ _ _ He) in H.
  destruct (memb i (Some o)), (memb i (Some o')); try done; by constructor.
Qed.

Lemma same_opt_present td specs c m m' : same_opt td c m m' -> kind td = CHOICE specs -> present m = present m'.
Proof.
  intros H Hk. destruct H as [o o' H|]; [|done].
  by destruct (same_choice _ _ _ _ _ Hk H) as (i & e & ct & ct' & x & x' & _ & _ & -> & ->).
Qed.

Lemma same_opt_choice td specs c i e m m' : same_opt td c m m' -> kind td = CHOICE specs ->
  elements td !! i = Some e -> present m = Z.of_nat i + 1 ->
  same_opt e.(type) e.(oer_constraints) (choice m) (choice m').
Proof.
  intros H Hk He Hp. destruct H as [o o' H|]; [|constructor].
  destruct (same_choice _ _ _ _ _ Hk H) as (j & e' & ct & ct' & x & x' & He' & Hx & -> & ->).
  cbn [present choice] in *. assert (j = i) as -> by lia. rewrite He in He'. injection He' as <-. by constructor.
Qed.

Lemma same_opt_octets td specs c m m' : same_opt td c m m' -> kind td = OCTET_STRING specs -> octets m = octets m'.
Proof. intros H Hk. destruct H; [|done]. by eapply same_octets. Qed.

Lemma same_opt_number td c m m' : same_opt td c m m' -> is_native td = true -> number m = number m'.
Proof. intros H Hk. destruct H; [|done]. by eapply same_number. Qed.

Lemma same_opt_null td c m m' : same_opt td c m m' -> m = None <-> m' = None.
Proof. by intros []. Qed.

(** The elements of a SET OF. *)
Lemma same_opt_array td c e m m' : same_opt td c m m' -> kind td = SET_OF -> elements td = [e] ->
  Forall2 (fun x x' => exists o o', x = Some o /\ x' = Some o' /\ same e.(type) e.(oer_constraints) o o') (array m) (array m').
Proof.
  destruct td as [n k ts cts es]. cbn [kind Descriptor.elements]. intros H -> ->. destruct H as [o o' (a & H & H' & Ha)|]; [|constructor].
  cbn [sem sem_of map] in *.
  destruct o as [| | | | | | |ct p l1], o' as [| | | | | | |ct' p' l2], a as [| | | | | | |l]; try done.
  cbn [sp_repr sp_set_of Asn1Wrapper.array sp_bytes] in *. destruct Ha as [bs Hb]. apply bind_Some in Hb as (bss & Hbs & _).
  apply mapM_Some_1 in Hbs. clear bs. revert l2 l bss H H' Hbs.
  induction l1 as [|x l1 IH]; intros l2 l bss H H' Hbs; [inv H; inv H'; constructor|].
  apply Forall2_cons_inv_l in H as (v & l' & (y & -> & Hy) & H & ->).
  apply Forall2_cons_inv_r in H' as (x' & l2' & (y' & -> & Hy') & H' & ->).
  apply Forall2_cons_inv_l in Hbs as (b & bss' & Hb & Hbs & ->). constructor; [|by eapply IH].
  exists y, y'. do 2 (split; [done|]). exists v. repeat split; [done|done|by exists b].
Qed.

(** * Building a SEQUENCE from its members *)

Fixpoint same_members (es : list tmember) (ms ms' : list (option obj)) : Prop :=
  match es, ms, ms' with
  | [], [], [] => True
  | e :: es, m :: ms, m' :: ms' => e.(default_value) = None /\ same_member e m m' /\ same_members es ms ms'
  | _, _, _ => False
  end.

Lemma same_members_value es : forall ms ms', same_members es ms ms' -> exists vs cs,
  repr_members (map semm es) ms vs /\ repr_members (map semm es) ms' vs /\ comps (map semm es) vs = Some cs.
Proof.
  induction es as [|e es IH]; intros [|m ms] [|m' ms'] H; try done; [by exists [], []|].
  destruct H as (Hd & Hm & H). destruct (IH _ _ H) as (vs & cs & H1 & H2 & Hc).
  destruct (same_member_value e m m' Hd Hm) as (v & b & bs & Hr & Hr' & Hb & _).
  exists (v :: vs), ((b, bs) :: cs). cbn [map repr_members comps]. by rewrite Hb, Hc.
Qed.

Lemma same_seq_intro td specs c ct ct' b b' ms ms' : kind td = SEQUENCE specs -> specs.(first_extension) < 0 ->
  forallb no_selector (elements td) = true -> same_members (elements td) ms ms' ->
  same td c (O_SEQ ct b ms) (O_SEQ ct' b' ms').
Proof.
  intros Hk Hx Hn Hm. destruct (same_members_value _ _ _ Hm) as (vs & cs & H1 & H2 & Hc). exists (A_SEQ vs).
  rewrite (sem_sequence _ _ Hk). do 2 (split; [done|]). apply seq_encodable; [done|]. exists cs. split; [done|].
  destruct (comps_length _ _ _ Hc) as [Hl _]. rewrite length_map in Hl.
  unfold root_length. destruct (Z.ltb_spec specs.(first_extension) 0); [|lia]. by rewrite <- Hl, drop_all.
Qed.
