(* ===== verification/SecurityTypes.v ===== *)
(** Data types of the security layer.

    The C++ types of key_type.hpp, public_key.hpp, signature.hpp, private_key.hpp,
    hash_algorithm.hpp and hashed_id.cpp, the presence enumerators of the
    generated headers of the hybrid profile (the numbers a [present] field takes),
    and the members of the generated structures by name: a member is addressed by
    its position in the [asn_TYPE_member_t] table of its type. *)

From stdpp Require Import prelude strings.
From S2P Require Import Prelude Codecs Descriptor OerSem OerCodec Pqc Asn1Wrapper.

(** * Keys, signatures, digests *)

Inductive KeyType := Unspecified | NistP256 | BrainpoolP256r1 | BrainpoolP384r1.
#[export] Instance KeyType_eq_dec : EqDecision KeyType.
Proof. solve_decision. Defined.

Definition key_length (key_type : KeyType) : Z :=
  match key_type with
  | NistP256 | BrainpoolP256r1 => 32
  | BrainpoolP384r1 => 48
  | Unspecified => 0
  end.

Inductive HashAlgorithm := HashUnspecified | SHA256 | SHA384.
#[export] Instance HashAlgorithm_eq_dec : EqDecision HashAlgorithm.
Proof. solve_decision. Defined.

Inductive KeyCompression := NoCompression | Y0 | Y1.

Record PublicKey := { pk_x : bytes; pk_y : bytes; pk_type : KeyType; pk_compression : KeyCompression }.
Record EccSignature := { sig_r : bytes; sig_s : bytes; sig_type : KeyType }.
Record PrivateKey := { priv_type : KeyType; priv_key : bytes }.

(** Digests are arrays of octets; [HashedId8] holds 8 of them, [HashedId3] 3. *)
Abbreviation HashedId8 := bytes.
Abbreviation HashedId3 := bytes.

(** The last octets of an array. *)
Definition last_octets (n : nat) (l : bytes) : bytes := drop (length l - n) l.

(** [create_hashed_id8] of a SHA-256 or SHA-384 digest, and [truncate]. *)
Definition create_hashed_id8 (digest : bytes) : HashedId8 := last_octets 8 digest.
Definition truncate (digest : HashedId8) : HashedId3 := last_octets 3 digest.

(** [create_hashed_id8] of an OCTET STRING copies at most 8 octets; fewer leave the
    rest of the array uninitialised. *)
Definition hashed_id8_of_octets (l : bytes) : cpp HashedId8 :=
  if 8 <=? size l then Returns (take 8 l) else NoResult.

(** * Enumerators of the generated headers *)

Abbreviation IssuerIdentifier_PR_sha256AndDigest := 1.
Abbreviation IssuerIdentifier_PR_self := 2.
Abbreviation IssuerIdentifier_PR_sha384AndDigest := 3.

Abbreviation Duration_PR_NOTHING := 0.
Abbreviation Duration_PR_microseconds := 1.
Abbreviation Duration_PR_milliseconds := 2.
Abbreviation Duration_PR_seconds := 3.
Abbreviation Duration_PR_minutes := 4.
Abbreviation Duration_PR_hours := 5.
Abbreviation Duration_PR_sixtyHours := 6.
Abbreviation Duration_PR_years := 7.

Abbreviation VerificationKeyIndicator_PR_verificationKey := 1.
Abbreviation VerificationKeyIndicator_PR_reconstructionValue := 2.

Abbreviation PublicVerificationKey_PR_ecdsaNistP256 := 1.
Abbreviation PublicVerificationKey_PR_ecdsaBrainpoolP256r1 := 2.
Abbreviation PublicVerificationKey_PR_ecdsaBrainpoolP384r1 := 3.
Abbreviation PublicVerificationKey_PR_fnDsa512 := 6.

Abbreviation BasePublicEncryptionKey_PR_eciesNistP256 := 1.
Abbreviation BasePublicEncryptionKey_PR_eciesBrainpoolP256r1 := 2.

Abbreviation Signature_PR_ecdsaNistP256Signature := 1.
Abbreviation Signature_PR_ecdsaBrainpoolP256r1Signature := 2.
Abbreviation Signature_PR_ecdsaBrainpoolP384r1Signature := 3.
Abbreviation Signature_PR_fnDsa512Signature := 6.

Abbreviation EccP256CurvePoint_PR_x_only := 1.
Abbreviation EccP256CurvePoint_PR_compressed_y_0 := 3.
Abbreviation EccP256CurvePoint_PR_compressed_y_1 := 4.
Abbreviation EccP256CurvePoint_PR_uncompressedP256 := 5.

Abbreviation EccP384CurvePoint_PR_x_only := 1.
Abbreviation EccP384CurvePoint_PR_compressed_y_0 := 3.
Abbreviation EccP384CurvePoint_PR_compressed_y_1 := 4.
Abbreviation EccP384CurvePoint_PR_uncompressedP384 := 5.

Abbreviation SubjectPermissions_PR_explicit := 1.
Abbreviation SubjectPermissions_PR_all := 2.

Abbreviation GeographicRegion_PR_NOTHING := 0.
Abbreviation GeographicRegion_PR_circularRegion := 1.
Abbreviation GeographicRegion_PR_rectangularRegion := 2.
Abbreviation GeographicRegion_PR_polygonalRegion := 3.

Abbreviation ServiceSpecificPermissions_PR_opaque := 1.
Abbreviation ServiceSpecificPermissions_PR_bitmapSsp := 2.

Abbreviation CertificateId_PR_none := 4.
Abbreviation SymmAlgorithm_aes128Ccm := 0.

(** * The certificate type of ETSI TS 103 097 *)

(** The same table as Certificate under another name. *)
Definition asn_OER_type_EtsiTs103097Certificate_constr_1 : asn_oer_constraints :=
  {| width := 0; positive := false; csize := -1 |}.

Definition asn_DEF_EtsiTs103097Certificate : asn_TYPE_descriptor :=
  TD "EtsiTs103097Certificate" (SEQUENCE asn_SPC_CertificateBase_specs_1)
    [(TAG UNIVERSAL 16)] (Some asn_OER_type_EtsiTs103097Certificate_constr_1) asn_MBR_CertificateBase_1.

(** * Members by name *)

Definition issuer (cert : option obj) : option obj := memb 2 cert.
Definition toBeSigned (cert : option obj) : option obj := memb 3 cert.
Definition signature (cert : option obj) : option obj := memb 4 cert.

Definition validityPeriod (tbs : option obj) : option obj := memb 3 tbs.
Definition region (tbs : option obj) : option obj := memb 4 tbs.
Definition assuranceLevel (tbs : option obj) : option obj := memb 5 tbs.
Definition appPermissions (tbs : option obj) : option obj := memb 6 tbs.
Definition certIssuePermissions (tbs : option obj) : option obj := memb 7 tbs.
Definition encryptionKey (tbs : option obj) : option obj := memb 10 tbs.
Definition verifyKeyIndicator (tbs : option obj) : option obj := memb 11 tbs.
Definition altVerificationKey (tbs : option obj) : option obj := memb 16 tbs.
Definition altSignatureValue (tbs : option obj) : option obj := memb 17 tbs.

(** Positions and names of the members used agree with the generated tables. *)
Definition names_at (es : list tmember) (pos : list nat) : list (option string) :=
  map (fun i => memb_name <$> es !! i) pos.

Lemma member_positions :
  names_at asn_MBR_CertificateBase_1 [2; 3; 4]%nat = map Some ["issuer"; "toBeSigned"; "signature"]%string /\
  names_at asn_MBR_ToBeSignedCertificate_1 [3; 4; 5; 6; 7; 10; 11; 16; 17]%nat =
    map Some ["validityPeriod"; "region"; "assuranceLevel"; "appPermissions"; "certIssuePermissions";
              "encryptionKey"; "verifyKeyIndicator"; "altVerificationKey"; "altSignatureValue"]%string.
Proof. vm_compute. repeat split. Qed.

(** An unselected CHOICE in zeroed memory. *)
Definition zero_choice : obj := O_CHOICE ctx_zero 0 None.

(** ** In-place updates *)

(** A routine that rewrites a structure in place and reports success. *)
Abbreviation update := (obj -> bool * obj).

(** Applies an update to the member at position [i], [zero] when it is zeroed. *)
Definition update_memb (i : nat) (zero : obj) (f : update) : update := fun o =>
  let r := f (default zero (memb i (Some o))) in (r.1, set_memb i (Some r.2) o).

(** Applies the update that goes with the selected alternative; [dflt] is the result
    for the alternatives without one. *)
Definition on_choice (dflt : bool) (fs : Z -> option update) : update := fun o =>
  match fs (present (Some o)) with
  | Some f => let r := f (default zero_choice (choice (Some o))) in (r.1, set_choice r.2 o)
  | None => (dflt, o)
  end.
