(* ===== verification/CertificateV3.v ===== *)
(** Certificates of the security layer, version 3.

    Models security/v3/certificate.cpp with the conversions of
    security/v3/asn1_conversions.cpp it uses.  A certificate is the decoded
    structure of the hybrid profile; a [CertificateView] is a pointer to one.
    SHA-2, the distance on the globe and location checkers are parameters. *)

From stdpp Require Import prelude strings.
From S2P Require Import Prelude Codecs Descriptor OerSem OerCodec Pqc Asn1Wrapper SecurityTypes.

(** [CertificateView::m_cert] *)
Abbreviation view := (option obj).

(** security/sha.hpp *)
Class Sha := {
  calculate_sha256_digest : bytes -> bytes;
  calculate_sha384_digest : bytes -> bytes;
}.

(** * Curve points *)

Definition fetch_octets (o : option obj) : bytes := octets o.

Definition compressed_key (type : KeyType) (compression : KeyCompression) (x : option obj) : PublicKey :=
  {| pk_x := fetch_octets x; pk_y := []; pk_type := type; pk_compression := compression |}.

(** [copy_curve_point]: the key of the given type, [None] when nothing was copied. *)
Definition copy_curve_point_P256 (type : KeyType) (from : option obj) : option PublicKey :=
  let p := present from in
  if p =? EccP256CurvePoint_PR_compressed_y_0 then Some (compressed_key type Y0 (choice from))
  else if p =? EccP256CurvePoint_PR_compressed_y_1 then Some (compressed_key type Y1 (choice from))
  else if p =? EccP256CurvePoint_PR_uncompressedP256 then
    Some {| pk_x := fetch_octets (memb 0 (choice from)); pk_y := fetch_octets (memb 1 (choice from));
            pk_type := type; pk_compression := NoCompression |}
  else None.

Definition copy_curve_point_P384 (type : KeyType) (from : option obj) : option PublicKey :=
  let p := present from in
  if p =? EccP384CurvePoint_PR_compressed_y_0 then Some (compressed_key type Y0 (choice from))
  else if p =? EccP384CurvePoint_PR_compressed_y_1 then Some (compressed_key type Y1 (choice from))
  else if p =? EccP384CurvePoint_PR_uncompressedP384 then
    Some {| pk_x := fetch_octets (memb 0 (choice from)); pk_y := fetch_octets (memb 1 (choice from));
            pk_type := type; pk_compression := NoCompression |}
  else None.

Definition get_x_coordinate_P256 (point : option obj) : bytes :=
  let p := present point in
  if p =? EccP256CurvePoint_PR_compressed_y_0 then fetch_octets (choice point)
  else if p =? EccP256CurvePoint_PR_compressed_y_1 then fetch_octets (choice point)
  else if p =? EccP256CurvePoint_PR_x_only then fetch_octets (choice point)
  else if p =? EccP256CurvePoint_PR_uncompressedP256 then fetch_octets (memb 0 (choice point))
  else [].

Definition get_x_coordinate_P384 (point : option obj) : bytes :=
  let p := present point in
  if p =? EccP384CurvePoint_PR_compressed_y_0 then fetch_octets (choice point)
  else if p =? EccP384CurvePoint_PR_compressed_y_1 then fetch_octets (choice point)
  else if p =? EccP384CurvePoint_PR_x_only then fetch_octets (choice point)
  else if p =? EccP384CurvePoint_PR_uncompressedP384 then fetch_octets (memb 0 (choice point))
  else [].

Definition is_compressed_P256 (point : option obj) : bool :=
  (present point =? EccP256CurvePoint_PR_compressed_y_0) || (present point =? EccP256CurvePoint_PR_compressed_y_1).

Definition is_compressed_P384 (point : option obj) : bool :=
  (present point =? EccP384CurvePoint_PR_compressed_y_0) || (present point =? EccP384CurvePoint_PR_compressed_y_1).

(** [unc.y.size > 0 && unc.y.buf[unc.y.size - 1] & 0x01] *)
Definition y_odd (y : bytes) : bool := (0 <? size y) && ctrue (Z.land (znth y (size y - 1)) 1).

(** The first member of the uncompressed point shares its storage with the octet
    string of the other alternatives: changing [present] turns it into them. *)
Definition reinterpret (p : Z) (point : obj) : obj :=
  match point with
  | O_CHOICE c _ m => O_CHOICE c p (Some (default (O_BUF None) (memb 0 m)))
  | _ => point
  end.

Definition compress_P256 : update := fun point =>
  let p := present (Some point) in
  if p =? EccP256CurvePoint_PR_uncompressedP256 then
    let odd := y_odd (octets (memb 1 (choice (Some point)))) in
    (true, reinterpret (if odd then EccP256CurvePoint_PR_compressed_y_1
                        else EccP256CurvePoint_PR_compressed_y_0) point)
  else if (p =? EccP256CurvePoint_PR_compressed_y_0) || (p =? EccP256CurvePoint_PR_compressed_y_1) then (true, point)
  else (false, point).

Definition compress_P384 : update := fun point =>
  let p := present (Some point) in
  if p =? EccP384CurvePoint_PR_uncompressedP384 then
    let odd := y_odd (octets (memb 1 (choice (Some point)))) in
    (true, reinterpret (if odd then EccP384CurvePoint_PR_compressed_y_1
                        else EccP384CurvePoint_PR_compressed_y_0) point)
  else if (p =? EccP384CurvePoint_PR_compressed_y_0) || (p =? EccP384CurvePoint_PR_compressed_y_1) then (true, point)
  else (false, point).

Definition make_x_only_P256 : update := fun point =>
  let p := present (Some point) in
  if p =? EccP256CurvePoint_PR_uncompressedP256 then (true, reinterpret EccP256CurvePoint_PR_x_only point)
  else if p =? EccP256CurvePoint_PR_x_only then (true, point)
  else (false, point).

Definition make_x_only_P384 : update := fun point =>
  let p := present (Some point) in
  if p =? EccP384CurvePoint_PR_uncompressedP384 then (true, reinterpret EccP384CurvePoint_PR_x_only point)
  else if p =? EccP384CurvePoint_PR_x_only then (true, point)
  else (false, point).

(** * Signatures *)

Definition rSig (s : option obj) : option obj := memb 0 s.
Definition sSig (s : option obj) : option obj := memb 1 s.

Definition is_signature_x_only (sig : option obj) : bool :=
  let p := present sig in
  if p =? Signature_PR_ecdsaNistP256Signature then present (rSig (choice sig)) =? EccP256CurvePoint_PR_x_only
  else if p =? Signature_PR_ecdsaBrainpoolP256r1Signature then present (rSig (choice sig)) =? EccP256CurvePoint_PR_x_only
  else if p =? Signature_PR_ecdsaBrainpoolP384r1Signature then present (rSig (choice sig)) =? EccP384CurvePoint_PR_x_only
  else true.

Definition make_signature_x_only : update :=
  on_choice false (fun p =>
    if p =? Signature_PR_ecdsaNistP256Signature then Some (update_memb 0 zero_choice make_x_only_P256)
    else if p =? Signature_PR_ecdsaBrainpoolP256r1Signature then Some (update_memb 0 zero_choice make_x_only_P256)
    else if p =? Signature_PR_ecdsaBrainpoolP384r1Signature then Some (update_memb 0 zero_choice make_x_only_P384)
    else None).

Definition get_signature (cert : obj) : option EccSignature :=
  match signature (Some cert) with
  | None => None
  | Some asn =>
    let p := present (Some asn) in
    let sig := choice (Some asn) in
    if p =? Signature_PR_ecdsaNistP256Signature then
      Some {| sig_r := get_x_coordinate_P256 (rSig sig); sig_s := fetch_octets (sSig sig); sig_type := NistP256 |}
    else if p =? Signature_PR_ecdsaBrainpoolP256r1Signature then
      Some {| sig_r := get_x_coordinate_P256 (rSig sig); sig_s := fetch_octets (sSig sig); sig_type := BrainpoolP256r1 |}
    else if p =? Signature_PR_ecdsaBrainpoolP384r1Signature then
      Some {| sig_r := get_x_coordinate_P384 (rSig sig); sig_s := fetch_octets (sSig sig); sig_type := BrainpoolP384r1 |}
    else None
  end.

(** * Keys *)

Definition get_verification_key_type (cert : obj) : KeyType :=
  let indicator := verifyKeyIndicator (toBeSigned (Some cert)) in
  if present indicator =? VerificationKeyIndicator_PR_verificationKey then
    let p := present (choice indicator) in
    if p =? PublicVerificationKey_PR_ecdsaNistP256 then NistP256
    else if p =? PublicVerificationKey_PR_ecdsaBrainpoolP256r1 then BrainpoolP256r1
    else if p =? PublicVerificationKey_PR_ecdsaBrainpoolP384r1 then BrainpoolP384r1
    else Unspecified
  else Unspecified.

Definition get_public_key (cert : obj) : option PublicKey :=
  let indicator := verifyKeyIndicator (toBeSigned (Some cert)) in
  if negb (present indicator =? VerificationKeyIndicator_PR_verificationKey) then None
  else
    let input := choice indicator in
    let p := present input in
    if p =? PublicVerificationKey_PR_ecdsaNistP256 then copy_curve_point_P256 NistP256 (choice input)
    else if p =? PublicVerificationKey_PR_ecdsaBrainpoolP256r1 then copy_curve_point_P256 BrainpoolP256r1 (choice input)
    else if p =? PublicVerificationKey_PR_ecdsaBrainpoolP384r1 then copy_curve_point_P384 BrainpoolP384r1 (choice input)
    else None.

Definition get_public_encryption_key (cert : obj) : option PublicKey :=
  match encryptionKey (toBeSigned (Some cert)) with
  | None => None
  | Some enc_key =>
    if negb (number (memb 0 (Some enc_key)) =? SymmAlgorithm_aes128Ccm) then None
    else
      let public_key := memb 1 (Some enc_key) in
      let p := present public_key in
      if p =? BasePublicEncryptionKey_PR_eciesNistP256 then copy_curve_point_P256 NistP256 (choice public_key)
      else if p =? BasePublicEncryptionKey_PR_eciesBrainpoolP256r1 then copy_curve_point_P256 BrainpoolP256r1 (choice public_key)
      else None
  end.

(** * Canonical form *)

(** The point of the verification key that has to be compressed. *)
Definition compressed_indicator (indicator : option obj) : bool :=
  if present indicator =? VerificationKeyIndicator_PR_verificationKey then
    let pubkey := choice indicator in
    let p := present pubkey in
    if p =? PublicVerificationKey_PR_ecdsaNistP256 then is_compressed_P256 (choice pubkey)
    else if p =? PublicVerificationKey_PR_ecdsaBrainpoolP256r1 then is_compressed_P256 (choice pubkey)
    else if p =? PublicVerificationKey_PR_ecdsaBrainpoolP384r1 then is_compressed_P384 (choice pubkey)
    else true
  else if present indicator =? VerificationKeyIndicator_PR_reconstructionValue then is_compressed_P256 (choice indicator)
  else true.

Definition is_canonical (cert : obj) : bool :=
  if negb (compressed_indicator (verifyKeyIndicator (toBeSigned (Some cert)))) then false
  else match signature (Some cert) with
       | Some sig => is_signature_x_only (Some sig)
       | None => true
       end.

(** The three parts of the static [canonicalize(Certificate&&)]. *)
Definition canonicalize_indicator : update :=
  on_choice true (fun p =>
    if p =? VerificationKeyIndicator_PR_verificationKey then
      Some (on_choice true (fun p =>
        if p =? PublicVerificationKey_PR_ecdsaNistP256 then Some compress_P256
        else if p =? PublicVerificationKey_PR_ecdsaBrainpoolP256r1 then Some compress_P256
        else if p =? PublicVerificationKey_PR_ecdsaBrainpoolP384r1 then Some compress_P384
        else None))
    else if p =? VerificationKeyIndicator_PR_reconstructionValue then Some compress_P256
    else None).

Definition canonicalize_encryption_key : update :=
  update_memb 1 zero_choice (on_choice true (fun p =>
    if p =? BasePublicEncryptionKey_PR_eciesNistP256 then Some compress_P256
    else if p =? BasePublicEncryptionKey_PR_eciesBrainpoolP256r1 then Some compress_P256
    else None)).

(** An update of a member that may be a NULL pointer. *)
Definition update_optional (i : nat) (f : update) : update := fun o =>
  match memb i (Some o) with
  | Some m => let r := f m in (r.1, set_memb i (Some r.2) o)
  | None => (true, o)
  end.

(** Two updates in sequence, [success &= ...]. *)
Definition and_then (f g : update) : update := fun o =>
  let r := f o in let r' := g r.2 in (r.1 && r'.1, r'.2).

Definition canonicalize_tbs : update :=
  and_then (update_memb 11 zero_choice canonicalize_indicator) (update_optional 10 canonicalize_encryption_key).

Definition canonicalize_in_place : update :=
  and_then (update_memb 3 (allocate asn_DEF_ToBeSignedCertificate) canonicalize_tbs)
           (update_optional 4 make_signature_x_only).

(** * Encoding, canonicalizing and digesting *)

Section Certificates.
Context {pf : Platform} {sha : Sha}.

(** [CertificateView::encode] *)
Definition encode (v : view) : cpp bytes :=
  match v with
  | Some cert => encode_oer asn_DEF_EtsiTs103097Certificate (Some cert)
  | None => Returns []
  end.

(** [Certificate(const asn1::EtsiTs103097Certificate&)] and the copy constructor. *)
Definition copy_construct (cert : obj) : cpp obj := copy asn_DEF_EtsiTs103097Certificate (Some cert).

(** [canonicalize(Certificate&&)]: the named rvalue reference it returns is copied. *)
Definition canonicalize_moved (canonical : obj) : cpp (option obj) :=
  let (success, canonical) := canonicalize_in_place canonical in
  if success then
    if is_canonical canonical then c ← copy_construct canonical; Returns (Some c)
    else NoResult (* the assertion fails *)
  else Returns None.

(** [canonicalize(const asn1::EtsiTs103097Certificate&)] *)
Definition canonicalize (cert : obj) : cpp (option obj) :=
  try_catch (c ← copy_construct cert; canonicalize_moved c) (Returns None).

Definition calculate_digest_internal (cert : obj) (key_type : KeyType) : cpp (option HashedId8) :=
  try_catch
    (buffer ← encode_oer asn_DEF_EtsiTs103097Certificate (Some cert);
     Returns match key_type with
             | NistP256 | BrainpoolP256r1 => Some (create_hashed_id8 (calculate_sha256_digest buffer))
             | BrainpoolP384r1 => Some (create_hashed_id8 (calculate_sha384_digest buffer))
             | Unspecified => None
             end)
    (Returns None).

Definition calculate_digest (cert : obj) : cpp (option HashedId8) :=
  let key_type := get_verification_key_type cert in
  if decide (key_type = Unspecified) then Returns None
  else if is_canonical cert then calculate_digest_internal cert key_type
  else
    maybe_canonical_cert ← canonicalize cert;
    match maybe_canonical_cert with
    | Some c => calculate_digest_internal c key_type
    | None => Returns None
    end.

(** The member functions of a view. *)
Definition view_calculate_digest (v : view) : cpp (option HashedId8) :=
  match v with Some cert => calculate_digest cert | None => Returns None end.

Definition view_canonicalize (v : view) : cpp (option obj) :=
  match v with Some cert => canonicalize cert | None => Returns None end.

(** * Issuer *)

Definition issuer_digest (v : view) : cpp (option HashedId8) :=
  match v with
  | Some cert =>
    let p := present (issuer (Some cert)) in
    if (p =? IssuerIdentifier_PR_sha256AndDigest) || (p =? IssuerIdentifier_PR_sha384AndDigest) then
      d ← hashed_id8_of_octets (octets (choice (issuer (Some cert)))); Returns (Some d)
    else Returns None
  | None => Returns None
  end.

(** Does not look whether there is a certificate. *)
Definition issuer_is_self (v : view) : cpp bool :=
  match v with
  | Some cert => Returns (present (issuer (Some cert)) =? IssuerIdentifier_PR_self)
  | None => NoResult
  end.

(** * Kinds of certificates *)

Definition is_null (o : option obj) : bool := match o with Some _ => false | None => true end.

Definition is_ca_certificate (v : view) : bool :=
  match v with Some cert => negb (is_null (certIssuePermissions (toBeSigned (Some cert)))) | None => false end.

Definition is_at_certificate (v : view) : bool :=
  match v with
  | Some cert => is_null (certIssuePermissions (toBeSigned (Some cert))) &&
                 negb (is_null (appPermissions (toBeSigned (Some cert))))
  | None => false
  end.

Definition has_region_restriction (v : view) : bool :=
  match v with Some cert => negb (is_null (region (toBeSigned (Some cert)))) | None => false end.

(** * Permissions *)

(** The field [psid] is an unsigned long. *)
Definition psid (o : obj) : Z := u64 (number (memb 0 (Some o))).

(** The loop over [list.array] without a check for NULL entries. *)
Fixpoint any_psid (l : list (option obj)) (aid : Z) : cpp bool :=
  match l with
  | [] => Returns false
  | None :: _ => NoResult
  | Some p :: l => if psid p =? aid then Returns true else any_psid l aid
  end.

Definition valid_for_application (v : view) (aid : Z) : cpp bool :=
  match v with
  | Some cert => any_psid (array (appPermissions (toBeSigned (Some cert)))) aid
  | None => Returns false
  end.

Definition contains_permission (permissions : option obj) (aid : Z) : bool :=
  existsb (fun p => match p with Some p => psid p =? aid | None => false end) (array permissions).

Definition is_allowed_to_issue (v : view) (aid : Z) : bool :=
  match v with
  | Some cert =>
    existsb (fun group =>
      match group with
      | None => false
      | Some g =>
        let subject_permissions := memb 0 (Some g) in
        (present subject_permissions =? SubjectPermissions_PR_all) ||
        (present subject_permissions =? SubjectPermissions_PR_explicit) &&
        contains_permission (choice subject_permissions) aid
      end) (array (certIssuePermissions (toBeSigned (Some cert))))
  | None => false
  end.

(** ITS-AIDs have 32 bits. *)
Fixpoint aids_of (l : list (option obj)) : cpp (list Z) :=
  match l with
  | [] => Returns []
  | None :: _ => NoResult
  | Some p :: l => aids ← aids_of l; Returns (u32 (psid p) :: aids)
  end.

Definition get_aids (cert : obj) : cpp (list Z) := aids_of (array (appPermissions (toBeSigned (Some cert)))).

Fixpoint app_permissions_of (l : list (option obj)) (aid : Z) : cpp bytes :=
  match l with
  | [] => Returns []
  | None :: _ => NoResult
  | Some p :: l =>
    match memb 1 (Some p) with
    | Some ssp =>
      if (psid p =? aid) && ((present (Some ssp) =? ServiceSpecificPermissions_PR_bitmapSsp) ||
                             (present (Some ssp) =? ServiceSpecificPermissions_PR_opaque))
      then Returns (octets (choice (Some ssp)))
      else app_permissions_of l aid
    | None => app_permissions_of l aid
    end
  end.

Definition get_app_permissions (cert : obj) (aid : Z) : cpp bytes :=
  app_permissions_of (array (appPermissions (toBeSigned (Some cert)))) aid.

Definition assurance_level (v : view) : option Z :=
  match v with
  | Some cert =>
    match assuranceLevel (toBeSigned (Some cert)) with
    | Some level => if size (octets (Some level)) <? 1 then None else Some (znth (octets (Some level)) 0)
    | None => None
    end
  | None => None
  end.

(** * Validity in time *)

(** Microseconds in the unit of a duration, 0 for an unknown unit. *)
Definition duration_unit (p : Z) : Z :=
  if p =? Duration_PR_microseconds then 1
  else if p =? Duration_PR_milliseconds then 1000
  else if p =? Duration_PR_seconds then 1000000
  else if p =? Duration_PR_minutes then 60 * 1000000
  else if p =? Duration_PR_hours then 3600 * 1000000
  else if p =? Duration_PR_sixtyHours then 60 * 3600 * 1000000
  else if p =? Duration_PR_years then 31556952 * 1000000
  else 0.

(** First and one past the last microsecond of the validity period, in the 64-bit
    [Clock::rep]: a signed number of microseconds. *)
Definition validity_start (cert : obj) : Z :=
  number (memb 0 (validityPeriod (toBeSigned (Some cert)))) * 1000000.
Definition validity_end (cert : obj) : Z :=
  let duration := memb 1 (validityPeriod (toBeSigned (Some cert))) in
  validity_start cert + number (choice duration) * duration_unit (present duration).

Definition valid_at_timepoint (v : view) (timepoint : Z) : bool :=
  match v with
  | Some cert => (validity_start cert <=? timepoint) && (timepoint <? validity_end cert)
  | None => false
  end.

(** [(int) x]: the low 32 bits, as a signed number. *)
Definition to_int (x : Z) : Z := (x + 2 ^ 31) mod 2 ^ 32 - 2 ^ 31.

(** A multiplication in [int]; overflow is undefined. *)
Definition int_mul (x y : Z) : cpp Z :=
  if (- 2 ^ 31 <=? x * y) && (x * y <? 2 ^ 31) then Returns (x * y) else NoResult.

(** [x * y1 * y2 * ...], from the left. *)
Fixpoint int_product (x : Z) (ys : list Z) : cpp Z :=
  match ys with
  | [] => Returns x
  | y :: ys => p ← int_mul x y; int_product p ys
  end.

Definition duration_seconds (p x : Z) : cpp Z :=
  if p =? Duration_PR_microseconds then Returns (Z.quot (to_int x) 1000000)
  else if p =? Duration_PR_milliseconds then Returns (Z.quot (to_int x) 1000)
  else if p =? Duration_PR_seconds then Returns (to_int x)
  else if p =? Duration_PR_minutes then int_product (to_int x) [60]
  else if p =? Duration_PR_hours then int_product (to_int x) [60; 60]
  else if p =? Duration_PR_sixtyHours then int_product (to_int x) [60; 60; 60]
  else if p =? Duration_PR_years then int_product (to_int x) [60; 60; 24; 365]
  else Returns 0.

(** Both ends as [Time32], 32-bit seconds that wrap around. *)
Definition get_start_and_end_validity (v : view) : cpp (Z * Z) :=
  match v with
  | Some cert =>
    let validity := validityPeriod (toBeSigned (Some cert)) in
    let start_validity := u32 (number (memb 0 validity)) in
    d ← duration_seconds (present (memb 1 validity)) (number (choice (memb 1 validity)));
    let duration := u32 d in
    Returns (start_validity, u32 (start_validity + duration))
  | None => NoResult
  end.

End Certificates.

(** * Regions *)

(** Distance on the globe in floating point: whether the circle at the first position
    with the first radius lies within the second one. *)
Class Geodesy := { circle_within : Z * Z -> Z -> Z * Z -> Z -> bool }.

Section Regions.
Context {geo : Geodesy}.

Definition latitude (l : option obj) : Z := number (memb 0 l).
Definition longitude (l : option obj) : Z := number (memb 1 l).

Definition equal_location (lhs rhs : option obj) : bool :=
  (latitude lhs =? latitude rhs) && (longitude lhs =? longitude rhs).

Definition equal_rectangle (lhs rhs : option obj) : bool :=
  equal_location (memb 0 lhs) (memb 0 rhs) && equal_location (memb 1 lhs) (memb 1 rhs).

Fixpoint equal_rectangles (lhs rhs : list (option obj)) : bool :=
  match lhs, rhs with
  | [], [] => true
  | Some l :: lhs, Some r :: rhs => equal_rectangle (Some l) (Some r) && equal_rectangles lhs rhs
  | _, _ => false
  end.

Definition NinetyDegreeInt_min : Z := -900000000.
Definition NinetyDegreeInt_max : Z := 900000000.
Definition OneEightyDegreeInt_min : Z := -1799999999.
Definition OneEightyDegreeInt_max : Z := 1800000000.

(** geometry.cpp *)
Definition is_valid (location : option obj) : bool :=
  (NinetyDegreeInt_min <=? latitude location) && (latitude location <=? NinetyDegreeInt_max) &&
  (OneEightyDegreeInt_min <=? longitude location) && (longitude location <=? OneEightyDegreeInt_max).

Definition is_within_circle (inner outer : option obj) : bool :=
  if negb (present inner =? GeographicRegion_PR_circularRegion) then false
  else
    let circle := choice inner in
    let center := memb 0 circle in let radius := number (memb 1 circle) in
    let outer_center := memb 0 outer in let outer_radius := number (memb 1 outer) in
    if negb (is_valid center) || negb (is_valid outer_center) || (radius <? 0) || (outer_radius <? 0) then false
    else circle_within (latitude center, longitude center) radius
           (latitude outer_center, longitude outer_center) outer_radius.

Definition is_within_rectangles (inner outer : option obj) : bool :=
  (present inner =? GeographicRegion_PR_rectangularRegion) &&
  equal_rectangles (array (choice inner)) (array outer).

Definition is_within (inner outer : option obj) : bool :=
  let p := present outer in
  if p =? GeographicRegion_PR_circularRegion then is_within_circle inner (choice outer)
  else if p =? GeographicRegion_PR_rectangularRegion then is_within_rectangles inner (choice outer)
  else if p =? GeographicRegion_PR_polygonalRegion then false
  else if p =? GeographicRegion_PR_NOTHING then true
  else false.

Definition region_is_within (subject issuer : view) : bool :=
  match subject, issuer with
  | Some s, Some i =>
    match region (toBeSigned (Some i)), region (toBeSigned (Some s)) with
    | None, _ => true
    | Some _, None => false
    | Some issuer_region, Some subject_region => is_within (Some subject_region) (Some issuer_region)
    end
  | _, _ => false
  end.

End Regions.

(** * Building certificates *)

(** The to-be-signed part, and a write to one of its members. *)
Definition tbs_of (cert : obj) : obj :=
  default (allocate asn_DEF_ToBeSignedCertificate) (toBeSigned (Some cert)).
Definition set_tbs_memb (i : nat) (v : option obj) (cert : obj) : obj :=
  set_memb 3 (Some (set_memb i v (tbs_of cert))) cert.

(** Appends to the list at position [i] of the to-be-signed part, which is allocated
    when it is missing. *)
Definition add_to_list (i : nat) (v : obj) (cert : obj) : obj :=
  set_tbs_memb i (Some (array_add v (default (O_SET_OF ctx_zero None []) (memb i (toBeSigned (Some cert)))))) cert.

Definition add_app_permission (aid : Z) (ssp : bytes) (cert : obj) : obj :=
  let ssp := match ssp with
             | [] => None
             | _ => Some (O_CHOICE ctx_zero ServiceSpecificPermissions_PR_bitmapSsp (Some (OCTET_STRING_fromBuf ssp)))
             end in
  add_to_list 6 (O_SEQ ctx_zero None [Some (O_long aid); ssp]) cert.

Definition add_cert_issue_permission (group_permission : obj) (cert : obj) : obj :=
  add_to_list 7 group_permission cert.

(** The explicit permissions of a group: the range of service specific permissions
    is always a bitmap. *)
Definition add_psid_group_permission (aid : Z) (ssp bitmask : bytes) (group_permission : obj) : obj :=
  let range := O_CHOICE ctx_zero 3 (Some (O_SEQ ctx_zero None
                 [Some (OCTET_STRING_fromBuf ssp); Some (OCTET_STRING_fromBuf bitmask)])) in
  let psid_range_scr := O_SEQ ctx_zero None [Some (O_long aid); Some range] in
  let subjectPermissions := default zero_choice (memb 0 (Some group_permission)) in
  let explicit := default (O_SET_OF ctx_zero None []) (choice (Some subjectPermissions)) in
  set_memb 0 (Some (set_choice (array_add psid_range_scr explicit) subjectPermissions)) group_permission.

(** ecc_point.hpp *)
Inductive EccPoint :=
  | X_Coordinate_Only (x : bytes)
  | Compressed_Lsb_Y_0 (x : bytes)
  | Compressed_Lsb_Y_1 (x : bytes)
  | Uncompressed (x y : bytes).

(** [to_asn1]; [assign] is [OCTET_STRING_fromBuf]. *)
Definition to_asn1 (point : EccPoint) : obj :=
  match point with
  | X_Coordinate_Only x => O_CHOICE ctx_zero EccP256CurvePoint_PR_x_only (Some (OCTET_STRING_fromBuf x))
  | Compressed_Lsb_Y_0 x => O_CHOICE ctx_zero EccP256CurvePoint_PR_compressed_y_0 (Some (OCTET_STRING_fromBuf x))
  | Compressed_Lsb_Y_1 x => O_CHOICE ctx_zero EccP256CurvePoint_PR_compressed_y_1 (Some (OCTET_STRING_fromBuf x))
  | Uncompressed x y => O_CHOICE ctx_zero EccP256CurvePoint_PR_uncompressedP256
                          (Some (O_SEQ ctx_zero None [Some (OCTET_STRING_fromBuf x); Some (OCTET_STRING_fromBuf y)]))
  end.

(** [Certificate::set_signature] of an [EcdsaSignature], future or not. *)
Definition set_signature (R : EccPoint) (s : bytes) (cert : obj) : obj :=
  set_memb 4 (Some (O_CHOICE ctx_zero Signature_PR_ecdsaNistP256Signature
    (Some (O_SEQ ctx_zero None [Some (to_asn1 R); Some (OCTET_STRING_fromBuf s)])))) cert.

Definition aid_CA : Z := 36.

Definition fake_certificate : obj :=
  let tbs := O_SEQ ctx_zero None
    ([Some (O_CHOICE ctx_zero CertificateId_PR_none (Some O_NULL)); Some (O_BUF (Some [0; 0; 0])); Some (O_long 0);
      Some (O_SEQ ctx_zero None [Some (O_long 0); Some (O_CHOICE ctx_zero Duration_PR_minutes (Some (O_long 10080)))])]
     ++ replicate 7 None ++
     [Some (O_CHOICE ctx_zero VerificationKeyIndicator_PR_verificationKey
        (Some (O_CHOICE ctx_zero PublicVerificationKey_PR_ecdsaNistP256
           (Some (O_CHOICE ctx_zero EccP256CurvePoint_PR_compressed_y_0 (Some (O_BUF (Some (replicate 32 0)))))))))]
     ++ replicate 6 None) in
  add_app_permission aid_CA [1; 0; 0]
    (O_SEQ ctx_zero None [Some (O_long 3); Some (O_long 0);
                          Some (O_CHOICE ctx_zero IssuerIdentifier_PR_self (Some (O_long 0))); Some tbs; None]).
