(* ===== verification/CertificateV3Ok.v ===== *)
(** Canonical certificates and digests.

    The routines of certificate.cpp respect the value of a certificate: they do not
    depend on which structure represents it.  Canonicalizing yields a canonical
    certificate, once and for all: doing it twice is the same as once, and it changes
    neither the signature nor the point the verification key stands for. *)

From stdpp Require Import prelude strings.
From S2P Require Import Prelude Codecs Integer Descriptor OerSupport OerPrim OerSpec OerSem OerCodec.
From S2P Require Import Pqc OerTheorems Certificates Asn1Wrapper SameValue SecurityTypes CertificateV3.

(** * Updates that respect values *)

Definition respects (td : asn_TYPE_descriptor) (c : oer_cts) (f : update) : Prop :=
  forall o o', same td c o o' -> (f o).1 = (f o').1 /\ same td c (f o).2 (f o').2.

Lemma respects_and_then td c f g : respects td c f -> respects td c g -> respects td c (and_then f g).
Proof.
  intros Hf Hg o o' H. destruct (Hf o o' H) as [E1 H1], (Hg _ _ H1) as [E2 H2].
  unfold and_then. cbn [fst snd]. by rewrite E1, E2.
Qed.

Lemma respects_memb td c i e zero f : seq_member td i e -> member_wraps td i e = true ->
  e.(optional) = false -> respects e.(type) e.(oer_constraints) f -> respects td c (update_memb i zero f).
Proof.
  intros He Hw Ho Hf o o' H. pose proof (same_memb _ _ _ _ _ _ He H) as Hm. unfold update_memb.
  destruct (memb i (Some o)) as [m|], (memb i (Some o')) as [m'|]; try done; [|by destruct Hm; congruence].
  cbn [default from_option id fst snd]. destruct (Hf m m' Hm) as [E Hs]. split; [done|]. by eapply same_set_memb.
Qed.

Lemma respects_optional td c i e f : seq_member td i e -> member_wraps td i e = true ->
  respects e.(type) e.(oer_constraints) f -> respects td c (update_optional i f).
Proof.
  intros He Hw Hf o o' H. pose proof (same_memb _ _ _ _ _ _ He H) as Hm. unfold update_optional.
  destruct (memb i (Some o)) as [m|], (memb i (Some o')) as [m'|]; try done.
  cbn [fst snd]. destruct (Hf m m' Hm) as [E Hs]. split; [done|]. by eapply same_set_memb.
Qed.

Lemma respects_choice td specs c dflt fs : kind td = CHOICE specs ->
  (forall i e f, elements td !! i = Some e -> fs (Z.of_nat i + 1) = Some f ->
     choice_wraps td i e = true /\ respects e.(type) e.(oer_constraints) f) ->
  respects td c (on_choice dflt fs).
Proof.
  intros Hk Hfs o o' H. destruct (same_choice _ _ _ _ _ Hk H) as (i & e & ct & ct' & m & m' & He & Hm & -> & ->).
  unfold on_choice. cbn [present choice default from_option id].
  destruct (fs (Z.of_nat i + 1)) as [f|] eqn:Ef; [|done]. destruct (Hfs i e f He Ef) as [Hw Hf].
  destruct (Hf m m' Hm) as [E Hs]. cbn [fst snd set_choice]. split; [done|]. by eapply same_choice_intro.
Qed.

(** Membership in a table is decided by computation. *)
Ltac table := repeat first [reflexivity | eexists | split].

(** Case analysis on the alternatives of a CHOICE that occur in its table. *)
Ltac alternatives i He :=
  repeat (destruct i as [|i]; [injection He as <-|]); try (exfalso; vm_compute in He; congruence).

(** ** Points *)

Abbreviation same_P256 := (same asn_DEF_EccP256CurvePoint None).
Abbreviation same_P384 := (same asn_DEF_EccP384CurvePoint None).

(** The coordinates of uncompressed points with the same value. *)
Lemma same_uncompressed td e0 e1 c m m' : seq_member td 0 e0 -> seq_member td 1 e1 ->
  kind e0.(type) = OCTET_STRING (Some ASN_OSUBV_STR) -> kind e1.(type) = OCTET_STRING (Some ASN_OSUBV_STR) ->
  e0.(optional) = false -> same td c m m' ->
  octets (memb 1 (Some m)) = octets (memb 1 (Some m')) /\
  exists x x', memb 0 (Some m) = Some x /\ memb 0 (Some m') = Some x' /\ same e0.(type) e0.(oer_constraints) x x'.
Proof.
  intros H0 H1 K0 K1 Ho H. pose proof (same_memb _ _ _ _ _ _ H0 H) as M0. pose proof (same_memb _ _ _ _ _ _ H1 H) as M1. split.
  - destruct (memb 1 (Some m)), (memb 1 (Some m')); try done. by eapply same_octets.
  - destruct (memb 0 (Some m)) as [x|], (memb 0 (Some m')) as [x'|]; try done; [by exists x, x'|]. destruct M0; congruence.
Qed.

(** Both kinds of curve points: the coordinate alone or with one bit of the other, and
    the uncompressed point, whose first member has the type of the coordinate. *)
Record point_type (td : asn_TYPE_descriptor) (k : oer_cts) : Prop := {
  pt_kind : exists specs, kind td = CHOICE specs;
  pt_coordinate i : In i [0; 2; 3]%nat -> exists e, elements td !! i = Some e /\ choice_wraps td i e = true /\
    e.(type) = asn_DEF_OCTET_STRING /\ e.(oer_constraints) = k;
  pt_uncompressed : exists e e0 e1, elements td !! 4%nat = Some e /\
    seq_member e.(type) 0 e0 /\ seq_member e.(type) 1 e1 /\ e0.(optional) = false /\
    e0.(type) = asn_DEF_OCTET_STRING /\ e0.(oer_constraints) = k /\ e1.(type) = asn_DEF_OCTET_STRING;
  pt_count : length (elements td) = 5%nat;
}.

Lemma point_type_P256 : point_type asn_DEF_EccP256CurvePoint (Some asn_OER_memb_x_constr_7).
Proof.
  split; [by eexists| |do 3 eexists; table|done].
  intros i [<-|[<-|[<-|[]]]]; eexists; (split; [reflexivity|]); repeat split.
Qed.

Lemma point_type_P384 : point_type asn_DEF_EccP384CurvePoint (Some asn_OER_memb_x_constr_7_EccP384CurvePoint).
Proof.
  split; [by eexists| |do 3 eexists; table|done].
  intros i [<-|[<-|[<-|[]]]]; eexists; (split; [reflexivity|]); repeat split.
Qed.

(** A point, by its alternative. *)
Lemma same_point td k c o o' : point_type td k -> same td c o o' -> exists i ct ct' m m', (i < 5)%nat /\
  o = O_CHOICE ct (Z.of_nat i + 1) (Some m) /\ o' = O_CHOICE ct' (Z.of_nat i + 1) (Some m') /\
  (In i [0; 2; 3]%nat -> same asn_DEF_OCTET_STRING k m m') /\
  (i = 4%nat -> octets (memb 1 (Some m)) = octets (memb 1 (Some m')) /\
     exists x x', memb 0 (Some m) = Some x /\ memb 0 (Some m') = Some x' /\ same asn_DEF_OCTET_STRING k x x').
Proof.
  intros Ht H. destruct (pt_kind _ _ Ht) as [specs Hk].
  destruct (same_choice _ _ _ _ _ Hk H) as (i & e & ct & ct' & m & m' & He & Hm & -> & ->).
  exists i, ct, ct', m, m'. split; [rewrite <- (pt_count _ _ Ht); by eapply lookup_lt_Some|]. do 2 (split; [done|]). split.
  - intros Hi. destruct (pt_coordinate _ _ Ht i Hi) as (e' & He' & _ & <- & <-). congruence.
  - intros ->. destruct (pt_uncompressed _ _ Ht) as (e' & e0 & e1 & He' & H0 & H1 & Ho & T0 & <- & T1).
    rewrite He in He'. injection He' as <-.
    destruct (same_uncompressed _ _ _ _ _ _ H0 H1 ltac:(by rewrite T0) ltac:(by rewrite T1) Ho Hm) as [Hy Hx].
    by rewrite T0 in Hx.
Qed.

(** Any of the alternatives that hold a coordinate alone. *)
Lemma same_coordinate td k c i ct ct' x x' : point_type td k -> In i [0; 2; 3]%nat ->
  same asn_DEF_OCTET_STRING k x x' ->
  same td c (O_CHOICE ct (Z.of_nat i + 1) (Some x)) (O_CHOICE ct' (Z.of_nat i + 1) (Some x')).
Proof.
  intros Ht Hi Hx. destruct (pt_kind _ _ Ht) as [specs Hk], (pt_coordinate _ _ Ht i Hi) as (e & He & Hw & Et & Ec).
  eapply same_choice_intro; [done|done|done|]. by rewrite Et, Ec.
Qed.

Lemma compress_respects td k c : point_type td k -> respects td c compress_P256.
Proof.
  intros Ht o o' H. destruct (same_point _ _ _ _ _ Ht H) as (i & ct & ct' & m & m' & Hi & -> & -> & _ & Hu).
  unfold compress_P256. cbn [present choice].
  destruct (Z.eqb_spec (Z.of_nat i + 1) EccP256CurvePoint_PR_uncompressedP256) as [E|_]; [|by destruct (_ || _)].
  destruct (Hu ltac:(lia)) as (Hy & x & x' & Hx & Hx' & Hs). rewrite Hy. cbn [fst snd reinterpret]. rewrite Hx, Hx'.
  cbn [default from_option id]. split; [done|].
  destruct (y_odd _); [apply (same_coordinate td k c 3)|apply (same_coordinate td k c 2)]; simpl; auto.
Qed.

Lemma make_x_only_respects td k c : point_type td k -> respects td c make_x_only_P256.
Proof.
  intros Ht o o' H. destruct (same_point _ _ _ _ _ Ht H) as (i & ct & ct' & m & m' & Hi & -> & -> & _ & Hu).
  unfold make_x_only_P256. cbn [present choice].
  destruct (Z.eqb_spec (Z.of_nat i + 1) EccP256CurvePoint_PR_uncompressedP256) as [E|_]; [|by destruct (_ =? _)].
  destruct (Hu ltac:(lia)) as (Hy & x & x' & Hx & Hx' & Hs). cbn [fst snd reinterpret]. rewrite Hx, Hx'.
  cbn [default from_option id]. split; [done|]. apply (same_coordinate td k c 0); simpl; auto.
Qed.

Lemma compress_P256_respects c : respects asn_DEF_EccP256CurvePoint c compress_P256.
Proof. exact (compress_respects _ _ c point_type_P256). Qed.

Lemma compress_P384_respects c : respects asn_DEF_EccP384CurvePoint c compress_P384.
Proof. exact (compress_respects _ _ c point_type_P384). Qed.

Lemma make_x_only_P256_respects c : respects asn_DEF_EccP256CurvePoint c make_x_only_P256.
Proof. exact (make_x_only_respects _ _ c point_type_P256). Qed.

Lemma make_x_only_P384_respects c : respects asn_DEF_EccP384CurvePoint c make_x_only_P384.
Proof. exact (make_x_only_respects _ _ c point_type_P384). Qed.

(** ** Keys, signatures, certificates *)

(** For the alternatives of a table: the update of each one and its bound. *)
Ltac by_alternative :=
  intros i e f He Hf; alternatives i He; cbn in Hf; try discriminate Hf; injection Hf as <-; (split; [by vm_compute|]).

Lemma canonicalize_indicator_respects c : respects asn_DEF_VerificationKeyIndicator c canonicalize_indicator.
Proof.
  eapply respects_choice; [reflexivity|]. by_alternative; [|apply compress_P256_respects].
  eapply respects_choice; [reflexivity|].
  by_alternative; [apply compress_P256_respects|apply compress_P256_respects|apply compress_P384_respects].
Qed.

Lemma canonicalize_encryption_key_respects c : respects asn_DEF_PublicEncryptionKey c canonicalize_encryption_key.
Proof.
  eapply respects_memb; [table|by vm_compute|done|]. eapply respects_choice; [reflexivity|].
  by_alternative; apply compress_P256_respects.
Qed.

Lemma make_signature_x_only_respects c : respects asn_DEF_Signature c make_signature_x_only.
Proof.
  eapply respects_choice; [reflexivity|].
  by_alternative; (eapply respects_memb; [table|by vm_compute|done|]);
    [apply make_x_only_P256_respects|apply make_x_only_P256_respects|apply make_x_only_P384_respects].
Qed.

Abbreviation same_tbs := (same asn_DEF_ToBeSignedCertificate None).
Abbreviation same_cert := (same asn_DEF_EtsiTs103097Certificate None).

(** A certificate structure that stands for an encodable value. *)
Abbreviation proper_cert cert := (same_cert cert cert).

Lemma canonicalize_tbs_respects c : respects asn_DEF_ToBeSignedCertificate c canonicalize_tbs.
Proof.
  apply respects_and_then.
  - eapply respects_memb; [table|by vm_compute|done|apply canonicalize_indicator_respects].
  - eapply respects_optional; [table|by vm_compute|apply canonicalize_encryption_key_respects].
Qed.

Lemma canonicalize_respects : respects asn_DEF_EtsiTs103097Certificate None canonicalize_in_place.
Proof.
  apply respects_and_then.
  - eapply respects_memb; [table|by vm_compute|done|apply canonicalize_tbs_respects].
  - eapply respects_optional; [table|by vm_compute|apply make_signature_x_only_respects].
Qed.

(** * Reading certificates with the same value *)

(** Passes from pointers to structures to their members at position [i]. *)
Ltac member_at i H := eapply (same_opt_memb _ _ i) in H; [|table].

Lemma same_toBeSigned o o' : same_cert o o' ->
  same_opt asn_DEF_ToBeSignedCertificate None (toBeSigned (Some o)) (toBeSigned (Some o')).
Proof. intros H%same_opt_some. member_at 3%nat H. exact H. Qed.

Lemma same_signature o o' : same_cert o o' ->
  same_opt asn_DEF_Signature None (signature (Some o)) (signature (Some o')).
Proof. intros H%same_opt_some. member_at 4%nat H. exact H. Qed.

Lemma same_issuer o o' : same_cert o o' ->
  same_opt asn_DEF_IssuerIdentifier None (issuer (Some o)) (issuer (Some o')).
Proof. intros H%same_opt_some. member_at 2%nat H. exact H. Qed.

Lemma same_is_self o o' : same_cert o o' -> issuer_is_self (Some o) = issuer_is_self (Some o').
Proof. intros H%same_issuer. unfold issuer_is_self. by rewrite (same_opt_present _ _ _ _ _ H eq_refl). Qed.

Lemma same_indicator m m' : same_opt asn_DEF_ToBeSignedCertificate None m m' ->
  same_opt asn_DEF_VerificationKeyIndicator None (verifyKeyIndicator m) (verifyKeyIndicator m').
Proof. intros H. member_at 11%nat H. exact H. Qed.

Section Points.
Context (td : asn_TYPE_descriptor) (k : oer_cts) (Ht : point_type td k).

(** What is read from points with the same value. *)
Lemma same_opt_point c m m' : same_opt td c m m' -> present m = present m' /\
  (present m <> 5 -> present m <> 2 -> octets (choice m) = octets (choice m')) /\
  (present m = 5 -> octets (memb 0 (choice m)) = octets (memb 0 (choice m')) /\
                    octets (memb 1 (choice m)) = octets (memb 1 (choice m'))).
Proof.
  intros H. destruct H as [o o' H|]; [|done].
  destruct (same_point _ _ _ _ _ Ht H) as (i & ct & ct' & x & x' & Hi & -> & -> & Hc & Hu). cbn [present choice].
  split; [done|]. split.
  - intros H5 H2. apply (same_octets asn_DEF_OCTET_STRING (Some ASN_OSUBV_STR) k); [done|]. apply Hc. destruct i as [|[|[|[|[|]]]]]; simpl in *; try lia; auto.
  - intros H5. destruct (Hu ltac:(lia)) as (Hy & y & y' & -> & -> & Hs). split; [|done].
    by apply (same_octets asn_DEF_OCTET_STRING (Some ASN_OSUBV_STR) k).
Qed.

Lemma same_copy_curve_point c t m m' : same_opt td c m m' -> copy_curve_point_P256 t m = copy_curve_point_P256 t m'.
Proof.
  intros H. destruct (same_opt_point _ _ _ H) as (Hp & Hc & Hu). unfold copy_curve_point_P256, compressed_key, fetch_octets.
  rewrite <- Hp. destruct (Z.eqb_spec (present m) 3); [by rewrite Hc by lia|].
  destruct (Z.eqb_spec (present m) 4); [by rewrite Hc by lia|]. destruct (Z.eqb_spec (present m) 5) as [E|]; [|done].
  destruct (Hu E) as [-> ->]. done.
Qed.

Lemma same_get_x_coordinate c m m' : same_opt td c m m' -> get_x_coordinate_P256 m = get_x_coordinate_P256 m'.
Proof.
  intros H. destruct (same_opt_point _ _ _ H) as (Hp & Hc & Hu). unfold get_x_coordinate_P256, fetch_octets.
  rewrite <- Hp. destruct (Z.eqb_spec (present m) 3); [by rewrite Hc by lia|].
  destruct (Z.eqb_spec (present m) 4); [by rewrite Hc by lia|]. destruct (Z.eqb_spec (present m) 1); [by rewrite Hc by lia|].
  destruct (Z.eqb_spec (present m) 5) as [E|]; [|done]. by destruct (Hu E) as [-> _].
Qed.

End Points.

(** Follows one level of selected alternatives: rewrites [present], and gives the
    alternative where a test succeeds. *)
Ltac alternative_at i H :=
  match type of H with
  | same_opt _ _ ?m _ =>
    let n := eval vm_compute in (Z.of_nat i + 1) in let E := fresh "E" in
    destruct (Z.eqb_spec (present m) n) as [E|_];
    [apply (same_opt_choice _ _ _ i _ _ _ H eq_refl eq_refl) in E; clear H; rename E into H|]
  end.

Lemma same_key_type o o' : same_cert o o' -> get_verification_key_type o = get_verification_key_type o'.
Proof.
  intros H%same_toBeSigned%same_indicator. unfold get_verification_key_type.
  rewrite <- (same_opt_present _ _ _ _ _ H eq_refl). alternative_at 0%nat H; [|done].
  by rewrite (same_opt_present _ _ _ _ _ H eq_refl).
Qed.

Lemma same_public_key o o' : same_cert o o' -> get_public_key o = get_public_key o'.
Proof.
  intros H%same_toBeSigned%same_indicator. unfold get_public_key.
  rewrite <- (same_opt_present _ _ _ _ _ H eq_refl). alternative_at 0%nat H; [|done]. cbn [negb].
  rewrite <- (same_opt_present _ _ _ _ _ H eq_refl).
  alternative_at 0%nat H; [exact (same_copy_curve_point _ _ point_type_P256 _ _ _ _ H)|].
  alternative_at 1%nat H; [exact (same_copy_curve_point _ _ point_type_P256 _ _ _ _ H)|].
  alternative_at 2%nat H; [exact (same_copy_curve_point _ _ point_type_P384 _ _ _ _ H)|done].
Qed.

Lemma same_is_compressed m m' : present m = present m' -> is_compressed_P256 m = is_compressed_P256 m'.
Proof. unfold is_compressed_P256. by intros ->. Qed.

Lemma same_compressed_indicator m m' : same_opt asn_DEF_VerificationKeyIndicator None m m' ->
  compressed_indicator m = compressed_indicator m'.
Proof.
  intros H. unfold compressed_indicator. rewrite <- (same_opt_present _ _ _ _ _ H eq_refl). pose proof H as H'. alternative_at 0%nat H.
  - rewrite <- (same_opt_present _ _ _ _ _ H eq_refl). clear H'. pose proof H as H1. pose proof H as H2.
    alternative_at 0%nat H; [by apply same_is_compressed, (same_opt_present _ _ _ _ _ H eq_refl)|].
    alternative_at 1%nat H1; [by apply same_is_compressed, (same_opt_present _ _ _ _ _ H1 eq_refl)|].
    alternative_at 2%nat H2; [by apply same_is_compressed, (same_opt_present _ _ _ _ _ H2 eq_refl)|done].
  - alternative_at 1%nat H'; [by apply same_is_compressed, (same_opt_present _ _ _ _ _ H' eq_refl)|done].
Qed.

Lemma same_opt_rSig_P256 m m' : same_opt asn_DEF_EcdsaP256Signature None m m' ->
  same_opt asn_DEF_EccP256CurvePoint None (rSig m) (rSig m').
Proof. intros H. member_at 0%nat H. exact H. Qed.

Lemma same_opt_rSig_P384 m m' : same_opt asn_DEF_EcdsaP384Signature None m m' ->
  same_opt asn_DEF_EccP384CurvePoint None (rSig m) (rSig m').
Proof. intros H. member_at 0%nat H. exact H. Qed.

Lemma same_opt_sSig_P256 m m' : same_opt asn_DEF_EcdsaP256Signature None m m' -> octets (sSig m) = octets (sSig m').
Proof. intros H. member_at 1%nat H. exact (same_opt_octets _ _ _ _ _ H eq_refl). Qed.

Lemma same_opt_sSig_P384 m m' : same_opt asn_DEF_EcdsaP384Signature None m m' -> octets (sSig m) = octets (sSig m').
Proof. intros H. member_at 1%nat H. exact (same_opt_octets _ _ _ _ _ H eq_refl). Qed.

Lemma same_x_only m m' : same_opt asn_DEF_Signature None m m' -> is_signature_x_only m = is_signature_x_only m'.
Proof.
  intros H. unfold is_signature_x_only. rewrite <- (same_opt_present _ _ _ _ _ H eq_refl).
  pose proof H as H1. pose proof H as H2.
  alternative_at 0%nat H; [by rewrite (same_opt_present _ _ _ _ _ (same_opt_rSig_P256 _ _ H) eq_refl)|].
  alternative_at 1%nat H1; [by rewrite (same_opt_present _ _ _ _ _ (same_opt_rSig_P256 _ _ H1) eq_refl)|].
  alternative_at 2%nat H2; [by rewrite (same_opt_present _ _ _ _ _ (same_opt_rSig_P384 _ _ H2) eq_refl)|done].
Qed.

Lemma same_get_signature o o' : same_cert o o' -> get_signature o = get_signature o'.
Proof.
  intros H%same_signature. unfold get_signature, fetch_octets. destruct H as [m m' H|]; [|done]. apply same_opt_some in H.
  rewrite <- (same_opt_present _ _ _ _ _ H eq_refl). pose proof H as H1. pose proof H as H2.
  alternative_at 0%nat H.
  { rewrite (same_opt_sSig_P256 _ _ H). do 2 f_equal.
    exact (same_get_x_coordinate _ _ point_type_P256 _ _ _ (same_opt_rSig_P256 _ _ H)). }
  alternative_at 1%nat H1.
  { rewrite (same_opt_sSig_P256 _ _ H1). do 2 f_equal.
    exact (same_get_x_coordinate _ _ point_type_P256 _ _ _ (same_opt_rSig_P256 _ _ H1)). }
  alternative_at 2%nat H2; [|done].
  rewrite (same_opt_sSig_P384 _ _ H2). do 2 f_equal.
  exact (same_get_x_coordinate _ _ point_type_P384 _ _ _ (same_opt_rSig_P384 _ _ H2)).
Qed.

Lemma same_is_canonical o o' : same_cert o o' -> is_canonical o = is_canonical o'.
Proof.
  intros H. unfold is_canonical.
  rewrite (same_compressed_indicator _ _ (same_indicator _ _ (same_toBeSigned _ _ H))).
  destruct (compressed_indicator _); [|done]. cbn [negb].
  destruct (same_signature _ _ H) as [s s' Hs|]; [|done]. by apply same_x_only, same_opt_some.
Qed.

(** * The result of canonicalizing *)

Lemma memb_set_memb i v o : memb i (Some (set_memb i v o)) = v \/ memb i (Some (set_memb i v o)) = None.
Proof.
  destruct o as [| | | | |c b ms| |]; cbn [set_memb memb]; auto.
  destruct (decide (i < length ms)%nat) as [Hi|Hi]; [left; by rewrite list_lookup_insert_eq|right].
  rewrite lookup_ge_None_2; [done|]. rewrite length_insert. lia.
Qed.

Lemma memb_set_memb_ne i j v o : i <> j -> memb i (Some (set_memb j v o)) = memb i (Some o).
Proof. intros Hij. destruct o; cbn [set_memb memb]; try done. by rewrite list_lookup_insert_ne. Qed.

Lemma set_memb_twice i v w o : set_memb i v (set_memb i w o) = set_memb i v o.
Proof. destruct o; cbn [set_memb]; try done. by rewrite list_insert_insert_eq. Qed.

Lemma set_memb_comm i j v w o : i <> j -> set_memb i v (set_memb j w o) = set_memb j w (set_memb i v o).
Proof. intros Hij. destruct o; cbn [set_memb]; try done. by rewrite list_insert_insert_ne. Qed.

Lemma compress_compressed o : (compress_P256 o).1 = true -> is_compressed_P256 (Some (compress_P256 o).2) = true.
Proof.
  unfold compress_P256, is_compressed_P256. destruct (Z.eqb_spec (present (Some o)) 5) as [E|].
  - intros _. destruct o as [| | | | | |ct n m|]; try done. cbn [reinterpret snd present]. by destruct (y_odd _).
  - by destruct (_ || _) eqn:E.
Qed.

Lemma make_x_only_ok o : (make_x_only_P256 o).1 = true -> present (Some (make_x_only_P256 o).2) = 1.
Proof.
  unfold make_x_only_P256. destruct (Z.eqb_spec (present (Some o)) 5) as [E|].
  - intros _. by destruct o.
  - by destruct (Z.eqb_spec (present (Some o)) 1).
Qed.

(** An update of the selected alternative leaves the selection alone. *)
Lemma on_choice_cases dflt fs o : present (Some (on_choice dflt fs o).2) = present (Some o) /\
  (forall f, fs (present (Some o)) = Some f -> present (Some o) <> 0 ->
     (on_choice dflt fs o).1 = (f (default zero_choice (choice (Some o)))).1 /\
     choice (Some (on_choice dflt fs o).2) = Some (f (default zero_choice (choice (Some o)))).2).
Proof. unfold on_choice. destruct (fs _) as [f|]; [|done]. split; [by destruct o|]. intros f' [= <-]. by destruct o. Qed.

Lemma canonicalize_indicator_compressed o : (canonicalize_indicator o).1 = true ->
  compressed_indicator (Some (canonicalize_indicator o).2) = true.
Proof.
  intros H. unfold canonicalize_indicator, compressed_indicator in *.
  match goal with |- context [on_choice ?d ?fs o] => destruct (on_choice_cases d fs o) as [-> Hc] end.
  destruct (Z.eqb_spec (present (Some o)) 1) as [E|_].
  { destruct (Hc _ eq_refl ltac:(lia)) as [H1 ->]. rewrite H1 in H. clear H1 Hc. revert H.
    set (k := default zero_choice _). intros H.
    match goal with |- context [on_choice ?d ?fs k] => destruct (on_choice_cases d fs k) as [-> Hc] end.
    destruct (Z.eqb_spec (present (Some k)) 1) as [E1|_].
    { destruct (Hc _ eq_refl ltac:(lia)) as [H1 ->]. rewrite H1 in H. by apply compress_compressed. }
    destruct (Z.eqb_spec (present (Some k)) 2) as [E2|_].
    { destruct (Hc _ eq_refl ltac:(lia)) as [H1 ->]. rewrite H1 in H. by apply compress_compressed. }
    destruct (Z.eqb_spec (present (Some k)) 3) as [E3|_]; [|done].
    destruct (Hc _ eq_refl ltac:(lia)) as [H1 ->]. rewrite H1 in H. by apply compress_compressed. }
  destruct (Z.eqb_spec (present (Some o)) 2) as [E2|_]; [|done].
  destruct (Hc _ eq_refl ltac:(lia)) as [H1 ->]. rewrite H1 in H. by apply compress_compressed.
Qed.

Lemma memb_set_memb_eq i m v o : memb i (Some o) = Some m -> memb i (Some (set_memb i v o)) = v.
Proof.
  destruct o as [| | | | |c b ms| |]; cbn [set_memb memb]; try done. intros H.
  rewrite list_lookup_insert_eq; [done|]. apply lookup_lt_is_Some. destruct (ms !! i); [by eexists|done].
Qed.

Lemma x_only_read o : (update_memb 0 zero_choice make_x_only_P256 o).1 = true ->
  present (rSig (Some (update_memb 0 zero_choice make_x_only_P256 o).2)) = 1.
Proof.
  unfold update_memb, rSig. cbn [fst snd]. destruct (memb 0 (Some o)) as [m|] eqn:E; [|done].
  intros H. rewrite (memb_set_memb_eq _ _ _ _ E). by apply make_x_only_ok.
Qed.

Lemma make_signature_x_only_ok o : (make_signature_x_only o).1 = true ->
  is_signature_x_only (Some (make_signature_x_only o).2) = true.
Proof.
  intros H. unfold make_signature_x_only, is_signature_x_only in *.
  match goal with |- context [on_choice ?d ?fs o] => destruct (on_choice_cases d fs o) as [-> Hc] end.
  repeat match goal with
  | |- context [?p =? ?n] =>
    destruct (Z.eqb_spec p n) as [E|_];
    [destruct (Hc _ eq_refl ltac:(lia)) as [H1 ->]; rewrite H1 in H; apply Z.eqb_eq; by apply x_only_read|]
  end.
  done.
Qed.

(** An optional member is updated without touching the others. *)
Lemma update_optional_ne i j f o : i <> j -> memb i (Some (update_optional j f o).2) = memb i (Some o).
Proof. intros Hi. unfold update_optional. destruct (memb j (Some o)); [|done]. by apply memb_set_memb_ne. Qed.

Lemma update_memb_ne i j zero f o : i <> j -> memb i (Some (update_memb j zero f o).2) = memb i (Some o).
Proof. intros Hi. by apply memb_set_memb_ne. Qed.

Lemma canonicalize_tbs_compressed t : (canonicalize_tbs t).1 = true ->
  compressed_indicator (verifyKeyIndicator (Some (canonicalize_tbs t).2)) = true.
Proof.
  unfold canonicalize_tbs, and_then. cbn [fst snd]. intros [H _]%andb_true_iff. unfold verifyKeyIndicator.
  rewrite update_optional_ne by done. unfold update_memb in *. cbn [fst snd] in *.
  match goal with |- context [set_memb 11 ?v t] => destruct (memb_set_memb 11 v t) as [->| ->]; [|done] end.
  by apply canonicalize_indicator_compressed.
Qed.

(** The assertion at the end of [canonicalize] holds. *)
Lemma canonicalize_in_place_canonical o : (canonicalize_in_place o).1 = true ->
  is_canonical (canonicalize_in_place o).2 = true.
Proof.
  unfold canonicalize_in_place, and_then. cbn [fst snd]. intros [H1 H2]%andb_true_iff.
  set (o1 := (update_memb 3 _ _ o).2) in *. unfold is_canonical.
  assert (compressed_indicator (verifyKeyIndicator (toBeSigned (Some (update_optional 4 make_signature_x_only o1).2))) = true) as ->.
  { unfold toBeSigned. rewrite update_optional_ne by done. unfold o1, update_memb in *. cbn [fst snd] in *.
    match goal with |- context [set_memb 3 ?v o] => destruct (memb_set_memb 3 v o) as [->| ->]; [|done] end.
    by apply canonicalize_tbs_compressed. }
  cbn [negb]. unfold update_optional, signature in *. destruct (memb 4 (Some o1)) as [s|] eqn:Es; cbn [fst snd] in *.
  - rewrite (memb_set_memb_eq _ _ _ _ Es). by apply make_signature_x_only_ok.
  - by rewrite Es.
Qed.

(** * Certificates as values *)

Lemma wf_etsi_certificate : wf_td asn_DEF_EtsiTs103097Certificate = true.
Proof. by vm_compute. Qed.

Lemma wf_tbs : wf_td asn_DEF_ToBeSignedCertificate = true.
Proof. by vm_compute. Qed.

(** A mandatory member is there. *)
Lemma mandatory td c i e o : seq_member td i e -> e.(optional) = false -> same td c o o ->
  exists m, memb i (Some o) = Some m /\ same e.(type) e.(oer_constraints) m m.
Proof.
  intros He Ho H. apply (same_memb _ _ _ _ _ _ He) in H. destruct (memb i (Some o)) as [m|]; [by exists m|].
  destruct H; congruence.
Qed.

Lemma proper_tbs o : proper_cert o -> exists t, toBeSigned (Some o) = Some t /\ same_tbs t t.
Proof. intros H. eapply (mandatory _ _ 3) in H; [|table|done]. exact H. Qed.

(** What canonicalizing leaves alone: everything to be signed except the encryption key
    and the verification key, and everything else but the signature. *)
Lemma canonicalize_tbs_members t i : i <> 10%nat -> i <> 11%nat ->
  memb i (Some (canonicalize_tbs t).2) = memb i (Some t).
Proof. intros H10 H11. unfold canonicalize_tbs, and_then. cbn [snd]. by rewrite update_optional_ne, update_memb_ne. Qed.

Lemma canonicalize_toBeSigned o t : toBeSigned (Some o) = Some t ->
  toBeSigned (Some (canonicalize_in_place o).2) = Some (canonicalize_tbs t).2.
Proof.
  unfold toBeSigned. intros Ht. unfold canonicalize_in_place, and_then. cbn [snd]. rewrite update_optional_ne by done.
  unfold update_memb. rewrite Ht. cbn [snd default from_option id]. by rewrite (memb_set_memb_eq _ _ _ _ Ht).
Qed.

Lemma canonicalize_members o i : i <> 3%nat -> i <> 4%nat ->
  memb i (Some (canonicalize_in_place o).2) = memb i (Some o).
Proof.
  intros H3 H4. unfold canonicalize_in_place, and_then. cbn [snd]. by rewrite update_optional_ne, update_memb_ne.
Qed.

(** The type of the verification key stays. *)
Lemma canonicalize_key_type o : proper_cert o ->
  get_verification_key_type (canonicalize_in_place o).2 = get_verification_key_type o.
Proof.
  intros (t & Ht & Hp)%proper_tbs. unfold get_verification_key_type. rewrite (canonicalize_toBeSigned _ _ Ht), Ht.
  eapply (mandatory _ _ 11) in Hp as (k & Hk & _); [|table|done]. unfold verifyKeyIndicator. rewrite Hk.
  unfold canonicalize_tbs, and_then. cbn [snd]. rewrite update_optional_ne by done. unfold update_memb. cbn [snd].
  rewrite Hk, (memb_set_memb_eq _ _ _ _ Hk). cbn [default from_option id]. unfold canonicalize_indicator.
  match goal with |- context [on_choice ?d ?fs k] => destruct (on_choice_cases d fs k) as [-> Hc] end.
  destruct (Z.eqb_spec (present (Some k)) 1) as [E|_]; [|done].
  destruct (Hc _ eq_refl ltac:(lia)) as [_ ->].
  match goal with |- context [on_choice ?d ?fs ?x] => destruct (on_choice_cases d fs x) as [-> _] end.
  by destruct (choice (Some k)).
Qed.

Section Values.
Context {pf : Platform} {fits : StackFits pf} {sha : Sha}.

Lemma copy_construct_same o : proper_cert o -> exists o', copy_construct o = Returns o' /\ same_cert o o'.
Proof. intros H. exact (copy_same _ _ wf_etsi_certificate eq_refl H). Qed.

Lemma encode_cert_same o o' : same_cert o o' -> exists bs, encode (Some o) = Returns bs /\ encode (Some o') = Returns bs.
Proof. intros H. exact (encode_same _ _ _ wf_etsi_certificate H). Qed.

Lemma encode_tbs_same t t' : same_tbs t t' -> exists bs,
  encode_oer asn_DEF_ToBeSignedCertificate (Some t) = Returns bs /\ encode_oer asn_DEF_ToBeSignedCertificate (Some t') = Returns bs.
Proof. intros H. exact (encode_same _ _ _ wf_tbs H). Qed.

(** [canonicalize] of a proper certificate returns: a certificate with the value of the
    updated structure when every part could be updated, nothing otherwise. *)
Lemma canonicalize_spec o : proper_cert o ->
  if (canonicalize_in_place o).1
  then exists c, canonicalize o = Returns (Some c) /\ same_cert (canonicalize_in_place o).2 c
  else canonicalize o = Returns None.
Proof.
  intros H. unfold canonicalize. destruct (copy_construct_same o H) as (o1 & -> & H1).
  destruct (canonicalize_respects _ _ H1) as [E Hs]. rewrite E. cbn [mbind cpp_bind]. unfold canonicalize_moved.
  pose proof (canonicalize_in_place_canonical o1) as Hc. destruct (canonicalize_in_place o1) as [b o2]. cbn [fst snd] in *.
  destruct b; [|done]. rewrite Hc by done.
  destruct (copy_construct_same o2 (same_refl_r _ _ _ _ Hs)) as (c & -> & Hc2). exists c. split; [done|]. by transitivity o2.
Qed.

(** Results of [canonicalize] for structures with the same value. *)
Lemma canonicalize_same o o' : same_cert o o' ->
  (canonicalize o = Returns None /\ canonicalize o' = Returns None) \/
  exists c c', canonicalize o = Returns (Some c) /\ canonicalize o' = Returns (Some c') /\ same_cert c c' /\
    same_cert (canonicalize_in_place o).2 c.
Proof.
  intros H. destruct (canonicalize_respects _ _ H) as [E Hs].
  pose proof (canonicalize_spec o (same_refl_l _ _ _ _ H)) as H1. pose proof (canonicalize_spec o' (same_refl_r _ _ _ _ H)) as H2.
  rewrite E in H1. destruct (canonicalize_in_place o').1; [right|by left].
  destruct H1 as (c & Hc & H1), H2 as (c' & Hc' & H2). exists c, c'. repeat split; try done.
  transitivity (canonicalize_in_place o).2; [done|]. by transitivity (canonicalize_in_place o').2.
Qed.

Lemma digest_internal_same o o' t : same_cert o o' ->
  exists d, calculate_digest_internal o t = Returns d /\ calculate_digest_internal o' t = Returns d.
Proof.
  intros H. destruct (encode_cert_same o o' H) as (bs & E & E'). unfold encode in *. unfold calculate_digest_internal.
  rewrite E, E'. by eexists.
Qed.

Lemma calculate_digest_same o o' : same_cert o o' ->
  exists d, calculate_digest o = Returns d /\ calculate_digest o' = Returns d.
Proof.
  intros H. unfold calculate_digest. rewrite <- (same_key_type _ _ H), <- (same_is_canonical _ _ H).
  destruct (decide _); [by eexists|]. destruct (is_canonical o); [by apply digest_internal_same|].
  destruct (canonicalize_same o o' H) as [[-> ->]|(c & c' & -> & -> & Hc & _)]; [by eexists|].
  by apply digest_internal_same.
Qed.

(** The digest of a certificate that is not canonical is the one of its canonical form. *)
Lemma calculate_digest_canonicalize o c : proper_cert o -> canonicalize o = Returns (Some c) ->
  is_canonical o = false -> calculate_digest c = calculate_digest o.
Proof.
  intros H Hc Hn. pose proof (canonicalize_spec o H) as Hs. pose proof (canonicalize_in_place_canonical o) as Hi.
  destruct (canonicalize_in_place o).1; [|congruence]. destruct Hs as (c' & Hc' & Hs). rewrite Hc in Hc'. injection Hc' as <-.
  unfold calculate_digest. rewrite <- (same_key_type _ _ Hs), <- (same_is_canonical _ _ Hs), canonicalize_key_type by done.
  rewrite Hi, Hn by done. destruct (decide _); [done|]. by rewrite Hc.
Qed.

End Values.

(** * Updates that are done once *)

Definition idempotent (f : update) : Prop := forall o, (f o).1 = true -> f (f o).2 = (true, (f o).2).

(** An update that finds nothing to do still finds nothing after another one. *)
Definition undisturbed (f g : update) : Prop := forall o, f o = (true, o) -> f (g o).2 = (true, (g o).2).

Lemma idempotent_and_then f g : idempotent f -> idempotent g -> undisturbed f g -> idempotent (and_then f g).
Proof.
  intros Hf Hg Hd o. unfold and_then. cbn [fst snd]. intros [H1 H2]%andb_true_iff.
  rewrite (Hd _ (Hf _ H1)). cbn [fst snd]. by rewrite (Hg _ H2).
Qed.

Lemma set_memb_cases i v o :
  memb i (Some (set_memb i v o)) = v \/ (set_memb i v o = o /\ memb i (Some o) = None).
Proof.
  destruct o as [| | | | |c b ms| |]; cbn [set_memb memb]; auto.
  destruct (decide (i < length ms)%nat) as [Hi|Hi]; [left; by rewrite list_lookup_insert_eq|right].
  rewrite list_insert_ge, lookup_ge_None_2 by lia. done.
Qed.

Lemma idempotent_memb i zero f : idempotent f -> idempotent (update_memb i zero f).
Proof.
  intros Hf o. unfold update_memb. cbn [fst snd]. set (r := f (default zero (memb i (Some o)))). intros Hr.
  destruct (set_memb_cases i (Some r.2) o) as [E|[E En]].
  - rewrite E. cbn [default from_option id]. unfold r in *. rewrite (Hf _ Hr). cbn [fst snd]. by rewrite set_memb_twice.
  - rewrite E. fold r. by rewrite Hr, E.
Qed.

Lemma idempotent_optional i f : idempotent f -> idempotent (update_optional i f).
Proof.
  intros Hf o. unfold update_optional. destruct (memb i (Some o)) as [m|] eqn:E; cbn [fst snd]; [|by rewrite E].
  intros Hr. rewrite (memb_set_memb_eq _ _ _ _ E), (Hf _ Hr). cbn [fst snd]. by rewrite set_memb_twice.
Qed.

Lemma undisturbed_memb i j zero f g : i <> j -> undisturbed (update_memb i zero f) (update_optional j g).
Proof.
  intros Hij o. unfold update_memb, update_optional. destruct (memb j (Some o)); [|done]. cbn [fst snd].
  rewrite memb_set_memb_ne by done. intros H. pose proof (f_equal fst H) as Hr. pose proof (f_equal snd H) as Hs.
  cbn [fst snd] in Hr, Hs. by rewrite Hr, set_memb_comm, Hs.
Qed.

Lemma idempotent_choice dflt fs : (forall p f, fs p = Some f -> idempotent f) -> idempotent (on_choice dflt fs).
Proof.
  intros Hfs o. unfold on_choice. destruct (fs (present (Some o))) as [f|] eqn:E; cbn [fst snd].
  - intros Hr. destruct o as [| | | | | |c p m|]; cbn [set_choice present choice] in *; rewrite ?E; cbn [fst snd set_choice];
      try (by rewrite Hr).
    cbn [default from_option id]. by rewrite (Hfs _ _ E _ Hr).
  - intros ->. by rewrite E.
Qed.

Lemma idempotent_compress : idempotent compress_P256.
Proof.
  intros o H. pose proof (compress_compressed o H) as Hc. unfold is_compressed_P256 in Hc. set (o' := (compress_P256 o).2) in *.
  unfold compress_P256. destruct (Z.eqb_spec (present (Some o')) 5) as [E|]; [|by rewrite Hc].
  rewrite E in Hc. done.
Qed.

Lemma idempotent_x_only : idempotent make_x_only_P256.
Proof.
  intros o H. pose proof (make_x_only_ok o H) as Hc. set (o' := (make_x_only_P256 o).2) in *.
  unfold make_x_only_P256. by rewrite Hc.
Qed.

(** Both curves have the same alternatives, so their updates are the same function. *)
Ltac case_updates :=
  let p := fresh "p" in let f := fresh "f" in intros p f; repeat case_match; intros; simplify_eq.

Lemma idempotent_canonicalize_tbs : idempotent canonicalize_tbs.
Proof.
  apply idempotent_and_then; [| |by apply undisturbed_memb].
  - apply idempotent_memb, idempotent_choice. case_updates; try apply idempotent_compress.
    apply idempotent_choice. case_updates; apply idempotent_compress.
  - apply idempotent_optional, idempotent_memb, idempotent_choice. case_updates; apply idempotent_compress.
Qed.

Lemma idempotent_canonicalize : idempotent canonicalize_in_place.
Proof.
  apply idempotent_and_then; [| |by apply undisturbed_memb].
  - apply idempotent_memb, idempotent_canonicalize_tbs.
  - apply idempotent_optional, idempotent_choice. case_updates; apply idempotent_memb, idempotent_x_only.
Qed.

(** * What stays *)

(** The point a canonical key stands for: the same coordinate, and the parity of the
    other one when it was there. *)
Definition compressed_of (k k' : PublicKey) : Prop :=
  k'.(pk_x) = k.(pk_x) /\ k'.(pk_type) = k.(pk_type) /\
  k'.(pk_compression) = match k.(pk_compression) with
                        | NoCompression => if y_odd k.(pk_y) then Y1 else Y0
                        | c => c
                        end.

Lemma octets_default m : octets (Some (default (O_BUF None) m)) = octets m.
Proof. by destruct m. Qed.

Lemma copy_compressed t o : (compress_P256 o).1 = true ->
  exists k k', copy_curve_point_P256 t (Some o) = Some k /\
    copy_curve_point_P256 t (Some (compress_P256 o).2) = Some k' /\ compressed_of k k'.
Proof.
  unfold compress_P256, copy_curve_point_P256. destruct (Z.eqb_spec (present (Some o)) 5) as [E|].
  - intros _. destruct o as [| | | | | |ct n m|]; try done. cbn [reinterpret snd present choice] in *. subst n. cbn.
    destruct (y_odd (octets (memb 1 m))) eqn:Ey; cbn; (do 2 eexists; split; [done|]; split; [done|]);
      unfold compressed_of, compressed_key, fetch_octets; cbn [pk_x pk_y pk_type pk_compression];
      by rewrite octets_default, Ey.
  - destruct (Z.eqb_spec (present (Some o)) 3) as [E3|]; cbn [orb snd]; [rewrite E3; by do 2 eexists|].
    destruct (Z.eqb_spec (present (Some o)) 4) as [E4|]; [|done]. cbn [fst snd]. rewrite E4. by do 2 eexists.
Qed.

Lemma x_only_coordinate o : (make_x_only_P256 o).1 = true ->
  get_x_coordinate_P256 (Some (make_x_only_P256 o).2) = get_x_coordinate_P256 (Some o).
Proof.
  unfold make_x_only_P256. destruct (Z.eqb_spec (present (Some o)) 5) as [E|].
  - intros _. destruct o as [| | | | | |ct n m|]; try done. cbn [present] in E. subst n.
    unfold get_x_coordinate_P256, fetch_octets. cbn. apply octets_default.
  - by destruct (present (Some o) =? 1).
Qed.

Lemma x_only_members o : (update_memb 0 zero_choice make_x_only_P256 o).1 = true ->
  get_x_coordinate_P256 (rSig (Some (update_memb 0 zero_choice make_x_only_P256 o).2)) = get_x_coordinate_P256 (rSig (Some o)) /\
  sSig (Some (update_memb 0 zero_choice make_x_only_P256 o).2) = sSig (Some o).
Proof.
  intros H. split; [|by apply update_memb_ne]. unfold update_memb, rSig in *. cbn [fst snd] in *.
  destruct (memb 0 (Some o)) as [m|] eqn:E; [|done]. rewrite (memb_set_memb_eq _ _ _ _ E). by apply x_only_coordinate.
Qed.

Lemma in_place_signature o t : toBeSigned (Some o) = Some t ->
  signature (Some (canonicalize_in_place o).2) =
    match signature (Some o) with Some s => Some (make_signature_x_only s).2 | None => None end.
Proof.
  intros Ht. unfold canonicalize_in_place, and_then. cbn [snd]. set (o1 := (update_memb 3 _ _ o).2).
  assert (memb 4 (Some o1) = memb 4 (Some o)) as E by (by apply update_memb_ne).
  unfold update_optional, signature. rewrite E. destruct (memb 4 (Some o)) as [s|]; cbn [snd]; [|done].
  by rewrite (memb_set_memb_eq _ _ _ _ E).
Qed.

Lemma in_place_success o t : toBeSigned (Some o) = Some t -> (canonicalize_in_place o).1 =
  (canonicalize_tbs t).1 && match signature (Some o) with Some s => (make_signature_x_only s).1 | None => true end.
Proof.
  intros Ht. unfold canonicalize_in_place, and_then. cbn [fst snd]. unfold update_memb, toBeSigned in *. rewrite Ht.
  cbn [fst snd default from_option id]. f_equal. unfold update_optional, signature.
  rewrite memb_set_memb_ne by done. by destruct (memb 4 (Some o)).
Qed.

(** The signature is the same. *)
Lemma canonical_signature o t : toBeSigned (Some o) = Some t -> (canonicalize_in_place o).1 = true ->
  get_signature (canonicalize_in_place o).2 = get_signature o.
Proof.
  intros Ht. rewrite (in_place_success _ _ Ht). unfold get_signature. rewrite (in_place_signature _ _ Ht).
  destruct (signature (Some o)) as [s|]; [|done]. intros [_ H]%andb_true_iff. unfold make_signature_x_only in *.
  change make_x_only_P384 with make_x_only_P256 in *.
  match goal with |- context [on_choice ?d ?fs s] => destruct (on_choice_cases d fs s) as [-> Hc] end.
  repeat match goal with
  | |- context [?p =? ?n] =>
    destruct (Z.eqb_spec p n) as [E|_];
    [destruct (Hc _ eq_refl ltac:(lia)) as [H1 ->]; rewrite H1 in H; destruct s as [| | | | | |ct q [m|]|]; try done;
     destruct (x_only_members _ H) as [Hr Hs]; cbn [default from_option id choice] in *;
     change get_x_coordinate_P384 with get_x_coordinate_P256; by rewrite Hr, Hs|]
  end.
  done.
Qed.

(** The case of one curve: the point is compressed. *)
Ltac curve n m Hc H1 :=
    destruct (Z.eqb_spec (present (Some m)) n) as [?|_];
    [destruct (Hc _ eq_refl ltac:(lia)) as [H2 ->]; rewrite H2 in H1; destruct m as [| | | | | |ct' q' [pt|]|]; try done;
     cbn [choice default from_option id] in *; intros Hk; change copy_curve_point_P384 with copy_curve_point_P256 in *;
     destruct (copy_compressed ltac:(match type of Hk with copy_curve_point_P256 ?t _ = _ => exact t end) _ H1)
       as (k0 & k' & Hk0 & Hk' & Hcomp); rewrite Hk in Hk0; injection Hk0 as <-; by exists k'|].

(** The verification key stands for the same point. *)
Lemma canonical_public_key o k : proper_cert o -> (canonicalize_in_place o).1 = true -> get_public_key o = Some k ->
  exists k', get_public_key (canonicalize_in_place o).2 = Some k' /\ compressed_of k k'.
Proof.
  intros (t & Ht & Hp)%proper_tbs. rewrite (in_place_success _ _ Ht). intros [H _]%andb_true_iff.
  unfold get_public_key. rewrite (canonicalize_toBeSigned _ _ Ht), Ht.
  eapply (mandatory _ _ 11) in Hp as (i & Hi & _); [|table|done].
  assert (verifyKeyIndicator (Some (canonicalize_tbs t).2) = Some (canonicalize_indicator i).2 /\ (canonicalize_indicator i).1 = true)
    as [-> H1].
  { unfold canonicalize_tbs, and_then in *. cbn [fst snd] in *. apply andb_true_iff in H as [H _]. unfold verifyKeyIndicator.
    rewrite update_optional_ne by done. unfold update_memb in *. rewrite Hi in *. cbn [fst snd default from_option id] in *.
    by rewrite (memb_set_memb_eq _ _ _ _ Hi). }
  unfold verifyKeyIndicator. rewrite Hi. clear H Ht Hi t o. unfold canonicalize_indicator in *.
  change compress_P384 with compress_P256 in *.
  match goal with |- context [on_choice ?d ?fs i] => destruct (on_choice_cases d fs i) as [-> Hc] end.
  destruct (Z.eqb_spec (present (Some i)) 1) as [E|]; [|done]. cbn [negb]. destruct (Hc _ eq_refl ltac:(lia)) as [Hs ->].
  rewrite Hs in H1. clear Hs Hc. destruct i as [| | | | | |ct q [m|]|]; try done.
  change (choice (Some (O_CHOICE ct q (Some m)))) with (Some m) in *. cbn [default from_option id] in *.
  match goal with |- context [on_choice ?d ?fs m] => destruct (on_choice_cases d fs m) as [-> Hc] end.
  curve 1 m Hc H1. curve 2 m Hc H1. curve 3 m Hc H1. done.
Qed.

(** * Canonical certificates *)

Section Canonical.
Context {pf : Platform} {fits : StackFits pf} {sha : Sha}.

Lemma canonicalize_twice o c : proper_cert o -> canonicalize o = Returns (Some c) ->
  exists c', canonicalize c = Returns (Some c') /\ same_cert c c'.
Proof.
  intros H Hc. pose proof (canonicalize_spec o H) as Hs. destruct (canonicalize_in_place o).1 eqn:E; [|congruence].
  destruct Hs as (c0 & Hc0 & Hs). rewrite Hc in Hc0. injection Hc0 as <-.
  destruct (canonicalize_same _ _ Hs) as [[_ H2]|(d & d' & _ & Hd' & Hdd & Hs')].
  - pose proof (canonicalize_spec c (same_refl_r _ _ _ _ Hs)) as Hs2. destruct (canonicalize_respects _ _ Hs) as [E2 _].
    rewrite (idempotent_canonicalize _ E) in E2. cbn [fst] in E2. rewrite <- E2 in Hs2. destruct Hs2 as (? & ? & _). congruence.
  - exists d'. split; [done|]. rewrite (idempotent_canonicalize _ E) in Hs'. cbn [snd] in Hs'.
    transitivity (canonicalize_in_place o).2; [done|]. by transitivity d.
Qed.

End Canonical.
