(* ===== verification/HybridCertificate.v ===== *)
(** Hybrid certificates: a classical and a post-quantum signature.

    Models security/pqc/hybrid_certificate.cpp, security/v3/hash.cpp and
    security/pqc/fndsa512_oqs.cpp.  The cryptographic back ends are the interfaces
    [Backend] (security/backend.hpp) and [PqcBackend] (security/pqc/fndsa512.hpp);
    the latter is implemented on top of liboqs, which is a parameter.

    A function that takes a certificate by reference returns the certificate as the
    call leaves it together with its outcome, also when it throws. *)

From stdpp Require Import prelude strings.
From S2P Require Import Prelude Codecs Descriptor OerSem OerCodec Pqc Asn1Wrapper SecurityTypes CertificateV3.

(** * Back ends *)

(** security::Backend, the operations used on certificates. *)
Class Backend := {
  calculate_hash : HashAlgorithm -> bytes -> bytes;
  sign_digest : PrivateKey -> bytes -> cpp EccSignature;
  verify_digest : PublicKey -> bytes -> EccSignature -> cpp bool;
}.

(** [calculate_hash] of both back ends (BackendOpenSsl, BackendCryptoPP). *)
Definition backend_hash {sha : Sha} (algo : HashAlgorithm) (data : bytes) : bytes :=
  match algo with
  | SHA256 => calculate_sha256_digest data
  | SHA384 => calculate_sha384_digest data
  | HashUnspecified => []
  end.

(** pqc::Backend; keys and signatures are structures around their octets. *)
Class PqcBackend := {
  pqc_generate_key_pair : cpp (bytes * bytes);
  pqc_sign : bytes -> bytes -> cpp bytes;
  pqc_verify : bytes -> bytes -> bytes -> cpp bool;
}.

Definition fndsa512_public_key_size : Z := 897.
Definition fndsa512_private_key_size : Z := 1281.
Definition fndsa512_signature_size : Z := 666.

(** ** The liboqs back end *)

(** What OQS_SIG_new reports for Falcon-padded-512 (public key, secret key and signature
    length), and the operations of the context with the octets they write to their
    output buffers: [None] is OQS_ERROR. *)
Class Liboqs := {
  OQS_SIG_new : option (Z * Z * Z);
  OQS_SIG_keypair : option (bytes * bytes);
  OQS_SIG_sign : bytes -> bytes -> option (bytes * Z);
  OQS_SIG_verify : bytes -> bytes -> bytes -> bool;
}.

Section Oqs.
Context {oqs : Liboqs}.

Definition create_signature_context : cpp unit :=
  match OQS_SIG_new with
  | None => Throws (runtime_error "liboqs does not provide Falcon-padded-512")
  | Some (length_public_key, length_secret_key, length_signature) =>
    throw_if (negb (length_public_key =? fndsa512_public_key_size) ||
              negb (length_secret_key =? fndsa512_private_key_size) ||
              negb (length_signature =? fndsa512_signature_size))
      (runtime_error "liboqs Falcon-padded-512 parameters do not match the ASN.1 profile")
  end.

(** A zeroed buffer of [n] octets after a write to its start; writing past its end is
    undefined. *)
Definition fill_buffer (n : Z) (written : bytes) : cpp bytes :=
  if n <? size written then NoResult
  else Returns (written ++ replicate (Z.to_nat (n - size written)) 0).

Definition oqs_generate_key_pair : cpp (bytes * bytes) :=
  _ ← create_signature_context;
  match OQS_SIG_keypair with
  | Some (public_key, private_key) =>
    public_key ← fill_buffer fndsa512_public_key_size public_key;
    private_key ← fill_buffer fndsa512_private_key_size private_key;
    Returns (public_key, private_key)
  | None => Throws (runtime_error "liboqs failed to generate an FN-DSA-512 key pair")
  end.

Definition oqs_sign (private_key data : bytes) : cpp bytes :=
  _ ← throw_if (negb (size private_key =? fndsa512_private_key_size))
        (invalid_argument "FN-DSA-512 private key has an invalid size");
  _ ← create_signature_context;
  match OQS_SIG_sign private_key data with
  | None => Throws (runtime_error "liboqs failed to create an FN-DSA-512 signature")
  | Some (written, signature_size) =>
    signature ← fill_buffer fndsa512_signature_size written;
    _ ← throw_if (negb (signature_size =? fndsa512_signature_size))
          (runtime_error "liboqs returned a non-padded FN-DSA-512 signature");
    Returns signature
  end.

Definition oqs_verify (public_key data signature : bytes) : cpp bool :=
  if negb (size public_key =? fndsa512_public_key_size) || negb (size signature =? fndsa512_signature_size)
  then Returns false
  else _ ← create_signature_context; Returns (OQS_SIG_verify public_key data signature).

#[export] Instance OqsBackend : PqcBackend :=
  {| pqc_generate_key_pair := oqs_generate_key_pair; pqc_sign := oqs_sign; pqc_verify := oqs_verify |}.

End Oqs.

(** * Hashes of messages *)

(** security/v3/hash.cpp *)
Definition specified_hash_algorithm (key_type : KeyType) : HashAlgorithm :=
  match key_type with
  | NistP256 | BrainpoolP256r1 => SHA256
  | BrainpoolP384r1 => SHA384
  | Unspecified => HashUnspecified
  end.

(** The call with a certificate taken by reference: outcome and certificate. *)
Abbreviation modifies := (cpp unit * obj)%type.

(** Runs [k] when [m] returns; otherwise the certificate stays as it is. *)
Definition then_modify {A} (m : cpp A) (cert : obj) (k : A -> modifies) : modifies :=
  match m with
  | Returns a => k a
  | Throws e => (Throws e, cert)
  | NoResult => (NoResult, cert)
  end.

Inductive SignatureLayer := Alternative | Primary.
Inductive MaterialState := MaterialNone | Authority | EndEntity | Inconsistent.

#[export] Instance SignatureLayer_eq_dec : EqDecision SignatureLayer.
Proof. solve_decision. Defined.
#[export] Instance MaterialState_eq_dec : EqDecision MaterialState.
Proof. solve_decision. Defined.

(** * Alternative key and signature of a structure *)

Definition copy_octets (value : option obj) : bytes := octets value.

Definition extract_alternative_public_key (certificate : obj) : option bytes :=
  match altVerificationKey (toBeSigned (Some certificate)) with
  | None => None
  | Some key =>
    if negb (present (Some key) =? PublicVerificationKey_PR_fnDsa512) then None
    else let result := copy_octets (choice (Some key)) in
         if size result =? fndsa512_public_key_size then Some result else None
  end.

Definition extract_alternative_signature (certificate : obj) : option bytes :=
  match altSignatureValue (toBeSigned (Some certificate)) with
  | None => None
  | Some sig =>
    if negb (present (Some sig) =? Signature_PR_fnDsa512Signature) then None
    else let result := copy_octets (choice (Some sig)) in
         if size result =? fndsa512_signature_size then Some result else None
  end.

Definition assign_octets (source : bytes) : cpp obj :=
  _ ← throw_if (2 ^ 31 - 1 <? size source) (runtime_error "cannot allocate ASN.1 octet string");
  Returns (OCTET_STRING_fromBuf source).

Definition clear_alternative_public_key (certificate : obj) : obj :=
  if is_null (altVerificationKey (toBeSigned (Some certificate))) then certificate
  else set_tbs_memb 16 None certificate.

Definition clear_alternative_signature (certificate : obj) : obj :=
  if is_null (altSignatureValue (toBeSigned (Some certificate))) then certificate
  else set_tbs_memb 17 None certificate.

Definition set_alternative_public_key (certificate : obj) (key : bytes) : modifies :=
  if negb (size key =? fndsa512_public_key_size)
  then (Throws (invalid_argument "FN-DSA-512 public key has an invalid size"), certificate)
  else
    let certificate := clear_alternative_public_key certificate in
    let put (o : option obj) :=
      set_tbs_memb 16 (Some (O_CHOICE ctx_zero PublicVerificationKey_PR_fnDsa512 o)) certificate in
    then_modify (assign_octets key) (put None) (fun o => (Returns (), put (Some o))).

Definition set_alternative_signature (certificate : obj) (signature : bytes) : modifies :=
  if negb (size signature =? fndsa512_signature_size)
  then (Throws (invalid_argument "FN-DSA-512 signature has an invalid size"), certificate)
  else
    let certificate := clear_alternative_signature certificate in
    let put (o : option obj) :=
      set_tbs_memb 17 (Some (O_CHOICE ctx_zero Signature_PR_fnDsa512Signature o)) certificate in
    then_modify (assign_octets signature) (put None) (fun o => (Returns (), put (Some o))).

(** The old signature is replaced before the type of the new one is looked at. *)
Definition set_primary_signature (certificate : obj) (signature : EccSignature) : modifies :=
  if negb (size signature.(sig_r) =? key_length signature.(sig_type)) ||
     negb (size signature.(sig_s) =? key_length signature.(sig_type))
  then (Throws (invalid_argument "ECC certificate signature has an invalid size"), certificate)
  else
    let put (p : Z) (r s : option obj) :=
      set_memb 4 (Some (O_CHOICE ctx_zero p
        (Some (O_SEQ ctx_zero None [Some (O_CHOICE ctx_zero EccP256CurvePoint_PR_x_only r); s])))) certificate in
    let assign (p : Z) :=
      then_modify (assign_octets signature.(sig_r)) (put p None None) (fun r =>
      then_modify (assign_octets signature.(sig_s)) (put p (Some r) None) (fun s =>
      (Returns (), put p (Some r) (Some s)))) in
    match signature.(sig_type) with
    | NistP256 => assign Signature_PR_ecdsaNistP256Signature
    | BrainpoolP256r1 => assign Signature_PR_ecdsaBrainpoolP256r1Signature
    | BrainpoolP384r1 => assign Signature_PR_ecdsaBrainpoolP384r1Signature
    | Unspecified =>
      (Throws (invalid_argument "unsupported ECC certificate signature type"),
       set_memb 4 (Some zero_choice) certificate)
    end.

(** * Copies and signature inputs *)

Section Hybrid.
Context {pf : Platform} {sha : Sha} {ecc : Backend}.

(** [calculate_message_hash] of security/v3/hash.cpp. *)
Definition calculate_message_hash (hash_algo : HashAlgorithm) (payload : bytes) (signing_cert : view) : cpp bytes :=
  encoded_cert ←
    (if match signing_cert with Some c => is_canonical c | None => false end then encode signing_cert
     else c ← view_canonicalize signing_cert;
          match c with Some c => encode (Some c) | None => Returns [] end);
  let data_hash := calculate_hash hash_algo payload in
  let cert_hash := calculate_hash hash_algo encoded_cert in
  Returns (calculate_hash hash_algo (data_hash ++ cert_hash)).

Definition copy_certificate (v : view) : cpp (option obj) :=
  try_catch
    (bs ← encode v;
     r ← decode_oer asn_DEF_EtsiTs103097Certificate (Some (allocate asn_DEF_EtsiTs103097Certificate)) bs;
     Returns (if r.1 : bool then r.2 else None))
    (Returns None).

Definition copy_certificate_or_throw (v : view) : cpp obj :=
  certificate ← copy_certificate v;
  match certificate with
  | Some certificate => Returns certificate
  | None => Throws (invalid_argument "certificate cannot be encoded and decoded")
  end.

Definition get_alternative_public_key (v : view) : cpp (option bytes) :=
  certificate ← copy_certificate v; Returns (certificate ≫= extract_alternative_public_key).

Definition get_alternative_signature (v : view) : cpp (option bytes) :=
  certificate ← copy_certificate v; Returns (certificate ≫= extract_alternative_signature).

Definition is_some {A} (x : option A) : bool := match x with Some _ => true | None => false end.

Definition alternative_material_state (v : view) : cpp MaterialState :=
  certificate ← copy_certificate v;
  match certificate with
  | None => Returns Inconsistent
  | Some c =>
    let key_present := negb (is_null (altVerificationKey (toBeSigned (Some c)))) in
    let signature_present := negb (is_null (altSignatureValue (toBeSigned (Some c)))) in
    let has_key := is_some (extract_alternative_public_key c) in
    let has_signature := is_some (extract_alternative_signature c) in
    if negb key_present && negb signature_present then Returns MaterialNone
    else if xorb key_present has_key || xorb signature_present has_signature then Returns Inconsistent
    else if is_at_certificate v then
      Returns (if negb has_key && has_signature then EndEntity else Inconsistent)
    else
      self ← issuer_is_self v;
      Returns (if self || is_ca_certificate v
               then if has_key && has_signature then Authority else Inconsistent
               else Inconsistent)
  end.

(** The issuer is a pointer to a view. *)
Definition signing_certificate (subject : view) (issuer : option view) : cpp view :=
  self ← issuer_is_self subject;
  if self : bool then Returns subject
  else match issuer with
       | Some i => Returns i
       | None => Throws (invalid_argument "issuer certificate is required for a non-self-signed certificate")
       end.

Definition canonical_tbs (subject : view) (layer : SignatureLayer) : cpp bytes :=
  certificate ← copy_certificate_or_throw subject;
  let certificate := if decide (layer = Alternative) then clear_alternative_signature certificate else certificate in
  canonical ← canonicalize certificate;
  match canonical with
  | None => Throws (invalid_argument "certificate cannot be canonicalized")
  | Some c => encode_oer asn_DEF_ToBeSignedCertificate (Some (tbs_of c))
  end.

Definition canonical_issuer (subject : view) (issuer : option view) : cpp bytes :=
  self ← issuer_is_self subject;
  if self : bool then Returns []
  else match issuer with
  | None => Throws (invalid_argument "issuer certificate is required for a non-self-signed certificate")
  | Some i =>
    expected_digest ← issuer_digest subject;
    actual_digest ← view_calculate_digest i;
    _ ← throw_if (match expected_digest, actual_digest with
                  | Some e, Some a => negb (bool_decide (e = a))
                  | _, _ => true
                  end) (invalid_argument "issuer certificate does not match the subject issuer identifier");
    canonical ← view_canonicalize i;
    match canonical with
    | None => Throws (invalid_argument "issuer certificate cannot be canonicalized")
    | Some c => encode (Some c)
    end
  end.

Definition calculate_certificate_hash (algorithm : HashAlgorithm) (subject : view) (issuer : option view)
    (layer : SignatureLayer) : cpp bytes :=
  _ ← throw_if (bool_decide (algorithm = HashUnspecified))
        (invalid_argument "certificate hash algorithm is unspecified");
  data_input ← canonical_tbs subject layer;
  signer_input ← canonical_issuer subject issuer;
  let data_hash := calculate_hash algorithm data_input in
  let signer_hash := calculate_hash algorithm signer_input in
  Returns (calculate_hash algorithm (data_hash ++ signer_hash)).

(** * Signing and verifying *)

Definition sign_primary_certificate (subject : obj) (issuer : option view) (issuer_key : PrivateKey) : modifies :=
  then_modify
    (signer ← signing_certificate (Some subject) issuer;
     signer_copy ← copy_certificate_or_throw signer;
     let public_key := get_public_key signer_copy in
     match public_key with
     | None => Throws (invalid_argument "ECC private key does not match the issuer certificate key type")
     | Some public_key =>
       _ ← throw_if (negb (bool_decide (public_key.(pk_type) = issuer_key.(priv_type))))
             (invalid_argument "ECC private key does not match the issuer certificate key type");
       let algorithm := specified_hash_algorithm issuer_key.(priv_type) in
       digest ← calculate_certificate_hash algorithm (Some subject) issuer Primary;
       signature ← sign_digest issuer_key digest;
       ok ← verify_digest public_key digest signature;
       _ ← throw_if (negb ok)
             (invalid_argument "ECC private key does not match the issuer certificate public key");
       Returns signature
     end) subject (set_primary_signature subject).

Definition verify_primary_certificate (subject : view) (issuer : option view) : cpp bool :=
  try_catch
    (signer ← signing_certificate subject issuer;
     signer_copy ← copy_certificate_or_throw signer;
     subject_copy ← copy_certificate_or_throw subject;
     match get_public_key signer_copy, get_signature subject_copy with
     | Some public_key, Some signature =>
       if negb (bool_decide (public_key.(pk_type) = signature.(sig_type))) then Returns false
       else
         let algorithm := specified_hash_algorithm public_key.(pk_type) in
         digest ← calculate_certificate_hash algorithm subject issuer Primary;
         verify_digest public_key digest signature
     | _, _ => Returns false
     end)
    (Returns false).

Context {pqc : PqcBackend}.

Definition sign_alternative_certificate (subject : obj) (issuer : option view) (issuer_key : bytes) : modifies :=
  then_modify
    (signer ← signing_certificate (Some subject) issuer;
     public_key ← get_alternative_public_key signer;
     match public_key with
     | None => Throws (invalid_argument "issuer certificate has no FN-DSA-512 alternative key")
     | Some public_key =>
       digest ← calculate_certificate_hash SHA256 (Some subject) issuer Alternative;
       signature ← pqc_sign issuer_key digest;
       ok ← pqc_verify public_key digest signature;
       _ ← throw_if (negb ok)
             (invalid_argument "FN-DSA-512 private key does not match the issuer certificate public key");
       Returns signature
     end) subject (set_alternative_signature subject).

Definition verify_alternative_certificate (subject : view) (issuer : option view) : cpp bool :=
  try_catch
    (signer ← signing_certificate subject issuer;
     public_key ← get_alternative_public_key signer;
     signature ← get_alternative_signature subject;
     match public_key, signature with
     | Some public_key, Some signature =>
       digest ← calculate_certificate_hash SHA256 subject issuer Alternative;
       pqc_verify public_key digest signature
     | _, _ => Returns false
     end)
    (Returns false).

End Hybrid.
