(* ===== verification/HybridCertificateOk.v ===== *)
(** Correctness of hybrid certificates.

    What is signed depends on the value of the certificate only; the alternative
    signature is over everything but itself, the classical signature covers it; a
    certificate that was signed verifies, and keeps verifying when the second
    signature is added. *)

From stdpp Require Import prelude strings.
From S2P Require Import Prelude Codecs Integer Descriptor OerSupport OerPrim OerSpec OerSem OerCodec OerTheorems Pqc.
From S2P Require Import Asn1Wrapper SameValue SecurityTypes CertificateV3 CertificateV3Ok HybridCertificate Certificates.

(** * Writing members of the to-be-signed part *)

Lemma same_tbs_of o o' : same_cert o o' -> same_tbs (tbs_of o) (tbs_of o').
Proof.
  intros H. unfold tbs_of. destruct (proper_tbs o (same_refl_l _ _ _ _ H)) as (t & Et & _).
  pose proof (same_toBeSigned _ _ H) as Hs. rewrite Et in Hs |- *. destruct (toBeSigned (Some o')); by inv Hs.
Qed.

Lemma set_tbs_memb_same i e o o' m m' : seq_member asn_DEF_ToBeSignedCertificate i e ->
  member_wraps asn_DEF_ToBeSignedCertificate i e = true -> same_cert o o' -> same_member e m m' ->
  same_cert (set_tbs_memb i m o) (set_tbs_memb i m' o').
Proof.
  intros He Hw H Hm. unfold set_tbs_memb.
  eapply (same_set_memb _ _ 3); [table|by vm_compute|done|]. exact (same_set_memb _ _ _ _ _ _ _ _ He Hw (same_tbs_of _ _ H) Hm).
Qed.

(** The members of a sequence with a proper value are all there. *)
Lemma set_memb_same i td c e o : seq_member td i e -> same td c o o -> set_memb i (memb i (Some o)) o = o.
Proof.
  intros He (a & H & _). pose proof (seq_member_sem _ _ _ He) as Hse. destruct He as (specs & Hk & _).
  rewrite (sem_sequence _ _ Hk) in H. destruct o as [| | | | |ct b ms| |], a; try done. cbn [sp_repr sp_sequence] in H.
  destruct (repr_lookup _ _ _ _ _ H Hse) as (m & v & Hm & _). cbn [set_memb memb]. rewrite Hm. cbn [mjoin option_join].
  by rewrite list_insert_id.
Qed.

Lemma toBeSigned_set_tbs o t i m : toBeSigned (Some o) = Some t ->
  toBeSigned (Some (set_tbs_memb i m o)) = Some (set_memb i m t).
Proof.
  intros Ht. unfold set_tbs_memb, tbs_of. rewrite Ht. cbn [default from_option id].
  unfold toBeSigned in *. by rewrite (memb_set_memb_eq _ _ _ _ Ht).
Qed.

Lemma set_tbs_memb_twice i v w o t : toBeSigned (Some o) = Some t ->
  set_tbs_memb i v (set_tbs_memb i w o) = set_tbs_memb i v o.
Proof.
  intros Ht. unfold set_tbs_memb at 1 3. unfold tbs_of at 1. rewrite (toBeSigned_set_tbs _ _ _ _ Ht).
  cbn [default from_option id]. rewrite set_memb_twice. unfold set_tbs_memb, tbs_of. rewrite Ht. cbn [default from_option id].
  by rewrite set_memb_twice.
Qed.

(** Writing what is already there changes nothing. *)
Lemma set_tbs_memb_id i e o t : seq_member asn_DEF_ToBeSignedCertificate i e -> proper_cert o ->
  toBeSigned (Some o) = Some t -> set_tbs_memb i (memb i (Some t)) o = o.
Proof.
  intros He H Ht. destruct (proper_tbs o H) as (t' & Et & Hp). rewrite Ht in Et. injection Et as <-.
  unfold set_tbs_memb, tbs_of. rewrite Ht. cbn [default from_option id]. rewrite (set_memb_same _ _ _ _ _ He Hp).
  unfold toBeSigned in Ht. rewrite <- Ht. eapply set_memb_same; [|exact H]. table.
Qed.

(** Members outside the to-be-signed part. *)
Lemma memb_set_tbs i j m o : i <> 3%nat -> memb i (Some (set_tbs_memb j m o)) = memb i (Some o).
Proof. intros Hi. by apply memb_set_memb_ne. Qed.

(** * Extracting and clearing *)

Lemma same_alt_key o o' : same_cert o o' -> same_opt asn_DEF_PublicVerificationKey None
  (altVerificationKey (toBeSigned (Some o))) (altVerificationKey (toBeSigned (Some o'))).
Proof. intros H%same_toBeSigned. member_at 16%nat H. exact H. Qed.

Lemma same_alt_signature o o' : same_cert o o' -> same_opt asn_DEF_Signature None
  (altSignatureValue (toBeSigned (Some o))) (altSignatureValue (toBeSigned (Some o'))).
Proof. intros H%same_toBeSigned. member_at 17%nat H. exact H. Qed.

Lemma same_extract_key o o' : same_cert o o' -> extract_alternative_public_key o = extract_alternative_public_key o'.
Proof.
  intros H%same_alt_key. unfold extract_alternative_public_key, copy_octets. destruct H as [k k' H|]; [|done].
  apply same_opt_some in H. rewrite <- (same_opt_present _ _ _ _ _ H eq_refl). alternative_at 5%nat H; [|done].
  by rewrite (same_opt_octets _ _ _ _ _ H eq_refl).
Qed.

Lemma same_extract_signature o o' : same_cert o o' -> extract_alternative_signature o = extract_alternative_signature o'.
Proof.
  intros H%same_alt_signature. unfold extract_alternative_signature, copy_octets. destruct H as [k k' H|]; [|done].
  apply same_opt_some in H. rewrite <- (same_opt_present _ _ _ _ _ H eq_refl). alternative_at 5%nat H; [|done].
  by rewrite (same_opt_octets _ _ _ _ _ H eq_refl).
Qed.

Lemma clear_signature_eq o : proper_cert o -> clear_alternative_signature o = set_tbs_memb 17 None o.
Proof.
  intros H. destruct (proper_tbs o H) as (t & Ht & _). unfold clear_alternative_signature, altSignatureValue. rewrite Ht.
  destruct (memb 17 (Some t)) as [s|] eqn:Es; [done|]. cbn [is_null]. rewrite <- Es.
  symmetry. eapply set_tbs_memb_id; [|done..]. table.
Qed.

Lemma clear_key_eq o : proper_cert o -> clear_alternative_public_key o = set_tbs_memb 16 None o.
Proof.
  intros H. destruct (proper_tbs o H) as (t & Ht & _). unfold clear_alternative_public_key, altVerificationKey. rewrite Ht.
  destruct (memb 16 (Some t)) as [s|] eqn:Es; [done|]. cbn [is_null]. rewrite <- Es.
  symmetry. eapply set_tbs_memb_id; [|done..]. table.
Qed.

Lemma clear_signature_same o o' : same_cert o o' ->
  same_cert (clear_alternative_signature o) (clear_alternative_signature o').
Proof.
  intros H. rewrite !clear_signature_eq by (by first [eapply same_refl_l|eapply same_refl_r]).
  eapply set_tbs_memb_same; [table|by vm_compute|done|done].
Qed.

(** * Setting the alternative key and signature *)

Lemma octets_fromBuf l : octets (Some (OCTET_STRING_fromBuf l)) = l.
Proof. by destruct l. Qed.

(** Octets of the size a string type prescribes. *)
Lemma fromBuf_same td c l : kind td = OCTET_STRING (Some ASN_OSUBV_STR) -> all_bytes l ->
  0 <= ct_size (pick_cts c (let '(TD _ _ _ cts _) := td in cts)) ->
  size l = ct_size (pick_cts c (let '(TD _ _ _ cts _) := td in cts)) ->
  same td c (OCTET_STRING_fromBuf l) (OCTET_STRING_fromBuf l).
Proof.
  intros Hk Hl Hp Hs. unfold OCTET_STRING_fromBuf.
  destruct l as [|b l]; (eapply same_octets_intro; [done|done|done|done|..]; cbn [default from_option id]; done).
Qed.

Lemma alternative_signature_proper ct l : all_bytes l -> size l = fndsa512_signature_size ->
  let s := O_CHOICE ct Signature_PR_fnDsa512Signature (Some (OCTET_STRING_fromBuf l)) in
  same asn_DEF_Signature None s s.
Proof.
  intros Hl Hs s. apply (same_choice_intro asn_DEF_Signature _ None 5 _ ct ct _ _ eq_refl eq_refl); [by vm_compute|].
  by apply fromBuf_same.
Qed.

Lemma alternative_key_proper ct l : all_bytes l -> size l = fndsa512_public_key_size ->
  let k := O_CHOICE ct PublicVerificationKey_PR_fnDsa512 (Some (OCTET_STRING_fromBuf l)) in
  same asn_DEF_PublicVerificationKey None k k.
Proof.
  intros Hl Hs s. apply (same_choice_intro asn_DEF_PublicVerificationKey _ None 5 _ ct ct _ _ eq_refl eq_refl);
    [by vm_compute|]. by apply fromBuf_same.
Qed.

Lemma assign_octets_ok l : size l <= 2 ^ 31 - 1 -> assign_octets l = Returns (OCTET_STRING_fromBuf l).
Proof. intros H. unfold assign_octets. by destruct (Z.ltb_spec (2 ^ 31 - 1) (size l)); [lia|]. Qed.

(** The certificate with an alternative signature, and with an alternative key. *)
Definition with_signature (l : bytes) (o : obj) : obj :=
  set_tbs_memb 17 (Some (O_CHOICE ctx_zero Signature_PR_fnDsa512Signature (Some (OCTET_STRING_fromBuf l)))) o.
Definition with_key (l : bytes) (o : obj) : obj :=
  set_tbs_memb 16 (Some (O_CHOICE ctx_zero PublicVerificationKey_PR_fnDsa512 (Some (OCTET_STRING_fromBuf l)))) o.

Lemma set_alternative_signature_eq o l : proper_cert o -> size l = fndsa512_signature_size ->
  set_alternative_signature o l = (Returns (), with_signature l o).
Proof.
  intros H Hs. unfold set_alternative_signature. rewrite Hs. cbn [negb Z.eqb].
  change (fndsa512_signature_size =? fndsa512_signature_size) with true. cbn [negb].
  rewrite assign_octets_ok by (rewrite Hs; by vm_compute). cbn [then_modify]. rewrite clear_signature_eq by done.
  destruct (proper_tbs o H) as (t & Ht & _). by rewrite (set_tbs_memb_twice _ _ _ _ t).
Qed.

Lemma set_alternative_public_key_eq o l : proper_cert o -> size l = fndsa512_public_key_size ->
  set_alternative_public_key o l = (Returns (), with_key l o).
Proof.
  intros H Hs. unfold set_alternative_public_key. rewrite Hs.
  change (fndsa512_public_key_size =? fndsa512_public_key_size) with true. cbn [negb].
  rewrite assign_octets_ok by (rewrite Hs; by vm_compute). cbn [then_modify]. rewrite clear_key_eq by done.
  destruct (proper_tbs o H) as (t & Ht & _). by rewrite (set_tbs_memb_twice _ _ _ _ t).
Qed.

Lemma with_signature_same o o' l : same_cert o o' -> all_bytes l -> size l = fndsa512_signature_size ->
  same_cert (with_signature l o) (with_signature l o').
Proof.
  intros H Hl Hs. eapply set_tbs_memb_same; [table|by vm_compute|done|]. by apply alternative_signature_proper.
Qed.

Lemma with_key_same o o' l : same_cert o o' -> all_bytes l -> size l = fndsa512_public_key_size ->
  same_cert (with_key l o) (with_key l o').
Proof. intros H Hl Hs. eapply set_tbs_memb_same; [table|by vm_compute|done|]. by apply alternative_key_proper. Qed.

(** The member that was written, read back. *)
Lemma toBeSigned_written o i e m : proper_cert o -> seq_member asn_DEF_ToBeSignedCertificate i e ->
  memb i (toBeSigned (Some (set_tbs_memb i m o))) = m /\
  forall j, j <> i -> memb j (toBeSigned (Some (set_tbs_memb i m o))) = memb j (toBeSigned (Some o)).
Proof.
  intros H He. destruct (proper_tbs o H) as (t & Ht & (a & Hr & _)). rewrite (toBeSigned_set_tbs _ _ _ _ Ht), Ht.
  split; [|intros j Hj; by apply memb_set_memb_ne].
  pose proof (seq_member_sem _ _ _ He) as Hse. destruct He as (specs & Hk & _). rewrite (sem_sequence _ _ Hk) in Hr.
  destruct t as [| | | | |ct b ms| |], a; try done. cbn [sp_repr sp_sequence] in Hr.
  destruct (repr_lookup _ _ _ _ _ Hr Hse) as (x & v & Hx & _). cbn [set_memb memb].
  by rewrite list_lookup_insert_eq by (by eapply lookup_lt_Some).
Qed.

Lemma extract_with_signature o l : proper_cert o -> size l = fndsa512_signature_size ->
  extract_alternative_signature (with_signature l o) = Some l.
Proof.
  intros H Hs. unfold extract_alternative_signature, altSignatureValue, with_signature.
  eapply toBeSigned_written in H as [-> _]; [|table]. cbn [present choice]. unfold copy_octets. rewrite octets_fromBuf, Hs. done.
Qed.

Lemma extract_with_key o l : proper_cert o -> size l = fndsa512_public_key_size ->
  extract_alternative_public_key (with_key l o) = Some l.
Proof.
  intros H Hs. unfold extract_alternative_public_key, altVerificationKey, with_key.
  eapply toBeSigned_written in H as [-> _]; [|table]. cbn [present choice]. unfold copy_octets. rewrite octets_fromBuf, Hs. done.
Qed.

Lemma extract_key_with_signature o l : proper_cert o ->
  extract_alternative_public_key (with_signature l o) = extract_alternative_public_key o.
Proof.
  intros H. unfold extract_alternative_public_key, altVerificationKey, with_signature. set (m := Some (O_CHOICE _ _ _)).
  eapply (toBeSigned_written o 17 _ m) in H as [_ H]; [|table]. by rewrite H.
Qed.

Lemma clear_with_signature o l : proper_cert o -> all_bytes l -> size l = fndsa512_signature_size ->
  clear_alternative_signature (with_signature l o) = clear_alternative_signature o.
Proof.
  intros H Hl Hs. rewrite (clear_signature_eq _ (with_signature_same _ _ _ H Hl Hs)), (clear_signature_eq _ H).
  destruct (proper_tbs o H) as (t & Ht & _). unfold with_signature. by rewrite (set_tbs_memb_twice _ _ _ _ t).
Qed.

(** * The classical signature *)

Definition signature_alternative (t : KeyType) : Z :=
  match t with
  | NistP256 => Signature_PR_ecdsaNistP256Signature
  | BrainpoolP256r1 => Signature_PR_ecdsaBrainpoolP256r1Signature
  | BrainpoolP384r1 => Signature_PR_ecdsaBrainpoolP384r1Signature
  | Unspecified => 0
  end.

Definition primary_signature (sig : EccSignature) : obj :=
  O_CHOICE ctx_zero (signature_alternative sig.(sig_type)) (Some (O_SEQ ctx_zero None
    [Some (O_CHOICE ctx_zero EccP256CurvePoint_PR_x_only (Some (OCTET_STRING_fromBuf sig.(sig_r))));
     Some (OCTET_STRING_fromBuf sig.(sig_s))])).

(** A signature with coordinates of the right size. *)
Record proper_sig (sig : EccSignature) : Prop := {
  ps_r : all_bytes sig.(sig_r); ps_s : all_bytes sig.(sig_s);
  ps_type : sig.(sig_type) <> Unspecified;
  ps_size_r : size sig.(sig_r) = key_length sig.(sig_type);
  ps_size_s : size sig.(sig_s) = key_length sig.(sig_type);
}.

Lemma primary_signature_proper sig : proper_sig sig -> same asn_DEF_Signature None (primary_signature sig) (primary_signature sig).
Proof.
  intros [Hr Hs Ht Hzr Hzs]. unfold primary_signature. destruct (sig_type sig); [done| | |]; cbn [key_length] in *.
  1: apply (same_choice_intro asn_DEF_Signature _ None 0 _ ctx_zero ctx_zero _ _ eq_refl eq_refl); [by vm_compute|].
  2: apply (same_choice_intro asn_DEF_Signature _ None 1 _ ctx_zero ctx_zero _ _ eq_refl eq_refl); [by vm_compute|].
  3: apply (same_choice_intro asn_DEF_Signature _ None 2 _ ctx_zero ctx_zero _ _ eq_refl eq_refl); [by vm_compute|].
  all: (eapply same_seq_intro; [reflexivity|by vm_compute|by vm_compute|]); split; [done|]; (split; [|split; [done|split; [|done]]]);
    [|by apply fromBuf_same].
  1, 2: by apply (same_coordinate _ _ _ 0 _ _ _ _ point_type_P256); [left|apply fromBuf_same].
  by apply (same_coordinate _ _ _ 0 _ _ _ _ point_type_P384); [left|apply fromBuf_same].
Qed.

(** The certificate with a classical signature. *)
Definition with_primary (sig : EccSignature) (o : obj) : obj := set_memb 4 (Some (primary_signature sig)) o.

Lemma set_primary_signature_eq o sig : proper_sig sig -> set_primary_signature o sig = (Returns (), with_primary sig o).
Proof.
  intros [Hr Hs Ht Hzr Hzs]. unfold set_primary_signature, with_primary, primary_signature.
  rewrite Hzr, Hzs, !Z.eqb_refl. cbn [negb orb].
  rewrite !assign_octets_ok by (rewrite ?Hzr, ?Hzs; by destruct (sig_type sig)). by destruct (sig_type sig).
Qed.

Lemma with_primary_same o o' sig : same_cert o o' -> proper_sig sig -> same_cert (with_primary sig o) (with_primary sig o').
Proof.
  intros H Hs. eapply (same_set_memb _ _ 4); [table|by vm_compute|done|]. by apply primary_signature_proper.
Qed.

Lemma toBeSigned_with_primary o sig : toBeSigned (Some (with_primary sig o)) = toBeSigned (Some o).
Proof. by apply memb_set_memb_ne. Qed.

(** What is signed comes back. *)
Lemma get_signature_with_primary o sig : proper_cert o -> proper_sig sig -> get_signature (with_primary sig o) = Some sig.
Proof.
  intros H [Hr Hs Ht _ _]. unfold get_signature, signature, with_primary.
  assert (memb 4 (Some (set_memb 4 (Some (primary_signature sig)) o)) = Some (primary_signature sig)) as ->.
  { destruct H as (a & H & _). rewrite (sem_sequence asn_DEF_EtsiTs103097Certificate _ eq_refl) in H.
    destruct o as [| | | | |ct b ms| |], a; try done. eapply (repr_lookup _ _ _ 4) in H as (m & v & Hm & _); [|reflexivity].
    cbn [set_memb memb]. by rewrite list_lookup_insert_eq by (by eapply lookup_lt_Some). }
  destruct sig as [r s t]. cbn [sig_r sig_s sig_type] in *.
  transitivity (Some {| sig_r := octets (Some (OCTET_STRING_fromBuf r)); sig_s := octets (Some (OCTET_STRING_fromBuf s));
                        sig_type := t |}); [by destruct t|by rewrite !octets_fromBuf].
Qed.

(** * What is signed *)

Section Inputs.
Context {pf : Platform} {fits : StackFits pf} {sha : Sha} {ecc : Backend}.

Lemma copy_certificate_same o : proper_cert o -> exists o', copy_certificate (Some o) = Returns (Some o') /\ same_cert o o'.
Proof.
  intros H. destruct (encode_cert_same o o H) as (bs & E & _). unfold copy_certificate. rewrite E. cbn [mbind cpp_bind].
  destruct (decode_oer_same asn_DEF_EtsiTs103097Certificate o bs _ wf_etsi_certificate eq_refl H E (or_intror eq_refl))
    as (o' & -> & H'). by exists o'.
Qed.

Lemma copy_or_throw_same o : proper_cert o -> exists o', copy_certificate_or_throw (Some o) = Returns o' /\ same_cert o o'.
Proof.
  intros H. unfold copy_certificate_or_throw. destruct (copy_certificate_same o H) as (o' & -> & H'). by exists o'.
Qed.

Lemma get_alternative_public_key_eq o : proper_cert o ->
  get_alternative_public_key (Some o) = Returns (extract_alternative_public_key o).
Proof.
  intros H. unfold get_alternative_public_key. destruct (copy_certificate_same o H) as (o' & -> & H').
  cbn. by rewrite (same_extract_key _ _ H').
Qed.

Lemma get_alternative_signature_eq o : proper_cert o ->
  get_alternative_signature (Some o) = Returns (extract_alternative_signature o).
Proof.
  intros H. unfold get_alternative_signature. destruct (copy_certificate_same o H) as (o' & -> & H').
  cbn. by rewrite (same_extract_signature _ _ H').
Qed.

Definition cannot_canonicalize : exception := invalid_argument "certificate cannot be canonicalized".

(** The octets to be signed, for a certificate whose parts can be canonicalized. *)
Definition tbs_input (o : obj) : cpp bytes :=
  if (canonicalize_in_place o).1
  then encode_oer asn_DEF_ToBeSignedCertificate (Some (canonicalize_tbs (tbs_of o)).2)
  else Throws cannot_canonicalize.

Lemma tbs_of_canonical o : proper_cert o -> tbs_of (canonicalize_in_place o).2 = (canonicalize_tbs (tbs_of o)).2.
Proof.
  intros H. destruct (proper_tbs o H) as (t & Ht & _). unfold tbs_of. by rewrite (canonicalize_toBeSigned _ _ Ht), Ht.
Qed.

Lemma tbs_input_same o o' : same_cert o o' -> tbs_input o = tbs_input o'.
Proof.
  intros H. unfold tbs_input. destruct (canonicalize_respects _ _ H) as [-> _]. destruct (_.1); [|done].
  destruct (canonicalize_tbs_respects None _ _ (same_tbs_of _ _ H)) as [_ Hs].
  by destruct (encode_tbs_same _ _ Hs) as (bs & -> & ->).
Qed.

(** The layer decides whether the alternative signature takes part. *)
Definition layer_cert (layer : SignatureLayer) (o : obj) : obj :=
  if decide (layer = Alternative) then clear_alternative_signature o else o.

Lemma layer_cert_same layer o o' : same_cert o o' -> same_cert (layer_cert layer o) (layer_cert layer o').
Proof. intros H. unfold layer_cert. destruct (decide _); [by apply clear_signature_same|done]. Qed.

Lemma canonical_tbs_eq o layer : proper_cert o -> canonical_tbs (Some o) layer = tbs_input (layer_cert layer o).
Proof.
  intros H. unfold canonical_tbs. destruct (copy_or_throw_same o H) as (o1 & -> & H1). cbn [mbind cpp_bind].
  pose proof (layer_cert_same layer _ _ H1) as Hl. rewrite (tbs_input_same _ _ Hl). fold (layer_cert layer o1).
  set (c := layer_cert layer o1) in *. pose proof (same_refl_r _ _ _ _ Hl) as Hc. unfold tbs_input.
  pose proof (canonicalize_spec c Hc) as Hs. destruct (canonicalize_in_place c).1; [|by rewrite Hs].
  destruct Hs as (c' & -> & Hs). rewrite <- (tbs_of_canonical c Hc). cbn [mbind cpp_bind].
  by destruct (encode_tbs_same _ _ (same_tbs_of _ _ Hs)) as (bs & -> & ->).
Qed.

(** The result is octets or the exception; there is always one. *)
Lemma tbs_input_total o : proper_cert o ->
  (exists bs, tbs_input o = Returns bs) \/ tbs_input o = Throws cannot_canonicalize.
Proof.
  intros H. unfold tbs_input. destruct (_.1); [left|by right].
  destruct (canonicalize_tbs_respects None _ _ (same_tbs_of _ _ H)) as [_ Hs].
  destruct (encode_tbs_same _ _ Hs) as (bs & Hb & _). by exists bs.
Qed.

(** ** Reading the issuer *)

Lemma same_issuer_digest o o' : same_cert o o' -> issuer_digest (Some o) = issuer_digest (Some o').
Proof.
  intros H%same_issuer. unfold issuer_digest. rewrite <- (same_opt_present _ _ _ _ _ H eq_refl).
  pose proof H as H1. alternative_at 0%nat H; [cbn [orb]; by rewrite (same_opt_octets _ _ _ _ _ H eq_refl)|].
  alternative_at 2%nat H1; [cbn [orb]; by rewrite (same_opt_octets _ _ _ _ _ H1 eq_refl)|done].
Qed.

Lemma issuer_digest_memb o o' : memb 2 (Some o) = memb 2 (Some o') -> issuer_digest (Some o) = issuer_digest (Some o').
Proof. intros H. unfold issuer_digest, issuer. by rewrite H. Qed.

Lemma issuer_is_self_memb o o' : memb 2 (Some o) = memb 2 (Some o') -> issuer_is_self (Some o) = issuer_is_self (Some o').
Proof. intros H. unfold issuer_is_self, issuer. by rewrite H. Qed.

(** The hash of two subjects with the same issuer field and the same input. *)
Lemma certificate_hash_eq algo o o' i layer : memb 2 (Some o) = memb 2 (Some o') ->
  canonical_tbs (Some o) layer = canonical_tbs (Some o') layer ->
  calculate_certificate_hash algo (Some o) i layer = calculate_certificate_hash algo (Some o') i layer.
Proof.
  intros Hm Hc. unfold calculate_certificate_hash, canonical_issuer.
  by rewrite Hc, (issuer_is_self_memb _ _ Hm), (issuer_digest_memb _ _ Hm).
Qed.

End Inputs.

(** * Signing, then verifying *)

(** What the code relies on: signatures are octets, and a signature that verifies has
    the type of the key (both back ends compare the types first). *)
Class BackendOk (ecc : Backend) : Prop := {
  sign_digest_octets k d s : sign_digest k d = Returns s -> all_bytes s.(sig_r) /\ all_bytes s.(sig_s);
  verify_digest_type p d s : verify_digest p d s = Returns true -> s.(sig_type) = p.(pk_type);
}.

Class PqcBackendOk (pqc : PqcBackend) : Prop :=
  pqc_sign_octets k d s : pqc_sign k d = Returns s -> all_bytes s.

Lemma then_modify_returns {A} (m : cpp A) cert k c : then_modify m cert k = (Returns (), c) ->
  exists a, m = Returns a /\ k a = (Returns (), c).
Proof. destruct m as [a| |]; intros H; [by exists a|done|done]. Qed.

Lemma get_public_key_type o k : get_public_key o = Some k -> k.(pk_type) <> Unspecified.
Proof.
  unfold get_public_key, copy_curve_point_P256, copy_curve_point_P384.
  repeat destruct (_ =? _); cbn; intros [= <-]; done.
Qed.

Section Signing.
Context {pf : Platform} {fits : StackFits pf} {sha : Sha} {ecc : Backend} {pqc : PqcBackend}.

(** The certificate that signs does not change its keys when the subject is signed. *)
Lemma signing_certificate_cases o o' i : memb 2 (Some o) = memb 2 (Some o') ->
  (exists j, signing_certificate (Some o) i = Returns j /\ signing_certificate (Some o') i = Returns j) \/
  (signing_certificate (Some o) i = Returns (Some o) /\ signing_certificate (Some o') i = Returns (Some o')) \/
  (exists e, signing_certificate (Some o) i = Throws e).
Proof.
  intros Hm. unfold signing_certificate. rewrite (issuer_is_self_memb _ _ Hm). cbn [issuer_is_self mbind cpp_bind].
  destruct (_ =? _); [by right; left|]. destruct i as [j|]; [left; by exists j|right; right; by eexists].
Qed.

Lemma alternative_hash_with_signature algo o l i : proper_cert o -> all_bytes l -> size l = fndsa512_signature_size ->
  calculate_certificate_hash algo (Some (with_signature l o)) i Alternative =
  calculate_certificate_hash algo (Some o) i Alternative.
Proof.
  intros H Hl Hs. apply certificate_hash_eq; [by apply memb_set_tbs|].
  rewrite (canonical_tbs_eq _ _ (with_signature_same _ _ _ H Hl Hs)), canonical_tbs_eq by done.
  unfold layer_cert. cbn. by rewrite clear_with_signature.
Qed.

(** What [sign_alternative_certificate] does when it returns. *)
Lemma sign_alternative_inv o i key o' : PqcBackendOk pqc -> proper_cert o ->
  sign_alternative_certificate o i key = (Returns (), o') ->
  exists signer pk digest sig, signing_certificate (Some o) i = Returns signer /\
    get_alternative_public_key signer = Returns (Some pk) /\
    calculate_certificate_hash SHA256 (Some o) i Alternative = Returns digest /\
    pqc_sign key digest = Returns sig /\ pqc_verify pk digest sig = Returns true /\
    all_bytes sig /\ size sig = fndsa512_signature_size /\ o' = with_signature sig o.
Proof.
  intros Hok H Hs. unfold sign_alternative_certificate in Hs. apply then_modify_returns in Hs as (sig & Hm & Hs).
  apply bind_returns in Hm as (signer & Hsigner & Hm). apply bind_returns in Hm as (pk & Hpk & Hm).
  destruct pk as [pk|]; [|done]. apply bind_returns in Hm as (digest & Hd & Hm).
  apply bind_returns in Hm as (sig' & Hsig & Hm). apply bind_returns in Hm as (okv & Hv & Hm).
  apply bind_returns in Hm as (u & Hu%throw_if_returns & [= ->]). apply negb_false_iff in Hu. subst okv.
  assert (size sig = fndsa512_signature_size) as Hsz.
  { unfold set_alternative_signature in Hs. destruct (Z.eqb_spec (size sig) fndsa512_signature_size); [done|discriminate Hs]. }
  rewrite (set_alternative_signature_eq o sig H Hsz) in Hs. injection Hs as <-.
  exists signer, pk, digest, sig. repeat split; try done. by eapply Hok.
Qed.

(** What [sign_primary_certificate] does when it returns. *)
Lemma sign_primary_inv o i key o' : BackendOk ecc ->
  sign_primary_certificate o i key = (Returns (), o') ->
  exists signer copy pk digest sig, signing_certificate (Some o) i = Returns signer /\
    copy_certificate_or_throw signer = Returns copy /\ get_public_key copy = Some pk /\
    calculate_certificate_hash (specified_hash_algorithm pk.(pk_type)) (Some o) i Primary = Returns digest /\
    verify_digest pk digest sig = Returns true /\ sig.(sig_type) = pk.(pk_type) /\ proper_sig sig /\ o' = with_primary sig o.
Proof.
  intros Hok Hs. unfold sign_primary_certificate in Hs. apply then_modify_returns in Hs as (sig & Hm & Hs).
  apply bind_returns in Hm as (signer & Hsigner & Hm). apply bind_returns in Hm as (copy & Hcopy & Hm). cbv zeta in Hm.
  destruct (get_public_key copy) as [pk|] eqn:Hpk; [|done].
  apply bind_returns in Hm as (u & Hu%throw_if_returns & Hm). apply negb_false_iff, bool_decide_eq_true in Hu.
  apply bind_returns in Hm as (digest & Hd & Hm). apply bind_returns in Hm as (sig' & Hsig & Hm).
  apply bind_returns in Hm as (okv & Hv & Hm). apply bind_returns in Hm as (u' & Hu'%throw_if_returns & [= ->]).
  apply negb_false_iff in Hu'. subst okv. pose proof (verify_digest_type _ _ _ Hv) as Ht.
  destruct (sign_digest_octets _ _ _ Hsig) as [Hr Hb].
  assert (proper_sig sig) as Hp.
  { unfold set_primary_signature in Hs. destruct (Z.eqb_spec (size (sig_r sig)) (key_length (sig_type sig))); [|discriminate Hs].
    destruct (Z.eqb_spec (size (sig_s sig)) (key_length (sig_type sig))); [|discriminate Hs].
    split; try done. rewrite Ht. by eapply get_public_key_type. }
  rewrite (set_primary_signature_eq _ _ Hp) in Hs. injection Hs as <-. rewrite <- Hu in Hd.
  by exists signer, copy, pk, digest, sig.
Qed.

Lemma x_only_primary sig : sig.(sig_type) <> Unspecified -> (make_signature_x_only (primary_signature sig)).1 = true.
Proof. destruct sig as [r s []]; done. Qed.

Lemma signature_with_primary o sig : proper_cert o -> signature (Some (with_primary sig o)) = Some (primary_signature sig).
Proof.
  intros (a & H & _). rewrite (sem_sequence asn_DEF_EtsiTs103097Certificate _ eq_refl) in H.
  destruct o as [| | | | |ct b ms| |], a; try done. eapply (repr_lookup _ _ _ 4) in H as (m & v & Hm & _); [|reflexivity].
  unfold signature, with_primary. cbn [set_memb memb]. by rewrite list_lookup_insert_eq by (by eapply lookup_lt_Some).
Qed.

(** The classical signature takes no part in what is signed. *)
Lemma tbs_input_with_primary o sig bs : proper_cert o -> proper_sig sig -> tbs_input o = Returns bs ->
  tbs_input (with_primary sig o) = Returns bs.
Proof.
  intros H Hp Hb. destruct (proper_tbs o H) as (t & Ht & _). unfold tbs_input in *. rewrite (in_place_success _ _ Ht) in Hb.
  pose proof Ht as Ht'. rewrite <- (toBeSigned_with_primary o sig) in Ht'. rewrite (in_place_success _ _ Ht').
  rewrite signature_with_primary, x_only_primary by (done || apply Hp). unfold tbs_of in *.
  rewrite toBeSigned_with_primary, Ht. rewrite Ht in Hb. destruct (canonicalize_tbs t).1; [|done]. cbn [andb] in *.
  by destruct (match signature (Some o) with Some s => _ | None => true end).
Qed.

Lemma layer_with_primary o sig layer : proper_cert o -> proper_sig sig ->
  layer_cert layer (with_primary sig o) = with_primary sig (layer_cert layer o).
Proof.
  intros H Hp. unfold layer_cert. destruct (decide _); [|done].
  rewrite (clear_signature_eq _ (with_primary_same _ _ _ H Hp)), (clear_signature_eq _ H).
  unfold set_tbs_memb, tbs_of. rewrite toBeSigned_with_primary. by apply set_memb_comm.
Qed.

Lemma hash_with_primary algo o sig i layer digest : proper_cert o -> proper_sig sig ->
  calculate_certificate_hash algo (Some o) i layer = Returns digest ->
  calculate_certificate_hash algo (Some (with_primary sig o)) i layer = Returns digest.
Proof.
  intros H Hp Hd. rewrite <- Hd. apply certificate_hash_eq; [by apply memb_set_memb_ne|].
  unfold calculate_certificate_hash in Hd. apply bind_returns in Hd as (u & _ & Hd). apply bind_returns in Hd as (bs & Hb & _).
  rewrite Hb, (canonical_tbs_eq _ _ (with_primary_same _ _ _ H Hp)), (layer_with_primary _ _ _ H Hp).
  rewrite (canonical_tbs_eq _ _ H) in Hb. apply tbs_input_with_primary; [by apply layer_cert_same|done|done].
Qed.

(** [verify_alternative_certificate] unfolded to what it checks. *)
Lemma verify_alternative_intro o i signer pk digest sig : signing_certificate (Some o) i = Returns signer ->
  get_alternative_public_key signer = Returns (Some pk) -> get_alternative_signature (Some o) = Returns (Some sig) ->
  calculate_certificate_hash SHA256 (Some o) i Alternative = Returns digest -> pqc_verify pk digest sig = Returns true ->
  verify_alternative_certificate (Some o) i = Returns true.
Proof. intros H1 H2 H3 H4 H5. unfold verify_alternative_certificate. rewrite H1; cbn. rewrite H2; cbn. rewrite H3; cbn. rewrite H4; cbn. by rewrite H5. Qed.

Lemma verify_alternative_inv o i : verify_alternative_certificate (Some o) i = Returns true ->
  exists signer pk digest sig, signing_certificate (Some o) i = Returns signer /\
    get_alternative_public_key signer = Returns (Some pk) /\ get_alternative_signature (Some o) = Returns (Some sig) /\
    calculate_certificate_hash SHA256 (Some o) i Alternative = Returns digest /\ pqc_verify pk digest sig = Returns true.
Proof.
  intros H. unfold verify_alternative_certificate in H. apply try_catch_returns in H as [H|[_ H]]; [|done].
  apply bind_returns in H as (signer & H1 & H). apply bind_returns in H as (pk & H2 & H). apply bind_returns in H as (sig & H3 & H).
  destruct pk as [pk|], sig as [sig|]; try done. apply bind_returns in H as (digest & H4 & H).
  by exists signer, pk, digest, sig.
Qed.

(** The alternative key of the signer before and after a change of the subject. *)
Lemma signer_key o o' i signer pk : proper_cert o -> proper_cert o' -> memb 2 (Some o) = memb 2 (Some o') ->
  extract_alternative_public_key o' = extract_alternative_public_key o ->
  signing_certificate (Some o) i = Returns signer -> get_alternative_public_key signer = Returns (Some pk) ->
  exists signer', signing_certificate (Some o') i = Returns signer' /\ get_alternative_public_key signer' = Returns (Some pk).
Proof.
  intros H H' Hm He Hs Hk. destruct (signing_certificate_cases o o' i Hm) as [(j & E & E')|[[E E']|(e & E)]].
  - rewrite E in Hs. injection Hs as <-. by exists j.
  - rewrite E in Hs. injection Hs as <-. exists (Some o'). split; [done|].
    rewrite get_alternative_public_key_eq in * by done. by rewrite He.
  - congruence.
Qed.

Lemma sign_alternative_ok o i key o' : PqcBackendOk pqc -> proper_cert o ->
  sign_alternative_certificate o i key = (Returns (), o') ->
  proper_cert o' /\ verify_alternative_certificate (Some o') i = Returns true.
Proof.
  intros Hok H Hs.
  destruct (sign_alternative_inv o i key o' Hok H Hs) as (signer & pk & digest & sig & H1 & H2 & H3 & _ & H5 & Hl & Hz & ->).
  pose proof (with_signature_same _ _ _ H Hl Hz) as H'. split; [done|].
  destruct (signer_key o (with_signature sig o) i signer pk) as (signer' & E1 & E2); try done;
    [symmetry; by apply memb_set_tbs|by apply extract_key_with_signature|].
  apply (verify_alternative_intro _ _ signer' pk digest sig); try done.
  - by rewrite get_alternative_signature_eq, extract_with_signature.
  - by rewrite alternative_hash_with_signature.
Qed.

(** Adding the classical signature keeps the alternative one valid. *)
Lemma verify_alternative_with_primary o i sig : proper_cert o -> proper_sig sig ->
  verify_alternative_certificate (Some o) i = Returns true ->
  verify_alternative_certificate (Some (with_primary sig o)) i = Returns true.
Proof.
  intros H Hp Hv. apply verify_alternative_inv in Hv as (signer & pk & digest & alt & H1 & H2 & H3 & H4 & H5).
  pose proof (with_primary_same _ _ _ H Hp) as H'.
  destruct (signer_key o (with_primary sig o) i signer pk) as (signer' & E1 & E2); try done;
    [symmetry; by apply memb_set_memb_ne|by unfold extract_alternative_public_key; rewrite toBeSigned_with_primary|].
  apply (verify_alternative_intro _ _ signer' pk digest alt); try done.
  - rewrite get_alternative_signature_eq in * by done. unfold extract_alternative_signature in *.
    by rewrite toBeSigned_with_primary.
  - by apply hash_with_primary.
Qed.

Lemma sign_primary_ok o i key o' : BackendOk ecc -> proper_cert o ->
  sign_primary_certificate o i key = (Returns (), o') ->
  proper_cert o' /\ verify_primary_certificate (Some o') i = Returns true.
Proof.
  intros Hok H Hs.
  destruct (sign_primary_inv o i key o' Hok Hs) as (signer & copy & pk & digest & sig & H1 & H2 & H3 & H4 & H5 & Ht & Hp & ->).
  pose proof (with_primary_same _ _ _ H Hp) as H'. split; [done|].
  assert (exists signer' copy', signing_certificate (Some (with_primary sig o)) i = Returns signer' /\
    copy_certificate_or_throw signer' = Returns copy' /\ get_public_key copy' = Some pk) as (signer' & copy' & E1 & E2 & E3).
  { destruct (signing_certificate_cases o (with_primary sig o) i) as [(j & E & E')|[[E E']|(e & E)]];
      [symmetry; by apply memb_set_memb_ne| | |congruence]; rewrite E in H1; injection H1 as <-.
    - by exists j, copy.
    - destruct (copy_or_throw_same _ H') as (copy' & Hc & Hs'). exists (Some (with_primary sig o)), copy'. do 2 (split; [done|]).
      rewrite <- (same_public_key _ _ Hs'). unfold get_public_key. rewrite toBeSigned_with_primary.
      destruct (copy_or_throw_same _ H) as (c & Hc' & Hsc). rewrite Hc' in H2. injection H2 as <-.
      rewrite <- H3. symmetry. exact (eq_sym (same_public_key _ _ Hsc)). }
  destruct (copy_or_throw_same _ H') as (subject_copy & Hc & Hsc).
  unfold verify_primary_certificate. rewrite E1; cbn [mbind cpp_bind]. rewrite E2; cbn [mbind cpp_bind].
  rewrite Hc; cbn [mbind cpp_bind]. rewrite E3, <- (same_get_signature _ _ Hsc), get_signature_with_primary by done.
  rewrite bool_decide_true by done. cbn [negb]. rewrite (hash_with_primary _ _ _ _ _ _ H Hp H4). cbn [mbind cpp_bind].
  by rewrite H5.
Qed.

Lemma sign_primary_keeps_alternative o i key o' : BackendOk ecc -> proper_cert o ->
  sign_primary_certificate o i key = (Returns (), o') ->
  verify_alternative_certificate (Some o) i = Returns true -> verify_alternative_certificate (Some o') i = Returns true.
Proof.
  intros Hok H Hs Hv. destruct (sign_primary_inv o i key o' Hok Hs) as (? & ? & ? & ? & sig & _ & _ & _ & _ & _ & _ & Hp & ->).
  by apply verify_alternative_with_primary.
Qed.

End Signing.

(** * Verification depends on values only *)

(** Pointers to views of certificates with the same value, or both NULL. *)
Inductive same_view : option view -> option view -> Prop :=
  | same_no_view : same_view None None
  | same_some_view c c' : same_cert c c' -> same_view (Some (Some c)) (Some (Some c')).

Section Respect.
Context {pf : Platform} {fits : StackFits pf} {sha : Sha} {ecc : Backend} {pqc : PqcBackend}.

Lemma same_canonical_tbs o o' layer : same_cert o o' -> canonical_tbs (Some o) layer = canonical_tbs (Some o') layer.
Proof.
  intros H. rewrite (canonical_tbs_eq o layer (same_refl_l _ _ _ _ H)), (canonical_tbs_eq o' layer (same_refl_r _ _ _ _ H)).
  by apply tbs_input_same, layer_cert_same.
Qed.

Lemma same_canonical_issuer o o' i i' : same_cert o o' -> same_view i i' ->
  canonical_issuer (Some o) i = canonical_issuer (Some o') i'.
Proof.
  intros H Hi. unfold canonical_issuer. rewrite (same_is_self _ _ H), (same_issuer_digest _ _ H). cbn [issuer_is_self mbind cpp_bind].
  destruct (_ =? _); [done|]. destruct Hi as [|c c' Hc]; [done|]. destruct (issuer_digest _) as [e| |]; [|done|done].
  cbn [mbind cpp_bind view_calculate_digest view_canonicalize].
  destruct (calculate_digest_same _ _ Hc) as (d & -> & ->). cbn [mbind cpp_bind]. destruct (throw_if _ _); [|done|done].
  cbn [mbind cpp_bind]. destruct (canonicalize_same _ _ Hc) as [[-> ->]|(x & x' & -> & -> & Hx & _)]; [done|].
  cbn [mbind cpp_bind]. by destruct (encode_cert_same _ _ Hx) as (bs & -> & ->).
Qed.

Lemma same_certificate_hash algo o o' i i' layer : same_cert o o' -> same_view i i' ->
  calculate_certificate_hash algo (Some o) i layer = calculate_certificate_hash algo (Some o') i' layer.
Proof.
  intros H Hi. unfold calculate_certificate_hash. by rewrite (same_canonical_tbs _ _ layer H), (same_canonical_issuer _ _ _ _ H Hi).
Qed.

Lemma same_signing_certificate o o' i i' : same_cert o o' -> same_view i i' ->
  (exists c c', signing_certificate (Some o) i = Returns (Some c) /\ signing_certificate (Some o') i' = Returns (Some c') /\
     same_cert c c') \/
  (exists e, signing_certificate (Some o) i = Throws e /\ signing_certificate (Some o') i' = Throws e).
Proof.
  intros H Hi. unfold signing_certificate. rewrite (same_is_self _ _ H). cbn [issuer_is_self mbind cpp_bind].
  destruct (_ =? _); [left; by exists o, o'|]. destruct Hi as [|c c' Hc]; [right; by eexists|left; by exists c, c'].
Qed.

Lemma verify_primary_same o o' i i' : same_cert o o' -> same_view i i' ->
  verify_primary_certificate (Some o) i = verify_primary_certificate (Some o') i'.
Proof.
  intros H Hi. unfold verify_primary_certificate.
  destruct (same_signing_certificate _ _ _ _ H Hi) as [(c & c' & -> & -> & Hc)|(e & -> & ->)]; [|done]. cbn [mbind cpp_bind].
  destruct (copy_or_throw_same c (same_refl_l _ _ _ _ Hc)) as (x & -> & Hx), (copy_or_throw_same c' (same_refl_r _ _ _ _ Hc)) as (x' & -> & Hx').
  destruct (copy_or_throw_same o (same_refl_l _ _ _ _ H)) as (y & -> & Hy), (copy_or_throw_same o' (same_refl_r _ _ _ _ H)) as (y' & -> & Hy').
  cbn [mbind cpp_bind].
  rewrite <- (same_public_key _ _ Hx), <- (same_public_key _ _ Hx'), (same_public_key _ _ Hc).
  rewrite <- (same_get_signature _ _ Hy), <- (same_get_signature _ _ Hy'), (same_get_signature _ _ H).
  destruct (get_public_key c') as [pk|], (get_signature o') as [sig|]; try done. destruct (negb _); [done|].
  by rewrite (same_certificate_hash _ _ _ _ _ _ H Hi).
Qed.

Lemma verify_alternative_same o o' i i' : same_cert o o' -> same_view i i' ->
  verify_alternative_certificate (Some o) i = verify_alternative_certificate (Some o') i'.
Proof.
  intros H Hi. unfold verify_alternative_certificate.
  destruct (same_signing_certificate _ _ _ _ H Hi) as [(c & c' & -> & -> & Hc)|(e & -> & ->)]; [|done]. cbn [mbind cpp_bind].
  rewrite (get_alternative_public_key_eq c (same_refl_l _ _ _ _ Hc)), (get_alternative_public_key_eq c' (same_refl_r _ _ _ _ Hc)).
  rewrite (get_alternative_signature_eq o (same_refl_l _ _ _ _ H)), (get_alternative_signature_eq o' (same_refl_r _ _ _ _ H)).
  cbn [mbind cpp_bind]. rewrite (same_extract_key _ _ Hc), (same_extract_signature _ _ H).
  destruct (extract_alternative_public_key c'), (extract_alternative_signature o'); try done.
  by rewrite (same_certificate_hash _ _ _ _ _ _ H Hi).
Qed.

(** ** Material *)

Lemma extract_key_present o k : extract_alternative_public_key o = Some k -> altVerificationKey (toBeSigned (Some o)) <> None.
Proof. unfold extract_alternative_public_key. by destruct (altVerificationKey _). Qed.

Lemma extract_signature_present o k : extract_alternative_signature o = Some k -> altSignatureValue (toBeSigned (Some o)) <> None.
Proof. unfold extract_alternative_signature. by destruct (altSignatureValue _). Qed.

(** The state, read off the certificate itself. *)
Lemma material_state_eq o : proper_cert o -> alternative_material_state (Some o) =
  let key_present := negb (is_null (altVerificationKey (toBeSigned (Some o)))) in
  let signature_present := negb (is_null (altSignatureValue (toBeSigned (Some o)))) in
  let has_key := is_some (extract_alternative_public_key o) in
  let has_signature := is_some (extract_alternative_signature o) in
  Returns
    (if negb key_present && negb signature_present then MaterialNone
     else if xorb key_present has_key || xorb signature_present has_signature then Inconsistent
     else if is_at_certificate (Some o) then if negb has_key && has_signature then EndEntity else Inconsistent
     else if (present (issuer (Some o)) =? IssuerIdentifier_PR_self) || is_ca_certificate (Some o)
          then if has_key && has_signature then Authority else Inconsistent
     else Inconsistent).
Proof.
  intros H. unfold alternative_material_state. destruct (copy_certificate_same o H) as (c & -> & Hc). cbn [mbind cpp_bind].
  rewrite <- (same_extract_key _ _ Hc), <- (same_extract_signature _ _ Hc).
  assert (is_null (altVerificationKey (toBeSigned (Some c))) = is_null (altVerificationKey (toBeSigned (Some o)))) as ->
    by (by destruct (same_alt_key _ _ Hc)).
  assert (is_null (altSignatureValue (toBeSigned (Some c))) = is_null (altSignatureValue (toBeSigned (Some o)))) as ->
    by (by destruct (same_alt_signature _ _ Hc)).
  cbn [issuer_is_self mbind cpp_bind]. repeat case_match; done.
Qed.

Lemma material_state_cases o : proper_cert o ->
  let key := altVerificationKey (toBeSigned (Some o)) in
  let sig := altSignatureValue (toBeSigned (Some o)) in
  let state := alternative_material_state (Some o) in
  (state = Returns MaterialNone <-> key = None /\ sig = None) /\
  (state = Returns EndEntity <->
     is_at_certificate (Some o) = true /\ key = None /\ is_Some (extract_alternative_signature o)) /\
  (state = Returns Authority <->
     is_at_certificate (Some o) = false /\ (issuer_is_self (Some o) = Returns true \/ is_ca_certificate (Some o) = true) /\
     is_Some (extract_alternative_public_key o) /\ is_Some (extract_alternative_signature o)) /\
  exists st, state = Returns st.
Proof.
  intros H key sig state. subst state. rewrite (material_state_eq o H). cbv zeta. fold key sig.
  pose proof (extract_key_present o) as Hk. pose proof (extract_signature_present o) as Hs. fold key in Hk. fold sig in Hs.
  cbn [issuer_is_self]. destruct (is_at_certificate (Some o)), (present _ =? _), (is_ca_certificate (Some o));
  destruct key as [k|], (extract_alternative_public_key o) as [kb|]; try (by exfalso; eapply Hk);
  destruct sig as [s|], (extract_alternative_signature o) as [sb|]; try (by exfalso; eapply Hs); cbn;
  (split_and!; [..|by eexists]); split; intros; destruct_and?; try done; split_and?; try done; auto;
  repeat match goal with
  | H : is_Some None |- _ => by destruct H
  | H : _ \/ _ |- _ => by destruct H
  end.
Qed.

End Respect.
