(* ===== verification/CertificateStores.v ===== *)
(** Stores of certificates.

    Models security/v3/trust_store.cpp, issuer_memory_lookup.cpp,
    certificate_cache.cpp and revocation_lookup.cpp: the roots a station trusts,
    the issuing certificates it knows, the certificates it has seen, and the
    certificates that were revoked.  Storing and returning a Certificate by value
    copies it. *)

From stdpp Require Import prelude strings gmap.
From S2P Require Import Prelude Codecs Descriptor OerSem OerCodec Pqc Asn1Wrapper SameValue SecurityTypes.
From S2P Require Import CertificateV3 CertificateV3Ok.

(** * Models *)

(** [std::multimap<HashedId8, Certificate>]: entries with equal keys in the order of
    insertion. *)
Definition TrustStore := list (HashedId8 * obj).

(** [std::unordered_map<HashedId8, Certificate>] *)
Definition IssuerMemoryLookup := gmap (list Z) obj.

(** The second map of the cache holds iterators into the first one, here their keys. *)
Record CertificateCache := {
  m_storage : gmap (list Z) obj;
  m_short_digests : gmap (list Z) (list Z);
  m_digests : gset (list Z);
}.

Definition RevocationMemoryLookup := gmap (list Z) (gset (list Z)).

Section Stores.
Context {pf : Platform} {sha : Sha}.

(** ** trust_store.cpp *)

Definition TrustStore_insert (store : TrustStore) (certificate : obj) : cpp TrustStore :=
  self ← issuer_is_self (Some certificate);
  _ ← throw_if (negb self)
        (runtime_error "Only root certificate authorities may be added to the trust store");
  id ← calculate_digest certificate;
  match id with
  | None => Throws (runtime_error "Cannot calculate hash for certificate")
  | Some id => c ← copy_construct certificate; Returns (store ++ [(id, c)])
  end.

Fixpoint copy_all (l : list obj) : cpp (list obj) :=
  match l with
  | [] => Returns []
  | c :: l => c' ← copy_construct c; l' ← copy_all l; Returns (c' :: l')
  end.

(** [equal_range] *)
Definition equal_range (store : TrustStore) (id : HashedId8) : list (list Z * obj) :=
  filter (fun entry => entry.1 = id) (store : list (list Z * obj)).

Definition TrustStore_lookup (store : TrustStore) (id : HashedId8) : cpp (list obj) :=
  copy_all (map snd (equal_range store id)).

(** ** issuer_memory_lookup.cpp *)

Definition IssuerMemoryLookup_insert (m : IssuerMemoryLookup) (cert : obj) : cpp (bool * IssuerMemoryLookup) :=
  if negb (is_ca_certificate (Some cert)) then Returns (false, m)
  else
    digest ← calculate_digest cert;
    match digest with
    | None => Returns (false, m)
    | Some digest => c ← copy_construct cert; Returns (true, <[digest := c]> m)
    end.

Definition IssuerMemoryLookup_find_issuer (m : IssuerMemoryLookup) (digest : HashedId8) : option obj := m !! digest.

(** ** certificate_cache.cpp *)

Definition cache_lookup8 (c : CertificateCache) (digest : HashedId8) : option obj := c.(m_storage) !! digest.

(** The map of short digests has iterators into the storage, from which nothing is erased.
    An iterator is the key of its element here, and following it finds the element.  In
    C++ an insertion that rehashes the storage invalidates the iterators; elements stay where
    they are, and with the nodes of the common libraries an old iterator still leads to its
    element. *)
Definition cache_lookup3 (c : CertificateCache) (digest : HashedId3) : option obj :=
  c.(m_short_digests) !! digest ≫= fun it => c.(m_storage) !! it.

(** [emplace] leaves an entry alone that is already there. *)
Definition emplace {A} (k : list Z) (x : A) (m : gmap (list Z) A) : gmap (list Z) A :=
  match m !! k with Some _ => m | None => <[k := x]> m end.

Definition cache_store (c : CertificateCache) (cert : obj) : cpp CertificateCache :=
  maybe_hash ← calculate_digest cert;
  match maybe_hash with
  | None => Returns c
  | Some hash =>
    match c.(m_storage) !! hash with
    | Some _ => Returns c
    | None => Returns {| m_storage := <[hash := cert]> c.(m_storage);
                         m_short_digests := emplace (truncate hash) hash c.(m_short_digests);
                         m_digests := {[hash]} ∪ c.(m_digests) |}
    end
  end.

Definition cache_announce (c : CertificateCache) (digest : HashedId8) : bool * CertificateCache :=
  (bool_decide (digest ∉ c.(m_digests)),
   {| m_storage := c.(m_storage); m_short_digests := c.(m_short_digests); m_digests := {[digest]} ∪ c.(m_digests) |}).

Definition cache_is_known (c : CertificateCache) (digest : HashedId8) : bool := bool_decide (digest ∈ c.(m_digests)).
Definition cache_size (c : CertificateCache) : nat := base.size c.(m_storage).

Definition cache_empty : CertificateCache := {| m_storage := ∅; m_short_digests := ∅; m_digests := ∅ |}.

End Stores.

(** ** revocation_lookup.cpp *)

Definition revoke (m : RevocationMemoryLookup) (issuer cert : HashedId8) : RevocationMemoryLookup :=
  <[issuer := {[cert]} ∪ default ∅ (m !! issuer)]> m.
Definition clear (m : RevocationMemoryLookup) (issuer : HashedId8) : RevocationMemoryLookup := delete issuer m.
Definition is_revoked (m : RevocationMemoryLookup) (issuer cert : HashedId8) : bool :=
  match m !! issuer with
  | None => false
  | Some certs => bool_decide (cert ∈ certs)
  end.

(** * Interfaces *)

(** [IssuerLookup]: what the validators expect of it is that it finds a certificate
    under its own digest. *)
Abbreviation IssuerLookup := (HashedId8 -> option obj).

Class IssuerLookupOk {pf : Platform} {sha : Sha} (lookup : IssuerLookup) : Prop := {
  found_digest d c : lookup d = Some c -> calculate_digest c = Returns (Some d);
  found_proper d c : lookup d = Some c -> proper_cert c;
}.

Abbreviation RevocationLookup := (HashedId8 -> HashedId8 -> bool).

(** * Invariants *)

Section Invariants.
Context {pf : Platform} {fits : StackFits pf} {sha : Sha}.

(** Copies have the digest and the kind of the original. *)
Lemma copy_digest c c' : proper_cert c -> copy_construct c = Returns c' ->
  proper_cert c' /\ calculate_digest c' = calculate_digest c /\ same_cert c c'.
Proof.
  intros H E. destruct (copy_construct_same c H) as (o & Eo & Hs). rewrite E in Eo. injection Eo as <-.
  split; [by eapply same_refl_r|]. by destruct (calculate_digest_same _ _ Hs) as (d & -> & ->).
Qed.

(** ** The trust store *)

(** Every entry is a self-issued certificate, filed under its digest. *)
Definition trust_entry (e : HashedId8 * obj) : Prop :=
  calculate_digest e.2 = Returns (Some e.1) /\ issuer_is_self (Some e.2) = Returns true /\ proper_cert e.2.

Lemma TrustStore_insert_inv store c store' : proper_cert c -> TrustStore_insert store c = Returns store' ->
  exists id c', store' = store ++ [(id, c')] /\ trust_entry (id, c') /\ same_cert c c' /\
    calculate_digest c = Returns (Some id).
Proof.
  intros H Hi. unfold TrustStore_insert in Hi. apply bind_returns in Hi as (self & Hself & Hi).
  apply bind_returns in Hi as (u & Hu%throw_if_returns & Hi). apply negb_false_iff in Hu. subst self.
  apply bind_returns in Hi as (id & Hid & Hi). destruct id as [id|]; [|done].
  apply bind_returns in Hi as (c' & Hc & [= <-]). destruct (copy_digest c c' H Hc) as (Hp & Hd & Hs).
  exists id, c'. split; [done|]. unfold trust_entry. cbn [fst snd]. by rewrite Hd, <- (same_is_self _ _ Hs).
Qed.

(** Trust stores built from an empty one by insertions. *)
Inductive trust_store : TrustStore -> Prop :=
  | trust_empty : trust_store []
  | trust_insert store c store' : trust_store store -> proper_cert c ->
      TrustStore_insert store c = Returns store' -> trust_store store'.

Lemma trust_store_entries store : trust_store store -> Forall trust_entry store.
Proof.
  induction 1 as [|store c store' _ IH Hc Hi]; [constructor|].
  destruct (TrustStore_insert_inv _ _ _ Hc Hi) as (id & c' & -> & He & _). apply Forall_app. by split; [|constructor].
Qed.

Lemma copy_all_ok l : Forall (fun c => proper_cert c) l -> exists l', copy_all l = Returns l' /\ Forall2 same_cert l l'.
Proof.
  induction 1 as [|c l Hc _ (l' & El & Hl)]; [by exists []|]. destruct (copy_construct_same c Hc) as (c' & E & Hs).
  exists (c' :: l'). cbn [copy_all]. rewrite E. cbn [mbind cpp_bind]. rewrite El. by split; [|constructor].
Qed.

(** A lookup returns, and finds something exactly when a certificate with that digest
    was inserted. *)
Lemma trust_lookup_ok store id : Forall trust_entry store ->
  exists l, TrustStore_lookup store id = Returns l /\ (l <> [] <-> exists c, (id, c) ∈ store).
Proof.
  intros H. unfold TrustStore_lookup. destruct (copy_all_ok (map snd (equal_range store id))) as (l & -> & Hl).
  - apply Forall_forall. intros c Hc. apply list_elem_of_In, in_map_iff in Hc as ([i c'] & <- & Hc).
    apply list_elem_of_In, list_elem_of_filter in Hc as [_ Hc]. rewrite Forall_forall in H. by apply (H _ Hc).
  - exists l. split; [done|]. split.
    + intros Hne. destruct (equal_range store id) as [|[i c] f] eqn:Ef; [by inv Hl|].
      assert ((i, c) ∈ equal_range store id) as Hin by (rewrite Ef; constructor).
      apply list_elem_of_filter in Hin as [Hi Hin]. cbn [fst] in Hi. subst i. by exists c.
    + intros [c Hc] ->. inv Hl. match goal with H : [] = map _ _ |- _ => symmetry in H; apply map_eq_nil in H; rename H into Hf end.
      assert ((id, c) ∈ equal_range store id) as Hin by (by apply list_elem_of_filter).
      rewrite Hf in Hin. by apply not_elem_of_nil in Hin.
Qed.

(** ** Issuing certificates *)

(** The memory of issuers finds certificates under their own digest. *)
Definition issuer_map (m : IssuerMemoryLookup) : Prop := forall d c, m !! d = Some c ->
  calculate_digest c = Returns (Some d) /\ proper_cert c /\ is_ca_certificate (Some c) = true.

Lemma same_is_ca o o' : same_cert o o' -> is_ca_certificate (Some o) = is_ca_certificate (Some o').
Proof. intros H%same_toBeSigned. member_at 7%nat H. unfold is_ca_certificate, certIssuePermissions. by destruct H. Qed.

Lemma issuer_insert_inv m c b m' : proper_cert c -> IssuerMemoryLookup_insert m c = Returns (b, m') ->
  (b = false /\ m' = m) \/
  exists d c', b = true /\ m' = <[d := c']> m /\ calculate_digest c = Returns (Some d) /\ same_cert c c' /\
    calculate_digest c' = Returns (Some d) /\ is_ca_certificate (Some c') = true.
Proof.
  intros H Hi. unfold IssuerMemoryLookup_insert in Hi. destruct (is_ca_certificate (Some c)) eqn:Hca; cbn [negb] in Hi;
    [|injection Hi as <- <-; by left].
  apply bind_returns in Hi as (d & Hd & Hi). destruct d as [d|]; [|injection Hi as <- <-; by left]. right.
  apply bind_returns in Hi as (c' & Hc & [= <- <-]). destruct (copy_digest c c' H Hc) as (Hp & Hd' & Hs).
  exists d, c'. rewrite Hd', <- (same_is_ca _ _ Hs). done.
Qed.

(** Memories of issuers built by insertions. *)
Inductive issuer_memory : IssuerMemoryLookup -> Prop :=
  | issuer_empty : issuer_memory ∅
  | issuer_insert m c b m' : issuer_memory m -> proper_cert c ->
      IssuerMemoryLookup_insert m c = Returns (b, m') -> issuer_memory m'.

Lemma issuer_memory_map m : issuer_memory m -> issuer_map m.
Proof.
  induction 1 as [|m c b m' _ IH Hc Hi]; [by intros d c|].
  destruct (issuer_insert_inv m c b m' Hc Hi) as [[_ ->]|(d & c' & _ & -> & _ & Hs & Hd & Hca)]; [done|].
  intros d0 c0 [[<- <-]|[_ Hl]]%lookup_insert_Some; [|by apply IH]. split; [done|]. split; [by eapply same_refl_r|done].
Qed.

#[export] Instance issuer_memory_lookup m : issuer_memory m -> IssuerLookupOk (IssuerMemoryLookup_find_issuer m).
Proof. intros H%issuer_memory_map. split; intros d c Hc; by destruct (H d c Hc) as (? & ? & ?). Qed.

(** ** The cache *)

(** Certificates are filed under their digest, short digests refer to a stored
    certificate they belong to, and stored certificates are known. *)
Record cache_inv (c : CertificateCache) : Prop := {
  ci_digest d cert : c.(m_storage) !! d = Some cert -> calculate_digest cert = Returns (Some d);
  ci_short s d : c.(m_short_digests) !! s = Some d -> truncate d = s /\ is_Some (c.(m_storage) !! d);
  ci_has_short d : is_Some (c.(m_storage) !! d) -> is_Some (c.(m_short_digests) !! truncate d);
  ci_known d : is_Some (c.(m_storage) !! d) -> d ∈ c.(m_digests);
}.

Lemma cache_empty_inv : cache_inv cache_empty.
Proof. split; intros *; cbn; [done|done|by intros []|by intros []]. Qed.

Lemma emplace_lookup {A} k (x : A) m k' : emplace k x m !! k' =
  match m !! k' with Some y => Some y | None => if decide (k = k') then Some x else None end.
Proof.
  unfold emplace. destruct (m !! k) as [y|] eqn:E.
  - destruct (decide (k = k')) as [<-|]; [by rewrite E|by destruct (m !! k')].
  - destruct (decide (k = k')) as [<-|Hne]; [by rewrite lookup_insert_eq, E|].
    rewrite lookup_insert_ne by done. by destruct (m !! k').
Qed.

Lemma cache_store_inv c cert c' : cache_inv c -> cache_store c cert = Returns c' -> cache_inv c'.
Proof.
  intros [H1 H2 H3 H4] Hs. unfold cache_store in Hs. apply bind_returns in Hs as (h & Hh & Hs).
  destruct h as [h|]; [|by injection Hs as <-]. destruct (m_storage c !! h) as [y|] eqn:E; injection Hs as <-; [done|].
  split; cbn [m_storage m_short_digests m_digests].
  - intros d x [[<- <-]|[_ Hx]]%lookup_insert_Some; [done|by apply H1].
  - intros s d. rewrite emplace_lookup. destruct (m_short_digests c !! s) as [d'|] eqn:Es.
    + intros [= <-]. destruct (H2 _ _ Es) as [Ht Hd]. split; [done|]. apply lookup_insert_is_Some'. by right.
    + destruct (decide _) as [<-|]; [|done]. intros [= <-]. split; [done|]. rewrite lookup_insert_eq. by eexists.
  - intros d [->|Hd]%lookup_insert_is_Some'; rewrite emplace_lookup.
    + destruct (m_short_digests c !! _); [by eexists|]. rewrite decide_True by done. by eexists.
    + destruct (H3 _ Hd) as [x ->]. by eexists.
  - intros d [->|Hd]%lookup_insert_is_Some'; [set_solver|]. specialize (H4 _ Hd). set_solver.
Qed.

Lemma cache_announce_inv c d : cache_inv c -> cache_inv (cache_announce c d).2.
Proof. intros [H1 H2 H3 H4]. split; try done. intros d' Hd. cbn in *. specialize (H4 _ Hd). set_solver. Qed.

End Invariants.
