(* ===== verification/CertificateValidator.v ===== *)
(** Certificate validators.

    Models security/v3/certificate_validator.cpp and
    security/pqc/hybrid_certificate_validator.cpp: the checks a station makes
    before it accepts a certificate, the walk from a certificate up to a trusted
    root, and the verification of both signatures on the way.

    A pointer to a collaborator is an option: the clock's current time, the position,
    the lookups and the trust store. *)

From stdpp Require Import prelude strings gmap.
From S2P Require Import Prelude Codecs Descriptor OerSem OerCodec Pqc Asn1Wrapper SameValue SecurityTypes.
From S2P Require Import CertificateV3 CertificateV3Ok HybridCertificate CertificateStores.

Inductive Verdict :=
  | VerdictUnknown | Valid | Expired | Revoked | Untrusted | InconsistentChain | OutsideRegion
  | InsufficientPermission | Misconfiguration.

#[export] Instance Verdict_eq_dec : EqDecision Verdict.
Proof. solve_decision. Defined.

(** [maximum_chain_depth] in all walks. *)
Definition max_chain_depth : nat := 8.

Section Validator.
Context {pf : Platform} {sha : Sha} {geo : Geodesy}.
Context {PositionFix : Type}.

Record DefaultCertificateValidator := {
  m_runtime : option Z;
  m_position_provider : option PositionFix;
  m_issuer_lookup : option IssuerLookup;
  m_location_checker : option (obj -> PositionFix -> bool);
  m_revocation_lookup : option RevocationLookup;
  m_trust_store : option TrustStore;
  m_disable_time_checks : bool;
  m_disable_location_checks : bool;
  m_disable_chain_consistency_checks : bool;
  m_disable_region_consistency_checks : bool;
}.

Definition default_validator : DefaultCertificateValidator :=
  {| m_runtime := None; m_position_provider := None; m_issuer_lookup := None; m_location_checker := None;
     m_revocation_lookup := None; m_trust_store := None; m_disable_time_checks := false;
     m_disable_location_checks := false; m_disable_chain_consistency_checks := false;
     m_disable_region_consistency_checks := false |}.

(** ** Configuration *)

Definition use_runtime (x : option Z) (v : DefaultCertificateValidator) : DefaultCertificateValidator :=
  {| m_runtime := x; m_position_provider := v.(m_position_provider); m_issuer_lookup := v.(m_issuer_lookup);
     m_location_checker := v.(m_location_checker); m_revocation_lookup := v.(m_revocation_lookup); m_trust_store
     := v.(m_trust_store); m_disable_time_checks := v.(m_disable_time_checks); m_disable_location_checks :=
     v.(m_disable_location_checks); m_disable_chain_consistency_checks :=
     v.(m_disable_chain_consistency_checks); m_disable_region_consistency_checks :=
     v.(m_disable_region_consistency_checks) |}.

Definition use_position_provider (x : option PositionFix) (v : DefaultCertificateValidator) : DefaultCertificateValidator :=
  {| m_runtime := v.(m_runtime); m_position_provider := x; m_issuer_lookup := v.(m_issuer_lookup);
     m_location_checker := v.(m_location_checker); m_revocation_lookup := v.(m_revocation_lookup); m_trust_store
     := v.(m_trust_store); m_disable_time_checks := v.(m_disable_time_checks); m_disable_location_checks :=
     v.(m_disable_location_checks); m_disable_chain_consistency_checks :=
     v.(m_disable_chain_consistency_checks); m_disable_region_consistency_checks :=
     v.(m_disable_region_consistency_checks) |}.

Definition use_issuer_lookup (x : option IssuerLookup) (v : DefaultCertificateValidator) : DefaultCertificateValidator :=
  {| m_runtime := v.(m_runtime); m_position_provider := v.(m_position_provider); m_issuer_lookup := x;
     m_location_checker := v.(m_location_checker); m_revocation_lookup := v.(m_revocation_lookup); m_trust_store
     := v.(m_trust_store); m_disable_time_checks := v.(m_disable_time_checks); m_disable_location_checks :=
     v.(m_disable_location_checks); m_disable_chain_consistency_checks :=
     v.(m_disable_chain_consistency_checks); m_disable_region_consistency_checks :=
     v.(m_disable_region_consistency_checks) |}.

Definition use_location_checker (x : option (obj -> PositionFix -> bool)) (v : DefaultCertificateValidator) : DefaultCertificateValidator :=
  {| m_runtime := v.(m_runtime); m_position_provider := v.(m_position_provider); m_issuer_lookup :=
     v.(m_issuer_lookup); m_location_checker := x; m_revocation_lookup := v.(m_revocation_lookup); m_trust_store
     := v.(m_trust_store); m_disable_time_checks := v.(m_disable_time_checks); m_disable_location_checks :=
     v.(m_disable_location_checks); m_disable_chain_consistency_checks :=
     v.(m_disable_chain_consistency_checks); m_disable_region_consistency_checks :=
     v.(m_disable_region_consistency_checks) |}.

Definition use_revocation_lookup (x : option RevocationLookup) (v : DefaultCertificateValidator) : DefaultCertificateValidator :=
  {| m_runtime := v.(m_runtime); m_position_provider := v.(m_position_provider); m_issuer_lookup :=
     v.(m_issuer_lookup); m_location_checker := v.(m_location_checker); m_revocation_lookup := x; m_trust_store
     := v.(m_trust_store); m_disable_time_checks := v.(m_disable_time_checks); m_disable_location_checks :=
     v.(m_disable_location_checks); m_disable_chain_consistency_checks :=
     v.(m_disable_chain_consistency_checks); m_disable_region_consistency_checks :=
     v.(m_disable_region_consistency_checks) |}.

Definition use_trust_store (x : option TrustStore) (v : DefaultCertificateValidator) : DefaultCertificateValidator :=
  {| m_runtime := v.(m_runtime); m_position_provider := v.(m_position_provider); m_issuer_lookup :=
     v.(m_issuer_lookup); m_location_checker := v.(m_location_checker); m_revocation_lookup :=
     v.(m_revocation_lookup); m_trust_store := x; m_disable_time_checks := v.(m_disable_time_checks);
     m_disable_location_checks := v.(m_disable_location_checks); m_disable_chain_consistency_checks :=
     v.(m_disable_chain_consistency_checks); m_disable_region_consistency_checks :=
     v.(m_disable_region_consistency_checks) |}.

Definition disable_time_checks (x : bool) (v : DefaultCertificateValidator) : DefaultCertificateValidator :=
  {| m_runtime := v.(m_runtime); m_position_provider := v.(m_position_provider); m_issuer_lookup :=
     v.(m_issuer_lookup); m_location_checker := v.(m_location_checker); m_revocation_lookup :=
     v.(m_revocation_lookup); m_trust_store := v.(m_trust_store); m_disable_time_checks := x;
     m_disable_location_checks := v.(m_disable_location_checks); m_disable_chain_consistency_checks :=
     v.(m_disable_chain_consistency_checks); m_disable_region_consistency_checks :=
     v.(m_disable_region_consistency_checks) |}.

Definition disable_location_checks (x : bool) (v : DefaultCertificateValidator) : DefaultCertificateValidator :=
  {| m_runtime := v.(m_runtime); m_position_provider := v.(m_position_provider); m_issuer_lookup :=
     v.(m_issuer_lookup); m_location_checker := v.(m_location_checker); m_revocation_lookup :=
     v.(m_revocation_lookup); m_trust_store := v.(m_trust_store); m_disable_time_checks :=
     v.(m_disable_time_checks); m_disable_location_checks := x; m_disable_chain_consistency_checks :=
     v.(m_disable_chain_consistency_checks); m_disable_region_consistency_checks :=
     v.(m_disable_region_consistency_checks) |}.

Definition disable_chain_consistency_checks (x : bool) (v : DefaultCertificateValidator) : DefaultCertificateValidator :=
  {| m_runtime := v.(m_runtime); m_position_provider := v.(m_position_provider); m_issuer_lookup :=
     v.(m_issuer_lookup); m_location_checker := v.(m_location_checker); m_revocation_lookup :=
     v.(m_revocation_lookup); m_trust_store := v.(m_trust_store); m_disable_time_checks :=
     v.(m_disable_time_checks); m_disable_location_checks := v.(m_disable_location_checks);
     m_disable_chain_consistency_checks := x; m_disable_region_consistency_checks :=
     v.(m_disable_region_consistency_checks) |}.

Definition disable_region_consistency_checks (x : bool) (v : DefaultCertificateValidator) : DefaultCertificateValidator :=
  {| m_runtime := v.(m_runtime); m_position_provider := v.(m_position_provider); m_issuer_lookup :=
     v.(m_issuer_lookup); m_location_checker := v.(m_location_checker); m_revocation_lookup :=
     v.(m_revocation_lookup); m_trust_store := v.(m_trust_store); m_disable_time_checks :=
     v.(m_disable_time_checks); m_disable_location_checks := v.(m_disable_location_checks);
     m_disable_chain_consistency_checks := v.(m_disable_chain_consistency_checks);
     m_disable_region_consistency_checks := x |}.

(** * Consistency of a certificate with its issuer *)

Definition check_time_consistency (subject issuer : view) : cpp bool :=
  subject_time ← get_start_and_end_validity subject;
  issuer_time ← get_start_and_end_validity issuer;
  Returns ((issuer_time.1 <=? subject_time.1) && (subject_time.2 <=? issuer_time.2)).

Definition check_permission_consistency (subject issuer : view) (its_aid : Z) : cpp bool :=
  if is_ca_certificate subject && negb (is_allowed_to_issue subject its_aid) then Returns false
  else
    at_invalid ← (if is_at_certificate subject then cnot (valid_for_application subject its_aid) else Returns false);
    if at_invalid : bool then Returns false else Returns (is_allowed_to_issue issuer its_aid).

(** The two three-bit fields of an assurance level. *)
Definition assurance (v : Z) : Z := Z.land (Z.shiftr v 5) 7.
Definition confidence (v : Z) : Z := Z.land (Z.shiftr v 2) 7.

Definition check_assurance_consistency (subject issuer : view) : bool :=
  match assurance_level subject, assurance_level issuer with
  | None, _ => true
  | Some _, None => false
  | Some subject_value, Some issuer_value =>
    (assurance subject_value <? assurance issuer_value) ||
    ((assurance subject_value =? assurance issuer_value) && (confidence subject_value <=? confidence issuer_value))
  end.

Definition check_region_consistency (subject issuer : view) : bool := region_is_within subject issuer.

Definition check_consistency (v : DefaultCertificateValidator) (subject issuer : view) (its_aid : Z) : cpp bool :=
  cand (check_time_consistency subject issuer)
 (cand (check_permission_consistency subject issuer its_aid)
 (cand (Returns (check_assurance_consistency subject issuer))
       (Returns (v.(m_disable_region_consistency_checks) || check_region_consistency subject issuer)))).

(** * Walks along the chain *)

Definition find_issuer_certificate (v : DefaultCertificateValidator) (at_cert : view) : cpp (option obj) :=
  match v.(m_issuer_lookup) with
  | Some lookup =>
    maybe_issuer_digest ← issuer_digest at_cert;
    Returns (maybe_issuer_digest ≫= lookup)
  | None => Returns None
  end.

(** [!m_trust_store->lookup(digest).empty()] for the digest of a certificate. *)
Definition in_trust_store (store : TrustStore) (cert : view) : cpp bool :=
  cert_digest ← view_calculate_digest cert;
  match cert_digest with
  | Some d => l ← TrustStore_lookup store d; Returns (negb (bool_decide (length l = 0%nat)))
  | None => Returns false
  end.

Fixpoint anchored_loop (lookup : IssuerLookup) (store : TrustStore) (depth : nat) (cert : view) : cpp bool :=
  match depth with
  | O => Returns false
  | S depth =>
    self ← issuer_is_self cert;
    if self : bool then in_trust_store store cert
    else
      d ← issuer_digest cert;
      match d with
      | None => Returns false
      | Some d =>
        match lookup d with
        | None => Returns false
        | Some issuer => anchored_loop lookup store depth (Some issuer)
        end
      end
  end.

(** Without a trust store or an issuer lookup every certificate is accepted. *)
Definition is_chain_anchored (v : DefaultCertificateValidator) (signing_cert : view) : cpp bool :=
  match v.(m_trust_store), v.(m_issuer_lookup) with
  | Some store, Some lookup => anchored_loop lookup store max_chain_depth signing_cert
  | _, _ => Returns true
  end.

Fixpoint consistent_loop (v : DefaultCertificateValidator) (its_aid : Z) (depth : nat) (subject : view) : cpp bool :=
  match depth with
  | O => Returns true
  | S depth =>
    self ← issuer_is_self subject;
    if self : bool then Returns true
    else
      issuer ← find_issuer_certificate v subject;
      match issuer with
      | None => Returns true
      | Some issuer =>
        ok ← check_consistency v subject (Some issuer) its_aid;
        if ok : bool then consistent_loop v its_aid depth (Some issuer) else Returns false
      end
  end.

Definition chain_is_consistent (v : DefaultCertificateValidator) (signing_cert : view) (its_aid : Z) : cpp bool :=
  if v.(m_disable_chain_consistency_checks) then Returns true
  else match v.(m_issuer_lookup) with
       | None => Returns true
       | Some _ => consistent_loop v its_aid max_chain_depth signing_cert
       end.

Fixpoint revoked_loop (is_revoked : RevocationLookup) (lookup : IssuerLookup) (depth : nat) (cert : view) : cpp bool :=
  match depth with
  | O => Returns false
  | S depth =>
    cert_digest ← view_calculate_digest cert;
    issuer_digest ← issuer_digest cert;
    match cert_digest, issuer_digest with
    | Some cert_digest, Some issuer_digest =>
      if is_revoked issuer_digest cert_digest then Returns true
      else match lookup issuer_digest with
           | None => Returns false
           | Some issuer =>
             self ← issuer_is_self (Some issuer);
             if self : bool then Returns false else revoked_loop is_revoked lookup depth (Some issuer)
           end
    | _, _ => Returns false
    end
  end.

Definition chain_is_revoked (v : DefaultCertificateValidator) (signing_cert : view) : cpp bool :=
  match v.(m_revocation_lookup), v.(m_issuer_lookup) with
  | Some is_revoked, Some lookup => revoked_loop is_revoked lookup max_chain_depth signing_cert
  | _, _ => Returns false
  end.

(** * The verdict *)

Definition is_none {A} (x : option A) : bool := match x with Some _ => false | None => true end.

(** [CertificateView::valid_at_location] *)
Definition valid_at_location (v : view) (location : PositionFix) (lc : option (obj -> PositionFix -> bool)) : bool :=
  match v, lc with
  | Some cert, Some lc => lc cert location
  | _, _ => false
  end.

(** The last step: the position against the region of the certificate, or of its
    issuer when it has none. *)
Definition location_verdict (v : DefaultCertificateValidator) (signing_cert : view) : cpp Verdict :=
  if v.(m_disable_location_checks) then Returns Valid
  else match v.(m_position_provider) with
  | None => Returns Valid
  | Some location =>
    if has_region_restriction signing_cert then
      Returns (if valid_at_location signing_cert location v.(m_location_checker) then Valid else OutsideRegion)
    else
      issuing_cert ← find_issuer_certificate v signing_cert;
      Returns (match issuing_cert with
               | Some i => if valid_at_location (Some i) location v.(m_location_checker) then Valid else OutsideRegion
               | None => Valid
               end)
  end.

Definition valid_for_signing (v : DefaultCertificateValidator) (signing_cert : view) (its_aid : Z) : cpp Verdict :=
  if negb v.(m_disable_time_checks) && is_none v.(m_runtime) then Returns Misconfiguration
  else if negb v.(m_disable_location_checks) && (is_none v.(m_position_provider) || is_none v.(m_location_checker))
  then Returns Misconfiguration
  else
    permitted ← valid_for_application signing_cert its_aid;
    if negb permitted then Returns InsufficientPermission
    else if match v.(m_runtime) with Some now => negb (valid_at_timepoint signing_cert now) | None => false end
    then Returns Expired
    else
      anchored ← is_chain_anchored v signing_cert;
      if negb anchored then Returns Untrusted
      else
        consistent ← chain_is_consistent v signing_cert its_aid;
        if negb consistent then Returns InconsistentChain
        else
          revoked ← chain_is_revoked v signing_cert;
          if revoked : bool then Returns Revoked else location_verdict v signing_cert.

(** * The hybrid validator *)

Inductive VerificationPolicy := ClassicalOnly | HybridIfPresent | HybridRequired.
#[export] Instance VerificationPolicy_eq_dec : EqDecision VerificationPolicy.
Proof. solve_decision. Defined.

Record HybridCertificateValidator := {
  m_policy_validator : DefaultCertificateValidator;
  h_issuer_lookup : option IssuerLookup;
  h_trust_store : option TrustStore;
  m_ecc_backend : option Backend;
  m_pqc_backend : option PqcBackend;
  m_verification_policy : VerificationPolicy;
}.

Definition hybrid_validator : HybridCertificateValidator :=
  {| m_policy_validator := default_validator; h_issuer_lookup := None; h_trust_store := None;
     m_ecc_backend := None; m_pqc_backend := None; m_verification_policy := HybridRequired |}.

(** ** Configuration *)

Definition hybrid_use_runtime (x : option Z) (v : HybridCertificateValidator) : HybridCertificateValidator :=
  {| m_policy_validator := use_runtime x v.(m_policy_validator); h_issuer_lookup := v.(h_issuer_lookup);
     h_trust_store := v.(h_trust_store); m_ecc_backend := v.(m_ecc_backend); m_pqc_backend := v.(m_pqc_backend);
     m_verification_policy := v.(m_verification_policy) |}.

Definition hybrid_use_position_provider (x : option PositionFix) (v : HybridCertificateValidator) : HybridCertificateValidator :=
  {| m_policy_validator := use_position_provider x v.(m_policy_validator); h_issuer_lookup :=
     v.(h_issuer_lookup); h_trust_store := v.(h_trust_store); m_ecc_backend := v.(m_ecc_backend); m_pqc_backend
     := v.(m_pqc_backend); m_verification_policy := v.(m_verification_policy) |}.

Definition hybrid_use_issuer_lookup (x : option IssuerLookup) (v : HybridCertificateValidator) : HybridCertificateValidator :=
  {| m_policy_validator := use_issuer_lookup x v.(m_policy_validator); h_issuer_lookup := x; h_trust_store :=
     v.(h_trust_store); m_ecc_backend := v.(m_ecc_backend); m_pqc_backend := v.(m_pqc_backend);
     m_verification_policy := v.(m_verification_policy) |}.

Definition hybrid_use_location_checker (x : option (obj -> PositionFix -> bool)) (v : HybridCertificateValidator) : HybridCertificateValidator :=
  {| m_policy_validator := use_location_checker x v.(m_policy_validator); h_issuer_lookup :=
     v.(h_issuer_lookup); h_trust_store := v.(h_trust_store); m_ecc_backend := v.(m_ecc_backend); m_pqc_backend
     := v.(m_pqc_backend); m_verification_policy := v.(m_verification_policy) |}.

Definition hybrid_use_revocation_lookup (x : option RevocationLookup) (v : HybridCertificateValidator) : HybridCertificateValidator :=
  {| m_policy_validator := use_revocation_lookup x v.(m_policy_validator); h_issuer_lookup :=
     v.(h_issuer_lookup); h_trust_store := v.(h_trust_store); m_ecc_backend := v.(m_ecc_backend); m_pqc_backend
     := v.(m_pqc_backend); m_verification_policy := v.(m_verification_policy) |}.

Definition hybrid_use_trust_store (x : option TrustStore) (v : HybridCertificateValidator) : HybridCertificateValidator :=
  {| m_policy_validator := use_trust_store x v.(m_policy_validator); h_issuer_lookup := v.(h_issuer_lookup);
     h_trust_store := x; m_ecc_backend := v.(m_ecc_backend); m_pqc_backend := v.(m_pqc_backend);
     m_verification_policy := v.(m_verification_policy) |}.

Definition hybrid_use_backends (ecc : option Backend) (pqc_backend : option PqcBackend) (v : HybridCertificateValidator) : HybridCertificateValidator :=
  {| m_policy_validator := v.(m_policy_validator); h_issuer_lookup := v.(h_issuer_lookup); h_trust_store :=
     v.(h_trust_store); m_ecc_backend := ecc; m_pqc_backend := pqc_backend; m_verification_policy :=
     v.(m_verification_policy) |}.

Definition hybrid_use_verification_policy (policy : VerificationPolicy) (v : HybridCertificateValidator) : HybridCertificateValidator :=
  {| m_policy_validator := v.(m_policy_validator); h_issuer_lookup := v.(h_issuer_lookup); h_trust_store :=
     v.(h_trust_store); m_ecc_backend := v.(m_ecc_backend); m_pqc_backend := v.(m_pqc_backend);
     m_verification_policy := policy |}.

Definition hybrid_disable_time_checks (x : bool) (v : HybridCertificateValidator) : HybridCertificateValidator :=
  {| m_policy_validator := disable_time_checks x v.(m_policy_validator); h_issuer_lookup := v.(h_issuer_lookup);
     h_trust_store := v.(h_trust_store); m_ecc_backend := v.(m_ecc_backend); m_pqc_backend := v.(m_pqc_backend);
     m_verification_policy := v.(m_verification_policy) |}.

Definition hybrid_disable_location_checks (x : bool) (v : HybridCertificateValidator) : HybridCertificateValidator :=
  {| m_policy_validator := disable_location_checks x v.(m_policy_validator); h_issuer_lookup :=
     v.(h_issuer_lookup); h_trust_store := v.(h_trust_store); m_ecc_backend := v.(m_ecc_backend); m_pqc_backend
     := v.(m_pqc_backend); m_verification_policy := v.(m_verification_policy) |}.

Definition hybrid_disable_chain_consistency_checks (x : bool) (v : HybridCertificateValidator) : HybridCertificateValidator :=
  {| m_policy_validator := disable_chain_consistency_checks x v.(m_policy_validator); h_issuer_lookup :=
     v.(h_issuer_lookup); h_trust_store := v.(h_trust_store); m_ecc_backend := v.(m_ecc_backend); m_pqc_backend
     := v.(m_pqc_backend); m_verification_policy := v.(m_verification_policy) |}.

Definition hybrid_disable_region_consistency_checks (x : bool) (v : HybridCertificateValidator) : HybridCertificateValidator :=
  {| m_policy_validator := disable_region_consistency_checks x v.(m_policy_validator); h_issuer_lookup :=
     v.(h_issuer_lookup); h_trust_store := v.(h_trust_store); m_ecc_backend := v.(m_ecc_backend); m_pqc_backend
     := v.(m_pqc_backend); m_verification_policy := v.(m_verification_policy) |}.

(** ** Signatures along the chain *)

Section Chain.
Context (policy : VerificationPolicy) (ecc : Backend) (pqc : option PqcBackend).

Definition alternative_signature_is_accepted (subject : view) (issuer : option view) : cpp bool :=
  if decide (policy = ClassicalOnly) then Returns true
  else
    state ← alternative_material_state subject;
    match state with
    | Inconsistent => Returns false
    | MaterialNone => Returns (bool_decide (policy = HybridIfPresent))
    | _ =>
      match pqc with
      | Some pqc => verify_alternative_certificate subject issuer
      | None => Returns false
      end
    end.

Context (lookup : IssuerLookup) (store : TrustStore).

Fixpoint authentic_loop (depth : nat) (subject : view) : cpp bool :=
  match depth with
  | O => Returns false
  | S depth =>
    self ← issuer_is_self subject;
    if self : bool then
      root_trusted ← in_trust_store store subject;
      if negb root_trusted then Returns false
      else cand (verify_primary_certificate subject None) (alternative_signature_is_accepted subject None)
    else
      expected_issuer_digest ← issuer_digest subject;
      match expected_issuer_digest with
      | None => Returns false
      | Some expected =>
        match lookup expected with
        | None => Returns false
        | Some issuer =>
          actual_issuer_digest ← calculate_digest issuer;
          if negb (bool_decide (actual_issuer_digest = Some expected)) then Returns false
          else
            accepted ← cand (verify_primary_certificate subject (Some (Some issuer)))
                            (alternative_signature_is_accepted subject (Some (Some issuer)));
            if negb accepted then Returns false else authentic_loop depth (Some issuer)
        end
      end
  end.

Definition chain_is_authentic (signing_certificate : view) : cpp bool :=
  authentic_loop max_chain_depth signing_certificate.

End Chain.

Definition hybrid_valid_for_signing (v : HybridCertificateValidator) (certificate : view) (aid : Z) : cpp Verdict :=
  policy_verdict ← valid_for_signing v.(m_policy_validator) certificate aid;
  if negb (bool_decide (policy_verdict = Valid)) then Returns policy_verdict
  else match v.(h_issuer_lookup), v.(h_trust_store), v.(m_ecc_backend) with
  | Some lookup, Some store, Some ecc =>
    if negb (bool_decide (v.(m_verification_policy) = ClassicalOnly)) && is_none v.(m_pqc_backend)
    then Returns Misconfiguration
    else
      authentic ← chain_is_authentic v.(m_verification_policy) ecc v.(m_pqc_backend) lookup store certificate;
      Returns (if authentic : bool then Valid else Untrusted)
  | _, _, _ => Returns Misconfiguration
  end.

End Validator.
