(* ===== verification/ValidatorOk.v ===== *)
(** Correctness of the certificate validators.

    The walks of the validators against an abstract notion of a certificate chain:
    a list of certificates, each one the issuer of the one before, ending in a
    self-issued certificate of the trust store. *)

From stdpp Require Import prelude strings gmap.
From S2P Require Import Prelude Codecs Descriptor OerSem OerCodec Pqc Asn1Wrapper SameValue SecurityTypes.
From S2P Require Import CertificateV3 CertificateV3Ok HybridCertificate HybridCertificateOk CertificateStores CertificateValidator.

(** * Authentic chains *)

Section Authentic.
Context {pf : Platform} {sha : Sha}.
Context (policy : VerificationPolicy) (ecc : Backend) (pqc : option PqcBackend).

(** A certificate with well-formed alternative material whose alternative signature
    verifies. *)
Definition hybrid_verified (c : obj) (i : option view) : Prop :=
  (alternative_material_state (Some c) = Returns Authority \/ alternative_material_state (Some c) = Returns EndEntity) /\
  exists b, pqc = Some b /\ verify_alternative_certificate (Some c) i = Returns true.

(** What each policy demands of a certificate of the chain. *)
Definition policy_met (c : obj) (i : option view) : Prop :=
  match policy with
  | ClassicalOnly => True
  | HybridIfPresent => alternative_material_state (Some c) = Returns MaterialNone \/ hybrid_verified c i
  | HybridRequired => hybrid_verified c i
  end.

Lemma alternative_accepted_iff c i :
  alternative_signature_is_accepted policy ecc pqc (Some c) i = Returns true <-> policy_met c i.
Proof.
  unfold alternative_signature_is_accepted, policy_met, hybrid_verified. destruct policy; cbn; [done| |].
  - destruct (alternative_material_state (Some c)) as [[]| |]; cbn; destruct pqc as [b|]; naive_solver.
  - destruct (alternative_material_state (Some c)) as [[]| |]; cbn; destruct pqc as [b|]; naive_solver.
Qed.

Context (lookup : IssuerLookup) (store : TrustStore).

(** The classical signature verifies, and the policy is met. *)
Definition verified (c : obj) (i : option view) : Prop :=
  verify_primary_certificate (Some c) i = Returns true /\ policy_met c i.

(** A self-issued certificate that is in the trust store. *)
Definition trusted_root (c : obj) : Prop :=
  issuer_is_self (Some c) = Returns true /\
  exists d l, calculate_digest c = Returns (Some d) /\ TrustStore_lookup store d = Returns l /\ l <> [].

(** [i] is the certificate the issuer field of [c] identifies. *)
Definition issued_by (c i : obj) : Prop :=
  issuer_is_self (Some c) = Returns false /\
  exists d, issuer_digest (Some c) = Returns (Some d) /\ lookup d = Some i /\ calculate_digest i = Returns (Some d).

Fixpoint authentic_chain (chain : list obj) : Prop :=
  match chain with
  | [] => False
  | [r] => trusted_root r /\ verified r None
  | c :: (i :: _) as rest => issued_by c i /\ verified c (Some (Some i)) /\ authentic_chain rest
  end.

Lemma in_trust_store_iff c : in_trust_store store (Some c) = Returns true <->
  exists d l, calculate_digest c = Returns (Some d) /\ TrustStore_lookup store d = Returns l /\ l <> [].
Proof.
  unfold in_trust_store, view_calculate_digest. split.
  - intros H. apply bind_returns in H as ([d|] & Hd & H); [|done]. apply bind_returns in H as (l & Hl & H).
    injection H as H. exists d, l. do 2 (split; [done|]). intros ->. by rewrite bool_decide_true in H.
  - intros (d & l & -> & Hl & Hne). cbn [mbind cpp_bind]. rewrite Hl. cbn [mbind cpp_bind].
    rewrite bool_decide_false; [done|]. by intros ?%length_zero_iff_nil.
Qed.

Lemma authentic_loop_iff n : forall c, authentic_loop policy ecc pqc lookup store n (Some c) = Returns true <->
  exists chain, authentic_chain (c :: chain) /\ (length chain < n)%nat.
Proof.
  induction n as [|n IH]; intros c; cbn [authentic_loop]; [split; [done|intros (l & _ & H); lia]|]. split.
  - intros H. apply bind_returns in H as ([|] & Hself & H).
    + exists []. split; [|cbn; lia]. apply bind_returns in H as ([|] & Ht & H); [|done]. cbn [negb] in H.
      apply cand_true in H as [Hp Ha]. apply in_trust_store_iff in Ht. apply alternative_accepted_iff in Ha. by repeat split.
    + apply bind_returns in H as ([d|] & Hd & H); [|done]. destruct (lookup d) as [i|] eqn:Hl; [|done].
      apply bind_returns in H as (a & Ha & H). destruct (bool_decide_reflect (a = Some d)) as [->|]; [|done]. cbn [negb] in H.
      apply bind_returns in H as ([|] & Hv & H); [|done]. cbn [negb] in H. apply cand_true in Hv as [Hp Hv].
      apply alternative_accepted_iff in Hv. apply IH in H as (chain & Hc & Hlen). exists (i :: chain).
      split; [|cbn; lia]. split; [split; [done|by exists d]|]. by split.
  - intros (chain & Hc & Hlen). destruct chain as [|i chain].
    + destruct Hc as [[Hself Ht] [Hp Ha]]. rewrite Hself. cbn [mbind cpp_bind]. rewrite (proj2 (in_trust_store_iff c) Ht).
      cbn [mbind cpp_bind negb]. apply cand_true. by rewrite alternative_accepted_iff.
    + destruct Hc as [[Hself (d & Hd & Hl & Hdi)] [[Hp Ha] Hc]]. rewrite Hself. cbn [mbind cpp_bind]. rewrite Hd.
      cbn [mbind cpp_bind]. rewrite Hl, Hdi. cbn [mbind cpp_bind]. rewrite bool_decide_true by done. cbn [negb].
      rewrite (proj2 (cand_true _ _)) by (by rewrite alternative_accepted_iff). cbn [mbind cpp_bind negb].
      apply IH. exists chain. split; [done|]. cbn in Hlen. lia.
Qed.

(** Every certificate of a chain is verified. *)
Lemma authentic_chain_verified chain c : authentic_chain chain -> c ∈ chain -> exists i, verified c i.
Proof.
  revert c. induction chain as [|c0 [|i chain] IH]; intros c H Hc; [done| |].
  - apply list_elem_of_singleton in Hc as ->. destruct H as [_ H]. by exists None.
  - destruct H as [_ [Hv H]]. apply elem_of_cons in Hc as [->|Hc]; [by eexists|by apply IH].
Qed.

End Authentic.

(** * Anchored and consistent chains *)

Section Policy.
Context {pf : Platform} {sha : Sha} {geo : Geodesy} {PositionFix : Type}.
Context (v : @DefaultCertificateValidator PositionFix) (aid : Z).
Context (lookup : IssuerLookup) (store : TrustStore).

(** [i] is what the lookup finds for the issuer field of [c]. *)
Definition found_issuer (c i : obj) : Prop :=
  issuer_is_self (Some c) = Returns false /\ exists d, issuer_digest (Some c) = Returns (Some d) /\ lookup d = Some i.

(** Issuers up to a trusted root, with a property of every step. *)
Fixpoint anchored_chain (P : obj -> obj -> Prop) (chain : list obj) : Prop :=
  match chain with
  | [] => False
  | [r] => trusted_root store r
  | c :: (i :: _) as rest => found_issuer c i /\ P c i /\ anchored_chain P rest
  end.

Lemma anchored_chain_and P Q chain : anchored_chain P chain -> anchored_chain Q chain ->
  anchored_chain (fun c i => P c i /\ Q c i) chain.
Proof.
  induction chain as [|c [|i chain] IH]; [done|done|]. intros (Hf & Hp & H) (_ & Hq & H').
  split; [done|]. split; [by split|by apply IH].
Qed.

Lemma anchored_chain_impl (P Q : obj -> obj -> Prop) chain : (forall c i, P c i -> Q c i) ->
  anchored_chain P chain -> anchored_chain Q chain.
Proof.
  intros HPQ. induction chain as [|c [|i chain] IH]; [done|done|]. intros (Hf & Hp & H).
  split; [done|]. split; [by apply HPQ|by apply IH].
Qed.

Lemma found_issuer_step c d i : issuer_is_self (Some c) = Returns false -> issuer_digest (Some c) = Returns (Some d) ->
  lookup d = Some i -> found_issuer c i.
Proof. intros H1 H2 H3. split; [done|by exists d]. Qed.

Lemma anchored_loop_iff n : forall c, anchored_loop lookup store n (Some c) = Returns true <->
  exists chain, anchored_chain (fun _ _ => True) (c :: chain) /\ (length chain < n)%nat.
Proof.
  induction n as [|n IH]; intros c; cbn [anchored_loop]; [split; [done|intros (l & _ & H); lia]|]. split.
  - intros H. apply bind_returns in H as ([|] & Hself & H).
    + exists []. split; [|cbn; lia]. split; [done|]. by apply in_trust_store_iff.
    + apply bind_returns in H as ([d|] & Hd & H); [|done]. destruct (lookup d) as [i|] eqn:Hl; [|done].
      apply IH in H as (chain & Hc & Hlen). exists (i :: chain). split; [|cbn; lia]. split; [by eapply found_issuer_step|]. by split.
  - intros (chain & Hc & Hlen). destruct chain as [|i chain].
    + destruct Hc as [Hself Ht]. rewrite Hself. cbn [mbind cpp_bind]. by apply in_trust_store_iff.
    + destruct Hc as [[Hself (d & Hd & Hl)] [_ Hc]]. rewrite Hself. cbn [mbind cpp_bind]. rewrite Hd. cbn [mbind cpp_bind].
      rewrite Hl. apply IH. exists chain. split; [done|]. cbn in Hlen. lia.
Qed.

(** The consistency walk passes every step of an anchored chain. *)
Lemma consistent_loop_chain n : v.(m_issuer_lookup) = Some lookup -> forall c chain,
  consistent_loop v aid n (Some c) = Returns true -> anchored_chain (fun _ _ => True) (c :: chain) -> (length chain < n)%nat ->
  anchored_chain (fun s i => check_consistency v (Some s) (Some i) aid = Returns true) (c :: chain).
Proof.
  intros Hlk. induction n as [|n IH]; intros c chain H Hc Hlen; [lia|]. destruct chain as [|i chain]; [done|].
  destruct Hc as [Hf [_ Hc]]. pose proof Hf as [Hself (d & Hd & Hl)]. cbn [consistent_loop] in H. rewrite Hself in H.
  cbn [mbind cpp_bind] in H. unfold find_issuer_certificate in H. rewrite Hlk, Hd in H. cbn [mbind cpp_bind option_bind] in H.
  rewrite Hl in H. apply bind_returns in H as ([|] & Hok & H); [|done]. split; [done|]. split; [done|].
  apply IH; [done|done|cbn in Hlen; lia].
Qed.

(** The revocation walk that finds nothing has looked at every step of the chain. *)
Lemma revoked_loop_chain is_revoked n : forall c chain,
  revoked_loop is_revoked lookup n (Some c) = Returns false ->
  anchored_chain (fun _ _ => True) (c :: chain) -> (length chain < n)%nat ->
  Forall (fun c => exists d, calculate_digest c = Returns (Some d)) (c :: chain) ->
  anchored_chain (fun c i => forall dc di, calculate_digest c = Returns (Some dc) ->
    issuer_digest (Some c) = Returns (Some di) -> is_revoked di dc = false) (c :: chain).
Proof.
  induction n as [|n IH]; intros c chain H Hc Hlen Hd; [lia|]. destruct chain as [|i chain]; [done|].
  destruct Hc as [Hf [_ Hc]]. pose proof Hf as [Hself (di & Hdi & Hl)]. inversion Hd as [|? ? (dc & Hdc) Hd']; subst.
  cbn [revoked_loop view_calculate_digest] in H. rewrite Hdc in H. cbn [mbind cpp_bind] in H. rewrite Hdi in H.
  cbn [mbind cpp_bind] in H. destruct (is_revoked di dc) eqn:Er; [done|]. rewrite Hl in H.
  split; [done|]. split; [intros dc' di' E E'; congruence|].
  apply bind_returns in H as ([|] & Hs & H).
  - destruct chain as [|j chain]; [done|]. destruct Hc as [[Hs' _] _]. congruence.
  - apply IH; [done|done|cbn in Hlen; lia|done].
Qed.

End Policy.

(** ** What the consistency checks add up to *)

(** The validity period of [i] encloses the one of [c], as check_time_consistency compares
    them: in seconds of 32 bits, which wrap around.  While no period ends behind the last of
    these seconds, [i] is valid at least as long as [c]; otherwise it need not be. *)
Definition encloses (i c : obj) : Prop :=
  exists s e s' e', get_start_and_end_validity (Some c) = Returns (s, e) /\
    get_start_and_end_validity (Some i) = Returns (s', e') /\ s' <= s /\ e <= e'.

(** The assurance of [c] is at most the one of [i]. *)
Definition assurance_le (c i : obj) : Prop := check_assurance_consistency (Some c) (Some i) = true.

#[export] Instance encloses_trans : Transitive encloses.
Proof.
  intros x y z (s & e & s' & e' & H1 & H2 & H3 & H4) (s1 & e1 & s1' & e1' & H1' & H2' & H3' & H4').
  rewrite H1 in H2'. injection H2' as <- <-. exists s1, e1, s', e'. repeat split; try done; lia.
Qed.

#[export] Instance assurance_le_trans : Transitive assurance_le.
Proof.
  intros x y z. unfold assurance_le, check_assurance_consistency.
  destruct (assurance_level (Some x)) as [a|], (assurance_level (Some y)) as [b|], (assurance_level (Some z)) as [c|]; try done.
  rewrite !orb_true_iff, !andb_true_iff, !Z.ltb_lt, !Z.eqb_eq, !Z.leb_le. lia.
Qed.

Section Enclosed.
Context {pf : Platform} {sha : Sha} {geo : Geodesy} {PositionFix : Type}.

Lemma check_consistency_inv (v : @DefaultCertificateValidator PositionFix) c i aid :
  check_consistency v (Some c) (Some i) aid = Returns true ->
  encloses i c /\ is_allowed_to_issue (Some i) aid = true /\ assurance_le c i.
Proof.
  intros H. unfold check_consistency in H. apply cand_true in H as [Ht H]. apply cand_true in H as [Hp H].
  apply cand_true in H as [Ha _]. injection Ha as Ha. split; [|split; [|done]].
  - unfold check_time_consistency in Ht. apply bind_returns in Ht as ([s e] & H1 & Ht). apply bind_returns in Ht as ([s' e'] & H2 & Ht).
    injection Ht as Ht. cbn [fst snd] in Ht. apply andb_true_iff in Ht as [Hs He]. apply Z.leb_le in Hs, He. by exists s, e, s', e'.
  - unfold check_permission_consistency in Hp. destruct (_ && _); [done|]. apply bind_returns in Hp as ([|] & _ & Hp); [done|].
    by injection Hp as Hp.
Qed.

(** Transitivity along the chain: what holds of a certificate and its issuer holds of
    the certificate and every authority above it. *)
Lemma anchored_chain_above lookup store (R : obj -> obj -> Prop) c chain : Transitive R ->
  anchored_chain lookup store R (c :: chain) -> Forall (R c) chain.
Proof.
  intros HR. revert c. induction chain as [|i chain IH]; intros c H; [constructor|].
  destruct H as (_ & Hci & H). constructor; [done|]. apply IH in H. eapply Forall_impl; [done|]. intros j Hj. by transitivity i.
Qed.

Lemma anchored_chain_issuers lookup store (P : obj -> Prop) c chain :
  anchored_chain lookup store (fun _ i => P i) (c :: chain) -> Forall P chain.
Proof.
  revert c. induction chain as [|i chain IH]; intros c H; [constructor|]. destruct H as (_ & Hi & H). constructor; [done|by eapply IH].
Qed.

End Enclosed.

(** * One chain *)

Section Chains.
Context {pf : Platform} {sha : Sha}.

(** An authentic chain is an anchored one. *)
Lemma authentic_anchored policy ecc pqc lookup store chain : authentic_chain policy ecc pqc lookup store chain ->
  anchored_chain lookup store (fun c i => verified policy ecc pqc c (Some (Some i))) chain.
Proof.
  induction chain as [|c [|i chain] IH]; [done|by intros [H _]|]. intros ((Hs & d & Hd & Hl & _) & Hv & H).
  split; [split; [done|by exists d]|]. by split; [|apply IH].
Qed.

(** The issuers of a certificate are determined. *)
Lemma anchored_chain_unique lookup store P Q : forall chain chain' c,
  anchored_chain lookup store P (c :: chain) -> anchored_chain lookup store Q (c :: chain') -> chain = chain'.
Proof.
  induction chain as [|i chain IH]; intros [|j chain'] c H H'; [done| | |].
  - destruct H as [Hs _], H' as [[Hs' _] _]. congruence.
  - destruct H as [[Hs _] _], H' as [Hs' _]. congruence.
  - destruct H as ((_ & d & Hd & Hl) & _ & H), H' as ((_ & d' & Hd' & Hl') & _ & H').
    assert (i = j) as <- by congruence. f_equal. by eapply IH.
Qed.

(** Every certificate of the chain but the first was found by the lookup. *)
Lemma anchored_chain_found lookup store P c chain : anchored_chain lookup store P (c :: chain) ->
  Forall (fun a => exists d, lookup d = Some a) chain.
Proof.
  revert c. induction chain as [|i chain IH]; intros c H; [constructor|]. destruct H as ((_ & d & _ & Hl) & _ & H).
  constructor; [by exists d|by eapply IH].
Qed.

End Chains.

(** * The verdicts taken apart *)

Section Verdicts.
Context {pf : Platform} {sha : Sha} {geo : Geodesy} {PositionFix : Type}.

Lemma valid_for_signing_inv (v : @DefaultCertificateValidator PositionFix) c aid :
  valid_for_signing v (Some c) aid = Returns Valid ->
  valid_for_application (Some c) aid = Returns true /\
  (forall now, v.(m_runtime) = Some now -> valid_at_timepoint (Some c) now = true) /\
  is_chain_anchored v (Some c) = Returns true /\ chain_is_consistent v (Some c) aid = Returns true /\
  chain_is_revoked v (Some c) = Returns false /\ location_verdict v (Some c) = Returns Valid.
Proof.
  intros H. unfold valid_for_signing in H. destruct (_ && _); [done|]. destruct (_ && _); [done|].
  apply bind_returns in H as ([|] & Hp & H); [|done]. cbn [negb] in H.
  assert (forall now, v.(m_runtime) = Some now -> valid_at_timepoint (Some c) now = true) as Ht.
  { intros now E. rewrite E in H. by destruct (valid_at_timepoint (Some c) now). }
  destruct (match v.(m_runtime) with Some _ => _ | None => _ end); [done|].
  apply bind_returns in H as ([|] & Ha & H); [|done]. apply bind_returns in H as ([|] & Hc & H); [|done]. cbn [negb] in H.
  apply bind_returns in H as ([|] & Hr & H); [done|]. done.
Qed.

(** A chain the default validator has accepted. *)
Record accepted_chain (v : @DefaultCertificateValidator PositionFix) (aid : Z) lookup store (c : obj) (chain : list obj) : Prop := {
  ac_anchored : anchored_chain lookup store (fun _ _ => True) (c :: chain);
  ac_length : (length chain < max_chain_depth)%nat;
  ac_issue : Forall (fun a => is_allowed_to_issue (Some a) aid = true) chain;
  ac_encloses : Forall (fun a => encloses a c) chain;
  ac_assurance : Forall (assurance_le c) chain;
  ac_revoked r : v.(m_revocation_lookup) = Some r -> Forall (fun c => exists d, calculate_digest c = Returns (Some d)) (c :: chain) ->
    anchored_chain lookup store (fun c i => forall dc di, calculate_digest c = Returns (Some dc) ->
      issuer_digest (Some c) = Returns (Some di) -> r di dc = false) (c :: chain);
}.

Lemma accepted_chain_exists (v : @DefaultCertificateValidator PositionFix) c aid lookup store :
  v.(m_issuer_lookup) = Some lookup -> v.(m_trust_store) = Some store -> v.(m_disable_chain_consistency_checks) = false ->
  valid_for_signing v (Some c) aid = Returns Valid -> exists chain, accepted_chain v aid lookup store c chain.
Proof.
  intros Hl Hs Hd (_ & _ & Ha & Hc & Hr & _)%valid_for_signing_inv. unfold is_chain_anchored in Ha. rewrite Hs, Hl in Ha.
  apply anchored_loop_iff in Ha as (chain & Hch & Hlen). exists chain. unfold chain_is_consistent in Hc. rewrite Hd, Hl in Hc.
  pose proof (consistent_loop_chain v aid lookup store _ Hl c chain Hc Hch Hlen) as Hcons.
  assert (anchored_chain lookup store (fun s i => encloses i s /\ is_allowed_to_issue (Some i) aid = true /\ assurance_le s i) (c :: chain))
    as Hall by (eapply anchored_chain_impl; [|done]; intros s i; by apply check_consistency_inv).
  split; try done.
  - eapply anchored_chain_issuers, anchored_chain_impl; [|done]. by intros s i (_ & H & _).
  - apply (anchored_chain_above lookup store (fun s i => encloses i s)); [intros x y z Hx Hy; by transitivity y|].
    eapply anchored_chain_impl; [|done]. by intros s i (H & _).
  - apply (anchored_chain_above lookup store assurance_le); [apply _|]. eapply anchored_chain_impl; [|done]. by intros s i (_ & _ & H).
  - intros r Hrv Hdig. unfold chain_is_revoked in Hr. rewrite Hrv, Hl in Hr. by eapply revoked_loop_chain.
Qed.

End Verdicts.
