(* ===== verification/AcceptOk.v ===== *)
(** Certificates that are accepted, and answers that are always given.

    What a certificate looks like after it was signed in both layers, and that a
    validator accepts it: as a trusted root, or under an authority it accepts.
    Reading, digesting and verifying certificates that stand for a value neither runs
    into undefined behaviour nor lets an exception escape, and the walks along the
    chain end with a result. *)

From stdpp Require Import prelude strings gmap.
From S2P Require Import Prelude Codecs Descriptor OerSupport OerSpec OerSem OerCodec Pqc OerTheorems.
From S2P Require Import Certificates Asn1Wrapper SameValue SecurityTypes CertificateV3 CertificateV3Ok.
From S2P Require Import HybridCertificate HybridCertificateOk CertificateStores CertificateValidator.
From S2P Require Import ValidatorOk.

Section Issuing.
Context {pf : Platform} {fits : StackFits pf} {sha : Sha} {ecc : Backend} {pqc : PqcBackend}.
Context {ecc_ok : BackendOk ecc} {pqc_ok : PqcBackendOk pqc}.

(** Both signatures are there and verify; nothing else has changed. *)
Record signed_from (o : obj) (i : option view) (o' : obj) : Prop := {
  sf_proper : proper_cert o';
  sf_primary : verify_primary_certificate (Some o') i = Returns true;
  sf_alternative : verify_alternative_certificate (Some o') i = Returns true;
  sf_extract : is_Some (extract_alternative_signature o');
  sf_issuer : memb 2 (Some o') = memb 2 (Some o);
  sf_members j : j <> 17%nat -> memb j (toBeSigned (Some o')) = memb j (toBeSigned (Some o));
}.

Lemma signing_ok o i pk ek o1 o2 : proper_cert o -> sign_alternative_certificate o i pk = (Returns (), o1) ->
  sign_primary_certificate o1 i ek = (Returns (), o2) -> signed_from o i o2.
Proof.
  intros H H1 H2. destruct (sign_alternative_ok o i pk o1 pqc_ok H H1) as [Hp1 Hv1].
  destruct (sign_primary_ok o1 i ek o2 ecc_ok Hp1 H2) as [Hp2 Hv2].
  pose proof (sign_primary_keeps_alternative o1 i ek o2 ecc_ok Hp1 H2 Hv1) as Hv1'.
  destruct (sign_alternative_inv o i pk o1 pqc_ok H H1) as (_ & _ & _ & alt & _ & _ & _ & _ & _ & Ha & Hz & ->).
  destruct (sign_primary_inv _ i ek o2 ecc_ok H2) as (_ & _ & _ & _ & sig & _ & _ & _ & _ & _ & _ & Hs & ->).
  split; try done.
  - unfold extract_alternative_signature. rewrite toBeSigned_with_primary. fold (extract_alternative_signature (with_signature alt o)).
    rewrite extract_with_signature by done. by eexists.
  - unfold with_primary. rewrite memb_set_memb_ne by done. by apply memb_set_tbs.
  - intros j Hj. rewrite toBeSigned_with_primary. unfold with_signature. set (m := Some (O_CHOICE _ _ _)).
    eapply (toBeSigned_written o 17 _ m) in H as [_ H]; [|table]. by apply H.
Qed.

Section Signed.
Context (o o' : obj) (i : option view) (S : signed_from o i o').

Lemma signed_self : issuer_is_self (Some o') = issuer_is_self (Some o).
Proof. apply issuer_is_self_memb. exact (sf_issuer _ _ _ S). Qed.

Lemma signed_issuer_digest : issuer_digest (Some o') = issuer_digest (Some o).
Proof. apply issuer_digest_memb. exact (sf_issuer _ _ _ S). Qed.

Lemma signed_ca : is_ca_certificate (Some o') = is_ca_certificate (Some o).
Proof. unfold is_ca_certificate, certIssuePermissions. by rewrite (sf_members _ _ _ S). Qed.

Lemma signed_at : is_at_certificate (Some o') = is_at_certificate (Some o).
Proof. unfold is_at_certificate, certIssuePermissions, appPermissions. by rewrite !(sf_members _ _ _ S). Qed.

Lemma signed_key : altVerificationKey (toBeSigned (Some o')) = altVerificationKey (toBeSigned (Some o)).
Proof. unfold altVerificationKey. by rewrite (sf_members _ _ _ S). Qed.

Lemma signed_extract_key : extract_alternative_public_key o' = extract_alternative_public_key o.
Proof. unfold extract_alternative_public_key. by rewrite signed_key. Qed.

Lemma ca_not_at c : is_ca_certificate (Some c) = true -> is_at_certificate (Some c) = false.
Proof. unfold is_ca_certificate, is_at_certificate. by destruct (is_null (certIssuePermissions _)). Qed.

(** An authority has a key of its own; a ticket has none. *)
Definition hybrid_role (o : obj) : Prop :=
  (is_ca_certificate (Some o) = true /\ is_Some (extract_alternative_public_key o)) \/
  (is_at_certificate (Some o) = true /\ altVerificationKey (toBeSigned (Some o)) = None).

Lemma signed_state : hybrid_role o -> alternative_material_state (Some o') = Returns Authority \/
  alternative_material_state (Some o') = Returns EndEntity.
Proof.
  destruct (material_state_cases o' (sf_proper _ _ _ S)) as (_ & He & Ha & _). intros [[Hca Hk]|[Hat Hk]].
  - left. apply Ha. rewrite signed_at, signed_ca, signed_extract_key.
    split; [by apply ca_not_at|]. split; [by right|]. split; [done|].
    exact (sf_extract _ _ _ S).
  - right. apply He. rewrite signed_at, signed_key. split; [done|]. split; [done|]. exact (sf_extract _ _ _ S).
Qed.

(** A signed certificate meets the strictest policy. *)
Lemma signed_verified : hybrid_role o -> verified HybridRequired ecc (Some pqc) o' i.
Proof.
  intros H. split; [exact (sf_primary _ _ _ S)|]. split; [by apply signed_state|].
  exists pqc. split; [done|]. exact (sf_alternative _ _ _ S).
Qed.

End Signed.

Lemma same_is_at c c' : same_cert c c' -> is_at_certificate (Some c) = is_at_certificate (Some c').
Proof.
  intros H%same_toBeSigned. pose proof H as H'. member_at 7%nat H. member_at 6%nat H'.
  unfold is_at_certificate, certIssuePermissions, appPermissions. destruct H, H'; done.
Qed.

Lemma same_material_state c c' : same_cert c c' -> alternative_material_state (Some c) = alternative_material_state (Some c').
Proof.
  intros H. rewrite (material_state_eq c (same_refl_l _ _ _ _ H)), (material_state_eq c' (same_refl_r _ _ _ _ H)).
  rewrite (same_extract_key _ _ H), (same_extract_signature _ _ H), (same_is_at _ _ H), (same_is_ca _ _ H).
  rewrite (same_opt_present _ _ _ _ _ (same_issuer _ _ H) eq_refl).
  pose proof (same_alt_key _ _ H) as Hk. pose proof (same_alt_signature _ _ H) as Hs. by destruct Hk, Hs.
Qed.

(** Verification of a copy, under a copy of the issuer. *)
Lemma same_verified c c' i i' : same_cert c c' -> same_view i i' ->
  verified HybridRequired ecc (Some pqc) c i -> verified HybridRequired ecc (Some pqc) c' i'.
Proof.
  intros H Hi [Hp [Hm (b & [= <-] & Hv)]]. split; [by rewrite <- (verify_primary_same _ _ _ _ H Hi)|].
  split; [by rewrite <- (same_material_state _ _ H)|]. exists pqc. split; [done|]. by rewrite <- (verify_alternative_same _ _ _ _ H Hi).
Qed.

(** A signed root in the trust store is a chain of its own. *)
Lemma signed_root_authentic o o' lookup store store' : signed_from o None o' -> hybrid_role o ->
  issuer_is_self (Some o) = Returns true -> trust_store store -> TrustStore_insert store o' = Returns store' ->
  authentic_chain HybridRequired ecc (Some pqc) lookup store' [o'].
Proof.
  intros Hs Hrole Hself Hst Hi. split; [|by eapply signed_verified]. split; [by rewrite (signed_self _ _ _ Hs)|].
  destruct (TrustStore_insert_inv _ _ _ (sf_proper _ _ _ Hs) Hi) as (id & c' & -> & He' & _ & Hd).
  destruct (trust_lookup_ok (store ++ [(id, c')]) id) as (l & Hl & Hne).
  { apply Forall_app. split; [by apply trust_store_entries|by constructor]. }
  exists id, l. split; [done|]. split; [done|]. apply Hne. exists c'. apply elem_of_app. right. by apply list_elem_of_singleton.
Qed.

(** So is a copy of it. *)
Lemma same_root_authentic r r' lookup store : same_cert r r' ->
  authentic_chain HybridRequired ecc (Some pqc) lookup store [r] -> authentic_chain HybridRequired ecc (Some pqc) lookup store [r'].
Proof.
  intros H [[Hself (d & l & Hd & Hl)] Hv]. split; [|by eapply same_verified; [|constructor|]].
  split; [by rewrite <- (same_is_self _ _ H)|]. exists d, l. split; [|done].
  destruct (calculate_digest_same _ _ H) as (d' & E1 & E2). congruence.
Qed.

End Issuing.

(** * Calls with a defined outcome *)

Definition defined {A} (m : cpp A) : Prop := m <> NoResult.

(** Calls that return. *)
Definition returns {A} (m : cpp A) : Prop := exists a, m = Returns a.

Lemma defined_returns {A} (m : cpp A) : returns m -> defined m.
Proof. by intros [a ->]. Qed.

Lemma defined_bind {A B} (m : cpp A) (k : A -> cpp B) :
  defined m -> (forall a, m = Returns a -> defined (k a)) -> defined (m ≫= k).
Proof. unfold defined. destruct m as [a| |]; intros Hm Hk; [by apply Hk|done|done]. Qed.

Lemma returns_bind {A B} (m : cpp A) (k : A -> cpp B) :
  returns m -> (forall a, m = Returns a -> returns (k a)) -> returns (m ≫= k).
Proof. intros [a ->] Hk. by apply Hk. Qed.

Lemma returns_catch {A} (m h : cpp A) : defined m -> returns h -> returns (try_catch m h).
Proof. destruct m as [a| |]; intros Hm Hh; [by exists a|done|done]. Qed.

Lemma defined_throw_if c e : defined (throw_if c e).
Proof. by destruct c. Qed.

Lemma returns_cand a b : returns a -> returns b -> returns (cand a b).
Proof. intros [[] ->] Hb; [done|by eexists]. Qed.

Create HintDb answers.
#[export] Hint Resolve defined_returns defined_throw_if returns_cand : answers.
#[export] Hint Extern 1 (returns (Returns _)) => eexists; reflexivity : answers.
#[export] Hint Extern 1 (defined (Returns _)) => discriminate : answers.
#[export] Hint Extern 1 (defined (Throws _)) => discriminate : answers.

(** Goes through a sequence of calls. *)
Ltac answer :=
  repeat match goal with
  | |- defined (let _ := _ in _) => cbv zeta
  | |- defined (_ ≫= _) => apply defined_bind; [eauto with answers|intros ? ?]
  | |- returns (_ ≫= _) => apply returns_bind; [eauto with answers|intros ? ?]
  | |- defined (match ?x with _ => _ end) => destruct x eqn:?
  | |- returns (match ?x with _ => _ end) => destruct x eqn:?
  end; eauto with answers.

Section Total.
Context {pf : Platform} {fits : StackFits pf} {sha : Sha}.

Lemma digest_returns o : proper_cert o -> returns (calculate_digest o).
Proof. intros H. destruct (calculate_digest_same o o H) as (d & -> & _). by exists d. Qed.

Lemma issuer_digest_size o i : proper_cert o -> i = 0%nat \/ i = 2%nat -> present (issuer (Some o)) = Z.of_nat i + 1 ->
  size (octets (choice (issuer (Some o)))) = 8.
Proof.
  intros H Hi. eapply (mandatory _ _ 2) in H as (j & Hj & Hp); [|table|done]. unfold issuer. rewrite Hj.
  destruct (same_choice asn_DEF_IssuerIdentifier _ _ _ _ eq_refl Hp) as (n & e & ct & ct' & m & m' & He & Hm & -> & Hc). injection Hc as <- <-.
  cbn [present choice]. intros E. assert (n = i) as -> by lia.
  destruct Hi as [-> | ->]; injection He as <-; by eapply octets_size in Hm.
Qed.

Lemma issuer_digest_returns o : proper_cert o -> returns (issuer_digest (Some o)).
Proof.
  intros H. unfold issuer_digest. destruct (_ || _) eqn:E; [|by eexists]. unfold hashed_id8_of_octets.
  assert (size (octets (choice (issuer (Some o)))) = 8) as ->.
  { apply orb_true_iff in E as [E|E]; apply Z.eqb_eq in E; [by apply (issuer_digest_size o 0); [|left|]|].
    by apply (issuer_digest_size o 2); [|right|]. }
  by eexists.
Qed.

Lemma canonicalize_returns o : proper_cert o -> returns (canonicalize o).
Proof.
  intros H. pose proof (canonicalize_spec o H) as Hs. destruct (_.1); [destruct Hs as (c & -> & _)|rewrite Hs]; by eexists.
Qed.

Lemma copy_construct_returns o : proper_cert o -> returns (copy_construct o).
Proof. intros H. destruct (copy_construct_same o H) as (c & -> & _). by exists c. Qed.

End Total.
#[export] Hint Resolve digest_returns issuer_digest_returns canonicalize_returns copy_construct_returns : answers.

(** * Verification *)

(** No issuer, or one that stands for a value. *)
Definition proper_issuer (i : option view) : Prop := same_view i i.

Lemma proper_no_issuer : proper_issuer None.
Proof. constructor. Qed.

Lemma proper_some_issuer c : proper_cert c -> proper_issuer (Some (Some c)).
Proof. by constructor. Qed.

Lemma proper_issuer_inv v : proper_issuer (Some v) -> exists c, v = Some c /\ proper_cert c.
Proof. inversion 1; subst. by eexists. Qed.

(** Back ends whose verification has a defined outcome. *)
Class BackendDefined (ecc : Backend) : Prop := verify_digest_defined p d s : defined (verify_digest p d s).
Class PqcBackendDefined (pqc : PqcBackend) : Prop := pqc_verify_defined p d s : defined (pqc_verify p d s).
#[export] Hint Resolve proper_no_issuer proper_some_issuer verify_digest_defined pqc_verify_defined : answers.

Section Verification.
Context {pf : Platform} {fits : StackFits pf} {sha : Sha} {ecc : Backend} {ecc_defined : BackendDefined ecc}.

Lemma is_self_returns o : returns (issuer_is_self (Some o)).
Proof. by eexists. Qed.
#[local] Hint Resolve is_self_returns : answers.

Lemma signing_certificate_defined o i : defined (signing_certificate (Some o) i).
Proof. unfold signing_certificate. answer. Qed.

Lemma signing_certificate_proper o i v : proper_cert o -> proper_issuer i ->
  signing_certificate (Some o) i = Returns v -> exists c, v = Some c /\ proper_cert c.
Proof.
  intros H Hi Hs. unfold signing_certificate in Hs. apply bind_returns in Hs as ([|] & _ & Hs); [injection Hs as <-; by exists o|].
  destruct i as [v'|]; [|done]. injection Hs as <-. by apply proper_issuer_inv.
Qed.

Lemma copy_certificate_returns o : proper_cert o -> returns (copy_certificate (Some o)).
Proof. intros H. destruct (copy_certificate_same o H) as (c & -> & _). by eexists. Qed.

Lemma copy_or_throw_returns o : proper_cert o -> returns (copy_certificate_or_throw (Some o)).
Proof. intros H. destruct (copy_or_throw_same o H) as (c & -> & _). by eexists. Qed.
#[local] Hint Resolve signing_certificate_defined copy_certificate_returns copy_or_throw_returns : answers.

Lemma canonical_tbs_defined o layer : proper_cert o -> defined (canonical_tbs (Some o) layer).
Proof.
  intros H. rewrite canonical_tbs_eq by done.
  by destruct (tbs_input_total (layer_cert layer o) (layer_cert_same layer _ _ H)) as [[bs ->]| ->].
Qed.

Lemma encode_returns o : proper_cert o -> returns (encode (Some o)).
Proof. intros H. destruct (encode_cert_same o o H) as (bs & -> & _). by exists bs. Qed.

Lemma canonical_issuer_defined o i : proper_cert o -> proper_issuer i -> defined (canonical_issuer (Some o) i).
Proof.
  intros H Hi. unfold canonical_issuer. apply defined_bind; [eauto with answers|]. intros [|] _; [done|].
  destruct i as [v|]; [|done]. apply proper_issuer_inv in Hi as (c & -> & Hc). cbn [view_calculate_digest view_canonicalize].
  do 2 (apply defined_bind; [eauto with answers|]; intros ? ?). apply defined_bind; [eauto with answers|]. intros ? _.
  apply defined_bind; [eauto with answers|]. intros [c'|] Hc'; [|done]. apply defined_returns, encode_returns.
  destruct (canonicalize_same c c Hc) as [[E _]|(d & d' & E & _ & _ & Hs)]; [congruence|].
  rewrite Hc' in E. injection E as ->. by eapply same_refl_r.
Qed.
#[local] Hint Resolve canonical_tbs_defined canonical_issuer_defined : answers.

Lemma certificate_hash_defined algo o i layer : proper_cert o -> proper_issuer i ->
  defined (calculate_certificate_hash algo (Some o) i layer).
Proof. intros H Hi. unfold calculate_certificate_hash. answer. Qed.
#[local] Hint Resolve certificate_hash_defined : answers.

Lemma verify_primary_returns o i : proper_cert o -> proper_issuer i -> returns (verify_primary_certificate (Some o) i).
Proof.
  intros H Hi. apply returns_catch; [|by eexists]. apply defined_bind; [eauto with answers|]. intros v Hv.
  destruct (signing_certificate_proper o i v H Hi Hv) as (c & -> & Hc). answer.
Qed.

Context {pqc : PqcBackend} {pqc_defined : PqcBackendDefined pqc}.

Lemma verify_alternative_returns o i : proper_cert o -> proper_issuer i -> returns (verify_alternative_certificate (Some o) i).
Proof.
  intros H Hi. apply returns_catch; [|by eexists]. apply defined_bind; [eauto with answers|]. intros v Hv.
  destruct (signing_certificate_proper o i v H Hi Hv) as (c & -> & Hc). rewrite get_alternative_public_key_eq by done.
  cbn [mbind cpp_bind]. rewrite get_alternative_signature_eq by done. cbn [mbind cpp_bind]. answer.
Qed.

Lemma material_state_returns o : proper_cert o -> returns (alternative_material_state (Some o)).
Proof. intros H. destruct (material_state_cases o H) as (_ & _ & _ & st & Hst). by exists st. Qed.

End Verification.
#[export] Hint Resolve is_self_returns verify_primary_returns verify_alternative_returns material_state_returns : answers.

(** * Walks *)

Section Walks.
Context {pf : Platform} {fits : StackFits pf} {sha : Sha}.
Context (lookup : IssuerLookup) {lookup_ok : IssuerLookupOk lookup} (store : TrustStore) (entries : Forall trust_entry store).

Lemma in_trust_store_returns o : proper_cert o -> returns (in_trust_store store (Some o)).
Proof.
  intros H. unfold in_trust_store, view_calculate_digest. apply returns_bind; [eauto with answers|]. intros [d|] _; [|by eexists].
  destruct (trust_lookup_ok store d entries) as (l & -> & _). by eexists.
Qed.
#[local] Hint Resolve in_trust_store_returns : answers.

Lemma anchored_loop_returns n : forall o, proper_cert o -> returns (anchored_loop lookup store n (Some o)).
Proof.
  induction n as [|n IH]; intros o H; cbn [anchored_loop]; [by eexists|]. apply returns_bind; [eauto with answers|].
  intros [|] _; [eauto with answers|]. apply returns_bind; [eauto with answers|]. intros [d|] _; [|by eexists].
  destruct (lookup d) as [i|] eqn:E; [|by eexists]. apply IH. by eapply found_proper.
Qed.

Lemma revoked_loop_returns revoked n : forall o, proper_cert o -> returns (revoked_loop revoked lookup n (Some o)).
Proof.
  induction n as [|n IH]; intros o H; cbn [revoked_loop view_calculate_digest]; [by eexists|].
  apply returns_bind; [eauto with answers|]. intros dc _. apply returns_bind; [eauto with answers|]. intros di _.
  destruct dc as [dc|], di as [di|]; try by eexists. destruct (revoked di dc); [by eexists|].
  destruct (lookup di) as [i|] eqn:E; [|by eexists]. apply returns_bind; [eauto with answers|].
  intros [|] _; [by eexists|]. apply IH. by eapply found_proper.
Qed.

Context (policy : VerificationPolicy) (ecc : Backend) {ecc_defined : BackendDefined ecc} (pqc : option PqcBackend).
Context (pqc_defined : forall b, pqc = Some b -> PqcBackendDefined b).

Lemma alternative_accepted_returns o i : proper_cert o -> proper_issuer i ->
  returns (alternative_signature_is_accepted policy ecc pqc (Some o) i).
Proof.
  intros H Hi. unfold alternative_signature_is_accepted. destruct (decide _); [by eexists|].
  apply returns_bind; [by eapply material_state_returns|]. intros [] _; try by eexists.
  all: destruct pqc as [b|]; [|by eexists]; pose proof (pqc_defined b eq_refl); eauto with answers.
Qed.
#[local] Hint Resolve alternative_accepted_returns : answers.

Lemma authentic_loop_returns n : forall o, proper_cert o -> returns (authentic_loop policy ecc pqc lookup store n (Some o)).
Proof.
  induction n as [|n IH]; intros o H; cbn [authentic_loop]; [by eexists|]. apply returns_bind; [eauto with answers|].
  intros [|] _; (apply returns_bind; [eauto with answers|]).
  - intros [|] _; [|by eexists]. cbn [negb]. eauto with answers.
  - intros [d|] _; [|by eexists]. destruct (lookup d) as [i|] eqn:E; [|by eexists].
    pose proof (found_proper _ _ E) as Hi. apply returns_bind; [eauto with answers|]. intros a _.
    destruct (negb _); [by eexists|]. pose proof (proper_some_issuer i Hi).
    apply returns_bind; [eauto with answers|]. intros [|] _; [|by eexists]. by apply IH.
Qed.

End Walks.
