(* ===== verification/Samples.v ===== *)
(** Concrete certificates and back ends.

    A platform without limits, digests and signatures that are easy to compute, and
    two certificates: a root authority and an authorization ticket it issues.  They
    show that the hypotheses of the theorems about the security layer can be met. *)

From Stdlib Require Import ZArith Lia.
From stdpp Require Import prelude strings gmap.
From S2P Require Import Prelude Codecs Descriptor OerSupport OerSpec OerSem OerCodec OerTheorems Pqc Certificates.
From S2P Require Import Asn1Wrapper SameValue SecurityTypes CertificateV3 CertificateV3Ok HybridCertificate HybridCertificateOk.

(** * Parameters *)

#[local] Instance sample_platform : Platform := {| pf_fuel := 0; pf_used := no_stack |}.
#[local] Instance sample_fits : StackFits sample_platform := no_stack_fits.

(** The last [n] octets of a text, padded on the left. *)
Definition padded (n : nat) (l : bytes) : bytes := map u8 (last_octets n (replicate n 0 ++ l)).

Lemma padded_octets n l : all_bytes (padded n l).
Proof. apply List.Forall_map, Forall_forall. intros x _. apply is_byte_u8. Qed.

Lemma padded_size n l : size (padded n l) = Z.of_nat n.
Proof. unfold size, padded, last_octets. rewrite length_map, length_drop, length_app, length_replicate. lia. Qed.

#[local] Instance sample_sha : Sha :=
  {| calculate_sha256_digest := padded 32; calculate_sha384_digest := padded 48 |}.

(** A signature repeats the digest; it verifies under a key of its type. *)
#[local] Instance sample_ecc : Backend := {|
  calculate_hash := backend_hash;
  sign_digest k d := Returns {| sig_r := replicate (Z.to_nat (key_length k.(priv_type))) 1;
                                sig_s := padded (Z.to_nat (key_length k.(priv_type))) d; sig_type := k.(priv_type) |};
  verify_digest p d s :=
    Returns (bool_decide (s.(sig_type) = p.(pk_type) /\ s.(sig_s) = padded (Z.to_nat (key_length p.(pk_type))) d)) |}.

Lemma replicate_octets n x : is_byte x -> all_bytes (replicate n x).
Proof. intros H. by apply Forall_replicate. Qed.

Lemma sample_ecc_ok : BackendOk sample_ecc.
Proof.
  split.
  - intros k d s [= <-]. split; [by apply replicate_octets|apply padded_octets].
  - intros p d s H. cbn [verify_digest sample_ecc] in H. injection H as H. by apply bool_decide_eq_true in H as [H _].
Qed.

#[local] Instance sample_pqc : PqcBackend := {|
  pqc_generate_key_pair := Returns (replicate 897 5, replicate 1281 6);
  pqc_sign k d := Returns (padded 666 d);
  pqc_verify p d s := Returns (bool_decide (s = padded 666 d)) |}.

Lemma sample_pqc_ok : PqcBackendOk sample_pqc.
Proof. intros k d s [= <-]. apply padded_octets. Qed.

(** Every circle lies within every other one. *)
#[local] Instance sample_geodesy : Geodesy := {| circle_within _ _ _ _ := true |}.

(** The result of a call that returns. *)
Definition returned {A} (d : A) (m : cpp A) : A := match m with Returns a => a | _ => d end.

(** * Certificates *)

(** The structure a decoder builds for a value. *)
Definition struct_of (a : aval) : obj :=
  default O_NULL (oer_decode no_stack None asn_DEF_EtsiTs103097Certificate None (octets_of asn_DEF_EtsiTs103097Certificate a)).2.

Lemma struct_of_proper a : is_Some ((sem asn_DEF_EtsiTs103097Certificate).(sp_bytes) None a) -> proper_cert (struct_of a).
Proof.
  intros [bs Hb]. unfold struct_of, octets_of. rewrite Hb. cbn [default from_option id].
  destruct (decode_ok no_stack _ a bs [] wf_etsi_certificate eq_refl no_stack_fits Hb) as (o & Hd & Hr).
  rewrite app_nil_r in Hd. rewrite Hd. exists a. cbn [snd default from_option id]. by repeat split.
Qed.

(** A to-be-signed part with the given permissions and extension additions. *)
Definition sample_tbs_with (start : Z) (app issue : option aval) (key : aval) (extensions : list (option aval)) : aval :=
  A_SEQ ([Some (A_CHOICE 3 A_NULL); Some (A_OCTETS [0; 0; 0]); Some (A_INT 0);
          Some (A_SEQ [Some (A_INT start); Some (A_CHOICE 4 (A_INT 24))]);
          None; None; app; issue; None; None; None; Some (A_CHOICE 0 (A_CHOICE 0 key))] ++ extensions).

Definition sample_cert_with (issuer tbs : aval) : aval :=
  A_SEQ [Some (A_INT 3); Some (A_INT 0); Some issuer; Some tbs; None].

(** Permission to issue for every application, and the permission of a ticket. *)
Definition issue_all : aval :=
  A_LIST [A_SEQ [Some (A_CHOICE 1 A_NULL); Some (A_INT 1); Some (A_INT 0); None]].
Definition app_CA : aval := A_LIST [A_SEQ [Some (A_INT 36); None]].

Definition compressed_key_value : aval := A_CHOICE 2 (A_OCTETS (replicate 32 0x11)).

(** A root authority with an alternative key, not yet signed. *)
Definition root_value : aval :=
  sample_cert_with (A_CHOICE 1 (A_INT 0))
    (sample_tbs_with 660000000 None (Some issue_all) compressed_key_value
       [None; None; None; None; Some (fnDsa512 (replicate 897 9)); None]).

(** A ticket issued by the certificate with the given digest, not yet signed. *)
Definition ticket_value (digest : bytes) : aval :=
  sample_cert_with (A_CHOICE 0 (A_OCTETS digest))
    (sample_tbs_with 660000000 (Some app_CA) None compressed_key_value [None; None; None; None; None; None]).

Definition ecc_key : PrivateKey := {| priv_type := NistP256; priv_key := replicate 32 3 |}.
Definition pqc_key : bytes := replicate 1281 6.

Definition root0 : obj := struct_of root_value.
Definition root1 : obj := (sign_alternative_certificate root0 None pqc_key).2.
Definition root2 : obj := (sign_primary_certificate root1 None ecc_key).2.

Lemma root0_proper : proper_cert root0.
Proof. apply struct_of_proper. vm_compute. by eexists. Qed.

Lemma root1_signed : sign_alternative_certificate root0 None pqc_key = (Returns (), root1).
Proof. unfold root1. by vm_compute. Qed.

Lemma root2_signed : sign_primary_certificate root1 None ecc_key = (Returns (), root2).
Proof. unfold root2, root1. by vm_compute. Qed.

(** The digest of the signed root, as the issuer field of its tickets. *)
Definition root_digest : bytes :=
  default [] (returned None (calculate_digest root2)).

Definition ticket0 : obj := struct_of (ticket_value root_digest).
Definition ticket1 : obj := (sign_alternative_certificate ticket0 (Some (Some root2)) pqc_key).2.
Definition ticket2 : obj := (sign_primary_certificate ticket1 (Some (Some root2)) ecc_key).2.

Lemma root2_digest : calculate_digest root2 = Returns (Some root_digest).
Proof. by vm_compute. Qed.

Lemma ticket0_proper : proper_cert ticket0.
Proof. apply struct_of_proper. vm_compute. by eexists. Qed.

Lemma ticket1_signed : sign_alternative_certificate ticket0 (Some (Some root2)) pqc_key = (Returns (), ticket1).
Proof. unfold ticket1. by vm_compute. Qed.

Lemma ticket2_signed : sign_primary_certificate ticket1 (Some (Some root2)) ecc_key = (Returns (), ticket2).
Proof. unfold ticket2. by vm_compute. Qed.
