(* ===== verification/HybridTheorems.v ===== *)
(** Theorems about hybrid certificates.

    Signing and verifying both layers, what each layer covers, the round trip of the
    alternative material, its classification, canonical certificates and digests,
    and the behaviour of the routines when something fails. *)

From stdpp Require Import prelude strings gmap.
From S2P Require Import Prelude Codecs Descriptor OerSupport OerSpec OerSem OerCodec OerTheorems Pqc Certificates.
From S2P Require Import Asn1Wrapper SameValue SecurityTypes CertificateV3 CertificateV3Ok HybridCertificate HybridCertificateOk Samples.

Section Hybrid.
Context {pf : Platform} {fits : StackFits pf} {sha : Sha} {ecc : Backend} {pqc : PqcBackend}.

(** C7. A certificate that was signed with the alternative key and then with the
    classical one verifies in both layers, whatever its issuer: the second signature
    does not invalidate the first, and encoding and decoding on the way changes
    nothing.  No property of the cryptography is assumed beyond signatures being
    octets and having the type of the key they verify under. *)
Theorem hybrid_signing_verifies o i pqc_key ecc_key o1 o2 : BackendOk ecc -> PqcBackendOk pqc -> proper_cert o ->
  sign_alternative_certificate o i pqc_key = (Returns (), o1) ->
  sign_primary_certificate o1 i ecc_key = (Returns (), o2) ->
  verify_alternative_certificate (Some o2) i = Returns true /\ verify_primary_certificate (Some o2) i = Returns true.
Proof.
  intros He Hp H H1 H2. destruct (sign_alternative_ok o i pqc_key o1 Hp H H1) as [Ho1 Hv].
  split; [by eapply sign_primary_keeps_alternative|by eapply sign_primary_ok].
Qed.

(** C22. The octets to be signed determine what they stand for: two certificates with the
    same input to a signature agree in every component of the to-be-signed part,
    except for the two keys, which are compressed first.  The alternative layer
    leaves out the alternative signature and nothing else; the primary layer covers
    it, so a certificate cannot be stripped of its alternative key or signature
    without signing it again. *)
Theorem signature_input_covers layer o o' bs i e : proper_cert o -> proper_cert o' ->
  canonical_tbs (Some o) layer = Returns bs -> canonical_tbs (Some o') layer = Returns bs ->
  seq_member asn_DEF_ToBeSignedCertificate i e -> i <> 10%nat -> i <> 11%nat -> (layer = Alternative -> i <> 17%nat) ->
  same_opt e.(type) e.(oer_constraints) (memb i (toBeSigned (Some o))) (memb i (toBeSigned (Some o'))).
Proof.
  intros H H' Hb Hb' He H10 H11 H17. rewrite canonical_tbs_eq in Hb, Hb' by done.
  pose proof (layer_cert_same layer _ _ H) as Hl. pose proof (layer_cert_same layer _ _ H') as Hl'.
  assert (forall x, proper_cert x -> memb i (toBeSigned (Some (layer_cert layer x))) = memb i (toBeSigned (Some x))) as Hm.
  { intros x Hx. unfold layer_cert. destruct (decide (layer = Alternative)) as [E|]; [|done].
    rewrite clear_signature_eq by done. eapply (toBeSigned_written x 17 _ None) in Hx as [_ Hx]; [|table]. by apply Hx, H17. }
  rewrite <- (Hm o H), <- (Hm o' H'). clear Hm. unfold tbs_input in Hb, Hb'.
  destruct (canonicalize_in_place (layer_cert layer o)).1; [|done].
  destruct (canonicalize_in_place (layer_cert layer o')).1; [|done].
  pose proof (proj2 (canonicalize_tbs_respects None _ _ (same_tbs_of _ _ Hl))) as Ht.
  pose proof (proj2 (canonicalize_tbs_respects None _ _ (same_tbs_of _ _ Hl'))) as Ht'.
  pose proof (same_encode _ _ _ _ wf_tbs eq_refl Ht Ht' Hb Hb') as Hs. apply same_opt_some, (same_opt_memb _ _ _ _ _ _ He) in Hs.
  rewrite !canonicalize_tbs_members in Hs by done. unfold tbs_of in Hs.
  destruct (proper_tbs _ Hl) as (t & Et & _), (proper_tbs _ Hl') as (t' & Et' & _). rewrite Et, Et' in *. exact Hs.
Qed.

(** The alternative layer does not depend on the alternative signature: setting one
    leaves its input unchanged. *)
Theorem alternative_input_ignores_signature o sig o' : proper_cert o -> all_bytes sig ->
  set_alternative_signature o sig = (Returns (), o') ->
  canonical_tbs (Some o') Alternative = canonical_tbs (Some o) Alternative.
Proof.
  intros H Hl Hs. assert (size sig = fndsa512_signature_size) as Hz.
  { unfold set_alternative_signature in Hs. destruct (Z.eqb_spec (size sig) fndsa512_signature_size); [done|discriminate Hs]. }
  rewrite (set_alternative_signature_eq o sig H Hz) in Hs. injection Hs as <-.
  rewrite (canonical_tbs_eq _ _ (with_signature_same _ _ _ H Hl Hz)), canonical_tbs_eq by done.
  unfold layer_cert. rewrite !decide_True by done. by rewrite clear_with_signature.
Qed.

(** An alternative key and signature of the right size are stored, survive encoding
    and decoding, and are read back; any other size is refused and the certificate
    stays as it was. *)
Theorem alternative_material_roundtrip o key sig : proper_cert o -> all_bytes key -> all_bytes sig ->
  let (r1, o1) := set_alternative_public_key o key in
  let (r2, o2) := set_alternative_signature o1 sig in
  (size key = 897 -> size sig = 666 -> r1 = Returns () /\ r2 = Returns () /\ proper_cert o2 /\
     get_alternative_public_key (Some o2) = Returns (Some key) /\
     get_alternative_signature (Some o2) = Returns (Some sig)) /\
  (size key <> 897 -> r1 = Throws (invalid_argument "FN-DSA-512 public key has an invalid size") /\ o1 = o) /\
  (size sig <> 666 -> r2 = Throws (invalid_argument "FN-DSA-512 signature has an invalid size") /\ o2 = o1).
Proof.
  intros H Hk Hs. destruct (set_alternative_public_key o key) as [r1 o1] eqn:E1.
  destruct (set_alternative_signature o1 sig) as [r2 o2] eqn:E2. split; [|split].
  - intros Hzk Hzs. rewrite (set_alternative_public_key_eq o key H Hzk) in E1. injection E1 as <- <-.
    pose proof (with_key_same _ _ _ H Hk Hzk) as H1. rewrite (set_alternative_signature_eq _ sig H1 Hzs) in E2. injection E2 as <- <-.
    pose proof (with_signature_same _ _ _ H1 Hs Hzs) as H2. do 3 (split; [done|]).
    rewrite get_alternative_public_key_eq, get_alternative_signature_eq by done.
    by rewrite extract_with_signature, extract_key_with_signature, extract_with_key.
  - intros Hz. unfold set_alternative_public_key, fndsa512_public_key_size in E1.
    destruct (Z.eqb_spec (size key) 897); [lia|]. cbn [negb] in E1. by injection E1 as <- <-.
  - intros Hz. unfold set_alternative_signature, fndsa512_signature_size in E2.
    destruct (Z.eqb_spec (size sig) 666); [lia|]. cbn [negb] in E2. by injection E2 as <- <-.
Qed.

(** Classification of the alternative material: no material, an authority with key and
    signature, an end entity with a signature and no key; everything else, wrong
    sizes and other algorithms included, is inconsistent, and there is always a
    result. *)
Theorem alternative_material_state_correct o : proper_cert o ->
  let key := altVerificationKey (toBeSigned (Some o)) in
  let sig := altSignatureValue (toBeSigned (Some o)) in
  let state := alternative_material_state (Some o) in
  (state = Returns MaterialNone <-> key = None /\ sig = None) /\
  (state = Returns EndEntity <->
     is_at_certificate (Some o) = true /\ key = None /\ is_Some (extract_alternative_signature o)) /\
  (state = Returns Authority <->
     is_at_certificate (Some o) = false /\ (issuer_is_self (Some o) = Returns true \/ is_ca_certificate (Some o) = true) /\
     is_Some (extract_alternative_public_key o) /\ is_Some (extract_alternative_signature o)) /\
  exists st, state = Returns st.
Proof. apply material_state_cases. Qed.

(** A failed call to sign leaves the certificate untouched: when either signing routine
    throws, whatever the reason and whatever the certificate, the subject is what it
    was before. *)
Theorem signing_failure_changes_nothing o i pqc_key ecc_key : BackendOk ecc ->
  (forall e o', sign_alternative_certificate o i pqc_key = (Throws e, o') -> o' = o) /\
  (forall e o', sign_primary_certificate o i ecc_key = (Throws e, o') -> o' = o).
Proof.
  intros Hok. split; intros e o' H.
  - unfold sign_alternative_certificate, then_modify in H.
    match type of H with (match ?m with _ => _ end = _) => destruct m as [sig| |] end; [|by injection H|done].
    unfold set_alternative_signature, then_modify in H. destruct (Z.eqb_spec (size sig) fndsa512_signature_size) as [E|].
    + cbn [negb] in H. rewrite assign_octets_ok in H by (rewrite E; by vm_compute). done.
    + by injection H.
  - destruct (sign_primary_certificate o i ecc_key) as [r o1] eqn:E. injection H as -> ->.
    unfold sign_primary_certificate, then_modify in E.
    match type of E with (match ?m with _ => _ end = _) => destruct m as [sig| |] eqn:Em end; [|by injection E|done].
    apply bind_returns in Em as (signer & _ & Em). apply bind_returns in Em as (copy & _ & Em). cbv zeta in Em.
    destruct (get_public_key copy) as [pk|] eqn:Hpk; [|done]. apply bind_returns in Em as (u & _ & Em).
    apply bind_returns in Em as (digest & _ & Em). apply bind_returns in Em as (sig' & _ & Em).
    apply bind_returns in Em as (okv & Hv & Em). apply bind_returns in Em as (u' & Hu'%throw_if_returns & [= ->]).
    apply negb_false_iff in Hu'. subst okv. pose proof (verify_digest_type _ _ _ Hv) as Ht.
    pose proof (get_public_key_type _ _ Hpk) as Hn. rewrite <- Ht in Hn. unfold set_primary_signature in E.
    destruct (Z.eqb_spec (size (sig_r sig)) (key_length (sig_type sig))) as [Er|]; [|by injection E].
    destruct (Z.eqb_spec (size (sig_s sig)) (key_length (sig_type sig))) as [Es|]; [|by injection E]. cbn [negb orb] in E.
    rewrite !assign_octets_ok in E by (rewrite ?Er, ?Es; by destruct (sig_type sig)). by destruct (sig_type sig).
Qed.

End Hybrid.

(** * Canonical certificates and digests *)

Section Canonical.
Context {pf : Platform} {fits : StackFits pf} {sha : Sha}.


(** The digest is a function of the value: it is computed for every certificate,
    structures that stand for the same certificate have the same digest, and a copy
    through an encoding keeps it. *)
Theorem digest_of_value o : proper_cert o -> exists d,
  calculate_digest o = Returns d /\
  (forall o', same_cert o o' -> calculate_digest o' = Returns d) /\
  (forall o', copy_construct o = Returns o' -> calculate_digest o' = Returns d) /\
  (get_verification_key_type o = Unspecified -> d = None).
Proof.
  intros H. destruct (calculate_digest_same o o H) as (d & Hd & _). exists d. split; [done|].
  assert (forall o', same_cert o o' -> calculate_digest o' = Returns d) as Hs.
  { intros o' Ho'. destruct (calculate_digest_same o o' Ho') as (d' & Hd1 & Hd2). congruence. }
  split; [done|]. split.
  - intros o' Ho'. destruct (copy_construct_same o H) as (o1 & Ho1 & Hs1). apply Hs. congruence.
  - intros Hk. unfold calculate_digest in Hd. rewrite Hk in Hd. by rewrite decide_True in Hd by done; injection Hd.
Qed.

End Canonical.

(** * The test for canonical form *)

(** A canonical root authority with an encryption key whose point is not compressed. *)
Definition encryption_root_value : aval :=
  sample_cert_with (A_CHOICE 1 (A_INT 0))
    (A_SEQ [Some (A_CHOICE 3 A_NULL); Some (A_OCTETS [0; 0; 0]); Some (A_INT 0);
            Some (A_SEQ [Some (A_INT 660000000); Some (A_CHOICE 4 (A_INT 24))]);
            None; None; None; Some issue_all; None; None;
            Some (A_SEQ [Some (A_INT 0);
                         Some (A_CHOICE 0 (A_CHOICE 4 (A_SEQ [Some (A_OCTETS (replicate 32 1)); Some (A_OCTETS (replicate 32 2))])))]);
            Some (A_CHOICE 0 (A_CHOICE 0 compressed_key_value)); None; None; None; None; None; None]).
Definition encryption_root : obj := struct_of encryption_root_value.

(** The point of the encryption key is part of the value. *)
Definition encryption_point (o : obj) : option obj := choice (memb 1 (encryptionKey (toBeSigned (Some o)))).

Lemma same_encryption_point o o' : same_cert o o' -> present (memb 1 (encryptionKey (toBeSigned (Some o)))) = 1 ->
  present (encryption_point o) = present (encryption_point o').
Proof.
  intros Hd%same_toBeSigned Hp. unfold encryption_point, encryptionKey in *. member_at 10%nat Hd. member_at 1%nat Hd.
  apply (same_opt_choice _ _ _ 0 _ _ _ Hd eq_refl eq_refl) in Hp. exact (same_opt_present _ _ _ _ _ Hp eq_refl).
Qed.

Lemma uncompressed_digests {pf : Platform} {fits : StackFits pf} o : proper_cert o -> is_canonical o = true ->
  get_verification_key_type o = NistP256 -> (canonicalize_in_place o).1 = true ->
  present (memb 1 (encryptionKey (toBeSigned (Some o)))) = 1 ->
  present (encryption_point o) <> present (encryption_point (canonicalize_in_place o).2) ->
  exists c bs bs', canonicalize o = Returns (Some c) /\
    encode (Some o) = Returns bs /\ encode (Some c) = Returns bs' /\ bs <> bs' /\
    forall sha : Sha,
      calculate_digest o = Returns (Some (create_hashed_id8 (calculate_sha256_digest bs))) /\
      calculate_digest c = Returns (Some (create_hashed_id8 (calculate_sha256_digest bs'))).
Proof.
  intros H Hc Hk E Hp Hne. destruct (encode_cert_same _ _ H) as (bs & Hbs & _).
  pose proof (canonicalize_spec _ H) as Hs. rewrite E in Hs. destruct Hs as (c & Ec & Hs).
  destruct (encode_cert_same _ _ Hs) as (bs' & _ & Hbs'). exists c, bs, bs'. do 3 (split; [done|]). unfold encode in *. split.
  - intros ->. apply Hne, same_encryption_point; [|done]. transitivity c; [|by symmetry].
    by eapply same_encode; [exact wf_etsi_certificate|done|done|by eapply same_refl_r| |].
  - intros sha. split; unfold calculate_digest, calculate_digest_internal.
    + by rewrite Hc, Hk, Hbs.
    + by rewrite <- (same_is_canonical _ _ Hs), canonicalize_in_place_canonical, <- (same_key_type _ _ Hs), canonicalize_key_type, Hk, Hbs' by done.
Qed.

Lemma encryption_root_facts : proper_cert encryption_root /\ is_canonical encryption_root = true /\
  get_verification_key_type encryption_root = NistP256 /\ (canonicalize_in_place encryption_root).1 = true /\
  present (memb 1 (encryptionKey (toBeSigned (Some encryption_root)))) = 1 /\
  present (encryption_point encryption_root) = 5 /\
  present (encryption_point (canonicalize_in_place encryption_root).2) = 3.
Proof. split; [apply struct_of_proper; vm_compute; by eexists|]. by vm_compute. Qed.

(** The test and the conversion disagree: a certificate passes the test for canonical
    form although converting it changes its encoding, so that its digest is not the
    digest of its canonical form. *)
Theorem canonical_test_is_incomplete {pf : Platform} {fits : StackFits pf} : exists o c bs bs',
  proper_cert o /\ is_canonical o = true /\ canonicalize o = Returns (Some c) /\
  encode (Some o) = Returns bs /\ encode (Some c) = Returns bs' /\ bs <> bs' /\
  forall sha : Sha,
    calculate_digest o = Returns (Some (create_hashed_id8 (calculate_sha256_digest bs))) /\
    calculate_digest c = Returns (Some (create_hashed_id8 (calculate_sha256_digest bs'))).
Proof.
  destruct encryption_root_facts as (H & Hc & Hk & E & Hp & H5 & H3).
  destruct (uncompressed_digests _ H Hc Hk E Hp) as (c & bs & bs' & Hall); [by rewrite H5, H3|].
  exists encryption_root, c, bs, bs'. exact (conj H (conj Hc Hall)).
Qed.

(** * The liboqs back end *)

Lemma fill_buffer_size n l b : 0 <= n -> fill_buffer n l = Returns b -> size b = n.
Proof.
  unfold fill_buffer. intros Hn. destruct (Z.ltb_spec n (size l)); [done|]. intros [= <-].
  unfold size in *. rewrite length_app, length_replicate. lia.
Qed.

(** Whatever liboqs does, keys, signatures and accepted inputs have the sizes of the
    certificate profile, wrong sizes are refused before liboqs is called, and a
    signature the back end returns fits a certificate. *)
Theorem oqs_backend_sizes (oqs : Liboqs) :
  (forall pk sk, oqs_generate_key_pair = Returns (pk, sk) -> size pk = 897 /\ size sk = 1281) /\
  (forall sk d s, oqs_sign sk d = Returns s -> size s = 666 /\ size sk = 1281) /\
  (forall pk d s, oqs_verify pk d s = Returns true -> size pk = 897 /\ size s = 666) /\
  (forall pk d s, size pk <> 897 \/ size s <> 666 -> oqs_verify pk d s = Returns false) /\
  (forall sk d, size sk <> 1281 -> oqs_sign sk d = Throws (invalid_argument "FN-DSA-512 private key has an invalid size")).
Proof.
  split; [|split; [|split; [|split]]].
  - intros pk sk H. unfold oqs_generate_key_pair in H. apply bind_returns in H as (_ & _ & H).
    destruct OQS_SIG_keypair as [[p s]|]; [|done]. apply bind_returns in H as (p' & Hp & H).
    apply bind_returns in H as (s' & Hs & [= -> ->]). by apply fill_buffer_size in Hp, Hs.
  - intros sk d s H. unfold oqs_sign in H. apply bind_returns in H as (_ & Hk%throw_if_returns & H).
    apply negb_false_iff, Z.eqb_eq in Hk. apply bind_returns in H as (_ & _ & H). destruct (OQS_SIG_sign sk d) as [[w n]|]; [|done].
    apply bind_returns in H as (b & Hb & H). apply bind_returns in H as (_ & _ & [= ->]). by apply fill_buffer_size in Hb.
  - intros pk d s H. unfold oqs_verify in H. destruct (_ || _) eqn:E; [done|]. apply orb_false_iff in E as [E1 E2].
    apply negb_false_iff, Z.eqb_eq in E1, E2. done.
  - intros pk d s H. unfold oqs_verify, fndsa512_public_key_size, fndsa512_signature_size.
    destruct (Z.eqb_spec (size pk) 897), (Z.eqb_spec (size s) 666); try done. lia.
  - intros sk d H. unfold oqs_sign, fndsa512_private_key_size. by destruct (Z.eqb_spec (size sk) 1281).
Qed.

(** * Witnesses *)

#[local] Existing Instances sample_platform sample_fits sample_sha sample_ecc sample_pqc.

Lemma hybrid_signing_verifies_witness :
  verify_alternative_certificate (Some root2) None = Returns true /\ verify_primary_certificate (Some root2) None = Returns true.
Proof.
  exact (hybrid_signing_verifies root0 None pqc_key ecc_key root1 root2 sample_ecc_ok sample_pqc_ok root0_proper root1_signed root2_signed).
Defined.

(** The input of the alternative layer for the root, signed or not. *)
Definition root_input : bytes := returned [] (canonical_tbs (Some root0) Alternative).

Lemma root0_input : canonical_tbs (Some root0) Alternative = Returns root_input.
Proof. by vm_compute. Qed.

Lemma root1_input : canonical_tbs (Some root1) Alternative = Returns root_input.
Proof. by vm_compute. Qed.

Lemma root1_proper : proper_cert root1.
Proof. exact (proj1 (sign_alternative_ok root0 None pqc_key root1 sample_pqc_ok root0_proper root1_signed)). Qed.

Lemma signature_input_covers_witness : exists e, seq_member asn_DEF_ToBeSignedCertificate 16 e /\
  same_opt e.(type) e.(oer_constraints) (memb 16 (toBeSigned (Some root0))) (memb 16 (toBeSigned (Some root1))).
Proof.
  eexists. assert (seq_member asn_DEF_ToBeSignedCertificate 16 _) as H by table. split; [exact H|].
  apply (signature_input_covers Alternative root0 root1 root_input 16 _ root0_proper root1_proper root0_input root1_input H); lia.
Defined.

Lemma alternative_input_ignores_signature_witness : exists o',
  set_alternative_signature root0 (replicate 666 7) = (Returns (), o') /\
  canonical_tbs (Some o') Alternative = canonical_tbs (Some root0) Alternative.
Proof.
  assert (all_bytes (replicate 666 7)) as Hb by (by apply replicate_octets).
  exists (with_signature (replicate 666 7) root0).
  assert (set_alternative_signature root0 (replicate 666 7) = (Returns (), with_signature (replicate 666 7) root0)) as E
    by (exact (set_alternative_signature_eq root0 (replicate 666 7) root0_proper eq_refl)).
  split; [exact E|].
  exact (alternative_input_ignores_signature root0 (replicate 666 7) (with_signature (replicate 666 7) root0) root0_proper Hb E).
Defined.

Lemma alternative_material_roundtrip_witness :
  (set_alternative_public_key root0 []).1 = Throws (invalid_argument "FN-DSA-512 public key has an invalid size").
Proof.
  pose proof (alternative_material_roundtrip root0 [] [] root0_proper ltac:(by constructor) ltac:(by constructor)) as H.
  destruct (set_alternative_public_key root0 []) as [r1 o1]. destruct (set_alternative_signature o1 []) as [r2 o2].
  destruct H as (_ & H & _). by apply H.
Defined.

Lemma alternative_material_state_correct_witness : exists st, alternative_material_state (Some root0) = Returns st.
Proof. exact (proj2 (proj2 (proj2 (alternative_material_state_correct root0 root0_proper)))). Defined.

Lemma signing_failure_changes_nothing_witness :
  (sign_alternative_certificate ticket0 None pqc_key).2 = ticket0 /\
  (sign_alternative_certificate ticket0 None pqc_key).1 =
    Throws (invalid_argument "issuer certificate is required for a non-self-signed certificate").
Proof.
  assert ((sign_alternative_certificate ticket0 None pqc_key).1 =
    Throws (invalid_argument "issuer certificate is required for a non-self-signed certificate")) as E by (by vm_compute).
  split; [|exact E]. destruct (signing_failure_changes_nothing ticket0 None pqc_key ecc_key sample_ecc_ok) as [H _].
  eapply H. rewrite <- E. apply surjective_pairing.
Defined.


Lemma digest_of_value_witness : exists d, calculate_digest root0 = Returns d.
Proof. destruct (digest_of_value root0 root0_proper) as (d & H & _). exists d. exact H. Defined.

Lemma canonical_test_is_incomplete_witness : exists o, proper_cert o /\ is_canonical o = true.
Proof. destruct canonical_test_is_incomplete as (o & c & bs & bs' & H & Hc & _). exists o. split; assumption. Defined.
