(* ===== verification/CertificateTheorems.v ===== *)
(** Theorems about the stores of certificates and about validity in time.

    The trust store, the memory of issuers, the cache and the list of revoked
    certificates against what they promise, over any sequence of operations.

    Two routines of certificate.cpp compute with the validity period: in 64-bit
    microseconds, for the current time, and in 32-bit seconds, for the comparison with
    the issuer.  The first one is exact; the second one overflows and wraps around. *)

From stdpp Require Import prelude strings gmap.
From S2P Require Import Prelude Codecs Descriptor OerSupport OerSpec OerSem OerCodec Pqc OerTheorems.
From S2P Require Import Certificates Asn1Wrapper SameValue SecurityTypes CertificateV3 CertificateV3Ok.
From S2P Require Import HybridCertificate CertificateStores CertificateValidator ValidatorOk Samples.

(** * Trust store and issuers *)

Section Trust.
Context {pf : Platform} {fits : StackFits pf} {sha : Sha}.

(** However a trust store was filled, it holds self-issued certificates under their own
    digest and nothing else; a lookup returns, with certificates exactly when one
    with that digest was inserted, and inserting adds to it without removing. *)
Theorem trust_store_invariant store : trust_store store ->
  Forall trust_entry store /\
  (forall id, exists l, TrustStore_lookup store id = Returns l /\ (l <> [] <-> exists c, (id, c) ∈ store)) /\
  (forall c store', proper_cert c -> TrustStore_insert store c = Returns store' ->
     exists id c', store' = store ++ [(id, c')] /\ same_cert c c' /\ calculate_digest c = Returns (Some id)) /\
  (forall c, issuer_is_self (Some c) = Returns false ->
     TrustStore_insert store c = Throws (runtime_error "Only root certificate authorities may be added to the trust store")).
Proof.
  intros H%trust_store_entries. split; [done|]. split; [intros id; by apply trust_lookup_ok|]. split.
  - intros c store' Hc Hi. destruct (TrustStore_insert_inv _ _ _ Hc Hi) as (id & c' & E & _ & Hs & Hd). by exists id, c'.
  - intros c Hc. unfold TrustStore_insert. by rewrite Hc.
Qed.

(** The memory of issuers finds only authorities, under their own digest, and finds what
    was inserted last. *)
Theorem issuer_memory_invariant m : issuer_memory m ->
  (forall d c, IssuerMemoryLookup_find_issuer m d = Some c ->
     calculate_digest c = Returns (Some d) /\ is_ca_certificate (Some c) = true /\ proper_cert c) /\
  (forall c m', proper_cert c -> IssuerMemoryLookup_insert m c = Returns (true, m') ->
     exists d c', calculate_digest c = Returns (Some d) /\ same_cert c c' /\
       IssuerMemoryLookup_find_issuer m' d = Some c' /\
       forall d', d' <> d -> IssuerMemoryLookup_find_issuer m' d' = IssuerMemoryLookup_find_issuer m d').
Proof.
  intros H%issuer_memory_map. split; [intros d c Hc; by destruct (H d c Hc) as (? & ? & ?)|].
  intros c m' Hc Hi. destruct (issuer_insert_inv _ _ _ _ Hc Hi) as [[? _]|(d & c' & _ & -> & Hd & Hs & _)]; [done|].
  exists d, c'. unfold IssuerMemoryLookup_find_issuer. do 2 (split; [done|]). split; [apply (lookup_insert_eq (M := gmap (list Z)))|].
  intros d' Hne. by apply (lookup_insert_ne (M := gmap (list Z))).
Qed.

End Trust.

(** * The cache *)

Section Cache.
Context {pf : Platform} {fits : StackFits pf} {sha : Sha}.

(** Caches as sequences of calls leave them. *)
Inductive cache_reachable : CertificateCache -> Prop :=
  | cache_new : cache_reachable cache_empty
  | cache_stored c cert c' : cache_reachable c -> cache_store c cert = Returns c' -> cache_reachable c'
  | cache_announced c d : cache_reachable c -> cache_reachable (cache_announce c d).2.

Lemma cache_reachable_inv c : cache_reachable c -> cache_inv c.
Proof.
  induction 1 as [|c cert c' _ IH Hs|c d _ IH]; [apply cache_empty_inv|by eapply cache_store_inv|by apply cache_announce_inv].
Qed.

(** After any sequence of calls: a certificate is found only under its own digest and
    by a short digest that is the end of it; what is stored is found under both and
    is known; announcing reports each digest as new at most once. *)
Theorem cache_invariant c : cache_reachable c ->
  (forall d cert, cache_lookup8 c d = Some cert -> calculate_digest cert = Returns (Some d) /\ cache_is_known c d = true) /\
  (forall s cert, cache_lookup3 c s = Some cert -> exists d, calculate_digest cert = Returns (Some d) /\ truncate d = s) /\
  (forall cert d c', calculate_digest cert = Returns (Some d) -> cache_store c cert = Returns c' ->
     is_Some (cache_lookup8 c' d) /\ is_Some (cache_lookup3 c' (truncate d)) /\ cache_is_known c' d = true /\
     forall d' x, cache_lookup8 c d' = Some x -> cache_lookup8 c' d' = Some x) /\
  (forall d, (cache_announce c d).1 = negb (cache_is_known c d) /\ cache_is_known (cache_announce c d).2 d = true).
Proof.
  intros H%cache_reachable_inv. pose proof H as [H1 H2 H3 H4]. split; [|split; [|split]].
  - intros d cert Hc. split; [by apply H1|]. apply bool_decide_eq_true, H4. by exists cert.
  - intros s cert Hc. unfold cache_lookup3 in Hc. destruct (_ !! s) as [d|] eqn:E; [|done]. destruct (H2 _ _ E) as [Ht _].
    exists d. split; [by apply H1|done].
  - intros cert d c' Hd Hs. pose proof (cache_store_inv _ _ _ H Hs) as [H1' H2' H3' H4'].
    assert (is_Some (m_storage c' !! d) /\ forall d' x, cache_lookup8 c d' = Some x -> cache_lookup8 c' d' = Some x) as [Hin Hold].
    { unfold cache_store in Hs. rewrite Hd in Hs. cbn [mbind cpp_bind] in Hs. destruct (m_storage c !! d) as [y|] eqn:E.
      - injection Hs as <-. split; [by exists y|done].
      - injection Hs as <-. unfold cache_lookup8. cbn. split; [rewrite lookup_insert_eq; by eexists|].
        intros d' x Hx. rewrite lookup_insert_ne by congruence. done. }
    split; [done|]. split; [|split; [by apply bool_decide_eq_true, H4'|done]].
    destruct (H3' d Hin) as [it Hit]. unfold cache_lookup3. rewrite Hit. by destruct (H2' _ _ Hit) as [_ ?].
  - intros d. unfold cache_announce, cache_is_known. cbn. split; [by rewrite bool_decide_not|]. apply bool_decide_eq_true. set_solver.
Qed.

End Cache.

(** * Revocation *)

Inductive revocation_op := Revoke (issuer cert : HashedId8) | Clear (issuer : HashedId8).

Definition revocation_apply (m : RevocationMemoryLookup) (op : revocation_op) : RevocationMemoryLookup :=
  match op with Revoke i c => revoke m i c | Clear i => clear m i end.

(** The last word of a history on a certificate of an issuer, most recent call first. *)
Fixpoint revoked_by (history : list revocation_op) (issuer cert : HashedId8) : bool :=
  match history with
  | [] => false
  | Revoke i c :: history => (bool_decide (i = issuer) && bool_decide (c = cert)) || revoked_by history issuer cert
  | Clear i :: history => negb (bool_decide (i = issuer)) && revoked_by history issuer cert
  end.

(** The list of revoked certificates refines its history: a certificate is revoked
    exactly when it was revoked for that issuer and the issuer was not cleared since. *)
Theorem revocation_refines history issuer cert :
  is_revoked (foldr (fun op m => revocation_apply m op) ∅ history) issuer cert = revoked_by history issuer cert.
Proof.
  induction history as [|op history IH]; [done|]. cbn [foldr revoked_by]. unfold is_revoked, RevocationMemoryLookup in *. destruct op as [i c|i].
  - cbn [revocation_apply]. unfold revoke, RevocationMemoryLookup. destruct (bool_decide_reflect (i = issuer)) as [->|Hne].
    + rewrite lookup_insert_eq. cbn [andb]. set (m := foldr _ ∅ history) in *. destruct (m !! issuer) as [s|]; cbn [default from_option id].
      * rewrite <- IH. destruct (bool_decide_reflect (c = cert)) as [->|]; cbn [orb]; case_bool_decide; case_bool_decide; set_solver.
      * rewrite <- IH. destruct (bool_decide_reflect (c = cert)) as [->|]; cbn [orb]; case_bool_decide; set_solver.
    + by rewrite lookup_insert_ne.
  - cbn [revocation_apply]. unfold clear, RevocationMemoryLookup. destruct (bool_decide_reflect (i = issuer)) as [->|Hne]; cbn [negb andb].
    + by rewrite lookup_delete_eq.
    + by rewrite lookup_delete_ne.
Qed.

(** * Witnesses *)

#[local] Existing Instances sample_platform sample_fits sample_sha sample_ecc sample_pqc.

Definition sample_store : TrustStore := returned [] (TrustStore_insert [] root0).

Lemma sample_store_filled : trust_store sample_store.
Proof.
  apply (trust_insert [] root0); [constructor|exact root0_proper|]. unfold sample_store. by vm_compute.
Qed.

Lemma trust_store_invariant_witness : Forall trust_entry sample_store /\ length sample_store = 1%nat.
Proof. split; [exact (proj1 (trust_store_invariant sample_store sample_store_filled))|by vm_compute]. Defined.

Lemma issuer_memory_invariant_witness : exists d c',
  calculate_digest root0 = Returns (Some d) /\ same_cert root0 c'.
Proof.
  destruct (issuer_memory_invariant ∅ issuer_empty) as [_ H].
  assert (exists m', IssuerMemoryLookup_insert ∅ root0 = Returns (true, m')) as [m' E] by (eexists; vm_compute; reflexivity).
  destruct (H root0 m' root0_proper E) as (d & c' & Hd & Hs & _). exists d, c'. split; assumption.
Defined.

Lemma cache_invariant_witness : cache_announce cache_empty [1; 2; 3; 4; 5; 6; 7; 8] = (true, (cache_announce cache_empty [1; 2; 3; 4; 5; 6; 7; 8]).2).
Proof.
  destruct (cache_invariant cache_empty cache_new) as (_ & _ & _ & H).
  destruct (H [1; 2; 3; 4; 5; 6; 7; 8]) as [E _]. rewrite (surjective_pairing (cache_announce _ _)), E. reflexivity.
Defined.

(** * The validity period of a certificate *)

(** The start, the unit and the number of units. *)
Definition period (o : obj) (start p n : Z) : Prop :=
  let validity := validityPeriod (toBeSigned (Some o)) in
  number (memb 0 validity) = start /\ present (memb 1 validity) = p /\ number (choice (memb 1 validity)) = n.

Lemma proper_period o : proper_cert o -> exists start p n,
  period o start p n /\ 0 <= start < 2 ^ 32 /\ 1 <= p <= 7 /\ 0 <= n < 2 ^ 16.
Proof.
  intros (t & Ht & Hp)%proper_tbs. eapply (mandatory _ _ 3) in Hp as (v & Hv & Hp); [|table|done].
  cbn [type oer_constraints] in Hp. pose proof Hp as Hd.
  eapply (mandatory _ _ 0) in Hp as (s & Hs & Hps); [|table|done]. cbn [type oer_constraints] in Hps.
  eapply (mandatory _ _ 1) in Hd as (d & Ed & Hd); [|table|done]. cbn [type oer_constraints] in Hd.
  destruct (same_choice asn_DEF_Duration _ _ _ _ eq_refl Hd) as (i & e & ct & ct' & m & m' & He & Hm & -> & Hc). injection Hc as <- <-.
  apply (number_range asn_DEF_Time32 _ None _ 4 eq_refl eq_refl ltac:(lia)) in Hps. exists (number (Some s)), (Z.of_nat i + 1), (number (Some m)).
  unfold period, validityPeriod. rewrite Ht, Hv, Hs, Ed. cbn [present choice]. split; [done|]. split; [lia|].
  alternatives i He; (split; [lia|]);
    apply (number_range asn_DEF_Uint16 _ None _ 2 eq_refl eq_refl ltac:(lia)) in Hm; lia.
Qed.

(** Seconds of a period, rounded down; a year has 365 days. *)
Definition nominal_seconds (p n : Z) : Z :=
  match p with
  | 1 => n / 1000000 | 2 => n / 1000 | 3 => n | 4 => n * 60 | 5 => n * 3600 | 6 => n * 216000 | _ => n * 31536000
  end.

Lemma int_mul_cases x y : 0 <= x -> 0 < y ->
  int_mul x y = if x * y <? 2 ^ 31 then Returns (x * y) else NoResult.
Proof. intros Hx Hy. unfold int_mul. destruct (Z.leb_spec (- 2 ^ 31) (x * y)); [done|nia]. Qed.

Lemma product_grows ys : forall x, 0 <= x -> Forall (fun y => 0 < y) ys -> x <= foldl Z.mul x ys.
Proof.
  induction ys as [|y ys IH]; intros x Hx Hys; cbn [foldl]; [lia|]. inversion Hys as [|? ? Hy Hys']; subst.
  specialize (IH (x * y) ltac:(nia) Hys'). nia.
Qed.

Lemma int_product_eq ys : forall x, 0 <= x -> Forall (fun y => 0 < y) ys ->
  let z := foldl Z.mul x ys in x < 2 ^ 31 -> int_product x ys = if z <? 2 ^ 31 then Returns z else NoResult.
Proof.
  induction ys as [|y ys IH]; intros x Hx Hys z Hlt; subst z; cbn [int_product foldl].
  - by destruct (Z.ltb_spec x (2 ^ 31)); [|lia].
  - inversion Hys as [|? ? Hy Hys']; subst. rewrite int_mul_cases by done. destruct (Z.ltb_spec (x * y) (2 ^ 31)) as [H|H].
    + cbn [mbind cpp_bind]. apply IH; [nia|done|done].
    + cbn [mbind cpp_bind]. destruct (Z.ltb_spec (foldl Z.mul (x * y) ys) (2 ^ 31)) as [Hl|]; [|done]. exfalso.
      pose proof (product_grows ys (x * y) ltac:(nia) Hys'). lia.
Qed.

Lemma duration_seconds_eq p n : 1 <= p <= 7 -> 0 <= n < 2 ^ 16 -> duration_seconds p n =
  if nominal_seconds p n <? 2 ^ 31 then Returns (nominal_seconds p n) else NoResult.
Proof.
  intros Hp Hn. assert (to_int n = n) as E by (unfold to_int; rewrite Z.mod_small; lia).
  unfold duration_seconds, nominal_seconds. rewrite E.
  assert (p = 1 \/ p = 2 \/ p = 3 \/ p = 4 \/ p = 5 \/ p = 6 \/ p = 7) as [->|[->|[->|[->|[->|[->| ->]]]]]] by lia; cbn [Z.eqb Pos.eqb].
  - rewrite Z.quot_div_nonneg by lia. destruct (Z.ltb_spec (n / 1000000) (2 ^ 31)); [done|].
    pose proof (Z.div_le_upper_bound n 1000000 (2 ^ 16)). lia.
  - rewrite Z.quot_div_nonneg by lia. destruct (Z.ltb_spec (n / 1000) (2 ^ 31)); [done|].
    pose proof (Z.div_le_upper_bound n 1000 (2 ^ 16)). lia.
  - by destruct (Z.ltb_spec n (2 ^ 31)); [|lia].
  - rewrite int_product_eq; [done|lia|by repeat constructor|lia].
  - rewrite int_product_eq; [|lia|by repeat constructor|lia]. cbn [foldl]. by replace (n * 60 * 60) with (n * 3600) by lia.
  - rewrite int_product_eq; [|lia|by repeat constructor|lia]. cbn [foldl]. by replace (n * 60 * 60 * 60) with (n * 216000) by lia.
  - rewrite int_product_eq; [|lia|by repeat constructor|lia]. cbn [foldl].
    by replace (n * 60 * 60 * 24 * 365) with (n * 31536000) by lia.
Qed.

Section Validity.
Context {pf : Platform} {sha : Sha}.

(** The comparison with the issuer works on seconds that wrap around at 2^32, and the
    multiplication before overflows from 2^31 seconds on: 69 years or 9943 times
    sixty hours have no defined result. *)
Theorem validity_seconds o start p n : proper_cert o -> period o start p n ->
  get_start_and_end_validity (Some o) =
    if nominal_seconds p n <? 2 ^ 31 then Returns (start, (start + nominal_seconds p n) mod 2 ^ 32) else NoResult.
Proof.
  intros H (Hs & Hp & Hn). destruct (proper_period o H) as (s' & p' & n' & (Hs' & Hp' & Hn') & Bs & Bp & Bn).
  assert (s' = start /\ p' = p /\ n' = n) as (-> & -> & ->) by (split_and!; congruence).
  unfold get_start_and_end_validity. rewrite Hs, Hp, Hn, duration_seconds_eq by done.
  destruct (Z.ltb_spec (nominal_seconds p n) (2 ^ 31)) as [Hlt|]; [|done]. cbn [mbind cpp_bind].
  assert (0 <= nominal_seconds p n) as Hnn.
  { unfold nominal_seconds. repeat case_match; try lia; apply Z.div_pos; lia. }
  unfold u32. by rewrite (Z.mod_small start), (Z.mod_small (nominal_seconds p n)) by lia.
Qed.

(** The comparison with the current time is exact: every intermediate result fits the
    64-bit clock, and the certificate is valid from its start for its duration, a
    year being 31556952 seconds. *)
Theorem valid_at_timepoint_exact o start p n now : proper_cert o -> period o start p n ->
  0 <= start * 1000000 /\ start * 1000000 + n * duration_unit p < 2 ^ 63 /\
  (valid_at_timepoint (Some o) now = true <->
   start * 1000000 <= now < start * 1000000 + n * duration_unit p).
Proof.
  intros H (Hs & Hp & Hn). destruct (proper_period o H) as (s' & p' & n' & (Hs' & Hp' & Hn') & Bs & Bp & Bn).
  assert (s' = start /\ p' = p /\ n' = n) as (-> & -> & ->) by (split_and!; congruence).
  assert (0 <= duration_unit p <= 31556952 * 1000000) as Hu
    by (unfold duration_unit; repeat case_match; lia).
  split; [lia|]. split; [nia|]. unfold valid_at_timepoint, validity_end, validity_start. rewrite Hs, Hp, Hn.
  rewrite andb_true_iff, Z.leb_le, Z.ltb_lt. lia.
Qed.

End Validity.

(** * What the wrapped seconds accept *)

(** A self-issued certificate valid for 24 hours from [start]. *)
Definition day_value (start : Z) : aval :=
  sample_cert_with (A_CHOICE 1 (A_INT 0))
    (sample_tbs_with start None (Some issue_all) compressed_key_value [None; None; None; None; None; None]).

Definition late_day : obj := struct_of (day_value 4294967000).
Definition early_day : obj := struct_of (day_value 100).

(** The end of a period may wrap around to a time before its start, so the comparison
    accepts a certificate that becomes valid long after its issuer has expired. *)
Theorem time_consistency_wraps : exists subject issuer, proper_cert subject /\ proper_cert issuer /\
  check_time_consistency (Some subject) (Some issuer) = Returns true /\
  validity_end issuer < validity_start subject.
Proof.
  exists late_day, early_day. split; [apply struct_of_proper; vm_compute; by eexists|].
  split; [apply struct_of_proper; vm_compute; by eexists|]. by vm_compute.
Qed.

(** * The switch for time checks *)

Section Switch.
Context {pf : Platform} {sha : Sha} {geo : Geodesy} {PositionFix : Type}.
Implicit Types v : @DefaultCertificateValidator PositionFix.

Lemma consistent_loop_switch v x aid n : forall c,
  consistent_loop (disable_time_checks x v) aid n c = consistent_loop v aid n c.
Proof.
  induction n as [|n IH]; intros c; [done|]. cbn [consistent_loop].
  change (find_issuer_certificate (disable_time_checks x v) c) with (find_issuer_certificate v c).
  destruct (issuer_is_self c) as [[]| |]; [done| |done|done]. cbn [mbind cpp_bind].
  destruct (find_issuer_certificate v c) as [[i|]| |]; [|done|done|done]. cbn [mbind cpp_bind].
  change (check_consistency (disable_time_checks x v) c (Some i) aid) with (check_consistency v c (Some i) aid).
  destruct (check_consistency v c (Some i) aid) as [[]| |]; [|done|done|done]. cbn [mbind cpp_bind]. by rewrite IH.
Qed.

(** Once a clock is set, switching time checks off has no effect on any verdict:
    expired certificates are still refused. *)
Theorem time_checks_cannot_be_disabled v x now c aid : v.(m_runtime) = Some now ->
  valid_for_signing (disable_time_checks x v) c aid = valid_for_signing v c aid.
Proof.
  intros Hr. unfold valid_for_signing, chain_is_consistent.
  change (is_chain_anchored (disable_time_checks x v) c) with (is_chain_anchored v c).
  change (chain_is_revoked (disable_time_checks x v) c) with (chain_is_revoked v c).
  change (location_verdict (disable_time_checks x v) c) with (location_verdict v c).
  rewrite consistent_loop_switch. cbn [disable_time_checks m_runtime m_disable_time_checks m_disable_location_checks
    m_position_provider m_location_checker m_disable_chain_consistency_checks m_issuer_lookup].
  rewrite Hr. cbn [is_none]. by rewrite !andb_false_r.
Qed.

End Switch.

(** * Witnesses *)

#[local] Existing Instances sample_platform sample_fits sample_sha sample_geodesy.

Lemma validity_seconds_witness : proper_cert root0 /\ period root0 660000000 5 24 /\
  get_start_and_end_validity (Some root0) = Returns (660000000, 660086400).
Proof.
  assert (period root0 660000000 5 24) as Hp by (by vm_compute).
  split; [exact root0_proper|]. split; [exact Hp|]. exact (validity_seconds root0 660000000 5 24 root0_proper Hp).
Defined.

Lemma valid_at_timepoint_exact_witness : valid_at_timepoint (Some root0) 660000000000000 = true.
Proof.
  assert (period root0 660000000 5 24) as Hp by (by vm_compute).
  apply (valid_at_timepoint_exact root0 660000000 5 24 660000000000000 root0_proper Hp). vm_compute. by split.
Defined.

Definition clock_validator : @DefaultCertificateValidator unit := use_runtime (Some 0) (disable_location_checks true default_validator).

Lemma time_checks_cannot_be_disabled_witness :
  m_runtime clock_validator = Some 0 /\
  valid_for_signing (disable_time_checks true clock_validator) (Some ticket0) 36 = Returns Expired.
Proof.
  split; [reflexivity|]. rewrite (time_checks_cannot_be_disabled clock_validator true 0 (Some ticket0) 36 eq_refl).
  by vm_compute.
Defined.
