(* ===== verification/ValidatorTheorems.v ===== *)
(** Theorems about the certificate validators.

    When a chain is authentic, what the verdict Valid means, that certificates issued
    by an accepted authority are accepted, and that the walks always answer. *)

From stdpp Require Import prelude strings gmap.
From S2P Require Import Prelude Codecs Descriptor OerSupport OerSpec OerSem OerCodec OerTheorems Pqc Certificates.
From S2P Require Import Asn1Wrapper SameValue SecurityTypes CertificateV3 CertificateV3Ok HybridCertificate HybridCertificateOk.
From S2P Require Import CertificateStores CertificateValidator ValidatorOk AcceptOk Samples.

(** * Configurations *)

Section Configurations.
Context {PositionFix : Type}.

(** Hybrid validators as the setters build them. *)
Inductive configured : @HybridCertificateValidator PositionFix -> Prop :=
  | conf_new : configured hybrid_validator
  | conf_runtime x v : configured v -> configured (hybrid_use_runtime x v)
  | conf_position_provider x v : configured v -> configured (hybrid_use_position_provider x v)
  | conf_issuer_lookup x v : configured v -> configured (hybrid_use_issuer_lookup x v)
  | conf_location_checker x v : configured v -> configured (hybrid_use_location_checker x v)
  | conf_revocation_lookup x v : configured v -> configured (hybrid_use_revocation_lookup x v)
  | conf_trust_store x v : configured v -> configured (hybrid_use_trust_store x v)
  | conf_backends x y v : configured v -> configured (hybrid_use_backends x y v)
  | conf_verification_policy x v : configured v -> configured (hybrid_use_verification_policy x v)
  | conf_time_checks x v : configured v -> configured (hybrid_disable_time_checks x v)
  | conf_location_checks x v : configured v -> configured (hybrid_disable_location_checks x v)
  | conf_chain_consistency_checks x v : configured v -> configured (hybrid_disable_chain_consistency_checks x v)
  | conf_region_consistency_checks x v : configured v -> configured (hybrid_disable_region_consistency_checks x v).

(** Both validators of a hybrid validator work on the same lookup and trust store. *)
Lemma configured_shares v : configured v ->
  v.(m_policy_validator).(m_issuer_lookup) = v.(h_issuer_lookup) /\
  v.(m_policy_validator).(m_trust_store) = v.(h_trust_store).
Proof. induction 1; destruct_and?; by split. Qed.

End Configurations.

(** * Authenticity *)

Section Authenticity.
Context {pf : Platform} {sha : Sha}.

(** C6. The walk of the hybrid validator decides whether the certificate has an authentic
    chain: at most eight certificates, each one identified by the issuer field of the
    one before and verified under it in the layers the policy asks for, the last one
    self-issued and in the trust store. *)
Theorem chain_is_authentic_iff policy ecc pqc lookup store c :
  chain_is_authentic policy ecc pqc lookup store (Some c) = Returns true <->
  exists chain, authentic_chain policy ecc pqc lookup store (c :: chain) /\ (length (c :: chain) <= 8)%nat.
Proof.
  unfold chain_is_authentic, max_chain_depth. rewrite authentic_loop_iff. cbn [length].
  split; intros (chain & H & Hl); exists chain; (split; [done|lia]).
Qed.

End Authenticity.

Section Answers.
Context {pf : Platform} {fits : StackFits pf} {sha : Sha}.

(** The walk ends with an answer for every certificate, whatever the issuers say about
    each other: no cycle, no missing issuer and no malformed signature makes it run
    on, throw or run into undefined behaviour. *)
Theorem chain_is_authentic_answers policy ecc pqc lookup store c :
  IssuerLookupOk lookup -> trust_store store -> BackendDefined ecc -> (forall b, pqc = Some b -> PqcBackendDefined b) ->
  proper_cert c -> exists b, chain_is_authentic policy ecc pqc lookup store (Some c) = Returns b.
Proof. intros Hl Hs%trust_store_entries He Hp H. by apply authentic_loop_returns. Qed.

End Answers.

(** * Verdicts *)

Section Verdict.
Context {pf : Platform} {sha : Sha} {geo : Geodesy} {PositionFix : Type}.

(** C5. What the verdict Valid means for a hybrid validator that was set up with its own
    functions and whose chain consistency checks are not disabled: the certificate may sign
    for the application, and is valid now if a clock is set; one chain leads from it to a
    trusted root; every certificate of the chain is verified as the policy demands, in both
    layers if it demands that; every authority may issue for the application, has a validity
    period that encloses the one of the certificate, and has at least its assurance; and
    if a lookup for revocations is set and the certificates have digests, no step is revoked.
    The periods are compared as
    the code does it, in seconds of 32 bits that wrap around: for certificates whose
    period ends behind the last of these seconds this does not mean that the issuer outlives
    them, see [time_consistency_wraps]. *)
Theorem hybrid_verdict_sound (v : @HybridCertificateValidator PositionFix) c aid :
  configured v -> v.(m_policy_validator).(m_disable_chain_consistency_checks) = false ->
  hybrid_valid_for_signing v (Some c) aid = Returns Valid ->
  exists lookup store ecc chain, v.(h_issuer_lookup) = Some lookup /\ v.(h_trust_store) = Some store /\ v.(m_ecc_backend) = Some ecc /\
    valid_for_application (Some c) aid = Returns true /\
    (forall now, v.(m_policy_validator).(m_runtime) = Some now -> valid_at_timepoint (Some c) now = true) /\
    authentic_chain v.(m_verification_policy) ecc v.(m_pqc_backend) lookup store (c :: chain) /\
    accepted_chain v.(m_policy_validator) aid lookup store c chain /\
    (v.(m_verification_policy) = HybridRequired ->
     Forall (fun x => exists i, hybrid_verified ecc v.(m_pqc_backend) x i) (c :: chain)).
Proof.
  intros Hc Hd H. unfold hybrid_valid_for_signing in H. apply bind_returns in H as (pv & Hv & H).
  destruct (bool_decide_reflect (pv = Valid)) as [->|Hne]; [|by injection H as ->]. cbn [negb] in H.
  destruct (v.(h_issuer_lookup)) as [lookup|] eqn:El; [|done]. destruct (v.(h_trust_store)) as [store|] eqn:Es; [|done].
  destruct (v.(m_ecc_backend)) as [ecc|] eqn:Ee; [|done]. destruct (_ && _); [done|].
  apply bind_returns in H as ([|] & Ha & H); [|done]. apply authentic_loop_iff in Ha as (chain & Ha & _).
  destruct (configured_shares v Hc) as [Hl Hs]. rewrite El in Hl. rewrite Es in Hs.
  destruct (accepted_chain_exists _ _ _ _ _ Hl Hs Hd Hv) as (chain' & Hacc).
  assert (chain' = chain) as -> by (eapply anchored_chain_unique; [by eapply ac_anchored|by eapply authentic_anchored]).
  apply valid_for_signing_inv in Hv as (Hp & Ht & _). exists lookup, store, ecc, chain. repeat split; try done; try by apply Hacc.
  intros Hpol. apply Forall_forall. intros x Hx. destruct (authentic_chain_verified _ _ _ _ _ _ _ Ha Hx) as (i & _ & Hm).
  rewrite Hpol in Hm. by exists i.
Qed.

End Verdict.

(** * Issuing and accepting *)

Section Issuing.
Context {pf : Platform} {fits : StackFits pf} {sha : Sha} {ecc : Backend} {pqc : PqcBackend}.

(** A self-issued certificate that is signed in both layers and then put into the trust
    store is accepted under the strictest policy. *)
Theorem trusted_root_accepted o pk ek o1 o2 lookup store store' : BackendOk ecc -> PqcBackendOk pqc ->
  proper_cert o -> issuer_is_self (Some o) = Returns true -> hybrid_role o ->
  sign_alternative_certificate o None pk = (Returns (), o1) -> sign_primary_certificate o1 None ek = (Returns (), o2) ->
  trust_store store -> TrustStore_insert store o2 = Returns store' ->
  chain_is_authentic HybridRequired ecc (Some pqc) lookup store' (Some o2) = Returns true.
Proof.
  intros He Hp H Hself Hrole H1 H2 Hst Hi. apply authentic_loop_iff. exists [].
  split; [|unfold max_chain_depth; cbn; lia]. eapply signed_root_authentic; [by eapply signing_ok|done|done|done|done].
Qed.

(** C16. Issuing and checking fit together: a certificate that an authority signs, first with
    its alternative key and then with its classical one, is found authentic under the policy
    that requires both signatures, also when the lookup returns a copy of the authority.
    The authority has itself an authentic chain to a trusted root under this policy, of at
    most seven certificates, so that the new one stays within the depth of the walk; the new
    certificate is an authority with an alternative key or a ticket without one
    ([hybrid_role]); and it names the authority as its issuer. *)
Theorem issued_certificate_accepted o a a' d pk ek o1 o2 lookup store chain : BackendOk ecc -> PqcBackendOk pqc ->
  IssuerLookupOk lookup -> proper_cert o -> hybrid_role o ->
  issuer_digest (Some o) = Returns (Some d) -> lookup d = Some a' -> same_cert a a' ->
  authentic_chain HybridRequired ecc (Some pqc) lookup store (a' :: chain) -> (length chain < 7)%nat ->
  sign_alternative_certificate o (Some (Some a)) pk = (Returns (), o1) ->
  sign_primary_certificate o1 (Some (Some a)) ek = (Returns (), o2) ->
  chain_is_authentic HybridRequired ecc (Some pqc) lookup store (Some o2) = Returns true.
Proof.
  intros He Hp Hlk H Hrole Hd Hl Haa Hch Hlen H1 H2. pose proof (signing_ok o (Some (Some a)) pk ek o1 o2 H H1 H2) as Hs.
  apply authentic_loop_iff. exists (a' :: chain). split; [|unfold max_chain_depth; cbn; lia]. split; [|split; [|done]].
  - assert (issuer_digest (Some o2) = Returns (Some d)) as Hd2 by (by rewrite (signed_issuer_digest _ _ _ Hs)).
    split; [|exists d; split; [done|split; [done|by apply found_digest]]].
    cbn [issuer_is_self]. unfold issuer_digest in Hd2. f_equal. destruct (Z.eqb_spec (present (issuer (Some o2))) 2) as [E|]; [|done].
    by rewrite E in Hd2.
  - eapply same_verified; [exact (sf_proper _ _ _ Hs)|by constructor|]. by eapply signed_verified.
Qed.

End Issuing.

(** * Witnesses *)

#[local] Existing Instances sample_platform sample_fits sample_sha sample_ecc sample_pqc sample_geodesy.

(** A station that trusts the root and knows it as an issuer. *)
Definition station_store : TrustStore := returned [] (TrustStore_insert [] root2).
Definition station_memory : IssuerMemoryLookup := (returned (false, ∅) (IssuerMemoryLookup_insert ∅ root2)).2.
Definition station_lookup : IssuerLookup := IssuerMemoryLookup_find_issuer station_memory.

Lemma root2_proper : proper_cert root2.
Proof.
  exact (sf_proper _ _ _ (signing_ok (ecc_ok := sample_ecc_ok) (pqc_ok := sample_pqc_ok) root0 None pqc_key ecc_key root1 root2
    root0_proper root1_signed root2_signed)).
Qed.

Lemma station_store_inserted : TrustStore_insert [] root2 = Returns station_store.
Proof. unfold station_store. by vm_compute. Qed.

Lemma station_store_filled : trust_store station_store.
Proof. exact (trust_insert [] root2 station_store trust_empty root2_proper station_store_inserted). Qed.

Lemma station_memory_inserted : IssuerMemoryLookup_insert ∅ root2 = Returns (true, station_memory).
Proof. unfold station_memory. by vm_compute. Qed.

#[local] Instance station_lookup_ok : IssuerLookupOk station_lookup.
Proof. apply issuer_memory_lookup. exact (issuer_insert ∅ root2 true station_memory issuer_empty root2_proper station_memory_inserted). Qed.

Lemma sample_ecc_defined : BackendDefined sample_ecc.
Proof. by intros p d s. Qed.

Lemma sample_pqc_defined : PqcBackendDefined sample_pqc.
Proof. by intros p d s. Qed.

Lemma chain_is_authentic_answers_witness : exists b,
  chain_is_authentic HybridRequired sample_ecc (Some sample_pqc) station_lookup station_store (Some ticket0) = Returns b.
Proof.
  apply (chain_is_authentic_answers HybridRequired sample_ecc (Some sample_pqc) station_lookup station_store ticket0
    station_lookup_ok station_store_filled sample_ecc_defined); [|exact ticket0_proper].
  intros b E. injection E as <-. exact sample_pqc_defined.
Defined.

Lemma root0_role : issuer_is_self (Some root0) = Returns true /\ hybrid_role root0.
Proof. split; [by vm_compute|left]. split; [by vm_compute|]. vm_compute. by eexists. Qed.

Lemma trusted_root_accepted_witness :
  chain_is_authentic HybridRequired sample_ecc (Some sample_pqc) station_lookup station_store (Some root2) = Returns true.
Proof.
  exact (trusted_root_accepted root0 pqc_key ecc_key root1 root2 station_lookup [] station_store sample_ecc_ok sample_pqc_ok
    root0_proper (proj1 root0_role) (proj2 root0_role) root1_signed root2_signed trust_empty station_store_inserted).
Defined.

Lemma returned_digest (m : cpp (option HashedId8)) d d' : m = Returns (Some d) -> m = Returns (Some d') -> d = d'.
Proof. congruence. Qed.

(** The copy of the root that the lookup finds. *)
Lemma station_root : exists c, station_lookup root_digest = Some c /\ same_cert root2 c /\
  authentic_chain HybridRequired sample_ecc (Some sample_pqc) station_lookup station_store [c].
Proof.
  destruct (issuer_insert_inv ∅ root2 true station_memory root2_proper station_memory_inserted)
    as [[E _]|(d & c & _ & Em & Hd & Hs & _)]; [discriminate E|].
  assert (d = root_digest) as -> by exact (returned_digest _ _ _ Hd root2_digest). exists c. split.
  - unfold station_lookup, IssuerMemoryLookup_find_issuer. rewrite Em. apply (lookup_insert_eq (M := gmap (list Z))).
  - split; [exact Hs|]. apply (same_root_authentic root2 c); [exact Hs|].
    eapply (signed_root_authentic root0 root2);
      [|exact (proj2 root0_role)|exact (proj1 root0_role)|exact trust_empty|exact station_store_inserted].
    exact (signing_ok (ecc_ok := sample_ecc_ok) (pqc_ok := sample_pqc_ok) root0 None pqc_key ecc_key root1 root2
      root0_proper root1_signed root2_signed).
Qed.

Lemma ticket0_role : issuer_digest (Some ticket0) = Returns (Some root_digest) /\ hybrid_role ticket0.
Proof. split; [by vm_compute|right]. by vm_compute. Qed.

Lemma issued_certificate_accepted_witness :
  chain_is_authentic HybridRequired sample_ecc (Some sample_pqc) station_lookup station_store (Some ticket2) = Returns true.
Proof.
  destruct station_root as (c & Hl & Hs & Hc).
  exact (issued_certificate_accepted ticket0 root2 c root_digest pqc_key ecc_key ticket1 ticket2 station_lookup station_store []
    sample_ecc_ok sample_pqc_ok station_lookup_ok ticket0_proper (proj2 ticket0_role) (proj1 ticket0_role) Hl Hs Hc
    (Nat.lt_0_succ 6) ticket1_signed ticket2_signed).
Defined.

(** The station with a clock and both back ends. *)
Definition station : @HybridCertificateValidator unit :=
  hybrid_use_backends (Some sample_ecc) (Some sample_pqc)
 (hybrid_use_trust_store (Some station_store)
 (hybrid_use_issuer_lookup (Some station_lookup)
 (hybrid_disable_location_checks true
 (hybrid_use_runtime (Some 660000001000000) hybrid_validator)))).

Lemma station_configured : configured station.
Proof. repeat constructor. Qed.

Lemma station_accepts : hybrid_valid_for_signing station (Some ticket2) 36 = Returns Valid.
Proof. by vm_compute. Qed.

Lemma hybrid_verdict_sound_witness : exists lookup store ecc chain,
  authentic_chain HybridRequired ecc (Some sample_pqc) lookup store (ticket2 :: chain) /\
  Forall (fun a => is_allowed_to_issue (Some a) 36 = true) chain.
Proof.
  destruct (hybrid_verdict_sound station ticket2 36 station_configured eq_refl station_accepts)
    as (lookup & store & ecc & chain & _ & _ & _ & _ & _ & Ha & Hacc & _).
  exists lookup, store, ecc, chain. split; [exact Ha|exact (ac_issue _ _ _ _ _ _ Hacc)].
Defined.
