(* ===== verification/GeoSerial.v ===== *)
(** * Binary archives and serialization

    common/archives.cpp, common/serialization.hpp, common/bit_number.hpp,
    common/byte_order.hpp and net/mac_address.cpp: how the GeoNetworking headers are
    written to and read from octets.

    An output archive appends to a byte buffer, which never refuses octets, so writing
    an object is the list of octets it appends.  An input archive reads from a stream
    and throws when the stream ends too early; deserialization assigns to the members
    of an existing object one after the other, so an object can be left half read.
    [des T] keeps this: it takes the object and the archive, and returns whether the
    call returned normally, the object, and the archive.

    The class [Wire] is what the serialization of a type promises to the types that
    contain it: its size, that reading gives back what was written, that what was read
    is written in the same octets, and what happens when octets are missing. *)

From Stdlib Require Import ZArith Lia.
From stdpp Require Import prelude countable.
From S2P Require Import Prelude.

Open Scope Z_scope.

Declare Scope geo_scope.
Open Scope geo_scope.

(** * Input archives *)

Inductive ErrorCode := Ok | IncompleteData | ExcessiveLength | ConstraintViolation.

#[export] Instance ErrorCode_eq_dec : EqDecision ErrorCode.
Proof. solve_decision. Defined.

(** The stream buffer is the list of the octets that are still to be read. *)
Record InputArchive := mk_archive {
  m_stream_buffer : bytes;
  m_error_code : ErrorCode;
}.

Definition error_code (ar : InputArchive) : ErrorCode := m_error_code ar.

Definition is_good (ar : InputArchive) : bool := bool_decide (m_error_code ar = Ok).

(** A prior error code is only overwritten when it is [Ok]. *)
Definition failed_code (now e : ErrorCode) : ErrorCode := if now is Ok then e else now.

Definition fail (e : ErrorCode) (ar : InputArchive) : InputArchive :=
  mk_archive (m_stream_buffer ar) (failed_code (m_error_code ar) e).

Definition remaining_bytes (ar : InputArchive) : Z := size (m_stream_buffer ar).

(** [None]: an InputArchive::Exception is thrown.  [sgetn] takes what there is, also
    when it is less than [len]. *)
Definition load_binary (len : Z) (ar : InputArchive) : option bytes * InputArchive :=
  let data := ztake len (m_stream_buffer ar) in
  let ar := mk_archive (zdrop len (m_stream_buffer ar)) (m_error_code ar) in
  if negb (size data =? len) then (None, fail IncompleteData ar) else (Some data, ar).

Definition peek_byte (ar : InputArchive) : option Z * InputArchive :=
  match m_stream_buffer ar with
  | [] => (None, fail IncompleteData ar)
  | b :: _ => (Some b, ar)
  end.

(** * Deserializing into an object *)

(** [(false, x, ar)]: an exception was thrown when the object was [x]. *)
Definition des (T : Type) : Type := T -> InputArchive -> bool * T * InputArchive.

(** One statement after the other. *)
Definition then_do {T} (d1 d2 : des T) : des T := fun x ar =>
  let '(ok, x, ar) := d1 x ar in if ok then d2 x ar else (false, x, ar).

Notation "d1 ;; d2" := (then_do d1 d2)
  (at level 100, d2 at level 200, right associativity) : geo_scope.

(** [deserialize(obj.member, ar)]: the member is passed by reference. *)
Definition on_member {T F} (get : T -> F) (set : F -> T -> T) (d : des F) : des T :=
  fun x ar => let '(ok, v, ar) := d (get x) ar in (ok, set v x, ar).

(** [F tmp; deserialize(tmp, ar); ...]: a local variable, then assignments [k tmp]. *)
Definition local_var {T F} (tmp : F) (d : des F) (k : F -> T -> T) : des T :=
  fun x ar => let '(ok, v, ar) := d tmp ar in (ok, if ok then k v x else x, ar).

(** * Integers *)

(** The machine is little-endian: an integer of [n] octets in memory. *)
Definition to_memory (n : nat) (v : Z) : bytes := rev (be_bytes n v).
Definition from_memory (data : bytes) : Z := be (rev data).

(** boost::endian's native_to_big and big_to_native: both reverse the octets. *)
Definition hton (n : nat) (v : Z) : Z := from_memory (rev (to_memory n v)).
Definition ntoh (n : nat) (v : Z) : Z := from_memory (rev (to_memory n v)).

(** Conversion to the [n]-octet signed type. *)
Definition signed (n : nat) (v : Z) : Z :=
  (v + 2 ^ (8 * Z.of_nat n - 1)) mod 2 ^ (8 * Z.of_nat n) - 2 ^ (8 * Z.of_nat n - 1).

(** Output operator and [serialize] of an integral value, an EndianType or a quantity. *)
Definition serialize_int (n : nat) (value : Z) : bytes := to_memory n (hton n value).

(** The input operator, then [ntoh]. *)
Definition deserialize_uint (n : nat) : des Z := fun value ar =>
  let '(data, ar) := load_binary (Z.of_nat n) ar in
  match data with
  | Some data => (true, ntoh n (from_memory data), ar)
  | None => (false, value, ar)
  end.

Definition deserialize_sint (n : nat) : des Z := fun value ar =>
  let '(data, ar) := load_binary (Z.of_nat n) ar in
  match data with
  | Some data => (true, signed n (ntoh n (from_memory data)), ar)
  | None => (false, value, ar)
  end.

(** [BitNumber<T, WIDTH>(value)]. *)
Definition BitNumber (width value : Z) : Z := Z.land value (Z.shiftl 1 width - 1).

(** * MAC addresses *)

(** Six octets, by position: the source has an array of this length. *)
Record MacAddress := mk_MacAddress {
  octet0 : Z; octet1 : Z; octet2 : Z; octet3 : Z; octet4 : Z; octet5 : Z;
}.

#[export] Instance MacAddress_eq_dec : EqDecision MacAddress.
Proof. solve_decision. Defined.

Definition mac_octets (a : MacAddress) : bytes :=
  [octet0 a; octet1 a; octet2 a; octet3 a; octet4 a; octet5 a].

Definition default_MacAddress : MacAddress := mk_MacAddress 0 0 0 0 0 0.

Definition cBroadcastMacAddress : MacAddress := mk_MacAddress 255 255 255 255 255 255.

#[export] Instance MacAddress_countable : Countable MacAddress.
Proof.
  refine (inj_countable mac_octets
    (fun l => match l with [a; b; c; d; e; f] => Some (mk_MacAddress a b c d e f) | _ => None end)
    _). by intros [].
Defined.

(** The loop of [operator<]: true at the first position where the left octet is
    smaller, whatever the positions before it hold. *)
Fixpoint octets_less (l r : bytes) : bool :=
  match l, r with
  | a :: l, b :: r => if a <? b then true else octets_less l r
  | _, _ => false
  end.

Definition MacAddress_less (lhs rhs : MacAddress) : bool :=
  octets_less (mac_octets lhs) (mac_octets rhs).

Definition serialize_MacAddress (addr : MacAddress) : bytes :=
  concat (map (to_memory 1) (mac_octets addr)).

(** [ar >> octet]. *)
Definition load_octet : des Z := fun octet ar =>
  let '(data, ar) := load_binary 1 ar in
  match data with
  | Some data => (true, from_memory data, ar)
  | None => (false, octet, ar)
  end.

Definition deserialize_MacAddress : des MacAddress :=
  on_member octet0 (fun v a => mk_MacAddress v (octet1 a) (octet2 a) (octet3 a) (octet4 a) (octet5 a)) load_octet ;;
  on_member octet1 (fun v a => mk_MacAddress (octet0 a) v (octet2 a) (octet3 a) (octet4 a) (octet5 a)) load_octet ;;
  on_member octet2 (fun v a => mk_MacAddress (octet0 a) (octet1 a) v (octet3 a) (octet4 a) (octet5 a)) load_octet ;;
  on_member octet3 (fun v a => mk_MacAddress (octet0 a) (octet1 a) (octet2 a) v (octet4 a) (octet5 a)) load_octet ;;
  on_member octet4 (fun v a => mk_MacAddress (octet0 a) (octet1 a) (octet2 a) (octet3 a) v (octet5 a)) load_octet ;;
  on_member octet5 (fun v a => mk_MacAddress (octet0 a) (octet1 a) (octet2 a) (octet3 a) (octet4 a) v) load_octet.

(** * Numbers in octets *)

Lemma be_from_memory n v : be_bytes n (from_memory (rev (to_memory n v))) = rev (be_bytes n v).
Proof.
  unfold from_memory, to_memory. rewrite rev_involutive.
  pose proof (be_bytes_be (rev (be_bytes n v))) as H.
  rewrite length_rev, length_be_bytes in H. apply H, Forall_rev, all_bytes_be_bytes.
Qed.

Lemma serialize_int_be n v : serialize_int n v = be_bytes n v.
Proof. unfold serialize_int, hton, to_memory at 1. rewrite be_from_memory. apply rev_involutive. Qed.

Lemma ntoh_from_memory n data :
  all_bytes data -> length data = n -> ntoh n (from_memory data) = be data.
Proof.
  intros Hb Hn. unfold ntoh, to_memory, from_memory. rewrite rev_involutive.
  pose proof (be_bytes_be (rev data) (Forall_rev Hb)) as H.
  rewrite length_rev, Hn in H. by rewrite H, rev_involutive.
Qed.

Lemma be_bytes_mod_256 n v : be_bytes n (v mod 256 ^ Z.of_nat n) = be_bytes n v.
Proof.
  apply be_inj; try apply all_bytes_be_bytes; rewrite ?length_be_bytes; [done|].
  rewrite !be_be_bytes. apply Z.mod_mod. apply Z.pow_nonzero; lia.
Qed.

(** * What deserialization promises *)

(** [d] reads exactly [n] octets: when they are there it returns normally, when octets
    are missing it takes those that are there, records the error and throws. *)
Class Reads {T} (d : des T) (n : Z) : Prop := {
  reads_nonneg : 0 <= n;
  reads_short x s e : size s < n -> exists x',
    d x (mk_archive s e) = (false, x', mk_archive [] (failed_code e IncompleteData));
  reads_enough x s e : n <= size s -> exists x',
    d x (mk_archive s e) = (true, x', mk_archive (zdrop n s) e);
}.

Class Wire {T} (serialize : T -> bytes) (deserialize : des T) (n : Z) (wf : T -> Prop)
  : Prop := {
  wire_reads :: Reads deserialize n;
  wire_size x : size (serialize x) = n;
  wire_bytes x : all_bytes (serialize x);
  wire_roundtrip x x0 r e : wf x ->
    deserialize x0 (mk_archive (serialize x ++ r) e) = (true, x, mk_archive r e);
  wire_onto b : all_bytes b -> size b = n -> exists x, wf x /\ serialize x = b;
}.

Lemma load_binary_short n s e :
  size s < n -> load_binary n (mk_archive s e)
                = (None, mk_archive [] (failed_code e IncompleteData)).
Proof.
  intros H. pose proof (size_nonneg s). unfold load_binary. simpl.
  rewrite (ztake_all n s) by lia. destruct (Z.eqb_spec (size s) n); [lia|]. simpl.
  unfold fail, zdrop. simpl. rewrite drop_ge; [done|]. unfold size in *. lia.
Qed.

Lemma load_binary_enough n s e :
  0 <= n <= size s ->
  load_binary n (mk_archive s e) = (Some (ztake n s), mk_archive (zdrop n s) e).
Proof.
  intros H. unfold load_binary. simpl. rewrite size_ztake by lia. by rewrite Z.eqb_refl.
Qed.

Lemma load_binary_app n b r e :
  size b = n -> load_binary n (mk_archive (b ++ r) e) = (Some b, mk_archive r e).
Proof.
  intros H. pose proof (size_nonneg b). pose proof (size_nonneg r).
  rewrite load_binary_enough by (rewrite size_app; lia).
  by rewrite ztake_app, zdrop_app.
Qed.

(** What was read is written in the octets that were read. *)
Lemma wire_canonical {T} (serialize : T -> bytes) deserialize n wf x0 x s e ar :
  Wire serialize deserialize n wf -> all_bytes s ->
  deserialize x0 (mk_archive s e) = (true, x, ar) ->
  wf x /\ s = serialize x ++ m_stream_buffer ar /\ m_error_code ar = e.
Proof.
  intros W Hs Hd. destruct (decide (size s < n)) as [Hlt|Hge].
  { destruct (reads_short x0 s e Hlt) as [x' Hx]. congruence. }
  pose proof (reads_nonneg (d := deserialize)).
  destruct (wire_onto (ztake n s)) as (y & Hy & E); [auto with asn|rewrite size_ztake; lia|].
  assert (s = serialize y ++ zdrop n s) as Hsplit by by rewrite E, ztake_zdrop.
  rewrite Hsplit, (wire_roundtrip y x0) in Hd by done. by injection Hd as <- <-.
Qed.

(** [T tmp; deserialize(tmp, ar); x = tmp;] *)
Lemma assign_wire {T} (serialize : T -> bytes) (deserialize : des T) n wf tmp :
  Wire serialize deserialize n wf ->
  Wire serialize (local_var tmp deserialize (fun v _ => v)) n wf.
Proof.
  intros W. split; [|apply wire_size|apply wire_bytes| |apply wire_onto].
  - split; [apply reads_nonneg| |]; intros x s e Hs; unfold local_var.
    + destruct (reads_short tmp s e Hs) as [v ->]. eauto.
    + destruct (reads_enough tmp s e Hs) as [v ->]. eauto.
  - intros x x0 r e Hx. unfold local_var. by rewrite wire_roundtrip.
Qed.

(** The three ways to compose. *)
#[export] Instance then_do_reads {T} (d1 d2 : des T) n1 n2 :
  Reads d1 n1 -> Reads d2 n2 -> Reads (d1 ;; d2) (n1 + n2).
Proof.
  intros R1 R2. pose proof (reads_nonneg (d := d1)). pose proof (reads_nonneg (d := d2)).
  split; [lia| |]; intros x s e Hs; unfold then_do.
  - destruct (decide (size s < n1)) as [H1|H1].
    + destruct (reads_short x s e H1) as [x' ->]. eauto.
    + destruct (reads_enough (d := d1) x s e) as [x' ->]; [lia|].
      apply reads_short. rewrite size_zdrop; lia.
  - destruct (reads_enough (d := d1) x s e) as [x' ->]; [lia|].
    destruct (reads_enough (d := d2) x' (zdrop n1 s) e) as [x'' ->].
    { rewrite size_zdrop; lia. }
    exists x''. by rewrite zdrop_zdrop.
Qed.

#[export] Instance on_member_reads {T F} (get : T -> F) set (d : des F) n :
  Reads d n -> Reads (on_member get set d) n.
Proof.
  intros R. split; [apply reads_nonneg| |]; intros x s e Hs; unfold on_member.
  - destruct (reads_short (get x) s e Hs) as [v ->]. eauto.
  - destruct (reads_enough (get x) s e Hs) as [v ->]. eauto.
Qed.

#[export] Instance local_var_reads {T F} tmp (d : des F) (k : F -> T -> T) n :
  Reads d n -> Reads (local_var tmp d k) n.
Proof.
  intros R. split; [apply reads_nonneg| |]; intros x s e Hs; unfold local_var.
  - destruct (reads_short tmp s e Hs) as [v ->]. eauto.
  - destruct (reads_enough tmp s e Hs) as [v ->]. eauto.
Qed.

Lemma then_do_true {T} (d1 d2 : des T) x ar x1 ar1 :
  d1 x ar = (true, x1, ar1) -> (d1 ;; d2) x ar = d2 x1 ar1.
Proof. intros H. unfold then_do. by rewrite H. Qed.

Lemma on_member_true {T F} (get : T -> F) set (d : des F) x ar v ar1 :
  d (get x) ar = (true, v, ar1) -> on_member get set d x ar = (true, set v x, ar1).
Proof. intros H. unfold on_member. by rewrite H. Qed.

Lemma local_var_true {T F} tmp (d : des F) (k : F -> T -> T) x ar v ar1 :
  d tmp ar = (true, v, ar1) -> local_var tmp d k x ar = (true, k v x, ar1).
Proof. intros H. unfold local_var. by rewrite H. Qed.

(** A string of known size is the concatenation of strings of known sizes. *)
Lemma split_bytes n1 n2 (b : bytes) :
  all_bytes b -> size b = n1 + n2 -> 0 <= n1 -> 0 <= n2 ->
  exists b1 b2, b = b1 ++ b2 /\ all_bytes b1 /\ size b1 = n1 /\ all_bytes b2 /\ size b2 = n2.
Proof.
  intros Hb Hs H1 H2. exists (ztake n1 b), (zdrop n1 b).
  rewrite ztake_zdrop, size_ztake, size_zdrop by lia. split_and!; auto with asn lia.
Qed.

(** * Integers and MAC addresses *)

Definition is_uint (n : nat) (v : Z) : Prop := 0 <= v < 2 ^ (8 * Z.of_nat n).
Definition is_sint (n : nat) (v : Z) : Prop :=
  - 2 ^ (8 * Z.of_nat n - 1) <= v < 2 ^ (8 * Z.of_nat n - 1).

Lemma pow_256 n : 256 ^ Z.of_nat n = 2 ^ (8 * Z.of_nat n).
Proof. rewrite Z.pow_mul_r by lia. done. Qed.

#[export] Instance deserialize_uint_reads n : Reads (deserialize_uint n) (Z.of_nat n).
Proof.
  split; [lia| |]; intros x s e Hs; unfold deserialize_uint.
  - rewrite load_binary_short by done. eauto.
  - rewrite load_binary_enough by lia. eauto.
Qed.

#[export] Instance deserialize_sint_reads n : Reads (deserialize_sint n) (Z.of_nat n).
Proof.
  split; [lia| |]; intros x s e Hs; unfold deserialize_sint.
  - rewrite load_binary_short by done. eauto.
  - rewrite load_binary_enough by lia. eauto.
Qed.

Lemma deserialize_uint_app n b x r e :
  all_bytes b -> size b = Z.of_nat n ->
  deserialize_uint n x (mk_archive (b ++ r) e) = (true, be b, mk_archive r e).
Proof.
  intros Hb Hs. unfold deserialize_uint. rewrite load_binary_app by done.
  rewrite ntoh_from_memory; [done..|]. unfold size in Hs. lia.
Qed.

Lemma deserialize_sint_app n b x r e :
  all_bytes b -> size b = Z.of_nat n ->
  deserialize_sint n x (mk_archive (b ++ r) e) = (true, signed n (be b), mk_archive r e).
Proof.
  intros Hb Hs. unfold deserialize_sint. rewrite load_binary_app by done.
  rewrite ntoh_from_memory; [done..|]. unfold size in Hs. lia.
Qed.

Lemma serialize_int_ok n v :
  size (serialize_int n v) = Z.of_nat n /\ all_bytes (serialize_int n v) /\
  be (serialize_int n v) = v mod 2 ^ (8 * Z.of_nat n).
Proof.
  rewrite serialize_int_be, size_be_bytes, be_be_bytes, pow_256.
  auto using all_bytes_be_bytes.
Qed.

#[export] Instance uint_wire n :
  Wire (serialize_int n) (deserialize_uint n) (Z.of_nat n) (is_uint n).
Proof.
  split; [exact _|apply serialize_int_ok..| |].
  - intros v x0 r e Hv. destruct (serialize_int_ok n v) as (H1 & H2 & H3).
    rewrite deserialize_uint_app by done. by rewrite H3, Z.mod_small.
  - intros b Hb Hs. exists (be b). pose proof (be_bound b Hb) as Hbd.
    rewrite Hs, pow_256 in Hbd. split; [exact Hbd|].
    rewrite serialize_int_be. replace n with (length b) by (unfold size in Hs; lia).
    by apply be_bytes_be.
Qed.

Lemma signed_range n v : is_sint (S n) (signed (S n) v).
Proof.
  unfold is_sint, signed. set (k := 8 * Z.of_nat (S n)).
  assert (2 ^ k = 2 * 2 ^ (k - 1)) by (rewrite <- Z.pow_succ_r by lia; f_equal; lia).
  pose proof (Z.mod_pos_bound (v + 2 ^ (k - 1)) (2 ^ k)). lia.
Qed.

Lemma signed_mod n v : signed n v mod 2 ^ (8 * Z.of_nat n) = v mod 2 ^ (8 * Z.of_nat n).
Proof.
  unfold signed. rewrite Zminus_mod_idemp_l. f_equal. lia.
Qed.

Lemma signed_id n v : is_sint (S n) v -> signed (S n) (v mod 2 ^ (8 * Z.of_nat (S n))) = v.
Proof.
  unfold is_sint, signed. set (k := 8 * Z.of_nat (S n)). intros Hv.
  assert (2 ^ k = 2 * 2 ^ (k - 1)) by (rewrite <- Z.pow_succ_r by lia; f_equal; lia).
  rewrite Zplus_mod_idemp_l, Z.mod_small; lia.
Qed.

#[export] Instance sint_wire n :
  Wire (serialize_int (S n)) (deserialize_sint (S n)) (Z.of_nat (S n)) (is_sint (S n)).
Proof.
  split; [exact _|apply serialize_int_ok..| |].
  - intros v x0 r e Hv. destruct (serialize_int_ok (S n) v) as (H1 & H2 & H3).
    rewrite deserialize_sint_app by done. by rewrite H3, signed_id.
  - intros b Hb Hs. exists (signed (S n) (be b)). split; [apply signed_range|].
    rewrite serialize_int_be, <- be_bytes_mod_256, pow_256, signed_mod, <- pow_256, be_bytes_mod_256.
    replace (S n) with (length b) by (unfold size in Hs; lia). by apply be_bytes_be.
Qed.


(** * Composition *)

(** The tactics below prove the laws of a type from those of its members: [wire_sizes]
    and [wire_octets] the facts about the written octets, [wire_reading] that a sequence
    of reads succeeds member by member, where [tac] proves each read. *)
Ltac wire_sizes :=
  rewrite ?size_app;
  repeat match goal with
  | |- context [@size Z (?s ?x)] => rewrite (wire_size (serialize := s) x)
  end.

Ltac wire_octets :=
  repeat match goal with |- Forall _ (_ ++ _) => apply Forall_app; split end;
  try apply wire_bytes.

Ltac wire_reading tac :=
  rewrite <- ?app_assoc;
  repeat (erewrite then_do_true by (first [apply on_member_true | apply local_var_true]; tac);
          cbn beta iota);
  first [erewrite on_member_true by tac | erewrite local_var_true by tac].

Ltac wire_read_back := eapply wire_roundtrip; eassumption.

(** The first octets of a string are those of a member; [d] reads it into [v]. *)
Ltac wire_member d v :=
  match goal with
  | Hb : Forall is_byte ?b, Hs : size ?b = ?n1 + ?n2 |- _ =>
      let b1 := fresh "b" in let b2 := fresh "b" in
      let H1 := fresh "H" in let S1 := fresh "S" in
      let H2 := fresh "H" in let S2 := fresh "S" in
      destruct (split_bytes n1 n2 b Hb Hs) as (b1 & b2 & -> & H1 & S1 & H2 & S2);
      [lia..|]; clear Hb Hs;
      destruct (wire_onto (deserialize := d) b1 H1 S1) as (v & ? & <-); clear H1 S1
  end.

Ltac wire_last d v :=
  match goal with
  | Hb : Forall is_byte ?b, Hs : size ?b = _ |- _ =>
      destruct (wire_onto (deserialize := d) b Hb Hs) as (v & ? & <-); clear Hb Hs
  end.

Lemma load_octet_cons v x r e :
  load_octet x (mk_archive ([v] ++ r) e) = (true, v, mk_archive r e).
Proof. unfold load_octet. by rewrite (load_binary_app 1 [v] r e). Qed.

Lemma to_memory_octet v : is_uint 1 v -> to_memory 1 v = [v].
Proof.
  intros H. unfold to_memory. simpl. f_equal. rewrite Z.shiftr_0_r. by apply wrap_id.
Qed.

#[export] Instance octet_wire : Wire (to_memory 1) load_octet 1 (is_uint 1).
Proof.
  split.
  - split; [lia| |]; intros x s e Hs; unfold load_octet.
    + rewrite load_binary_short by done. eauto.
    + rewrite load_binary_enough by lia. eauto.
  - done.
  - intros x. constructor; auto with asn.
  - intros v x0 r e Hv. rewrite to_memory_octet by done. apply load_octet_cons.
  - intros [|v [|? b]] Hb Hs; unfold size in Hs; simpl in Hs; [lia| |lia].
    inversion_clear Hb. exists v. split; [done|]. by apply to_memory_octet.
Qed.

Definition wf_MacAddress (a : MacAddress) : Prop := Forall (is_uint 1) (mac_octets a).

Lemma serialize_MacAddress_octets a : wf_MacAddress a -> serialize_MacAddress a = mac_octets a.
Proof.
  unfold wf_MacAddress, serialize_MacAddress. induction 1 as [|v l Hv _ IH]; [done|].
  cbn [map concat]. by rewrite to_memory_octet, IH.
Qed.

Lemma deserialize_MacAddress_octets a x0 r e :
  deserialize_MacAddress x0 (mk_archive (mac_octets a ++ r) e) = (true, a, mk_archive r e).
Proof.
  destruct a. unfold deserialize_MacAddress, mac_octets. simpl app.
  wire_reading ltac:(apply load_octet_cons). done.
Qed.

#[export] Instance MacAddress_wire :
  Wire serialize_MacAddress deserialize_MacAddress 6 wf_MacAddress.
Proof.
  split.
  - unfold deserialize_MacAddress. change 6 with (1 + (1 + (1 + (1 + (1 + 1))))). exact _.
  - intros a. unfold serialize_MacAddress, mac_octets. cbn [map concat]. wire_sizes. done.
  - intros a. unfold serialize_MacAddress, mac_octets. cbn [map concat]. wire_octets. constructor.
  - intros a x0 r e H. rewrite serialize_MacAddress_octets by done.
    apply deserialize_MacAddress_octets.
  - intros [|a [|b [|c [|d [|e [|f [|]]]]]]] Hb Hs; unfold size in Hs; simpl in Hs; try lia.
    exists (mk_MacAddress a b c d e f). split; [exact Hb|].
    by apply (serialize_MacAddress_octets (mk_MacAddress a b c d e f)).
Qed.
