(* ===== verification/SecuredMessageV3.v ===== *)
(** Secured messages of the security layer, version 3.

    Models security/v3/secured_message.cpp: the wrapper around EtsiTs103097Data with the
    functions that build, read and change a message.  A message is its structure; what
    the functions do to it is a new structure.  A pointer that is followed without a
    check is followed by [deref]: a null pointer and a failing assertion give
    [NoResult].

    Data may be nested in data without end; the tables are unfolded to the depth
    [nesting] below the data that a message carries, and a decoder that goes deeper
    gives [NoResult]. *)

From stdpp Require Import prelude strings.
From S2P Require Import Prelude Codecs Integer Descriptor OerSem OerCodec Pqc Asn1Wrapper SecurityTypes CertificateV3.
From S2P Require Import GeoSerial.

Class Nesting := { nesting : nat }.

(** A pointer that is followed. *)
Definition deref (p : option obj) : cpp obj :=
  match p with
  | Some o => Returns o
  | None => NoResult
  end.

(** [assert(condition)] *)
Definition cpp_assert (condition : bool) : cpp unit := if condition then Returns () else NoResult.

Module Msg.

(** * Enumerators and members *)

Abbreviation Content_PR_unsecuredData := 1.
Abbreviation Content_PR_signedData := 2.
Abbreviation Content_PR_encryptedData := 3.
Abbreviation SignerIdentifier_PR_digest := 1.
Abbreviation SignerIdentifier_PR_certificate := 2.
Abbreviation SignerIdentifier_PR_self := 3.
Abbreviation HashedData_PR_sha256HashedData := 1.
Abbreviation HashAlgorithm_sha256 := 0.
Abbreviation HashAlgorithm_sha384 := 1.
Abbreviation RecipientInfo_PR_pskRecipInfo := 1.
Abbreviation RecipientInfo_PR_certRecipInfo := 3.
Abbreviation SymmetricCiphertext_PR_aes128ccm := 1.
Abbreviation SymmetricEncryptionKey_PR_aes128Ccm := 1.
Abbreviation EncryptedDataEncryptionKey_PR_eciesNistP256 := 1.
Abbreviation EncryptedDataEncryptionKey_PR_eciesBrainpoolP256r1 := 2.

Definition protocolVersion (data : option obj) : option obj := memb 0 data.
Definition content (data : option obj) : option obj := memb 1 data.
Definition hashId (sd : option obj) : option obj := memb 0 sd.
Definition tbsData (sd : option obj) : option obj := memb 1 sd.
Definition signer (sd : option obj) : option obj := memb 2 sd.
Definition sd_signature (sd : option obj) : option obj := memb 3 sd.
Definition sd_payload (tbs : option obj) : option obj := memb 0 tbs.
Definition headerInfo (tbs : option obj) : option obj := memb 1 tbs.
Definition generationTime (h : option obj) : option obj := memb 1 h.
Definition generationLocation (h : option obj) : option obj := memb 3 h.
Definition inlineP2pcdRequest (h : option obj) : option obj := memb 7 h.
Definition requestedCertificate (h : option obj) : option obj := memb 8 h.
Definition payload_data (p : option obj) : option obj := memb 0 p.
Definition extDataHash (p : option obj) : option obj := memb 1 p.
Definition recipients (e : option obj) : option obj := memb 0 e.
Definition ciphertext (e : option obj) : option obj := memb 1 e.

(** Positions and names agree with the generated tables. *)
Lemma message_positions n :
  names_at (asn_MBR_Ieee1609Dot2Data_1 n) [0; 1]%nat = map Some ["protocolVersion"; "content"]%string /\
  names_at (asn_MBR_Ieee1609Dot2Content_1 n) [0; 1; 2]%nat =
    map Some ["unsecuredData"; "signedData"; "encryptedData"]%string /\
  names_at (asn_MBR_SignedData_1 n) [0; 1; 2; 3]%nat =
    map Some ["hashId"; "tbsData"; "signer"; "signature"]%string /\
  names_at (asn_MBR_ToBeSignedData_1 n) [0; 1]%nat = map Some ["payload"; "headerInfo"]%string /\
  names_at asn_MBR_HeaderInfo_1 [0; 1; 3; 7; 8]%nat = map Some ["psid"; "generationTime";
    "generationLocation"; "inlineP2pcdRequest"; "requestedCertificate"]%string /\
  names_at (asn_MBR_SignedDataPayload_1 n) [0; 1]%nat = map Some ["data"; "extDataHash"]%string /\
  names_at asn_MBR_EncryptedData_1 [0; 1]%nat = map Some ["recipients"; "ciphertext"]%string.
Proof. repeat split. Qed.

(** ** Writes *)

(** Writes of a whole member, from the outside in. *)
Definition set_content (c : obj) (m : obj) : obj := set_memb 1 (Some c) m.
Definition set_signed_data (sd : obj) (m : obj) : obj :=
  match content (Some m) with
  | Some c => set_content (set_choice sd c) m
  | None => m
  end.
Definition set_tbs_data (tbs : obj) (sd : obj) : obj := set_memb 1 (Some tbs) sd.
Definition header_info (tbs : obj) : obj := default (allocate asn_DEF_HeaderInfo) (headerInfo (Some tbs)).
Definition set_header_info (h : obj) (tbs : obj) : obj := set_memb 1 (Some h) tbs.

(** A selected inline alternative in zeroed memory, or with the given contents. *)
Definition variant (p : Z) (m : obj) : obj := O_CHOICE ctx_zero p (Some m).

(** * Messages without contents *)

Section Message.
Context {nest : Nesting}.

(** The types of a message and of the data it carries. *)
Definition td_inner : asn_TYPE_descriptor := unfolded (S nesting).
Definition td_message : asn_TYPE_descriptor := asn_DEF_EtsiTs103097Data td_inner.
Definition td_signed : asn_TYPE_descriptor := asn_DEF_SignedData td_inner.
Definition td_tbs : asn_TYPE_descriptor := asn_DEF_ToBeSignedData td_inner.
Definition td_payload : asn_TYPE_descriptor := asn_DEF_SignedDataPayload td_inner.

(** [SecuredMessage()] *)
Definition make_SecuredMessage : obj := allocate td_message.

Definition data_of (version : Z) (c : obj) (m : obj) : obj := set_content c (set_memb 0 (Some (O_long version)) m).

(** Data that is not secured, without octets. *)
Definition unsecured : obj :=
  data_of 3 (variant Content_PR_unsecuredData (O_BUF None)) (allocate td_inner).

Definition signed_message (payload : obj) : obj :=
  let tbs := set_memb 0 (Some payload) (allocate td_tbs) in
  data_of 3 (variant Content_PR_signedData (set_tbs_data tbs (allocate td_signed))) make_SecuredMessage.

Definition with_signed_data : obj := signed_message (set_memb 0 (Some unsecured) (allocate td_payload)).

Definition with_signed_data_hash : obj :=
  signed_message (set_memb 1 (Some (variant HashedData_PR_sha256HashedData (O_BUF None))) (allocate td_payload)).

Definition with_encrypted_data : obj :=
  data_of 3 (variant Content_PR_encryptedData (allocate asn_DEF_EncryptedData)) make_SecuredMessage.

(** * Reading *)

(** [get_signed_data]: all pointers on the way are checked. *)
Definition get_signed_data (m : obj) : option obj :=
  match content (Some m) with
  | Some c => if present (Some c) =? Content_PR_signedData then choice (Some c) else None
  | None => None
  end.

(** [get_header_info]: the to-be-signed part is followed. *)
Definition get_header_info (m : obj) : cpp (option obj) :=
  match get_signed_data m with
  | Some sd => tbs ← deref (tbsData (Some sd)); Returns (Some (header_info tbs))
  | None => Returns None
  end.

Definition protocol_version (m : obj) : Z := u8 (number (protocolVersion (Some m))).

(** The psid is an unsigned long, an ItsAid has 32 bits. *)
Definition its_aid (m : obj) : Z :=
  match get_signed_data m with
  | Some sd =>
    match tbsData (Some sd) with
    | Some tbs => u32 (psid (header_info tbs))
    | None => 0
    end
  | None => 0
  end.

Definition content_is (p : Z) (m : obj) : cpp bool := c ← deref (content (Some m)); Returns (present (Some c) =? p).
Definition is_signed : obj -> cpp bool := content_is Content_PR_signedData.
Definition is_encrypted : obj -> cpp bool := content_is Content_PR_encryptedData.

Definition generation_time (m : obj) : cpp (option Z) :=
  h ← get_header_info m;
  Returns match h with
          | Some h => match generationTime (Some h) with
                      | Some (O_BUF st) => asn_INTEGER2umax st
                      | _ => None
                      end
          | None => None
          end.

Definition signature (m : obj) : option EccSignature :=
  match get_signed_data m with
  | None => None
  | Some sd =>
    let asn := sd_signature (Some sd) in
    let p := present asn in
    let sig := choice asn in
    if p =? Signature_PR_ecdsaNistP256Signature then
      Some {| sig_r := get_x_coordinate_P256 (rSig sig); sig_s := octets (sSig sig); sig_type := NistP256 |}
    else if p =? Signature_PR_ecdsaBrainpoolP256r1Signature then
      Some {| sig_r := get_x_coordinate_P256 (rSig sig); sig_s := octets (sSig sig); sig_type := BrainpoolP256r1 |}
    else if p =? Signature_PR_ecdsaBrainpoolP384r1Signature then
      Some {| sig_r := get_x_coordinate_P384 (rSig sig); sig_s := octets (sSig sig); sig_type := BrainpoolP384r1 |}
    else None
  end.

Definition hash_id (m : obj) : HashAlgorithm :=
  match get_signed_data m with
  | Some sd =>
    let h := number (hashId (Some sd)) in
    if h =? HashAlgorithm_sha256 then SHA256
    else if h =? HashAlgorithm_sha384 then SHA384
    else HashUnspecified
  | None => HashUnspecified
  end.

(** [boost::variant<const asn1::HashedId8*, const asn1::Certificate*>] *)
Inductive SignerIdentifier :=
  | SignerDigest (digest : option obj)
  | SignerCertificate (cert : option obj).

Definition signer_identifier (m : obj) : SignerIdentifier :=
  match get_signed_data m with
  | Some sd =>
    let s := signer (Some sd) in
    if present s =? SignerIdentifier_PR_digest then SignerDigest (choice s)
    else if present s =? SignerIdentifier_PR_certificate then
      match array (choice s) with
      | [cert] => SignerCertificate cert
      | _ => SignerDigest None
      end
    else SignerDigest None
  | None => SignerDigest None
  end.

Definition contains_certificate (identifier : SignerIdentifier) : bool :=
  match identifier with SignerDigest _ => false | SignerCertificate _ => true end.

Definition get_certificate (identifier : SignerIdentifier) : view :=
  match identifier with SignerDigest _ => None | SignerCertificate cert => cert end.

(** ** Payload *)

(** Both overloads of [get_payload]. *)
Definition get_opaque_payload (unsecured : option obj) : bytes := octets unsecured.

Definition get_signed_payload (sd : obj) : bytes :=
  match payload_data (sd_payload (tbsData (Some sd))) with
  | Some data =>
    match content (Some data) with
    | Some c => if present (Some c) =? Content_PR_unsecuredData then get_opaque_payload (choice (Some c)) else []
    | None => []
    end
  | None => []
  end.

(** The octets of [payload()]; the packet it returns holds them at the network layer. *)
Definition payload (m : obj) : cpp bytes :=
  c ← deref (content (Some m));
  if present (Some c) =? Content_PR_unsecuredData then Returns (get_opaque_payload (choice (Some c)))
  else if present (Some c) =? Content_PR_signedData then
    sd ← deref (choice (Some c)); Returns (get_signed_payload sd)
  else Returns [].

(** * Changing *)

(** Follows the pointers to the signed data and to the header of a signed message; other
    messages are left alone. *)
Definition on_signed (f : obj -> cpp obj) (m : obj) : cpp obj :=
  c ← deref (content (Some m));
  if present (Some c) =? Content_PR_signedData then
    sd ← deref (choice (Some c)); sd ← f sd; Returns (set_signed_data sd m)
  else Returns m.

Definition on_header (f : obj -> obj) : obj -> cpp obj := on_signed (fun sd =>
  tbs ← deref (tbsData (Some sd)); Returns (set_tbs_data (set_header_info (f (header_info tbs)) tbs) sd)).

(** Checks its pointers, but for the contents of the message. *)
Definition set_its_aid (aid : Z) (m : obj) : cpp obj :=
  c ← deref (content (Some m));
  if present (Some c) =? Content_PR_signedData then
    match choice (Some c) with
    | Some sd =>
      match tbsData (Some sd) with
      | Some tbs =>
        Returns (set_signed_data
          (set_tbs_data (set_header_info (set_memb 0 (Some (O_long aid)) (header_info tbs)) tbs) sd) m)
      | None => Returns m
      end
    | None => Returns m
    end
  else Returns m.

Definition set_generation_time (time : Z) : obj -> cpp obj :=
  on_header (set_memb 1 (Some (O_BUF (asn_uint642INTEGER time)))).

(** asn1::ThreeDLocation *)
Record ThreeDLocation := mk_ThreeDLocation { loc_latitude : Z; loc_longitude : Z; loc_elevation : Z }.

Definition set_generation_location (location : ThreeDLocation) : obj -> cpp obj := on_header (fun h =>
  let l := default (allocate asn_DEF_ThreeDLocation) (generationLocation (Some h)) in
  set_memb 3 (Some (set_memb 2 (Some (O_long location.(loc_elevation)))
                   (set_memb 1 (Some (O_long location.(loc_longitude)))
                   (set_memb 0 (Some (O_long location.(loc_latitude))) l)))) h).

(** ** Requests for certificates *)

Definition add_inline_p2pcd_request (unknown_certificate_digest : HashedId3) : obj -> cpp obj := on_header (fun h =>
  let l := default (allocate asn_DEF_SequenceOfHashedId3) (inlineP2pcdRequest (Some h)) in
  set_memb 7 (Some (array_add (OCTET_STRING_fromBuf unknown_certificate_digest) l)) h).

Fixpoint add_inline_p2pcd_requests (requests : list HashedId3) (m : obj) : cpp obj :=
  match requests with
  | [] => Returns m
  | request :: requests => m ← add_inline_p2pcd_request request m; add_inline_p2pcd_requests requests m
  end.

(** An existing list is emptied in place. *)
Definition set_inline_p2pcd_request (requests : list HashedId3) (m : obj) : cpp obj :=
  c ← deref (content (Some m));
  if present (Some c) =? Content_PR_signedData then
    m ← on_header (fun h => match inlineP2pcdRequest (Some h) with
                            | Some _ => set_memb 7 (Some (allocate asn_DEF_SequenceOfHashedId3)) h
                            | None => h
                            end) m;
    add_inline_p2pcd_requests requests m
  else Returns m.

(** Every request goes through an array of 8 octets, of which the last 3 are kept. *)
Fixpoint read_requests (l : list (option obj)) : cpp (list HashedId3) :=
  match l with
  | [] => Returns []
  | e :: l =>
    e ← deref e;
    d ← hashed_id8_of_octets (octets (Some e));
    ds ← read_requests l;
    Returns (truncate d :: ds)
  end.

Definition get_inline_p2pcd_request (m : obj) : cpp (list HashedId3) :=
  c ← deref (content (Some m));
  if present (Some c) =? Content_PR_signedData then
    sd ← deref (choice (Some c));
    tbs ← deref (tbsData (Some sd));
    read_requests (array (inlineP2pcdRequest (headerInfo (Some tbs))))
  else Returns [].

(** ** Signatures *)

Definition ecdsa_signature (type p : Z) (r s : bytes) : obj :=
  variant type (O_SEQ ctx_zero None [Some (variant p (OCTET_STRING_fromBuf r)); Some (OCTET_STRING_fromBuf s)]).

Definition dummy_signature : obj :=
  ecdsa_signature Signature_PR_ecdsaNistP256Signature EccP256CurvePoint_PR_x_only (replicate 32 0) (replicate 32 0).

(** Replaces the signature of a message that has signed data. *)
Definition put_signature (sig : obj) (m : obj) : cpp obj :=
  c ← deref (content (Some m));
  if present (Some c) =? Content_PR_signedData then
    match choice (Some c) with
    | Some sd => Returns (set_signed_data (set_memb 3 (Some sig) sd) m)
    | None => Returns m
    end
  else Returns m.

Definition set_dummy_signature : obj -> cpp obj := put_signature dummy_signature.

Definition signature_of (signature : EccSignature) : obj :=
  match signature.(sig_type) with
  | NistP256 => ecdsa_signature Signature_PR_ecdsaNistP256Signature EccP256CurvePoint_PR_x_only
                  signature.(sig_r) signature.(sig_s)
  | BrainpoolP256r1 => ecdsa_signature Signature_PR_ecdsaBrainpoolP256r1Signature EccP256CurvePoint_PR_x_only
                         signature.(sig_r) signature.(sig_s)
  | BrainpoolP384r1 => ecdsa_signature Signature_PR_ecdsaBrainpoolP384r1Signature EccP384CurvePoint_PR_x_only
                         signature.(sig_r) signature.(sig_s)
  | Unspecified => dummy_signature
  end.

Definition set_signature (signature : EccSignature) : obj -> cpp obj := put_signature (signature_of signature).

(** The overload for [SomeEcdsaSignature] does not look which contents is selected: any
    other contents than signed data is misread. *)
Definition set_ecdsa_signature (R : EccPoint) (s : bytes) (m : obj) : cpp obj :=
  c ← deref (content (Some m));
  _ ← cpp_assert (present (Some c) =? Content_PR_signedData);
  sd ← deref (choice (Some c));
  Returns (set_signed_data (set_memb 3 (Some (variant Signature_PR_ecdsaNistP256Signature
    (O_SEQ ctx_zero None [Some (to_asn1 R); Some (OCTET_STRING_fromBuf s)]))) sd) m).

(** ** Payload *)

(** Follows the pointers to the data that the signed data carries.  The octets are written
    to the alternative for unsecured data without a look at the selected one: another
    one would be destroyed. *)
Definition set_inner_payload (octs : bytes) (sd : obj) : cpp obj :=
  tbs ← deref (tbsData (Some sd));
  p ← deref (sd_payload (Some tbs));
  data ← deref (payload_data (Some p));
  c ← deref (content (Some data));
  _ ← cpp_assert (present (Some c) =? Content_PR_unsecuredData);
  let data := set_content (set_choice (OCTET_STRING_fromBuf octs) c) data in
  Returns (set_tbs_data (set_memb 0 (Some (set_memb 0 (Some data) p)) tbs) sd).

Definition set_payload (octs : bytes) (m : obj) : cpp obj :=
  c ← deref (content (Some m));
  if present (Some c) =? Content_PR_unsecuredData then
    Returns (set_content (set_choice (OCTET_STRING_fromBuf octs) c) m)
  else on_signed (set_inner_payload octs) m.

Definition set_external_payload_hash (hash : bytes) (m : obj) : cpp obj :=
  c ← deref (content (Some m));
  _ ← cpp_assert (present (Some c) =? Content_PR_signedData);
  on_signed (fun sd =>
    tbs ← deref (tbsData (Some sd));
    p ← deref (sd_payload (Some tbs));
    _ ← deref (extDataHash (Some p));
    let hashed := variant HashedData_PR_sha256HashedData (OCTET_STRING_fromBuf hash) in
    Returns (set_tbs_data (set_memb 0 (Some (set_memb 1 (Some hashed) p)) tbs) sd)) m.

(** ** Hash and signer *)

(** [assert] that the message is signed, then a write to its signed data. *)
Definition on_asserted_signed (f : obj -> cpp obj) (m : obj) : cpp obj :=
  c ← deref (content (Some m));
  _ ← cpp_assert (present (Some c) =? Content_PR_signedData);
  on_signed f m.

Definition set_hash_id (hash : HashAlgorithm) : obj -> cpp obj := on_asserted_signed (fun sd =>
  let h := match hash with SHA256 => HashAlgorithm_sha256 | SHA384 => HashAlgorithm_sha384 | HashUnspecified => -1 end in
  Returns (set_memb 0 (Some (O_long h)) sd)).

Definition set_signer_identifier_self : obj -> cpp obj :=
  on_asserted_signed (fun sd => Returns (set_memb 2 (Some (variant SignerIdentifier_PR_self O_NULL)) sd)).

Definition set_signer_identifier_digest (digest : HashedId8) : obj -> cpp obj := on_asserted_signed (fun sd =>
  Returns (set_memb 2 (Some (variant SignerIdentifier_PR_digest (OCTET_STRING_fromBuf digest))) sd)).

Section Codec.
Context {pf : Platform}.

(** The structure has been changed when the copy throws, but no caller catches it. *)
Definition set_signer_identifier_certificate (cert : obj) : obj -> cpp obj := on_asserted_signed (fun sd =>
  c ← copy asn_DEF_EtsiTs103097Certificate (Some cert);
  Returns (set_memb 2 (Some (variant SignerIdentifier_PR_certificate
    (array_add c (allocate asn_DEF_SequenceOfCertificate)))) sd)).

Definition set_requested_certificate (cert : obj) (m : obj) : cpp obj :=
  match get_signed_data m with
  | Some sd =>
    match tbsData (Some sd) with
    | Some tbs =>
      c ← copy asn_DEF_Certificate (Some cert);
      Returns (set_signed_data (set_tbs_data (set_header_info (set_memb 8 (Some c) (header_info tbs)) tbs) sd) m)
    | None => Returns m
    end
  | None => Returns m
  end.

(** The octets that are signed. *)
Definition signing_payload (m : obj) : cpp bytes :=
  match get_signed_data m with
  | Some sd => encode_oer td_tbs (tbsData (Some sd))
  | None => Returns []
  end.

(** [make_hashed_id8] and [calculate_digest], whichever the message has. *)
Definition get_certificate_id {sha : Sha} (identifier : SignerIdentifier) : cpp (option HashedId8) :=
  match identifier with
  | SignerDigest (Some digest) => d ← hashed_id8_of_octets (octets (Some digest)); Returns (Some d)
  | SignerDigest None => Returns None
  | SignerCertificate (Some cert) => calculate_digest cert
  | SignerCertificate None => Returns None
  end.

Definition certificate_id {sha : Sha} (m : obj) : cpp (option HashedId8) := get_certificate_id (signer_identifier m).

(** ** Encrypted messages *)

(** [assert] that the message is encrypted, then a write to its encrypted data. *)
Definition on_asserted_encrypted (f : obj -> cpp obj) (m : obj) : cpp obj :=
  c ← deref (content (Some m));
  _ ← cpp_assert (present (Some c) =? Content_PR_encryptedData);
  e ← f (default (allocate asn_DEF_EncryptedData) (choice (Some c)));
  Returns (set_content (set_choice e c) m).

(** The ciphertext and the nonce, an array of 12 octets. *)
Definition get_aes_ccm_ciphertext (m : obj) : cpp (bytes * bytes) :=
  c ← deref (content (Some m));
  _ ← cpp_assert (present (Some c) =? Content_PR_encryptedData);
  let symmetric_ciphertext := ciphertext (choice (Some c)) in
  _ ← cpp_assert (present symmetric_ciphertext =? SymmetricCiphertext_PR_aes128ccm);
  let aes_ccm_ciphertext := choice symmetric_ciphertext in
  let nonce := octets (memb 0 aes_ccm_ciphertext) in
  _ ← cpp_assert (12 <=? size nonce);
  Returns (octets (memb 1 aes_ccm_ciphertext), take 12 nonce).

Definition set_aes_ccm_ciphertext (ccm_ciphertext nonce : bytes) : obj -> cpp obj := on_asserted_encrypted (fun e =>
  match CHOICE_variant_set_presence 2 (Some (default zero_choice (ciphertext (Some e)))) SymmetricCiphertext_PR_aes128ccm with
  | Some s =>
    let a := default (allocate asn_DEF_One28BitCcmCiphertext) (choice (Some s)) in
    let a := set_memb 0 (Some (OCTET_STRING_fromBuf nonce)) (set_memb 1 (Some (OCTET_STRING_fromBuf ccm_ciphertext)) a) in
    Returns (set_memb 1 (Some (set_choice a s)) e)
  | None => NoResult
  end).

(** ecc_point.cpp *)
Definition make_ecc_point (public_key : PublicKey) : EccPoint :=
  match public_key.(pk_compression) with
  | NoCompression => Uncompressed public_key.(pk_x) public_key.(pk_y)
  | Y0 => Compressed_Lsb_Y_0 public_key.(pk_x)
  | Y1 => Compressed_Lsb_Y_1 public_key.(pk_x)
  end.

Definition set_cert_recip_info (recipient_id : HashedId8) (ecies_ciphertext ecies_tag : bytes)
    (ecies_pub_key : PublicKey) : obj -> cpp obj := on_asserted_encrypted (fun e =>
  curve ← match ecies_pub_key.(pk_type) with
          | NistP256 => Returns EncryptedDataEncryptionKey_PR_eciesNistP256
          | BrainpoolP256r1 => Returns EncryptedDataEncryptionKey_PR_eciesBrainpoolP256r1
          | _ => Throws (invalid_argument "Unsupported EC curve")
          end;
  let ecies_enc_key := O_SEQ ctx_zero None
    [Some (to_asn1 (make_ecc_point ecies_pub_key)); Some (OCTET_STRING_fromBuf ecies_ciphertext);
     Some (OCTET_STRING_fromBuf ecies_tag)] in
  let pk_recip_info := O_SEQ ctx_zero None
    [Some (OCTET_STRING_fromBuf recipient_id); Some (variant curve ecies_enc_key)] in
  let list := default (allocate asn_DEF_SequenceOfRecipientInfo) (recipients (Some e)) in
  Returns (set_memb 0 (Some (array_add (variant RecipientInfo_PR_certRecipInfo pk_recip_info) list)) e)).

Fixpoint psk_match (psk_id : HashedId8) (l : list (option obj)) : cpp bool :=
  match l with
  | [] => Returns false
  | r :: l =>
    r ← deref r;
    if negb (present (Some r) =? RecipientInfo_PR_pskRecipInfo) then psk_match psk_id l
    else
      message_psk_id ← hashed_id8_of_octets (octets (choice (Some r)));
      if bool_decide (psk_id = message_psk_id) then Returns true else psk_match psk_id l
  end.

Definition check_psk_match {sha : Sha} (psk : bytes) (m : obj) : cpp bool :=
  c ← deref (content (Some m));
  _ ← cpp_assert (present (Some c) =? Content_PR_encryptedData);
  let psk_key := variant SymmetricEncryptionKey_PR_aes128Ccm (OCTET_STRING_fromBuf psk) in
  bs ← encode_oer asn_DEF_SymmetricEncryptionKey (Some psk_key);
  psk_match (create_hashed_id8 (calculate_sha256_digest bs)) (array (recipients (choice (Some c)))).

(** * Archives *)

Definition get_size (m : obj) : cpp Z := size_oer td_message (Some m).

(** The octets appended to the archive. *)
Definition serialize (m : obj) : cpp bytes := encode_oer td_message (Some m).

(** [decode] fills the structure of the wrapper. *)
Definition decode (buffer : bytes) (m : obj) : cpp (bool * obj) :=
  r ← decode_oer td_message (Some m) buffer;
  o ← deref r.2;
  Returns (r.1, o).

(** All octets that are left in the archive: their number, 0 when they are no message. *)
Definition deserialize (m : obj) (ar : InputArchive) : cpp (Z * obj) * InputArchive :=
  let len := remaining_bytes ar in
  match load_binary len ar with
  | (Some buffer, ar) => (r ← decode buffer m; Returns (if r.1 : bool then len else 0, r.2), ar)
  | (None, ar) => (Throws (runtime_error "InputArchive"), ar)
  end.

End Codec.
End Message.
End Msg.
