(* ===== verification/SecuredMessageOk.v ===== *)
(** Secured messages on the wire.

    What is read from a message depends on the value that its structure stands for and
    on nothing else, so that a message that was encoded and decoded is read as the one
    that was sent; and the messages that are built for signing stand for a value. *)

From Stdlib Require Import ZArith Lia.
From stdpp Require Import prelude strings.
From S2P Require Import Prelude Codecs Integer Descriptor OerSupport OerPrim OerSpec OerPrimOk OerSem OerCodec OerSeqOk OerCodecOk.
From S2P Require Import Pqc OerTheorems Certificates Asn1Wrapper SameValue SecurityTypes CertificateV3 CertificateV3Ok.
From S2P Require Import HybridCertificate HybridCertificateOk AcceptOk GeoSerial SecuredMessageV3.

Open Scope Z_scope.

(** * The tables *)

Lemma wf_td_split n k ts cts es : wf_td (TD n k ts cts es) = wf_kind k es && forallb (fun e => wf_td e.(type)) es.
Proof. done. Qed.

(** The rows of one table: the types below by computation, the nested one by hypothesis. *)
Ltac wf_rows H :=
  cbn [forallb MBR type]; repeat match goal with |- _ && _ = true => apply andb_true_iff; split end;
  first [match goal with |- ?g => let t := type of H in constr_eq g t; exact H end | by vm_compute].

Section Tables.
Context (nested : asn_TYPE_descriptor) (wf : wf_td nested = true) (plain : is_open_type nested = false).

Lemma wf_SignedDataPayload : wf_td (asn_DEF_SignedDataPayload nested) = true.
Proof.
  unfold asn_DEF_SignedDataPayload. rewrite wf_td_split. apply andb_true_iff. split.
  - clear wf. destruct nested as [n [] ts cts es]; by vm_compute.
  - unfold asn_MBR_SignedDataPayload_1. wf_rows wf.
Qed.

Lemma wf_ToBeSignedData : wf_td (asn_DEF_ToBeSignedData nested) = true.
Proof.
  unfold asn_DEF_ToBeSignedData. rewrite wf_td_split. apply andb_true_iff. split; [by vm_compute|].
  unfold asn_MBR_ToBeSignedData_1. wf_rows wf_SignedDataPayload.
Qed.

Lemma wf_SignedData : wf_td (asn_DEF_SignedData nested) = true.
Proof.
  unfold asn_DEF_SignedData. rewrite wf_td_split. apply andb_true_iff. split; [by vm_compute|].
  unfold asn_MBR_SignedData_1. wf_rows wf_ToBeSignedData.
Qed.

Lemma wf_Content : wf_td (asn_DEF_Ieee1609Dot2Content nested) = true.
Proof.
  unfold asn_DEF_Ieee1609Dot2Content. rewrite wf_td_split. apply andb_true_iff. split; [by vm_compute|].
  unfold asn_MBR_Ieee1609Dot2Content_1. wf_rows wf_SignedData.
Qed.

Lemma wf_Data : wf_td (asn_DEF_Ieee1609Dot2Data nested) = true /\ wf_td (asn_DEF_EtsiTs103097Data nested) = true.
Proof.
  unfold asn_DEF_Ieee1609Dot2Data, asn_DEF_EtsiTs103097Data. rewrite !wf_td_split.
  split; (apply andb_true_iff; split; [by vm_compute|]); unfold asn_MBR_Ieee1609Dot2Data_1; wf_rows wf_Content.
Qed.

End Tables.

Lemma wf_unfolded depth : wf_td (unfolded depth) = true /\ is_open_type (unfolded depth) = false.
Proof. induction depth as [|depth [IH1 IH2]]; [done|]. split; [exact (proj1 (wf_Data _ IH1 IH2))|reflexivity]. Qed.

Section Messages.
Context {nest : Nesting}.

Lemma wf_message : wf_td Msg.td_message = true.
Proof. destruct (wf_unfolded (S nesting)) as [H1 H2]. exact (proj2 (wf_Data _ H1 H2)). Qed.

Lemma wf_message_tbs : wf_td Msg.td_tbs = true.
Proof. destruct (wf_unfolded (S nesting)) as [H1 H2]. exact (wf_ToBeSignedData _ H1 H2). Qed.

(** Messages that stand for the same value. *)
Definition same_msg : obj -> obj -> Prop := same Msg.td_message None.
Definition proper_msg (m : obj) : Prop := same_msg m m.

(** ** Members that are there *)

Lemma same_content m m' : same_msg m m' -> exists c c', Msg.content (Some m) = Some c /\ Msg.content (Some m') = Some c' /\ same (asn_DEF_Ieee1609Dot2Content Msg.td_inner) None c c'.
Proof.
  intros H. eapply (same_memb _ _ 1) in H; [|table]. unfold Msg.content.
  destruct (memb 1 (Some m)) as [c|], (memb 1 (Some m')) as [c'|]; try done; [by exists c, c'|by destruct H].
Qed.

(** The selected contents, and signed data. *)
Lemma same_get_signed_data m m' : same_msg m m' ->
  same_opt Msg.td_signed None (Msg.get_signed_data m) (Msg.get_signed_data m').
Proof.
  intros H. destruct (same_content _ _ H) as (c & c' & Hc & Hc' & Hs). unfold Msg.get_signed_data. rewrite Hc, Hc'.
  apply same_opt_some in Hs. rewrite <- (same_opt_present _ _ _ _ _ Hs eq_refl).
  destruct (Z.eqb_spec (present (Some c)) 2) as [E|]; [|constructor].
  exact (same_opt_choice _ _ _ 1 _ _ _ Hs eq_refl eq_refl E).
Qed.

(** A mandatory member of structures with the same value. *)
Lemma same_mandatory td c i e o o' : seq_member td i e -> e.(optional) = false -> same td c o o' ->
  exists m m', memb i (Some o) = Some m /\ memb i (Some o') = Some m' /\ same e.(type) e.(oer_constraints) m m'.
Proof.
  intros He Ho H. apply (same_memb _ _ _ _ _ _ He) in H.
  destruct (memb i (Some o)) as [m|], (memb i (Some o')) as [m'|]; try done; [by exists m, m'|]. destruct H; congruence.
Qed.

(** Signed data of two messages: the signed part and its header are there. *)
Record same_signed (sd sd' tbs tbs' h h' : obj) : Prop := {
  ss_data : same Msg.td_signed None sd sd';
  ss_tbs : same Msg.td_tbs None tbs tbs';
  ss_header : same asn_DEF_HeaderInfo None h h';
  ss_tbs_l : Msg.tbsData (Some sd) = Some tbs;
  ss_tbs_r : Msg.tbsData (Some sd') = Some tbs';
  ss_header_l : Msg.headerInfo (Some tbs) = Some h;
  ss_header_r : Msg.headerInfo (Some tbs') = Some h';
}.

Lemma signed_parts sd sd' : same Msg.td_signed None sd sd' -> exists tbs tbs' h h', same_signed sd sd' tbs tbs' h h'.
Proof.
  intros H. pose proof H as H0. eapply (same_mandatory _ _ 1) in H0 as (tbs & tbs' & E1 & E2 & Ht); [|table|done].
  pose proof Ht as H0. eapply (same_mandatory _ _ 1) in H0 as (h & h' & E3 & E4 & Hh); [|table|done].
  by exists tbs, tbs', h, h'.
Qed.

(** Both messages are signed, or none of them. *)
Lemma same_signed_cases m m' : same_msg m m' ->
  (Msg.get_signed_data m = None /\ Msg.get_signed_data m' = None) \/
  exists sd sd' tbs tbs' h h', Msg.get_signed_data m = Some sd /\ Msg.get_signed_data m' = Some sd' /\
    same_signed sd sd' tbs tbs' h h'.
Proof.
  intros H%same_get_signed_data. inversion H as [sd sd' Hs E1 E2|E1 E2]; [right|by left].
  destruct (signed_parts _ _ Hs) as (tbs & tbs' & h & h' & Hp). by exists sd, sd', tbs, tbs', h, h'.
Qed.

(** ** Readers *)

Section Readers.
Context (m m' : obj) (H : same_msg m m').

Lemma same_content_is p : exists b, Msg.content_is p m = Returns b /\ Msg.content_is p m' = Returns b.
Proof.
  destruct (same_content _ _ H) as (c & c' & Hc & Hc' & Hs). unfold Msg.content_is. rewrite Hc, Hc'.
  cbn [deref mbind cpp_bind]. apply same_opt_some in Hs. rewrite <- (same_opt_present _ _ _ _ _ Hs eq_refl). by eexists.
Qed.

Lemma same_protocol_version : Msg.protocol_version m = Msg.protocol_version m'.
Proof.
  pose proof (same_opt_some _ _ _ _ H) as H0. member_at 0%nat H0. unfold Msg.protocol_version, Msg.protocolVersion.
  by rewrite (same_opt_number _ _ _ _ H0 eq_refl).
Qed.

Lemma same_its_aid : Msg.its_aid m = Msg.its_aid m'.
Proof.
  unfold Msg.its_aid. destruct (same_signed_cases _ _ H) as [[-> ->]|(sd & sd' & tbs & tbs' & h & h' & -> & -> & Hs)]; [done|].
  rewrite (ss_tbs_l _ _ _ _ _ _ Hs), (ss_tbs_r _ _ _ _ _ _ Hs). unfold Msg.header_info.
  rewrite (ss_header_l _ _ _ _ _ _ Hs), (ss_header_r _ _ _ _ _ _ Hs). cbn [default from_option id]. unfold psid.
  pose proof (same_opt_some _ _ _ _ (ss_header _ _ _ _ _ _ Hs)) as H0. member_at 0%nat H0.
  by rewrite (same_opt_number _ _ _ _ H0 eq_refl).
Qed.

Lemma same_hash_id : Msg.hash_id m = Msg.hash_id m'.
Proof.
  unfold Msg.hash_id. destruct (same_signed_cases _ _ H) as [[-> ->]|(sd & sd' & tbs & tbs' & h & h' & -> & -> & Hs)]; [done|].
  pose proof (same_opt_some _ _ _ _ (ss_data _ _ _ _ _ _ Hs)) as H0. member_at 0%nat H0. unfold Msg.hashId.
  by rewrite (same_opt_number _ _ _ _ H0 eq_refl).
Qed.

End Readers.

(** A point in time is read from its value. *)
Lemma same_time o o' : same asn_DEF_Time64 None o o' -> exists b b' z, o = O_BUF b /\ o' = O_BUF b' /\
  asn_INTEGER2umax b = Some z /\ asn_INTEGER2umax b' = Some z.
Proof.
  intros (a & H1 & H2 & [bs Hb]). cbn [sem asn_DEF_Time64 sem_of sp_repr sp_bytes sp_integer] in *.
  destruct o as [| | |[b|]| | | |], o' as [| | |[b'|]| | | |], a as [| |z| | | | |]; try done.
  destruct H1 as (Hb1 & Hn1 & E1), H2 as (Hb2 & Hn2 & E2). change (int_bytes (8, true) z = Some bs) in Hb.
  unfold int_bytes in Hb. cbn [Z.ltb Z.compare] in Hb. destruct (_ && _) eqn:E; [|done].
  change (256 ^ 8) with (2 ^ 64) in E. exists (Some b), (Some b'), z. do 2 (split; [done|]).
  rewrite !INTEGER2umax_be, !twos_nonneg_be, E1, E2 by (done || lia). unfold UINTMAX_MAX.
  destruct (Z.leb_spec z (2 ^ 64 - 1)); [done|lia].
Qed.

Lemma same_generation_time m m' : same_msg m m' ->
  exists t, Msg.generation_time m = Returns t /\ Msg.generation_time m' = Returns t.
Proof.
  intros H. unfold Msg.generation_time, Msg.get_header_info.
  destruct (same_signed_cases _ _ H) as [[-> ->]|(sd & sd' & tbs & tbs' & h & h' & -> & -> & Hs)]; [by eexists|].
  rewrite (ss_tbs_l _ _ _ _ _ _ Hs), (ss_tbs_r _ _ _ _ _ _ Hs). cbn [deref mbind cpp_bind]. unfold Msg.header_info.
  rewrite (ss_header_l _ _ _ _ _ _ Hs), (ss_header_r _ _ _ _ _ _ Hs). cbn [default from_option id].
  pose proof (same_opt_some _ _ _ _ (ss_header _ _ _ _ _ _ Hs)) as H0. member_at 1%nat H0. unfold Msg.generationTime.
  destruct H0 as [o o' Ho|]; [|by eexists].
  destruct (same_time _ _ Ho) as (b & b' & z & -> & -> & -> & ->). by eexists.
Qed.

(** The signature: the coordinate of one point and a number. *)
Lemma same_ecdsa td e0 e1 k pt m m' : seq_member td 0 e0 -> seq_member td 1 e1 ->
  point_type pt k -> e0.(type) = pt -> kind e1.(type) = OCTET_STRING (Some ASN_OSUBV_STR) ->
  same_opt td None m m' ->
  get_x_coordinate_P256 (rSig m) = get_x_coordinate_P256 (rSig m') /\ octets (sSig m) = octets (sSig m').
Proof.
  intros H0 H1 Ht E0 E1 H. pose proof (same_opt_memb _ _ _ _ _ _ H0 H) as M0. pose proof (same_opt_memb _ _ _ _ _ _ H1 H) as M1.
  rewrite E0 in M0. split; [exact (same_get_x_coordinate _ _ Ht _ _ _ M0)|exact (same_opt_octets _ _ _ _ _ M1 E1)].
Qed.

Lemma same_msg_signature m m' : same_msg m m' -> Msg.signature m = Msg.signature m'.
Proof.
  intros H. unfold Msg.signature.
  destruct (same_signed_cases _ _ H) as [[-> ->]|(sd & sd' & tbs & tbs' & h & h' & -> & -> & Hs)]; [done|].
  pose proof (same_opt_some _ _ _ _ (ss_data _ _ _ _ _ _ Hs)) as H0. member_at 3%nat H0. unfold Msg.sd_signature.
  rewrite <- (same_opt_present _ _ _ _ _ H0 eq_refl). pose proof H0 as H1. pose proof H0 as H2.
  alternative_at 0%nat H0; [eapply same_ecdsa in H0 as [-> ->]; [done|table|table|exact point_type_P256|done|done]|].
  alternative_at 1%nat H1; [eapply same_ecdsa in H1 as [-> ->]; [done|table|table|exact point_type_P256|done|done]|].
  alternative_at 2%nat H2; [|done]. change get_x_coordinate_P384 with get_x_coordinate_P256.
  eapply same_ecdsa in H2 as [-> ->]; [done|table|table|exact point_type_P384|done|done].
Qed.

(** ** The signer *)

(** A string of fixed size holds that many octets. *)
Lemma octets_ok td c o n : kind td = OCTET_STRING (Some ASN_OSUBV_STR) ->
  ct_size (pick_cts c (let '(TD _ _ _ cts _) := td in cts)) = n -> 0 <= n -> same td c o o ->
  all_bytes (octets (Some o)) /\ size (octets (Some o)) = n.
Proof.
  intros Hk Hn Hp H. split; [|by eapply octets_size]. destruct td as [nm k ts cts es]. cbn [kind] in Hk. subst k.
  destruct H as (a & H & _ & [bs Hb]). cbn [sem sem_of sp_repr sp_bytes sp_octet_string] in *.
  destruct o as [| | |b| | | |], a as [| | |l| | | |]; try done. unfold repr_buf in H. subst l.
  cbn [unit_bytes_of] in Hb. case_bool_decide; [|done]. by destruct b.
Qed.

(** Eight octets. *)
Definition is_id8 (id : HashedId8) : Prop := all_bytes id /\ size id = 8.

(** Certificates inside a message have the type without the profile of ETSI: the same
    table. *)
Lemma same_inner_certificate o o' : same asn_DEF_Certificate None o o' = same_cert o o'.
Proof. reflexivity. Qed.

Inductive same_identifier : Msg.SignerIdentifier -> Msg.SignerIdentifier -> Prop :=
  | same_signer_digest d d' : octets (Some d) = octets (Some d') -> is_id8 (octets (Some d)) ->
      same_identifier (Msg.SignerDigest (Some d)) (Msg.SignerDigest (Some d'))
  | same_no_signer : same_identifier (Msg.SignerDigest None) (Msg.SignerDigest None)
  | same_signer_certificate c c' : same_cert c c' ->
      same_identifier (Msg.SignerCertificate (Some c)) (Msg.SignerCertificate (Some c')).

Lemma same_signer_identifier m m' : same_msg m m' -> same_identifier (Msg.signer_identifier m) (Msg.signer_identifier m').
Proof.
  intros H. unfold Msg.signer_identifier.
  destruct (same_signed_cases _ _ H) as [[-> ->]|(sd & sd' & tbs & tbs' & h & h' & -> & -> & Hs)]; [constructor|].
  pose proof (same_opt_some _ _ _ _ (ss_data _ _ _ _ _ _ Hs)) as H0. member_at 2%nat H0. unfold Msg.signer.
  rewrite <- (same_opt_present _ _ _ _ _ H0 eq_refl). pose proof H0 as H1.
  alternative_at 0%nat H0.
  - cbn [type MBR] in H0. destruct H0 as [d d' Hd|]; [|constructor]. apply same_signer_digest; [exact (same_octets asn_DEF_HashedId8 _ _ _ _ eq_refl Hd)|].
    exact (octets_ok asn_DEF_HashedId8 None _ 8 eq_refl eq_refl ltac:(done) (same_refl_l _ _ _ _ Hd)).
  - alternative_at 1%nat H1; [|constructor]. eapply same_opt_array in H1; [|reflexivity|reflexivity].
    destruct H1 as [|x x' l l' (c & c' & -> & -> & Hc) Hl]; [constructor|].
    destruct Hl; constructor. by rewrite <- same_inner_certificate.
Qed.

(** ** The payload *)

Lemma same_signed_payload sd sd' : same Msg.td_signed None sd sd' -> Msg.get_signed_payload sd = Msg.get_signed_payload sd'.
Proof.
  intros H%same_opt_some. member_at 1%nat H. member_at 0%nat H. member_at 0%nat H.
  unfold Msg.get_signed_payload, Msg.payload_data, Msg.sd_payload, Msg.tbsData. cbn [type MBR] in H.
  destruct H as [d d' Hd|]; [|done]. apply same_opt_some in Hd. member_at 1%nat Hd. unfold Msg.content. cbn [type MBR] in Hd.
  destruct Hd as [c c' Hc|]; [|done]. apply same_opt_some in Hc. rewrite <- (same_opt_present _ _ _ _ _ Hc eq_refl).
  alternative_at 0%nat Hc; [|done]. exact (same_opt_octets _ _ _ _ _ Hc eq_refl).
Qed.

Lemma same_payload m m' : same_msg m m' -> exists p, Msg.payload m = Returns p /\ Msg.payload m' = Returns p.
Proof.
  intros H. destruct (same_content _ _ H) as (c & c' & Hc & Hc' & Hc0). pose proof (same_opt_some _ _ _ _ Hc0) as Hs.
  unfold Msg.payload. rewrite Hc, Hc'. cbn [deref mbind cpp_bind]. rewrite <- (same_opt_present _ _ _ _ _ Hs eq_refl). pose proof Hs as H0. pose proof Hs as H1.
  alternative_at 0%nat H0; [unfold Msg.get_opaque_payload; rewrite (same_opt_octets _ _ _ _ _ H0 eq_refl); by eexists|].
  destruct (Z.eqb_spec (present (Some c)) 2) as [E|]; [|by eexists].
  pose proof (same_opt_choice _ _ _ 1 _ _ _ H1 eq_refl eq_refl E) as H2. cbn [type MBR] in H2.
  destruct (same_choice (asn_DEF_Ieee1609Dot2Content Msg.td_inner) _ _ _ _ eq_refl Hc0) as (i & e & ct & ct' & x & x' & He & Hx & -> & ->).
  cbn [choice deref mbind cpp_bind] in *. inversion H2 as [? ? Hy|]. rewrite (same_signed_payload _ _ Hy). by eexists.
Qed.

(** ** Requests for certificates *)

(** The header of signed data, which the verification follows without a check. *)
Definition header_of (m : obj) : option obj :=
  match Msg.get_signed_data m with
  | Some sd => match Msg.tbsData (Some sd) with Some tbs => Some (Msg.header_info tbs) | None => None end
  | None => None
  end.

Lemma same_header_of m m' : same_msg m m' -> same_opt asn_DEF_HeaderInfo None (header_of m) (header_of m').
Proof.
  intros H. unfold header_of.
  destruct (same_signed_cases _ _ H) as [[-> ->]|(sd & sd' & tbs & tbs' & h & h' & -> & -> & Hs)]; [constructor|].
  rewrite (ss_tbs_l _ _ _ _ _ _ Hs), (ss_tbs_r _ _ _ _ _ _ Hs). unfold Msg.header_info.
  rewrite (ss_header_l _ _ _ _ _ _ Hs), (ss_header_r _ _ _ _ _ _ Hs). constructor. exact (ss_header _ _ _ _ _ _ Hs).
Qed.

(** Three octets, and a request for the certificate they belong to. *)
Definition is_id3 (id : HashedId3) : Prop := all_bytes id /\ size id = 3.
Definition is_request (x : option obj) : Prop := exists o, x = Some o /\ is_id3 (octets (Some o)).

Lemma same_requests h h' : same_opt asn_DEF_HeaderInfo None h h' ->
  Forall2 (fun x x' => is_request x /\ is_request x' /\ octets x = octets x')
    (array (Msg.inlineP2pcdRequest h)) (array (Msg.inlineP2pcdRequest h')).
Proof.
  intros H. member_at 7%nat H. eapply same_opt_array in H; [|reflexivity|reflexivity].
  eapply Forall2_impl; [exact H|]. intros x x' (o & o' & -> & -> & Ho). cbn [type MBR oer_constraints] in Ho.
  split; [exists o; split; [done|]; exact (octets_ok asn_DEF_HashedId3 None o 3 eq_refl eq_refl ltac:(done) (same_refl_l _ _ _ _ Ho))|].
  split; [exists o'; split; [done|]; exact (octets_ok asn_DEF_HashedId3 None o' 3 eq_refl eq_refl ltac:(done) (same_refl_r _ _ _ _ Ho))|].
  exact (same_octets asn_DEF_HashedId3 _ _ _ _ eq_refl Ho).
Qed.

Lemma proper_requests h : same_opt asn_DEF_HeaderInfo None h h -> Forall is_request (array (Msg.inlineP2pcdRequest h)).
Proof. intros H%same_requests. eapply Forall2_Forall_l; [exact H|]. apply Forall_true. by intros x' x (Hx & _). Qed.

(** [get_inline_p2pcd_request] converts them through arrays of 8 octets, of which 5 are
    never written: reading any request is undefined. *)
Lemma requests_unreadable l : Forall is_request l -> l <> [] -> Msg.read_requests l = NoResult.
Proof.
  intros [|x l' (o & -> & _ & Ho) _] Hl; [done|]. cbn [Msg.read_requests deref mbind cpp_bind]. unfold hashed_id8_of_octets. by rewrite Ho.
Qed.

Lemma same_requested h h' : same_opt asn_DEF_HeaderInfo None h h' ->
  same_opt asn_DEF_EtsiTs103097Certificate None (Msg.requestedCertificate h) (Msg.requestedCertificate h').
Proof. intros H. member_at 8%nat H. exact H. Qed.

(** ** Octets *)

Section Octets.
Context {pf : Platform} {fits : StackFits pf}.

Lemma same_signing_payload m m' : same_msg m m' ->
  exists bs, Msg.signing_payload m = Returns bs /\ Msg.signing_payload m' = Returns bs.
Proof.
  intros H. unfold Msg.signing_payload.
  destruct (same_signed_cases _ _ H) as [[-> ->]|(sd & sd' & tbs & tbs' & h & h' & -> & -> & Hs)]; [by eexists|].
  rewrite (ss_tbs_l _ _ _ _ _ _ Hs), (ss_tbs_r _ _ _ _ _ _ Hs).
  exact (encode_same _ _ _ wf_message_tbs (ss_tbs _ _ _ _ _ _ Hs)).
Qed.

(** A message that stands for a value is sent, and the receiver gets a message with this
    value. *)
Lemma message_transferred m : proper_msg m -> exists bs m', Msg.serialize m = Returns bs /\
  Msg.decode bs Msg.make_SecuredMessage = Returns (true, m') /\ same_msg m m'.
Proof.
  intros H. destruct (encode_same _ _ _ wf_message H) as (bs & E & _). exists bs.
  destruct (decode_oer_same Msg.td_message m bs (Some Msg.make_SecuredMessage) wf_message eq_refl H E ltac:(by right)) as (m' & Hd & Hs).
  exists m'. split; [done|]. split; [|done]. unfold Msg.decode. by rewrite Hd.
Qed.

Context {sha : Sha} {ecc : Backend}.

Lemma same_message_hash algo payload c c' : same_cert c c' ->
  exists d, calculate_message_hash algo payload (Some c) = Returns d /\ calculate_message_hash algo payload (Some c') = Returns d.
Proof.
  intros H. unfold calculate_message_hash, view_canonicalize. rewrite <- (same_is_canonical _ _ H). destruct (is_canonical c).
  - destruct (encode_cert_same _ _ H) as (bs & -> & ->). by eexists.
  - destruct (canonicalize_same _ _ H) as [[-> ->]|(d & d' & -> & -> & Hd & _)]; cbn [mbind cpp_bind]; [by eexists|].
    destruct (encode_cert_same _ _ Hd) as (bs & -> & ->). by eexists.
Qed.

End Octets.

Lemma same_permissions c c' aid : same_cert c c' ->
  exists p, get_app_permissions c aid = Returns p /\ get_app_permissions c' aid = Returns p.
Proof.
  intros H%same_toBeSigned. member_at 6%nat H. eapply same_opt_array in H; [|reflexivity|reflexivity].
  unfold get_app_permissions, appPermissions.
  induction H as [|x x' l l' (o & o' & -> & -> & Ho%same_opt_some) Hl IH]; [by eexists|]. cbn [app_permissions_of].
  pose proof Ho as H0. member_at 0%nat H0. unfold psid. rewrite <- (same_opt_number _ _ _ _ H0 eq_refl).
  member_at 1%nat Ho. cbn [type MBR] in Ho. destruct Ho as [s s' Hs%same_opt_some|]; [|done].
  rewrite <- (same_opt_present _ _ _ _ _ Hs eq_refl). destruct (_ && _) eqn:E; [|done].
  apply andb_true_iff in E as [_ [E|E]%orb_true_iff]; apply Z.eqb_eq in E.
  - pose proof (same_opt_choice _ _ _ 1 _ _ _ Hs eq_refl eq_refl E) as Hc. cbn [type MBR] in Hc.
    rewrite (same_opt_octets _ _ _ _ _ Hc eq_refl). by eexists.
  - pose proof (same_opt_choice _ _ _ 0 _ _ _ Hs eq_refl eq_refl E) as Hc. cbn [type MBR] in Hc.
    rewrite (same_opt_octets _ _ _ _ _ Hc eq_refl). by eexists.
Qed.

End Messages.

(** * Building messages *)

(** Every encoding of the member fits an open type. *)
Definition fits_open (e : tmember) (m : obj) : Prop := forall a bs, (sem e.(type)).(sp_repr) m a ->
  (sem e.(type)).(sp_bytes) e.(oer_constraints) a = Some bs -> size bs <= RSIZE_MAX.

Lemma same_members_default es : forall ms ms' i e, same_members es ms ms' -> es !! i = Some e -> e.(default_value) = None.
Proof.
  induction es as [|e es IH]; intros [|m ms] [|m' ms'] i e0 H Hi; try done. destruct H as (Hd & _ & H).
  destruct i as [|i]; [by injection Hi as <-|by eapply IH].
Qed.

(** A SEQUENCE with extension additions, which fit open types. *)
Lemma same_extended_intro td specs c ct ct' b b' ms ms' : kind td = SEQUENCE specs ->
  forallb no_selector (elements td) = true -> same_members (elements td) ms ms' ->
  (forall i e m, (root_length specs (elements td) <= i)%nat -> elements td !! i = Some e -> ms !! i = Some (Some m) -> fits_open e m) ->
  same td c (O_SEQ ct b ms) (O_SEQ ct' b' ms').
Proof.
  intros Hk Hn Hm Hf. destruct (same_members_value _ _ _ Hm) as (vs & cs & H1 & H2 & Hc). exists (A_SEQ vs).
  rewrite (sem_sequence _ _ Hk). do 2 (split; [done|]). apply seq_encodable; [done|]. exists cs. split; [done|].
  destruct (comps_length _ _ _ Hc) as [Hl Hl']. rewrite length_map in Hl, Hl'. apply Forall_lookup. intros j x Hx Hb.
  rewrite lookup_drop in Hx. set (i := (root_length specs (elements td) + j)%nat) in *.
  assert (i < length (elements td))%nat as Hi by (apply lookup_lt_Some in Hx; lia).
  apply lookup_lt_is_Some in Hi as [e He]. assert (map semm (elements td) !! i = Some (semm e)) as Hse by (by rewrite lookup_map, He).
  destruct (comps_lookup _ _ _ _ _ Hc Hse) as (v & x' & Hv & Hx' & Hcb). rewrite Hx in Hx'. injection Hx' as <-.
  destruct (repr_lookup _ _ _ _ _ H1 Hse) as (m & v' & Hmi & Hv' & Hr). rewrite Hv in Hv'. injection Hv' as <-.
  pose proof (same_members_default _ _ _ _ _ Hm He) as Hd. unfold comp_bytes, comp_repr in *.
  cbn [default_value map_type type oer_constraints optional ATF_POINTER] in *. rewrite Hd in *.
  destruct v as [a|]; [|destruct (optional e); [injection Hcb as <-|]; done].
  apply fmap_Some in Hcb as (bs & Hbs & ->). destruct Hr as [(o & -> & Hr)|(_ & _ & _ & d & ? & _)]; [|done].
  eapply (Hf i); [lia|done|done|done|done].
Qed.

Lemma same_array_values e l l' :
  Forall2 (fun x x' => exists o o', x = Some o /\ x' = Some o' /\ same e.(type) e.(oer_constraints) o o') l l' ->
  exists vs bss, Forall2 (fun m v => exists o, m = Some o /\ (sem e.(type)).(sp_repr) o v) l vs /\
    Forall2 (fun m v => exists o, m = Some o /\ (sem e.(type)).(sp_repr) o v) l' vs /\
    mapM ((sem e.(type)).(sp_bytes) e.(oer_constraints)) vs = Some bss.
Proof.
  induction 1 as [|x x' l l' (o & o' & -> & -> & a & H1 & H2 & [bs Hb]) _ (vs & bss & Hl & Hl' & Hm)]; [by exists [], []|].
  exists (a :: vs), (bs :: bss). split; [constructor; [by exists o|done]|]. split; [constructor; [by exists o'|done]|].
  cbn [mapM]. by rewrite Hb, Hm.
Qed.

(** A SEQUENCE OF with few elements. *)
Lemma same_set_of_intro td e c ct ct' p p' l l' : kind td = SET_OF -> elements td = [e] -> (length l <= 201)%nat ->
  Forall2 (fun x x' => exists o o', x = Some o /\ x' = Some o' /\ same e.(type) e.(oer_constraints) o o') l l' ->
  same td c (O_SET_OF ct p l) (O_SET_OF ct' p' l').
Proof.
  destruct td as [n k ts cts es]. cbn [kind Descriptor.elements]. intros -> -> Hlen H.
  destruct (same_array_values _ _ _ H) as (vs & bss & Hl & Hl' & Hm). exists (A_LIST vs).
  cbn [sem sem_of map sp_repr sp_set_of sp_bytes]. split; [done|]. split; [done|].
  cbn [type map_type oer_constraints]. rewrite Hm. cbn [mbind option_bind].
  apply Forall2_length in Hl. apply mapM_Some_1, Forall2_length in Hm.
  assert (size vs <= 201) as Hv by (unfold size; lia). assert (size bss <= 201) as Hb by (unfold size; lia).
  destruct (Z.ltb_spec (size vs) (2 ^ 31)); [|lia].
  unfold no_bomb. destruct (Z.ltb_spec 201 (size bss)); [lia|]. by eexists.
Qed.

(** Native integers of fixed width. *)
Lemma same_native td c z : is_native td = true -> is_Some ((sem td).(sp_bytes) c (A_INT z)) -> same td c (O_long z) (O_long z).
Proof. intros Hn Hb. exists (A_INT z). by rewrite native_repr. Qed.

(** Octets of any number. *)
Lemma same_opaque l : all_bytes l -> size l <= RSIZE_MAX ->
  same asn_DEF_Opaque None (OCTET_STRING_fromBuf l) (OCTET_STRING_fromBuf l).
Proof.
  intros Hl Hs. exists (A_OCTETS l). cbn [sem asn_DEF_Opaque sem_of sp_repr sp_bytes sp_octet_string unit_bytes_of].
  split; [by destruct l|]. split; [by destruct l|]. rewrite bool_decide_true by done.
  change (ct_size (pick_cts None None)) with (-1). cbn [Z.leb Z.compare].
  change (unit_bytes_of (Some ASN_OSUBV_STR)) with (Some 1). cbv iota beta. rewrite Z.mod_1_r. cbn [Z.eqb].
  unfold with_length. destruct (Z.leb_spec (size l) RSIZE_MAX); [by eexists|lia].
Qed.

(** A point in time, as it is set. *)
Lemma time_octets t : 0 <= t < 2 ^ 64 -> exists l, asn_uint642INTEGER t = Some l /\ all_bytes l /\ l <> [] /\ twos l = t.
Proof.
  intros Ht. unfold asn_uint642INTEGER, INTMAX_MAX. destruct (Z.leb_spec t (2 ^ 63 - 1)).
  - rewrite s64_id by lia. destruct (imax_contents t) as (l & E & Hl & Hne & _ & Hv & _); [unfold INTMAX_MIN, INTMAX_MAX; lia|].
    exists l. split; [exact E|done].
  - exists (0 :: be_bytes 8 t). split; [done|].
    assert (all_bytes (0 :: be_bytes 8 t)) as Hb by (constructor; [unfold is_byte; lia|apply all_bytes_be_bytes]).
    split; [done|]. split; [done|]. rewrite twos_cons_be, be_cons, be_be_bytes. cbn [Z.leb Z.compare].
    change (256 ^ Z.of_nat 8) with (2 ^ 64). rewrite Z.mod_small; lia.
Qed.

Lemma same_set_time t : 0 <= t < 2 ^ 64 ->
  same asn_DEF_Time64 None (O_BUF (asn_uint642INTEGER t)) (O_BUF (asn_uint642INTEGER t)).
Proof.
  intros Ht. destruct (time_octets t Ht) as (l & -> & Hl & Hne & Hv). exists (A_INT t).
  cbn [sem asn_DEF_Time64 sem_of sp_repr sp_bytes sp_integer repr_int]. do 2 (split; [done|]).
  change (is_Some (int_bytes (8, true) t)). unfold int_bytes. cbn [Z.ltb Z.compare]. change (256 ^ 8) with (2 ^ 64).
  destruct (Z.leb_spec 0 t), (Z.ltb_spec t (2 ^ 64)); try lia. by eexists.
Qed.

(** ** The messages of the sign service *)

(** The header that is prepared for a message. *)
Record header := mk_header {
  h_aid : Z;
  h_time : Z;
  h_location : option obj;
  h_requests : option obj;
  h_certificate : option obj;
}.

Definition header_obj (h : header) : obj :=
  O_SEQ ctx_zero None [Some (O_long h.(h_aid)); Some (O_BUF (asn_uint642INTEGER h.(h_time))); None; h.(h_location);
    None; None; None; h.(h_requests); h.(h_certificate); None; None].

Definition hash_number (hash : HashAlgorithm) : Z :=
  match hash with SHA256 => Msg.HashAlgorithm_sha256 | SHA384 => Msg.HashAlgorithm_sha384 | HashUnspecified => -1 end.

(** Signed data with a payload that is not secured itself. *)
Definition tbs_obj (octs : bytes) (h : obj) : obj :=
  O_SEQ ctx_zero None
    [Some (O_SEQ ctx_zero None
       [Some (O_SEQ ctx_zero None [Some (O_long 3); Some (Msg.variant 1 (OCTET_STRING_fromBuf octs))]); None; None]);
     Some h].

Definition message_obj (hash : HashAlgorithm) (octs : bytes) (h signer sig : obj) : obj :=
  O_SEQ ctx_zero None
    [Some (O_long 3);
     Some (Msg.variant 2 (O_SEQ ctx_zero None
       [Some (O_long (hash_number hash)); Some (tbs_obj octs h); Some signer; Some sig]))].

(** ** When they stand for a value *)

Record proper_header (h : header) : Prop := {
  ph_aid : 0 <= h.(h_aid) < 2 ^ 32;
  ph_time : 0 <= h.(h_time) < 2 ^ 64;
  ph_location l : h.(h_location) = Some l -> same asn_DEF_ThreeDLocation None l l;
  ph_requests r : h.(h_requests) = Some r -> same asn_DEF_SequenceOfHashedId3 None r r;
  ph_requests_fit r e : h.(h_requests) = Some r -> asn_MBR_HeaderInfo_1 !! 7%nat = Some e -> fits_open e r;
  ph_certificate c : h.(h_certificate) = Some c -> proper_cert c;
  ph_certificate_fit c e : h.(h_certificate) = Some c -> asn_MBR_HeaderInfo_1 !! 8%nat = Some e -> fits_open e c;
}.

Lemma same_member_absent e : e.(ATF_POINTER) = true -> e.(optional) = true -> same_member e None None.
Proof. done. Qed.

Lemma same_member_optional e o : e.(ATF_POINTER) = true -> e.(optional) = true ->
  (forall x, o = Some x -> same e.(type) e.(oer_constraints) x x) -> same_member e o o.
Proof. intros Hp Ho H. destruct o as [x|]; [by apply H|done]. Qed.

Lemma psid_encodable z : 0 <= z < 2 ^ 32 -> same asn_DEF_Psid None (O_long z) (O_long z).
Proof.
  intros Hz. apply same_native; [done|]. change (is_Some (if (0 <=? z) && (z <=? INTMAX_MAX) then int_bytes (0, true) z else None)).
  unfold INTMAX_MAX, int_bytes. destruct (Z.leb_spec 0 z), (Z.leb_spec z (2 ^ 63 - 1)); try lia. cbn [andb Z.ltb Z.compare Z.eqb].
  unfold with_length. rewrite size_be_bytes. pose proof (proj2 (ubytes_le 4 z ltac:(lia) ltac:(lia)) ltac:(lia)).
  unfold RSIZE_MAX. destruct (Z.leb_spec (Z.of_nat (ubytes z)) (2 ^ 63 - 1)); [by eexists|lia].
Qed.

Lemma header_proper h : proper_header h -> same asn_DEF_HeaderInfo None (header_obj h) (header_obj h).
Proof.
  intros [H1 H2 H3 H4 H5 H6 H7]. eapply same_extended_intro; [reflexivity|by vm_compute| |].
  - cbn [elements asn_DEF_HeaderInfo asn_MBR_HeaderInfo_1 asn_MBR_HeaderInfo_1_part1 asn_MBR_HeaderInfo_1_part2 app same_members].
    repeat (split; [reflexivity|split; [try (by apply same_member_absent)|]]); try done.
    + by apply psid_encodable.
    + by apply same_set_time.
    + by apply same_member_optional.
    + by apply same_member_optional.
    + by apply same_member_optional.
  - intros i e m Hi He Hm.
    change (root_length _ _) with 7%nat in Hi.
    do 7 (destruct i as [|i]; [lia|]). destruct i as [|[|[|[|]]]]; try done; injection Hm as Hm; [by eapply H5|by eapply H7].
Qed.

Section Built.
Context {nest : Nesting}.

Lemma signed_content_proper sd : same Msg.td_signed None sd sd ->
  same (asn_DEF_Ieee1609Dot2Content Msg.td_inner) None (Msg.variant 2 sd) (Msg.variant 2 sd).
Proof.
  intros H. exact (same_choice_intro (asn_DEF_Ieee1609Dot2Content Msg.td_inner) _ None 1 _ ctx_zero ctx_zero sd sd eq_refl eq_refl eq_refl H).
Qed.

Lemma carried_proper octs : all_bytes octs -> size octs <= RSIZE_MAX ->
  let d := O_SEQ ctx_zero None [Some (O_long 3); Some (Msg.variant 1 (OCTET_STRING_fromBuf octs))] in
  same Msg.td_inner None d d.
Proof.
  intros Hb Hs d. eapply same_seq_intro; [reflexivity|by vm_compute|reflexivity|].
  split; [done|]. split; [apply same_native; [done|vm_compute; by eexists]|]. split; [done|]. split; [|done].
  apply (same_choice_intro (asn_DEF_Ieee1609Dot2Content (unfolded nesting)) _ None 0 _ ctx_zero ctx_zero _ _ eq_refl eq_refl);
    [reflexivity|]. by apply same_opaque.
Qed.

Lemma tbs_proper octs h : all_bytes octs -> size octs <= RSIZE_MAX -> same asn_DEF_HeaderInfo None h h ->
  same Msg.td_tbs None (tbs_obj octs h) (tbs_obj octs h).
Proof.
  intros Hb Hs Hh. eapply same_seq_intro; [reflexivity|by vm_compute|reflexivity|].
  split; [done|]. split; [|by split; [done|split]].
  eapply same_extended_intro; [reflexivity|reflexivity| |].
  - split; [done|]. split; [by apply carried_proper|]. by repeat split.
  - intros i e m Hi He Hm. change (root_length _ _) with 2%nat in Hi. destruct i as [|[|[|]]]; try lia; done.
Qed.

(** The message stands for a value when its parts do. *)
Lemma message_proper hash octs h signer sig : all_bytes octs -> size octs <= RSIZE_MAX ->
  same asn_DEF_HeaderInfo None h h -> same asn_DEF_SignerIdentifier None signer signer ->
  same asn_DEF_Signature None sig sig -> proper_msg (message_obj hash octs h signer sig).
Proof.
  intros Hb Hs Hh Hi Hg. eapply same_seq_intro; [reflexivity|by vm_compute|reflexivity|].
  split; [done|]. split; [apply same_native; [done|vm_compute; by eexists]|]. split; [done|]. split; [|done].
  apply signed_content_proper. eapply same_seq_intro; [reflexivity|by vm_compute|reflexivity|].
  split; [done|]. split; [apply same_native; [done|destruct hash; vm_compute; by eexists]|]. split; [done|]. split; [by apply tbs_proper|].
  by repeat split.
Qed.

(** ** How they are built *)

(** A new message: nothing selected, an empty header. *)
Definition empty_header : obj := O_SEQ ctx_zero None (Some (O_long 0) :: replicate 10 None).

Lemma new_message : Msg.with_signed_data = message_obj SHA256 [] empty_header zero_choice zero_choice.
Proof. reflexivity. Qed.

Section Setters.
Context (hash : HashAlgorithm) (octs : bytes) (h s g : obj).

Lemma set_hash_id_built algo : Msg.set_hash_id algo (message_obj hash octs h s g) = Returns (message_obj algo octs h s g).
Proof. reflexivity. Qed.

Lemma set_payload_built l : Msg.set_payload l (message_obj hash octs h s g) = Returns (message_obj hash l h s g).
Proof. reflexivity. Qed.

Lemma set_signature_built sig : sig.(sig_type) <> Unspecified ->
  Msg.set_signature sig (message_obj hash octs h s g) = Returns (message_obj hash octs h s (primary_signature sig)).
Proof. intros H. unfold Msg.set_signature, Msg.signature_of, primary_signature. by destruct (sig_type sig). Qed.

Lemma set_digest_built d : Msg.set_signer_identifier_digest d (message_obj hash octs h s g) =
  Returns (message_obj hash octs h (Msg.variant 1 (OCTET_STRING_fromBuf d)) g).
Proof. reflexivity. Qed.

Lemma set_self_built : Msg.set_signer_identifier_self (message_obj hash octs h s g) =
  Returns (message_obj hash octs h (Msg.variant 3 O_NULL) g).
Proof. reflexivity. Qed.

End Setters.

(** The psid and the time of a new header. *)
Lemma set_header_built hash octs s g aid time :
  (m ← Msg.set_its_aid aid (message_obj hash octs empty_header s g); Msg.set_generation_time time m) =
  Returns (message_obj hash octs (header_obj (mk_header aid time None None None)) s g).
Proof. reflexivity. Qed.

(** ** The signer *)

Lemma digest_signer_proper d : all_bytes d -> size d = 8 ->
  same asn_DEF_SignerIdentifier None (Msg.variant 1 (OCTET_STRING_fromBuf d)) (Msg.variant 1 (OCTET_STRING_fromBuf d)).
Proof.
  intros Hb Hs. apply (same_choice_intro asn_DEF_SignerIdentifier _ None 0 _ ctx_zero ctx_zero _ _ eq_refl eq_refl);
    [by vm_compute|]. by apply fromBuf_same.
Qed.

(** The list that holds the certificate of the signer. *)
Definition certificate_signer (c : obj) : obj := Msg.variant 2 (O_SET_OF ctx_zero None [Some c]).

Lemma certificate_signer_proper c : proper_cert c ->
  same asn_DEF_SignerIdentifier None (certificate_signer c) (certificate_signer c).
Proof.
  intros H. apply (same_choice_intro asn_DEF_SignerIdentifier _ None 1 _ ctx_zero ctx_zero _ _ eq_refl eq_refl); [by vm_compute|].
  eapply same_set_of_intro; [reflexivity|reflexivity|cbn; lia|]. constructor; [|constructor]. exists c, c. by rewrite same_inner_certificate.
Qed.

Lemma set_certificate_built {pf : Platform} {fits : StackFits pf} hash octs h s g c : proper_cert c -> exists c',
  Msg.set_signer_identifier_certificate c (message_obj hash octs h s g) = Returns (message_obj hash octs h (certificate_signer c') g) /\
  same_cert c c'.
Proof.
  intros H. destruct (copy_construct_same c H) as (c' & E & Hs). exists c'. split; [|done].
  unfold copy_construct in E. unfold Msg.set_signer_identifier_certificate. cbn. by rewrite E.
Qed.

(** ** Location and requests *)

Definition location_obj (l : Msg.ThreeDLocation) : obj :=
  O_SEQ ctx_zero None [Some (O_long l.(Msg.loc_latitude)); Some (O_long l.(Msg.loc_longitude)); Some (O_long l.(Msg.loc_elevation))].

Lemma set_location_built hash octs aid time s g l :
  Msg.set_generation_location l (message_obj hash octs (header_obj (mk_header aid time None None None)) s g) =
  Returns (message_obj hash octs (header_obj (mk_header aid time (Some (location_obj l)) None None)) s g).
Proof. reflexivity. Qed.

Definition requests_obj (ids : list HashedId3) : option obj :=
  match ids with
  | [] => None
  | _ => Some (O_SET_OF ctx_zero None (map (fun id => Some (OCTET_STRING_fromBuf id)) ids))
  end.

Lemma add_requests_built hash octs aid time l s g ids : forall done,
  Msg.add_inline_p2pcd_requests ids (message_obj hash octs (header_obj (mk_header aid time l (requests_obj done) None)) s g) =
  Returns (message_obj hash octs (header_obj (mk_header aid time l (requests_obj (done ++ ids)) None)) s g).
Proof.
  induction ids as [|id ids IH]; intros done; [by rewrite app_nil_r|]. cbn [Msg.add_inline_p2pcd_requests].
  transitivity (Msg.add_inline_p2pcd_requests ids
    (message_obj hash octs (header_obj (mk_header aid time l (requests_obj (done ++ [id])) None)) s g)).
  - destruct done as [|d done]; [done|]. unfold requests_obj. cbn [app map]. rewrite map_app. reflexivity.
  - rewrite IH. by rewrite <- app_assoc.
Qed.

Lemma set_requests_built hash octs aid time s g ids :
  Msg.set_inline_p2pcd_request ids (message_obj hash octs (header_obj (mk_header aid time None None None)) s g) =
  Returns (message_obj hash octs (header_obj (mk_header aid time None (requests_obj ids) None)) s g).
Proof. exact (add_requests_built hash octs aid time None s g ids []). Qed.

Lemma set_requested_built {pf : Platform} {fits : StackFits pf} hash octs aid time l r s g c : proper_cert c -> exists c',
  Msg.set_requested_certificate c (message_obj hash octs (header_obj (mk_header aid time l r None)) s g) =
    Returns (message_obj hash octs (header_obj (mk_header aid time l r (Some c'))) s g) /\ same_cert c c'.
Proof.
  intros H. destruct (copy_same asn_DEF_Certificate c wf_certificate eq_refl H) as (c' & E & Hs). exists c'. split; [|done].
  unfold Msg.set_requested_certificate. cbn. by rewrite E.
Qed.

End Built.

(** ** Parts of headers that stand for values *)

Lemma location_proper l : - 2 ^ 31 <= l.(Msg.loc_latitude) < 2 ^ 31 -> - 2 ^ 31 <= l.(Msg.loc_longitude) < 2 ^ 31 ->
  0 <= l.(Msg.loc_elevation) < 2 ^ 16 -> same asn_DEF_ThreeDLocation None (location_obj l) (location_obj l).
Proof.
  intros H1 H2 H3. eapply same_seq_intro; [reflexivity|by vm_compute|by vm_compute|].
  assert (forall td z, sem td = sp_native_integer None (Some asn_OER_type_Latitude_constr_1) -> - 2 ^ 31 <= z < 2 ^ 31 ->
    is_Some ((sem td).(sp_bytes) None (A_INT z))) as Hdeg.
  { intros td z -> Hz. change (is_Some (if (INTMAX_MIN <=? z) && (z <=? INTMAX_MAX) then int_bytes (4, false) z else None)).
    unfold INTMAX_MIN, INTMAX_MAX, int_bytes. cbn [Z.ltb Z.compare]. change (128 * 256 ^ (4 - 1)) with (2 ^ 31).
    destruct (Z.leb_spec (- 2 ^ 63) z), (Z.leb_spec z (2 ^ 63 - 1)), (Z.leb_spec (- 2 ^ 31) z), (Z.ltb_spec z (2 ^ 31)); try lia.
    by eexists. }
  split; [done|]. split; [apply same_native; [done|]; by apply Hdeg|].
  split; [done|]. split; [apply same_native; [done|]; by apply Hdeg|].
  split; [done|]. split; [apply same_native; [done|]|done]. set (z := Msg.loc_elevation l) in *.
  change (is_Some (if (INTMAX_MIN <=? z) && (z <=? INTMAX_MAX) then int_bytes (2, true) z else None)).
  unfold INTMAX_MIN, INTMAX_MAX, int_bytes. cbn [Z.ltb Z.compare]. change (256 ^ 2) with (2 ^ 16).
  destruct (Z.leb_spec (- 2 ^ 63) z), (Z.leb_spec z (2 ^ 63 - 1)), (Z.leb_spec 0 z), (Z.ltb_spec z (2 ^ 16)); try lia. by eexists.
Qed.

Lemma requests_proper ids r : Forall is_id3 ids -> (length ids <= 201)%nat -> requests_obj ids = Some r ->
  same asn_DEF_SequenceOfHashedId3 None r r /\ (length (array (Some r)) <= 201)%nat.
Proof.
  intros H Hl E. assert (r = O_SET_OF ctx_zero None (map (fun id => Some (OCTET_STRING_fromBuf id)) ids)) as ->
    by (destruct ids; [done|by injection E]).
  unfold array. rewrite length_map. split; [|done]. eapply same_set_of_intro; [reflexivity|reflexivity|rewrite length_map; exact Hl|]. clear Hl E.
  induction H as [|x l [Hb Hs] _ IH]; [constructor|]. cbn [map]. constructor; [|done].
  eexists _, _. split; [done|]. split; [done|]. by apply fromBuf_same.
Qed.

Lemma size_concat_bound (bss : list bytes) n : Forall (fun bs => size bs <= n) bss -> size (concat bss) <= size bss * n.
Proof.
  induction 1 as [|bs bss H _ IH]; [done|]. cbn [concat]. rewrite size_app, size_cons. lia.
Qed.

Lemma requests_fit r e : (length (array (Some r)) <= 201)%nat -> asn_MBR_HeaderInfo_1 !! 7%nat = Some e -> fits_open e r.
Proof.
  intros Hl [= <-] a bs Hr Hb. cbn [type oer_constraints MBR sem asn_DEF_SequenceOfHashedId3 sem_of map asn_MBR_SequenceOfHashedId3_1] in *.
  destruct r as [| | | | | | |ct p l], a as [| | | | | | |vs]; try done. cbn [sp_repr sp_bytes sp_set_of array] in *.
  apply bind_Some in Hb as (bss & Hm & Hb). apply mapM_Some_1 in Hm. destruct (_ && _); [|done].
  apply (f_equal (default [])) in Hb. cbn [default from_option id] in Hb. subst bs.
  assert (Forall (fun bs => size bs <= 3) bss) as Hs.
  { clear -Hm. induction Hm as [|v bs vs bss Hv _ IH]; constructor; [|done].
    exact (proj2 (max_size_ok asn_DEF_HashedId3 None 3 eq_refl) v bs Hv). }
  apply size_concat_bound in Hs. apply Forall2_length in Hr. apply Forall2_length in Hm. rewrite size_app.
  assert (size bss <= 201) by (unfold size; lia). assert (size vs <= 201) by (unfold size; lia).
  pose proof (size_nonneg vs). destruct (min_bytes_ok (size vs) ltac:(lia)) as (_ & Hq & _).
  unfold quantity_det. rewrite size_cons. unfold RSIZE_MAX. lia.
Qed.

(** The encoding of a certificate fits an open type. *)
Definition cert_fits {pf : Platform} (c : obj) : Prop := exists bs, encode (Some c) = Returns bs /\ size bs <= RSIZE_MAX.

Lemma certificate_fit {pf : Platform} c c' e : cert_fits c -> same_cert c c' -> asn_MBR_HeaderInfo_1 !! 8%nat = Some e -> fits_open e c'.
Proof.
  intros (bs0 & E & Hs) H He a bs Hr Hb. destruct (encode_cert_same _ _ H) as (bs1 & E1 & E2). rewrite E in E1. injection E1 as <-.
  injection He as <-. pose proof (encode_oer_value asn_DEF_EtsiTs103097Certificate c' a bs wf_etsi_certificate Hr Hb) as E3.
  unfold encode in E2. rewrite E3 in E2. by injection E2 as ->.
Qed.

(** ** Reading what was built *)

Section Reading.
Context {nest : Nesting} (hash : HashAlgorithm) (octs : bytes) (h : header) (s g : obj).
Let m := message_obj hash octs (header_obj h) s g.

Lemma built_signed : Msg.is_signed m = Returns true.
Proof. reflexivity. Qed.

Lemma built_version : Msg.protocol_version m = 3.
Proof. reflexivity. Qed.

Lemma built_aid : 0 <= h.(h_aid) < 2 ^ 32 -> Msg.its_aid m = h.(h_aid).
Proof.
  intros Ha. change (u32 (u64 (h_aid h)) = h_aid h). unfold u32, u64, wrap. rewrite (Z.mod_small _ (2 ^ 64)) by lia.
  by apply Z.mod_small.
Qed.

Lemma built_time : 0 <= h.(h_time) < 2 ^ 64 -> Msg.generation_time m = Returns (Some h.(h_time)).
Proof.
  intros Ht. change (Returns (asn_INTEGER2umax (asn_uint642INTEGER (h_time h))) = Returns (Some (h_time h))).
  destruct (time_octets _ Ht) as (l & -> & Hl & Hne & Hv). rewrite INTEGER2umax_be, twos_nonneg_be, Hv by (done || lia).
  unfold UINTMAX_MAX. destruct (Z.leb_spec (h_time h) (2 ^ 64 - 1)); [done|lia].
Qed.

Lemma built_hash : Msg.hash_id m = hash.
Proof. by destruct hash. Qed.

Lemma built_payload : Msg.payload m = Returns octs.
Proof. by destruct octs. Qed.

Lemma built_signing_payload {pf : Platform} : Msg.signing_payload m = encode_oer Msg.td_tbs (Some (tbs_obj octs (header_obj h))).
Proof. reflexivity. Qed.

End Reading.

Lemma built_signature {nest : Nesting} hash octs h s sig : sig.(sig_type) <> Unspecified ->
  Msg.signature (message_obj hash octs h s (primary_signature sig)) = Some sig.
Proof.
  intros Ht. destruct sig as [r sg []]; [done| | |]; unfold Msg.signature, primary_signature, get_x_coordinate_P256, fetch_octets;
    cbn; destruct r, sg; reflexivity.
Qed.

Lemma built_signer_certificate {nest : Nesting} hash octs h c g :
  Msg.signer_identifier (message_obj hash octs h (certificate_signer c) g) = Msg.SignerCertificate (Some c).
Proof. reflexivity. Qed.

Lemma built_signer_digest {nest : Nesting} hash octs h d g :
  Msg.signer_identifier (message_obj hash octs h (Msg.variant 1 (OCTET_STRING_fromBuf d)) g) =
  Msg.SignerDigest (Some (OCTET_STRING_fromBuf d)).
Proof. reflexivity. Qed.
