(* ===== verification/GeoHeaders.v ===== *)
(** * GeoNetworking headers

    geonet/address.cpp, timestamp.cpp, sequence_number.cpp, position_vector.cpp,
    lifetime.cpp, traffic_class.cpp, dcc_mco_field.cpp, dcc_field.cpp, *_header.cpp,
    header_variant.cpp, pdu.cpp and parser.cpp: the data of the headers, their
    serialization, and the parser that the router runs over a received packet.

    An enumeration that is read from octets with a cast is kept as the number, because
    the cast accepts every number; the enumerators are constants.  Geographical
    quantities are the integers of their unit (1/10 micro degree, 1/10 degree, cm/s, m).
    A member whose name occurs in several headers carries the name of its header. *)

From Stdlib Require Import ZArith Lia.
From stdpp Require Import prelude countable.
From S2P Require Import Prelude GeoSerial.

Open Scope Z_scope.

Abbreviation u16 := (wrap 16).

(** * Addresses *)

Record Address := mk_Address {
  m_manually_configured : bool;
  m_station_type : Z;
  m_country_code : Z;
  m_mid : MacAddress;
}.

#[export] Instance Address_eq_dec : EqDecision Address.
Proof. solve_decision. Defined.

#[export] Instance Address_countable : Countable Address.
Proof.
  refine (inj_countable' (fun a => (m_manually_configured a, m_station_type a, m_country_code a, m_mid a))
    (fun '(c, t, n, m) => mk_Address c t n m) _). by intros [].
Defined.

Definition default_Address : Address := mk_Address false 0 0 default_MacAddress.

Definition manually_configured_mask : Z := 0x8000.
Definition station_type_mask : Z := 0x7c00.
Definition country_code_mask : Z := 0x03ff.
Definition station_type_shift : Z := 10.

(** The sixteen bits in front of the MAC address. *)
Definition manuallyConfiguredAndTypeAndCountryCode (addr : Address) : Z :=
  let v := u16 (m_country_code addr) in
  let v := u16 (Z.lor v (Z.land (Z.shiftl (u16 (m_station_type addr)) station_type_shift)
                                station_type_mask)) in
  u16 (Z.lor v (if m_manually_configured addr then manually_configured_mask else 0)).

Definition serialize_Address (addr : Address) : bytes :=
  serialize_int 2 (manuallyConfiguredAndTypeAndCountryCode addr) ++
  serialize_MacAddress (m_mid addr).

Definition deserialize_Address : des Address :=
  local_var 0 (deserialize_uint 2) (fun tmp addr =>
    mk_Address (ctrue (Z.land tmp manually_configured_mask))
               (Z.shiftr (Z.land tmp station_type_mask) station_type_shift)
               (BitNumber 10 (Z.land tmp country_code_mask))
               (m_mid addr)) ;;
  local_var default_MacAddress deserialize_MacAddress (fun mid addr =>
    mk_Address (m_manually_configured addr) (m_station_type addr) (m_country_code addr) mid).

(** * Timestamps and sequence numbers *)

(** Milliseconds since 2004-01-01, in 32 bits. *)
Abbreviation Timestamp := Z (only parsing).

Definition Timestamp_max : Z := 2 ^ 32 - 1.

Definition is_greater (lhs rhs : Timestamp) : bool :=
  (lhs >? rhs) && (lhs - rhs <=? Timestamp_max / 2) ||
  (rhs >? lhs) && (rhs - lhs >? Timestamp_max / 2).

Definition Timestamp_less (lhs rhs : Timestamp) : bool :=
  negb (is_greater lhs rhs) && negb (lhs =? rhs).

Definition Timestamp_add (t : Timestamp) (d : Z) : Timestamp := u32 (t + d).
Definition Timestamp_sub (t : Timestamp) (d : Z) : Timestamp := u32 (t - d).

Definition serialize_Timestamp (ts : Timestamp) : bytes := serialize_int 4 ts.

Definition deserialize_Timestamp : des Timestamp :=
  local_var 0 (deserialize_uint 4) (fun tmp _ => tmp).

Abbreviation SequenceNumber := Z (only parsing).

Definition SequenceNumber_max : Z := 2 ^ 16 - 1.

Definition SequenceNumber_less (sn other : SequenceNumber) : bool :=
  (other >? sn) && (other - sn <=? SequenceNumber_max / 2) ||
  (sn >? other) && (sn - other >? SequenceNumber_max / 2).

Definition SequenceNumber_add (sn other : SequenceNumber) : SequenceNumber := u16 (sn + other).
Definition SequenceNumber_sub (sn other : SequenceNumber) : SequenceNumber := u16 (sn - other).

(** The postfix operator: the old number, and the number afterwards. *)
Definition SequenceNumber_next (sn : SequenceNumber) : SequenceNumber * SequenceNumber :=
  (sn, u16 (sn + 1)).

Definition serialize_SequenceNumber (sn : SequenceNumber) : bytes := serialize_int 2 sn.

Definition deserialize_SequenceNumber : des SequenceNumber :=
  local_var 0 (deserialize_uint 2) (fun tmp _ => tmp).

(** * Position vectors *)

Record LongPositionVector := mk_LongPositionVector {
  gn_addr : Address;
  timestamp : Timestamp;
  latitude : Z;
  longitude : Z;
  position_accuracy_indicator : bool;
  speed : Z;
  heading : Z;
}.

Definition set_gn_addr (v : Address) (x : LongPositionVector) : LongPositionVector :=
  mk_LongPositionVector v (timestamp x) (latitude x) (longitude x) (position_accuracy_indicator x) (speed x) (heading x).
Definition set_timestamp (v : Timestamp) (x : LongPositionVector) : LongPositionVector :=
  mk_LongPositionVector (gn_addr x) v (latitude x) (longitude x) (position_accuracy_indicator x) (speed x) (heading x).
Definition set_latitude (v : Z) (x : LongPositionVector) : LongPositionVector :=
  mk_LongPositionVector (gn_addr x) (timestamp x) v (longitude x) (position_accuracy_indicator x) (speed x) (heading x).
Definition set_longitude (v : Z) (x : LongPositionVector) : LongPositionVector :=
  mk_LongPositionVector (gn_addr x) (timestamp x) (latitude x) v (position_accuracy_indicator x) (speed x) (heading x).
Definition set_position_accuracy_indicator (v : bool) (x : LongPositionVector) : LongPositionVector :=
  mk_LongPositionVector (gn_addr x) (timestamp x) (latitude x) (longitude x) v (speed x) (heading x).
Definition set_speed (v : Z) (x : LongPositionVector) : LongPositionVector :=
  mk_LongPositionVector (gn_addr x) (timestamp x) (latitude x) (longitude x) (position_accuracy_indicator x) v (heading x).
Definition set_heading (v : Z) (x : LongPositionVector) : LongPositionVector :=
  mk_LongPositionVector (gn_addr x) (timestamp x) (latitude x) (longitude x) (position_accuracy_indicator x) (speed x) v.

#[export] Instance LongPositionVector_eq_dec : EqDecision LongPositionVector.
Proof. solve_decision. Defined.

Definition default_LongPositionVector : LongPositionVector :=
  mk_LongPositionVector default_Address 0 0 0 false 0 0.

Definition is_empty (pv : LongPositionVector) : bool :=
  bool_decide (pv = default_LongPositionVector).

(** 90, 180 and 360 degrees. *)
Definition limit_lat : Z := 900000000.
Definition limit_lon : Z := 1800000000.
Definition limit_hdg : Z := 3600.

Definition lpv_is_valid (pv : LongPositionVector) : bool :=
  if is_empty pv then false
  else if (latitude pv <? - limit_lat) || (latitude pv >? limit_lat) then false
  else if (longitude pv <? - limit_lon) || (longitude pv >? limit_lon) then false
  else if heading pv >? limit_hdg then false
  else true.

Definition paiAndSpeed (lpv : LongPositionVector) : Z :=
  u16 (Z.lor (u16 (speed lpv)) (if position_accuracy_indicator lpv then 0x8000 else 0)).

Definition serialize_LongPositionVector (lpv : LongPositionVector) : bytes :=
  serialize_Address (gn_addr lpv) ++
  serialize_Timestamp (timestamp lpv) ++
  serialize_int 4 (latitude lpv) ++
  serialize_int 4 (longitude lpv) ++
  serialize_int 2 (paiAndSpeed lpv) ++
  serialize_int 2 (heading lpv).

Definition deserialize_LongPositionVector : des LongPositionVector :=
  on_member gn_addr set_gn_addr deserialize_Address ;;
  on_member timestamp set_timestamp deserialize_Timestamp ;;
  on_member latitude set_latitude (deserialize_sint 4) ;;
  on_member longitude set_longitude (deserialize_sint 4) ;;
  local_var 0 (deserialize_uint 2) (fun paiAndSpeed lpv =>
    set_speed (BitNumber 15 paiAndSpeed)
      (set_position_accuracy_indicator (ctrue (Z.land paiAndSpeed 0x8000)) lpv)) ;;
  on_member heading set_heading (deserialize_uint 2).

(** * Lifetime and traffic class *)

(** The raw octet: six bits multiplier, two bits base. *)
Abbreviation Lifetime := Z (only parsing).

Definition base_mask : Z := 0x03.

Definition Lifetime_set (base multiplier : Z) : Lifetime :=
  u8 (Z.lor (Z.shiftl (BitNumber 6 multiplier) 2) (Z.land base base_mask)).

Definition Lifetime_zero : Lifetime := Lifetime_set 0 0.

Definition serialize_Lifetime (l : Lifetime) : bytes := serialize_int 1 l.
Definition deserialize_Lifetime : des Lifetime :=
  local_var 0 (deserialize_uint 1) (fun raw _ => raw).

(** The raw octet: store-carry-forward, channel offload, six bits identifier. *)
Abbreviation TrafficClass := Z (only parsing).

Definition scf_mask : Z := 0x80.
Definition channel_offload_mask : Z := 0x40.
Definition tc_id_mask : Z := 0x3f.

Definition store_carry_forward (tc : TrafficClass) : bool := ctrue (Z.land tc scf_mask).
Definition channel_offload (tc : TrafficClass) : bool := ctrue (Z.land tc channel_offload_mask).
Definition tc_id (tc : TrafficClass) : Z := BitNumber 6 (Z.land tc tc_id_mask).

(** [m_tc &= ~mask] is computed as an int and cut to eight bits. *)
Definition set_store_carry_forward (flag : bool) (tc : TrafficClass) : TrafficClass :=
  u8 (if flag then Z.lor tc scf_mask else Z.land tc (Z.lnot scf_mask)).
Definition set_channel_offload (flag : bool) (tc : TrafficClass) : TrafficClass :=
  u8 (if flag then Z.lor tc channel_offload_mask else Z.land tc (Z.lnot channel_offload_mask)).
Definition set_tc_id (id : Z) (tc : TrafficClass) : TrafficClass :=
  u8 (Z.lor (u8 (Z.land tc (Z.lnot tc_id_mask))) (Z.land (BitNumber 6 id) tc_id_mask)).

Definition make_TrafficClass (scf ch_offload : bool) (tc : Z) : TrafficClass :=
  set_tc_id tc (set_channel_offload ch_offload (set_store_carry_forward scf 0)).

Inductive Profile := DP0 | DP1 | DP2 | DP3.

Definition map_tc_onto_profile (tc : TrafficClass) : Profile :=
  match tc_id tc with
  | 0 => DP0
  | 1 => DP1
  | 2 => DP2
  | _ => DP3
  end.

Definition serialize_TrafficClass (tc : TrafficClass) : bytes := serialize_int 1 tc.
Definition deserialize_TrafficClass : des TrafficClass :=
  local_var 0 (deserialize_uint 1) (fun tmp _ => tmp).

(** * Basic header *)

Definition NextHeaderBasic_Any : Z := 0.
Definition NextHeaderBasic_Common : Z := 1.
Definition NextHeaderBasic_Secured : Z := 2.

Record BasicHeader := mk_BasicHeader {
  version : Z;
  basic_next_header : Z;
  basic_reserved : Z;
  lifetime : Lifetime;
  hop_limit : Z;
}.

Definition set_version (v : Z) (x : BasicHeader) : BasicHeader :=
  mk_BasicHeader v (basic_next_header x) (basic_reserved x) (lifetime x) (hop_limit x).
Definition set_basic_next_header (v : Z) (x : BasicHeader) : BasicHeader :=
  mk_BasicHeader (version x) v (basic_reserved x) (lifetime x) (hop_limit x).
Definition set_basic_reserved (v : Z) (x : BasicHeader) : BasicHeader :=
  mk_BasicHeader (version x) (basic_next_header x) v (lifetime x) (hop_limit x).
Definition set_lifetime (v : Lifetime) (x : BasicHeader) : BasicHeader :=
  mk_BasicHeader (version x) (basic_next_header x) (basic_reserved x) v (hop_limit x).
Definition set_hop_limit (v : Z) (x : BasicHeader) : BasicHeader :=
  mk_BasicHeader (version x) (basic_next_header x) (basic_reserved x) (lifetime x) v.

#[export] Instance BasicHeader_eq_dec : EqDecision BasicHeader.
Proof. solve_decision. Defined.

Definition BasicHeader_length_bytes : Z := 3 + 1.

Definition default_BasicHeader : BasicHeader :=
  mk_BasicHeader 0 NextHeaderBasic_Any 0 Lifetime_zero 0.

Definition versionAndNextHeader (hdr : BasicHeader) : Z :=
  let v := u8 (version hdr) in
  let v := u8 (Z.shiftl v 4) in
  u8 (Z.lor v (Z.land (basic_next_header hdr) 0x0f)).

Definition serialize_BasicHeader (hdr : BasicHeader) : bytes :=
  serialize_int 1 (versionAndNextHeader hdr) ++
  serialize_int 1 (basic_reserved hdr) ++
  serialize_Lifetime (lifetime hdr) ++
  serialize_int 1 (hop_limit hdr).

Definition deserialize_BasicHeader : des BasicHeader :=
  local_var 0 (deserialize_uint 1) (fun versionAndNextHeader hdr =>
    set_basic_next_header (Z.land versionAndNextHeader 0x0f)
      (set_version (BitNumber 4 (Z.shiftr versionAndNextHeader 4)) hdr)) ;;
  on_member basic_reserved set_basic_reserved (deserialize_uint 1) ;;
  on_member lifetime set_lifetime deserialize_Lifetime ;;
  on_member hop_limit set_hop_limit (deserialize_uint 1).

(** * Common header *)

Definition NextHeaderCommon_Any : Z := 0.
Definition NextHeaderCommon_BTP_A : Z := 1.
Definition NextHeaderCommon_BTP_B : Z := 2.
Definition NextHeaderCommon_IPv6 : Z := 3.

Abbreviation HeaderType := Z (only parsing).

Definition Any : HeaderType := 0x00.
Definition Beacon : HeaderType := 0x10.
Definition GeoUnicast : HeaderType := 0x20.
Definition GeoAnycast_Circle : HeaderType := 0x30.
Definition GeoAnycast_Rect : HeaderType := 0x31.
Definition GeoAnycast_Elip : HeaderType := 0x32.
Definition GeoBroadcast_Circle : HeaderType := 0x40.
Definition GeoBroadcast_Rect : HeaderType := 0x41.
Definition GeoBroadcast_Elip : HeaderType := 0x42.
Definition TSB_Single_Hop : HeaderType := 0x50.
Definition TSB_Multi_Hop : HeaderType := 0x51.
Definition LS_Request : HeaderType := 0x60.
Definition LS_Reply : HeaderType := 0x61.

Record CommonHeader := mk_CommonHeader {
  next_header : Z;
  reserved1 : Z;
  header_type : HeaderType;
  traffic_class : TrafficClass;
  flags : Z;
  payload : Z;
  maximum_hop_limit : Z;
  reserved2 : Z;
}.

Definition set_next_header (v : Z) (x : CommonHeader) : CommonHeader :=
  mk_CommonHeader v (reserved1 x) (header_type x) (traffic_class x) (flags x) (payload x) (maximum_hop_limit x) (reserved2 x).
Definition set_reserved1 (v : Z) (x : CommonHeader) : CommonHeader :=
  mk_CommonHeader (next_header x) v (header_type x) (traffic_class x) (flags x) (payload x) (maximum_hop_limit x) (reserved2 x).
Definition set_header_type (v : HeaderType) (x : CommonHeader) : CommonHeader :=
  mk_CommonHeader (next_header x) (reserved1 x) v (traffic_class x) (flags x) (payload x) (maximum_hop_limit x) (reserved2 x).
Definition set_traffic_class (v : TrafficClass) (x : CommonHeader) : CommonHeader :=
  mk_CommonHeader (next_header x) (reserved1 x) (header_type x) v (flags x) (payload x) (maximum_hop_limit x) (reserved2 x).
Definition set_flags (v : Z) (x : CommonHeader) : CommonHeader :=
  mk_CommonHeader (next_header x) (reserved1 x) (header_type x) (traffic_class x) v (payload x) (maximum_hop_limit x) (reserved2 x).
Definition set_payload (v : Z) (x : CommonHeader) : CommonHeader :=
  mk_CommonHeader (next_header x) (reserved1 x) (header_type x) (traffic_class x) (flags x) v (maximum_hop_limit x) (reserved2 x).
Definition set_maximum_hop_limit (v : Z) (x : CommonHeader) : CommonHeader :=
  mk_CommonHeader (next_header x) (reserved1 x) (header_type x) (traffic_class x) (flags x) (payload x) v (reserved2 x).
Definition set_reserved2 (v : Z) (x : CommonHeader) : CommonHeader :=
  mk_CommonHeader (next_header x) (reserved1 x) (header_type x) (traffic_class x) (flags x) (payload x) (maximum_hop_limit x) v.

#[export] Instance CommonHeader_eq_dec : EqDecision CommonHeader.
Proof. solve_decision. Defined.

Definition CommonHeader_length_bytes : Z := 8.

Definition default_CommonHeader : CommonHeader :=
  mk_CommonHeader NextHeaderCommon_Any 0 Any 0 0 0 0 0.

Definition nextHeaderAndReserved (hdr : CommonHeader) : Z :=
  let v := u8 (next_header hdr) in
  let v := u8 (Z.shiftl v 4) in
  u8 (Z.lor v (reserved1 hdr)).

Definition serialize_CommonHeader (hdr : CommonHeader) : bytes :=
  serialize_int 1 (nextHeaderAndReserved hdr) ++
  serialize_int 1 (header_type hdr) ++
  serialize_TrafficClass (traffic_class hdr) ++
  serialize_int 1 (flags hdr) ++
  serialize_int 2 (payload hdr) ++
  serialize_int 1 (maximum_hop_limit hdr) ++
  serialize_int 1 (reserved2 hdr).

Definition deserialize_CommonHeader : des CommonHeader :=
  local_var 0 (deserialize_uint 1) (fun nextHeaderAndReserved hdr =>
    set_reserved1 (BitNumber 4 (Z.land nextHeaderAndReserved 0x0f))
      (set_next_header (Z.shiftr nextHeaderAndReserved 4) hdr)) ;;
  local_var 0 (deserialize_uint 1) (fun headerType hdr => set_header_type headerType hdr) ;;
  on_member traffic_class set_traffic_class deserialize_TrafficClass ;;
  on_member flags set_flags (deserialize_uint 1) ;;
  on_member payload set_payload (deserialize_uint 2) ;;
  on_member maximum_hop_limit set_maximum_hop_limit (deserialize_uint 1) ;;
  on_member reserved2 set_reserved2 (deserialize_uint 1).

(** * Extended headers *)

Record BeaconHeader := mk_BeaconHeader { beacon_source_position : LongPositionVector }.

Definition BeaconHeader_length_bytes : Z := 24.

Definition serialize_BeaconHeader (hdr : BeaconHeader) : bytes :=
  serialize_LongPositionVector (beacon_source_position hdr).

Definition deserialize_BeaconHeader : des BeaconHeader :=
  on_member beacon_source_position (fun v _ => mk_BeaconHeader v) deserialize_LongPositionVector.

Record DccMcoField := mk_DccMcoField {
  m_cbr_l0_hop : Z;
  m_cbr_l1_hop : Z;
  m_output_power : Z;
}.

(** [DccMcoField(uint32_t)]: the members are narrower than the shifted numbers. *)
Definition DccMcoField_from (field : Z) : DccMcoField :=
  mk_DccMcoField (u8 (Z.shiftr field 24)) (u8 (Z.shiftr field 16))
                 (BitNumber 5 (u32 (Z.shiftr field 11))).

Definition DccMcoField_to (mco : DccMcoField) : Z :=
  let field := m_cbr_l0_hop mco in
  let field := u32 (Z.shiftl field 8) in
  let field := u32 (Z.lor field (m_cbr_l1_hop mco)) in
  let field := u32 (Z.shiftl field 5) in
  let field := u32 (Z.lor field (m_output_power mco)) in
  u32 (Z.shiftl field 11).

Definition set_output_power (dbm : Z) (mco : DccMcoField) : DccMcoField :=
  mk_DccMcoField (m_cbr_l0_hop mco) (m_cbr_l1_hop mco) (BitNumber 5 (Z.min dbm 31)).

(** boost::variant<DccMcoField, uint32_t>. *)
Inductive DccField := DccMco (mco : DccMcoField) | DccRaw (raw : Z).

Definition get_dcc_mco (field : DccField) : option DccMcoField :=
  match field with
  | DccMco mco => Some mco
  | DccRaw raw => Some (DccMcoField_from raw)
  end.

Definition serialize_DccField (field : DccField) : bytes :=
  let raw := match field with DccMco mco => DccMcoField_to mco | DccRaw raw => raw end in
  serialize_int 4 raw.

Definition deserialize_DccField : des DccField :=
  local_var 0 (deserialize_uint 4) (fun raw _ => DccRaw raw).

Record ShbHeader := mk_ShbHeader {
  shb_source_position : LongPositionVector;
  dcc : DccField;
}.

Definition set_shb_source_position (v : LongPositionVector) (x : ShbHeader) : ShbHeader :=
  mk_ShbHeader v (dcc x).
Definition set_dcc (v : DccField) (x : ShbHeader) : ShbHeader :=
  mk_ShbHeader (shb_source_position x) v.

Definition ShbHeader_length_bytes : Z := 4 + 24.

Definition serialize_ShbHeader (hdr : ShbHeader) : bytes :=
  serialize_LongPositionVector (shb_source_position hdr) ++ serialize_DccField (dcc hdr).

Definition deserialize_ShbHeader : des ShbHeader :=
  on_member shb_source_position set_shb_source_position deserialize_LongPositionVector ;;
  on_member dcc set_dcc deserialize_DccField.

Record TsbHeader := mk_TsbHeader {
  tsb_sequence_number : SequenceNumber;
  tsb_reserved : Z;
  tsb_source_position : LongPositionVector;
}.

Definition set_tsb_sequence_number (v : SequenceNumber) (x : TsbHeader) : TsbHeader :=
  mk_TsbHeader v (tsb_reserved x) (tsb_source_position x).
Definition set_tsb_reserved (v : Z) (x : TsbHeader) : TsbHeader :=
  mk_TsbHeader (tsb_sequence_number x) v (tsb_source_position x).
Definition set_tsb_source_position (v : LongPositionVector) (x : TsbHeader) : TsbHeader :=
  mk_TsbHeader (tsb_sequence_number x) (tsb_reserved x) v.

Definition TsbHeader_length_bytes : Z := 4 + 24.

Definition serialize_TsbHeader (hdr : TsbHeader) : bytes :=
  serialize_SequenceNumber (tsb_sequence_number hdr) ++
  serialize_int 2 (tsb_reserved hdr) ++
  serialize_LongPositionVector (tsb_source_position hdr).

Definition deserialize_TsbHeader : des TsbHeader :=
  on_member tsb_sequence_number set_tsb_sequence_number deserialize_SequenceNumber ;;
  on_member tsb_reserved set_tsb_reserved (deserialize_uint 2) ;;
  on_member tsb_source_position set_tsb_source_position deserialize_LongPositionVector.

Record GbcGacHeader := mk_GbcGacHeader {
  gbc_sequence_number : SequenceNumber;
  gbc_reserved1 : Z;
  gbc_source_position : LongPositionVector;
  geo_area_pos_latitude : Z;
  geo_area_pos_longitude : Z;
  distance_a : Z;
  distance_b : Z;
  angle : Z;
  gbc_reserved2 : Z;
}.

Definition set_gbc_sequence_number (v : SequenceNumber) (x : GbcGacHeader) : GbcGacHeader :=
  mk_GbcGacHeader v (gbc_reserved1 x) (gbc_source_position x) (geo_area_pos_latitude x) (geo_area_pos_longitude x) (distance_a x) (distance_b x) (angle x) (gbc_reserved2 x).
Definition set_gbc_reserved1 (v : Z) (x : GbcGacHeader) : GbcGacHeader :=
  mk_GbcGacHeader (gbc_sequence_number x) v (gbc_source_position x) (geo_area_pos_latitude x) (geo_area_pos_longitude x) (distance_a x) (distance_b x) (angle x) (gbc_reserved2 x).
Definition set_gbc_source_position (v : LongPositionVector) (x : GbcGacHeader) : GbcGacHeader :=
  mk_GbcGacHeader (gbc_sequence_number x) (gbc_reserved1 x) v (geo_area_pos_latitude x) (geo_area_pos_longitude x) (distance_a x) (distance_b x) (angle x) (gbc_reserved2 x).
Definition set_geo_area_pos_latitude (v : Z) (x : GbcGacHeader) : GbcGacHeader :=
  mk_GbcGacHeader (gbc_sequence_number x) (gbc_reserved1 x) (gbc_source_position x) v (geo_area_pos_longitude x) (distance_a x) (distance_b x) (angle x) (gbc_reserved2 x).
Definition set_geo_area_pos_longitude (v : Z) (x : GbcGacHeader) : GbcGacHeader :=
  mk_GbcGacHeader (gbc_sequence_number x) (gbc_reserved1 x) (gbc_source_position x) (geo_area_pos_latitude x) v (distance_a x) (distance_b x) (angle x) (gbc_reserved2 x).
Definition set_distance_a (v : Z) (x : GbcGacHeader) : GbcGacHeader :=
  mk_GbcGacHeader (gbc_sequence_number x) (gbc_reserved1 x) (gbc_source_position x) (geo_area_pos_latitude x) (geo_area_pos_longitude x) v (distance_b x) (angle x) (gbc_reserved2 x).
Definition set_distance_b (v : Z) (x : GbcGacHeader) : GbcGacHeader :=
  mk_GbcGacHeader (gbc_sequence_number x) (gbc_reserved1 x) (gbc_source_position x) (geo_area_pos_latitude x) (geo_area_pos_longitude x) (distance_a x) v (angle x) (gbc_reserved2 x).
Definition set_angle (v : Z) (x : GbcGacHeader) : GbcGacHeader :=
  mk_GbcGacHeader (gbc_sequence_number x) (gbc_reserved1 x) (gbc_source_position x) (geo_area_pos_latitude x) (geo_area_pos_longitude x) (distance_a x) (distance_b x) v (gbc_reserved2 x).
Definition set_gbc_reserved2 (v : Z) (x : GbcGacHeader) : GbcGacHeader :=
  mk_GbcGacHeader (gbc_sequence_number x) (gbc_reserved1 x) (gbc_source_position x) (geo_area_pos_latitude x) (geo_area_pos_longitude x) (distance_a x) (distance_b x) (angle x) v.

Definition GbcGacHeader_length_bytes : Z := 20 + 24.

Definition serialize_GbcGacHeader (header : GbcGacHeader) : bytes :=
  serialize_SequenceNumber (gbc_sequence_number header) ++
  serialize_int 2 (gbc_reserved1 header) ++
  serialize_LongPositionVector (gbc_source_position header) ++
  serialize_int 4 (geo_area_pos_latitude header) ++
  serialize_int 4 (geo_area_pos_longitude header) ++
  serialize_int 2 (distance_a header) ++
  serialize_int 2 (distance_b header) ++
  serialize_int 2 (angle header) ++
  serialize_int 2 (gbc_reserved2 header).

Definition deserialize_GbcGacHeader : des GbcGacHeader :=
  on_member gbc_sequence_number set_gbc_sequence_number deserialize_SequenceNumber ;;
  on_member gbc_reserved1 set_gbc_reserved1 (deserialize_uint 2) ;;
  on_member gbc_source_position set_gbc_source_position deserialize_LongPositionVector ;;
  on_member geo_area_pos_latitude set_geo_area_pos_latitude (deserialize_sint 4) ;;
  on_member geo_area_pos_longitude set_geo_area_pos_longitude (deserialize_sint 4) ;;
  on_member distance_a set_distance_a (deserialize_uint 2) ;;
  on_member distance_b set_distance_b (deserialize_uint 2) ;;
  on_member angle set_angle (deserialize_uint 2) ;;
  on_member gbc_reserved2 set_gbc_reserved2 (deserialize_uint 2).

(** GeoBroadcastHeader adds nothing to the data of its base class. *)
Abbreviation GeoBroadcastHeader := GbcGacHeader.

Inductive HeaderVariant :=
  | VBeacon (h : BeaconHeader)
  | VGeoBroadcast (h : GeoBroadcastHeader)
  | VShb (h : ShbHeader)
  | VTsb (h : TsbHeader).

Definition serialize_HeaderVariant (header : HeaderVariant) : bytes :=
  match header with
  | VBeacon h => serialize_BeaconHeader h
  | VGeoBroadcast h => serialize_GbcGacHeader h
  | VShb h => serialize_ShbHeader h
  | VTsb h => serialize_TsbHeader h
  end.

Definition get_length (header : HeaderVariant) : Z :=
  match header with
  | VBeacon _ => BeaconHeader_length_bytes
  | VGeoBroadcast _ => GbcGacHeader_length_bytes
  | VShb _ => ShbHeader_length_bytes
  | VTsb _ => TsbHeader_length_bytes
  end.
