(* ===== verification/GeoHeadersOk.v ===== *)
(** * The serialization of the headers keeps the laws of [Wire]

    One instance per type, from the instances of its members.  The bit fields are read
    as arithmetic first. *)

From Stdlib Require Import ZArith Lia.
From stdpp Require Import prelude countable.
From S2P Require Import Prelude GeoSerial GeoHeaders.

Open Scope Z_scope.

(** * Bit fields *)

Lemma BitNumber_mod w v : 0 <= w -> BitNumber w v = v mod 2 ^ w.
Proof.
  intros Hw. unfold BitNumber. rewrite <- Z.land_ones by done. by rewrite Z.ones_equiv, Z.shiftl_1_l, Z.sub_1_r.
Qed.

Lemma land_field v k m : 0 <= k -> 0 <= m ->
  Z.shiftr (Z.land v (Z.shiftl (Z.ones m) k)) k = v / 2 ^ k mod 2 ^ m.
Proof.
  intros Hk Hm. rewrite Z.shiftr_land, Z.shiftr_shiftl_l, Z.sub_diag, Z.shiftl_0_r by lia.
  by rewrite Z.land_ones, Z.shiftr_div_pow2 by lia.
Qed.

Lemma ctrue_land_bit v k : 0 <= k -> ctrue (Z.land v (2 ^ k)) = Z.testbit v k.
Proof.
  intros Hk. unfold ctrue. destruct (Z.testbit v k) eqn:E.
  - destruct (Z.eqb_spec (Z.land v (2 ^ k)) 0) as [H|]; [|done].
    assert (Z.testbit (Z.land v (2 ^ k)) k = true) as Ht.
    { by rewrite Z.land_spec, E, Z.pow2_bits_true. }
    by rewrite H, Z.bits_0 in Ht.
  - destruct (Z.eqb_spec (Z.land v (2 ^ k)) 0) as [|H]; [done|]. destruct H.
    apply Z.bits_inj'. intros i Hi. rewrite Z.land_spec, Z.bits_0.
    destruct (Z.eq_dec k i) as [<-|Hne]; [by rewrite E|].
    by rewrite Z.pow2_bits_false, andb_false_r.
Qed.

Lemma testbit_top v k : 0 <= k -> 0 <= v < 2 ^ (k + 1) -> Z.testbit v k = (2 ^ k <=? v).
Proof.
  intros Hk Hv. rewrite Z.testbit_odd, Z.shiftr_div_pow2 by done.
  rewrite Z.pow_add_r, Z.pow_1_r in Hv by lia.
  destruct (Z.leb_spec (2 ^ k) v).
  - replace (v / 2 ^ k) with 1; [done|]. apply Z.div_unique with (v - 2 ^ k); lia.
  - by rewrite Z.div_small by lia.
Qed.

Lemma ctrue_land_high v k : 0 <= k -> 0 <= v < 2 ^ (k + 1) ->
  ctrue (Z.land v (2 ^ k)) = (2 ^ k <=? v).
Proof. intros. rewrite ctrue_land_bit by done. by apply testbit_top. Qed.

(** [a] in the low [n] bits, [b] above them. *)
Lemma lor_fields a b n : 0 <= n -> 0 <= a < 2 ^ n -> Z.lor a (b * 2 ^ n) = a + b * 2 ^ n.
Proof.
  intros. rewrite Z.lor_comm, <- Z.shiftl_mul_pow2, lor_shiftl_add by lia.
  rewrite Z.shiftl_mul_pow2 by lia. lia.
Qed.

Lemma high_bit (b : bool) k : (if b then 2 ^ k else 0) = Z.b2z b * 2 ^ k.
Proof. destruct b; simpl Z.b2z; lia. Qed.

Ltac split_wf := repeat match goal with H : _ /\ _ |- _ => destruct H end.

(** * Addresses *)

Definition wf_Address (a : Address) : Prop :=
  0 <= m_station_type a < 2 ^ 5 /\ 0 <= m_country_code a < 2 ^ 10 /\ wf_MacAddress (m_mid a).

Lemma Address_packed a : wf_Address a ->
  manuallyConfiguredAndTypeAndCountryCode a
  = m_country_code a + m_station_type a * 2 ^ 10 + Z.b2z (m_manually_configured a) * 2 ^ 15.
Proof.
  intros (Hs & Hc & _). unfold manuallyConfiguredAndTypeAndCountryCode.
  rewrite (wrap_id 16 (m_country_code a)), (wrap_id 16 (m_station_type a)) by lia.
  replace (Z.land _ station_type_mask) with (m_station_type a * 2 ^ 10).
  - rewrite lor_fields by lia. change manually_configured_mask with (2 ^ 15).
    rewrite high_bit, (wrap_id 16 (_ + _)), lor_fields by lia.
    apply wrap_id; [lia|]. destruct (m_manually_configured a); simpl Z.b2z; lia.
  - symmetry. change station_type_mask with (Z.shiftl (Z.ones 5) station_type_shift).
    rewrite <- Z.shiftl_land, Z.land_ones, Z.mod_small by lia.
    apply Z.shiftl_mul_pow2. done.
Qed.

(** What [deserialize] makes of the sixteen bits. *)
Definition Address_of (v : Z) (mid : MacAddress) : Address :=
  mk_Address (2 ^ 15 <=? v) (v / 2 ^ 10 mod 2 ^ 5) (v mod 2 ^ 10) mid.

Lemma Address_of_eq v mid : 0 <= v < 2 ^ 16 ->
  mk_Address (ctrue (Z.land v manually_configured_mask))
             (Z.shiftr (Z.land v station_type_mask) station_type_shift)
             (BitNumber 10 (Z.land v country_code_mask)) mid = Address_of v mid.
Proof.
  intros Hv. unfold Address_of. f_equal.
  - by apply (ctrue_land_high v 15).
  - by apply (land_field v 10 5).
  - rewrite BitNumber_mod by lia. change country_code_mask with (Z.ones 10).
    rewrite Z.land_ones by lia. by rewrite Z.mod_mod.
Qed.

Lemma Address_of_packed a : wf_Address a ->
  Address_of (manuallyConfiguredAndTypeAndCountryCode a) (m_mid a) = a.
Proof.
  intros Hwf. rewrite Address_packed by done. destruct Hwf as (Hs & Hc & _).
  destruct a as [mc st cc mid]. unfold Address_of. simpl in *. f_equal.
  - destruct mc; simpl Z.b2z; bool_cases; lia || done.
  - destruct mc; simpl Z.b2z; Z.to_euclidean_division_equations; lia.
  - destruct mc; simpl Z.b2z; Z.to_euclidean_division_equations; lia.
Qed.

Lemma Address_of_wf v mid : wf_MacAddress mid -> wf_Address (Address_of v mid).
Proof.
  intros Hm. repeat split; simpl; try done; apply Z.mod_pos_bound; lia.
Qed.

Lemma packed_Address_of v mid : 0 <= v < 2 ^ 16 -> wf_MacAddress mid ->
  manuallyConfiguredAndTypeAndCountryCode (Address_of v mid) = v.
Proof.
  intros Hv Hm. rewrite Address_packed by (by apply Address_of_wf). unfold Address_of.
  cbn [m_country_code m_station_type m_manually_configured].
  destruct (Z.leb_spec (2 ^ 15) v); simpl Z.b2z; Z.to_euclidean_division_equations; lia.
Qed.

#[export] Instance Address_wire :
  Wire serialize_Address deserialize_Address 8 wf_Address.
Proof.
  split.
  - unfold deserialize_Address. change 8 with (Z.of_nat 2 + 6). exact _.
  - intros a. unfold serialize_Address. by wire_sizes.
  - intros a. unfold serialize_Address. wire_octets.
  - intros a x0 r e Hwf. pose proof (Address_packed a Hwf) as Hp.
    pose proof Hwf as (Hs & Hc & Hm).
    assert (is_uint 2 (manuallyConfiguredAndTypeAndCountryCode a)) as Hv.
    { unfold is_uint. rewrite Hp. destruct (m_manually_configured a); simpl Z.b2z; lia. }
    unfold serialize_Address, deserialize_Address.
    wire_reading wire_read_back. cbn [m_mid m_manually_configured m_station_type m_country_code].
    rewrite (Address_of_eq _ _ Hv). by rewrite Address_of_packed.
  - intros b Hb Hs. change 8 with (Z.of_nat 2 + 6) in Hs.
    wire_member (deserialize_uint 2) v. wire_last deserialize_MacAddress mid.
    exists (Address_of v mid). split; [by apply Address_of_wf|].
    unfold serialize_Address. by rewrite packed_Address_of.
Qed.

(** * Numbers *)

#[export] Instance Timestamp_wire :
  Wire serialize_Timestamp deserialize_Timestamp 4 (is_uint 4).
Proof. apply (assign_wire _ _ _ _ 0 (uint_wire 4)). Qed.

#[export] Instance SequenceNumber_wire :
  Wire serialize_SequenceNumber deserialize_SequenceNumber 2 (is_uint 2).
Proof. apply (assign_wire _ _ _ _ 0 (uint_wire 2)). Qed.

#[export] Instance Lifetime_wire :
  Wire serialize_Lifetime deserialize_Lifetime 1 (is_uint 1).
Proof. apply (assign_wire _ _ _ _ 0 (uint_wire 1)). Qed.

#[export] Instance TrafficClass_wire :
  Wire serialize_TrafficClass deserialize_TrafficClass 1 (is_uint 1).
Proof. apply (assign_wire _ _ _ _ 0 (uint_wire 1)). Qed.

(** * Position vectors *)

Definition wf_LongPositionVector (lpv : LongPositionVector) : Prop :=
  wf_Address (gn_addr lpv) /\ is_uint 4 (timestamp lpv) /\
  is_sint 4 (latitude lpv) /\ is_sint 4 (longitude lpv) /\
  0 <= speed lpv < 2 ^ 15 /\ is_uint 2 (heading lpv).

Lemma paiAndSpeed_packed lpv : 0 <= speed lpv < 2 ^ 15 ->
  paiAndSpeed lpv = speed lpv + Z.b2z (position_accuracy_indicator lpv) * 2 ^ 15.
Proof.
  intros Hs. unfold paiAndSpeed. change 0x8000 with (2 ^ 15).
  rewrite high_bit, (wrap_id 16 (speed lpv)), lor_fields by lia.
  apply wrap_id; [lia|]. destruct (position_accuracy_indicator lpv); simpl Z.b2z; lia.
Qed.

Lemma paiAndSpeed_range lpv : 0 <= speed lpv < 2 ^ 15 -> is_uint 2 (paiAndSpeed lpv).
Proof.
  intros Hs. rewrite paiAndSpeed_packed by done. unfold is_uint.
  destruct (position_accuracy_indicator lpv); simpl Z.b2z; lia.
Qed.

Lemma paiAndSpeed_unpacked lpv : 0 <= speed lpv < 2 ^ 15 ->
  ctrue (Z.land (paiAndSpeed lpv) 0x8000) = position_accuracy_indicator lpv /\
  BitNumber 15 (paiAndSpeed lpv) = speed lpv.
Proof.
  intros Hs. pose proof (paiAndSpeed_range lpv Hs) as Hr.
  rewrite BitNumber_mod by lia. split.
  - change 0x8000 with (2 ^ 15). rewrite ctrue_land_high by (try exact Hr; lia).
    rewrite paiAndSpeed_packed by done.
    destruct (position_accuracy_indicator lpv); simpl Z.b2z; bool_cases; lia || done.
  - rewrite paiAndSpeed_packed, Z.mod_add, Z.mod_small; lia.
Qed.

#[export] Instance LongPositionVector_wire :
  Wire serialize_LongPositionVector deserialize_LongPositionVector 24 wf_LongPositionVector.
Proof.
  split.
  - unfold deserialize_LongPositionVector.
    change 24 with (8 + (4 + (Z.of_nat 4 + (Z.of_nat 4 + (Z.of_nat 2 + Z.of_nat 2))))). exact _.
  - intros x. unfold serialize_LongPositionVector. by wire_sizes.
  - intros x. unfold serialize_LongPositionVector. wire_octets.
  - intros x x0 r e (? & ? & ? & ? & Hs & ?).
    pose proof (paiAndSpeed_range x Hs). destruct (paiAndSpeed_unpacked x Hs) as [Hp Hv].
    unfold serialize_LongPositionVector, deserialize_LongPositionVector.
    wire_reading wire_read_back. rewrite Hp, Hv. by destruct x.
  - intros b Hb Hs.
    change 24 with (8 + (4 + (Z.of_nat 4 + (Z.of_nat 4 + (Z.of_nat 2 + Z.of_nat 2))))) in Hs.
    wire_member deserialize_Address a. wire_member deserialize_Timestamp ts.
    wire_member (deserialize_sint 4) lat. wire_member (deserialize_sint 4) lon.
    wire_member (deserialize_uint 2) ps. wire_last (deserialize_uint 2) hdg.
    exists (mk_LongPositionVector a ts lat lon (2 ^ 15 <=? ps) (ps mod 2 ^ 15) hdg).
    assert (0 <= ps mod 2 ^ 15 < 2 ^ 15) by (apply Z.mod_pos_bound; lia).
    split; [by unfold wf_LongPositionVector|].
    unfold serialize_LongPositionVector. rewrite paiAndSpeed_packed by done.
    cbn [gn_addr timestamp latitude longitude speed heading position_accuracy_indicator].
    do 4 f_equal. f_equal. f_equal.
    match goal with H : is_uint 2 ps |- _ => unfold is_uint in H end.
    destruct (Z.leb_spec (2 ^ 15) ps); simpl Z.b2z; Z.to_euclidean_division_equations; lia.
Qed.

(** * Basic and common header *)

(** Two fields of four bits in an octet. *)
Lemma nibbles hi lo : 0 <= hi < 2 ^ 4 -> 0 <= lo < 2 ^ 4 ->
  u8 (Z.lor (u8 (Z.shiftl (u8 hi) 4)) lo) = hi * 2 ^ 4 + lo.
Proof.
  intros Hh Hl. rewrite (wrap_id 8 hi), (wrap_id 8 (Z.shiftl hi 4)) by
    (rewrite ?Z.shiftl_mul_pow2; lia).
  rewrite lor_shiftl_add by lia. apply wrap_id; lia.
Qed.

Lemma nibbles_range hi lo :
  0 <= hi < 2 ^ 4 -> 0 <= lo < 2 ^ 4 -> is_uint 1 (hi * 2 ^ 4 + lo).
Proof. unfold is_uint. lia. Qed.

Lemma high_nibble hi lo : 0 <= hi < 2 ^ 4 -> 0 <= lo < 2 ^ 4 ->
  Z.shiftr (hi * 2 ^ 4 + lo) 4 = hi.
Proof.
  intros. rewrite Z.shiftr_div_pow2, Z.div_add_l, Z.div_small, Z.add_0_r by lia. done.
Qed.

Lemma low_nibble hi lo : 0 <= hi < 2 ^ 4 -> 0 <= lo < 2 ^ 4 ->
  Z.land (hi * 2 ^ 4 + lo) 0x0f = lo.
Proof.
  intros. change 0x0f with (Z.ones 4).
  rewrite Z.land_ones, Z.add_comm, Z.mod_add, Z.mod_small by lia. done.
Qed.

Lemma BitNumber_id w v : 0 <= w -> 0 <= v < 2 ^ w -> BitNumber w v = v.
Proof. intros. by rewrite BitNumber_mod, Z.mod_small. Qed.

(** An octet is its nibbles. *)
Lemma octet_nibbles v : is_uint 1 v ->
  0 <= v / 2 ^ 4 < 2 ^ 4 /\ 0 <= v mod 2 ^ 4 < 2 ^ 4 /\ v / 2 ^ 4 * 2 ^ 4 + v mod 2 ^ 4 = v.
Proof. unfold is_uint. intros Hv. Z.to_euclidean_division_equations. lia. Qed.

Definition wf_BasicHeader (h : BasicHeader) : Prop :=
  0 <= version h < 2 ^ 4 /\ 0 <= basic_next_header h < 2 ^ 4 /\
  is_uint 1 (basic_reserved h) /\ is_uint 1 (lifetime h) /\ is_uint 1 (hop_limit h).

Lemma versionAndNextHeader_packed h : wf_BasicHeader h ->
  versionAndNextHeader h = version h * 2 ^ 4 + basic_next_header h.
Proof.
  intros (Hv & Hn & _). unfold versionAndNextHeader. change 0x0f with (Z.ones 4).
  rewrite Z.land_ones, Z.mod_small by lia. by apply nibbles.
Qed.

#[export] Instance BasicHeader_wire :
  Wire serialize_BasicHeader deserialize_BasicHeader BasicHeader_length_bytes wf_BasicHeader.
Proof.
  split.
  - unfold deserialize_BasicHeader. change BasicHeader_length_bytes
      with (Z.of_nat 1 + (Z.of_nat 1 + (1 + Z.of_nat 1))). exact _.
  - intros h. unfold serialize_BasicHeader. by wire_sizes.
  - intros h. unfold serialize_BasicHeader. wire_octets.
  - intros h x0 r e Hwf. pose proof (versionAndNextHeader_packed h Hwf) as Hp.
    destruct Hwf as (Hv & Hn & ? & ? & ?). pose proof (nibbles_range _ _ Hv Hn).
    unfold serialize_BasicHeader, deserialize_BasicHeader. rewrite Hp.
    wire_reading wire_read_back.
    rewrite high_nibble, low_nibble, BitNumber_id by lia. by destruct h.
  - intros b Hb Hs. change BasicHeader_length_bytes
      with (Z.of_nat 1 + (Z.of_nat 1 + (1 + Z.of_nat 1))) in Hs.
    wire_member (deserialize_uint 1) v. wire_member (deserialize_uint 1) res.
    wire_member deserialize_Lifetime l. wire_last (deserialize_uint 1) hl.
    destruct (octet_nibbles v) as (? & ? & Ev); [done|].
    assert (wf_BasicHeader (mk_BasicHeader (v / 2 ^ 4) (v mod 2 ^ 4) res l hl)) as Hwf
      by by unfold wf_BasicHeader.
    eexists. split; [exact Hwf|]. unfold serialize_BasicHeader.
    rewrite versionAndNextHeader_packed by done. cbn [version basic_next_header].
    by rewrite Ev.
Qed.

Definition wf_CommonHeader (h : CommonHeader) : Prop :=
  0 <= next_header h < 2 ^ 4 /\ 0 <= reserved1 h < 2 ^ 4 /\ is_uint 1 (header_type h) /\
  is_uint 1 (traffic_class h) /\ is_uint 1 (flags h) /\ is_uint 2 (payload h) /\
  is_uint 1 (maximum_hop_limit h) /\ is_uint 1 (reserved2 h).

#[export] Instance CommonHeader_wire :
  Wire serialize_CommonHeader deserialize_CommonHeader CommonHeader_length_bytes wf_CommonHeader.
Proof.
  split.
  - unfold deserialize_CommonHeader. change CommonHeader_length_bytes with
      (Z.of_nat 1 + (Z.of_nat 1 + (1 + (Z.of_nat 1 + (Z.of_nat 2 + (Z.of_nat 1 + Z.of_nat 1)))))).
    exact _.
  - intros h. unfold serialize_CommonHeader. by wire_sizes.
  - intros h. unfold serialize_CommonHeader. wire_octets.
  - intros h x0 r e (Hn & Hr & ? & ? & ? & ? & ? & ?). pose proof (nibbles_range _ _ Hn Hr).
    unfold serialize_CommonHeader, deserialize_CommonHeader, nextHeaderAndReserved.
    rewrite nibbles by lia. wire_reading wire_read_back.
    rewrite high_nibble, low_nibble, BitNumber_id by lia. by destruct h.
  - intros b Hb Hs. change CommonHeader_length_bytes with
      (Z.of_nat 1 + (Z.of_nat 1 + (1 + (Z.of_nat 1 + (Z.of_nat 2 + (Z.of_nat 1 + Z.of_nat 1))))))
      in Hs.
    wire_member (deserialize_uint 1) v. wire_member (deserialize_uint 1) ht.
    wire_member deserialize_TrafficClass tcl. wire_member (deserialize_uint 1) fl.
    wire_member (deserialize_uint 2) pl. wire_member (deserialize_uint 1) mhl.
    wire_last (deserialize_uint 1) r2.
    destruct (octet_nibbles v) as (? & ? & Ev); [done|].
    exists (mk_CommonHeader (v / 2 ^ 4) (v mod 2 ^ 4) ht tcl fl pl mhl r2).
    split; [by unfold wf_CommonHeader|].
    unfold serialize_CommonHeader, nextHeaderAndReserved. cbn [next_header reserved1].
    by rewrite nibbles, Ev by done.
Qed.

(** * Extended headers *)

Definition wf_BeaconHeader (h : BeaconHeader) : Prop :=
  wf_LongPositionVector (beacon_source_position h).

#[export] Instance BeaconHeader_wire :
  Wire serialize_BeaconHeader deserialize_BeaconHeader BeaconHeader_length_bytes wf_BeaconHeader.
Proof.
  split.
  - unfold deserialize_BeaconHeader. exact _.
  - intros h. unfold serialize_BeaconHeader. by wire_sizes.
  - intros h. unfold serialize_BeaconHeader. wire_octets.
  - intros h x0 r e Hwf. unfold wf_BeaconHeader, serialize_BeaconHeader, deserialize_BeaconHeader in *.
    wire_reading wire_read_back. by destruct h.
  - intros b Hb Hs. wire_last deserialize_LongPositionVector pv. by exists (mk_BeaconHeader pv).
Qed.

(** The field is read as a number, so the number is what round trips. *)
Definition wf_DccField (field : DccField) : Prop :=
  match field with DccMco _ => False | DccRaw raw => is_uint 4 raw end.

#[export] Instance DccField_wire :
  Wire serialize_DccField deserialize_DccField 4 wf_DccField.
Proof.
  split.
  - unfold deserialize_DccField. change 4 with (Z.of_nat 4). exact _.
  - intros f. unfold serialize_DccField. by wire_sizes.
  - intros f. unfold serialize_DccField. wire_octets.
  - intros [|raw] x0 r e Hwf; [done|]. unfold serialize_DccField, deserialize_DccField.
    simpl in Hwf. by wire_reading wire_read_back.
  - intros b Hb Hs. wire_last (deserialize_uint 4) raw. by exists (DccRaw raw).
Qed.

Definition wf_DccMcoField (mco : DccMcoField) : Prop :=
  is_uint 1 (m_cbr_l0_hop mco) /\ is_uint 1 (m_cbr_l1_hop mco) /\
  0 <= m_output_power mco < 2 ^ 5.

Lemma DccMcoField_packed mco : wf_DccMcoField mco ->
  DccMcoField_to mco
  = m_cbr_l0_hop mco * 2 ^ 24 + m_cbr_l1_hop mco * 2 ^ 16 + m_output_power mco * 2 ^ 11.
Proof.
  unfold wf_DccMcoField, is_uint. intros (H0 & H1 & H2). unfold DccMcoField_to.
  rewrite (wrap_id 32 (Z.shiftl _ 8)) by (rewrite ?Z.shiftl_mul_pow2; lia).
  rewrite lor_shiftl_add, (wrap_id 32 (_ * 2 ^ 8 + _)) by lia.
  rewrite (wrap_id 32 (Z.shiftl _ 5)) by (rewrite ?Z.shiftl_mul_pow2; lia).
  rewrite lor_shiftl_add, (wrap_id 32 (_ * 2 ^ 5 + _)) by lia.
  rewrite Z.shiftl_mul_pow2, wrap_id; lia.
Qed.

(** The congestion control field that was written is extracted from the number. *)
Lemma DccMcoField_roundtrip mco : wf_DccMcoField mco ->
  get_dcc_mco (DccRaw (DccMcoField_to mco)) = Some mco /\ is_uint 4 (DccMcoField_to mco).
Proof.
  intros Hwf. rewrite DccMcoField_packed by done. destruct mco as [a b c].
  destruct Hwf as (H0 & H1 & H2). unfold is_uint in *. simpl in *. split; [|lia].
  unfold DccMcoField_from. rewrite !Z.shiftr_div_pow2 by lia. unfold wrap.
  rewrite BitNumber_mod by lia. do 2 f_equal; Z.to_euclidean_division_equations; lia.
Qed.

Definition wf_ShbHeader (h : ShbHeader) : Prop :=
  wf_LongPositionVector (shb_source_position h) /\ wf_DccField (dcc h).

#[export] Instance ShbHeader_wire :
  Wire serialize_ShbHeader deserialize_ShbHeader ShbHeader_length_bytes wf_ShbHeader.
Proof.
  split.
  - unfold deserialize_ShbHeader. change ShbHeader_length_bytes with (24 + 4). exact _.
  - intros h. unfold serialize_ShbHeader. by wire_sizes.
  - intros h. unfold serialize_ShbHeader. wire_octets.
  - intros h x0 r e (? & ?). unfold serialize_ShbHeader, deserialize_ShbHeader.
    wire_reading wire_read_back. by destruct h.
  - intros b Hb Hs. change ShbHeader_length_bytes with (24 + 4) in Hs.
    wire_member deserialize_LongPositionVector pv. wire_last deserialize_DccField f.
    by exists (mk_ShbHeader pv f).
Qed.

Definition wf_TsbHeader (h : TsbHeader) : Prop :=
  is_uint 2 (tsb_sequence_number h) /\ is_uint 2 (tsb_reserved h) /\
  wf_LongPositionVector (tsb_source_position h).

#[export] Instance TsbHeader_wire :
  Wire serialize_TsbHeader deserialize_TsbHeader TsbHeader_length_bytes wf_TsbHeader.
Proof.
  split.
  - unfold deserialize_TsbHeader.
    change TsbHeader_length_bytes with (2 + (Z.of_nat 2 + 24)). exact _.
  - intros h. unfold serialize_TsbHeader. by wire_sizes.
  - intros h. unfold serialize_TsbHeader. wire_octets.
  - intros h x0 r e (? & ? & ?). unfold serialize_TsbHeader, deserialize_TsbHeader.
    wire_reading wire_read_back. by destruct h.
  - intros b Hb Hs. change TsbHeader_length_bytes with (2 + (Z.of_nat 2 + 24)) in Hs.
    wire_member deserialize_SequenceNumber num. wire_member (deserialize_uint 2) res.
    wire_last deserialize_LongPositionVector pv. by exists (mk_TsbHeader num res pv).
Qed.

Definition wf_GbcGacHeader (h : GbcGacHeader) : Prop :=
  is_uint 2 (gbc_sequence_number h) /\ is_uint 2 (gbc_reserved1 h) /\
  wf_LongPositionVector (gbc_source_position h) /\
  is_sint 4 (geo_area_pos_latitude h) /\ is_sint 4 (geo_area_pos_longitude h) /\
  is_uint 2 (distance_a h) /\ is_uint 2 (distance_b h) /\ is_uint 2 (angle h) /\
  is_uint 2 (gbc_reserved2 h).

#[export] Instance GbcGacHeader_wire :
  Wire serialize_GbcGacHeader deserialize_GbcGacHeader GbcGacHeader_length_bytes wf_GbcGacHeader.
Proof.
  split.
  - unfold deserialize_GbcGacHeader. change GbcGacHeader_length_bytes with
      (2 + (Z.of_nat 2 + (24 + (Z.of_nat 4 + (Z.of_nat 4 + (Z.of_nat 2 + (Z.of_nat 2 +
       (Z.of_nat 2 + Z.of_nat 2)))))))). exact _.
  - intros h. unfold serialize_GbcGacHeader. by wire_sizes.
  - intros h. unfold serialize_GbcGacHeader. wire_octets.
  - intros h x0 r e (? & ? & ? & ? & ? & ? & ? & ? & ?).
    unfold serialize_GbcGacHeader, deserialize_GbcGacHeader.
    wire_reading wire_read_back. by destruct h.
  - intros b Hb Hs. change GbcGacHeader_length_bytes with
      (2 + (Z.of_nat 2 + (24 + (Z.of_nat 4 + (Z.of_nat 4 + (Z.of_nat 2 + (Z.of_nat 2 +
       (Z.of_nat 2 + Z.of_nat 2)))))))) in Hs.
    wire_member deserialize_SequenceNumber num. wire_member (deserialize_uint 2) res1.
    wire_member deserialize_LongPositionVector pv.
    wire_member (deserialize_sint 4) lat. wire_member (deserialize_sint 4) lon.
    wire_member (deserialize_uint 2) da. wire_member (deserialize_uint 2) db.
    wire_member (deserialize_uint 2) an. wire_last (deserialize_uint 2) res2.
    by exists (mk_GbcGacHeader num res1 pv lat lon da db an res2).
Qed.
