(* ===== verification/GeoPdu.v ===== *)
(** * Packets and their parser

    geonet/pdu.cpp and geonet/parser.cpp.  A packet is a basic header followed by a
    secured message, or by a common and an extended header.  The secured message has
    codecs of its own (security/v2, security/v3), which the class [SecuredArchive] stands
    for. *)

From Stdlib Require Import ZArith Lia.
From stdpp Require Import prelude.
From S2P Require Import Prelude GeoSerial GeoHeaders.

Open Scope Z_scope.

(** [security::serialize], [security::get_size] and the two [deserialize] functions; a
    deserializer that throws gives [None]. *)
Class SecuredArchive := {
  SecuredMessage : Type;
  security_serialize : SecuredMessage -> bytes;
  security_get_size : SecuredMessage -> Z;
  v2_deserialize : InputArchive -> option (Z * SecuredMessage) * InputArchive;
  v3_deserialize : InputArchive -> option (Z * SecuredMessage) * InputArchive;
}.

(** * Parser *)

Record Parser := mk_Parser {
  m_archive : InputArchive;
  m_read_bytes : Z;
}.

Definition make_Parser (buffer : bytes) : Parser := mk_Parser (mk_archive buffer Ok) 0.

Definition parsed_bytes (p : Parser) : Z := m_read_bytes p.

(** Every method returns the number of octets, zero when an exception was caught, the
    object it was given by reference, and the parser. *)
Definition parse_basic (basic : BasicHeader) (p : Parser) : Z * BasicHeader * Parser :=
  let '(ok, basic, ar) := deserialize_BasicHeader basic (m_archive p) in
  let bytes := if ok then BasicHeader_length_bytes else 0 in
  (bytes, basic, mk_Parser ar (m_read_bytes p + bytes)).

Definition parse_common (common : CommonHeader) (p : Parser) : Z * CommonHeader * Parser :=
  let '(ok, common, ar) := deserialize_CommonHeader common (m_archive p) in
  let bytes := if ok then CommonHeader_length_bytes else 0 in
  (bytes, common, mk_Parser ar (m_read_bytes p + bytes)).

(** The headers as their constructors leave them. *)
Definition default_BeaconHeader : BeaconHeader := mk_BeaconHeader default_LongPositionVector.
Definition default_ShbHeader : ShbHeader := mk_ShbHeader default_LongPositionVector (DccRaw 0).
Definition default_TsbHeader : TsbHeader := mk_TsbHeader 0 0 default_LongPositionVector.
Definition default_GeoBroadcastHeader : GeoBroadcastHeader :=
  mk_GbcGacHeader 0 0 default_LongPositionVector 0 0 0 0 0 0.

(** The header is assigned to [extended] only after all of it was read. *)
Definition deserialize_extended {T} (header : T) (deserialize : des T)
    (variant : T -> HeaderVariant) (length_bytes : Z)
    (ar : InputArchive) (extended : HeaderVariant) : Z * HeaderVariant * InputArchive :=
  let '(ok, header, ar) := deserialize header ar in
  if ok then (length_bytes, variant header, ar) else (0, extended, ar).

Definition parse_extended (extended : HeaderVariant) (ht : HeaderType) (p : Parser)
  : Z * HeaderVariant * Parser :=
  let ar := m_archive p in
  let '(bytes, extended, ar) :=
    if ht =? TSB_Single_Hop then
      deserialize_extended default_ShbHeader deserialize_ShbHeader VShb
        ShbHeader_length_bytes ar extended
    else if ht =? TSB_Multi_Hop then
      deserialize_extended default_TsbHeader deserialize_TsbHeader VTsb
        TsbHeader_length_bytes ar extended
    else if (ht =? GeoBroadcast_Circle) || (ht =? GeoBroadcast_Rect)
            || (ht =? GeoBroadcast_Elip) then
      deserialize_extended default_GeoBroadcastHeader deserialize_GbcGacHeader VGeoBroadcast
        GbcGacHeader_length_bytes ar extended
    else if ht =? Beacon then
      deserialize_extended default_BeaconHeader deserialize_BeaconHeader VBeacon
        BeaconHeader_length_bytes ar extended
    else (0, extended, ar) in
  (bytes, extended, mk_Parser ar (m_read_bytes p + bytes)).

Section secured.
Context `{SecuredArchive}.

(** [secured] is assigned only when a deserializer returns. *)
Definition parse_secured (secured : option SecuredMessage) (p : Parser)
  : Z * option SecuredMessage * Parser :=
  let ar := m_archive p in
  if is_good ar then
    let '(bytes, secured, ar) :=
      match peek_byte ar with
      | (None, ar) => (0, secured, ar)
      | (Some sec_first_byte, ar) =>
          let deserialize :=
            if sec_first_byte <? 3 then Some v2_deserialize
            else if sec_first_byte =? 3 then Some v3_deserialize
            else None in
          match deserialize with
          | None => (0, secured, ar)
          | Some deserialize =>
              match deserialize ar with
              | (Some (bytes, msg), ar) => (bytes, Some msg, ar)
              | (None, ar) => (0, secured, ar)
              end
          end
      end in
    (bytes, secured, mk_Parser ar (m_read_bytes p + bytes))
  else (0, secured, p).

(** * Packets *)

Record Pdu := mk_Pdu {
  basic : BasicHeader;
  common : CommonHeader;
  extended : HeaderVariant;
  secured : option SecuredMessage;
}.

Definition serialize_Pdu (pdu : Pdu) : bytes :=
  serialize_BasicHeader (basic pdu) ++
  match secured pdu with
  | Some msg => security_serialize msg
  | None => serialize_CommonHeader (common pdu) ++ serialize_HeaderVariant (extended pdu)
  end.

Definition Pdu_get_length (pdu : Pdu) : Z :=
  BasicHeader_length_bytes +
  match secured pdu with
  | Some msg => security_get_size msg
  | None => CommonHeader_length_bytes + get_length (extended pdu)
  end.

(** [convert_for_signing] and [serialize] of a SecuredPdu. *)
Definition serialize_SecuredPdu (pdu : Pdu) : bytes :=
  serialize_CommonHeader (common pdu) ++ serialize_HeaderVariant (extended pdu).

(** The three calls of the router for a packet that is not secured, in its order;
    [None] as soon as one of them reads nothing (indication_context.cpp). *)
Definition parse_unsecured (p : Parser)
  : option (BasicHeader * CommonHeader * HeaderVariant) * Parser :=
  let '(bytes, basic, p) := parse_basic default_BasicHeader p in
  if bytes >? 0 then
    let '(bytes, common, p) := parse_common default_CommonHeader p in
    if bytes >? 0 then
      let '(bytes, extended, p) := parse_extended (VBeacon default_BeaconHeader)
                                                  (header_type common) p in
      if bytes >? 0 then (Some (basic, common, extended), p) else (None, p)
    else (None, p)
  else (None, p).

End secured.
