(* ===== verification/GeoPduOk.v ===== *)
(** * What the parser does with any octets

    [extended_length] is the specification of the dispatch on the header type. *)

From Stdlib Require Import ZArith Lia.
From stdpp Require Import prelude.
From S2P Require Import Prelude GeoSerial GeoHeaders GeoHeadersOk GeoPdu.

Open Scope Z_scope.

(** The size of the extended header of a type, for the types that are implemented. *)
Definition extended_length (ht : HeaderType) : option Z :=
  if ht =? TSB_Single_Hop then Some 28
  else if ht =? TSB_Multi_Hop then Some 28
  else if (ht =? GeoBroadcast_Circle) || (ht =? GeoBroadcast_Rect)
          || (ht =? GeoBroadcast_Elip) then Some 44
  else if ht =? Beacon then Some 24
  else None.

(** The alternative of the variant that belongs to a type. *)
Definition fits_type (ht : HeaderType) (h : HeaderVariant) : Prop :=
  match h with
  | VShb _ => ht = TSB_Single_Hop
  | VTsb _ => ht = TSB_Multi_Hop
  | VGeoBroadcast _ =>
      ht = GeoBroadcast_Circle \/ ht = GeoBroadcast_Rect \/ ht = GeoBroadcast_Elip
  | VBeacon _ => ht = Beacon
  end.

Definition wf_HeaderVariant (h : HeaderVariant) : Prop :=
  match h with
  | VBeacon h => wf_BeaconHeader h
  | VGeoBroadcast h => wf_GbcGacHeader h
  | VShb h => wf_ShbHeader h
  | VTsb h => wf_TsbHeader h
  end.

Lemma size_HeaderVariant h : size (serialize_HeaderVariant h) = get_length h.
Proof. destruct h; simpl; apply wire_size. Qed.

Lemma all_bytes_HeaderVariant h : all_bytes (serialize_HeaderVariant h).
Proof. destruct h; simpl; apply wire_bytes. Qed.

(** * One call *)

(** The outcome of reading a header of [n] octets at the front of [s]. *)
Definition read_header {T} (serialize : T -> bytes) (n : Z) (wf : T -> Prop)
    (s : bytes) (e : ErrorCode) (before : Z) (res : Z * T * Parser) : Prop :=
  let '(bytes, x, p) := res in
  (bytes = n /\ n <= size s /\ wf x /\ ztake n s = serialize x /\
   p = mk_Parser (mk_archive (zdrop n s) e) (before + n)) \/
  (bytes = 0 /\ size s < n /\
   p = mk_Parser (mk_archive [] (failed_code e IncompleteData)) (before + 0)).

Lemma read_cases {T} (serialize : T -> bytes) deserialize n wf x0 s e :
  Wire serialize deserialize n wf -> all_bytes s ->
  (n <= size s /\ exists x, wf x /\ ztake n s = serialize x /\
     deserialize x0 (mk_archive s e) = (true, x, mk_archive (zdrop n s) e)) \/
  (size s < n /\ exists x,
     deserialize x0 (mk_archive s e)
     = (false, x, mk_archive [] (failed_code e IncompleteData))).
Proof.
  intros W Hs. pose proof (reads_nonneg (d := deserialize)).
  destruct (decide (n <= size s)) as [Hn|Hn]; [left|right].
  - split; [done|].
    destruct (wire_onto (ztake n s)) as (x & Hx & E); [auto with asn|rewrite size_ztake; lia|].
    exists x. split_and!; [done..|].
    rewrite <- (ztake_zdrop n s) at 1. rewrite <- E. by apply wire_roundtrip.
  - split; [lia|]. apply reads_short. lia.
Qed.

Lemma parse_basic_spec x0 s e before : all_bytes s ->
  read_header serialize_BasicHeader BasicHeader_length_bytes wf_BasicHeader s e before
    (parse_basic x0 (mk_Parser (mk_archive s e) before)).
Proof.
  intros Hs. unfold parse_basic, read_header. simpl m_archive.
  destruct (read_cases serialize_BasicHeader deserialize_BasicHeader
              BasicHeader_length_bytes wf_BasicHeader x0 s e _ Hs)
    as [(Hn & x & Hx & E & ->)|(Hn & x & ->)]; auto 10.
Qed.

Lemma parse_common_spec x0 s e before : all_bytes s ->
  read_header serialize_CommonHeader CommonHeader_length_bytes wf_CommonHeader s e before
    (parse_common x0 (mk_Parser (mk_archive s e) before)).
Proof.
  intros Hs. unfold parse_common, read_header. simpl m_archive.
  destruct (read_cases serialize_CommonHeader deserialize_CommonHeader
              CommonHeader_length_bytes wf_CommonHeader x0 s e _ Hs)
    as [(Hn & x & Hx & E & ->)|(Hn & x & ->)]; auto 10.
Qed.

Lemma deserialize_extended_spec {T} (serialize : T -> bytes) deserialize wf h0
    (variant : T -> HeaderVariant) n s e ext :
  Wire serialize deserialize n wf -> all_bytes s ->
  (n <= size s /\ exists h, wf h /\ ztake n s = serialize h /\
     deserialize_extended h0 deserialize variant n (mk_archive s e) ext
     = (n, variant h, mk_archive (zdrop n s) e)) \/
  (size s < n /\
     deserialize_extended h0 deserialize variant n (mk_archive s e) ext
     = (0, ext, mk_archive [] (failed_code e IncompleteData))).
Proof.
  intros W Hs. unfold deserialize_extended.
  destruct (read_cases _ _ _ _ h0 s e W Hs) as [(Hn & x & Hx & E & ->)|(Hn & x & ->)]; eauto 10.
Qed.

(** A type that is not implemented reads nothing and leaves the archive as it is. *)
Lemma parse_extended_spec ext ht s e before : all_bytes s ->
  match extended_length ht with
  | Some n =>
      (n <= size s /\ exists h, wf_HeaderVariant h /\ fits_type ht h /\ get_length h = n /\
         ztake n s = serialize_HeaderVariant h /\
         parse_extended ext ht (mk_Parser (mk_archive s e) before)
         = (n, h, mk_Parser (mk_archive (zdrop n s) e) (before + n))) \/
      (size s < n /\
         parse_extended ext ht (mk_Parser (mk_archive s e) before)
         = (0, ext, mk_Parser (mk_archive [] (failed_code e IncompleteData)) (before + 0)))
  | None =>
      parse_extended ext ht (mk_Parser (mk_archive s e) before)
      = (0, ext, mk_Parser (mk_archive s e) (before + 0))
  end.
Proof.
  intros Hs. unfold parse_extended, extended_length. cbn [m_archive m_read_bytes].
  destruct (Z.eqb_spec ht TSB_Single_Hop) as [->|N1].
  { destruct (deserialize_extended_spec serialize_ShbHeader deserialize_ShbHeader _
      default_ShbHeader VShb _ s e ext _ Hs) as [(Hn & h & Hw & Ht & ->)|(Hn & ->)];
      [left; split; [done|]; exists (VShb h); by split_and!|by right]. }
  destruct (Z.eqb_spec ht TSB_Multi_Hop) as [->|N2].
  { destruct (deserialize_extended_spec serialize_TsbHeader deserialize_TsbHeader _
      default_TsbHeader VTsb _ s e ext _ Hs) as [(Hn & h & Hw & Ht & ->)|(Hn & ->)];
      [left; split; [done|]; exists (VTsb h); by split_and!|by right]. }
  destruct ((ht =? GeoBroadcast_Circle) || _ || _) eqn:Eg.
  { assert (ht = GeoBroadcast_Circle \/ ht = GeoBroadcast_Rect \/ ht = GeoBroadcast_Elip) by lia.
    destruct (deserialize_extended_spec serialize_GbcGacHeader deserialize_GbcGacHeader _
      default_GeoBroadcastHeader VGeoBroadcast _ s e ext _ Hs)
      as [(Hn & h & Hw & Ht & ->)|(Hn & ->)];
      [left; split; [done|]; exists (VGeoBroadcast h); by split_and!|by right]. }
  destruct (Z.eqb_spec ht Beacon) as [->|N4]; [|done].
  destruct (deserialize_extended_spec serialize_BeaconHeader deserialize_BeaconHeader _
    default_BeaconHeader VBeacon _ s e ext _ Hs) as [(Hn & h & Hw & Ht & ->)|(Hn & ->)];
    [left; split; [done|]; exists (VBeacon h); by split_and!|by right].
Qed.

(** * What was written is read *)

Lemma parse_basic_written x0 h r e before : wf_BasicHeader h ->
  parse_basic x0 (mk_Parser (mk_archive (serialize_BasicHeader h ++ r) e) before)
  = (BasicHeader_length_bytes, h,
     mk_Parser (mk_archive r e) (before + BasicHeader_length_bytes)).
Proof. intros Hw. unfold parse_basic. cbn [m_archive]. by rewrite wire_roundtrip. Qed.

Lemma parse_common_written x0 h r e before : wf_CommonHeader h ->
  parse_common x0 (mk_Parser (mk_archive (serialize_CommonHeader h ++ r) e) before)
  = (CommonHeader_length_bytes, h,
     mk_Parser (mk_archive r e) (before + CommonHeader_length_bytes)).
Proof. intros Hw. unfold parse_common. cbn [m_archive]. by rewrite wire_roundtrip. Qed.

Lemma deserialize_extended_written {T} (serialize : T -> bytes) deserialize n wf h0 h
    (variant : T -> HeaderVariant) r e ext :
  Wire serialize deserialize n wf -> wf h ->
  deserialize_extended h0 deserialize variant n (mk_archive (serialize h ++ r) e) ext
  = (n, variant h, mk_archive r e).
Proof. intros W Hw. unfold deserialize_extended. by rewrite wire_roundtrip. Qed.

(** Decides the dispatch on a constant. *)
Ltac eval_type :=
  cbv [Beacon TSB_Single_Hop TSB_Multi_Hop GeoBroadcast_Circle GeoBroadcast_Rect
       GeoBroadcast_Elip Z.eqb Pos.eqb orb].

Lemma parse_extended_written ext ht h r e before : wf_HeaderVariant h -> fits_type ht h ->
  parse_extended ext ht (mk_Parser (mk_archive (serialize_HeaderVariant h ++ r) e) before)
  = (get_length h, h, mk_Parser (mk_archive r e) (before + get_length h)).
Proof.
  intros Hw Ht. unfold parse_extended. cbn [m_archive m_read_bytes].
  destruct h as [h|h|h|h]; simpl in Hw, Ht; unfold serialize_HeaderVariant, get_length.
  - subst ht. eval_type. by erewrite deserialize_extended_written by first [exact _ | done].
  - destruct Ht as [->|[->| ->]]; eval_type; by erewrite deserialize_extended_written by first [exact _ | done].
  - subst ht. eval_type. by erewrite deserialize_extended_written by first [exact _ | done].
  - subst ht. eval_type. by erewrite deserialize_extended_written by first [exact _ | done].
Qed.

(** * The three calls together *)

(** The octet that holds the header type. *)
Lemma header_type_octet c s : wf_CommonHeader c ->
  ztake 8 (zdrop 4 s) = serialize_CommonHeader c -> 12 <= size s ->
  znth s 5 = header_type c.
Proof.
  intros (_ & _ & Ht & _) E Hs. unfold size, ztake, zdrop in *.
  do 12 (destruct s as [|? s]; [simpl in Hs; lia|]).
  unfold serialize_CommonHeader in E. rewrite !serialize_int_be in E.
  injection E as _ Eh _. unfold znth. simpl. rewrite Eh.
  change (8 * Z.of_nat 0) with 0. rewrite Z.shiftr_0_r. by apply wrap_id.
Qed.

Lemma parse_unsecured_cases s : all_bytes s ->
  (exists b c x n,
     extended_length (znth s 5) = Some n /\ 12 + n <= size s /\
     parse_unsecured (make_Parser s)
     = (Some (b, c, x), mk_Parser (mk_archive (zdrop (12 + n) s) Ok) (12 + n)) /\
     s = serialize_BasicHeader b ++ serialize_CommonHeader c ++ serialize_HeaderVariant x
           ++ zdrop (12 + n) s /\
     wf_BasicHeader b /\ wf_CommonHeader c /\ wf_HeaderVariant x /\
     fits_type (header_type c) x /\ get_length x = n) \/
  ((size s < 12 \/ match extended_length (znth s 5) with
                   | Some n => size s < 12 + n
                   | None => True
                   end) /\
   fst (parse_unsecured (make_Parser s)) = None /\
   parsed_bytes (snd (parse_unsecured (make_Parser s))) <= size s).
Proof.
  intros Hs. unfold parse_unsecured, make_Parser.
  pose proof (parse_basic_spec default_BasicHeader s Ok 0 Hs) as H1.
  destruct (parse_basic _ _) as [[n1 b] p1].
  destruct H1 as [(-> & L1 & W1 & E1 & ->)|(-> & L1 & ->)]; change BasicHeader_length_bytes
    with 4 in *; simpl (_ >? _); cbn iota; pose proof (size_nonneg s).
  2: { right. simpl. split; [left; lia|]. split; [done|lia]. }
  pose proof (parse_common_spec default_CommonHeader (zdrop 4 s) Ok (0 + 4)) as H2.
  destruct (parse_common _ _) as [[n2 c] p2]. specialize (H2 (all_bytes_zdrop _ _ Hs)).
  unfold read_header in H2. rewrite size_zdrop in H2 by lia.
  destruct H2 as [(-> & L2 & W2 & E2 & ->)|(-> & L2 & ->)]; change CommonHeader_length_bytes
    with 8 in *; simpl (_ >? _); cbn iota; [|right; simpl; split; [left; lia|split; [done|lia]]].
  rewrite (header_type_octet c s W2 E2) by lia.
  pose proof (parse_extended_spec (VBeacon default_BeaconHeader) (header_type c)
    (zdrop 8 (zdrop 4 s)) Ok (0 + 4 + 8)) as H3.
  specialize (H3 (all_bytes_zdrop _ _ (all_bytes_zdrop _ _ Hs))).
  rewrite zdrop_zdrop, size_zdrop in H3 by lia.
  destruct (extended_length (header_type c)) as [n|] eqn:El.
  - destruct H3 as [(L3 & x & W3 & F3 & G3 & E3 & H3)|(L3 & H3)];
      rewrite zdrop_zdrop, H3 by lia.
    + assert (0 < n) by (rewrite <- G3; by destruct x).
      replace (n >? 0) with true by lia. left. exists b, c, x, n.
      rewrite zdrop_zdrop by lia.
      split_and!; [done|lia|done| |done..].
      rewrite <- E1, <- E2, <- E3. rewrite <- (zdrop_zdrop 12 n) by lia.
      change (4 + 8) with 12. rewrite (ztake_zdrop n).
      change 12 with (4 + 8). rewrite <- (zdrop_zdrop 4 8) by lia. by rewrite !ztake_zdrop.
    + right. simpl. split; [right; lia|]. split; [done|lia].
  - rewrite zdrop_zdrop, H3 by lia. right. simpl. split; [by right|]. split; [done|lia].
Qed.
