(* ===== verification/GeoHeaderTheorems.v ===== *)
(** * Theorems about the GeoNetworking headers

    The parser against the serializer, on packets and on arbitrary octets; the order of
    sequence numbers and time stamps, which wrap around; the order of MAC addresses. *)

From Stdlib Require Import ZArith Lia.
From stdpp Require Import prelude.
From S2P Require Import Prelude GeoSerial GeoHeaders GeoHeadersOk GeoPdu GeoPduOk.

Open Scope Z_scope.

(** * Concrete packets *)

(** No secured messages. *)
#[local] Instance no_secured : SecuredArchive := {|
  SecuredMessage := Empty_set;
  security_serialize m := match m with end;
  security_get_size m := match m with end;
  v2_deserialize ar := (None, ar);
  v3_deserialize ar := (None, ar);
|}.

Definition sample_lpv : LongPositionVector :=
  mk_LongPositionVector (mk_Address true 5 276 (mk_MacAddress 2 0 0 0 0 7))
    123456 491234567 (-116543210) true 1389 900.

Definition sample_packet : Pdu :=
  mk_Pdu (mk_BasicHeader 1 NextHeaderBasic_Common 0 (Lifetime_set 1 60) 3)
    (mk_CommonHeader NextHeaderCommon_BTP_B 0 GeoBroadcast_Circle
       (make_TrafficClass true false 2) 0x80 3 10 0)
    (VGeoBroadcast (mk_GbcGacHeader 41 0 sample_lpv 491200000 (-116500000) 500 0 0 0))
    None.

Section packets.
Context `{SecuredArchive}.

(** A packet whose headers hold what their fields can hold. *)
Definition wf_Pdu (pdu : Pdu) : Prop :=
  wf_BasicHeader (basic pdu) /\ wf_CommonHeader (common pdu) /\
  wf_HeaderVariant (extended pdu) /\ fits_type (header_type (common pdu)) (extended pdu).

(** C38. The parser reads from a packet the headers that were written into it, stops at
    the payload, and counts the octets that the packet said it would need. *)
Theorem packet_roundtrip (pdu : Pdu) (data : bytes) :
  wf_Pdu pdu -> secured pdu = None ->
  parse_unsecured (make_Parser (serialize_Pdu pdu ++ data))
  = (Some (basic pdu, common pdu, extended pdu),
     mk_Parser (mk_archive data Ok) (Pdu_get_length pdu)) /\
  size (serialize_Pdu pdu) = Pdu_get_length pdu.
Proof.
  intros (Hb & Hc & Hx & Ht) Hs. unfold serialize_Pdu, Pdu_get_length. rewrite Hs. split.
  - rewrite <- !app_assoc. unfold parse_unsecured, make_Parser.
    rewrite parse_basic_written, parse_common_written, parse_extended_written by done.
    assert (0 < get_length (extended pdu)) by by destruct (extended pdu).
    replace (get_length (extended pdu) >? 0) with true by lia.
    change (BasicHeader_length_bytes >? 0) with true.
    change (CommonHeader_length_bytes >? 0) with true. cbn iota. do 2 f_equal. lia.
  - wire_sizes. by rewrite size_HeaderVariant.
Qed.

End packets.

Lemma packet_roundtrip_witness :
  parse_unsecured (make_Parser (serialize_Pdu sample_packet ++ [1; 2; 3]))
  = (Some (basic sample_packet, common sample_packet, extended sample_packet),
     mk_Parser (mk_archive [1; 2; 3] Ok) 56) /\ size (serialize_Pdu sample_packet) = 56.
Proof.
  apply (packet_roundtrip sample_packet [1; 2; 3]); [|reflexivity].
  vm_compute. repeat constructor; discriminate.
Defined.

(** C40. On any octets the parser either reports headers, and then the octets are exactly
    what serializing these headers writes, followed by the octets it left unread, or it
    reports a failure; it never counts more octets than it was given. *)
Theorem parsed_packet_canonical (s : bytes) (Hs : all_bytes s) :
  let res := fst (parse_unsecured (make_Parser s)) in
  let p := snd (parse_unsecured (make_Parser s)) in
  parsed_bytes p <= size s /\
  (forall b c x, res = Some (b, c, x) ->
     s = serialize_BasicHeader b ++ serialize_CommonHeader c ++ serialize_HeaderVariant x
           ++ m_stream_buffer (m_archive p) /\
     parsed_bytes p = size s - remaining_bytes (m_archive p) /\
     wf_BasicHeader b /\ wf_CommonHeader c /\ wf_HeaderVariant x /\
     fits_type (header_type c) x).
Proof.
  destruct (parse_unsecured_cases s Hs)
    as [(b & c & x & n & _ & Hn & -> & E & ? & ? & ? & ? & Hl)|(_ & Hf & Hp)].
  - assert (0 <= n) by (rewrite <- Hl; by destruct x).
    unfold parsed_bytes, remaining_bytes. cbn [fst snd m_archive m_read_bytes m_stream_buffer].
    split; [lia|]. intros ??? [= <- <- <-]. rewrite size_zdrop by lia.
    split_and!; [done|lia|done..].
  - split; [done|]. intros ???. by rewrite Hf.
Qed.

Lemma parsed_packet_canonical_witness :
  let s := serialize_Pdu sample_packet ++ [9] in
  s = serialize_BasicHeader (basic sample_packet)
        ++ serialize_CommonHeader (common sample_packet)
        ++ serialize_HeaderVariant (extended sample_packet)
        ++ m_stream_buffer (m_archive (snd (parse_unsecured (make_Parser s)))).
Proof.
  intros s. assert (all_bytes s) as Hs by (vm_compute; repeat constructor; discriminate).
  apply (proj2 (parsed_packet_canonical s Hs)). vm_compute. reflexivity.
Defined.

(** C39. A packet is refused exactly when it is too short for the basic and common header,
    when its header type is not implemented, or when the extended header of its type is
    incomplete; nothing else makes the parser fail. *)
Theorem packet_refused_iff (s : bytes) (Hs : all_bytes s) :
  fst (parse_unsecured (make_Parser s)) = None <->
  size s < 12 \/ match extended_length (znth s 5) with
                 | Some n => size s < 12 + n
                 | None => True
                 end.
Proof.
  destruct (parse_unsecured_cases s Hs)
    as [(b & c & x & n & El & Hn & -> & _ & _ & _ & _ & _ & Hl)|(Hc & -> & _)]; [|done].
  rewrite El. assert (0 <= n) by (rewrite <- Hl; by destruct x).
  split; [done|]. lia.
Qed.

Lemma packet_refused_iff_witness :
  fst (parse_unsecured (make_Parser (take 55 (serialize_Pdu sample_packet)))) = None.
Proof.
  apply packet_refused_iff; [|right; vm_compute; reflexivity].
  vm_compute. repeat constructor; discriminate.
Defined.

(** * Numbers that wrap around *)

(** [a] comes before [b] on a circle of [2 ^ w] numbers when going from [a] to [b] takes
    less than half a turn; of two opposite numbers the greater one comes before. *)
Definition serial_before (w a b : Z) : Prop :=
  let d := (b - a) mod 2 ^ w in
  0 < d < 2 ^ (w - 1) \/ (d = 2 ^ (w - 1) /\ b < a).

(** The difference on the circle, without the remainder. *)
Lemma circle_difference w a b : 0 <= a < 2 ^ w -> 0 <= b < 2 ^ w ->
  (b - a) mod 2 ^ w = if b <? a then b - a + 2 ^ w else b - a.
Proof.
  intros Ha Hb. destruct (Z.ltb_spec b a).
  - rewrite <- (Z.mod_add _ 1), Z.mod_small by lia. lia.
  - apply Z.mod_small. lia.
Qed.

Lemma SequenceNumber_less_spec a b : is_uint 2 a -> is_uint 2 b ->
  SequenceNumber_less a b = true <-> serial_before 16 a b.
Proof.
  intros Ha Hb. change (is_uint 2) with (fun v => 0 <= v < 2 ^ 16) in *. simpl in Ha, Hb.
  unfold serial_before. rewrite circle_difference by done.
  unfold SequenceNumber_less. change (SequenceNumber_max / 2) with (2 ^ 15 - 1).
  change (16 - 1) with 15. destruct (Z.ltb_spec b a); lia.
Qed.

Lemma Timestamp_less_spec a b : is_uint 4 a -> is_uint 4 b ->
  Timestamp_less a b = true <-> serial_before 32 a b.
Proof.
  intros Ha Hb. change (is_uint 4) with (fun v => 0 <= v < 2 ^ 32) in *. simpl in Ha, Hb.
  unfold serial_before. rewrite circle_difference by done.
  unfold Timestamp_less, is_greater. change (Timestamp_max / 2) with (2 ^ 31 - 1).
  change (32 - 1) with 31. destruct (Z.ltb_spec b a); lia.
Qed.

Lemma serial_before_total w a b : 0 < w -> 0 <= a < 2 ^ w -> 0 <= b < 2 ^ w ->
  a <> b -> (serial_before w a b <-> ~ serial_before w b a).
Proof.
  intros Hw Ha Hb Hne. unfold serial_before. rewrite !circle_difference by done.
  assert (2 ^ w = 2 * 2 ^ (w - 1)) by (rewrite <- Z.pow_succ_r by lia; f_equal; lia).
  destruct (Z.ltb_spec b a), (Z.ltb_spec a b); lia.
Qed.

Lemma serial_before_advance w a d : 0 < w -> 0 <= a < 2 ^ w -> 0 < d < 2 ^ (w - 1) ->
  serial_before w a ((a + d) mod 2 ^ w).
Proof.
  intros Hw Ha Hd. left.
  assert (2 ^ w = 2 * 2 ^ (w - 1)) by (rewrite <- Z.pow_succ_r by lia; f_equal; lia).
  rewrite Zminus_mod_idemp_l. replace (a + d - a) with d by lia. rewrite Z.mod_small; lia.
Qed.

(** The order of sequence numbers and of time stamps is the order on the circle: of
    two different numbers exactly one comes before the other, and a number comes before
    each one that is reached from it by counting less than half a turn, also across
    the wrap-around. *)
Theorem serial_number_order (a b d t u e : Z)
  (Ha : is_uint 2 a) (Hb : is_uint 2 b) (Hd : 0 < d < 2 ^ 15)
  (Ht : is_uint 4 t) (Hu : is_uint 4 u) (He : 0 < e < 2 ^ 31) :
  (SequenceNumber_less a b = true <-> serial_before 16 a b) /\
  (a <> b -> SequenceNumber_less a b = negb (SequenceNumber_less b a)) /\
  SequenceNumber_less a (SequenceNumber_add a d) = true /\
  (Timestamp_less t u = true <-> serial_before 32 t u) /\
  (t <> u -> Timestamp_less t u = negb (Timestamp_less u t)) /\
  Timestamp_less t (Timestamp_add t e) = true.
Proof.
  assert (forall (x y : bool), (x = true <-> ~ y = true) -> x = negb y) as Hneg
    by (intros [] []; naive_solver).
  assert (forall n v, 0 < n -> is_uint (Z.to_nat n) (v mod 2 ^ (8 * n))) as Hmod.
  { intros n v Hn. unfold is_uint. rewrite Z2Nat.id by lia. apply Z.mod_pos_bound. lia. }
  split_and!.
  - by apply SequenceNumber_less_spec.
  - intros Hne. apply Hneg. rewrite !SequenceNumber_less_spec by done.
    by apply serial_before_total.
  - apply SequenceNumber_less_spec; [done|apply (Hmod 2); lia|].
    by apply (serial_before_advance 16).
  - by apply Timestamp_less_spec.
  - intros Hne. apply Hneg. rewrite !Timestamp_less_spec by done.
    by apply serial_before_total.
  - apply Timestamp_less_spec; [done|apply (Hmod 4); lia|].
    by apply (serial_before_advance 32).
Qed.

Lemma serial_number_order_witness :
  SequenceNumber_less 65535 (SequenceNumber_add 65535 3) = true /\
  Timestamp_less 4294967290 (Timestamp_add 4294967290 100) = true.
Proof.
  destruct (serial_number_order 65535 7 3 4294967290 5 100)
    as (_ & _ & H1 & _ & _ & H2); unfold is_uint; lia || (split; [exact H1|exact H2]).
Defined.

(** The order is not transitive, although both classes derive from
    boost::totally_ordered: three numbers a third of a turn apart form a cycle. *)
Theorem serial_number_cycle :
  SequenceNumber_less 0 20000 = true /\ SequenceNumber_less 20000 40000 = true /\
  SequenceNumber_less 40000 0 = true.
Proof. vm_compute. auto. Qed.

(** The comparison of MAC addresses is no order: it looks at the later octets also when
    an earlier one is greater, so two addresses are each smaller than the other. *)
Theorem MacAddress_less_symmetric :
  MacAddress_less (mk_MacAddress 0 0 0 0 0 2) (mk_MacAddress 0 0 0 0 1 1) = true /\
  MacAddress_less (mk_MacAddress 0 0 0 0 1 1) (mk_MacAddress 0 0 0 0 0 2) = true.
Proof. vm_compute. auto. Qed.
