(* ===== verification/Double.v ===== *)
(** * Floating-point numbers, durations and lifetimes

    The quantities of GeoNetworking that are not integers have the type double.  They are
    the binary64 numbers of IEEE 754 with rounding to the nearest, ties to even
    ([SpecFloat] of the Standard Library with 53 bits of precision): every operation
    below is executable and gives the bits that the machine computes.

    On top of them units/time.hpp (conversions between seconds and the ticks of the
    clock) and the part of geonet/lifetime.cpp that computes with seconds. *)

From Stdlib Require Import ZArith Lia SpecFloat.
From stdpp Require Import prelude.
From S2P Require Import Prelude GeoSerial GeoHeaders.

Open Scope Z_scope.

Abbreviation double := spec_float.

Definition dnan : double := S754_nan.
Definition dzero : double := S754_zero false.

Definition dadd : double -> double -> double := SFadd 53 1024.
Definition dsub : double -> double -> double := SFsub 53 1024.
Definition dmul : double -> double -> double := SFmul 53 1024.
Definition ddiv : double -> double -> double := SFdiv 53 1024.
Definition dopp : double -> double := SFopp.
Definition dabs : double -> double := SFabs.

(** The comparisons of C++: all of them are false for NaN. *)
Definition dlt (a b : double) : bool := SFltb a b.
Definition dle (a b : double) : bool := SFleb a b.
Definition dgt (a b : double) : bool := SFltb b a.
Definition dge (a b : double) : bool := SFleb b a.
Definition deq (a b : double) : bool := SFeqb a b.
Definition isnan (a : double) : bool := if a is S754_nan then true else false.

(** [std::min(a, b)]: the first argument unless the second is smaller. *)
Definition dmin (a b : double) : double := if dlt b a then b else a.

(** Conversion of an integer, and the literal for the fraction [n / d]: the division
    rounds correctly, so the literal is the double next to the fraction. *)
Definition double_of (z : Z) : double := binary_normalize 53 1024 z 0 false.
Definition literal (n d : Z) : double := ddiv (double_of n) (double_of d).

Definition signed_of (s : bool) (m : Z) : Z := if s then - m else m.

(** Towards zero, and to the nearest with ties away from zero; [None] when there is no
    such number. *)
Definition truncated (a : double) : option Z :=
  match a with
  | S754_zero _ => Some 0
  | S754_finite s m e =>
      Some (signed_of s (if 0 <=? e then Z.pos m * 2 ^ e else Z.pos m / 2 ^ (- e)))
  | _ => None
  end.

Definition rounded (a : double) : option Z :=
  match a with
  | S754_zero _ => Some 0
  | S754_finite s m e =>
      Some (signed_of s (if 0 <=? e then Z.pos m * 2 ^ e
                         else (Z.pos m + 2 ^ (- e - 1)) / 2 ^ (- e)))
  | _ => None
  end.

(** A number that the 64-bit integer cannot hold: what the processor's conversion
    instruction gives. *)
Definition in_int64 (z : option Z) : Z :=
  match z with
  | Some z => if (- 2 ^ 63 <=? z) && (z <? 2 ^ 63) then z else - 2 ^ 63
  | None => - 2 ^ 63
  end.

Definition int64_of (a : double) : Z := in_int64 (truncated a).
Definition lround (a : double) : Z := in_int64 (rounded a).

(** * Durations *)

(** [clock_cast] of a quantity of seconds: ticks of the clock, microseconds. *)
Definition clock_cast (seconds : double) : Z := int64_of (dmul seconds (double_of 1000000)).

(** [clock_cast] of a duration of the clock. *)
Definition seconds_of (ticks : Z) : double := ddiv (double_of ticks) (double_of 1000000).

(** [Timestamp(time_point)]: milliseconds, in 32 bits. *)
Definition Timestamp_of (time : Z) : Timestamp := u32 (Z.quot time 1000).

(** * Lifetimes in seconds *)

Definition multiplier_mask : Z := 0xfc.

Definition Lifetime_decode (l : Lifetime) : double :=
  let base := Z.land l base_mask in
  let multiplier := double_of (Z.shiftr (Z.land l multiplier_mask) 2) in
  let unit :=
    if base =? 0 then literal 50 1000
    else if base =? 1 then double_of 1
    else if base =? 2 then double_of 10
    else double_of 100 in
  dmul multiplier unit.

Definition Lifetime_encode (duration : double) : Lifetime :=
  let seconds := duration in
  if dge seconds (double_of 630) then Lifetime_set 3 (lround (ddiv seconds (double_of 100)))
  else if dge seconds (double_of 63) then Lifetime_set 2 (lround (ddiv seconds (double_of 10)))
  else if dge seconds (literal 315 100) then Lifetime_set 1 (lround seconds)
  else Lifetime_set 0 (lround (ddiv seconds (literal 50 1000))).

Definition Lifetime_less (l other : Lifetime) : bool :=
  dlt (Lifetime_decode l) (Lifetime_decode other).

Definition Lifetime_equal (l other : Lifetime) : bool :=
  let diff := dsub (Lifetime_decode l) (Lifetime_decode other) in
  let min_value := literal 50 1000 in
  dlt (dabs diff) min_value.

(** * The order of doubles *)

Lemma dlt_irrefl a : dlt a a = false.
Proof.
  destruct a as [[]|[]| |[] m e]; try done; unfold dlt, SFltb, SFcompare;
    rewrite Z.compare_refl; change (Pos.compare_cont Eq m m) with (Pos.compare m m);
    by rewrite Pos.compare_refl.
Qed.

Lemma dlt_trans a b c : dlt a b = true -> dlt b c = true -> dlt a c = true.
Proof.
  unfold dlt, SFltb, SFcompare.
  destruct a as [s1|[]| |[] m1 e1], b as [s2|[]| |[] m2 e2], c as [s3|[]| |[] m3 e3]; try done;
    repeat match goal with |- context [Pos.compare_cont Eq ?x ?y] =>
      change (Pos.compare_cont Eq x y) with (Pos.compare x y) end;
    repeat case Z.compare_spec; intros; simplify_eq; try lia; try done;
    repeat match goal with H : context [Pos.compare ?x ?y] |- _ => revert H end;
    repeat case Pos.compare_spec; intros; simpl in *; try done; lia.
Qed.

(** * Lifetimes as octets *)

Definition lifetimes : list Lifetime := map Z.of_nat (seq 0 256).

Lemma all_lifetimes (P : Lifetime -> bool) l : forallb P lifetimes = true -> 0 <= l < 256 -> P l = true.
Proof.
  intros Hall Hl. rewrite forallb_forall in Hall. apply Hall. apply in_map_iff. exists (Z.to_nat l).
  split; [lia|]. apply in_seq. lia.
Qed.

(** Every lifetime keeps its value when it is decoded and encoded again, except three. *)
Theorem lifetime_roundtrip l : 0 <= l < 256 ->
  deq (Lifetime_decode (Lifetime_encode (Lifetime_decode l))) (Lifetime_decode l)
  = negb (existsb (Z.eqb l) [252; 253; 254]).
Proof.
  intros Hl. apply eqb_prop.
  apply (all_lifetimes (fun l => Bool.eqb (deq (Lifetime_decode (Lifetime_encode (Lifetime_decode l))) (Lifetime_decode l))
    (negb (existsb (Z.eqb l) [252; 253; 254])))); [vm_compute; reflexivity|done].
Qed.

(** The multiplier 63 of the other bases does not survive: 63 seconds become 60 seconds. *)
Theorem longest_multiplier_is_lost :
  Lifetime_decode 253 = double_of 63 /\ Lifetime_decode (Lifetime_encode (double_of 63)) = double_of 60.
Proof. vm_compute. split; reflexivity. Qed.

(** Lifetimes that differ by 50 milliseconds may be equal. *)
Theorem different_lifetimes_are_equal : Lifetime_equal 12 16 = true /\ Lifetime_less 12 16 = true.
Proof. vm_compute. split; reflexivity. Qed.

(** Encoding may round up: a packet that has waited for a second has as long to live as
    before. *)
Theorem reduced_lifetime_is_rounded_up :
  deq (Lifetime_decode (Lifetime_encode (dsub (double_of 600) (double_of 1)))) (double_of 600) = true.
Proof. vm_compute. reflexivity. Qed.
