(* ===== verification/RateControl.v ===== *)
(** * Decentralised congestion control: how often a station may send

    common/unit_interval.cpp, dcc/channel_load.cpp, the two reactive state machines
    (dcc/fully_meshed_state_machine.cpp, dcc/gradual_state_machine.cpp), the budgets that
    turn them into delays (dcc/state_machine_budget.cpp, dcc/burst_budget.cpp,
    dcc/limeric_budget.cpp), the adaptive algorithm of dcc/limeric.cpp, and the rate
    controls made of them.

    Times and durations are microseconds.  A budget reads the clock: the time is an
    argument.  The circular buffers of boost are lists with a capacity. *)

From Stdlib Require Import ZArith Lia SpecFloat Sorting.Sorted.
From stdpp Require Import prelude strings list pretty.
From S2P Require Import Prelude GeoSerial GeoHeaders Double Asn1Wrapper.

Open Scope Z_scope.

(** * Numbers between 0 and 1 *)

(** [std::max(a, b)]: the first argument unless it is smaller. *)
Definition dmax (a b : double) : double := if dlt a b then b else a.

Definition one : double := double_of 1.

Module UnitInterval.

Definition clamp (v : double) : double := if dgt v one then one else if dlt v dzero then dzero else v.

Definition add (a b : double) : double := clamp (dadd a b).
Definition sub (a b : double) : double := clamp (dsub a b).

(** Products of two of them are not clamped, quotients only from above. *)
Definition mul (a b : double) : double := dmul a b.
Definition div (a b : double) : double := dmin (ddiv a b) one.

(** With a double on one side. *)
Definition scale (a v : double) : double := clamp (dmul a v).
Definition unscale (a v : double) : double := clamp (ddiv a v).

Definition less (a b : double) : bool := dlt a b.
Definition equal (a b : double) : bool := dlt (dabs (dsub a b)) (literal 1 (2 ^ 52)).

Definition complement (a : double) : double := dsub one a.

Definition mean (lhs rhs : double) : double := clamp (dmul (literal 1 2) (dadd lhs rhs)).

Definition mean_of (l : list double) : double :=
  let accu := fold_left dadd l dzero in
  clamp (if 1 <? size l then ddiv accu (double_of (size l)) else accu).

End UnitInterval.

(** ChannelLoad is derived from UnitInterval. *)
Abbreviation ChannelLoad := double (only parsing).

(** [ChannelLoad::create_from_probes] *)
Definition create_from_probes (probes_busy probes_total : Z) : ChannelLoad :=
  UnitInterval.clamp (if probes_total =? 0 then dzero else ddiv (double_of probes_busy) (double_of probes_total)).

(** SmoothingChannelProbeProcessor: the smoothed load goes to the hook. *)
Record SmoothingChannelProbeProcessor := { m_alpha : double; smoothed_load : ChannelLoad }.

Definition smoothing_indicate (cl : ChannelLoad) (s : SmoothingChannelProbeProcessor)
    : ChannelLoad * SmoothingChannelProbeProcessor :=
  let load := UnitInterval.add (UnitInterval.mul s.(m_alpha) cl)
                (UnitInterval.mul (UnitInterval.complement s.(m_alpha)) s.(smoothed_load)) in
  (load, {| m_alpha := s.(m_alpha); smoothed_load := load |}).

(** * Circular buffers *)

Record circular_buffer (A : Type) := mk_buffer { buffer_capacity : nat; buffered : list A }.
Arguments mk_buffer {A}. Arguments buffer_capacity {A}. Arguments buffered {A}.

Section Buffers.
Context {A : Type}.

Definition is_full (b : circular_buffer A) : bool := (length b.(buffered) =? b.(buffer_capacity))%nat.

(** A full buffer loses its first element; one without capacity stays empty. *)
Definition push_back (x : A) (b : circular_buffer A) : circular_buffer A :=
  mk_buffer b.(buffer_capacity) (if is_full b then match b.(buffered) with [] => [] | _ :: l => l ++ [x] end else b.(buffered) ++ [x]).

Definition push_front (x : A) (b : circular_buffer A) : circular_buffer A :=
  mk_buffer b.(buffer_capacity) (take b.(buffer_capacity) (x :: b.(buffered))).

Definition clear (b : circular_buffer A) : circular_buffer A := mk_buffer b.(buffer_capacity) [].

(** The capacity grows when it has to and never shrinks; missing elements are copies of
    [x]. *)
Definition resize (n : nat) (x : A) (b : circular_buffer A) : circular_buffer A :=
  mk_buffer (Nat.max n b.(buffer_capacity)) (take n b.(buffered) ++ replicate (n - length b.(buffered)) x).

End Buffers.

(** * State machines *)

(** The interface of a state machine: a new measurement, and the interval between two
    messages. *)
Class StateMachine (F : Type) := {
  sm_update : ChannelLoad -> F -> cpp F;
  sm_transmission_interval : F -> Z;
}.

Definition milliseconds (n : Z) : Z := n * 1000.
Definition seconds (n : Z) : Z := n * 1000000.

(** ** Fully meshed *)

Module FullyMeshed.

Inductive MeshedState := Relaxed | Active | Restrictive.

Record FullyMeshedStateMachine := mk {
  m_state : MeshedState;
  m_substate : nat;
  m_channel_loads : circular_buffer ChannelLoad;
}.

Definition N_samples_up : nat := Z.to_nat (seconds 1 / milliseconds 100).
Definition N_samples_down : nat := Z.to_nat (seconds 5 / milliseconds 100).
Definition NDL_minChannelLoad : double := literal 19 100.
Definition NDL_maxChannelLoad : double := literal 59 100.

Definition make_FullyMeshed : FullyMeshedStateMachine :=
  mk Relaxed 0 (mk_buffer (Nat.max N_samples_up N_samples_down) []).

(** [std::upper_bound]: how many come before the first element greater than [v]. *)
Fixpoint upper_bound (l : list double) (v : double) : nat :=
  match l with
  | [] => 0
  | x :: l => if dlt v x then 0 else S (upper_bound l v)
  end.

Definition sc_substates : nat := 5.
Definition channel_loads : list double := [literal 27 100; literal 35 100; literal 43 100; literal 51 100; literal 59 100].
Definition tx_intervals : list Z := map milliseconds [100; 180; 260; 340; 420].

(** [Active::update] *)
Definition active_update (min_cl max_cl : double) : cpp nat :=
  if dle min_cl max_cl then
    let state_up := upper_bound channel_loads min_cl in
    let state_down := upper_bound channel_loads max_cl in
    Returns (Nat.min (sc_substates - 1) (Nat.max state_up state_down))
  else NoResult.

Definition is_infinite (a : double) : bool := if a is S754_infinity _ then true else false.

Definition min_channel_load (m : FullyMeshedStateMachine) : double :=
  let min_cl := fold_left (fun min_cl s => if dlt s min_cl then s else min_cl)
                  (take N_samples_up m.(m_channel_loads).(buffered)) (S754_infinity false) in
  if is_infinite min_cl then dzero else min_cl.

Definition max_channel_load (m : FullyMeshedStateMachine) : double :=
  fold_left (fun max_cl s => if dgt s max_cl then s else max_cl) (take N_samples_down m.(m_channel_loads).(buffered)) dzero.

Definition activate (m : FullyMeshedStateMachine) : cpp FullyMeshedStateMachine :=
  substate ← active_update (min_channel_load m) (max_channel_load m);
  Returns (mk Active substate m.(m_channel_loads)).

Definition meshed_update (cl : ChannelLoad) (m : FullyMeshedStateMachine) : cpp FullyMeshedStateMachine :=
  let m := mk m.(m_state) m.(m_substate) (push_front cl m.(m_channel_loads)) in
  match m.(m_state) with
  | Relaxed => if dge (min_channel_load m) NDL_minChannelLoad then activate m else Returns m
  | Restrictive => if dlt (max_channel_load m) NDL_maxChannelLoad then activate m else Returns m
  | Active =>
    if dlt (max_channel_load m) NDL_minChannelLoad then Returns (mk Relaxed m.(m_substate) m.(m_channel_loads))
    else if dge (min_channel_load m) NDL_maxChannelLoad then Returns (mk Restrictive m.(m_substate) m.(m_channel_loads))
    else activate m
  end.

Definition meshed_interval (m : FullyMeshedStateMachine) : Z :=
  match m.(m_state) with
  | Relaxed => milliseconds 60
  | Active => default 0 (tx_intervals !! Nat.min (length tx_intervals - 1) m.(m_substate))
  | Restrictive => milliseconds 460
  end.

Definition message_rate (m : FullyMeshedStateMachine) : double :=
  ddiv (double_of (seconds 1)) (double_of (meshed_interval m)).

Definition state_name (m : FullyMeshedStateMachine) : cpp string :=
  match m.(m_state) with
  | Relaxed => Returns "Relaxed"%string
  | Restrictive => Returns "Restrictive"%string
  | Active => match ["Active 1"; "Active 2"; "Active 3"; "Active 4"; "Active 5"]%string !! m.(m_substate) with
              | Some n => Returns n
              | None => NoResult
              end
  end.

#[export] Instance fully_meshed : StateMachine FullyMeshedStateMachine :=
  {| sm_update := meshed_update; sm_transmission_interval := meshed_interval |}.

End FullyMeshed.

(** ** Gradual *)

Module Gradual.

Record GradualState := mk_State { lower_limit : ChannelLoad; off_time : Z }.

(** [std::set<State>]: ordered by the limits, none of them twice. *)
Fixpoint set_insert (s : GradualState) (l : list GradualState) : list GradualState :=
  match l with
  | [] => [s]
  | x :: l => if dlt s.(lower_limit) x.(lower_limit) then s :: x :: l
              else if dlt x.(lower_limit) s.(lower_limit) then x :: set_insert s l else x :: l
  end.
Definition state_set (l : list GradualState) : list GradualState := fold_left (fun s x => set_insert x s) l [].

(** The iterator is the position of the current state. *)
Record GradualStateMachine := mk { m_states : list GradualState; m_current : nat }.

(** The constructor with [repair]. *)
Definition make_Gradual (states : list GradualState) : GradualStateMachine :=
  mk (match states with [] => [mk_State dzero 0] | _ => states end) 0.

Definition current (m : GradualStateMachine) : cpp GradualState :=
  match m.(m_states) !! m.(m_current) with Some s => Returns s | None => NoResult end.

Definition gradual_update (cbr : ChannelLoad) (m : GradualStateMachine) : cpp GradualStateMachine :=
  s ← current m;
  Returns (if dlt cbr s.(lower_limit) then mk m.(m_states) (m.(m_current) - 1)
           else match m.(m_states) !! S m.(m_current) with
                | Some up => if negb (dlt cbr up.(lower_limit)) then mk m.(m_states) (S m.(m_current)) else m
                | None => m
                end).

Definition gradual_interval (m : GradualStateMachine) : Z :=
  match m.(m_states) !! m.(m_current) with Some s => s.(off_time) | None => 0 end.

Definition gradual_state (m : GradualStateMachine) : string :=
  if (m.(m_current) =? 0)%nat then "Relaxed"%string
  else if (m.(m_current) =? length m.(m_states) - 1)%nat then "Restrictive"%string
  else ("Active " +:+ pretty m.(m_current))%string.

Definition state_of (n d t : Z) : GradualState := mk_State (literal n d) (milliseconds t).
Definition etsiStates1ms : list GradualState :=
  state_set [state_of 0 100 100; state_of 30 100 200; state_of 40 100 400; state_of 50 100 500; state_of 60 100 1000].
Definition etsiStates500us : list GradualState :=
  state_set [state_of 0 100 50; state_of 30 100 100; state_of 40 100 200; state_of 50 100 250; state_of 65 100 1000].

#[export] Instance gradual : StateMachine GradualStateMachine :=
  {| sm_update := gradual_update; sm_transmission_interval := gradual_interval |}.

End Gradual.

(** * Budgets *)

(** ** One message per interval *)

Module StateMachineBudget.

(** The time of the last transmission. *)
Definition fsm_delay (interval now : Z) (m_last_tx : option Z) : Z :=
  match m_last_tx with
  | Some last_tx => if last_tx + interval <? now then 0 else last_tx + interval - now
  | None => 0
  end.

Definition fsm_notify (now : Z) : option Z := Some now.

End StateMachineBudget.

(** ** Bursts *)

Module BurstBudget.

Record BurstBudget := mk {
  m_messages : circular_buffer Z;
  m_burst_duration : Z;
  m_burst_period : Z;
}.

Definition make_BurstBudget : BurstBudget := mk (mk_buffer 20 []) (seconds 1) (seconds 10).

Definition with_messages (m : circular_buffer Z) (b : BurstBudget) : BurstBudget :=
  mk m b.(m_burst_duration) b.(m_burst_period).

Definition burst_delay (now : Z) (b : BurstBudget) : cpp Z * BurstBudget :=
  if b.(m_burst_duration) <? b.(m_burst_period) then
    match b.(m_messages).(buffered) with
    | [] => (Returns 0, b)
    | front :: _ =>
      if (now <? front + b.(m_burst_duration)) && negb (is_full b.(m_messages)) then (Returns 0, b)
      else if front + b.(m_burst_period) <? now then (Returns 0, with_messages (clear b.(m_messages)) b)
      else (Returns (front + b.(m_burst_period) - now), b)
    end
  else (NoResult, b).

Definition burst_notify (now : Z) (b : BurstBudget) : BurstBudget := with_messages (push_back now b.(m_messages)) b.

(** New elements of the buffer are time points 0. *)
Definition burst_messages (n : nat) (b : BurstBudget) : BurstBudget := with_messages (resize n 0 b.(m_messages)) b.

Definition burst_duration (d : Z) (b : BurstBudget) : cpp BurstBudget :=
  if 0 <? d then Returns (mk b.(m_messages) d b.(m_burst_period)) else NoResult.
Definition burst_period (p : Z) (b : BurstBudget) : cpp BurstBudget :=
  if 0 <? p then Returns (mk b.(m_messages) b.(m_burst_duration) p) else NoResult.

End BurstBudget.

(** ** Occupancy of the channel *)

(** The arithmetic of the clock: 64-bit signed numbers, whose overflow is undefined. *)
Definition in_rep (z : Z) : cpp Z := if (- 2 ^ 63 <=? z) && (z <? 2 ^ 63) then Returns z else NoResult.

Module LimericBudget.

Record LimericBudget := mk { m_interval : Z; m_tx_start : Z; m_tx_on : Z }.

Definition min_interval : Z := milliseconds 25.
Definition max_interval : Z := seconds 1.
Definition clamp_interval (interval : Z) : Z := Z.min (Z.max interval min_interval) max_interval.

Definition budget_delay (now : Z) (b : LimericBudget) : cpp Z :=
  release ← in_rep (b.(m_tx_start) + b.(m_interval));
  if release <=? now then Returns 0 else in_rep (release - now).

(** [duty_cycle] is what the permit allows at the time of the call. *)
Definition budget_notify (now : Z) (duty_cycle : double) (tx_on : Z) (b : LimericBudget) : LimericBudget :=
  mk (clamp_interval (int64_of (ddiv (double_of tx_on) duty_cycle))) now tx_on.

Definition budget_update (now : Z) (duty_cycle : double) (b : LimericBudget) : cpp LimericBudget :=
  release ← in_rep (b.(m_tx_start) + b.(m_interval));
  wait ← in_rep (release - now);
  let delay := double_of wait in
  if dgt duty_cycle dzero then
    if dgt delay dzero then
      let interval := dmul (ddiv (double_of b.(m_tx_on)) duty_cycle) (ddiv delay (double_of b.(m_interval))) in
      total ← in_rep (int64_of interval + now);
      total ← in_rep (total - b.(m_tx_start));
      Returns (mk (clamp_interval total) b.(m_tx_start) b.(m_tx_on))
    else
      Returns (mk (clamp_interval (int64_of (ddiv (double_of b.(m_tx_on)) duty_cycle))) b.(m_tx_start) b.(m_tx_on))
  else Returns (mk max_interval b.(m_tx_start) b.(m_tx_on)).

(** The constructor: there was no transmission since the beginning of time. *)
Definition make_LimericBudget (now : Z) (duty_cycle : double) : cpp LimericBudget :=
  budget_update now duty_cycle (mk min_interval (- 2 ^ 63) 0).

End LimericBudget.

(** * LIMERIC *)

Module Limeric.

Record Parameters := mk_Parameters {
  alpha : double; beta : double; delta_max : double; delta_min : double;
  g_plus_max : double; g_minus_max : double; cbr_target : ChannelLoad; cbr_interval : Z;
}.

Definition default_parameters : Parameters :=
  mk_Parameters (literal 16 1000) (literal 12 10000) (literal 3 100) (literal 6 10000)
    (literal 5 10000) (dopp (literal 25 100000)) (literal 68 100) (milliseconds 100).

Record DualAlphaParameters := mk_DualAlpha { alternate_alpha : double; threshold : double }.

Record Limeric := mk {
  m_params : Parameters;
  m_dual_alpha : option DualAlphaParameters;
  m_channel_load : ChannelLoad;
  m_duty_cycle : double;
  m_cbr : circular_buffer ChannelLoad;
}.

(** The next point in time that is a multiple of two intervals, for the scheduler. *)
Definition schedule (now : Z) (p : Parameters) : Z :=
  let scheduling_interval := 2 * p.(cbr_interval) in
  let tp := now + scheduling_interval in
  let scheduling_bias := Z.rem tp scheduling_interval in
  if p.(cbr_interval) <? scheduling_bias then tp + (scheduling_interval - scheduling_bias)
  else if 0 <? scheduling_bias then tp - scheduling_bias else tp.

(** The constructor, with the time of the first calculation. *)
Definition make_Limeric (now : Z) (p : Parameters) : Limeric * Z :=
  (mk p None dzero (UnitInterval.mean p.(delta_max) p.(delta_min)) (mk_buffer 2 []), schedule now p).

Definition average_cbr (l : Limeric) : ChannelLoad :=
  if is_full l.(m_cbr) then
    UnitInterval.add (UnitInterval.scale (UnitInterval.mean_of l.(m_cbr).(buffered)) (literal 1 2))
      (UnitInterval.scale l.(m_channel_load) (literal 1 2))
  else l.(m_channel_load).

Definition update_cbr (cbr : ChannelLoad) (l : Limeric) : Limeric :=
  let cbrs := push_back cbr l.(m_cbr) in
  mk l.(m_params) l.(m_dual_alpha) (if is_full l.(m_cbr) then l.(m_channel_load) else UnitInterval.mean_of cbrs.(buffered))
    l.(m_duty_cycle) cbrs.

(** The weight of the old duty cycle, the offset, and the bounds. *)
Definition bounded_delta (l : Limeric) (a delta_offset : double) : double :=
  let delta := UnitInterval.clamp (dadd (UnitInterval.mul (UnitInterval.complement a) l.(m_duty_cycle)) delta_offset) in
  dmin (dmax delta l.(m_params).(delta_min)) l.(m_params).(delta_max).

Definition calculate_duty_cycle (l : Limeric) : double :=
  let p := l.(m_params) in
  let cbr_delta := dsub p.(cbr_target) l.(m_channel_load) in
  let delta_offset :=
    if dgt cbr_delta dzero then dmin (dmul p.(beta) cbr_delta) p.(g_plus_max)
    else dmax (dmul p.(beta) cbr_delta) p.(g_minus_max) in
  let delta := bounded_delta l p.(alpha) delta_offset in
  match l.(m_dual_alpha) with
  | Some dual =>
    if dgt (UnitInterval.sub l.(m_duty_cycle) delta) dual.(threshold)
    then bounded_delta l dual.(alternate_alpha) delta_offset else delta
  | None => delta
  end.

(** With the time of the next calculation; the hook is called with the new state. *)
Definition calculate (now : Z) (l : Limeric) : Limeric * Z :=
  let l := mk l.(m_params) l.(m_dual_alpha) (average_cbr l) l.(m_duty_cycle) l.(m_cbr) in
  let l := mk l.(m_params) l.(m_dual_alpha) l.(m_channel_load) (calculate_duty_cycle l) l.(m_cbr) in
  (l, schedule now l.(m_params)).

Definition configure_dual_alpha (params : option DualAlphaParameters) (l : Limeric) : Limeric :=
  mk l.(m_params) params l.(m_channel_load) l.(m_duty_cycle) l.(m_cbr).

End Limeric.

(** * Transmissions and rate controls *)

(** access/data_rates.hpp *)
Record DataRateG5 := mk_DataRateG5 { m_bytes_per_second : Z; m_coded_bits_per_symbol : Z }.
Definition make_DataRateG5 (kbps cbits : Z) : DataRateG5 := mk_DataRateG5 (u32 (kbps * 1000) / 8) cbits.
Definition G5_6Mbps : DataRateG5 := make_DataRateG5 6000 96.

Definition data_length (psdu : Z) (r : DataRateG5) : cpp Z :=
  let body := u32 (16 + 6 + psdu * 8) in
  let rest := body mod r.(m_coded_bits_per_symbol) in
  let padding := if 0 <? rest then r.(m_coded_bits_per_symbol) - rest else rest in
  if u32 (body + padding) mod 8 =? 0 then Returns (u32 (body + padding) / 8) else NoResult.

(** The virtual functions of a Transmission. *)
Record Transmission := mk_Transmission { profile : Profile; data_rate : option DataRateG5; body_length : Z }.

Definition channel_occupancy (tx : Transmission) : cpp Z :=
  let rate := default G5_6Mbps tx.(data_rate) in
  bytes ← data_length (tx.(body_length) + 2 + 34) rate;
  let seconds_per_byte := ddiv one (double_of rate.(m_bytes_per_second)) in
  Returns (32 + 8 + clock_cast (dmul (double_of bytes) seconds_per_byte)).

(** The interface TransmitRateControl. *)
Class TransmitRateControl (T : Type) := {
  trc_delay : Z -> Transmission -> T -> cpp Z * T;
  trc_interval : Transmission -> T -> Z;
  trc_notify : Z -> Transmission -> T -> cpp unit * T;
}.

(** ** With bursts *)

Record BurstyTransmitRateControl (F : Type) := mk_Bursty {
  m_burst_budget : BurstBudget.BurstBudget;
  m_fsm_budget : option Z;
  m_fsm : F;
}.
Arguments mk_Bursty {F}. Arguments m_burst_budget {F}. Arguments m_fsm_budget {F}. Arguments m_fsm {F}.

Section Controls.
Context {F : Type} `{StateMachine F}.

Definition bursty_delay (now : Z) (tx : Transmission) (t : BurstyTransmitRateControl F)
    : cpp Z * BurstyTransmitRateControl F :=
  match tx.(profile) with
  | DP0 => let '(d, b) := BurstBudget.burst_delay now t.(m_burst_budget) in (d, mk_Bursty b t.(m_fsm_budget) t.(m_fsm))
  | DP1 | DP2 | DP3 => (Returns (StateMachineBudget.fsm_delay (sm_transmission_interval t.(m_fsm)) now t.(m_fsm_budget)), t)
  end.

Definition bursty_interval (tx : Transmission) (t : BurstyTransmitRateControl F) : Z :=
  match tx.(profile) with
  | DP0 => t.(m_burst_budget).(BurstBudget.m_burst_period)
  | DP1 | DP2 | DP3 => sm_transmission_interval t.(m_fsm)
  end.

Definition bursty_notify (now : Z) (tx : Transmission) (t : BurstyTransmitRateControl F)
    : cpp unit * BurstyTransmitRateControl F :=
  match tx.(profile) with
  | DP0 => (Returns (), mk_Bursty (BurstBudget.burst_notify now t.(m_burst_budget)) t.(m_fsm_budget) t.(m_fsm))
  | DP1 | DP2 | DP3 => (Returns (), mk_Bursty t.(m_burst_budget) (StateMachineBudget.fsm_notify now) t.(m_fsm))
  end.

#[export] Instance bursty : TransmitRateControl (BurstyTransmitRateControl F) :=
  {| trc_delay := bursty_delay; trc_interval := bursty_interval; trc_notify := bursty_notify |}.

(** ** One state machine for all *)

Record SingleReactiveTransmitRateControl := mk_Single { s_fsm_budget : option Z; s_fsm : F }.

#[export] Instance single_reactive : TransmitRateControl SingleReactiveTransmitRateControl := {|
  trc_delay now _ t := (Returns (StateMachineBudget.fsm_delay (sm_transmission_interval t.(s_fsm)) now t.(s_fsm_budget)), t);
  trc_interval _ t := sm_transmission_interval t.(s_fsm);
  trc_notify now _ t := (Returns (), mk_Single (StateMachineBudget.fsm_notify now) t.(s_fsm)) |}.

End Controls.
Arguments SingleReactiveTransmitRateControl : clear implicits.
Arguments mk_Single {F}. Arguments s_fsm_budget {F}. Arguments s_fsm {F}.

(** ** LIMERIC *)

Record LimericTransmitRateControl := mk_LimericControl { m_budget : LimericBudget.LimericBudget; permitted_duty_cycle : double }.

Definition limeric_notify (now : Z) (tx : Transmission) (t : LimericTransmitRateControl) : cpp unit * LimericTransmitRateControl :=
  match channel_occupancy tx with
  | Returns tx_on => (Returns (), mk_LimericControl (LimericBudget.budget_notify now t.(permitted_duty_cycle) tx_on t.(m_budget)) t.(permitted_duty_cycle))
  | Throws e => (Throws e, t)
  | NoResult => (NoResult, t)
  end.

Definition limeric_update (now : Z) (t : LimericTransmitRateControl) : cpp LimericTransmitRateControl :=
  b ← LimericBudget.budget_update now t.(permitted_duty_cycle) t.(m_budget);
  Returns (mk_LimericControl b t.(permitted_duty_cycle)).

#[export] Instance limeric : TransmitRateControl LimericTransmitRateControl := {|
  trc_delay now _ t := (LimericBudget.budget_delay now t.(m_budget), t);
  trc_interval _ t := t.(m_budget).(LimericBudget.m_interval);
  trc_notify := limeric_notify |}.

(** * The order of doubles, continued *)

Ltac compare_doubles :=
  unfold dle, dlt, SFleb, SFltb, SFcompare in *;
  repeat match goal with a : double |- _ => destruct a as [[]|[]| |[] ? ?] end; try done;
  repeat match goal with
  | H : context [Pos.compare_cont Eq ?x ?y] |- _ => change (Pos.compare_cont Eq x y) with (Pos.compare x y) in H
  | |- context [Pos.compare_cont Eq ?x ?y] => change (Pos.compare_cont Eq x y) with (Pos.compare x y)
  end;
  repeat match goal with H : context [?x ?= ?y] |- _ => revert H end;
  repeat case Z.compare_spec; intros; simplify_eq; try lia; try done;
  repeat match goal with H : context [Pos.compare ?x ?y] |- _ => revert H end;
  repeat case Pos.compare_spec; intros; simpl in *; try done; lia.

Lemma dle_dlt_trans a b c : dle a b = true -> dlt b c = true -> dlt a c = true.
Proof. compare_doubles. Qed.

Lemma dle_trans a b c : dle a b = true -> dle b c = true -> dle a c = true.
Proof. compare_doubles. Qed.

Lemma dlt_dle a b : dlt a b = true -> dle a b = true.
Proof. compare_doubles. Qed.

Lemma dlt_false a b : isnan a = false -> isnan b = false -> dlt a b = false -> dle b a = true.
Proof. compare_doubles. Qed.

Lemma dle_self a : isnan a = false -> dle a a = true.
Proof. intros H. apply dlt_false; [done|done|apply dlt_irrefl]. Qed.

Lemma dlt_num a b : dlt a b = true -> isnan a = false /\ isnan b = false.
Proof. by destruct a, b. Qed.

(** * The fully meshed machine *)

Module FullyMeshedOk.
Import FullyMeshed.

Lemma max_fold l : forall init, isnan init = false ->
  let r := fold_left (fun max_cl s => if dgt s max_cl then s else max_cl) l init in
  isnan r = false /\ dle init r = true /\ forall s, s ∈ l -> isnan s = false -> dle s r = true.
Proof.
  induction l as [|x l IH]; intros init Hi; cbn [fold_left].
  - split; [done|]. split; [by apply dle_self|]. by intros s ?%not_elem_of_nil.
  - unfold dgt. change (SFltb init x) with (dlt init x). destruct (dlt init x) eqn:E.
    + destruct (dlt_num _ _ E) as [_ Hx]. destruct (IH x Hx) as (H1 & H2 & H3). split; [done|].
      split; [by eapply dle_trans; [apply dlt_dle|]|]. intros s [->|Hs]%elem_of_cons Hn; auto.
    + destruct (IH init Hi) as (H1 & H2 & H3). split; [done|]. split; [done|].
      intros s [->|Hs]%elem_of_cons Hn; [|auto]. eapply dle_trans; [|exact H2]. by apply dlt_false.
Qed.

Lemma min_fold l : forall init, isnan init = false ->
  let r := fold_left (fun min_cl s => if dlt s min_cl then s else min_cl) l init in
  isnan r = false /\ (r = init \/ r ∈ l).
Proof.
  induction l as [|x l IH]; intros init Hi; cbn [fold_left]; [by auto|]. destruct (dlt x init) eqn:E.
  - destruct (dlt_num _ _ E) as [Hx _]. destruct (IH x Hx) as (H1 & [->|H2]); (split; [done|right]); set_solver.
  - destruct (IH init Hi) as (H1 & [->|H2]); (split; [done|]); [by left|right]. set_solver.
Qed.

(** Whatever was measured, the minimum of the last second is not above the maximum of the
    last five: the assertion of [Active::update] holds. *)
Lemma min_below_max m : dle (min_channel_load m) (max_channel_load m) = true.
Proof.
  unfold min_channel_load, max_channel_load. set (l := buffered (m_channel_loads m)).
  destruct (max_fold (take N_samples_down l) dzero eq_refl) as (_ & Hz & Hmax).
  destruct (min_fold (take N_samples_up l) (S754_infinity false) eq_refl) as (Hn & Hr).
  destruct (is_infinite _) eqn:E; [done|]. destruct Hr as [Hr|Hr]; [by rewrite Hr in E|].
  apply Hmax; [|done]. apply list_elem_of_lookup in Hr as [i Hi]. apply lookup_take_Some in Hi as [Hi Hlt].
  apply list_elem_of_lookup. exists i. apply lookup_take_Some. split; [done|]. change N_samples_up with 10%nat in Hlt. change N_samples_down with 50%nat. lia.
Qed.

Lemma upper_bound_mono l a b : dle a b = true -> (upper_bound l a <= upper_bound l b)%nat.
Proof.
  intros H. induction l as [|x l IH]; cbn [upper_bound]; [done|]. destruct (dlt b x) eqn:E.
  - by rewrite (dle_dlt_trans _ _ _ H E).
  - destruct (dlt a x); lia.
Qed.

(** The substate is chosen by the maximum alone: the minimum, by which going up was to be
    deferred, never matters. *)
Lemma active_update_maximum min_cl max_cl : dle min_cl max_cl = true ->
  active_update min_cl max_cl = Returns (Nat.min 4 (upper_bound channel_loads max_cl)).
Proof.
  intros H. unfold active_update. rewrite H. pose proof (upper_bound_mono channel_loads _ _ H).
  rewrite Nat.max_r by done. reflexivity.
Qed.

(** The state after a measurement. *)
Definition next_state (m : FullyMeshedStateMachine) : MeshedState :=
  match m.(m_state) with
  | Relaxed => if dge (min_channel_load m) NDL_minChannelLoad then Active else Relaxed
  | Restrictive => if dlt (max_channel_load m) NDL_maxChannelLoad then Active else Restrictive
  | Active => if dlt (max_channel_load m) NDL_minChannelLoad then Relaxed
              else if dge (min_channel_load m) NDL_maxChannelLoad then Restrictive else Active
  end.

(** Measurements never fail; the next state depends on the last second and the last five
    seconds, and the interval in the active state on the maximum alone. *)
Theorem fully_meshed_update cl m : exists m', meshed_update cl m = Returns m' /\
  let m1 := mk m.(m_state) m.(m_substate) (push_front cl m.(m_channel_loads)) in
  m'.(m_channel_loads) = m1.(m_channel_loads) /\ m'.(m_state) = next_state m1 /\
  (m'.(m_state) = Active -> m'.(m_substate) = Nat.min 4 (upper_bound channel_loads (max_channel_load m1))).
Proof.
  unfold meshed_update, next_state. set (m1 := mk _ _ _). assert (activate m1 =
    Returns (mk Active (Nat.min 4 (upper_bound channel_loads (max_channel_load m1))) m1.(m_channel_loads))) as Ha.
  { unfold activate. by rewrite active_update_maximum by apply min_below_max. }
  rewrite Ha. change (m_state m1) with (m_state m). destruct (m_state m) eqn:E;
    repeat match goal with |- context [if ?b then _ else _] => destruct b end; eexists; (split; [reflexivity|]); cbn [m_channel_loads m_state m_substate m1];
    (split; [reflexivity|]); split; try done; by rewrite E.
Qed.

(** One busy sample after four quiet seconds: the interval is the longest of the active
    state at once. *)
Lemma ramp_up_is_immediate :
  (m ← foldr (fun cl m => m ≫= meshed_update cl) (Returns make_FullyMeshed) (literal 58 100 :: replicate 40 (literal 20 100));
   Returns (meshed_interval m)) = Returns (milliseconds 420).
Proof. by vm_compute. Qed.

End FullyMeshedOk.

(** * The gradual machine *)

Module GradualOk.
Import Gradual.

(** States as a set has them. *)
Definition ordered_states (l : list GradualState) : Prop :=
  forall i j a b, l !! i = Some a -> l !! j = Some b -> (i < j)%nat -> dlt a.(lower_limit) b.(lower_limit) = true.

(** The state that a load calls for: as far as limits are not above it. *)
Fixpoint reached (l : list GradualState) (cbr : ChannelLoad) : nat :=
  match l with
  | [] => 0
  | x :: l => if dlt cbr x.(lower_limit) then 0 else S (reached l cbr)
  end.
Definition target (m : GradualStateMachine) (cbr : ChannelLoad) : nat := reached (tail m.(m_states)) cbr.

Definition machine_ok (m : GradualStateMachine) : Prop := ordered_states m.(m_states) /\ (m.(m_current) < length m.(m_states))%nat.

Lemma reached_below l cbr i a : l !! i = Some a -> (i < reached l cbr)%nat -> dlt cbr a.(lower_limit) = false.
Proof.
  revert i. induction l as [|x l IH]; intros i Hi Hlt; [done|]. cbn [reached] in Hlt. destruct (dlt cbr (lower_limit x)) eqn:E; [lia|].
  destruct i as [|i]; [by injection Hi as <-|]. apply (IH i); [done|lia].
Qed.

Lemma reached_stop l cbr a : l !! reached l cbr = Some a -> dlt cbr a.(lower_limit) = true.
Proof. induction l as [|x l IH]; cbn [reached]; [done|]. destruct (dlt cbr (lower_limit x)) eqn:E; [by intros [= <-]|done]. Qed.

Lemma reached_length l cbr : (reached l cbr <= length l)%nat.
Proof. induction l as [|x l IH]; cbn [reached length]; [lia|]. destruct (dlt _ _); lia. Qed.

(** One measurement moves by one state towards the one that the load calls for. *)
Lemma gradual_step cbr m : machine_ok m -> exists m', gradual_update cbr m = Returns m' /\ m_states m' = m_states m /\
  m'.(m_current) = (if m.(m_current) <? target m cbr then S m.(m_current)
                    else if target m cbr <? m.(m_current) then m.(m_current) - 1 else m.(m_current))%nat /\ machine_ok m'.
Proof.
  intros [Ho Hc]. unfold machine_ok, target, gradual_update, current. destruct (m_states m) as [|s0 l] eqn:El; [cbn in Hc; lia|]. cbn [tail].
  pose proof (reached_length l cbr) as Hlen. destruct (lookup_lt_is_Some_2 (s0 :: l) (m_current m) Hc) as [s Hs]. rewrite Hs.
  cbn [mbind cpp_bind]. set (t := reached l cbr) in *.
  assert ((t < m_current m)%nat -> dlt cbr (lower_limit s) = true) as Hdown.
  { intros Hlt. destruct (lookup_lt_is_Some_2 l t ltac:(cbn in Hc; lia)) as [b Hb]. pose proof (reached_stop _ _ _ Hb) as Hd.
    destruct (decide (m_current m = S t)) as [E|E]; [rewrite E in Hs; change (l !! t = Some s) in Hs; congruence|].
    eapply dlt_trans; [exact Hd|]. eapply (Ho (S t)); [exact Hb|exact Hs|lia]. }
  assert ((0 < m_current m <= t)%nat -> dlt cbr (lower_limit s) = false) as Hstay.
  { intros [H0 H1]. destruct (m_current m) as [|i]; [lia|]. by apply (reached_below l cbr i). }
  destruct (dlt cbr (lower_limit s)) eqn:E.
  - eexists. split; [done|]. cbn [m_states m_current]. split; [done|]. split; [|split; [done|lia]].
    destruct (Nat.ltb_spec (m_current m) t); [|destruct (Nat.ltb_spec t (m_current m)); [done|]].
    + destruct (decide (0 < m_current m)%nat) as [Hp|Hp]; [by specialize (Hstay ltac:(lia))|].
      replace (m_current m) with 0%nat in * by lia. injection Hs as <-.
      destruct (lookup_lt_is_Some_2 l 0 ltac:(lia)) as [b Hb]. pose proof (reached_below _ _ _ _ Hb H) as Hb'.
      rewrite (dlt_trans _ _ _ E (Ho 0%nat 1%nat s0 b eq_refl Hb ltac:(lia))) in Hb'. done.
    + destruct (decide (0 < m_current m)%nat) as [Hp|Hp]; [|lia]. by specialize (Hstay ltac:(lia)).
  - assert (m_current m <= t)%nat as Hle by (destruct (decide (t < m_current m)%nat) as [H|H]; [by specialize (Hdown H)|lia]).
    change ((s0 :: l) !! S (m_current m)) with (l !! m_current m).
    destruct (Nat.ltb_spec (m_current m) t) as [Hlt|Hge].
    + destruct (lookup_lt_is_Some_2 l (m_current m) ltac:(lia)) as [b Hb]. rewrite Hb. rewrite (reached_below _ _ _ _ Hb Hlt). cbn [negb].
      eexists. split; [done|]. cbn [m_states m_current length]. split; [done|]. split; [done|]. split; [done|lia].
    + assert (m_current m = t) as Et by lia. rewrite Et, Nat.ltb_irrefl.
      assert (m_states m = s0 :: l /\ m_current m = t /\ ordered_states (m_states m) /\ (m_current m < length (m_states m))%nat) as Hm
        by (rewrite El; done).
      destruct (l !! t) as [b|] eqn:Hb; [rewrite (reached_stop _ _ _ Hb); cbn [negb]|]; by exists m.
Qed.

Fixpoint updates (n : nat) (cbr : ChannelLoad) (m : GradualStateMachine) : cpp GradualStateMachine :=
  match n with
  | O => Returns m
  | S n => m ← gradual_update cbr m; updates n cbr m
  end.

(** C33. Under a constant load the machine reaches the state that the load calls for, the last
    one whose limit is not above it, in at most as many measurements as there are states,
    and stays there. *)
Theorem gradual_converges n cbr m : machine_ok m -> (length m.(m_states) <= n)%nat ->
  updates n cbr m = Returns (mk m.(m_states) (target m cbr)).
Proof.
  intros Hm Hn. assert (target m cbr < length (m_states m))%nat as Ht.
  { destruct Hm as [_ Hc]. unfold target. destruct (m_states m) as [|s l]; [cbn in Hc; lia|]. pose proof (reached_length l cbr). cbn. lia. }
  assert (forall n m', machine_ok m' -> m_states m' = m_states m ->
    (m_current m' - target m cbr <= n)%nat -> (target m cbr - m_current m' <= n)%nat ->
    updates n cbr m' = Returns (mk (m_states m) (target m cbr))) as H; [|apply H; [done|done|destruct Hm; lia|lia]].
  clear n Hn. intros n. induction n as [|n IH]; intros m' Hm' Es H1 H2; cbn [updates].
  - destruct m' as [s c]. cbn in *. subst s. by replace c with (target m cbr) by lia.
  - destruct (gradual_step cbr m' Hm') as (m2 & -> & Es2 & Ec & Hm2). cbn [mbind cpp_bind].
    assert (target m' cbr = target m cbr) as Et by (unfold target; by rewrite Es). rewrite Et in Ec.
    apply IH; [done|congruence| |]; rewrite Ec; destruct (Nat.ltb_spec (m_current m') (target m cbr)); try lia;
      destruct (Nat.ltb_spec (target m cbr) (m_current m')); lia.
Qed.

(** The states of the standard are in order. *)
Definition sorted_states (l : list GradualState) : bool :=
  forallb (fun i => forallb (fun j => negb (i <? j)%nat || match l !! i, l !! j with
    | Some a, Some b => dlt a.(lower_limit) b.(lower_limit) | _, _ => true end) (seq 0 (length l))) (seq 0 (length l)).

Lemma sorted_states_ok l : sorted_states l = true -> ordered_states l.
Proof.
  intros H i j a b Hi Hj Hlt. unfold sorted_states in H. rewrite forallb_forall in H.
  specialize (H i ltac:(apply in_seq; apply lookup_lt_Some in Hi; lia)). rewrite forallb_forall in H.
  specialize (H j ltac:(apply in_seq; apply lookup_lt_Some in Hj; lia)). rewrite Hi, Hj in H.
  apply Nat.ltb_lt in Hlt. by rewrite Hlt in H.
Qed.

Lemma etsi_ok : machine_ok (make_Gradual etsiStates1ms) /\ machine_ok (make_Gradual etsiStates500us).
Proof. split; (split; [apply sorted_states_ok; by vm_compute|vm_compute; lia]). Qed.

Lemma gradual_converges_witness :
  updates 5 (literal 55 100) (make_Gradual etsiStates1ms) = Returns (mk etsiStates1ms 3) /\
  gradual_interval (mk etsiStates1ms 3) = milliseconds 500.
Proof.
  split; [|by vm_compute]. rewrite (gradual_converges 5 (literal 55 100) (make_Gradual etsiStates1ms) (proj1 etsi_ok)); [by vm_compute|].
  vm_compute. lia.
Defined.

End GradualOk.

(** * Bursts *)

Module BurstOk.
Import BurstBudget.

(** A message is sent at once when there is no delay, and not at all otherwise. *)
Definition attempt (now : Z) (b : BurstBudget) : bool * BurstBudget :=
  match burst_delay now b with
  | (Returns d, b) => if d =? 0 then (true, burst_notify now b) else (false, b)
  | (_, b) => (false, b)
  end.

(** The times of the messages that are sent, of those at which one is wanted. *)
Fixpoint send_all (ts : list Z) (b : BurstBudget) : list Z :=
  match ts with
  | [] => []
  | t :: ts => let '(sent, b) := attempt t b in (if sent then [t] else []) ++ send_all ts b
  end.

(** The microsecond in which the period of the last burst ends. *)
Definition at_boundary (now : Z) (b : BurstBudget) : bool :=
  match b.(m_messages).(buffered) with front :: _ => now =? front + b.(m_burst_period) | [] => false end.

Fixpoint off_boundary (ts : list Z) (b : BurstBudget) : bool :=
  match ts with
  | [] => true
  | t :: ts => negb (at_boundary t b) && off_boundary ts (attempt t b).2
  end.

(** A burst: at most [n] messages, all of them within [duration] of the first one. *)
Definition is_burst (n : nat) (duration : Z) (l : list Z) : Prop :=
  exists s l', l = s :: l' /\ (length l <= n)%nat /\ Forall (fun t => s <= t < s + duration) l.

(** Bursts that begin more than [period] one after the other. *)
Definition spaced (period : Z) (bursts : list (list Z)) : Prop :=
  forall bs1 s l s' l' bs2, bursts = bs1 ++ (s :: l) :: (s' :: l') :: bs2 -> s + period < s'.

Lemma spaced_snoc period bs s l s' : spaced period (bs ++ [s :: l]) -> s + period < s' -> spaced period ((bs ++ [s :: l]) ++ [[s']]).
Proof.
  intros H Hs bs1 a x a' x' bs2 E. destruct bs2 as [|c bs2 _] using rev_ind.
  - replace (bs1 ++ [a :: x; a' :: x']) with ((bs1 ++ [a :: x]) ++ [a' :: x']) in E by (by rewrite <- app_assoc).
    apply app_inj_tail in E as [E [= <- <-]]. apply app_inj_tail in E as [_ [= <- <-]]. done.
  - replace (bs1 ++ (a :: x) :: (a' :: x') :: bs2 ++ [c]) with ((bs1 ++ (a :: x) :: (a' :: x') :: bs2) ++ [c]) in E by (by rewrite <- app_assoc).
    apply app_inj_tail in E as [E _]. by eapply H.
Qed.

Lemma spaced_last period bs s l l' : spaced period (bs ++ [s :: l]) -> spaced period (bs ++ [s :: l']).
Proof.
  intros H bs1 a x a' x' bs2 E. destruct bs2 as [|c bs2 _] using rev_ind.
  - replace (bs1 ++ [a :: x; a' :: x']) with ((bs1 ++ [a :: x]) ++ [a' :: x']) in E by (by rewrite <- app_assoc).
    apply app_inj_tail in E as [-> [= <- <-]]. eapply (H bs1 a x s l []). by rewrite <- app_assoc.
  - replace (bs1 ++ (a :: x) :: (a' :: x') :: bs2 ++ [c]) with ((bs1 ++ (a :: x) :: (a' :: x') :: bs2) ++ [c]) in E by (by rewrite <- app_assoc).
    apply app_inj_tail in E as [-> _]. eapply (H bs1 a x a' x' (bs2 ++ [s :: l])). by rewrite <- app_assoc.
Qed.

Section Bursts.
Context (n : nat) (duration period : Z) (Hn : (0 < n)%nat) (Hd : 0 < duration < period).

(** The bursts so far; the last one is in the buffer. *)
Record burst_inv (b : BurstBudget) (bursts : list (list Z)) (now : Z) : Prop := {
  bi_capacity : b.(m_messages).(buffer_capacity) = n;
  bi_duration : b.(m_burst_duration) = duration;
  bi_period : b.(m_burst_period) = period;
  bi_bursts : Forall (is_burst n duration) bursts;
  bi_spaced : spaced period bursts;
  bi_last : bursts = [] /\ b.(m_messages).(buffered) = [] \/
            exists bs s l, bursts = bs ++ [s :: l] /\ b.(m_messages).(buffered) = s :: l;
  bi_past : Forall (fun t => t <= now) (concat bursts);
}.

Lemma is_burst_one t : is_burst n duration [t].
Proof using Hn Hd. exists t, []. split; [done|]. split; [cbn; lia|]. constructor; [lia|constructor]. Qed.

Lemma past_snoc bursts now t : Forall (fun x => x <= now) (concat bursts) -> now <= t -> Forall (fun x => x <= t) (concat bursts ++ [t]).
Proof. intros H Ht. apply Forall_app. split; [eapply Forall_impl; [exact H|]; intros; cbn in *; lia|]. constructor; [lia|constructor]. Qed.

(** One attempt. *)
Lemma attempt_ok b bursts now t : burst_inv b bursts now -> now <= t -> at_boundary t b = false ->
  exists bursts', burst_inv (attempt t b).2 bursts' t /\
    concat bursts' = concat bursts ++ (if (attempt t b).1 then [t] else []).
Proof using Hn Hd.
  intros Hi Ht Hb. pose proof Hi as [Hc Hdu Hp HF Hsp Hl Hpast]. unfold attempt, burst_delay. rewrite Hdu, Hp.
  destruct (Z.ltb_spec duration period); [|lia]. unfold at_boundary in Hb. destruct Hl as [[-> El]|(bs & s & l & -> & El)]; rewrite El in *.
  { exists [[t]]. cbn. split; [|done]. unfold burst_notify, with_messages, push_back, is_full. rewrite El, Hc. cbn [length].
    split; cbn; try done.
    - constructor; [apply is_burst_one|constructor].
    - intros [|? [|]] ? ? ? ? ? [=].
    - right. exists [], t, []. split; [done|]. destruct n; [lia|done].
    - constructor; [lia|constructor]. }
  destruct ((t <? s + duration) && negb (is_full (m_messages b))) eqn:E1.
  { apply andb_true_iff in E1 as [E1%Z.ltb_lt E2%negb_true_iff]. cbn [fst snd Z.eqb].
    exists (bs ++ [(s :: l) ++ [t]]). assert (concat (bs ++ [(s :: l) ++ [t]]) = concat (bs ++ [s :: l]) ++ [t]) as Ec
      by (rewrite !concat_app; cbn; by rewrite !app_nil_r, <- app_assoc).
    split; [|done]. apply Forall_app in HF as [HF1 HF2]. apply Forall_cons in HF2 as [(s0 & l0 & E0 & Hlen & Hall) _]. injection E0 as <- <-.
    unfold is_full in E2. rewrite El, Hc in E2. apply Nat.eqb_neq in E2.
    split; unfold burst_notify; cbn [m_messages m_burst_duration m_burst_period with_messages buffer_capacity push_back]; try done.
    - apply Forall_app. split; [done|]. constructor; [|constructor]. exists s, (l ++ [t]). split; [done|].
      split; [rewrite length_app; cbn in *; lia|]. apply Forall_app. split; [done|]. constructor; [|constructor]. split; [|done].
      rewrite Forall_forall in Hpast. specialize (Hpast s). rewrite concat_app, elem_of_app in Hpast. cbn in Hpast.
      specialize (Hpast ltac:(right; set_solver)). lia.
    - cbn [app]. by eapply spaced_last.
    - right. exists bs, s, (l ++ [t]). split; [done|]. unfold push_back, is_full. rewrite El, Hc. by apply Nat.eqb_neq in E2 as ->.
    - rewrite Ec. by eapply past_snoc. }
  destruct (Z.ltb_spec (s + period) t) as [E2|E2].
  { exists ((bs ++ [s :: l]) ++ [[t]]). cbn [fst snd Z.eqb]. assert (concat ((bs ++ [s :: l]) ++ [[t]]) = concat (bs ++ [s :: l]) ++ [t]) as Ec
      by (rewrite (concat_app (bs ++ _)); cbn; by rewrite ?app_nil_r).
    split; [|done]. unfold burst_notify, with_messages, clear, push_back, is_full. cbn [m_messages m_burst_duration m_burst_period buffer_capacity buffered length].
    split; cbn [m_messages m_burst_duration m_burst_period buffer_capacity buffered]; try done.
    - apply Forall_app. split; [done|]. constructor; [apply is_burst_one|constructor].
    - by apply spaced_snoc.
    - right. exists (bs ++ [s :: l]), t, []. split; [done|]. rewrite Hc. by destruct n; [lia|].
    - rewrite Ec. by eapply past_snoc. }
  apply Z.eqb_neq in Hb. exists (bs ++ [s :: l]). destruct (Z.eqb_spec (s + period - t) 0); [lia|]. cbn [fst snd]. split; [|by rewrite app_nil_r].
  destruct Hi. split; try done. eapply Forall_impl; [exact Hpast|]. intros; cbn in *; lia.
Qed.

Lemma send_all_ok ts : forall b bursts now, burst_inv b bursts now -> StronglySorted Z.le (now :: ts) -> off_boundary ts b = true ->
  exists bursts' now', concat bursts' = concat bursts ++ send_all ts b /\ Forall (is_burst n duration) bursts' /\ spaced period bursts' /\ now <= now'.
Proof using Hn Hd.
  induction ts as [|t ts IH]; intros b bursts now Hi Hs Hb; cbn [send_all off_boundary] in *.
  - exists bursts, now. rewrite app_nil_r. destruct Hi. repeat split; try done.
  - apply andb_true_iff in Hb as [Hb%negb_true_iff Hrest]. inversion Hs as [|? ? Hs' Hle]. inversion Hle as [|? ? Ht Hle'].
    destruct (attempt_ok b bursts now t Hi Ht Hb) as (bursts1 & Hi1 & Ec).
    destruct (attempt t b) as [sent b1]. cbn [fst snd] in *.
    destruct (IH b1 bursts1 t Hi1 Hs' Hrest) as (bursts2 & now2 & E2 & HF & Hsp & Hn2). exists bursts2, now2.
    rewrite E2, Ec, <- app_assoc. repeat split; try done. lia.
Qed.

End Bursts.

(** C32. What a burst budget lets pass: bursts of at most as many messages as its buffer holds, each burst no longer than the
    burst duration, and each beginning more than a burst period after the one before; as
    long as no message is wanted in the very microsecond in which a period ends. *)
Theorem burst_limit ts b : let n := b.(m_messages).(buffer_capacity) in
  (0 < n)%nat -> 0 < b.(m_burst_duration) < b.(m_burst_period) -> b.(m_messages).(buffered) = [] ->
  StronglySorted Z.le ts -> off_boundary ts b = true ->
  exists bursts, send_all ts b = concat bursts /\ Forall (is_burst n b.(m_burst_duration)) bursts /\ spaced b.(m_burst_period) bursts.
Proof.
  intros n Hn Hd Hb Hs Ho. destruct ts as [|t ts].
  { exists []. split; [done|]. split; [constructor|]. by intros [] ? ? ? ? ?. }
  assert (burst_inv n b.(m_burst_duration) b.(m_burst_period) b [] t) as Hi.
  { split; [done|done|done|constructor|by intros [] ? ? ? ? ?|by left|constructor]. }
  destruct (send_all_ok n _ _ Hn Hd (t :: ts) b [] t Hi) as (bursts & _ & E & HF & Hsp & _); [|done|by exists bursts].
  constructor; [done|]. constructor; [lia|]. by inversion Hs.
Qed.

Definition example_times : list Z := map (fun i => Z.of_nat i * 40000) (seq 1 30) ++ [11000000; 11000001].

Lemma burst_limit_witness : exists bursts, send_all example_times make_BurstBudget = concat bursts /\
  Forall (is_burst 20 (seconds 1)) bursts /\ spaced (seconds 10) bursts /\ length (concat bursts) = 22%nat.
Proof.
  destruct (burst_limit example_times make_BurstBudget) as (bursts & E & HF & Hsp).
  - vm_compute. lia.
  - by vm_compute.
  - reflexivity.
  - apply Sorted_StronglySorted; [intros ? ? ?; lia|]. vm_compute. repeat constructor; discriminate.
  - by vm_compute.
  - exists bursts. split; [exact E|]. split; [exact HF|]. split; [exact Hsp|]. rewrite <- E. by vm_compute.
Defined.

(** Messages that are wanted when the delay that was reported has passed come in that very microsecond: twice as
    many as allowed are sent in two seconds. *)
Definition waiting_times : list Z :=
  map (fun i => Z.of_nat i * 1000) (seq 1 20) ++ map (fun i => Z.of_nat i * 1000 + seconds 10) (seq 1 19) ++
  map (fun i => Z.of_nat i + seconds 10 + 20000) (seq 1 20).

Lemma burst_limit_exceeded :
  length (filter (fun t => seconds 10 <= t < seconds 12) (send_all waiting_times make_BurstBudget)) = 39%nat.
Proof. by vm_compute. Qed.

(** The limit on the messages of a burst cannot be lowered. *)
Lemma burst_messages_keeps_limit :
  length (send_all (map (fun i => seconds 100 + Z.of_nat i) (seq 1 20)) (burst_messages 5 make_BurstBudget)) = 20%nat.
Proof. by vm_compute. Qed.

(** Raising it within a burst ends the burst. *)
Lemma burst_messages_ends_burst : let b := burst_notify (seconds 100) make_BurstBudget in
  (burst_delay (seconds 100 + 1) b).1 = Returns 0 /\ (burst_delay (seconds 100 + 1) (burst_messages 30 b)).1 = Returns (seconds 10 - 1).
Proof. by vm_compute. Qed.

End BurstOk.

(** * LIMERIC *)

Module LimericOk.
Import Limeric.

(** The algorithm runs at multiples of two intervals, after one to three intervals. *)
Theorem limeric_schedule now p : 0 < p.(cbr_interval) -> 0 <= now ->
  schedule now p mod (2 * p.(cbr_interval)) = 0 /\ now + p.(cbr_interval) <= schedule now p <= now + 3 * p.(cbr_interval).
Proof.
  intros Hc Hn. unfold schedule. set (c := cbr_interval p) in *. rewrite Z.rem_mod_nonneg by lia.
  set (tp := now + 2 * c). pose proof (Z.mod_pos_bound tp (2 * c) ltac:(lia)) as Hb.
  pose proof (Z.div_mod tp (2 * c) ltac:(lia)) as Hdm. set (r := tp mod (2 * c)) in *. set (q := tp / (2 * c)) in *.
  assert (forall k, (2 * c * k) mod (2 * c) = 0) as Hm by (intros k; rewrite Z.mul_comm; apply Z.mod_mul; lia).
  destruct (Z.ltb_spec c r); [|destruct (Z.ltb_spec 0 r)].
  - replace (tp + (2 * c - r)) with (2 * c * (q + 1)) by lia. split; [apply Hm|]. unfold tp in *. lia.
  - replace (tp - r) with (2 * c * q) by lia. split; [apply Hm|]. unfold tp in *. lia.
  - replace tp with (2 * c * q) at 1 by lia. split; [apply Hm|]. unfold tp in *. lia.
Qed.

(** Unless the arithmetic ends in NaN, the duty cycle is within its bounds. *)
Lemma bounded_delta_in l a offset : isnan (bounded_delta l a offset) = false -> isnan l.(m_params).(delta_min) = false ->
  dle l.(m_params).(delta_min) l.(m_params).(delta_max) = true ->
  dle l.(m_params).(delta_min) (bounded_delta l a offset) = true /\ dle (bounded_delta l a offset) l.(m_params).(delta_max) = true.
Proof.
  unfold bounded_delta, dmin, dmax. set (x := UnitInterval.clamp _). set (lo := delta_min _). set (hi := delta_max _).
  intros Hx Hlo Hle. assert (isnan hi = false) as Hhi by (unfold dle, SFleb, SFcompare in Hle; by destruct lo as [[]|[]| |[]], hi as [[]|[]| |[]]).
  destruct (dlt x lo) eqn:E1.
  - destruct (dlt hi lo) eqn:E2; [|split; [by apply dle_self|done]]. split; [done|by apply dle_self].
  - destruct (dlt hi x) eqn:E2; [split; [done|by apply dle_self]|]. split; by apply dlt_false.
Qed.

(** A budget that is made later than 25 ms after the epoch: the time since the beginning
    of time does not fit into 64 bits. *)
Lemma budget_undefined now duty_cycle : milliseconds 25 < now -> LimericBudget.make_LimericBudget now duty_cycle = NoResult.
Proof.
  intros Hn. unfold LimericBudget.make_LimericBudget, LimericBudget.budget_update. cbn [LimericBudget.m_tx_start LimericBudget.m_interval].
  unfold LimericBudget.min_interval, milliseconds in *. change (in_rep (- 2 ^ 63 + 25 * 1000)) with (Returns (- 2 ^ 63 + 25 * 1000)).
  assert (in_rep (- 2 ^ 63 + 25 * 1000 - now) = NoResult) as E; [|by cbn [mbind cpp_bind]; rewrite E].
  unfold in_rep. by destruct (Z.leb_spec (- 2 ^ 63) (- 2 ^ 63 + 25 * 1000 - now)); [lia|].
Qed.

(** No duty cycle at all gives the shortest interval. *)
Lemma no_duty_cycle_shortest_interval now b :
  (LimericBudget.budget_notify now dzero 500 b).(LimericBudget.m_interval) = LimericBudget.min_interval.
Proof. by vm_compute. Qed.

End LimericOk.
