(* ===== verification/SigningPolicy.v ===== *)
(** What the header of a signed message contains.

    Models security/peer_request_tracker.cpp and security/v3/sign_header_policy.cpp: the
    queues of requests for certificates, and the policy that decides for every message
    whether it carries the certificate of its signer or a digest, which certificates it
    asks for and which one it hands on.

    The tracker holds a list and a map from its items to their nodes; a node is known by
    its number, as an iterator is.  [TrackerSpec] is the contract: a bounded queue without
    duplicates. *)

From Stdlib Require Import ZArith Lia.
From stdpp Require Import prelude strings gmap.
From S2P Require Import Prelude Codecs Descriptor OerSem OerCodec Pqc Asn1Wrapper SecurityTypes CertificateV3.
From S2P Require Import CertificateStores GeoSerial SecuredMessageV3 Double.

Open Scope Z_scope.

(** * Requests for certificates *)

Record PeerRequestTracker := {
  m_limit : nat;
  m_fifo : list (nat * HashedId3);
  m_lookup : gmap (list Z) nat;
  m_fresh : nat;
}.

Definition make_tracker (limit : nat) : PeerRequestTracker :=
  {| m_limit := limit; m_fifo := []; m_lookup := ∅; m_fresh := 0 |}.

(** The limit of trackers that are constructed without one. *)
Definition default_limit : nat := 16.

Module Tracker.

Definition set (fifo : list (nat * HashedId3)) (lookup : gmap (list Z) nat) (t : PeerRequestTracker) : PeerRequestTracker :=
  {| m_limit := t.(m_limit); m_fifo := fifo; m_lookup := lookup; m_fresh := t.(m_fresh) |}.

(** [assert(m_fifo.size() == m_lookup.size())] *)
Definition check_sizes : state_cpp PeerRequestTracker unit :=
  ok ← gets (fun t => bool_decide (length t.(m_fifo) = base.size t.(m_lookup)));
  assert_that ok.

Definition is_pending (id : HashedId3) (t : PeerRequestTracker) : bool := bool_decide (is_Some (t.(m_lookup) !! id)).

(** The item at the front goes when the queue is full. *)
Definition drop_front (t : PeerRequestTracker) : PeerRequestTracker :=
  match t.(m_fifo) with
  | (_, front) :: fifo =>
    if (t.(m_limit) <=? length t.(m_fifo))%nat then set fifo (delete front t.(m_lookup)) t else t
  | [] => t
  end.

(** The item at the end is a new node. *)
Definition append (id : HashedId3) (t : PeerRequestTracker) : PeerRequestTracker :=
  {| m_limit := t.(m_limit); m_fifo := t.(m_fifo) ++ [(t.(m_fresh), id)];
     m_lookup := emplace id t.(m_fresh) t.(m_lookup); m_fresh := S t.(m_fresh) |}.

Definition add_request (id : HashedId3) : state_cpp PeerRequestTracker unit :=
  pending ← gets (is_pending id);
  _ ← when (negb pending) (_ ← modify drop_front; modify (append id));
  check_sizes.

(** [m_fifo.erase(it)]: [None] when there is no such node. *)
Fixpoint erase (node : nat) (fifo : list (nat * HashedId3)) : option (list (nat * HashedId3)) :=
  match fifo with
  | [] => None
  | (n, x) :: fifo => if decide (n = node) then Some fifo else cons (n, x) <$> erase node fifo
  end.

Definition discard_request (id : HashedId3) : state_cpp PeerRequestTracker unit :=
  t ← gets Datatypes.id;
  _ ← match t.(m_lookup) !! id with
      | Some node =>
        fifo ← defined (erase node t.(m_fifo));
        modify (set fifo (delete id t.(m_lookup)))
      | None => mret ()
      end;
  check_sizes.

Definition next_one : state_cpp PeerRequestTracker (option HashedId3) :=
  t ← gets id;
  next ← match t.(m_fifo) with
         | (_, front) :: fifo => _ ← modify (set fifo (delete front t.(m_lookup))); mret (Some front)
         | [] => mret None
         end;
  _ ← check_sizes;
  mret next.

Definition all : state_cpp PeerRequestTracker (list HashedId3) :=
  t ← gets id;
  _ ← modify (set [] ∅);
  mret (map snd t.(m_fifo)).

Definition next_n (max : nat) : state_cpp PeerRequestTracker (list HashedId3) :=
  t ← gets id;
  if (length t.(m_fifo) <=? max)%nat then all
  else
    let next := map snd (take max t.(m_fifo)) in
    _ ← modify (set (drop max t.(m_fifo)) (foldl (fun m id => delete id m) t.(m_lookup) next));
    _ ← check_sizes;
    mret next.

End Tracker.

(** * The policy *)

(** common/its_aid.hpp *)
Definition aid_DEN : Z := 37.
Definition aid_SCR : Z := 623.

(** What the policy reads of a PositionFix: degrees and metres. *)
Record SigningPosition := {
  fix_latitude : double;
  fix_longitude : double;
  fix_altitude : option double;
}.

Definition NinetyDegreeInt_unknown : Z := 900000001.
Definition OneEightyDegreeInt_unknown : Z := 1800000001.

(** [std::round] of a double, assigned to a long. *)
Definition build_location (position : SigningPosition) : Msg.ThreeDLocation :=
  let lat := lround (dmul (ddiv position.(fix_latitude) (double_of 90)) (double_of NinetyDegreeInt_max)) in
  let lon := lround (dmul (ddiv position.(fix_longitude) (double_of 180)) (double_of OneEightyDegreeInt_max)) in
  let elevation :=
    match position.(fix_altitude) with
    | Some altitude =>
      let elev_dm := lround (dmul altitude (double_of 10)) in
      if (-4095 <=? elev_dm) && (elev_dm <=? 61439) then elev_dm + 4096 else 4096
    | None => 4096
    end in
  Msg.mk_ThreeDLocation
    (if (NinetyDegreeInt_min <=? lat) && (lat <=? NinetyDegreeInt_max) then lat else NinetyDegreeInt_unknown)
    (if (OneEightyDegreeInt_min <=? lon) && (lon <=? OneEightyDegreeInt_max) then lon else OneEightyDegreeInt_unknown)
    elevation.

Record DefaultSignHeaderPolicy := {
  m_cam_next_certificate : Z;
  m_cert_requested : bool;
  m_incoming_requests : PeerRequestTracker;
  m_outgoing_requests : PeerRequestTracker;
}.

Definition make_policy (now : Z) : DefaultSignHeaderPolicy :=
  {| m_cam_next_certificate := now; m_cert_requested := false;
     m_incoming_requests := make_tracker default_limit; m_outgoing_requests := make_tracker default_limit |}.

Module Policy.

Definition set_cam_next_certificate (v : Z) (p : DefaultSignHeaderPolicy) : DefaultSignHeaderPolicy :=
  {| m_cam_next_certificate := v; m_cert_requested := p.(m_cert_requested);
     m_incoming_requests := p.(m_incoming_requests); m_outgoing_requests := p.(m_outgoing_requests) |}.
Definition set_cert_requested (v : bool) (p : DefaultSignHeaderPolicy) : DefaultSignHeaderPolicy :=
  {| m_cam_next_certificate := p.(m_cam_next_certificate); m_cert_requested := v;
     m_incoming_requests := p.(m_incoming_requests); m_outgoing_requests := p.(m_outgoing_requests) |}.
Definition set_incoming (v : PeerRequestTracker) (p : DefaultSignHeaderPolicy) : DefaultSignHeaderPolicy :=
  {| m_cam_next_certificate := p.(m_cam_next_certificate); m_cert_requested := p.(m_cert_requested);
     m_incoming_requests := v; m_outgoing_requests := p.(m_outgoing_requests) |}.
Definition set_outgoing (v : PeerRequestTracker) (p : DefaultSignHeaderPolicy) : DefaultSignHeaderPolicy :=
  {| m_cam_next_certificate := p.(m_cam_next_certificate); m_cert_requested := p.(m_cert_requested);
     m_incoming_requests := p.(m_incoming_requests); m_outgoing_requests := v |}.

Abbreviation policy := (state_cpp DefaultSignHeaderPolicy).

(** A call of a member function of one of the trackers. *)
Definition incoming {A} (f : state_cpp PeerRequestTracker A) : policy A := fun p =>
  let '(r, t) := f p.(m_incoming_requests) in (r, set_incoming t p).
Definition outgoing {A} (f : state_cpp PeerRequestTracker A) : policy A := fun p =>
  let '(r, t) := f p.(m_outgoing_requests) in (r, set_outgoing t p).

Definition request_unrecognized_certificate (id : HashedId8) : policy unit := outgoing (Tracker.add_request (truncate id)).
Definition request_certificate : policy unit := modify (set_cert_requested true).
Definition enqueue_p2p_request (id : HashedId3) : policy unit := incoming (Tracker.add_request id).
Definition discard_p2p_request (id : HashedId3) : policy unit := incoming (Tracker.discard_request id).

Section Prepare.
Context {nest : Nesting} {pf : Platform} {sha : Sha}.

(** [while (auto p2p_hid = m_incoming_requests.next_one())]: every turn takes a request
    out of the queue. *)
Fixpoint answer_request (fuel : nat) (cache : CertificateCache) (m : obj) : policy obj :=
  match fuel with
  | O => lift NoResult
  | S fuel =>
    p2p_hid ← incoming Tracker.next_one;
    match p2p_hid with
    | None => mret m
    | Some hid =>
      match cache_lookup3 cache hid with
      | Some p2p_cert =>
        if is_ca_certificate (Some p2p_cert) then lift (Msg.set_requested_certificate p2p_cert m)
        else answer_request fuel cache m
      | None => answer_request fuel cache m
      end
    end
  end.

(** The branch for cooperative awareness messages. *)
Definition prepare_cam (now : Z) (at_cert : obj) (cache : CertificateCache) (m : obj) : policy obj :=
  maybe_at_digest ← lift (calculate_digest at_cert);
  _ ← match maybe_at_digest with
      | Some d =>
        pending ← gets (fun p => Tracker.is_pending (truncate d) p.(m_incoming_requests));
        when pending (_ ← modify (set_cert_requested true); incoming (Tracker.discard_request (truncate d)))
      | None => mret ()
      end : policy unit;
  digest_only ← gets (fun p => (now <? p.(m_cam_next_certificate)) && negb p.(m_cert_requested));
  m ← (if digest_only : bool then
         match maybe_at_digest with
         | Some d => lift (Msg.set_signer_identifier_digest d m)
         | None => mret m
         end
       else
         _ ← (modify (set_cert_requested false) : policy unit);
         m ← lift (Msg.set_signer_identifier_certificate at_cert m);
         _ ← modify (set_cam_next_certificate (now + 1000000 - 50000));
         mret m : policy obj);
  requests ← outgoing Tracker.all;
  m ← lift (Msg.set_inline_p2pcd_request requests m);
  if digest_only : bool then
    fuel ← gets (fun p => S (length p.(m_incoming_requests).(m_fifo)));
    answer_request fuel cache m
  else mret m.

(** [request.its_aid] and [request.self_signed]; [convert_time64] of the clock's time. *)
Definition prepare_header (now : Z) (position : SigningPosition) (own_certificate : obj) (cache : CertificateCache)
    (its_aid : Z) (self_signed : bool) (m : obj) : policy obj :=
  m ← lift (Msg.set_its_aid its_aid m);
  m ← lift (Msg.set_generation_time (u64 now) m);
  if its_aid =? aid_CA then prepare_cam now own_certificate cache m
  else if its_aid =? aid_DEN then
    m ← lift (Msg.set_signer_identifier_certificate own_certificate m);
    lift (Msg.set_generation_location (build_location position) m)
  else if its_aid =? aid_SCR then
    if self_signed then lift (Msg.set_signer_identifier_self m)
    else
      digest ← lift (calculate_digest own_certificate);
      match digest with
      | Some d => lift (Msg.set_signer_identifier_digest d m)
      | None => mret m
      end
  else lift (Msg.set_signer_identifier_certificate own_certificate m).

End Prepare.
End Policy.

(** * What a tracker promises *)

(** A queue without duplicates; when it is full the item at the front makes room. *)
Module TrackerSpec.

Definition enqueue (limit : nat) (id : HashedId3) (q : list HashedId3) : list HashedId3 :=
  if decide (id ∈ q) then q
  else (if (limit <=? length q)%nat then tail q else q) ++ [id].

Definition discard (id : HashedId3) (q : list HashedId3) : list HashedId3 := filter (fun x => x <> id) q.

End TrackerSpec.

Module TrackerOk.

Definition ids (t : PeerRequestTracker) : list HashedId3 := map snd t.(m_fifo).

(** The map that belongs to a list of nodes. *)
Definition index (fifo : list (nat * HashedId3)) : gmap (list Z) nat := list_to_map (map prod_swap fifo).

(** The map finds every node under its item; no two nodes are the same or hold the same
    item. *)
Record coherent (t : PeerRequestTracker) : Prop := {
  co_items : NoDup (ids t);
  co_nodes : NoDup (map fst t.(m_fifo));
  co_fresh : Forall (fun x => x.1 < t.(m_fresh))%nat t.(m_fifo);
  co_index : t.(m_lookup) = index t.(m_fifo);
}.

Lemma keys_swap (fifo : list (nat * HashedId3)) : (map prod_swap fifo).*1 = map snd fifo.
Proof. induction fifo as [|[n x] fifo IH]; [done|]. cbn. by rewrite IH. Qed.

Lemma index_lookup fifo id n : NoDup (map snd fifo) -> index fifo !! id = Some n <-> (n, id) ∈ fifo.
Proof.
  intros H. unfold index. rewrite <- elem_of_list_to_map by (by rewrite keys_swap).
  rewrite list_elem_of_fmap. split; [intros ([a b] & [= <- <-] & Hin); done|intros Hin; by exists (n, id)].
Qed.

Lemma index_pending fifo id : NoDup (map snd fifo) -> is_Some (index fifo !! id) <-> id ∈ map snd fifo.
Proof.
  intros H. rewrite list_elem_of_fmap. split.
  - intros [n Hn%index_lookup]; [by exists (n, id)|done].
  - intros ([n x] & -> & Hin). exists n. by apply index_lookup.
Qed.

Lemma index_size fifo : NoDup (map snd fifo) -> base.size (index fifo) = length fifo.
Proof. intros H. unfold index. rewrite map_size_list_to_map by (by rewrite keys_swap). apply length_map. Qed.

Lemma index_front n x fifo : NoDup (x :: map snd fifo) -> delete x (index ((n, x) :: fifo)) = index fifo.
Proof.
  intros [Hx H]%NoDup_cons. apply delete_insert_id. change (index fifo !! x = None).
  destruct (index fifo !! x) as [k|] eqn:E; [|done]. exfalso. apply Hx, index_pending; [done|by exists k].
Qed.

Lemma index_snoc n x fifo : x ∉ map snd fifo -> index (fifo ++ [(n, x)]) = <[x := n]> (index fifo).
Proof. intros H. unfold index. rewrite map_app. apply list_to_map_snoc. by rewrite keys_swap. Qed.

Lemma coherent_sizes t : coherent t -> Tracker.check_sizes t = (Returns (), t).
Proof.
  intros [H1 _ _ H4]. unfold Tracker.check_sizes, gets, mbind, state_cpp_bind. cbn.
  rewrite bool_decide_true; [done|]. by rewrite H4, index_size.
Qed.

Lemma make_coherent limit : coherent (make_tracker limit).
Proof. split; cbn; try constructor. Qed.

Lemma pending_spec id t : coherent t -> Tracker.is_pending id t = bool_decide (id ∈ ids t).
Proof. intros [H1 _ _ H4]. unfold Tracker.is_pending. apply bool_decide_ext. rewrite H4. by apply index_pending. Qed.

(** ** Removing from the front *)

Lemma pop_coherent t n x fifo : coherent t -> t.(m_fifo) = (n, x) :: fifo ->
  coherent (Tracker.set fifo (delete x t.(m_lookup)) t).
Proof.
  intros [H1 H2 H3 H4] E. unfold ids in H1. rewrite H4, E in *. cbn in H1, H2.
  split; cbn; [by apply NoDup_cons in H1 as []|by apply NoDup_cons in H2 as []|by apply Forall_cons in H3 as []|].
  by apply index_front.
Qed.

Lemma drop_front_spec t : coherent t -> coherent (Tracker.drop_front t) /\
  ids (Tracker.drop_front t) = (if (t.(m_limit) <=? length (ids t))%nat then tail (ids t) else ids t) /\
  m_fresh (Tracker.drop_front t) = m_fresh t /\ m_limit (Tracker.drop_front t) = m_limit t.
Proof.
  intros H. unfold Tracker.drop_front, ids. rewrite length_map. destruct (m_fifo t) as [|[n x] fifo] eqn:E.
  - rewrite E. cbn [length]. by destruct (_ <=? _)%nat.
  - destruct (_ <=? _)%nat; [|by rewrite E]. split; [by eapply pop_coherent|done].
Qed.

Lemma append_spec t id : coherent t -> id ∉ ids t ->
  coherent (Tracker.append id t) /\ ids (Tracker.append id t) = ids t ++ [id].
Proof.
  intros [H1 H2 H3 H4] Hid. unfold Tracker.append, ids in *. cbn. rewrite !map_app. split; [|done].
  assert (t.(m_lookup) !! id = None) as Hn.
  { destruct (m_lookup t !! id) as [k|] eqn:E; [|done]. exfalso. apply Hid, index_pending; [done|]. rewrite <- H4. by exists k. }
  split; unfold ids; cbn [m_fifo m_lookup m_fresh].
  - rewrite map_app. apply NoDup_app. repeat split; [done| |apply NoDup_singleton]. intros x Hx ->%list_elem_of_singleton. done.
  - rewrite map_app. apply NoDup_app. repeat split; [done| |apply NoDup_singleton]. intros n Hn' ->%list_elem_of_singleton.
    apply list_elem_of_fmap in Hn' as (y & E & Hy). rewrite Forall_forall in H3. apply H3 in Hy. cbn in *. lia.
  - apply Forall_app. split; [|by repeat constructor]. eapply Forall_impl; [exact H3|]. cbn. lia.
  - unfold emplace. rewrite Hn, index_snoc by done. by rewrite H4.
Qed.

(** ** The operations *)

Lemma add_request_ok id t : coherent t -> exists t', Tracker.add_request id t = (Returns (), t') /\ coherent t' /\
  ids t' = TrackerSpec.enqueue t.(m_limit) id (ids t) /\ t'.(m_limit) = t.(m_limit).
Proof.
  intros H. unfold Tracker.add_request, gets, modify, when, mbind, state_cpp_bind.
  rewrite pending_spec by done. unfold TrackerSpec.enqueue. case_bool_decide as Hp; cbn [negb].
  - rewrite decide_True by done. cbn. rewrite coherent_sizes by done. by exists t.
  - rewrite decide_False by done. destruct (drop_front_spec t H) as (Hc & Hi & Hf & Hl).
    assert (id ∉ ids (Tracker.drop_front t)) as Hid.
    { rewrite Hi. destruct (_ <=? _)%nat; [|done]. intros Hin. apply Hp. destruct (ids t); [done|by right]. }
    destruct (append_spec _ id Hc Hid) as (Hc' & Hi'). eexists. rewrite coherent_sizes by done.
    split; [done|]. split; [done|]. rewrite Hi', Hi. done.
Qed.

Lemma discard_absent id q : id ∉ q -> TrackerSpec.discard id q = q.
Proof.
  unfold TrackerSpec.discard. induction q as [|x q IH]; [done|]. intros [H1 H2]%not_elem_of_cons.
  by rewrite filter_cons_True, IH by congruence.
Qed.

Lemma erase_spec node id fifo : NoDup (map fst fifo) -> NoDup (map snd fifo) -> (node, id) ∈ fifo ->
  exists l1 l2, fifo = l1 ++ (node, id) :: l2 /\ Tracker.erase node fifo = Some (l1 ++ l2) /\
    map snd (l1 ++ l2) = TrackerSpec.discard id (map snd fifo) /\ delete id (index fifo) = index (l1 ++ l2).
Proof.
  induction fifo as [|[n x] fifo IH]; intros Hn Hi Hin; [by apply not_elem_of_nil in Hin|].
  cbn [map fst snd] in Hn, Hi. pose proof Hi as Hi0. apply NoDup_cons in Hn as [Hn Hn'], Hi as [Hi Hi'].
  cbn [Tracker.erase map snd]. unfold TrackerSpec.discard in *. destruct (decide (n = node)) as [->|Hne].
  - assert (x = id) as ->.
    { apply elem_of_cons in Hin as [[= ->]|Hin]; [done|]. exfalso. apply Hn, list_elem_of_fmap. by exists (node, id). }
    exists [], fifo. split; [done|]. split; [done|]. split; [|by apply index_front].
    rewrite filter_cons_False by (intros []; done). cbn [app]. symmetry. by apply discard_absent.
  - apply elem_of_cons in Hin as [[= <- _]|Hin]; [done|].
    destruct (IH Hn' Hi' Hin) as (l1 & l2 & E & -> & Hs & Hd). exists ((n, x) :: l1), l2.
    assert (x <> id) as Hx. { intros ->. apply Hi, list_elem_of_fmap. by exists (node, id). }
    split; [by rewrite E|]. split; [done|]. split; [by rewrite filter_cons_True, <- Hs|].
    change (delete id (<[x := n]> (index fifo)) = <[x := n]> (index (l1 ++ l2))).
    by rewrite delete_insert_ne, Hd.
Qed.

Lemma discard_request_ok id t : coherent t -> exists t', Tracker.discard_request id t = (Returns (), t') /\ coherent t' /\
  ids t' = TrackerSpec.discard id (ids t) /\ t'.(m_limit) = t.(m_limit).
Proof.
  intros H. pose proof H as [H1 H2 H3 H4]. unfold Tracker.discard_request, gets, mbind, state_cpp_bind. cbn [Datatypes.id].
  destruct (m_lookup t !! id) as [node|] eqn:E.
  - rewrite H4 in E. apply index_lookup in E; [|done].
    destruct (erase_spec node id _ H2 H1 E) as (l1 & l2 & Ef & -> & Hs & Hd). cbn [defined mret state_cpp_ret modify].
    rewrite coherent_sizes; [eexists; split; [done|]; split; [|split; [exact Hs|done]]|].
    all: split; cbn; unfold ids; cbn; rewrite ?Hs; [by apply NoDup_filter| | |by rewrite H4].
    all: rewrite Ef in H2, H3.
    all: try (rewrite map_app in *; cbn in H2; apply NoDup_app in H2 as (? & Hx & [? ?]%NoDup_cons); apply NoDup_app; set_solver).
    all: rewrite Forall_app, Forall_cons in H3; apply Forall_app; tauto.
  - cbn [mret state_cpp_ret]. rewrite coherent_sizes by done. exists t. split; [done|]. split; [done|]. split; [|done].
    rewrite discard_absent; [done|]. rewrite H4 in E. intros Hin. apply index_pending in Hin as [k Hk]; [|done]. congruence.
Qed.

Lemma next_one_ok t : coherent t -> exists t', Tracker.next_one t = (Returns (head (ids t)), t') /\ coherent t' /\
  ids t' = tail (ids t) /\ t'.(m_limit) = t.(m_limit).
Proof.
  intros H. unfold Tracker.next_one, gets, mbind, state_cpp_bind. cbn [Datatypes.id].
  unfold ids. destruct (m_fifo t) as [|[n x] fifo] eqn:E; cbn.
  - rewrite coherent_sizes by done. exists t. by rewrite E.
  - rewrite coherent_sizes by (by eapply pop_coherent). eexists. split; [done|]. split; [by eapply pop_coherent|done].
Qed.

Lemma all_ok t : coherent t -> exists t', Tracker.all t = (Returns (ids t), t') /\ coherent t' /\ ids t' = [] /\
  t'.(m_limit) = t.(m_limit).
Proof. intros _. eexists. split; [done|]. split; [|done]. split; cbn; constructor. Qed.

Lemma delete_front k : forall fifo, NoDup (map snd fifo) ->
  foldl (fun m id => delete id m) (index fifo) (map snd (take k fifo)) = index (drop k fifo).
Proof.
  induction k as [|k IH]; intros [|[n x] fifo] H; try done. cbn [take drop map snd foldl]. cbn in H.
  rewrite index_front by done. apply IH. by apply NoDup_cons in H as [].
Qed.

Lemma drop_NoDup {A} k (l : list A) : NoDup l -> NoDup (drop k l).
Proof. rewrite <- (take_drop k l) at 1. by intros (_ & _ & H)%NoDup_app. Qed.

Lemma drop_coherent k t : coherent t ->
  coherent (Tracker.set (drop k t.(m_fifo)) (foldl (fun m id => delete id m) t.(m_lookup) (map snd (take k t.(m_fifo)))) t).
Proof.
  intros [H1 H2 H3 H4]. split; unfold ids; cbn [m_fifo m_lookup m_fresh Tracker.set].
  - rewrite <- skipn_map. by apply drop_NoDup.
  - rewrite <- skipn_map. by apply drop_NoDup.
  - by apply Forall_drop.
  - rewrite H4. by apply delete_front.
Qed.

Lemma next_n_ok k t : coherent t -> exists t', Tracker.next_n k t = (Returns (take k (ids t)), t') /\ coherent t' /\
  ids t' = drop k (ids t) /\ t'.(m_limit) = t.(m_limit).
Proof.
  intros H. pose proof (drop_coherent k t H) as Hd. unfold Tracker.next_n, gets, mbind, state_cpp_bind. cbn [Datatypes.id].
  destruct (Nat.leb_spec (length (m_fifo t)) k) as [Hk|Hk].
  - destruct (all_ok t H) as (t' & -> & Hc & Hi & Hl). exists t'. unfold ids in *. by rewrite take_ge, drop_ge by (by rewrite length_map).
  - cbn [modify]. rewrite coherent_sizes by done. eexists. unfold ids. rewrite firstn_map, skipn_map. by split.
Qed.

End TrackerOk.

(** ** Sequences of calls *)

Module TrackerCalls.
Import TrackerOk.

Inductive call :=
  | Add (id : HashedId3)
  | Discard (id : HashedId3)
  | Pending (id : HashedId3)
  | NextOne
  | NextN (max : nat)
  | All.

(** A call and the items it hands out; [Pending] answers with the item it finds. *)
Definition run_call (c : call) : state_cpp PeerRequestTracker (list HashedId3) :=
  match c with
  | Add id => _ ← Tracker.add_request id; mret []
  | Discard id => _ ← Tracker.discard_request id; mret []
  | Pending id => b ← gets (Tracker.is_pending id); mret (if b : bool then [id] else [])
  | NextOne => x ← Tracker.next_one; mret (option_list x)
  | NextN max => Tracker.next_n max
  | All => Tracker.all
  end.

Fixpoint run_calls (cs : list call) : state_cpp PeerRequestTracker (list (list HashedId3)) :=
  match cs with
  | [] => mret []
  | c :: cs => out ← run_call c; outs ← run_calls cs; mret (out :: outs)
  end.

(** The same calls on the queue of the contract. *)
Definition spec_call (limit : nat) (c : call) (q : list HashedId3) : list HashedId3 * list HashedId3 :=
  match c with
  | Add id => ([], TrackerSpec.enqueue limit id q)
  | Discard id => ([], TrackerSpec.discard id q)
  | Pending id => (if decide (id ∈ q) then [id] else [], q)
  | NextOne => (take 1 q, drop 1 q)
  | NextN max => (take max q, drop max q)
  | All => (q, [])
  end.

Fixpoint spec_calls (limit : nat) (cs : list call) (q : list HashedId3) : list (list HashedId3) * list HashedId3 :=
  match cs with
  | [] => ([], q)
  | c :: cs =>
    let '(out, q) := spec_call limit c q in
    let '(outs, q) := spec_calls limit cs q in (out :: outs, q)
  end.

Lemma run_call_ok c t : coherent t -> exists t', run_call c t = (Returns (spec_call t.(m_limit) c (ids t)).1, t') /\
  coherent t' /\ ids t' = (spec_call t.(m_limit) c (ids t)).2 /\ t'.(m_limit) = t.(m_limit).
Proof.
  intros H. destruct c as [id|id|id| |k|]; unfold run_call, mbind, state_cpp_bind.
  - destruct (add_request_ok id t H) as (t' & -> & ?). by exists t'.
  - destruct (discard_request_ok id t H) as (t' & -> & ?). by exists t'.
  - unfold gets. rewrite pending_spec by done. exists t. cbn.
    case_bool_decide as Hp; [by rewrite decide_True|by rewrite decide_False].
  - destruct (next_one_ok t H) as (t' & -> & ?). exists t'. cbn. by destruct (ids t).
  - destruct (next_n_ok k t H) as (t' & -> & ?). by exists t'.
  - destruct (all_ok t H) as (t' & -> & ?). by exists t'.
Qed.

Lemma run_calls_ok cs : forall t, coherent t ->
  exists t', run_calls cs t = (Returns (spec_calls t.(m_limit) cs (ids t)).1, t') /\ coherent t' /\
    ids t' = (spec_calls t.(m_limit) cs (ids t)).2.
Proof.
  induction cs as [|c cs IH]; intros t H; [by exists t|].
  destruct (run_call_ok c t H) as (t1 & E1 & H1 & Hi & Hl). destruct (IH t1 H1) as (t2 & E2 & H2 & Hi2).
  exists t2. cbn [run_calls spec_calls]. unfold mbind, state_cpp_bind. rewrite E1, E2.
  rewrite Hi, Hl in *. destruct (spec_call _ c (ids t)) as [out q]. cbn [fst snd] in *.
  by destruct (spec_calls _ cs q) as [outs q'].
Qed.

(** The queue of the contract stays within its limit, and has no duplicates. *)
Lemma spec_call_bounded limit c q : (length q <= Nat.max 1 limit)%nat -> (length (spec_call limit c q).2 <= Nat.max 1 limit)%nat.
Proof.
  intros H. destruct c as [id|id| | | |]; cbn [spec_call snd length]; rewrite ?length_drop; try lia.
  2: { unfold TrackerSpec.discard. pose proof (length_filter (fun x => x <> id) q). lia. }
  unfold TrackerSpec.enqueue. case_decide; [done|]. rewrite length_app. cbn. destruct (Nat.leb_spec limit (length q)); [|lia].
  destruct q; cbn in *; lia.
Qed.

Lemma spec_calls_bounded limit cs : forall q, (length q <= Nat.max 1 limit)%nat ->
  (length (spec_calls limit cs q).2 <= Nat.max 1 limit)%nat.
Proof.
  induction cs as [|c cs IH]; intros q H; [done|]. cbn [spec_calls]. pose proof (spec_call_bounded limit c q H) as H1.
  destruct (spec_call limit c q) as [out q']. cbn [snd] in H1. specialize (IH q' H1).
  by destruct (spec_calls limit cs q') as [outs q''].
Qed.

(** C21. A tracker behaves as the bounded queue without duplicates of its contract: whatever
    is called on a new tracker, every call returns (no assertion fails, no iterator is
    invalid) and hands out what the contract says, and the tracker never holds an item
    twice or more items than its limit allows (one, when the limit is 0). *)
Theorem tracker_refines_queue limit cs : exists t,
  run_calls cs (make_tracker limit) = (Returns (spec_calls limit cs []).1, t) /\
  ids t = (spec_calls limit cs []).2 /\ NoDup (ids t) /\ (length (ids t) <= Nat.max 1 limit)%nat.
Proof.
  destruct (run_calls_ok cs (make_tracker limit) (make_coherent limit)) as (t & E & [Hn _ _ _] & Hi).
  exists t. split; [done|]. split; [done|]. split; [done|]. rewrite Hi. apply spec_calls_bounded. cbn. lia.
Qed.

End TrackerCalls.
