(* ===== verification/Runtime.v ===== *)
(** * The scheduler

    common/runtime.hpp and common/manual_runtime.cpp: callbacks with a deadline and a
    scope, by which they are cancelled.  The multi-index container is the list of its
    elements in the order of the deadlines, elements with equal deadlines in the order
    in which they were scheduled. *)

From Stdlib Require Import ZArith Lia Sorting.Sorted.
From stdpp Require Import prelude list.
From S2P Require Import Prelude.

Open Scope Z_scope.

Module ManualRuntime.

Section runtime.
Context {Callback Scope : Type} `{EqDecision Scope}.

Record ScheduledCallback := mk_ScheduledCallback {
  deadline : Z;
  callback : Callback;
  scope : Scope;
}.

Record ManualRuntime := mk {
  m_now : Z;
  m_queue : list ScheduledCallback;
}.

Definition make_ManualRuntime (init : Z) : ManualRuntime := mk init [].

(** An ordered index inserts behind the elements that are not greater. *)
Fixpoint emplace (x : ScheduledCallback) (queue : list ScheduledCallback)
  : list ScheduledCallback :=
  match queue with
  | [] => [x]
  | y :: queue => if deadline x <? deadline y then x :: y :: queue else y :: emplace x queue
  end.

Definition schedule_at (tp : Z) (cb : Callback) (sc : Scope) (rt : ManualRuntime)
  : ManualRuntime :=
  mk (m_now rt) (emplace (mk_ScheduledCallback tp cb sc) (m_queue rt)).

Definition schedule_after (d : Z) (cb : Callback) (sc : Scope) (rt : ManualRuntime)
  : ManualRuntime :=
  schedule_at (m_now rt + d) cb sc rt.

(** Every scope of the model stands for an object, so no scope is the null pointer. *)
Definition cancel (sc : Scope) (rt : ManualRuntime) : ManualRuntime :=
  mk (m_now rt) (filter (fun x => scope x ≠ sc) (m_queue rt)).

Definition next (rt : ManualRuntime) : Z :=
  match m_queue rt with
  | [] => 2 ^ 63 - 1
  | x :: _ => deadline x
  end.

(** The head of the loop of [trigger]: the callback that is due, taken out of the queue. *)
Definition pop_due (rt : ManualRuntime) : option (ScheduledCallback * ManualRuntime) :=
  match m_queue rt with
  | [] => None
  | top :: queue => if deadline top <=? m_now rt then Some (top, mk (m_now rt) queue) else None
  end.

Definition set_now (tp : Z) (rt : ManualRuntime) : ManualRuntime := mk tp (m_queue rt).

(** * Lemmas *)

(** The deadlines at which something of a scope is to happen. *)
Definition deadlines (sc : Scope) (rt : ManualRuntime) : list Z :=
  map deadline (filter (fun x => scope x = sc) (m_queue rt)).

Definition ordered (rt : ManualRuntime) : Prop :=
  StronglySorted (fun x y => deadline x <= deadline y) (m_queue rt).

Lemma elem_of_emplace x y queue : x ∈ emplace y queue <-> x = y \/ x ∈ queue.
Proof.
  induction queue as [|z queue IH]; simpl; [set_solver|].
  destruct (_ <? _); set_solver.
Qed.

Lemma ordered_schedule tp cb sc rt : ordered rt -> ordered (schedule_at tp cb sc rt).
Proof.
  unfold ordered, schedule_at. simpl. set (x := mk_ScheduledCallback tp cb sc).
  induction 1 as [|y queue Hs IH Hy]; simpl; [repeat constructor|].
  destruct (Z.ltb_spec tp (deadline y)).
  - constructor; [by constructor|]. constructor; [simpl; lia|].
    eapply Forall_impl; [exact Hy|]. simpl. lia.
  - constructor; [done|]. apply Forall_forall. intros z [->|Hz]%elem_of_emplace; [done|].
    rewrite Forall_forall in Hy. auto.
Qed.

Lemma ordered_cancel sc rt : ordered rt -> ordered (cancel sc rt).
Proof.
  unfold ordered, cancel. simpl. induction 1 as [|y queue Hs IH Hy]; [constructor|].
  rewrite filter_cons. destruct (decide _); [|done]. constructor; [done|].
  apply Forall_forall. intros z [_ Hz]%list_elem_of_filter. rewrite Forall_forall in Hy. auto.
Qed.

Lemma deadlines_cancel sc sc' rt :
  deadlines sc' (cancel sc rt) = if decide (sc' = sc) then [] else deadlines sc' rt.
Proof.
  unfold deadlines, cancel. simpl.
  induction (m_queue rt) as [|y queue IH]; [by destruct (decide _)|].
  destruct (decide (scope y = sc)) as [Hy|Hy].
  - rewrite filter_cons_False by (intros []; done). rewrite IH.
    destruct (decide (sc' = sc)); [done|]. by rewrite filter_cons_False by congruence.
  - rewrite (filter_cons_True (fun x => scope x ≠ sc)) by done. rewrite !filter_cons.
    destruct (decide (scope y = sc')) as [Hy'|Hy']; simpl; rewrite IH; [|done].
    by rewrite !decide_False by congruence.
Qed.

(** Only one deadline of a scope that is always cancelled before it is scheduled. *)
Lemma deadlines_schedule_empty sc tp cb rt :
  deadlines sc rt = [] -> deadlines sc (schedule_at tp cb sc rt) = [tp].
Proof.
  unfold deadlines, schedule_at. simpl.
  induction (m_queue rt) as [|y queue IH]; intros Hd; simpl.
  { by rewrite filter_cons, decide_True. }
  rewrite filter_cons in Hd. destruct (decide (scope y = sc)) as [|Hne]; [done|].
  destruct (_ <? _).
  - by rewrite filter_cons, decide_True, filter_cons, decide_False, map_cons, Hd by done.
  - rewrite filter_cons, decide_False by done. auto.
Qed.

Lemma deadlines_schedule_other sc sc' tp cb rt :
  sc' <> sc -> deadlines sc' (schedule_at tp cb sc rt) = deadlines sc' rt.
Proof.
  intros Hne. unfold deadlines, schedule_at. simpl.
  induction (m_queue rt) as [|y queue IH]; simpl.
  { by rewrite filter_cons, decide_False by (simpl; congruence). }
  destruct (_ <? _); rewrite !filter_cons.
  - by rewrite (decide_False (P := scope (mk_ScheduledCallback tp cb sc) = sc')) by (simpl; congruence).
  - destruct (decide (scope y = sc')); simpl; by rewrite IH.
Qed.

(** What is due is taken in the order of the deadlines, and nothing later is taken. *)
Lemma pop_due_spec rt x rt' : ordered rt -> pop_due rt = Some (x, rt') ->
  deadline x <= m_now rt /\ m_now rt' = m_now rt /\ m_queue rt = x :: m_queue rt' /\ ordered rt' /\
  Forall (fun y => deadline x <= deadline y) (m_queue rt').
Proof.
  unfold ordered, pop_due. intros Ho. destruct (m_queue rt) as [|y queue] eqn:E; [done|].
  destruct (Z.leb_spec (deadline y) (m_now rt)); [|done]. intros H0. simplify_eq. simpl.
  inversion Ho; subst. split_and!; done.
Qed.

Lemma pop_due_none rt : ordered rt -> pop_due rt = None ->
  Forall (fun y => m_now rt < deadline y) (m_queue rt).
Proof.
  unfold ordered, pop_due. intros Ho. destruct (m_queue rt) as [|y queue] eqn:E; [constructor|].
  destruct (Z.leb_spec (deadline y) (m_now rt)); [done|]. intros _. inversion Ho; subst.
  constructor; [done|]. eapply Forall_impl; [done|]. simpl. lia.
Qed.

End runtime.
End ManualRuntime.
