(* ===== verification/BtpHeader.v ===== *)
(** * Headers of the transport protocol

    btp/header.hpp and btp/header.cpp: the two headers of the Basic Transport Protocol and
    their serialization.  Ports are big-endian numbers of 16 bits in the source; here they
    are the numbers they stand for. *)

From Stdlib Require Import ZArith Lia.
From stdpp Require Import prelude.
From S2P Require Import Prelude GeoSerial.

Open Scope Z_scope.

Abbreviation port_type := Z (only parsing).

(** Interactive packet transport. *)
Record HeaderA := mk_HeaderA {
  a_destination_port : port_type;
  source_port : port_type;
}.

(** Non-interactive packet transport. *)
Record HeaderB := mk_HeaderB {
  b_destination_port : port_type;
  destination_port_info : Z;
}.

Definition HeaderA_length_bytes : Z := 4.
Definition HeaderB_length_bytes : Z := 4.

Definition serialize_HeaderA (hdr : HeaderA) : bytes :=
  serialize_int 2 (a_destination_port hdr) ++ serialize_int 2 (source_port hdr).

Definition deserialize_HeaderA : des HeaderA :=
  on_member a_destination_port (fun v h => mk_HeaderA v (source_port h)) (deserialize_uint 2) ;;
  on_member source_port (fun v h => mk_HeaderA (a_destination_port h) v) (deserialize_uint 2).

Definition serialize_HeaderB (hdr : HeaderB) : bytes :=
  serialize_int 2 (b_destination_port hdr) ++ serialize_int 2 (destination_port_info hdr).

Definition deserialize_HeaderB : des HeaderB :=
  on_member b_destination_port (fun v h => mk_HeaderB v (destination_port_info h)) (deserialize_uint 2) ;;
  on_member destination_port_info (fun v h => mk_HeaderB (b_destination_port h) v) (deserialize_uint 2).

(** * Wire format *)

Definition wf_HeaderA (h : HeaderA) : Prop := is_uint 2 (a_destination_port h) /\ is_uint 2 (source_port h).
Definition wf_HeaderB (h : HeaderB) : Prop :=
  is_uint 2 (b_destination_port h) /\ is_uint 2 (destination_port_info h).

#[export] Instance HeaderA_wire :
  Wire serialize_HeaderA deserialize_HeaderA HeaderA_length_bytes wf_HeaderA.
Proof.
  split.
  - unfold deserialize_HeaderA. change HeaderA_length_bytes with (Z.of_nat 2 + Z.of_nat 2). exact _.
  - intros h. unfold serialize_HeaderA. by wire_sizes.
  - intros h. unfold serialize_HeaderA. wire_octets.
  - intros h x0 r e (? & ?). unfold serialize_HeaderA, deserialize_HeaderA.
    wire_reading wire_read_back. by destruct h.
  - intros b Hb Hs. change HeaderA_length_bytes with (Z.of_nat 2 + Z.of_nat 2) in Hs.
    wire_member (deserialize_uint 2) d. wire_last (deserialize_uint 2) s. by exists (mk_HeaderA d s).
Qed.

#[export] Instance HeaderB_wire :
  Wire serialize_HeaderB deserialize_HeaderB HeaderB_length_bytes wf_HeaderB.
Proof.
  split.
  - unfold deserialize_HeaderB. change HeaderB_length_bytes with (Z.of_nat 2 + Z.of_nat 2). exact _.
  - intros h. unfold serialize_HeaderB. by wire_sizes.
  - intros h. unfold serialize_HeaderB. wire_octets.
  - intros h x0 r e (? & ?). unfold serialize_HeaderB, deserialize_HeaderB.
    wire_reading wire_read_back. by destruct h.
  - intros b Hb Hs. change HeaderB_length_bytes with (Z.of_nat 2 + Z.of_nat 2) in Hs.
    wire_member (deserialize_uint 2) d. wire_last (deserialize_uint 2) i. by exists (mk_HeaderB d i).
Qed.
