(* ===== verification/NetPackets.v ===== *)
(** * Packets between the layers

    net/osi_layer.hpp, net/chunk_packet.cpp, net/cohesive_packet.cpp,
    net/packet_variant.cpp, net/packet.cpp and common/byte_buffer_convertible.hpp.  A
    packet on its way down is a ChunkPacket, which keeps the data of each layer apart; a
    received packet is a CohesivePacket, one buffer with the offsets where the layers
    begin.  A layer of a ChunkPacket is anything that can be converted to octets: the
    network layer holds a GeoNetworking packet, or the headers that are to be signed; the
    transport layer holds a header of btp/header_conversion.hpp. *)

From Stdlib Require Import ZArith Lia.
From stdpp Require Import prelude gmap.
From S2P Require Import Prelude GeoSerial GeoHeaders GeoPdu BtpHeader.

Open Scope Z_scope.

(** * Layers *)

Inductive OsiLayer :=
  Physical | Link | Network | Transport | Session | Presentation | Application.

#[export] Instance OsiLayer_eq_dec : EqDecision OsiLayer.
Proof. solve_decision. Defined.

Definition layer_index (layer : OsiLayer) : nat :=
  match layer with
  | Physical => 1 | Link => 2 | Network => 3 | Transport => 4
  | Session => 5 | Presentation => 6 | Application => 7
  end.

Definition min_osi_layer : OsiLayer := Physical.
Definition max_osi_layer : OsiLayer := Application.

Definition osi_layers : list OsiLayer :=
  [Physical; Link; Network; Transport; Session; Presentation; Application].

#[export] Instance OsiLayer_countable : Countable OsiLayer.
Proof.
  refine (inj_countable layer_index (fun i => nth_error osi_layers (i - 1)) _). by intros [].
Defined.

(** The iterators from the first layer of the range to the one behind the last. *)
Definition osi_layer_range (from to : OsiLayer) : list OsiLayer :=
  if (layer_index from <=? layer_index to)%nat
  then drop (layer_index from - layer_index min_osi_layer)
            (take (7 - (layer_index max_osi_layer - layer_index to)) osi_layers)
  else [].

(** * Cohesive packets *)

Module CohesivePacket.

(** Iterators are offsets; there are eight of them. *)
Record CohesivePacket := mk {
  m_buffer : bytes;
  m_iterators : list Z;
}.

Definition iterator (i : nat) (p : CohesivePacket) : Z := nth i (m_iterators p) 0.

(** [begin()] for the layers up to the inserted one, then [end()]. *)
Definition reset_iterators (ins_layer : OsiLayer) (buffer : bytes) : list Z :=
  replicate (layer_index ins_layer) 0 ++
  replicate (S (layer_index max_osi_layer) - layer_index ins_layer) (size buffer).

Definition make_CohesivePacket (buffer : bytes) (layer : OsiLayer) : CohesivePacket :=
  mk buffer (reset_iterators layer buffer).

Definition range_size (i : nat) (p : CohesivePacket) : Z := iterator i p - iterator (i - 1) p.

(** [get]: the octets between two iterators. *)
Definition get (i : nat) (p : CohesivePacket) : bytes :=
  ztake (range_size i p) (zdrop (iterator (i - 1) p) (m_buffer p)).

Definition layer (l : OsiLayer) (p : CohesivePacket) : bytes := get (layer_index l) p.

(** [None]: an assertion fails. *)
Definition set_boundary (l : OsiLayer) (n : Z) (p : CohesivePacket) : option CohesivePacket :=
  let layer_idx := layer_index l in
  if range_size layer_idx p >=? n then
    Some (mk (m_buffer p)
             (<[layer_idx := iterator (layer_idx - 1) p + n]> (m_iterators p)))
  else None.

(** [size(from, to)]. *)
Definition size_of_layers (from to : OsiLayer) (p : CohesivePacket) : Z :=
  let dist := iterator (layer_index to) p - iterator (layer_index from - 1) p in
  if dist <? 0 then 0 else dist.

Definition size_of_packet (p : CohesivePacket) : Z :=
  iterator (layer_index max_osi_layer) p - iterator 0 p.

(** The loop over the iterators from [from_idx] on: none stays behind the last one. *)
Definition clamp_iterators (from_idx : nat) (last : Z) (its : list Z) : list Z :=
  imap (fun idx it => if (from_idx <=? idx)%nat && (it >? last) then last else it) its.

Definition trim (from : OsiLayer) (n : Z) (p : CohesivePacket) : CohesivePacket :=
  if size_of_layers from max_osi_layer p >? n then
    let from_idx := (layer_index from - 1)%nat in
    let max_idx := layer_index max_osi_layer in
    let last := iterator from_idx p + n in
    mk (m_buffer p) (clamp_iterators from_idx last (<[max_idx := last]> (m_iterators p)))
  else p.

(** * Invariant *)

(** Eight offsets in ascending order, all within the buffer. *)
Record cohesive_ok (p : CohesivePacket) : Prop := {
  cohesive_length : length (m_iterators p) = 8%nat;
  cohesive_first : 0 <= iterator 0 p;
  cohesive_sorted i j : (i <= j < 8)%nat -> iterator i p <= iterator j p;
  cohesive_last : iterator 7 p <= size (m_buffer p);
}.

Lemma iterator_insert i j v b its : length its = 8%nat -> (i < 8)%nat ->
  iterator j (mk b (<[i := v]> its)) = if decide (i = j) then v else nth j its 0.
Proof.
  intros Hl Hi. unfold iterator. simpl. rewrite !nth_lookup. destruct (decide (i = j)) as [<-|Hne].
  - by rewrite list_lookup_insert_eq by lia.
  - by rewrite list_lookup_insert_ne.
Qed.

Lemma make_cohesive_ok buffer layer : cohesive_ok (make_CohesivePacket buffer layer).
Proof.
  pose proof (size_nonneg buffer).
  destruct layer; split; unfold iterator; simpl; try done; try lia;
    intros [|[|[|[|[|[|[|[|i]]]]]]]] [|[|[|[|[|[|[|[|j]]]]]]]] [Hij Hj]; simpl; lia.
Qed.

Lemma set_boundary_ok l n p : cohesive_ok p -> 0 <= n <= range_size (layer_index l) p ->
  exists p', set_boundary l n p = Some p' /\ cohesive_ok p' /\
    range_size (layer_index l) p' = n /\
    iterator (layer_index l) p' = iterator (layer_index l - 1) p + n /\
    forall i, i <> layer_index l -> iterator i p' = iterator i p.
Proof.
  intros [Hl Hf Hs Hb] Hn. unfold set_boundary. rewrite Z.geb_leb.
  rewrite (proj2 (Z.leb_le _ _)) by lia. set (k := layer_index l) in *.
  assert (0 < k < 8)%nat as Hk by (unfold k; destruct l; simpl; lia).
  assert (forall i, iterator i (mk (m_buffer p) (<[k := iterator (k - 1) p + n]> (m_iterators p)))
    = if decide (k = i) then iterator (k - 1) p + n else iterator i p) as Hi.
  { intros i. by rewrite iterator_insert by lia. }
  unfold range_size in *. pose proof (Hs (k - 1)%nat k ltac:(lia)).
  eexists. split; [done|]. split; [split|split_and!].
  - simpl. by rewrite length_insert.
  - rewrite Hi. by destruct (decide (k = 0%nat)); [lia|].
  - intros i j Hij. rewrite !Hi. pose proof (Hs i j Hij).
    destruct (decide (k = i)) as [Ei|Ei], (decide (k = j)) as [Ej|Ej]; [lia| | |lia].
    + rewrite <- Ei in *. lia.
    + pose proof (Hs i (k - 1)%nat ltac:(lia)). lia.
  - rewrite Hi. simpl. destruct (decide (k = 7%nat)) as [Hk7|]; [|lia].
    rewrite Hk7 in *. lia.
  - rewrite !Hi. rewrite decide_True, decide_False by lia. lia.
  - by rewrite Hi, decide_True.
  - intros i Hne. by rewrite Hi, decide_False by congruence.
Qed.

Lemma iterator_clamp i k last b its : length its = 8%nat -> (i < 8)%nat ->
  iterator i (mk b (clamp_iterators k last its))
  = if (k <=? i)%nat && (nth i its 0 >? last) then last else nth i its 0.
Proof.
  intros Hl Hi. unfold iterator, clamp_iterators. simpl.
  rewrite !nth_lookup, list_lookup_imap.
  destruct (lookup_lt_is_Some_2 its i ltac:(lia)) as [v ->]. simpl.
  by destruct (_ && _).
Qed.

(** Trimming keeps the first [n] octets of the layers from [from] on, and everything below. *)
Lemma trim_ok from n p : cohesive_ok p -> 0 <= n -> cohesive_ok (trim from n p) /\
  size_of_layers from max_osi_layer (trim from n p)
  = Z.min n (size_of_layers from max_osi_layer p) /\
  m_buffer (trim from n p) = m_buffer p /\
  (forall i, (i < layer_index from)%nat -> iterator i (trim from n p) = iterator i p) /\
  (forall i, (layer_index from <= i < 8)%nat ->
    iterator i (trim from n p) = Z.min (iterator i p) (iterator (layer_index from - 1) p + n)).
Proof.
  intros [Hl Hf Hs Hb] Hn. unfold trim, size_of_layers. simpl.
  set (k := (layer_index from - 1)%nat).
  assert (layer_index from = S k /\ k < 7)%nat as [-> Hk] by (unfold k; destruct from; simpl; lia).
  pose proof (Hs k 7%nat ltac:(lia)) as Hk7.
  replace (iterator 7 p - iterator k p <? 0) with false by lia.
  destruct (Z.gtb_spec (iterator 7 p - iterator k p) n).
  - set (last := iterator k p + n). set (p' := mk _ _).
    assert (forall i, (i < 8)%nat -> iterator i p'
      = if (k <=? i)%nat then Z.min (iterator i p) last else iterator i p) as Hi.
    { intros i Hi. unfold p'. rewrite iterator_clamp by (rewrite ?length_insert; done || lia).
      assert (nth i (<[7%nat:=last]> (m_iterators p)) 0 = if decide (7%nat = i) then last else iterator i p) as ->.
      { apply (iterator_insert 7 i last (m_buffer p) (m_iterators p) Hl). lia. }
      pose proof (Hs i 7%nat ltac:(lia)).
      destruct (decide (7%nat = i)) as [Ei|Ei], (Nat.leb_spec k i); simpl; [| |destruct (Z.gtb_spec (iterator i p) last); lia|done].
      - rewrite Z.gtb_ltb, Z.ltb_irrefl. rewrite <- Ei. lia.
      - lia. }
    split_and!; [split| | | |].
    + unfold p', clamp_iterators. simpl. by rewrite length_imap, length_insert.
    + rewrite Hi by lia. destruct (_ <=? _)%nat eqn:E; [|lia].
      pose proof (Hs 0%nat k ltac:(lia)). lia.
    + intros i j Hij. rewrite !Hi by lia. pose proof (Hs i j Hij).
      destruct (Nat.leb_spec k i), (Nat.leb_spec k j); try lia.
      pose proof (Hs i k ltac:(lia)). lia.
    + rewrite Hi by lia. destruct (_ <=? _)%nat; simpl; lia.
    + rewrite !Hi by lia. rewrite (proj2 (Nat.leb_le k 7)), (proj2 (Nat.leb_le k k)) by lia.
      destruct (Z.ltb_spec (Z.min (iterator 7 p) last - Z.min (iterator k p) last) 0); lia.
    + done.
    + intros i Hlt. rewrite Hi by lia. destruct (Nat.leb_spec k i); [|done].
      replace i with k by lia. lia.
    + intros i Hge. rewrite Hi by lia. by rewrite (proj2 (Nat.leb_le k i)) by lia.
  - split_and!; [by split|replace (_ <? 0) with false by lia; lia|done|done|].
    intros i Hge. pose proof (Hs i 7%nat ltac:(lia)). lia.
Qed.

Lemma layer_size l p : cohesive_ok p -> size (layer l p) = range_size (layer_index l) p.
Proof.
  intros [Hl Hf Hs Hb]. unfold layer, get, range_size.
  set (k := layer_index l). assert (0 < k < 8)%nat as Hk by (unfold k; destruct l; simpl; lia).
  pose proof (Hs 0%nat (k - 1)%nat ltac:(lia)). pose proof (Hs (k - 1)%nat k ltac:(lia)).
  pose proof (Hs k 7%nat ltac:(lia)).
  rewrite size_ztake; [done|]. rewrite size_zdrop; lia.
Qed.

End CohesivePacket.

(** * Chunk packets *)

Section chunk.
Context `{SecuredArchive}.

(** The headers that a secured message covers. *)
Record SecuredPdu := mk_SecuredPdu {
  secured_common : CommonHeader;
  secured_extended : HeaderVariant;
}.

(** ByteBufferConvertible by what it was made from; [Nothing] is made from nullptr. *)
Inductive ByteBufferConvertible :=
  | Nothing
  | OfBuffer (buffer : bytes)
  | OfPdu (pdu : Pdu)
  | OfSecuredPdu (pdu : SecuredPdu)
  | OfHeaderA (hdr : HeaderA)
  | OfHeaderB (hdr : HeaderB).

Definition convert (c : ByteBufferConvertible) : bytes :=
  match c with
  | Nothing => []
  | OfBuffer buffer => buffer
  | OfPdu pdu => serialize_Pdu pdu
  | OfSecuredPdu pdu =>
      serialize_CommonHeader (secured_common pdu) ++ serialize_HeaderVariant (secured_extended pdu)
  | OfHeaderA hdr => serialize_HeaderA hdr
  | OfHeaderB hdr => serialize_HeaderB hdr
  end.

Definition convertible_size (c : ByteBufferConvertible) : Z :=
  match c with
  | Nothing => 0
  | OfBuffer buffer => size buffer
  | OfPdu pdu => Pdu_get_length pdu
  | OfSecuredPdu pdu => CommonHeader_length_bytes + get_length (secured_extended pdu)
  | OfHeaderA _ => HeaderA_length_bytes
  | OfHeaderB _ => HeaderB_length_bytes
  end.

(** The copy constructor calls [duplicate]: what does not override it becomes the octets. *)
Definition copy_convertible (c : ByteBufferConvertible) : ByteBufferConvertible :=
  match c with
  | OfHeaderA _ | OfHeaderB _ => OfBuffer (convert c)
  | _ => c
  end.

Definition pdu_cast (c : ByteBufferConvertible) : option Pdu :=
  if c is OfPdu pdu then Some pdu else None.

Definition secured_pdu_cast (c : ByteBufferConvertible) : option SecuredPdu :=
  if c is OfSecuredPdu pdu then Some pdu else None.

Record ChunkPacket := mk_ChunkPacket { m_layers : gmap OsiLayer ByteBufferConvertible }.

Definition make_ChunkPacket : ChunkPacket := mk_ChunkPacket ∅.

Definition copy_ChunkPacket (other : ChunkPacket) : ChunkPacket :=
  mk_ChunkPacket (copy_convertible <$> m_layers other).

Definition chunk_layer (l : OsiLayer) (p : ChunkPacket) : ByteBufferConvertible :=
  default Nothing (m_layers p !! l).

Definition set_chunk_layer (l : OsiLayer) (c : ByteBufferConvertible) (p : ChunkPacket)
  : ChunkPacket :=
  mk_ChunkPacket (<[l := c]> (m_layers p)).

Definition sum_sizes (layers : list OsiLayer) (p : ChunkPacket) : Z :=
  foldr (fun l n => convertible_size (chunk_layer l p) + n) 0 layers.

(** [size()] and [size(from, to)]: a layer that is not in the map counts zero octets. *)
Definition chunk_size (p : ChunkPacket) : Z := sum_sizes osi_layers p.
Definition chunk_size_of_layers (from to : OsiLayer) (p : ChunkPacket) : Z :=
  sum_sizes (osi_layer_range from to) p.

(** The loops of [extract] and [merge] over the layers; both return the two packets. *)
Definition move_layer (st : ChunkPacket * ChunkPacket) (l : OsiLayer) : ChunkPacket * ChunkPacket :=
  let '(dest, source) := st in
  (set_chunk_layer l (chunk_layer l source) dest, set_chunk_layer l Nothing source).

Definition extract (from to : OsiLayer) (p : ChunkPacket) : ChunkPacket * ChunkPacket :=
  fold_left move_layer (osi_layer_range from to) (make_ChunkPacket, p).

Definition merge (dest source : ChunkPacket) (from to : OsiLayer) : ChunkPacket * ChunkPacket :=
  fold_left move_layer (osi_layer_range from to) (dest, source).

(** The octets of all layers, from the physical to the application layer. *)
Definition serialize_ChunkPacket (p : ChunkPacket) : bytes :=
  concat (map (fun l => convert (chunk_layer l p)) osi_layers).

(** * Packets up and down *)

Inductive PacketVariant :=
  | Chunk (p : ChunkPacket)
  | Cohesive (p : CohesivePacket.CohesivePacket).

Definition packet_size_of_layers (from to : OsiLayer) (p : PacketVariant) : Z :=
  match p with
  | Chunk p => chunk_size_of_layers from to p
  | Cohesive p => CohesivePacket.size_of_layers from to p
  end.

Definition duplicate_cohesive (p : CohesivePacket.CohesivePacket) : ChunkPacket :=
  fold_left (fun dup l => set_chunk_layer l (OfBuffer (CohesivePacket.layer l p)) dup)
    osi_layers make_ChunkPacket.

Definition duplicate (p : PacketVariant) : ChunkPacket :=
  match p with
  | Cohesive p => duplicate_cohesive p
  | Chunk p => copy_ChunkPacket p
  end.

(** * Lemmas *)

Lemma chunk_layer_copy l p : chunk_layer l (copy_ChunkPacket p) = copy_convertible (chunk_layer l p).
Proof. unfold chunk_layer, copy_ChunkPacket. simpl. rewrite lookup_fmap. by destruct (m_layers p !! l). Qed.

(** A copy stands for the same octets. *)
Lemma copied_octets c : convert (copy_convertible c) = convert c /\ convertible_size (copy_convertible c) = convertible_size c.
Proof. by destruct c. Qed.

Lemma sum_sizes_copy layers p : sum_sizes layers (copy_ChunkPacket p) = sum_sizes layers p.
Proof.
  unfold sum_sizes. induction layers as [|l layers IH]; [done|]. simpl. rewrite IH, chunk_layer_copy.
  by rewrite (proj2 (copied_octets _)).
Qed.

Lemma chunk_layer_set l l' c p :
  chunk_layer l' (set_chunk_layer l c p) = if decide (l' = l) then c else chunk_layer l' p.
Proof.
  unfold chunk_layer, set_chunk_layer. simpl. destruct (decide (l' = l)) as [->|].
  - by rewrite lookup_insert_eq.
  - by rewrite lookup_insert_ne.
Qed.

(** A moved layer is gone from the source. *)
Lemma merge_spec dest source from to l :
  let '(dest', source') := merge dest source from to in
  chunk_layer l dest'
  = (if decide (l ∈ osi_layer_range from to) then chunk_layer l source else chunk_layer l dest) /\
  chunk_layer l source'
  = (if decide (l ∈ osi_layer_range from to) then Nothing else chunk_layer l source).
Proof.
  unfold merge. assert (NoDup (osi_layer_range from to)) as Hnd.
  { apply (bool_decide_unpack _). by destruct from, to. }
  revert dest source Hnd. induction (osi_layer_range from to) as [|k ls IH]; intros dest source Hnd.
  { by rewrite !decide_False by set_solver. }
  simpl. inversion Hnd as [|? ? Hk Hls]; subst.
  specialize (IH (set_chunk_layer k (chunk_layer k source) dest) (set_chunk_layer k Nothing source) Hls).
  destruct (fold_left _ _ _) as [d s]. destruct IH as [-> ->]. rewrite !chunk_layer_set.
  destruct (decide (l = k)) as [->|Hne].
  - destruct (decide (k ∈ ls)); [done|]. by rewrite !decide_True by set_solver.
  - destruct (decide (l ∈ ls)) as [Hin|Hin].
    + by rewrite !decide_True by set_solver.
    + by rewrite !decide_False by set_solver.
Qed.

Lemma duplicate_cohesive_layer l p :
  chunk_layer l (duplicate_cohesive p) = OfBuffer (CohesivePacket.layer l p).
Proof. by destruct l. Qed.

Lemma duplicate_size p : CohesivePacket.cohesive_ok p ->
  chunk_size_of_layers Transport max_osi_layer (duplicate (Cohesive p))
  = CohesivePacket.size_of_layers Transport max_osi_layer p.
Proof.
  intros Hok. simpl. unfold chunk_size_of_layers, sum_sizes. simpl.
  rewrite !duplicate_cohesive_layer. simpl. rewrite !CohesivePacket.layer_size by done.
  destruct Hok as [Hl Hf Hs Hb]. pose proof (Hs 3%nat 7%nat ltac:(lia)).
  unfold CohesivePacket.size_of_layers, CohesivePacket.range_size. simpl.
  destruct (Z.ltb_spec (CohesivePacket.iterator 7 p - CohesivePacket.iterator 3 p) 0); lia.
Qed.

End chunk.

(** The two directions. *)
Abbreviation DownPacket := ChunkPacket.
Abbreviation UpPacket := PacketVariant.
