(* ===== verification/GeoArea.v ===== *)
(** * Destination areas

    geonet/areas.cpp, and the functions of geonet/gbc_gac_header.cpp, gbc_header.cpp,
    header_type.cpp and position_vector.cpp that convert between headers and areas.

    The class [Geodesy] stands for what is not in the sources: the conversions between
    units of boost, the trigonometric functions of the mathematical library, and the
    geodesic computations, which geodesy.cpp delegates to the back end it was built
    with. *)

From Stdlib Require Import ZArith Lia SpecFloat.
From stdpp Require Import prelude strings.
From S2P Require Import Prelude GeoSerial GeoHeaders GeoPdu Double Asn1Wrapper.

Open Scope Z_scope.

Record GeodeticPosition := mk_GeodeticPosition { gp_latitude : double; gp_longitude : double }.
Record CartesianPosition := mk_CartesianPosition { cp_x : double; cp_y : double }.

Class Geodesy := {
  (** 1/10 micro degrees in degrees; degrees in radians and back, cut to 16 bits *)
  degrees_of_geo_angle : Z -> double;
  radians_of_degrees : Z -> double;
  degrees_of_radians : double -> Z;
  dsin : double -> double;
  dcos : double -> double;
  dacos : double -> double;
  distance : GeodeticPosition -> GeodeticPosition -> double;
  local_cartesian : GeodeticPosition -> GeodeticPosition -> CartesianPosition;
}.

(** * Shapes *)

Inductive Shape :=
  | Rectangle (a b : double)
  | Ellipse (a b : double)
  | Circle (r : double).

Record Area := mk_Area {
  shape : Shape;
  area_position : GeodeticPosition;
  area_angle : double;
}.

Definition one : double := double_of 1.
Definition dpi : double := S754_finite false 7074237752028440 (-51).
Definition half_pi : double := S754_finite false 7074237752028440 (-52).
Definition minus_infinity : double := S754_infinity true.

Definition geometric_circle (r : double) (p : CartesianPosition) : double :=
  if negb (deq r dzero) then
    let x_over_r := ddiv (cp_x p) r in
    let y_over_r := ddiv (cp_y p) r in
    dsub (dsub one (dmul x_over_r x_over_r)) (dmul y_over_r y_over_r)
  else minus_infinity.

Definition geometric_rectangle (a b : double) (p : CartesianPosition) : double :=
  if negb (deq a dzero) && negb (deq b dzero) then
    let x_over_a := ddiv (cp_x p) a in
    let y_over_b := ddiv (cp_y p) b in
    dmin (dsub one (dmul x_over_a x_over_a)) (dsub one (dmul y_over_b y_over_b))
  else minus_infinity.

Definition geometric_ellipse (a b : double) (p : CartesianPosition) : double :=
  if negb (deq a dzero) && negb (deq b dzero) then
    let x_over_a := ddiv (cp_x p) a in
    let y_over_b := ddiv (cp_y p) b in
    dsub (dsub one (dmul x_over_a x_over_a)) (dmul y_over_b y_over_b)
  else minus_infinity.

Definition geometric_function (s : Shape) (p : CartesianPosition) : double :=
  match s with
  | Circle r => geometric_circle r p
  | Rectangle a b => geometric_rectangle a b p
  | Ellipse a b => geometric_ellipse a b p
  end.

Definition inside_shape (s : Shape) (p : CartesianPosition) : bool :=
  dgt (geometric_function s p) dzero.
Definition outside_shape (s : Shape) (p : CartesianPosition) : bool :=
  dlt (geometric_function s p) dzero.
Definition at_shape_border (s : Shape) (p : CartesianPosition) : bool :=
  deq (geometric_function s p) dzero.
Definition at_center_point (s : Shape) (p : CartesianPosition) : bool :=
  deq (geometric_function s p) one.

(** In square metres. *)
Definition area_size (area : Area) : double :=
  match shape area with
  | Circle r => dmul (dmul dpi r) r
  | Rectangle a b => dmul (dmul (double_of 4) a) b
  | Ellipse a b => dmul (dmul dpi a) b
  end.

Definition gbc_header_type (area : Area) : HeaderType :=
  match shape area with
  | Circle _ => GeoBroadcast_Circle
  | Rectangle _ _ => GeoBroadcast_Rect
  | Ellipse _ _ => GeoBroadcast_Elip
  end.

Definition gac_header_type (area : Area) : HeaderType :=
  match shape area with
  | Circle _ => GeoAnycast_Circle
  | Rectangle _ _ => GeoAnycast_Rect
  | Ellipse _ _ => GeoAnycast_Elip
  end.

(** [distance_u16t] from a length in metres, and back. *)
Definition distance_u16 (length : double) : Z := u16 (int64_of length).

(** [set_distance_visitor]. *)
Definition set_distances (s : Shape) (h : GbcGacHeader) : GbcGacHeader :=
  match s with
  | Circle r => set_distance_b 0 (set_distance_a (distance_u16 r) h)
  | Rectangle a b | Ellipse a b =>
      set_distance_b (distance_u16 b) (set_distance_a (distance_u16 a) h)
  end.

(** [get_distance_visitor]. *)
Definition get_distances (h : GbcGacHeader) (s : Shape) : Shape :=
  match s with
  | Circle _ => Circle (double_of (distance_a h))
  | Rectangle _ _ => Rectangle (double_of (distance_a h)) (double_of (distance_b h))
  | Ellipse _ _ => Ellipse (double_of (distance_a h)) (double_of (distance_b h))
  end.

(** [std::round(degrees * 1e7)] as a 32-bit integer. *)
Definition geo_angle_of_degrees (degrees : double) : Z :=
  signed 4 (lround (dmul degrees (double_of 10000000))).

Definition set_header_position (p : GeodeticPosition) (h : GbcGacHeader) : GbcGacHeader :=
  set_geo_area_pos_longitude (geo_angle_of_degrees (gp_longitude p))
    (set_geo_area_pos_latitude (geo_angle_of_degrees (gp_latitude p)) h).

Section geodesy.
Context `{Geodesy}.

(** The shape is turned around its center, so that its long side is on the abscissa. *)
Definition canonicalize_point (point : CartesianPosition) (azimuth : double) : CartesianPosition :=
  let zenith := dsub half_pi azimuth in
  let sin_z := dsin zenith in
  let cos_z := dcos zenith in
  mk_CartesianPosition
    (dadd (dmul cos_z (cp_x point)) (dmul sin_z (cp_y point)))
    (dadd (dmul (dopp sin_z) (cp_x point)) (dmul cos_z (cp_y point))).

Definition inside_or_at_border (area : Area) (position : GeodeticPosition) : bool :=
  let local := local_cartesian (area_position area) position in
  let canonical := canonicalize_point local (area_angle area) in
  negb (outside_shape (shape area) canonical).

(** * Positions and areas of headers *)

Definition lpv_position (pv : LongPositionVector) : GeodeticPosition :=
  mk_GeodeticPosition (degrees_of_geo_angle (latitude pv)) (degrees_of_geo_angle (longitude pv)).

Definition header_position (h : GbcGacHeader) : GeodeticPosition :=
  mk_GeodeticPosition (degrees_of_geo_angle (geo_area_pos_latitude h))
                      (degrees_of_geo_angle (geo_area_pos_longitude h)).

(** [GbcGacHeader::destination(area)]. *)
Definition set_destination (area : Area) (h : GbcGacHeader) : GbcGacHeader :=
  let h := set_header_position (area_position area) h in
  let h := set_angle (degrees_of_radians (area_angle area)) h in
  set_distances (shape area) h.

(** [GbcGacHeader::destination(shape)]. *)
Definition destination_of_shape (s : Shape) (h : GbcGacHeader) : Area :=
  mk_Area (get_distances h s) (header_position h) (radians_of_degrees (angle h)).

(** [GeoBroadcastHeader::destination(ht)]; the shapes have their default dimensions
    before they get those of the header. *)
Definition gbc_destination (ht : HeaderType) (h : GeoBroadcastHeader) : cpp Area :=
  if ht =? GeoBroadcast_Circle then Returns (destination_of_shape (Circle one) h)
  else if ht =? GeoBroadcast_Rect then Returns (destination_of_shape (Rectangle one one) h)
  else if ht =? GeoBroadcast_Elip then Returns (destination_of_shape (Ellipse one one) h)
  else Throws (runtime_error "Invalid GBC header type").

End geodesy.

(** * Lemmas *)

Definition is_gbc_type (ht : HeaderType) : bool :=
  (ht =? GeoBroadcast_Circle) || (ht =? GeoBroadcast_Rect) || (ht =? GeoBroadcast_Elip).

Lemma gbc_destination_returns `{Geodesy} ht h : is_gbc_type ht = true ->
  exists s, gbc_destination ht h = Returns (destination_of_shape s h).
Proof.
  unfold is_gbc_type, gbc_destination.
  destruct (ht =? _); [eauto|]. destruct (ht =? _); [eauto|]. destruct (ht =? _); [eauto|done].
Qed.

Lemma digits2_pos_spec m : 2 ^ (Z.pos (digits2_pos m) - 1) <= Z.pos m < 2 ^ Z.pos (digits2_pos m).
Proof.
  induction m as [m IH|m IH|]; simpl; [| |lia].
  all: rewrite Pos2Z.inj_succ.
  all: replace (Z.succ (Z.pos (digits2_pos m)) - 1) with (Z.succ (Z.pos (digits2_pos m) - 1)) by lia.
  all: rewrite !Z.pow_succ_r by lia; lia.
Qed.

Lemma digits2_pos_unique m d :
  0 < d -> 2 ^ (d - 1) <= Z.pos m < 2 ^ d -> Z.pos (digits2_pos m) = d.
Proof.
  intros Hd Hm. pose proof (digits2_pos_spec m) as Hs.
  assert (d - 1 < Z.pos (digits2_pos m)) by (apply (Z.pow_lt_mono_r_iff 2); lia).
  assert (Z.pos (digits2_pos m) - 1 < d) by (apply (Z.pow_lt_mono_r_iff 2); lia).
  lia.
Qed.

Lemma shifted_pos m p : Z.pos (Pos.iter xO m p) = Z.pos m * 2 ^ Z.pos p.
Proof.
  induction p as [|p IH] using Pos.peano_ind; simpl; [lia|].
  rewrite Pos.iter_succ, Pos2Z.inj_succ, Z.pow_succ_r by lia. rewrite Pos2Z.inj_xO. lia.
Qed.

(** Integers of up to 53 bits are exact. *)
Lemma double_of_pos m : Z.pos m < 2 ^ 53 ->
  exists m' e, double_of (Z.pos m) = S754_finite false m' e /\ e <= 0 /\
    Z.pos m' = Z.pos m * 2 ^ (- e).
Proof.
  intros Hm. unfold double_of, binary_normalize, binary_round.
  pose proof (digits2_pos_spec m) as Hd. set (d := Z.pos (digits2_pos m)) in *.
  assert (0 < d <= 53) as Hd53.
  { split; [lia|]. assert (d - 1 < 53); [|lia]. apply (Z.pow_lt_mono_r_iff 2); lia. }
  assert (fexp 53 1024 (d + 0) = d - 53) as ->.
  { unfold fexp, emin. rewrite Z.add_0_r. change (Z.sub (Z.sub (Zpos 3) 1024) 53) with (-1074). lia. }
  assert (exists m', shl_align m 0 (d - 53) = (m', d - 53) /\ Z.pos m' = Z.pos m * 2 ^ (53 - d))
    as (m' & -> & Hm').
  { unfold shl_align. rewrite Z.sub_0_r. destruct (d - 53) as [|p|p] eqn:E; [|lia|].
    - exists m. split; [done|]. replace (53 - d) with 0 by lia. lia.
    - exists (Pos.iter xO m p). split; [done|]. rewrite shifted_pos. do 2 f_equal. lia. }
  assert (Z.pos (digits2_pos m') = 53) as Hd'.
  { apply digits2_pos_unique; [lia|]. rewrite Hm'. split.
    - replace (53 - 1) with ((d - 1) + (53 - d)) by lia. rewrite Z.pow_add_r by lia.
      apply Z.mul_le_mono_nonneg_r; [|lia]. apply Z.pow_nonneg. lia.
    - replace (2 ^ 53) with (2 ^ d * 2 ^ (53 - d)) by (rewrite <- Z.pow_add_r by lia; f_equal; lia).
      apply Z.mul_lt_mono_pos_r; [|lia]. apply Z.pow_pos_nonneg; lia. }
  assert (forall l, shr_fexp 53 1024 (Z.pos m') (d - 53) l = (shr_record_of_loc (Z.pos m') l, d - 53)) as Hshr.
  { intros l. unfold shr_fexp. cbn [Zdigits2]. rewrite Hd'.
    replace (fexp 53 1024 (53 + (d - 53)) - (d - 53)) with 0; [reflexivity|].
    unfold fexp, emin. change (Z.sub (Z.sub (Zpos 3) 1024) 53) with (-1074). lia. }
  unfold binary_round_aux. rewrite Hshr. simpl. rewrite Hshr. simpl.
  rewrite (proj2 (Z.leb_le (d - 53) (1024 - 53))) by lia.
  exists m', (d - 53). split; [done|]. split; [lia|]. rewrite Hm'. do 2 f_equal. lia.
Qed.

Lemma int64_of_double_of n : 0 <= n < 2 ^ 53 -> int64_of (double_of n) = n.
Proof.
  intros Hn. destruct n as [|m|]; [done| |lia].
  destruct (double_of_pos m) as (m' & e & -> & He & Hm'); [lia|].
  unfold int64_of, truncated. simpl signed_of.
  assert ((if 0 <=? e then Z.pos m' * 2 ^ e else Z.pos m' / 2 ^ (- e)) = Z.pos m) as ->.
  { destruct (Z.leb_spec 0 e).
    - assert (e = 0) as -> by lia. rewrite Hm'. change (2 ^ (- 0)) with 1. change (2 ^ 0) with 1. lia.
    - rewrite Hm'. apply Z.div_mul. apply Z.pow_nonzero; lia. }
  unfold in_int64. destruct (Z.leb_spec (- 2 ^ 63) (Z.pos m)); [|lia].
  destruct (Z.ltb_spec (Z.pos m) (2 ^ 63)); [done|lia].
Qed.
