(* ===== verification/GeoRequest.v ===== *)
(** * Management information base, requests and confirmations

    geonet/mib.cpp, data_request.cpp, data_confirm.cpp, interface.hpp, the constructors of
    the headers from a request (basic_header.cpp, common_header.cpp) and the packets with
    one kind of extended header (extended_pdu.hpp).  Durations and lengths are doubles
    (seconds, metres), as in the source. *)

From Stdlib Require Import ZArith Lia SpecFloat.
From stdpp Require Import prelude strings.
From S2P Require Import Prelude GeoSerial GeoHeaders GeoPdu Double Asn1Wrapper NetPackets GeoArea.

Open Scope Z_scope.

(** * Management information base *)

Inductive UnicastForwarding := Unicast_Unspecified | Unicast_Greedy | Unicast_CBF.

Inductive BroadcastForwarding :=
  Broadcast_Unspecified | Broadcast_SIMPLE | Broadcast_CBF | Broadcast_Advanced.

Inductive AddrConfMethod := Auto | Managed | Anonymous.

Inductive InterfaceType := IfType_Unspecified | ITS_G5 | LTE_V2X.

Inductive SecurityDecapHandling := Strict | Non_Strict.

#[export] Instance SecurityDecapHandling_eq_dec : EqDecision SecurityDecapHandling.
Proof. solve_decision. Defined.
#[export] Instance InterfaceType_eq_dec : EqDecision InterfaceType.
Proof. solve_decision. Defined.
#[export] Instance AddrConfMethod_eq_dec : EqDecision AddrConfMethod.
Proof. solve_decision. Defined.

(** ManagementInformationBase. *)
Record MIB := mk_MIB {
  itsGnLocalGnAddr : Address;
  itsGnLocalAddrConfMethod : AddrConfMethod;
  itsGnProtocolVersion : Z;
  itsGnIsMobile : bool;
  itsGnIfType : InterfaceType;
  itsGnMinimumUpdateFrequencyEPV : double;
  itsGnPaiInterval : double;
  itsGnMaxSduSize : Z;
  itsGnMaxGeoNetworkingHeaderSize : Z;
  itsGnLifetimeLocTE : double;
  itsGnSecurity : bool;
  itsGnSnDecapResultHandling : SecurityDecapHandling;
  itsGnLocationServiceMaxRetrans : Z;
  itsGnLocationServiceRetransmitTimer : double;
  itsGnLocationServicePacketBufferSize : Z;
  itsGnBeaconServiceRetransmitTimer : double;
  itsGnBeaconServiceMaxJitter : double;
  itsGnDefaultHopLimit : Z;
  itsGnDPLLength : Z;
  itsGnMaxPacketLifetime : Lifetime;
  itsGnDefaultPacketLifetime : Lifetime;
  itsGnMaxPacketDataRate : Z;
  itsGnMaxPacketDataRateEmaBeta : double;
  itsGnMaxGeoAreaSize : double;
  itsGnMinPacketRepetitionInterval : double;
  itsGnNonAreaForwardingAlgorithm : UnicastForwarding;
  itsGnAreaForwardingAlgorithm : BroadcastForwarding;
  itsGnCbfMinTime : double;
  itsGnCbfMaxTime : double;
  itsGnDefaultMaxCommunicationRange : double;
  itsGnBroadcastCBFDefSectorAngle : double;
  itsGnUcForwardingPacketBufferSize : Z;
  itsGnBcForwardingPacketBufferSize : Z;
  itsGnCbfPacketBufferSize : Z;
  itsGnDefaultTrafficClass : TrafficClass;
  vanetzaDefaultSeed : Z;
  vanetzaCbfMaxCounter : Z;
  vanetzaDeferInitialBeacon : Z;
  vanetzaDisableBeaconing : bool;
  vanetzaMultiHopDuplicateAddressDetection : bool;
  vanetzaFadingCbfCounter : bool;
  vanetzaFadingCbfCounterLifetime : double;
  vanetzaNeighbourFlagExpiry : Z;
  vanetzaGbcMemoryCapacity : Z;
  vanetzaGbcPassUpOutsideDestination : bool;
}.

(** The default values; thousandths of a second are [milli * seconds]. *)
Definition milliseconds (n : Z) : double := dmul (double_of n) (literal 1 1000).

Definition default_MIB `{Geodesy} : MIB :=
  let itsGnBeaconServiceRetransmitTimer := double_of 3 in
  let itsGnCbfMaxTime := milliseconds 100 in
  mk_MIB default_Address Managed 1 true ITS_G5
    (ddiv (double_of 1) (milliseconds 1000)) (double_of 80) 1398 88 (double_of 20) false Strict
    10 (double_of 1) 1024
    itsGnBeaconServiceRetransmitTimer (ddiv itsGnBeaconServiceRetransmitTimer (double_of 4))
    10 8 (Lifetime_set 3 6) (Lifetime_set 2 6) 100 (literal 9 10)
    (dmul (double_of 10) (double_of 1000000)) (milliseconds 100)
    Unicast_Greedy Broadcast_CBF (milliseconds 1) itsGnCbfMaxTime (double_of 1000)
    (radians_of_degrees 30) 256 1024 256 (make_TrafficClass false false 0)
    0xc0114c2c 1 0 false false false (dmul (double_of 4) itsGnCbfMaxTime) 0 0 false.

(** * Requests *)

Inductive UpperProtocol := Upper_Unknown | BTP_A | BTP_B | IPv6.
Inductive TransportType := GUC | GAC | GBC | TSB | SHB.

#[export] Instance UpperProtocol_eq_dec : EqDecision UpperProtocol.
Proof. solve_decision. Defined.

(** CommunicationProfile is another name of InterfaceType. *)
Abbreviation CommunicationProfile := InterfaceType (only parsing).

Record Repetition := mk_Repetition { interval : double; maximum : double }.

Record DataRequest := mk_DataRequest {
  upper_protocol : UpperProtocol;
  communication_profile : CommunicationProfile;
  its_aid : Z;
  permissions : bytes;
  maximum_lifetime : Lifetime;
  repetition : option Repetition;
  max_hop_limit : Z;
  request_traffic_class : TrafficClass;
}.

Definition make_DataRequest (mib : MIB) (aid : Z) : DataRequest :=
  mk_DataRequest BTP_A IfType_Unspecified aid [] (itsGnDefaultPacketLifetime mib) None
    (itsGnDefaultHopLimit mib) (itsGnDefaultTrafficClass mib).

Definition set_repetition (v : option Repetition) (r : DataRequest) : DataRequest :=
  mk_DataRequest (upper_protocol r) (communication_profile r) (its_aid r) (permissions r)
    (maximum_lifetime r) v (max_hop_limit r) (request_traffic_class r).

(** The classes derived from DataRequest, with their destinations. *)
Inductive DataRequestVariant :=
  | GucDataRequest (r : DataRequest) (destination : Address)
  | GbcDataRequest (r : DataRequest) (destination : Area)
  | GacDataRequest (r : DataRequest) (destination : Area)
  | ShbDataRequest (r : DataRequest)
  | TsbDataRequest (r : DataRequest).

Definition access_request (v : DataRequestVariant) : DataRequest :=
  match v with
  | GucDataRequest r _ | GbcDataRequest r _ | GacDataRequest r _
  | ShbDataRequest r | TsbDataRequest r => r
  end.

(** Assigning to the request that [access_request] refers to. *)
Definition with_request (r : DataRequest) (v : DataRequestVariant) : DataRequestVariant :=
  match v with
  | GucDataRequest _ d => GucDataRequest r d
  | GbcDataRequest _ d => GbcDataRequest r d
  | GacDataRequest _ d => GacDataRequest r d
  | ShbDataRequest _ => ShbDataRequest r
  | TsbDataRequest _ => TsbDataRequest r
  end.

Definition decrement_by_one (r : Repetition) : Repetition :=
  if dgt (maximum r) dzero && dgt (interval r) dzero && dgt (maximum r) (interval r)
  then mk_Repetition (interval r) (dsub (maximum r) (interval r))
  else mk_Repetition (interval r) dzero.

Definition repetition_left (r : Repetition) : bool :=
  dgt (maximum r) dzero && dgt (interval r) dzero && dge (maximum r) (interval r).

Definition has_further_repetition (request : DataRequest) : bool :=
  match repetition request with
  | Some r => repetition_left r
  | None => false
  end.

(** * Confirmations *)

Inductive ResultCode :=
  | Accepted
  | Rejected_Max_SDU_Size
  | Rejected_Max_Lifetime
  | Rejected_Min_Repetition_Interval
  | Rejected_Unsupported_Traffic_Class
  | Rejected_Max_Geo_Area_Size
  | Rejected_Unspecified.

#[export] Instance ResultCode_eq_dec : EqDecision ResultCode.
Proof. solve_decision. Defined.

(** DataConfirm holds only its result code. *)
Abbreviation DataConfirm := ResultCode (only parsing).

Definition accepted (c : DataConfirm) : bool := bool_decide (c = Accepted).

(** [operator ^=]. *)
Definition replace_code (lhs : DataConfirm) (rhs : ResultCode) : DataConfirm :=
  if bool_decide (rhs ≠ Accepted) then rhs else lhs.

Definition validate_data_request (req : DataRequest) (mib : MIB) : ResultCode :=
  if Lifetime_less (itsGnMaxPacketLifetime mib) (maximum_lifetime req)
  then Rejected_Max_Lifetime
  else if match repetition req with
          | Some r => dlt (interval r) (itsGnMinPacketRepetitionInterval mib)
          | None => false
          end
  then Rejected_Min_Repetition_Interval
  else Accepted.

Definition validate_data_request_with_area (req : DataRequest) (destination : Area) (mib : MIB)
  : ResultCode :=
  if dgt (area_size destination) (itsGnMaxGeoAreaSize mib) then Rejected_Max_Geo_Area_Size
  else validate_data_request req mib.

Section packets.
Context `{SecuredArchive}.

(** The payload is a pointer that may be null. *)
Definition validate_payload (payload : option DownPacket) (mib : MIB) : ResultCode :=
  match payload with
  | None => Rejected_Unspecified
  | Some payload =>
      if chunk_size payload >? itsGnMaxSduSize mib then Rejected_Max_SDU_Size else Accepted
  end.

(** * Headers made from a request *)

Definition BasicHeader_of_MIB (mib : MIB) : BasicHeader :=
  mk_BasicHeader (BitNumber 4 (itsGnProtocolVersion mib)) NextHeaderBasic_Any 0
    (itsGnDefaultPacketLifetime mib) (u8 (itsGnDefaultHopLimit mib)).

Definition BasicHeader_of_request (request : DataRequest) (mib : MIB) : BasicHeader :=
  let h := BasicHeader_of_MIB mib in
  let h := set_basic_next_header
             (if itsGnSecurity mib then NextHeaderBasic_Secured else NextHeaderBasic_Common) h in
  set_hop_limit (u8 (max_hop_limit request)) (set_lifetime (maximum_lifetime request) h).

Definition CommonHeader_of_MIB (mib : MIB) : CommonHeader :=
  mk_CommonHeader NextHeaderCommon_Any 0 Any (itsGnDefaultTrafficClass mib)
    (if itsGnIsMobile mib then 0x80 else 0x00) 0 (u8 (itsGnDefaultHopLimit mib)) 0.

Definition CommonHeader_of_request (request : DataRequest) (mib : MIB) : cpp CommonHeader :=
  next ← match upper_protocol request with
         | BTP_A => Returns NextHeaderCommon_BTP_A
         | BTP_B => Returns NextHeaderCommon_BTP_B
         | IPv6 => Returns NextHeaderCommon_IPv6
         | Upper_Unknown => Throws (runtime_error "Unhandled upper protocol")
         end;
  Returns (set_maximum_hop_limit (u8 (max_hop_limit request))
            (set_traffic_class (request_traffic_class request)
              (set_next_header next (CommonHeader_of_MIB mib)))).

(** * Packets with one kind of extended header *)

(** The member functions [basic()], [common()], [extended()], [secured()]. *)
Record ExtendedPdu (HEADER : Type) := mk_ExtendedPdu {
  e_basic : BasicHeader;
  e_common : CommonHeader;
  e_extended : HEADER;
  e_secured : option SecuredMessage;
}.
Arguments mk_ExtendedPdu {HEADER}.
Arguments e_basic {HEADER}.
Arguments e_common {HEADER}.
Arguments e_extended {HEADER}.
Arguments e_secured {HEADER}.

Definition set_e_basic {H} (v : BasicHeader) (p : ExtendedPdu H) : ExtendedPdu H :=
  mk_ExtendedPdu v (e_common p) (e_extended p) (e_secured p).
Definition set_e_common {H} (v : CommonHeader) (p : ExtendedPdu H) : ExtendedPdu H :=
  mk_ExtendedPdu (e_basic p) v (e_extended p) (e_secured p).
Definition set_e_extended {H} (v : H) (p : ExtendedPdu H) : ExtendedPdu H :=
  mk_ExtendedPdu (e_basic p) (e_common p) v (e_secured p).
Definition set_e_secured {H} (v : option SecuredMessage) (p : ExtendedPdu H) : ExtendedPdu H :=
  mk_ExtendedPdu (e_basic p) (e_common p) (e_extended p) v.

(** The packet behind the common interface of all packets. *)
Definition as_Pdu {H} (variant : H -> HeaderVariant) (p : ExtendedPdu H) : Pdu :=
  mk_Pdu (e_basic p) (e_common p) (variant (e_extended p)) (e_secured p).

Definition ExtendedPdu_of_MIB {H} (header : H) (mib : MIB) : ExtendedPdu H :=
  mk_ExtendedPdu (BasicHeader_of_MIB mib) (CommonHeader_of_MIB mib) header None.

Definition ExtendedPdu_of_request {H} (header : H) (request : DataRequest) (mib : MIB)
  : cpp (ExtendedPdu H) :=
  common ← CommonHeader_of_request request mib;
  Returns (mk_ExtendedPdu (BasicHeader_of_request request mib) common header None).

End packets.

Arguments mk_ExtendedPdu {_ HEADER}.
Arguments e_basic {_ HEADER}.
Arguments e_common {_ HEADER}.
Arguments e_extended {_ HEADER}.
Arguments e_secured {_ HEADER}.

Abbreviation ShbPdu := (ExtendedPdu ShbHeader).
Abbreviation TsbPdu := (ExtendedPdu TsbHeader).
Abbreviation GbcPdu := (ExtendedPdu GeoBroadcastHeader).
Abbreviation BeaconPdu := (ExtendedPdu BeaconHeader).
