(* ===== verification/GeoContainers.v ===== *)
(** * Duplicate detection and packet buffers

    geonet/duplicate_packet_list.cpp, gbc_memory.cpp and packet_buffer.cpp: the bounded
    containers of the router, and lemmas about each. *)

From Stdlib Require Import ZArith Lia.
From stdpp Require Import prelude list.
From S2P Require Import Prelude GeoSerial GeoHeaders.

Open Scope Z_scope.

(** The last [n] elements. *)
Definition lastn {A} (n : nat) (l : list A) : list A := drop (length l - n) l.

Lemma lastn_all {A} n (l : list A) : (length l <= n)%nat -> lastn n l = l.
Proof. intros H. unfold lastn. by replace (length l - n)%nat with 0%nat by lia. Qed.

Lemma length_lastn {A} n (l : list A) : length (lastn n l) = Nat.min n (length l).
Proof. unfold lastn. rewrite length_drop. lia. Qed.

Lemma lastn_app {A} n (l k : list A) :
  (length k <= n)%nat -> lastn n (l ++ k) = lastn (n - length k) l ++ k.
Proof.
  intros H. unfold lastn. rewrite length_app.
  rewrite drop_app_le by lia. do 2 f_equal. lia.
Qed.

Lemma lastn_app_short {A} n (l k : list A) :
  (n <= length k)%nat -> lastn n (l ++ k) = lastn n k.
Proof.
  intros H. unfold lastn. rewrite length_app, drop_app_ge by lia. f_equal. lia.
Qed.

Lemma lastn_suffix {A} n (l : list A) : exists k, l = k ++ lastn n l.
Proof. exists (take (length l - n) l). symmetry. apply take_drop. Qed.

Lemma lastn_lastn {A} n m (l : list A) : (n <= m)%nat -> lastn n (lastn m l) = lastn n l.
Proof.
  intros H. unfold lastn. rewrite length_drop, drop_drop. f_equal. lia.
Qed.

Module DuplicatePacketList.

Record ListElement := mk_ListElement { sequence_number : SequenceNumber; counter_ : Z }.

(** boost::circular_buffer: at most [capacity] elements, oldest first. *)
Record DuplicatePacketList := mk {
  capacity : nat;
  m_elements : list ListElement;
}.

(** [circular_buffer::push_back] overwrites the oldest element when it is full, and does
    nothing when its capacity is zero. *)
Definition push_back (cap : nat) (l : list ListElement) (x : ListElement) : list ListElement :=
  lastn cap (l ++ [x]).

Definition make_DuplicatePacketList (elements : nat) : DuplicatePacketList := mk elements [].

(** [++element->counter] of the element that [find] points to; [None]: a null pointer. *)
Fixpoint find_increment (sn : SequenceNumber) (l : list ListElement) : option (list ListElement) :=
  match l with
  | [] => None
  | element :: l =>
      if sequence_number element =? sn
      then Some (mk_ListElement (sequence_number element) (u32 (counter_ element + 1)) :: l)
      else cons element <$> find_increment sn l
  end.

Definition check (sn : SequenceNumber) (dpl : DuplicatePacketList)
  : bool * DuplicatePacketList :=
  match find_increment sn (m_elements dpl) with
  | Some elements => (true, mk (capacity dpl) elements)
  | None => (false, mk (capacity dpl)
                       (push_back (capacity dpl) (m_elements dpl) (mk_ListElement sn 1)))
  end.

Fixpoint counter_loop (sn : SequenceNumber) (l : list ListElement) : Z :=
  match l with
  | [] => 0
  | element :: l => if sequence_number element =? sn then counter_ element else counter_loop sn l
  end.

Definition counter (dpl : DuplicatePacketList) (sn : SequenceNumber) : Z :=
  counter_loop sn (m_elements dpl).

(** * Histories of calls *)

Fixpoint checks (sns : list SequenceNumber) (dpl : DuplicatePacketList)
  : list bool * DuplicatePacketList :=
  match sns with
  | [] => ([], dpl)
  | sn :: sns =>
      let '(dup, dpl) := check sn dpl in
      let '(dups, dpl) := checks sns dpl in
      (dup :: dups, dpl)
  end.

(** The numbers that were not reported as duplicates. *)
Definition accepted (sns : list SequenceNumber) (dups : list bool) : list SequenceNumber :=
  omap (fun '(sn, dup) => if dup : bool then None else Some sn) (zip sns dups).

Definition numbers (dpl : DuplicatePacketList) : list SequenceNumber :=
  map sequence_number (m_elements dpl).

Lemma find_increment_spec sn l :
  match find_increment sn l with
  | Some l' => sn ∈ map sequence_number l /\ map sequence_number l' = map sequence_number l
  | None => sn ∉ map sequence_number l
  end.
Proof.
  induction l as [|x l IH]; simpl; [set_solver|].
  destruct (Z.eqb_spec (sequence_number x) sn) as [<-|Hne]; simpl; [set_solver|].
  destruct (find_increment sn l) as [l'|]; simpl; [|set_solver].
  destruct IH as [? ->]. set_solver.
Qed.

(** The numbers in the list are the last accepted ones. *)
Lemma check_spec sn dpl :
  fst (check sn dpl) = bool_decide (sn ∈ numbers dpl) /\
  numbers (snd (check sn dpl))
  = (if bool_decide (sn ∈ numbers dpl) then numbers dpl
     else lastn (capacity dpl) (numbers dpl ++ [sn])) /\
  capacity (snd (check sn dpl)) = capacity dpl.
Proof.
  pose proof (find_increment_spec sn (m_elements dpl)) as H. unfold check, numbers in *.
  destruct (find_increment sn (m_elements dpl)) as [l|]; cbn [fst snd m_elements capacity].
  - destruct H as [Hin ->]. by rewrite bool_decide_true.
  - rewrite bool_decide_false by done. split_and!; [done| |done].
    unfold push_back, lastn. rewrite <- skipn_map, map_app, !length_app, length_map. done.
Qed.

Lemma checks_spec sns dpl older :
  numbers dpl = lastn (capacity dpl) older ->
  length (fst (checks sns dpl)) = length sns /\
  numbers (snd (checks sns dpl))
  = lastn (capacity dpl) (older ++ accepted sns (fst (checks sns dpl))).
Proof.
  revert dpl older. induction sns as [|sn sns IH]; intros dpl older Ho; simpl.
  { by rewrite app_nil_r. }
  pose proof (check_spec sn dpl) as (H1 & H2 & H3).
  destruct (check sn dpl) as [dup dpl1]. simpl in H1, H2, H3. subst dup.
  destruct (checks sns dpl1) as [dups dpl2] eqn:E. cbn [fst snd].
  specialize (IH dpl1 (if bool_decide (sn ∈ numbers dpl) then older else older ++ [sn])).
  rewrite E, H3 in IH. cbn [fst snd] in IH.
  destruct IH as [Hl Hn].
  { rewrite H2. destruct (bool_decide _); [done|]. rewrite Ho.
    destruct (capacity dpl) as [|c]; [unfold lastn; rewrite !drop_ge; done || (rewrite ?length_app; lia)|].
    rewrite !lastn_app by (simpl; lia). f_equal. apply lastn_lastn. simpl. lia. }
  split; [simpl; by rewrite Hl|]. rewrite Hn. unfold accepted. simpl.
  destruct (bool_decide _); [done|]. by rewrite <- app_assoc.
Qed.

End DuplicatePacketList.

Module GbcMemory.

(** (GN address, sequence number): CbfPacketIdentifier. *)
Abbreviation PacketIdentifier := (Address * SequenceNumber)%type (only parsing).

(** The multi-index container in the order of its queue; the hashed index only speeds up
    [find]. *)
Record GbcMemory := mk {
  m_capacity : Z;
  m_identifiers : list PacketIdentifier;
}.

Definition make_GbcMemory : GbcMemory := mk 1 [].

Definition memory_size (m : GbcMemory) : Z := size (m_identifiers m).

(** [while (size() > m_capacity) pop_front();] *)
Fixpoint pop_excess (cap : Z) (l : list PacketIdentifier) : list PacketIdentifier :=
  match l with
  | [] => []
  | _ :: rest => if size l >? cap then pop_excess cap rest else l
  end.

(** [while (!empty() && size() >= m_capacity) pop_front();] *)
Fixpoint pop_full (cap : Z) (l : list PacketIdentifier) : list PacketIdentifier :=
  match l with
  | [] => []
  | _ :: rest => if size l >=? cap then pop_full cap rest else l
  end.

Definition set_capacity (num : Z) (m : GbcMemory) : GbcMemory :=
  let cap := if num <? 1 then 1 else num in
  mk cap (pop_excess cap (m_identifiers m)).

Definition knows (id : PacketIdentifier) (m : GbcMemory) : bool :=
  bool_decide (id ∈ m_identifiers m).

Definition remember (id : PacketIdentifier) (m : GbcMemory) : bool * GbcMemory :=
  if negb (knows id m) then
    (false, mk (m_capacity m) (pop_full (m_capacity m) (m_identifiers m) ++ [id]))
  else
    (true, mk (m_capacity m) (filter (fun x => x ≠ id) (m_identifiers m) ++ [id])).

(** * Histories of calls *)

Definition remember_all (ids : list PacketIdentifier) (m : GbcMemory) : GbcMemory :=
  fold_left (fun m id => snd (remember id m)) ids m.

(** The different identifiers of a history in the order of their last occurrence. *)
Definition by_recency (ids : list PacketIdentifier) : list PacketIdentifier :=
  fold_left (fun l id => filter (fun x => x ≠ id) l ++ [id]) ids [].

Lemma pop_excess_lastn cap l : 0 <= cap -> pop_excess cap l = lastn (Z.to_nat cap) l.
Proof.
  intros Hc. induction l as [|x l IH]; simpl; [by rewrite lastn_all by (simpl; lia)|].
  rewrite size_cons. destruct (Z.gtb_spec (1 + size l) cap).
  - rewrite IH. unfold size in *. symmetry. apply (lastn_app_short _ [x]). lia.
  - rewrite lastn_all; [done|]. unfold size in *. simpl. lia.
Qed.

Lemma pop_full_lastn cap l : 1 <= cap -> pop_full cap l = lastn (Z.to_nat cap - 1) l.
Proof.
  intros Hc. induction l as [|x l IH]; simpl; [by rewrite lastn_all by (simpl; lia)|].
  rewrite size_cons. destruct (Z.geb_spec (1 + size l) cap).
  - rewrite IH. unfold size in *. symmetry. apply (lastn_app_short _ [x]). lia.
  - rewrite lastn_all; [done|]. unfold size in *. simpl. lia.
Qed.

Lemma filter_notin (id : PacketIdentifier) (l : list PacketIdentifier) : id ∉ l ->
  filter (fun x => x ≠ id) l = l.
Proof.
  induction l as [|x l IH]; [done|]. intros Hn. rewrite filter_cons_True by set_solver.
  rewrite IH by set_solver. done.
Qed.

Lemma length_filter_in (id : PacketIdentifier) (l : list PacketIdentifier) :
  NoDup l -> id ∈ l ->
  S (length (filter (fun x => x ≠ id) l)) = length l.
Proof.
  induction 1 as [|x l Hx Hl IH]; [set_solver|]. intros Hin.
  destruct (decide (x = id)) as [->|Hne].
  - rewrite filter_cons_False by auto. by rewrite filter_notin.
  - rewrite filter_cons_True by done. simpl. rewrite IH; [done|set_solver].
Qed.

Lemma by_recency_snoc ids id :
  by_recency (ids ++ [id]) = filter (fun x => x ≠ id) (by_recency ids) ++ [id].
Proof. unfold by_recency. by rewrite fold_left_app. Qed.

Lemma NoDup_by_recency ids : NoDup (by_recency ids).
Proof.
  induction ids as [|id ids IH] using rev_ind; [constructor|].
  rewrite by_recency_snoc. apply NoDup_app. split; [by apply NoDup_filter|].
  split; [|apply NoDup_singleton]. intros x Hx%list_elem_of_filter. set_solver.
Qed.

Lemma elem_of_by_recency ids id : id ∈ by_recency ids <-> id ∈ ids.
Proof.
  induction ids as [|x ids IH] using rev_ind; [done|].
  rewrite by_recency_snoc, !elem_of_app, list_elem_of_filter, IH.
  destruct (decide (id = x)); set_solver.
Qed.

(** One call keeps the most recent identifiers. *)
Lemma remember_spec id cap l D : 1 <= cap -> NoDup D -> l = lastn (Z.to_nat cap) D ->
  m_identifiers (snd (remember id (mk cap l)))
  = lastn (Z.to_nat cap) (filter (fun x => x ≠ id) D ++ [id]).
Proof.
  intros Hc HD Hl. unfold remember, knows. cbn [m_identifiers m_capacity].
  destruct (lastn_suffix (Z.to_nat cap) D) as [old Hold]. rewrite <- Hl in Hold.
  assert (length l = Nat.min (Z.to_nat cap) (length D)) as Hlen by (rewrite Hl; apply length_lastn).
  assert ((length l < Z.to_nat cap)%nat -> old = []) as Hnil.
  { intros Hlt. assert (length D = (length old + length l)%nat) as HL
      by (rewrite Hold, length_app; done). destruct old; simpl in *; [done|lia]. }
  rewrite Hold in HD. apply NoDup_app in HD as (_ & Hdisj & Hnd).
  destruct (bool_decide_reflect (id ∈ l)) as [Hin|Hin]; simpl snd; cbn [m_identifiers].
  - pose proof (length_filter_in id l Hnd Hin) as Hfl.
    rewrite Hold, filter_app, (filter_notin id old) by set_solver.
    rewrite <- app_assoc. set (k := filter (fun x => x ≠ id) l) in *.
    destruct (decide (length l < Z.to_nat cap)%nat) as [Hlt|Hge].
    + rewrite (Hnil Hlt). simpl. rewrite lastn_all; [done|]. rewrite length_app. simpl. lia.
    + rewrite lastn_app_short by (rewrite length_app; simpl; lia).
      rewrite lastn_all; [done|]. rewrite length_app. simpl. lia.
  - rewrite pop_full_lastn by done. rewrite Hold, filter_app, (filter_notin id l) by done.
    rewrite <- app_assoc. destruct (decide (length l < Z.to_nat cap)%nat) as [Hlt|Hge].
    + rewrite (Hnil Hlt). simpl. rewrite !lastn_all; rewrite ?length_app; simpl; try done; lia.
    + rewrite lastn_app_short by (rewrite length_app; simpl; lia).
      rewrite (lastn_app (Z.to_nat cap)) by (simpl; lia). done.
Qed.

Lemma remember_capacity id m : m_capacity (snd (remember id m)) = m_capacity m.
Proof. unfold remember. by destruct (knows id m). Qed.

Lemma remember_all_spec ids cap : 1 <= cap ->
  m_capacity (remember_all ids (mk cap [])) = cap /\
  m_identifiers (remember_all ids (mk cap [])) = lastn (Z.to_nat cap) (by_recency ids).
Proof.
  intros Hc. induction ids as [|id ids [IH1 IH2]] using rev_ind; [done|].
  unfold remember_all in *. rewrite fold_left_app. simpl.
  destruct (fold_left _ ids (mk cap [])) as [c l]. cbn [m_capacity m_identifiers] in *. subst c.
  rewrite remember_capacity, by_recency_snoc. split; [done|].
  apply remember_spec; auto using NoDup_by_recency.
Qed.

End GbcMemory.

Module PacketBuffer.

(** The interface packet_buffer::Data.  [flush] of a packet is the callback of [flush]
    below; [reduce_lifetime] returns the remaining lifetime and changes the packet. *)
Class Data := {
  data : Type;
  data_length : data -> Z;
  reduce_lifetime : Z -> data -> Z * data;
}.

(** Lengths are sizes, and the length of a packet does not depend on its lifetime. *)
Class DataOk (D : Data) : Prop := {
  data_length_size d : 0 <= data_length d < 2 ^ 64;
  data_length_reduced t d : data_length (snd (reduce_lifetime t d)) = data_length d;
}.

Section buffer.
Context `{D : Data}.

Record Expiry := mk_Expiry { m_buffered_since : Z; m_expires_at : Z }.

Definition make_Expiry (now lifetime : Z) : Expiry := mk_Expiry now (now + lifetime).

Definition is_expired (now : Z) (e : Expiry) : bool := m_expires_at e <? now.

Abbreviation node_type := (Expiry * data)%type (only parsing).

Record PacketBuffer := mk {
  m_nodes : list node_type;
  m_capacity : Z;
  m_stored : Z;
}.

Definition make_PacketBuffer (capacity : Z) : PacketBuffer := mk [] capacity 0.

(** [size_t] arithmetic. *)
Definition free (b : PacketBuffer) : Z := u64 (m_capacity b - m_stored b).

Definition drop_head (b : PacketBuffer) : bool * PacketBuffer :=
  match m_nodes b with
  | [] => (false, b)
  | node :: nodes =>
      (true, mk nodes (m_capacity b) (u64 (m_stored b - data_length node.2)))
  end.

(** The loop of [drop_expired] over the list: what is left of it, and [m_stored]. *)
Fixpoint expired_nodes_loop (now : Z) (nodes : list node_type) (stored : Z)
  : list node_type * Z :=
  match nodes with
  | [] => ([], stored)
  | node :: nodes =>
      if is_expired now node.1
      then expired_nodes_loop now nodes (u64 (stored - data_length node.2))
      else let '(nodes, stored) := expired_nodes_loop now nodes stored in (node :: nodes, stored)
  end.

Definition drop_expired_nodes (now : Z) (b : PacketBuffer) : PacketBuffer :=
  let '(nodes, stored) := expired_nodes_loop now (m_nodes b) (m_stored b) in
  mk nodes (m_capacity b) stored.

(** [while (free() < bytes && drop_head()) {}], at most once per packet. *)
Fixpoint drop_loop (fuel : nat) (bytes : Z) (b : PacketBuffer) : PacketBuffer :=
  match fuel with
  | O => b
  | S fuel =>
      if free b <? bytes then
        let '(dropped, b) := drop_head b in
        if dropped then drop_loop fuel bytes b else b
      else b
  end.

Definition drop (bytes : Z) (b : PacketBuffer) : bool * PacketBuffer :=
  let b := drop_loop (S (length (m_nodes b))) bytes b in
  (free b >=? bytes, b).

Definition push (d : data) (now : Z) (b : PacketBuffer) : bool * PacketBuffer :=
  let b := drop_expired_nodes now b in
  let '(enough, b) := drop (data_length d) b in
  if enough then
    let '(lifetime, d') := reduce_lifetime 0 d in
    (true, mk (m_nodes b ++ [(make_Expiry now lifetime, d')]) (m_capacity b)
              (u64 (m_stored b + data_length d)))
  else (false, b).

(** [flush]: the nodes are swapped out first, so the callback may push packets into the
    buffer while the old ones are handed to it.  [W] is the rest of the world that the
    callback changes. *)
Definition flush_node {W} (cb : data -> W * PacketBuffer -> W * PacketBuffer) (now : Z)
    (w : W * PacketBuffer) (node : node_type) : W * PacketBuffer :=
  let expiry := node.1 in
  if negb (is_expired now expiry) then
    let queuing_time := now - m_buffered_since expiry in
    cb (snd (reduce_lifetime queuing_time node.2)) w
  else w.

Definition flush {W} (cb : data -> W * PacketBuffer -> W * PacketBuffer) (now : Z)
    (w : W * PacketBuffer) : W * PacketBuffer :=
  let nodes := m_nodes w.2 in
  fold_left (flush_node cb now) nodes (w.1, mk [] (m_capacity w.2) 0).

(** * Invariant *)

(** The octets of a list of packets. *)
Definition total (nodes : list node_type) : Z :=
  foldr (fun node n => data_length node.2 + n) 0 nodes.

(** The counter is the sum of the lengths, and it stays within the capacity. *)
Definition buffer_ok (b : PacketBuffer) : Prop :=
  m_stored b = total (m_nodes b) /\ total (m_nodes b) <= m_capacity b < 2 ^ 64.

Definition live (now : Z) (nodes : list node_type) : list node_type :=
  filter (fun node => is_expired now node.1 = false) nodes.

Context `{!DataOk D}.

Lemma total_app k l : total (k ++ l) = total k + total l.
Proof. induction k as [|x k IH]; simpl; [done|]. lia. Qed.

Lemma total_nonneg l : 0 <= total l.
Proof.
  induction l as [|x l IH]; simpl; [done|]. pose proof (data_length_size x.2). lia.
Qed.

Lemma expired_nodes_loop_spec now nodes stored :
  total nodes <= stored < 2 ^ 64 ->
  expired_nodes_loop now nodes stored
  = (live now nodes, stored - (total nodes - total (live now nodes))).
Proof.
  revert stored. induction nodes as [|x nodes IH]; intros stored Hs; simpl in *.
  { f_equal. lia. }
  pose proof (data_length_size x.2). pose proof (total_nonneg nodes).
  unfold live. rewrite filter_cons. destruct (is_expired now x.1) eqn:E.
  - rewrite decide_False by done. rewrite wrap_id, IH by lia. fold (live now nodes).
    f_equal. lia.
  - rewrite decide_True by done. fold (live now nodes). rewrite IH by lia. simpl. f_equal. lia.
Qed.

Lemma total_live now nodes : total (live now nodes) <= total nodes.
Proof.
  induction nodes as [|x nodes IH]; [done|]. unfold live. rewrite filter_cons.
  fold (live now nodes). pose proof (data_length_size x.2).
  destruct (decide _); simpl; lia.
Qed.

Lemma drop_expired_nodes_spec now b : buffer_ok b ->
  buffer_ok (drop_expired_nodes now b) /\ m_nodes (drop_expired_nodes now b) = live now (m_nodes b) /\
  m_capacity (drop_expired_nodes now b) = m_capacity b.
Proof.
  intros [Hs Ht]. unfold drop_expired_nodes. rewrite expired_nodes_loop_spec by lia.
  pose proof (total_live now (m_nodes b)). unfold buffer_ok. simpl. split_and!; try done; lia.
Qed.

Lemma free_ok b : buffer_ok b -> free b = m_capacity b - total (m_nodes b).
Proof.
  intros [Hs Ht]. unfold free. rewrite Hs. pose proof (total_nonneg (m_nodes b)).
  apply wrap_id; lia.
Qed.

(** The loop keeps the longest end of the list that leaves enough room. *)
Lemma drop_loop_spec bytes b fuel : buffer_ok b -> (length (m_nodes b) < fuel)%nat ->
  let b' := drop_loop fuel bytes b in
  buffer_ok b' /\ m_capacity b' = m_capacity b /\
  exists dropped, m_nodes b = dropped ++ m_nodes b' /\
    (forall k x, dropped = k ++ [x] -> m_capacity b < total (x :: m_nodes b') + bytes) /\
    (total (m_nodes b') + bytes <= m_capacity b \/ m_nodes b' = []).
Proof.
  revert b. induction fuel as [|fuel IH]; intros b Hok Hf; [lia|]. simpl.
  rewrite free_ok by done. destruct (Z.ltb_spec (m_capacity b - total (m_nodes b)) bytes).
  2: { split; [done|]. split; [done|]. exists []. split; [done|]. split; [|left; lia].
       intros [|] ?; discriminate. }
  destruct b as [[|x nodes] cap st]; unfold drop_head; cbn [m_nodes m_capacity m_stored] in *.
  { split; [done|]. split; [done|]. exists []. split; [done|]. split; [|by right].
    intros [|] ?; discriminate. }
  destruct Hok as [Hst Hc]. cbn [m_nodes m_capacity m_stored] in *. simpl in Hst, Hc.
  pose proof (data_length_size x.2). pose proof (total_nonneg nodes).
  assert (u64 (st - data_length x.2) = total nodes) as Hst'.
  { subst st. rewrite wrap_id; lia. }
  destruct (IH (mk nodes cap (u64 (st - data_length x.2)))) as (Hok & Hcap & dropped & Hd & Hm & He).
  { split; cbn [m_nodes m_capacity m_stored]; [done|lia]. }
  { simpl in *. lia. }
  cbn [m_nodes m_capacity m_stored] in *.
  split; [done|]. split; [done|]. exists (x :: dropped). split; [by rewrite Hd at 1|].
  split; [|done]. intros k y Hk.
  destruct (decide (dropped = [])) as [->|Hne].
  - assert (y = x) as -> by (destruct k as [|? [|]]; naive_solver).
    simpl in Hd. rewrite <- Hd. simpl in *. lia.
  - destruct k as [|z k]; [naive_solver|]. injection Hk as -> Hk. by apply (Hm k).
Qed.

(** * What is stored *)

Lemma expired_nodes_incl t nodes stored n :
  n ∈ fst (expired_nodes_loop t nodes stored) -> n ∈ nodes.
Proof.
  revert stored. induction nodes as [|m nodes IH]; intros stored; simpl; [done|].
  destruct (is_expired t m.1); [intros; right; eauto|].
  specialize (IH stored). destruct (expired_nodes_loop t nodes stored). simpl in *.
  rewrite !elem_of_cons. tauto.
Qed.

Lemma drop_loop_incl fuel octets b n : n ∈ m_nodes (drop_loop fuel octets b) -> n ∈ m_nodes b.
Proof.
  revert b. induction fuel as [|fuel IH]; intros b; simpl; [done|].
  destruct (_ <? _); [|done]. unfold drop_head. destruct (m_nodes b) eqn:E; simpl.
  - by rewrite E.
  - intros Hn%IH. by right.
Qed.

(** Storing a packet drops others, and may drop the packet itself. *)
Lemma push_incl p t b n :
  n ∈ m_nodes (snd (push p t b)) -> n ∈ m_nodes b \/ snd n = snd (reduce_lifetime 0 p).
Proof.
  unfold push, drop, drop_expired_nodes.
  pose proof (expired_nodes_incl t (m_nodes b) (m_stored b) n) as Hexp.
  destruct (expired_nodes_loop t _ _) as [nodes stored]. simpl in Hexp.
  set (b1 := mk nodes _ _).
  pose proof (drop_loop_incl (S (length (m_nodes b1))) (data_length p) b1 n) as Hd.
  destruct (drop_loop _ _ b1) as [nodes' cap' stored']. simpl in *.
  destruct (_ >=? _).
  - destruct (reduce_lifetime 0 p) as [l p']. simpl. rewrite elem_of_app, list_elem_of_singleton.
    intros [Hn| ->]; [left; auto|by right].
  - simpl. auto.
Qed.

End buffer.
End PacketBuffer.
