(* ===== verification/SoftState.v ===== *)
(** * Maps with expiring entries

    geonet/soft_state_map.hpp.  The class keeps a hash map from keys to values, a heap of
    expiry times with keys, and in each entry of the map a handle into the heap.  The
    heap is boost's binomial heap: the class [HeapTop] stands for which element it puts on
    top, and [HeapTopOk] says that it is one with the smallest expiry.

    A call has no defined outcome ([None]) if it follows a handle that is not in the heap;
    the invariant [coherent] excludes this.  [abs] is the specification: a map from keys
    to values with their expiry, and every operation is the operation of the same name
    on it. *)

From Stdlib Require Import ZArith Lia.
From stdpp Require Import prelude gmap.
From S2P Require Import Prelude.

Open Scope Z_scope.

Class HeapTop (K : Type) `{Countable K} :=
  heap_top : gmap nat (Z * K) -> option nat.

Class HeapTopOk (K : Type) `{Countable K} (T : HeapTop K) : Prop := {
  heap_top_empty h : heap_top h = None -> h = ∅;
  heap_top_least h i : heap_top h = Some i ->
    exists e k, h !! i = Some (e, k) /\
      forall j e' k', h !! j = Some (e', k') -> e <= e';
}.

Section map.
Context {K V : Type} `{Countable K} `{T : !HeapTop K}.

(** A value in the map with its handle; the heap by handle. *)
Record SoftStateMap := mk_SoftStateMap {
  m_lifetime : Z;
  m_heap : gmap nat (Z * K);
  m_map : gmap K (nat * V);
}.

Definition make_SoftStateMap (lifetime : Z) : SoftStateMap := mk_SoftStateMap lifetime ∅ ∅.

Definition set_entry_lifetime (lifetime : Z) (s : SoftStateMap) : SoftStateMap :=
  mk_SoftStateMap lifetime (m_heap s) (m_map s).

Definition entry_expired (now : Z) (handle : nat) (s : SoftStateMap) : option bool :=
  '(expiry, _) ← m_heap s !! handle; Some (now >? expiry).

(** The private [refresh]. *)
Definition refresh_handle (now : Z) (handle : nat) (s : SoftStateMap) : option SoftStateMap :=
  '(_, k) ← m_heap s !! handle;
  Some (mk_SoftStateMap (m_lifetime s) (<[handle := (now + m_lifetime s, k)]> (m_heap s)) (m_map s)).

(** [get_data] and with it [get_value]; [created] is what [m_creator()] returns.  The
    reference that it returns is the entry of [key]: [write_value] assigns to it. *)
Definition get_value (now : Z) (created : V) (key : K) (s : SoftStateMap)
  : option (SoftStateMap * V) :=
  match m_map s !! key with
  | None =>
      let handle := fresh (dom (m_heap s)) in
      Some (mk_SoftStateMap (m_lifetime s)
              (<[handle := (now + m_lifetime s, key)]> (m_heap s))
              (<[key := (handle, created)]> (m_map s)), created)
  | Some (handle, value) =>
      expired ← entry_expired now handle s;
      if expired : bool then s ← refresh_handle now handle s; Some (s, value)
      else Some (s, value)
  end.

Definition get_value_ptr (now : Z) (key : K) (s : SoftStateMap) : option (option V) :=
  match m_map s !! key with
  | None => Some None
  | Some (handle, value) =>
      expired ← entry_expired now handle s;
      Some (if expired : bool then None else Some value)
  end.

Definition has_value (now : Z) (key : K) (s : SoftStateMap) : option bool :=
  ptr ← get_value_ptr now key s; Some (match ptr with Some _ => true | None => false end).

Definition refresh (now : Z) (created : V) (key : K) (s : SoftStateMap)
  : option (SoftStateMap * V) :=
  match m_map s !! key with
  | Some (handle, value) => s ← refresh_handle now handle s; Some (s, value)
  | None => get_value now created key s
  end.

Definition write_value (key : K) (value : V) (s : SoftStateMap) : SoftStateMap :=
  mk_SoftStateMap (m_lifetime s) (m_heap s) (alter (fun '(handle, _) => (handle, value)) key (m_map s)).

(** The loop of [drop_expired]; [None] also when the fuel is used up. *)
Fixpoint drop_expired_loop (fuel : nat) (now : Z) (s : SoftStateMap) : option SoftStateMap :=
  match fuel with
  | O => None
  | S fuel =>
      match heap_top (m_heap s) with
      | None => Some s
      | Some handle =>
          '(expiry, key) ← m_heap s !! handle;
          if now >? expiry then
            drop_expired_loop fuel now
              (mk_SoftStateMap (m_lifetime s) (delete handle (m_heap s)) (delete key (m_map s)))
          else Some s
      end
  end.

Definition drop_expired (now : Z) (s : SoftStateMap) : option SoftStateMap :=
  drop_expired_loop (S (base.size (m_heap s))) now s.

(** The range [map()]: the entries that are not expired. *)
Definition map_range (now : Z) (s : SoftStateMap) : gmap K V :=
  omap (fun '(handle, value) =>
    match entry_expired now handle s with
    | Some false => Some value
    | _ => None
    end) (m_map s).

(** * Specification *)

Definition abs (s : SoftStateMap) : gmap K (V * Z) :=
  omap (fun '(handle, value) => '(expiry, _) ← m_heap s !! handle; Some (value, expiry)) (m_map s).

(** Handles and keys belong together. *)
Definition coherent (s : SoftStateMap) : Prop :=
  (forall k i v, m_map s !! k = Some (i, v) -> exists e, m_heap s !! i = Some (e, k)) /\
  (forall i e k, m_heap s !! i = Some (e, k) -> exists v, m_map s !! k = Some (i, v)).

Definition soft_get_value (lifetime now : Z) (created : V) (key : K) (m : gmap K (V * Z))
  : gmap K (V * Z) * V :=
  match m !! key with
  | None => (<[key := (created, now + lifetime)]> m, created)
  | Some (v, e) => if now >? e then (<[key := (v, now + lifetime)]> m, v) else (m, v)
  end.

Definition soft_get_value_ptr (now : Z) (key : K) (m : gmap K (V * Z)) : option V :=
  '(v, e) ← m !! key; if now >? e then None else Some v.

Definition soft_refresh (lifetime now : Z) (created : V) (key : K) (m : gmap K (V * Z))
  : gmap K (V * Z) * V :=
  match m !! key with
  | None => (<[key := (created, now + lifetime)]> m, created)
  | Some (v, _) => (<[key := (v, now + lifetime)]> m, v)
  end.

Definition soft_write_value (key : K) (v : V) (m : gmap K (V * Z)) : gmap K (V * Z) :=
  alter (fun '(_, e) => (v, e)) key m.

Definition soft_drop_expired (now : Z) (m : gmap K (V * Z)) : gmap K (V * Z) :=
  filter (fun '(_, (_, e)) => now <= e) m.

(** * Invariant and abstraction *)

Lemma lookup_abs s k :
  abs s !! k = '(i, v) ← m_map s !! k; '(e, _) ← m_heap s !! i; Some (v, e).
Proof. unfold abs. rewrite lookup_omap. by destruct (m_map s !! k) as [[i v]|]. Qed.

Lemma lookup_abs_Some s k v e : coherent s ->
  abs s !! k = Some (v, e) <->
  exists i, m_map s !! k = Some (i, v) /\ m_heap s !! i = Some (e, k).
Proof.
  intros [Hm _]. rewrite lookup_abs. split.
  - destruct (m_map s !! k) as [[i w]|] eqn:E; [|done]. simpl.
    destruct (Hm _ _ _ E) as [e' He]. rewrite He. simpl. intros [= <- <-]. eauto.
  - intros (i & -> & He). simpl. by rewrite He.
Qed.

Lemma lookup_abs_None s k : coherent s -> abs s !! k = None <-> m_map s !! k = None.
Proof.
  intros [Hm _]. rewrite lookup_abs. destruct (m_map s !! k) as [[i v]|] eqn:E; [|done].
  simpl. destruct (Hm _ _ _ E) as [e ->]. done.
Qed.

(** An entry that is new, or that takes the place of the entry with its handle. *)
Lemma coherent_insert s i e k v lt :
  coherent s ->
  (m_heap s !! i = None /\ m_map s !! k = None \/ exists w, m_map s !! k = Some (i, w)) ->
  let s' := mk_SoftStateMap lt (<[i := (e, k)]> (m_heap s)) (<[k := (i, v)]> (m_map s)) in
  coherent s' /\ abs s' = <[k := (v, e)]> (abs s).
Proof.
  intros Hc Hcase s'. pose proof Hc as [Hm Hh].
  assert (forall k' i' v', m_map s !! k' = Some (i', v') -> k' <> k -> i' <> i) as Hdiff.
  { intros k' i' v' Hk Hne ->. destruct (Hm _ _ _ Hk) as [e' He].
    destruct Hcase as [[Hi _]|[w Hw]]; [congruence|].
    destruct (Hm _ _ _ Hw) as [e'' He'']. congruence. }
  split; [split|].
  - intros k' i' v'. simpl. rewrite lookup_insert_Some. intros [[<- [= <- <-]]|[Hne Hk]].
    { exists e. apply lookup_insert_eq. }
    destruct (Hm _ _ _ Hk) as [e' He]. exists e'. rewrite lookup_insert_ne; [done|].
    intros <-. by eapply Hdiff.
  - intros i' e' k'. simpl. rewrite lookup_insert_Some. intros [[<- [= <- <-]]|[Hne Hi]].
    { exists v. apply lookup_insert_eq. }
    destruct (Hh _ _ _ Hi) as [w Hw]. exists w. rewrite lookup_insert_ne; [done|]. intros <-.
    destruct Hcase as [[_ Hk]|[w' Hw']]; congruence.
  - apply map_eq. intros k'. rewrite lookup_abs. simpl.
    destruct (decide (k' = k)) as [->|Hne].
    + rewrite !lookup_insert_eq. simpl. by rewrite lookup_insert_eq.
    + rewrite !lookup_insert_ne by done. rewrite lookup_abs.
      destruct (m_map s !! k') as [[i' v']|] eqn:E; [|done]. simpl.
      rewrite lookup_insert_ne; [done|]. intros <-. by eapply Hdiff.
Qed.

Lemma coherent_delete s i e k lt : coherent s -> m_heap s !! i = Some (e, k) ->
  let s' := mk_SoftStateMap lt (delete i (m_heap s)) (delete k (m_map s)) in
  coherent s' /\ abs s' = delete k (abs s).
Proof.
  intros [Hm Hh] Hi s'. destruct (Hh _ _ _ Hi) as [v Hv].
  assert (forall k' i' v', m_map s !! k' = Some (i', v') -> k' <> k -> i' <> i) as Hdiff.
  { intros k' i' v' Hk Hne ->. destruct (Hm _ _ _ Hk) as [e' He]. congruence. }
  split; [split|].
  - intros k' i' v'. simpl. rewrite lookup_delete_Some. intros [Hne Hk].
    destruct (Hm _ _ _ Hk) as [e' He]. exists e'. rewrite lookup_delete_ne; [done|].
    intros <-. by eapply Hdiff.
  - intros i' e' k'. simpl. rewrite lookup_delete_Some. intros [Hne Hi'].
    destruct (Hh _ _ _ Hi') as [w Hw]. exists w. rewrite lookup_delete_ne; [done|]. congruence.
  - apply map_eq. intros k'. rewrite lookup_abs. simpl.
    destruct (decide (k' = k)) as [->|Hne]; [by rewrite !lookup_delete_eq|].
    rewrite !lookup_delete_ne by done. rewrite lookup_abs.
    destruct (m_map s !! k') as [[i' v']|] eqn:E; [|done]. simpl.
    rewrite lookup_delete_ne; [done|]. intros <-. by eapply Hdiff.
Qed.

(** * The operations refine the specification *)

Lemma entry_expired_abs now i e k s :
  m_heap s !! i = Some (e, k) -> entry_expired now i s = Some (now >? e).
Proof. intros Hi. unfold entry_expired. by rewrite Hi. Qed.

Lemma refresh_handle_spec now i k v s : coherent s -> m_map s !! k = Some (i, v) ->
  exists s', refresh_handle now i s = Some s' /\ coherent s' /\
    m_lifetime s' = m_lifetime s /\ abs s' = <[k := (v, now + m_lifetime s)]> (abs s).
Proof.
  intros Hc Hk. destruct (proj1 Hc _ _ _ Hk) as [e He].
  destruct (coherent_insert s i (now + m_lifetime s) k v (m_lifetime s) Hc) as [Hc' Ha]; [eauto|].
  rewrite (insert_id (m_map s)) in Hc', Ha by done.
  unfold refresh_handle. rewrite He. simpl. eauto 10.
Qed.

Lemma create_spec now created k s : coherent s -> m_map s !! k = None ->
  let handle := fresh (dom (m_heap s)) in
  let s' := mk_SoftStateMap (m_lifetime s)
              (<[handle := (now + m_lifetime s, k)]> (m_heap s))
              (<[k := (handle, created)]> (m_map s)) in
  coherent s' /\ abs s' = <[k := (created, now + m_lifetime s)]> (abs s).
Proof.
  intros Hc Hk handle s'. apply coherent_insert; [done|left]. split; [|done].
  apply not_elem_of_dom, is_fresh.
Qed.

Lemma get_value_spec now created k s : coherent s ->
  exists s' v, get_value now created k s = Some (s', v) /\ coherent s' /\
    m_lifetime s' = m_lifetime s /\
    (abs s', v) = soft_get_value (m_lifetime s) now created k (abs s).
Proof.
  intros Hc. unfold get_value, soft_get_value.
  destruct (m_map s !! k) as [[i v]|] eqn:E.
  - destruct (proj1 Hc _ _ _ E) as [e He].
    rewrite (entry_expired_abs _ _ _ _ _ He), (proj2 (lookup_abs_Some s k v e Hc)) by eauto.
    simpl. destruct (now >? e); [|eauto 10].
    destruct (refresh_handle_spec now i k v s Hc E) as (s' & -> & Hc' & Hl & Ha).
    simpl. rewrite <- Ha. eauto 10.
  - rewrite (proj2 (lookup_abs_None s k Hc)) by done.
    destruct (create_spec now created k s Hc E) as [Hc' Ha]. rewrite <- Ha. eauto 10.
Qed.

Lemma get_value_ptr_spec now k s : coherent s ->
  get_value_ptr now k s = Some (soft_get_value_ptr now k (abs s)).
Proof.
  intros Hc. unfold get_value_ptr, soft_get_value_ptr.
  destruct (m_map s !! k) as [[i v]|] eqn:E.
  - destruct (proj1 Hc _ _ _ E) as [e He].
    rewrite (entry_expired_abs _ _ _ _ _ He), (proj2 (lookup_abs_Some s k v e Hc)) by eauto. done.
  - by rewrite (proj2 (lookup_abs_None s k Hc)).
Qed.

Lemma refresh_spec now created k s : coherent s ->
  exists s' v, refresh now created k s = Some (s', v) /\ coherent s' /\
    m_lifetime s' = m_lifetime s /\
    (abs s', v) = soft_refresh (m_lifetime s) now created k (abs s).
Proof.
  intros Hc. unfold refresh, soft_refresh.
  destruct (m_map s !! k) as [[i v]|] eqn:E.
  - destruct (proj1 Hc _ _ _ E) as [e He].
    rewrite (proj2 (lookup_abs_Some s k v e Hc)) by eauto.
    destruct (refresh_handle_spec now i k v s Hc E) as (s' & -> & Hc' & Hl & Ha).
    simpl. rewrite <- Ha. eauto 10.
  - rewrite (proj2 (lookup_abs_None s k Hc)) by done. unfold get_value. rewrite E.
    destruct (create_spec now created k s Hc E) as [Hc' Ha]. rewrite <- Ha. eauto 10.
Qed.

Lemma write_value_spec k v s : coherent s ->
  coherent (write_value k v s) /\ m_lifetime (write_value k v s) = m_lifetime s /\
  abs (write_value k v s) = soft_write_value k v (abs s).
Proof.
  intros [Hm Hh]. unfold write_value, soft_write_value. split; [split|split; [done|]]; simpl.
  - intros k' i v'. rewrite lookup_alter_Some.
    intros [(<- & [j w] & Hk & [= <- <-])|(Hne & Hk)]; eauto.
  - intros i e k' Hi. destruct (Hh _ _ _ Hi) as [w Hw].
    destruct (decide (k' = k)) as [->|Hne].
    + exists v. by rewrite lookup_alter_eq, Hw.
    + exists w. by rewrite lookup_alter_ne.
  - apply map_eq. intros k'. rewrite lookup_abs. simpl.
    destruct (decide (k' = k)) as [->|Hne].
    + rewrite !lookup_alter_eq, lookup_abs. destruct (m_map s !! k) as [[i w]|]; [|done].
      simpl. by destruct (m_heap s !! i) as [[e ?]|].
    + by rewrite !lookup_alter_ne, lookup_abs by done.
Qed.

Lemma map_range_spec now s k : coherent s ->
  map_range now s !! k = soft_get_value_ptr now k (abs s).
Proof.
  intros Hc. unfold map_range, soft_get_value_ptr. rewrite lookup_omap.
  destruct (m_map s !! k) as [[i v]|] eqn:E; simpl.
  - destruct (proj1 Hc _ _ _ E) as [e He].
    rewrite (entry_expired_abs _ _ _ _ _ He), (proj2 (lookup_abs_Some s k v e Hc)) by eauto.
    simpl. by destruct (now >? e).
  - by rewrite (proj2 (lookup_abs_None s k Hc)).
Qed.

Context `{!HeapTopOk K T}.

Lemma drop_expired_loop_spec fuel now s : coherent s -> (base.size (m_heap s) < fuel)%nat ->
  exists s', drop_expired_loop fuel now s = Some s' /\ coherent s' /\
    m_lifetime s' = m_lifetime s /\ abs s' = soft_drop_expired now (abs s).
Proof.
  revert s. induction fuel as [|fuel IH]; intros s Hc Hf; [lia|]. simpl.
  assert ((forall k v e, abs s !! k = Some (v, e) -> now <= e) ->
          abs s = soft_drop_expired now (abs s)) as Hid.
  { intros Hall. symmetry. apply map_filter_id. intros k [v e] Hk. by eapply Hall. }
  destruct (heap_top (m_heap s)) as [i|] eqn:Et.
  - destruct (heap_top_least _ _ Et) as (e & k & Hi & Hmin). rewrite Hi. simpl.
    destruct (Z.gtb_spec now e) as [Hgt|Hle].
    + destruct (coherent_delete s i e k (m_lifetime s) Hc Hi) as [Hc' Ha].
      destruct (IH _ Hc') as (s' & -> & Hc2 & Hl & Ha2).
      { pose proof (map_size_ne_0_lookup_2 (m_heap s) i ltac:(by rewrite Hi)).
        simpl. rewrite map_size_delete_Some by (by rewrite Hi). lia. }
      exists s'. split_and!; [done..|]. rewrite Ha2, Ha. unfold soft_drop_expired.
      destruct (proj2 Hc _ _ _ Hi) as [v Hv].
      rewrite map_filter_delete_not; [done|].
      intros [v' e'] Hk. rewrite (proj2 (lookup_abs_Some s k v e Hc)) in Hk by eauto.
      injection Hk as <- <-. lia.
    + exists s. split_and!; [done..|]. apply Hid. intros k' v' e' Hk.
      apply (lookup_abs_Some s) in Hk as (j & _ & Hj); [|done]. apply Hmin in Hj. lia.
  - apply heap_top_empty in Et. exists s. split_and!; [done..|]. apply Hid.
    intros k v e Hk. apply (lookup_abs_Some s) in Hk as (j & _ & Hj); [|done].
    by rewrite Et, lookup_empty in Hj.
Qed.

Lemma drop_expired_spec now s : coherent s ->
  exists s', drop_expired now s = Some s' /\ coherent s' /\
    m_lifetime s' = m_lifetime s /\ abs s' = soft_drop_expired now (abs s).
Proof. intros Hc. apply drop_expired_loop_spec; [done|lia]. Qed.

Lemma coherent_empty lt : coherent (make_SoftStateMap lt) /\ abs (make_SoftStateMap lt) = ∅.
Proof.
  split; [|apply omap_empty]. split; intros *; simpl; by rewrite lookup_empty.
Qed.

End map.

Arguments SoftStateMap K V {_ _}.
