(* ===== verification/CbfBuffer.v ===== *)
(** * Buffer of contention-based forwarding

    geonet/cbf_counter.cpp and geonet/cbf_packet_buffer.cpp.  A packet that waits for its
    turn to be forwarded is in a list, in the order of arrival, and has a timer; the
    timers are in a bimap, ordered by their expiry on one side and found by the
    identifier of the packet on the other.  The buffer keeps one callback in the
    scheduler, for the timer that expires first.

    The nodes of both containers are numbers: the code compares iterators, also an
    iterator whose element may have been erased, so where a node is allocated matters.
    The class [Allocator] chooses a node, of which [AllocatorOk] only says that it is
    not in use.  A call has no defined outcome ([None]) if it follows an iterator to a
    packet that is gone. *)

From Stdlib Require Import ZArith Lia Sorting.Sorted.
From stdpp Require Import prelude gmap.
From S2P Require Import Prelude GeoSerial GeoHeaders Runtime SoftState.

Open Scope Z_scope.

(** (source address, sequence number). *)
Abbreviation CbfPacketIdentifier := (Address * Z)%type.

(** * Counters *)

Section counters.
Context `{T : !HeapTop CbfPacketIdentifier}.

(** The three implementations of the interface. *)
Inductive CbfCounter :=
  | CbfCounterImmortal (m_counters : gmap CbfPacketIdentifier Z)
  | CbfCounterContending (m_counters : gmap CbfPacketIdentifier Z)
  | CbfCounterFading (m_counters : SoftStateMap CbfPacketIdentifier Z).

(** [++m_counters[id]] creates a counter that starts with zero. *)
Definition increment_at (id : CbfPacketIdentifier) (m : gmap CbfPacketIdentifier Z)
  : gmap CbfPacketIdentifier Z :=
  <[id := u64 (default 0 (m !! id) + 1)]> m.

Definition counter_add (now : Z) (id : CbfPacketIdentifier) (c : CbfCounter) : option CbfCounter :=
  match c with
  | CbfCounterImmortal m => Some (CbfCounterImmortal (increment_at id m))
  | CbfCounterContending m => Some (CbfCounterContending (<[id := 1]> m))
  | CbfCounterFading m =>
      '(m, n) ← refresh now 0 id m;
      m ← drop_expired now (write_value id (u64 (n + 1)) m);
      Some (CbfCounterFading m)
  end.

Definition counter_remove (id : CbfPacketIdentifier) (c : CbfCounter) : CbfCounter :=
  match c with
  | CbfCounterImmortal _ | CbfCounterFading _ => c
  | CbfCounterContending m => CbfCounterContending (delete id m)
  end.

Definition counter_increment (now : Z) (id : CbfPacketIdentifier) (c : CbfCounter)
  : option CbfCounter :=
  match c with
  | CbfCounterImmortal m => Some (CbfCounterImmortal (increment_at id m))
  | CbfCounterContending m => Some (CbfCounterContending (increment_at id m))
  | CbfCounterFading m =>
      '(m, n) ← get_value now 0 id m;
      Some (CbfCounterFading (write_value id (u64 (n + 1)) m))
  end.

Definition counter_value (now : Z) (id : CbfPacketIdentifier) (c : CbfCounter) : option Z :=
  match c with
  | CbfCounterImmortal m | CbfCounterContending m => Some (default 0 (m !! id))
  | CbfCounterFading m => n ← get_value_ptr now id m; Some (default 0 n)
  end.

Definition counter_ok (c : CbfCounter) : Prop :=
  match c with
  | CbfCounterFading m => coherent m
  | _ => True
  end.

Context `{!HeapTopOk CbfPacketIdentifier T}.

Lemma counter_add_ok now id c : counter_ok c ->
  exists c', counter_add now id c = Some c' /\ counter_ok c'.
Proof.
  destruct c as [m|m|m]; simpl; intros Hc; eauto.
  destruct (refresh_spec now 0 id m Hc) as (m1 & n & -> & Hc1 & _). simpl.
  destruct (write_value_spec id (u64 (n + 1)) m1 Hc1) as (Hc2 & _).
  destruct (drop_expired_spec now _ Hc2) as (m3 & -> & Hc3 & _). simpl. eauto.
Qed.

Lemma counter_increment_ok now id c : counter_ok c ->
  exists c', counter_increment now id c = Some c' /\ counter_ok c'.
Proof.
  destruct c as [m|m|m]; simpl; intros Hc; eauto.
  destruct (get_value_spec now 0 id m Hc) as (m1 & n & -> & Hc1 & _). simpl.
  destruct (write_value_spec id (u64 (n + 1)) m1 Hc1) as (Hc2 & _). eauto.
Qed.

Lemma counter_value_ok now id c : counter_ok c -> exists n, counter_value now id c = Some n.
Proof.
  destruct c as [m|m|m]; simpl; intros Hc; eauto.
  rewrite get_value_ptr_spec by done. simpl. eauto.
Qed.

Lemma counter_remove_ok id c : counter_ok c -> counter_ok (counter_remove id c).
Proof. by destruct c. Qed.

End counters.

Arguments CbfCounter : clear implicits.

(** * Interfaces of the buffer *)

(** CbfPacket: [reduce_lifetime] returns the remaining lifetime and changes the packet. *)
Class CbfData := {
  cbf_packet : Type;
  cbf_length : cbf_packet -> Z;
  cbf_reduce_lifetime : Z -> cbf_packet -> Z * cbf_packet;
  identifier : cbf_packet -> CbfPacketIdentifier;
}.

Class CbfDataOk (D : CbfData) : Prop := {
  cbf_length_nonneg p : 0 <= cbf_length p;
  cbf_length_reduced d p : cbf_length (snd (cbf_reduce_lifetime d p)) = cbf_length p;
  identifier_reduced d p : identifier (snd (cbf_reduce_lifetime d p)) = identifier p;
}.

(** The callback that flushes the buffer, and the buffer as the scope of the callback. *)
Class CbfTimer (Callback Scope : Type) := { cbf_flush : Callback; cbf_scope : Scope }.

(** A node that is not among those in use. *)
Class Allocator := alloc : list nat -> nat.
Class AllocatorOk (A : Allocator) : Prop := alloc_fresh nodes : alloc nodes ∉ nodes.

Module CbfPacketBuffer.

Section buffer.
Context `{T : !HeapTop CbfPacketIdentifier} `{D : CbfData} `{A : Allocator}.
Context {Callback Scope : Type} `{EqDecision Scope} `{CbfTimer Callback Scope}.

Record Timer := mk_Timer { expiry : Z; start : Z }.

Definition make_Timer (now timeout : Z) : Timer := mk_Timer (now + timeout) now.

(** An element of the bimap with its node; [t_info] is the node of the packet. *)
Record TimerNode := mk_TimerNode {
  t_node : nat;
  t_timer : Timer;
  t_id : CbfPacketIdentifier;
  t_info : nat;
}.

(** The list of packets with their nodes, and the bimap as its left view. *)
Record CbfPacketBuffer := mk {
  m_packets : list (nat * cbf_packet);
  m_timers : list TimerNode;
  m_counter : CbfCounter;
  m_capacity_bytes : Z;
  m_stored_bytes : Z;
}.

Definition make_CbfPacketBuffer (cnt : CbfCounter) (bytes : Z) : CbfPacketBuffer :=
  mk [] [] cnt bytes 0.

Abbreviation runtime := (@ManualRuntime.ManualRuntime Callback Scope).

(** * Containers *)

Definition t_expiry (t : TimerNode) : Z := expiry (t_timer t).

(** [m_timers.right.find(id)]. *)
Definition find_timer (id : CbfPacketIdentifier) (ts : list TimerNode) : option TimerNode :=
  snd <$> list_find (fun t => t_id t = id) ts.

(** Behind the timers that do not expire later. *)
Fixpoint insert_timer (t : TimerNode) (ts : list TimerNode) : list TimerNode :=
  match ts with
  | [] => [t]
  | t' :: ts' => if t_expiry t <? t_expiry t' then t :: ts else t' :: insert_timer t ts'
  end.

Definition erase_timer (node : nat) (ts : list TimerNode) : list TimerNode :=
  filter (fun t => t_node t ≠ node) ts.

Definition erase_id (id : CbfPacketIdentifier) (ts : list TimerNode) : list TimerNode :=
  filter (fun t => t_id t ≠ id) ts.

(** The node of [m_timers.left.begin()]; [None] is [end()]. *)
Definition begin (ts : list TimerNode) : option nat := t_node <$> head ts.

(** [replace_data]: the element stays in its place if it fits between its neighbours. *)
Fixpoint fits_in_place (node : nat) (e : Z) (before : option Z) (ts : list TimerNode) : bool :=
  match ts with
  | [] => true
  | t :: ts =>
      if decide (t_node t = node) then
        match before with Some b => b <=? e | None => true end &&
        match ts with t' :: _ => e <=? t_expiry t' | [] => true end
      else fits_in_place node e (Some (t_expiry t)) ts
  end.

Definition replace_data (found : TimerNode) (timer : Timer) (ts : list TimerNode)
  : list TimerNode :=
  let t := mk_TimerNode (t_node found) timer (t_id found) (t_info found) in
  if fits_in_place (t_node found) (expiry timer) None ts
  then map (fun t' => if decide (t_node t' = t_node found) then t else t') ts
  else insert_timer t (erase_timer (t_node found) ts).

(** The packet that an iterator points to. *)
Definition packet_at (info : nat) (ps : list (nat * cbf_packet)) : option cbf_packet :=
  snd <$> (snd <$> list_find (fun p => fst p = info) ps).

Definition erase_packet (info : nat) (ps : list (nat * cbf_packet)) : list (nat * cbf_packet) :=
  filter (fun p => fst p ≠ info) ps.

Definition set_packet (info : nat) (packet : cbf_packet) (ps : list (nat * cbf_packet))
  : list (nat * cbf_packet) :=
  map (fun p => if decide (fst p = info) then (info, packet) else p) ps.

(** * Operations *)

(** The assertion that there is a timer is a failed look-up here. *)
Definition schedule_timer (ts : list TimerNode) (rt : runtime) : option runtime :=
  first ← head ts;
  Some (ManualRuntime.schedule_at (t_expiry first) cbf_flush cbf_scope
          (ManualRuntime.cancel cbf_scope rt)).

(** [erase] returns the successor, which is [begin()] if the first timer was erased. *)
Definition remove_timer (node : nat) (ts : list TimerNode) (rt : runtime)
  : option (list TimerNode * runtime) :=
  let ts' := erase_timer node ts in
  if bool_decide (begin ts = Some node) && negb (bool_decide (ts' = [])) then
    rt ← schedule_timer ts' rt; Some (ts', rt)
  else Some (ts', rt).

Definition remove (id : CbfPacketIdentifier) (b : CbfPacketBuffer) (rt : runtime)
  : option (bool * CbfPacketBuffer * runtime) :=
  match find_timer id (m_timers b) with
  | None => Some (false, b, rt)
  | Some found =>
      packet ← packet_at (t_info found) (m_packets b);
      '(ts, rt) ← remove_timer (t_node found) (m_timers b) rt;
      Some (true, mk (erase_packet (t_info found) (m_packets b)) ts
                     (counter_remove id (m_counter b)) (m_capacity_bytes b)
                     (u64 (m_stored_bytes b - cbf_length packet)), rt)
  end.

(** The loop of [add] that drops the oldest packets. *)
Fixpoint head_drop (ps : list (nat * cbf_packet)) (ts : list TimerNode) (c : CbfCounter)
    (cap stored : Z) : CbfPacketBuffer :=
  match ps with
  | [] => mk [] ts c cap stored
  | (_, front) :: ps' =>
      if stored >? cap then
        let id := identifier front in
        head_drop ps' (erase_id id ts) (counter_remove id c) cap (u64 (stored - cbf_length front))
      else mk ps ts c cap stored
  end.

(** [first_timer] is an iterator that the head drop may have invalidated, and the standard
    does not define its comparison.  Compiled code compares the addresses of the nodes; a
    node can be allocated where an erased one was, and then the comparison finds no
    change.  The nodes are those of any [Allocator], so both outcomes are covered. *)
Definition add (packet : cbf_packet) (timeout : Z) (b : CbfPacketBuffer) (rt : runtime)
  : option (CbfPacketBuffer * runtime) :=
  if timeout <=? 0 then Some (b, rt)
  else
    let now := ManualRuntime.m_now rt in
    let first_timer := begin (m_timers b) in
    let b := head_drop (m_packets b) (m_timers b) (m_counter b) (m_capacity_bytes b)
               (u64 (m_stored_bytes b + cbf_length packet)) in
    let timer := make_Timer now timeout in
    let id := identifier packet in
    b ← match find_timer id (m_timers b) with
        | Some _ =>
            Some (mk (m_packets b) (m_timers b) (m_counter b) (m_capacity_bytes b)
                     (u64 (m_stored_bytes b - cbf_length packet)))
        | None =>
            let info := alloc (map fst (m_packets b)) in
            let node := alloc (map t_node (m_timers b)) in
            c ← counter_add now id (m_counter b);
            Some (mk (m_packets b ++ [(info, packet)])
                     (insert_timer (mk_TimerNode node timer id info) (m_timers b))
                     c (m_capacity_bytes b) (m_stored_bytes b))
        end;
    if bool_decide (begin (m_timers b) ≠ first_timer) then
      rt ← schedule_timer (m_timers b) rt; Some (b, rt)
    else Some (b, rt).

(** [reduce_lifetime]: whether the packet remains valid, and the packet. *)
Definition reduce_lifetime (now : Z) (timer : Timer) (packet : cbf_packet) : bool * cbf_packet :=
  let queuing_time := now - start timer in
  let '(remaining, packet) := cbf_reduce_lifetime queuing_time packet in
  (remaining >? 0, packet).

Definition update (id : CbfPacketIdentifier) (timeout : Z) (b : CbfPacketBuffer) (rt : runtime)
  : option (CbfPacketBuffer * runtime) :=
  match find_timer id (m_timers b) with
  | None => Some (b, rt)
  | Some found =>
      let now := ManualRuntime.m_now rt in
      packet ← packet_at (t_info found) (m_packets b);
      let '(_, packet) := reduce_lifetime now (t_timer found) packet in
      c ← counter_increment now id (m_counter b);
      Some (mk (set_packet (t_info found) packet (m_packets b))
               (replace_data found (make_Timer now timeout) (m_timers b))
               c (m_capacity_bytes b) (m_stored_bytes b), rt)
  end.

Definition fetch (id : CbfPacketIdentifier) (b : CbfPacketBuffer) (rt : runtime)
  : option (option cbf_packet * CbfPacketBuffer * runtime) :=
  match find_timer id (m_timers b) with
  | None => Some (None, b, rt)
  | Some found =>
      packet ← packet_at (t_info found) (m_packets b);
      let '(valid_packet, packet) :=
        reduce_lifetime (ManualRuntime.m_now rt) (t_timer found) packet in
      '(ts, rt) ← remove_timer (t_node found) (m_timers b) rt;
      Some (if valid_packet then Some packet else None,
            mk (erase_packet (t_info found) (m_packets b)) ts
               (counter_remove id (m_counter b)) (m_capacity_bytes b)
               (u64 (m_stored_bytes b - cbf_length packet)), rt)
  end.

Definition find (id : CbfPacketIdentifier) (b : CbfPacketBuffer) : option (option cbf_packet) :=
  match find_timer id (m_timers b) with
  | None => Some None
  | Some found => packet ← packet_at (t_info found) (m_packets b); Some (Some packet)
  end.

Definition counter (now : Z) (id : CbfPacketIdentifier) (b : CbfPacketBuffer) : option Z :=
  counter_value now id (m_counter b).

(** The loop of [flush] over the expired timers.  [W] is the world that the timer callback
    changes; the callback returns false if it throws, which ends the loop.  (The code then
    has an empty packet in the buffer, where the model keeps the packet.) *)
Fixpoint flush_loop {W} (cb : cbf_packet -> W -> bool * W) (now : Z) (expired : list TimerNode)
    (b : CbfPacketBuffer) (w : W) : option (bool * CbfPacketBuffer * W) :=
  match expired with
  | [] => Some (true, b, w)
  | t :: expired =>
      packet ← packet_at (t_info t) (m_packets b);
      let '(valid_packet, packet) := reduce_lifetime now (t_timer t) packet in
      let stored := u64 (m_stored_bytes b - cbf_length packet) in
      let '(continue, w) := if valid_packet then cb packet w else (true, w) in
      if continue : bool then
        flush_loop cb now expired
          (mk (erase_packet (t_info t) (m_packets b)) (erase_timer (t_node t) (m_timers b))
              (counter_remove (t_id t) (m_counter b)) (m_capacity_bytes b) stored) w
      else
        Some (false, mk (set_packet (t_info t) packet (m_packets b)) (m_timers b) (m_counter b)
                        (m_capacity_bytes b) stored, w)
  end.

(** The timers before [upper_bound(now)]. *)
Fixpoint expired_timers (now : Z) (ts : list TimerNode) : list TimerNode :=
  match ts with
  | [] => []
  | t :: ts => if t_expiry t <=? now then t :: expired_timers now ts else []
  end.

(** What happens after the loop. *)
Definition flush_reschedule (b : CbfPacketBuffer) (rt : runtime) : option runtime :=
  if negb (bool_decide (m_timers b = [])) then schedule_timer (m_timers b) rt else Some rt.

End buffer.
End CbfPacketBuffer.
