(* ===== verification/CbfBufferOk.v ===== *)
(** * Invariant of the buffer of contention-based forwarding

    The list of packets and the bimap of timers belong together ([linked]), the counter
    of octets is right, and the callback is scheduled as long as packets wait ([armed]). *)

From Stdlib Require Import ZArith Lia Sorting.Sorted.
From stdpp Require Import prelude gmap.
From S2P Require Import Prelude GeoSerial GeoHeaders Runtime SoftState CbfBuffer.

Import CbfPacketBuffer.
Open Scope Z_scope.

(** * Lists and filters *)

Lemma NoDup_map_inj {X Y} (f : X -> Y) (l : list X) x y :
  NoDup (map f l) -> x ∈ l -> y ∈ l -> f x = f y -> x = y.
Proof.
  intros Hnd [i Hi]%list_elem_of_lookup [j Hj]%list_elem_of_lookup Hf.
  assert (i = j) as ->; [|congruence].
  eapply (NoDup_lookup (map f l)); [done| |]; rewrite list_lookup_fmap.
  - by rewrite Hi.
  - rewrite Hj. simpl. by rewrite Hf.
Qed.

Lemma NoDup_map_filter {X Y} (f : X -> Y) (P : X -> Prop) `{!forall x, Decision (P x)} (l : list X) :
  NoDup (map f l) -> NoDup (map f (filter P l)).
Proof.
  induction l as [|x l IH]; simpl; [done|]. rewrite NoDup_cons. intros [Hx Hl].
  rewrite filter_cons. destruct (decide (P x)); [|auto]. simpl. apply NoDup_cons. split; [|auto].
  rewrite !list_elem_of_fmap in *. intros (y & Hy & [_ Hin]%list_elem_of_filter). eauto.
Qed.

Lemma filter_map_key {X Y} (f : X -> Y) (P : Y -> Prop) `{!forall y, Decision (P y)} (l : list X) :
  filter P (map f l) = map f (filter (fun x => P (f x)) l).
Proof.
  induction l as [|x l IH]; [done|]. cbn [map]. rewrite !filter_cons, IH.
  by destruct (decide (P (f x))).
Qed.

Lemma filter_eq_of {X} (P Q : X -> Prop) `{!forall x, Decision (P x)} `{!forall x, Decision (Q x)} (l : list X) :
  (forall x, x ∈ l -> P x <-> Q x) -> filter P l = filter Q l.
Proof.
  induction l as [|x l IH]; intros Hpq; [done|]. rewrite !filter_cons.
  rewrite IH by (intros; apply Hpq; set_solver).
  destruct (decide (P x)) as [HP|HP], (decide (Q x)) as [HQ|HQ]; try done;
    exfalso; apply HP || apply HQ; by apply (Hpq x ltac:(set_solver)).
Qed.

Lemma filter_all {X} (P : X -> Prop) `{!forall x, Decision (P x)} (l : list X) :
  Forall P l -> filter P l = l.
Proof.
  induction 1 as [|x l Hx Hl IH]; [done|]. by rewrite filter_cons, decide_True, IH.
Qed.

Lemma StronglySorted_filter {X} (R : X -> X -> Prop) (P : X -> Prop)
  `{!forall x, Decision (P x)} (l : list X) :
  StronglySorted R l -> StronglySorted R (filter P l).
Proof.
  induction 1 as [|x l Hs IH Hx]; [constructor|]. rewrite filter_cons.
  destruct (decide (P x)); [|done]. constructor; [done|].
  apply Forall_forall. intros y [_ Hy]%list_elem_of_filter. rewrite Forall_forall in Hx. auto.
Qed.

Section ok.
Context `{T : !HeapTop CbfPacketIdentifier} `{!HeapTopOk CbfPacketIdentifier T}.
Context `{D : CbfData} `{!CbfDataOk D} `{A : Allocator} `{!AllocatorOk A}.
Context {Callback Scope : Type} `{EqDecision Scope} `{CbfTimer Callback Scope}.

Abbreviation runtime := (@ManualRuntime.ManualRuntime Callback Scope).

(** * Packets and timers belong together *)

Definition timer_key (t : TimerNode) : nat * CbfPacketIdentifier := (t_info t, t_id t).
Definition packet_key (p : nat * cbf_packet) : nat * CbfPacketIdentifier := (fst p, identifier (snd p)).

Definition by_expiry (ts : list TimerNode) : Prop :=
  StronglySorted (fun t t' => t_expiry t <= t_expiry t') ts.

Record linked (ts : list TimerNode) (ps : list (nat * cbf_packet)) : Prop := {
  linked_nodes : NoDup (map t_node ts);
  linked_ids : NoDup (map t_id ts);
  linked_sorted : by_expiry ts;
  linked_infos : NoDup (map fst ps);
  linked_keys : map timer_key ts ≡ₚ map packet_key ps;
}.

Definition total (ps : list (nat * cbf_packet)) : Z :=
  foldr (fun p n => cbf_length (snd p) + n) 0 ps.

(** The packets without those of an identifier. *)
Definition drop_id (id : CbfPacketIdentifier) (ps : list (nat * cbf_packet))
  : list (nat * cbf_packet) :=
  filter (fun p => identifier (snd p) ≠ id) ps.

Lemma octets_nonneg ps : 0 <= total ps.
Proof. induction ps as [|p ps IH]; simpl; [done|]. pose proof (cbf_length_nonneg p.2). lia. Qed.

Lemma octets_app ps qs : total (ps ++ qs) = total ps + total qs.
Proof. induction ps as [|p ps IH]; simpl; [done|]. lia. Qed.

Lemma find_timer_Some id ts t : find_timer id ts = Some t -> t ∈ ts /\ t_id t = id.
Proof.
  unfold find_timer. destruct (list_find _ ts) as [[i t']|] eqn:E; [|done]. simpl.
  intros [= <-]. apply list_find_Some in E as (Hi & ? & _). split; [|done].
  by eapply list_elem_of_lookup_2.
Qed.

Lemma find_timer_None id ts : find_timer id ts = None -> id ∉ map t_id ts.
Proof.
  unfold find_timer. destruct (list_find _ ts) as [[i t']|] eqn:E; [done|]. intros _.
  apply list_find_None in E. rewrite list_elem_of_fmap. intros (t & -> & Ht).
  rewrite Forall_forall in E. by apply (E t).
Qed.

Lemma find_timer_elem id ts : id ∈ map t_id ts -> exists t, find_timer id ts = Some t.
Proof.
  intros Hin. destruct (find_timer id ts) eqn:E; [eauto|]. by apply find_timer_None in E.
Qed.

Lemma linked_packet_ids ts ps : linked ts ps -> NoDup (map (fun p => identifier (snd p)) ps).
Proof.
  intros L. assert (map (fun p => identifier (snd p)) ps = map snd (map packet_key ps)) as ->.
  { by rewrite map_map. }
  rewrite <- (linked_keys _ _ L), map_map. apply (linked_ids _ _ L).
Qed.

Lemma linked_length ts ps : linked ts ps -> length ts = length ps.
Proof. intros L. pose proof (Permutation_length (linked_keys _ _ L)) as E. by rewrite !length_map in E. Qed.

Lemma linked_nil : linked [] [].
Proof. split; try constructor. Qed.

Lemma linked_erase id ts ps : linked ts ps -> linked (erase_id id ts) (drop_id id ps).
Proof.
  intros [H1 H2 H3 H4 H5]. unfold erase_id, drop_id. split.
  - by apply NoDup_map_filter.
  - by apply NoDup_map_filter.
  - by apply StronglySorted_filter.
  - by apply NoDup_map_filter.
  - pose proof (filter_map_key timer_key (fun k => snd k ≠ id) ts) as E1.
    pose proof (filter_map_key packet_key (fun k => snd k ≠ id) ps) as E2. simpl in E1, E2.
    rewrite <- E1, <- E2. by rewrite H5.
Qed.

(** What a found timer says about the packets. *)
Lemma linked_find id ts ps t : linked ts ps -> find_timer id ts = Some t ->
  exists p, packet_at (t_info t) ps = Some p /\ (t_info t, p) ∈ ps /\ identifier p = id /\
    erase_packet (t_info t) ps = drop_id id ps /\
    erase_timer (t_node t) ts = erase_id id ts /\
    total (drop_id id ps) = total ps - cbf_length p.
Proof.
  intros L [Ht Hid]%find_timer_Some.
  assert ((t_info t, id) ∈ map packet_key ps) as Hk.
  { rewrite <- (linked_keys _ _ L). apply list_elem_of_fmap. exists t. by rewrite <- Hid. }
  apply list_elem_of_fmap in Hk as ([i p] & [= <- Hp] & Hin). exists p.
  assert (packet_at (t_info t) ps = Some p) as Hat.
  { unfold packet_at. destruct (list_find _ ps) as [[j q]|] eqn:E; simpl.
    - apply list_find_Some in E as (Hj & Hq & _). apply list_elem_of_lookup_2 in Hj.
      f_equal. assert (q = (t_info t, p)) as ->; [|done].
      eapply (NoDup_map_inj fst ps); [apply (linked_infos _ _ L)|done|done|done].
    - apply list_find_None in E. rewrite Forall_forall in E. by destruct (E _ Hin). }
  split_and!; try done.
  - apply filter_eq_of. intros [j q] Hq. simpl. split; intros Hne E; apply Hne.
    + assert ((j, q) = (t_info t, p)) as [= -> ->]; [|done].
      eapply (NoDup_map_inj (fun p => identifier (snd p)) ps);
        [eapply linked_packet_ids, L|done|done|by simpl; congruence].
    + assert ((j, q) = (t_info t, p)) as [= -> ->]; [|done].
      eapply (NoDup_map_inj fst ps); [apply (linked_infos _ _ L)|done|done|done].
  - apply filter_eq_of. intros t' Ht'. rewrite <- Hid. split; intros Hne E; apply Hne.
    + f_equal. eapply (NoDup_map_inj t_id ts); [apply (linked_ids _ _ L)|done..].
    + f_equal. eapply (NoDup_map_inj t_node ts); [apply (linked_nodes _ _ L)|done..].
  - pose proof (linked_packet_ids _ _ L) as Hnd. clear -Hnd Hin Hp.
    induction ps as [|q ps IH]; [set_solver|]. simpl in Hnd. apply NoDup_cons in Hnd as [Hq Hnd].
    unfold drop_id. rewrite filter_cons.
    apply elem_of_cons in Hin as [<-|Hin].
    + rewrite decide_False by (simpl; auto). simpl.
      assert (filter (fun p => identifier (snd p) ≠ id) ps = ps) as ->; [|lia].
      apply filter_all. apply Forall_forall. intros r Hr E. apply Hq.
      apply list_elem_of_fmap. exists r. split; [simpl; congruence|done].
    + rewrite decide_True.
      * simpl. fold (drop_id id ps). rewrite IH by done. lia.
      * intros E. apply Hq. apply list_elem_of_fmap. exists (t_info t, p). split; [simpl; congruence|done].
Qed.

(** * Inserting and replacing *)

Lemma insert_timer_perm t ts : insert_timer t ts ≡ₚ t :: ts.
Proof.
  induction ts as [|t' ts IH]; simpl; [done|]. destruct (_ <? _); [done|].
  rewrite IH. apply Permutation_swap.
Qed.

Lemma insert_timer_sorted t ts : by_expiry ts -> by_expiry (insert_timer t ts).
Proof.
  induction 1 as [|t' ts Hs IH Ht]; simpl; [repeat constructor|].
  destruct (Z.ltb_spec (t_expiry t) (t_expiry t')).
  - constructor; [by constructor|]. constructor; [lia|].
    eapply Forall_impl; [exact Ht|]. simpl. lia.
  - constructor; [done|]. rewrite insert_timer_perm. by constructor.
Qed.

Lemma linked_insert ts ps node timer id info p :
  linked ts ps -> id ∉ map t_id ts -> identifier p = id ->
  node ∉ map t_node ts -> info ∉ map fst ps ->
  linked (insert_timer (mk_TimerNode node timer id info) ts) (ps ++ [(info, p)]).
Proof.
  intros [H1 H2 H3 H4 H5] Hid Hp Hnode Hinfo. split.
  - rewrite insert_timer_perm. simpl. by constructor.
  - rewrite insert_timer_perm. simpl. by constructor.
  - by apply insert_timer_sorted.
  - rewrite map_app. simpl. apply NoDup_app. split; [done|]. split; [set_solver|apply NoDup_singleton].
  - rewrite insert_timer_perm, map_app. simpl. rewrite H5, <- Hp. unfold packet_key at 2. simpl.
    by rewrite Permutation_app_comm.
Qed.

(** The element of a found timer with its new data. *)
Abbreviation replaced found timer := (mk_TimerNode (t_node found) timer (t_id found) (t_info found)).

Lemma map_replace_others node t ts : node ∉ map t_node ts ->
  map (fun t' => if decide (t_node t' = node) then t else t') ts = ts.
Proof.
  induction ts as [|t' ts IH]; simpl; [done|]. intros Hn.
  rewrite decide_False by set_solver. by rewrite IH by set_solver.
Qed.

Lemma erase_timer_others node ts : node ∉ map t_node ts -> erase_timer node ts = ts.
Proof.
  intros Hn. apply filter_all. apply Forall_forall. intros t Ht E. apply Hn.
  apply list_elem_of_fmap. eauto.
Qed.

Lemma replace_data_perm found timer ts : NoDup (map t_node ts) -> found ∈ ts ->
  replace_data found timer ts ≡ₚ replaced found timer :: erase_timer (t_node found) ts.
Proof.
  intros Hnd Hin. unfold replace_data. destruct (fits_in_place _ _ _ _); [|by rewrite insert_timer_perm].
  induction ts as [|t ts IH]; [set_solver|]. simpl in *. apply NoDup_cons in Hnd as [Ht Hnd].
  unfold erase_timer. rewrite filter_cons. destruct (decide (t_node t = t_node found)) as [E|E].
  - rewrite decide_False by auto. rewrite E in Ht. rewrite map_replace_others by done.
    fold (erase_timer (t_node found) ts). by rewrite erase_timer_others.
  - rewrite decide_True by done. apply elem_of_cons in Hin as [->|Hin]; [done|].
    rewrite IH by done. fold (erase_timer (t_node found) ts). apply Permutation_swap.
Qed.

Lemma in_place_sorted node t before ts :
  by_expiry ts -> NoDup (map t_node ts) ->
  match before with Some b => Forall (fun t => b <= t_expiry t) ts | None => True end ->
  fits_in_place node (t_expiry t) before ts = true ->
  let ts' := map (fun t' => if decide (t_node t' = node) then t else t') ts in
  by_expiry ts' /\ match before with Some b => Forall (fun t => b <= t_expiry t) ts' | None => True end.
Proof.
  revert before. induction ts as [|u ts IH]; intros before Hs Hnd Hb Hf; simpl in *; [done|].
  inversion Hs as [|? ? Hs' Hu]; subst. apply NoDup_cons in Hnd as [Hn Hnd].
  destruct (decide (t_node u = node)) as [E|E].
  - rewrite E in Hn. rewrite map_replace_others by done. apply andb_true_iff in Hf as [Hf1 Hf2].
    assert (Forall (fun t' => t_expiry t <= t_expiry t') ts) as Hall.
    { destruct ts as [|u' ts]; [constructor|]. inversion Hs' as [|? ? _ Hu']; subst.
      apply Z.leb_le in Hf2. constructor; [lia|]. eapply Forall_impl; [exact Hu'|]. simpl. lia. }
    split; [by constructor|]. destruct before as [b|]; [|done]. inversion Hb; subst.
    apply Z.leb_le in Hf1. by constructor.
  - destruct (IH (Some (t_expiry u)) Hs' Hnd Hu Hf) as [IH1 IH2].
    split; [by constructor|]. destruct before as [b|]; [|done]. inversion Hb; subst.
    constructor; [done|]. eapply Forall_impl; [exact IH2|]. simpl. lia.
Qed.

Lemma linked_replace ts ps found timer : linked ts ps -> found ∈ ts ->
  linked (replace_data found timer ts) ps.
Proof.
  intros L Hin. pose proof L as [H1 H2 H3 H4 H5].
  assert (ts ≡ₚ found :: erase_timer (t_node found) ts) as Hts.
  { clear -Hin H1. induction ts as [|t ts IH]; [set_solver|]. simpl in H1.
    apply NoDup_cons in H1 as [Ht H1]. unfold erase_timer. rewrite filter_cons.
    apply elem_of_cons in Hin as [->|Hin].
    - rewrite decide_False by auto. fold (erase_timer (t_node t) ts). by rewrite erase_timer_others.
    - rewrite decide_True.
      + rewrite (IH Hin H1) at 1. apply Permutation_swap.
      + intros E. apply Ht. rewrite E. apply list_elem_of_fmap. eauto. }
  pose proof (replace_data_perm found timer ts H1 Hin) as Hr.
  assert (forall {X} (f : TimerNode -> X), f (replaced found timer) = f found ->
    map f (replace_data found timer ts) ≡ₚ map f ts) as Hmap.
  { intros X f Hf. rewrite Hr. rewrite Hts at 2. simpl. by rewrite Hf. }
  split; try done.
  - by rewrite Hmap.
  - by rewrite Hmap.
  - unfold replace_data. destruct (fits_in_place _ _ _ _) eqn:Hf.
    + by apply (in_place_sorted (t_node found) (replaced found timer) None ts H3 H1).
    + apply insert_timer_sorted. by apply StronglySorted_filter.
  - by rewrite Hmap.
Qed.

Lemma set_packet_keys info p p' ps : NoDup (map fst ps) -> (info, p) ∈ ps ->
  identifier p' = identifier p -> cbf_length p' = cbf_length p ->
  map packet_key (set_packet info p' ps) = map packet_key ps /\
  map fst (set_packet info p' ps) = map fst ps /\ total (set_packet info p' ps) = total ps.
Proof.
  intros Hnd Hin Hid Hl. induction ps as [|[i q] ps IH]; [set_solver|]. simpl in *.
  apply NoDup_cons in Hnd as [Hi Hnd].
  destruct (decide (i = info)) as [->|Hne].
  - assert (q = p) as ->.
    { apply elem_of_cons in Hin as [E|Hin]; [by simplify_eq|]. destruct Hi.
      apply list_elem_of_fmap. by exists (info, p). }
    assert (set_packet info p' ps = ps) as ->.
    { clear -Hi. induction ps as [|[j r] ps IH]; [done|]. simpl in *.
      rewrite decide_False by set_solver. by rewrite IH by set_solver. }
    unfold packet_key at 1 3. simpl. by rewrite Hid, Hl.
  - apply elem_of_cons in Hin as [E|Hin]; [by simplify_eq|].
    destruct (IH Hnd Hin) as (-> & -> & ->). done.
Qed.

(** * The invariant *)

Record cbf_ok (b : CbfPacketBuffer) : Prop := {
  ok_linked : linked (m_timers b) (m_packets b);
  ok_counter : counter_ok (m_counter b);
  ok_stored : m_stored_bytes b = total (m_packets b);
  ok_capacity : 0 <= m_capacity_bytes b < 2 ^ 63;
  ok_bound : total (m_packets b) <= m_capacity_bytes b \/ (length (m_packets b) <= 1)%nat;
  ok_size : total (m_packets b) < 2 ^ 63;
}.

Definition ids (b : CbfPacketBuffer) : list CbfPacketIdentifier := map t_id (m_timers b).

Lemma ok_total b : cbf_ok b -> 0 <= total (m_packets b) < 2 ^ 63.
Proof. intros Hok. split; [apply octets_nonneg|apply Hok]. Qed.

Lemma erase_id_others id ts : id ∉ map t_id ts -> erase_id id ts = ts.
Proof.
  intros Hn. apply filter_all. apply Forall_forall. intros t Ht E. apply Hn.
  apply list_elem_of_fmap. eauto.
Qed.

Lemma drop_id_others id ts ps : linked ts ps -> id ∉ map t_id ts -> drop_id id ps = ps.
Proof.
  intros L Hn. apply filter_all. apply Forall_forall. intros p Hp E. apply Hn.
  assert (id ∈ map snd (map packet_key ps)) as Hin.
  { rewrite map_map. apply list_elem_of_fmap. exists p. by rewrite <- E. }
  rewrite <- (linked_keys _ _ L), map_map in Hin. done.
Qed.

(** The callback is scheduled at most once, and it is if a timer runs; [P] says when. *)
Definition scheduled (P : Z -> Prop) (ts : list TimerNode) (rt : runtime) : Prop :=
  (length (ManualRuntime.deadlines cbf_scope rt) <= 1)%nat /\
  (ts = [] \/ exists d, ManualRuntime.deadlines cbf_scope rt = [d] /\ P d).

Definition armed (ts : list TimerNode) (rt : runtime) : Prop := scheduled (fun _ => True) ts rt.

(** Scheduled no later than the first timer expires. *)
Definition timely (ts : list TimerNode) (rt : runtime) : Prop :=
  scheduled (fun d => Forall (fun t => d <= t_expiry t) ts) ts rt.

(** The rest of the scheduler stays as it is. *)
Definition same_others (rt rt' : runtime) : Prop :=
  ManualRuntime.m_now rt' = ManualRuntime.m_now rt /\
  (ManualRuntime.ordered rt -> ManualRuntime.ordered rt') /\
  (forall sc, sc <> cbf_scope -> ManualRuntime.deadlines sc rt' = ManualRuntime.deadlines sc rt) /\
  (rt' = rt \/ exists tp, rt' = ManualRuntime.schedule_at tp cbf_flush cbf_scope (ManualRuntime.cancel cbf_scope rt)).

Lemma same_others_refl rt : same_others rt rt.
Proof. split_and!; auto. Qed.
#[local] Hint Resolve same_others_refl : core.

Lemma schedule_timer_ok ts rt : ts <> [] -> by_expiry ts ->
  exists rt', schedule_timer ts rt = Some rt' /\ same_others rt rt' /\ timely ts rt'.
Proof.
  intros Hne Hs. unfold schedule_timer. destruct ts as [|t ts]; [done|]. simpl.
  eexists. split; [done|]. split; [split; [done|split; [|split; [|by right; eexists]]]|].
  - intros Ho. by apply ManualRuntime.ordered_schedule, ManualRuntime.ordered_cancel.
  - intros sc Hsc. rewrite ManualRuntime.deadlines_schedule_other by done.
    by rewrite ManualRuntime.deadlines_cancel, decide_False.
  - unfold timely, scheduled. rewrite ManualRuntime.deadlines_schedule_empty.
    + split; [simpl; lia|]. right. eexists. split; [done|]. inversion Hs; subst. by constructor.
    + by rewrite ManualRuntime.deadlines_cancel, decide_True.
Qed.

Lemma scheduled_weaken P Q ts ts' rt : scheduled P ts rt ->
  (ts' <> [] -> ts <> []) -> (forall d, P d -> Q d) -> scheduled Q ts' rt.
Proof.
  intros [H1 H2] Hne HPQ. split; [done|]. destruct ts' as [|t' ts']; [by left|].
  destruct H2 as [->|(d & Hd & HP)]; [by destruct Hne|]. right. eauto.
Qed.

Lemma timely_armed ts rt : timely ts rt -> armed ts rt.
Proof. intros Ht. by eapply scheduled_weaken. Qed.

Lemma timely_incl ts ts' rt : timely ts rt -> (forall t, t ∈ ts' -> t ∈ ts) -> timely ts' rt.
Proof.
  intros Ht Hi. eapply scheduled_weaken; [exact Ht| |].
  - destruct ts' as [|t ts']; [done|]. intros _ ->. specialize (Hi t ltac:(set_solver)). set_solver.
  - intros d Hd. rewrite Forall_forall in *. auto.
Qed.

Lemma erase_id_incl id ts t : t ∈ erase_id id ts -> t ∈ ts.
Proof. unfold erase_id. rewrite list_elem_of_filter. tauto. Qed.

Lemma remove_timer_ok id ts ps t rt : linked ts ps -> find_timer id ts = Some t -> armed ts rt ->
  exists rt', remove_timer (t_node t) ts rt = Some (erase_id id ts, rt') /\ same_others rt rt' /\
    armed (erase_id id ts) rt' /\ (timely ts rt -> timely (erase_id id ts) rt').
Proof.
  intros L Hf Ha. destruct (linked_find _ _ _ _ L Hf) as (p & _ & _ & _ & _ & He & _).
  unfold remove_timer. rewrite He.
  pose proof (linked_sorted _ _ (linked_erase id _ _ L)) as Hs.
  destruct (bool_decide (begin ts = Some (t_node t)) && _) eqn:E.
  - apply andb_true_iff in E as [_ E]. apply negb_true_iff, bool_decide_eq_false in E.
    destruct (schedule_timer_ok _ rt E Hs) as (rt' & -> & Ho & Ht). simpl.
    exists rt'. split_and!; auto using timely_armed.
  - exists rt. split_and!; try done.
    + eapply scheduled_weaken; [exact Ha| |done]. intros Hne ->. by apply Hne.
    + intros Ht. eapply timely_incl; [exact Ht|]. apply erase_id_incl.
Qed.

Lemma remove_ok id b rt : cbf_ok b -> armed (m_timers b) rt ->
  exists b' rt', remove id b rt = Some (bool_decide (id ∈ ids b), b', rt') /\
    cbf_ok b' /\ same_others rt rt' /\ armed (m_timers b') rt' /\
    (timely (m_timers b) rt -> timely (m_timers b') rt') /\
    m_packets b' = drop_id id (m_packets b) /\ m_timers b' = erase_id id (m_timers b) /\
    m_capacity_bytes b' = m_capacity_bytes b.
Proof.
  intros Hok Ha. pose proof Hok as [L Hc Hst Hcap Hb Hsz]. unfold remove.
  destruct (find_timer id (m_timers b)) as [t|] eqn:Hf.
  - destruct (linked_find _ _ _ _ L Hf) as (p & -> & Hp & Hid & He & _ & Ht). simpl.
    destruct (remove_timer_ok id _ _ t rt L Hf Ha) as (rt' & -> & Ho & Ha' & Ht'). simpl.
    rewrite He. apply find_timer_Some in Hf as [Hin Htid].
    rewrite bool_decide_true by (apply list_elem_of_fmap; eauto).
    eexists _, rt'. split; [done|]. split; [|by split_and!].
    pose proof (ok_total b Hok). pose proof (cbf_length_nonneg p).
    pose proof (octets_nonneg (drop_id id (m_packets b))).
    split; simpl; try done.
    + by apply linked_erase.
    + by apply counter_remove_ok.
    + rewrite Ht, Hst. apply wrap_id; lia.
    + destruct Hb as [Hb|Hb]; [left; lia|right]. unfold drop_id. rewrite length_filter. lia.
    + lia.
  - apply find_timer_None in Hf. rewrite bool_decide_false by done.
    exists b, rt. rewrite (drop_id_others id _ _ L Hf), (erase_id_others id _ Hf). by split_and!.
Qed.

Lemma reduce_lifetime_same now timer p :
  cbf_length (snd (reduce_lifetime now timer p)) = cbf_length p /\
  identifier (snd (reduce_lifetime now timer p)) = identifier p.
Proof.
  unfold reduce_lifetime. pose proof (cbf_length_reduced (now - start timer) p).
  pose proof (identifier_reduced (now - start timer) p).
  by destruct (cbf_reduce_lifetime _ p).
Qed.

Lemma fetch_ok id b rt : cbf_ok b -> armed (m_timers b) rt ->
  exists r b' rt', fetch id b rt = Some (r, b', rt') /\
    cbf_ok b' /\ same_others rt rt' /\ armed (m_timers b') rt' /\
    (timely (m_timers b) rt -> timely (m_timers b') rt') /\
    m_packets b' = drop_id id (m_packets b) /\ m_timers b' = erase_id id (m_timers b) /\
    m_capacity_bytes b' = m_capacity_bytes b /\
    (is_Some r -> id ∈ ids b) /\ (forall p, r = Some p -> identifier p = id).
Proof.
  intros Hok Ha. destruct (remove_ok id b rt Hok Ha) as (b1 & rt1 & Hr & H1 & H2 & H3 & H4 & H5 & H6 & H7).
  unfold remove in Hr. unfold fetch. destruct (find_timer id (m_timers b)) as [t|] eqn:Hf.
  - destruct (packet_at _ _) as [p|] eqn:Hp; [|done]. simpl in *.
    destruct (reduce_lifetime _ _ p) as [valid p'] eqn:Er.
    pose proof (reduce_lifetime_same (ManualRuntime.m_now rt) (t_timer t) p) as [Hl Hi].
    rewrite Er in Hl, Hi. simpl in Hl, Hi. rewrite Hl.
    destruct (remove_timer _ _ _) as [[ts rt']|]; [|done]. simpl in *. simplify_eq.
    eexists _, _, _. split; [done|]. split_and!; try done.
    + intros _. apply find_timer_Some in Hf as [Hin <-]. apply list_elem_of_fmap. eauto.
    + destruct (linked_find _ _ _ _ (ok_linked _ Hok) Hf) as (q & Hq & _ & Hid & _).
      intros r Hr'. destruct valid; simplify_eq. congruence.
  - simplify_eq. eexists None, _, _. split; [done|]. split_and!; try done.
Qed.

(** The loop of [add] drops the oldest packets, and no more than it must. *)
Lemma head_drop_ok n ps ts c cap stored : 0 <= n ->
  linked ts ps -> counter_ok c -> stored = total ps + n -> total ps + n < 2 ^ 64 ->
  let b := head_drop ps ts c cap stored in
  exists dropped, ps = dropped ++ m_packets b /\ linked (m_timers b) (m_packets b) /\
    counter_ok (m_counter b) /\ m_capacity_bytes b = cap /\
    m_stored_bytes b = total (m_packets b) + n /\
    (total (m_packets b) + n <= cap \/ m_packets b = []) /\
    (forall k x, dropped = k ++ [x] -> cap < total (x :: m_packets b) + n) /\
    (forall t, t ∈ m_timers b -> t ∈ ts) /\ (dropped = [] -> m_timers b = ts).
Proof.
  intros Hn. revert ts c stored. induction ps as [|[i p] ps IH]; intros ts c stored L Hc Hst Hlt; simpl in *.
  { exists []. split_and!; try done; [by right|]. intros [|] ?; discriminate. }
  pose proof (cbf_length_nonneg p) as Hlp. pose proof (octets_nonneg ps) as Htp.
  destruct (Z.gtb_spec stored cap) as [Hgt|Hle].
  2: { exists []. split_and!; try done; [left; simpl; lia|]. intros [|] ?; discriminate. }
  pose proof (linked_erase (identifier p) _ _ L) as L'.
  assert (drop_id (identifier p) ((i, p) :: ps) = ps) as E.
  { unfold drop_id. rewrite filter_cons, decide_False by (simpl; auto). apply filter_all.
    apply Forall_forall. intros q Hq Eq. pose proof (linked_packet_ids _ _ L) as Hnd. simpl in Hnd.
    apply NoDup_cons in Hnd as [Hnd _]. apply Hnd. rewrite <- Eq. apply list_elem_of_fmap. eauto. }
  rewrite E in L'. rewrite (wrap_id 64) by lia.
  destruct (IH (erase_id (identifier p) ts) (counter_remove (identifier p) c) (stored - cbf_length p) L')
    as (dropped & H1 & H2 & H3 & H4 & H5 & H6 & H7 & H8 & H9); [by apply counter_remove_ok|lia|lia|].
  exists ((i, p) :: dropped). split_and!; try done.
  - simpl. by rewrite <- H1.
  - intros k x Hk. destruct (decide (dropped = [])) as [->|Hne].
    + destruct k as [|y [|]]; [|discriminate Hk..]. injection Hk as <-.
      simpl in *. rewrite <- H1. lia.
    + destruct k as [|y k]; [naive_solver|]. injection Hk as _ Hk. by apply (H7 k).
  - intros t Ht. eapply erase_id_incl. by apply H8.
Qed.

(** What [add] does to a buffer that is free of the new packet. *)
Lemma add_ok packet timeout b rt : cbf_ok b -> armed (m_timers b) rt -> cbf_length packet < 2 ^ 63 ->
  exists b' rt', add packet timeout b rt = Some (b', rt') /\
    cbf_ok b' /\ same_others rt rt' /\ armed (m_timers b') rt' /\
    m_capacity_bytes b' = m_capacity_bytes b /\
    (total (m_packets b) + cbf_length packet <= m_capacity_bytes b ->
     timely (m_timers b) rt -> timely (m_timers b') rt') /\
    exists dropped kept, m_packets b = dropped ++ kept /\
      if (timeout <=? 0) then dropped = [] /\ m_packets b' = kept
      else
        (forall k x, dropped = k ++ [x] ->
          m_capacity_bytes b < total (x :: kept) + cbf_length packet) /\
        if bool_decide (identifier packet ∈ map (fun p => identifier (snd p)) kept)
        then m_packets b' = kept
        else exists info, m_packets b' = kept ++ [(info, packet)].
Proof.
  intros Hok Ha Hsmall. pose proof Hok as [L Hc Hst Hcap Hb Hsz]. unfold add.
  destruct (Z.leb_spec timeout 0) as [Hto|Hto].
  { exists b, rt. split_and!; try done. by exists [], (m_packets b). }
  pose proof (ok_total b Hok) as Htot. pose proof (cbf_length_nonneg packet) as Hlen.
  rewrite Hst, (wrap_id 64) by lia. cbn [mbind].
  destruct (head_drop_ok (cbf_length packet) (m_packets b) (m_timers b) (m_counter b)
    (m_capacity_bytes b) (total (m_packets b) + cbf_length packet))
    as (dropped & Hd1 & L1 & Hc1 & Hcap1 & Hst1 & Hb1 & Hmin & Hincl & Hnodrop); [lia|done|done|done|lia|].
  set (b1 := head_drop _ _ _ _ _) in *.
  assert (map (fun p => identifier (snd p)) (m_packets b1) ≡ₚ map t_id (m_timers b1)) as Hids.
  { assert (map (fun p => identifier (snd p)) (m_packets b1) = map snd (map packet_key (m_packets b1)))
      as -> by by rewrite map_map.
    by rewrite <- (linked_keys _ _ L1), map_map. }
  pose proof (octets_nonneg (m_packets b1)). pose proof (octets_nonneg dropped).
  assert (total (m_packets b) = total dropped + total (m_packets b1)) by (rewrite Hd1 at 1; apply octets_app).
  assert (m_timers b1 <> [] -> m_timers b <> []) as Hne.
  { destruct (m_timers b1) as [|t ts]; [done|]. intros _ E0. rewrite E0 in Hincl.
    specialize (Hincl t ltac:(set_solver)). set_solver. }
  assert (forall ts, by_expiry ts -> ts <> [] ->
    (begin ts = begin (m_timers b) -> armed ts rt) ->
    exists rt', (if bool_decide (begin ts ≠ begin (m_timers b)) then schedule_timer ts rt else Some rt) = Some rt' /\
      same_others rt rt' /\ armed ts rt' /\
      ((begin ts = begin (m_timers b) -> timely ts rt) -> timely ts rt')) as Hsched.
  { intros ts Hs Hts Harm. case_bool_decide as Eb.
    - destruct (schedule_timer_ok ts rt Hts Hs) as (rt' & -> & Ho & Ht).
      exists rt'. split_and!; auto using timely_armed.
    - exists rt. destruct (decide (begin ts = begin (m_timers b))); [|done]. split_and!; [done|done|auto|auto]. }
  destruct (find_timer (identifier packet) (m_timers b1)) as [t|] eqn:Hf.
  - apply find_timer_Some in Hf as [Htin Htid].
    cbn [mbind option_bind m_timers].
    destruct (Hsched (m_timers b1)) as (rt' & Hs & Ho & Ha' & Ht'); [apply L1| | |].
    { intros E0. rewrite E0 in Htin. by apply not_elem_of_nil in Htin. }
    { intros _. eapply scheduled_weaken; [exact Ha|done|done]. }
    eexists _, rt'. split; [by destruct (bool_decide _); [simpl in *; rewrite Hs|simplify_eq]|].
    split; [|split_and!; try done].
    + split; simpl; try done; [rewrite Hst1; rewrite wrap_id; lia|lia| |lia].
      destruct Hb1 as [Hb1|Hb1]; [left; lia|right]. rewrite Hb1. simpl. lia.
    + intros _ Htim. apply Ht'. intros _. by eapply timely_incl.
    + exists dropped, (m_packets b1). split; [done|]. split; [done|].
      rewrite bool_decide_true; [done|]. rewrite Hids. apply list_elem_of_fmap. eauto.
  - apply find_timer_None in Hf.
    destruct (counter_add_ok (ManualRuntime.m_now rt) (identifier packet) (m_counter b1) Hc1)
      as (c' & -> & Hc'). cbn [mbind option_bind m_timers].
    set (node := alloc (map t_node (m_timers b1))). set (info := alloc (map fst (m_packets b1))).
    set (tm := mk_TimerNode node _ _ info).
    assert (linked (insert_timer tm (m_timers b1)) (m_packets b1 ++ [(info, packet)])) as L2.
    { apply linked_insert; try done; apply alloc_fresh. }
    destruct (Hsched (insert_timer tm (m_timers b1))) as (rt' & Hs & Ho & Ha' & Ht').
    { apply L2. }
    { intros E0. pose proof (insert_timer_perm tm (m_timers b1)) as Hp. rewrite E0 in Hp.
      by apply Permutation_nil_cons in Hp. }
    { intros Eb. eapply scheduled_weaken; [exact Ha| |done]. intros _ E0. rewrite E0 in Eb.
      destruct (m_timers b1) as [|t' ts']; simpl in Eb; [done|]. by destruct (_ <? _). }
    eexists _, rt'. split; [by destruct (bool_decide _); [simpl in *; rewrite Hs|simplify_eq]|].
    split; [|split_and!; try done].
    + split; simpl; try done.
      * rewrite Hst1, octets_app. simpl. lia.
      * lia.
      * rewrite octets_app, length_app. simpl.
        destruct Hb1 as [Hb1|Hb1]; [left; lia|right]. rewrite Hb1. simpl. lia.
      * rewrite octets_app. simpl. destruct Hb1 as [Hb1|Hb1]; [lia|]. rewrite Hb1. simpl. lia.
    + intros Hfit Htim. apply Ht'. intros Eb.
      assert (dropped = []) as Ed.
      { destruct dropped as [|x d] using rev_ind; [done|]. specialize (Hmin d x eq_refl).
        rewrite Hd1, !octets_app in Hfit. simpl in *. pose proof (octets_nonneg d). lia. }
      assert (node ∉ map t_node (m_timers b1)) as Hfresh by apply alloc_fresh.
      rewrite (Hnodrop Ed) in *.
      destruct (m_timers b) as [|t0 ts0] eqn:Eb0; [done|]. simpl in Eb |- *.
      destruct (Z.ltb_spec (t_expiry tm) (t_expiry t0)).
      { exfalso. simpl in Eb. injection Eb as Eb. apply Hfresh. simpl. rewrite Eb. left. }
      destruct Htim as [Hdl [?|(d & Hd & Hall)]]; [done|]. split; [done|]. right. exists d.
      split; [done|]. inversion Hall; subst. constructor; [done|].
      rewrite insert_timer_perm. constructor; [lia|done].
    + exists dropped, (m_packets b1). split; [done|]. split; [done|].
      rewrite bool_decide_false by by rewrite Hids. eauto.
Qed.

Lemma head_drop_timers ps ts c cap stored t : t ∈ m_timers (head_drop ps ts c cap stored) -> t ∈ ts.
Proof.
  revert ts c stored. induction ps as [|[i p] ps IH]; intros ts c stored; simpl; [done|].
  destruct (_ >? _); [|done]. intros Ht. eapply erase_id_incl. by eapply IH.
Qed.

(** A packet that does not wait yet gets a timer that expires after its timeout. *)
Lemma add_timer packet timeout b rt b' rt' : add packet timeout b rt = Some (b', rt') -> 0 < timeout ->
  identifier packet ∉ ids b -> exists kept info node, m_packets b' = kept ++ [(info, packet)] /\
    mk_TimerNode node (make_Timer (ManualRuntime.m_now rt) timeout) (identifier packet) info ∈ m_timers b'.
Proof.
  unfold add. destruct (Z.leb_spec timeout 0); [lia|]. intros Ha _ Hn. set (b1 := head_drop _ _ _ _ _) in Ha. cbv zeta in Ha.
  destruct (find_timer (identifier packet) (m_timers b1)) as [t|] eqn:Hf.
  { apply find_timer_Some in Hf as [Ht Hid]. exfalso. apply Hn. unfold ids. rewrite <- Hid. apply list_elem_of_fmap_2.
    by eapply head_drop_timers. }
  destruct (counter_add _ _ _) as [c|]; [|done]. cbn [mbind option_bind m_timers] in Ha.
  set (tm := mk_TimerNode _ _ _ _) in Ha. eexists (m_packets b1), _, _.
  assert (b' = mk (m_packets b1 ++ [(t_info tm, packet)]) (insert_timer tm (m_timers b1)) c (m_capacity_bytes b1) (m_stored_bytes b1)) as ->.
  { destruct (bool_decide _); [|by injection Ha as <- _]. destruct (schedule_timer _ _); [|done]. by injection Ha as <- _. }
  cbn [m_packets m_timers]. split; [done|]. rewrite insert_timer_perm. apply elem_of_cons. by left.
Qed.

End ok.

#[export] Hint Resolve same_others_refl : core.
