(* ===== verification/GeoSamples.v ===== *)
(** * Concrete instances of the interfaces of geonet

    A heap that returns the first of the least elements, an allocator that takes the least
    number that is free of all in use, and packets that have only a length, a lifetime and
    an identifier: the interfaces have implementations. *)

From Stdlib Require Import ZArith Lia.
From stdpp Require Import prelude gmap.
From S2P Require Import Prelude GeoSerial GeoHeaders SoftState CbfBuffer.

Open Scope Z_scope.

(** * A concrete heap *)

(** The first element of the list of handles with the smallest expiry. *)
Definition least_handle {K} (l : list (nat * (Z * K))) : option (nat * Z) :=
  foldr (fun '(i, (e, _)) best =>
    match best with
    | Some (j, e') => if e' <? e then Some (j, e') else Some (i, e)
    | None => Some (i, e)
    end) None l.

#[local] Instance sample_heap {K} `{Countable K} : HeapTop K :=
  fun h => fst <$> least_handle (map_to_list h).

Lemma least_handle_spec {K} (l : list (nat * (Z * K))) :
  match least_handle l with
  | None => l = []
  | Some (i, e) => (exists k, (i, (e, k)) ∈ l) /\ forall j e' k, (j, (e', k)) ∈ l -> e <= e'
  end.
Proof.
  induction l as [|[i [e k]] l IH]; [done|]. simpl. destruct (least_handle l) as [[j e']|].
  - destruct IH as [[k' Hj] Hmin]. destruct (Z.ltb_spec e' e).
    + split; [exists k'; set_solver|]. intros j0 e0 k0 [Hj0|Hj0]%elem_of_cons; [|by eapply Hmin].
      simplify_eq. lia.
    + split; [exists k; set_solver|]. intros j0 e0 k0 [Hj0|Hj0]%elem_of_cons; [simplify_eq; lia|].
      apply Hmin in Hj0. lia.
  - subst l. split; [exists k; set_solver|]. intros j0 e0 k0 Hj. 
    apply list_elem_of_singleton in Hj. simplify_eq. lia.
Qed.

#[local] Instance sample_heap_ok {K} `{Countable K} : HeapTopOk K sample_heap.
Proof.
  split.
  - intros h Hh. unfold heap_top, sample_heap in Hh.
    pose proof (least_handle_spec (map_to_list h)) as Hs.
    destruct (least_handle (map_to_list h)); [done|]. by apply map_to_list_empty_iff.
  - intros h i Hh. unfold heap_top, sample_heap in Hh.
    pose proof (least_handle_spec (map_to_list h)) as Hs.
    destruct (least_handle (map_to_list h)) as [[j e]|]; [|done]. simplify_eq/=.
    destruct Hs as [[k Hk%elem_of_map_to_list] Hmin]. exists e, k. split; [done|].
    intros j' e' k' Hj. apply (Hmin j' e' k'). by apply elem_of_map_to_list.
Qed.

(** * An allocator *)

#[local] Instance sample_alloc : Allocator := fun nodes => S (foldr Nat.max 0%nat nodes).

#[local] Instance sample_alloc_ok : AllocatorOk sample_alloc.
Proof.
  intros nodes. unfold alloc, sample_alloc.
  assert (forall n, n ∈ nodes -> (n <= foldr Nat.max 0 nodes)%nat) as Hle.
  { induction nodes as [|m nodes IH]; simpl; [set_solver|]. intros n [->|Hn]%elem_of_cons; [lia|].
    specialize (IH n Hn). lia. }
  intros Hin. specialize (Hle _ Hin). lia.
Qed.

(** * Packets *)

Record SamplePacket := mk_SamplePacket {
  sample_length : Z;
  sample_lifetime : Z;
  sample_identifier : CbfPacketIdentifier;
}.

#[local] Instance sample_cbf_data : CbfData := {|
  cbf_packet := SamplePacket;
  cbf_length p := sample_length p mod 2 ^ 32;
  cbf_reduce_lifetime d p :=
    (sample_lifetime p - d, mk_SamplePacket (sample_length p) (sample_lifetime p - d) (sample_identifier p));
  identifier := sample_identifier;
|}.

#[local] Instance sample_cbf_data_ok : CbfDataOk sample_cbf_data.
Proof.
  split; try done. intros p. cbn [cbf_length sample_cbf_data].
  apply Z.mod_pos_bound. lia.
Qed.
