(* ===== verification/CbfTheorems.v ===== *)
(** * Theorems about contention-based forwarding

    Sequences of calls on the buffer and its scheduler, from an empty buffer. *)

From Stdlib Require Import ZArith Lia Sorting.Sorted.
From stdpp Require Import prelude gmap.
From S2P Require Import Prelude GeoSerial GeoHeaders Runtime SoftState CbfBuffer CbfBufferOk GeoSamples.

Import CbfPacketBuffer.
Open Scope Z_scope.

Section flush.
Context `{T : !HeapTop CbfPacketIdentifier} `{!HeapTopOk CbfPacketIdentifier T}.
Context `{D : CbfData} `{!CbfDataOk D} `{A : Allocator} `{!AllocatorOk A}.
Context {Callback Scope : Type} `{EqDecision Scope} `{CbfTimer Callback Scope}.

Abbreviation runtime := (@ManualRuntime.ManualRuntime Callback Scope).

Lemma update_ok id timeout b (rt : runtime) : cbf_ok b -> armed (m_timers b) rt ->
  exists b', update id timeout b rt = Some (b', rt) /\ cbf_ok b' /\ armed (m_timers b') rt /\
    (forall i, i ∈ ids b' <-> i ∈ ids b) /\ m_capacity_bytes b' = m_capacity_bytes b /\
    (forall p', p' ∈ m_packets b' -> p' ∈ m_packets b \/
      exists p d, p ∈ m_packets b /\ snd p' = snd (cbf_reduce_lifetime d (snd p))).
Proof.
  intros Hok Ha. pose proof Hok as [L Hc Hst Hcap Hb Hsz]. unfold update.
  destruct (find_timer id (m_timers b)) as [t|] eqn:Hf; [|exists b; split_and!; auto].
  destruct (linked_find _ _ _ _ L Hf) as (p & -> & Hp & Hid & _). simpl.
  pose proof (reduce_lifetime_same (ManualRuntime.m_now rt) (t_timer t) p) as [Hl Hi].
  assert (exists d, snd (reduce_lifetime (ManualRuntime.m_now rt) (t_timer t) p) = snd (cbf_reduce_lifetime d p))
    as [d Hd]. { exists (ManualRuntime.m_now rt - start (t_timer t)). unfold reduce_lifetime.
    by destruct (cbf_reduce_lifetime _ p). }
  destruct (reduce_lifetime _ _ p) as [valid p']. simpl in Hl, Hi, Hd.
  destruct (counter_increment_ok (ManualRuntime.m_now rt) id (m_counter b) Hc) as (c & -> & Hc').
  simpl. apply find_timer_Some in Hf as [Hin _]. eexists. split; [done|].
  destruct (set_packet_keys (t_info t) p p' (m_packets b)) as (K1 & K2 & K3); try done; [apply L|].
  set (timer := make_Timer (ManualRuntime.m_now rt) timeout).
  pose proof (linked_replace _ _ t timer L Hin) as [L1 L2 L3 L4 L5].
  pose proof (replace_data_perm t timer (m_timers b) (linked_nodes _ _ L) Hin) as Hperm.
  split; [|split_and!].
  - split; simpl; try done; [split; try done|congruence| |congruence].
    + by rewrite K2.
    + by rewrite K1.
    + rewrite K3. unfold set_packet. by rewrite length_map.
  - simpl. eapply scheduled_weaken; [exact Ha| |done]. intros _ E. by rewrite E in Hin; apply not_elem_of_nil in Hin.
  - intros i. unfold ids. simpl. rewrite Hperm. simpl.
    assert (t_id t ∈ map t_id (m_timers b)) by (apply list_elem_of_fmap; eauto).
    unfold erase_timer. rewrite elem_of_cons, !list_elem_of_fmap. split.
    + intros [->|(t' & -> & [_ Ht']%list_elem_of_filter)]; [by apply list_elem_of_fmap|eauto].
    + intros (t' & -> & Ht'). destruct (decide (t_node t' = t_node t)) as [E|E].
      * left. f_equal. by eapply (NoDup_map_inj t_node (m_timers b)); [apply L|..].
      * right. exists t'. split; [done|]. by apply list_elem_of_filter.
  - done.
  - intros q. cbn [m_packets]. unfold set_packet. rewrite list_elem_of_fmap. intros (q0 & -> & Hq0).
    destruct (decide (fst q0 = t_info t)); [right|by left]. exists (t_info t, p), d. split; [done|exact Hd].
Qed.

(** The packets that a flush hands to its callback, in the order of the timers. *)
Definition flushed (now : Z) (expired : list TimerNode) (ps : list (nat * cbf_packet))
  : list cbf_packet :=
  omap (fun t => p ← packet_at (t_info t) ps;
                 let '(valid, p) := reduce_lifetime now (t_timer t) p in
                 if valid : bool then Some p else None) expired.

Lemma packet_at_erase i j ps : i <> j -> packet_at i (erase_packet j ps) = packet_at i ps.
Proof.
  intros Hne. unfold packet_at, erase_packet. induction ps as [|[k p] ps IH]; [done|].
  rewrite filter_cons. simpl. destruct (decide (k ≠ j)) as [Hk|Hk]; simpl.
  - destruct (decide (k = i)); [done|].
    destruct (list_find _ ps) as [[]|], (list_find _ (filter _ ps)) as [[]|]; simpl in *; congruence.
  - rewrite decide_False by (intros ->; apply Hk; auto).
    destruct (list_find _ ps) as [[]|], (list_find _ (filter _ ps)) as [[]|]; simpl in *; congruence.
Qed.

Lemma flushed_erase now expired info ps : info ∉ map t_info expired ->
  flushed now expired (erase_packet info ps) = flushed now expired ps.
Proof.
  induction expired as [|t ts IH]; simpl; [done|]. intros Hn.
  rewrite packet_at_erase by set_solver. by rewrite IH by set_solver.
Qed.

(** A loop whose callback never throws: [I] is what the callback keeps. *)
Lemma flush_loop_ok {W} (cb : cbf_packet -> W -> bool * W) (I : W -> Prop) now expired rest b w :
  cbf_ok b -> m_timers b = expired ++ rest -> I w ->
  (forall p w, p ∈ flushed now expired (m_packets b) -> I w -> fst (cb p w) = true /\ I (snd (cb p w))) ->
  exists b' w', flush_loop cb now expired b w = Some (true, b', w') /\
    cbf_ok b' /\ m_timers b' = rest /\ m_capacity_bytes b' = m_capacity_bytes b /\ I w' /\
    w' = fold_left (fun w p => snd (cb p w)) (flushed now expired (m_packets b)) w /\
    m_packets b' = filter (fun p => identifier (snd p) ∉ map t_id expired) (m_packets b).
Proof.
  revert b w. induction expired as [|t expired IH]; intros b w Hok Hts HI Hcb.
  { exists b, w. split_and!; try done. symmetry. apply filter_all, Forall_forall. set_solver. }
  cbn [app] in Hts. pose proof Hok as [L Hc Hst Hcap Hb Hsz]. rewrite Hts in L.
  assert (find_timer (t_id t) (t :: expired ++ rest) = Some t) as Hf.
  { unfold find_timer. simpl. by rewrite decide_True. }
  destruct (linked_find _ _ _ _ L Hf) as (p & Hat & Hp & Hid & He & Het & Htot).
  cbn [flush_loop]. rewrite Hat. cbn [mbind option_bind].
  pose proof (reduce_lifetime_same now (t_timer t) p) as [Hl Hi].
  cbn [flushed omap list_omap] in Hcb |- *. rewrite Hat in Hcb |- *. cbn [mbind option_bind] in Hcb |- *.
  destruct (reduce_lifetime now (t_timer t) p) as [valid p']. cbn [snd] in Hl, Hi.
  set (b1 := mk (erase_packet (t_info t) (m_packets b)) (erase_timer (t_node t) (m_timers b))
    (counter_remove (t_id t) (m_counter b)) (m_capacity_bytes b) (u64 (m_stored_bytes b - cbf_length p'))).
  assert (erase_id (t_id t) (t :: expired ++ rest) = expired ++ rest) as Herase.
  { unfold erase_id. rewrite filter_cons, decide_False by auto.
    fold (erase_id (t_id t) (expired ++ rest)). apply erase_id_others.
    pose proof (linked_ids _ _ L) as Hnd. simpl in Hnd. by apply NoDup_cons in Hnd as [? _]. }
  assert (cbf_ok b1) as Hok1.
  { pose proof (linked_erase (t_id t) _ _ L) as L1. rewrite <- He, <- Het in L1.
    pose proof (ok_total b Hok). pose proof (cbf_length_nonneg p). pose proof (octets_nonneg (drop_id (t_id t) (m_packets b))).
    unfold b1. split; simpl; rewrite ?Hts; try done.
    - by apply counter_remove_ok.
    - rewrite He, Htot, Hst, Hl. apply wrap_id; lia.
    - rewrite He. destruct Hb as [Hb|Hb]; [left; lia|right]. unfold drop_id. rewrite length_filter. lia.
    - rewrite He. lia. }
  assert (t_info t ∉ map t_info expired) as Hninfo.
  { pose proof (linked_infos _ _ L) as Hnd.
    assert (map fst (m_packets b) = map fst (map packet_key (m_packets b))) as E by by rewrite map_map.
    rewrite E, <- (linked_keys _ _ L), map_map in Hnd. simpl in Hnd. apply NoDup_cons in Hnd as [Hn _].
    rewrite map_app in Hn. set_solver. }
  assert (flushed now expired (m_packets b1) = flushed now expired (m_packets b)) as Hfl.
  { unfold b1. simpl. by apply flushed_erase. }
  assert (m_timers b1 = expired ++ rest) as Hts1.
  { unfold b1. simpl. by rewrite Hts, Het, Herase. }
  assert (forall w1, I w1 -> (forall q w, q ∈ flushed now expired (m_packets b) -> I w ->
      fst (cb q w) = true /\ I (snd (cb q w))) ->
    exists b' w', flush_loop cb now expired b1 w1 = Some (true, b', w') /\
      cbf_ok b' /\ m_timers b' = rest /\ m_capacity_bytes b' = m_capacity_bytes b /\ I w' /\
      w' = fold_left (fun w p => snd (cb p w)) (flushed now expired (m_packets b)) w1 /\
      m_packets b' = filter (fun p => identifier (snd p) ∉ map t_id (t :: expired)) (m_packets b)) as Hrest.
  { intros w1 HI1 Hcb1. destruct (IH b1 w1 Hok1 Hts1 HI1) as (b' & w' & E & K1 & K2 & K3 & K4 & K5 & K6).
    { rewrite Hfl. exact Hcb1. }
    exists b', w'. rewrite Hfl in K5. split_and!; try done. rewrite K6. unfold b1. simpl. rewrite He.
    unfold drop_id. rewrite list_filter_filter. apply filter_eq_of. intros q _. set_solver. }
  destruct valid.
  - destruct (Hcb p' w) as [Hc1 HI1]; [left|done|].
    destruct (cb p' w) as [cont w1] eqn:Ecb. cbn [fst snd] in Hc1, HI1. subst cont.
    destruct (Hrest w1 HI1) as (b' & w' & E & Hr); [intros; apply Hcb; [by right|done]|].
    exists b', w'. split; [exact E|]. cbn [fold_left]. by rewrite Ecb.
  - destruct (Hrest w HI) as (b' & w' & E & Hr); [exact Hcb|]. exists b', w'. by split.
Qed.

Lemma expired_timers_split now ts : by_expiry ts ->
  exists rest, ts = expired_timers now ts ++ rest /\ Forall (fun t => now < t_expiry t) rest /\
    Forall (fun t => t_expiry t <= now) (expired_timers now ts).
Proof.
  induction 1 as [|t ts Hs IH Ht]; simpl; [by exists []|].
  destruct (Z.leb_spec (t_expiry t) now).
  - destruct IH as (rest & E & H1 & H2). exists rest. split_and!; [by simpl; f_equal|done|by constructor].
  - exists (t :: ts). split_and!; [done| |constructor]. constructor; [done|].
    eapply Forall_impl; [exact Ht|]. simpl. lia.
Qed.

Lemma flushed_sublist now expired ts ps : linked ts ps -> (forall t, t ∈ expired -> t ∈ ts) ->
  map identifier (flushed now expired ps) `sublist_of` map t_id expired.
Proof.
  intros L. induction expired as [|t expired IH]; intros Hin; [done|]. cbn [flushed omap list_omap map].
  assert (exists p, packet_at (t_info t) ps = Some p /\ identifier p = t_id t) as (p & -> & Hid).
  { destruct (find_timer_elem (t_id t) ts) as [t' Ht']; [apply list_elem_of_fmap; eauto with set_solver|].
    destruct (linked_find _ _ _ _ L Ht') as (p & Hp & _ & Hid & _).
    apply find_timer_Some in Ht' as [? Heq]. assert (t' = t) as ->.
    { eapply (NoDup_map_inj t_id ts); [apply L|done|set_solver|done]. }
    eauto. }
  cbn [mbind option_bind]. pose proof (reduce_lifetime_same now (t_timer t) p) as [_ Hi].
  destruct (reduce_lifetime now (t_timer t) p) as [[] p']; simpl in Hi.
  - cbn [map]. rewrite Hi, Hid. apply sublist_skip. apply IH. set_solver.
  - apply sublist_cons. apply IH. set_solver.
Qed.

Lemma total_filter (P : nat * cbf_packet -> Prop) `{!forall p, Decision (P p)} ps :
  total (filter P ps) <= total ps.
Proof.
  induction ps as [|q ps IH]; [done|]. rewrite filter_cons.
  pose proof (cbf_length_nonneg q.2). destruct (decide (P q)); simpl; lia.
Qed.

Lemma flush_reschedule_ok b (rt : runtime) : by_expiry (m_timers b) ->
  ManualRuntime.deadlines cbf_scope rt = [] ->
  exists rt', flush_reschedule b rt = Some rt' /\ same_others rt rt' /\ timely (m_timers b) rt' /\
    ManualRuntime.deadlines cbf_scope rt' = match head (m_timers b) with Some t => [t_expiry t] | None => [] end.
Proof.
  intros Hs Hd. unfold flush_reschedule. case_bool_decide as E.
  - exists rt. rewrite E. split_and!; [done|done| |done]. split; [rewrite Hd; simpl; lia|by left].
  - destruct (schedule_timer_ok (m_timers b) rt E Hs) as (rt' & Hst & Ho & Ht). exists rt'.
    split_and!; try done. unfold schedule_timer in Hst. destruct (head (m_timers b)) as [t|]; [|done].
    simplify_eq/=. apply ManualRuntime.deadlines_schedule_empty.
    by rewrite ManualRuntime.deadlines_cancel, decide_True.
Qed.

End flush.

(** * Sequences of calls *)

Section calls.
Context `{T : !HeapTop CbfPacketIdentifier} `{D : CbfData} `{A : Allocator}.

(** The buffer is the only user of the scheduler, and the callback collects the packets. *)
#[local] Instance sole_timer : CbfTimer unit unit := {| cbf_flush := (); cbf_scope := () |}.

Abbreviation runtime := (@ManualRuntime.ManualRuntime unit unit).

Inductive cbf_call :=
  | Add (packet : cbf_packet) (timeout : Z)
  | Remove (id : CbfPacketIdentifier)
  | Update (id : CbfPacketIdentifier) (timeout : Z)
  | Fetch (id : CbfPacketIdentifier)
  | Advance (tp : Z).

(** What can be seen from outside: a packet whose turn has come, a packet that was removed,
    a packet that was fetched. *)
Inductive cbf_event :=
  | HandedOut (packet : cbf_packet)
  | Removed (id : CbfPacketIdentifier)
  | Fetched (packet : cbf_packet).

Definition flush (b : CbfPacketBuffer) (rt : runtime)
  : option (list cbf_packet * CbfPacketBuffer * runtime) :=
  let now := ManualRuntime.m_now rt in
  '(_, b, out) ← flush_loop (fun p out => (true, out ++ [p])) now (expired_timers now (m_timers b)) b [];
  rt ← flush_reschedule b rt;
  Some (out, b, rt).

(** The loop of [ManualRuntime::trigger]. *)
Fixpoint trigger (fuel : nat) (b : CbfPacketBuffer) (rt : runtime)
  : option (list cbf_packet * CbfPacketBuffer * runtime) :=
  match fuel with
  | O => None
  | S fuel =>
      match ManualRuntime.pop_due rt with
      | None => Some ([], b, rt)
      | Some (_, rt) =>
          '(out, b, rt) ← flush b rt;
          '(out', b, rt) ← trigger fuel b rt;
          Some (out ++ out', b, rt)
      end
  end.

Definition cbf_step (c : cbf_call) (b : CbfPacketBuffer) (rt : runtime)
  : option (list cbf_event * CbfPacketBuffer * runtime) :=
  match c with
  | Add packet timeout => '(b, rt) ← add packet timeout b rt; Some ([], b, rt)
  | Remove id =>
      '(dropped, b, rt) ← remove id b rt; Some (if dropped : bool then [Removed id] else [], b, rt)
  | Update id timeout => '(b, rt) ← update id timeout b rt; Some ([], b, rt)
  | Fetch id =>
      '(p, b, rt) ← fetch id b rt;
      Some (match p with Some p => [Fetched p] | None => [] end, b, rt)
  | Advance tp =>
      '(out, b, rt) ← trigger 2 b (ManualRuntime.set_now tp rt);
      Some (map HandedOut out, b, rt)
  end.

Fixpoint cbf_run (cs : list cbf_call) (b : CbfPacketBuffer) (rt : runtime)
  : option (list cbf_event * CbfPacketBuffer * runtime) :=
  match cs with
  | [] => Some ([], b, rt)
  | c :: cs =>
      '(ev, b, rt) ← cbf_step c b rt;
      '(ev', b, rt) ← cbf_run cs b rt;
      Some (ev ++ ev', b, rt)
  end.

(** The clock of the scheduler does not go back. *)
Fixpoint monotonic (now : Z) (cs : list cbf_call) : Prop :=
  match cs with
  | [] => True
  | Advance tp :: cs => now <= tp /\ monotonic tp cs
  | _ :: cs => monotonic now cs
  end.

(** How often a packet was given to the buffer, and how often it has left it. *)
Definition added_id (c : cbf_call) : option CbfPacketIdentifier :=
  match c with Add p _ => Some (identifier p) | _ => None end.

Definition additions (id : CbfPacketIdentifier) (cs : list cbf_call) : nat :=
  length (filter (fun c => added_id c = Some id) cs).

Definition event_id (e : cbf_event) : CbfPacketIdentifier :=
  match e with HandedOut p | Fetched p => identifier p | Removed id => id end.

Definition departures (id : CbfPacketIdentifier) (es : list cbf_event) : nat :=
  length (filter (fun e => event_id e = id) es).

Definition waiting (id : CbfPacketIdentifier) (b : CbfPacketBuffer) : nat :=
  if bool_decide (id ∈ ids b) then 1 else 0.

Context `{!HeapTopOk CbfPacketIdentifier T} `{!CbfDataOk D} `{!AllocatorOk A}.

Lemma fold_collect (ps out : list cbf_packet) :
  fold_left (fun w p => snd (true, w ++ [p])) ps out = out ++ ps.
Proof.
  revert out. induction ps as [|p ps IH]; intros out; simpl; [by rewrite app_nil_r|].
  rewrite IH. by rewrite <- app_assoc.
Qed.

(** All callbacks of this scheduler are those of the buffer. *)
Lemma deadlines_all (rt : runtime) :
  ManualRuntime.deadlines () rt = map ManualRuntime.deadline (ManualRuntime.m_queue rt).
Proof.
  unfold ManualRuntime.deadlines. f_equal. apply filter_all, Forall_forall.
  intros x _. by destruct (ManualRuntime.scope x).
Qed.

Lemma flush_ok b (rt : runtime) : cbf_ok b -> ManualRuntime.deadlines () rt = [] ->
  let now := ManualRuntime.m_now rt in
  exists b' rt', flush b rt = Some (flushed now (expired_timers now (m_timers b)) (m_packets b), b', rt') /\
    cbf_ok b' /\ timely (m_timers b') rt' /\ ManualRuntime.m_now rt' = now /\
    m_capacity_bytes b' = m_capacity_bytes b /\
    m_timers b = expired_timers now (m_timers b) ++ m_timers b' /\
    Forall (fun t => now < t_expiry t) (m_timers b') /\ total (m_packets b') <= total (m_packets b) /\
    ManualRuntime.pop_due rt' = None.
Proof.
  intros Hok Hd now. destruct (expired_timers_split now (m_timers b)) as (rest & Hts & Hrest & _).
  { apply (linked_sorted _ _ (ok_linked _ Hok)). }
  unfold flush. fold now.
  destruct (flush_loop_ok (fun p out => (true, out ++ [p])) (fun _ => True) now
    (expired_timers now (m_timers b)) rest b []) as (b' & w & -> & Hok' & Hts' & Hcap & _ & Hw & Hps);
    [done..|]. cbn [mbind option_bind].
  destruct (flush_reschedule_ok b' rt) as (rt' & -> & [Hn _] & Ht & Hdl); [apply Hok'|done|].
  cbn [mbind option_bind]. rewrite fold_collect in Hw. simpl in Hw. subst w.
  exists b', rt'. rewrite Hts', Hps. split_and!; try done; [by rewrite <- Hts'|apply total_filter|].
  rewrite deadlines_all, Hts' in Hdl. unfold ManualRuntime.pop_due. rewrite Hn. fold now.
  destruct (ManualRuntime.m_queue rt') as [|x queue]; [done|]. destruct rest as [|t rest]; [done|].
  injection Hdl as -> _. inversion Hrest; subst. by replace (t_expiry t <=? now) with false by lia.
Qed.

Lemma trigger_ok b (rt : runtime) : cbf_ok b -> armed (m_timers b) rt ->
  let now := ManualRuntime.m_now rt in
  exists out b' rt', trigger 2 b rt = Some (out, b', rt') /\
    cbf_ok b' /\ armed (m_timers b') rt' /\ m_capacity_bytes b' = m_capacity_bytes b /\
    (out = [] /\ m_timers b' = m_timers b \/
     out = flushed now (expired_timers now (m_timers b)) (m_packets b) /\
     m_timers b = expired_timers now (m_timers b) ++ m_timers b') /\
    (timely (m_timers b) rt -> timely (m_timers b') rt' /\
     out = flushed now (expired_timers now (m_timers b)) (m_packets b) /\
     Forall (fun t => now < t_expiry t) (m_timers b')) /\
    total (m_packets b') <= total (m_packets b).
Proof.
  intros Hok [Hlen Ha] now. rewrite deadlines_all, length_map in Hlen.
  cbn [trigger]. unfold ManualRuntime.pop_due at 1.
  destruct (ManualRuntime.m_queue rt) as [|x [|]] eqn:Hq; [| |simpl in Hlen; lia].
  - destruct Ha as [Ha|(d & Hd & _)]; [|by rewrite deadlines_all, Hq in Hd].
    assert (armed (m_timers b) rt).
    { split; [rewrite deadlines_all, Hq; simpl; lia|by left]. }
    exists [], b, rt. rewrite Ha in *. split_and!; auto. done.
  - destruct (Z.leb_spec (ManualRuntime.deadline x) (ManualRuntime.m_now rt)) as [Hx|Hx].
    + destruct (flush_ok b (ManualRuntime.mk (ManualRuntime.m_now rt) []))
        as (b' & rt' & -> & Hok' & Ht & Hn & Hcap & Hts & Hall & Htot & Hpop); [done|done|].
      cbn [mbind option_bind ManualRuntime.m_now]. rewrite Hpop. cbn [mbind option_bind].
      rewrite app_nil_r. eexists _, b', rt'. split; [done|].
      split_and!; auto using timely_armed.
    + exists [], b, rt. split_and!; try done; [split; [rewrite deadlines_all, Hq; simpl; lia|done]|by left|].
      intros [Hl Ht]. assert (Forall (fun t => now < t_expiry t) (m_timers b)) as Hall.
      { destruct Ht as [->|(d & Hd & Ht)]; [constructor|]. rewrite deadlines_all, Hq in Hd.
        injection Hd as <-. eapply Forall_impl; [exact Ht|]. simpl. unfold now. lia. }
      split_and!; [by split| |done]. destruct (m_timers b) as [|t ts]; [done|]. simpl.
      inversion Hall; subst. by replace (t_expiry t <=? now) with false by lia.
Qed.

Lemma departures_app id es es' : departures id (es ++ es') = (departures id es + departures id es')%nat.
Proof. unfold departures. by rewrite filter_app, length_app. Qed.

Lemma packet_ids b : linked (m_timers b) (m_packets b) ->
  map (fun p => identifier (snd p)) (m_packets b) ≡ₚ ids b.
Proof.
  intros L. assert (map (fun p => identifier (snd p)) (m_packets b) = map snd (map packet_key (m_packets b)))
    as -> by by rewrite map_map.
  by rewrite <- (linked_keys _ _ L), map_map.
Qed.

Lemma in_ids id b : linked (m_timers b) (m_packets b) ->
  id ∈ ids b <-> exists p, identifier (snd p) = id /\ p ∈ m_packets b.
Proof.
  intros L. rewrite <- packet_ids by done. rewrite list_elem_of_fmap. naive_solver.
Qed.

Lemma waiting_mono id b b' : (id ∈ ids b' -> id ∈ ids b) -> (waiting id b' <= waiting id b)%nat.
Proof. unfold waiting. repeat case_bool_decide; intuition lia. Qed.

Lemma departures_out id out :
  departures id (map HandedOut out) = length (filter (fun i => i = id) (map identifier out)).
Proof.
  unfold departures. induction out as [|p out IH]; [done|]. cbn [map]. rewrite !filter_cons. simpl.
  destruct (decide (identifier p = id)); simpl; by rewrite IH.
Qed.

Lemma count_NoDup (id : CbfPacketIdentifier) l : NoDup l ->
  length (filter (fun i => i = id) l) = if bool_decide (id ∈ l) then 1%nat else 0%nat.
Proof.
  induction 1 as [|x l Hx Hnd IH]; [done|]. rewrite filter_cons.
  destruct (decide (x = id)) as [->|Hne]; simpl; rewrite IH; repeat case_bool_decide; set_solver.
Qed.

Lemma filter_sublist (id : CbfPacketIdentifier) l l' : l `sublist_of` l' ->
  filter (fun i => i = id) l `sublist_of` filter (fun i => i = id) l'.
Proof.
  induction 1 as [|x l l' _ IH|x l l' _ IH]; [done| |]; rewrite !filter_cons; destruct (decide _);
    auto using sublist_skip, sublist_cons.
Qed.

(** What leaves with a flush was waiting, and once. *)
Lemma departures_flushed now id b b' : cbf_ok b ->
  m_timers b = expired_timers now (m_timers b) ++ m_timers b' ->
  (departures id (map HandedOut (flushed now (expired_timers now (m_timers b)) (m_packets b)))
   + waiting id b' <= waiting id b)%nat.
Proof.
  intros Hok Hts. set (expired := expired_timers now (m_timers b)) in *.
  pose proof (ok_linked _ Hok) as L.
  assert (ids b = map t_id expired ++ ids b') as Hids by (unfold ids; rewrite <- map_app; by f_equal).
  assert (forall t, t ∈ expired -> t ∈ m_timers b) as Hin.
  { intros t Ht. rewrite Hts. apply elem_of_app. by left. }
  pose proof (flushed_sublist now expired _ _ L Hin) as Hsub. clearbody expired.
  pose proof (linked_ids _ _ L) as Hnd. fold (ids b) in Hnd.
  rewrite departures_out. unfold waiting. rewrite <- (count_NoDup id (ids b)) by done.
  rewrite Hids in Hnd |- *. rewrite filter_app, length_app.
  apply NoDup_app in Hnd as (_ & _ & Hnd). rewrite <- (count_NoDup id (ids b')) by done.
  apply Nat.add_le_mono_r, sublist_length, filter_sublist, Hsub.
Qed.

Lemma ids_erase id b i : i ∈ map t_id (erase_id id (m_timers b)) <-> i ∈ ids b /\ i <> id.
Proof.
  unfold erase_id, ids. rewrite !list_elem_of_fmap. setoid_rewrite list_elem_of_filter. naive_solver.
Qed.

(** What leaves alone was waiting. *)
Lemma departures_erased id es b b' i : m_timers b' = erase_id id (m_timers b) ->
  (es = [] \/ id ∈ ids b /\ exists e, es = [e] /\ event_id e = id) ->
  (departures i es + waiting i b' <= waiting i b)%nat.
Proof.
  intros Hts Hes. assert (i ∈ ids b' <-> i ∈ ids b /\ i <> id) as Hi.
  { unfold ids at 1. by rewrite Hts, ids_erase. }
  unfold departures, waiting. destruct Hes as [->|(Hid & e & -> & He)].
  - simpl. repeat case_bool_decide; naive_solver lia.
  - rewrite filter_cons, filter_nil. destruct (decide (event_id e = i)); simpl;
      repeat case_bool_decide; subst; naive_solver lia.
Qed.

(** The octets of the packets that a sequence of calls adds. *)
Definition added_octets (cs : list cbf_call) : Z :=
  foldr (fun c n => match c with Add p _ => cbf_length p + n | _ => n end) 0 cs.

(** One call: defined, keeps the invariant, and nothing leaves that was not there. *)
Lemma cbf_step_ok c b (rt : runtime) : cbf_ok b -> armed (m_timers b) rt -> added_octets [c] < 2 ^ 63 ->
  exists es b' rt', cbf_step c b rt = Some (es, b', rt') /\ cbf_ok b' /\ armed (m_timers b') rt' /\
    m_capacity_bytes b' = m_capacity_bytes b /\
    forall id, (departures id es + waiting id b' <= waiting id b + additions id [c])%nat.
Proof.
  intros Hok Ha Hs. destruct c as [p timeout|id|id timeout|id|tp]; cbn [cbf_step added_octets foldr] in *.
  - destruct (add_ok p timeout b rt Hok Ha ltac:(lia))
      as (b' & rt' & -> & Hok' & _ & Ha' & Hcap & _ & dropped & kept & Hps & Hcase).
    cbn [mbind option_bind]. eexists _, b', rt'. split_and!; try done. intros id.
    assert (id ∈ ids b' -> id ∈ ids b \/ identifier p = id) as Hid.
    { rewrite !in_ids by apply ok_linked, Hok || apply ok_linked, Hok'.
      intros (q & Hq & Hin). rewrite Hps.
      destruct (timeout <=? 0); [destruct Hcase as [_ E]|destruct Hcase as [_ Hcase]; case_bool_decide];
        [rewrite E in Hin|rewrite Hcase in Hin|destruct Hcase as (info & E); rewrite E in Hin]; set_solver. }
    unfold departures, waiting, additions, added_id. rewrite filter_cons, filter_nil.
    destruct (decide _); simpl; repeat case_bool_decide; naive_solver lia.
  - destruct (remove_ok id b rt Hok Ha) as (b' & rt' & -> & Hok' & _ & Ha' & _ & _ & Hts & Hcap).
    cbn [mbind option_bind]. eexists _, b', rt'. split_and!; try done. intros i.
    rewrite Nat.add_0_r. apply (departures_erased id); [done|].
    case_bool_decide; [right|by left]. eauto.
  - destruct (update_ok id timeout b rt Hok Ha) as (b' & -> & Hok' & Ha' & Hids & Hcap & _).
    cbn [mbind option_bind]. eexists _, b', rt. split_and!; try done. intros i.
    rewrite Nat.add_0_r. apply waiting_mono, Hids.
  - destruct (fetch_ok id b rt Hok Ha) as (r & b' & rt' & E & Hok' & _ & Ha' & _ & _ & Hts & Hcap & Hr & Hrid).
    rewrite E. cbn [mbind option_bind]. eexists _, b', rt'. split_and!; try done. intros i.
    rewrite Nat.add_0_r. apply (departures_erased id); [done|].
    destruct r as [p|]; [right|by left]. split; [by apply Hr|]. eexists. split; [done|]. by apply Hrid.
  - destruct (trigger_ok b (ManualRuntime.set_now tp rt) Hok Ha)
      as (out & b' & rt' & -> & Hok' & Ha' & Hcap & Hout & _).
    cbn [mbind option_bind]. eexists _, b', rt'. split_and!; try done. intros i.
    rewrite Nat.add_0_r. destruct Hout as [[-> Hts]|[-> Hts]].
    + apply waiting_mono. unfold ids. by rewrite Hts.
    + by apply departures_flushed.
Qed.

Lemma additions_cons id c cs : additions id (c :: cs) = (additions id [c] + additions id cs)%nat.
Proof. unfold additions. rewrite !filter_cons, filter_nil. by destruct (decide _). Qed.

(** A sequence of calls from any good state. *)
Lemma cbf_run_ok cs b (rt : runtime) : cbf_ok b -> armed (m_timers b) rt ->
  Forall (fun c => added_octets [c] < 2 ^ 63) cs ->
  exists es b' rt', cbf_run cs b rt = Some (es, b', rt') /\ cbf_ok b' /\ armed (m_timers b') rt' /\
    m_capacity_bytes b' = m_capacity_bytes b /\
    forall id, (departures id es + waiting id b' <= waiting id b + additions id cs)%nat.
Proof.
  intros Hok Ha Hs. revert b rt Hok Ha. induction Hs as [|c cs Hc Hs IH]; intros b rt Hok Ha; cbn [cbf_run].
  { eexists _, b, rt. split_and!; try done. intros id. simpl. lia. }
  destruct (cbf_step_ok c b rt Hok Ha Hc) as (es & b1 & rt1 & -> & Hok1 & Ha1 & Hc1 & H1). cbn [mbind option_bind].
  destruct (IH b1 rt1 Hok1 Ha1) as (es' & b2 & rt2 & -> & Hok2 & Ha2 & Hc2 & H2). cbn [mbind option_bind].
  eexists _, b2, rt2. split_and!; try done; [congruence|]. intros id.
  rewrite departures_app, additions_cons. specialize (H1 id). specialize (H2 id). lia.
Qed.

Lemma empty_ok cnt bytes : counter_ok cnt -> 0 <= bytes < 2 ^ 63 -> cbf_ok (make_CbfPacketBuffer cnt bytes).
Proof.
  intros Hc Hb. split; try done; [apply linked_nil|]. left. simpl. lia.
Qed.

Lemma empty_armed P (rt : runtime) : ManualRuntime.m_queue rt = [] -> scheduled P [] rt.
Proof. intros Hq. split; [rewrite deadlines_all, Hq; simpl; lia|by left]. Qed.

Definition no_update (c : cbf_call) : Prop := match c with Update _ _ => False | _ => True end.

Lemma drop_total id ps : total (drop_id id ps) <= total ps.
Proof. apply total_filter. Qed.

Lemma cbf_step_timely c b (rt : runtime) : cbf_ok b -> timely (m_timers b) rt -> no_update c ->
  total (m_packets b) + added_octets [c] <= m_capacity_bytes b ->
  exists es b' rt', cbf_step c b rt = Some (es, b', rt') /\ cbf_ok b' /\ timely (m_timers b') rt' /\
    m_capacity_bytes b' = m_capacity_bytes b /\ total (m_packets b') <= total (m_packets b) + added_octets [c] /\
    match c with
    | Advance tp => es = map HandedOut (flushed tp (expired_timers tp (m_timers b)) (m_packets b)) /\
                    Forall (fun t => tp < t_expiry t) (m_timers b')
    | _ => True
    end.
Proof.
  intros Hok Ht Hnu Hfit. pose proof (timely_armed _ _ Ht) as Ha.
  destruct c as [p timeout|id|id timeout|id|tp]; [| |done| |]; cbn [cbf_step added_octets foldr] in *.
  - destruct (add_ok p timeout b rt Hok Ha)
      as (b' & rt' & -> & Hok' & _ & Ha' & Hcap & Ht' & dropped & kept & Hps & Hcase).
    { pose proof (ok_capacity _ Hok). pose proof (octets_nonneg (m_packets b)). lia. }
    cbn [mbind option_bind]. eexists _, b', rt'. split_and!; try done; [apply Ht'; [lia|done]|].
    pose proof (octets_nonneg dropped). pose proof (cbf_length_nonneg p). rewrite Hps, octets_app.
    destruct (timeout <=? 0); [destruct Hcase as [_ ->]|destruct Hcase as [_ Hcase]; case_bool_decide];
      [lia|rewrite Hcase; lia|]. destruct Hcase as [info ->]. rewrite octets_app. simpl. lia.
  - destruct (remove_ok id b rt Hok Ha) as (b' & rt' & -> & Hok' & _ & _ & Ht' & Hps & _ & Hcap).
    cbn [mbind option_bind]. eexists _, b', rt'. split_and!; auto. rewrite Hps. pose proof (drop_total id (m_packets b)). lia.
  - destruct (fetch_ok id b rt Hok Ha) as (r & b' & rt' & -> & Hok' & _ & _ & Ht' & Hps & _ & Hcap & _).
    cbn [mbind option_bind]. eexists _, b', rt'. split_and!; auto. rewrite Hps. pose proof (drop_total id (m_packets b)). lia.
  - destruct (trigger_ok b (ManualRuntime.set_now tp rt) Hok Ha)
      as (out & b' & rt' & -> & Hok' & Ha' & Hcap & _ & Hout & Htot).
    cbn [mbind option_bind]. destruct (Hout Ht) as (Ht' & -> & Hall). eexists _, b', rt'. split_and!; try done. lia.
Qed.

(** No packet is dropped for want of room in this run. *)
Fixpoint never_full (cs : list cbf_call) (b : CbfPacketBuffer) (rt : runtime) : Prop :=
  match cs with
  | [] => True
  | c :: cs => total (m_packets b) + added_octets [c] <= m_capacity_bytes b /\
      match cbf_step c b rt with Some (_, b, rt) => never_full cs b rt | None => True end
  end.

Lemma cbf_run_timely cs b (rt : runtime) : cbf_ok b -> timely (m_timers b) rt -> Forall no_update cs ->
  total (m_packets b) <= m_capacity_bytes b -> never_full cs b rt ->
  exists es b' rt', cbf_run cs b rt = Some (es, b', rt') /\ cbf_ok b' /\ timely (m_timers b') rt' /\
    total (m_packets b') <= m_capacity_bytes b'.
Proof.
  intros Hok Ht Hnu. revert b rt Hok Ht. induction Hnu as [|c cs Hc Hnu IH]; intros b rt Hok Ht Hfit Hnf; cbn [cbf_run].
  { eexists _, b, rt. by split_and!. }
  cbn [never_full] in Hnf. destruct Hnf as [Hroom Hnf].
  destruct (cbf_step_timely c b rt Hok Ht Hc Hroom) as (es & b1 & rt1 & E & Hok1 & Ht1 & Hc1 & H1 & _).
  rewrite E in Hnf |- *. cbn [mbind option_bind].
  destruct (IH b1 rt1 Hok1 Ht1) as (es' & b2 & rt2 & -> & H2); [lia|done|]. cbn [mbind option_bind]. eauto 10.
Qed.

(** C28. The buffer of packets in contention, after any sequence of calls and of progress of the
    clock: every call returns; the buffer counts the octets it holds, holds at most its
    capacity or a single packet, and has its timer set for as long as it is not empty; and
    no packet is multiplied: of the packets with one identifier, those that left and the
    one that waits are together no more than were added. *)
Theorem cbf_buffer_conserves_packets cs cnt bytes init :
  counter_ok cnt -> 0 <= bytes < 2 ^ 63 -> Forall (fun c => added_octets [c] < 2 ^ 63) cs ->
  exists es b rt,
    cbf_run cs (make_CbfPacketBuffer cnt bytes) (ManualRuntime.make_ManualRuntime init) = Some (es, b, rt) /\
    cbf_ok b /\ armed (m_timers b) rt /\ (total (m_packets b) <= bytes \/ (length (m_packets b) <= 1)%nat) /\
    forall id, (departures id es + waiting id b <= additions id cs)%nat.
Proof.
  intros Hc Hb Hs.
  destruct (cbf_run_ok cs _ (ManualRuntime.make_ManualRuntime init) (empty_ok _ _ Hc Hb)
    (empty_armed _ (ManualRuntime.make_ManualRuntime init) eq_refl) Hs) as (es & b & rt & E & Hok & Ha & Hcap & Hdep).
  exists es, b, rt. split_and!; try done. pose proof (ok_bound _ Hok) as Hbd. by rewrite Hcap in Hbd.
Qed.

(** C29. Packets leave the buffer in time, after every sequence of calls in which no timer is
    updated and no packet is dropped for want of room: progress of the clock to [tp] hands
    out exactly the packets whose timers have expired and that still have a lifetime, in
    the order of their timers and with their lifetime reduced by the time they waited;
    what stays has a timer that expires after [tp].  (A timer that is updated may be late,
    see [shortened_timer_is_late].) *)
Theorem cbf_due_packets_leave cs tp cnt bytes init :
  counter_ok cnt -> 0 <= bytes < 2 ^ 63 -> Forall no_update cs ->
  never_full cs (make_CbfPacketBuffer cnt bytes) (ManualRuntime.make_ManualRuntime init) ->
  exists es b rt b' rt',
    cbf_run cs (make_CbfPacketBuffer cnt bytes) (ManualRuntime.make_ManualRuntime init) = Some (es, b, rt) /\
    cbf_step (Advance tp) b rt
    = Some (map HandedOut (flushed tp (expired_timers tp (m_timers b)) (m_packets b)), b', rt') /\
    by_expiry (m_timers b) /\ Forall (fun t => tp < t_expiry t) (m_timers b').
Proof.
  intros Hc Hb Hnu Hfit.
  destruct (cbf_run_timely cs _ (ManualRuntime.make_ManualRuntime init) (empty_ok _ _ Hc Hb)
    (empty_armed _ (ManualRuntime.make_ManualRuntime init) eq_refl)) as (es & b & rt & E & Hok & Ht & Htot); [done|simpl; lia|done|].
  destruct (cbf_step_timely (Advance tp) b rt Hok Ht) as (es' & b' & rt' & E' & _ & _ & _ & _ & -> & Hall);
    [done|simpl; lia|].
  exists es, b, rt, b', rt'. split_and!; try done. apply Hok.
Qed.

End calls.

(** * Concrete inputs *)

#[local] Existing Instance sole_timer.
#[local] Existing Instance sample_heap.
#[local] Existing Instance sample_heap_ok.
#[local] Existing Instance sample_alloc.
#[local] Existing Instance sample_alloc_ok.
#[local] Existing Instance sample_cbf_data.
#[local] Existing Instance sample_cbf_data_ok.

Definition sample_id (n : Z) : CbfPacketIdentifier := (default_Address, n).
Definition sample_packet (len lifetime n : Z) : cbf_packet := mk_SamplePacket len lifetime (sample_id n).

(** Two packets wait, one is removed, the other is handed out. *)
Definition sample_calls : list cbf_call :=
  [Add (sample_packet 10 500 1) 100; Add (sample_packet 20 500 2) 50; Remove (sample_id 2);
   Advance 60; Advance 120].

Lemma cbf_buffer_conserves_packets_witness :
  exists es b rt,
    cbf_run sample_calls (make_CbfPacketBuffer (CbfCounterContending ∅) 1000)
      (ManualRuntime.make_ManualRuntime 0) = Some (es, b, rt) /\
    cbf_ok b /\ armed (m_timers b) rt /\ (total (m_packets b) <= 1000 \/ (length (m_packets b) <= 1)%nat) /\
    forall id, (departures id es + waiting id b <= additions id sample_calls)%nat.
Proof.
  apply (cbf_buffer_conserves_packets sample_calls (CbfCounterContending ∅) 1000 0); [done|lia|].
  repeat constructor.
Defined.

Lemma cbf_due_packets_leave_witness :
  exists es b rt b' rt',
    cbf_run (firstn 2 sample_calls) (make_CbfPacketBuffer (CbfCounterContending ∅) 1000)
      (ManualRuntime.make_ManualRuntime 0) = Some (es, b, rt) /\
    cbf_step (Advance 60) b rt
    = Some (map HandedOut (flushed 60 (expired_timers 60 (m_timers b)) (m_packets b)), b', rt') /\
    by_expiry (m_timers b) /\ Forall (fun t => 60 < t_expiry t) (m_timers b').
Proof.
  apply (cbf_due_packets_leave (firstn 2 sample_calls) 60 (CbfCounterContending ∅) 1000 0);
    [done|lia|repeat constructor|vm_compute; repeat split; discriminate].
Defined.

(** An event by its sequence number and the lifetime that is left. *)
Definition view (e : cbf_event) : Z * option Z :=
  match e with
  | HandedOut p | Fetched p => (snd (sample_identifier p), Some (sample_lifetime p))
  | Removed id => (snd id, None)
  end.

Definition sample_run (cs : list cbf_call) : option (list (Z * option Z)) :=
  option_map (fun r => map view (fst (fst r)))
    (cbf_run cs (make_CbfPacketBuffer (CbfCounterContending ∅) 1000) (ManualRuntime.make_ManualRuntime 0)).

Example sample_calls_events : sample_run sample_calls = Some [(2, None); (1, Some 380)].
Proof. vm_compute. reflexivity. Qed.

(** [update] does not schedule its new timeout: a packet whose timer was made shorter is
    still there long after the timer has expired, and leaves when its first timer would
    have let it go. *)
Theorem shortened_timer_is_late :
  let update_to_10 := [Add (sample_packet 10 500 1) 100; Update (sample_id 1) 10] in
  sample_run (update_to_10 ++ [Advance 99]) = Some [] /\
  sample_run (update_to_10 ++ [Advance 99; Advance 100]) = Some [(1, Some 400)].
Proof. split; vm_compute; reflexivity. Qed.

(** A packet that is larger than the buffer is stored nevertheless. *)
Theorem oversize_packet_is_stored :
  (fun r => (m_capacity_bytes (fst r), m_stored_bytes (fst r))) <$>
    add (sample_packet 5000 500 1) 100 (make_CbfPacketBuffer (CbfCounterContending ∅) 1000)
      (ManualRuntime.make_ManualRuntime (Callback := unit) (Scope := unit) 0) = Some (1000, 5000).
Proof. vm_compute. reflexivity. Qed.
