(* ===== verification/LocationTable.v ===== *)
(** * Location table and duplicate packet detection

    geonet/location_table.cpp on the soft state map, and the operations of the router
    (geonet/router.cpp) that decide with it whether a packet is a duplicate and whether
    a geo-broadcast is passed up. *)

From Stdlib Require Import ZArith Lia.
From stdpp Require Import prelude gmap.
From S2P Require Import Prelude GeoSerial GeoHeaders Double GeoContainers SoftState.

Open Scope Z_scope.

(** Clock::time_point::min() and max(). *)
Definition time_point_min : Z := - 2 ^ 63.
Definition time_point_max : Z := 2 ^ 63 - 1.

(** * Entries *)

(** loctex_g5.hpp: what the shb header says about the channel. *)
Record LocTEX_G5 := mk_LocTEX_G5 {
  local_update : Timestamp;
  source_update : Timestamp;
  dcc_mco : DccMcoField;
}.

(** [m_dpl] and [m_loctex] are the DuplicatePacketList and the LocTEX_G5 in the container
    [extensions], which holds at most one object of a type. *)
Record LocationTableEntry := mk_LocationTableEntry {
  m_is_neighbour : Z;
  m_has_position_vector : bool;
  m_position_vector : LongPositionVector;
  m_pdr : double;
  m_pdr_update : Z;
  m_dpl : option DuplicatePacketList.DuplicatePacketList;
  m_loctex : option LocTEX_G5;
}.

(** What the creator of the table makes. *)
Definition make_LocationTableEntry (now : Z) : LocationTableEntry :=
  mk_LocationTableEntry time_point_min false default_LongPositionVector dnan now None None.

Definition link_layer_address (entry : LocationTableEntry) : MacAddress :=
  m_mid (gn_addr (m_position_vector entry)).

Definition is_neighbour (now : Z) (entry : LocationTableEntry) : bool :=
  m_is_neighbour entry >? now.

Definition set_m_is_neighbour (v : Z) (e : LocationTableEntry) : LocationTableEntry :=
  mk_LocationTableEntry v (m_has_position_vector e) (m_position_vector e) (m_pdr e)
    (m_pdr_update e) (m_dpl e) (m_loctex e).

Definition set_pdr (pdr : double) (update : Z) (e : LocationTableEntry) : LocationTableEntry :=
  mk_LocationTableEntry (m_is_neighbour e) (m_has_position_vector e) (m_position_vector e)
    pdr update (m_dpl e) (m_loctex e).

Definition set_dpl (dpl : DuplicatePacketList.DuplicatePacketList) (e : LocationTableEntry)
  : LocationTableEntry :=
  mk_LocationTableEntry (m_is_neighbour e) (m_has_position_vector e) (m_position_vector e)
    (m_pdr e) (m_pdr_update e) (Some dpl) (m_loctex e).

Definition set_loctex (x : LocTEX_G5) (e : LocationTableEntry) : LocationTableEntry :=
  mk_LocationTableEntry (m_is_neighbour e) (m_has_position_vector e) (m_position_vector e)
    (m_pdr e) (m_pdr_update e) (m_dpl e) (Some x).

(** An exponential moving average; the first packet only sets the time. *)
Definition update_pdr (now packet_size : Z) (beta : double) (e : LocationTableEntry)
  : LocationTableEntry :=
  if isnan (m_pdr e) then set_pdr dzero now e
  else if dgt beta dzero && dlt beta (double_of 1) then
    let time_period := seconds_of (now - m_pdr_update e) in
    if dgt time_period dzero then
      let instant_pdr := ddiv (double_of packet_size) time_period in
      let pdr := dmul (m_pdr e) beta in
      let pdr := dadd pdr (dmul (dsub (double_of 1) beta) instant_pdr) in
      set_pdr pdr now e
    else e
  else e.

Definition set_neighbour (flag : bool) (entry : LocationTableEntry) : LocationTableEntry :=
  set_m_is_neighbour (if flag then time_point_max else time_point_min) entry.

Definition set_neighbour_expiry (now : Z) (flag : bool) (expiry : Z) (entry : LocationTableEntry)
  : LocationTableEntry :=
  if flag && (expiry >? 0) then set_m_is_neighbour (now + expiry) entry
  else set_neighbour flag entry.

Definition set_position_vector (pv : LongPositionVector) (e : LocationTableEntry)
  : bool * LocationTableEntry :=
  if lpv_is_valid pv then
    (true, mk_LocationTableEntry (m_is_neighbour e) true pv (m_pdr e) (m_pdr_update e)
             (m_dpl e) (m_loctex e))
  else (false, e).

Definition update_position_vector (lpv : LongPositionVector) (entry : LocationTableEntry)
  : bool * LocationTableEntry :=
  if m_has_position_vector entry then
    if Timestamp_less (timestamp (m_position_vector entry)) (timestamp lpv)
    then set_position_vector lpv entry
    else (false, entry)
  else set_position_vector lpv entry.

(** * Table *)

Abbreviation LocationTable := (SoftStateMap MacAddress LocationTableEntry).

(** Seconds become an integer before they become ticks. *)
Definition make_LocationTable (itsGnLifetimeLocTE : double) : LocationTable :=
  make_SoftStateMap (1000000 * int64_of itsGnLifetimeLocTE).

Definition has_entry (now : Z) (addr : Address) (t : LocationTable) : option bool :=
  has_value now (m_mid addr) t.

Definition has_neighbours (now : Z) (t : LocationTable) : bool :=
  existsb (fun '(_, entry) => is_neighbour now entry) (map_to_list (map_range now t)).

Definition neighbours (now : Z) (t : LocationTable) : list LocationTableEntry :=
  filter (fun entry => is_neighbour now entry = true) (map snd (map_to_list (map_range now t))).

(** The entry that the returned reference denotes is the one of [gn_addr.mid()]. *)
Definition table_update (now : Z) (lpv : LongPositionVector) (t : LocationTable)
  : option LocationTable :=
  let mac := m_mid (gn_addr lpv) in
  entry ← get_value_ptr now mac t;
  match entry with
  | Some entry =>
      if m_has_position_vector entry then
        let '(updated, entry) := update_position_vector lpv entry in
        let t := write_value mac entry t in
        if updated : bool then fst <$> refresh now (make_LocationTableEntry now) mac t
        else Some t
      else
        '(t, entry) ← refresh now (make_LocationTableEntry now) mac t;
        Some (write_value mac (snd (update_position_vector lpv entry)) t)
  | None =>
      '(t, entry) ← refresh now (make_LocationTableEntry now) mac t;
      Some (write_value mac (snd (update_position_vector lpv entry)) t)
  end.

Definition get_or_create_entry (now : Z) (mac : MacAddress) (t : LocationTable)
  : option (LocationTable * LocationTableEntry) :=
  get_value now (make_LocationTableEntry now) mac t.

Definition get_entry (now : Z) (mac : MacAddress) (t : LocationTable)
  : option (option LocationTableEntry) :=
  get_value_ptr now mac t.

(** Assigning to the members of the entry that a reference denotes. *)
Definition modify_entry (mac : MacAddress) (f : LocationTableEntry -> LocationTableEntry)
    (t : LocationTable) : LocationTable :=
  mk_SoftStateMap (m_lifetime t) (m_heap t)
    (alter (fun '(handle, entry) => (handle, f entry)) mac (m_map t)).

(** Reading it. *)
Definition entry_at (mac : MacAddress) (t : LocationTable) : option LocationTableEntry :=
  snd <$> m_map t !! mac.

Definition get_position (now : Z) (mac : MacAddress) (t : LocationTable)
  : option (option LongPositionVector) :=
  entry ← get_value_ptr now mac t;
  Some (match entry with
        | Some entry =>
            if m_has_position_vector entry then Some (m_position_vector entry) else None
        | None => None
        end).

(** * Router operations on the table *)

(** [itsGnDPLLength] is the length of a new duplicate packet list. *)
Definition detect_duplicate_packet (itsGnDPLLength : nat) (now : Z) (addr_so : Address)
    (sn : SequenceNumber) (t : LocationTable) : option (bool * LocationTable) :=
  '(t, entry) ← get_or_create_entry now (m_mid addr_so) t;
  let dpl := match m_dpl entry with
             | Some dpl => dpl
             | None => DuplicatePacketList.make_DuplicatePacketList itsGnDPLLength
             end in
  let '(is_duplicate, dpl) := DuplicatePacketList.check sn dpl in
  Some (is_duplicate,
        write_value (m_mid addr_so) (set_dpl dpl entry) t).

(** The members of the MIB that [decide_pass_up] reads are its first two arguments. *)
Definition decide_pass_up (vanetzaGbcPassUpOutsideDestination : bool)
    (vanetzaGbcMemoryCapacity : Z) (within_destination : bool) (gbc : GeoBroadcastHeader)
    (m_gbc_memory : GbcMemory.GbcMemory) : bool * GbcMemory.GbcMemory :=
  let accept := within_destination || vanetzaGbcPassUpOutsideDestination in
  if vanetzaGbcMemoryCapacity =? 0 then (accept, m_gbc_memory)
  else if accept then
    let '(known, m_gbc_memory) :=
      GbcMemory.remember (gn_addr (gbc_source_position gbc), gbc_sequence_number gbc)
        m_gbc_memory in
    (negb known, m_gbc_memory)
  else (false, m_gbc_memory).
