(* ===== verification/LocationTheorems.v ===== *)
(** * Theorems about bounded containers, the location table and duplicate detection

    Each bounded container and the soft state map against its specification, for every
    sequence of calls; the location table and the detection of duplicates on top. *)

From Stdlib Require Import ZArith Lia.
From stdpp Require Import prelude list.
From stdpp Require Import prelude gmap.
From S2P Require Import Prelude GeoSerial GeoHeaders Double GeoContainers SoftState GeoSamples LocationTable.

Open Scope Z_scope.

(** After any calls of [check] on a list for [n] elements, a sequence number is
    reported as duplicate exactly when it is one of the last [n] numbers that were not
    reported; so a number that was never passed in is not reported, and the list never
    grows beyond [n]. *)
Theorem duplicate_list_refines (n : nat) (sns : list Z) (sn : Z) :
  let dups := fst (DuplicatePacketList.checks sns (DuplicatePacketList.make_DuplicatePacketList n)) in
  let dpl := snd (DuplicatePacketList.checks sns (DuplicatePacketList.make_DuplicatePacketList n)) in
  let recent := lastn n (DuplicatePacketList.accepted sns dups) in
  (fst (DuplicatePacketList.check sn dpl) = true <-> sn ∈ recent) /\
  (forall x, x ∈ recent -> x ∈ sns) /\
  (length (DuplicatePacketList.m_elements dpl) <= n)%nat.
Proof.
  destruct (DuplicatePacketList.checks_spec sns (DuplicatePacketList.make_DuplicatePacketList n) []) as [Hl Hn].
  { rewrite lastn_all; [done|simpl; lia]. }
  simpl in Hn.
  set (dups := fst _) in *. set (dpl := snd _) in *. intros recent. fold recent in Hn.
  split_and!.
  - destruct (DuplicatePacketList.check_spec sn dpl) as (-> & _). rewrite Hn.
    apply bool_decide_eq_true.
  - intros x Hx. destruct (lastn_suffix n (DuplicatePacketList.accepted sns dups)) as [k Hk].
    assert (x ∈ DuplicatePacketList.accepted sns dups) as Ha by (rewrite Hk; set_solver).
    unfold DuplicatePacketList.accepted in Ha.
    apply list_elem_of_omap in Ha as ([y dup] & Hy & Hs). destruct dup; simplify_eq.
    by apply elem_of_zip_l in Hy.
  - pose proof (f_equal length Hn) as Hlen. unfold DuplicatePacketList.numbers in Hlen.
    rewrite length_map in Hlen. rewrite Hlen. unfold recent. rewrite length_lastn. lia.
Qed.

(** The memory of geo-broadcast packets, limited to [num] identifiers and used for any
    sequence of packets, knows the [num] most recently remembered different identifiers,
    in this order; [remember] answers whether the packet is one of them, and lowering
    the limit later forgets the oldest. *)
Theorem gbc_memory_refines (num num' : Z) (ids : list (Address * Z)) (id : Address * Z) :
  let m := GbcMemory.remember_all ids (GbcMemory.set_capacity num GbcMemory.make_GbcMemory) in
  let limit := Z.to_nat (Z.max 1 num) in
  let recent := lastn limit (GbcMemory.by_recency ids) in
  GbcMemory.m_identifiers m = recent /\
  (fst (GbcMemory.remember id m) = true <-> id ∈ recent) /\
  GbcMemory.m_identifiers (GbcMemory.set_capacity num' m)
  = lastn (Nat.min (Z.to_nat (Z.max 1 num')) limit) (GbcMemory.by_recency ids) /\
  NoDup (GbcMemory.by_recency ids) /\ (forall x, x ∈ GbcMemory.by_recency ids <-> x ∈ ids).
Proof.
  intros m limit recent.
  assert (forall k, (if k <? 1 then 1 else k) = Z.max 1 k) as Hmax by (intros; bool_cases; lia).
  assert (GbcMemory.m_identifiers m = recent) as Hm.
  { unfold m, GbcMemory.set_capacity. simpl. rewrite Hmax.
    apply GbcMemory.remember_all_spec. lia. }
  split_and!; [done| | |apply GbcMemory.NoDup_by_recency|intros; apply GbcMemory.elem_of_by_recency].
  - rewrite <- Hm. unfold GbcMemory.remember, GbcMemory.knows.
    destruct (bool_decide_reflect (id ∈ GbcMemory.m_identifiers m)); naive_solver.
  - unfold GbcMemory.set_capacity at 1. cbn [GbcMemory.m_identifiers].
    rewrite GbcMemory.pop_excess_lastn, Hmax, Hm by (rewrite Hmax; lia). unfold recent, lastn.
    rewrite length_drop, drop_drop. f_equal. lia.
Qed.

Section buffer.
Context `{D : PacketBuffer.Data} `{!PacketBuffer.DataOk D}.

(** Pushing a packet succeeds exactly when the packet fits into an empty buffer.  It
    first drops the expired packets, then packets from the head, and of these no more
    than necessary; the packet is stored behind the others with its remaining lifetime,
    and the count of stored octets stays right and within the capacity. *)
Theorem packet_buffer_push (d : PacketBuffer.data) (now : Z) (b : PacketBuffer.PacketBuffer)
  (Hok : PacketBuffer.buffer_ok b) :
  let n := PacketBuffer.data_length d in
  let b' := snd (PacketBuffer.push d now b) in
  let node := (PacketBuffer.make_Expiry now (fst (PacketBuffer.reduce_lifetime 0 d)),
               snd (PacketBuffer.reduce_lifetime 0 d)) in
  fst (PacketBuffer.push d now b) = (n <=? PacketBuffer.m_capacity b) /\
  PacketBuffer.buffer_ok b' /\
  exists dropped kept,
    PacketBuffer.live now (PacketBuffer.m_nodes b) = dropped ++ kept /\
    PacketBuffer.m_nodes b' = kept ++ (if n <=? PacketBuffer.m_capacity b then [node] else []) /\
    (forall k x, dropped = k ++ [x] ->
       PacketBuffer.m_capacity b < PacketBuffer.total (x :: kept) + n).
Proof.
  intros n b' node. unfold b', PacketBuffer.push, PacketBuffer.drop. fold n.
  destruct (PacketBuffer.drop_expired_nodes_spec now b Hok) as (Hok1 & Hn1 & Hc1).
  destruct (PacketBuffer.drop_loop_spec n (PacketBuffer.drop_expired_nodes now b)
    (S (length (PacketBuffer.m_nodes (PacketBuffer.drop_expired_nodes now b)))) Hok1)
    as (Hok2 & Hc2 & dropped & Hd & Hmax & Hfit); [lia|].
  set (b2 := PacketBuffer.drop_loop _ _ _) in *. rewrite Hc1 in *. rewrite Hn1 in *.
  rewrite PacketBuffer.free_ok, Hc2 by done.
  pose proof (PacketBuffer.total_nonneg (PacketBuffer.m_nodes b2)) as Hpos.
  pose proof (PacketBuffer.data_length_size d) as Hsz. fold n in Hsz.
  assert ((PacketBuffer.m_capacity b - PacketBuffer.total (PacketBuffer.m_nodes b2) >=? n)
          = (n <=? PacketBuffer.m_capacity b)) as ->.
  { destruct Hfit as [Hfit|Hfit]; [|rewrite Hfit; simpl]; lia. }
  destruct (Z.leb_spec n (PacketBuffer.m_capacity b)) as [Hle|Hgt].
  - unfold node. destruct (PacketBuffer.reduce_lifetime 0 d) as [lt d'] eqn:Er.
    cbn [fst snd PacketBuffer.m_nodes]. split; [done|].
    pose proof (PacketBuffer.data_length_reduced 0 d) as Hred. rewrite Er in Hred. simpl in Hred.
    assert (PacketBuffer.total (PacketBuffer.m_nodes b2) + n <= PacketBuffer.m_capacity b).
    { destruct Hfit as [?|Hfit]; [done|rewrite Hfit; simpl; lia]. }
    destruct Hok2 as [Hst Hcap]. rewrite Hc2 in Hcap. split; [|by exists dropped, (PacketBuffer.m_nodes b2)].
    unfold PacketBuffer.buffer_ok. cbn [PacketBuffer.m_nodes PacketBuffer.m_stored PacketBuffer.m_capacity].
    rewrite PacketBuffer.total_app, Hst. cbn [PacketBuffer.total foldr snd]. rewrite Hred.
    fold n. rewrite wrap_id by lia. lia.
  - cbn [fst snd]. split; [done|]. split; [done|].
    exists dropped, (PacketBuffer.m_nodes b2). by rewrite app_nil_r.
Qed.

(** Flushing hands every packet that is not expired to the callback exactly once, in
    the order in which they were pushed and with its lifetime reduced by the time it
    waited, and empties the buffer before: what is stored afterwards is what the
    callback pushed.  The invariant of the buffer holds afterwards if the callback
    keeps it. *)
Theorem packet_buffer_flush {W}
  (cb : PacketBuffer.data -> W * PacketBuffer.PacketBuffer -> W * PacketBuffer.PacketBuffer)
  (now : Z) (w : W) (b : PacketBuffer.PacketBuffer) (Hok : PacketBuffer.buffer_ok b) :
  PacketBuffer.flush cb now (w, b)
  = fold_left (fun w d => cb d w)
      (map (fun node => snd (PacketBuffer.reduce_lifetime
                               (now - PacketBuffer.m_buffered_since node.1) node.2))
         (PacketBuffer.live now (PacketBuffer.m_nodes b)))
      (w, PacketBuffer.make_PacketBuffer (PacketBuffer.m_capacity b)) /\
  ((forall d w, PacketBuffer.buffer_ok w.2 -> PacketBuffer.buffer_ok (cb d w).2) ->
   PacketBuffer.buffer_ok (PacketBuffer.flush cb now (w, b)).2).
Proof.
  assert (forall nodes w0,
    fold_left (PacketBuffer.flush_node cb now) nodes w0
    = fold_left (fun w d => cb d w)
        (map (fun node => snd (PacketBuffer.reduce_lifetime
                               (now - PacketBuffer.m_buffered_since node.1) node.2))
           (PacketBuffer.live now nodes)) w0) as Heq.
  { induction nodes as [|x nodes IH]; intros w0; [done|]. simpl. rewrite IH.
    unfold PacketBuffer.live. rewrite filter_cons. unfold PacketBuffer.flush_node.
    by destruct (PacketBuffer.is_expired now x.1). }
  unfold PacketBuffer.flush. cbn [fst snd]. rewrite Heq. split; [done|]. intros Hcb.
  destruct Hok as [_ [Ht Hcap]].
  assert (PacketBuffer.buffer_ok (w, PacketBuffer.mk [] (PacketBuffer.m_capacity b) 0).2) as H0.
  { split; [done|]. simpl. pose proof (PacketBuffer.total_nonneg (PacketBuffer.m_nodes b)). lia. }
  revert H0. generalize (w, PacketBuffer.mk [] (PacketBuffer.m_capacity b) 0).
  induction (map _ _) as [|d l IH]; intros w0 H0; simpl; [done|]. auto.
Qed.

End buffer.

(** A packet with a length and a lifetime. *)
#[local] Instance sample_data : PacketBuffer.Data := {|
  PacketBuffer.data := Z * Z;
  PacketBuffer.data_length d := u64 d.1;
  PacketBuffer.reduce_lifetime t d := (Z.max 0 (d.2 - t), (d.1, Z.max 0 (d.2 - t)));
|}.

#[local] Instance sample_data_ok : PacketBuffer.DataOk sample_data.
Proof. split; [|done]. intros d. simpl. apply Z.mod_pos_bound. lia. Qed.

Definition sample_buffer : PacketBuffer.PacketBuffer :=
  snd (PacketBuffer.push (40, 5) 2 (snd (PacketBuffer.push (60, 500) 1
    (snd (PacketBuffer.push (30, 1000) 0 (PacketBuffer.make_PacketBuffer 130)))))).

Lemma packet_buffer_push_witness :
  fst (PacketBuffer.push (50, 100) 9 sample_buffer) = true.
Proof.
  destruct (packet_buffer_push (D := sample_data) (50, 100) 9 sample_buffer) as [H _]; [|exact H].
  split; vm_compute; [reflexivity|split; [discriminate|reflexivity]].
Defined.

Lemma packet_buffer_flush_witness :
  (PacketBuffer.flush (fun d w => (w.1 ++ [d], w.2)) 9 ([], sample_buffer)).1
  = [(30, 991); (60, 492)].
Proof.
  rewrite (proj1 (packet_buffer_flush (D := sample_data) (fun d w => (w.1 ++ [d], w.2)) 9 [] sample_buffer
    ltac:(split; vm_compute; [reflexivity|split; [discriminate|reflexivity]]))).
  vm_compute. reflexivity.
Defined.

(** A packet that is larger than the whole buffer is refused, but the packets that were
    stored are dropped all the same. *)
Theorem oversized_push_empties_buffer :
  fst (PacketBuffer.push (131, 100) 3 sample_buffer) = false /\
  length (PacketBuffer.m_nodes sample_buffer) = 3%nat /\
  PacketBuffer.m_nodes (snd (PacketBuffer.push (131, 100) 3 sample_buffer)) = [].
Proof. vm_compute. auto. Qed.

(** * Sequences of calls on a soft state map *)

Section calls.
Context {K V : Type} `{Countable K} `{T : !HeapTop K}.

(** The calls, with the value that the creator would make where one is needed. *)
Inductive soft_call :=
  | GetValue (created : V) (key : K)
  | GetValuePtr (key : K)
  | Refresh (created : V) (key : K)
  | WriteValue (key : K) (value : V)
  | DropExpired.

(** One call at a time: what it returns, and the map. *)
Definition soft_run (now : Z) (c : soft_call) (s : SoftStateMap K V)
  : option (option V * SoftStateMap K V) :=
  match c with
  | GetValue created k => '(s, v) ← get_value now created k s; Some (Some v, s)
  | GetValuePtr k => v ← get_value_ptr now k s; Some (v, s)
  | Refresh created k => '(s, v) ← refresh now created k s; Some (Some v, s)
  | WriteValue k v => Some (None, write_value k v s)
  | DropExpired => s ← drop_expired now s; Some (None, s)
  end.

Definition soft_spec (lifetime now : Z) (c : soft_call) (m : gmap K (V * Z))
  : option V * gmap K (V * Z) :=
  match c with
  | GetValue created k =>
      let '(m, v) := soft_get_value lifetime now created k m in (Some v, m)
  | GetValuePtr k => (soft_get_value_ptr now k m, m)
  | Refresh created k =>
      let '(m, v) := soft_refresh lifetime now created k m in (Some v, m)
  | WriteValue k v => (None, soft_write_value k v m)
  | DropExpired => (None, soft_drop_expired now m)
  end.

Fixpoint soft_runs (cs : list (Z * soft_call)) (s : SoftStateMap K V)
  : option (list (option V) * SoftStateMap K V) :=
  match cs with
  | [] => Some ([], s)
  | (now, c) :: cs =>
      '(r, s) ← soft_run now c s; '(rs, s) ← soft_runs cs s; Some (r :: rs, s)
  end.

Fixpoint soft_specs (lifetime : Z) (cs : list (Z * soft_call)) (m : gmap K (V * Z))
  : list (option V) * gmap K (V * Z) :=
  match cs with
  | [] => ([], m)
  | (now, c) :: cs =>
      let '(r, m) := soft_spec lifetime now c m in
      let '(rs, m) := soft_specs lifetime cs m in (r :: rs, m)
  end.

Context `{!HeapTopOk K T}.

Lemma soft_run_spec now c s : coherent s ->
  exists s', soft_run now c s = Some (fst (soft_spec (m_lifetime s) now c (abs s)), s') /\
    coherent s' /\ m_lifetime s' = m_lifetime s /\
    abs s' = snd (soft_spec (m_lifetime s) now c (abs s)).
Proof.
  intros Hc. destruct c as [created k|k|created k|k v|]; simpl.
  - destruct (get_value_spec now created k s Hc) as (s' & v & -> & ? & ? & E).
    rewrite <- E. simpl. eauto 10.
  - rewrite get_value_ptr_spec by done. simpl. eauto 10.
  - destruct (refresh_spec now created k s Hc) as (s' & v & -> & ? & ? & E).
    rewrite <- E. simpl. eauto 10.
  - destruct (write_value_spec k v s Hc) as (? & ? & ?). eauto 10.
  - destruct (drop_expired_spec now s Hc) as (s' & -> & ? & ? & ?). simpl. eauto 10.
Qed.

(** C36. Whatever is called on a soft state map and at whatever times, the hash map with
    its heap of expiry times answers like a map from keys to values and expiry times,
    and no call follows a handle that is gone; cleaning up always ends, and removes
    exactly the expired entries. *)
Theorem soft_state_refines (lifetime : Z) (cs : list (Z * soft_call)) :
  exists s, soft_runs cs (make_SoftStateMap lifetime)
            = Some (fst (soft_specs lifetime cs ∅), s) /\
    coherent s /\ abs s = snd (soft_specs lifetime cs ∅).
Proof.
  assert (forall s m, coherent s -> abs s = m -> m_lifetime s = lifetime ->
    exists s', soft_runs cs s = Some (fst (soft_specs lifetime cs m), s') /\
      coherent s' /\ abs s' = snd (soft_specs lifetime cs m)) as Hgen.
  { induction cs as [|[now c] cs IH]; intros s m Hc <- Hl; simpl; [eauto|].
    destruct (soft_run_spec now c s Hc) as (s1 & -> & Hc1 & Hl1 & Ha1). rewrite Hl in *.
    destruct (soft_spec lifetime now c (abs s)) as [r m1]. simpl in *.
    destruct (IH s1 m1 Hc1 Ha1 Hl1) as (s2 & -> & Hc2 & Ha2).
    destruct (soft_specs lifetime cs m1) as [rs m2]. simpl in *. eauto. }
  destruct (coherent_empty (K := K) (V := V) lifetime). by apply Hgen.
Qed.

(** Cleaning up is invisible: after it every look-up, now or later, gives what it
    would have given without it. *)
Theorem drop_expired_invisible (now later : Z) (k : K) (s : SoftStateMap K V)
  (Hc : coherent s) (Hl : now <= later) :
  exists s', drop_expired now s = Some s' /\ coherent s' /\
    get_value_ptr later k s' = get_value_ptr later k s.
Proof.
  destruct (drop_expired_spec now s Hc) as (s' & E & Hc' & _ & Ha).
  exists s'. split_and!; [done..|]. rewrite !get_value_ptr_spec by done. f_equal.
  unfold soft_get_value_ptr. rewrite Ha. unfold soft_drop_expired.
  rewrite map_lookup_filter. destruct (abs s !! k) as [[v e]|]; [|done]. simpl.
  unfold guard. destruct (decide (now <= e)); simpl; [done|].
  by replace (later >? e) with true by lia.
Qed.

End calls.

(** * Concrete inputs *)

#[local] Existing Instance sample_heap.
#[local] Existing Instance sample_heap_ok.

Lemma soft_state_refines_witness :
  exists s, soft_runs (K := nat) (V := Z)
    [(0, Refresh 7 1%nat); (3, WriteValue 1%nat 8); (5, GetValuePtr 1%nat); (11, GetValuePtr 1%nat);
     (11, DropExpired); (12, GetValue 9 1%nat)] (make_SoftStateMap 10)
    = Some ([Some 7; None; Some 8; None; None; Some 9], s) /\
    coherent s /\ abs s = <[1%nat := (9, 22)]> ∅.
Proof.
  destruct (soft_state_refines (K := nat) (V := Z) 10
    [(0, Refresh 7 1%nat); (3, WriteValue 1%nat 8); (5, GetValuePtr 1%nat); (11, GetValuePtr 1%nat);
     (11, DropExpired); (12, GetValue 9 1%nat)]) as (s & E & Hc & Ha).
  exists s. split; [exact E|]. split; [exact Hc|]. rewrite Ha. vm_compute. reflexivity.
Defined.

Lemma drop_expired_invisible_witness :
  exists s', drop_expired 3 (make_SoftStateMap (K := nat) (V := Z) 10) = Some s' /\ coherent s' /\
    get_value_ptr 4 1%nat s' = get_value_ptr 4 1%nat (make_SoftStateMap (K := nat) (V := Z) 10).
Proof.
  apply (drop_expired_invisible 3 4 1%nat (make_SoftStateMap 10)); [|lia].
  apply coherent_empty.
Defined.

(** An entry that has expired but is still stored is "resurrected" with the value it had,
    not as if it had just been created. *)
Theorem resurrected_entry_keeps_value :
  exists s, soft_runs (K := nat) (V := Z)
    [(0, GetValue 0 1%nat); (0, WriteValue 1%nat 42); (100, GetValuePtr 1%nat); (100, GetValue 0 1%nat)]
    (make_SoftStateMap 10) = Some ([Some 0; None; None; Some 42], s).
Proof. eexists. vm_compute. reflexivity. Qed.

(** * The location table *)

(** No entry has expired, as after [drop_expired]. *)
Definition up_to_date (now : Z) (t : LocationTable) : Prop :=
  forall mac entry e, abs t !! mac = Some (entry, e) -> now <= e.

Definition position_of (entry : LocationTableEntry) : option LongPositionVector :=
  if m_has_position_vector entry then Some (m_position_vector entry) else None.

(** The position vector that is known for an address. *)
Definition known_position (now : Z) (mac : MacAddress) (t : LocationTable)
  : option LongPositionVector :=
  soft_get_value_ptr now mac (abs t) ≫= position_of.

(** A valid position vector replaces an older one. *)
Definition replaces (lpv : LongPositionVector) (old : option LongPositionVector) : bool :=
  lpv_is_valid lpv && match old with
                  | Some pv => Timestamp_less (timestamp pv) (timestamp lpv)
                  | None => true
                  end.

Lemma get_position_spec now mac t : coherent t ->
  get_position now mac t = Some (known_position now mac t).
Proof.
  intros Hc. unfold get_position, known_position. rewrite get_value_ptr_spec by done. simpl.
  by destruct (soft_get_value_ptr now mac (abs t)) as [entry|].
Qed.

Lemma update_position_vector_spec lpv entry :
  fst (update_position_vector lpv entry) = replaces lpv (position_of entry) /\
  position_of (snd (update_position_vector lpv entry))
  = (if replaces lpv (position_of entry) then Some lpv else position_of entry).
Proof.
  destruct entry as [nb has pv pdr pdru dpl loctex].
  unfold update_position_vector, set_position_vector, position_of, replaces. simpl.
  destruct has; simpl; [destruct (Timestamp_less _ _)|]; by destruct (lpv_is_valid lpv).
Qed.

Lemma lookup_write_value k v (m : gmap MacAddress (LocationTableEntry * Z)) k' :
  soft_write_value k v m !! k'
  = if decide (k' = k) then '(_, e) ← m !! k; Some (v, e) else m !! k'.
Proof.
  unfold soft_write_value. destruct (decide (k' = k)) as [->|Hne].
  - rewrite lookup_alter_eq. by destruct (m !! k) as [[w e]|].
  - by rewrite lookup_alter_ne.
Qed.

Lemma lookup_refresh lt now created k (m : gmap MacAddress (LocationTableEntry * Z)) k' :
  fst (soft_refresh lt now created k m) !! k'
  = if decide (k' = k) then Some (snd (soft_refresh lt now created k m), now + lt) else m !! k'.
Proof.
  unfold soft_refresh. destruct (decide (k' = k)) as [->|Hne].
  - destruct (m !! k) as [[w e]|]; simpl; by rewrite lookup_insert_eq.
  - destruct (m !! k) as [[w e]|]; simpl; by rewrite lookup_insert_ne.
Qed.

(** The path of [update] for an address without a known position. *)
Lemma refresh_and_write now lpv t : coherent t ->
  let mac := m_mid (gn_addr lpv) in
  let entry := snd (soft_refresh (m_lifetime t) now (make_LocationTableEntry now) mac (abs t)) in
  exists t', ('(t, entry) ← refresh now (make_LocationTableEntry now) mac t;
              Some (write_value mac (snd (update_position_vector lpv entry)) t)) = Some t' /\
    coherent t' /\ m_lifetime t' = m_lifetime t /\
    forall k, abs t' !! k
      = if decide (k = mac)
        then Some (snd (update_position_vector lpv entry), now + m_lifetime t)
        else abs t !! k.
Proof.
  intros Hc mac entry.
  destruct (refresh_spec now (make_LocationTableEntry now) mac t Hc) as (t1 & v & -> & Hc1 & Hl1 & E).
  simpl. unfold entry. pose proof (lookup_refresh (m_lifetime t) now (make_LocationTableEntry now) mac
    (abs t)) as Hr. rewrite <- E in Hr |- *. cbn [fst snd] in *.
  destruct (write_value_spec mac (snd (update_position_vector lpv v)) t1 Hc1) as (Hc2 & Hl2 & Ha2).
  eexists. split; [done|]. split; [done|]. split; [congruence|]. intros k.
  rewrite Ha2, lookup_write_value, !Hr. destruct (decide (k = mac)); [|done].
  by rewrite decide_True.
Qed.

(** The path of [update] for an address with a known position. *)
Lemma write_and_refresh now (mac : MacAddress) entry e updated (t : LocationTable) :
  coherent t -> abs t !! mac = Some e ->
  exists t', (if updated : bool then fst <$> refresh now (make_LocationTableEntry now) mac
                                               (write_value mac entry t)
              else Some (write_value mac entry t)) = Some t' /\
    coherent t' /\ m_lifetime t' = m_lifetime t /\
    forall k, abs t' !! k
      = if decide (k = mac) then Some (entry, if updated then now + m_lifetime t else snd e)
        else abs t !! k.
Proof.
  intros Hc He. destruct e as [v0 e].
  destruct (write_value_spec mac entry t Hc) as (Hc1 & Hl1 & Ha1).
  destruct updated.
  - destruct (refresh_spec now (make_LocationTableEntry now) mac (write_value mac entry t) Hc1)
      as (t2 & v & -> & Hc2 & Hl2 & E). simpl. eexists. split; [done|]. split; [done|].
    split; [congruence|]. intros k.
    pose proof (lookup_refresh (m_lifetime (write_value mac entry t)) now
      (make_LocationTableEntry now) mac (abs (write_value mac entry t)) k) as Hr.
    rewrite <- E, Hl1 in Hr. cbn [fst snd] in Hr. rewrite Hr, Ha1, lookup_write_value.
    destruct (decide (k = mac)) as [->|]; [|done].
    unfold soft_refresh in E. rewrite Ha1, lookup_write_value, decide_True, He in E by done.
    simpl in E. by injection E as _ ->.
  - eexists. split; [done|]. split; [done|]. split; [done|]. intros k.
    rewrite Ha1, lookup_write_value. destruct (decide (k = mac)); [|done]. by rewrite He.
Qed.

(** Updating the location table with the position vector of a received packet, after
    the expired entries were dropped, replaces the known position of its source
    exactly when the vector is valid and newer than the known one, if there is one; the
    entry of every other address stays as it is. *)
Theorem location_table_update (now : Z) (lpv : LongPositionVector) (t : LocationTable)
  (Hc : coherent t) (Hu : up_to_date now t) (Hl : 0 <= m_lifetime t) :
  let mac := m_mid (gn_addr lpv) in
  let old := known_position now mac t in
  exists t', table_update now lpv t = Some t' /\ coherent t' /\ up_to_date now t' /\
    get_position now mac t' = Some (if replaces lpv old then Some lpv else old) /\
    (forall mac', mac' <> mac -> abs t' !! mac' = abs t !! mac').
Proof.
  intros mac old.
  assert (exists t' entry e, table_update now lpv t = Some t' /\ coherent t' /\ now <= e /\
    position_of entry = (if replaces lpv old then Some lpv else old) /\
    forall k, abs t' !! k = if decide (k = mac) then Some (entry, e) else abs t !! k)
    as (t' & entry & e & -> & Hc' & He & Hpv & Ha).
  - unfold table_update. fold mac. rewrite get_value_ptr_spec by done. simpl.
    unfold old, known_position, soft_get_value_ptr.
    destruct (refresh_and_write now lpv t Hc) as (tr & Er & Hcr & Hlr & Har). fold mac in Er, Har.
    destruct (abs t !! mac) as [[en e0]|] eqn:E; simpl.
    + pose proof (Hu _ _ _ E) as He0. replace (now >? e0) with false by lia. simpl.
      destruct (update_position_vector_spec lpv en) as [H1 H2].
      destruct (m_has_position_vector en) eqn:Eh.
      * destruct (update_position_vector lpv en) as [updated en']. cbn [fst snd] in *.
        destruct (write_and_refresh now mac en' (en, e0) updated t Hc E) as (t' & -> & ? & ? & Ha).
        exists t', en', (if updated then now + m_lifetime t else e0). split_and!; auto.
        destruct updated; lia.
      * rewrite Er. eexists _, _, _. split; [done|]. split; [done|]. split; [|split; [|exact Har]].
        { lia. } { unfold soft_refresh. rewrite E. exact H2. }
    + rewrite Er. eexists _, _, _. split; [done|]. split; [done|]. split; [|split; [|exact Har]].
      { lia. } { unfold soft_refresh. rewrite E. apply update_position_vector_spec. }
  - exists t'. split; [done|]. split; [done|]. split; [|split].
    + intros k en e0 Hk. rewrite Ha in Hk. destruct (decide (k = mac)); [by simplify_eq|].
      by eapply Hu.
    + rewrite get_position_spec by done. unfold known_position, soft_get_value_ptr.
      rewrite Ha, decide_True by done. simpl. replace (now >? e) with false by lia.
      simpl. by rewrite Hpv.
    + intros k Hne. by rewrite Ha, decide_False.
Qed.

(** * Duplicate packets *)

(** The duplicate packet list of an entry, which is created when it is first needed. *)
Definition list_of (n : nat) (mac : MacAddress) (t : LocationTable)
  : DuplicatePacketList.DuplicatePacketList :=
  default (DuplicatePacketList.make_DuplicatePacketList n) ('(entry, _) ← abs t !! mac; m_dpl entry).

Lemma detect_duplicate_packet_spec n now addr num t : coherent t ->
  exists t', detect_duplicate_packet n now addr num t
    = Some (fst (DuplicatePacketList.check num (list_of n (m_mid addr) t)), t') /\
    coherent t' /\
    forall mac, list_of n mac t'
      = if decide (mac = m_mid addr)
        then snd (DuplicatePacketList.check num (list_of n mac t)) else list_of n mac t.
Proof.
  intros Hc. unfold detect_duplicate_packet, get_or_create_entry.
  destruct (get_value_spec now (make_LocationTableEntry now) (m_mid addr) t Hc)
    as (t1 & entry & -> & Hc1 & _ & E). simpl.
  assert (match m_dpl entry with Some dpl => dpl | None => DuplicatePacketList.make_DuplicatePacketList n end
          = list_of n (m_mid addr) t /\
          (exists e, abs t1 !! m_mid addr = Some (entry, e)) /\
          forall mac, mac <> m_mid addr -> abs t1 !! mac = abs t !! mac) as (-> & [e He] & Hne).
  { unfold soft_get_value in E. unfold list_of.
    destruct (abs t !! m_mid addr) as [[v e]|] eqn:Ea; simpl.
    - destruct (now >? e); injection E as -> ->; (split; [by destruct (m_dpl v)|]);
        (split; [by rewrite ?lookup_insert_eq; eauto|]); intros mac Hm;
        by rewrite ?lookup_insert_ne.
    - injection E as -> ->. split; [done|]. split; [by rewrite lookup_insert_eq; eauto|].
      intros mac Hm. by rewrite lookup_insert_ne. }
  destruct (DuplicatePacketList.check num (list_of n (m_mid addr) t)) as [dup dpl] eqn:Ec.
  set (entry' := set_dpl _ _).
  destruct (write_value_spec (m_mid addr) entry' t1 Hc1) as (Hc2 & _ & Ha2).
  eexists. split; [done|]. split; [done|]. intros mac. unfold list_of at 1.
  rewrite Ha2, lookup_write_value, He. destruct (decide (mac = m_mid addr)) as [->|Hm].
  - simpl. by rewrite Ec.
  - by rewrite Hne.
Qed.

(** What the router does to its location table when a packet arrives, with the time of each
    call: it drops the expired entries, checks the number of the packet, and enters the
    position of the source. *)
Inductive table_call :=
  | CheckNumber (now : Z) (addr : Address) (num : Z)
  | CleanUp (now : Z)
  | EnterPosition (now : Z) (lpv : LongPositionVector).

(** A call, with the report if it checks a number. *)
Definition table_step (n : nat) (c : table_call) (t : LocationTable) : option (list bool * LocationTable) :=
  match c with
  | CheckNumber now addr num => '(dup, t) ← detect_duplicate_packet n now addr num t; Some ([dup], t)
  | CleanUp now => t ← drop_expired now t; Some ([], t)
  | EnterPosition now lpv => t ← table_update now lpv t; Some ([], t)
  end.

Fixpoint table_run (n : nat) (calls : list table_call) (t : LocationTable) : option (list bool * LocationTable) :=
  match calls with
  | [] => Some ([], t)
  | c :: calls =>
      '(dups, t) ← table_step n c t;
      '(rest, t) ← table_run n calls t;
      Some (dups ++ rest, t)
  end.

(** ** The reference: what is remembered of a source *)

Record source := mk_source {
  s_numbers : list Z;
  s_position : option LongPositionVector;
  s_expiry : Z;
}.

Definition new_source (expiry : Z) : source := mk_source [] None expiry.

Definition remember_number (n : nat) (num : Z) (numbers : list Z) : list Z :=
  if bool_decide (num ∈ numbers) then numbers else lastn n (numbers ++ [num]).

(** A source is made when it is first heard, and lives for [lt] from then on and from every
    newer position it reports; it is forgotten when expired sources are dropped. *)
Definition source_step (lt : Z) (n : nat) (c : table_call) (m : gmap MacAddress source)
  : list bool * gmap MacAddress source :=
  match c with
  | CheckNumber now addr num =>
      let s := default (new_source (now + lt)) (m !! m_mid addr) in
      ([bool_decide (num ∈ s_numbers s)],
       <[m_mid addr := mk_source (remember_number n num (s_numbers s)) (s_position s)
                         (if now >? s_expiry s then now + lt else s_expiry s)]> m)
  | CleanUp now => ([], filter (fun '(_, s) => now <= s_expiry s) m)
  | EnterPosition now lpv =>
      let mac := m_mid (gn_addr lpv) in
      let s := default (new_source (now + lt)) (m !! mac) in
      let current := bool_decide (is_Some (m !! mac)) && negb (now >? s_expiry s) && bool_decide (is_Some (s_position s)) in
      let newer := replaces lpv (s_position s) in
      ([], <[mac := mk_source (s_numbers s) (if newer then Some lpv else s_position s)
                      (if current && negb newer then s_expiry s else now + lt)]> m)
  end.

Fixpoint source_run (lt : Z) (n : nat) (calls : list table_call) (m : gmap MacAddress source)
  : list bool * gmap MacAddress source :=
  match calls with
  | [] => ([], m)
  | c :: calls =>
      let '(dups, m) := source_step lt n c m in
      let '(rest, m) := source_run lt n calls m in
      (dups ++ rest, m)
  end.

(** ** The table refines it *)

Definition numbers_of (e : LocationTableEntry) : list Z := from_option DuplicatePacketList.numbers [] (m_dpl e).

Definition source_of (x : LocationTableEntry * Z) : source := mk_source (numbers_of x.1) (position_of x.1) x.2.

Record tracks (lt : Z) (n : nat) (t : LocationTable) (m : gmap MacAddress source) : Prop := {
  tr_coherent : coherent t;
  tr_lifetime : m_lifetime t = lt;
  tr_sources mac : m !! mac = source_of <$> abs t !! mac;
  tr_capacity mac e x d : abs t !! mac = Some (e, x) -> m_dpl e = Some d -> DuplicatePacketList.capacity d = n;
}.

Lemma tracks_insert lt n t t' m mac e x : tracks lt n t m -> coherent t' -> m_lifetime t' = lt ->
  (forall k, abs t' !! k = if decide (k = mac) then Some (e, x) else abs t !! k) ->
  (forall d, m_dpl e = Some d -> DuplicatePacketList.capacity d = n) ->
  tracks lt n t' (<[mac := source_of (e, x)]> m).
Proof.
  intros [Hc Hl Hs Hcap] Hc' Hl' Ha He. split; [done|done| |].
  - intros k. rewrite Ha. destruct (decide (k = mac)) as [->|Hne]; [by rewrite lookup_insert_eq|]. by rewrite lookup_insert_ne by done.
  - intros k e' x' d. rewrite Ha. destruct (decide (k = mac)) as [->|Hne]; [intros [= <- <-]; apply He|apply Hcap].
Qed.

Lemma tracks_detect lt n now addr num t m : tracks lt n t m ->
  exists t', table_step n (CheckNumber now addr num) t = Some ((source_step lt n (CheckNumber now addr num) m).1, t') /\
    tracks lt n t' (source_step lt n (CheckNumber now addr num) m).2.
Proof.
  intros Ht. pose proof Ht as [Hc Hl Hs Hcap]. cbn [table_step source_step fst snd]. set (mac := m_mid addr).
  unfold detect_duplicate_packet, get_or_create_entry. fold mac.
  destruct (get_value_spec now (make_LocationTableEntry now) mac t Hc) as (t1 & entry & -> & Hc1 & Hl1 & E). cbn [mbind option_bind].
  set (dpl := match m_dpl entry with Some d => d | None => _ end).
  set (s := default (new_source (now + lt)) (m !! mac)). set (x := if now >? s_expiry s then now + lt else s_expiry s).
  assert (DuplicatePacketList.numbers dpl = s_numbers s /\ position_of entry = s_position s /\ DuplicatePacketList.capacity dpl = n /\
    abs t1 !! mac = Some (entry, x) /\ forall k, k <> mac -> abs t1 !! k = abs t !! k) as (En & Ep & Ecap & Ea & Hne).
  { unfold x, s, dpl. rewrite Hs. unfold soft_get_value in E. destruct (abs t !! mac) as [[v e]|] eqn:Em; cbn.
    - assert (entry = v) as -> by (by destruct (now >? e); injection E). split_and!.
      + unfold numbers_of. by destruct (m_dpl v).
      + done.
      + destruct (m_dpl v) as [d|] eqn:Ed; [|done]. by eapply Hcap.
      + destruct (now >? e); injection E as ->; [by rewrite lookup_insert_eq, Hl|done].
      + intros k Hk. destruct (now >? e); injection E as ->; [by rewrite lookup_insert_ne by done|done].
    - injection E as -> ->. rewrite Hl. split_and!; try done; [|intros k Hk; by rewrite lookup_insert_ne].
      rewrite lookup_insert_eq. by destruct (now >? now + lt). }
  destruct (DuplicatePacketList.check_spec num dpl) as (E1 & E2 & E3).
  destruct (DuplicatePacketList.check num dpl) as [dup dpl']. cbn [fst snd] in *.
  set (entry' := set_dpl dpl' entry). destruct (write_value_spec mac entry' t1 Hc1) as (Hc2 & Hl2 & Ha2).
  eexists. split; [by rewrite E1, En|].
  assert (source_of (entry', x) = mk_source (remember_number n num (s_numbers s)) (s_position s) x) as <-.
  { unfold source_of, numbers_of, remember_number. cbn. rewrite E2, En, Ecap. f_equal. exact Ep. }
  eapply tracks_insert; [exact Ht|done|congruence| |].
  - intros k. rewrite Ha2, lookup_write_value. destruct (decide (k = mac)); [by rewrite Ea|by apply Hne].
  - intros d [= <-]. congruence.
Qed.

Lemma tracks_drop lt n now t m : tracks lt n t m ->
  exists t', table_step n (CleanUp now) t = Some ([], t') /\ tracks lt n t' (source_step lt n (CleanUp now) m).2.
Proof.
  intros [Hc Hl Hs Hcap]. cbn [table_step source_step snd].
  destruct (drop_expired_spec now t Hc) as (t' & -> & Hc' & Hl' & Ha). cbn [mbind option_bind]. exists t'. split; [done|].
  assert (forall k, abs t' !! k = '(e, x) ← abs t !! k; if decide (now <= x) then Some (e, x) else None) as Hk.
  { intros k. rewrite Ha. unfold soft_drop_expired. rewrite map_lookup_filter. destruct (abs t !! k) as [[e x]|]; [|done].
    cbn. case_guard; try case_decide; done. }
  split; [done|congruence| |].
  - intros k. rewrite map_lookup_filter, Hs, Hk. destruct (abs t !! k) as [[e x]|]; [|done]. cbn.
    case_guard; try case_decide; done.
  - intros k e x d. rewrite Hk. destruct (abs t !! k) as [[e' x']|] eqn:E; [|done]. cbn. destruct (decide (now <= x')); [|done].
    intros [= <- <-]. by eapply Hcap.
Qed.

Lemma updated_entry lpv e :
  numbers_of (snd (update_position_vector lpv e)) = numbers_of e /\ m_dpl (snd (update_position_vector lpv e)) = m_dpl e.
Proof.
  unfold update_position_vector, set_position_vector, numbers_of.
  destruct (m_has_position_vector e); [destruct (Timestamp_less _ _)|]; by destruct (lpv_is_valid lpv).
Qed.

Lemma tracks_update lt n now lpv t m : tracks lt n t m ->
  exists t', table_step n (EnterPosition now lpv) t = Some ([], t') /\ tracks lt n t' (source_step lt n (EnterPosition now lpv) m).2.
Proof.
  intros Ht. pose proof Ht as [Hc Hl Hs Hcap]. cbn [table_step source_step snd]. set (mac := m_mid (gn_addr lpv)).
  destruct (refresh_and_write now lpv t Hc) as (tr & Er & Hcr & Hlr & Har). fold mac in Er, Har. rewrite Hl in Har.
  unfold table_update. fold mac. rewrite get_value_ptr_spec by done. cbn [mbind option_bind].
  unfold soft_get_value_ptr. rewrite Hs. unfold soft_refresh in Er, Har.
  destruct (abs t !! mac) as [[e x]|] eqn:Em; cbn [mbind option_bind fmap option_fmap option_map default from_option source_of
    s_numbers s_position s_expiry fst snd] in *.
  2: { rewrite Er. cbn [mbind option_bind]. exists tr. split; [done|]. cbn.
    destruct (updated_entry lpv (make_LocationTableEntry now)) as [En Ed].
    destruct (update_position_vector_spec lpv (make_LocationTableEntry now)) as [_ Ep].
    eassert (mk_source _ _ _ = source_of (snd (update_position_vector lpv (make_LocationTableEntry now)), now + lt)) as ->;
      [|eapply tracks_insert; [exact Ht|done|congruence|exact Har|]].
    - unfold source_of. cbn [fst snd]. by rewrite En, Ep.
    - intros d. by rewrite Ed. }
  rewrite bool_decide_true by done. change (id (source_of (e, x))) with (mk_source (numbers_of e) (position_of e) x).
  cbn [andb s_numbers s_position s_expiry]. destruct (updated_entry lpv e) as [En Ed].
  destruct (update_position_vector_spec lpv e) as [Eu Ep].
  assert (forall d, m_dpl (snd (update_position_vector lpv e)) = Some d -> DuplicatePacketList.capacity d = n) as Hd.
  { intros d. rewrite Ed. by eapply Hcap. }
  assert (source_of (snd (update_position_vector lpv e), now + lt) =
    mk_source (numbers_of e) (if replaces lpv (position_of e) then Some lpv else position_of e) (now + lt)) as Efresh.
  { unfold source_of. cbn [fst snd]. by rewrite En, Ep. }
  assert (tracks lt n tr (<[mac := mk_source (numbers_of e)
    (if replaces lpv (position_of e) then Some lpv else position_of e) (now + lt)]> m)) as Hfresh.
  { rewrite <- Efresh. eapply tracks_insert; [exact Ht|done|congruence|exact Har|exact Hd]. }
  destruct (now >? x); cbn [negb andb].
  { rewrite Er. cbn [mbind option_bind]. by exists tr. }
  unfold position_of in *. destruct (m_has_position_vector e) eqn:Eh.
  2: { rewrite Er. cbn [mbind option_bind]. rewrite bool_decide_false by (by intros [? ?]). by exists tr. }
  rewrite bool_decide_true by done. cbn [andb].
  destruct (update_position_vector lpv e) as [updated e']. cbn [fst snd] in *. subst updated.
  destruct (write_and_refresh now mac e' (e, x) (replaces lpv (Some (m_position_vector e))) t Hc Em) as (t2 & -> & Hc2 & Hl2 & Ha2).
  cbn [mbind option_bind]. exists t2. split; [done|]. rewrite Hl in Ha2. cbn [snd] in Ha2.
  eassert (mk_source _ _ _ = source_of (e', if replaces lpv (Some (m_position_vector e)) then now + lt else x)) as ->;
    [|eapply tracks_insert; [exact Ht|done|congruence|exact Ha2|exact Hd]].
  unfold source_of. cbn [fst snd]. rewrite En. unfold position_of. rewrite Ep. by destruct (replaces _ _).
Qed.

(** C37. The detection of duplicates over every history of the calls that the router makes on
    its location table (checks of sequence numbers, dropping of expired entries, updates of
    positions) at any times: every call returns, and a packet is reported as duplicate
    exactly when its number is among the last [n] unreported numbers that are remembered of
    the source with its MAC address.  A source is remembered from its first packet on until
    expired entries are dropped after its lifetime has passed since then, or since the last
    newer position that it reported; what was remembered of it is then forgotten. *)
Theorem duplicate_packet_detection (n : nat) (lifetime : double) (calls : list table_call) :
  let lt := 1000000 * int64_of lifetime in
  exists t, table_run n calls (make_LocationTable lifetime) = Some ((source_run lt n calls ∅).1, t) /\
    forall mac, (source_run lt n calls ∅).2 !! mac = source_of <$> abs t !! mac.
Proof.
  intros lt. assert (forall calls t m, tracks lt n t m ->
    exists t', table_run n calls t = Some ((source_run lt n calls m).1, t') /\ tracks lt n t' (source_run lt n calls m).2) as Hrun.
  { clear calls. induction calls as [|c calls IH]; intros t m Ht; [by exists t|]. cbn [table_run source_run].
    assert (exists t', table_step n c t = Some ((source_step lt n c m).1, t') /\ tracks lt n t' (source_step lt n c m).2)
      as (t1 & -> & Ht1) by (destruct c; [by apply tracks_detect|by apply tracks_drop|by apply tracks_update]).
    destruct (source_step lt n c m) as [dups m1]. cbn [mbind option_bind fst snd] in *.
    destruct (IH t1 m1 Ht1) as (t2 & -> & Ht2). destruct (source_run lt n calls m1) as [rest m2]. by exists t2. }
  destruct (coherent_empty (K := MacAddress) (V := LocationTableEntry) lt) as [Hc0 Ha0].
  destruct (Hrun calls (make_SoftStateMap lt) ∅) as (t & E & Ht).
  { split; [done|done| |]; intros mac; [by rewrite Ha0, !lookup_empty|]. intros e x d. by rewrite Ha0, lookup_empty. }
  exists t. split; [exact E|apply Ht].
Qed.

(** Two packets with one number: the second is a duplicate, unless the source was forgotten. *)
Example silent_source_is_forgotten :
  let first := [CleanUp 0; CheckNumber 0 default_Address 7; CleanUp 5000000; CheckNumber 5000000 default_Address 7] in
  option_map fst (table_run 8 first (make_LocationTable (double_of 20))) = Some [false; true] /\
  option_map fst (table_run 8 (first ++ [CleanUp 20000001; CheckNumber 20000001 default_Address 7]) (make_LocationTable (double_of 20))) =
    Some [false; true; false].
Proof. by vm_compute. Qed.

Lemma location_table_update_witness :
  exists t', table_update 5
      (mk_LongPositionVector default_Address 70 1 1 true 0 0) (make_LocationTable (double_of 20)) = Some t' /\
    get_position 5 default_MacAddress t'
    = Some (Some (mk_LongPositionVector default_Address 70 1 1 true 0 0)).
Proof.
  destruct (location_table_update 5
    (mk_LongPositionVector default_Address 70 1 1 true 0 0) (make_LocationTable (double_of 20)))
    as (t' & H1 & _ & _ & H2 & _).
  - apply coherent_empty.
  - intros mac entry e. vm_compute. destruct mac; discriminate.
  - vm_compute. discriminate.
  - exists t'. split; [exact H1|]. refine (eq_trans H2 _). vm_compute. reflexivity.
Defined.

(** * Passing geo-broadcasts up *)






