(* ===== verification/GeoPending.v ===== *)
(** * Pending packets and next hops

    geonet/pending_packet.hpp, next_hop.cpp, link_layer.hpp and the class CbfPacket of
    cbf_packet_buffer.cpp.  A pending packet is a packet with a function that continues
    its processing.  The functions that the router makes are values of the inductive types
    [MacAction] and [GbcAction], a constructor for each lambda expression with what the
    expression captures; router.cpp's [process] is their interpretation.

    The pointers of a pending packet are null only after the packet was moved away, which
    the code does at the end of its use: here a packet always has both its parts. *)

From Stdlib Require Import ZArith Lia.
From stdpp Require Import prelude gmap.
From S2P Require Import Prelude GeoSerial GeoHeaders GeoPdu Double Asn1Wrapper NetPackets GeoArea GeoRequest.
From S2P Require Import GeoContainers SoftState CbfBuffer.

Open Scope Z_scope.

Record LinkLayer := mk_LinkLayer { sender : MacAddress; destination : MacAddress }.

(** What the lambda expressions keep of a request. *)
Record ControlInfo := mk_ControlInfo {
  c_communication_profile : CommunicationProfile;
  c_its_aid : Z;
  c_permissions : bytes;
}.

Definition make_ControlInfo (request : DataRequest) : ControlInfo :=
  mk_ControlInfo (communication_profile request) (its_aid request) (permissions request).

(** Actions that need the address of the next hop: [transmit] of a geo-broadcast request,
    [transmit] of a forwarded geo-broadcast, and [noop_fn]. *)
Inductive MacAction :=
  | SourceTransmit (ctrl : ControlInfo)
  | ForwardTransmit
  | Noop.

(** Actions of a geo-broadcast without further arguments: [forwarding] of a request,
    [forwarding] of a received packet, [greedy_fwd] around an action, and an action bound
    to an address. *)
Inductive GbcAction :=
  | SourceForwarding (ctrl : ControlInfo)
  | Forwarding (ll : LinkLayer)
  | GreedyForwarding (action : MacAction)
  | Bound (action : MacAction) (mac : MacAddress).

Section pending.
Context `{SecuredArchive}.

Abbreviation Packet H := (ExtendedPdu H * DownPacket)%type.

Record PendingPacketForwarding := mk_Forwarding {
  f_packet : Packet GeoBroadcastHeader;
  f_action : MacAction;
}.

(** What the forwarding buffers hold: [PendingPacketBufferData] of three kinds of packets. *)
Inductive PendingPacket :=
  | PendingShb (packet : Packet ShbHeader) (ctrl : ControlInfo)
  | PendingTsb (packet : Packet TsbHeader)
  | PendingGbc (packet : Packet GeoBroadcastHeader) (action : GbcAction).

(** * Operations on the packet of a pending packet *)

Definition packet_length {H} (variant : H -> HeaderVariant) (packet : Packet H) : Z :=
  u64 (Pdu_get_length (as_Pdu variant packet.1)
       + chunk_size_of_layers Transport max_osi_layer packet.2).

Definition packet_reduce_lifetime {H} (queuing_time : Z) (packet : Packet H) : Z * Packet H :=
  let '(pdu, payload) := packet in
  let packet_lifetime := clock_cast (Lifetime_decode (lifetime (e_basic pdu))) in
  if queuing_time <=? 0 then (packet_lifetime, packet)
  else if queuing_time <? packet_lifetime then
    let remaining := packet_lifetime - queuing_time in
    (remaining, (set_e_basic (set_lifetime (Lifetime_encode (seconds_of remaining)) (e_basic pdu)) pdu,
                 payload))
  else (0, (set_e_basic (set_lifetime Lifetime_zero (e_basic pdu)) pdu, payload)).

(** [duplicate()]: the payload of a secured packet is part of its secured message. *)
Definition packet_duplicate {H} (packet : Packet H) : Packet H :=
  let '(pdu, payload) := packet in
  (pdu, match e_secured pdu with Some _ => make_ChunkPacket | None => copy_ChunkPacket payload end).

Definition duplicate_forwarding (p : PendingPacketForwarding) : PendingPacketForwarding :=
  mk_Forwarding (packet_duplicate (f_packet p)) (f_action p).

(** * Packets in the forwarding buffers *)

Definition pending_length (p : PendingPacket) : Z :=
  match p with
  | PendingShb packet _ => packet_length VShb packet
  | PendingTsb packet => packet_length VTsb packet
  | PendingGbc packet _ => packet_length VGeoBroadcast packet
  end.

Definition pending_reduce_lifetime (d : Z) (p : PendingPacket) : Z * PendingPacket :=
  match p with
  | PendingShb packet ctrl =>
      let '(remaining, packet) := packet_reduce_lifetime d packet in
      (remaining, PendingShb packet ctrl)
  | PendingTsb packet =>
      let '(remaining, packet) := packet_reduce_lifetime d packet in
      (remaining, PendingTsb packet)
  | PendingGbc packet action =>
      let '(remaining, packet) := packet_reduce_lifetime d packet in
      (remaining, PendingGbc packet action)
  end.

#[export] Instance PendingPacketBufferData : PacketBuffer.Data := {|
  PacketBuffer.data := PendingPacket;
  PacketBuffer.data_length := pending_length;
  PacketBuffer.reduce_lifetime := pending_reduce_lifetime;
|}.

(** * Packets of contention-based forwarding *)

(** CbfPacket, made from a packet for forwarding: its action is bound to the broadcast
    address.  (The constructor from a packet without arguments is not used.) *)
Record CbfPacket := mk_CbfPacket {
  cbf_inner : PendingPacketForwarding;
  cbf_sender : MacAddress;
}.

Definition gbc_identifier (gbc : GeoBroadcastHeader) : CbfPacketIdentifier :=
  (gn_addr (gbc_source_position gbc), gbc_sequence_number gbc).

Definition set_cbf_packet (packet : Packet GeoBroadcastHeader) (p : CbfPacket) : CbfPacket :=
  mk_CbfPacket (mk_Forwarding packet (f_action (cbf_inner p))) (cbf_sender p).

#[export] Instance CbfPacketData : CbfData := {|
  cbf_packet := CbfPacket;
  cbf_length p := packet_length VGeoBroadcast (f_packet (cbf_inner p));
  cbf_reduce_lifetime d p :=
    let '(remaining, packet) := packet_reduce_lifetime d (f_packet (cbf_inner p)) in
    (remaining, set_cbf_packet packet p);
  identifier p := gbc_identifier (e_extended (f_packet (cbf_inner p)).1);
|}.

(** * Next hops *)

Inductive NextHop :=
  | Valid (packet : PendingPacketForwarding) (mac : MacAddress)
  | Discarded
  | Buffered.

Definition nh_valid (nh : NextHop) : bool := if nh is Valid _ _ then true else false.
Definition nh_discarded (nh : NextHop) : bool := if nh is Discarded then true else false.
Definition nh_buffered (nh : NextHop) : bool := if nh is Buffered then true else false.

(** * Lemmas *)

Lemma u64_range z : 0 <= u64 z < 2 ^ 64.
Proof. apply Z.mod_pos_bound. lia. Qed.

Lemma packet_reduce_lifetime_same {X} d (packet : Packet X) :
  let packet' := snd (packet_reduce_lifetime d packet) in
  e_common packet'.1 = e_common packet.1 /\ e_extended packet'.1 = e_extended packet.1 /\
  e_secured packet'.1 = e_secured packet.1 /\ packet'.2 = packet.2 /\
  basic_next_header (e_basic packet'.1) = basic_next_header (e_basic packet.1) /\
  hop_limit (e_basic packet'.1) = hop_limit (e_basic packet.1).
Proof.
  destruct packet as [[b c e s] payload]. unfold packet_reduce_lifetime. simpl.
  by destruct (_ <=? _); [|destruct (_ <? _)].
Qed.

Lemma packet_length_reduced {X} variant d (packet : Packet X) :
  packet_length variant (snd (packet_reduce_lifetime d packet)) = packet_length variant packet.
Proof.
  pose proof (packet_reduce_lifetime_same d packet) as (_ & He & Hs & Hp & _).
  unfold packet_length, Pdu_get_length, as_Pdu. simpl. by rewrite He, Hs, Hp.
Qed.

#[export] Instance PendingPacketBufferData_ok : PacketBuffer.DataOk PendingPacketBufferData.
Proof.
  split.
  - intros [p c|p|p a]; apply u64_range.
  - intros t [p c|p|p a]; simpl;
      [pose proof (packet_length_reduced VShb t p) as E|pose proof (packet_length_reduced VTsb t p) as E
      |pose proof (packet_length_reduced VGeoBroadcast t p) as E]; by destruct (packet_reduce_lifetime t p).
Qed.

#[export] Instance CbfPacketData_ok : CbfDataOk CbfPacketData.
Proof.
  split.
  - intros p. apply u64_range.
  - intros t p. simpl. pose proof (packet_length_reduced VGeoBroadcast t (f_packet (cbf_inner p))) as E.
    by destruct (packet_reduce_lifetime t _).
  - intros t p. simpl. pose proof (packet_reduce_lifetime_same t (f_packet (cbf_inner p))) as (_ & He & _).
    destruct (packet_reduce_lifetime t _). simpl in *. by rewrite He.
Qed.

End pending.

Abbreviation Packet H := (ExtendedPdu H * DownPacket)%type.
