(* ===== verification/GeoIndication.v ===== *)
(** * Indications and the contexts in which received packets are parsed

    geonet/data_indication.hpp, indication_context.cpp, variant_pdu.cpp, and what the
    security layer reports (security/decap_service.cpp, encap_service.hpp).  The four
    classes of contexts are the constructors of [ContextKind]; what the classes share is
    in the record [IndicationContext]. *)

From Stdlib Require Import ZArith Lia.
From stdpp Require Import prelude strings.
From S2P Require Import Prelude GeoSerial GeoHeaders GeoPdu Double Asn1Wrapper NetPackets GeoArea GeoRequest GeoPending.

Open Scope Z_scope.

(** * The security entity *)

Inductive VerificationReport :=
  | Success
  | False_Signature
  | Invalid_Certificate
  | Revoked_Certificate
  | Inconsistent_Chain
  | Invalid_Timestamp
  | Duplicate_Message
  | Invalid_Mobility_Data
  | Unsigned_Message
  | Signer_Certificate_Not_Found
  | Unsupported_Signer_Identifier_Type
  | Incompatible_Protocol
  | Configuration_Problem.

#[export] Instance VerificationReport_eq_dec : EqDecision VerificationReport.
Proof. solve_decision. Defined.

(** boost::variant<boost::blank, VerificationReport>. *)
Abbreviation DecapReport := (option VerificationReport).

Definition is_successful (report : DecapReport) : bool :=
  match report with
  | Some report => bool_decide (report = Success)
  | None => false
  end.

Section packets.
Context `{SecuredArchive}.

Record SignRequest := mk_SignRequest {
  plain_message : DownPacket;
  sign_its_aid : Z;
  sign_permissions : bytes;
}.

Inductive EncapConfirm := Encapsulated (msg : SecuredMessage) | SignConfirmError.

(** The members that the router reads. *)
Record DecapConfirm := mk_DecapConfirm {
  plaintext_payload : PacketVariant;
  report : DecapReport;
  decap_its_aid : Z;
  decap_permissions : bytes;
}.

End packets.

(** The interface security::SecurityEntity: both functions may change the entity and may
    throw. *)
Class SecurityEntity `{SecuredArchive} := {
  entity : Type;
  encapsulate_packet : SignRequest -> entity -> cpp EncapConfirm * entity;
  decapsulate_packet : SecuredMessage -> entity -> cpp DecapConfirm * entity;
}.

(** * Indications *)

Inductive DestinationVariant :=
  | DestinationAddress (a : Address)
  | DestinationArea (a : Area)
  | DestinationNull.

Record ShortPositionVector := mk_ShortPositionVector {
  s_gn_addr : Address;
  s_timestamp : Timestamp;
  s_latitude : Z;
  s_longitude : Z;
}.

Definition ShortPositionVector_of (lpv : LongPositionVector) : ShortPositionVector :=
  mk_ShortPositionVector (gn_addr lpv) (timestamp lpv) (latitude lpv) (longitude lpv).

Record DataIndication := mk_DataIndication {
  i_upper_protocol : UpperProtocol;
  i_transport_type : TransportType;
  i_destination : DestinationVariant;
  i_source_position : ShortPositionVector;
  i_security_report : DecapReport;
  i_its_aid : option Z;
  i_permissions : option bytes;
  i_traffic_class : TrafficClass;
  i_remaining_packet_lifetime : option Lifetime;
  i_remaining_hop_limit : option Z;
}.

(** The first two members have no initial value in the source; both are assigned before
    the indication leaves the router. *)
Definition default_DataIndication : DataIndication :=
  mk_DataIndication Upper_Unknown SHB (DestinationAddress default_Address)
    (mk_ShortPositionVector default_Address 0 0 0) None None None 0 None None.

Definition set_remaining (l : Lifetime) (hops : Z) (i : DataIndication) : DataIndication :=
  mk_DataIndication (i_upper_protocol i) (i_transport_type i) (i_destination i)
    (i_source_position i) (i_security_report i) (i_its_aid i) (i_permissions i)
    (i_traffic_class i) (Some l) (Some hops).

Definition set_security_report (r : DecapReport) (i : DataIndication) : DataIndication :=
  mk_DataIndication (i_upper_protocol i) (i_transport_type i) (i_destination i)
    (i_source_position i) r (i_its_aid i) (i_permissions i)
    (i_traffic_class i) (i_remaining_packet_lifetime i) (i_remaining_hop_limit i).

Definition set_signer (aid : Z) (ssp : bytes) (i : DataIndication) : DataIndication :=
  mk_DataIndication (i_upper_protocol i) (i_transport_type i) (i_destination i)
    (i_source_position i) (i_security_report i) (Some aid) (Some ssp)
    (i_traffic_class i) (i_remaining_packet_lifetime i) (i_remaining_hop_limit i).

Definition set_common_fields (tc : TrafficClass) (proto : UpperProtocol) (i : DataIndication)
  : DataIndication :=
  mk_DataIndication proto (i_transport_type i) (i_destination i)
    (i_source_position i) (i_security_report i) (i_its_aid i) (i_permissions i)
    tc (i_remaining_packet_lifetime i) (i_remaining_hop_limit i).

Definition set_transport (tt : TransportType) (pv : ShortPositionVector) (i : DataIndication)
  : DataIndication :=
  mk_DataIndication (i_upper_protocol i) tt (i_destination i)
    pv (i_security_report i) (i_its_aid i) (i_permissions i)
    (i_traffic_class i) (i_remaining_packet_lifetime i) (i_remaining_hop_limit i).

Definition set_indication_destination (d : DestinationVariant) (i : DataIndication) : DataIndication :=
  mk_DataIndication (i_upper_protocol i) (i_transport_type i) d
    (i_source_position i) (i_security_report i) (i_its_aid i) (i_permissions i)
    (i_traffic_class i) (i_remaining_packet_lifetime i) (i_remaining_hop_limit i).

(** * Contexts *)

Section contexts.
Context `{SecuredArchive}.

Inductive ContextKind :=
  | Deserialize (packet : CohesivePacket.CohesivePacket) (parser : Parser)
  | Cast (packet : ChunkPacket)
  | SecuredDeserialize (parent : ContextKind) (packet : CohesivePacket.CohesivePacket)
      (parser : Parser)
  | SecuredCast (packet : UpPacket).

Record IndicationContext := mk_Context {
  link_layer : LinkLayer;
  service_primitive : DataIndication;
  pdu : Pdu;
  kind : ContextKind;
}.

Definition set_service_primitive (v : DataIndication) (c : IndicationContext) : IndicationContext :=
  mk_Context (link_layer c) v (pdu c) (kind c).
Definition set_pdu (v : Pdu) (c : IndicationContext) : IndicationContext :=
  mk_Context (link_layer c) (service_primitive c) v (kind c).
Definition set_kind (v : ContextKind) (c : IndicationContext) : IndicationContext :=
  mk_Context (link_layer c) (service_primitive c) (pdu c) v.

Definition set_pdu_basic (v : BasicHeader) (p : Pdu) : Pdu :=
  mk_Pdu v (common p) (extended p) (secured p).
Definition set_pdu_common (v : CommonHeader) (p : Pdu) : Pdu :=
  mk_Pdu (basic p) v (extended p) (secured p).
Definition set_pdu_extended (v : HeaderVariant) (p : Pdu) : Pdu :=
  mk_Pdu (basic p) (common p) v (secured p).
Definition set_pdu_secured (v : option SecuredMessage) (p : Pdu) : Pdu :=
  mk_Pdu (basic p) (common p) (extended p) v.

(** VariantPdu's default constructor. *)
Definition default_Pdu : Pdu :=
  mk_Pdu default_BasicHeader default_CommonHeader (VBeacon default_BeaconHeader) None.

Definition make_Deserialize (cohesive : CohesivePacket.CohesivePacket) (ll : LinkLayer)
  : IndicationContext :=
  mk_Context ll default_DataIndication default_Pdu
    (Deserialize cohesive (make_Parser (CohesivePacket.layer Network cohesive))).

Definition make_Cast (chunk : ChunkPacket) (ll : LinkLayer) : cpp IndicationContext :=
  match pdu_cast (chunk_layer Network chunk) with
  | Some casted_pdu => Returns (mk_Context ll default_DataIndication casted_pdu (Cast chunk))
  | None => Throws (runtime_error "Casting to Pdu failed")
  end.

(** The methods return a pointer, which may be null, and change the context. *)
Definition ctx_parse_basic (c : IndicationContext) : option BasicHeader * IndicationContext :=
  match kind c with
  | Deserialize packet parser =>
      let '(bytes, basic, parser) := parse_basic (basic (pdu c)) parser in
      (if bytes >? 0 then Some basic else None,
       set_kind (Deserialize packet parser) (set_pdu (set_pdu_basic basic (pdu c)) c))
  | Cast _ => (Some (basic (pdu c)), c)
  | SecuredDeserialize _ _ _ | SecuredCast _ => (None, c)
  end.

Definition ctx_parse_common (c : IndicationContext) : option CommonHeader * IndicationContext :=
  match kind c with
  | Deserialize packet parser =>
      let '(bytes, common, parser) := parse_common (common (pdu c)) parser in
      (if bytes >? 0 then Some common else None,
       set_kind (Deserialize packet parser) (set_pdu (set_pdu_common common (pdu c)) c))
  | SecuredDeserialize parent packet parser =>
      let '(bytes, common, parser) := parse_common (common (pdu c)) parser in
      (if bytes >? 0 then Some common else None,
       set_kind (SecuredDeserialize parent packet parser) (set_pdu (set_pdu_common common (pdu c)) c))
  | Cast _ | SecuredCast _ => (Some (common (pdu c)), c)
  end.

Definition ctx_parse_secured (c : IndicationContext) : option SecuredMessage * IndicationContext :=
  match kind c with
  | Deserialize packet parser =>
      let '(bytes, tmp, parser) := parse_secured None parser in
      let c := set_kind (Deserialize packet parser) c in
      if bytes >? 0 then (tmp, set_pdu (set_pdu_secured tmp (pdu c)) c) else (None, c)
  | Cast _ => (secured (pdu c), c)
  | SecuredDeserialize _ _ _ | SecuredCast _ => (None, c)
  end.

Definition ctx_parse_extended (ht : HeaderType) (c : IndicationContext)
  : option HeaderVariant * IndicationContext :=
  match kind c with
  | Deserialize packet parser =>
      let '(bytes, extended, parser) := parse_extended (extended (pdu c)) ht parser in
      (if bytes >? 0 then Some extended else None,
       set_kind (Deserialize packet parser) (set_pdu (set_pdu_extended extended (pdu c)) c))
  | SecuredDeserialize parent packet parser =>
      let '(bytes, extended, parser) := parse_extended (extended (pdu c)) ht parser in
      (if bytes >? 0 then Some extended else None,
       set_kind (SecuredDeserialize parent packet parser)
         (set_pdu (set_pdu_extended extended (pdu c)) c))
  | Cast _ | SecuredCast _ => (Some (extended (pdu c)), c)
  end.

(** [finish]: the packet of the context; [None]: an assertion of [set_boundary] fails.
    [payload_length] is the payload of the common header of the context. *)
Fixpoint finish_kind (payload_length : Z) (k : ContextKind) : option UpPacket :=
  match k with
  | Deserialize packet parser =>
      packet ← CohesivePacket.set_boundary Network (parsed_bytes parser) packet;
      Some (Cohesive (CohesivePacket.trim Transport payload_length packet))
  | Cast packet => Some (Chunk packet)
  | SecuredDeserialize parent packet parser =>
      packet ← CohesivePacket.set_boundary Network (parsed_bytes parser) packet;
      _ ← finish_kind payload_length parent;
      Some (Cohesive packet)
  | SecuredCast packet => Some packet
  end.

Definition finish (c : IndicationContext) : option UpPacket :=
  finish_kind (payload (common (pdu c))) (kind c).

(** * Contexts of the payload of a secured message *)

Definition make_SecuredDeserialize (parent : IndicationContext)
    (payload : CohesivePacket.CohesivePacket) : IndicationContext :=
  set_kind (SecuredDeserialize (kind parent) payload
             (make_Parser (CohesivePacket.layer Network payload))) parent.

(** parent_packet_visitor: the upper layers of the secured payload become those of the
    packet.  (The buffer for a cohesive packet begins with zeros: it is made with the size
    of the payload, which is then appended to it.) *)
Definition parent_packet_visitor (secured_payload : ChunkPacket) (packet : UpPacket) : UpPacket :=
  match packet with
  | Chunk packet => Chunk (fst (merge packet secured_payload Transport max_osi_layer))
  | Cohesive _ =>
      let zeros := replicate (Z.to_nat (chunk_size secured_payload)) 0 in
      let layers := map (fun l => convert (chunk_layer l secured_payload))
                        (osi_layer_range Transport max_osi_layer) in
      Cohesive (CohesivePacket.make_CohesivePacket (zeros ++ concat layers) Transport)
  end.

Definition make_SecuredCast (parent : IndicationContext) (packet : ChunkPacket)
  : cpp IndicationContext :=
  match finish parent with
  | None => NoResult
  | Some up =>
      match secured_pdu_cast (chunk_layer Network packet) with
      | Some secured_pdu =>
          let pdu := set_pdu_extended (secured_extended secured_pdu)
                       (set_pdu_common (secured_common secured_pdu) (pdu parent)) in
          Returns (set_kind (SecuredCast (parent_packet_visitor packet up)) (set_pdu pdu parent))
      | None => Throws (runtime_error "Casting to SecuredPdu failed")
      end
  end.

End contexts.
