(* ===== verification/SecurityServices.v ===== *)
(** Signing and verifying messages.

    Models security/v3/sign_service.cpp, the part of security/straight_verify_service.cpp
    for messages of version 3, the two services without security
    (security/verify_service.cpp, DummySignService), and their combination
    (delegating_security_entity.cpp, encap_service.cpp, decap_service.cpp).

    The services share their objects: the cache belongs to the certificate provider, and
    the header policy of the sign service learns from the messages that the verify
    service receives.  The validator is called through its interface. *)

From Stdlib Require Import ZArith Lia.
From stdpp Require Import prelude strings gmap.
From S2P Require Import Prelude Codecs Descriptor OerSem OerCodec Pqc Asn1Wrapper SecurityTypes CertificateV3.
From S2P Require Import HybridCertificate CertificateStores CertificateValidator GeoSerial SecuredMessageV3 Double SigningPolicy.
From S2P Require Import GeoHeaders GeoPdu NetPackets GeoIndication.

Open Scope Z_scope.

(** [CertificateValidator::valid_for_signing] *)
Abbreviation Validator := (view -> Z -> cpp Verdict).

(** * Signing *)

Inductive SignError := Error_Unspecified | No_Certificate | No_Service.

Record SignConfirm := { error : SignError; secured_message : option obj }.

Definition sign_success (message : obj) : SignConfirm :=
  {| error := Error_Unspecified; secured_message := Some message |}.
Definition sign_failure (e : SignError) : SignConfirm := {| error := e; secured_message := None |}.

(** What a sign service asks its collaborators for. *)
Record SignContext := {
  own_certificate : obj;
  own_private_key : PrivateKey;
  sign_now : Z;
  sign_position : SigningPosition;
  sign_validator : Validator;
}.

Module StraightSign.
Section Sign.
Context {nest : Nesting} {pf : Platform} {sha : Sha} {ecc : Backend}.

(** The message that goes to the header policy: [plain] is the serialized packet. *)
Definition start_message (hash_algo : HashAlgorithm) (plain : bytes) : cpp obj :=
  m ← Msg.set_hash_id hash_algo Msg.with_signed_data;
  Msg.set_payload plain m.

(** The message gets its signature. *)
Definition finish_message (c : SignContext) (hash_algo : HashAlgorithm) (m : obj) : cpp obj :=
  payload ← Msg.signing_payload m;
  digest ← calculate_message_hash hash_algo payload (Some c.(own_certificate));
  signature ← sign_digest c.(own_private_key) digest;
  Msg.set_signature signature m.

Definition sign (c : SignContext) (cache : CertificateCache) (plain : bytes) (its_aid : Z) (self_signed : bool)
    : Policy.policy SignConfirm :=
  let hash_algo := specified_hash_algorithm (get_verification_key_type c.(own_certificate)) in
  m ← lift (start_message hash_algo plain);
  m ← Policy.prepare_header c.(sign_now) c.(sign_position) c.(own_certificate) cache its_aid self_signed m;
  verdict ← lift (c.(sign_validator) (Some c.(own_certificate)) its_aid);
  if decide (verdict = Valid) then
    m ← lift (finish_message c hash_algo m);
    mret (sign_success m)
  else mret (sign_failure No_Certificate).

(** [DummySignService::sign] *)
Definition dummy_sign (now : Z) (plain : bytes) (its_aid : Z) : cpp SignConfirm :=
  m ← Msg.set_payload plain Msg.with_signed_data;
  m ← Msg.set_dummy_signature m;
  m ← Msg.set_its_aid its_aid m;
  m ← Msg.set_generation_time (u64 now) m;
  m ← Msg.on_signed (fun sd => Returns (set_memb 2 (Some (Msg.variant Msg.SignerIdentifier_PR_self O_NULL)) sd)) m;
  Returns (sign_success m).

End Sign.
End StraightSign.

(** * Verifying *)

Inductive CertificateInvalidReason :=
  | Broken_Time_Period | Off_Time_Period | Unknown_Signer | Missing_Signature | Missing_Public_Key | Invalid_Signer
  | Invalid_Name | Excessive_Chain_Length | Off_Region | Inconsistent_With_Signer | Insufficient_ITS_AID
  | Missing_Subject_Assurance.

(** Without a reason the certificate is valid.  The ITS-AID has no value until one is
    assigned. *)
Record VerifyConfirm := {
  v_report : VerificationReport;
  v_its_aid : option Z;
  v_permissions : bytes;
  v_certificate_validity : option CertificateInvalidReason;
  v_certificate_id : option HashedId8;
}.

Definition rejected (report : VerificationReport) : VerifyConfirm :=
  {| v_report := report; v_its_aid := None; v_permissions := []; v_certificate_validity := None;
     v_certificate_id := None |}.

(** [m_context_v3]: pointers that may be null. *)
Record VerifyContext := {
  m_cert_cache : option CertificateCache;
  m_cert_validator : option Validator;
  m_sign_policy : option DefaultSignHeaderPolicy;
}.

Module StraightVerify.

Abbreviation service := (state_cpp VerifyContext).

Definition set_cache (cache : CertificateCache) (c : VerifyContext) : VerifyContext :=
  {| m_cert_cache := Some cache; m_cert_validator := c.(m_cert_validator); m_sign_policy := c.(m_sign_policy) |}.

Definition set_policy (p : DefaultSignHeaderPolicy) (c : VerifyContext) : VerifyContext :=
  {| m_cert_cache := c.(m_cert_cache); m_cert_validator := c.(m_cert_validator); m_sign_policy := Some p |}.

(** [if (m_sign_policy) f] *)
Definition with_policy (f : Policy.policy unit) : service unit := fun c =>
  match c.(m_sign_policy) with
  | Some p => let '(r, p) := f p in (r, set_policy p c)
  | None => (Returns (), c)
  end.

(** [create_hashed_id3]: fewer octets leave the rest of the array uninitialised. *)
Definition hashed_id3_of_octets (l : bytes) : cpp HashedId3 :=
  if 3 <=? size l then Returns (take 3 l) else NoResult.

Section Verify.
Context {nest : Nesting} {pf : Platform} {sha : Sha} {ecc : Backend}.

(** Remembers the station that sent a message. *)
Definition track_station (maybe_digest : option HashedId8) (its_aid : Z) : service unit :=
  cache ← gets m_cert_cache;
  match cache, maybe_digest with
  | Some cache, Some d =>
    let '(was_unknown_station, cache) := cache_announce cache d in
    _ ← modify (set_cache cache);
    when (was_unknown_station && (its_aid =? aid_CA)) (with_policy Policy.request_certificate)
  | _, _ => mret ()
  end.

(** The requests of a received message, and the certificate that it brings along. *)
Definition handle_requests (m : obj) : service unit :=
  match Msg.get_signed_data m with
  | Some sd =>
    tbs ← lift (deref (Msg.tbsData (Some sd)));
    let h := Msg.header_info tbs in
    _ ← for_each (fun req =>
           req ← lift (deref req);
           hid3 ← lift (hashed_id3_of_octets (octets (Some req)));
           with_policy (Policy.enqueue_p2p_request hid3)) (array (Msg.inlineP2pcdRequest (Some h)));
    match Msg.requestedCertificate (Some h) with
    | Some included_cert =>
      maybe_digest ← lift (calculate_digest included_cert);
      match maybe_digest with
      | Some d => with_policy (Policy.discard_p2p_request (truncate d))
      | None => mret ()
      end
    | None => mret ()
    end
  | None => lift NoResult
  end.

(** [certificate_lookup_visitor] *)
Definition lookup_certificate (identifier : Msg.SignerIdentifier) (cache : option CertificateCache) : cpp view :=
  match identifier with
  | Msg.SignerDigest (Some digest) =>
    match cache with
    | Some cache => d ← hashed_id8_of_octets (octets (Some digest)); Returns (cache_lookup8 cache d)
    | None => Returns None
    end
  | Msg.SignerDigest None => Returns None
  | Msg.SignerCertificate cert => Returns cert
  end.

(** Asks for the certificate of the issuer when it is not known. *)
Definition request_issuer (certificate : obj) : service unit :=
  aa_digest ← lift (issuer_digest (Some certificate));
  cache ← gets m_cert_cache;
  match aa_digest, cache with
  | Some d, Some cache =>
    when (negb (cache_is_known cache d)) (with_policy (Policy.request_unrecognized_certificate d))
  | _, _ => mret ()
  end.

(** The block that catches exceptions: a report when the message is refused. *)
Definition check_signature (m : obj) (certificate : obj) (public_key : PublicKey) (signature : EccSignature)
    : cpp (option VerificationReport) :=
  try_catch
    (payload ← Msg.signing_payload m;
     msg_hash ← calculate_message_hash (Msg.hash_id m) payload (Some certificate);
     verified ← verify_digest public_key msg_hash signature;
     Returns (if verified : bool then None else Some False_Signature))
    (Returns (Some Incompatible_Protocol)).

(** The certificate of an accepted message is kept. *)
Definition remember_certificate (identifier : Msg.SignerIdentifier) (certificate : obj) (its_aid : Z)
    (certificate_id : option HashedId8) : service unit :=
  cache ← gets m_cert_cache;
  match cache, certificate_id with
  | Some cache, Some d =>
    _ ← when (is_none (cache_lookup8 cache d) && (its_aid =? aid_CA)) (with_policy Policy.request_certificate);
    when (Msg.contains_certificate identifier)
      (c ← lift (copy_construct certificate);
       cache ← lift (cache_store cache c);
       modify (set_cache cache))
  | _, _ => mret ()
  end.

(** From the certificate of the signer on. *)
Definition verify_with (m : obj) (signature : EccSignature) (maybe_digest : option HashedId8) (certificate : obj)
    : service VerifyConfirm :=
  let its_aid := Msg.its_aid m in
  let identifier := Msg.signer_identifier m in
  validator ← gets m_cert_validator;
  verdict ← lift match validator with Some f => f (Some certificate) its_aid | None => Returns Valid end;
  if decide (verdict = Valid) then
    _ ← request_issuer certificate;
    match get_public_key certificate with
    | None => mret {| v_report := Invalid_Certificate; v_its_aid := None; v_permissions := [];
                      v_certificate_validity := Some Missing_Public_Key; v_certificate_id := None |}
    | Some public_key =>
      refused ← lift (check_signature m certificate public_key signature);
      match refused with
      | Some report => mret (rejected report)
      | None =>
        permissions ← lift (get_app_permissions certificate its_aid);
        _ ← remember_certificate identifier certificate its_aid maybe_digest;
        mret {| v_report := Success; v_its_aid := Some its_aid; v_permissions := permissions;
                v_certificate_validity := None; v_certificate_id := maybe_digest |}
      end
    end
  else mret (rejected Invalid_Certificate).

Definition verify (m : obj) : service VerifyConfirm :=
  let its_aid := Msg.its_aid m in
  let identifier := Msg.signer_identifier m in
  is_signed ← lift (Msg.is_signed m);
  if negb is_signed then mret (rejected Unsigned_Message)
  else if negb (Msg.protocol_version m =? 3) then mret (rejected Incompatible_Protocol)
  else
    gen_time ← lift (Msg.generation_time m);
    match gen_time, Msg.signature m with
    | None, _ => mret (rejected Invalid_Timestamp)
    | Some _, None => mret (rejected Unsigned_Message)
    | Some _, Some signature =>
      maybe_digest ← lift (Msg.get_certificate_id identifier);
      _ ← track_station maybe_digest its_aid;
      policy ← gets m_sign_policy;
      _ ← when ((its_aid =? aid_CA) && negb (is_none policy)) (handle_requests m);
      cache ← gets m_cert_cache;
      certificate ← lift (lookup_certificate identifier cache);
      match certificate with
      | None =>
        _ ← match maybe_digest with
            | Some d => when (its_aid =? aid_CA) (with_policy (Policy.request_unrecognized_certificate d))
            | None => mret ()
            end;
        mret (rejected Signer_Certificate_Not_Found)
      | Some certificate => verify_with m signature maybe_digest certificate
      end
    end.

(** ** Set-up *)

Definition use_certificate_cache (x : option CertificateCache) (c : VerifyContext) : VerifyContext :=
  {| m_cert_cache := x; m_cert_validator := c.(m_cert_validator); m_sign_policy := c.(m_sign_policy) |}.
Definition use_certificate_validator (x : option Validator) (c : VerifyContext) : VerifyContext :=
  {| m_cert_cache := c.(m_cert_cache); m_cert_validator := x; m_sign_policy := c.(m_sign_policy) |}.
Definition use_sign_header_policy (x : option DefaultSignHeaderPolicy) (c : VerifyContext) : VerifyContext :=
  {| m_cert_cache := c.(m_cert_cache); m_cert_validator := c.(m_cert_validator); m_sign_policy := x |}.

(** ** The service without checks *)

Definition dummy_verify (report : VerificationReport) (validity : option CertificateInvalidReason) (m : obj)
    : state_cpp (option CertificateCache) VerifyConfirm :=
  let its_aid := Msg.its_aid m in
  let signer := Msg.signer_identifier m in
  certificate_id ← lift (Msg.get_certificate_id signer);
  permissions ← match certificate_id with
    | None => mret []
    | Some id =>
      cache ← gets Datatypes.id;
      match cache, Msg.get_certificate signer with
      | Some cache, Some cert =>
        c ← lift (copy_construct cert);
        cache ← lift (cache_store cache c);
        _ ← modify (fun _ => Some cache);
        lift (get_app_permissions cert its_aid)
      | Some cache, None =>
        match cache_lookup8 cache id with
        | Some cert => lift (get_app_permissions cert its_aid)
        | None => mret []
        end
      | None, Some cert => lift (get_app_permissions cert its_aid)
      | None, None => mret []
      end
    end : state_cpp (option CertificateCache) bytes;
  mret {| v_report := report; v_its_aid := Some its_aid; v_permissions := permissions;
          v_certificate_validity := validity; v_certificate_id := certificate_id |}.

End Verify.
End StraightVerify.

(** * The security entity of a station *)

(** What [DecapConfirm] takes over from the verification, and the payload. *)
Record DecapResult := {
  d_payload : bytes;
  d_report : VerificationReport;
  d_its_aid : option Z;
  d_permissions : bytes;
  d_certificate_validity : option CertificateInvalidReason;
}.

(** [EncapConfirm::from] *)
Definition encap_confirm_from (confirm : SignConfirm) : obj + SignError :=
  match confirm.(secured_message) with
  | Some m => inl m
  | None => inr confirm.(error)
  end.

(** [dispatch]: [sign] is the service, when there is one. *)
Definition dispatch {S} (sign : option (state_cpp S SignConfirm)) : state_cpp S (obj + SignError) :=
  match sign with
  | Some sign => confirm ← sign; mret (encap_confirm_from confirm)
  | None => mret (encap_confirm_from (sign_failure No_Service))
  end.

(** [DecapConfirm::from]; the payload is read whatever the report says. *)
Definition decap_confirm_from (verify : VerifyConfirm) (m : obj) : cpp DecapResult :=
  payload ← Msg.payload m;
  Returns {| d_payload := payload; d_report := verify.(v_report); d_its_aid := verify.(v_its_aid);
             d_permissions := verify.(v_permissions); d_certificate_validity := verify.(v_certificate_validity) |}.

(** tools/socktap/security.cpp: a DelegatingSecurityEntity of the two straight services.
    The cache and the policy are what they change. *)
Record SecurityContextV3 := {
  x_certificate : obj;
  x_private_key : PrivateKey;
  x_cache : CertificateCache;
  x_policy : DefaultSignHeaderPolicy;
}.

Module Context.
Section Context.
Context {nest : Nesting} {pf : Platform} {sha : Sha} {ecc : Backend} {geo : Geodesy}.
Context {PositionFix : Type}.

Definition set_policy (p : DefaultSignHeaderPolicy) (x : SecurityContextV3) : SecurityContextV3 :=
  {| x_certificate := x.(x_certificate); x_private_key := x.(x_private_key); x_cache := x.(x_cache); x_policy := p |}.

Definition set_cache (c : CertificateCache) (x : SecurityContextV3) : SecurityContextV3 :=
  {| x_certificate := x.(x_certificate); x_private_key := x.(x_private_key); x_cache := c; x_policy := x.(x_policy) |}.

(** The constructor and [load_v3_certificates]: the validator knows the time, the position
    and a location checker, but neither issuers nor trusted roots. *)
Definition cert_validator (now : Z) (position : PositionFix) (checker : obj -> PositionFix -> bool)
    : DefaultCertificateValidator :=
  use_location_checker (Some checker) (use_position_provider (Some position) (use_runtime (Some now) default_validator)).

(** The chain goes to the cache of the provider, by value. *)
Fixpoint load_chain (chain : list obj) (cache : CertificateCache) : cpp CertificateCache :=
  match chain with
  | [] => Returns cache
  | c :: chain => c ← copy_construct c; cache ← cache_store cache c; load_chain chain cache
  end.

Definition build_entity (now : Z) (ticket : obj) (key : PrivateKey) (chain : list obj) : cpp SecurityContextV3 :=
  ticket ← copy_construct ticket;
  cache ← load_chain chain cache_empty;
  Returns {| x_certificate := ticket; x_private_key := key; x_cache := cache; x_policy := make_policy now |}.

(** [DelegatingSecurityEntity::encapsulate_packet] with the sign service of the context. *)
Definition encapsulate (now : Z) (position : SigningPosition) (validator : Validator) (plain : bytes) (its_aid : Z)
    : state_cpp SecurityContextV3 (obj + SignError) :=
  dispatch (Some (fun x =>
    let c := {| own_certificate := x.(x_certificate); own_private_key := x.(x_private_key); sign_now := now;
                sign_position := position; sign_validator := validator |} in
    let '(r, p) := StraightSign.sign c x.(x_cache) plain its_aid false x.(x_policy) in
    (r, set_policy p x))).

(** The context of the verify service, from the objects of the entity and back. *)
Definition verify_context (validator : Validator) (x : SecurityContextV3) : VerifyContext :=
  {| m_cert_cache := Some x.(x_cache); m_cert_validator := Some validator; m_sign_policy := Some x.(x_policy) |}.

Definition put_back (c : VerifyContext) (x : SecurityContextV3) : SecurityContextV3 :=
  set_cache (default x.(x_cache) c.(m_cert_cache)) (set_policy (default x.(x_policy) c.(m_sign_policy)) x).

Definition decapsulate (validator : Validator) (m : obj) : state_cpp SecurityContextV3 DecapResult :=
  confirm ← (fun x =>
    let '(r, c) := StraightVerify.verify m (verify_context validator x) in (r, put_back c x));
  lift (decap_confirm_from confirm m).

End Context.
End Context.
