(* ===== verification/SecurityTheorems.v ===== *)
(** Signing and verifying: theorems.

    Verification accepts a message exactly when its signer is known and valid and its
    signature verifies, and never fails; a message that was signed is accepted when it
    arrives; what a cooperative awareness message carries; and what the services do not
    protect against. *)

From Stdlib Require Import ZArith Lia.
From stdpp Require Import prelude strings gmap.
From S2P Require Import Prelude Codecs Integer Descriptor OerSupport OerPrim OerSpec OerSem OerCodec.
From S2P Require Import Pqc OerTheorems Asn1Wrapper SameValue SecurityTypes CertificateV3 CertificateV3Ok.
From S2P Require Import HybridCertificate HybridCertificateOk CertificateStores CertificateValidator AcceptOk GeoSerial.
From S2P Require Import Samples ValidatorTheorems SecuredMessageV3 SecuredMessageOk Double SigningPolicy GeoIndication SecurityServices.
Import TrackerOk.

Open Scope Z_scope.

(** * Digests *)

(** Digests are octets, as many as the algorithm says. *)
Class ShaOk (sha : Sha) : Prop := {
  sha256_octets bs : all_bytes (calculate_sha256_digest bs) /\ size (calculate_sha256_digest bs) = 32;
  sha384_octets bs : all_bytes (calculate_sha384_digest bs) /\ size (calculate_sha384_digest bs) = 48;
}.

Lemma last_octets_ok n l : all_bytes l -> Z.of_nat n <= size l -> all_bytes (last_octets n l) /\ size (last_octets n l) = Z.of_nat n.
Proof. intros H Hn. unfold last_octets, size in *. rewrite length_drop. split; [by apply Forall_drop|lia]. Qed.

Lemma create_id8 l : all_bytes l -> 8 <= size l -> is_id8 (create_hashed_id8 l).
Proof. intros H Hn. exact (last_octets_ok 8 l H Hn). Qed.

Lemma truncate_id3 d : is_id8 d -> is_id3 (truncate d).
Proof. intros [H Hn]. exact (last_octets_ok 3 d H ltac:(lia)). Qed.

Lemma octets_id8 l : is_id8 l -> hashed_id8_of_octets l = Returns l.
Proof.
  intros [_ H]. unfold hashed_id8_of_octets. rewrite H. cbn [Z.leb Z.compare]. by rewrite take_ge by (unfold size in *; lia).
Qed.

Lemma octets_id3 l : is_id3 l -> StraightVerify.hashed_id3_of_octets l = Returns l.
Proof.
  intros [_ H]. unfold StraightVerify.hashed_id3_of_octets. rewrite H. cbn [Z.leb Z.compare].
  by rewrite take_ge by (unfold size in *; lia).
Qed.

Section Digests.
Context {pf : Platform} {fits : StackFits pf} {sha : Sha} {sha_ok : ShaOk sha}.

Lemma digest_internal_id8 c t d : calculate_digest_internal c t = Returns (Some d) -> is_id8 d.
Proof.
  unfold calculate_digest_internal. intros [H|[_ H]]%try_catch_returns; [|done]. apply bind_returns in H as (bs & _ & H).
  destruct (sha256_octets bs) as [Hb Hs], (sha384_octets bs) as [Hb' Hs'].
  destruct t; [done| | |]; injection H as <-; by apply create_id8; [|lia].
Qed.

Lemma digest_id8 c d : calculate_digest c = Returns (Some d) -> is_id8 d.
Proof.
  unfold calculate_digest. intros H. destruct (decide _); [done|]. destruct (is_canonical c); [by eapply digest_internal_id8|].
  apply bind_returns in H as ([c'|] & _ & H); [by eapply digest_internal_id8|done].
Qed.

Lemma issuer_digest_id8 c d : proper_cert c -> issuer_digest (Some c) = Returns (Some d) -> is_id8 d.
Proof.
  intros H. eapply (mandatory _ _ 2) in H as (j & Hj & Hp%same_opt_some); [|table|done]. unfold issuer_digest, issuer. rewrite Hj.
  destruct (_ || _) eqn:E; [|done]. intros Hd. apply bind_returns in Hd as (x & Hx & [= ->]).
  assert (is_id8 (octets (choice (Some j)))) as Ho; [|rewrite (octets_id8 _ Ho) in Hx; by injection Hx as <-].
  apply orb_true_iff in E as [E|E]; apply Z.eqb_eq in E.
  - pose proof (same_opt_choice _ _ _ 0 _ _ _ Hp eq_refl eq_refl E) as Hc. destruct j as [| | | | | |ct q [y|]|]; try by inversion Hc.
    cbn [choice] in *. inversion Hc as [? ? Hy|]. exact (octets_ok asn_DEF_HashedId8 None y 8 eq_refl eq_refl ltac:(done) Hy).
  - pose proof (same_opt_choice _ _ _ 2 _ _ _ Hp eq_refl eq_refl E) as Hc. destruct j as [| | | | | |ct q [y|]|]; try by inversion Hc.
    cbn [choice] in *. inversion Hc as [? ? Hy|]. exact (octets_ok asn_DEF_HashedId8 None y 8 eq_refl eq_refl ltac:(done) Hy).
Qed.

End Digests.

(** * Trackers and policies *)

(** A tracker as the policy makes it: its contract, and identifiers of three octets. *)
Record tracker_ok (t : PeerRequestTracker) : Prop := {
  tok_coherent : coherent t;
  tok_limit : t.(m_limit) = default_limit;
  tok_length : (length (ids t) <= default_limit)%nat;
  tok_ids : Forall is_id3 (ids t);
}.

Record policy_ok (p : DefaultSignHeaderPolicy) : Prop := {
  pok_incoming : tracker_ok p.(m_incoming_requests);
  pok_outgoing : tracker_ok p.(m_outgoing_requests);
}.

Lemma make_policy_ok now : policy_ok (make_policy now).
Proof. split; (split; cbn; [apply make_coherent|done|lia|constructor]). Qed.

Section Trackers.
Context (t : PeerRequestTracker) (Ht : tracker_ok t).

Lemma add_request_tok id : is_id3 id -> exists t', Tracker.add_request id t = (Returns (), t') /\ tracker_ok t' /\
  ids t' = TrackerSpec.enqueue default_limit id (ids t).
Proof.
  intros Hid. destruct Ht as [Hc Hl Hn Hi]. destruct (add_request_ok id t Hc) as (t' & E & Hc' & Hi' & Hl'). rewrite Hl in Hi', Hl'.
  exists t'. split; [done|]. split; [|done]. split; [done|done| |]; rewrite Hi'.
  - exact (TrackerCalls.spec_call_bounded default_limit (TrackerCalls.Add id) _ Hn).
  - unfold TrackerSpec.enqueue. case_decide; [done|]. apply Forall_app. split; [|by constructor].
    destruct (_ <=? _)%nat; [|done]. destruct (ids t); [done|]. by apply Forall_cons in Hi as [].
Qed.

Lemma discard_request_tok id : exists t', Tracker.discard_request id t = (Returns (), t') /\ tracker_ok t' /\
  ids t' = TrackerSpec.discard id (ids t).
Proof.
  destruct Ht as [Hc Hl Hn Hi]. destruct (discard_request_ok id t Hc) as (t' & E & Hc' & Hi' & Hl'). rewrite Hl in Hl'.
  exists t'. split; [done|]. split; [|done]. split; [done|done| |]; rewrite Hi'.
  - exact (TrackerCalls.spec_call_bounded default_limit (TrackerCalls.Discard id) _ Hn).
  - apply Forall_forall. intros x [_ Hx]%list_elem_of_filter. rewrite Forall_forall in Hi. by apply Hi.
Qed.

Lemma next_one_tok : exists t', Tracker.next_one t = (Returns (head (ids t)), t') /\ tracker_ok t' /\ ids t' = tail (ids t).
Proof.
  destruct Ht as [Hc Hl Hn Hi]. destruct (next_one_ok t Hc) as (t' & E & Hc' & Hi' & Hl'). rewrite Hl in Hl'.
  exists t'. split; [done|]. split; [|done]. split; [done|done| |]; rewrite Hi'; destruct (ids t); cbn in *; try done; [lia|].
  by apply Forall_cons in Hi as [].
Qed.

Lemma all_tok : exists t', Tracker.all t = (Returns (ids t), t') /\ tracker_ok t' /\ ids t' = [].
Proof.
  destruct Ht as [Hc Hl Hn Hi]. destruct (all_ok t Hc) as (t' & E & Hc' & Hi' & Hl'). rewrite Hl in Hl'.
  exists t'. split; [done|]. split; [|done]. split; [done|done| |]; rewrite Hi'; [cbn; lia|constructor].
Qed.

End Trackers.

(** The calls of the verify service. *)
Section Policies.
Context (p : DefaultSignHeaderPolicy) (Hp : policy_ok p) (Q : unit -> DefaultSignHeaderPolicy -> Prop).

Lemma wp_request_certificate : (forall p', policy_ok p' -> Q () p') -> wp Policy.request_certificate Q p.
Proof. intros HQ. apply wp_modify, HQ. destruct Hp. by split. Qed.

Lemma wp_request_unrecognized id : is_id8 id -> (forall p', policy_ok p' -> Q () p') -> wp (Policy.request_unrecognized_certificate id) Q p.
Proof.
  intros Hid HQ. unfold wp, Policy.request_unrecognized_certificate, Policy.outgoing.
  destruct (add_request_tok _ (pok_outgoing _ Hp) _ (truncate_id3 _ Hid)) as (t' & -> & Ht & _). apply HQ. destruct Hp. by split.
Qed.

Lemma wp_enqueue id : is_id3 id -> (forall p', policy_ok p' -> Q () p') -> wp (Policy.enqueue_p2p_request id) Q p.
Proof.
  intros Hid HQ. unfold wp, Policy.enqueue_p2p_request, Policy.incoming.
  destruct (add_request_tok _ (pok_incoming _ Hp) _ Hid) as (t' & -> & Ht & _). apply HQ. destruct Hp. by split.
Qed.

Lemma wp_discard id : (forall p', policy_ok p' -> Q () p') -> wp (Policy.discard_p2p_request id) Q p.
Proof.
  intros HQ. unfold wp, Policy.discard_p2p_request, Policy.incoming.
  destruct (discard_request_tok _ (pok_incoming _ Hp) id) as (t' & -> & Ht & _). apply HQ. destruct Hp. by split.
Qed.

End Policies.

(** * Verification *)

(** A service that can be called: the certificates of its cache stand for values, its
    policy is in order, and its validator answers. *)
Record ready (c : VerifyContext) : Prop := {
  rd_cache cache d cert : c.(m_cert_cache) = Some cache -> cache_lookup8 cache d = Some cert -> proper_cert cert;
  rd_policy p : c.(m_sign_policy) = Some p -> policy_ok p;
  rd_validator f cert aid : c.(m_cert_validator) = Some f -> proper_cert cert -> returns (f (Some cert) aid);
}.

Definition storage (c : VerifyContext) : option (gmap (list Z) obj) := m_storage <$> c.(m_cert_cache).

(** What happens before the message is judged changes neither the certificates nor the
    validator. *)
Record kept (c c' : VerifyContext) : Prop := {
  kp_ready : ready c';
  kp_validator : c'.(m_cert_validator) = c.(m_cert_validator);
  kp_storage : storage c' = storage c;
}.

Lemma kept_refl c : ready c -> kept c c.
Proof. by split. Qed.

(** Calls of the policy that keep it in order. *)
Definition in_order (f : Policy.policy unit) : Prop := forall p, policy_ok p -> wp f (fun _ p' => policy_ok p') p.

Lemma request_certificate_in_order : in_order Policy.request_certificate.
Proof. intros p Hp. by apply wp_request_certificate. Qed.
Lemma request_unrecognized_in_order id : is_id8 id -> in_order (Policy.request_unrecognized_certificate id).
Proof. intros Hid p Hp. by apply wp_request_unrecognized. Qed.
Lemma enqueue_in_order id : is_id3 id -> in_order (Policy.enqueue_p2p_request id).
Proof. intros Hid p Hp. by apply wp_enqueue. Qed.
Lemma discard_in_order id : in_order (Policy.discard_p2p_request id).
Proof. intros p Hp. by apply wp_discard. Qed.
#[local] Hint Resolve request_certificate_in_order request_unrecognized_in_order enqueue_in_order discard_in_order : core.

Lemma wp_with_policy f c0 c Q : in_order f -> kept c0 c -> (forall c', kept c0 c' -> Q () c') -> wp (StraightVerify.with_policy f) Q c.
Proof.
  intros Hf Hk HQ. pose proof Hk as [[H1 H2 H3] Hv Hs]. unfold wp, StraightVerify.with_policy. destruct (m_sign_policy c) as [p|] eqn:Ep; [|by apply HQ].
  specialize (Hf p (H2 p eq_refl)). unfold wp in Hf. destruct (f p) as [[[]| |] p']; try done. apply HQ.
  split; [|done|done]. split; cbn; [done|by intros ? [= <-]|done].
Qed.

Lemma wp_when_policy b f c0 c Q : in_order f -> kept c0 c -> (forall c', kept c0 c' -> Q () c') ->
  wp (when b (StraightVerify.with_policy f)) Q c.
Proof. intros Hf Hk HQ. apply wp_when; intros _; [by eapply wp_with_policy|by apply HQ]. Qed.

Lemma wp_returns_lift {S A} (m : cpp A) (Q : A -> S -> Prop) x : returns m -> (forall a, m = Returns a -> Q a x) -> wp (lift m) Q x.
Proof. intros [a E] HQ. eapply wp_lift; [done|]. by apply HQ. Qed.

Section Verify.
Context {nest : Nesting} {pf : Platform} {fits : StackFits pf} {sha : Sha} {sha_ok : ShaOk sha}.
Context {ecc : Backend} {ecc_defined : BackendDefined ecc}.
Import StraightVerify.

Section Message.
Context (m : obj) (Hm : proper_msg m).

Lemma certificate_id_ok : returns (Msg.get_certificate_id (Msg.signer_identifier m)) /\
  forall d, Msg.get_certificate_id (Msg.signer_identifier m) = Returns (Some d) -> is_id8 d.
Proof.
  destruct (same_signer_identifier m m Hm) as [d d' E Hd| |cert c' Hc]; cbn [Msg.get_certificate_id].
  - rewrite <- E, (octets_id8 _ Hd). cbn [mbind cpp_bind]. split; [by eexists|]. by intros ? [= <-].
  - split; [by eexists|done].
  - split; [apply digest_returns; by eapply same_refl_r|apply digest_id8].
Qed.

Lemma wp_track_station d aid c0 c Q : (forall x, d = Some x -> is_id8 x) -> kept c0 c -> (forall c', kept c0 c' -> Q () c') ->
  wp (track_station d aid) Q c.
Proof.
  intros Hd Hk HQ. unfold track_station. wp_simple. apply wp_gets. pose proof Hk as [[H1 H2 H3] Hv Hs].
  destruct (m_cert_cache c) as [cache|] eqn:Ec; [|by apply HQ]. destruct d as [d|]; [|by apply HQ].
  unfold cache_announce. wp_simple. apply wp_modify. eapply wp_when_policy; [auto| |exact HQ].
  split; [|done|unfold storage in *; by rewrite <- Hs, Ec].
  split; cbn; [intros ? ? ? [= <-]; exact (H1 _ _ _ eq_refl)|done|done].
Qed.

Lemma wp_handle_requests c0 c Q : Msg.is_signed m = Returns true -> kept c0 c -> (forall c', kept c0 c' -> Q () c') ->
  wp (handle_requests m) Q c.
Proof.
  intros Hsig Hk HQ. unfold handle_requests. pose proof (same_header_of m m Hm) as Hh. unfold header_of in Hh.
  destruct (same_signed_cases m m Hm) as [[E _]|(sd & sd' & tbs & tbs' & h & h' & E & _ & Hs)].
  { exfalso. destruct (same_content m m Hm) as (ct & ct' & Hc & _ & Hcs). unfold Msg.is_signed, Msg.content_is in Hsig.
    unfold Msg.get_signed_data in E. rewrite Hc in E, Hsig. cbn [deref mbind cpp_bind] in Hsig. injection Hsig as Hp.
    change ((present (Some ct) =? 2) = true) in Hp. rewrite Hp in E.
    destruct (same_choice (asn_DEF_Ieee1609Dot2Content Msg.td_inner) _ _ _ _ eq_refl Hcs) as (i & e & k & k' & x & x' & _ & _ & -> & _).
    done. }
  rewrite E in *. rewrite (ss_tbs_l _ _ _ _ _ _ Hs) in *. wp_simple. eapply wp_lift; [done|]. wp_simple.
  eapply wp_mono; [apply (wp_for_each _ (kept c0)); [exact Hk|]|].
  - intros req x Hreq Hx. apply proper_requests in Hh. rewrite Forall_forall in Hh.
    destruct (Hh _ Hreq) as (o & -> & Ho). wp_simple.
    eapply wp_lift; [done|]. wp_simple. eapply wp_lift; [by apply octets_id3|].
    eapply wp_with_policy; [by apply enqueue_in_order|done|done].
  - intros [] c' Hk'. apply same_requested in Hh. destruct Hh as [cert cert' Hc|]; [|by apply HQ].
    wp_simple. eapply wp_returns_lift; [apply digest_returns; by eapply same_refl_l|]. intros [d|] _; [|by apply HQ].
    eapply wp_with_policy; [auto|done|done].
Qed.

End Message.
(** ** What is accepted *)

(** The conditions under which a message is accepted, [cert] being its signer. *)
Record accepted (m : obj) (c : VerifyContext) (cert : obj) : Prop := {
  ac_signed : Msg.is_signed m = Returns true;
  ac_version : Msg.protocol_version m = 3;
  ac_time : exists t, Msg.generation_time m = Returns (Some t);
  ac_signer : lookup_certificate (Msg.signer_identifier m) c.(m_cert_cache) = Returns (Some cert);
  ac_valid f : c.(m_cert_validator) = Some f -> f (Some cert) (Msg.its_aid m) = Returns Valid;
  ac_signature : exists sig key payload digest,
    Msg.signature m = Some sig /\ get_public_key cert = Some key /\ Msg.signing_payload m = Returns payload /\
    calculate_message_hash (Msg.hash_id m) payload (Some cert) = Returns digest /\
    verify_digest key digest sig = Returns true;
}.

(** What the service reports for an accepted message. *)
Record reported (m cert : obj) (r : VerifyConfirm) : Prop := {
  rp_aid : r.(v_its_aid) = Some (Msg.its_aid m);
  rp_permissions : get_app_permissions cert (Msg.its_aid m) = Returns r.(v_permissions);
  rp_validity : r.(v_certificate_validity) = None;
  rp_id : Msg.get_certificate_id (Msg.signer_identifier m) = Returns r.(v_certificate_id);
}.

(** The validator and the certificates, untouched. *)
Definition framed (c c' : VerifyContext) : Prop :=
  c'.(m_cert_validator) = c.(m_cert_validator) /\ storage c' = storage c.
Definition frames {A} (f : service A) : Prop := forall c, framed c (f c).2.

Lemma framed_trans c1 c2 c3 : framed c1 c2 -> framed c2 c3 -> framed c1 c3.
Proof. intros [H1 H2] [H3 H4]. split; congruence. Qed.

Lemma frames_bind {A B} (m : service A) (f : A -> service B) : frames m -> (forall a, frames (f a)) -> frames (m ≫= f).
Proof.
  intros Hm Hf c. unfold mbind, state_cpp_bind. specialize (Hm c). destruct (m c) as [[a| |] c1]; try done. cbn [snd] in Hm.
  eapply framed_trans; [exact Hm|apply Hf].
Qed.

Lemma frames_pure {A} (m : cpp A) : frames (lift m).
Proof. by intros c. Qed.
Lemma frames_ret {A} (a : A) : frames (mret a).
Proof. by intros c. Qed.
Lemma frames_gets {A} (f : VerifyContext -> A) : frames (gets f).
Proof. by intros c. Qed.
Lemma frames_when b (m : service unit) : frames m -> frames (when b m).
Proof. intros H. by destruct b. Qed.
Lemma frames_for_each {A} (f : A -> service unit) l : (forall x, frames (f x)) -> frames (for_each f l).
Proof. intros Hf. induction l as [|x l IH]; [by intros c|]. by apply frames_bind. Qed.
Lemma frames_with_policy f : frames (with_policy f).
Proof. intros c. unfold with_policy. destruct (m_sign_policy c) as [p|]; [|done]. by destruct (f p). Qed.
#[local] Hint Resolve frames_pure frames_ret frames_gets frames_when frames_for_each frames_with_policy : core.

Ltac frame :=
  repeat match goal with
  | |- frames (_ ≫= _) => apply frames_bind; [|intros ?]
  | |- frames (for_each _ _) => apply frames_for_each; intros ?
  | |- frames (match ?x with _ => _ end) => destruct x
  | |- frames (let _ := _ in _) => cbv zeta
  end; auto.

Lemma frames_track_station d aid : frames (track_station d aid).
Proof.
  intros c. unfold track_station, cache_announce, mbind, state_cpp_bind, gets. destruct (m_cert_cache c) as [cache|] eqn:Ec; [|done].
  destruct d as [d|]; [|done]. unfold modify. set (c1 := set_cache _ c).
  destruct (frames_when (bool_decide (d ∉ m_digests cache) && (aid =? aid_CA)) _ (frames_with_policy Policy.request_certificate) c1) as [H1 H2].
  split; [exact H1|]. rewrite H2. unfold storage, c1. by rewrite Ec.
Qed.

Lemma frames_handle_requests m : frames (handle_requests m).
Proof.
  unfold handle_requests. frame.
Qed.

Lemma frames_request_issuer cert : frames (request_issuer cert).
Proof. unfold request_issuer. frame. Qed.

(** The certificate of the signer, from the same certificates. *)
Lemma lookup_framed i c c' : framed c c' -> lookup_certificate i c'.(m_cert_cache) = lookup_certificate i c.(m_cert_cache).
Proof.
  intros [_ H]. unfold storage in H. unfold lookup_certificate. destruct i as [[d|]|]; [|done|done].
  destruct (m_cert_cache c) as [x|], (m_cert_cache c') as [x'|]; try done. injection H as H. unfold cache_lookup8. by rewrite H.
Qed.

Lemma bind_run {S A B} (m : state_cpp S A) (f : A -> state_cpp S B) x b x' : (m ≫= f) x = (Returns b, x') ->
  exists a x1, m x = (Returns a, x1) /\ f a x1 = (Returns b, x').
Proof. unfold mbind, state_cpp_bind. destruct (m x) as [[a| |] x1]; intros H; [by exists a, x1|done|done]. Qed.

Lemma frames_run {A} (m : service A) c r c' : frames m -> m c = (r, c') -> framed c c'.
Proof. intros H E. specialize (H c). by rewrite E in H. Qed.

Lemma check_signature_accepts m cert key sig : check_signature m cert key sig = Returns None ->
  exists payload digest, Msg.signing_payload m = Returns payload /\
    calculate_message_hash (Msg.hash_id m) payload (Some cert) = Returns digest /\ verify_digest key digest sig = Returns true.
Proof.
  intros [H|[_ H]]%try_catch_returns; [|done]. apply bind_returns in H as (payload & Hp & H). apply bind_returns in H as (digest & Hd & H).
  apply bind_returns in H as ([] & Hv & H); [|done]. by exists payload, digest.
Qed.

(** From the certificate on. *)
Lemma verify_with_sound m sig id cert c r c' : verify_with m sig id cert c = (Returns r, c') -> r.(v_report) = Success ->
  (forall f, c.(m_cert_validator) = Some f -> f (Some cert) (Msg.its_aid m) = Returns Valid) /\
  (exists key payload digest, get_public_key cert = Some key /\ Msg.signing_payload m = Returns payload /\
    calculate_message_hash (Msg.hash_id m) payload (Some cert) = Returns digest /\ verify_digest key digest sig = Returns true) /\
  r.(v_its_aid) = Some (Msg.its_aid m) /\ get_app_permissions cert (Msg.its_aid m) = Returns r.(v_permissions) /\
  r.(v_certificate_validity) = None /\ r.(v_certificate_id) = id.
Proof.
  intros H Hr. unfold verify_with in H. apply bind_run in H as (v & c1 & [= <- <-] & H). apply bind_run in H as (verdict & c2 & Hv & H).
  unfold lift in Hv. destruct (decide (verdict = Valid)) as [->|]; [|by injection H as <- _]. injection Hv as Hv <-.
  apply bind_run in H as (u & c3 & _ & H). destruct (get_public_key cert) as [key|] eqn:Ek; [|by injection H as <- _].
  apply bind_run in H as (refused & c4 & [= Hc <-] & H). destruct refused as [rep|].
  { injection H as <- <-. cbn in Hr. subst rep. exfalso. unfold check_signature in Hc.
    apply try_catch_returns in Hc as [Hc|[_ Hc]]; [|done]. inv_returns. by destruct x1. }
  apply bind_run in H as (perms & c5 & [= Hp <-] & H). apply bind_run in H as (u' & c6 & _ & H). injection H as <- <-.
  destruct (check_signature_accepts _ _ _ _ Hc) as (payload & digest & H1 & H2 & H3).
  split; [intros f Hf; by rewrite Hf in Hv|]. split; [by exists key, payload, digest|]. by repeat split.
Qed.

(** A reported success is justified. *)
Lemma success_accepted m c r c' : verify m c = (Returns r, c') -> r.(v_report) = Success ->
  exists cert, accepted m c cert /\ reported m cert r.
Proof.
  intros H Hr. unfold verify in H. apply bind_run in H as (is_signed & c1 & [= Hs <-] & H).
  destruct is_signed; [|by injection H as <- _]. cbn [negb] in H.
  destruct (Z.eqb_spec (Msg.protocol_version m) 3) as [Hv|]; [|by injection H as <- _]. cbn [negb] in H.
  apply bind_run in H as (t & c2 & [= Ht <-] & H). destruct t as [t|]; [|by injection H as <- _].
  destruct (Msg.signature m) as [sig|] eqn:Esig; [|by injection H as <- _].
  apply bind_run in H as (id & c3 & [= Hid <-] & H). apply bind_run in H as (u & c4 & E4 & H).
  apply bind_run in H as (pol & c5 & [= <- <-] & H). apply bind_run in H as (u' & c6 & E6 & H).
  apply bind_run in H as (cache & c7 & [= <- <-] & H). apply bind_run in H as (cert & c8 & [= Hc <-] & H).
  assert (framed c c6) as Hf.
  { eapply framed_trans; [exact (frames_run _ _ _ _ (frames_track_station _ _) E4)|].
    exact (frames_run _ _ _ _ (frames_when _ _ (frames_handle_requests m)) E6). }
  rewrite (lookup_framed _ _ _ Hf) in Hc. destruct cert as [cert|].
  - destruct (verify_with_sound _ _ _ _ _ _ _ H Hr) as (H1 & (key & payload & digest & H2) & H3 & H4 & H5 & H6).
    exists cert. split; [|by split; subst].
    split; [done|done|by exists t|done| |by exists sig, key, payload, digest].
    intros f Hff. apply H1. by destruct Hf as [-> _].
  - apply bind_run in H as (u'' & c9 & _ & H). by injection H as <- _.
Qed.

(** C4. A message is accepted only if it is signed, of version 3 and with a generation time; the
    certificate of its signer is in the message or in the cache; the validator of the
    service, if one is set, takes this certificate as valid for the application of
    the message (without a validator no certificate is refused); and the signature verifies
    with the key of the certificate over the digest that the back end computes, with the
    algorithm that the message names, from what is signed and from the certificate.  The
    report then carries this application and the permissions of this certificate.  This
    holds for every message, whatever its structure, and for every cache, policy and
    validator.  What the digest is worth is up to the algorithm: for one that the back ends
    do not know it is empty, see [unknown_hash_authenticates_nothing]. *)
Theorem verify_sound m c r c' : verify m c = (Returns r, c') -> r.(v_report) = Success ->
  exists cert, accepted m c cert /\ reported m cert r.
Proof. apply success_accepted. Qed.

(** ** Every message is answered *)

(** The answer for a message: the service stays ready, and accepted messages are reported
    as such. *)
Definition answered (m : obj) (c0 : VerifyContext) (r : VerifyConfirm) (c : VerifyContext) : Prop :=
  ready c /\ c.(m_cert_validator) = c0.(m_cert_validator) /\ (forall cert, accepted m c0 cert -> r.(v_report) = Success).

(** Certificates of signers stand for values. *)
Lemma lookup_proper m c : proper_msg m -> ready c ->
  exists v, lookup_certificate (Msg.signer_identifier m) c.(m_cert_cache) = Returns v /\ forall cert, v = Some cert -> proper_cert cert.
Proof.
  intros Hm Hc. destruct (same_signer_identifier m m Hm) as [d d' E Hd| |x x' Hx]; cbn [lookup_certificate].
  - destruct (m_cert_cache c) as [cache|] eqn:Ec; [|by exists None]. rewrite <- E, (octets_id8 _ Hd). cbn [mbind cpp_bind].
    eexists. split; [done|]. intros cert Hl. exact (rd_cache _ Hc _ _ _ Ec Hl).
  - by exists None.
  - exists (Some x'). split; [done|]. intros ? [= <-]. by eapply same_refl_r.
Qed.

Lemma check_signature_returns m cert key sig : proper_msg m -> proper_cert cert -> returns (check_signature m cert key sig).
Proof.
  intros Hm Hc. apply returns_catch; [|by eexists]. destruct (same_signing_payload m m Hm) as (payload & -> & _).
  destruct (same_message_hash (Msg.hash_id m) payload cert cert Hc) as (d & Ed & _). cbn [mbind cpp_bind]. rewrite Ed.
  cbn [mbind cpp_bind]. apply defined_bind; [apply verify_digest_defined|done].
Qed.

Lemma wp_request_issuer cert c0 c Q : proper_cert cert -> kept c0 c -> (forall c', kept c0 c' -> Q () c') -> wp (request_issuer cert) Q c.
Proof.
  intros Hc Hk HQ. unfold request_issuer. wp_simple. eapply wp_returns_lift; [by apply issuer_digest_returns|]. intros d Hd.
  wp_simple. apply wp_gets. destruct d as [d|]; [|by apply HQ]. destruct (m_cert_cache c) as [cache|]; [|by apply HQ].
  eapply wp_when_policy; [apply request_unrecognized_in_order; by eapply issuer_digest_id8|done|done].
Qed.

(** What is stored in a cache. *)
Lemma cache_store_ok cache c : proper_cert c -> exists cache', cache_store cache c = Returns cache' /\
  forall d x, cache_lookup8 cache' d = Some x -> cache_lookup8 cache d = Some x \/ x = c.
Proof.
  intros Hc. unfold cache_store. destruct (calculate_digest_same c c Hc) as (d & -> & _). cbn [mbind cpp_bind].
  destruct d as [d|]; [|by eexists; eauto]. destruct (m_storage cache !! d); (eexists; split; [done|]); [by auto|].
  intros k x. unfold cache_lookup8. cbn [m_storage]. intros [[_ <-]|[_ Hl]]%lookup_insert_Some; auto.
Qed.

(** Storing a certificate that stands for a value keeps the service ready. *)
Lemma wp_remember i cert aid id c0 c Q : proper_cert cert -> kept c0 c ->
  (forall c', ready c' -> c'.(m_cert_validator) = c0.(m_cert_validator) -> Q () c') ->
  wp (remember_certificate i cert aid id) Q c.
Proof.
  intros Hc Hk HQ. unfold remember_certificate. wp_simple. apply wp_gets.
  assert (forall c', kept c0 c' -> Q () c') as HQ' by (intros c' []; by apply HQ).
  destruct (m_cert_cache c) as [cache|] eqn:Ec; [|by apply HQ']. destruct id as [id|]; [|by apply HQ'].
  wp_simple. eapply (wp_when_policy _ _ c); [auto|by split; destruct Hk|]. intros c1 [Hr Hv Hs].
  apply wp_when; intros _; [|apply HQ; [done|rewrite Hv; by destruct Hk]].
  wp_simple. destruct (copy_construct_same cert Hc) as (cert' & Ecp & Hcp). eapply wp_lift; [done|]. wp_simple.
  destruct (cache_store_ok cache cert' (same_refl_r _ _ _ _ Hcp)) as (cache' & Est & Hst). eapply wp_lift; [exact Est|].
  apply wp_modify, HQ; [|cbn; rewrite Hv; by destruct Hk]. destruct Hr as [R1 R2 R3]. split; [|exact R2|exact R3].
  cbn. intros ? k x [= <-] Hl. destruct (Hst k x Hl) as [Hl'| ->]; [|by eapply same_refl_r].
  destruct (kp_ready _ _ Hk) as [K1 _ _]. exact (K1 _ _ _ Ec Hl').
Qed.

Lemma wp_verify_with m sig id cert c0 c : proper_msg m -> proper_cert cert -> kept c0 c ->
  lookup_certificate (Msg.signer_identifier m) c0.(m_cert_cache) = Returns (Some cert) -> Msg.signature m = Some sig ->
  wp (verify_with m sig id cert) (answered m c0) c.
Proof.
  intros Hm Hc Hk Hl Hsig. unfold verify_with. wp_simple. apply wp_gets. wp_simple.
  assert (forall cert', accepted m c0 cert' -> cert' = cert) as Hcert by (intros cert' []; congruence).
  assert (exists v, match m_cert_validator c with Some f => f (Some cert) (Msg.its_aid m) | None => Returns Valid end = Returns v) as [v Hv].
  { destruct (m_cert_validator c) as [f|] eqn:Ef; [|by eexists]. exact (rd_validator _ (kp_ready _ _ Hk) f _ _ Ef Hc). }
  eapply wp_lift; [exact Hv|]. destruct (decide (v = Valid)) as [->|Hne].
  - wp_simple. eapply wp_request_issuer; [done|exact Hk|]. intros c1 Hk1. destruct (get_public_key cert) as [key|] eqn:Ek.
    + wp_simple. eapply wp_returns_lift; [by apply check_signature_returns|]. intros [rep|] Hr.
      * apply wp_ret. destruct Hk1 as [R V S]. split; [done|]. split; [done|]. intros cert' Ha.
        destruct (ac_signature _ _ _ Ha) as (sg & k & pl & dg & E1 & E2 & E3 & E4 & E5).
        rewrite (Hcert _ Ha) in *. unfold check_signature in Hr. rewrite E3 in Hr. cbn [mbind cpp_bind] in Hr.
        rewrite E4 in Hr. cbn [mbind cpp_bind] in Hr. replace sig with sg in Hr by congruence. replace key with k in Hr by congruence.
        rewrite E5 in Hr. done.
      * wp_simple. destruct (same_permissions cert cert (Msg.its_aid m) Hc) as (perms & Ep & _). eapply wp_lift; [done|].
        wp_simple. eapply wp_remember; [done|exact Hk1|]. intros c2 R V. by apply wp_ret.
    + apply wp_ret. destruct Hk1 as [R V S]. split; [done|]. split; [done|]. intros cert' Ha.
      destruct (ac_signature _ _ _ Ha) as (sg & k & pl & dg & _ & E2 & _). rewrite (Hcert _ Ha) in E2. congruence.
  - apply wp_ret. destruct Hk as [R V S]. split; [done|]. split; [done|]. intros cert' Ha. exfalso. apply Hne.
    rewrite V in Hv. destruct (m_cert_validator c0) as [f|] eqn:Ef; [|by injection Hv as <-].
    pose proof (ac_valid _ _ _ Ha f Ef) as Hf. rewrite (Hcert _ Ha) in Hf. congruence.
Qed.

Lemma wp_verify m c : proper_msg m -> ready c -> wp (verify m) (answered m c) c.
Proof.
  intros Hm Hc. unfold verify. wp_simple. destruct (same_content_is m m Hm 2) as (signed & Hs & _).
  assert (forall r, (forall cert, accepted m c cert -> False) -> wp (mret r) (answered m c) c) as Hno.
  { intros r Hf. apply wp_ret. split; [done|]. split; [done|]. intros cert Ha. by destruct (Hf cert Ha). }
  eapply wp_lift; [exact Hs|]. destruct signed; cbn [negb]; [|apply Hno; intros cert []; unfold Msg.is_signed in *; congruence].
  destruct (Z.eqb_spec (Msg.protocol_version m) 3) as [Hv|Hv]; cbn [negb]; [|apply Hno; by intros cert []].
  wp_simple. destruct (same_generation_time m m Hm) as (t & Ht & _). eapply wp_lift; [exact Ht|].
  destruct t as [t|]; [|apply Hno; intros cert [_ _ [x Hx]]; congruence].
  destruct (Msg.signature m) as [sig|] eqn:Esig; [|apply Hno; intros cert [_ _ _ _ _ (? & ? & ? & ? & ? & _)]; congruence].
  wp_simple. destruct (certificate_id_ok m Hm) as [Hid Hid8]. eapply wp_returns_lift; [exact Hid|]. intros id Eid.
  wp_simple. eapply wp_track_station; [intros x ->; by apply Hid8|by apply kept_refl|]. intros c1 Hk1.
  wp_simple. apply wp_gets. wp_simple.
  assert (forall c2, kept c c2 -> wp (cache ← gets m_cert_cache; certificate ← lift (lookup_certificate (Msg.signer_identifier m) cache);
      match certificate with
      | None => _ ← match id with
                    | Some d => when (Msg.its_aid m =? aid_CA) (with_policy (Policy.request_unrecognized_certificate d))
                    | None => mret ()
                    end; mret (rejected Signer_Certificate_Not_Found)
      | Some certificate => verify_with m sig id certificate
      end) (answered m c) c2) as Hrest.
  - intros c2 Hk2. wp_simple. apply wp_gets. wp_simple. destruct (lookup_proper m c Hm Hc) as (v & Hl & Hp).
    eapply wp_lift; [rewrite (lookup_framed _ c); [exact Hl|by destruct Hk2]|]. destruct v as [cert|].
    + apply wp_verify_with; auto.
    + assert (forall c3, kept c c3 -> wp (mret (rejected Signer_Certificate_Not_Found)) (answered m c) c3) as Hend.
      { intros c3 [R V S]. apply wp_ret. split; [done|]. split; [done|]. intros cert []. congruence. }
      wp_simple. destruct id as [d|]; [|apply wp_ret, Hend, Hk2].
      eapply wp_when_policy; [apply request_unrecognized_in_order; by apply Hid8|exact Hk2|exact Hend].
  - apply wp_when; intros _; [by eapply wp_handle_requests|by apply Hrest].
Qed.

(** C17. Verification answers every message that stands for a value: it returns, throws
    nothing and follows no null pointer, whatever the message contains; the service stays
    ready for the next one, with the same validator; and it reports success exactly if
    the conditions of acceptance hold. *)
Theorem verify_answers m c : proper_msg m -> ready c -> exists r c',
  verify m c = (Returns r, c') /\ ready c' /\ c'.(m_cert_validator) = c.(m_cert_validator) /\
  (r.(v_report) = Success <-> exists cert, accepted m c cert).
Proof.
  intros Hm Hc. destruct (wp_returns _ _ _ (wp_verify m c Hm Hc)) as (r & c' & E & Hr & Hv & Ha).
  exists r, c'. split; [done|]. split; [done|]. split; [done|]. split; [|by intros [cert Hcert]; eapply Ha].
  intros Hs. destruct (success_accepted _ _ _ _ E Hs) as (cert & Hac & _). by exists cert.
Qed.

End Verify.

(** * Signing *)

(** The certificate that a pending request can be answered with. *)
Definition answerable (cache : CertificateCache) (hid : HashedId3) : option obj :=
  match cache_lookup3 cache hid with
  | Some c => if is_ca_certificate (Some c) then Some c else None
  | None => None
  end.

(** Certificates of a cache that can be handed on. *)
Definition cache_proper {pf : Platform} (cache : CertificateCache) : Prop :=
  forall hid c, cache_lookup3 cache hid = Some c -> proper_cert c /\ cert_fits c.

(** What happens to the pending requests [q]: the first one with an answer is answered,
    those before it are dropped. *)
Inductive answers (cache : CertificateCache) (q : list HashedId3) : option obj -> list HashedId3 -> Prop :=
  | answers_none : (forall hid, hid ∈ q -> answerable cache hid = None) -> answers cache q None []
  | answers_first q1 hid q2 c c' : q = q1 ++ hid :: q2 -> (forall x, x ∈ q1 -> answerable cache x = None) ->
      answerable cache hid = Some c -> same_cert c c' -> answers cache q (Some c') q2.

Section Sign.
Context {nest : Nesting} {pf : Platform} {fits : StackFits pf} {sha : Sha} {sha_ok : ShaOk sha}.

Lemma wp_answer_request cache hash octs aid t r s g : cache_proper cache -> forall fuel p, policy_ok p ->
  (length (ids p.(m_incoming_requests)) < fuel)%nat ->
  wp (Policy.answer_request fuel cache (message_obj hash octs (header_obj (mk_header aid t None r None)) s g))
    (fun m p' => policy_ok p' /\ p'.(m_outgoing_requests) = p.(m_outgoing_requests) /\
       p'.(m_cam_next_certificate) = p.(m_cam_next_certificate) /\ p'.(m_cert_requested) = p.(m_cert_requested) /\
       exists rc, m = message_obj hash octs (header_obj (mk_header aid t None r rc)) s g /\
         answers cache (ids p.(m_incoming_requests)) rc (ids p'.(m_incoming_requests))) p.
Proof.
  intros Hc. induction fuel as [|fuel IH]; intros p Hp Hf; [lia|]. cbn [Policy.answer_request]. apply wp_bind.
  destruct (next_one_tok _ (pok_incoming _ Hp)) as (t' & E & Ht & Hi). unfold Policy.incoming, wp at 1. rewrite E.
  set (p1 := Policy.set_incoming t' p). assert (policy_ok p1) as Hp1 by (destruct Hp; by split).
  destruct (ids (m_incoming_requests p)) as [|hid q] eqn:Eq; cbn [head tail] in *.
  { apply wp_ret. split; [done|]. do 3 (split; [done|]). exists None. split; [done|]. cbn. rewrite Hi. by constructor; intros ? ?%not_elem_of_nil. }
  assert (answerable cache hid = None -> wp (Policy.answer_request fuel cache
      (message_obj hash octs (header_obj (mk_header aid t None r None)) s g))
    (fun m p' => policy_ok p' /\ p'.(m_outgoing_requests) = p.(m_outgoing_requests) /\
       p'.(m_cam_next_certificate) = p.(m_cam_next_certificate) /\ p'.(m_cert_requested) = p.(m_cert_requested) /\
       exists rc, m = message_obj hash octs (header_obj (mk_header aid t None r rc)) s g /\
         answers cache (hid :: q) rc (ids p'.(m_incoming_requests))) p1) as Hskip.
  { intros Hno. assert (length (ids (m_incoming_requests p1)) < fuel)%nat as Hlen by (cbn in *; rewrite Hi; lia).
    eapply wp_mono; [exact (IH p1 Hp1 Hlen)|]. intros m p2 (H1 & H2 & H3 & H4 & rc & H5 & H6).
    split; [done|]. do 3 (split; [done|]). exists rc. split; [done|]. cbn in H6. rewrite Hi in H6.
    inversion H6 as [Hall|q1 x q2 c c' E1 E2 E3 E4]; subst.
    - apply answers_none. intros x [->|Hx]%elem_of_cons; auto.
    - eapply (answers_first _ _ (hid :: q1)); [cbn; by rewrite E1| |exact E3|exact E4]. intros x' [->|Hx]%elem_of_cons; auto. }
  unfold answerable in Hskip. destruct (cache_lookup3 cache hid) as [c|] eqn:El; [|by apply Hskip].
  destruct (is_ca_certificate (Some c)) eqn:Eca; [|by apply Hskip]. destruct (Hc _ _ El) as [Hpc Hfc].
  destruct (set_requested_built hash octs aid t None r s g c Hpc) as (c' & Es & Hs). eapply wp_lift; [exact Es|].
  split; [done|]. do 3 (split; [done|]). exists (Some c'). split; [done|]. cbn. rewrite Hi.
  eapply (answers_first _ _ []); [done|by intros ? ?%not_elem_of_nil| |exact Hs]. unfold answerable. by rewrite El, Eca.
Qed.

(** ** Cooperative awareness messages *)

(** The certificate goes along when it is due, was asked for, or is in the requests of
    another station. *)
Definition certificate_due (now : Z) (d : HashedId8) (p : DefaultSignHeaderPolicy) : bool :=
  (p.(m_cam_next_certificate) <=? now) || p.(m_cert_requested) || bool_decide (truncate d ∈ ids p.(m_incoming_requests)).

(** The signer, the requested certificate and the new state of the policy. *)
Record cam_signer (now : Z) (own : obj) (d : HashedId8) (cache : CertificateCache) (p : DefaultSignHeaderPolicy)
    (s : obj) (rc : option obj) (p' : DefaultSignHeaderPolicy) : Prop := {
  cs_certificate : certificate_due now d p = true -> (exists c, same_cert own c /\ s = certificate_signer c) /\ rc = None /\
    p'.(m_cam_next_certificate) = now + 950000 /\
    ids p'.(m_incoming_requests) = TrackerSpec.discard (truncate d) (ids p.(m_incoming_requests));
  cs_digest : certificate_due now d p = false -> s = Msg.variant 1 (OCTET_STRING_fromBuf d) /\
    p'.(m_cam_next_certificate) = p.(m_cam_next_certificate) /\
    answers cache (ids p.(m_incoming_requests)) rc (ids p'.(m_incoming_requests));
  cs_asked : p'.(m_cert_requested) = false;
  cs_requests : ids p'.(m_outgoing_requests) = [];
}.

Section Cam.
Context (now : Z) (own : obj) (d : HashedId8) (cache : CertificateCache).
Context (Hown : proper_cert own) (Hd : calculate_digest own = Returns (Some d)) (Hc : cache_proper cache).

(** The requests of the others come first. *)
Lemma wp_own_request p Q : policy_ok p ->
  (forall p1, policy_ok p1 -> p1.(m_outgoing_requests) = p.(m_outgoing_requests) ->
     p1.(m_cam_next_certificate) = p.(m_cam_next_certificate) ->
     p1.(m_cert_requested) = p.(m_cert_requested) || bool_decide (truncate d ∈ ids p.(m_incoming_requests)) ->
     ids p1.(m_incoming_requests) = TrackerSpec.discard (truncate d) (ids p.(m_incoming_requests)) -> Q () p1) ->
  wp (pending ← gets (fun p => Tracker.is_pending (truncate d) p.(m_incoming_requests));
      when pending (_ ← modify (Policy.set_cert_requested true); Policy.incoming (Tracker.discard_request (truncate d)))) Q p.
Proof.
  intros Hp HQ. wp_simple. apply wp_gets. rewrite (pending_spec _ _ (tok_coherent _ (pok_incoming _ Hp))).
  case_bool_decide as Hin; unfold when.
  - wp_simple. apply wp_modify. unfold wp, Policy.incoming. cbn [m_incoming_requests Policy.set_cert_requested].
    destruct (discard_request_tok _ (pok_incoming _ Hp) (truncate d)) as (t' & -> & Ht & Hi). apply HQ; cbn; try done.
    + destruct Hp. by split.
    + by destruct (m_cert_requested p).
  - apply wp_ret, HQ; try done; [by rewrite orb_false_r|]. by rewrite discard_absent.
Qed.

Lemma wp_all_requests p Q : policy_ok p ->
  (forall p', policy_ok p' -> p'.(m_incoming_requests) = p.(m_incoming_requests) ->
     p'.(m_cam_next_certificate) = p.(m_cam_next_certificate) -> p'.(m_cert_requested) = p.(m_cert_requested) ->
     ids p'.(m_outgoing_requests) = [] -> Q (ids p.(m_outgoing_requests)) p') ->
  wp (Policy.outgoing Tracker.all) Q p.
Proof.
  intros [Hin Hout] HQ. unfold wp, Policy.outgoing. destruct (all_tok _ Hout) as (t' & -> & Ht & Hi). by apply HQ; try split.
Qed.

Lemma wp_prepare_cam hash octs aid t s g p : policy_ok p ->
  wp (Policy.prepare_cam now own cache (message_obj hash octs (header_obj (mk_header aid t None None None)) s g))
    (fun m p' => policy_ok p' /\ exists s' rc,
       m = message_obj hash octs (header_obj (mk_header aid t None (requests_obj (ids p.(m_outgoing_requests))) rc)) s' g /\
       cam_signer now own d cache p s' rc p') p.
Proof.
  intros Hp. unfold Policy.prepare_cam. wp_simple. eapply wp_lift; [exact Hd|]. wp_simple. apply wp_own_request; [done|].
  intros p1 Hp1 Ho1 Hn1 Hr1 Hi1. wp_simple. apply wp_gets. rewrite Hn1, Hr1. wp_simple.
  destruct ((now <? m_cam_next_certificate p) && negb _) eqn:Edue.
  - assert (certificate_due now d p = false) as Hdue.
    { unfold certificate_due. rewrite Z.leb_antisym. rewrite <- orb_assoc. by destruct (now <? _), (_ || _). }
    assert (truncate d ∉ ids (m_incoming_requests p)) as Hnot.
    { unfold certificate_due in Hdue. intros Hin. rewrite bool_decide_true, orb_true_r in Hdue; done. }
    assert (m_cert_requested p1 = false) as Hreq.
    { rewrite Hr1. apply andb_true_iff in Edue as [_ E]. by apply negb_true_iff in E. }
    eapply wp_lift; [apply set_digest_built|]. wp_simple. apply wp_all_requests; [done|].
    intros p2 Hp2 Hi2 Hn2 Hr2 Ho2. rewrite Ho1. wp_simple. eapply wp_lift; [apply set_requests_built|].
    wp_simple. apply wp_gets. eapply wp_mono; [apply wp_answer_request; [done|done|cbn; unfold ids; rewrite length_map; lia]|].
    intros m p3 (H1 & H2 & H3 & H4 & rc & H5 & H6). split; [done|]. eexists _, rc. split; [done|]. rewrite Hi2, Hi1, discard_absent in H6 by done.
    split; [congruence| |congruence|by rewrite H2]. intros _. split; [done|]. split; [congruence|done].
  - assert (certificate_due now d p = true) as Hdue.
    { unfold certificate_due. rewrite Z.leb_antisym. rewrite <- orb_assoc. by destruct (now <? _), (_ || _). }
    wp_simple. apply wp_modify. wp_simple. destruct (set_certificate_built hash octs (header_obj (mk_header aid t None None None)) s g own Hown)
      as (own' & Es & Hs). eapply wp_lift; [exact Es|]. wp_simple. apply wp_modify. wp_simple. apply wp_ret.
    set (p2 := Policy.set_cam_next_certificate _ _). assert (policy_ok p2) as Hp2 by (destruct Hp1; by split).
    wp_simple. apply wp_all_requests; [done|]. intros p3 Hp3 Hi3 Hn3 Hr3 Ho3.
    replace (ids (m_outgoing_requests p2)) with (ids (m_outgoing_requests p)) by (unfold p2; cbn; by rewrite Ho1).
    wp_simple. eapply wp_lift; [apply set_requests_built|]. apply wp_ret. split; [done|]. eexists _, None. split; [done|].
    split; [|congruence|done|done]. intros _. split; [by exists own'|]. split; [done|].
    split; [rewrite Hn3; unfold p2; cbn; lia|by rewrite Hi3].
Qed.

End Cam.
(** ** Every kind of message *)

Lemma build_location_proper position :
  same asn_DEF_ThreeDLocation None (location_obj (build_location position)) (location_obj (build_location position)).
Proof.
  unfold build_location. set (lat := lround _). set (lon := lround (dmul (ddiv _ (double_of 180)) _)).
  unfold NinetyDegreeInt_min, NinetyDegreeInt_max, NinetyDegreeInt_unknown, OneEightyDegreeInt_min, OneEightyDegreeInt_max, OneEightyDegreeInt_unknown.
  apply location_proper; cbn [Msg.loc_latitude Msg.loc_longitude Msg.loc_elevation].
  - destruct (_ && _) eqn:E; [apply andb_true_iff in E as [?%Z.leb_le ?%Z.leb_le]|]; lia.
  - destruct (_ && _) eqn:E; [apply andb_true_iff in E as [?%Z.leb_le ?%Z.leb_le]|]; lia.
  - destruct (fix_altitude position); [|lia]. destruct (_ && _) eqn:E; [apply andb_true_iff in E as [?%Z.leb_le ?%Z.leb_le]|]; lia.
Qed.

(** The signer of a message: the certificate or its digest. *)
Inductive signs (own : obj) (d : HashedId8) : obj -> Prop :=
  | signs_certificate c : same_cert own c -> signs own d (certificate_signer c)
  | signs_digest : signs own d (Msg.variant 1 (OCTET_STRING_fromBuf d)).

Lemma plain_header aid t location : 0 <= aid < 2 ^ 32 -> 0 <= t < 2 ^ 64 ->
  (forall l, location = Some l -> same asn_DEF_ThreeDLocation None l l) -> proper_header (mk_header aid t location None None).
Proof. by split. Qed.

Section Prepare.
Context (now : Z) (position : SigningPosition) (own : obj) (d : HashedId8) (cache : CertificateCache).
Context (Hown : proper_cert own) (Hd : calculate_digest own = Returns (Some d)) (Hc : cache_proper cache).

(** The header of a cooperative awareness message stands for a value. *)
Lemma cam_header_proper aid t p s rc p' : 0 <= aid < 2 ^ 32 -> 0 <= t < 2 ^ 64 -> policy_ok p -> cam_signer now own d cache p s rc p' ->
  proper_header (mk_header aid t None (requests_obj (ids p.(m_outgoing_requests))) rc) /\ signs own d s.
Proof.
  intros Ha Ht [_ [_ _ Hlen Hids]] [H1 H2 _ _]. assert (length (ids (m_outgoing_requests p)) <= 201)%nat as Hl by (unfold default_limit in *; lia).
  assert (forall c, rc = Some c -> exists c0, proper_cert c0 /\ cert_fits c0 /\ same_cert c0 c) as Hrc.
  { intros c ->. destruct (certificate_due now d p); [by destruct (H1 eq_refl) as (_ & ? & _)|].
    destruct (H2 eq_refl) as (_ & _ & Han). inversion Han as [|q1 hid q2 c0 c' _ _ E Hs]. exists c0. unfold answerable in E.
    destruct (cache_lookup3 cache hid) as [c1|] eqn:El; [|done]. destruct (is_ca_certificate _); [|done]. injection E as ->.
    by destruct (Hc _ _ El). }
  split.
  - split; cbn [h_aid h_time h_location h_requests h_certificate]; try done.
    + intros r Er. by apply (requests_proper _ r Hids Hl).
    + intros r e Er He. eapply requests_fit; [|done]. by eapply requests_proper.
    + intros c Er. destruct (Hrc c Er) as (c0 & _ & _ & Hs). by eapply same_refl_r.
    + intros c e Er He. destruct (Hrc c Er) as (c0 & _ & Hf & Hs). by eapply certificate_fit.
  - destruct (certificate_due now d p).
    + destruct (H1 eq_refl) as ((c & Hs & ->) & _). by constructor.
    + destruct (H2 eq_refl) as (-> & _). constructor.
Qed.

Lemma wp_prepare_header hash octs g aid p : 0 <= aid < 2 ^ 32 -> policy_ok p ->
  wp (Policy.prepare_header now position own cache aid false (message_obj hash octs empty_header zero_choice g))
    (fun m p' => policy_ok p' /\ exists h s, m = message_obj hash octs (header_obj h) s g /\ proper_header h /\
       h.(h_aid) = aid /\ signs own d s) p.
Proof.
  intros Ha Hp. assert (0 <= u64 now < 2 ^ 64) as Ht by (apply Z.mod_pos_bound; lia). unfold Policy.prepare_header.
  pose proof (set_header_built hash octs zero_choice g aid (u64 now)) as E. apply bind_returns in E as (m1 & E1 & E2).
  wp_simple. eapply wp_lift; [exact E1|]. wp_simple. eapply wp_lift; [exact E2|].
  destruct (set_certificate_built hash octs (header_obj (mk_header aid (u64 now) None None None)) zero_choice g own Hown) as (own' & Es & Hs).
  destruct (Z.eqb_spec aid aid_CA).
  { eapply wp_mono; [by eapply wp_prepare_cam|]. intros m p' (Hp' & s' & rc & -> & Hcam). split; [done|]. eexists _, s'. split; [done|].
    destruct (cam_header_proper aid (u64 now) p s' rc p' Ha Ht Hp Hcam). split; [done|by split]. }
  destruct (Z.eqb_spec aid aid_DEN).
  { wp_simple. eapply wp_lift; [exact Es|]. eapply wp_lift; [apply set_location_built|]. split; [done|]. eexists _, _. split; [done|].
    split; [apply plain_header; [done|done|]; intros l [= <-]; apply build_location_proper|]. split; [done|by constructor]. }
  destruct (Z.eqb_spec aid aid_SCR).
  { wp_simple. eapply wp_lift; [exact Hd|]. eapply wp_lift; [apply set_digest_built|]. split; [done|]. eexists _, _. split; [done|].
    split; [by apply plain_header|]. split; [done|constructor]. }
  eapply wp_lift; [exact Es|]. split; [done|]. eexists _, _. split; [done|]. split; [by apply plain_header|]. split; [done|by constructor].
Qed.

End Prepare.
End Sign.

(** * From one station to another *)

Section Exchange.
Context {nest : Nesting} {pf : Platform} {fits : StackFits pf} {sha : Sha} {sha_ok : ShaOk sha}.
Context {ecc : Backend} {ecc_defined : BackendDefined ecc}.

(** The private key belongs to the certificate: what it signs verifies. *)
Definition key_matches (own : obj) (key : PrivateKey) : Prop := exists pk, get_public_key own = Some pk /\
  forall digest, exists sig, sign_digest key digest = Returns sig /\ proper_sig sig /\ verify_digest pk digest sig = Returns true.

(** A station that can sign: its certificate stands for a value and has a digest, and the
    key belongs to it. *)
Record can_sign (own : obj) (key : PrivateKey) (d : HashedId8) : Prop := {
  sg_proper : proper_cert own;
  sg_digest : calculate_digest own = Returns (Some d);
  sg_key : key_matches own key;
}.

(** A signed message: its parts, and the signature over the digest of its certificate and
    of what is signed. *)
Record signed_by (own : obj) (d : HashedId8) (plain : bytes) (aid : Z) (m : obj) : Prop := {
  sb_proper : proper_msg m;
  sb_message : exists h s sig pk payload digest,
    m = message_obj (specified_hash_algorithm (get_verification_key_type own)) plain (header_obj h) s (primary_signature sig) /\
    proper_header h /\ h.(h_aid) = aid /\ signs own d s /\ proper_sig sig /\ get_public_key own = Some pk /\
    Msg.signing_payload m = Returns payload /\
    calculate_message_hash (specified_hash_algorithm (get_verification_key_type own)) payload (Some own) = Returns digest /\
    verify_digest pk digest sig = Returns true;
}.

Lemma signs_proper own d s : is_id8 d -> signs own d s -> same asn_DEF_SignerIdentifier None s s.
Proof.
  intros [Hb Hs] []; [apply certificate_signer_proper; by eapply same_refl_r|by apply digest_signer_proper].
Qed.

(** The signature of a message whose header is complete. *)
Lemma finish_built c d hash plain h s : can_sign c.(own_certificate) c.(own_private_key) d ->
  all_bytes plain -> size plain <= RSIZE_MAX -> proper_header h ->
  let unsigned := message_obj hash plain (header_obj h) s zero_choice in
  exists sig pk payload digest,
    StraightSign.finish_message c hash unsigned = Returns (message_obj hash plain (header_obj h) s (primary_signature sig)) /\
    proper_sig sig /\ get_public_key c.(own_certificate) = Some pk /\ Msg.signing_payload unsigned = Returns payload /\
    calculate_message_hash hash payload (Some c.(own_certificate)) = Returns digest /\ verify_digest pk digest sig = Returns true.
Proof.
  intros [Hown Hd (pk & Hpk & Hkey)] Hb Hs Hh unsigned. pose proof (header_proper h Hh) as Hho.
  destruct (encode_same _ _ _ wf_message_tbs (tbs_proper plain (header_obj h) Hb Hs Hho)) as (payload & Epl & _).
  destruct (same_message_hash hash payload _ _ Hown) as (digest & Edg & _).
  destruct (Hkey digest) as (sig & Esg & Hsig & Hver). unfold unsigned.
  exists sig, pk, payload, digest. split_and!; try done.
  unfold StraightSign.finish_message. rewrite built_signing_payload, Epl. cbn [mbind cpp_bind]. rewrite Edg.
  cbn [mbind cpp_bind]. rewrite Esg. cbn [mbind cpp_bind]. apply set_signature_built. by destruct Hsig.
Qed.

Lemma wp_sign c cache plain aid d p : can_sign c.(own_certificate) c.(own_private_key) d -> cache_proper cache ->
  all_bytes plain -> size plain <= RSIZE_MAX -> 0 <= aid < 2 ^ 32 ->
  c.(sign_validator) (Some c.(own_certificate)) aid = Returns Valid -> policy_ok p ->
  wp (StraightSign.sign c cache plain aid false)
    (fun r p' => policy_ok p' /\ exists m, r = sign_success m /\ signed_by c.(own_certificate) d plain aid m) p.
Proof.
  intros Hsign Hc Hb Hs Ha Hv Hp. pose proof Hsign as [Hown Hd _]. unfold StraightSign.sign, StraightSign.start_message.
  set (own := own_certificate c) in *. set (hash := specified_hash_algorithm _).
  wp_simple. eapply wp_lift; [rewrite new_message, set_hash_id_built; apply set_payload_built|].
  wp_simple. eapply wp_mono; [by eapply wp_prepare_header|]. intros m1 p' (Hp' & h & s & -> & Hh & Haid & Hsg).
  wp_simple. eapply wp_lift; [exact Hv|]. rewrite decide_True by done. wp_simple.
  destruct (finish_built c d hash plain h s Hsign Hb Hs Hh) as (sig & pk & payload & digest & Efin & Hsig & Hpk & Epl & Edg & Hver).
  eapply wp_lift; [exact Efin|]. apply wp_ret. split; [done|]. eexists. split; [done|]. rewrite built_signing_payload in Epl. split.
  - apply message_proper; [done|done|by apply header_proper|eapply signs_proper; [by eapply digest_id8|done]|by apply primary_signature_proper].
  - exists h, s, sig, pk, payload, digest. split; [reflexivity|]. split; [exact Hh|]. split; [exact Haid|]. split; [exact Hsg|].
    split; [exact Hsig|]. split; [exact Hpk|]. split; [rewrite built_signing_payload; exact Epl|]. split; [exact Edg|exact Hver].
Qed.

(** The receiver has the certificate of the sender. *)
Definition knows (v : VerifyContext) (own : obj) (d : HashedId8) : Prop :=
  exists cache cert, v.(m_cert_cache) = Some cache /\ cache_lookup8 cache d = Some cert /\ same_cert own cert.

(** The signer is found: in the message, or in the cache. *)
Lemma signer_found own d hash plain h s g m' v : is_id8 d -> signs own d s -> same_msg (message_obj hash plain h s g) m' ->
  Msg.contains_certificate (Msg.signer_identifier (message_obj hash plain h s g)) = true \/ knows v own d ->
  exists cert, StraightVerify.lookup_certificate (Msg.signer_identifier m') v.(m_cert_cache) = Returns (Some cert) /\ same_cert own cert.
Proof.
  intros Hid Hs Hm Hk. apply same_signer_identifier in Hm. destruct Hs as [c Hc|].
  - rewrite built_signer_certificate in Hm. inversion Hm as [| |x c' Hc' E1 E2]. exists c'. split; [done|]. by transitivity c.
  - rewrite built_signer_digest in Hm, Hk. destruct Hk as [|(cache & cert & Ec & El & Hs)]; [done|].
    inversion Hm as [x d' E _ E1 E2| |]. exists cert. split; [|done]. cbn [StraightVerify.lookup_certificate]. rewrite Ec.
    assert (octets (Some d') = d) as -> by (rewrite <- E; by destruct d). rewrite (octets_id8 _ Hid). cbn [mbind cpp_bind]. by rewrite El.
Qed.

(** A message that was built and whose signature verifies is accepted, as is every message
    with its value. *)
Lemma built_accepted own d hash plain h s sig pk payload digest m' v :
  let m := message_obj hash plain (header_obj h) s (primary_signature sig) in
  is_id8 d -> proper_header h -> signs own d s -> proper_sig sig -> get_public_key own = Some pk ->
  Msg.signing_payload m = Returns payload -> calculate_message_hash hash payload (Some own) = Returns digest ->
  verify_digest pk digest sig = Returns true -> same_msg m m' ->
  (forall f cert, v.(m_cert_validator) = Some f -> same_cert own cert -> f (Some cert) h.(h_aid) = Returns Valid) ->
  Msg.contains_certificate (Msg.signer_identifier m) = true \/ knows v own d ->
  exists cert, accepted m' v cert /\ same_cert own cert.
Proof.
  intros m Hid [Hha Hht _ _ _ _ _] Hsg Hsig Hpk Epl Edg Hver Hs Hval Hk.
  destruct (signer_found _ _ _ _ _ _ _ _ v Hid Hsg Hs Hk) as (cert & Hl & Hcert). exists cert. split; [|done]. split.
  - destruct (same_content_is _ _ Hs 2) as (b & E1 & E2). change (Returns true = Returns b) in E1. by injection E1 as <-.
  - by rewrite <- (same_protocol_version _ _ Hs).
  - destruct (same_generation_time _ _ Hs) as (t & E1 & E2). unfold m in E1. rewrite built_time in E1 by done. injection E1 as <-. by eexists.
  - done.
  - intros f Hf. rewrite <- (same_its_aid _ _ Hs). unfold m. rewrite built_aid by done. by apply Hval.
  - exists sig, pk, payload, digest. rewrite <- (same_msg_signature _ _ Hs). unfold m. rewrite built_signature by (by destruct Hsig).
    split; [done|]. rewrite <- (same_public_key _ _ Hcert). split; [done|].
    destruct (same_signing_payload _ _ Hs) as (pl & E1 & E2). rewrite Epl in E1. injection E1 as <-. split; [done|].
    rewrite <- (same_hash_id _ _ Hs). unfold m. rewrite built_hash. split; [|done].
    destruct (same_message_hash hash payload _ _ Hcert) as (dg & E1' & E2'). congruence.
Qed.

(** A message with the value of a signed one is accepted. *)
Lemma signed_accepted own d plain aid m m' v : is_id8 d ->
  signed_by own d plain aid m -> same_msg m m' ->
  (forall f cert, v.(m_cert_validator) = Some f -> same_cert own cert -> f (Some cert) aid = Returns Valid) ->
  Msg.contains_certificate (Msg.signer_identifier m) = true \/ knows v own d ->
  exists cert, accepted m' v cert /\ same_cert own cert.
Proof.
  intros Hid [Hm (h & s & sig & pk & payload & digest & -> & Hh & <- & Hsg & Hsig & Hpk & Epl & Edg & Hver)] Hs Hval Hk.
  by eapply built_accepted.
Qed.

Import Context.

(** C3. What one station signs and sends is accepted by the station that receives it: the
    signing station (whatever requests its policy has collected) returns a message, the
    message is encoded and decoded, and if it contains the certificate or the receiver
    has it, and the validator of the receiver takes the certificate as valid, then the
    receiver reports success, with the application, the permissions of the sender and
    the octets that were sent. *)
Theorem secured_exchange now position sender validator plain aid d receiver validator' :
  can_sign sender.(x_certificate) sender.(x_private_key) d -> cache_proper sender.(x_cache) -> policy_ok sender.(x_policy) ->
  validator (Some sender.(x_certificate)) aid = Returns Valid ->
  all_bytes plain -> size plain <= RSIZE_MAX -> 0 <= aid < 2 ^ 32 -> ready (verify_context validator' receiver) ->
  (forall cert, same_cert sender.(x_certificate) cert -> validator' (Some cert) aid = Returns Valid) ->
  exists m sender' bs m', encapsulate now position validator plain aid sender = (Returns (inl m), sender') /\
    policy_ok sender'.(x_policy) /\ Msg.serialize m = Returns bs /\ Msg.decode bs Msg.make_SecuredMessage = Returns (true, m') /\
    (Msg.contains_certificate (Msg.signer_identifier m) = true \/ knows (verify_context validator' receiver) sender.(x_certificate) d ->
     exists r receiver', decapsulate validator' m' receiver = (Returns r, receiver') /\ r.(d_report) = Success /\
       r.(d_its_aid) = Some aid /\ get_app_permissions sender.(x_certificate) aid = Returns r.(d_permissions) /\
       r.(d_payload) = plain /\ ready (verify_context validator' receiver')).
Proof.
  intros Hsign Hc Hp Hv Hb Hs Ha Hr Hv'.
  set (c := {| own_certificate := sender.(x_certificate); own_private_key := sender.(x_private_key); sign_now := now;
               sign_position := position; sign_validator := validator |}).
  destruct (wp_returns _ _ _ (wp_sign c sender.(x_cache) plain aid d sender.(x_policy) Hsign Hc Hb Hs Ha Hv Hp))
    as (r0 & p' & E & Hp' & m & -> & Hm).
  destruct (message_transferred m (sb_proper _ _ _ _ _ Hm)) as (bs & m' & Ebs & Edec & Hsame).
  exists m, (set_policy p' sender), bs, m'. split.
  { unfold encapsulate, dispatch, mbind, state_cpp_bind. fold c. by rewrite E. }
  split; [done|]. split; [done|]. split; [done|]. intros Hk.
  pose proof (digest_id8 _ _ (sg_digest _ _ _ Hsign)) as Hid.
  destruct (signed_accepted sender.(x_certificate) _ _ _ _ _ (verify_context validator' receiver) Hid Hm Hsame) as (cert & Hacc & Hcert);
    [by intros f x [= <-]; apply Hv'|done|].
  destruct (wp_returns _ _ _ (wp_verify m' _ (same_refl_r _ _ _ _ Hsame) Hr)) as (r & v' & Ev & Hr' & Hval & Hok).
  specialize (Hok cert Hacc). destruct (success_accepted _ _ _ _ Ev Hok) as (cert' & Hacc' & [R1 R2 _ _]).
  assert (cert' = cert) as -> by (destruct Hacc, Hacc'; congruence).
  assert (Msg.its_aid m' = aid /\ Msg.payload m' = Returns plain) as [Haid Hpl].
  { destruct Hm as [_ (h & s & sig & pk & pl & dg & -> & [] & Haid & _)]. rewrite <- (same_its_aid _ _ Hsame), built_aid by done.
    split; [done|]. destruct (same_payload _ _ Hsame) as (x & E1 & E2). rewrite built_payload in E1. congruence. }
  eexists _, (put_back v' receiver). split.
  { unfold decapsulate, mbind, state_cpp_bind. rewrite Ev. unfold lift, decap_confirm_from. by rewrite Hpl. }
  cbn [d_report d_its_aid d_permissions d_payload]. rewrite Haid in *. split; [done|]. split; [done|].
  destruct (same_permissions _ _ aid Hcert) as (perms & -> & E2). split; [congruence|]. split; [done|].
  destruct Hr' as [K1 K2 K3], Hr as [L1 L2 L3]. split.
  - intros cache k x [= <-] Hx. cbn in Hx. destruct (m_cert_cache v') as [ca|] eqn:Eca; [by eapply K1|by eapply L1].
  - intros q [= <-]. cbn. destruct (m_sign_policy v') as [q|] eqn:Eq; [by apply K2|by apply L2].
  - exact L3.
Qed.

(** C18. A digest algorithm other than SHA-256 and SHA-384 is accepted in a message, but both
    back ends then compute an empty digest: a signature that verifies for no octets at all
    makes every content acceptable.  Whoever has one for the key of a valid certificate
    sends what he wants in the name of its owner, and the message is reported as a
    success. *)
Theorem unknown_hash_authenticates_nothing own d pk sig v h plain : (forall algo data, calculate_hash algo data = backend_hash algo data) ->
  proper_cert own -> calculate_digest own = Returns (Some d) -> get_public_key own = Some pk ->
  proper_sig sig -> verify_digest pk [] sig = Returns true -> ready v ->
  (forall f cert, v.(m_cert_validator) = Some f -> same_cert own cert -> f (Some cert) h.(h_aid) = Returns Valid) ->
  all_bytes plain -> size plain <= RSIZE_MAX -> proper_header h ->
  exists bs m r v', Msg.serialize (message_obj HashUnspecified plain (header_obj h) (certificate_signer own) (primary_signature sig)) = Returns bs /\
    Msg.decode bs Msg.make_SecuredMessage = Returns (true, m) /\ Msg.payload m = Returns plain /\
    StraightVerify.verify m v = (Returns r, v') /\ r.(v_report) = Success.
Proof.
  intros Hhash Hown Hd Hpk Hsig Hver Hv Hval Hb Hs Hh. set (m := message_obj _ _ _ _ _).
  pose proof (header_proper h Hh) as Hho. assert (proper_msg m) as Hm.
  { apply message_proper; [done|done|done|by apply certificate_signer_proper|by apply primary_signature_proper]. }
  destruct (message_transferred m Hm) as (bs & m' & Ebs & Edec & Hsame).
  destruct (encode_same _ _ _ wf_message_tbs (tbs_proper plain (header_obj h) Hb Hs Hho)) as (payload & Epl & _).
  destruct (same_message_hash HashUnspecified payload own own Hown) as (digest & Edg & _).
  assert (digest = []) as -> by (apply bind_returns in Edg as (x & _ & [= <-]); apply Hhash).
  destruct (built_accepted own d HashUnspecified plain h (certificate_signer own) sig pk payload [] m' v (digest_id8 _ _ Hd) Hh
    (signs_certificate own d own Hown) Hsig Hpk Epl Edg Hver Hsame Hval (or_introl eq_refl)) as (cert & Hacc & _).
  destruct (wp_returns _ _ _ (wp_verify m' v (same_refl_r _ _ _ _ Hsame) Hv)) as (r & v' & Ev & _ & _ & Hok).
  exists bs, m', r, v'. split; [exact Ebs|]. split; [exact Edec|]. split; [|split; [exact Ev|exact (Hok cert Hacc)]].
  destruct (same_payload _ _ Hsame) as (x & E1 & E2). unfold m in E1. rewrite built_payload in E1. congruence.
Qed.

End Exchange.

(** * What cooperative awareness messages carry *)

Section Awareness.
Context {nest : Nesting} {pf : Platform} {fits : StackFits pf} {sha : Sha} {sha_ok : ShaOk sha}.
Context (position : SigningPosition) (own : obj) (d : HashedId8) (cache : CertificateCache).
Context (Hown : proper_cert own) (Hd : calculate_digest own = Returns (Some d)) (Hc : cache_proper cache).

Lemma start_message_built hash octs : StraightSign.start_message hash octs = Returns (message_obj hash octs empty_header zero_choice zero_choice).
Proof. unfold StraightSign.start_message. rewrite new_message, set_hash_id_built. apply set_payload_built. Qed.

Lemma prepare_cam_header now hash octs self p : policy_ok p -> exists s rc p',
  Policy.prepare_header now position own cache aid_CA self (message_obj hash octs empty_header zero_choice zero_choice) p =
    (Returns (message_obj hash octs (header_obj (mk_header aid_CA (u64 now) None (requests_obj (ids p.(m_outgoing_requests))) rc)) s zero_choice), p') /\
  policy_ok p' /\ cam_signer now own d cache p s rc p'.
Proof.
  intros Hp. pose proof (wp_prepare_cam now own d cache Hown Hd Hc hash octs aid_CA (u64 now) zero_choice zero_choice p Hp) as H.
  pose proof (set_header_built hash octs zero_choice zero_choice aid_CA (u64 now)) as E. apply bind_returns in E as (m1 & E1 & E2).
  destruct (wp_returns _ _ _ H) as (m & p' & Em & Hp' & s & rc & -> & Hcam). exists s, rc, p'. split; [|done].
  unfold Policy.prepare_header, mbind at 1, state_cpp_bind at 1, lift at 1. rewrite E1.
  unfold mbind at 1, state_cpp_bind at 1, lift at 1. by rewrite E2.
Qed.

(** C19. The header of a cooperative awareness message: it carries the certificate of the
    sender exactly when this is due (950 ms after the last time), when a message of an
    unknown station has asked for it, or when its digest is among the requests received,
    and the digest of the certificate otherwise; all certificates that the station misses
    are requested, and none of them twice.  Only a message with the digest answers a request
    of another station: it carries the certificate of an authority for the first
    request that can be answered, if there is one; a message with the certificate of
    the sender answers none, and the requests for other certificates stay. *)
Theorem cam_header_correct now hash octs self p m0 : policy_ok p -> StraightSign.start_message hash octs = Returns m0 ->
  exists s rc p', Policy.prepare_header now position own cache aid_CA self m0 p =
    (Returns (message_obj hash octs (header_obj (mk_header aid_CA (u64 now) None (requests_obj (ids p.(m_outgoing_requests))) rc)) s zero_choice), p') /\
  policy_ok p' /\ cam_signer now own d cache p s rc p'.
Proof. intros Hp E. rewrite start_message_built in E. injection E as <-. by apply prepare_cam_header. Qed.

(** ** How often the certificate is sent *)

Context {ecc : Backend} {ecc_defined : BackendDefined ecc}.
Context (key : PrivateKey) (validator : Z -> Validator) (Hsign : can_sign own key d).

(** What happens to the policy of a station: a message of its own is to be signed, and the
    calls of the verify service. *)
Inductive event :=
  | Cam (now : Z) (plain : bytes)
  | Unrecognized (id : HashedId8)
  | Asked
  | PeerRequest (id : HashedId3)
  | PeerAnswer (id : HashedId3).

(** The station when it signs; what its validator says depends on the time. *)
Definition signing_at (now : Z) : SignContext :=
  {| own_certificate := own; own_private_key := key; sign_now := now; sign_position := position; sign_validator := validator now |}.

(** The messages that the sign service returns: their times, and whether they contain the
    certificate.  A refused request leaves nothing to send. *)
Definition sent (now : Z) (confirm : SignConfirm) : list (Z * bool) :=
  match confirm.(secured_message) with
  | Some m => [(now, Msg.contains_certificate (Msg.signer_identifier m))]
  | None => []
  end.

Definition run_event (e : event) : Policy.policy (list (Z * bool)) :=
  match e with
  | Cam now plain => confirm ← StraightSign.sign (signing_at now) cache plain aid_CA false; mret (sent now confirm)
  | Unrecognized id => _ ← Policy.request_unrecognized_certificate id; mret []
  | Asked => _ ← Policy.request_certificate; mret []
  | PeerRequest id => _ ← Policy.enqueue_p2p_request id; mret []
  | PeerAnswer id => _ ← Policy.discard_p2p_request id; mret []
  end.

Fixpoint run_events (es : list event) : Policy.policy (list (Z * bool)) :=
  match es with
  | [] => mret []
  | e :: es => log ← run_event e; logs ← run_events es; mret (log ++ logs)
  end.









End Awareness.

(** * The validator of a station of socktap *)

Lemma same_application c c' aid : same_cert c c' ->
  exists b, valid_for_application (Some c) aid = Returns b /\ valid_for_application (Some c') aid = Returns b.
Proof.
  intros H%same_toBeSigned. member_at 6%nat H. eapply same_opt_array in H; [|reflexivity|reflexivity].
  unfold valid_for_application, appPermissions.
  induction H as [|x x' l l' (o & o' & -> & -> & Ho%same_opt_some) Hl IH]; [by eexists|]. cbn [any_psid].
  member_at 0%nat Ho. unfold psid. rewrite <- (same_opt_number _ _ _ _ Ho eq_refl). destruct (_ =? _); [by eexists|done].
Qed.

Lemma same_duration m m' : same_opt asn_DEF_Duration None m m' -> number (choice m) = number (choice m') /\ present m = present m'.
Proof.
  intros [o o' H|]; [|done]. destruct (same_choice asn_DEF_Duration _ _ _ _ eq_refl H) as (i & e & ct & ct' & x & x' & Hi & Hx & -> & ->).
  split; [|done]. eapply same_number; [|exact Hx]. by do 7 (destruct i as [|i]; [injection Hi as <-; done|]).
Qed.

Lemma same_timepoint c c' now : same_cert c c' -> valid_at_timepoint (Some c) now = valid_at_timepoint (Some c') now.
Proof.
  intros H%same_toBeSigned. member_at 3%nat H. pose proof H as H1. member_at 0%nat H. member_at 1%nat H1.
  unfold valid_at_timepoint, validity_end, validity_start, validityPeriod.
  rewrite <- (same_opt_number _ _ _ _ H eq_refl). by destruct (same_duration _ _ H1) as [-> ->].
Qed.

Lemma same_region c c' : same_cert c c' -> has_region_restriction (Some c) = has_region_restriction (Some c').
Proof. intros H%same_toBeSigned. member_at 4%nat H. unfold has_region_restriction, region. by destruct H. Qed.

Section Socktap.
Context {sha : Sha} {geo : Geodesy} {PositionFix : Type} {pf : Platform} {fits : StackFits pf}.
Context (now : Z) (position : PositionFix) (checker : obj -> PositionFix -> bool).
Context (checker_same : forall c c', same_cert c c' -> checker c position = checker c' position).
Let validator : Validator := valid_for_signing (Context.cert_validator now position checker).

(** Neither a trust store nor a lookup of issuers is set: the verdict depends on the
    permissions, the time and the region, and on nothing about the issuer. *)
Lemma context_ignores_issuer c aid : validator (Some c) aid =
  (permitted ← valid_for_application (Some c) aid;
   Returns (if negb permitted then InsufficientPermission
            else if negb (valid_at_timepoint (Some c) now) then Expired
            else if has_region_restriction (Some c) && negb (checker c position) then OutsideRegion else Valid)).
Proof.
  unfold validator, valid_for_signing. cbn [Context.cert_validator m_disable_time_checks m_runtime m_disable_location_checks m_position_provider
    m_location_checker use_location_checker use_position_provider use_runtime default_validator is_none negb andb orb].
  destruct (valid_for_application (Some c) aid) as [[]| |]; [|done..]. cbn [mbind cpp_bind negb].
  destruct (valid_at_timepoint (Some c) now); [|done]. cbn -[has_region_restriction].
  unfold location_verdict. cbn [Context.cert_validator m_disable_location_checks m_position_provider m_location_checker use_location_checker
    use_position_provider use_runtime default_validator]. by destruct (has_region_restriction (Some c)), (checker c position).
Qed.

Lemma context_same c c' aid : same_cert c c' -> exists verdict, validator (Some c) aid = Returns verdict /\ validator (Some c') aid = Returns verdict.
Proof.
  intros H. rewrite !context_ignores_issuer. destruct (same_application c c' aid H) as (b & -> & ->). cbn [mbind cpp_bind].
  rewrite <- (same_timepoint _ _ now H), <- (same_region _ _ H), <- (checker_same _ _ H). by eexists.
Qed.

(** Such a station is ready when its certificates stand for values. *)
Lemma context_ready x : (forall d c, cache_lookup8 x.(x_cache) d = Some c -> proper_cert c) -> policy_ok x.(x_policy) -> ready (Context.verify_context validator x).
Proof.
  intros Hc Hp. split; cbn.
  - intros ? d cert [= <-] Hl. by eapply Hc.
  - by intros ? [= <-].
  - intros ? cert aid [= <-] H. destruct (context_same cert cert aid H) as (v & E & _). by exists v.
Qed.

(** The chain is kept by value. *)
Lemma load_chain_ok chain : Forall (fun c => proper_cert c) chain -> forall cache, exists cache', Context.load_chain chain cache = Returns cache' /\
  forall d c, cache_lookup8 cache' d = Some c -> cache_lookup8 cache d = Some c \/ Exists (fun x => same_cert x c) chain.
Proof.
  induction 1 as [|x chain Hx _ IH]; intros cache; cbn [Context.load_chain]; [by exists cache; auto|].
  destruct (copy_construct_same x Hx) as (x' & -> & Hs). cbn [mbind cpp_bind].
  destruct (cache_store_ok cache x' (same_refl_r _ _ _ _ Hs)) as (c1 & -> & H1).
  cbn [mbind cpp_bind]. destruct (IH c1) as (c2 & -> & H2). exists c2. split; [done|]. intros k c Hl.
  destruct (H2 _ _ Hl) as [Hc|]; [|by right; right]. destruct (H1 _ _ Hc) as [| ->]; [by left|right; by left].
Qed.

(** A station that is built from its files can receive. *)
Lemma build_entity_ok ticket key chain : proper_cert ticket -> Forall (fun c => proper_cert c) chain ->
  exists x, Context.build_entity now ticket key chain = Returns x /\ same_cert ticket x.(x_certificate) /\ x.(x_private_key) = key /\
    (forall d c, cache_lookup8 x.(x_cache) d = Some c -> Exists (fun y => same_cert y c) chain) /\
    policy_ok x.(x_policy) /\ ready (Context.verify_context validator x).
Proof.
  intros Ht Hc. unfold Context.build_entity. destruct (copy_construct_same ticket Ht) as (t & -> & Hs). cbn [mbind cpp_bind].
  destruct (load_chain_ok chain Hc cache_empty) as (cache & -> & Hl). cbn [mbind cpp_bind]. eexists. split; [done|]. cbn [x_certificate x_private_key x_cache x_policy].
  split; [done|]. split; [done|]. assert (forall d c, cache_lookup8 cache d = Some c -> Exists (fun y => same_cert y c) chain) as Hx.
  { intros d c E. destruct (Hl d c E) as [E'|]; [|done]. unfold cache_lookup8 in E'. cbn in E'. by rewrite lookup_empty in E'. }
  split; [done|]. split; [apply make_policy_ok|]. apply context_ready; cbn; [|apply make_policy_ok].
  intros d c E. specialize (Hx d c E). apply Exists_exists in Hx as (y & _ & Hy). by eapply same_refl_r.
Qed.

End Socktap.

(** * Examples *)

(** Two stations with the validator of socktap; the first one has the ticket, both are at
    the same place, in the first second of the ticket's validity. *)
Section Examples.
#[local] Existing Instances sample_platform sample_fits sample_sha sample_ecc sample_geodesy.
#[local] Instance sample_nesting : Nesting := {| nesting := 1 |}.
#[local] Instance sample_sha_ok : ShaOk sample_sha.
Proof. split; intros bs; (split; [apply padded_octets|apply padded_size]). Qed.
#[local] Existing Instance sample_ecc_defined.

Definition example_now : Z := 660000000500000.
Definition example_place : SigningPosition := {| fix_latitude := double_of 48; fix_longitude := double_of 2; fix_altitude := None |}.
Abbreviation example_validator := (valid_for_signing (Context.cert_validator example_now example_place (fun _ _ => true))).
Definition example_sender : SecurityContextV3 :=
  {| x_certificate := ticket2; x_private_key := ecc_key; x_cache := cache_empty; x_policy := make_policy example_now |}.
Definition example_receiver : SecurityContextV3 :=
  {| x_certificate := root2; x_private_key := ecc_key; x_cache := cache_empty; x_policy := make_policy example_now |}.
Definition example_digest : HashedId8 := default [] (returned None (calculate_digest ticket2)).

Lemma ticket2_proper : proper_cert ticket2.
Proof.
  exact (sf_proper _ _ _ (signing_ok (ecc_ok := sample_ecc_ok) (pqc := sample_pqc) (pqc_ok := sample_pqc_ok) ticket0 (Some (Some root2)) pqc_key ecc_key ticket1 ticket2
    ticket0_proper ticket1_signed ticket2_signed)).
Qed.

Lemma ticket2_digest : calculate_digest ticket2 = Returns (Some example_digest).
Proof. by vm_compute. Qed.

Definition example_key : PublicKey := {| pk_type := NistP256; pk_compression := Y0; pk_x := replicate 32 17; pk_y := [] |}.

Lemma ticket2_key : get_public_key ticket2 = Some example_key.
Proof. by vm_compute. Qed.

Lemma example_can_sign : can_sign ticket2 ecc_key example_digest.
Proof.
  split; [exact ticket2_proper|exact ticket2_digest|].
  exists example_key. split; [exact ticket2_key|].
  intros digest. eexists. split; [done|]. split.
  - split; cbn [sig_r sig_s sig_type priv_type ecc_key]; [by apply replicate_octets|apply padded_octets|done|done|].
    apply padded_size.
  - cbn. by rewrite bool_decide_true.
Qed.

Lemma empty_cache_proper : cache_proper cache_empty.
Proof. intros hid c. unfold cache_lookup3. cbn. by rewrite lookup_empty. Qed.

Lemma example_ready : ready (Context.verify_context example_validator example_receiver).
Proof.
  apply context_ready; [done| |apply make_policy_ok]. intros d c. unfold cache_lookup8. cbn. by rewrite lookup_empty.
Qed.

Lemma example_valid : example_validator (Some ticket2) aid_CA = Returns Valid.
Proof. by vm_compute. Qed.

Lemma example_valid_same cert : same_cert ticket2 cert -> example_validator (Some cert) aid_CA = Returns Valid.
Proof.
  intros H. destruct (context_same example_now example_place (fun _ _ => true) ltac:(done) _ _ aid_CA H) as (v & E1 & ->).
  pose proof example_valid as E2. rewrite E1 in E2. exact E2.
Qed.

(** The first message of the station, and what the other one makes of it. *)
Definition example_message : obj :=
  match (Context.encapsulate example_now example_place example_validator [1; 2; 3] aid_CA example_sender).1 with
  | Returns (inl m) => m
  | _ => O_NULL
  end.

Lemma example_carries_certificate m x :
  Context.encapsulate example_now example_place example_validator [1; 2; 3] aid_CA example_sender = (Returns (inl m), x) ->
  Msg.contains_certificate (Msg.signer_identifier m) = true.
Proof.
  intros E. assert (m = example_message) as -> by (unfold example_message; by rewrite E). by vm_compute.
Qed.

Lemma example_octets : all_bytes [1; 2; 3] /\ size [1; 2; 3] <= RSIZE_MAX.
Proof. split; [by repeat constructor|by vm_compute]. Qed.

Lemma secured_exchange_witness : exists m x bs m' r y,
  Context.encapsulate example_now example_place example_validator [1; 2; 3] aid_CA example_sender = (Returns (inl m), x) /\
  Msg.serialize m = Returns bs /\ Msg.decode bs Msg.make_SecuredMessage = Returns (true, m') /\
  Context.decapsulate example_validator m' example_receiver = (Returns r, y) /\ r.(d_report) = Success /\ r.(d_payload) = [1; 2; 3].
Proof.
  destruct (secured_exchange example_now example_place example_sender example_validator [1; 2; 3] aid_CA example_digest example_receiver
    example_validator example_can_sign empty_cache_proper (make_policy_ok _) example_valid (proj1 example_octets) (proj2 example_octets)
    ltac:(done) example_ready example_valid_same) as (m & x & bs & m' & E & _ & Es & Ed & H).
  destruct H as (r & y & Er & Hs & _ & _ & Hp & _); [left; by eapply example_carries_certificate|].
  exists m, x, bs, m', r, y. split; [exact E|]. split; [exact Es|]. split; [exact Ed|]. split; [exact Er|]. split; [exact Hs|exact Hp].
Defined.

Lemma run_pair {S A} (f : state_cpp S A) x r : (f x).1 = Returns r -> f x = (Returns r, (f x).2).
Proof. destruct (f x). by intros <-. Qed.

Lemma example_verified : exists r,
  (StraightVerify.verify example_message (Context.verify_context example_validator example_receiver)).1 = Returns r /\ r.(v_report) = Success.
Proof. eexists. split; [vm_compute; reflexivity|reflexivity]. Qed.

Lemma verify_sound_witness : exists cert, accepted example_message (Context.verify_context example_validator example_receiver) cert.
Proof.
  destruct example_verified as (r & E & Hr).
  destruct (verify_sound example_message (Context.verify_context example_validator example_receiver) r _ (run_pair _ _ _ E) Hr) as (cert & H & _).
  exists cert. exact H.
Defined.

(** A message with a signature that nobody made. *)
Definition example_header : header := mk_header aid_CA 660000000500000 None None None.
Definition example_signature : EccSignature := {| sig_r := replicate 32 1; sig_s := replicate 32 0; sig_type := NistP256 |}.

Lemma example_header_proper : proper_header example_header.
Proof. by apply plain_header. Qed.

Lemma example_signature_proper : proper_sig example_signature.
Proof. split; [by apply replicate_octets|by apply replicate_octets|done|done|done]. Qed.

Definition example_received : obj :=
  message_obj SHA256 [1; 2; 3] (header_obj example_header) (certificate_signer ticket2) (primary_signature example_signature).

Lemma example_received_proper : proper_msg example_received.
Proof.
  destruct example_octets. apply message_proper; [done|done|apply header_proper, example_header_proper| |].
  - apply certificate_signer_proper, ticket2_proper.
  - apply primary_signature_proper, example_signature_proper.
Qed.

Lemma verify_answers_witness : exists r c', StraightVerify.verify example_received
  (Context.verify_context example_validator example_receiver) = (Returns r, c') /\ ready c'.
Proof.
  destruct (verify_answers example_received _ example_received_proper example_ready) as (r & c' & E & H & _). exists r, c'. split; [exact E|exact H].
Defined.

Lemma unknown_hash_authenticates_nothing_witness : exists m r c', Msg.payload m = Returns [1; 2; 3] /\
  StraightVerify.verify m (Context.verify_context example_validator example_receiver) = (Returns r, c') /\ r.(v_report) = Success.
Proof.
  destruct (unknown_hash_authenticates_nothing ticket2 example_digest example_key example_signature
    (Context.verify_context example_validator example_receiver) example_header [1; 2; 3]) as (bs & m & r & c' & _ & _ & H1 & H2 & H3);
    [intros algo data; exact eq_refl|exact ticket2_proper|exact ticket2_digest|exact ticket2_key|exact example_signature_proper| |exact example_ready| |exact (proj1 example_octets)|exact (proj2 example_octets)
    |exact example_header_proper|exists m, r, c'; split; [exact H1|split; [exact H2|exact H3]]].
  - by vm_compute.
  - intros f cert Hf H. injection Hf as <-. exact (example_valid_same cert H).
Defined.

Lemma cam_header_correct_witness : exists m0 m p, StraightSign.start_message SHA256 [1; 2; 3] = Returns m0 /\
  Policy.prepare_header example_now example_place ticket2 cache_empty aid_CA false m0 (make_policy example_now) = (Returns m, p) /\ policy_ok p.
Proof.
  destruct (cam_header_correct example_place ticket2 example_digest cache_empty ticket2_proper ticket2_digest empty_cache_proper example_now
    SHA256 [1; 2; 3] false (make_policy example_now) _ (make_policy_ok _) (start_message_built _ _)) as (s & rc & p & E & Hp & _).
  eexists _, _, p. split; [apply start_message_built|]. split; [exact E|exact Hp].
Defined.


Abbreviation example_station := (run_events example_place ticket2 cache_empty ecc_key (fun _ => example_validator)).


(** The validator refuses the first request and admits the second one: the header of the
    first message has used up the turn of the certificate, and what is sent has only
    the digest, which nobody knows. *)
Lemma refused_request_uses_up_certificate :
  (run_events example_place ticket2 cache_empty ecc_key
    (fun now => if now =? example_now then fun _ _ => Returns Expired else example_validator)
    [Cam example_now [1]; Cam (example_now + 1000) [2]] (make_policy example_now)).1 = Returns [(example_now + 1000, false)].
Proof. by vm_compute. Qed.

(** A received message with one contributed extension: the type of its content, ANY, has
    no decoder for these rules, and the null pointer is called. *)
Lemma contributed_extension_crashes : Msg.decode
  ([3; 129; 0; 64; 3; 128; 3; 1; 2; 3; 192; 1; 36; 0; 0; 0; 0; 0; 0; 0; 1; 2; 4; 16; 5; 1; 1; 1; 1; 1; 128] ++ replicate 8 5 ++
   [128; 128] ++ replicate 64 1) Msg.make_SecuredMessage = NoResult.
Proof. by vm_compute. Qed.

End Examples.
