(* ===== verification/RouterState.v ===== *)
(** * State of the router

    The members of the class Router (geonet/router.hpp), the functions by which the
    application sets it up, and the scheduler and the repeater as the router uses them.

    Member functions are computations of the monad [router]: they change the state, and
    they return, throw an exception (which leaves the state as it is at that point), or
    have no defined result (an assertion fails, or an iterator is invalid).

    What leaves the router is recorded in [m_events]: calls of its two hooks, packets
    passed down to the access layer, and packets passed up to a transport protocol.
    Interfaces that the application registers are numbers; the receivers of packets do
    not call the router back while they handle one.

    Callbacks in the scheduler are values of the type [Callback]. *)

From Stdlib Require Import ZArith Lia.
From stdpp Require Import prelude strings gmap.
From S2P Require Import Prelude GeoSerial GeoHeaders GeoPdu Double Asn1Wrapper Runtime NetPackets GeoArea.
From S2P Require Import GeoRequest GeoContainers SoftState CbfBuffer LocationTable GeoPending GeoIndication.

Open Scope Z_scope.

(** * Reasons and events *)

Inductive PacketDropReason :=
  | Parse_Basic_Header
  | Parse_Common_Header
  | Parse_Secured_Header
  | Parse_Extended_Header
  | ITS_Protocol_Version
  | Decap_Unsuccessful_Non_Strict
  | Decap_Unsuccessful_Strict
  | Drop_Hop_Limit
  | Payload_Size
  | Security_Entity_Missing
  | Packet_Size
  | Internal_Error.

Definition stringify (pdr : PacketDropReason) : string :=
  match pdr with
  | Parse_Basic_Header => "Parse_Basic_Header"
  | Parse_Common_Header => "Parse_Common_Header"
  | Parse_Secured_Header => "Parse_Secured_Header"
  | Parse_Extended_Header => "Parse_Extended_Header"
  | ITS_Protocol_Version => "ITS_Protocol_Version"
  | Decap_Unsuccessful_Non_Strict => "Decap_Unsuccessful_Non_Strict"
  | Decap_Unsuccessful_Strict => "Decap_Unsuccessful_Strict"
  | Drop_Hop_Limit => "Hop_Limit"
  | Payload_Size => "Payload_Size"
  | Security_Entity_Missing => "Security_Entity_Missing"
  | Packet_Size | Internal_Error => "UNKNOWN"
  end.

Inductive ForwardingStopReason :=
  | Stop_Hop_Limit
  | Source_PDR
  | Sender_PDR
  | Outside_Destination_Area.

(** dcc::DataRequest. *)
Record DccDataRequest := mk_DccDataRequest {
  ether_type : Z;
  dcc_source : MacAddress;
  dcc_destination : MacAddress;
  dcc_profile : Profile;
  dcc_lifetime : Z;
}.

Definition GeoNetworking_ether_type : Z := 0x8947.

Abbreviation interface := nat (only parsing).

(** * Objects that the router uses *)

(** A generator of DCC fields that the application registers. *)
Class DccFieldGenerator := {
  generator : Type;
  generate_dcc_field : generator -> DccField * generator;
}.

(** std::mt19937 with the two distributions of the router: the Standard leaves the
    algorithms of the distributions open. *)
Class Random := {
  random_engine : Type;
  seed : Z -> random_engine;
  uniform_real : random_engine -> double * random_engine;
  uniform_unsigned : random_engine -> Z * random_engine;
}.

(** Conversions of boost's quantities in [update_position]. *)
Class PositionUnits := {
  geo_angle_of : double -> Z;
  speed_of : double -> Z;
  heading_of : double -> Z;
}.

(** What [update_position] reads of a PositionFix. *)
Record PositionFix := mk_PositionFix {
  fix_latitude : double;
  fix_longitude : double;
  fix_semi_major : double;
  fix_course : double;
  fix_speed : double;
}.

(** * Callbacks *)

Inductive Callback := BeaconTimer | CbfFlush | RepeaterTrigger (rep : nat).
Inductive Scope := RouterScope | CbfScope | RepeaterScope.

#[export] Instance Scope_eq_dec : EqDecision Scope.
Proof. solve_decision. Defined.

#[export] Instance router_cbf_timer : CbfTimer Callback Scope :=
  {| cbf_flush := CbfFlush; cbf_scope := CbfScope |}.

Abbreviation Runtime := (@ManualRuntime.ManualRuntime Callback Scope).

#[export] Instance UpperProtocol_countable : Countable UpperProtocol.
Proof.
  refine (inj_countable
    (fun p => match p with Upper_Unknown => 0%nat | BTP_A => 1%nat | BTP_B => 2%nat | IPv6 => 3%nat end)
    (fun n => nth_error [Upper_Unknown; BTP_A; BTP_B; IPv6] n) _). by intros [].
Defined.

Section state.
Context `{SecuredArchive} `{!SecurityEntity} `{DccFieldGenerator} `{Random} `{Geodesy} `{PositionUnits}.
Context `{!HeapTop MacAddress} `{!HeapTop CbfPacketIdentifier} `{Allocator}.

Inductive event :=
  | Packet_dropped (reason : PacketDropReason)
  | Forwarding_stopped (reason : ForwardingStopReason)
  | Requested (ifc : option interface) (request : DccDataRequest) (packet : DownPacket)
  | Indicated (ifc : interface) (ind : DataIndication) (packet : UpPacket).

(** Repeater::Repetition; the payload is moved out when the repetition is dispatched. *)
Record RepetitionData := mk_RepetitionData {
  r_request : DataRequestVariant;
  r_payload : option DownPacket;
}.

(** [None] for the interface and the generator are the default objects, [None] for the
    security entity is the null pointer.  The list of repetitions has the nodes to which
    iterators point. *)
Record Router := mk_Router {
  m_mib : MIB;
  m_runtime : Runtime;
  m_request_interface : option interface;
  m_dcc_field_generator : option generator;
  m_security_entity : option entity;
  m_transport_ifcs : gmap UpperProtocol (option interface);
  m_location_table : LocationTable;
  m_bc_forward_buffer : PacketBuffer.PacketBuffer;
  m_uc_forward_buffer : PacketBuffer.PacketBuffer;
  m_cbf_buffer : CbfPacketBuffer.CbfPacketBuffer;
  m_local_position_vector : LongPositionVector;
  m_local_sequence_number : SequenceNumber;
  m_repetitions : list (nat * RepetitionData);
  m_random_gen : random_engine;
  m_gbc_memory : GbcMemory.GbcMemory;
  m_events : list event;
}.

Definition set_m_mib (v : MIB) (x : Router) : Router :=
  mk_Router v (m_runtime x) (m_request_interface x) (m_dcc_field_generator x) (m_security_entity x) (m_transport_ifcs x) (m_location_table x) (m_bc_forward_buffer x) (m_uc_forward_buffer x) (m_cbf_buffer x) (m_local_position_vector x) (m_local_sequence_number x) (m_repetitions x) (m_random_gen x) (m_gbc_memory x) (m_events x).
Definition set_m_runtime (v : Runtime) (x : Router) : Router :=
  mk_Router (m_mib x) v (m_request_interface x) (m_dcc_field_generator x) (m_security_entity x) (m_transport_ifcs x) (m_location_table x) (m_bc_forward_buffer x) (m_uc_forward_buffer x) (m_cbf_buffer x) (m_local_position_vector x) (m_local_sequence_number x) (m_repetitions x) (m_random_gen x) (m_gbc_memory x) (m_events x).
Definition set_m_request_interface (v : option interface) (x : Router) : Router :=
  mk_Router (m_mib x) (m_runtime x) v (m_dcc_field_generator x) (m_security_entity x) (m_transport_ifcs x) (m_location_table x) (m_bc_forward_buffer x) (m_uc_forward_buffer x) (m_cbf_buffer x) (m_local_position_vector x) (m_local_sequence_number x) (m_repetitions x) (m_random_gen x) (m_gbc_memory x) (m_events x).
Definition set_m_dcc_field_generator (v : option generator) (x : Router) : Router :=
  mk_Router (m_mib x) (m_runtime x) (m_request_interface x) v (m_security_entity x) (m_transport_ifcs x) (m_location_table x) (m_bc_forward_buffer x) (m_uc_forward_buffer x) (m_cbf_buffer x) (m_local_position_vector x) (m_local_sequence_number x) (m_repetitions x) (m_random_gen x) (m_gbc_memory x) (m_events x).
Definition set_m_security_entity (v : option entity) (x : Router) : Router :=
  mk_Router (m_mib x) (m_runtime x) (m_request_interface x) (m_dcc_field_generator x) v (m_transport_ifcs x) (m_location_table x) (m_bc_forward_buffer x) (m_uc_forward_buffer x) (m_cbf_buffer x) (m_local_position_vector x) (m_local_sequence_number x) (m_repetitions x) (m_random_gen x) (m_gbc_memory x) (m_events x).
Definition set_m_transport_ifcs (v : gmap UpperProtocol (option interface)) (x : Router) : Router :=
  mk_Router (m_mib x) (m_runtime x) (m_request_interface x) (m_dcc_field_generator x) (m_security_entity x) v (m_location_table x) (m_bc_forward_buffer x) (m_uc_forward_buffer x) (m_cbf_buffer x) (m_local_position_vector x) (m_local_sequence_number x) (m_repetitions x) (m_random_gen x) (m_gbc_memory x) (m_events x).
Definition set_m_location_table (v : LocationTable) (x : Router) : Router :=
  mk_Router (m_mib x) (m_runtime x) (m_request_interface x) (m_dcc_field_generator x) (m_security_entity x) (m_transport_ifcs x) v (m_bc_forward_buffer x) (m_uc_forward_buffer x) (m_cbf_buffer x) (m_local_position_vector x) (m_local_sequence_number x) (m_repetitions x) (m_random_gen x) (m_gbc_memory x) (m_events x).
Definition set_m_bc_forward_buffer (v : PacketBuffer.PacketBuffer) (x : Router) : Router :=
  mk_Router (m_mib x) (m_runtime x) (m_request_interface x) (m_dcc_field_generator x) (m_security_entity x) (m_transport_ifcs x) (m_location_table x) v (m_uc_forward_buffer x) (m_cbf_buffer x) (m_local_position_vector x) (m_local_sequence_number x) (m_repetitions x) (m_random_gen x) (m_gbc_memory x) (m_events x).
Definition set_m_uc_forward_buffer (v : PacketBuffer.PacketBuffer) (x : Router) : Router :=
  mk_Router (m_mib x) (m_runtime x) (m_request_interface x) (m_dcc_field_generator x) (m_security_entity x) (m_transport_ifcs x) (m_location_table x) (m_bc_forward_buffer x) v (m_cbf_buffer x) (m_local_position_vector x) (m_local_sequence_number x) (m_repetitions x) (m_random_gen x) (m_gbc_memory x) (m_events x).
Definition set_m_cbf_buffer (v : CbfPacketBuffer.CbfPacketBuffer) (x : Router) : Router :=
  mk_Router (m_mib x) (m_runtime x) (m_request_interface x) (m_dcc_field_generator x) (m_security_entity x) (m_transport_ifcs x) (m_location_table x) (m_bc_forward_buffer x) (m_uc_forward_buffer x) v (m_local_position_vector x) (m_local_sequence_number x) (m_repetitions x) (m_random_gen x) (m_gbc_memory x) (m_events x).
Definition set_m_local_position_vector (v : LongPositionVector) (x : Router) : Router :=
  mk_Router (m_mib x) (m_runtime x) (m_request_interface x) (m_dcc_field_generator x) (m_security_entity x) (m_transport_ifcs x) (m_location_table x) (m_bc_forward_buffer x) (m_uc_forward_buffer x) (m_cbf_buffer x) v (m_local_sequence_number x) (m_repetitions x) (m_random_gen x) (m_gbc_memory x) (m_events x).
Definition set_m_local_sequence_number (v : SequenceNumber) (x : Router) : Router :=
  mk_Router (m_mib x) (m_runtime x) (m_request_interface x) (m_dcc_field_generator x) (m_security_entity x) (m_transport_ifcs x) (m_location_table x) (m_bc_forward_buffer x) (m_uc_forward_buffer x) (m_cbf_buffer x) (m_local_position_vector x) v (m_repetitions x) (m_random_gen x) (m_gbc_memory x) (m_events x).
Definition set_m_repetitions (v : list (nat * RepetitionData)) (x : Router) : Router :=
  mk_Router (m_mib x) (m_runtime x) (m_request_interface x) (m_dcc_field_generator x) (m_security_entity x) (m_transport_ifcs x) (m_location_table x) (m_bc_forward_buffer x) (m_uc_forward_buffer x) (m_cbf_buffer x) (m_local_position_vector x) (m_local_sequence_number x) v (m_random_gen x) (m_gbc_memory x) (m_events x).
Definition set_m_random_gen (v : random_engine) (x : Router) : Router :=
  mk_Router (m_mib x) (m_runtime x) (m_request_interface x) (m_dcc_field_generator x) (m_security_entity x) (m_transport_ifcs x) (m_location_table x) (m_bc_forward_buffer x) (m_uc_forward_buffer x) (m_cbf_buffer x) (m_local_position_vector x) (m_local_sequence_number x) (m_repetitions x) v (m_gbc_memory x) (m_events x).
Definition set_m_gbc_memory (v : GbcMemory.GbcMemory) (x : Router) : Router :=
  mk_Router (m_mib x) (m_runtime x) (m_request_interface x) (m_dcc_field_generator x) (m_security_entity x) (m_transport_ifcs x) (m_location_table x) (m_bc_forward_buffer x) (m_uc_forward_buffer x) (m_cbf_buffer x) (m_local_position_vector x) (m_local_sequence_number x) (m_repetitions x) (m_random_gen x) v (m_events x).
Definition set_m_events (v : list event) (x : Router) : Router :=
  mk_Router (m_mib x) (m_runtime x) (m_request_interface x) (m_dcc_field_generator x) (m_security_entity x) (m_transport_ifcs x) (m_location_table x) (m_bc_forward_buffer x) (m_uc_forward_buffer x) (m_cbf_buffer x) (m_local_position_vector x) (m_local_sequence_number x) (m_repetitions x) (m_random_gen x) (m_gbc_memory x) v.

Abbreviation router := (state_cpp Router).

Definition emit (e : event) : router unit := modify (fun x => set_m_events (m_events x ++ [e]) x).
Definition packet_dropped (r : PacketDropReason) : router unit := emit (Packet_dropped r).
Definition forwarding_stopped (r : ForwardingStopReason) : router unit := emit (Forwarding_stopped r).

Definition get_mib : router MIB := gets m_mib.
Definition now : router Z := gets (fun x => ManualRuntime.m_now (m_runtime x)).

(** * Set-up by the application *)

Definition create_cbf_counter (mib : MIB) : CbfCounter :=
  if vanetzaFadingCbfCounter mib
  then CbfCounterFading (make_SoftStateMap (clock_cast (vanetzaFadingCbfCounterLifetime mib)))
  else CbfCounterContending ∅.

Definition set_transport_handler (proto : UpperProtocol) (ifc : option interface) : router unit :=
  modify (fun x => set_m_transport_ifcs (<[proto := ifc]> (m_transport_ifcs x)) x).

Definition set_security_entity (e : option entity) : router unit :=
  modify (set_m_security_entity e).

Definition set_access_interface (ifc : option interface) : router unit :=
  modify (set_m_request_interface ifc).

Definition set_dcc_field_generator (dcc : option generator) : router unit :=
  modify (set_m_dcc_field_generator dcc).

Definition set_address (addr : Address) : router unit :=
  modify (fun x => set_m_local_position_vector (set_gn_addr addr (m_local_position_vector x)) x).

Definition set_random_seed (s : Z) : router unit := modify (set_m_random_gen (seed s)).

Definition update_position (position_fix : PositionFix) : router unit :=
  mib ← get_mib;
  t ← now;
  modify (fun x =>
    let pv := m_local_position_vector x in
    let pv := set_timestamp (Timestamp_of t) pv in
    let pv := set_latitude (geo_angle_of (fix_latitude position_fix)) pv in
    let pv := set_longitude (geo_angle_of (fix_longitude position_fix)) pv in
    let pv :=
      if itsGnIsMobile mib
      then set_heading (heading_of (fix_course position_fix)) (set_speed (speed_of (fix_speed position_fix)) pv)
      else set_heading 0 (set_speed 0 pv) in
    let pv := set_position_accuracy_indicator
                (dlt (dmul (fix_semi_major position_fix) (double_of 2)) (itsGnPaiInterval mib)) pv in
    set_m_local_position_vector pv x).

(** * Timers *)

Definition draw_real : router double := fun x =>
  let '(r, g) := uniform_real (m_random_gen x) in (Returns r, set_m_random_gen g x).

Definition draw_unsigned : router Z := fun x =>
  let '(r, g) := uniform_unsigned (m_random_gen x) in (Returns r, set_m_random_gen g x).

Definition reset_beacon_timer_after (next_beacon : Z) : router unit :=
  modify (fun x => set_m_runtime
    (ManualRuntime.schedule_after next_beacon BeaconTimer RouterScope
      (ManualRuntime.cancel RouterScope (m_runtime x))) x).

Definition reset_beacon_timer : router unit :=
  mib ← get_mib;
  jitter ← draw_real;
  let next_beacon := dadd (itsGnBeaconServiceRetransmitTimer mib)
                          (dmul jitter (itsGnBeaconServiceMaxJitter mib)) in
  reset_beacon_timer_after (clock_cast next_beacon).

(** The constructor's initialisation of the members, and its body. *)
Definition init_Router (rt : Runtime) (mib : MIB) : Router :=
  mk_Router mib rt None None None ∅ (make_LocationTable (itsGnLifetimeLocTE mib))
    (PacketBuffer.make_PacketBuffer (u32 (itsGnBcForwardingPacketBufferSize mib * 1024)))
    (PacketBuffer.make_PacketBuffer (u32 (itsGnUcForwardingPacketBufferSize mib * 1024)))
    (CbfPacketBuffer.make_CbfPacketBuffer (create_cbf_counter mib)
      (u32 (itsGnCbfPacketBufferSize mib * 1024)))
    default_LongPositionVector 0 [] (seed (vanetzaDefaultSeed mib)) GbcMemory.make_GbcMemory [].

Definition construct_Router : router unit :=
  mib ← get_mib;
  _ ← when (negb (vanetzaDisableBeaconing mib))
        (if vanetzaDeferInitialBeacon mib >? 0 then
           r ← draw_real;
           let jitter := clock_cast (dmul r (itsGnBeaconServiceMaxJitter mib)) in
           reset_beacon_timer_after (vanetzaDeferInitialBeacon mib + jitter)
         else reset_beacon_timer_after 0);
  modify (fun x => set_m_gbc_memory
    (GbcMemory.set_capacity (vanetzaGbcMemoryCapacity mib) (m_gbc_memory x)) x).

Definition make_Router (rt : Runtime) (mib : MIB) : Router :=
  snd (construct_Router (init_Router rt mib)).

(** * Repeater *)

(** [Repeater::add]; nothing is added if no repetition is left. *)
Definition repeater_add (request : DataRequestVariant) (rep : Repetition) (payload : DownPacket)
  : router unit :=
  when (repetition_left rep)
    (modify (fun x =>
      let node := alloc (map fst (m_repetitions x)) in
      let rt := m_runtime x in
      let next_repetition := ManualRuntime.m_now rt + clock_cast (interval rep) in
      set_m_runtime (ManualRuntime.schedule_at next_repetition (RepeaterTrigger node) RepeaterScope rt)
        (set_m_repetitions ((node, mk_RepetitionData request (Some (copy_ChunkPacket payload))) :: m_repetitions x) x))).

Definition find_repetition (rep : nat) (l : list (nat * RepetitionData)) : option RepetitionData :=
  snd <$> (snd <$> list_find (fun r => fst r = rep) l).

Definition erase_repetition (rep : nat) (l : list (nat * RepetitionData))
  : list (nat * RepetitionData) :=
  filter (fun r => fst r ≠ rep) l.

Definition write_repetition (rep : nat) (d : RepetitionData) (l : list (nat * RepetitionData))
  : list (nat * RepetitionData) :=
  map (fun r => if decide (fst r = rep) then (rep, d) else r) l.

(** The request of a repetition that is due: one step less, and none when it is the last. *)
Definition next_request (delayed : Z) (rep : Repetition) (v : DataRequestVariant)
  : DataRequestVariant :=
  let rep := decrement_by_one rep in
  let rep := mk_Repetition (interval rep) (dsub (maximum rep) (seconds_of delayed)) in
  let request := set_repetition (Some rep) (access_request v) in
  let request := if negb (has_further_repetition request) then set_repetition None request else request in
  with_request request v.

(** [Repeater::trigger] around the function that dispatches the request. *)
Definition repeater_trigger (dispatch : DataRequestVariant -> option DownPacket -> router unit)
    (rep : nat) (invocation : Z) : router unit :=
  l ← gets m_repetitions;
  repetition ← defined (find_repetition rep l);
  step ← defined (GeoRequest.repetition (access_request (r_request repetition)));
  t ← now;
  let request := next_request (t - invocation) step (r_request repetition) in
  _ ← modify (fun x => set_m_repetitions
        (write_repetition rep (mk_RepetitionData request None) (m_repetitions x)) x);
  _ ← dispatch request (r_payload repetition);
  modify (fun x => set_m_repetitions (erase_repetition rep (m_repetitions x)) x).

(** * Buffers and tables of the router *)

Definition cbf_remove (id : CbfPacketIdentifier) : router bool := fun x =>
  match CbfPacketBuffer.remove id (m_cbf_buffer x) (m_runtime x) with
  | Some (dropped, b, rt) => (Returns dropped, set_m_runtime rt (set_m_cbf_buffer b x))
  | None => (NoResult, x)
  end.

Definition cbf_add (packet : CbfPacket) (timeout : Z) : router unit := fun x =>
  match CbfPacketBuffer.add packet timeout (m_cbf_buffer x) (m_runtime x) with
  | Some (b, rt) => (Returns (), set_m_runtime rt (set_m_cbf_buffer b x))
  | None => (NoResult, x)
  end.

Definition cbf_update (id : CbfPacketIdentifier) (timeout : Z) : router unit := fun x =>
  match CbfPacketBuffer.update id timeout (m_cbf_buffer x) (m_runtime x) with
  | Some (b, rt) => (Returns (), set_m_runtime rt (set_m_cbf_buffer b x))
  | None => (NoResult, x)
  end.

Definition cbf_counter (id : CbfPacketIdentifier) : router Z :=
  t ← now; b ← gets m_cbf_buffer; defined (CbfPacketBuffer.counter t id b).

Definition cbf_find (id : CbfPacketIdentifier) : router (option CbfPacket) :=
  b ← gets m_cbf_buffer; defined (CbfPacketBuffer.find id b).

(** A table operation that changes the table. *)
Definition on_table {A} (f : Z -> LocationTable -> option (A * LocationTable)) : router A := fun x =>
  match f (ManualRuntime.m_now (m_runtime x)) (m_location_table x) with
  | Some (a, t) => (Returns a, set_m_location_table t x)
  | None => (NoResult, x)
  end.

(** A table operation that only reads it. *)
Definition of_table {A} (f : Z -> LocationTable -> option A) : router A :=
  t ← now; table ← gets m_location_table; defined (f t table).

Definition get_position_of (mac : MacAddress) : router (option LongPositionVector) :=
  of_table (fun t => get_position t mac).

Definition has_neighbours_now : router bool :=
  of_table (fun t table => Some (has_neighbours t table)).

(** The entry that a reference denotes, and assigning to it. *)
Definition entry_of (mac : MacAddress) : router LocationTableEntry :=
  of_table (fun _ => entry_at mac).

Definition on_entry (mac : MacAddress) (f : LocationTableEntry -> LocationTableEntry) : router unit :=
  on_table (fun _ t => Some ((), modify_entry mac f t)).

Definition buffer_push (p : PendingPacket) : router unit :=
  t ← now;
  modify (fun x => set_m_bc_forward_buffer (snd (PacketBuffer.push p t (m_bc_forward_buffer x))) x).

End state.

Arguments event {_}.
Arguments Router {_ _ _ _}.
Abbreviation router := (state_cpp Router).
