(* ===== verification/RouterForward.v ===== *)
(** * Forwarding

    The part of geonet/router.cpp that sends packets: passing them down to the access
    layer, their encapsulation by the security entity, the forwarding algorithms, and the
    interpretation of the actions of pending packets. *)

From Stdlib Require Import ZArith Lia.
From stdpp Require Import prelude strings gmap.
From S2P Require Import Prelude GeoSerial GeoHeaders GeoPdu Double Asn1Wrapper Runtime NetPackets GeoArea.
From S2P Require Import GeoRequest GeoContainers SoftState CbfBuffer LocationTable GeoPending GeoIndication.
From S2P Require Import RouterState.

Open Scope Z_scope.

Section forward.
Context `{SecuredArchive} `{!SecurityEntity} `{DccFieldGenerator} `{Random} `{Geodesy} `{PositionUnits}.
Context `{!HeapTop MacAddress} `{!HeapTop CbfPacketIdentifier} `{Allocator}.

(** * Passing down *)

Definition execute_itsg5_procedures : router unit := mret ().

Definition execute_media_procedures (com_profile : CommunicationProfile) : router unit :=
  match com_profile with
  | ITS_G5 => execute_itsg5_procedures
  | IfType_Unspecified | LTE_V2X => mret ()
  end.

Definition pass_down (request : DccDataRequest) (pdu : Pdu) (payload : DownPacket) : router unit :=
  _ ← match secured pdu with
      | Some _ =>
          if negb (basic_next_header (basic pdu) =? NextHeaderBasic_Secured) then
            throw (runtime_error "PDU with secured message but Secured not set in basic header")
          else if chunk_size_of_layers Transport max_osi_layer payload >? 0 then
            throw (runtime_error "PDU with secured message and illegal upper layer payload")
          else mret ()
      | None =>
          if basic_next_header (basic pdu) =? NextHeaderBasic_Secured then
            throw (runtime_error "PDU without secured message but Secured set in basic header")
          else mret ()
      end;
  let payload := set_chunk_layer Network (OfPdu pdu) payload in
  ifc ← gets m_request_interface;
  emit (Requested ifc request payload).

(** The request for the access layer of a packet to [addr]. *)
Definition make_DccDataRequest (addr : MacAddress) (profile : Profile) (pdu : Pdu) : router DccDataRequest :=
  source ← gets (fun x => m_mid (gn_addr (m_local_position_vector x)));
  mret (mk_DccDataRequest GeoNetworking_ether_type source addr profile
          (clock_cast (Lifetime_decode (lifetime (basic pdu))))).

Definition pass_down_to (addr : MacAddress) (pdu : Pdu) (payload : DownPacket) : router unit :=
  request ← make_DccDataRequest addr (map_tc_onto_profile (traffic_class (common pdu))) pdu;
  pass_down request pdu payload.

(** * Encapsulation *)

(** The packet that is to be signed, and what is left of the original. *)
Definition secured_payload (pdu : Pdu) (packet : DownPacket) : DownPacket * DownPacket :=
  let sec_payload := set_chunk_layer Network (OfSecuredPdu (mk_SecuredPdu (common pdu) (extended pdu)))
                       make_ChunkPacket in
  merge sec_payload packet Transport max_osi_layer.

(** [None] is the null pointer; otherwise the packet and the message for the PDU. *)
Definition encap_packet (aid : Z) (ssp : bytes) (pdu : Pdu) (packet : DownPacket)
  : router (option (DownPacket * SecuredMessage)) :=
  e ← gets m_security_entity;
  match e with
  | None => mret None
  | Some e =>
      let '(sec_payload, packet) := secured_payload pdu packet in
      let '(confirm, e) := encapsulate_packet (mk_SignRequest sec_payload aid ssp) e in
      _ ← modify (set_m_security_entity (Some e));
      confirm ← lift confirm;
      _ ← assert_that (chunk_size_of_layers Transport max_osi_layer packet =? 0);
      _ ← assert_that (basic_next_header (basic pdu) =? NextHeaderBasic_Secured);
      mret (match confirm with
            | Encapsulated msg => Some (packet, msg)
            | SignConfirmError => None
            end)
  end.

(** The part of the source operations that shb and geo-broadcast share: with security the
    packet is signed, and [k] is what follows unless that fails. *)
Definition secure {X} (variant : X -> HeaderVariant) (ctrl : ControlInfo) (pdu : ExtendedPdu X)
    (payload : DownPacket) (k : ExtendedPdu X -> DownPacket -> router unit) : router unit :=
  mib ← get_mib;
  if itsGnSecurity mib then
    encapsulated ← encap_packet (c_its_aid ctrl) (c_permissions ctrl) (as_Pdu variant pdu) payload;
    match encapsulated with
    | Some (payload, msg) => k (set_e_secured (Some msg) pdu) payload
    | None => mret ()
    end
  else k pdu payload.

(** * Actions of packets that are on their way *)

(** [transmit] of a single-hop broadcast. *)
Definition shb_transmit (ctrl : ControlInfo) (packet : Packet ShbHeader) : router unit :=
  pv ← gets m_local_position_vector;
  let '(pdu, payload) := packet in
  let pdu := set_e_extended (set_shb_source_position pv (e_extended pdu)) pdu in
  secure VShb ctrl pdu payload (fun pdu payload =>
    _ ← execute_media_procedures (c_communication_profile ctrl);
    _ ← pass_down_to cBroadcastMacAddress (as_Pdu VShb pdu) payload;
    reset_beacon_timer).

(** [transmit] of a forwarded topologically scoped broadcast. *)
Definition tsb_transmit (packet : Packet TsbHeader) : router unit :=
  mib ← get_mib;
  _ ← execute_media_procedures (itsGnIfType mib);
  let pdu := as_Pdu VTsb packet.1 in
  request ← make_DccDataRequest cBroadcastMacAddress DP3 pdu;
  pass_down request pdu packet.2.

(** [transmit] of a geo-broadcast request, of a forwarded geo-broadcast, and [noop_fn]. *)
Definition mac_action (action : MacAction) (packet : Packet GeoBroadcastHeader) (mac : MacAddress)
  : router unit :=
  match action with
  | SourceTransmit ctrl =>
      pv ← gets m_local_position_vector;
      mib ← get_mib;
      let '(pdu, payload) := packet in
      let pdu := set_e_extended (set_gbc_source_position pv (e_extended pdu)) pdu in
      _ ← when (itsGnSecurity mib)
            (assert_that (basic_next_header (e_basic pdu) =? NextHeaderBasic_Secured));
      secure VGeoBroadcast ctrl pdu payload (fun pdu payload =>
        _ ← execute_media_procedures (c_communication_profile ctrl);
        pass_down_to mac (as_Pdu VGeoBroadcast pdu) payload)
  | ForwardTransmit =>
      mib ← get_mib;
      _ ← execute_media_procedures (itsGnIfType mib);
      let pdu := as_Pdu VGeoBroadcast packet.1 in
      request ← make_DccDataRequest mac DP3 pdu;
      pass_down request pdu packet.2
  | Noop => mret ()
  end.

(** [NextHop::process]: whether a packet was processed. *)
Definition nh_process (nh : NextHop) : router bool :=
  match nh with
  | Valid packet mac =>
      _ ← mac_action (f_action packet) (f_packet packet) mac; mret true
  | _ => mret false
  end.

(** * Forwarding algorithms *)

Definition forwarding_header (packet : PendingPacketForwarding) : GeoBroadcastHeader :=
  e_extended (f_packet packet).1.

(** The loop over the neighbours: the one that is closest to the destination, if it is
    closer than [mfr_dist]. *)
Definition closest_neighbour (dest : GeodeticPosition) (entries : list LocationTableEntry)
    (mfr : MacAddress * double) : MacAddress * double :=
  fold_left (fun '(mfr_addr, mfr_dist) neighbour =>
    if m_has_position_vector neighbour then
      let dist := distance dest (lpv_position (m_position_vector neighbour)) in
      if dlt dist mfr_dist then (link_layer_address neighbour, dist) else (mfr_addr, mfr_dist)
    else (mfr_addr, mfr_dist)) entries mfr.

Definition greedy_forwarding (packet : PendingPacketForwarding) : router NextHop :=
  let dest := header_position (forwarding_header packet) in
  local ← gets m_local_position_vector;
  entries ← of_table (fun t table => Some (neighbours t table));
  let own := distance dest (lpv_position local) in
  let '(mfr_addr, mfr_dist) := closest_neighbour dest entries (default_MacAddress, own) in
  if dlt mfr_dist own then mret (Valid packet mfr_addr)
  else if store_carry_forward (traffic_class (e_common (f_packet packet).1)) then
    _ ← buffer_push (PendingGbc (f_packet packet) (GreedyForwarding (f_action packet)));
    mret Buffered
  else mret (Valid packet cBroadcastMacAddress).

(** [timeout_cbf(prog)]. *)
Definition timeout_cbf_progress (mib : MIB) (prog : double) : double :=
  let dist_max := itsGnDefaultMaxCommunicationRange mib in
  let to_cbf_min := itsGnCbfMinTime mib in
  let to_cbf_max := itsGnCbfMaxTime mib in
  if dgt prog dist_max then to_cbf_min
  else if dgt prog dzero
  then dadd to_cbf_max (dmul (ddiv (dsub to_cbf_min to_cbf_max) dist_max) prog)
  else to_cbf_max.

(** [timeout_cbf(sender)]. *)
Definition timeout_cbf (from : MacAddress) : router double :=
  mib ← get_mib;
  pv_se ← get_position_of from;
  local ← gets m_local_position_vector;
  mret (match pv_se with
        | Some pv_se =>
            if position_accuracy_indicator pv_se
            then timeout_cbf_progress mib (distance (lpv_position pv_se) (lpv_position local))
            else itsGnCbfMaxTime mib
        | None => itsGnCbfMaxTime mib
        end).

Definition non_area_contention_based_forwarding (packet : PendingPacketForwarding)
    (from : option MacAddress) : router NextHop :=
  let gbc := forwarding_header packet in
  let cbf_id := gbc_identifier gbc in
  match from with
  | None => mret (Valid packet cBroadcastMacAddress)
  | Some from =>
      removed ← cbf_remove cbf_id;
      if removed : bool then mret Discarded
      else
        destination ← lift (gbc_destination (header_type (e_common (f_packet packet).1)) gbc);
        mib ← get_mib;
        epv ← gets m_local_position_vector;
        pv_se ← get_position_of from;
        let add_max :=
          _ ← cbf_add (mk_CbfPacket packet from) (clock_cast (itsGnCbfMaxTime mib));
          mret Buffered in
        match pv_se with
        | Some pv_se =>
            if position_accuracy_indicator pv_se then
              let pv_p := area_position destination in
              let dist_sender := distance pv_p (lpv_position pv_se) in
              let dist_local := distance pv_p (lpv_position epv) in
              if dgt dist_sender dist_local then
                let progress := dsub dist_sender dist_local in
                _ ← cbf_add (mk_CbfPacket packet from)
                      (clock_cast (timeout_cbf_progress mib progress));
                mret Buffered
              else mret Discarded
            else add_max
        | None => add_max
        end
  end.

(** [remove(id) || counter(id) >= max]. *)
Definition cbf_stop (cbf_id : CbfPacketIdentifier) : router bool :=
  removed ← cbf_remove cbf_id;
  if removed : bool then mret true
  else
    mib ← get_mib;
    n ← cbf_counter cbf_id;
    mret (n >=? vanetzaCbfMaxCounter mib).

Definition area_contention_based_forwarding (packet : PendingPacketForwarding)
    (from : option MacAddress) : router NextHop :=
  match from with
  | None => mret (Valid packet cBroadcastMacAddress)
  | Some from =>
      stop ← cbf_stop (gbc_identifier (forwarding_header packet));
      if stop : bool then mret Discarded
      else
        timeout ← timeout_cbf from;
        _ ← cbf_add (mk_CbfPacket packet from) (clock_cast timeout);
        mret Buffered
  end.

(** The angle at the sender between the forwarder and this router. *)
Definition angle_fsr (dist_r dist_f dist_rf : double) : double :=
  if dgt dist_r dzero && dgt dist_f dzero then
    dacos (ddiv (dsub (dsub (dmul dist_rf dist_rf) (dmul dist_r dist_r)) (dmul dist_f dist_f))
                (dmul (dmul (double_of (-2)) dist_r) dist_f))
  else dzero.

Definition outside_sectorial_contention_area (from forwarder : MacAddress) : router bool :=
  position_sender ← get_position_of from;
  position_forwarder ← get_position_of forwarder;
  mib ← get_mib;
  local ← gets m_local_position_vector;
  mret (match position_sender, position_forwarder with
        | Some position_sender, Some position_forwarder =>
            let dist_r := distance (lpv_position position_sender) (lpv_position local) in
            let dist_f := distance (lpv_position position_forwarder) (lpv_position position_sender) in
            let dist_max := itsGnDefaultMaxCommunicationRange mib in
            let dist_rf := distance (lpv_position position_forwarder) (lpv_position local) in
            let angle_th := itsGnBroadcastCBFDefSectorAngle mib in
            negb (dlt dist_r dist_f && dlt dist_f dist_max && dlt (angle_fsr dist_r dist_f dist_rf) angle_th)
        | _, _ => true
        end).

(** The branch of [area_advanced_forwarding] for a packet that is buffered already. *)
Definition advanced_buffered (cbf_id : CbfPacketIdentifier) (cbf : CbfPacket) (ll : LinkLayer)
  : router NextHop :=
  mib ← get_mib;
  n ← cbf_counter cbf_id;
  if n >=? vanetzaCbfMaxCounter mib then
    _ ← cbf_remove cbf_id; mret Discarded
  else
    outside ← outside_sectorial_contention_area (cbf_sender cbf) (sender ll);
    if negb outside then
      _ ← cbf_remove cbf_id; mret Discarded
    else
      timeout ← timeout_cbf (sender ll);
      _ ← cbf_update cbf_id (clock_cast timeout);
      mret Buffered.

(** The branch for a new packet. *)
Definition advanced_new (packet : PendingPacketForwarding) (ll : LinkLayer) : router NextHop :=
  mib ← get_mib;
  local ← gets m_local_position_vector;
  if bool_decide (destination ll = m_mid (gn_addr local)) then
    nh ← greedy_forwarding (duplicate_forwarding packet);
    let contending :=
      match nh with
      | Valid _ mac =>
          if bool_decide (mac = cBroadcastMacAddress) then mk_Forwarding (f_packet packet) Noop
          else packet
      | _ => packet
      end in
    _ ← cbf_add (mk_CbfPacket contending (sender ll)) (clock_cast (itsGnCbfMaxTime mib));
    mret nh
  else
    timeout ← timeout_cbf (sender ll);
    _ ← cbf_add (mk_CbfPacket packet (sender ll)) (clock_cast timeout);
    mret Buffered.

Definition area_advanced_forwarding (packet : PendingPacketForwarding) (ll : option LinkLayer)
  : router NextHop :=
  match ll with
  | None => mret (Valid packet cBroadcastMacAddress)
  | Some ll =>
      let gbc := forwarding_header packet in
      _ ← lift (gbc_destination (header_type (e_common (f_packet packet).1)) gbc);
      let cbf_id := gbc_identifier gbc in
      cbf ← cbf_find cbf_id;
      match cbf with
      | Some cbf => advanced_buffered cbf_id cbf ll
      | None => advanced_new packet ll
      end
  end.

Definition forwarding_algorithm_selection (packet : PendingPacketForwarding) (ll : option LinkLayer)
  : router NextHop :=
  destination ← lift (gbc_destination (header_type (e_common (f_packet packet).1))
                        (forwarding_header packet));
  mib ← get_mib;
  local ← gets m_local_position_vector;
  if inside_or_at_border destination (lpv_position local) then
    match itsGnAreaForwardingAlgorithm mib with
    | Broadcast_Unspecified | Broadcast_SIMPLE => mret (Valid packet cBroadcastMacAddress)
    | Broadcast_CBF => area_contention_based_forwarding packet (sender <$> ll)
    | Broadcast_Advanced => area_advanced_forwarding packet ll
    end
  else
    pv_se ← match ll with
            | Some ll => get_position_of (sender ll)
            | None => mret None
            end;
    let from_inside :=
      match pv_se with
      | Some pv_se =>
          position_accuracy_indicator pv_se && inside_or_at_border destination (lpv_position pv_se)
      | None => false
      end in
    if from_inside : bool then
      _ ← forwarding_stopped Outside_Destination_Area; mret Discarded
    else
      match itsGnNonAreaForwardingAlgorithm mib with
      | Unicast_Unspecified | Unicast_Greedy => greedy_forwarding packet
      | Unicast_CBF => non_area_contention_based_forwarding packet (sender <$> ll)
      end.

(** * Processing pending packets *)

Definition gbc_action (action : GbcAction) (packet : Packet GeoBroadcastHeader) : router unit :=
  match action with
  | SourceForwarding ctrl =>
      nh ← forwarding_algorithm_selection (mk_Forwarding packet (SourceTransmit ctrl)) None;
      _ ← nh_process nh; mret ()
  | Forwarding ll =>
      nh ← forwarding_algorithm_selection (mk_Forwarding packet ForwardTransmit) (Some ll);
      _ ← nh_process nh; mret ()
  | GreedyForwarding action =>
      nh ← greedy_forwarding (mk_Forwarding packet action);
      _ ← nh_process nh; mret ()
  | Bound action mac => mac_action action packet mac
  end.

(** [PendingPacket::process]. *)
Definition process (p : PendingPacket) : router unit :=
  match p with
  | PendingShb packet ctrl => shb_transmit ctrl packet
  | PendingTsb packet => tsb_transmit packet
  | PendingGbc packet action => gbc_action action packet
  end.

(** [PacketBuffer::flush]: the packets are taken out first, so that those which are stored
    again while they are processed stay in the buffer. *)
Definition flush_node (t : Z) (node : PacketBuffer.Expiry * PendingPacket) : router unit :=
  if PacketBuffer.is_expired t node.1 then mret ()
  else process (snd (pending_reduce_lifetime (t - PacketBuffer.m_buffered_since node.1) node.2)).

Definition flush_broadcast_forwarding_buffer : router unit :=
  t ← now;
  b ← gets m_bc_forward_buffer;
  _ ← modify (set_m_bc_forward_buffer (PacketBuffer.mk [] (PacketBuffer.m_capacity b) 0));
  for_each (flush_node t) (PacketBuffer.m_nodes b).

Definition flush_unicast_forwarding_buffer (source : Address) : router unit :=
  t ← now;
  b ← gets m_uc_forward_buffer;
  _ ← modify (set_m_uc_forward_buffer (PacketBuffer.mk [] (PacketBuffer.m_capacity b) 0));
  for_each (flush_node t) (PacketBuffer.m_nodes b).

(** [CbfPacketBuffer::flush] with the callback of the router, which processes the packet;
    the exception that the callback throws ends the loop. *)
Definition cbf_callback (p : CbfPacket) (w : cpp unit * Router) : bool * (cpp unit * Router) :=
  let r := mac_action (f_action (cbf_inner p)) (f_packet (cbf_inner p)) cBroadcastMacAddress w.2 in
  (if r.1 is Returns _ then true else false, r).

Definition flush_cbf_buffer : router unit := fun x =>
  let t := ManualRuntime.m_now (m_runtime x) in
  let b := m_cbf_buffer x in
  match CbfPacketBuffer.flush_loop cbf_callback t
          (CbfPacketBuffer.expired_timers t (CbfPacketBuffer.m_timers b)) b (Returns (), x) with
  | None => (NoResult, x)
  | Some (false, b, (outcome, x)) => (outcome, set_m_cbf_buffer b x)
  | Some (true, b, (_, x)) =>
      let x := set_m_cbf_buffer b x in
      match CbfPacketBuffer.flush_reschedule b (m_runtime x) with
      | None => (NoResult, x)
      | Some rt => (Returns (), set_m_runtime rt x)
      end
  end.

End forward.
