(* ===== verification/RouterIndicate.v ===== *)
(** * Reception

    The part of geonet/router.cpp that handles received packets: [indicate] parses the
    headers of a packet in the order of the layers, [process_extended] updates the
    location table and forwards the packet, and says whether it is passed up. *)

From Stdlib Require Import ZArith Lia.
From stdpp Require Import prelude strings gmap.
From S2P Require Import Prelude GeoSerial GeoHeaders GeoPdu Double Asn1Wrapper Runtime NetPackets GeoArea.
From S2P Require Import GeoRequest GeoContainers SoftState CbfBuffer LocationTable GeoPending GeoIndication.
From S2P Require Import RouterState RouterForward.

Open Scope Z_scope.

Section indicate.
Context `{SecuredArchive} `{!SecurityEntity} `{DccFieldGenerator} `{Random} `{Geodesy} `{PositionUnits}.
Context `{!HeapTop MacAddress} `{!HeapTop CbfPacketIdentifier} `{Allocator}.

(** [m_transport_ifcs[ind.upper_protocol]] creates a missing entry.  The call of the transport
    layer is recorded; it is the last thing that [indicate] does, so what the callee does, an
    exception included, comes behind the router's part.  [router_indicate] of Station puts
    the port dispatcher there, whose exceptions then leave [indicate]. *)
Definition pass_up (ind : DataIndication) (packet : UpPacket) : router unit :=
  ifcs ← gets m_transport_ifcs;
  let transport := default None (ifcs !! i_upper_protocol ind) in
  _ ← modify (set_m_transport_ifcs (<[i_upper_protocol ind := transport]> ifcs));
  match transport with
  | Some ifc => emit (Indicated ifc ind packet)
  | None => mret ()
  end.

(** * Duplicate addresses and packets *)

(** The loop over the octets. *)
Definition random_mac : router MacAddress :=
  a ← draw_unsigned; b ← draw_unsigned; c ← draw_unsigned;
  d ← draw_unsigned; e ← draw_unsigned; f ← draw_unsigned;
  mret (mk_MacAddress (u8 a) (u8 b) (u8 c) (u8 d) (u8 e) (u8 f)).

Definition detect_duplicate_address (source : Address) (from : MacAddress) : router unit :=
  mib ← get_mib;
  local ← gets (fun x => gn_addr (m_local_position_vector x));
  if bool_decide (itsGnLocalAddrConfMethod mib = Auto) then
    if bool_decide (source = local) || bool_decide (from = m_mid local) then
      mac ← random_mac;
      set_address (mk_Address (m_manually_configured local) (m_station_type local)
                     (m_country_code local) mac)
    else mret ()
  else mret ().

Definition detect_duplicate (addr_so : Address) (sn : SequenceNumber) : router bool :=
  mib ← get_mib;
  on_table (fun t => detect_duplicate_packet (Z.to_nat (itsGnDPLLength mib)) t addr_so sn).

Definition decide_pass_up_now (within_destination : bool) (gbc : GeoBroadcastHeader) : router bool :=
  mib ← get_mib;
  memory ← gets m_gbc_memory;
  let '(up, memory) := decide_pass_up (vanetzaGbcPassUpOutsideDestination mib)
                         (vanetzaGbcMemoryCapacity mib) within_destination gbc memory in
  _ ← modify (set_m_gbc_memory memory);
  mret up.

(** * Extended headers *)

(** Steps that all packets share: the location table learns the position of the source.
    The entry that the source code refers to is that of the link-layer address. *)
Definition update_location (pv : LongPositionVector) : router unit :=
  on_table (fun t table => table ← table_update t pv table; Some ((), table)).

Definition update_source_pdr (mac : MacAddress) (packet : UpPacket) : router unit :=
  mib ← get_mib;
  t ← now;
  let packet_size := packet_size_of_layers Network Application packet in
  on_entry mac (update_pdr t packet_size (itsGnMaxPacketDataRateEmaBeta mib)).

Definition mark_neighbour (mac : MacAddress) : router unit :=
  mib ← get_mib;
  t ← now;
  on_entry mac (set_neighbour_expiry t true (vanetzaNeighbourFlagExpiry mib)).

Definition process_extended_shb (pdu : ShbPdu) (packet : UpPacket) (ll : LinkLayer) : router bool :=
  let shb := e_extended pdu in
  let source_addr := gn_addr (shb_source_position shb) in
  let mac := m_mid source_addr in
  _ ← detect_duplicate_address source_addr (sender ll);
  _ ← update_location (shb_source_position shb);
  source_entry ← entry_of mac;
  _ ← assert_that (m_has_position_vector source_entry || negb (lpv_is_valid (shb_source_position shb)));
  _ ← update_source_pdr mac packet;
  _ ← mark_neighbour mac;
  mib ← get_mib;
  t ← now;
  _ ← when (bool_decide (itsGnIfType mib = ITS_G5))
        (match get_dcc_mco (dcc shb) with
         | Some mco =>
             on_entry mac (set_loctex
               (mk_LocTEX_G5 (Timestamp_of t) (timestamp (shb_source_position shb)) mco))
         | None => mret ()
         end);
  mret true.

Definition process_extended_beacon (pdu : BeaconPdu) (packet : UpPacket) (ll : LinkLayer) : router bool :=
  let source_position := beacon_source_position (e_extended pdu) in
  let source_addr := gn_addr source_position in
  let mac := m_mid source_addr in
  _ ← detect_duplicate_address source_addr (sender ll);
  _ ← update_location source_position;
  _ ← update_source_pdr mac packet;
  _ ← mark_neighbour mac;
  mret false.

(** The checks of the hop limit and of the packet data rate (steps 9 and 9a); [None] if
    the packet may be forwarded. *)
Definition forwarding_obstacle (hops : Z) (mac from : MacAddress) : router (option ForwardingStopReason) :=
  mib ← get_mib;
  if hops <=? 1 then mret (Some Stop_Hop_Limit)
  else if itsGnMaxPacketDataRate mib <? 2 ^ 32 - 1 then
    let limit := dmul (double_of (itsGnMaxPacketDataRate mib)) (double_of 1000) in
    source_entry ← entry_of mac;
    if dgt (m_pdr source_entry) limit then mret (Some Source_PDR)
    else
      sender_entry ← of_table (fun t => get_entry t from);
      match sender_entry with
      | Some sender_entry => if dgt (m_pdr sender_entry) limit then mret (Some Sender_PDR) else mret None
      | None => mret None
      end
  else mret None.

(** [create_forwarding_duplicate], and the hop limit of the copy. *)
Definition forwarding_duplicate {X} (pdu : ExtendedPdu X) (packet : UpPacket) : router (Packet X) :=
  let payload := match e_secured pdu with
                 | Some _ => make_ChunkPacket
                 | None => duplicate packet
                 end in
  let fwd_pdu := set_e_basic (set_hop_limit (u8 (hop_limit (e_basic pdu) - 1)) (e_basic pdu)) pdu in
  _ ← assert_that (hop_limit (e_basic fwd_pdu) + 1 =? hop_limit (e_basic pdu));
  mret (fwd_pdu, payload).

(** Step 10: with store-carry-forward a packet waits until there is a neighbour. *)
Definition store_or_process (scf : bool) (p : PendingPacket) : router unit :=
  neighbours ← has_neighbours_now;
  if scf && negb neighbours then buffer_push p else process p.

Definition process_extended_tsb (pdu : TsbPdu) (packet : UpPacket) (ll : LinkLayer) : router bool :=
  let tsb := e_extended pdu in
  let source_addr := gn_addr (tsb_source_position tsb) in
  let mac := m_mid source_addr in
  locte_exists ← of_table (fun t => has_entry t source_addr);
  is_duplicate ← detect_duplicate source_addr (tsb_sequence_number tsb);
  if is_duplicate : bool then mret false
  else
    mib ← get_mib;
    _ ← when (vanetzaMultiHopDuplicateAddressDetection mib)
          (detect_duplicate_address source_addr (sender ll));
    _ ← update_location (tsb_source_position tsb);
    _ ← when (negb locte_exists) (on_entry mac (set_neighbour false));
    _ ← update_source_pdr mac packet;
    _ ← flush_unicast_forwarding_buffer source_addr;
    obstacle ← forwarding_obstacle (hop_limit (e_basic pdu)) mac (sender ll);
    match obstacle with
    | Some reason => _ ← forwarding_stopped reason; mret true
    | None =>
        fwd_dup ← forwarding_duplicate pdu packet;
        _ ← store_or_process (store_carry_forward (traffic_class (e_common pdu))) (PendingTsb fwd_dup);
        mret true
    end.

(** Step 3: whether this packet is looked up in the duplicate packet list. *)
Definition checks_duplicates (mib : MIB) (within_destination : bool) : bool :=
  if within_destination then
    match itsGnAreaForwardingAlgorithm mib with
    | Broadcast_Unspecified | Broadcast_SIMPLE => true
    | _ => false
    end
  else
    match itsGnNonAreaForwardingAlgorithm mib with
    | Unicast_Unspecified | Unicast_Greedy => true
    | _ => false
    end.

Definition process_extended_gbc (pdu : GbcPdu) (packet : UpPacket) (ll : LinkLayer) : router bool :=
  let gbc := e_extended pdu in
  let source_addr := gn_addr (gbc_source_position gbc) in
  let mac := m_mid source_addr in
  dest_area ← lift (gbc_destination (header_type (e_common pdu)) gbc);
  locte_exists ← of_table (fun t => has_entry t source_addr);
  local ← gets m_local_position_vector;
  mib ← get_mib;
  let within_destination := inside_or_at_border dest_area (lpv_position local) in
  duplicate_packet ←
    if checks_duplicates mib within_destination
    then detect_duplicate source_addr (gbc_sequence_number gbc) else mret false;
  if duplicate_packet : bool then mret false
  else
    _ ← when (vanetzaMultiHopDuplicateAddressDetection mib)
          (detect_duplicate_address source_addr (sender ll));
    _ ← update_location (gbc_source_position gbc);
    _ ← update_source_pdr mac packet;
    _ ← when (negb locte_exists) (on_entry mac (set_neighbour false));
    _ ← flush_unicast_forwarding_buffer source_addr;
    obstacle ← forwarding_obstacle (hop_limit (e_basic pdu)) mac (sender ll);
    match obstacle with
    | Some reason => _ ← forwarding_stopped reason; decide_pass_up_now within_destination gbc
    | None =>
        fwd_dup ← forwarding_duplicate pdu packet;
        _ ← store_or_process (store_carry_forward (traffic_class (e_common pdu)))
              (PendingGbc fwd_dup (Forwarding ll));
        decide_pass_up_now within_destination gbc
    end.

(** * Indication *)

Definition ctx_pdu {X} (ctx : IndicationContext) (header : X) : ExtendedPdu X :=
  mk_ExtendedPdu (basic (pdu ctx)) (common (pdu ctx)) header (secured (pdu ctx)).

(** extended_header_visitor: the indication, and whether the packet is passed up. *)
Definition extended_header_visitor (ctx : IndicationContext) (packet : UpPacket) (header : HeaderVariant)
  : router (bool * DataIndication) :=
  let ind := service_primitive ctx in
  match header with
  | VShb shb =>
      let ind := set_transport SHB (ShortPositionVector_of (shb_source_position shb)) ind in
      up ← process_extended_shb (ctx_pdu ctx shb) packet (link_layer ctx);
      mret (up, ind)
  | VTsb tsb =>
      let ind := set_transport TSB (ShortPositionVector_of (tsb_source_position tsb)) ind in
      up ← process_extended_tsb (ctx_pdu ctx tsb) packet (link_layer ctx);
      mret (up, ind)
  | VGeoBroadcast gbc =>
      let ind := set_transport GBC (ShortPositionVector_of (gbc_source_position gbc)) ind in
      area ← lift (gbc_destination (header_type (common (pdu ctx))) gbc);
      let ind := set_indication_destination (DestinationArea area) ind in
      up ← process_extended_gbc (ctx_pdu ctx gbc) packet (link_layer ctx);
      mret (up, ind)
  | VBeacon beacon =>
      up ← process_extended_beacon (ctx_pdu ctx beacon) packet (link_layer ctx);
      mret (up, ind)
  end.

Definition indicate_extended (ctx : IndicationContext) (common : CommonHeader) : router unit :=
  let '(extended, ctx) := ctx_parse_extended (header_type common) ctx in
  packet ← defined (finish ctx);
  match extended with
  | None => packet_dropped Parse_Extended_Header
  | Some header =>
      if negb (payload common =? packet_size_of_layers Transport max_osi_layer packet)
      then packet_dropped Payload_Size
      else
        '(up, ind) ← extended_header_visitor ctx packet header;
        if up : bool then pass_up ind packet else mret ()
  end.

Definition upper_protocol_of (next_header : Z) : UpperProtocol :=
  if next_header =? NextHeaderCommon_BTP_A then BTP_A
  else if next_header =? NextHeaderCommon_BTP_B then BTP_B
  else if next_header =? NextHeaderCommon_IPv6 then IPv6
  else Upper_Unknown.

Definition drop_expired_locations : router unit :=
  on_table (fun t table => table ← drop_expired t table; Some ((), table)).

Definition indicate_common (ctx : IndicationContext) (basic : BasicHeader) : router unit :=
  let '(common, ctx) := ctx_parse_common ctx in
  match common with
  | None => packet_dropped Parse_Common_Header
  | Some common =>
      if maximum_hop_limit common <? hop_limit basic then packet_dropped Drop_Hop_Limit
      else
        let ctx := set_service_primitive
                     (set_common_fields (traffic_class common) (upper_protocol_of (next_header common))
                        (service_primitive ctx)) ctx in
        _ ← drop_expired_locations;
        _ ← flush_broadcast_forwarding_buffer;
        indicate_extended ctx common
  end.

(** secured_payload_visitor. *)
Definition indicate_payload (ctx : IndicationContext) (basic : BasicHeader) (payload : PacketVariant)
  : router unit :=
  match payload with
  | Chunk packet => ctx ← lift (make_SecuredCast ctx packet); indicate_common ctx basic
  | Cohesive packet => indicate_common (make_SecuredDeserialize ctx packet) basic
  end.

(** The variant of the payload is never empty, so the payload is always handed on when
    reports are not handled strictly. *)
Definition indicate_secured (ctx : IndicationContext) (basic : BasicHeader) : router unit :=
  let '(secured_message, ctx) := ctx_parse_secured ctx in
  match secured_message with
  | None => packet_dropped Parse_Secured_Header
  | Some secured_message =>
      e ← gets m_security_entity;
      match e with
      | None => packet_dropped Security_Entity_Missing
      | Some e =>
          let '(decap_confirm, e) := decapsulate_packet secured_message e in
          _ ← modify (set_m_security_entity (Some e));
          decap_confirm ← lift decap_confirm;
          let ctx := set_service_primitive
                       (set_signer (decap_its_aid decap_confirm) (decap_permissions decap_confirm)
                         (set_security_report (report decap_confirm) (service_primitive ctx))) ctx in
          mib ← get_mib;
          if is_successful (report decap_confirm)
          then indicate_payload ctx basic (plaintext_payload decap_confirm)
          else if bool_decide (itsGnSnDecapResultHandling mib = Non_Strict)
          then indicate_payload ctx basic (plaintext_payload decap_confirm)
          else packet_dropped Decap_Unsuccessful_Strict
      end
  end.

Definition indicate_basic (ctx : IndicationContext) : router unit :=
  let '(basic, ctx) := ctx_parse_basic ctx in
  mib ← get_mib;
  match basic with
  | None => packet_dropped Parse_Basic_Header
  | Some basic =>
      if negb (version basic =? itsGnProtocolVersion mib) then packet_dropped ITS_Protocol_Version
      else
        let ctx := set_service_primitive
                     (set_remaining (lifetime basic) (hop_limit basic) (service_primitive ctx)) ctx in
        if basic_next_header basic =? NextHeaderBasic_Secured then indicate_secured ctx basic
        else if basic_next_header basic =? NextHeaderBasic_Common then
          if negb (itsGnSecurity mib)
             || bool_decide (itsGnSnDecapResultHandling mib = Non_Strict) then
            let ctx := set_service_primitive
                         (set_security_report None (service_primitive ctx)) ctx in
            indicate_common ctx basic
          else packet_dropped Decap_Unsuccessful_Strict
        else mret ()
  end.

Definition indicate (packet : UpPacket) (from to : MacAddress) : router unit :=
  let ll := mk_LinkLayer from to in
  match packet with
  | Cohesive cohesive => indicate_basic (make_Deserialize cohesive ll)
  | Chunk chunk => ctx ← lift (make_Cast chunk ll); indicate_basic ctx
  end.

End indicate.
