(* ===== verification/Router.v ===== *)
(** * Requests, beacons and the run of the router

    The part of geonet/router.cpp that serves requests of the upper layer and sends
    beacons, and the loop of the scheduler that calls the router back. *)

From Stdlib Require Import ZArith Lia.
From stdpp Require Import prelude strings gmap.
From S2P Require Import Prelude GeoSerial GeoHeaders GeoPdu Double Asn1Wrapper Runtime NetPackets GeoArea.
From S2P Require Import GeoRequest GeoContainers SoftState CbfBuffer LocationTable GeoPending GeoIndication.
From S2P Require Import RouterState RouterForward RouterIndicate.

Open Scope Z_scope.

(** aid::GN_MGMT. *)
Definition GN_MGMT : Z := 141.

Section router.
Context `{SecuredArchive} `{!SecurityEntity} `{DccFieldGenerator} `{Random} `{Geodesy} `{PositionUnits}.
Context `{!HeapTop MacAddress} `{!HeapTop CbfPacketIdentifier} `{Allocator}.

(** * Packets of the router's own *)

Definition generate_field : router DccField := fun x =>
  match m_dcc_field_generator x with
  | None => (Returns (DccRaw 0), x)
  | Some g =>
      let '(field, g) := generate_dcc_field g in
      (Returns field, set_m_dcc_field_generator (Some g) x)
  end.

Definition create_shb_pdu (request : DataRequest) : router ShbPdu :=
  mib ← get_mib;
  pdu ← lift (ExtendedPdu_of_request default_ShbHeader request mib);
  local ← gets m_local_position_vector;
  field ← generate_field;
  let common := set_maximum_hop_limit 1 (set_header_type TSB_Single_Hop (e_common pdu)) in
  mret (mk_ExtendedPdu (set_hop_limit 1 (e_basic pdu)) common (mk_ShbHeader local field) None).

Definition create_beacon_pdu : router BeaconPdu :=
  mib ← get_mib;
  local ← gets m_local_position_vector;
  let pdu := ExtendedPdu_of_MIB default_BeaconHeader mib in
  let common := e_common pdu in
  let common := set_next_header NextHeaderCommon_Any common in
  let common := set_header_type Beacon common in
  let common := set_maximum_hop_limit 1 common in
  let common := set_traffic_class (itsGnDefaultTrafficClass mib) common in
  mret (mk_ExtendedPdu (set_hop_limit 1 (e_basic pdu)) common (mk_BeaconHeader local) None).

(** [m_local_sequence_number++] in 16 bits. *)
Definition next_sequence_number : router SequenceNumber := fun x =>
  (Returns (m_local_sequence_number x),
   set_m_local_sequence_number (u16 (m_local_sequence_number x + 1)) x).

Definition create_gbc_pdu (request : DataRequest) (destination : Area) : router GbcPdu :=
  mib ← get_mib;
  pdu ← lift (ExtendedPdu_of_request default_GeoBroadcastHeader request mib);
  sn ← next_sequence_number;
  local ← gets m_local_position_vector;
  let header := set_gbc_sequence_number sn (e_extended pdu) in
  let header := set_gbc_source_position local header in
  let header := set_destination destination header in
  mret (mk_ExtendedPdu (e_basic pdu) (set_header_type (gbc_header_type destination) (e_common pdu))
          header None).

(** * Requests *)

(** The repetition is registered before the packet is made. *)
Definition set_up_repetition (v : DataRequestVariant) (payload : DownPacket) : router unit :=
  match repetition (access_request v) with
  | Some rep => repeater_add v rep payload
  | None => mret ()
  end.

Definition set_pdu_payload {X} (payload : DownPacket) (pdu : ExtendedPdu X) : ExtendedPdu X :=
  set_e_common (set_payload (u16 (chunk_size payload)) (e_common pdu)) pdu.

Definition request_shb (request : DataRequest) (payload : option DownPacket) : router DataConfirm :=
  mib ← get_mib;
  let result := replace_code Accepted (validate_data_request request mib) in
  let result := replace_code result (validate_payload payload mib) in
  match payload with
  | Some payload =>
      if accepted result then
        _ ← set_up_repetition (ShbDataRequest request) payload;
        pdu ← create_shb_pdu request;
        let pdu := set_pdu_payload payload pdu in
        _ ← store_or_process (store_carry_forward (request_traffic_class request))
              (PendingShb (pdu, payload) (make_ControlInfo request));
        mret result
      else mret result
  | None => mret result
  end.

Definition request_gbc (request : DataRequest) (destination : Area) (payload : option DownPacket)
  : router DataConfirm :=
  mib ← get_mib;
  let result := replace_code Accepted (validate_data_request_with_area request destination mib) in
  let result := replace_code result (validate_payload payload mib) in
  match payload with
  | Some payload =>
      if accepted result then
        _ ← set_up_repetition (GbcDataRequest request destination) payload;
        pdu ← create_gbc_pdu request destination;
        let pdu := set_pdu_payload payload pdu in
        _ ← store_or_process (store_carry_forward (request_traffic_class request))
              (PendingGbc (pdu, payload) (SourceForwarding (make_ControlInfo request)));
        mret result
      else mret result
  | None => mret result
  end.

(** The overloads of [request]; three kinds of requests are not supported. *)
Definition request (v : DataRequestVariant) (payload : option DownPacket) : router DataConfirm :=
  match v with
  | ShbDataRequest request => request_shb request payload
  | GbcDataRequest request destination => request_gbc request destination payload
  | GacDataRequest _ _ | GucDataRequest _ _ | TsbDataRequest _ => mret Rejected_Unspecified
  end.

(** RepetitionDispatcher ignores the confirmation. *)
Definition dispatch_repetition (v : DataRequestVariant) (payload : option DownPacket) : router unit :=
  _ ← request v payload; mret ().

(** * Beacons *)

Definition on_beacon_timer_expired : router unit :=
  mib ← get_mib;
  local ← gets m_local_position_vector;
  if vanetzaDisableBeaconing mib then mret ()
  else if timestamp local =? 0 then reset_beacon_timer
  else
    pdu ← create_beacon_pdu;
    let send (pdu : BeaconPdu) (payload : DownPacket) : router unit :=
      _ ← execute_media_procedures (itsGnIfType mib);
      _ ← pass_down_to cBroadcastMacAddress (as_Pdu VBeacon pdu) payload;
      reset_beacon_timer in
    if itsGnSecurity mib then
      let pdu := set_e_basic (set_basic_next_header NextHeaderBasic_Secured (e_basic pdu)) pdu in
      encapsulated ← encap_packet GN_MGMT [] (as_Pdu VBeacon pdu) make_ChunkPacket;
      match encapsulated with
      | Some (payload, msg) => send (set_e_secured (Some msg) pdu) payload
      | None => mret ()
      end
    else
      send (set_e_basic (set_basic_next_header NextHeaderBasic_Common (e_basic pdu)) pdu) make_ChunkPacket.

(** * The scheduler *)

Definition run_callback (cb : Callback) (deadline : Z) : router unit :=
  match cb with
  | BeaconTimer => on_beacon_timer_expired
  | CbfFlush => flush_cbf_buffer
  | RepeaterTrigger rep => repeater_trigger dispatch_repetition rep deadline
  end.

(** The loop of [ManualRuntime::trigger]; each round takes one callback out of the queue.
    There is no result if it is not over after [fuel] rounds. *)
Fixpoint trigger (fuel : nat) : router unit :=
  match fuel with
  | O => lift NoResult
  | S fuel =>
      rt ← gets m_runtime;
      match ManualRuntime.pop_due rt with
      | None => mret ()
      | Some (top, rt) =>
          _ ← modify (set_m_runtime rt);
          _ ← run_callback (ManualRuntime.callback top) (ManualRuntime.deadline top);
          trigger fuel
      end
  end.

(** A round of the scheduler for every callback in its queue, and the one that finds nothing
    to do. *)
Definition enough (x : Router) : nat := S (length (ManualRuntime.m_queue (m_runtime x))).

(** [ManualRuntime::trigger(tp)], of which the assertion requires a monotonic clock. *)
Definition advance (fuel : nat) (tp : Z) : router unit :=
  t ← now;
  _ ← assert_that (tp >=? t);
  _ ← modify (fun x => set_m_runtime (ManualRuntime.set_now tp (m_runtime x)) x);
  trigger fuel.

(** [ManualRuntime::trigger(d)]. *)
Definition advance_by (fuel : nat) (d : Z) : router unit :=
  _ ← modify (fun x =>
        set_m_runtime (ManualRuntime.set_now (ManualRuntime.m_now (m_runtime x) + d) (m_runtime x)) x);
  trigger fuel.

End router.
