(* ===== verification/PortDispatcher.v ===== *)
(** * Dispatching received packets to ports

    btp/header.cpp (parsing of packets), btp/data_indication.cpp, btp/port_dispatcher.cpp
    and common/serialization_buffer.hpp.  The dispatcher is the transport protocol that the
    application registers at the router.  Handlers and hooks of the application are
    numbers; their calls are recorded in [m_calls]. *)

From Stdlib Require Import ZArith Lia.
From stdpp Require Import prelude strings gmap.
From S2P Require Import Prelude GeoSerial GeoHeaders GeoPdu Double Asn1Wrapper BtpHeader NetPackets GeoArea.
From S2P Require Import GeoRequest GeoPending GeoIndication RouterState.

Open Scope Z_scope.

(** * Headers of packets *)

(** An input archive over the octets throws when octets are missing. *)
Definition deserialize_from_buffer {T} (deserialize : des T) (t : T) (buf : bytes) : cpp T :=
  let '(ok, t, _) := deserialize t (mk_archive buf Ok) in
  if ok : bool then Returns t else Throws (runtime_error "incomplete read").

Section parse.
Context `{SecuredArchive}.
Context {T : Type} (deserialize : des T) (uninitialized : T) (length_bytes : Z).

(** The functions [parse_btp_a] and [parse_btp_b] differ only in the header; they change
    the packet, which is a reference. *)
Definition parse_cohesive (packet : CohesivePacket.CohesivePacket) : cpp (T * CohesivePacket.CohesivePacket) :=
  hdr ← deserialize_from_buffer deserialize uninitialized (CohesivePacket.layer Transport packet);
  match CohesivePacket.set_boundary Transport length_bytes packet with
  | Some packet => Returns (hdr, packet)
  | None => NoResult
  end.

(** [packet[OsiLayer::Transport]] creates a missing layer. *)
Definition parse_chunk (packet : ChunkPacket) : cpp (T * ChunkPacket) :=
  let packet := set_chunk_layer Transport (chunk_layer Transport packet) packet in
  let tmp := convert (chunk_layer Transport packet) in
  hdr ← deserialize_from_buffer deserialize uninitialized tmp;
  Returns (hdr, packet).

Definition parse_packet (packet : PacketVariant) : cpp (T * PacketVariant) :=
  match packet with
  | Cohesive packet => '(hdr, packet) ← parse_cohesive packet; Returns (hdr, Cohesive packet)
  | Chunk packet => '(hdr, packet) ← parse_chunk packet; Returns (hdr, Chunk packet)
  end.

End parse.

Module Btp.

(** * Indications *)

Record DataIndication := mk_DataIndication {
  source_port : option port_type;
  destination_port : port_type;
  destination_port_info : option Z;
  destination : DestinationVariant;
  its_aid : option Z;
  permissions : option bytes;
  source_position : ShortPositionVector;
  traffic_class : TrafficClass;
  remaining_packet_lifetime : option Lifetime;
}.

Definition DataIndication_A (ind : GeoIndication.DataIndication) (btp : HeaderA) : DataIndication :=
  mk_DataIndication (Some (BtpHeader.source_port btp)) (a_destination_port btp) None
    (i_destination ind) (i_its_aid ind) (i_permissions ind) (i_source_position ind)
    (i_traffic_class ind) (i_remaining_packet_lifetime ind).

Definition DataIndication_B (ind : GeoIndication.DataIndication) (btp : HeaderB) : DataIndication :=
  mk_DataIndication None (b_destination_port btp) (Some (BtpHeader.destination_port_info btp))
    (i_destination ind) (i_its_aid ind) (i_permissions ind) (i_source_position ind)
    (i_traffic_class ind) (i_remaining_packet_lifetime ind).

Section dispatcher.
Context `{SecuredArchive}.

Definition parse_btp_a : PacketVariant -> cpp (HeaderA * PacketVariant) :=
  parse_packet deserialize_HeaderA (mk_HeaderA 0 0) HeaderA_length_bytes.
Definition parse_btp_b : PacketVariant -> cpp (HeaderB * PacketVariant) :=
  parse_packet deserialize_HeaderB (mk_HeaderB 0 0) HeaderB_length_bytes.

Definition parse_btp_header (gn_ind : GeoIndication.DataIndication) (packet : PacketVariant)
  : cpp (option DataIndication * PacketVariant) :=
  match i_upper_protocol gn_ind with
  | BTP_A => '(hdr, packet) ← parse_btp_a packet; Returns (Some (DataIndication_A gn_ind hdr), packet)
  | BTP_B => '(hdr, packet) ← parse_btp_b packet; Returns (Some (DataIndication_B gn_ind hdr), packet)
  | Upper_Unknown | IPv6 => Returns (None, packet)
  end.

(** * The dispatcher *)

Abbreviation hook := nat (only parsing).

(** Calls of hooks and handlers; [Undispatched] is the hook [hook_undispatched]. *)
Inductive dispatch :=
  | Tapped (h : hook) (ind : DataIndication) (packet : UpPacket)
  | Dispatched (handler : interface) (ind : DataIndication) (packet : UpPacket)
  | Undispatched (gn_ind : GeoIndication.DataIndication) (ind : option DataIndication).

(** A handler may be the null pointer. *)
Record PortDispatcher := mk_PortDispatcher {
  m_interactive_handlers : gmap Z (option interface);
  m_non_interactive_handlers : gmap Z (option interface);
  m_promiscuous_hooks : list hook;
  m_calls : list dispatch;
}.

Definition make_PortDispatcher : PortDispatcher := mk_PortDispatcher ∅ ∅ [] [].

Definition set_m_interactive_handlers v (d : PortDispatcher) : PortDispatcher :=
  mk_PortDispatcher v (m_non_interactive_handlers d) (m_promiscuous_hooks d) (m_calls d).
Definition set_m_non_interactive_handlers v (d : PortDispatcher) : PortDispatcher :=
  mk_PortDispatcher (m_interactive_handlers d) v (m_promiscuous_hooks d) (m_calls d).
Definition set_m_promiscuous_hooks v (d : PortDispatcher) : PortDispatcher :=
  mk_PortDispatcher (m_interactive_handlers d) (m_non_interactive_handlers d) v (m_calls d).
Definition set_m_calls v (d : PortDispatcher) : PortDispatcher :=
  mk_PortDispatcher (m_interactive_handlers d) (m_non_interactive_handlers d) (m_promiscuous_hooks d) v.

Abbreviation dispatcher := (state_cpp PortDispatcher).

Definition add_promiscuous_hook (h : option hook) : dispatcher unit :=
  match h with
  | Some h =>
      hooks ← gets m_promiscuous_hooks;
      if bool_decide (h ∈ hooks) then mret () else modify (set_m_promiscuous_hooks (hooks ++ [h]))
  | None => mret ()
  end.

(** The null pointer is never in the list. *)
Definition remove_promiscuous_hook (h : option hook) : dispatcher unit :=
  modify (fun d => set_m_promiscuous_hooks
    (filter (fun h' => Some h' ≠ h) (m_promiscuous_hooks d)) d).

Definition set_interactive_handler (port : port_type) (handler : option interface) : dispatcher unit :=
  modify (fun d => set_m_interactive_handlers (<[port := handler]> (m_interactive_handlers d)) d).

Definition set_non_interactive_handler (port : port_type) (handler : option interface) : dispatcher unit :=
  modify (fun d => set_m_non_interactive_handlers (<[port := handler]> (m_non_interactive_handlers d)) d).

(** [m_interactive_handlers[port]] creates a missing entry. *)
Definition interactive_handler (port : port_type) : dispatcher (option interface) := fun d =>
  let handler := default None (m_interactive_handlers d !! port) in
  (Returns handler, set_m_interactive_handlers (<[port := handler]> (m_interactive_handlers d)) d).

Definition non_interactive_handler (port : port_type) : dispatcher (option interface) := fun d =>
  let handler := default None (m_non_interactive_handlers d !! port) in
  (Returns handler, set_m_non_interactive_handlers (<[port := handler]> (m_non_interactive_handlers d)) d).

Definition record_call (c : dispatch) : dispatcher unit :=
  modify (fun d => set_m_calls (m_calls d ++ [c]) d).

Definition indicate (gn_ind : GeoIndication.DataIndication) (packet : UpPacket) : dispatcher unit :=
  '(btp_ind, packet) ← lift (parse_btp_header gn_ind packet);
  match btp_ind with
  | Some ind =>
      handler ← match source_port ind with
                | Some _ => interactive_handler (destination_port ind)
                | None => non_interactive_handler (destination_port ind)
                end;
      hooks ← gets m_promiscuous_hooks;
      _ ← for_each (fun h => record_call (Tapped h ind packet)) hooks;
      match handler with
      | Some handler => record_call (Dispatched handler ind packet)
      | None => record_call (Undispatched gn_ind (Some ind))
      end
  | None => record_call (Undispatched gn_ind None)
  end.

End dispatcher.

Arguments dispatch {_}.
Arguments PortDispatcher {_}.

End Btp.
