(* ===== verification/Station.v ===== *)
(** * A station: applications, transport protocol, router and link

    net/ethernet_header.cpp, tools/socktap/raw_socket_link.cpp, tools/socktap/application.cpp,
    tools/socktap/router_context.cpp, tools/socktap/dcc_passthrough.cpp, and btp/data_request.hpp.

    Of the link the octets of a frame and the layers of received octets are modelled; the
    socket itself is left out: what is sent is the octets that it is given, what was read is
    an argument.

    The router, the dispatcher and the DccPassthrough are members of a RouterContext.
    What the router passes up or down is in its record of events.  Packets that it passes
    up are handled by the dispatcher before [Router::indicate] returns; since passing up is
    the last thing it does, they are taken from its record when it is done.  Packets that it
    passes down go through [DccPassthrough::request] to the link; they too are taken from the
    record when the request is done.  That function updates the runtime before it hands
    the packet on.  The callbacks that are due then run within the request of the router
    in the code, and when that is done in the model; in both cases the octets of the packet
    are fixed before.  Applications are objects with a port and a hook; their calls by
    the dispatcher are in its record.

    The time of the machine is an argument of the functions that read it.  The periodic
    update of the position, which the context keeps in the same scheduler, and the timer
    of the operating system are left out. *)

From Stdlib Require Import ZArith Lia.
From stdpp Require Import prelude strings gmap.
From S2P Require Import Prelude GeoSerial GeoHeaders GeoPdu Double Asn1Wrapper Runtime BtpHeader NetPackets GeoArea.
From S2P Require Import GeoRequest GeoContainers SoftState CbfBuffer LocationTable GeoPending GeoIndication.
From S2P Require Import RouterState RouterForward RouterIndicate Router PortDispatcher.

Open Scope Z_scope.

(** * Ethernet frames *)

Record EthernetHeader := mk_EthernetHeader {
  eth_destination : MacAddress;
  eth_source : MacAddress;
  eth_type : Z;
}.

Definition EthernetHeader_length_bytes : Z := 2 * 6 + 2.

Definition create_ethernet_header (dest src : MacAddress) (proto : Z) : bytes :=
  mac_octets dest ++ mac_octets src ++ [Z.land (Z.shiftr proto 8) 0xff; Z.land proto 0xff].

(** [std::copy_n] into the octets of an address. *)
Definition copy_mac (buf : bytes) : MacAddress :=
  mk_MacAddress (znth buf 0) (znth buf 1) (znth buf 2) (znth buf 3) (znth buf 4) (znth buf 5).

Definition decode_ethernet_header (buf : bytes) : cpp EthernetHeader :=
  if size buf <? EthernetHeader_length_bytes
  then Throws (runtime_error "buffer is too short for EthernetHeader decoding")
  else
    let proto := Z.lor (Z.shiftl (znth buf 12) 8) (znth buf 13) in
    Returns (mk_EthernetHeader (copy_mac buf) (copy_mac (zdrop 6 buf)) proto).

Section link.
Context `{SecuredArchive}.

(** [RawSocketLink::request] and [transmit]: the octets of all layers in one frame. *)
Definition transmit (packet : ChunkPacket) : bytes :=
  concat (map (fun l => convert (chunk_layer l packet)) (osi_layer_range Physical Application)).

Definition link_request (destination_addr source_addr : MacAddress) (ether_type : Z) (packet : ChunkPacket)
  : bytes :=
  transmit (set_chunk_layer Link
    (OfBuffer (create_ethernet_header destination_addr source_addr ether_type)) packet).

(** [None]: the frame is dropped. *)
Definition parse_ethernet_header (packet : CohesivePacket.CohesivePacket)
  : cpp (option (CohesivePacket.CohesivePacket * EthernetHeader)) :=
  match CohesivePacket.set_boundary Physical 0 packet with
  | None => NoResult
  | Some packet =>
      if CohesivePacket.range_size (layer_index Link) packet <? EthernetHeader_length_bytes
      then Returns None
      else
        match CohesivePacket.set_boundary Link EthernetHeader_length_bytes packet with
        | None => NoResult
        | Some packet =>
            hdr ← decode_ethernet_header (CohesivePacket.layer Link packet);
            Returns (Some (packet, hdr))
        end
  end.

(** [receive_buffer_]: what does not fit into it is lost. *)
Definition receive_buffer_size : Z := 2048.

(** [do_receive]: the octets of a frame that are in the buffer when [on_read] is called. *)
Definition do_receive (frame : bytes) : bytes := ztake receive_buffer_size frame.

(** What [on_read] hands to its callback. *)
Definition read_frame (buffer : bytes) : cpp (option (CohesivePacket.CohesivePacket * EthernetHeader)) :=
  parse_ethernet_header (CohesivePacket.make_CohesivePacket buffer Physical).

End link.

(** * Requests of the transport protocol *)

Record DataRequestGeoNetParams := mk_DataRequestGeoNetParams {
  g_transport_type : TransportType;
  g_destination : DestinationVariant;
  g_communication_profile : CommunicationProfile;
  g_its_aid : Z;
  g_maximum_lifetime : option Lifetime;
  g_maximum_hop_limit : option Z;
  g_repetition : option Repetition;
  g_traffic_class : TrafficClass;
}.

(** [initialize_request]; the maximum hop limit is not passed on. *)
Definition initialize_request (generic : DataRequestGeoNetParams) (geonet : DataRequest) : DataRequest :=
  mk_DataRequest BTP_B (g_communication_profile generic) (g_its_aid generic) (permissions geonet)
    (default (maximum_lifetime geonet) (g_maximum_lifetime generic)) (g_repetition generic)
    (max_hop_limit geonet) (g_traffic_class generic).

Definition app_request_shb (generic : DataRequestGeoNetParams) (mib : MIB) : DataRequestVariant :=
  ShbDataRequest (initialize_request generic (make_DataRequest mib 0)).

(** [boost::get] throws if the destination is no area. *)
Definition app_request_gbc (generic : DataRequestGeoNetParams) (mib : MIB) : cpp DataRequestVariant :=
  match g_destination generic with
  | DestinationArea area =>
      Returns (GbcDataRequest (initialize_request generic (make_DataRequest mib 0)) area)
  | DestinationAddress _ | DestinationNull => Throws bad_get
  end.

(** * Below the router *)

Inductive AccessCategory := BK | BE | VI | VO.

Definition map_profile_onto_ac (dp_id : Profile) : AccessCategory :=
  match dp_id with
  | DP0 => VO
  | DP1 => VI
  | DP2 => BE
  | DP3 => BK
  end.

(** access::DataRequest. *)
Record AccessRequest := mk_AccessRequest {
  acc_ether_type : Z;
  source_addr : MacAddress;
  destination_addr : MacAddress;
  access_category : AccessCategory;
}.

(** The request that DccPassthrough hands on. *)
Definition acc_req (request : DccDataRequest) : AccessRequest :=
  mk_AccessRequest (ether_type request) (dcc_source request) (dcc_destination request)
    (map_profile_onto_ac (dcc_profile request)).

Section station.
Context `{SecuredArchive} `{!SecurityEntity} `{DccFieldGenerator} `{Random} `{Geodesy} `{PositionUnits}.
Context `{!HeapTop MacAddress} `{!HeapTop CbfPacketIdentifier} `{Allocator}.

(** The frame that a RawSocketLink sends for a request of the router. *)
Definition frame_of (request : DccDataRequest) (packet : DownPacket) : bytes :=
  let acc := acc_req request in
  link_request (destination_addr acc) (source_addr acc) (acc_ether_type acc) packet.

(** * Applications *)

(** The class Application; [router_] tells whether the pointer to the router is set. *)
Record App := mk_App {
  app_handler : interface;
  port : port_type;
  promiscuous_hook : option nat;
  router_ : bool;
}.

Definition set_router (v : bool) (app : App) : App :=
  mk_App (app_handler app) (port app) (promiscuous_hook app) v.

(** [Application::request]: the header of the transport protocol is put in front. *)
Definition app_request (app : App) (generic : DataRequestGeoNetParams) (packet : option DownPacket)
  : router DataConfirm :=
  match packet with
  | Some packet =>
      if router_ app then
        let btp_header := mk_HeaderB (port app) 0 in
        let packet := set_chunk_layer Transport (OfHeaderB btp_header) packet in
        mib ← get_mib;
        match g_transport_type generic with
        | SHB => request (app_request_shb generic mib) (Some packet)
        | GBC => v ← lift (app_request_gbc generic mib); request v (Some packet)
        | GUC | GAC | TSB => mret Rejected_Unspecified
        end
      else mret Rejected_Unspecified
  | None => mret Rejected_Unspecified
  end.

(** * The context of the router *)

(** The link and the trigger of a DccPassthrough are those of its context. *)
Record DccPassthrough := mk_DccPassthrough {
  allow_packet_flow_ : bool;
}.

Definition make_DccPassthrough : DccPassthrough := mk_DccPassthrough true.

Definition allow_packet_flow (allow : bool) (d : DccPassthrough) : DccPassthrough := mk_DccPassthrough allow.

Record RouterContext := mk_RouterContext {
  mib_ : MIB;
  the_router : Router;
  dispatcher_ : Btp.PortDispatcher;
  request_interface_ : option DccPassthrough;
  require_position_fix_ : bool;
}.

Definition set_the_router (x : Router) (c : RouterContext) : RouterContext :=
  mk_RouterContext (mib_ c) x (dispatcher_ c) (request_interface_ c) (require_position_fix_ c).

Definition set_dispatcher_ (d : Btp.PortDispatcher) (c : RouterContext) : RouterContext :=
  mk_RouterContext (mib_ c) (the_router c) d (request_interface_ c) (require_position_fix_ c).

Definition set_request_interface_ (d : option DccPassthrough) (c : RouterContext) : RouterContext :=
  mk_RouterContext (mib_ c) (the_router c) (dispatcher_ c) d (require_position_fix_ c).

Definition set_require_position_fix_ (flag : bool) (c : RouterContext) : RouterContext :=
  mk_RouterContext (mib_ c) (the_router c) (dispatcher_ c) (request_interface_ c) flag.

(** [&dispatcher_] and [request_interface_.get()], as the router knows them. *)
Definition dispatcher_interface : interface := 0%nat.
Definition passthrough_interface : interface := 1%nat.

Abbreviation context := (state_cpp RouterContext).

Definition on_router {X} (m : router X) : context X := fun c =>
  let '(r, x) := m (the_router c) in (r, set_the_router x c).

Definition on_dispatcher {X} (m : state_cpp Btp.PortDispatcher X) : context X := fun c =>
  let '(r, d) := m (dispatcher_ c) in (r, set_dispatcher_ d c).

(** [TimeTrigger::update_runtime] at the time [t]. *)
Definition update_runtime (t : Z) : context unit :=
  on_router (fuel ← gets enough; advance fuel t).

(** ** Sending *)

Definition update_packet_flow (lpv : LongPositionVector) : context unit :=
  modify (fun c =>
    match request_interface_ c with
    | Some d =>
        let allow := if require_position_fix_ c then position_accuracy_indicator lpv else true in
        set_request_interface_ (Some (allow_packet_flow allow d)) c
    | None => c
    end).

Definition require_position_fix (flag : bool) : context unit :=
  _ ← modify (set_require_position_fix_ flag);
  x ← gets the_router;
  update_packet_flow (m_local_position_vector x).

(** [link_layer] tells whether the pointer is set; its callback is [on_read] below. *)
Definition set_link_layer (link_layer : bool) : context unit :=
  if link_layer then
    _ ← modify (set_request_interface_ (Some make_DccPassthrough));
    _ ← on_router (set_access_interface (Some passthrough_interface));
    x ← gets the_router;
    update_packet_flow (m_local_position_vector x)
  else
    _ ← on_router (set_access_interface None);
    modify (set_request_interface_ None).

(** [DccPassthrough::request] at the time [t]: the frame that the link sends, if any. *)
Definition dcc_request (t : Z) (d : DccPassthrough) (request : DccDataRequest) (packet : DownPacket)
  : context (list bytes) :=
  if negb (allow_packet_flow_ d) then mret []
  else
    _ ← update_runtime t;
    mret [frame_of request packet].

(** Only requests to its own DccPassthrough reach the link of a station. *)
Definition access_event (t : Z) (e : event) : context (list bytes) :=
  dcc ← gets request_interface_;
  match e, dcc with
  | Requested (Some ifc) request packet, Some d =>
      if bool_decide (ifc = passthrough_interface) then dcc_request t d request packet else mret []
  | _, _ => mret []
  end.

Fixpoint access_events (t : Z) (es : list event) : context (list bytes) :=
  match es with
  | [] => mret []
  | e :: es => frames ← access_event t e; more ← access_events t es; mret (frames ++ more)
  end.

(** [Application::request] with the link behind the router: the confirmation and the frames
    that are sent. *)
Definition station_request (t : Z) (app : App) (generic : DataRequestGeoNetParams) (packet : option DownPacket)
  : context (DataConfirm * list bytes) :=
  n ← gets (fun c => length (m_events (the_router c)));
  confirm ← on_router (app_request app generic packet);
  events ← gets (fun c => drop n (m_events (the_router c)));
  frames ← access_events t events;
  mret (confirm, frames).

(** ** Reception *)

(** The packets of these events are passed to the dispatcher. *)
Definition dispatch_event (e : event) : context unit :=
  match e with
  | Indicated ifc ind packet =>
      if bool_decide (ifc = dispatcher_interface) then on_dispatcher (Btp.indicate ind packet) else mret ()
  | _ => mret ()
  end.

(** [Router::indicate] with the dispatcher behind it. *)
Definition router_indicate (packet : UpPacket) (from to : MacAddress) : context unit :=
  n ← gets (fun c => length (m_events (the_router c)));
  _ ← on_router (indicate packet from to);
  events ← gets (fun c => drop n (m_events (the_router c)));
  for_each dispatch_event events.

(** [t1] and [t2] are the times before and after the packet is handled. *)
Definition context_indicate (t1 t2 : Z) (packet : CohesivePacket.CohesivePacket) (hdr : EthernetHeader)
  : context unit :=
  mib ← gets mib_;
  if bool_decide (eth_source hdr <> m_mid (itsGnLocalGnAddr mib))
     && (eth_type hdr =? GeoNetworking_ether_type) then
    _ ← update_runtime t1;
    _ ← router_indicate (Cohesive packet) (eth_source hdr) (eth_destination hdr);
    update_runtime t2
  else mret ().

Definition enable (app : App) : context App :=
  let app := set_router true app in
  _ ← on_dispatcher (Btp.add_promiscuous_hook (promiscuous_hook app));
  _ ← (if negb (port app =? 0)
       then on_dispatcher (Btp.set_non_interactive_handler (port app) (Some (app_handler app)))
       else mret ());
  mret app.

Definition disable (app : App) : context App :=
  _ ← (if negb (port app =? 0)
       then on_dispatcher (Btp.set_non_interactive_handler (port app) None)
       else mret ());
  _ ← on_dispatcher (Btp.remove_promiscuous_hook (promiscuous_hook app));
  mret (set_router false app).

(** [RawSocketLink::on_read] with the context as its callback. *)
Definition on_read (t1 t2 : Z) (buffer : bytes) : context unit :=
  eth ← lift (read_frame buffer);
  match eth with
  | Some (packet, hdr) => context_indicate t1 t2 packet hdr
  | None => mret ()
  end.

(** A frame arrives at the socket. *)
Definition receive_frame (t1 t2 : Z) (frame : bytes) : context unit := on_read t1 t2 (do_receive frame).

End station.
