(* ===== verification/FlowControl.v ===== *)
(** * Decentralised congestion control: the gatekeeper above the access layer

    dcc/flow_control.cpp.  There is a queue for every access category; a packet that may
    not be sent yet waits in its queue for a callback in the scheduler, and is dropped when
    its lifetime ends.  The rate control is an interface ([TransmitRateControl]); of the
    scheduler the callbacks of this object are modelled.

    Packets that leave, hooks that are called and packets that are destroyed are recorded.

    Points in time are numbers of microseconds without bounds: sums of a time with a lifetime
    or a delay, which overflow in C++ when they leave 64 bits (292000 years, far behind the
    lifetimes and delays of the stack), are those of [Z]. *)

From Stdlib Require Import ZArith Lia.
From stdpp Require Import prelude strings gmap.
From S2P Require Import Prelude GeoSerial GeoHeaders GeoPdu Double RateControl Asn1Wrapper Runtime NetPackets RouterState Station.

Open Scope Z_scope.

#[export] Instance AccessCategory_eq_dec : EqDecision AccessCategory.
Proof. solve_decision. Defined.

(** The value of the enumerator. *)
Definition priority (ac : AccessCategory) : Z := match ac with BK => 1 | BE => 3 | VI => 5 | VO => 7 end.

Section Flow.
Context `{SecuredArchive} {T : Type} `{!TransmitRateControl T}.

Record PendingTransmission := mk_Pending { expiry : Z; p_request : DccDataRequest; p_packet : DownPacket }.

Definition transmission_of (p : PendingTransmission) : Transmission :=
  mk_Transmission (dcc_profile p.(p_request)) (Some G5_6Mbps) (chunk_size p.(p_packet)).

(** [TransmissionLite] *)
Definition transmission_lite (request : DccDataRequest) (packet : DownPacket) : Transmission :=
  mk_Transmission (dcc_profile request) None (chunk_size packet).

Inductive FlowEvent :=
  | DropHook (ac : AccessCategory) (packet : DownPacket)
  | TransmitHook (ac : AccessCategory) (packet : DownPacket)
  | AccessRequested (request : AccessRequest) (packet : DownPacket)
  | Destroyed (ac : AccessCategory) (packet : DownPacket).

(** [std::map] with the highest category first. *)
Abbreviation Queues := (list (AccessCategory * list PendingTransmission)).

Record FlowControl := mk_Flow {
  f_runtime : @ManualRuntime.ManualRuntime unit unit;
  m_trc : T;
  m_queues : Queues;
  m_queue_length : Z;
  f_events : list FlowEvent;
}.

Definition make_FlowControl (rt : ManualRuntime.ManualRuntime) (trc : T) : FlowControl := mk_Flow rt trc [] 0 [].

Abbreviation flow := (state_cpp FlowControl).

Definition set_runtime (x : ManualRuntime.ManualRuntime) (f : FlowControl) : FlowControl :=
  mk_Flow x f.(m_trc) f.(m_queues) f.(m_queue_length) f.(f_events).
Definition set_trc (x : T) (f : FlowControl) : FlowControl :=
  mk_Flow f.(f_runtime) x f.(m_queues) f.(m_queue_length) f.(f_events).
Definition set_queues (x : Queues) (f : FlowControl) : FlowControl :=
  mk_Flow f.(f_runtime) f.(m_trc) x f.(m_queue_length) f.(f_events).
Definition queue_length (x : Z) (f : FlowControl) : FlowControl :=
  mk_Flow f.(f_runtime) f.(m_trc) f.(m_queues) x f.(f_events).
Definition record_events (x : list FlowEvent) (f : FlowControl) : FlowControl :=
  mk_Flow f.(f_runtime) f.(m_trc) f.(m_queues) f.(m_queue_length) (f.(f_events) ++ x).

Definition time (f : FlowControl) : Z := ManualRuntime.m_now f.(f_runtime).

(** Calls of the rate control. *)
Definition delay (tx : Transmission) : flow Z := fun f =>
  let '(r, t) := trc_delay (time f) tx f.(m_trc) in (r, set_trc t f).
Definition notify (tx : Transmission) : flow unit := fun f =>
  let '(r, t) := trc_notify (time f) tx f.(m_trc) in (r, set_trc t f).

(** ** Queues *)

Fixpoint queue_of (ac : AccessCategory) (qs : Queues) : list PendingTransmission :=
  match qs with
  | [] => []
  | (a, q) :: qs => if decide (a = ac) then q else queue_of ac qs
  end.

Fixpoint insert_queue (ac : AccessCategory) (q : list PendingTransmission) (qs : Queues) : Queues :=
  match qs with
  | [] => [(ac, q)]
  | (a, x) :: qs => if priority a <? priority ac then (ac, q) :: (a, x) :: qs else (a, x) :: insert_queue ac q qs
  end.

(** [m_queues[ac]] makes the queue when there is none. *)
Definition set_queue (ac : AccessCategory) (q : list PendingTransmission) (qs : Queues) : Queues :=
  if decide (ac ∈ qs.*1) then map (fun aq => if decide (aq.1 = ac) then (ac, q) else aq) qs else insert_queue ac q qs.

Definition empty (qs : Queues) : bool := forallb (fun aq => match aq.2 with [] => true | _ => false end) qs.

(** The queue whose first packet may be sent first; of equal ones the highest category. *)
Fixpoint next_loop (qs : Queues) (next : option AccessCategory) (min_delay : Z) : flow (option AccessCategory) :=
  match qs with
  | [] => mret next
  | (ac, queue) :: qs =>
    match queue with
    | [] => next_loop qs next min_delay
    | front :: _ =>
      d ← delay (transmission_of front);
      if d <? min_delay then next_loop qs (Some ac) d else next_loop qs next min_delay
    end
  end.

Definition duration_max : Z := 2 ^ 63 - 1.

Definition next_queue : flow (option AccessCategory) :=
  qs ← gets m_queues; next_loop qs None duration_max.

Definition next_transmission : flow (option PendingTransmission) :=
  queue ← next_queue;
  qs ← gets m_queues;
  mret (match queue with Some ac => head (queue_of ac qs) | None => None end).

Definition dequeue : flow (option PendingTransmission) :=
  queue ← next_queue;
  match queue with
  | Some ac =>
    qs ← gets m_queues;
    match queue_of ac qs with
    | front :: q => _ ← modify (set_queues (set_queue ac q qs)); mret (Some front)
    | [] => lift NoResult
    end
  | None => mret None
  end.

(** ** Sending *)

Definition schedule_trigger (tx : Transmission) : flow unit :=
  callback_delay ← delay tx;
  modify (fun f => set_runtime (ManualRuntime.schedule_after callback_delay () () f.(f_runtime)) f).

(** Both are done for every packet whose lifetime has ended. *)
Definition dropped (ac : AccessCategory) (p : PendingTransmission) : list FlowEvent :=
  [DropHook ac p.(p_packet); Destroyed ac p.(p_packet)].

Definition expired (now : Z) (p : PendingTransmission) : bool := p.(expiry) <? now.

Definition drop_expired : flow unit := modify (fun f =>
  let now := time f in
  set_queues (map (fun aq => (aq.1, List.filter (fun p => negb (expired now p)) aq.2)) f.(m_queues))
    (record_events (concat (map (fun aq => concat (map (dropped aq.1) (List.filter (expired now) aq.2))) f.(m_queues))) f)).

Definition transmit (request : DccDataRequest) (packet : DownPacket) : flow unit :=
  let access_request := mk_AccessRequest (ether_type request) (dcc_source request) (dcc_destination request)
                          (map_profile_onto_ac (dcc_profile request)) in
  modify (record_events [TransmitHook (access_category access_request) packet; AccessRequested access_request packet]).

Definition transmit_immediately (tx : Transmission) : flow bool :=
  qs ← gets m_queues;
  let ac := map_profile_onto_ac tx.(profile) in
  let contention := existsb (fun aq => (priority ac <=? priority aq.1) && negb (match aq.2 with [] => true | _ => false end)) qs in
  if contention then mret false
  else d ← delay tx; mret (d =? 0).

(** The loop that makes room for [packet]: the hook gets the packet that is to be
    enqueued, not the one that is destroyed. *)
Fixpoint make_room (limit : Z) (ac : AccessCategory) (packet : DownPacket) (q : list PendingTransmission)
    : list PendingTransmission * list FlowEvent :=
  match q with
  | [] => ([], [])
  | front :: rest =>
    if (0 <? limit) && (limit <=? size q) then
      let '(q, events) := make_room limit ac packet rest in
      (q, Destroyed ac front.(p_packet) :: DropHook ac packet :: events)
    else (q, [])
  end.

Definition enqueue (request : DccDataRequest) (packet : DownPacket) : flow unit :=
  f ← gets id;
  let first_packet := empty f.(m_queues) in
  let ac := map_profile_onto_ac (dcc_profile request) in
  let pending := mk_Pending (time f + dcc_lifetime request) request packet in
  let '(q, events) := make_room f.(m_queue_length) ac packet (queue_of ac f.(m_queues)) in
  _ ← modify (fun f => set_queues (set_queue ac (q ++ [pending]) f.(m_queues)) (record_events events f));
  when first_packet (schedule_trigger (transmission_of pending)).

Definition request (req : DccDataRequest) (packet : DownPacket) : flow unit :=
  _ ← drop_expired;
  let transmission := transmission_lite req packet in
  immediately ← transmit_immediately transmission;
  if immediately : bool then _ ← notify transmission; transmit req packet
  else enqueue req packet.

Definition trigger : flow unit :=
  _ ← drop_expired;
  transmission ← dequeue;
  _ ← match transmission with
      | Some p => _ ← notify (transmission_of p); transmit p.(p_request) p.(p_packet)
      | None => mret ()
      end;
  next ← next_transmission;
  match next with
  | Some p => schedule_trigger (transmission_of p)
  | None => mret ()
  end.

Definition cancel : flow unit := modify (fun f => set_runtime (ManualRuntime.cancel () f.(f_runtime)) f).

Definition reschedule : flow unit :=
  next ← next_transmission;
  match next with
  | Some p => _ ← cancel; schedule_trigger (transmission_of p)
  | None => mret ()
  end.

(** ** Time passes *)

(** The loop of [ManualRuntime::trigger]. *)
Fixpoint run_due (fuel : nat) : flow unit :=
  match fuel with
  | O => lift NoResult
  | S fuel =>
    due ← gets (fun f => ManualRuntime.pop_due f.(f_runtime));
    match due with
    | None => mret ()
    | Some (_, rt) => _ ← modify (set_runtime rt); _ ← trigger; run_due fuel
    end
  end.

(** Every round takes a callback away, and a packet if it adds one. *)
Definition packets (qs : Queues) : nat := sum_list (map (fun aq => length aq.2) qs).
Definition rounds (f : FlowControl) : nat := length (ManualRuntime.m_queue f.(f_runtime)) + packets f.(m_queues).

Definition advance (d : Z) : flow unit :=
  _ ← modify (fun f => set_runtime (ManualRuntime.set_now (time f + d) f.(f_runtime)) f);
  n ← gets rounds;
  run_due (S n).

(** ** The users of the object *)

Inductive FlowCall :=
  | Request (req : DccDataRequest) (packet : DownPacket)
  | Advance (d : Z)
  | Reschedule
  | QueueLength (length : Z)
  | RateControlChanges (g : T -> T).

Definition perform (c : FlowCall) : flow unit :=
  match c with
  | Request req packet => request req packet
  | Advance d => advance d
  | Reschedule => reschedule
  | QueueLength n => modify (queue_length n)
  | RateControlChanges g => modify (fun f => set_trc (g f.(m_trc)) f)
  end.

Definition run_calls (calls : list FlowCall) : flow unit := for_each perform calls.

(** Time passes until the next callback is due, and longer. *)
Definition wait (late : Z) : flow unit :=
  rt ← gets f_runtime;
  advance (match ManualRuntime.m_queue rt with
           | [] => late
           | x :: _ => Z.max 0 (ManualRuntime.deadline x - ManualRuntime.m_now rt) + late
           end).

End Flow.
Arguments PendingTransmission {_}. Arguments FlowEvent {_}. Arguments FlowControl {_} T. Arguments FlowCall {_} T.

(** * What a rate control promises *)

(** Delays are not negative, and shorter than the longest duration; nothing throws.  What
    makes it so may depend on the time, which does not go back. *)
Class TrcOk (T : Type) `{TransmitRateControl T} := {
  trc_ok : Z -> T -> Prop;
  trc_delay_ok now tx t : trc_ok now t -> exists d t', trc_delay now tx t = (Returns d, t') /\ 0 <= d < duration_max /\ trc_ok now t';
  trc_notify_ok now tx t : trc_ok now t -> exists t', trc_notify now tx t = (Returns (), t') /\ trc_ok now t';
  trc_later now now' t : now <= now' -> trc_ok now t -> trc_ok now' t;
}.

(** The rate control with bursts. *)
Section Bursty.
Context {F : Type} `{StateMachine F}.

Record bursty_ok (now : Z) (t : BurstyTransmitRateControl F) : Prop := {
  by_duration : t.(m_burst_budget).(BurstBudget.m_burst_duration) < t.(m_burst_budget).(BurstBudget.m_burst_period);
  by_period : t.(m_burst_budget).(BurstBudget.m_burst_period) < duration_max;
  by_messages : Forall (fun x => x <= now) t.(m_burst_budget).(BurstBudget.m_messages).(buffered);
  by_interval : 0 <= sm_transmission_interval t.(m_fsm) < duration_max;
  by_last x : t.(m_fsm_budget) = Some x -> x <= now;
}.

Lemma fsm_delay_ok now (t : BurstyTransmitRateControl F) : bursty_ok now t ->
  0 <= StateMachineBudget.fsm_delay (sm_transmission_interval t.(m_fsm)) now t.(m_fsm_budget) < duration_max.
Proof.
  intros [_ _ _ Hi Hl]. unfold StateMachineBudget.fsm_delay. destruct (m_fsm_budget t) as [x|]; [|unfold duration_max; lia].
  specialize (Hl x eq_refl). destruct (Z.ltb_spec (x + sm_transmission_interval (m_fsm t)) now); lia.
Qed.

Lemma burst_delay_ok now (t : BurstyTransmitRateControl F) : bursty_ok now t -> exists d b,
  BurstBudget.burst_delay now t.(m_burst_budget) = (Returns d, b) /\ 0 <= d < duration_max /\ bursty_ok now (mk_Bursty b t.(m_fsm_budget) t.(m_fsm)).
Proof.
  intros Hok. pose proof Hok as [Hd Hp Hm Hi Hl]. unfold BurstBudget.burst_delay. destruct t as [b last fsm]. cbn [m_burst_budget m_fsm_budget m_fsm] in *.
  destruct (Z.ltb_spec (BurstBudget.m_burst_duration b) (BurstBudget.m_burst_period b)); [|lia].
  destruct (buffered (BurstBudget.m_messages b)) as [|front l] eqn:El; [exists 0, b; split; [done|]; split; [done|exact Hok]|].
  apply Forall_cons in Hm as [Hf Hm]. destruct (_ && _); [exists 0, b; split; [done|]; split; [done|exact Hok]|].
  destruct (Z.ltb_spec (front + BurstBudget.m_burst_period b) now).
  - eexists 0, _. split; [done|]. split; [done|]. split; cbn; [done|done|constructor|done|done].
  - eexists _, b. split; [done|]. split; [lia|done].
Qed.

Lemma push_back_past (buffer : circular_buffer Z) now : Forall (fun x => x <= now) buffer.(buffered) -> Forall (fun x => x <= now) (push_back now buffer).(buffered).
Proof.
  intros Hb. unfold push_back. cbn. destruct (is_full buffer).
  - destruct (buffered buffer); [constructor|]. apply Forall_cons in Hb as [_ Hb]. apply Forall_app. split; [done|]. constructor; [lia|constructor].
  - apply Forall_app. split; [done|]. constructor; [lia|constructor].
Qed.

#[export] Program Instance bursty_trc_ok : TrcOk (BurstyTransmitRateControl F) := {| trc_ok := bursty_ok |}.
Next Obligation.
  intros now tx t Hok. cbn. unfold bursty_delay. destruct (profile tx).
  - destruct (burst_delay_ok now t Hok) as (d & b & -> & Hd & Hb). by exists d, (mk_Bursty b t.(m_fsm_budget) t.(m_fsm)).
  - eexists _, t. split; [done|]. split; [by apply fsm_delay_ok|done].
  - eexists _, t. split; [done|]. split; [by apply fsm_delay_ok|done].
  - eexists _, t. split; [done|]. split; [by apply fsm_delay_ok|done].
Qed.
Next Obligation.
  intros now tx t [Hd Hp Hm Hi Hl]. cbn. unfold bursty_notify. destruct (profile tx); eexists; (split; [done|]); split; cbn; try done.
  - by apply push_back_past.
  - by intros x [= <-].
  - by intros x [= <-].
  - by intros x [= <-].
Qed.
Next Obligation.
  intros now now' t Hn [Hd Hp Hm Hi Hl]. split; try done.
  - eapply Forall_impl; [exact Hm|]. intros; cbn in *; lia.
  - intros x Hx. specialize (Hl x Hx). lia.
Qed.

End Bursty.

(** * Queues *)

Section Queues.
Context `{SecuredArchive}.
Implicit Types qs : list (AccessCategory * list PendingTransmission).

Lemma queue_of_absent ac qs : ac ∉ qs.*1 -> queue_of ac qs = [].
Proof.
  induction qs as [|[a q] qs IH]; cbn; [done|]. intros Hn. rewrite decide_False by set_solver. apply IH. set_solver.
Qed.

Lemma queue_of_elem ac q qs : NoDup qs.*1 -> (ac, q) ∈ qs -> queue_of ac qs = q.
Proof.
  induction qs as [|[a x] qs IH]; cbn; [by intros _ ?%not_elem_of_nil|]. intros [Ha Hn]%NoDup_cons [E|Hin]%elem_of_cons.
  - injection E as <- <-. by rewrite decide_True.
  - rewrite decide_False; [by apply IH|]. intros ->. apply Ha. apply list_elem_of_fmap. by exists (ac, q).
Qed.

Lemma insert_queue_keys ac q qs a : a ∈ (insert_queue ac q qs).*1 <-> a = ac \/ a ∈ qs.*1.
Proof. induction qs as [|[b x] qs IH]; cbn [insert_queue]; [set_solver|]. destruct (_ <? _); set_solver. Qed.

Lemma insert_queue_ok ac q qs : NoDup qs.*1 -> ac ∉ qs.*1 -> NoDup (insert_queue ac q qs).*1 /\
  (forall a, queue_of a (insert_queue ac q qs) = if decide (a = ac) then q else queue_of a qs) /\
  packets (insert_queue ac q qs) = (packets qs + length q)%nat.
Proof.
  induction qs as [|[b x] qs IH]; cbn [insert_queue]; intros Hn Ha.
  - split; [apply NoDup_singleton|]. split; [|unfold packets; cbn; lia]. intros a. cbn. destruct (decide (ac = a)), (decide (a = ac)); congruence.
  - destruct (_ <? _).
    + split; [by apply NoDup_cons|]. split; [|unfold packets; cbn; lia]. intros a. cbn.
      destruct (decide (ac = a)), (decide (a = ac)); congruence.
    + apply NoDup_cons in Hn as [Hb Hn]. destruct (IH Hn ltac:(set_solver)) as (H1 & H2 & H3). cbn [fmap list_fmap] in *. split.
      * apply NoDup_cons. split; [|done]. cbn. rewrite insert_queue_keys. set_solver.
      * split; [|unfold packets in *; cbn; lia]. intros a. cbn [queue_of]. rewrite H2. destruct (decide (b = a)) as [->|]; [|done].
        by rewrite decide_False by set_solver.
Qed.

Lemma set_queue_ok ac q qs : NoDup qs.*1 -> NoDup (set_queue ac q qs).*1 /\
  (forall a, queue_of a (set_queue ac q qs) = if decide (a = ac) then q else queue_of a qs) /\
  (packets (set_queue ac q qs) + length (queue_of ac qs) = packets qs + length q)%nat.
Proof.
  intros Hn. unfold set_queue. case_decide as Hin; [|destruct (insert_queue_ok ac q qs Hn Hin) as (H1 & H2 & H3)].
  - assert ((map (fun aq => if decide (aq.1 = ac) then (ac, q) else aq) qs).*1 = qs.*1) as Ek.
    { clear. induction qs as [|[a x] qs IH]; cbn; [done|]. f_equal; [|done]. by destruct (decide (a = ac)). }
    rewrite Ek. split; [done|]. clear Ek. induction qs as [|[b x] qs IH]; [by apply not_elem_of_nil in Hin|]. cbn in Hn.
    apply NoDup_cons in Hn as [Hb Hn]. cbn [map fst snd]. destruct (decide (b = ac)) as [->|Hne].
    + assert (forall a, queue_of a (map (fun aq => if decide (aq.1 = ac) then (ac, q) else aq) qs) = queue_of a qs /\
        packets (map (fun aq => if decide (aq.1 = ac) then (ac, q) else aq) qs) = packets qs) as Hsame.
      { intros a. clear -Hb. induction qs as [|[c y] qs IH]; cbn; [done|]. rewrite decide_False by set_solver.
        destruct (IH ltac:(set_solver)) as [-> E]. unfold packets in *. cbn. by rewrite E. }
      split; [|destruct (Hsame ac) as [_ E]; unfold packets in *; cbn; rewrite decide_True by done; rewrite E; lia].
      intros a. cbn [queue_of]. destruct (Hsame a) as [-> _]. destruct (decide (ac = a)), (decide (a = ac)); congruence.
    + destruct (IH Hn ltac:(set_solver)) as [H1 H2]. split.
      * intros a. cbn [queue_of]. rewrite H1. destruct (decide (b = a)) as [->|]; [|done]. by rewrite decide_False by done.
      * unfold packets in *. cbn. rewrite decide_False by done. lia.
  - split; [done|]. split; [done|]. rewrite (queue_of_absent ac qs Hin). cbn. lia.
Qed.

Lemma empty_packets qs : empty qs = true -> packets qs = 0%nat.
Proof.
  unfold packets, empty. induction qs as [|[a q] qs IH]; cbn; [done|]. intros [Hq Hqs]%andb_true_iff. rewrite IH by done. by destruct q.
Qed.

Lemma empty_queue ac qs : empty qs = true -> queue_of ac qs = [].
Proof. induction qs as [|[a q] qs IH]; cbn; [done|]. intros [Hq Hqs]%andb_true_iff. case_decide; [by destruct q|auto]. Qed.

(** No packet of the category of one that passes waits. *)
Lemma no_contention ac qs :
  existsb (fun aq => (priority ac <=? priority aq.1) && negb (match aq.2 with [] => true | _ => false end)) qs = false -> queue_of ac qs = [].
Proof.
  induction qs as [|[a q] qs IH]; cbn; [done|]. intros [Hq Hqs]%orb_false_iff. case_decide; [subst|auto]. rewrite Z.leb_refl in Hq.
  by destruct q.
Qed.

(** ** Without expired packets *)

Definition kept_queues (now : Z) qs : list (AccessCategory * list PendingTransmission) :=
  map (fun aq => (aq.1, List.filter (fun p => negb (expired now p)) aq.2)) qs.

Lemma kept_keys now qs : (kept_queues now qs).*1 = qs.*1.
Proof. induction qs as [|[a q] qs IH]; cbn; [done|]. by rewrite <- IH. Qed.

Lemma kept_queue now ac qs : queue_of ac (kept_queues now qs) = List.filter (fun p => negb (expired now p)) (queue_of ac qs).
Proof. induction qs as [|[a q] qs IH]; cbn; [done|]. by case_decide. Qed.

Lemma kept_empty now qs : empty qs = true -> empty (kept_queues now qs) = true.
Proof. induction qs as [|[a q] qs IH]; [done|]. intros [Hq Hqs]%andb_true_iff. apply andb_true_iff. split; [by destruct q|by apply IH]. Qed.

Lemma kept_packets now qs : (packets (kept_queues now qs) <= packets qs)%nat.
Proof.
  induction qs as [|[a q] qs IH]; [done|]. pose proof (List.filter_length_le (fun p => negb (expired now p)) q) as Hq.
  change (length (List.filter (fun p => negb (expired now p)) q) + packets (kept_queues now qs) <= length q + packets qs)%nat. lia.
Qed.

End Queues.

(** * The invariant *)

Section Invariant.
Context `{SecuredArchive} {T : Type} `{TC : !TransmitRateControl T} `{!TrcOk T}.
Implicit Types (f : FlowControl T) (ac : AccessCategory).

(** Packets of a category: handed to the access layer, destroyed, waiting. *)
Definition sent_of ac (events : list FlowEvent) : list DownPacket :=
  omap (fun e => match e with AccessRequested r p => if decide (access_category r = ac) then Some p else None | _ => None end) events.
Definition destroyed_of ac (events : list FlowEvent) : list DownPacket :=
  omap (fun e => match e with Destroyed a p => if decide (a = ac) then Some p else None | _ => None end) events.
Definition waiting ac (qs : list (AccessCategory * list PendingTransmission)) : list DownPacket := p_packet <$> queue_of ac qs.

Definition requests_of ac (reqs : list (AccessCategory * DownPacket)) : list DownPacket :=
  omap (fun r => if decide (r.1 = ac) then Some r.2 else None) reqs.

(** Every packet that was requested is in one place, and those of a category leave in the
    order in which they were requested. *)
Record flow_core (reqs : list (AccessCategory * DownPacket)) f : Prop := {
  fc_keys : NoDup f.(m_queues).*1;
  fc_profile ac p : p ∈ queue_of ac f.(m_queues) -> map_profile_onto_ac (dcc_profile (p_request p)) = ac;
  fc_conserved ac : requests_of ac reqs ≡ₚ sent_of ac f.(f_events) ++ destroyed_of ac f.(f_events) ++ waiting ac f.(m_queues);
  fc_order ac : sublist (sent_of ac f.(f_events) ++ waiting ac f.(m_queues)) (requests_of ac reqs);
  fc_trc : trc_ok (time f) f.(m_trc);
}.

(** While a packet waits, a callback is scheduled. *)
Definition triggered f : Prop := empty f.(m_queues) = true \/ ManualRuntime.m_queue f.(f_runtime) <> [].

Lemma core_trc reqs f t : flow_core reqs f -> trc_ok (time f) t -> flow_core reqs (set_trc t f).
Proof. intros [] Ht. by split. Qed.

Lemma core_runtime reqs f rt : flow_core reqs f -> time f <= ManualRuntime.m_now rt -> flow_core reqs (set_runtime rt f).
Proof. intros [] Ht. split; try done. by eapply trc_later. Qed.

(** ** Calls of the rate control *)

Lemma wp_delay reqs tx f Q : flow_core reqs f ->
  (forall d t, 0 <= d < duration_max -> flow_core reqs (set_trc t f) -> Q d (set_trc t f)) -> wp (delay tx) Q f.
Proof.
  intros Hf HQ. destruct (trc_delay_ok (time f) tx _ (fc_trc _ _ Hf)) as (d & t & E & Hd & Ht). unfold wp, delay. rewrite E.
  apply HQ; [done|by apply core_trc].
Qed.

Lemma wp_notify tx f Q : trc_ok (time f) f.(m_trc) -> (forall t, trc_ok (time f) t -> Q () (set_trc t f)) -> wp (notify tx) Q f.
Proof.
  intros Hf HQ. destruct (trc_notify_ok (time f) tx _ Hf) as (t & E & Ht). unfold wp, notify. rewrite E. by apply HQ.
Qed.

Lemma set_trc_twice t t' f : set_trc t (set_trc t' f) = set_trc t f.
Proof. done. Qed.

Lemma set_trc_same f : set_trc f.(m_trc) f = f.
Proof. by destruct f. Qed.

Lemma wp_next_loop reqs qs : forall next min_delay f, flow_core reqs f -> (next = None -> min_delay = duration_max) ->
  wp (next_loop qs next min_delay) (fun r f' => (exists t, f' = set_trc t f) /\ flow_core reqs f' /\
    match r with
    | None => next = None /\ empty qs = true
    | Some ac => next = Some ac \/ exists p q, (ac, p :: q) ∈ qs
    end) f.
Proof.
  induction qs as [|[a q] qs IH]; intros next min_delay f Hf Hn; cbn [next_loop].
  { apply wp_ret. split; [exists f.(m_trc); by rewrite set_trc_same|]. split; [done|]. destruct next; auto. }
  destruct q as [|p q].
  - eapply wp_mono; [by apply IH|]. intros r f' (Ht & Hf' & Hr). split; [done|]. split; [done|].
    destruct r as [ac|]; [|done]. destruct Hr as [|(p & q & Hin)]; [by left|right]. exists p, q. set_solver.
  - apply wp_bind. eapply wp_delay; [done|]. intros d t Hd Hf1.
    assert (forall next' min', (next' = None -> min' = duration_max) -> (next' = Some a \/ (next' = next /\ next' <> None)) ->
      wp (next_loop qs next' min') (fun r f' => (exists t, f' = set_trc t f) /\ flow_core reqs f' /\
        match r with
        | None => next = None /\ empty ((a, p :: q) :: qs) = true
        | Some ac => next = Some ac \/ exists p' q', (ac, p' :: q') ∈ (a, p :: q) :: qs
        end) (set_trc t f)) as Hrest.
    { intros next' min' Hm Hne. eapply wp_mono; [by apply IH|]. intros r f' ([t' ->] & Hf' & Hr). split; [by exists t'|]. split; [done|].
      destruct r as [ac|].
      - destruct Hr as [->|(p' & q' & Hin)]; [|right; exists p', q'; set_solver].
        destruct Hne as [[= ->]|[-> _]]; [right; exists p, q; set_solver|by left].
      - destruct Hr as [-> _]. by destruct Hne as [|[_ ?]]. }
    destruct (Z.ltb_spec d min_delay).
    + apply Hrest; [done|by left].
    + apply Hrest; [done|]. right. split; [done|]. intros ->. rewrite Hn in * by done. lia.
Qed.

(** The queue that comes next, or there is no packet. *)
Lemma wp_next_queue reqs f : flow_core reqs f ->
  wp next_queue (fun r f' => (exists t, f' = set_trc t f) /\ flow_core reqs f' /\
    match r with
    | None => empty f.(m_queues) = true
    | Some ac => exists p q, queue_of ac f.(m_queues) = p :: q
    end) f.
Proof.
  intros Hf. unfold next_queue. apply wp_bind, wp_gets. eapply wp_mono; [by apply wp_next_loop|]. intros r f' (Ht & Hf' & Hr).
  split; [done|]. split; [done|]. destruct r as [ac|]; [|by destruct Hr]. destruct Hr as [|(p & q & Hin)]; [done|]. exists p, q.
  apply queue_of_elem; [by destruct Hf|done].
Qed.

Lemma wp_next_transmission reqs f Q : flow_core reqs f ->
  (forall t ac p q, flow_core reqs (set_trc t f) -> queue_of ac f.(m_queues) = p :: q -> Q (Some p) (set_trc t f)) ->
  (forall t, flow_core reqs (set_trc t f) -> empty f.(m_queues) = true -> Q None (set_trc t f)) ->
  wp next_transmission Q f.
Proof.
  intros Hf HS HN. unfold next_transmission. apply wp_bind. eapply wp_mono; [by apply wp_next_queue|]. intros r f' ([t ->] & Hf' & Hr).
  apply wp_bind, wp_gets, wp_ret. cbn [m_queues set_trc]. destruct r as [ac|]; [|by apply HN]. destruct Hr as (p & q & E). rewrite E. by apply (HS t ac p q).
Qed.

(** ** Packets that move *)

Lemma sent_app ac e e' : sent_of ac (e ++ e') = sent_of ac e ++ sent_of ac e'.
Proof. apply omap_app. Qed.
Lemma destroyed_app ac e e' : destroyed_of ac (e ++ e') = destroyed_of ac e ++ destroyed_of ac e'.
Proof. apply omap_app. Qed.
Lemma requests_app ac r r' : requests_of ac (r ++ r') = requests_of ac r ++ requests_of ac r'.
Proof. apply omap_app. Qed.

(** The events of dropping: nothing is sent, and the expired packets are destroyed. *)
Lemma dropped_events now ac qs : NoDup qs.*1 ->
  let events := concat (map (fun aq => concat (map (dropped aq.1) (List.filter (expired now) aq.2))) qs) in
  sent_of ac events = [] /\ destroyed_of ac events = p_packet <$> List.filter (expired now) (queue_of ac qs).
Proof.
  assert (forall a q, sent_of ac (concat (map (dropped a) q)) = [] /\
    destroyed_of ac (concat (map (dropped a) q)) = if decide (a = ac) then p_packet <$> q else []) as Hone.
  { intros a q. induction q as [|p q [IH1 IH2]]; cbn; [by destruct (decide _)|]. unfold sent_of, destroyed_of in *. cbn. rewrite IH1, IH2.
    by destruct (decide (a = ac)). }
  induction qs as [|[a q] qs IH]; [done|]. intros [Ha Hn]%NoDup_cons. destruct (IH Hn) as [H1 H2]. cbv zeta in *.
  cbn [map concat fst snd queue_of]. rewrite sent_app, destroyed_app. destruct (Hone a (List.filter (expired now) q)) as [-> ->].
  rewrite H1, H2. split; [done|]. destruct (decide (a = ac)) as [->|]; [|done].
  rewrite (queue_of_absent ac qs Ha). by rewrite app_nil_r.
Qed.

Lemma filter_split {A} (P : A -> bool) (l : list A) : l ≡ₚ List.filter P l ++ List.filter (fun x => negb (P x)) l.
Proof.
  induction l as [|x l IH]; cbn; [done|]. destruct (P x); cbn; [by rewrite <- IH|]. rewrite <- Permutation_middle. by rewrite <- IH.
Qed.

Lemma kept_sublist {A} (P : A -> bool) (l : list A) : sublist (List.filter P l) l.
Proof. induction l as [|x l IH]; cbn; [constructor|]. destruct (P x); by constructor. Qed.

Lemma fmap_sublist {A B} (g : A -> B) (l l' : list A) : sublist l l' -> sublist (g <$> l) (g <$> l').
Proof. induction 1; cbn; by constructor. Qed.

Lemma wp_drop_expired reqs f Q : flow_core reqs f ->
  (forall f', flow_core reqs f' -> f_runtime f' = f_runtime f -> (triggered f -> triggered f') ->
     (packets f'.(m_queues) <= packets f.(m_queues))%nat -> Q () f') ->
  wp drop_expired Q f.
Proof.
  intros Hf HQ. apply wp_modify. destruct Hf as [Hk Hp Hc Ho Ht]. apply HQ.
  - assert (forall ac, let events := f_events f ++ concat (map (fun aq => concat (map (dropped aq.1) (List.filter (expired (time f)) aq.2))) f.(m_queues)) in
      sent_of ac events = sent_of ac (f_events f) /\ destroyed_of ac events = destroyed_of ac (f_events f) ++
        (p_packet <$> List.filter (expired (time f)) (queue_of ac (m_queues f)))) as Hev.
    { intros ac. cbv zeta. rewrite sent_app, destroyed_app. destruct (dropped_events (time f) ac (m_queues f) Hk) as [-> ->]. by rewrite app_nil_r. }
    split; cbn [m_queues set_queues f_events record_events]; fold (kept_queues (time f) (m_queues f)).
    + by rewrite kept_keys.
    + intros ac p. rewrite kept_queue. rewrite list_elem_of_In, filter_In, <- list_elem_of_In. intros [Hin _]. by apply Hp.
    + intros ac. destruct (Hev ac) as [-> ->]. rewrite (Hc ac). unfold waiting. rewrite kept_queue.
      rewrite (filter_split (expired (time f)) (queue_of ac (m_queues f))) at 1. rewrite fmap_app. by rewrite <- !app_assoc.
    + intros ac. destruct (Hev ac) as [-> _]. etransitivity; [|exact (Ho ac)]. apply sublist_app; [done|]. unfold waiting. rewrite kept_queue.
      apply fmap_sublist, kept_sublist.
    + done.
  - done.
  - intros [He|Hr]; [left; by apply kept_empty|by right].
  - apply kept_packets.
Qed.

(** The packet at the front of a queue is sent. *)
Lemma core_sent reqs f ac p q r : flow_core reqs f -> queue_of ac f.(m_queues) = p :: q -> access_category r = ac ->
  flow_core reqs (record_events [TransmitHook ac p.(p_packet); AccessRequested r p.(p_packet)] (set_queues (set_queue ac q f.(m_queues)) f)).
Proof.
  intros [Hk Hp Hc Ho Ht] Eq Er. destruct (set_queue_ok ac q _ Hk) as (H1 & H2 & _).
  split; cbn [m_queues set_queues f_events record_events]; [done| | | |done].
  - intros a x. rewrite H2. case_decide as Ha; [|apply Hp]. subst a. intros Hx. apply Hp. rewrite Eq. set_solver.
  - intros a. specialize (Hc a). rewrite sent_app, destroyed_app. unfold waiting in *. rewrite H2. case_decide as Ha.
    + subst a. rewrite Eq in Hc. cbn in Hc |- *. rewrite decide_True by done. rewrite app_nil_r, <- app_assoc. rewrite Hc. cbn.
      by rewrite <- !Permutation_middle, app_nil_r || by rewrite <- !Permutation_middle.
    + cbn. rewrite decide_False by congruence. by rewrite !app_nil_r.
  - intros a. specialize (Ho a). rewrite sent_app. unfold waiting in *. rewrite H2. case_decide as Ha.
    + subst a. rewrite Eq in Ho. cbn in Ho |- *. rewrite decide_True by done. by rewrite <- app_assoc.
    + cbn. rewrite decide_False by congruence. by rewrite app_nil_r.
Qed.

(** A packet is requested and sent at once, when no packet of its category waits. *)
Lemma core_passed reqs f ac packet r : flow_core reqs f -> queue_of ac f.(m_queues) = [] -> access_category r = ac ->
  flow_core (reqs ++ [(ac, packet)]) (record_events [TransmitHook ac packet; AccessRequested r packet] f).
Proof.
  intros [Hk Hp Hc Ho Ht] Eq Er. split; cbn [m_queues f_events record_events]; [done|done| | |done].
  - intros a. specialize (Hc a). rewrite requests_app, sent_app, destroyed_app. unfold waiting in *. cbn. rewrite Er.
    destruct (decide (ac = a)) as [->|]; [|by rewrite !app_nil_r]. rewrite Eq in *. cbn in Hc |- *. rewrite !app_nil_r in *.
    rewrite Hc, <- !app_assoc. apply Permutation_app_head. by rewrite Permutation_app_comm.
  - intros a. specialize (Ho a). rewrite requests_app, sent_app. unfold waiting in *. cbn. rewrite Er.
    destruct (decide (ac = a)) as [->|]; [|by rewrite !app_nil_r]. rewrite Eq in *. cbn in Ho |- *. rewrite !app_nil_r in *.
    by apply sublist_app.
Qed.

Lemma make_room_ok limit ac packet q : forall a, let '(q', events) := make_room limit ac packet q in exists gone, q = gone ++ q' /\
  sent_of a events = [] /\ destroyed_of a events = if decide (ac = a) then p_packet <$> gone else [].
Proof.
  intros a. induction q as [|p q IH]; cbn [make_room]; [exists []; by case_decide|]. destruct (_ && _); [|exists []; by case_decide].
  destruct (make_room limit ac packet q) as [q' events]. destruct IH as (gone & -> & H1 & H2). exists (p :: gone).
  split; [done|]. unfold sent_of, destroyed_of in *. cbn. rewrite H1, H2. by destruct (decide (ac = a)).
Qed.

(** A packet is requested and waits. *)
Lemma core_enqueued reqs f ac p q' events : flow_core reqs f -> map_profile_onto_ac (dcc_profile p.(p_request)) = ac ->
  make_room f.(m_queue_length) ac p.(p_packet) (queue_of ac f.(m_queues)) = (q', events) ->
  flow_core (reqs ++ [(ac, p.(p_packet))]) (set_queues (set_queue ac (q' ++ [p]) f.(m_queues)) (record_events events f)).
Proof.
  intros [Hk Hp Hc Ho Ht] Ep Em. destruct (set_queue_ok ac (q' ++ [p]) _ Hk) as (H1 & H2 & _).
  pose proof (make_room_ok f.(m_queue_length) ac p.(p_packet) (queue_of ac f.(m_queues))) as Hroom. rewrite Em in Hroom.
  split; cbn [m_queues set_queues f_events record_events]; [done| | | |done].
  - intros a x. rewrite H2. case_decide as Ha; [|apply Hp]. subst a. intros [Hx|Hx]%elem_of_app; [|by apply list_elem_of_singleton in Hx as ->].
    apply Hp. destruct (Hroom ac) as (gone & -> & _). set_solver.
  - intros a. specialize (Hc a). destruct (Hroom a) as (gone & Eg & Es & Ed). rewrite requests_app, sent_app, destroyed_app, Es, Ed.
    unfold waiting in *. rewrite H2. cbn. destruct (decide (a = ac)) as [->|Ha].
    + rewrite !decide_True by done. rewrite Eg, fmap_app in Hc. rewrite Hc, fmap_app, app_nil_r. cbn. by rewrite <- !app_assoc.
    + rewrite !decide_False by congruence. by rewrite !app_nil_r.
  - intros a. specialize (Ho a). destruct (Hroom a) as (gone & Eg & Es & Ed). rewrite requests_app, sent_app, Es.
    unfold waiting in *. rewrite H2. cbn. destruct (decide (a = ac)) as [->|Ha].
    + rewrite !decide_True by done. rewrite app_nil_r, fmap_app, app_assoc. apply sublist_app; [|done].
      etransitivity; [|exact Ho]. rewrite Eg, fmap_app. apply sublist_app; [done|]. by apply sublist_inserts_l.
    + rewrite !decide_False by congruence. by rewrite !app_nil_r.
Qed.

(** ** The operations *)

Lemma emplace_length {C X} (x : @ManualRuntime.ScheduledCallback C X) l : length (ManualRuntime.emplace x l) = S (length l).
Proof. induction l as [|y l IH]; cbn; [done|]. destruct (_ <? _); cbn; [done|by rewrite IH]. Qed.

Definition callbacks f : nat := length (ManualRuntime.m_queue f.(f_runtime)).

Lemma scheduled_triggered f n : callbacks f = S n -> triggered f.
Proof. unfold callbacks, triggered. intros E. right. by intros E'; rewrite E' in E. Qed.

Lemma wp_schedule_trigger reqs tx f Q : flow_core reqs f ->
  (forall f', flow_core reqs f' -> m_queues f' = m_queues f -> callbacks f' = S (callbacks f) -> time f' = time f -> Q () f') ->
  wp (schedule_trigger tx) Q f.
Proof.
  intros Hf HQ. apply wp_bind. eapply wp_delay; [done|]. intros d t Hd Hf'. apply wp_modify. apply HQ; try done.
  - by apply core_runtime.
  - apply emplace_length.
Qed.

Lemma wp_enqueue_packet reqs req packet f : flow_core reqs f -> triggered f ->
  wp (enqueue req packet) (fun _ f' => flow_core (reqs ++ [(map_profile_onto_ac (dcc_profile req), packet)]) f' /\ triggered f' /\ time f' = time f) f.
Proof.
  intros Hf Ht. apply wp_bind, wp_gets. unfold id. destruct (make_room _ _ _ _) as [q' events] eqn:Em. apply wp_bind, wp_modify.
  set (p := mk_Pending (time f + dcc_lifetime req) req packet) in *.
  pose proof (core_enqueued reqs f _ p q' events Hf eq_refl Em) as Hf'. apply wp_when.
  - intros _. eapply wp_schedule_trigger; [exact Hf'|]. intros f2 Hf2 _ Hc Ht2. split; [done|]. split; [by eapply scheduled_triggered|done].
  - intros He. split; [exact Hf'|]. split; [|done]. destruct Ht as [Ht|Ht]; [congruence|by right].
Qed.

Lemma wp_request reqs req packet f : flow_core reqs f -> triggered f ->
  wp (request req packet) (fun _ f' => flow_core (reqs ++ [(map_profile_onto_ac (dcc_profile req), packet)]) f' /\ triggered f' /\ time f' = time f) f.
Proof.
  intros Hf Ht. apply wp_bind. eapply wp_drop_expired; [done|]. intros f1 Hf1 Er1 Ht1 _. specialize (Ht1 Ht).
  assert (time f1 = time f) as Etime by (unfold time; by rewrite Er1). rewrite <- Etime. apply wp_bind. unfold transmit_immediately. apply wp_bind, wp_gets.
  match goal with |- context [existsb ?test ?l] => destruct (existsb test l) eqn:Ec end; [apply wp_ret; by apply wp_enqueue_packet|]. apply no_contention in Ec. apply wp_bind. eapply wp_delay; [done|].
  intros d t _ Hf2. apply wp_ret. destruct (d =? 0); [|by apply (wp_enqueue_packet reqs req packet (set_trc t f1))]. apply wp_bind. apply wp_notify; [apply Hf2|].
  intros t' Ht'. apply wp_modify. split; [|done]. by apply core_passed; [apply core_trc| |].
Qed.

(** The next packet is sent, if there is one, and the callback for the one after it is scheduled. *)
Lemma wp_trigger reqs f : flow_core reqs f ->
  wp trigger (fun _ f' => flow_core reqs f' /\ triggered f' /\ time f' = time f /\ (rounds f' <= rounds f)%nat /\
    (packets f'.(m_queues) <= pred (packets f.(m_queues)))%nat) f.
Proof.
  intros Hf. apply wp_bind. eapply wp_drop_expired; [done|]. intros f1 Hf1 Er1 _ Hp1.
  apply wp_bind, wp_bind. eapply wp_mono; [by apply wp_next_queue|]. intros r f2 ([t ->] & Hf2 & Hr).
  assert (time f1 = time f /\ callbacks f1 = callbacks f) as [Et Ec] by (unfold time, callbacks; by rewrite Er1).
  assert (forall f3, flow_core reqs f3 -> time f3 = time f -> callbacks f3 = callbacks f -> (packets (m_queues f3) <= pred (packets (m_queues f)))%nat ->
    (0 < packets (m_queues f))%nat ->
    wp (next ← next_transmission; match next with Some p => schedule_trigger (transmission_of p) | None => mret () end)
      (fun _ f' => flow_core reqs f' /\ triggered f' /\ time f' = time f /\ (rounds f' <= rounds f)%nat /\
        (packets f'.(m_queues) <= pred (packets f.(m_queues)))%nat) f3) as Hrest.
  { intros f3 Hf3 Et3 Ec3 Hp3 Hpos. apply wp_bind. eapply wp_next_transmission; [done| |].
    - intros t' ac p q Hf4 _. eapply wp_schedule_trigger; [done|]. intros f5 Hf5 Eq5 Ec5 Et5. split; [done|]. split; [by eapply scheduled_triggered|].
      split; [by rewrite Et5|]. unfold rounds. fold (callbacks f5) (callbacks f). rewrite Ec5, Eq5. change (callbacks (set_trc t' f3)) with (callbacks f3).
      cbn [m_queues set_trc]. rewrite Ec3. lia.
    - intros t' Hf4 He. apply wp_ret. split; [done|]. split; [by left|]. split; [done|]. unfold rounds. fold (callbacks (set_trc t' f3)) (callbacks f).
      change (callbacks (set_trc t' f3)) with (callbacks f3). cbn [m_queues set_trc]. rewrite Ec3. lia. }
  destruct r as [ac|].
  - destruct Hr as (p & q & E). apply wp_bind, wp_gets. cbn [m_queues set_trc]. rewrite E. apply wp_bind, wp_modify, wp_ret.
    pose proof (set_queue_ok ac q _ (fc_keys _ _ Hf1)) as (_ & _ & Hlen). rewrite E in Hlen. cbn [length] in Hlen.
    apply wp_bind, wp_bind. apply wp_notify; [apply Hf2|]. intros t' Ht'. apply wp_modify. pose proof (fc_profile _ _ Hf1 ac p) as Hac.
    rewrite E in Hac. specialize (Hac (list_elem_of_here _ _)). cbn [access_category]. rewrite Hac. apply Hrest; [|done|done|cbn [m_queues set_queues record_events set_trc]; lia|lia].
    by apply (core_sent reqs (set_trc t' f1) ac p q); [apply core_trc| |].
  - apply wp_ret, wp_bind, wp_ret. apply wp_bind. eapply wp_next_transmission; [done| |].
    + intros t' ac p q _ E. cbn in E. by rewrite empty_queue in E.
    + intros t' Hf4 He. cbn in He. apply wp_ret. split; [done|]. split; [by left|]. split; [done|]. unfold rounds. cbn [m_queues set_trc f_runtime].
      rewrite Er1. rewrite empty_packets by done. lia.
Qed.

Lemma wp_reschedule reqs f : flow_core reqs f -> triggered f ->
  wp reschedule (fun _ f' => flow_core reqs f' /\ triggered f') f.
Proof.
  intros Hf Ht. apply wp_bind. eapply wp_next_transmission; [done| |].
  - intros t ac p q Hf1 _. apply wp_bind, wp_modify. eapply wp_schedule_trigger; [by apply core_runtime|].
    intros f2 Hf2 _ Hc _. split; [done|]. by eapply scheduled_triggered.
  - intros t Hf1 He. apply wp_ret. split; [done|by left].
Qed.

(** All callbacks that are due are called: fuel for the rounds is enough. *)
Lemma wp_run_due reqs fuel : forall f, flow_core reqs f -> triggered f -> (rounds f < fuel)%nat ->
  wp (run_due fuel) (fun _ f' => flow_core reqs f' /\ triggered f' /\ (packets f'.(m_queues) <= packets f.(m_queues))%nat /\
    (ManualRuntime.pop_due f.(f_runtime) <> None -> (packets f'.(m_queues) <= pred (packets f.(m_queues)))%nat)) f.
Proof.
  induction fuel as [|fuel IH]; intros f Hf Ht Hr; [lia|]. cbn [run_due]. apply wp_bind, wp_gets.
  destruct (ManualRuntime.pop_due (f_runtime f)) as [[x rt]|] eqn:Ed; [|by apply wp_ret].
  assert (ManualRuntime.m_now rt = time f /\ callbacks f = S (length (ManualRuntime.m_queue rt))) as [Hnow Hlen].
  { unfold ManualRuntime.pop_due, callbacks, time in *. destruct (ManualRuntime.m_queue (f_runtime f)); [done|]. destruct (_ <=? _); [|done]. by injection Ed as <- <-. }
  apply wp_bind, wp_modify, wp_bind. eapply wp_mono; [apply (wp_trigger reqs); by apply core_runtime; [|rewrite Hnow]|].
  intros _ f1 (Hf1 & Ht1 & _ & Hr1 & Hp1). cbn [m_queues set_runtime] in Hp1. eapply wp_mono; [apply IH; [done|done|]|].
  - unfold rounds in *. cbn [f_runtime set_runtime m_queues] in Hr1. unfold callbacks in Hlen. lia.
  - intros _ f2 (Hf2 & Ht2 & Hp2 & _). split; [done|]. split; [done|]. lia.
Qed.

Lemma wp_advance reqs d f : 0 <= d -> flow_core reqs f -> triggered f ->
  wp (advance d) (fun _ f' => flow_core reqs f' /\ triggered f' /\ (packets f'.(m_queues) <= packets f.(m_queues))%nat /\
    (ManualRuntime.pop_due (ManualRuntime.set_now (time f + d) f.(f_runtime)) <> None -> (packets f'.(m_queues) <= pred (packets f.(m_queues)))%nat)) f.
Proof.
  intros Hd Hf Ht. apply wp_bind, wp_modify, wp_bind, wp_gets.
  eapply wp_mono; [apply (wp_run_due reqs); [apply core_runtime; [done|cbn; lia]|by destruct Ht; [left|right]|lia]|].
  intros _ f' (Hf' & Ht' & Hp). done.
Qed.

(** What the users may do: time does not go back, and what happens to the rate control keeps its promise. *)
Definition call_ok (c : FlowCall T) : Prop :=
  match c with
  | Advance d => 0 <= d
  | RateControlChanges g => forall now t, trc_ok now t -> trc_ok now (g t)
  | _ => True
  end.

Definition requested (c : FlowCall T) : list (AccessCategory * DownPacket) :=
  match c with
  | Request req packet => [(map_profile_onto_ac (dcc_profile req), packet)]
  | _ => []
  end.

Lemma wp_perform reqs c f : call_ok c -> flow_core reqs f -> triggered f ->
  wp (perform c) (fun _ f' => flow_core (reqs ++ requested c) f' /\ triggered f') f.
Proof.
  intros Hc Hf Ht. destruct c as [req packet|d| |n|g]; cbn [perform requested]; rewrite ?app_nil_r.
  - eapply wp_mono; [by apply wp_request|]. by intros _ f' (? & ? & _).
  - eapply wp_mono; [by apply wp_advance|]. by intros _ f' (? & ? & _).
  - by apply wp_reschedule.
  - apply wp_modify. split; [|done]. by destruct Hf; split.
  - apply wp_modify. split; [|done]. apply core_trc; [done|]. apply Hc, Hf.
Qed.

Lemma wp_run_calls calls : forall reqs f, Forall call_ok calls -> flow_core reqs f -> triggered f ->
  wp (run_calls calls) (fun _ f' => flow_core (reqs ++ concat (map requested calls)) f' /\ triggered f') f.
Proof.
  unfold run_calls. induction calls as [|c calls IH]; intros reqs f Hc Hf Ht; cbn [for_each map concat].
  - apply wp_ret. by rewrite app_nil_r.
  - apply Forall_cons in Hc as [Hc Hcs]. apply wp_bind. eapply wp_mono; [by apply wp_perform|]. intros _ f1 [Hf1 Ht1].
    rewrite app_assoc. by apply IH.
Qed.

Lemma core_start rt trc : trc_ok (ManualRuntime.m_now rt) trc -> flow_core [] (make_FlowControl rt trc).
Proof. intros Ht. split; cbn; try done; [apply NoDup_nil; done|by intros ac p ?%not_elem_of_nil]. Qed.

(** As long as a packet waits, the next callback sends one or finds all of them expired. *)
Lemma wp_wait reqs late f : 0 <= late -> flow_core reqs f -> triggered f ->
  wp (wait late) (fun _ f' => flow_core reqs f' /\ triggered f' /\ (packets f'.(m_queues) <= pred (packets f.(m_queues)))%nat) f.
Proof.
  intros Hl Hf Ht. apply wp_bind, wp_gets. eapply wp_mono; [apply (wp_advance reqs); [|done|done]|].
  - destruct (ManualRuntime.m_queue _); lia.
  - intros _ f' (Hf' & Ht' & Hp & Hdue). split; [done|]. split; [done|]. destruct Ht as [He|Hq].
    + pose proof (empty_packets _ He). lia.
    + apply Hdue. unfold ManualRuntime.pop_due, ManualRuntime.set_now, time. cbn [ManualRuntime.m_queue ManualRuntime.m_now].
      destruct (ManualRuntime.m_queue (f_runtime f)) as [|x l]; [done|]. destruct (Z.leb_spec (ManualRuntime.deadline x) (ManualRuntime.m_now (f_runtime f) +
        (Z.max 0 (ManualRuntime.deadline x - ManualRuntime.m_now (f_runtime f)) + late))); [done|lia].
Qed.

Lemma packets_empty (qs : list (AccessCategory * list PendingTransmission)) : packets qs = 0%nat -> empty qs = true.
Proof. unfold packets. induction qs as [|[a [|p q]] qs IH]; cbn; [done|done|done]. Qed.

Lemma wp_waits reqs lates : forall f, Forall (fun l => 0 <= l) lates -> flow_core reqs f -> triggered f -> (packets f.(m_queues) <= length lates)%nat ->
  wp (for_each wait lates) (fun _ f' => flow_core reqs f' /\ empty f'.(m_queues) = true) f.
Proof.
  induction lates as [|l lates IH]; intros f Hl Hf Ht Hp; cbn [for_each].
  - apply wp_ret. split; [done|]. apply packets_empty. cbn in Hp. lia.
  - apply Forall_cons in Hl as [Hl Hls]. apply wp_bind. eapply wp_mono; [by apply wp_wait|]. intros _ f1 (Hf1 & Ht1 & Hp1).
    apply IH; [done..|]. cbn in Hp. lia.
Qed.

(** C30. Congestion control neither loses nor repeats a packet.  Whatever sequence of requests,
    waits, rescheduling, changes of the queue length and changes of the rate control, every
    call returns; in every access category the packets that were requested are those that
    were handed to the access layer, those that were destroyed and those that wait; and those
    handed over and those that wait are in the order in which they were requested. *)
Theorem flow_control_conserves rt trc calls : trc_ok (ManualRuntime.m_now rt) trc -> Forall call_ok calls ->
  wp (run_calls calls) (fun _ f => forall ac, let requests := requests_of ac (concat (map requested calls)) in
      requests ≡ₚ sent_of ac f.(f_events) ++ destroyed_of ac f.(f_events) ++ waiting ac f.(m_queues) /\
      sublist (sent_of ac f.(f_events) ++ waiting ac f.(m_queues)) requests)
    (make_FlowControl rt trc).
Proof.
  intros Ht Hc. eapply wp_mono; [apply (wp_run_calls calls []); [done|by apply core_start|by left]|].
  intros _ f [Hf _] ac. split; apply Hf.
Qed.

(** C31. No packet waits for ever: after any sequence of calls, as many callbacks as there are
    packets in the queues, each however late, empty all queues, and every packet that was
    requested has been handed to the access layer or destroyed. *)
Theorem flow_control_drains rt trc calls : trc_ok (ManualRuntime.m_now rt) trc -> Forall call_ok calls ->
  wp (run_calls calls) (fun _ f => forall lates, Forall (fun l => 0 <= l) lates -> (packets f.(m_queues) <= length lates)%nat ->
      wp (for_each wait lates) (fun _ f' => empty f'.(m_queues) = true /\ forall ac,
        requests_of ac (concat (map requested calls)) ≡ₚ sent_of ac f'.(f_events) ++ destroyed_of ac f'.(f_events)) f)
    (make_FlowControl rt trc).
Proof.
  intros Ht Hc. eapply wp_mono; [apply (wp_run_calls calls []); [done|by apply core_start|by left]|].
  intros _ f [Hf Htr] lates Hl Hp. eapply wp_mono; [by apply wp_waits|]. intros _ f' [Hf' He]. split; [done|]. intros ac.
  pose proof (fc_conserved _ _ Hf' ac) as Hcons. unfold waiting in Hcons. rewrite empty_queue in Hcons by done.
  cbn [fmap list_fmap] in Hcons. by rewrite app_nil_r in Hcons.
Qed.

End Invariant.

(** * A station with bursts and the fully meshed state machine *)

#[local] Instance no_secured_messages : SecuredArchive := {|
  SecuredMessage := Empty_set;
  security_serialize m := match m with end;
  security_get_size m := match m with end;
  v2_deserialize ar := (None, ar);
  v3_deserialize ar := (None, ar);
|}.

#[local] Existing Instance FullyMeshed.fully_meshed.

Abbreviation station_control := (BurstyTransmitRateControl FullyMeshed.FullyMeshedStateMachine).

Definition sample_control : station_control := mk_Bursty BurstBudget.make_BurstBudget None FullyMeshed.make_FullyMeshed.

(** What [notify] of the state machine's owner does with a channel load. *)
Definition channel_load (load : double) (t : station_control) : station_control :=
  match sm_update load t.(m_fsm) with
  | Returns fsm => mk_Bursty t.(m_burst_budget) t.(m_fsm_budget) fsm
  | _ => t
  end.

Definition data (n : Z) : DownPacket := set_chunk_layer Application (OfBuffer [n]) make_ChunkPacket.

Definition send (profile : Profile) (lifetime n : Z) : FlowCall station_control :=
  Request (mk_DccDataRequest GeoNetworking_ether_type default_MacAddress cBroadcastMacAddress profile (milliseconds lifetime)) (data n).

Definition pause (n : Z) : FlowCall station_control := Advance (milliseconds n).

Lemma meshed_interval_bounds m : 0 <= FullyMeshed.meshed_interval m < duration_max.
Proof.
  unfold FullyMeshed.meshed_interval. destruct (FullyMeshed.m_state m); [done| |done].
  destruct (FullyMeshed.m_substate m) as [|[|[|[|[|n]]]]]; by vm_compute.
Qed.

Lemma channel_load_ok load now t : bursty_ok now t -> bursty_ok now (channel_load load t).
Proof.
  intros Ht. unfold channel_load. destruct (sm_update load (m_fsm t)); [|done|done].
  destruct Ht. split; cbn; [done|done|done|apply meshed_interval_bounds|done].
Qed.

Lemma sample_control_ok : bursty_ok 0 sample_control.
Proof. split; cbn; [done|done|constructor|done|done]. Qed.

Definition busy_road : list (FlowCall station_control) :=
  [QueueLength 1; send DP2 1000 1; send DP2 1000 2; send DP2 1000 3; send DP1 20 4; RateControlChanges (channel_load (literal 90 100));
   send DP0 1000 5; pause 30; send DP3 1000 6; Reschedule; pause 100].

Lemma busy_road_ok : Forall call_ok busy_road.
Proof.
  unfold busy_road. repeat apply Forall_cons_2; [exact I..| |exact I| |exact I|exact I| |apply Forall_nil_2; exact I]; cbn [call_ok pause].
  - intros now t. apply channel_load_ok.
  - by vm_compute.
  - by vm_compute.
Qed.

Lemma flow_control_conserves_witness : trc_ok (T := station_control) 0 sample_control /\
  wp (run_calls busy_road) (fun _ f => forall ac, let requests := requests_of ac (concat (map requested busy_road)) in
      requests ≡ₚ sent_of ac f.(f_events) ++ destroyed_of ac f.(f_events) ++ waiting ac f.(m_queues) /\
      sublist (sent_of ac f.(f_events) ++ waiting ac f.(m_queues)) requests)
    (make_FlowControl (ManualRuntime.make_ManualRuntime 0) sample_control).
Proof.
  split; [exact sample_control_ok|].
  exact (flow_control_conserves (ManualRuntime.make_ManualRuntime 0) sample_control busy_road sample_control_ok busy_road_ok).
Defined.

Lemma flow_control_drains_witness : trc_ok (T := station_control) 0 sample_control /\
  wp (run_calls busy_road) (fun _ f => forall lates, Forall (fun l => 0 <= l) lates -> (packets f.(m_queues) <= length lates)%nat ->
      wp (for_each wait lates) (fun _ f' => empty f'.(m_queues) = true /\ forall ac,
        requests_of ac (concat (map requested busy_road)) ≡ₚ sent_of ac f'.(f_events) ++ destroyed_of ac f'.(f_events)) f)
    (make_FlowControl (ManualRuntime.make_ManualRuntime 0) sample_control).
Proof.
  split; [exact sample_control_ok|].
  exact (flow_control_drains (ManualRuntime.make_ManualRuntime 0) sample_control busy_road sample_control_ok busy_road_ok).
Defined.

(** ** What happens to the packets *)

Definition after (calls : list (FlowCall station_control)) : FlowControl station_control :=
  (run_calls calls (make_FlowControl (ManualRuntime.make_ManualRuntime 0) sample_control)).2.

(** The second packet is dropped for the third, which waits with the one of the lowest
    category; the one with the short lifetime is dropped when it has ended. *)
Example busy_road_packets :
  let f := after busy_road in
  map (fun ac => (sent_of ac f.(f_events), destroyed_of ac f.(f_events), waiting ac f.(m_queues))) [VO; VI; BE; BK] =
    [([data 5], [], []); ([], [data 4], []); ([data 1], [data 2], [data 3]); ([], [], [data 6])].
Proof. by vm_compute. Qed.

(** A queue that is full: the packet that is destroyed is the oldest, the hook is told the new one. *)
Example overflow_hook_gets_new_packet :
  (after [QueueLength 1; send DP2 1000 1; send DP2 1000 2; send DP2 1000 3]).(f_events) =
    (after [QueueLength 1; send DP2 1000 1]).(f_events) ++ [Destroyed BE (data 2); DropHook BE (data 3)].
Proof. by vm_compute. Qed.

(** A packet whose lifetime ends leaves its callback behind, and the next packet gets one of
    its own: two packets are sent at the same time, though the interval between two packets
    is 60 milliseconds. *)
Example two_callbacks_two_packets :
  let calls := [send DP2 1000 1; send DP2 10 2; pause 20; send DP2 1000 3; send DP2 1000 4] in
  let sent f := sent_of BE f.(f_events) in
  sent (after (calls ++ [pause 39])) = [data 1] /\
  sent (after (calls ++ [pause 40])) = [data 1; data 3; data 4] /\
  FullyMeshed.meshed_interval (after (calls ++ [pause 40])).(m_trc).(m_fsm) = milliseconds 60.
Proof. by vm_compute. Qed.

(** The callback sends the next packet also when the rate control has become stricter since
    it was scheduled and demands to wait. *)
Example trigger_ignores_delay :
  let calls := [send DP2 1000 1; send DP2 1000 2; RateControlChanges (channel_load (literal 90 100)); pause 60] in
  sent_of BE (after calls).(f_events) = [data 1; data 2] /\
  StateMachineBudget.fsm_delay (FullyMeshed.meshed_interval (after calls).(m_trc).(m_fsm)) (milliseconds 60) (Some 0) = milliseconds 360.
Proof. by vm_compute. Qed.
