(* ===== verification/RouterOk.v ===== *)
(** * The invariant of the router

    The invariant of the state of the router, and that every member function returns and
    keeps it. *)

From Stdlib Require Import ZArith Lia Sorting.Sorted.
From stdpp Require Import prelude strings gmap.
From S2P Require Import Prelude GeoSerial GeoHeaders GeoPdu Double Asn1Wrapper Runtime NetPackets GeoArea.
From S2P Require Import GeoRequest GeoContainers SoftState CbfBuffer CbfBufferOk CbfTheorems LocationTable LocationTheorems.
From S2P Require Import GeoPending GeoIndication RouterState RouterForward RouterIndicate Router.

Open Scope Z_scope.

(** Runs the simple steps of a member function. *)
Ltac wp_step :=
  match goal with
  | |- wp get_mib _ _ => apply wp_gets
  | |- wp now _ _ => apply wp_gets
  | _ => wp_simple
  end.
Ltac wp_steps := repeat (wp_step; cbn beta).

(** * The location table *)

Section table.
Context `{!HeapTop MacAddress} `{!HeapTopOk MacAddress HeapTop0}.
Implicit Types t : LocationTable.

Definition listed (mac : MacAddress) t : Prop := is_Some (entry_at mac t).

Lemma listed_abs mac t : coherent t -> listed mac t <-> is_Some (abs t !! mac).
Proof.
  intros Hc. unfold listed, entry_at. pose proof (lookup_abs_None t mac Hc) as Hn.
  destruct (m_map t !! mac) as [[i v]|], (abs t !! mac) as [[]|] eqn:E; simpl; [naive_solver| | |naive_solver].
  - discriminate (proj1 Hn eq_refl).
  - discriminate (proj2 Hn eq_refl).
Qed.

Lemma entry_at_abs mac t entry e : coherent t -> abs t !! mac = Some (entry, e) ->
  entry_at mac t = Some entry.
Proof. intros Hc (i & Hm & _)%lookup_abs_Some; [|done]. unfold entry_at. by rewrite Hm. Qed.

Lemma modify_entry_ok mac f t : coherent t ->
  coherent (modify_entry mac f t) /\ forall mac', listed mac' t -> listed mac' (modify_entry mac f t).
Proof.
  intros [Hm Hh]. unfold modify_entry. split; [split|]; simpl.
  - intros k i v. rewrite lookup_alter_Some. intros [(<- & [j w] & Hk & Heq)|(Hne & Hk)]; simplify_eq; eauto.
  - intros i e k Hi. destruct (Hh _ _ _ Hi) as [w Hw]. destruct (decide (k = mac)) as [->|Hne].
    + exists (f w). by rewrite lookup_alter_eq, Hw.
    + exists w. by rewrite lookup_alter_ne by congruence.
  - intros mac' [v Hv]. unfold listed, entry_at in *. simpl. destruct (decide (mac = mac')) as [->|Hne].
    + rewrite lookup_alter_eq. destruct (m_map t !! mac') as [[]|]; [|done]. simpl. eauto.
    + rewrite lookup_alter_ne by done. eauto.
Qed.

Lemma has_position_updated lpv entry :
  m_has_position_vector (snd (update_position_vector lpv entry)) || negb (lpv_is_valid lpv) = true.
Proof.
  unfold update_position_vector, set_position_vector.
  destruct (m_has_position_vector entry) eqn:Eh; [destruct (Timestamp_less _ _)|];
    destruct (lpv_is_valid lpv); simpl; by rewrite ?Eh.
Qed.

(** [update] is defined; the source is listed, with a position if the new one is valid. *)
Lemma table_update_ok now lpv t : coherent t ->
  exists t' entry, table_update now lpv t = Some t' /\ coherent t' /\
    entry_at (m_mid (gn_addr lpv)) t' = Some entry /\
    m_has_position_vector entry || negb (lpv_is_valid lpv) = true.
Proof.
  intros Hc. set (mac := m_mid (gn_addr lpv)).
  destruct (refresh_and_write now lpv t Hc) as (tr & Er & Hcr & _ & Har). fold mac in Er, Har.
  assert (exists t' entry, Some tr = Some t' /\ coherent t' /\ entry_at mac t' = Some entry /\
    m_has_position_vector entry || negb (lpv_is_valid lpv) = true) as Hfresh.
  { eexists tr, _. split; [done|]. split; [done|]. split; [|apply has_position_updated].
    eapply entry_at_abs; [done|]. by rewrite Har, decide_True. }
  unfold table_update. fold mac. rewrite get_value_ptr_spec by done. simpl.
  unfold soft_get_value_ptr. destruct (abs t !! mac) as [[en e0]|] eqn:E; simpl; [|by rewrite Er].
  destruct (now >? e0); simpl; [by rewrite Er|]. destruct (m_has_position_vector en) eqn:Eh; [|by rewrite Er].
  pose proof (has_position_updated lpv en) as Hp.
  destruct (update_position_vector lpv en) as [updated en'].
  destruct (write_and_refresh now mac en' (en, e0) updated t Hc E) as (t' & -> & Hc' & _ & Ha).
  exists t', en'. split_and!; try done. eapply entry_at_abs; [done|]. by rewrite Ha, decide_True.
Qed.

Lemma get_entry_ok now mac t : coherent t -> exists r, get_entry now mac t = Some r.
Proof. intros Hc. unfold get_entry. rewrite get_value_ptr_spec by done. eauto. Qed.

Lemma get_position_ok now mac t : coherent t -> exists r, get_position now mac t = Some r.
Proof. intros Hc. rewrite get_position_spec by done. eauto. Qed.

Lemma has_entry_ok now addr t : coherent t -> exists r, has_entry now addr t = Some r.
Proof. intros Hc. unfold has_entry, has_value. rewrite get_value_ptr_spec by done. simpl. eauto. Qed.

End table.

(** * Interfaces *)

(** Sizes of secured messages are sizes of objects in memory, and a deserializer reports
    no more octets than there are. *)
Class SecuredArchiveOk `{SecuredArchive} : Prop := {
  security_get_size_small m : 0 <= security_get_size m < 2 ^ 62;
  v2_deserialize_reads ar n m ar' :
    v2_deserialize ar = (Some (n, m), ar') -> 0 <= n <= size (m_stream_buffer ar);
  v3_deserialize_reads ar n m ar' :
    v3_deserialize ar = (Some (n, m), ar') -> 0 <= n <= size (m_stream_buffer ar);
}.

(** A received packet, or the payload of one: a buffer of octets that fits into memory. *)
Definition received_ok (p : CohesivePacket.CohesivePacket) : Prop :=
  CohesivePacket.cohesive_ok p /\ all_bytes (CohesivePacket.m_buffer p) /\
  size (CohesivePacket.m_buffer p) < 2 ^ 62.

(** The functions of the entity report errors in their results and do not throw; the
    payload of a secured message that was received is one buffer. *)
Class SecurityEntityOk `{SecuredArchive} `{!SecurityEntity} : Prop := {
  encapsulate_returns r e : exists c, fst (encapsulate_packet r e) = Returns c;
  decapsulate_returns m e : exists c p, fst (decapsulate_packet m e) = Returns c /\
    plaintext_payload c = Cohesive p /\ received_ok p;
}.

(** * The invariant *)

Section invariant.
Context `{SA : SecuredArchive} `{!SecurityEntity} `{DccFieldGenerator} `{Random} `{Geodesy} `{PositionUnits}.
Context `{!HeapTop MacAddress} `{!HeapTop CbfPacketIdentifier} `{Allocator}.

(** A packet with which [pass_down] does not throw. *)
Definition sendable {X} (p : Packet X) : Prop :=
  match e_secured p.1 with
  | Some _ => basic_next_header (e_basic p.1) = NextHeaderBasic_Secured /\
              chunk_size_of_layers Transport max_osi_layer p.2 = 0
  | None => basic_next_header (e_basic p.1) <> NextHeaderBasic_Secured
  end.

(** A packet of this router before it is signed, if it is to be. *)
Definition own_packet {X} (mib : MIB) (p : Packet X) : Prop :=
  e_secured p.1 = None /\
  basic_next_header (e_basic p.1)
  = if itsGnSecurity mib then NextHeaderBasic_Secured else NextHeaderBasic_Common.

Definition mac_action_ok (mib : MIB) (action : MacAction) (p : Packet GeoBroadcastHeader) : Prop :=
  match action with
  | SourceTransmit _ => own_packet mib p
  | ForwardTransmit => sendable p
  | Noop => True
  end.

(** A geo-broadcast with an area, of a size that fits into memory. *)
Definition gbc_packet_ok (p : Packet GeoBroadcastHeader) : Prop :=
  is_gbc_type (header_type (e_common p.1)) = true /\ packet_length VGeoBroadcast p < 2 ^ 63.

Definition forwarding_ok (mib : MIB) (p : PendingPacketForwarding) : Prop :=
  gbc_packet_ok (f_packet p) /\ mac_action_ok mib (f_action p) (f_packet p).

Definition pending_ok (mib : MIB) (p : PendingPacket) : Prop :=
  match p with
  | PendingShb packet _ => own_packet mib packet
  | PendingTsb packet => sendable packet
  | PendingGbc packet action =>
      gbc_packet_ok packet /\
      match action with
      | SourceForwarding _ => own_packet mib packet
      | Forwarding _ => sendable packet
      | GreedyForwarding action | Bound action _ => mac_action_ok mib action packet
      end
  end.

(** A request for a transport protocol that the headers can express, and with repetitions
    that are at least a tick of the clock apart. *)
Definition request_ok (v : DataRequestVariant) : Prop :=
  upper_protocol (access_request v) <> Upper_Unknown /\
  match repetition (access_request v) with
  | Some rep => 0 < clock_cast (interval rep)
  | None => True
  end.

(** The callbacks of the repeater in the queue, by the repetition they trigger. *)
Definition trigger_of (c : @ManualRuntime.ScheduledCallback Callback Scope) : option nat :=
  match ManualRuntime.callback c with RepeaterTrigger n => Some n | _ => None end.

Definition triggers (rt : Runtime) : list nat := omap trigger_of (ManualRuntime.m_queue rt).

Definition scope_of (cb : Callback) : Scope :=
  match cb with BeaconTimer => RouterScope | CbfFlush => CbfScope | RepeaterTrigger _ => RepeaterScope end.

(** Every callback of the repeater has its own repetition, of which a step is left; [held]
    is a repetition whose callback is running. *)
Record schedule_ok (held : option nat) (rt : Runtime) (reps : list (nat * RepetitionData)) : Prop := {
  sch_ordered : ManualRuntime.ordered rt;
  sch_scopes : Forall (fun c => ManualRuntime.scope c = scope_of (ManualRuntime.callback c)) (ManualRuntime.m_queue rt);
  sch_nodes : NoDup (map fst reps);
  sch_requests : Forall (fun r => request_ok (r_request (snd r))) reps;
  sch_triggers : NoDup (triggers rt);
  sch_repetitions : Forall (fun n => exists d, (n, d) ∈ reps /\ is_Some (repetition (access_request (r_request d))))
                      (triggers rt);
  sch_held : match held with Some n => n ∈ map fst reps /\ n ∉ triggers rt | None => True end;
}.

Record router_ok (held : option nat) (mib : MIB) (x : Router) : Prop := {
  ok_mib : m_mib x = mib;
  ok_table : coherent (m_location_table x);
  ok_cbf : cbf_ok (m_cbf_buffer x);
  ok_armed : armed (CbfPacketBuffer.m_timers (m_cbf_buffer x)) (m_runtime x);
  ok_contending : Forall (fun p => forwarding_ok mib (cbf_inner (snd p)))
                    (CbfPacketBuffer.m_packets (m_cbf_buffer x));
  ok_stored_packets : Forall (fun node => pending_ok mib (snd node))
                        (PacketBuffer.m_nodes (m_bc_forward_buffer x));
  ok_unicast : PacketBuffer.m_nodes (m_uc_forward_buffer x) = [];
  ok_schedule : schedule_ok held (m_runtime x) (m_repetitions x);
}.

(** What is left alone by sending a packet. *)
Definition same_core (x x' : Router) : Prop :=
  m_mib x' = m_mib x /\ m_runtime x' = m_runtime x /\ m_location_table x' = m_location_table x /\
  m_bc_forward_buffer x' = m_bc_forward_buffer x /\ m_uc_forward_buffer x' = m_uc_forward_buffer x /\
  m_cbf_buffer x' = m_cbf_buffer x /\ m_local_position_vector x' = m_local_position_vector x /\
  m_gbc_memory x' = m_gbc_memory x /\ m_repetitions x' = m_repetitions x /\
  m_local_sequence_number x' = m_local_sequence_number x /\ m_transport_ifcs x' = m_transport_ifcs x.

Lemma same_core_refl x : same_core x x.
Proof. done. Qed.

Lemma same_core_trans x y z : same_core x y -> same_core y z -> same_core x z.
Proof. unfold same_core. intuition congruence. Qed.

Lemma same_core_ok held mib x x' : router_ok held mib x -> same_core x x' -> router_ok held mib x'.
Proof.
  intros [? ? ? ? ? ? ? ?] (E1 & E2 & E3 & E4 & E5 & E6 & _ & _ & E7 & _).
  split; by rewrite ?E1, ?E2, ?E3, ?E4, ?E5, ?E6, ?E7.
Qed.

(** Callbacks of the others are not triggers. *)
Lemma emplace_perm (c : @ManualRuntime.ScheduledCallback Callback Scope) queue :
  ManualRuntime.emplace c queue ≡ₚ c :: queue.
Proof.
  induction queue as [|d queue IH]; simpl; [done|]. destruct (_ <? _); [done|].
  rewrite IH. apply Permutation_swap.
Qed.

Lemma schedule_other_ok held tp cb rt reps : (forall n, cb <> RepeaterTrigger n) ->
  schedule_ok held rt reps -> schedule_ok held (ManualRuntime.schedule_at tp cb (scope_of cb) rt) reps.
Proof.
  intros Hcb [H1' H2' H3' H4' H5' H6' H7'].
  assert (triggers (ManualRuntime.schedule_at tp cb (scope_of cb) rt) ≡ₚ triggers rt) as E.
  { unfold triggers, ManualRuntime.schedule_at. simpl. rewrite emplace_perm. simpl.
    destruct cb; simpl; [done|done|]. by destruct (Hcb rep). }
  split; try done.
  - by apply ManualRuntime.ordered_schedule.
  - unfold ManualRuntime.schedule_at. simpl. rewrite emplace_perm. by constructor.
  - by rewrite E.
  - by rewrite E.
  - destruct held; [|done]. by rewrite E.
Qed.

Lemma schedule_cancel_ok held sc rt reps : sc <> RepeaterScope ->
  schedule_ok held rt reps -> schedule_ok held (ManualRuntime.cancel sc rt) reps.
Proof.
  intros Hsc [H1' H2' H3' H4' H5' H6' H7'].
  assert (triggers (ManualRuntime.cancel sc rt) = triggers rt) as E.
  { unfold triggers, ManualRuntime.cancel. simpl. induction H2' as [|c queue Hc Hq IH]; [done|].
    rewrite filter_cons. destruct (decide _) as [Hn|Hn].
    { cbn. destruct (trigger_of c); [f_equal|]; exact IH. }
    etrans; [exact IH|]. cbn [omap list_omap]. unfold trigger_of at 2. destruct (ManualRuntime.callback c); simpl in *; [done|done|]. destruct Hn. congruence. }
  split; try done.
  - by apply ManualRuntime.ordered_cancel.
  - unfold ManualRuntime.cancel. simpl. rewrite Forall_forall in *.
    intros c [_ Hin]%list_elem_of_filter. auto.
  - by rewrite E.
  - by rewrite E.
  - destruct held; [|done]. by rewrite E.
Qed.

Lemma schedule_cbf_ok held rt rt' reps : same_others rt rt' -> schedule_ok held rt reps -> schedule_ok held rt' reps.
Proof.
  intros (_ & _ & _ & [->|[tp ->]]) Hs; [done|].
  apply (schedule_other_ok held tp CbfFlush); [done|]. by apply schedule_cancel_ok.
Qed.

(** Queueing time changes nothing of this. *)
Lemma sendable_reduced {X} d (p : Packet X) : sendable p -> sendable (snd (packet_reduce_lifetime d p)).
Proof.
  unfold sendable. pose proof (packet_reduce_lifetime_same d p) as (_ & _ & Es & Ep & En & _).
  by rewrite Es, Ep, En.
Qed.

Lemma own_packet_reduced {X} mib d (p : Packet X) :
  own_packet mib p -> own_packet mib (snd (packet_reduce_lifetime d p)).
Proof.
  unfold own_packet. pose proof (packet_reduce_lifetime_same d p) as (_ & _ & Es & _ & En & _).
  by rewrite Es, En.
Qed.

Lemma mac_action_reduced mib d action p :
  mac_action_ok mib action p -> mac_action_ok mib action (snd (packet_reduce_lifetime d p)).
Proof. destruct action; simpl; auto using sendable_reduced, own_packet_reduced. Qed.

Lemma gbc_packet_reduced d p : gbc_packet_ok p -> gbc_packet_ok (snd (packet_reduce_lifetime d p)).
Proof.
  unfold gbc_packet_ok. rewrite packet_length_reduced.
  pose proof (packet_reduce_lifetime_same d p) as (Ec & _). by rewrite Ec.
Qed.

Lemma pending_reduced mib d p : pending_ok mib p -> pending_ok mib (snd (pending_reduce_lifetime d p)).
Proof.
  destruct p as [p c|p|p a]; simpl.
  - intros Hp%(own_packet_reduced mib d). by destruct (packet_reduce_lifetime d p).
  - intros Hp%(sendable_reduced d). by destruct (packet_reduce_lifetime d p).
  - intros [Hg%(gbc_packet_reduced d) Ha].
    assert (match a with
      | SourceForwarding _ => own_packet mib (snd (packet_reduce_lifetime d p))
      | Forwarding _ => sendable (snd (packet_reduce_lifetime d p))
      | GreedyForwarding action | Bound action _ => mac_action_ok mib action (snd (packet_reduce_lifetime d p))
      end) by (destruct a; auto using own_packet_reduced, sendable_reduced, mac_action_reduced).
    by destruct (packet_reduce_lifetime d p).
Qed.

Lemma forwarding_reduced mib d (p : CbfPacket) : forwarding_ok mib (cbf_inner p) ->
  forwarding_ok mib (cbf_inner (snd (cbf_reduce_lifetime d p))).
Proof.
  intros [Hg%(gbc_packet_reduced d) Ha%(mac_action_reduced mib d)]. simpl.
  by destruct (packet_reduce_lifetime d _).
Qed.

End invariant.

(** * Sending *)

Section sending.
Context `{SA : SecuredArchive} `{SE : !SecurityEntity} `{!SecuredArchiveOk} `{!SecurityEntityOk}.
Context `{DccFieldGenerator} `{Random} `{Geodesy} `{PositionUnits}.
Context `{T1 : !HeapTop MacAddress} `{!HeapTopOk MacAddress T1}.
Context `{T2 : !HeapTop CbfPacketIdentifier} `{!HeapTopOk CbfPacketIdentifier T2}.
Context `{A : Allocator} `{!AllocatorOk A}.

(** A packet goes down as it is, with its PDU as the network layer. *)
Lemma wp_pass_down {X} (variant : X -> HeaderVariant) request (p : Packet X) Q x : sendable p ->
  Q () (set_m_events (m_events x ++
    [Requested (m_request_interface x) request
       (set_chunk_layer Network (OfPdu (as_Pdu variant p.1)) p.2)]) x) ->
  wp (pass_down request (as_Pdu variant p.1) p.2) Q x.
Proof.
  unfold sendable, pass_down. intros Hs HQ. apply wp_bind. simpl secured. simpl basic.
  destruct (e_secured p.1).
  - destruct Hs as [-> ->]. simpl. wp_steps. exact HQ.
  - destruct (Z.eqb_spec (basic_next_header (e_basic p.1)) NextHeaderBasic_Secured); [done|].
    wp_steps. exact HQ.
Qed.

Lemma chunk_layers_moved dest source :
  chunk_size_of_layers Transport max_osi_layer (snd (merge dest source Transport max_osi_layer)) = 0.
Proof.
  pose proof (merge_spec dest source Transport max_osi_layer) as Hm.
  destruct (merge dest source Transport max_osi_layer) as [d s]. unfold chunk_size_of_layers, sum_sizes. simpl.
  by rewrite !(proj2 (Hm _)).
Qed.

(** Encapsulation takes the payload out of the packet. *)
Lemma wp_encap_packet aid ssp pdu packet Q x :
  basic_next_header (basic pdu) = NextHeaderBasic_Secured ->
  (forall e, Q None (set_m_security_entity e x)) ->
  (forall e msg packet', chunk_size_of_layers Transport max_osi_layer packet' = 0 ->
    Q (Some (packet', msg)) (set_m_security_entity e x)) ->
  wp (encap_packet aid ssp pdu packet) Q x.
Proof.
  intros Hn H0' H1'. unfold encap_packet. wp_steps. destruct (m_security_entity x) as [e|] eqn:Ee.
  2: { apply wp_ret. replace x with (set_m_security_entity None x) by (destruct x; simpl in *; by subst). auto. }
  destruct (secured_payload pdu packet) as [sp rest] eqn:Es.
  destruct (encapsulate_returns (mk_SignRequest sp aid ssp) e) as [c Hc].
  destruct (encapsulate_packet _ e) as [confirm e']. simpl in Hc. subst confirm. wp_steps.
  eapply wp_lift; [done|]. apply wp_bind, wp_assert.
  { pose proof (chunk_layers_moved (set_chunk_layer Network (OfSecuredPdu (mk_SecuredPdu (common pdu) (extended pdu)))
      make_ChunkPacket) packet) as Hz. unfold secured_payload in Es. rewrite Es in Hz. simpl in Hz. by rewrite Hz. }
  apply wp_bind, wp_assert; [by rewrite Hn|]. apply wp_ret. destruct c; [|auto]. apply H1'.
  pose proof (chunk_layers_moved (set_chunk_layer Network (OfSecuredPdu (mk_SecuredPdu (common pdu) (extended pdu)))
      make_ChunkPacket) packet) as Hz. unfold secured_payload in Es. by rewrite Es in Hz.
Qed.

(** The common part of the source operations hands a sendable packet to its continuation. *)
Lemma wp_secure {X} (variant : X -> HeaderVariant) ctrl (pdu : ExtendedPdu X) payload k Q x :
  own_packet (m_mib x) (pdu, payload) ->
  (forall x', same_core x x' -> Q () x') ->
  (forall pdu' payload' x', same_core x x' -> sendable (pdu', payload') ->
    wp (k pdu' payload') Q x') ->
  wp (secure variant ctrl pdu payload k) Q x.
Proof.
  intros [Hs Hn] HQ Hk. simpl in Hs, Hn. unfold secure. wp_steps. destruct (itsGnSecurity (m_mib x)).
  - apply wp_bind, wp_encap_packet; [done|intros e; apply wp_ret; by apply HQ|].
    intros e msg packet' Hz. apply Hk; [done|]. done.
  - apply Hk; [done|]. unfold sendable. simpl. by rewrite Hs, Hn.
Qed.

Lemma wp_make_request addr profile pdu Q x :
  (forall r, Q r x) -> wp (make_DccDataRequest addr profile pdu) Q x.
Proof. intros HQ. unfold make_DccDataRequest. wp_steps. apply HQ. Qed.

Lemma pass_down_to_ok {X} (variant : X -> HeaderVariant) addr (p : Packet X) x : sendable p ->
  wp (pass_down_to addr (as_Pdu variant p.1) p.2) (fun _ => same_core x) x.
Proof.
  intros Hs. unfold pass_down_to. apply wp_bind, wp_make_request. intros r. by apply wp_pass_down.
Qed.

Lemma wp_media profile Q x : Q () x -> wp (execute_media_procedures profile) Q x.
Proof. by destruct profile. Qed.

Lemma tsb_transmit_ok p x : sendable p -> wp (tsb_transmit p) (fun _ => same_core x) x.
Proof.
  intros Hs. unfold tsb_transmit. wp_steps. apply wp_media. apply wp_bind, wp_make_request. intros r.
  by apply wp_pass_down.
Qed.

Lemma mac_action_ok_wp action p mac x : mac_action_ok (m_mib x) action p ->
  wp (mac_action action p mac) (fun _ => same_core x) x.
Proof.
  intros Ha. destruct action as [ctrl| |]; simpl in *; [| |by wp_steps].
  - wp_steps. destruct p as [pdu payload]. apply wp_bind, wp_assert_when.
    { intros Hb. destruct Ha as [_ Ha]. simpl in *. by rewrite Ha, Hb. }
    apply wp_secure; [done|done|]. intros pdu' payload' x' Hc Hs. apply wp_bind, wp_media.
    eapply wp_mono; [by apply (pass_down_to_ok VGeoBroadcast mac (pdu', payload'))|].
    intros ? x'' Hc'. by eapply same_core_trans.
  - wp_steps. apply wp_media. apply wp_bind, wp_make_request. intros r. by apply wp_pass_down.
Qed.

End sending.

(** * Forwarding algorithms *)

Section forwarding.
Context `{SA : SecuredArchive} `{SE : !SecurityEntity} `{!SecuredArchiveOk} `{!SecurityEntityOk}.
Context `{DccFieldGenerator} `{Random} `{Geodesy} `{PositionUnits}.
Context `{T1 : !HeapTop MacAddress} `{!HeapTopOk MacAddress T1}.
Context `{T2 : !HeapTop CbfPacketIdentifier} `{!HeapTopOk CbfPacketIdentifier T2}.
Context `{A : Allocator} `{!AllocatorOk A}.
Context (held : option nat) (mib : MIB).

Definition keeps {X} (m : router X) : Prop := forall x, router_ok held mib x -> wp m (fun _ => router_ok held mib) x.

Lemma cbf_remove_keeps id : keeps (cbf_remove id).
Proof.
  intros x Hok. pose proof Hok as [Hm Ht Hc Ha Hf Hb Hu Hsch]. unfold wp, cbf_remove.
  destruct (remove_ok id _ _ Hc Ha) as (b' & rt' & -> & Hc' & Ho & Ha' & _ & Hp & _).
  split; simpl; try done; [|by eapply schedule_cbf_ok]. rewrite Hp. rewrite Forall_forall in *.
  intros p [_ Hin]%list_elem_of_filter. by apply Hf.
Qed.

Lemma cbf_add_keeps p timeout : forwarding_ok mib (cbf_inner p) -> keeps (cbf_add p timeout).
Proof.
  intros Hp x Hok. pose proof Hok as [Hm Ht Hc Ha Hf Hb Hu Hsch]. unfold wp, cbf_add.
  destruct (add_ok (D := CbfPacketData) p timeout _ _ Hc Ha) as (b' & rt' & -> & Hc' & Ho & Ha' & _ & _ & dropped & kept & Hps & Hcase).
  { apply Hp. }
  split; simpl; try done; [|by eapply schedule_cbf_ok]. rewrite Hps in Hf. apply Forall_app in Hf as [_ Hf].
  destruct (timeout <=? 0); [destruct Hcase as [_ ->]; done|].
  destruct Hcase as [_ Hcase]. destruct (bool_decide _); [by rewrite Hcase|].
  destruct Hcase as [info ->]. apply Forall_app_2; [exact Hf|]. constructor; [exact Hp|constructor].
Qed.

Lemma cbf_update_keeps id timeout : keeps (cbf_update id timeout).
Proof.
  intros x Hok. pose proof Hok as [Hm Ht Hc Ha Hf Hb Hu Hsch]. unfold wp, cbf_update.
  destruct (update_ok id timeout _ _ Hc Ha) as (b' & -> & Hc' & Ha' & _ & _ & Hp).
  split; simpl; try done. rewrite Forall_forall in *. intros p' [Hin|(p & d & Hin & E)]%Hp; [by apply Hf|].
  exact (eq_ind_r (fun q => forwarding_ok mib (cbf_inner q)) (forwarding_reduced mib d _ (Hf p Hin)) E).
Qed.

Lemma wp_cbf_counter id (Q : Z -> Router -> Prop) x : router_ok held mib x -> (forall n, Q n x) -> wp (cbf_counter id) Q x.
Proof.
  intros Hok HQ. unfold cbf_counter. wp_steps. unfold CbfPacketBuffer.counter.
  destruct (counter_value_ok (ManualRuntime.m_now (m_runtime x)) id _ (ok_counter _ (ok_cbf _ _ _ Hok))) as [n Hn].
  by eapply wp_defined.
Qed.

Lemma wp_cbf_find id (Q : option CbfPacket -> Router -> Prop) x :
  router_ok held mib x -> (forall p, Q p x) -> wp (cbf_find id) Q x.
Proof.
  intros Hok HQ. unfold cbf_find. wp_steps. unfold CbfPacketBuffer.find.
  destruct (CbfPacketBuffer.find_timer id _) as [t|] eqn:Hf; [|by eapply wp_defined].
  destruct (linked_find _ _ _ _ (ok_linked _ (ok_cbf _ _ _ Hok)) Hf) as (p & Hp & _).
  eapply wp_defined; [by rewrite Hp|done].
Qed.

Lemma wp_get_position mac (Q : option LongPositionVector -> Router -> Prop) x :
  router_ok held mib x -> (forall p, Q p x) -> wp (get_position_of mac) Q x.
Proof.
  intros Hok HQ. unfold get_position_of, of_table. wp_steps.
  destruct (get_position_ok (ManualRuntime.m_now (m_runtime x)) mac _ (ok_table _ _ _ Hok)) as [r Hr].
  by eapply wp_defined.
Qed.

Lemma wp_timeout_cbf from (Q : double -> Router -> Prop) x :
  router_ok held mib x -> (forall d, Q d x) -> wp (timeout_cbf from) Q x.
Proof.
  intros Hok HQ. unfold timeout_cbf. wp_steps. apply wp_get_position; [done|]. intros p. by wp_steps.
Qed.

Lemma wp_outside from forwarder (Q : bool -> Router -> Prop) x :
  router_ok held mib x -> (forall b, Q b x) -> wp (outside_sectorial_contention_area from forwarder) Q x.
Proof.
  intros Hok HQ. unfold outside_sectorial_contention_area.
  apply wp_bind, wp_get_position; [done|]. intros p. apply wp_bind, wp_get_position; [done|]. intros q.
  by wp_steps.
Qed.

Lemma buffer_push_keeps p : pending_ok mib p -> keeps (buffer_push p).
Proof.
  intros Hp x Hok. unfold buffer_push. wp_steps. destruct Hok as [Hm Ht Hc Ha Hf Hb Hu Hsch]. split; simpl; try done.
  rewrite Forall_forall in *. intros n Hn.
  destruct (PacketBuffer.push_incl (D := PendingPacketBufferData) _ _ _ _ Hn) as [Hin|E]; [by apply Hb|].
  exact (eq_ind_r (pending_ok mib) (pending_reduced mib 0 p Hp) E).
Qed.

Definition nh_ok (nh : NextHop) : Prop :=
  match nh with Valid p _ => forwarding_ok mib p | _ => True end.

(** A member function that decides about a packet. *)
Definition decides (m : router NextHop) : Prop :=
  forall x, router_ok held mib x -> wp m (fun nh x' => router_ok held mib x' /\ nh_ok nh) x.

Lemma wp_keeps {X} (m : router X) (Q : X -> Router -> Prop) x : keeps m -> router_ok held mib x ->
  (forall a x', router_ok held mib x' -> Q a x') -> wp m Q x.
Proof. intros Hm Hok HQ. eapply wp_mono; [by apply Hm|]. auto. Qed.

Lemma greedy_decides p : forwarding_ok mib p -> decides (greedy_forwarding p).
Proof.
  intros Hp x Hok. unfold greedy_forwarding, of_table. wp_steps.
  destruct (closest_neighbour _ _ _) as [addr dist]. destruct (dlt _ _); [by wp_steps|].
  destruct (store_carry_forward _); [|by wp_steps].
  apply wp_bind. eapply wp_keeps; [by apply buffer_push_keeps|done|]. intros _ x' Hok'. by wp_steps.
Qed.

Lemma non_area_decides p from : forwarding_ok mib p -> decides (non_area_contention_based_forwarding p from).
Proof.
  intros Hp x Hok. unfold non_area_contention_based_forwarding. destruct from as [from|]; [|by wp_steps].
  apply wp_bind. eapply wp_keeps; [apply cbf_remove_keeps|done|]. intros [] x1 Hok1; [by wp_steps|].
  destruct (gbc_destination_returns _ (forwarding_header p) (proj1 (proj1 Hp))) as [s Hs].
  apply wp_bind. eapply wp_lift; [exact Hs|]. wp_steps. apply wp_get_position; [done|]. intros pv.
  assert (forall t, decides (_ ← cbf_add (mk_CbfPacket p from) t; mret Buffered)) as Hadd.
  { intros t y Hy. apply wp_bind. eapply wp_keeps; [by apply cbf_add_keeps|done|]. intros _ y' Hy'. by wp_steps. }
  destruct pv as [pv|]; [|by apply Hadd]. destruct (position_accuracy_indicator pv); [|by apply Hadd].
  destruct (dgt _ _); [by apply Hadd|by wp_steps].
Qed.

Lemma area_decides p from : forwarding_ok mib p -> decides (area_contention_based_forwarding p from).
Proof.
  intros Hp x Hok. unfold area_contention_based_forwarding. destruct from as [from|]; [|by wp_steps].
  assert (keeps (cbf_stop (gbc_identifier (forwarding_header p)))) as Hstop.
  { intros y Hy. unfold cbf_stop. apply wp_bind. eapply wp_keeps; [apply cbf_remove_keeps|done|].
    intros [] y' Hy'; [by wp_steps|]. wp_steps. apply wp_cbf_counter; [done|]. intros n. by wp_steps. }
  apply wp_bind. eapply wp_keeps; [exact Hstop|done|]. intros [] x1 Hok1; [by wp_steps|].
  apply wp_bind, wp_timeout_cbf; [done|]. intros d.
  apply wp_bind. eapply wp_keeps; [by apply cbf_add_keeps|done|]. intros _ y' Hy'. by wp_steps.
Qed.

Lemma advanced_buffered_decides id cbf ll : decides (advanced_buffered id cbf ll).
Proof.
  intros x Hok. unfold advanced_buffered. wp_steps. apply wp_cbf_counter; [done|]. intros n.
  assert (decides (_ ← cbf_remove id; mret Discarded)) as Hrem.
  { intros y Hy. apply wp_bind. eapply wp_keeps; [apply cbf_remove_keeps|done|]. intros _ y' Hy'. by wp_steps. }
  destruct (_ >=? _); [by apply Hrem|]. apply wp_bind, wp_outside; [done|]. intros b.
  destruct (negb b); [by apply Hrem|]. apply wp_bind, wp_timeout_cbf; [done|]. intros d.
  apply wp_bind. eapply wp_keeps; [apply cbf_update_keeps|done|]. intros _ y' Hy'. by wp_steps.
Qed.

Lemma duplicate_forwarding_ok p : forwarding_ok mib p -> forwarding_ok mib (duplicate_forwarding p).
Proof.
  destruct p as [[pdu payload] action]. intros [[Ht Hl] Ha].
  unfold duplicate_forwarding, packet_duplicate. simpl in *.
  destruct (e_secured pdu) as [m|] eqn:Es.
  2: { split; [split; [done|]|]; simpl.
       - unfold packet_length, chunk_size_of_layers in *. cbn [snd fst] in *. by rewrite sum_sizes_copy.
       - destruct action; simpl in *; [done| |done]. unfold sendable in *. simpl in *. by rewrite Es in *. }
  split; [split; [done|]|]; simpl.
  - unfold packet_length, Pdu_get_length. simpl. rewrite Es.
    pose proof (security_get_size_small m).
    change (chunk_size_of_layers Transport max_osi_layer make_ChunkPacket) with 0.
    unfold BasicHeader_length_bytes. rewrite (wrap_id 64); lia.
  - destruct action; simpl in *; [| |done].
    2: { unfold sendable in *. simpl in *. rewrite Es in Ha |- *. by destruct Ha. }
    destruct Ha as [Ha _]. simpl in Ha. congruence.
Qed.

Lemma advanced_new_decides p ll : forwarding_ok mib p -> decides (advanced_new p ll).
Proof.
  intros Hp x Hok. unfold advanced_new. wp_steps. case_bool_decide.
  - apply wp_bind. eapply wp_mono; [apply greedy_decides; [by apply duplicate_forwarding_ok|done]|].
    intros nh x1 [Hok1 Hnh]. apply wp_bind. eapply wp_keeps; [|done|].
    + apply cbf_add_keeps. destruct nh as [q mac| |]; [|done..]. case_bool_decide; [|done]. by destruct Hp.
    + intros _ x2 Hok2. by wp_steps.
  - apply wp_bind, wp_timeout_cbf; [done|]. intros d.
    apply wp_bind. eapply wp_keeps; [by apply cbf_add_keeps|done|]. intros _ y' Hy'. by wp_steps.
Qed.

Lemma area_advanced_decides p ll : forwarding_ok mib p -> decides (area_advanced_forwarding p ll).
Proof.
  intros Hp x Hok. unfold area_advanced_forwarding. destruct ll as [ll|]; [|by wp_steps].
  destruct (gbc_destination_returns _ (forwarding_header p) (proj1 (proj1 Hp))) as [s Hs].
  apply wp_bind. eapply wp_lift; [exact Hs|]. apply wp_bind, wp_cbf_find; [done|]. intros [cbf|].
  - by apply advanced_buffered_decides.
  - by apply advanced_new_decides.
Qed.

Lemma selection_decides p ll : forwarding_ok mib p -> decides (forwarding_algorithm_selection p ll).
Proof.
  intros Hp x Hok. unfold forwarding_algorithm_selection.
  destruct (gbc_destination_returns _ (forwarding_header p) (proj1 (proj1 Hp))) as [s Hs].
  apply wp_bind. eapply wp_lift; [exact Hs|]. wp_steps.
  destruct (inside_or_at_border _ _).
  - destruct (itsGnAreaForwardingAlgorithm _); [by wp_steps|by wp_steps|by apply area_decides|by apply area_advanced_decides].
  - apply wp_bind. assert (forall (Q : option LongPositionVector -> Router -> Prop), (forall pv, Q pv x) ->
      wp (match ll with Some ll => get_position_of (sender ll) | None => mret None end) Q x) as Hpv.
    { intros Q HQ. destruct ll; [by apply wp_get_position|by wp_steps]. }
    apply Hpv. intros pv. destruct (match pv with Some _ => _ | None => _ end).
    + unfold forwarding_stopped, emit. wp_steps. split; [|done]. by eapply same_core_ok.
    + destruct (itsGnNonAreaForwardingAlgorithm _); [by apply greedy_decides..|by apply non_area_decides].
Qed.

(** * Processing *)

Lemma nh_process_keeps m : decides m -> keeps (nh ← m; _ ← nh_process nh; mret ()).
Proof.
  intros Hm x Hok. apply wp_bind. eapply wp_mono; [by apply Hm|]. intros nh x1 [Hok1 Hnh].
  unfold nh_process. destruct nh as [p mac| |]; [|by wp_steps..].
  apply wp_bind, wp_bind. eapply wp_mono.
  - apply mac_action_ok_wp. rewrite (ok_mib _ _ _ Hok1). apply Hnh.
  - intros ? x2 Hc. wp_steps. by eapply same_core_ok.
Qed.

Lemma same_core_keeps {X} (m : router X) :
  (forall x, router_ok held mib x -> wp m (fun _ => same_core x) x) -> keeps m.
Proof.
  intros Hm x Hok. eapply wp_mono; [by apply Hm|]. intros ? x' Hc. by eapply same_core_ok.
Qed.

Lemma reset_beacon_after_keeps d : keeps (reset_beacon_timer_after d).
Proof.
  intros x Hok. unfold reset_beacon_timer_after. wp_steps. destruct Hok as [Hm Ht Hc Ha Hf Hb Hu Hsch].
  split; try done; cbn [m_runtime set_m_runtime m_cbf_buffer].
  2: { apply (schedule_other_ok held _ BeaconTimer); [done|]. by apply schedule_cancel_ok. }
  unfold armed, scheduled, ManualRuntime.schedule_after in *.
  rewrite ManualRuntime.deadlines_schedule_other by done.
  by rewrite ManualRuntime.deadlines_cancel, decide_False.
Qed.

Lemma reset_beacon_keeps : keeps reset_beacon_timer.
Proof.
  intros x Hok. unfold reset_beacon_timer. wp_steps. unfold draw_real, wp at 1.
  destruct (uniform_real _) as [r g]. apply reset_beacon_after_keeps. by eapply same_core_ok.
Qed.

Lemma shb_transmit_keeps ctrl p : own_packet mib p -> keeps (shb_transmit ctrl p).
Proof.
  intros Hp x Hok. unfold shb_transmit. wp_steps. destruct p as [pdu payload].
  apply wp_secure; [by rewrite (ok_mib _ _ _ Hok)| |].
  - intros x' Hc. by eapply same_core_ok.
  - intros pdu' payload' x' Hc Hs. apply wp_bind, wp_media. apply wp_bind.
    eapply wp_mono; [by apply (pass_down_to_ok VShb cBroadcastMacAddress (pdu', payload'))|].
    intros ? x'' Hc'. apply reset_beacon_keeps. eapply same_core_ok; [done|]. by eapply same_core_trans.
Qed.

Lemma process_keeps p : pending_ok mib p -> keeps (process p).
Proof.
  destruct p as [p ctrl|p|p action]; simpl.
  - apply shb_transmit_keeps.
  - intros Hs. apply same_core_keeps. intros x _. by apply tsb_transmit_ok.
  - intros [Hg Ha]. destruct action as [ctrl|ll|action|action mac]; cbn [gbc_action].
    + by apply nh_process_keeps, selection_decides.
    + by apply nh_process_keeps, selection_decides.
    + by apply nh_process_keeps, greedy_decides.
    + apply same_core_keeps. intros x Hok. apply mac_action_ok_wp. by rewrite (ok_mib _ _ _ Hok).
Qed.

Lemma flush_broadcast_keeps : keeps flush_broadcast_forwarding_buffer.
Proof.
  intros x Hok. unfold flush_broadcast_forwarding_buffer. wp_steps.
  pose proof (ok_stored_packets _ _ _ Hok) as Hb. rewrite Forall_forall in Hb.
  apply wp_for_each.
  - destruct Hok as [Hm Ht Hc Ha Hf _ Hu Hsch]. by split.
  - intros node y Hin Hy. unfold flush_node. destruct (PacketBuffer.is_expired _ _); [by wp_steps|].
    apply process_keeps; [|done]. apply pending_reduced. by apply Hb.
Qed.

Lemma wp_flush_unicast addr (Q : unit -> Router -> Prop) x : router_ok held mib x ->
  (forall y, same_core (set_m_uc_forward_buffer (m_uc_forward_buffer y) x) y -> router_ok held mib y -> Q () y) ->
  wp (flush_unicast_forwarding_buffer addr) Q x.
Proof.
  intros Hok HQ. unfold flush_unicast_forwarding_buffer. wp_steps. rewrite (ok_unicast _ _ _ Hok). simpl.
  apply wp_ret, HQ; [done|]. destruct Hok. by split.
Qed.

(** * The timer of contention-based forwarding *)

Lemma flushed_from t expired (b : CbfPacketBuffer.CbfPacketBuffer) (p : CbfPacket) :
  p ∈ flushed t expired (CbfPacketBuffer.m_packets b) ->
  exists q d, q ∈ CbfPacketBuffer.m_packets b /\ p = snd (cbf_reduce_lifetime d (snd q)).
Proof.
  unfold flushed. rewrite list_elem_of_omap. intros (timer & _ & Hp).
  unfold CbfPacketBuffer.packet_at in Hp.
  destruct (list_find _ _) as [[i q]|] eqn:Eq; [|done]. simpl in Hp.
  apply list_find_Some in Eq as (Hq & _ & _). apply list_elem_of_lookup_2 in Hq.
  exists q, (t - CbfPacketBuffer.start (CbfPacketBuffer.t_timer timer)). split; [done|].
  unfold CbfPacketBuffer.reduce_lifetime in Hp. simpl in *.
  destruct (packet_reduce_lifetime _ _) as [remaining r]. destruct (remaining >? 0); by simplify_eq.
Qed.

(** The scheduler after a flush at [now]: at most the timer of the buffer is set anew. *)
Definition rearmed (rt rt' : Runtime) : Prop :=
  rt' = rt \/ exists tp, ManualRuntime.m_now rt < tp /\
    rt' = ManualRuntime.schedule_at tp CbfFlush CbfScope (ManualRuntime.cancel CbfScope rt).

Lemma flush_reschedule_armed (b : CbfPacketBuffer.CbfPacketBuffer) (rt : Runtime) :
  by_expiry (CbfPacketBuffer.m_timers b) -> (length (ManualRuntime.deadlines CbfScope rt) <= 1)%nat ->
  Forall (fun t => ManualRuntime.m_now rt < CbfPacketBuffer.t_expiry t) (CbfPacketBuffer.m_timers b) ->
  exists rt', CbfPacketBuffer.flush_reschedule b rt = Some rt' /\ armed (CbfPacketBuffer.m_timers b) rt' /\
    same_others rt rt' /\ rearmed rt rt'.
Proof.
  intros Hs Hl Hall. unfold CbfPacketBuffer.flush_reschedule. case_bool_decide as E.
  - exists rt. rewrite E. split_and!; [done| |done|by left]. split; [done|by left].
  - destruct (schedule_timer_ok _ rt E Hs) as (rt' & Hst & Ho & Ht).
    exists rt'. split_and!; [done|by apply timely_armed|done|]. right.
    unfold CbfPacketBuffer.schedule_timer in Hst. destruct (CbfPacketBuffer.m_timers b) as [|t ts]; [done|].
    simplify_eq/=. inversion Hall; subst. eauto.
Qed.

Lemma cbf_callback_ok p x w : m_mib x = mib -> same_core x w.2 -> forwarding_ok mib (cbf_inner p) ->
  fst (cbf_callback p w) = true /\ same_core x (snd (cbf_callback p w)).2.
Proof.
  intros Hm Hw [_ Hp]. unfold cbf_callback.
  pose proof (mac_action_ok_wp (f_action (cbf_inner p)) (f_packet (cbf_inner p)) cBroadcastMacAddress w.2) as Hwp.
  rewrite (proj1 Hw), Hm in Hwp. apply Hwp, wp_returns in Hp as (a & x' & -> & Hc).
  simpl. split; [done|]. by eapply same_core_trans.
Qed.

(** The callback was taken out of the queue before it is called. *)
Lemma flush_cbf_ok x rt : router_ok held mib (set_m_runtime rt x) ->
  (length (ManualRuntime.deadlines CbfScope (m_runtime x)) <= 1)%nat ->
  schedule_ok held (m_runtime x) (m_repetitions x) ->
  wp flush_cbf_buffer (fun _ x' => router_ok held mib x' /\ rearmed (m_runtime x) (m_runtime x')) x.
Proof.
  intros Hok Hl Hsch'. pose proof Hok as [Hm Ht Hc Ha Hf Hb Hu Hsch]. unfold wp, flush_cbf_buffer.
  set (t := ManualRuntime.m_now (m_runtime x)).
  destruct (expired_timers_split t (CbfPacketBuffer.m_timers (m_cbf_buffer x))) as (rest & Hts & Hall & _); [apply Hc|].
  destruct (flush_loop_ok (D := CbfPacketData) cbf_callback (fun w => same_core x w.2) t
    (CbfPacketBuffer.expired_timers t (CbfPacketBuffer.m_timers (m_cbf_buffer x))) rest (m_cbf_buffer x) (Returns (), x))
    as (b' & [o x'] & -> & Hc' & Hts' & _ & Hsame & _ & Hps); [done|done|done| |].
  { intros p w Hp Hw. apply cbf_callback_ok; [done|done|]. destruct (flushed_from _ _ _ _ Hp) as (q & d & Hq & ->).
    apply forwarding_reduced. rewrite Forall_forall in Hf. by apply (Hf q). }
  pose proof Hsame as (E1 & E2 & E3 & E4 & E5 & E6 & _ & _ & E7 & _). simpl in E1, E2, E3, E4, E5, E6, E7.
  cbn [m_runtime set_m_cbf_buffer]. rewrite E2.
  destruct (flush_reschedule_armed b' (m_runtime x)) as (rt' & -> & Ha' & Ho & Hr); [apply Hc'|done|by rewrite Hts'|].
  split; [|done]. split; cbn [m_mib m_location_table m_cbf_buffer m_runtime m_bc_forward_buffer m_uc_forward_buffer
    m_repetitions set_m_runtime set_m_cbf_buffer]; rewrite ?E1, ?E3, ?E4, ?E5, ?E7; try done;
    [|by eapply schedule_cbf_ok].
  rewrite Hps. rewrite Forall_forall in *. intros p [_ Hin]%list_elem_of_filter. by apply Hf.
Qed.

End forwarding.
