(* ===== verification/RouterIndicateOk.v ===== *)
(** * Reception keeps the invariant of the router

    What the contexts promise while a received packet is parsed, and that [indicate]
    returns for every packet. *)

From Stdlib Require Import ZArith Lia.
From stdpp Require Import prelude strings gmap.
From S2P Require Import Prelude GeoSerial GeoHeaders GeoHeadersOk GeoPdu GeoPduOk Double Asn1Wrapper Runtime NetPackets.
From S2P Require Import GeoArea GeoRequest GeoContainers SoftState CbfBuffer CbfBufferOk LocationTable LocationTheorems.
From S2P Require Import GeoPending GeoIndication RouterState RouterForward RouterIndicate Router RouterOk.

Open Scope Z_scope.

(** * Contexts *)

Section contexts.
Context `{SA : SecuredArchive} `{!SecuredArchiveOk}.

(** A parser of [n] octets of which some were read. *)
Definition parser_ok (n : Z) (p : Parser) : Prop :=
  all_bytes (m_stream_buffer (m_archive p)) /\ 0 <= parsed_bytes p /\
  parsed_bytes p + size (m_stream_buffer (m_archive p)) <= n.

(** A context whose packet can be finished: the boundary is within the network layer. *)
Definition finishable (k : ContextKind) : Prop :=
  match k with
  | Deserialize p parser =>
      received_ok p /\ 0 <= parsed_bytes parser <= size (CohesivePacket.layer Network p)
  | _ => False
  end.

Definition kind_ok (k : ContextKind) : Prop :=
  match k with
  | Deserialize p parser => received_ok p /\ parser_ok (size (CohesivePacket.layer Network p)) parser
  | SecuredDeserialize parent p parser =>
      finishable parent /\ received_ok p /\ parser_ok (size (CohesivePacket.layer Network p)) parser
  | _ => False
  end.

(** The basic header says whether the packet is secured. *)
Definition pdu_ok (p : Pdu) : Prop :=
  is_uint 1 (hop_limit (basic p)) /\
  match secured p with
  | Some _ => basic_next_header (basic p) = NextHeaderBasic_Secured
  | None => basic_next_header (basic p) <> NextHeaderBasic_Secured
  end.

Lemma layer_bytes l p : received_ok p -> all_bytes (CohesivePacket.layer l p).
Proof. intros (_ & Hb & _). unfold CohesivePacket.layer, CohesivePacket.get. auto with asn. Qed.

Lemma make_parser_ok s : all_bytes s -> parser_ok (size s) (make_Parser s).
Proof. intros Hs. unfold parser_ok. simpl. split_and!; [done|lia|lia]. Qed.

Lemma kind_finishable k p parser : kind_ok k -> k = Deserialize p parser -> finishable k.
Proof. intros Hk ->. destruct Hk as (H1 & _ & H2 & H3). split; [done|]. pose proof (size_nonneg (m_stream_buffer (m_archive parser))). lia. Qed.

(** Every parser of headers leaves a parser of the same octets. *)
Lemma read_header_ok {X} (serialize : X -> bytes) n wf s e before (res : Z * X * Parser) total : 0 < n ->
  all_bytes s -> 0 <= before -> before + size s <= total ->
  read_header serialize n wf s e before res ->
  parser_ok total (snd res) /\ (fst (fst res) > 0 -> wf (snd (fst res))).
Proof.
  intros Hn Hs Hb Ht Hr. destruct res as [[m x] p]. unfold parser_ok. simpl in *.
  pose proof (size_nonneg s).
  destruct Hr as [(-> & Hle & Hw & _ & ->)|(-> & _ & ->)]; simpl.
  - rewrite size_zdrop by lia. split; [|done]. split_and!; [auto with asn|unfold parsed_bytes; simpl; lia..].
  - split; [|lia]. unfold parsed_bytes. simpl. change (size []) with 0. split_and!; [by apply Forall_nil|lia..].
Qed.

Lemma parse_common_ok x0 p total : parser_ok total p ->
  let '(m, c, p') := parse_common x0 p in parser_ok total p' /\ (m > 0 -> wf_CommonHeader c).
Proof.
  destruct p as [[s e] before]. intros (Hs & Hb & Ht). unfold parsed_bytes in *. simpl in *.
  pose proof (read_header_ok _ CommonHeader_length_bytes _ _ _ _ (parse_common x0 (mk_Parser (mk_archive s e) before)) total
    ltac:(done) Hs Hb Ht (parse_common_spec x0 s e before Hs)) as Hr.
  by destruct (parse_common _ _) as [[m c] p'].
Qed.

Lemma parse_basic_ok x0 p total : parser_ok total p ->
  let '(m, c, p') := parse_basic x0 p in parser_ok total p' /\ (m > 0 -> wf_BasicHeader c).
Proof.
  destruct p as [[s e] before]. intros (Hs & Hb & Ht). unfold parsed_bytes in *. simpl in *.
  pose proof (read_header_ok _ BasicHeader_length_bytes _ _ _ _ (parse_basic x0 (mk_Parser (mk_archive s e) before)) total
    ltac:(done) Hs Hb Ht (parse_basic_spec x0 s e before Hs)) as Hr.
  by destruct (parse_basic _ _) as [[m c] p'].
Qed.

Lemma parse_extended_ok x0 ht p total : parser_ok total p ->
  let '(m, h, p') := parse_extended x0 ht p in parser_ok total p' /\ (m > 0 -> fits_type ht h).
Proof.
  destruct p as [[s e] before]. intros (Hs & Hb & Ht). unfold parsed_bytes in *. simpl in *.
  pose proof (parse_extended_spec x0 ht s e before Hs) as Hr. pose proof (size_nonneg s).
  assert (forall m, 0 <= m <= size s -> parser_ok total (mk_Parser (mk_archive (zdrop m s) e) (before + m))) as Hok.
  { intros m Hm. unfold parser_ok, parsed_bytes. simpl. rewrite size_zdrop by lia. split_and!; [auto with asn|lia..]. }
  destruct (extended_length ht) as [n|] eqn:El.
  - assert (0 < n) by (unfold extended_length in El; repeat case_match; simplify_eq; lia).
    destruct Hr as [(Hn & h & _ & Hf & _ & _ & ->)|(Hn & ->)].
    + split; [apply Hok; lia|done].
    + split; [|lia]. unfold parser_ok, parsed_bytes. simpl. change (size []) with 0. split_and!; [by apply Forall_nil|lia..].
  - rewrite Hr. split; [|lia]. unfold parser_ok, parsed_bytes. simpl. split_and!; [done|lia..].
Qed.

(** Only the parsed octets matter of the parser of a secured packet. *)
Lemma parse_secured_ok p total : parser_ok total p ->
  let '(m, msg, p') := parse_secured None p in 0 <= parsed_bytes p' <= total.
Proof.
  destruct p as [[s e] before]. intros (Hs & Hb & Ht). unfold parsed_bytes in *. simpl in *.
  pose proof (size_nonneg s). unfold parse_secured. destruct (is_good _); [|simpl; lia].
  unfold peek_byte. cbn [m_archive m_stream_buffer m_read_bytes].
  destruct s as [|b s]; [simpl; lia|].
  destruct (b <? 3); [|destruct (b =? 3); [|simpl; lia]].
  - destruct (v2_deserialize _) as [[[n m]|] ar'] eqn:E; simpl; [|lia].
    apply v2_deserialize_reads in E. simpl in E. lia.
  - destruct (v3_deserialize _) as [[[n m]|] ar'] eqn:E; simpl; [|lia].
    apply v3_deserialize_reads in E. simpl in E. lia.
Qed.

(** [finish] gives a packet of octets, of which the network layer was parsed. *)
Lemma set_boundary_received n p : received_ok p -> 0 <= n <= size (CohesivePacket.layer Network p) ->
  exists p', CohesivePacket.set_boundary Network n p = Some p' /\ received_ok p'.
Proof.
  intros (Hc & Hb & Hs) Hn. rewrite CohesivePacket.layer_size in Hn by done.
  destruct (CohesivePacket.set_boundary_ok Network n p Hc Hn) as (p' & E & Hc' & _).
  exists p'. split; [done|]. unfold CohesivePacket.set_boundary in E.
  destruct (_ >=? _); [|done]. simplify_eq. by split_and!.
Qed.

Lemma finish_finishable n k : 0 <= n -> finishable k ->
  exists p, finish_kind n k = Some (Cohesive p) /\ received_ok p.
Proof.
  intros Hn. destruct k as [p parser| | |]; [|done..]. intros [Hr Hp]. simpl.
  destruct (set_boundary_received _ p Hr Hp) as (p' & -> & Hc & Hb & Hs). simpl. eexists. split; [done|].
  destruct (CohesivePacket.trim_ok Transport n p' Hc Hn) as (Hc' & _ & E & _). split_and!; [done|by rewrite E..].
Qed.

Lemma finish_ok n k : 0 <= n -> kind_ok k ->
  exists p, finish_kind n k = Some (Cohesive p) /\ received_ok p.
Proof.
  intros Hn. destruct k as [p parser| |parent p parser|]; simpl; [|done| |done].
  - intros Hk. apply (finish_finishable n (Deserialize p parser)); [done|]. by eapply kind_finishable.
  - intros (Hpar & Hr & _ & Hp1 & Hp2). pose proof (size_nonneg (m_stream_buffer (m_archive parser))).
    destruct (set_boundary_received (parsed_bytes parser) p Hr) as (p' & -> & Hr'); [lia|]. simpl.
    destruct (finish_finishable n parent Hn Hpar) as (q & -> & _). simpl. eauto.
Qed.

End contexts.

(** * Extended headers *)

Section indicate.
Context `{SA : SecuredArchive} `{SE : !SecurityEntity} `{!SecuredArchiveOk} `{!SecurityEntityOk}.
Context `{DccFieldGenerator} `{Random} `{Geodesy} `{PositionUnits}.
Context `{T1 : !HeapTop MacAddress} `{!HeapTopOk MacAddress T1}.
Context `{T2 : !HeapTop CbfPacketIdentifier} `{!HeapTopOk CbfPacketIdentifier T2}.
Context `{A : Allocator} `{!AllocatorOk A}.
Context (held : option nat) (mib : MIB).

(** The invariant, with an entry for a station. *)
Definition knows (mac : MacAddress) (x : Router) : Prop :=
  router_ok held mib x /\ listed mac (m_location_table x).

Lemma set_table_ok x t : router_ok held mib x -> coherent t -> router_ok held mib (set_m_location_table t x).
Proof. intros [Hm Ht Hc Ha Hf Hb Hu Hsch] Hco. by split. Qed.

Lemma wp_update_location pv (Q : unit -> Router -> Prop) x : router_ok held mib x ->
  (forall t entry, coherent t -> entry_at (m_mid (gn_addr pv)) t = Some entry ->
    m_has_position_vector entry || negb (lpv_is_valid pv) = true ->
    Q () (set_m_location_table t x)) ->
  wp (update_location pv) Q x.
Proof.
  intros Hok HQ. unfold update_location, wp, on_table.
  destruct (table_update_ok (ManualRuntime.m_now (m_runtime x)) pv _ (ok_table _ _ _ Hok)) as (t & entry & -> & Hc & He & Hp).
  simpl. by eapply HQ.
Qed.

Lemma on_entry_knows mac mac' f x : knows mac x -> wp (on_entry mac' f) (fun _ => knows mac) x.
Proof.
  intros [Hok Hl]. unfold on_entry, wp, on_table.
  destruct (modify_entry_ok mac' f _ (ok_table _ _ _ Hok)) as [Hc Hk].
  split; [by apply set_table_ok|]. simpl. by apply Hk.
Qed.

Lemma update_pdr_knows mac mac' packet x : knows mac x ->
  wp (update_source_pdr mac' packet) (fun _ => knows mac) x.
Proof. intros Hk. unfold update_source_pdr. wp_steps. by apply on_entry_knows. Qed.

Lemma mark_neighbour_knows mac mac' x : knows mac x -> wp (mark_neighbour mac') (fun _ => knows mac) x.
Proof. intros Hk. unfold mark_neighbour. wp_steps. by apply on_entry_knows. Qed.

Lemma wp_entry_of mac (Q : LocationTableEntry -> Router -> Prop) x : knows mac x ->
  (forall e, entry_at mac (m_location_table x) = Some e -> Q e x) -> wp (entry_of mac) Q x.
Proof. intros [_ [e He]] HQ. unfold entry_of, of_table. wp_steps. eapply wp_defined; eauto. Qed.

Lemma detect_address_keeps source from : keeps held mib (detect_duplicate_address source from).
Proof.
  intros x Hok. unfold detect_duplicate_address. wp_steps. destruct (bool_decide _); [|by wp_steps].
  destruct (_ || _); [|by wp_steps]. unfold random_mac, draw_unsigned.
  repeat (apply wp_bind || (unfold wp at 1; destruct (uniform_unsigned _))).
  wp_steps. unfold set_address. wp_steps. destruct Hok as [Hm Ht Hc Ha Hf Hb Hu Hsch]. by split.
Qed.

Lemma wp_detect_duplicate addr sn (Q : bool -> Router -> Prop) x : router_ok held mib x ->
  (forall b t, coherent t -> Q b (set_m_location_table t x)) -> wp (detect_duplicate addr sn) Q x.
Proof.
  intros Hok HQ. unfold detect_duplicate. wp_steps. unfold wp, on_table.
  destruct (detect_duplicate_packet_spec (Z.to_nat (itsGnDPLLength (m_mib x))) (ManualRuntime.m_now (m_runtime x))
    addr sn _ (ok_table _ _ _ Hok)) as (t & -> & Hc & _). by apply HQ.
Qed.

Lemma wp_has_entry addr (Q : bool -> Router -> Prop) x : router_ok held mib x ->
  (forall b, Q b x) -> wp (of_table (fun t => has_entry t addr)) Q x.
Proof.
  intros Hok HQ. unfold of_table. wp_steps.
  destruct (has_entry_ok (ManualRuntime.m_now (m_runtime x)) addr _ (ok_table _ _ _ Hok)) as [r Hr]. by eapply wp_defined.
Qed.

Lemma wp_obstacle hops mac from (Q : option ForwardingStopReason -> Router -> Prop) x : knows mac x ->
  (forall r, (r = None -> 1 < hops) -> Q r x) -> wp (forwarding_obstacle hops mac from) Q x.
Proof.
  intros Hk HQ. unfold forwarding_obstacle. wp_steps. destruct (Z.leb_spec hops 1); [by wp_steps; apply HQ|].
  destruct (_ <? _); [|by wp_steps; apply HQ]. apply wp_bind, wp_entry_of; [done|]. intros e _.
  destruct (dgt _ _); [by wp_steps; apply HQ|]. unfold of_table. wp_steps.
  destruct (get_entry_ok (ManualRuntime.m_now (m_runtime x)) from _ (ok_table _ _ _ (proj1 Hk))) as [r Hr].
  eapply wp_defined; [done|]. destruct r as [r|]; [destruct (dgt _ _)|]; wp_steps; by apply HQ.
Qed.

Lemma decide_pass_up_keeps within gbc : keeps held mib (decide_pass_up_now within gbc).
Proof.
  intros x Hok. unfold decide_pass_up_now. wp_steps. destruct (decide_pass_up _ _ _ _ _). wp_steps.
  destruct Hok as [Hm Ht Hc Ha Hf Hb Hu Hsch]. by split.
Qed.

Lemma stopped_keeps r : keeps held mib (forwarding_stopped r).
Proof. intros x Hok. unfold forwarding_stopped, emit. wp_steps. by eapply same_core_ok. Qed.

Lemma dropped_keeps r : keeps held mib (packet_dropped r).
Proof. intros x Hok. unfold packet_dropped, emit. wp_steps. by eapply same_core_ok. Qed.

(** Bounds of received packets. *)
Definition received_pdu {X} (pdu : ExtendedPdu X) : Prop :=
  is_uint 1 (hop_limit (e_basic pdu)) /\
  match e_secured pdu with
  | Some _ => basic_next_header (e_basic pdu) = NextHeaderBasic_Secured
  | None => basic_next_header (e_basic pdu) <> NextHeaderBasic_Secured
  end.

Lemma wp_forwarding_duplicate {X} (pdu : ExtendedPdu X) packet (Q : Packet X -> Router -> Prop) x :
  received_pdu pdu -> 1 < hop_limit (e_basic pdu) ->
  (forall dup, sendable dup ->
    e_common dup.1 = e_common pdu -> e_extended dup.1 = e_extended pdu -> e_secured dup.1 = e_secured pdu ->
    hop_limit (e_basic dup.1) = hop_limit (e_basic pdu) - 1 ->
    dup.2 = match e_secured pdu with Some _ => make_ChunkPacket | None => duplicate packet end -> Q dup x) ->
  wp (forwarding_duplicate pdu packet) Q x.
Proof.
  intros [Hh Hs] Hl HQ. unfold forwarding_duplicate, is_uint in *. apply wp_bind.
  assert (u8 (hop_limit (e_basic pdu) - 1) = hop_limit (e_basic pdu) - 1) as E by (apply wrap_id; lia).
  apply wp_assert; [simpl; rewrite E; lia|]. wp_steps. apply HQ; simpl; try done.
  unfold sendable. simpl. destruct (e_secured pdu); [by split|done].
Qed.

Lemma forwarded_small (pdu : GbcPdu) p (dup : Packet GeoBroadcastHeader) : received_ok p ->
  e_secured dup.1 = e_secured pdu ->
  dup.2 = match e_secured pdu with Some _ => make_ChunkPacket | None => duplicate (Cohesive p) end ->
  packet_length VGeoBroadcast dup < 2 ^ 63.
Proof.
  intros (Hc & _ & Hs) Es Ep. unfold packet_length, Pdu_get_length. simpl. rewrite Es, Ep.
  unfold BasicHeader_length_bytes. destruct (e_secured pdu) as [m|].
  - pose proof (security_get_size_small m).
    change (chunk_size_of_layers Transport max_osi_layer make_ChunkPacket) with 0. rewrite (wrap_id 64); lia.
  - rewrite duplicate_size by done. unfold CohesivePacket.size_of_layers.
    pose proof (CohesivePacket.cohesive_first p Hc). pose proof (CohesivePacket.cohesive_last p Hc).
    pose proof (CohesivePacket.cohesive_sorted p Hc 0 3 ltac:(lia)). simpl.
    unfold CommonHeader_length_bytes, GbcGacHeader_length_bytes.
    destruct (_ <? 0) eqn:E; rewrite (wrap_id 64); lia.
Qed.

Lemma store_or_process_keeps scf p : pending_ok mib p -> keeps held mib (store_or_process scf p).
Proof.
  intros Hp x Hok. unfold store_or_process, has_neighbours_now, of_table. wp_steps.
  destruct (_ && _); [by apply buffer_push_keeps|by apply process_keeps].
Qed.

Lemma process_shb_keeps pdu packet ll : keeps held mib (process_extended_shb pdu packet ll).
Proof.
  intros x Hok. unfold process_extended_shb. apply wp_bind.
  eapply (wp_keeps held mib); [apply detect_address_keeps|done|]; cbn beta; intros ? x1 Hok1.
  apply wp_bind, wp_update_location; [done|]. intros t entry Hc He Hp.
  assert (knows (m_mid (gn_addr (shb_source_position (e_extended pdu)))) (set_m_location_table t x1)) as Hk.
  { split; [by apply set_table_ok|]. by eexists. }
  apply wp_bind, wp_entry_of; [done|]. intros e He'. simpl in He'. rewrite He in He'. simplify_eq.
  apply wp_bind, wp_assert; [done|]. apply wp_bind. eapply wp_mono; [by apply update_pdr_knows|]; cbn beta; intros ? x2 Hk2.
  apply wp_bind. eapply wp_mono; [by apply mark_neighbour_knows|]; cbn beta; intros ? x3 Hk3. wp_steps.
  apply wp_when; intros _; [|wp_steps; apply Hk3]. destruct (get_dcc_mco _); [|wp_steps; apply Hk3].
  eapply wp_mono; [by apply on_entry_knows|]; cbn beta; intros ? x4 Hk4. wp_steps. apply Hk4.
Qed.

Lemma process_beacon_keeps pdu packet ll : keeps held mib (process_extended_beacon pdu packet ll).
Proof.
  intros x Hok. unfold process_extended_beacon. apply wp_bind.
  eapply (wp_keeps held mib); [apply detect_address_keeps|done|]; cbn beta; intros ? x1 Hok1.
  apply wp_bind, wp_update_location; [done|]. intros t entry Hc He Hp.
  assert (knows (m_mid (gn_addr (beacon_source_position (e_extended pdu)))) (set_m_location_table t x1)) as Hk.
  { split; [by apply set_table_ok|]. by eexists. }
  apply wp_bind. eapply wp_mono; [by apply update_pdr_knows|]; cbn beta; intros ? x2 Hk2.
  apply wp_bind. eapply wp_mono; [by apply mark_neighbour_knows|]; cbn beta; intros ? x3 Hk3. wp_steps. apply Hk3.
Qed.

Lemma when_knows b mac (m : router unit) x : knows mac x ->
  (forall y, knows mac y -> wp m (fun _ => knows mac) y) -> wp (when b m) (fun _ => knows mac) x.
Proof. intros Hk Hm. apply wp_when; auto. Qed.

Lemma when_keeps b (m : router unit) : keeps held mib m -> keeps held mib (when b m).
Proof. intros Hm x Hok. apply wp_when; auto. Qed.

Lemma knows_uc mac x y : knows mac x -> router_ok held mib y ->
  same_core (set_m_uc_forward_buffer (m_uc_forward_buffer y) x) y -> knows mac y.
Proof. intros [_ Hl] Hok (_ & _ & E & _). split; [done|]. by rewrite E. Qed.

Lemma process_tsb_keeps pdu packet ll : received_pdu pdu -> keeps held mib (process_extended_tsb pdu packet ll).
Proof.
  intros Hr x Hok. unfold process_extended_tsb. apply wp_bind, wp_has_entry; [done|]. intros exists_.
  apply wp_bind, wp_detect_duplicate; [done|]. intros dup t0 Hc0. pose proof (set_table_ok x t0 Hok Hc0) as Hok0.
  destruct dup; [by wp_steps|]. wp_steps. eapply (wp_keeps held mib); [apply when_keeps, detect_address_keeps|done|].
  intros ? x1 Hok1. apply wp_bind, wp_update_location; [done|]. intros t entry Hc He Hp.
  set (mac := m_mid (gn_addr (tsb_source_position (e_extended pdu)))) in *.
  assert (knows mac (set_m_location_table t x1)) as Hk by (split; [by apply set_table_ok|by eexists]).
  apply wp_bind. eapply wp_mono; [apply when_knows; [exact Hk|]; intros; by apply on_entry_knows|]; cbn beta; intros ? x2 Hk2.
  apply wp_bind. eapply wp_mono; [by apply update_pdr_knows|]; cbn beta; intros ? x3 Hk3.
  apply wp_bind, (wp_flush_unicast held mib); [apply Hk3|]. intros x4 Hs4 Hok4. pose proof (knows_uc _ _ _ Hk3 Hok4 Hs4) as Hk4.
  apply wp_bind, wp_obstacle; [exact Hk4|]. intros [reason|] Hh.
  - apply wp_bind. eapply (wp_keeps held mib); [apply stopped_keeps|done|]. intros ? x5 Hok5. by wp_steps.
  - apply wp_bind, wp_forwarding_duplicate; [done|by apply Hh|]. intros dup Hs _ _ _ _ _.
    apply wp_bind. eapply (wp_keeps held mib); [by apply store_or_process_keeps|done|]. intros ? x5 Hok5. by wp_steps.
Qed.

Lemma process_gbc_keeps pdu p ll : received_pdu pdu -> received_ok p ->
  is_gbc_type (header_type (e_common pdu)) = true ->
  keeps held mib (process_extended_gbc pdu (Cohesive p) ll).
Proof.
  intros Hr Hp0 Ht x Hok. unfold process_extended_gbc.
  destruct (gbc_destination_returns _ (e_extended pdu) Ht) as [s Hs].
  apply wp_bind. eapply wp_lift; [exact Hs|]. apply wp_bind, wp_has_entry; [done|]. intros exists_. wp_steps.
  set (within := inside_or_at_border _ _).
  assert (keeps held mib (if checks_duplicates (m_mib x) within
    then detect_duplicate (gn_addr (gbc_source_position (e_extended pdu))) (gbc_sequence_number (e_extended pdu))
    else mret false)) as Hdup.
  { intros y Hy. destruct (checks_duplicates _ _); [|by wp_steps]. apply wp_detect_duplicate; [done|].
    intros. by apply set_table_ok. }
  eapply (wp_keeps held mib); [exact Hdup|done|]. intros [] x0 Hok0; [by wp_steps|].
  apply wp_bind. eapply (wp_keeps held mib); [apply when_keeps, detect_address_keeps|done|].
  intros ? x1 Hok1. apply wp_bind, wp_update_location; [done|]. intros t entry Hc He Hp.
  set (mac := m_mid (gn_addr (gbc_source_position (e_extended pdu)))) in *.
  assert (knows mac (set_m_location_table t x1)) as Hk by (split; [by apply set_table_ok|by eexists]).
  apply wp_bind. eapply wp_mono; [by apply update_pdr_knows|]; cbn beta; intros ? x2 Hk2.
  apply wp_bind. eapply wp_mono; [apply when_knows; [exact Hk2|]; intros; by apply on_entry_knows|]; cbn beta; intros ? x3 Hk3.
  apply wp_bind, (wp_flush_unicast held mib); [apply Hk3|]. intros x4 Hs4 Hok4. pose proof (knows_uc _ _ _ Hk3 Hok4 Hs4) as Hk4.
  apply wp_bind, wp_obstacle; [exact Hk4|]. intros [reason|] Hh.
  - apply wp_bind. eapply (wp_keeps held mib); [apply stopped_keeps|done|]. intros ? x5 Hok5. by apply decide_pass_up_keeps.
  - apply wp_bind, wp_forwarding_duplicate; [done|by apply Hh|]. intros dup Hsend Ec _ Es _ Ed.
    apply wp_bind. eapply (wp_keeps held mib); [apply store_or_process_keeps|done|].
    { split; [|done]. split; [by rewrite Ec|]. by eapply forwarded_small. }
    intros ? x5 Hok5. by apply decide_pass_up_keeps.
Qed.

(** * Indication *)

Definition ctx_ok (ctx : IndicationContext) : Prop := kind_ok (kind ctx) /\ pdu_ok (pdu ctx).

Lemma pass_up_keeps ind packet : keeps held mib (pass_up ind packet).
Proof.
  intros x Hok. unfold pass_up. wp_steps. set (x' := set_m_transport_ifcs _ x).
  assert (router_ok held mib x') by (destruct Hok; by split).
  destruct (default None _); [|by wp_steps]. unfold emit. wp_steps. by eapply same_core_ok.
Qed.

Lemma visitor_keeps ctx p header : pdu_ok (pdu ctx) -> received_ok p ->
  fits_type (header_type (common (pdu ctx))) header ->
  keeps held mib (extended_header_visitor ctx (Cohesive p) header).
Proof.
  intros Hpdu Hp Hf x Hok. unfold extended_header_visitor. destruct header as [h|h|h|h].
  - apply wp_bind. eapply (wp_keeps held mib); [apply process_beacon_keeps|done|]. intros ? x1 Hok1. by wp_steps.
  - assert (is_gbc_type (header_type (common (pdu ctx))) = true) as Ht.
    { unfold is_gbc_type. destruct Hf as [->|[->| ->]]; done. }
    destruct (gbc_destination_returns _ h Ht) as [s Hs]. apply wp_bind. eapply wp_lift; [exact Hs|].
    apply wp_bind. eapply (wp_keeps held mib); [by apply process_gbc_keeps|done|]. intros ? x1 Hok1. by wp_steps.
  - apply wp_bind. eapply (wp_keeps held mib); [apply process_shb_keeps|done|]. intros ? x1 Hok1. by wp_steps.
  - apply wp_bind. eapply (wp_keeps held mib); [by apply process_tsb_keeps|done|]. intros ? x1 Hok1. by wp_steps.
Qed.

(** Parsing the extended header of a context. *)
Lemma ctx_extended_ok ht ctx : kind_ok (kind ctx) ->
  let '(h, ctx') := ctx_parse_extended ht ctx in
  kind_ok (kind ctx') /\ basic (pdu ctx') = basic (pdu ctx) /\ common (pdu ctx') = common (pdu ctx) /\
  secured (pdu ctx') = secured (pdu ctx) /\ (forall h', h = Some h' -> fits_type ht h').
Proof.
  unfold ctx_parse_extended. destruct (kind ctx) as [p parser| |parent p parser|]; [|done| |done].
  - intros [Hr Hp]. pose proof (parse_extended_ok (extended (pdu ctx)) ht parser _ Hp) as He.
    destruct (parse_extended _ _ _) as [[m h] parser']. destruct He as [Hp' Hf]. simpl. split_and!; try done.
    intros h'. destruct (Z.gtb_spec m 0); [|done]. intros [= <-]. apply Hf. lia.
  - intros (Hpar & Hr & Hp). pose proof (parse_extended_ok (extended (pdu ctx)) ht parser _ Hp) as He.
    destruct (parse_extended _ _ _) as [[m h] parser']. destruct He as [Hp' Hf]. simpl. split_and!; try done.
    intros h'. destruct (Z.gtb_spec m 0); [|done]. intros [= <-]. apply Hf. lia.
Qed.

Lemma ctx_common_ok ctx : kind_ok (kind ctx) ->
  let '(c, ctx') := ctx_parse_common ctx in
  kind_ok (kind ctx') /\ basic (pdu ctx') = basic (pdu ctx) /\ secured (pdu ctx') = secured (pdu ctx) /\
  (forall c', c = Some c' -> wf_CommonHeader c' /\ common (pdu ctx') = c').
Proof.
  unfold ctx_parse_common. destruct (kind ctx) as [p parser| |parent p parser|]; [|done| |done].
  - intros [Hr Hp]. pose proof (parse_common_ok (common (pdu ctx)) parser _ Hp) as He.
    destruct (parse_common _ _) as [[m h] parser']. destruct He as [Hp' Hf]. simpl. split_and!; try done.
    intros h'. destruct (Z.gtb_spec m 0); [|done]. intros [= <-]. split; [apply Hf; lia|done].
  - intros (Hpar & Hr & Hp). pose proof (parse_common_ok (common (pdu ctx)) parser _ Hp) as He.
    destruct (parse_common _ _) as [[m h] parser']. destruct He as [Hp' Hf]. simpl. split_and!; try done.
    intros h'. destruct (Z.gtb_spec m 0); [|done]. intros [= <-]. split; [apply Hf; lia|done].
Qed.

Lemma indicate_extended_keeps ctx c : ctx_ok ctx -> wf_CommonHeader c -> common (pdu ctx) = c ->
  keeps held mib (indicate_extended ctx c).
Proof.
  intros [Hk Hpdu] Hc Ec x Hok. unfold indicate_extended.
  pose proof (ctx_extended_ok (header_type c) ctx Hk) as He.
  destruct (ctx_parse_extended (header_type c) ctx) as [h ctx']. destruct He as (Hk' & Eb & Ec' & Es & Hf).
  destruct (finish_ok (payload (common (pdu ctx'))) (kind ctx')) as (p & Hfin & Hp); [|done|].
  { rewrite Ec', Ec. destruct Hc as (_ & _ & _ & _ & _ & Hpl & _). unfold is_uint in Hpl. lia. }
  apply wp_bind. eapply wp_defined; [exact Hfin|]. destruct h as [h|]; [|by apply dropped_keeps].
  destruct (negb _); [by apply dropped_keeps|]. apply wp_bind. eapply (wp_keeps held mib); [|done|].
  - apply visitor_keeps; [|done|].
    + unfold pdu_ok in *. by rewrite Eb, Es.
    + rewrite Ec', Ec. by apply Hf.
  - intros [up ind] x1 Hok1. destruct up; [by apply pass_up_keeps|by wp_steps].
Qed.

Lemma drop_locations_keeps : keeps held mib drop_expired_locations.
Proof.
  intros x Hok. unfold drop_expired_locations, wp, on_table.
  destruct (drop_expired_spec (ManualRuntime.m_now (m_runtime x)) _ (ok_table _ _ _ Hok)) as (t & -> & Hc & _).
  by apply set_table_ok.
Qed.

Lemma indicate_common_keeps ctx b : ctx_ok ctx -> keeps held mib (indicate_common ctx b).
Proof.
  intros [Hk Hpdu] x Hok. unfold indicate_common. pose proof (ctx_common_ok ctx Hk) as He.
  destruct (ctx_parse_common ctx) as [[c|] ctx']; [|by apply dropped_keeps].
  destruct He as (Hk' & Eb & Es & Hc). destruct (Hc c eq_refl) as [Hwf Ec].
  destruct (_ <? _); [by apply dropped_keeps|].
  apply wp_bind. eapply (wp_keeps held mib); [apply drop_locations_keeps|done|]. intros ? x1 Hok1.
  apply wp_bind. eapply (wp_keeps held mib); [apply flush_broadcast_keeps|done|]. intros ? x2 Hok2.
  apply indicate_extended_keeps; [|done|done|done]. split; [done|]. unfold pdu_ok in *. simpl. by rewrite Eb, Es.
Qed.

Lemma indicate_secured_keeps ctx b p parser : kind ctx = Deserialize p parser -> kind_ok (kind ctx) ->
  is_uint 1 (hop_limit (basic (pdu ctx))) -> basic_next_header (basic (pdu ctx)) = NextHeaderBasic_Secured ->
  keeps held mib (indicate_secured ctx b).
Proof.
  intros Ek Hk Hh Hn x Hok. unfold indicate_secured, ctx_parse_secured. rewrite Ek in *.
  destruct Hk as [Hr Hp]. pose proof (parse_secured_ok parser _ Hp) as Hs.
  destruct (parse_secured None parser) as [[m [msg|]] parser']; [|by destruct (m >? 0); apply dropped_keeps].
  destruct (m >? 0); [|by apply dropped_keeps]. wp_steps.
  destruct (m_security_entity x) as [e|]; [|by apply dropped_keeps].
  destruct (decapsulate_returns msg e) as (c & q & Hc & Hq & Hrq).
  destruct (decapsulate_packet msg e) as [confirm e']. simpl in Hc. subst confirm. wp_steps.
  eapply wp_lift; [done|]. wp_steps.
  set (x' := set_m_security_entity (Some e') x). assert (router_ok held mib x') by (destruct Hok; by split).
  set (ctx' := set_service_primitive _ _).
  assert (keeps held mib (indicate_payload ctx' b (plaintext_payload c))) as Hkeep.
  { rewrite Hq. apply indicate_common_keeps. split; [|by split]. simpl. split; [by split|]. split; [done|].
    apply make_parser_ok. by apply layer_bytes. }
  destruct (is_successful _); [by apply Hkeep|]. destruct (bool_decide _); [by apply Hkeep|by apply dropped_keeps].
Qed.

Lemma indicate_keeps p from to : received_ok p -> keeps held mib (indicate (Cohesive p) from to).
Proof.
  intros Hr x Hok. unfold indicate, indicate_basic, ctx_parse_basic, make_Deserialize. simpl.
  pose proof (parse_basic_ok default_BasicHeader _ _
    (make_parser_ok (CohesivePacket.layer Network p) (layer_bytes Network p Hr))) as Hb.
  destruct (parse_basic _ _) as [[m b] parser]. destruct Hb as [Hp Hwf]. wp_steps.
  destruct (Z.gtb_spec m 0); [|by apply dropped_keeps].
  destruct (negb _); [by apply dropped_keeps|].
  assert (is_uint 1 (hop_limit b)) as Hh by (apply Hwf; lia).
  destruct (Z.eqb_spec (basic_next_header b) NextHeaderBasic_Secured) as [En|En].
  - by eapply indicate_secured_keeps.
  - destruct (_ =? _); [|by wp_steps]. destruct (_ || _); [|by apply dropped_keeps].
    apply indicate_common_keeps; [|done]. by split.
Qed.

End indicate.
