(* ===== verification/RouterSteady.v ===== *)
(** * The scheduler under the member functions

    What member functions do to the scheduler, by relations between its states before and
    after: that they leave the clock alone and schedule nothing that is due at once.  They
    take back nothing that they have sent, and leave the transport protocols registered. *)

From Stdlib Require Import ZArith Lia Sorting.Sorted.
From stdpp Require Import prelude strings gmap.
From S2P Require Import Prelude GeoSerial GeoHeaders GeoPdu Double Asn1Wrapper Runtime NetPackets GeoArea.
From S2P Require Import GeoRequest GeoContainers SoftState CbfBuffer LocationTable GeoPending GeoIndication.
From S2P Require Import RouterState RouterForward RouterIndicate Router RouterOk.

Open Scope Z_scope.

Create HintDb steady discriminated.

Section run.
Context `{SA : SecuredArchive} `{SE : !SecurityEntity} `{DccFieldGenerator} `{Random} `{Geodesy} `{PositionUnits}.
Context `{T1 : !HeapTop MacAddress} `{T2 : !HeapTop CbfPacketIdentifier} `{A : Allocator}.

(** The interface registered for a protocol; nullptr is [None], as is a missing entry. *)
Definition transport_handler (proto : UpperProtocol) (x : Router) : option interface :=
  default None (m_transport_ifcs x !! proto).

(** Packets are passed up only if [up] holds. *)
Definition allowed (up : Prop) (e : event) : Prop := if e is Indicated _ _ _ then up else True.

(** Everything that left the router before is still recorded, and the same handlers are registered. *)
Definition extends (up : Prop) (x y : Router) : Prop :=
  (forall proto, transport_handler proto y = transport_handler proto x) /\
  exists evs, m_events y = m_events x ++ evs /\ Forall (allowed up) evs.

#[local] Instance extends_refl up : Reflexive (extends up).
Proof. intros x. split; [done|]. exists []. by rewrite app_nil_r. Qed.

#[local] Instance extends_trans up : Transitive (extends up).
Proof.
  intros x y z [H1' (e1 & E1 & F1)] [H2' (e2 & E2 & F2)]. split; [intros p; by rewrite H2'|].
  exists (e1 ++ e2). rewrite E2, E1, app_assoc. split; [done|]. by apply Forall_app.
Qed.

Lemma extends_quiet up x y : m_transport_ifcs y = m_transport_ifcs x -> m_events y = m_events x -> extends up x y.
Proof. intros E1 E2. split; [intros p; unfold transport_handler; by rewrite E1|]. exists []. by rewrite app_nil_r. Qed.

(** [steady R up m]: the member function [m] changes the scheduler only in a way that [R]
    allows, whether it returns or not, and passes up packets only if [up] holds. *)

Section steady.
Context (mib : MIB) (R : Runtime -> Runtime -> Prop) (up : Prop) `{!Reflexive R} `{!Transitive R}.

Definition steady {X} (m : router X) : Prop := forall x, m_mib x = mib ->
  m_mib (snd (m x)) = mib /\ R (m_runtime x) (m_runtime (snd (m x))) /\ extends up x (snd (m x)).

Lemma steady_ret {X} (a : X) : steady (mret a).
Proof. by intros x Hx. Qed.

Lemma steady_bind {X Y} (m : router X) (f : X -> router Y) :
  steady m -> (forall a, steady (f a)) -> steady (m ≫= f).
Proof.
  intros Hm Hf x Hx. unfold mbind, state_cpp_bind. destruct (Hm x Hx) as (Hx1 & Hc1 & He1).
  destruct (m x) as [[a| |] x1]; simpl in *; [|done..].
  destruct (Hf a x1 Hx1) as (Hx2 & Hc2 & He2). split_and!; [done|by etrans|by etrans].
Qed.

(** A change of other members. *)
Definition untouched (x y : Router) : Prop :=
  m_mib y = m_mib x /\ m_runtime y = m_runtime x /\ m_transport_ifcs y = m_transport_ifcs x /\ m_events y = m_events x.

Lemma steady_quiet {X} (m : router X) : (forall x, untouched x (snd (m x))) -> steady m.
Proof. intros Hm x Hx. destruct (Hm x) as (-> & -> & E1 & E2). split_and!; [done|done|by apply extends_quiet]. Qed.

Lemma steady_emit e : allowed up e -> steady (emit e).
Proof.
  intros He x Hx. split_and!; [done|done|]. split; [done|]. exists [e]. split; [done|]. by apply Forall_singleton.
Qed.

Lemma steady_gets {X} (f : Router -> X) : steady (gets f).
Proof. by apply steady_quiet. Qed.

Lemma steady_lift {X} (m : cpp X) : steady (lift m).
Proof. by apply steady_quiet. Qed.

Lemma steady_throw {X} e : steady (throw (A := X) e).
Proof. by apply steady_quiet. Qed.

Lemma steady_defined {X} (m : option X) : steady (defined m).
Proof. by destruct m; apply steady_quiet. Qed.

Lemma steady_assert b : steady (assert_that b).
Proof. by destruct b; apply steady_quiet. Qed.

Lemma steady_when b m : steady m -> steady (when b m).
Proof. intros Hm. destruct b; [done|apply steady_ret]. Qed.

Lemma steady_for_each {X} (f : X -> router unit) xs : (forall a, steady (f a)) -> steady (for_each f xs).
Proof. intros Hf. induction xs as [|a xs IH]; [apply steady_ret|]. by apply steady_bind. Qed.

Lemma steady_draw_real : steady draw_real.
Proof. apply steady_quiet. intros x. unfold draw_real. by destruct (uniform_real _). Qed.

Lemma steady_draw_unsigned : steady draw_unsigned.
Proof. apply steady_quiet. intros x. unfold draw_unsigned. by destruct (uniform_unsigned _). Qed.

Lemma steady_generate_field : steady generate_field.
Proof.
  apply steady_quiet. intros x. unfold generate_field. destruct (m_dcc_field_generator x); [|done].
  by destruct (generate_dcc_field _).
Qed.

Lemma steady_on_table {X} (f : Z -> LocationTable -> option (X * LocationTable)) : steady (on_table f).
Proof. apply steady_quiet. intros x. unfold on_table. by destruct (f _ _) as [[]|]. Qed.

Lemma steady_get_mib : steady get_mib.
Proof. apply steady_gets. Qed.

Lemma steady_now : steady now.
Proof. apply steady_gets. Qed.

End steady.

#[local] Hint Resolve steady_ret steady_gets steady_lift steady_throw steady_defined steady_assert steady_draw_real
  steady_draw_unsigned steady_generate_field steady_on_table steady_get_mib steady_now : steady.
#[local] Hint Extern 1 (steady _ _ _ (emit _)) => by apply steady_emit : steady.
#[local] Hint Extern 1 (steady _ _ _ (modify _)) => by apply steady_quiet : steady.
#[local] Hint Extern 1 (steady _ _ _ (set_address _)) => by apply steady_quiet : steady.
#[local] Hint Extern 1 (steady _ _ _ next_sequence_number) => by apply steady_quiet : steady.

Ltac steady_steps :=
  repeat (cbn beta iota; match goal with
  | |- steady _ _ _ (_ ≫= _) => apply steady_bind; [apply _| |intros ?]
  | |- steady _ _ _ (when _ _) => apply steady_when; [apply _|]
  | |- steady _ _ _ (for_each _ _) => apply steady_for_each; [apply _|apply _|intros ?]
  | |- steady _ _ _ (match ?x with _ => _ end) => destruct x
  | |- steady _ _ _ _ => by auto with steady typeclass_instances
  end).

(** * Sending *)

Section sending.
Context (mib : MIB) (R : Runtime -> Runtime -> Prop) (up : Prop) `{!Reflexive R} `{!Transitive R}.
Abbreviation steady := (steady mib R up).

Lemma steady_of_table {X} (f : Z -> LocationTable -> option X) : steady (of_table f).
Proof. unfold of_table. steady_steps. Qed.

Lemma steady_media profile : steady (execute_media_procedures profile).
Proof. destruct profile; simpl; unfold execute_itsg5_procedures; steady_steps. Qed.

Lemma steady_pass_down r pdu p : steady (pass_down r pdu p).
Proof. unfold pass_down. steady_steps. Qed.

Lemma steady_make_request addr profile pdu : steady (make_DccDataRequest addr profile pdu).
Proof. unfold make_DccDataRequest. steady_steps. Qed.
#[local] Hint Resolve steady_of_table steady_media steady_pass_down steady_make_request : steady.

Lemma steady_pass_down_to addr pdu p : steady (pass_down_to addr pdu p).
Proof. unfold pass_down_to. steady_steps. Qed.

Lemma steady_encap aid ssp pdu p : steady (encap_packet aid ssp pdu p).
Proof. unfold encap_packet. steady_steps. Qed.
#[local] Hint Resolve steady_pass_down_to steady_encap : steady.

Lemma steady_secure {X} (variant : X -> HeaderVariant) ctrl pdu p k :
  (forall pdu p, steady (k pdu p)) -> steady (secure variant ctrl pdu p k).
Proof. intros Hk. unfold secure. steady_steps. Qed.

Lemma steady_tsb p : steady (tsb_transmit p).
Proof. unfold tsb_transmit. steady_steps. Qed.

Lemma steady_mac_action action p mac : steady (mac_action action p mac).
Proof. unfold mac_action. steady_steps. apply steady_secure. intros. steady_steps. Qed.
#[local] Hint Resolve steady_mac_action : steady.

Lemma steady_nh_process nh : steady (nh_process nh).
Proof. unfold nh_process. steady_steps. Qed.

Lemma steady_buffer_push p : steady (buffer_push p).
Proof. unfold buffer_push. steady_steps. Qed.
#[local] Hint Resolve steady_buffer_push steady_nh_process : steady.

Lemma steady_greedy p : steady (greedy_forwarding p).
Proof. unfold greedy_forwarding. steady_steps. Qed.
#[local] Hint Resolve steady_greedy : steady.

(** Packets of this router do not contend. *)
Lemma steady_selection_own p : steady (forwarding_algorithm_selection p None).
Proof. unfold forwarding_algorithm_selection, forwarding_stopped. simpl. steady_steps. Qed.
#[local] Hint Resolve steady_selection_own : steady.

Lemma steady_source scf p ctrl : steady (store_or_process scf (PendingGbc p (SourceForwarding ctrl))).
Proof. unfold store_or_process, has_neighbours_now. simpl. steady_steps. Qed.

(** Functions that set the timer of the beacon or of the repeater. *)
Context (Hbeacon : steady reset_beacon_timer).
Context {P : DataRequestVariant -> Prop} (Hrepeat : forall v payload, P v -> steady (set_up_repetition v payload)).

Lemma steady_shb ctrl p : steady (shb_transmit ctrl p).
Proof. unfold shb_transmit. steady_steps. apply steady_secure. intros. steady_steps. Qed.
#[local] Hint Resolve steady_shb : steady.

Lemma steady_source_shb scf p ctrl : steady (store_or_process scf (PendingShb p ctrl)).
Proof. unfold store_or_process, has_neighbours_now. simpl. steady_steps. Qed.
#[local] Hint Resolve steady_source steady_source_shb : steady.

Lemma steady_request v payload : P v -> steady (request v payload).
Proof.
  intros Hv. destruct v; simpl; steady_steps;
    unfold request_gbc, request_shb, create_gbc_pdu, create_shb_pdu; steady_steps.
Qed.

Lemma steady_beacon : steady on_beacon_timer_expired.
Proof. unfold on_beacon_timer_expired, create_beacon_pdu. steady_steps. Qed.

End sending.

(** * Forwarding and reception *)

Section forwarding.
Context (mib : MIB) (R : Runtime -> Runtime -> Prop) (up : Prop) `{!Reflexive R} `{!Transitive R}.
Abbreviation steady := (steady mib R up).

(** The buffer for contention may set its timer anew. *)
Context (Hbeacon : steady reset_beacon_timer).
Context (Hcbf : forall rt tp,
  R rt (ManualRuntime.schedule_at tp CbfFlush CbfScope (ManualRuntime.cancel CbfScope rt))).

#[local] Hint Resolve steady_of_table steady_media steady_pass_down steady_make_request steady_pass_down_to
  steady_encap steady_tsb steady_mac_action steady_nh_process steady_buffer_push steady_greedy steady_shb : steady.

Lemma steady_scheduler {X} (f : CbfPacketBuffer.CbfPacketBuffer -> Runtime -> option (X * CbfPacketBuffer.CbfPacketBuffer * Runtime)) :
  (forall b rt a b' rt', f b rt = Some (a, b', rt') -> R rt rt') ->
  steady (fun x => match f (m_cbf_buffer x) (m_runtime x) with
                   | Some (a, b, rt) => (Returns a, set_m_runtime rt (set_m_cbf_buffer b x))
                   | None => (NoResult, x)
                   end).
Proof.
  intros Hf x Hx. destruct (f _ _) as [[[a b] rt]|] eqn:E; [|done].
  split_and!; [done|by eapply Hf|by apply extends_quiet].
Qed.

Lemma schedule_timer_R ts rt rt' : CbfPacketBuffer.schedule_timer ts rt = Some rt' -> R rt rt'.
Proof. unfold CbfPacketBuffer.schedule_timer. destruct (head ts); [|done]. intros [= <-]. apply Hcbf. Qed.

Lemma steady_cbf_remove id : steady (cbf_remove id).
Proof.
  apply (steady_scheduler (CbfPacketBuffer.remove id)). intros b rt a b' rt'. unfold CbfPacketBuffer.remove.
  destruct (CbfPacketBuffer.find_timer id _) as [t|]; [|by intros [= _ _ <-]].
  destruct (CbfPacketBuffer.packet_at _ _); [|done]. simpl. unfold CbfPacketBuffer.remove_timer.
  destruct (_ && _); [|by intros [= _ _ <-]]. simpl.
  destruct (CbfPacketBuffer.schedule_timer _ _) as [rt2|] eqn:E; [|done]. intros [= _ _ <-]. by eapply schedule_timer_R.
Qed.

Lemma steady_cbf_add p timeout : steady (cbf_add p timeout).
Proof.
  intros x Hx. unfold cbf_add. destruct (CbfPacketBuffer.add _ _ _ _) as [[b rt]|] eqn:E; [|done].
  split_and!; [done| |by apply extends_quiet]. revert E. simpl. unfold CbfPacketBuffer.add. destruct (_ <=? 0); [by intros [= _ <-]|].
  set (m := match CbfPacketBuffer.find_timer _ _ with Some _ => _ | None => _ end). destruct m as [b1|]; [|done]. simpl.
  case_bool_decide; [|by intros [= _ <-]].
  destruct (CbfPacketBuffer.schedule_timer _ _) as [rt2|] eqn:E; [|done]. intros [= _ <-]. by eapply schedule_timer_R.
Qed.

Lemma steady_cbf_update id timeout : steady (cbf_update id timeout).
Proof.
  intros x Hx. unfold cbf_update. destruct (CbfPacketBuffer.update _ _ _ _) as [[b rt]|] eqn:E; [|done].
  split_and!; [done| |by apply extends_quiet]. revert E. simpl. unfold CbfPacketBuffer.update. destruct (CbfPacketBuffer.find_timer _ _); [|by intros [= _ <-]].
  destruct (CbfPacketBuffer.packet_at _ _); [|done]. simpl. destruct (CbfPacketBuffer.reduce_lifetime _ _ _). simpl.
  destruct (counter_increment _ _ _); [|done]. by intros [= _ <-].
Qed.
#[local] Hint Resolve steady_cbf_remove steady_cbf_add steady_cbf_update : steady.

Lemma steady_cbf_counter id : steady (cbf_counter id).
Proof. unfold cbf_counter. steady_steps. Qed.

Lemma steady_cbf_find id : steady (cbf_find id).
Proof. unfold cbf_find. steady_steps. Qed.
#[local] Hint Resolve steady_cbf_counter steady_cbf_find : steady.

Lemma steady_timeout from : steady (timeout_cbf from).
Proof. unfold timeout_cbf, get_position_of. steady_steps. Qed.
#[local] Hint Resolve steady_timeout : steady.

Lemma steady_selection p ll : steady (forwarding_algorithm_selection p ll).
Proof.
  unfold forwarding_algorithm_selection, forwarding_stopped, get_position_of, area_contention_based_forwarding, cbf_stop,
    area_advanced_forwarding, advanced_buffered, advanced_new, outside_sectorial_contention_area,
    non_area_contention_based_forwarding, get_position_of.
  steady_steps.
Qed.
#[local] Hint Resolve steady_selection : steady.

Lemma steady_process p : steady (process p).
Proof. destruct p as [| |p []]; simpl; steady_steps. Qed.
#[local] Hint Resolve steady_process : steady.

Lemma steady_store scf p : steady (store_or_process scf p).
Proof. unfold store_or_process, has_neighbours_now. steady_steps. Qed.

Lemma steady_flush_broadcast : steady flush_broadcast_forwarding_buffer.
Proof. unfold flush_broadcast_forwarding_buffer, flush_node. steady_steps. Qed.

Lemma steady_flush_unicast addr : steady (flush_unicast_forwarding_buffer addr).
Proof. unfold flush_unicast_forwarding_buffer, flush_node. steady_steps. Qed.
#[local] Hint Resolve steady_store steady_flush_broadcast steady_flush_unicast : steady.

Lemma flush_loop_world {W} (cb : CbfPacket -> W -> bool * W) (I : W -> Prop) t expired b w ok b' w' :
  (forall p w, I w -> I (snd (cb p w))) ->
  CbfPacketBuffer.flush_loop (D := CbfPacketData) cb t expired b w = Some (ok, b', w') -> I w -> I w'.
Proof.
  intros Hcb. revert b w. induction expired as [|e expired IH]; intros b w; simpl; [by intros [= _ _ <-]|].
  destruct (CbfPacketBuffer.packet_at _ _) as [p|]; [|done]. simpl.
  destruct (CbfPacketBuffer.reduce_lifetime _ _ _) as [[] p']; [|apply IH].
  specialize (Hcb p' w). destruct (cb p' w) as [[] w1]; [|intros [= _ _ <-]; auto]. intros E HI. eapply IH; [exact E|auto].
Qed.

Lemma steady_flush_cbf : steady flush_cbf_buffer.
Proof.
  intros x Hx. unfold flush_cbf_buffer.
  destruct (CbfPacketBuffer.flush_loop _ _ _ _ _) as [[[ok b] [o y]]|] eqn:E; [|done].
  assert (m_mib y = mib /\ R (m_runtime x) (m_runtime y) /\ extends up x y) as (Hy & HR & He).
  { apply (flush_loop_world _ (fun w => m_mib w.2 = mib /\ R (m_runtime x) (m_runtime w.2) /\ extends up x w.2) _ _ _ _ _ _ _) in E;
      [done| |done].
    intros p [o' w] (Hw & HRw & Hew). unfold cbf_callback. cbn [snd] in *.
    destruct (steady_mac_action mib R up (f_action (cbf_inner p)) (f_packet (cbf_inner p)) cBroadcastMacAddress w Hw)
      as (H1' & H2' & H3').
    split_and!; [exact H1'|etrans; [exact HRw|exact H2']|etrans; [exact Hew|exact H3']]. }
  destruct ok; [|done]. cbn zeta. unfold CbfPacketBuffer.flush_reschedule. destruct (negb _).
  - destruct (CbfPacketBuffer.schedule_timer _ _) as [rt|] eqn:Er; [|done]. split_and!; [done| |done]. simpl.
    etrans; [exact HR|]. by eapply schedule_timer_R.
  - done.
Qed.

(** * Reception *)

Lemma steady_detect_address source from : steady (detect_duplicate_address source from).
Proof. unfold detect_duplicate_address, random_mac. steady_steps. Qed.

Lemma steady_on_entry mac f : steady (on_entry mac f).
Proof. unfold on_entry. steady_steps. Qed.

Lemma steady_obstacle hops mac from : steady (forwarding_obstacle hops mac from).
Proof. unfold forwarding_obstacle, entry_of. steady_steps. Qed.

Lemma steady_duplicate {X} (pdu : ExtendedPdu X) packet : steady (forwarding_duplicate pdu packet).
Proof. unfold forwarding_duplicate. steady_steps. Qed.

Lemma steady_pass_up_now within gbc : steady (decide_pass_up_now within gbc).
Proof. unfold decide_pass_up_now. steady_steps. Qed.
#[local] Hint Resolve steady_detect_address steady_on_entry steady_obstacle steady_duplicate steady_pass_up_now : steady.

Lemma steady_visitor ctx packet header : steady (extended_header_visitor ctx packet header).
Proof.
  unfold extended_header_visitor, process_extended_shb, process_extended_tsb, process_extended_gbc, process_extended_beacon,
    update_location, update_source_pdr, mark_neighbour, entry_of, detect_duplicate, forwarding_stopped.
  steady_steps.
Qed.
#[local] Hint Resolve steady_visitor : steady.

Context (Hup : up).

(** The entry that passing up creates is that of no handler. *)
Lemma steady_pass_up ind packet : steady (pass_up ind packet).
Proof.
  intros x Hx. set (proto := i_upper_protocol ind).
  assert (extends up x (set_m_transport_ifcs (<[proto := transport_handler proto x]> (m_transport_ifcs x)) x)) as He.
  { split; [|by exists []; rewrite app_nil_r]. intros p. unfold transport_handler. simpl.
    destruct (decide (p = proto)) as [->|]; [by rewrite lookup_insert_eq|by rewrite lookup_insert_ne]. }
  unfold pass_up, gets, modify, mbind, state_cpp_bind. cbn beta iota.
  fold proto (transport_handler proto x). destruct (transport_handler proto x); [|done].
  split_and!; [done|done|]. etrans; [exact He|]. split; [done|]. eexists. split; [done|]. by apply Forall_singleton.
Qed.
#[local] Hint Resolve steady_pass_up : steady.

Lemma steady_common ctx basic : steady (indicate_common ctx basic).
Proof. unfold indicate_common, drop_expired_locations, packet_dropped, indicate_extended, packet_dropped. steady_steps. Qed.
#[local] Hint Resolve steady_common : steady.

Lemma steady_indicate packet from to : steady (indicate packet from to).
Proof.
  unfold indicate, indicate_basic, packet_dropped, indicate_secured, packet_dropped, indicate_payload. steady_steps.
Qed.

End forwarding.

(** * Time

    A member function is calm if it leaves the clock alone and schedules nothing that is
    due at once. *)

Section calm.
Context (mib : MIB).

(** Every draw of the generator gives a positive period of the beacon. *)
Definition beacon_period_ok : Prop := forall g,
  0 < clock_cast (dadd (itsGnBeaconServiceRetransmitTimer mib)
                       (dmul (fst (uniform_real g)) (itsGnBeaconServiceMaxJitter mib))).

Context (Hbeacon : beacon_period_ok).

Definition due (rt : Runtime) : nat :=
  length (filter (fun c => ManualRuntime.deadline c <= ManualRuntime.m_now rt) (ManualRuntime.m_queue rt)).

Definition calmer (rt rt' : Runtime) : Prop :=
  ManualRuntime.m_now rt' = ManualRuntime.m_now rt /\ (due rt' <= due rt)%nat.

#[local] Instance calmer_refl : Reflexive calmer.
Proof. done. Qed.

#[local] Instance calmer_trans : Transitive calmer.
Proof. intros rt1 rt2 rt3 [E1 L1] [E2 L2]. split; [congruence|lia]. Qed.

Definition calm {X} (m : router X) : Prop := steady mib calmer True m.

Lemma calmer_schedule tp cb sc rt : ManualRuntime.m_now rt < tp ->
  calmer rt (ManualRuntime.schedule_at tp cb sc rt).
Proof.
  intros Htp. split; [done|]. unfold due, ManualRuntime.schedule_at. simpl. rewrite emplace_perm.
  rewrite filter_cons, decide_False by (simpl; lia). done.
Qed.

Lemma calmer_cancel sc rt : calmer rt (ManualRuntime.cancel sc rt).
Proof.
  split; [done|]. unfold due, ManualRuntime.cancel. simpl.
  induction (ManualRuntime.m_queue rt) as [|c queue IH]; [done|].
  rewrite (filter_cons _ c queue). destruct (decide (ManualRuntime.scope c ≠ sc)); rewrite ?filter_cons;
    repeat case_decide; simpl; lia.
Qed.

Lemma calm_reset_beacon : calm reset_beacon_timer.
Proof.
  intros x Hx. unfold reset_beacon_timer, get_mib, gets, draw_real, reset_beacon_timer_after, modify.
  unfold mbind, state_cpp_bind. pose proof (Hbeacon (m_random_gen x)) as Hp. rewrite <- Hx in Hp.
  destruct (uniform_real _) as [r g]. simpl in *. split_and!; [done| |by apply extends_quiet].
  etrans; [apply (calmer_cancel RouterScope)|]. apply calmer_schedule. simpl. lia.
Qed.

Lemma calm_repetition v payload : request_ok v -> calm (set_up_repetition v payload).
Proof.
  intros [_ Hv]. unfold calm, set_up_repetition, repeater_add. steady_steps. intros x Hx.
  split_and!; [done| |by apply extends_quiet]. apply calmer_schedule. simpl. lia.
Qed.

Lemma calm_request v payload : request_ok v -> calm (request v payload).
Proof. apply steady_request; [apply _|apply _|apply calm_reset_beacon|apply calm_repetition]. Qed.

Lemma calm_beacon : calm on_beacon_timer_expired.
Proof. apply steady_beacon; [apply _|apply _|apply calm_reset_beacon]. Qed.

End calm.

End run.

#[export] Existing Instance extends_refl.
#[export] Existing Instance extends_trans.
#[export] Existing Instance calmer_refl.
#[export] Existing Instance calmer_trans.
