(* ===== verification/RouterRunOk.v ===== *)
(** * Requests, beacons and the scheduler keep the invariant of the router *)

From Stdlib Require Import ZArith Lia Sorting.Sorted.
From stdpp Require Import prelude strings gmap.
From S2P Require Import Prelude GeoSerial GeoHeaders GeoHeadersOk GeoPdu GeoPduOk Double Asn1Wrapper Runtime NetPackets.
From S2P Require Import GeoArea GeoRequest GeoContainers SoftState CbfBuffer CbfBufferOk CbfTheorems.
From S2P Require Import LocationTable LocationTheorems GeoPending GeoIndication.
From S2P Require Import RouterState RouterForward RouterIndicate Router RouterOk RouterIndicateOk RouterSteady.

Open Scope Z_scope.

Section run.
Context `{SA : SecuredArchive} `{SE : !SecurityEntity} `{!SecuredArchiveOk} `{!SecurityEntityOk}.
Context `{DccFieldGenerator} `{Random} `{Geodesy} `{PositionUnits}.
Context `{T1 : !HeapTop MacAddress} `{!HeapTopOk MacAddress T1}.
Context `{T2 : !HeapTop CbfPacketIdentifier} `{!HeapTopOk CbfPacketIdentifier T2}.
Context `{A : Allocator} `{!AllocatorOk A}.

(** * Sizes *)

Lemma convertible_size_nonneg c : 0 <= convertible_size c.
Proof.
  assert (forall h, 0 <= get_length h) as Hh by (intros []; simpl; done).
  destruct c as [|b|p|p|h|h]; simpl; [done|apply size_nonneg| | |done|done].
  - unfold Pdu_get_length, BasicHeader_length_bytes, CommonHeader_length_bytes.
    pose proof (Hh (extended p)). destruct (secured p) as [m|]; [pose proof (security_get_size_small m)|]; lia.
  - unfold CommonHeader_length_bytes. pose proof (Hh (secured_extended p)). lia.
Qed.

Lemma upper_layers_size p : 0 <= chunk_size_of_layers Transport max_osi_layer p <= chunk_size p.
Proof.
  unfold chunk_size, chunk_size_of_layers, sum_sizes. simpl.
  pose proof (convertible_size_nonneg (chunk_layer Physical p)).
  pose proof (convertible_size_nonneg (chunk_layer Link p)).
  pose proof (convertible_size_nonneg (chunk_layer Network p)).
  pose proof (convertible_size_nonneg (chunk_layer Transport p)).
  pose proof (convertible_size_nonneg (chunk_layer Session p)).
  pose proof (convertible_size_nonneg (chunk_layer Presentation p)).
  pose proof (convertible_size_nonneg (chunk_layer Application p)). lia.
Qed.

(** * Requests *)

Section held.
Context (held : option nat) (mib : MIB).

Lemma request_header_returns {X} (header : X) r : upper_protocol r <> Upper_Unknown ->
  exists pdu, ExtendedPdu_of_request header r mib = Returns pdu /\ e_secured pdu = None /\
    e_extended pdu = header /\
    basic_next_header (e_basic pdu) = if itsGnSecurity mib then NextHeaderBasic_Secured else NextHeaderBasic_Common.
Proof.
  intros Hp. unfold ExtendedPdu_of_request, CommonHeader_of_request.
  destruct (upper_protocol r); [done|..]; eexists; (split; [done|]); simpl; split_and!; try done;
    by destruct (itsGnSecurity mib).
Qed.

Lemma repeater_add_keeps v rep payload : request_ok v -> repetition (access_request v) = Some rep ->
  keeps held mib (repeater_add v rep payload).
Proof.
  intros Hv Hr x Hok. unfold repeater_add. apply wp_when; intros _; [|done]. wp_steps.
  destruct Hok as [Hm Ht Hc Ha Hf Hb Hu [S1 S2 S3 S4 S5 S6 S7]].
  pose proof (alloc_fresh (map fst (m_repetitions x))) as Hfresh.
  set (node := alloc (map fst (m_repetitions x))) in *. set (tp := _ + clock_cast (interval rep)).
  assert (triggers (ManualRuntime.schedule_at tp (RepeaterTrigger node) RepeaterScope (m_runtime x))
    ≡ₚ node :: triggers (m_runtime x)) as E.
  { unfold triggers, ManualRuntime.schedule_at. simpl. by rewrite emplace_perm. }
  assert (forall n, n ∈ triggers (m_runtime x) -> n <> node) as Hne.
  { intros n Hn ->. rewrite Forall_forall in S6. destruct (S6 _ Hn) as (d & Hd & _). apply Hfresh.
    apply list_elem_of_fmap. by exists (node, d). }
  split; simpl; try done.
  - unfold armed, scheduled in *. by rewrite ManualRuntime.deadlines_schedule_other.
  - split.
    + by apply ManualRuntime.ordered_schedule.
    + unfold ManualRuntime.schedule_at. simpl. rewrite emplace_perm. by constructor.
    + simpl. by constructor.
    + by constructor.
    + rewrite E. constructor; [|done]. intros Hn. by destruct (Hne node Hn).
    + rewrite E. constructor.
      * eexists. split; [left|]. simpl. by rewrite Hr.
      * rewrite Forall_forall in *. intros n Hn. destruct (S6 n Hn) as (d & Hd & ?). exists d. split; [by right|done].
    + destruct held as [n|]; [|done]. destruct S7 as [S7 S8]. split; [by right|]. rewrite E.
      apply not_elem_of_cons. split; [|done]. intros ->. by apply Hfresh.
Qed.

Lemma set_up_repetition_keeps v payload : request_ok v -> keeps held mib (set_up_repetition v payload).
Proof.
  intros Hv. unfold set_up_repetition. destruct (repetition _) as [rep|] eqn:E.
  - by apply repeater_add_keeps.
  - intros x Hok. by wp_steps.
Qed.

Lemma generate_field_core (Q : DccField -> Router -> Prop) x :
  (forall f y, same_core x y -> Q f y) -> wp generate_field Q x.
Proof.
  intros HQ. unfold wp, generate_field. destruct (m_dcc_field_generator x) as [g|]; [|by apply HQ].
  destruct (generate_dcc_field g). by apply HQ.
Qed.

Lemma own_packet_payload {X} (pdu : ExtendedPdu X) payload :
  own_packet mib (pdu, payload) -> own_packet mib (set_pdu_payload payload pdu, payload).
Proof. done. Qed.

Lemma request_shb_keeps r payload : request_ok (ShbDataRequest r) -> keeps held mib (request_shb r payload).
Proof.
  intros Hv x Hok. pose proof (proj1 Hv) as Hp. unfold request_shb. wp_steps. destruct payload as [payload|]; [|by wp_steps].
  destruct (accepted _); [|by wp_steps]. apply wp_bind.
  eapply (wp_keeps held mib); [by apply set_up_repetition_keeps|done|]. intros ? x1 Hok1.
  apply wp_bind. unfold create_shb_pdu. wp_steps. rewrite (ok_mib _ _ _ Hok1).
  destruct (request_header_returns default_ShbHeader r Hp) as (pdu & Hpdu & Hs & _ & Hn).
  eapply wp_lift; [exact Hpdu|]. wp_steps. apply generate_field_core. intros f x2 Hc2. wp_steps.
  eapply (wp_keeps held mib); [|by eapply same_core_ok|intros; by wp_steps].
  apply store_or_process_keeps. by split.
Qed.

Lemma gbc_header_type_ok a : is_gbc_type (gbc_header_type a) = true.
Proof. unfold gbc_header_type. by destruct (shape a). Qed.

Lemma accepted_payload r1 r2 payload :
  accepted (replace_code (replace_code Accepted r1) (validate_payload (Some payload) r2)) = true ->
  chunk_size payload <= itsGnMaxSduSize r2.
Proof.
  unfold validate_payload, replace_code, accepted. destruct (Z.gtb_spec (chunk_size payload) (itsGnMaxSduSize r2)); [|done].
  by repeat case_bool_decide.
Qed.

Lemma request_gbc_keeps r area payload : request_ok (GbcDataRequest r area) -> itsGnMaxSduSize mib < 2 ^ 32 ->
  keeps held mib (request_gbc r area payload).
Proof.
  intros Hv Hsdu x Hok. pose proof (proj1 Hv) as Hp. unfold request_gbc. wp_steps. destruct payload as [payload|]; [|by wp_steps].
  rewrite (ok_mib _ _ _ Hok). destruct (accepted _) eqn:Hacc; [|by wp_steps]. apply accepted_payload in Hacc.
  apply wp_bind. eapply (wp_keeps held mib); [by apply set_up_repetition_keeps|done|]. intros ? x1 Hok1.
  apply wp_bind. unfold create_gbc_pdu. wp_steps. rewrite (ok_mib _ _ _ Hok1).
  destruct (request_header_returns default_GeoBroadcastHeader r Hp) as (pdu & Hpdu & Hs & _ & Hn).
  eapply wp_lift; [exact Hpdu|]. apply wp_bind. unfold wp at 1, next_sequence_number. wp_steps.
  eapply (wp_keeps held mib); [| |intros; by wp_steps].
  - apply store_or_process_keeps. split; [split|by split].
    + apply gbc_header_type_ok.
    + unfold packet_length, Pdu_get_length. simpl. pose proof (upper_layers_size payload).
      unfold BasicHeader_length_bytes, CommonHeader_length_bytes, GbcGacHeader_length_bytes.
      rewrite (wrap_id 64); lia.
  - destruct Hok1. by split.
Qed.

Lemma request_keeps v payload : request_ok v -> itsGnMaxSduSize mib < 2 ^ 32 -> keeps held mib (request v payload).
Proof.
  intros Hv Hsdu. destruct v; simpl in *; try (intros x Hok; by wp_steps).
  - by apply request_gbc_keeps.
  - by apply request_shb_keeps.
Qed.

(** * Beacons *)

Lemma beacon_keeps : keeps held mib on_beacon_timer_expired.
Proof.
  intros x Hok. unfold on_beacon_timer_expired. wp_steps. destruct (vanetzaDisableBeaconing _); [by wp_steps|].
  destruct (_ =? _); [by apply reset_beacon_keeps|]. unfold create_beacon_pdu. wp_steps.
  assert (forall (p : Packet BeaconHeader) y, router_ok held mib y -> sendable p ->
    wp (_ ← execute_media_procedures (itsGnIfType (m_mib x));
        _ ← pass_down_to cBroadcastMacAddress (as_Pdu VBeacon p.1) p.2; reset_beacon_timer)
      (fun _ => router_ok held mib) y) as Hsend.
  { intros p y Hy Hs. apply wp_bind, wp_media. apply wp_bind.
    eapply wp_mono; [by apply (pass_down_to_ok VBeacon)|]; cbn beta. intros ? y' Hc. apply reset_beacon_keeps.
    by eapply same_core_ok. }
  destruct (itsGnSecurity _).
  - apply wp_bind, wp_encap_packet; [done|intros e; apply wp_ret; by eapply same_core_ok|].
    intros e msg packet' Hz. apply (Hsend (set_e_secured (Some msg) _, packet')); [by eapply same_core_ok|done].
  - apply (Hsend (_, make_ChunkPacket)); [done|done].
Qed.

End held.

(** * Taking a callback out of the queue *)

Lemma pop_schedule_ok held top rt rt' reps : schedule_ok held rt reps ->
  ManualRuntime.pop_due rt = Some (top, rt') -> schedule_ok held rt' reps.
Proof.
  intros [S1 S2 S3 S4 S5 S6 S7] Hpop.
  destruct (ManualRuntime.pop_due_spec _ _ _ S1 Hpop) as (_ & _ & Hq & Ho & _).
  unfold triggers in *. rewrite Hq in *. cbn [omap list_omap] in *. inversion S2; subst.
  destruct (trigger_of top) as [n|]; [|by split].
  inversion S5; subst. inversion S6; subst. split; try done. destruct held; [|done]. set_solver.
Qed.

(** The callback that was taken out has no other in the queue. *)
Lemma pop_trigger top n rt rt' reps : schedule_ok None rt reps ->
  ManualRuntime.pop_due rt = Some (top, rt') -> ManualRuntime.callback top = RepeaterTrigger n ->
  schedule_ok (Some n) rt' reps /\
  exists d, (n, d) ∈ reps /\ is_Some (repetition (access_request (r_request d))).
Proof.
  intros Hs Hpop Hcb. pose proof (pop_schedule_ok _ _ _ _ _ Hs Hpop) as [K1 K2 K3 K4 K5 K6 K7].
  destruct Hs as [S1 S2 S3 S4 S5 S6 S7].
  destruct (ManualRuntime.pop_due_spec _ _ _ S1 Hpop) as (_ & _ & Hq & Ho & _).
  unfold triggers in S5, S6. rewrite Hq in S5, S6. cbn [omap list_omap] in S5, S6.
  replace (trigger_of top) with (Some n) in S5, S6 by (unfold trigger_of; by rewrite Hcb).
  inversion S5; subst. inversion S6 as [|? ? (d & Hd & Hr)]; subst. split; [|by exists d].
  split; try done. split; [|done]. apply list_elem_of_fmap. by exists (n, d).
Qed.

Lemma pop_deadlines top (rt rt' : Runtime) (sc : Scope) : ManualRuntime.ordered rt -> ManualRuntime.pop_due rt = Some (top, rt') ->
  ManualRuntime.deadlines sc rt
  = (if decide (ManualRuntime.scope top = sc) then [ManualRuntime.deadline top] else []) ++ ManualRuntime.deadlines sc rt'.
Proof.
  intros Ho Hpop. destruct (ManualRuntime.pop_due_spec _ _ _ Ho Hpop) as (_ & _ & Hq & _).
  unfold ManualRuntime.deadlines. rewrite Hq, filter_cons. by destruct (decide _).
Qed.

Lemma pop_due_fewer top (rt rt' : Runtime) : ManualRuntime.ordered rt -> ManualRuntime.pop_due rt = Some (top, rt') ->
  due rt = S (due rt').
Proof.
  intros Ho Hpop. destruct (ManualRuntime.pop_due_spec _ _ _ Ho Hpop) as (Hd & Hn & Hq & _).
  unfold due. by rewrite Hq, Hn, filter_cons, decide_True.
Qed.

Lemma pop_router_ok mib top rt x : router_ok None mib x ->
  ManualRuntime.pop_due (m_runtime x) = Some (top, rt) -> ManualRuntime.callback top <> CbfFlush ->
  armed (CbfPacketBuffer.m_timers (m_cbf_buffer x)) rt.
Proof.
  intros [Hm Ht Hc Ha Hf Hb Hu Hsch] Hpop Hcb. pose proof Hsch as [S1 S2 _ _ _ _ _].
  destruct (ManualRuntime.pop_due_spec _ _ _ S1 Hpop) as (_ & _ & Hq & _).
  rewrite Hq in S2. inversion S2 as [|? ? Hsc]; subst.
  pose proof (pop_deadlines _ _ _ CbfScope S1 Hpop) as Hd.
  rewrite decide_False in Hd. 2: { rewrite Hsc. by destruct (ManualRuntime.callback top). }
  unfold armed, scheduled in *. simpl in *. by rewrite <- Hd.
Qed.

(** * The repeater *)

Lemma find_repetition_spec n d reps : NoDup (map fst reps) -> (n, d) ∈ reps -> find_repetition n reps = Some d.
Proof.
  intros Hnd Hin. unfold find_repetition. induction reps as [|[k e] reps IH]; [by apply not_elem_of_nil in Hin|].
  inversion Hnd as [|? ? Hk Hnd']; subst. simpl. destruct (decide (k = n)) as [->|Hne]; simpl.
  - apply elem_of_cons in Hin as [Heq|Hin]; [by simplify_eq|]. destruct Hk. apply list_elem_of_fmap. by exists (n, d).
  - apply elem_of_cons in Hin as [Heq|Hin]; [by simplify_eq|]. specialize (IH Hnd' Hin).
    by destruct (list_find _ reps) as [[]|].
Qed.

Lemma write_repetition_nodes n d reps : map fst (write_repetition n d reps) = map fst reps.
Proof.
  unfold write_repetition. rewrite map_map. apply map_ext. intros [k e]. simpl.
  by destruct (decide (k = n)) as [->|].
Qed.

Lemma write_repetition_ok n d rt reps : request_ok (r_request d) ->
  schedule_ok (Some n) rt reps -> schedule_ok (Some n) rt (write_repetition n d reps).
Proof.
  intros Hd [S1 S2 S3 S4 S5 S6 [S7 S8]]. split; try done; try (by rewrite write_repetition_nodes).
  - rewrite Forall_forall in *. intros r (r0 & -> & Hr)%list_elem_of_fmap. case_decide; [done|]. by apply S4.
  - rewrite Forall_forall in *. intros k Hk. destruct (S6 k Hk) as (e & He & Hr). exists e. split; [|done].
    apply list_elem_of_fmap. exists (k, e). rewrite decide_False; [done|]. simpl. intros ->. done.
Qed.

Lemma erase_repetition_ok n rt reps :
  schedule_ok (Some n) rt reps -> schedule_ok None rt (erase_repetition n reps).
Proof.
  intros [S1 S2 S3 S4 S5 S6 [S7 S8]]. unfold erase_repetition. split; try done.
  - clear -S3. induction reps as [|r reps IH]; [done|]. inversion S3 as [|? ? Hr Hn]; subst. rewrite filter_cons.
    destruct (decide _); [|by auto]. simpl. constructor; [|by auto].
    intros (r' & E & [_ Hin]%list_elem_of_filter)%list_elem_of_fmap. apply Hr. rewrite E. by apply list_elem_of_fmap_2.
  - rewrite Forall_forall in *. intros r [_ Hr]%list_elem_of_filter. by apply S4.
  - rewrite Forall_forall in *. intros k Hk. destruct (S6 k Hk) as (e & He & Hr). exists e. split; [|done].
    apply list_elem_of_filter. split; [|done]. simpl. intros ->. done.
Qed.

Lemma next_request_ok delayed rep v : repetition (access_request v) = Some rep ->
  request_ok v -> request_ok (next_request delayed rep v).
Proof.
  intros Hr [Hp Hi]. rewrite Hr in Hi. unfold request_ok, next_request.
  assert (interval (decrement_by_one rep) = interval rep) as Ei by (unfold decrement_by_one; by case_match).
  destruct v; simpl in *; case_match; simpl; split; rewrite ?Ei; done.
Qed.

(** * The loop of the scheduler *)

Section loop.
Context (mib : MIB) (Hbeacon : beacon_period_ok mib) (Hsdu : itsGnMaxSduSize mib < 2 ^ 32).

Lemma wp_calm {X} (m : router X) P x : calm mib m -> m_mib x = mib -> wp m (fun _ => P) x ->
  wp m (fun _ x' => P x' /\ calmer (m_runtime x) (m_runtime x')) x.
Proof.
  intros Hm Hx Hwp. unfold wp in *. destruct (Hm x Hx) as (_ & Hc & _). by destruct (m x) as [[] ?].
Qed.

Lemma repeater_trigger_ok n invocation x d : router_ok (Some n) mib x ->
  (n, d) ∈ m_repetitions x -> is_Some (repetition (access_request (r_request d))) ->
  wp (repeater_trigger dispatch_repetition n invocation)
    (fun _ x' => router_ok None mib x' /\ calmer (m_runtime x) (m_runtime x')) x.
Proof.
  intros Hok Hin [rep Hrep]. pose proof Hok as [Hm Ht Hc Ha Hf Hb Hu Hsch]. unfold repeater_trigger. wp_steps.
  eapply wp_defined; [apply find_repetition_spec; [apply Hsch|exact Hin]|].
  apply wp_bind. eapply wp_defined; [exact Hrep|]. wp_steps. cbn [m_repetitions m_runtime].
  set (v := next_request _ _ _).
  assert (request_ok v) as Hv.
  { apply next_request_ok; [done|]. pose proof (sch_requests _ _ _ Hsch) as Hr. rewrite Forall_forall in Hr.
    exact (Hr _ Hin). }
  set (y := set_m_repetitions _ x).
  assert (router_ok (Some n) mib y) as Hy.
  { split; simpl; try done. by apply write_repetition_ok. }
  unfold dispatch_repetition. apply wp_bind.
  eapply wp_mono; [apply (wp_calm _ (router_ok (Some n) mib)); [by apply calm_request|done|]|].
  { by apply request_keeps. }
  cbn beta. intros ? z [Hz Hcz]. wp_steps. split; [|exact Hcz].
  destruct Hz as [Hm' Ht' Hc' Ha' Hf' Hb' Hu' Hsch']. split; simpl; try done. by apply erase_repetition_ok.
Qed.

Lemma rearmed_calmer rt rt' : rearmed rt rt' -> calmer rt rt'.
Proof.
  intros [->|(tp & Htp & ->)]; [done|]. etrans; [apply (calmer_cancel CbfScope)|].
  by apply calmer_schedule.
Qed.

(** One round of the loop. *)
Lemma run_callback_ok top rt x : router_ok None mib x ->
  ManualRuntime.pop_due (m_runtime x) = Some (top, rt) ->
  wp (run_callback (ManualRuntime.callback top) (ManualRuntime.deadline top))
    (fun _ x' => router_ok None mib x' /\ calmer rt (m_runtime x')) (set_m_runtime rt x).
Proof.
  intros Hok Hpop. pose proof Hok as [Hm Ht Hc Ha Hf Hb Hu Hsch].
  pose proof (pop_schedule_ok _ _ _ _ _ Hsch Hpop) as Hsch'. pose proof (pop_router_ok _ _ _ _ Hok Hpop) as Ha'.
  destruct (ManualRuntime.callback top) as [| |n] eqn:Hcb; cbn [run_callback].
  - apply (wp_calm _ (router_ok None mib)); [by apply calm_beacon|done|]. apply beacon_keeps. split; try done. by apply Ha'.
  - eapply wp_mono; [apply (flush_cbf_ok None mib _ (m_runtime x))|].
    + destruct Hok. by split.
    + cbn [m_runtime set_m_runtime]. pose proof (proj1 Ha) as Hl. change cbf_scope with CbfScope in Hl.
      rewrite (pop_deadlines _ _ _ CbfScope (sch_ordered _ _ _ Hsch) Hpop), length_app in Hl. lia.
    + done.
    + cbn beta. intros ? y [Hy Hr]. split; [done|]. by apply rearmed_calmer.
  - destruct (pop_trigger _ _ _ _ _ Hsch Hpop Hcb) as [Hsch2 (d & Hd & Hrep)].
    apply (repeater_trigger_ok n (ManualRuntime.deadline top) (set_m_runtime rt x) d); [|done|done].
    split; try done. by apply Ha'.
Qed.

(** Every round takes a callback that is due, and none is added. *)
Lemma router_trigger_ok fuel x : router_ok None mib x -> (due (m_runtime x) < fuel)%nat ->
  wp (trigger fuel) (fun _ x' => router_ok None mib x' /\ due (m_runtime x') = 0%nat /\
    ManualRuntime.m_now (m_runtime x') = ManualRuntime.m_now (m_runtime x)) x.
Proof.
  revert x. induction fuel as [|fuel IH]; intros x Hok Hd; [lia|]. cbn [trigger]. wp_steps.
  pose proof (sch_ordered _ _ _ (ok_schedule _ _ _ Hok)) as Ho.
  destruct (ManualRuntime.pop_due (m_runtime x)) as [[top rt]|] eqn:Hpop.
  - wp_steps. eapply wp_mono; [by apply run_callback_ok|]. cbn beta. intros ? y [Hy [Hn Hc]].
    pose proof (pop_due_fewer _ _ _ Ho Hpop) as Hf.
    destruct (ManualRuntime.pop_due_spec _ _ _ Ho Hpop) as (_ & Hn' & _).
    eapply wp_mono; [apply IH; [done|lia]|]. cbn beta. intros ? z (Hz & Hdz & Hnz). split_and!; [done|done|congruence].
  - wp_steps. split_and!; [done| |done]. apply ManualRuntime.pop_due_none in Hpop; [|done].
    unfold due. induction Hpop as [|c queue Hc _ IHq]; [done|]. rewrite filter_cons, decide_False by (simpl; lia). done.
Qed.

Lemma trigger_at_ok fuel tp x : router_ok None mib x ->
  (length (ManualRuntime.m_queue (m_runtime x)) < fuel)%nat ->
  wp (trigger fuel) (fun _ x' => router_ok None mib x' /\ due (m_runtime x') = 0%nat /\
    ManualRuntime.m_now (m_runtime x') = tp) (set_m_runtime (ManualRuntime.set_now tp (m_runtime x)) x).
Proof.
  intros Hok Hfuel. set (y := set_m_runtime _ x). assert (router_ok None mib y) as Hy.
  { destruct Hok as [Hm Ht Hc Ha Hf Hb Hu [S1 S2 S3 S4 S5 S6 S7]]. split; try done. }
  eapply wp_mono; [apply router_trigger_ok; [exact Hy|]|by auto]. eapply Nat.le_lt_trans; [|exact Hfuel].
  unfold due, y. simpl. rewrite length_filter. lia.
Qed.

Lemma router_advance_ok fuel tp x : router_ok None mib x -> ManualRuntime.m_now (m_runtime x) <= tp ->
  (length (ManualRuntime.m_queue (m_runtime x)) < fuel)%nat ->
  wp (advance fuel tp) (fun _ x' => router_ok None mib x' /\ due (m_runtime x') = 0%nat /\
    ManualRuntime.m_now (m_runtime x') = tp) x.
Proof.
  intros Hok Htp Hfuel. unfold advance. wp_steps. apply wp_assert; [lia|]. wp_steps. by apply trigger_at_ok.
Qed.

Lemma advance_by_ok fuel d x : router_ok None mib x ->
  (length (ManualRuntime.m_queue (m_runtime x)) < fuel)%nat ->
  wp (advance_by fuel d) (fun _ x' => router_ok None mib x' /\ due (m_runtime x') = 0%nat /\
    ManualRuntime.m_now (m_runtime x') = ManualRuntime.m_now (m_runtime x) + d) x.
Proof. intros Hok Hfuel. unfold advance_by. wp_steps. by apply trigger_at_ok. Qed.

End loop.

End run.
