(* ===== verification/RouterTheorems.v ===== *)
(** * Theorems about the router

    The router as the application and the access layer see it: any sequence of calls of
    its member functions and of its scheduler, from the state that the constructor
    leaves. *)

From Stdlib Require Import ZArith Lia Sorting.Sorted.
From stdpp Require Import prelude strings gmap.
From S2P Require Import Prelude GeoSerial GeoHeaders GeoHeadersOk GeoPdu GeoPduOk Double Asn1Wrapper Runtime NetPackets.
From S2P Require Import GeoArea GeoRequest GeoContainers SoftState CbfBuffer CbfBufferOk CbfTheorems.
From S2P Require Import LocationTable LocationTheorems GeoPending GeoIndication GeoSamples.
From S2P Require Import RouterState RouterForward RouterIndicate Router RouterOk RouterIndicateOk RouterSteady RouterRunOk.

Open Scope Z_scope.

Section router.
Context `{SA : SecuredArchive} `{SE : !SecurityEntity} `{DccFieldGenerator} `{Random} `{Geodesy} `{PositionUnits}.
Context `{T1 : !HeapTop MacAddress} `{T2 : !HeapTop CbfPacketIdentifier} `{A : Allocator}.

(** * Calls *)

Inductive call :=
  | Indicate (packet : CohesivePacket.CohesivePacket) (from to : MacAddress)
  | Request (v : DataRequestVariant) (payload : option DownPacket)
  | UpdatePosition (position_fix : PositionFix)
  | SetAddress (addr : Address)
  | SetTransportHandler (proto : UpperProtocol) (ifc : option nat)
  | SetSecurityEntity (e : option entity)
  | SetAccessInterface (ifc : option nat)
  | SetDccFieldGenerator (dcc : option generator)
  | SetRandomSeed (s : Z)
  | TriggerAt (tp : Z)
  | TriggerAfter (d : Z).

Definition perform (c : call) : router unit :=
  match c with
  | Indicate packet from to => indicate (Cohesive packet) from to
  | Request v payload => _ ← request v payload; mret ()
  | UpdatePosition position_fix => update_position position_fix
  | SetAddress addr => set_address addr
  | SetTransportHandler proto ifc => set_transport_handler proto ifc
  | SetSecurityEntity e => set_security_entity e
  | SetAccessInterface ifc => set_access_interface ifc
  | SetDccFieldGenerator dcc => set_dcc_field_generator dcc
  | SetRandomSeed s => set_random_seed s
  | TriggerAt tp => fuel ← gets enough; advance fuel tp
  | TriggerAfter d => fuel ← gets enough; advance_by fuel d
  end.

(** Received octets fit into memory, requests name a transport protocol and repeat at most
    once a tick of the clock, and the clock does not go back. *)
Definition call_ok (c : call) (x : Router) : Prop :=
  match c with
  | Indicate packet _ _ => received_ok packet
  | Request v _ => request_ok v
  | TriggerAt tp => ManualRuntime.m_now (m_runtime x) <= tp
  | TriggerAfter d => 0 <= d
  | _ => True
  end.

(** What can become of a router that was made with [mib]. *)
Inductive reachable (mib : MIB) : Router -> Prop :=
  | reachable_made init : reachable mib (make_Router (ManualRuntime.make_ManualRuntime init) mib)
  | reachable_call c x x' : reachable mib x -> call_ok c x -> perform c x = (Returns (), x') ->
      reachable mib x'.

(** The period of the beacon is positive, and sizes are of type unsigned. *)
Definition mib_ok (mib : MIB) : Prop := beacon_period_ok mib /\ itsGnMaxSduSize mib < 2 ^ 32.

Context `{!SecuredArchiveOk} `{!SecurityEntityOk} `{!HeapTopOk MacAddress T1} `{!HeapTopOk CbfPacketIdentifier T2}
  `{!AllocatorOk A}.

Lemma made_ok mib init : router_ok None mib (make_Router (ManualRuntime.make_ManualRuntime init) mib).
Proof.
  unfold make_Router. set (x := init_Router _ mib).
  assert (router_ok None mib x) as Hx.
  { split; try done; simpl.
    - apply empty_ok; [unfold create_cbf_counter; destruct (vanetzaFadingCbfCounter mib); [apply coherent_empty|done]|].
      unfold u32, wrap. pose proof (Z.mod_pos_bound (itsGnCbfPacketBufferSize mib * 1024) (2 ^ 32)). lia.
    - split; [simpl; lia|by left].
    - split; simpl; try done; constructor. }
  assert (wp construct_Router (fun _ => router_ok None mib) x) as Hwp.
  { unfold construct_Router. wp_steps. apply wp_when; intros _.
    2: { destruct Hx. by split. }
    eapply (wp_keeps None mib); [|done|].
    - destruct (_ >? _); [|apply reset_beacon_after_keeps]. intros y Hy. apply wp_bind. unfold wp, draw_real.
      destruct (uniform_real _) as [r g]. apply reset_beacon_after_keeps. by eapply same_core_ok.
    - intros ? y Hy. wp_steps. destruct Hy. by split. }
  unfold wp in Hwp. by destruct (construct_Router x) as [[] y].
Qed.

Lemma perform_ok mib c x : mib_ok mib -> router_ok None mib x -> call_ok c x ->
  wp (perform c) (fun _ => router_ok None mib) x.
Proof.
  intros [Hb Hs] Hok Hc. destruct c; simpl in *; try (by eapply same_core_ok).
  - by apply indicate_keeps.
  - apply wp_bind. eapply (wp_keeps None mib); [by apply request_keeps|done|]. by intros.
  - unfold update_position. wp_steps. destruct Hok. by split.
  - unfold set_address. wp_steps. destruct Hok. by split.
  - unfold set_transport_handler. wp_steps. destruct Hok. by split.
  - wp_steps. eapply wp_mono; [apply (router_advance_ok mib); [done|done|done|done|unfold enough; lia]|]. by intros ? y [? _].
  - wp_steps. eapply wp_mono; [apply (advance_by_ok mib); [done|done|done|unfold enough; lia]|]. by intros ? y [? _].
Qed.

Lemma reachable_ok mib x : mib_ok mib -> reachable mib x -> router_ok None mib x.
Proof.
  intros Hm. induction 1 as [init|c x x' _ IH Hc Hp]; [apply made_ok|].
  pose proof (perform_ok mib c x Hm IH Hc) as Hwp. unfold wp in Hwp. by rewrite Hp in Hwp.
Qed.

Lemma reachable_after mib c x : mib_ok mib -> reachable mib x -> call_ok c x -> reachable mib (snd (perform c x)).
Proof.
  intros Hm Hr Hc. pose proof (perform_ok mib c x Hm (reachable_ok mib x Hm Hr) Hc) as Hwp. unfold wp in Hwp.
  destruct (perform c x) as [[[]| |] x'] eqn:E; [|done..]. by eapply reachable_call.
Qed.

(** * The router never fails *)


(** C27. The invariant of the buffers, tables and timers in every state that can be
    reached: the location table is coherent; the buffer of packets in contention counts
    their octets, holds at most its capacity or a single packet, and has its timer set
    while it is not empty; the queue of the scheduler is in order; and every callback of
    the repeater has a repetition of its own that is not over. *)
Theorem reachable_router_consistent (mib : MIB) (x : Router) : mib_ok mib -> reachable mib x ->
  let b := m_cbf_buffer x in
  coherent (m_location_table x) /\
  (CbfPacketBuffer.m_stored_bytes b = total (CbfPacketBuffer.m_packets b) /\
   (total (CbfPacketBuffer.m_packets b) <= CbfPacketBuffer.m_capacity_bytes b \/
    (length (CbfPacketBuffer.m_packets b) <= 1)%nat) /\
   (CbfPacketBuffer.m_packets b = [] \/ exists d, ManualRuntime.deadlines CbfScope (m_runtime x) = [d])) /\
  ManualRuntime.ordered (m_runtime x) /\
  (NoDup (triggers (m_runtime x)) /\
   forall n, n ∈ triggers (m_runtime x) -> exists d, find_repetition n (m_repetitions x) = Some d /\
     is_Some (repetition (access_request (r_request d)))).
Proof.
  intros Hm Hr b. destruct (reachable_ok mib x Hm Hr) as [_ Ht Hc Ha _ _ _ [S1 S2 S3 S4 S5 S6 _]].
  split_and!; try done.
  - apply Hc.
  - apply Hc.
  - destruct Ha as [_ [Ha|(d & Hd & _)]]; [left|right; by exists d].
    pose proof (linked_length _ _ (ok_linked _ Hc)) as Hl. rewrite Ha in Hl. by destruct (CbfPacketBuffer.m_packets _).
  - intros n Hn. rewrite Forall_forall in S6. destruct (S6 n Hn) as (d & Hd & Hs). exists d. split; [|done].
    by apply find_repetition_spec.
Qed.

(** C12. Triggering the scheduler of a router comes to an end after at most a round for every
    callback in its queue; then everything that was due has been done, and what is in the
    queue lies in the future. *)
Theorem scheduler_drains (mib : MIB) (d : Z) (x : Router) : mib_ok mib -> reachable mib x -> 0 <= d ->
  exists x', advance_by (enough x) d x = (Returns (), x') /\
    ManualRuntime.m_now (m_runtime x') = ManualRuntime.m_now (m_runtime x) + d /\
    Forall (fun c => ManualRuntime.m_now (m_runtime x') < ManualRuntime.deadline c) (ManualRuntime.m_queue (m_runtime x')).
Proof.
  intros [Hb Hs] Hr Hd. pose proof (reachable_ok mib x (conj Hb Hs) Hr) as Hok.
  pose proof (advance_by_ok mib Hb Hs (enough x) d x Hok) as Hwp. specialize (Hwp ltac:(unfold enough; lia)).
  apply wp_returns in Hwp as ([] & x' & E & _ & Hdue & Hn). exists x'. split_and!; [done|done|].
  unfold due in Hdue. apply length_zero_iff_nil in Hdue. apply Forall_forall. intros c Hc.
  destruct (Z.le_gt_cases (ManualRuntime.deadline c) (ManualRuntime.m_now (m_runtime x'))) as [Hle|]; [|lia].
  assert (c ∈ filter (fun c => ManualRuntime.deadline c <= ManualRuntime.m_now (m_runtime x'))
    (ManualRuntime.m_queue (m_runtime x'))) as Hin by by apply list_elem_of_filter.
  rewrite Hdue in Hin. by apply not_elem_of_nil in Hin.
Qed.

(** * Strict security *)

(** Nothing but the security entity, and a report of the drop. *)
Definition only_dropped (x x' : Router) : Prop :=
  exists e evs, x' = set_m_events (m_events x ++ evs) (set_m_security_entity e x) /\
    (evs = [] \/ exists r, evs = [Packet_dropped r]).

Lemma only_dropped_refl x : only_dropped x x.
Proof. exists (m_security_entity x), []. split; [|by left]. rewrite app_nil_r. by destruct x. Qed.

Lemma only_dropped_event r e x : wp (packet_dropped r) (fun _ => only_dropped x) (set_m_security_entity e x).
Proof. unfold packet_dropped, emit. wp_steps. exists e, [Packet_dropped r]. split; [done|]. right. by exists r. Qed.

Lemma only_dropped_here r x : wp (packet_dropped r) (fun _ => only_dropped x) x.
Proof.
  pose proof (only_dropped_event r (m_security_entity x) x) as Hw.
  replace (set_m_security_entity (m_security_entity x) x) with x in Hw by by destruct x. exact Hw.
Qed.

(** The secured message that is read from a packet. *)
Definition carried_message (packet : CohesivePacket.CohesivePacket) (from to : MacAddress) : option SecuredMessage :=
  let '(basic, ctx) := ctx_parse_basic (make_Deserialize packet (mk_LinkLayer from to)) in
  match basic with
  | Some basic => if basic_next_header basic =? NextHeaderBasic_Secured then fst (ctx_parse_secured ctx) else None
  | None => None
  end.

(** Parsing does not look at the service primitive. *)
Lemma parse_secured_primitive ind ctx : fst (ctx_parse_secured (set_service_primitive ind ctx)) = fst (ctx_parse_secured ctx).
Proof.
  unfold ctx_parse_secured. destruct ctx as [ll si p k]. destruct k as [packet parser|y|u v w|y]; cbn; try done.
  destruct (parse_secured None parser) as [[n tmp] parser']. by destruct (n >? 0).
Qed.

(** C11. With security switched on and strict handling of reports, a packet that is not
    secured, or whose own secured message the security entity does not report as a success,
    whatever the entity says of other messages, has no effect on the router: no table,
    buffer, timer or memory changes, and nothing is sent, forwarded or passed up; only the
    entity may change, and a hook may be told that the packet was dropped. *)
Theorem strict_router_ignores_unauthenticated (packet : CohesivePacket.CohesivePacket) (from to : MacAddress) (x : Router) :
  itsGnSecurity (m_mib x) = true -> itsGnSnDecapResultHandling (m_mib x) = Strict ->
  (forall e m c, m_security_entity x = Some e -> carried_message packet from to = Some m ->
    fst (decapsulate_packet m e) = Returns c -> is_successful (report c) = false) ->
  exists x', indicate (Cohesive packet) from to x = (Returns (), x') /\ only_dropped x x'.
Proof.
  intros Hsec Hstrict Hrep. assert (wp (indicate (Cohesive packet) from to) (fun _ => only_dropped x) x) as Hwp;
    [|apply wp_returns in Hwp as ([] & x' & E & Hd); by exists x'].
  unfold indicate, indicate_basic. unfold carried_message in Hrep.
  destruct (ctx_parse_basic _) as [[basic|] ctx]; wp_steps; [|apply only_dropped_here].
  destruct (negb _); [apply only_dropped_here|]. destruct (_ =? NextHeaderBasic_Secured).
  - unfold indicate_secured. rewrite <- (parse_secured_primitive (set_remaining (lifetime basic) (hop_limit basic) (service_primitive ctx))) in Hrep.
    destruct (ctx_parse_secured _) as [[m|] ctx']; [|apply only_dropped_here].
    wp_steps. destruct (m_security_entity x) as [e|] eqn:He; [|apply only_dropped_here].
    specialize (Hrep e m). destruct (decapsulate_returns m e) as (c & _ & Hc & _ & _).
    destruct (decapsulate_packet m e) as [r e']. simpl in Hc. subst r. wp_steps. eapply wp_lift; [done|]. wp_steps.
    rewrite (Hrep c) by done. cbn [m_mib set_m_security_entity]. rewrite Hstrict. apply only_dropped_event.
  - destruct (_ =? NextHeaderBasic_Common); [|wp_steps; apply only_dropped_refl].
    rewrite Hsec, Hstrict. apply only_dropped_here.
Qed.

(** * Beacons *)

Definition beacon_set (rt : Runtime) : Prop := ManualRuntime.deadlines RouterScope rt <> [].

(** The timer of the beacon is not lost. *)
Definition beacon_stays (rt rt' : Runtime) : Prop := beacon_set rt -> beacon_set rt'.

#[local] Instance beacon_stays_refl : Reflexive beacon_stays.
Proof. intros rt Hs. exact Hs. Qed.

#[local] Instance beacon_stays_trans : Transitive beacon_stays.
Proof. intros rt1 rt2 rt3 H1' H2' Hs. apply H2', H1', Hs. Qed.

Lemma beacon_stays_reset mib : steady mib beacon_stays True reset_beacon_timer.
Proof.
  intros x Hx. unfold reset_beacon_timer, get_mib, gets, draw_real, reset_beacon_timer_after, modify.
  unfold mbind, state_cpp_bind. destruct (uniform_real _) as [r g]. simpl.
  split_and!; [done| |by apply extends_quiet]. intros _.
  unfold beacon_set, ManualRuntime.schedule_after. rewrite ManualRuntime.deadlines_schedule_empty; [done|].
  by rewrite ManualRuntime.deadlines_cancel, decide_True.
Qed.

Lemma beacon_stays_schedule tp cb sc rt : sc <> RouterScope -> beacon_stays rt (ManualRuntime.schedule_at tp cb sc rt).
Proof. intros Hsc. unfold beacon_stays, beacon_set. by rewrite ManualRuntime.deadlines_schedule_other by congruence. Qed.

Lemma beacon_stays_cbf rt tp :
  beacon_stays rt (ManualRuntime.schedule_at tp CbfFlush CbfScope (ManualRuntime.cancel CbfScope rt)).
Proof.
  etrans; [|by apply beacon_stays_schedule]. unfold beacon_stays, beacon_set.
  by rewrite ManualRuntime.deadlines_cancel, decide_False.
Qed.

Lemma beacon_stays_repetition mib v payload : steady mib beacon_stays True (set_up_repetition v payload).
Proof.
  unfold set_up_repetition, repeater_add. destruct (repetition _) as [rep|]; [|by apply steady_ret; apply _].
  apply steady_when; [apply _|]. intros x Hx.
  split_and!; [done|by apply beacon_stays_schedule|by apply extends_quiet].
Qed.

(** Without security the timer of the beacon is set again by its own callback. *)
Lemma beacon_returns mib x : m_mib x = mib -> vanetzaDisableBeaconing mib = false -> itsGnSecurity mib = false ->
  wp on_beacon_timer_expired (fun _ y => beacon_set (m_runtime y)) x.
Proof.
  intros Hm Hd Hs. unfold on_beacon_timer_expired. wp_steps. rewrite Hm, Hd, Hs.
  assert (forall y, wp reset_beacon_timer (fun _ z => beacon_set (m_runtime z)) y) as Hreset.
  { intros y. unfold reset_beacon_timer. wp_steps. unfold wp at 1, draw_real. destruct (uniform_real _).
    unfold reset_beacon_timer_after. wp_steps. unfold beacon_set, ManualRuntime.schedule_after. simpl.
    rewrite ManualRuntime.deadlines_schedule_empty; [done|]. by rewrite ManualRuntime.deadlines_cancel, decide_True. }
  destruct (_ =? _); [apply Hreset|]. unfold create_beacon_pdu. wp_steps. apply wp_media. apply wp_bind.
  eapply wp_mono; [eapply (pass_down_to_ok VBeacon cBroadcastMacAddress (_, _)); done|]. intros. apply Hreset.
Qed.

Lemma repeater_beacon mib n invocation x d rep a y : m_mib x = mib -> NoDup (map fst (m_repetitions x)) ->
  (n, d) ∈ m_repetitions x -> repetition (access_request (r_request d)) = Some rep -> request_ok (r_request d) ->
  repeater_trigger dispatch_repetition n invocation x = (Returns a, y) -> beacon_stays (m_runtime x) (m_runtime y).
Proof.
  intros Hm Hnd Hin Hrep Hreq. unfold repeater_trigger, gets, mbind, state_cpp_bind.
  rewrite (find_repetition_spec n d) by done. cbn [defined mret state_cpp_ret].
  rewrite Hrep. cbn [defined mret state_cpp_ret now gets modify].
  set (v := next_request _ _ _). assert (request_ok v) as Hv by by apply next_request_ok.
  set (z := set_m_repetitions _ _).
  destruct (steady_request mib beacon_stays True (beacon_stays_reset mib)
    (fun v p _ => beacon_stays_repetition mib v p) v (r_payload d) Hv z Hm) as (_ & Hst & _).
  unfold dispatch_repetition, mbind, state_cpp_bind, modify. destruct (request v (r_payload d) z) as [[] w]; [|done..].
  cbn [mret state_cpp_ret]. intros [= _ <-]. exact Hst.
Qed.

Lemma round_beacon mib top rt x : router_ok None mib x -> beacon_set (m_runtime x) -> mib_ok mib ->
  vanetzaDisableBeaconing mib = false -> itsGnSecurity mib = false ->
  ManualRuntime.pop_due (m_runtime x) = Some (top, rt) ->
  wp (run_callback (ManualRuntime.callback top) (ManualRuntime.deadline top))
    (fun _ x' => router_ok None mib x' /\ beacon_set (m_runtime x')) (set_m_runtime rt x).
Proof.
  intros Hok Hset [Hb Hsdu] Hd Hs Hpop. pose proof Hok as [Hm _ _ _ _ _ _ Hsch].
  pose proof (run_callback_ok mib Hb Hsdu top rt x Hok Hpop) as Hwp. apply wp_returns in Hwp as (a & y & E & Hy & _).
  unfold wp. rewrite E. split; [done|].
  destruct (ManualRuntime.pop_due_spec _ _ _ (sch_ordered _ _ _ Hsch) Hpop) as (_ & _ & Hq & _).
  pose proof (sch_scopes _ _ _ Hsch) as Hsc. rewrite Hq in Hsc. inversion Hsc as [|? ? Hsc']; subst.
  unfold beacon_set in Hset. rewrite (pop_deadlines _ _ _ RouterScope (sch_ordered _ _ _ Hsch) Hpop), Hsc' in Hset.
  assert (beacon_stays rt (m_runtime y) -> ManualRuntime.callback top <> BeaconTimer -> beacon_set (m_runtime y)) as Hstay.
  { intros Hst Hne. apply Hst. unfold beacon_set. by destruct (ManualRuntime.callback top). }
  destruct (ManualRuntime.callback top) as [| |n] eqn:Hcb; cbn [run_callback] in E.
  - pose proof (beacon_returns (m_mib x) (set_m_runtime rt x) eq_refl Hd Hs) as Hw. unfold wp in Hw. by rewrite E in Hw.
  - apply Hstay; [|done]. pose proof (steady_flush_cbf (m_mib x) beacon_stays True beacon_stays_cbf (set_m_runtime rt x) eq_refl) as (_ & Hst & _).
    by rewrite E in Hst.
  - apply Hstay; [|done]. destruct (pop_trigger _ _ _ _ _ Hsch Hpop Hcb) as [Hsch2 (d & Hin & [rep Hrep])].
    apply (repeater_beacon (m_mib x) n (ManualRuntime.deadline top) (set_m_runtime rt x) d rep a y); try done; [apply Hsch|].
    pose proof (sch_requests _ _ _ Hsch) as Hr. rewrite Forall_forall in Hr. exact (Hr _ Hin).
Qed.

Lemma trigger_beacon mib fuel x : router_ok None mib x -> beacon_set (m_runtime x) -> mib_ok mib ->
  vanetzaDisableBeaconing mib = false -> itsGnSecurity mib = false ->
  match trigger fuel x with (Returns _, x') => beacon_set (m_runtime x') | _ => True end.
Proof.
  intros Hok Hset Hm Hd Hs. revert x Hok Hset. induction fuel as [|fuel IH]; intros x Hok Hset; [done|].
  cbn [trigger]. unfold mbind, state_cpp_bind, gets, modify.
  destruct (ManualRuntime.pop_due (m_runtime x)) as [[top rt]|] eqn:Hpop; [|done].
  pose proof (round_beacon mib top rt x Hok Hset Hm Hd Hs Hpop) as Hwp. unfold wp in Hwp.
  destruct (run_callback _ _ _) as [[] y]; [|done..]. destruct Hwp. by apply IH.
Qed.

Lemma perform_beacon mib c x x' : mib_ok mib -> vanetzaDisableBeaconing mib = false -> itsGnSecurity mib = false ->
  router_ok None mib x -> call_ok c x -> perform c x = (Returns (), x') -> beacon_stays (m_runtime x) (m_runtime x').
Proof.
  intros Hm Hd Hs Hok Hc. pose proof (ok_mib _ _ _ Hok) as Hx.
  assert (forall m : router unit, steady mib beacon_stays True m -> m x = (Returns (), x') -> beacon_stays (m_runtime x) (m_runtime x')) as Hst.
  { intros m Hst E. destruct (Hst x Hx) as (_ & Hr & _). by rewrite E in Hr. }
  assert (forall tp, trigger (enough x) (set_m_runtime (ManualRuntime.set_now tp (m_runtime x)) x) = (Returns (), x') ->
    beacon_stays (m_runtime x) (m_runtime x')) as Htr.
  { intros tp E Hset. set (y := set_m_runtime _ x) in E. assert (router_ok None mib y) as Hy.
    { destruct Hok as [? ? ? ? ? ? ? [? ? ? ? ? ? ?]]. by split. }
    pose proof (trigger_beacon mib (enough x) y Hy Hset Hm Hd Hs) as Hb. by rewrite E in Hb. }
  destruct c; cbn [perform]; try (apply Hst; by apply steady_quiet; [apply _|..]).
  3: by intros [= <-].
  - apply Hst, steady_indicate; [apply _|apply _|apply beacon_stays_reset|apply beacon_stays_cbf|done].
  - apply Hst. apply steady_bind; [apply _| |intros ?; apply steady_ret; apply _].
    apply (steady_request _ _ _ (beacon_stays_reset mib) (P := request_ok)); [|done]. intros. apply beacon_stays_repetition.
  - unfold mbind, state_cpp_bind, gets, advance, now, gets, modify, assert_that. cbn [mbind state_cpp_bind].
    unfold mbind, state_cpp_bind. destruct (_ >=? _); [|done]. apply Htr.
  - apply Htr.
Qed.

(** C35. A router that sends beacons, and does not sign them, never loses the timer of the
    beacon: in every state that can be reached a callback for the next beacon is in the
    queue of the scheduler. *)
Theorem beacons_never_stop (mib : MIB) (x : Router) : mib_ok mib ->
  vanetzaDisableBeaconing mib = false -> itsGnSecurity mib = false -> reachable mib x ->
  exists c, c ∈ ManualRuntime.m_queue (m_runtime x) /\ ManualRuntime.callback c = BeaconTimer.
Proof.
  intros Hm Hd Hs Hr. assert (beacon_set (m_runtime x)) as Hset.
  { induction Hr as [init|c x x' Hr IH Hc Hp]; [|by eapply perform_beacon; [..|exact IH]; eauto using reachable_ok].
    unfold make_Router, construct_Router, get_mib, gets, mbind, state_cpp_bind, when, modify. simpl. rewrite Hd. simpl.
    assert (forall y d, beacon_set (m_runtime (snd (reset_beacon_timer_after d y)))) as Hset.
    { intros y d. unfold reset_beacon_timer_after, modify, beacon_set, ManualRuntime.schedule_after. simpl.
      rewrite ManualRuntime.deadlines_schedule_empty; [done|]. by rewrite ManualRuntime.deadlines_cancel, decide_True. }
    destruct (_ >? 0); [|apply Hset]. unfold draw_real. destruct (uniform_real _). apply Hset. }
  pose proof (sch_scopes _ _ _ (ok_schedule _ _ _ (reachable_ok mib x Hm Hr))) as Hsc. rewrite Forall_forall in Hsc.
  unfold beacon_set, ManualRuntime.deadlines in Hset. destruct (filter _ _) as [|c l] eqn:E; [done|].
  assert (c ∈ filter (fun c => ManualRuntime.scope c = RouterScope) (ManualRuntime.m_queue (m_runtime x))) as Hin
    by (rewrite E; left). apply list_elem_of_filter in Hin as [Hc Hin]. exists c. split; [done|].
  specialize (Hsc c Hin). simpl in *. rewrite Hc in Hsc. by destruct (ManualRuntime.callback c).
Qed.

(** * Requests *)

(** The confirmation is [r], whenever there is one. *)
Definition confirms (r : DataConfirm) (m : router DataConfirm) : Prop :=
  forall y c y', m y = (Returns c, y') -> c = r.

Lemma confirms_ret r : confirms r (mret r).
Proof. by intros y c y' [= <- _]. Qed.

Lemma confirms_bind {X} r (m : router X) f : (forall a, confirms r (f a)) -> confirms r (m ≫= f).
Proof. intros Hf y c y'. unfold mbind, state_cpp_bind. destruct (m y) as [[] ?]; [|done..]. apply Hf. Qed.

Lemma accepted_or_same r (m : router DataConfirm) x c x' : confirms r m ->
  (if accepted r then m else mret r) x = (Returns c, x') -> accepted c = false -> x' = x.
Proof.
  intros Hm. destruct (accepted r) eqn:E; [|by intros [= _ ->]]. intros Hx Hc. apply Hm in Hx. congruence.
Qed.

(** A request that is not accepted leaves the router as it was. *)
Theorem rejected_request_changes_nothing (v : DataRequestVariant) (payload : option DownPacket)
  (x x' : Router) (confirm : DataConfirm) :
  request v payload x = (Returns confirm, x') -> accepted confirm = false -> x' = x.
Proof.
  destruct v; simpl; try (by intros [= _ ->]);
    unfold request_gbc, request_shb, get_mib, gets; unfold mbind at 1, state_cpp_bind at 1;
    (destruct payload as [p|]; [|by intros [= _ ->]]); apply accepted_or_same;
    repeat (apply confirms_bind; intros ?); apply confirms_ret.
Qed.

End router.
