(* ===== verification/ForwardingTheorems.v ===== *)
(** * Theorems about forwarding

    The choice of greedy forwarding, contention-based forwarding in the destination area,
    and the handling of topologically scoped broadcasts. *)

From Stdlib Require Import ZArith Lia Sorting.Sorted.
From stdpp Require Import prelude strings gmap.
From S2P Require Import Prelude GeoSerial GeoHeaders GeoHeadersOk GeoPdu GeoPduOk Double Asn1Wrapper Runtime NetPackets.
From S2P Require Import GeoArea GeoRequest GeoContainers SoftState CbfBuffer CbfBufferOk CbfTheorems.
From S2P Require Import LocationTable LocationTheorems GeoPending GeoIndication.
From S2P Require Import RouterState RouterForward RouterIndicate Router RouterOk RouterIndicateOk.

Open Scope Z_scope.

(** * Greedy forwarding *)

Section greedy.
Context `{SA : SecuredArchive} `{SE : !SecurityEntity} `{DccFieldGenerator} `{Random} `{Geodesy} `{PositionUnits}.
Context `{T1 : !HeapTop MacAddress} `{T2 : !HeapTop CbfPacketIdentifier} `{A : Allocator}.

(** The neighbours of which a position is known. *)
Definition located (x : Router) : list LocationTableEntry :=
  filter (fun n => m_has_position_vector n = true)
    (neighbours (ManualRuntime.m_now (m_runtime x)) (m_location_table x)).

Definition distance_to (dest : GeodeticPosition) (n : LocationTableEntry) : double :=
  distance dest (lpv_position (m_position_vector n)).

Definition none_closer (dest : GeodeticPosition) (d : double) (ns : list LocationTableEntry) : Prop :=
  forall n, n ∈ ns -> dlt (distance_to dest n) d = false.

(** A neighbour that is closer than [d], and than which none is closer. *)
Definition closest (dest : GeodeticPosition) (d : double) (ns : list LocationTableEntry) (mac : MacAddress) : Prop :=
  exists n, n ∈ ns /\ link_layer_address n = mac /\ dlt (distance_to dest n) d = true /\
    none_closer dest (distance_to dest n) ns.

Lemma closest_neighbour_spec dest ns mac d :
  let '(mac', d') := closest_neighbour dest ns (mac, d) in
  let ns := filter (fun n => m_has_position_vector n = true) ns in
  (mac' = mac /\ d' = d /\ none_closer dest d ns) \/
  (exists n, n ∈ ns /\ link_layer_address n = mac' /\ distance_to dest n = d' /\
    dlt d' d = true /\ none_closer dest d' ns).
Proof.
  revert mac d. induction ns as [|n ns IH]; intros mac d; cbn [closest_neighbour fold_left].
  { left. split_and!; try done. intros n Hn. by apply not_elem_of_nil in Hn. }
  rewrite filter_cons. destruct (m_has_position_vector n); [rewrite decide_True by done|rewrite decide_False by done; apply IH].
  fold (distance_to dest n). destruct (dlt (distance_to dest n) d) eqn:Hn.
  - specialize (IH (link_layer_address n) (distance_to dest n)). unfold closest_neighbour in IH.
    destruct (fold_left _ ns _) as [mac' d']. right. destruct IH as [(-> & -> & Hnc)|(m & Hm & <- & <- & Hlt & Hnc)].
    + exists n. split_and!; try done; [left|]. intros m [->|Hm]%elem_of_cons; [apply dlt_irrefl|by apply Hnc].
    + exists m. split_and!; try done; [by right|by eapply dlt_trans|].
      intros k [->|Hk]%elem_of_cons; [|by apply Hnc]. destruct (dlt (distance_to dest n) (distance_to dest m)) eqn:E; [|done].
      pose proof (dlt_trans _ _ _ E Hlt) as Hf. by rewrite dlt_irrefl in Hf.
  - specialize (IH mac d). unfold closest_neighbour in IH. destruct (fold_left _ ns _) as [mac' d'].
    destruct IH as [(-> & -> & Hnc)|(m & Hm & <- & <- & Hlt & Hnc)].
    + left. split_and!; try done. intros m [->|Hm]%elem_of_cons; [done|by apply Hnc].
    + right. exists m. split_and!; try done; [by right|]. intros k [->|Hk]%elem_of_cons; [|by apply Hnc].
      destruct (dlt (distance_to dest n) (distance_to dest m)) eqn:E; [|done].
      by rewrite (dlt_trans _ _ _ E Hlt) in Hn.
Qed.

(** C14. Greedy forwarding always decides: it sends the packet to a neighbour that is
    closer to the destination than the router, and none of the neighbours is closer; if
    there is none it keeps the packet when its traffic class asks for store-carry-forward,
    and broadcasts it otherwise.  The distances are the doubles that are compared, NaN
    included. *)
Theorem greedy_forwarding_correct (packet : PendingPacketForwarding) (x : Router) :
  let dest := header_position (forwarding_header packet) in
  let own := distance dest (lpv_position (m_local_position_vector x)) in
  let scf := store_carry_forward (traffic_class (e_common (f_packet packet).1)) in
  exists nh x', greedy_forwarding packet x = (Returns nh, x') /\
    match nh with
    | Valid packet' mac =>
        packet' = packet /\ x' = x /\
        (closest dest own (located x) mac \/
         none_closer dest own (located x) /\ scf = false /\ mac = cBroadcastMacAddress)
    | Buffered =>
        none_closer dest own (located x) /\ scf = true /\
        x' = set_m_bc_forward_buffer
               (snd (PacketBuffer.push (PendingGbc (f_packet packet) (GreedyForwarding (f_action packet)))
                  (ManualRuntime.m_now (m_runtime x)) (m_bc_forward_buffer x))) x
    | Discarded => False
    end.
Proof.
  intros dest own scf. unfold greedy_forwarding, of_table, buffer_push, now, gets, modify, defined, mret, state_cpp_ret.
  unfold mbind, state_cpp_bind. fold dest own scf. cbn beta iota.
  pose proof (closest_neighbour_spec dest (neighbours (ManualRuntime.m_now (m_runtime x)) (m_location_table x))
    default_MacAddress own) as Hs.
  destruct (closest_neighbour _ _ _) as [mac d]. fold (located x) in Hs. cbn zeta in Hs.
  destruct Hs as [(-> & -> & Hnc)|(n & Hn & <- & <- & Hlt & Hnc)].
  - rewrite dlt_irrefl. destruct scf; eexists _, _; (split; [done|]); cbn beta iota; [done|].
    split_and!; [done|done|by right].
  - rewrite Hlt. eexists _, _. split; [done|]. cbn beta iota. split_and!; [done|done|left]. by exists n.
Qed.

End greedy.

(** * Contention in the destination area *)

Section contention.
Context `{SA : SecuredArchive} `{SE : !SecurityEntity} `{DccFieldGenerator} `{Random} `{Geodesy} `{PositionUnits}.
Context `{T1 : !HeapTop MacAddress} `{T2 : !HeapTop CbfPacketIdentifier} `{A : Allocator}.
Context `{!SecuredArchiveOk} `{!SecurityEntityOk} `{!HeapTopOk MacAddress T1} `{!HeapTopOk CbfPacketIdentifier T2}
  `{!AllocatorOk A}.
Context (held : option nat) (mib : MIB).

(** The packets that wait for their timer, by identifier. *)
Definition contending (x : Router) : list CbfPacketIdentifier := ids (m_cbf_buffer x).

Lemma wp_remove_waiting id (Q : bool -> Router -> Prop) x : router_ok held mib x ->
  (id ∈ contending x -> forall y, router_ok held mib y -> m_events y = m_events x ->
    CbfPacketBuffer.m_packets (m_cbf_buffer y) = drop_id id (CbfPacketBuffer.m_packets (m_cbf_buffer x)) ->
    id ∉ contending y -> Q true y) ->
  (id ∉ contending x -> Q false x) -> wp (cbf_remove id) Q x.
Proof.
  intros Hok H1' H2'. pose proof (cbf_remove_keeps held mib id x Hok) as Hk. pose proof Hok as [_ _ Hc Ha _ _ _ _].
  destruct (remove_ok id _ _ Hc Ha) as (b' & rt' & E & Hc' & _ & _ & _ & Hp & Ht & _).
  unfold wp, cbf_remove in *. rewrite E in *. case_bool_decide as Hin.
  - apply H1'; try done. unfold contending, ids. simpl. rewrite Ht, ids_erase. tauto.
  - unfold CbfPacketBuffer.remove in E.
    destruct (CbfPacketBuffer.find_timer id _) as [t|] eqn:Hf.
    { apply find_timer_Some in Hf as [Hf <-]. destruct Hin. by apply list_elem_of_fmap_2. }
    simplify_eq. replace (set_m_runtime _ _) with x by by destruct x. by apply H2'.
Qed.

Definition waiting_packets (x : Router) : list (nat * CbfPacket) := CbfPacketBuffer.m_packets (m_cbf_buffer x).

(** The packet was heard at least as often as the limit allows. *)
Definition heard_enough (id : CbfPacketIdentifier) (x : Router) : Prop :=
  exists n, CbfPacketBuffer.counter (ManualRuntime.m_now (m_runtime x)) id (m_cbf_buffer x) = Some n /\
    vanetzaCbfMaxCounter mib <= n.

(** What [nh] and the new state say about a packet from [from]. *)
Definition contention_outcome (packet : PendingPacketForwarding) (from : MacAddress) (x : Router)
    (nh : NextHop) (x' : Router) : Prop :=
  let id := GeoPending.gbc_identifier (forwarding_header packet) in
  match nh with
  | Valid _ _ => False
  | Discarded =>
      (id ∉ contending x') /\
      ((id ∈ contending x) /\ waiting_packets x' = drop_id id (waiting_packets x) \/
       (id ∉ contending x) /\ waiting_packets x' = waiting_packets x /\ heard_enough id x)
  | Buffered =>
      (id ∉ contending x) /\
      exists timeout, timeout_cbf from x = (Returns timeout, x) /\
        if clock_cast timeout <=? 0 then waiting_packets x' = waiting_packets x
        else exists dropped kept info node, waiting_packets x = dropped ++ kept /\
          waiting_packets x' = kept ++ [(info, mk_CbfPacket packet from)] /\
          (CbfPacketBuffer.mk_TimerNode node
             (CbfPacketBuffer.make_Timer (ManualRuntime.m_now (m_runtime x)) (clock_cast timeout)) id info
           ∈ CbfPacketBuffer.m_timers (m_cbf_buffer x')) /\
          forall k p, dropped = k ++ [p] ->
            CbfPacketBuffer.m_capacity_bytes (m_cbf_buffer x) < total (p :: kept) + cbf_length (mk_CbfPacket packet from)
  end.

(** C34. Contention in the destination area: a packet that was overheard while it waits is
    taken out of the buffer and not sent, and one that was heard as often as the limit
    allows is not buffered.  Any other packet is buffered behind the packets that stay,
    with a timer that expires when the time that [timeout_cbf] computes has passed; packets
    are dropped for it from the front, and only while they exceed the capacity.  A packet
    whose timeout is not positive is reported as buffered but not kept.  Nothing is sent
    by this. *)
Theorem area_contention_correct (packet : PendingPacketForwarding) (from : MacAddress) (x : Router) :
  router_ok held mib x -> forwarding_ok mib packet ->
  exists nh x', area_contention_based_forwarding packet (Some from) x = (Returns nh, x') /\
    m_events x' = m_events x /\ contention_outcome packet from x nh x'.
Proof.
  intros Hok Hp. set (id := GeoPending.gbc_identifier (forwarding_header packet)).
  assert (wp (area_contention_based_forwarding packet (Some from))
    (fun nh x' => m_events x' = m_events x /\ contention_outcome packet from x nh x') x) as Hwp;
    [|apply wp_returns in Hwp as (nh & x' & E & Hq); eauto].
  unfold area_contention_based_forwarding, cbf_stop. fold id. apply wp_bind, wp_bind, wp_remove_waiting; [done| |].
  { intros Hin y Hy He Hps Hnin. wp_steps. split; [done|]. split; [done|]. by left. }
  intros Hnin. wp_steps. rewrite (ok_mib _ _ _ Hok). unfold cbf_counter. wp_steps.
  destruct (counter_value_ok (ManualRuntime.m_now (m_runtime x)) id _ (ok_counter _ (ok_cbf _ _ _ Hok))) as [n Hn].
  eapply wp_defined; [exact Hn|]. wp_steps. destruct (Z.geb_spec n (vanetzaCbfMaxCounter mib)).
  { wp_steps. split; [done|]. split; [done|]. right. split_and!; try done. exists n. split; [exact Hn|lia]. }
  apply wp_bind. assert (exists d, timeout_cbf from x = (Returns d, x)) as [d Hd].
  { assert (wp (timeout_cbf from) (fun _ y => y = x) x) as Hw by (apply (wp_timeout_cbf held mib); done).
    apply wp_returns in Hw as (d & y & -> & ->). eauto. }
  unfold wp at 1. rewrite Hd. apply wp_bind. unfold wp at 1, cbf_add.
  destruct (add_ok (D := CbfPacketData) (mk_CbfPacket packet from) (clock_cast d) (m_cbf_buffer x) (m_runtime x))
    as (b' & rt' & Ea & _ & _ & _ & _ & _ & dropped & kept & Hps & Hcase); [apply Hok|apply Hok|apply Hp|].
  rewrite Ea. wp_steps. split; [done|]. split; [done|]. exists d. split; [done|]. unfold waiting_packets. simpl.
  destruct (Z.leb_spec (clock_cast d) 0).
  { destruct Hcase as [-> ->]. by rewrite Hps. }
  destruct Hcase as [Hmin Hcase]. rewrite bool_decide_false in Hcase.
  { destruct (add_timer _ _ _ _ _ _ Ea ltac:(lia) Hnin) as (kept' & info & node & Ek & Ht). destruct Hcase as [info' Ei].
    rewrite Ei in Ek. apply app_inj_tail in Ek as [_ [= ->]]. exists dropped, kept, info, node. by split_and!. }
  intros Hin. apply Hnin. apply in_ids; [apply Hok|]. apply list_elem_of_fmap in Hin as (q & Eq & Hq).
  exists q. split; [by symmetry|]. rewrite Hps. set_solver.
Qed.

End contention.

(** * Topologically scoped broadcasts *)

Section memory.
Context `{T : !HeapTop MacAddress} `{!HeapTopOk MacAddress T}.
Implicit Types t : LocationTable.

(** The duplicate packet lists of two tables are the same. *)
Definition same_lists t t' : Prop := forall n mac, list_of n mac t' = list_of n mac t.

Lemma update_position_vector_dpl lpv entry : m_dpl (snd (update_position_vector lpv entry)) = m_dpl entry.
Proof.
  unfold update_position_vector, set_position_vector.
  destruct (m_has_position_vector entry); [destruct (Timestamp_less _ _)|]; by destruct (lpv_is_valid lpv).
Qed.

Lemma same_lists_of t t' mac entry :
  (forall k, abs t' !! k = if decide (k = mac) then Some entry else abs t !! k) ->
  m_dpl entry.1 = ('(e, _) ← abs t !! mac; m_dpl e) -> same_lists t t'.
Proof.
  intros Ha Hd n k. unfold list_of. rewrite Ha. destruct (decide (k = mac)) as [->|]; [|done].
  simpl. destruct entry as [e ?]. simpl in *. by rewrite Hd.
Qed.

Lemma modify_entry_lists mac f t : (forall e, m_dpl (f e) = m_dpl e) -> same_lists t (modify_entry mac f t).
Proof.
  intros Hf n k. unfold list_of. rewrite !lookup_abs. unfold modify_entry. simpl.
  destruct (decide (k = mac)) as [->|Hne]; [rewrite lookup_alter_eq|by rewrite lookup_alter_ne].
  destruct (m_map t !! mac) as [[i v]|]; [|done]. simpl. destruct (m_heap t !! i) as [[]|]; [|done]. simpl. by rewrite Hf.
Qed.

Lemma table_update_lists now lpv t t' : coherent t -> table_update now lpv t = Some t' -> same_lists t t'.
Proof.
  intros Hc. set (mac := m_mid (gn_addr lpv)).
  destruct (refresh_and_write now lpv t Hc) as (tr & Er & _ & _ & Har). fold mac in Er, Har.
  assert (same_lists t tr) as Hr.
  { eapply same_lists_of; [exact Har|]. simpl. rewrite update_position_vector_dpl. unfold soft_refresh.
    by destruct (abs t !! mac) as [[]|]. }
  unfold table_update. fold mac. rewrite get_value_ptr_spec by done. simpl.
  unfold soft_get_value_ptr. destruct (abs t !! mac) as [[en e0]|] eqn:E; simpl; [|rewrite Er; by intros [= <-]].
  destruct (now >? e0); simpl; [rewrite Er; by intros [= <-]|].
  destruct (m_has_position_vector en) eqn:Eh; [|rewrite Er; by intros [= <-]].
  pose proof (update_position_vector_dpl lpv en) as Hp. destruct (update_position_vector lpv en) as [updated en'].
  destruct (write_and_refresh now mac en' (en, e0) updated t Hc E) as (t2 & -> & _ & _ & Ha). intros [= <-].
  eapply same_lists_of; [exact Ha|]. simpl in *. by rewrite E.
Qed.

(** What was checked once is known the second time, if the list can hold a number. *)
Lemma checked_twice sn dpl : (0 < DuplicatePacketList.capacity dpl)%nat ->
  fst (DuplicatePacketList.check sn (snd (DuplicatePacketList.check sn dpl))) = true.
Proof.
  intros Hcap. destruct (DuplicatePacketList.check_spec sn dpl) as (_ & Hn & _).
  destruct (DuplicatePacketList.check_spec sn (snd (DuplicatePacketList.check sn dpl))) as (-> & _).
  apply bool_decide_true. rewrite Hn. case_bool_decide; [done|]. unfold lastn. rewrite length_app, drop_app. simpl.
  replace (_ - _ - _)%nat with 0%nat by lia. set_solver.
Qed.

End memory.

Section tsb.
Context `{SA : SecuredArchive} `{SE : !SecurityEntity} `{DccFieldGenerator} `{Random} `{Geodesy} `{PositionUnits}.
Context `{T1 : !HeapTop MacAddress} `{T2 : !HeapTop CbfPacketIdentifier} `{A : Allocator}.
Context `{!SecuredArchiveOk} `{!SecurityEntityOk} `{!HeapTopOk MacAddress T1} `{!HeapTopOk CbfPacketIdentifier T2}
  `{!AllocatorOk A}.
Context (held : option nat) (mib : MIB).

(** Nothing was sent, and no sequence number was learned or forgotten. *)
Definition quiet (x y : Router) : Prop :=
  m_events y = m_events x /\ same_lists (m_location_table x) (m_location_table y).

Lemma quiet_refl x : quiet x x.
Proof. done. Qed.

Lemma quiet_trans x y z : quiet x y -> quiet y z -> quiet x z.
Proof. intros [E1 L1] [E2 L2]. split; [congruence|]. intros n mac. by rewrite L2. Qed.

(** A member function that always keeps quiet. *)
Definition mute {X} (m : router X) : Prop := forall x, quiet x (snd (m x)).

Lemma wp_mute {X} (m : router X) (P Q : X -> Router -> Prop) x : mute m -> wp m P x ->
  (forall a y, P a y -> quiet x y -> Q a y) -> wp m Q x.
Proof.
  intros Hm Hwp HQ. unfold wp in *. specialize (Hm x). destruct (m x) as [[] y]; [|done..]. by apply HQ.
Qed.

Lemma mute_bind {X Y} (m : router X) (f : X -> router Y) : mute m -> (forall a, mute (f a)) -> mute (m ≫= f).
Proof.
  intros Hm Hf x. unfold mbind, state_cpp_bind. specialize (Hm x). destruct (m x) as [[a| |] y]; [|done..].
  eapply quiet_trans; [exact Hm|apply Hf].
Qed.

Lemma mute_on_entry mac f : (forall e, m_dpl (f e) = m_dpl e) -> mute (on_entry mac f).
Proof. intros Hf x. split; [done|]. simpl. by apply modify_entry_lists. Qed.

Lemma mute_when b m : mute m -> mute (when b m).
Proof. intros Hm. by destruct b. Qed.

Lemma mute_draw : mute draw_unsigned.
Proof. intros x. unfold draw_unsigned. by destruct (uniform_unsigned _). Qed.

Lemma mute_detect_address source from : mute (detect_duplicate_address source from).
Proof.
  unfold detect_duplicate_address. apply mute_bind; [done|]. intros m. apply mute_bind; [done|]. intros local.
  destruct (bool_decide _); [|done]. destruct (_ || _); [|done]. apply mute_bind; [|done].
  unfold random_mac. repeat (apply mute_bind; [apply mute_draw|intros ?]). done.
Qed.

Lemma update_pdr_dpl now size beta e : m_dpl (update_pdr now size beta e) = m_dpl e.
Proof.
  unfold update_pdr. destruct (isnan _); [done|]. destruct (_ && _); [|done]. by destruct (dgt _ _).
Qed.

Lemma mute_update_pdr mac packet : mute (update_source_pdr mac packet).
Proof.
  unfold update_source_pdr. apply mute_bind; [done|]. intros m. apply mute_bind; [done|]. intros t.
  apply mute_on_entry. intros e. apply update_pdr_dpl.
Qed.

Lemma wp_update_quiet pv (Q : unit -> Router -> Prop) x : router_ok held mib x ->
  (forall y, knows held mib (m_mid (gn_addr pv)) y -> quiet x y -> Q () y) -> wp (update_location pv) Q x.
Proof.
  intros Hok HQ. unfold update_location, wp, on_table.
  destruct (table_update_ok (ManualRuntime.m_now (m_runtime x)) pv _ (ok_table _ _ _ Hok)) as (t & entry & E & Hc & He & _).
  rewrite E. simpl. apply HQ.
  - split; [by apply set_table_ok|]. by eexists.
  - split; [done|]. by eapply table_update_lists; [apply Hok|].
Qed.

Lemma wp_flush_quiet addr (Q : unit -> Router -> Prop) mac x : knows held mib mac x ->
  (forall y, knows held mib mac y -> quiet x y -> Q () y) -> wp (flush_unicast_forwarding_buffer addr) Q x.
Proof.
  intros [Hok Hl] HQ. unfold flush_unicast_forwarding_buffer. wp_steps. rewrite (ok_unicast _ _ _ Hok). simpl.
  apply wp_ret, HQ; [|done]. split; [|done]. destruct Hok. by split.
Qed.

(** The forwarded copy of a packet: a hop less, nothing else changed. *)
Definition forwarded_copy (pdu : TsbPdu) (e : event) : Prop :=
  exists ifc r payload,
    e = Requested ifc r (set_chunk_layer Network (OfPdu (as_Pdu VTsb
          (set_e_basic (set_hop_limit (hop_limit (e_basic pdu) - 1) (e_basic pdu)) pdu))) payload) /\
    dcc_destination r = cBroadcastMacAddress /\ 1 < hop_limit (e_basic pdu).

Lemma wp_forward_tsb (pdu : TsbPdu) packet scf (Q : unit -> Router -> Prop) x : received_pdu pdu ->
  1 < hop_limit (e_basic pdu) -> router_ok held mib x ->
  (forall y evs, m_events y = m_events x ++ evs -> (evs = [] \/ exists e, evs = [e] /\ forwarded_copy pdu e) ->
    m_location_table y = m_location_table x -> router_ok held mib y -> Q () y) ->
  wp (forwarding_duplicate pdu packet)
    (fun dup => wp (store_or_process scf (PendingTsb dup)) Q) x.
Proof.
  intros [Hu Hsec] Hh Hok HQ. unfold forwarding_duplicate, is_uint in *.
  assert (u8 (hop_limit (e_basic pdu) - 1) = hop_limit (e_basic pdu) - 1) as E by (apply wrap_id; lia).
  apply wp_bind, wp_assert; [simpl; rewrite E; lia|]. wp_steps. rewrite E. set (dup := (_, _)).
  assert (sendable dup) as Hs by (unfold sendable; simpl; by destruct (e_secured pdu)).
  unfold store_or_process, has_neighbours_now, of_table. wp_steps. destruct (scf && _).
  - assert (wp (buffer_push (PendingTsb dup)) (fun _ => router_ok held mib) x) as Hk by by apply buffer_push_keeps.
    eapply (HQ _ []); [by rewrite app_nil_r|by left|done|exact Hk].
  - simpl. unfold tsb_transmit. wp_steps. apply wp_media. apply wp_bind. unfold make_DccDataRequest. wp_steps.
    apply (wp_pass_down VTsb _ dup); [done|]. eapply HQ; [done| |done|by eapply same_core_ok].
    right. eexists. split; [done|]. eexists _, _, _. done.
Qed.

(** Whether the number of the packet is in the list of its source. *)
Definition seen_before (pdu : TsbPdu) (x : Router) : bool :=
  fst (DuplicatePacketList.check (tsb_sequence_number (e_extended pdu))
    (list_of (Z.to_nat (itsGnDPLLength mib)) (m_mid (gn_addr (tsb_source_position (e_extended pdu))))
       (m_location_table x))).

Lemma wp_detect_seen pdu (Q : bool -> Router -> Prop) x : router_ok held mib x ->
  (forall y, router_ok held mib y -> m_events y = m_events x ->
    list_of (Z.to_nat (itsGnDPLLength mib)) (m_mid (gn_addr (tsb_source_position (e_extended pdu)))) (m_location_table y)
    = snd (DuplicatePacketList.check (tsb_sequence_number (e_extended pdu))
        (list_of (Z.to_nat (itsGnDPLLength mib)) (m_mid (gn_addr (tsb_source_position (e_extended pdu))))
           (m_location_table x))) ->
    Q (seen_before pdu x) y) ->
  wp (detect_duplicate (gn_addr (tsb_source_position (e_extended pdu))) (tsb_sequence_number (e_extended pdu))) Q x.
Proof.
  intros Hok HQ. unfold detect_duplicate. wp_steps. unfold wp, on_table. rewrite (ok_mib _ _ _ Hok).
  destruct (detect_duplicate_packet_spec (Z.to_nat (itsGnDPLLength mib)) (ManualRuntime.m_now (m_runtime x))
    (gn_addr (tsb_source_position (e_extended pdu))) (tsb_sequence_number (e_extended pdu)) _ (ok_table _ _ _ Hok))
    as (t & -> & Hc & Hl). apply HQ; [by apply set_table_ok|done|]. simpl. by rewrite Hl, decide_True.
Qed.

(** One reception. *)
Lemma process_tsb_once (pdu : TsbPdu) packet ll x : router_ok held mib x -> received_pdu pdu ->
  wp (process_extended_tsb pdu packet ll) (fun up y => router_ok held mib y /\
    up = negb (seen_before pdu x) /\
    list_of (Z.to_nat (itsGnDPLLength mib)) (m_mid (gn_addr (tsb_source_position (e_extended pdu)))) (m_location_table y)
    = snd (DuplicatePacketList.check (tsb_sequence_number (e_extended pdu))
        (list_of (Z.to_nat (itsGnDPLLength mib)) (m_mid (gn_addr (tsb_source_position (e_extended pdu))))
           (m_location_table x))) /\
    exists evs, m_events y = m_events x ++ evs /\
      (evs = [] \/ up = true /\ exists e, evs = [e] /\ ((exists r, e = Forwarding_stopped r) \/ forwarded_copy pdu e))) x.
Proof.
  intros Hok Hr. unfold process_extended_tsb. apply wp_bind, (wp_has_entry held mib); [done|]. intros exists_.
  apply wp_bind, wp_detect_seen; [done|]. intros x0 Hok0 He0 Hl0. rewrite <- Hl0.
  destruct (seen_before pdu x).
  { wp_steps. split_and!; try done. exists []. rewrite app_nil_r. split; [done|by left]. }
  wp_steps. eapply wp_mute; [apply mute_when, mute_detect_address|by apply when_keeps; [apply detect_address_keeps|]|].
  cbn beta. intros ? x1 Hok1 Hq1. apply wp_bind, wp_update_quiet; [done|]. intros x2 Hk2 Hq2.
  set (mac := m_mid (gn_addr (tsb_source_position (e_extended pdu)))) in *.
  apply wp_bind. eapply wp_mute; [by apply mute_when, mute_on_entry|apply when_knows; [exact Hk2|]; intros; by apply on_entry_knows|].
  cbn beta. intros ? x3 Hk3 Hq3. apply wp_bind. eapply wp_mute; [apply mute_update_pdr|by apply update_pdr_knows|].
  cbn beta. intros ? x4 Hk4 Hq4. apply wp_bind, (wp_flush_quiet _ _ mac); [exact Hk4|]. intros x5 Hk5 Hq5.
  assert (quiet x0 x5) as [He Hl] by (repeat (eapply quiet_trans; [eassumption|]); done).
  apply wp_bind, (wp_obstacle held mib); [exact Hk5|]. intros [reason|] Hh.
  - unfold forwarding_stopped, emit. wp_steps. split_and!; [eapply same_core_ok; [apply Hk5|done]|done|apply Hl|].
    eexists. split; [simpl; by rewrite He, He0|]. right. split; [done|]. eexists. split; [done|]. left. by eexists.
  - apply wp_bind. eapply wp_mono; [apply (wp_forward_tsb pdu packet (store_carry_forward (traffic_class (e_common pdu))) (fun _ y => router_ok held mib y /\
      m_location_table y = m_location_table x5 /\ exists evs, m_events y = m_events x5 ++ evs /\
        (evs = [] \/ exists e, evs = [e] /\ forwarded_copy pdu e))); [done|by apply Hh|apply Hk5|]|].
    + intros y evs H1' H2' H3' H4'. eauto.
    + cbn beta. intros dup y Hwp. apply wp_bind. eapply wp_mono; [exact Hwp|]. cbn beta.
      intros ? z (Hz & Ht & evs & Hez & Hevs). wp_steps. split_and!; [done|done|rewrite Ht; apply Hl|].
      exists evs. split; [by rewrite Hez, He, He0|]. destruct Hevs as [->|(e & -> & Hf)]; [by left|right].
      split; [done|]. exists e. split; [done|by right].
Qed.

(** C13. A topologically scoped broadcast is handled without failure, in any state of the
    router, and remembered: afterwards its sequence number is in the duplicate packet list
    of its source (if this list can hold a number at all).  A packet whose number is in
    this list is neither passed up nor sent, from whomever it comes.  Any other packet is
    passed up, and at most one copy of it is forwarded, to everyone, with one hop less and
    otherwise unchanged, while hops are left.  (When a number leaves the list is the
    subject of [duplicate_packet_detection].) *)
Theorem tsb_processed_once (pdu : TsbPdu) (packet : UpPacket) (ll : LinkLayer) (x : Router) :
  router_ok held mib x -> received_pdu pdu ->
  exists x' evs,
    process_extended_tsb pdu packet ll x = (Returns (negb (seen_before pdu x)), x') /\
    m_events x' = m_events x ++ evs /\
    (if seen_before pdu x then evs = []
     else evs = [] \/ exists e, evs = [e] /\ ((exists r, e = Forwarding_stopped r) \/ forwarded_copy pdu e)) /\
    ((0 < DuplicatePacketList.capacity (list_of (Z.to_nat (itsGnDPLLength mib))
            (m_mid (gn_addr (tsb_source_position (e_extended pdu)))) (m_location_table x)))%nat ->
     seen_before pdu x' = true) /\ router_ok held mib x'.
Proof.
  intros Hok Hr. pose proof (process_tsb_once pdu packet ll x Hok Hr) as Hwp.
  apply wp_returns in Hwp as (up & x' & E & Hok' & -> & Hl & evs & He & Hevs).
  exists x', evs. split_and!; try done.
  - destruct Hevs as [->|[Hn Hevs]]; [by destruct (seen_before pdu x); [|left]|]. destruct (seen_before pdu x); [done|by right].
  - intros Hcap. unfold seen_before. rewrite Hl. by apply checked_twice.
Qed.

End tsb.
