(* ===== verification/RouterSamples.v ===== *)
(** * Concrete routers

    Implementations of the interfaces that the router uses, states that it reaches with
    them, and the theorems about the router at these states.  The last part shows what
    the router does where its code is not what its comments say. *)

From Stdlib Require Import ZArith Lia Sorting.Sorted.
From stdpp Require Import prelude strings gmap.
From S2P Require Import Prelude GeoSerial GeoHeaders GeoHeadersOk GeoPdu GeoPduOk Double Asn1Wrapper Runtime NetPackets.
From S2P Require Import GeoArea GeoRequest GeoContainers SoftState CbfBuffer CbfBufferOk CbfTheorems.
From S2P Require Import LocationTable LocationTheorems GeoPending GeoIndication GeoSamples.
From S2P Require Import RouterState RouterForward RouterIndicate Router RouterOk RouterIndicateOk RouterSteady RouterRunOk.
From S2P Require Import RouterTheorems ForwardingTheorems.

Open Scope Z_scope.

(** * Interfaces *)

(** A secured message is what is left of the octets. *)
#[local] Instance sample_archive : SecuredArchive := {|
  SecuredMessage := bytes;
  security_serialize m := m;
  security_get_size m := size m mod 2 ^ 62;
  v2_deserialize ar := (None, ar);
  v3_deserialize ar := (Some (size (m_stream_buffer ar), m_stream_buffer ar), mk_archive [] (m_error_code ar));
|}.

#[local] Instance sample_archive_ok : SecuredArchiveOk.
Proof.
  split.
  - intros m. cbn [security_get_size sample_archive]. apply Z.mod_pos_bound. lia.
  - done.
  - intros ar n m ar'. simpl. intros [= <- _ _]. split; [apply size_nonneg|lia].
Qed.

(** An entity that signs and accepts everything, or nothing. *)
#[local] Instance sample_security : SecurityEntity := {|
  entity := bool;
  encapsulate_packet r e := (Returns (if e then Encapsulated [3] else SignConfirmError), e);
  decapsulate_packet m e :=
    (Returns (mk_DecapConfirm (Cohesive (CohesivePacket.make_CohesivePacket [] Network))
                (Some (if e then Success else False_Signature)) 36 []), e);
|}.

#[local] Instance sample_security_ok : SecurityEntityOk.
Proof.
  split.
  - intros r e. by eexists.
  - intros m e. eexists _, _. split; [done|]. split; [done|]. split; [apply CohesivePacket.make_cohesive_ok|]. by split.
Qed.

#[local] Instance sample_generator : DccFieldGenerator := {|
  generator := unit;
  generate_dcc_field g := (DccRaw 1, g);
|}.

#[local] Instance sample_random : Random := {|
  random_engine := Z;
  seed s := s;
  uniform_real g := (literal 1 2, g);
  uniform_unsigned g := (g mod 256, g + 1);
|}.

#[local] Instance sample_units : PositionUnits := {|
  geo_angle_of a := lround (dmul a (double_of 10000000));
  speed_of v := lround (dmul v (double_of 100));
  heading_of c := lround (dmul c (double_of 10));
|}.

(** Positions on a plane, in degrees. *)
#[local] Instance sample_geodesy : Geodesy := {|
  degrees_of_geo_angle a := ddiv (double_of a) (double_of 10000000);
  radians_of_degrees d := ddiv (double_of d) (double_of 57);
  degrees_of_radians r := lround (dmul r (double_of 57));
  dsin a := a;
  dcos a := dsub (double_of 1) a;
  dacos a := dsub (double_of 1) a;
  distance p q := dadd (dabs (dsub (gp_latitude p) (gp_latitude q))) (dabs (dsub (gp_longitude p) (gp_longitude q)));
  local_cartesian p q := mk_CartesianPosition (dsub (gp_longitude q) (gp_longitude p)) (dsub (gp_latitude q) (gp_latitude p));
|}.

#[local] Existing Instance sample_heap.
#[local] Existing Instance sample_heap_ok.
#[local] Existing Instance sample_alloc.
#[local] Existing Instance sample_alloc_ok.

(** * States *)

(** The default values, but for security. *)
Definition sample_mib (security : bool) : MIB :=
  let d := default_MIB in
  mk_MIB (itsGnLocalGnAddr d) (itsGnLocalAddrConfMethod d) (itsGnProtocolVersion d) (itsGnIsMobile d) (itsGnIfType d)
    (itsGnMinimumUpdateFrequencyEPV d) (itsGnPaiInterval d) (itsGnMaxSduSize d) (itsGnMaxGeoNetworkingHeaderSize d)
    (itsGnLifetimeLocTE d) security (itsGnSnDecapResultHandling d) (itsGnLocationServiceMaxRetrans d)
    (itsGnLocationServiceRetransmitTimer d) (itsGnLocationServicePacketBufferSize d)
    (itsGnBeaconServiceRetransmitTimer d) (itsGnBeaconServiceMaxJitter d) (itsGnDefaultHopLimit d) (itsGnDPLLength d)
    (itsGnMaxPacketLifetime d) (itsGnDefaultPacketLifetime d) (itsGnMaxPacketDataRate d) (itsGnMaxPacketDataRateEmaBeta d)
    (itsGnMaxGeoAreaSize d) (itsGnMinPacketRepetitionInterval d) (itsGnNonAreaForwardingAlgorithm d)
    (itsGnAreaForwardingAlgorithm d) (itsGnCbfMinTime d) (itsGnCbfMaxTime d) (itsGnDefaultMaxCommunicationRange d)
    (itsGnBroadcastCBFDefSectorAngle d) (itsGnUcForwardingPacketBufferSize d) (itsGnBcForwardingPacketBufferSize d)
    (itsGnCbfPacketBufferSize d) (itsGnDefaultTrafficClass d) (vanetzaDefaultSeed d) (vanetzaCbfMaxCounter d)
    (vanetzaDeferInitialBeacon d) (vanetzaDisableBeaconing d) (vanetzaMultiHopDuplicateAddressDetection d)
    (vanetzaFadingCbfCounter d) (vanetzaFadingCbfCounterLifetime d) (vanetzaNeighbourFlagExpiry d)
    (vanetzaGbcMemoryCapacity d) (vanetzaGbcPassUpOutsideDestination d).

Lemma sample_mib_ok security : mib_ok (sample_mib security).
Proof. split; [|done]. intros g. destruct security; vm_compute; reflexivity. Qed.

Definition sample_made (security : bool) : Router :=
  make_Router (ManualRuntime.make_ManualRuntime 5000000) (sample_mib security).

Definition sample_fix : PositionFix :=
  mk_PositionFix (literal 4912 100) (literal 226 100) (double_of 3) (double_of 90) (double_of 14).

Definition sample_source : LongPositionVector :=
  mk_LongPositionVector (mk_Address true 5 250 (mk_MacAddress 2 0 0 0 0 7)) 123456 491234567 22654321 true 1389 900.

(** A topologically scoped broadcast with three octets for BTP-B, with three hops left. *)
Definition sample_tsb : TsbPdu :=
  mk_ExtendedPdu (mk_BasicHeader 1 NextHeaderBasic_Common 0 (Lifetime_set 1 60) 3)
    (mk_CommonHeader NextHeaderCommon_BTP_B 0 TSB_Multi_Hop (make_TrafficClass false false 2) 0x80 3 10 0)
    (mk_TsbHeader 41 0 sample_source) None.

Definition sample_received : CohesivePacket.CohesivePacket :=
  CohesivePacket.make_CohesivePacket (serialize_Pdu (as_Pdu VTsb sample_tsb) ++ [7; 8; 9]) Network.

Lemma sample_received_ok : received_ok sample_received.
Proof. split; [apply CohesivePacket.make_cohesive_ok|]. split; [by repeat constructor|done]. Qed.

Definition sample_sender : MacAddress := mk_MacAddress 2 0 0 0 0 9.

Definition sample_calls : list call :=
  [SetTransportHandler BTP_B (Some 1%nat); SetAccessInterface (Some 2%nat); UpdatePosition sample_fix;
   TriggerAfter 0; Indicate sample_received sample_sender cBroadcastMacAddress].

Definition run_calls (cs : list call) (x : Router) : Router := fold_left (fun x c => snd (perform c x)) cs x.

Definition sample_router (security : bool) : Router := run_calls sample_calls (sample_made security).

Lemma sample_router_reachable security : reachable (sample_mib security) (sample_router security).
Proof.
  unfold sample_router, sample_calls, run_calls. cbn [fold_left].
  repeat (apply reachable_after; [apply sample_mib_ok| |]); try done; [constructor|apply sample_received_ok].
Qed.

(** What is seen of an event: a code, and a number that tells it apart. *)
Definition view (e : event) : Z * Z :=
  match e with
  | Packet_dropped _ => (0, 0)
  | Forwarding_stopped _ => (1, 0)
  | Requested _ _ packet =>
      (2, match chunk_layer Network packet with
          | OfPdu pdu => hop_limit (basic pdu)
          | _ => -1
          end)
  | Indicated ifc _ packet => (3, packet_size_of_layers Transport max_osi_layer packet)
  end.

(** The router sends its first beacon, forwards the packet and passes it up. *)
Example sample_events : map view (m_events (sample_router false)) = [(2, 1); (2, 2); (3, 3)].
Proof. vm_compute. reflexivity. Qed.

(** With strict security it does not. *)
Example sample_events_secured : map view (m_events (sample_router true)) = [(0, 0)].
Proof. vm_compute. reflexivity. Qed.

(** * The theorems at these states *)

Definition sample_request (proto : UpperProtocol) (rep : option Repetition) : DataRequestVariant :=
  ShbDataRequest (mk_DataRequest proto ITS_G5 36 [] (Lifetime_set 1 10) rep 1 (make_TrafficClass false false 2)).


Lemma reachable_router_consistent_witness :
  coherent (m_location_table (sample_router false)) /\ ManualRuntime.ordered (m_runtime (sample_router false)).
Proof.
  destruct (reachable_router_consistent (sample_mib false) (sample_router false)) as (Hc & _ & Ho & _);
    [apply sample_mib_ok|apply sample_router_reachable|]. split; [exact Hc|exact Ho].
Defined.

Lemma scheduler_drains_witness :
  exists x', advance_by (enough (sample_router false)) 4000000 (sample_router false) = (Returns (), x') /\
    ManualRuntime.m_now (m_runtime x') = ManualRuntime.m_now (m_runtime (sample_router false)) + 4000000.
Proof.
  destruct (scheduler_drains (sample_mib false) 4000000 (sample_router false)) as (x' & E & Hn & _);
    [apply sample_mib_ok|apply sample_router_reachable|lia|]. exists x'. split; [exact E|exact Hn].
Defined.

(** The entity of this router accepts every message, but the packet has none. *)
Definition strict_router : Router := snd (perform (SetSecurityEntity (Some true)) (sample_made true)).

Lemma strict_router_ignores_unauthenticated_witness :
  exists x', indicate (Cohesive sample_received) sample_sender cBroadcastMacAddress strict_router = (Returns (), x') /\
    only_dropped strict_router x'.
Proof.
  apply (strict_router_ignores_unauthenticated sample_received sample_sender cBroadcastMacAddress strict_router);
    [reflexivity|reflexivity|]. intros e m c _ Hm. vm_compute in Hm. discriminate.
Defined.

Lemma beacons_never_stop_witness :
  exists c, c ∈ ManualRuntime.m_queue (m_runtime (sample_router false)) /\ ManualRuntime.callback c = BeaconTimer.
Proof.
  apply (beacons_never_stop (sample_mib false) (sample_router false));
    [apply sample_mib_ok|reflexivity|reflexivity|apply sample_router_reachable].
Defined.

(** A lifetime of ten hours is longer than the router allows. *)
Definition excessive_request : DataRequestVariant :=
  ShbDataRequest (mk_DataRequest BTP_B ITS_G5 36 [] (Lifetime_set 3 60) None 1 (make_TrafficClass false false 2)).

Lemma rejected_request_changes_nothing_witness :
  snd (request excessive_request (Some make_ChunkPacket) (sample_router false)) = sample_router false.
Proof.
  destruct (request excessive_request (Some make_ChunkPacket) (sample_router false)) as [r x'] eqn:E.
  assert (r = Returns Rejected_Max_Lifetime) as ->.
  { replace r with (fst (request excessive_request (Some make_ChunkPacket) (sample_router false))) by (rewrite E; reflexivity).
    vm_compute. reflexivity. }
  exact (rejected_request_changes_nothing excessive_request (Some make_ChunkPacket) (sample_router false) x'
    Rejected_Max_Lifetime E eq_refl).
Defined.

Lemma sample_tsb_received : received_pdu sample_tsb.
Proof. split; [split; vm_compute; congruence|discriminate]. Qed.

Lemma sample_router_ok : router_ok None (sample_mib false) (sample_router false).
Proof. apply reachable_ok; [apply sample_mib_ok|apply sample_router_reachable]. Qed.

(** The packet comes twice: it is passed up once. *)
Lemma tsb_processed_once_witness :
  exists x' x'' evs,
    process_extended_tsb sample_tsb (Cohesive sample_received) (mk_LinkLayer sample_sender cBroadcastMacAddress) (sample_made false)
    = (Returns (negb (seen_before (sample_mib false) sample_tsb (sample_made false))), x') /\
    m_events x' = m_events (sample_made false) ++ evs /\
    process_extended_tsb sample_tsb (Cohesive sample_received) (mk_LinkLayer default_MacAddress cBroadcastMacAddress) x'
    = (Returns false, x'') /\ m_events x'' = m_events x'.
Proof.
  destruct (tsb_processed_once None (sample_mib false) sample_tsb (Cohesive sample_received)
    (mk_LinkLayer sample_sender cBroadcastMacAddress) (sample_made false))
    as (x' & evs & H1 & H2 & _ & H3 & H4); [apply made_ok|exact sample_tsb_received|].
  assert (seen_before (sample_mib false) sample_tsb x' = true) as Hseen by (apply H3; vm_compute; lia). clear H3.
  destruct (tsb_processed_once None (sample_mib false) sample_tsb (Cohesive sample_received)
    (mk_LinkLayer default_MacAddress cBroadcastMacAddress) x') as (x'' & evs' & H5 & H6 & H7 & _);
    [exact H4|exact sample_tsb_received|].
  rewrite Hseen in H5, H7. rewrite H7, app_nil_r in H6. exists x', x'', evs.
  split; [exact H1|]. split; [exact H2|]. split; [exact H5|exact H6].
Defined.

(** A geo-broadcast that is on its way. *)
Definition sample_gbc : PendingPacketForwarding :=
  mk_Forwarding
    (mk_ExtendedPdu (mk_BasicHeader 1 NextHeaderBasic_Common 0 (Lifetime_set 1 60) 3)
       (mk_CommonHeader NextHeaderCommon_BTP_B 0 GeoBroadcast_Circle (make_TrafficClass false false 2) 0x80 3 10 0)
       (mk_GbcGacHeader 41 0 sample_source 491200000 22600000 500 0 0 0) None, make_ChunkPacket)
    ForwardTransmit.

Lemma area_contention_correct_witness :
  exists nh x', area_contention_based_forwarding sample_gbc (Some sample_sender) (sample_router false) = (Returns nh, x') /\
    m_events x' = m_events (sample_router false) /\
    contention_outcome (sample_mib false) sample_gbc sample_sender (sample_router false) nh x'.
Proof.
  apply (area_contention_correct None (sample_mib false) sample_gbc sample_sender (sample_router false)); [exact sample_router_ok|].
  split; [split; vm_compute; reflexivity|discriminate].
Defined.

(** * Behaviour that the comments do not describe *)

(** Callbacks in the queue: 0 is the beacon. *)
Definition queued (x : Router) : list nat :=
  map (fun c => match ManualRuntime.callback c with BeaconTimer => 0 | CbfFlush => 1 | RepeaterTrigger _ => 2 end%nat)
    (ManualRuntime.m_queue (m_runtime x)).

(** When a beacon cannot be signed the timer of the beacon is not set again: the router sends
    no beacon from then on, although the entity may recover. *)
Theorem failed_signature_stops_beacons :
  let x := run_calls [UpdatePosition sample_fix; SetSecurityEntity (Some false)] (sample_made true) in
  let x' := run_calls [TriggerAfter 0; SetSecurityEntity (Some true); TriggerAfter 60000000] x in
  queued x = [0%nat] /\ queued x' = [] /\ map view (m_events x') = [].
Proof. vm_compute. split_and!; reflexivity. Qed.

(** A request for an unknown transport protocol throws after its repetition was set up, so
    the exception comes again from the scheduler when the repetition is due. *)
Theorem unknown_protocol_keeps_repetition :
  let v := sample_request Upper_Unknown (Some (mk_Repetition (double_of 1) (double_of 3))) in
  let x := sample_made false in
  (exists e, fst (request v (Some make_ChunkPacket) x) = Throws e) /\
  length (m_repetitions (snd (request v (Some make_ChunkPacket) x))) = 1%nat /\
  queued (snd (request v (Some make_ChunkPacket) x)) = [0; 2]%nat.
Proof. vm_compute. split_and!; [eexists; reflexivity|reflexivity|reflexivity]. Qed.

(** A packet whose basic header names an unknown next header disappears without a report. *)
Theorem unknown_next_header_not_reported :
  let octets := [Z.lor (Z.shiftl 1 4) 5; 0; 40; 1] in
  map view (m_events (snd (indicate (Cohesive (CohesivePacket.make_CohesivePacket octets Network)) sample_sender
    cBroadcastMacAddress (sample_made false)))) = [].
Proof. vm_compute. reflexivity. Qed.
