(* ===== verification/BtpTheorems.v ===== *)
(** * Theorems about the port dispatcher

    What the dispatcher does with a received packet, after any history of calls: which
    hooks and which handler are called, with which header and payload, and when it throws. *)

From Stdlib Require Import ZArith Lia.
From stdpp Require Import prelude strings gmap.
From S2P Require Import Prelude GeoSerial GeoHeaders GeoHeadersOk GeoPdu GeoPduOk Asn1Wrapper BtpHeader NetPackets.
From S2P Require Import GeoRequest GeoPending GeoIndication RouterState PortDispatcher.

Open Scope Z_scope.

(** * Packets with their transport header *)

(** A new boundary between two layers moves octets from the lower to the upper one. *)
Lemma set_boundary_layers n p : CohesivePacket.cohesive_ok p ->
  0 <= n <= size (CohesivePacket.layer Transport p) ->
  exists p', CohesivePacket.set_boundary Transport n p = Some p' /\ CohesivePacket.cohesive_ok p' /\
    CohesivePacket.layer Transport p' = ztake n (CohesivePacket.layer Transport p) /\
    CohesivePacket.layer Session p'
    = zdrop n (CohesivePacket.layer Transport p) ++ CohesivePacket.layer Session p.
Proof.
  intros Hok Hn. rewrite CohesivePacket.layer_size in Hn by done.
  destruct (CohesivePacket.set_boundary_ok Transport n p Hok Hn) as (p' & E & Hok' & _ & Hi & Hne).
  assert (CohesivePacket.m_buffer p' = CohesivePacket.m_buffer p) as Hb.
  { unfold CohesivePacket.set_boundary in E. destruct (_ >=? n); [by simplify_eq|done]. }
  exists p'. split_and!; [done|done|..].
  all: unfold CohesivePacket.layer, CohesivePacket.get, CohesivePacket.range_size in *; simpl in *.
  all: rewrite Hb, Hi, ?(Hne 3%nat), ?(Hne 5%nat) by done.
  all: destruct Hok as [_ Hf Hs Hl]; pose proof (Hs 0 3 ltac:(lia))%nat; pose proof (Hs 3 4 ltac:(lia))%nat;
    pose proof (Hs 4 5 ltac:(lia))%nat; pose proof (Hs 5 7 ltac:(lia))%nat; simpl in *.
  all: set (i3 := CohesivePacket.iterator 3 p) in *; set (i4 := CohesivePacket.iterator 4 p) in *;
    set (i5 := CohesivePacket.iterator 5 p) in *; set (b := CohesivePacket.m_buffer p) in *.
  - unfold ztake. rewrite take_take. f_equal. lia.
  - replace (i5 - (i3 + n)) with ((i4 - i3 - n) + (i5 - i4)) by lia.
    unfold ztake, zdrop. rewrite Z2Nat.inj_add, <- (take_take_drop (drop _ b)) by lia.
    rewrite drop_drop. rewrite skipn_firstn_comm, drop_drop. f_equal; [f_equal; [lia|f_equal; lia]|].
    f_equal. f_equal. lia.
Qed.

(** Reading a header from the transport layer, against the law of its wire format. *)
Section parse.
Context {T : Type} (ser : T -> bytes) (deserialize : des T) (uninitialized : T) (wf : T -> Prop).
Context `{!Wire ser deserialize 4 wf}.

Definition header_octets (p : CohesivePacket.CohesivePacket) : bytes := CohesivePacket.layer Transport p.

Lemma parse_cohesive_short p : size (header_octets p) < 4 ->
  parse_cohesive deserialize uninitialized 4 p = Throws (runtime_error "incomplete read").
Proof.
  intros Hs. unfold parse_cohesive, deserialize_from_buffer. fold (header_octets p).
  by destruct (reads_short (d := deserialize) uninitialized _ Ok Hs) as [x ->].
Qed.

Lemma parse_cohesive_enough p : CohesivePacket.cohesive_ok p -> all_bytes (header_octets p) ->
  4 <= size (header_octets p) ->
  exists hdr p', parse_cohesive deserialize uninitialized 4 p = Returns (hdr, p') /\ wf hdr /\
    CohesivePacket.cohesive_ok p' /\ header_octets p' = ser hdr /\ ser hdr = ztake 4 (header_octets p) /\
    CohesivePacket.layer Session p' = zdrop 4 (header_octets p) ++ CohesivePacket.layer Session p.
Proof.
  intros Hok Hb Hs. destruct (wire_onto (ztake 4 (header_octets p))) as (hdr & Hwf & E);
    [auto with asn|rewrite size_ztake; lia|].
  destruct (set_boundary_layers 4 p Hok) as (p' & Ep & Hok' & Ht & Hse); [by split; [lia|]|].
  exists hdr, p'. split_and!; [|done|done|by rewrite E|done|done].
  unfold parse_cohesive, deserialize_from_buffer. fold (header_octets p).
  rewrite <- (ztake_zdrop 4 (header_octets p)), <- E, wire_roundtrip by done. cbn [mbind cpp_bind]. by rewrite Ep.
Qed.

End parse.

(** * Histories *)

Section dispatch.
Context `{SecuredArchive}.

(** Calls of the dispatcher; a call that throws leaves the state that it has at that point. *)
Inductive operation :=
  | SetInteractiveHandler (port : port_type) (handler : option interface)
  | SetNonInteractiveHandler (port : port_type) (handler : option interface)
  | AddPromiscuousHook (h : option nat)
  | RemovePromiscuousHook (h : option nat)
  | IndicatePacket (gn_ind : DataIndication) (packet : UpPacket).

Definition operate (op : operation) : state_cpp Btp.PortDispatcher unit :=
  match op with
  | SetInteractiveHandler port handler => Btp.set_interactive_handler port handler
  | SetNonInteractiveHandler port handler => Btp.set_non_interactive_handler port handler
  | AddPromiscuousHook h => Btp.add_promiscuous_hook h
  | RemovePromiscuousHook h => Btp.remove_promiscuous_hook h
  | IndicatePacket gn_ind packet => Btp.indicate gn_ind packet
  end.

Definition history (ops : list operation) : Btp.PortDispatcher :=
  fold_left (fun d op => snd (operate op d)) ops Btp.make_PortDispatcher.

(** The handler that a call registers for a port, if it is about this port. *)
Definition registered (interactive : bool) (port : port_type) (op : operation) : option (option interface) :=
  match op with
  | SetInteractiveHandler port' handler => if interactive && (port' =? port) then Some handler else None
  | SetNonInteractiveHandler port' handler => if negb interactive && (port' =? port) then Some handler else None
  | _ => None
  end.

(** The handler of the last call about this port. *)
Definition last_handler (interactive : bool) (port : port_type) (ops : list operation) : option interface :=
  default None (last (omap (registered interactive port) ops)).

(** Whether a call adds or removes this hook. *)
Definition about_hook (h : nat) (op : operation) : option bool :=
  match op with
  | AddPromiscuousHook (Some h') => if decide (h' = h) then Some true else None
  | RemovePromiscuousHook (Some h') => if decide (h' = h) then Some false else None
  | _ => None
  end.

Definition listens (h : nat) (ops : list operation) : Prop := last (omap (about_hook h) ops) = Some true.

(** What the dispatcher has registered. *)
Definition handler_at (interactive : bool) (port : port_type) (d : Btp.PortDispatcher) : option interface :=
  default None ((if interactive then Btp.m_interactive_handlers d else Btp.m_non_interactive_handlers d) !! port).

Lemma record_calls {A} (f : A -> Btp.dispatch) l d :
  for_each (fun a => Btp.record_call (f a)) l d
  = (Returns (), Btp.set_m_calls (Btp.m_calls d ++ map f l) d).
Proof.
  revert d. induction l as [|a l IH]; intros d; simpl.
  - rewrite app_nil_r. by destruct d.
  - unfold mbind, state_cpp_bind, Btp.record_call, modify in *. rewrite IH. simpl. by rewrite <- app_assoc.
Qed.

(** What is called for a packet with a header. *)
Definition calls_for (gn_ind : DataIndication) (ind : Btp.DataIndication) (packet : UpPacket)
    (hooks : list nat) (handler : option interface) : list Btp.dispatch :=
  map (fun h => Btp.Tapped h ind packet) hooks ++
  [match handler with
   | Some handler => Btp.Dispatched handler ind packet
   | None => Btp.Undispatched gn_ind (Some ind)
   end].

(** The same registrations. *)
Definition same_registry (d d' : Btp.PortDispatcher) : Prop :=
  Btp.m_promiscuous_hooks d' = Btp.m_promiscuous_hooks d /\
  forall interactive port, handler_at interactive port d' = handler_at interactive port d.

Definition is_interactive (ind : Btp.DataIndication) : bool :=
  if Btp.source_port ind is Some _ then true else false.

(** Looking up a handler creates at most an entry without one. *)
Lemma lookup_handler (interactive : bool) port d : exists d',
  (if interactive then Btp.interactive_handler port d else Btp.non_interactive_handler port d)
  = (Returns (handler_at interactive port d), d') /\ same_registry d d' /\ Btp.m_calls d' = Btp.m_calls d.
Proof.
  assert (forall (m : gmap Z (option interface)) port',
    default None (<[port := default None (m !! port)]> m !! port') = default None (m !! port')) as Hm.
  { intros m port'. destruct (decide (port' = port)) as [->|]; [by rewrite lookup_insert_eq|by rewrite lookup_insert_ne]. }
  destruct interactive; (eexists; split; [done|]; split; [|done]); (split; [done|]); intros [] port'; try done; apply Hm.
Qed.

(** Indicating, in terms of what parsing the header returns. *)
Lemma indicate_spec gn_ind packet d :
  let '(r, d') := Btp.indicate gn_ind packet d in
  same_registry d d' /\
  match Btp.parse_btp_header gn_ind packet with
  | Returns (Some ind, packet') =>
      r = Returns () /\ Btp.m_calls d' = Btp.m_calls d ++
        calls_for gn_ind ind packet' (Btp.m_promiscuous_hooks d)
          (handler_at (is_interactive ind) (Btp.destination_port ind) d)
  | Returns (None, _) => r = Returns () /\ Btp.m_calls d' = Btp.m_calls d ++ [Btp.Undispatched gn_ind None]
  | Throws e => r = Throws e /\ d' = d
  | NoResult => r = NoResult /\ d' = d
  end.
Proof.
  unfold Btp.indicate, lift, mbind, state_cpp_bind.
  destruct (Btp.parse_btp_header gn_ind packet) as [[[ind|] packet']| |]; [|by split..].
  set (look := match Btp.source_port ind with Some _ => _ | None => _ end).
  assert (look d = if is_interactive ind then Btp.interactive_handler (Btp.destination_port ind) d
                   else Btp.non_interactive_handler (Btp.destination_port ind) d) as ->
    by (unfold look, is_interactive; by destruct (Btp.source_port ind)).
  destruct (lookup_handler (is_interactive ind) (Btp.destination_port ind) d) as (d1 & -> & [Eh Hh] & Ec).
  unfold gets. cbn beta iota. rewrite record_calls. cbn beta iota. unfold calls_for. rewrite <- Eh.
  destruct (handler_at _ _ d); cbn; (split; [by split|]); (split; [done|]); by rewrite Ec, app_assoc.
Qed.

Lemma history_snoc ops op : history (ops ++ [op]) = snd (operate op (history ops)).
Proof. unfold history. by rewrite fold_left_app. Qed.

Lemma last_omap_snoc {A B} (f : A -> option B) l a :
  last (omap f (l ++ [a])) = match f a with Some b => Some b | None => last (omap f l) end.
Proof.
  rewrite omap_app. simpl. destruct (f a); [apply last_snoc|by rewrite app_nil_r].
Qed.

(** The registrations of the dispatcher are those of its history. *)
Lemma history_handlers ops interactive port :
  handler_at interactive port (history ops) = last_handler interactive port ops.
Proof.
  induction ops as [|op ops IH] using rev_ind; [by destruct interactive|].
  rewrite history_snoc. unfold last_handler. rewrite last_omap_snoc. fold (last_handler interactive port ops).
  revert IH. generalize (history ops) as d. intros d IH.
  assert (forall d', same_registry d d' -> handler_at interactive port d' = last_handler interactive port ops) as Hsame.
  { intros d' [_ Hh]. by rewrite Hh. }
  destruct op as [p h|p h|h|h|gn packet]; cbn [operate registered].
  - destruct interactive; [|by apply IH]. unfold handler_at, Btp.set_interactive_handler, modify. cbn.
    destruct (Z.eqb_spec p port) as [->|]; [by rewrite lookup_insert_eq|by rewrite lookup_insert_ne].
  - destruct interactive; [by apply IH|]. unfold handler_at, Btp.set_non_interactive_handler, modify. cbn.
    destruct (Z.eqb_spec p port) as [->|]; [by rewrite lookup_insert_eq|by rewrite lookup_insert_ne].
  - destruct h as [h|]; [|exact IH]. unfold Btp.add_promiscuous_hook, gets, mbind, state_cpp_bind, modify.
    by case_bool_decide.
  - exact IH.
  - pose proof (indicate_spec gn packet d) as Hs. destruct (Btp.indicate gn packet d) as [r d']. apply Hsame, Hs.
Qed.

Lemma history_hooks ops : NoDup (Btp.m_promiscuous_hooks (history ops)) /\
  forall h, h ∈ Btp.m_promiscuous_hooks (history ops) <-> listens h ops.
Proof.
  induction ops as [|op ops IH] using rev_ind.
  { split; [constructor|]. intros h. split; [by intros ?%not_elem_of_nil|done]. }
  rewrite history_snoc. unfold listens.
  assert (forall h, last (omap (about_hook h) (ops ++ [op]))
    = match about_hook h op with Some b => Some b | None => last (omap (about_hook h) ops) end) as Hlast
    by (intros h; apply last_omap_snoc).
  setoid_rewrite Hlast. clear Hlast. unfold listens in IH. revert IH. generalize (history ops) as d. intros d [Hnd Hl].
  destruct op as [p h|p h|h|h|gn packet]; cbn [operate about_hook]; try by split.
  - destruct h as [h|]; [|by split]. unfold Btp.add_promiscuous_hook, gets, mbind, state_cpp_bind, modify.
    case_bool_decide as Hin; cbn; (split; [try apply NoDup_app; try by split_and!; [|set_solver|apply NoDup_singleton]|]);
      try done; intros h'; destruct (decide (h = h')) as [->|]; rewrite <- ?Hl; set_solver.
  - unfold Btp.remove_promiscuous_hook, modify. cbn. split; [by apply NoDup_filter|]. intros h'.
    rewrite list_elem_of_filter. destruct h as [h|]; [|rewrite Hl; naive_solver].
    destruct (decide (h = h')) as [->|]; [naive_solver|]. rewrite Hl. naive_solver.
  - pose proof (indicate_spec gn packet d) as Hs. destruct (Btp.indicate gn packet d) as [r d'].
    destruct Hs as [[E _] _]. cbn. by rewrite E.
Qed.

(** * Dispatching *)

(** The number in two octets. *)
Definition word_at (i : Z) (data : bytes) : Z := be (ztake 2 (zdrop i data)).

Lemma words_of a b data : is_uint 2 a -> is_uint 2 b -> serialize_int 2 a ++ serialize_int 2 b = ztake 4 data ->
  4 <= size data -> a = word_at 0 data /\ b = word_at 2 data.
Proof.
  intros Ha Hb E Hs. rewrite !serialize_int_be in E. unfold word_at.
  assert (forall v, is_uint 2 v -> be (be_bytes 2 v) = v) as Hbe.
  { intros v Hv. rewrite be_be_bytes. by apply Z.mod_small. }
  assert (data = be_bytes 2 a ++ be_bytes 2 b ++ zdrop 4 data) as ->.
  { rewrite <- (ztake_zdrop 4 data) at 1. by rewrite <- E, <- app_assoc. }
  rewrite zdrop_0, ztake_app, zdrop_app, ztake_app by done. by rewrite !Hbe.
Qed.

(** The indication that belongs to the octets of a header. *)
Definition read_indication (gn_ind : DataIndication) (data : bytes) : Btp.DataIndication :=
  if decide (i_upper_protocol gn_ind = BTP_A)
  then Btp.DataIndication_A gn_ind (mk_HeaderA (word_at 0 data) (word_at 2 data))
  else Btp.DataIndication_B gn_ind (mk_HeaderB (word_at 0 data) (word_at 2 data)).

Lemma parse_btp_spec gn_ind p : CohesivePacket.cohesive_ok p -> all_bytes (header_octets p) ->
  i_upper_protocol gn_ind = BTP_A \/ i_upper_protocol gn_ind = BTP_B ->
  if size (header_octets p) <? 4
  then Btp.parse_btp_header gn_ind (Cohesive p) = Throws (runtime_error "incomplete read")
  else exists p', Btp.parse_btp_header gn_ind (Cohesive p)
      = Returns (Some (read_indication gn_ind (header_octets p)), Cohesive p') /\
    CohesivePacket.layer Transport p' = ztake 4 (header_octets p) /\
    CohesivePacket.layer Session p' = zdrop 4 (header_octets p) ++ CohesivePacket.layer Session p.
Proof.
  intros Hok Hb Hproto. unfold Btp.parse_btp_header, Btp.parse_btp_a, Btp.parse_btp_b, parse_packet, read_indication,
    HeaderA_length_bytes, HeaderB_length_bytes.
  destruct (Z.ltb_spec (size (header_octets p)) 4) as [Hs|Hs].
  - destruct Hproto as [-> | ->]; by erewrite parse_cohesive_short by (exact _ || done).
  - destruct Hproto as [E | E]; rewrite E; [rewrite decide_True by done|rewrite decide_False by done].
    + destruct (parse_cohesive_enough serialize_HeaderA deserialize_HeaderA (mk_HeaderA 0 0) wf_HeaderA p)
        as ([dp sp] & p' & -> & [H1 H2] & _ & Ht & Es & Hse); [done..|]. simpl in *.
      destruct (words_of dp sp (header_octets p) H1 H2 Es Hs) as [-> ->]. exists p'. split; [done|]. split; [|done].
      by rewrite <- Es.
    + destruct (parse_cohesive_enough serialize_HeaderB deserialize_HeaderB (mk_HeaderB 0 0) wf_HeaderB p)
        as ([dp sp] & p' & -> & [H1 H2] & _ & Ht & Es & Hse); [done..|]. simpl in *.
      destruct (words_of dp sp (header_octets p) H1 H2 Es Hs) as [-> ->]. exists p'. split; [done|]. split; [|done].
      by rewrite <- Es.
Qed.

(** C15. After any history of calls, a packet of the transport protocol with a complete
    header is first shown once to every hook that was added and not removed since, then
    passed to the handler that was registered last for its port and its kind of header, or
    reported as undispatched if there is none; the ports are those of the header, and the
    payload behind the header is in the next layer.  A packet whose header is incomplete
    makes the dispatcher throw and changes nothing; other packets are reported. *)
Theorem btp_dispatch_correct (ops : list operation) (gn_ind : DataIndication) (p : CohesivePacket.CohesivePacket) :
  CohesivePacket.cohesive_ok p -> all_bytes (header_octets p) ->
  let d := history ops in
  let data := header_octets p in
  let '(outcome, d') := Btp.indicate gn_ind (Cohesive p) d in
  match i_upper_protocol gn_ind with
  | BTP_A | BTP_B =>
      if size data <? 4 then outcome = Throws (runtime_error "incomplete read") /\ d' = d
      else outcome = Returns () /\ exists hooks p',
        NoDup hooks /\ (forall h, h ∈ hooks <-> listens h ops) /\
        CohesivePacket.layer Transport p' = ztake 4 data /\
        CohesivePacket.layer Session p' = zdrop 4 data ++ CohesivePacket.layer Session p /\
        Btp.m_calls d' = Btp.m_calls d ++ calls_for gn_ind (read_indication gn_ind data) (Cohesive p') hooks
          (last_handler (bool_decide (i_upper_protocol gn_ind = BTP_A)) (word_at 0 data) ops)
  | Upper_Unknown | IPv6 => outcome = Returns () /\ Btp.m_calls d' = Btp.m_calls d ++ [Btp.Undispatched gn_ind None]
  end.
Proof.
  intros Hok Hb d data. pose proof (indicate_spec gn_ind (Cohesive p) d) as Hs.
  destruct (Btp.indicate gn_ind (Cohesive p) d) as [outcome d']. destruct Hs as [_ Hs].
  pose proof (parse_btp_spec gn_ind p Hok Hb) as Hp. fold data in Hp. unfold Btp.parse_btp_header in Hs, Hp.
  destruct (i_upper_protocol gn_ind) eqn:E; try done; specialize (Hp ltac:(auto));
    (destruct (size data <? 4); [by rewrite Hp in Hs|]);
    destruct Hp as (p' & Hp & Ht & Hse); rewrite Hp in Hs; destruct Hs as [-> Hc]; (split; [done|]);
    destruct (history_hooks ops) as [Hnd Hl]; eexists _, p'; split_and!; try done;
    rewrite Hc; f_equal; unfold calls_for, d; rewrite history_handlers; unfold read_indication; by rewrite E.
Qed.

End dispatch.
