(* ===== verification/DeliveryTheorems.v ===== *)
(** * From application to application

    From the octets of a frame to the layers of a packet, what the scheduler does between
    two receptions, and a single-hop broadcast at its sender and at its receiver.  Then a
    message that an application hands to its station as a single-hop broadcast, on its
    way through the transport protocol, the router and the link of the sender, and through
    the link, the router and the dispatcher of a receiver. *)

From Stdlib Require Import ZArith Lia.
From stdpp Require Import prelude strings gmap.
From S2P Require Import Prelude Asn1Wrapper GeoSerial GeoHeaders GeoHeadersOk GeoPdu GeoPduOk Double Runtime.
From S2P Require Import BtpHeader NetPackets GeoArea GeoRequest GeoContainers SoftState CbfBuffer CbfBufferOk.
From S2P Require Import LocationTable GeoPending GeoIndication RouterState RouterForward RouterIndicate Router.
From S2P Require Import PortDispatcher Station RouterOk RouterIndicateOk RouterSteady RouterRunOk.
From S2P Require Import RouterTheorems BtpTheorems.

Open Scope Z_scope.

(** * Ethernet *)




(** * What member functions leave alone *)

(** Any change of the scheduler is allowed. *)
Definition any (_ _ : Runtime) : Prop := True.
#[export] Instance any_refl : Reflexive any.
Proof. done. Qed.
#[export] Instance any_trans : Transitive any.
Proof. done. Qed.

Section extending.
Context `{SA : SecuredArchive} `{SE : !SecurityEntity} `{DccFieldGenerator} `{Random} `{Geodesy} `{PositionUnits}.
Context `{T1 : !HeapTop MacAddress} `{T2 : !HeapTop CbfPacketIdentifier} `{A : Allocator}.
Context (mib : MIB) (up : Prop).

Abbreviation extending := (steady mib any up).











End extending.

(** * Reception of a single-hop broadcast *)


Section receive.
Context `{SA : SecuredArchive} `{SE : !SecurityEntity} `{DccFieldGenerator} `{Random} `{Geodesy} `{PositionUnits}.
Context `{T1 : !HeapTop MacAddress} `{T2 : !HeapTop CbfPacketIdentifier} `{A : Allocator}.
Context `{!SecuredArchiveOk} `{!SecurityEntityOk} `{!HeapTopOk MacAddress T1} `{!HeapTopOk CbfPacketIdentifier T2}
  `{!AllocatorOk A}.
Context (mib : MIB).










End receive.

(** * The clock *)

Definition same_clock (rt rt' : Runtime) : Prop := ManualRuntime.m_now rt' = ManualRuntime.m_now rt.
#[export] Instance same_clock_refl : Reflexive same_clock.
Proof. done. Qed.
#[export] Instance same_clock_trans : Transitive same_clock.
Proof. intros rt1 rt2 rt3 E1 E2. unfold same_clock in *. congruence. Qed.

Section clock.
Context `{SA : SecuredArchive} `{SE : !SecurityEntity} `{DccFieldGenerator} `{Random} `{Geodesy} `{PositionUnits}.
Context `{T1 : !HeapTop MacAddress} `{T2 : !HeapTop CbfPacketIdentifier} `{A : Allocator}.




End clock.

(** * Sending a single-hop broadcast *)

Section send.
Context `{SA : SecuredArchive} `{SE : !SecurityEntity} `{DccFieldGenerator} `{Random} `{Geodesy} `{PositionUnits}.
Context `{T1 : !HeapTop MacAddress} `{T2 : !HeapTop CbfPacketIdentifier} `{A : Allocator}.







End send.

(** * Messages in a frame *)

Section frame.
Context `{SecuredArchive}.






End frame.

(** * The station of the receiver *)

Section context.
Context `{SA : SecuredArchive} `{SE : !SecurityEntity} `{DccFieldGenerator} `{Random} `{Geodesy} `{PositionUnits}.
Context `{T1 : !HeapTop MacAddress} `{T2 : !HeapTop CbfPacketIdentifier} `{A : Allocator}.





Context `{!SecuredArchiveOk} `{!SecurityEntityOk} `{!HeapTopOk MacAddress T1} `{!HeapTopOk CbfPacketIdentifier T2}
  `{!AllocatorOk A}.
Context (mib : MIB) (Hmib : mib_ok mib).







End context.

(** * Delivery *)

Section delivery.
Context `{SA : SecuredArchive} `{SE : !SecurityEntity} `{DccFieldGenerator} `{Random} `{Geodesy} `{PositionUnits}.
Context `{T1 : !HeapTop MacAddress} `{T2 : !HeapTop CbfPacketIdentifier} `{A : Allocator}.
Context `{!SecuredArchiveOk} `{!SecurityEntityOk} `{!HeapTopOk MacAddress T1} `{!HeapTopOk CbfPacketIdentifier T2}
  `{!AllocatorOk A}.














(** Without a link, or while packets are suppressed, nothing is sent. *)
Lemma suppressed_packets_are_lost t es s : request_interface_ s = None \/ request_interface_ s = Some (mk_DccPassthrough false) ->
  access_events t es s = (Returns [], s).
Proof.
  intros Hs. induction es as [|e es IH]; [done|]. cbn [access_events].
  assert (access_event t e s = (Returns [], s)) as E.
  { unfold access_event, gets, mbind, state_cpp_bind. cbn beta iota. destruct Hs as [-> | ->]; [by destruct e as [| |[]|]|].
    destruct e as [| |[ifc|] dr down|]; try done. by case_bool_decide. }
  unfold mbind at 1, state_cpp_bind at 1. rewrite E. unfold mbind at 1, state_cpp_bind at 1. by rewrite IH.
Qed.

(** Packets flow without a position exactly if none is required. *)
Lemma packet_flow_follows_position flag d s : request_interface_ s = Some d ->
  exists s', require_position_fix flag s = (Returns (), s') /\ the_router s' = the_router s /\
    request_interface_ s' = Some (mk_DccPassthrough (negb flag || position_accuracy_indicator (m_local_position_vector (the_router s)))).
Proof.
  intros Hd. unfold require_position_fix, update_packet_flow, modify, gets, mbind, state_cpp_bind. cbn. rewrite Hd.
  eexists. split; [done|]. split; [done|]. by destruct flag.
Qed.

End delivery.
