(* ===== verification/StationSamples.v ===== *)
(** * Concrete stations

    The application of tools/socktap/hello_application.cpp on two stations: the theorems
    about dispatching and delivery at these stations, and the frame that ends a program. *)

From Stdlib Require Import ZArith Lia.
From stdpp Require Import prelude strings gmap.
From S2P Require Import Prelude GeoSerial GeoHeaders GeoHeadersOk GeoPdu Double Asn1Wrapper Runtime BtpHeader NetPackets.
From S2P Require Import GeoArea GeoRequest GeoContainers SoftState CbfBuffer LocationTable GeoPending GeoIndication GeoSamples.
From S2P Require Import RouterState RouterForward RouterIndicate Router PortDispatcher Station.
From S2P Require Import RouterOk RouterSteady RouterTheorems RouterSamples BtpTheorems DeliveryTheorems.

Open Scope Z_scope.

#[local] Existing Instance sample_archive.
#[local] Existing Instance sample_archive_ok.
#[local] Existing Instance sample_security.
#[local] Existing Instance sample_security_ok.
#[local] Existing Instance sample_generator.
#[local] Existing Instance sample_random.
#[local] Existing Instance sample_units.
#[local] Existing Instance sample_geodesy.
#[local] Existing Instance sample_heap.
#[local] Existing Instance sample_heap_ok.
#[local] Existing Instance sample_alloc.
#[local] Existing Instance sample_alloc_ok.

(** * The hello application *)

Definition hello_app : App := mk_App 9 42 (Some 5%nat) true.

Definition hello_packet : DownPacket :=
  set_chunk_layer Application (OfBuffer [0xC0; 0xFF; 0xEE]) make_ChunkPacket.

(** aid::CA is 36. *)
Definition hello_request : DataRequestGeoNetParams :=
  mk_DataRequestGeoNetParams SHB DestinationNull ITS_G5 36 None None None 0.

(** * Two stations *)

Definition sending_router : Router :=
  snd (set_address (mk_Address true 5 250 (mk_MacAddress 2 0 0 0 0 7)) (sample_made false)).

Definition sending_station : RouterContext :=
  snd (set_link_layer true (mk_RouterContext (sample_mib false) sending_router Btp.make_PortDispatcher None false)).

Definition receiving_router : Router :=
  snd (perform (SetTransportHandler BTP_B (Some dispatcher_interface)) (sample_made false)).

Definition receiving_station : RouterContext :=
  snd (enable hello_app (mk_RouterContext (sample_mib false) receiving_router Btp.make_PortDispatcher None false)).






(** What the receiver calls: its hook, then the handler. *)
Definition call_view (d : Btp.dispatch) : Z * Z :=
  match d with
  | Btp.Tapped h ind _ => (Z.of_nat h, Btp.destination_port ind)
  | Btp.Dispatched handler ind _ => (Z.of_nat handler, Btp.destination_port ind)
  | Btp.Undispatched _ _ => (-1, -1)
  end.

(** The frame that is sent for the message, with what the model computes at both ends. *)
Definition hello_frame : bytes :=
  match fst (station_request 6000000 hello_app hello_request (Some hello_packet) sending_station) with
  | Returns (_, [frame]) => frame
  | _ => []
  end.

Example hello_frame_size : size hello_frame = 14 + 40 + 4 + 3.
Proof. vm_compute. reflexivity. Qed.

Example hello_received :
  map call_view (Btp.m_calls (dispatcher_ (snd (receive_frame 6000000 6000001 hello_frame receiving_station)))) = [(5, 42); (9, 42)].
Proof. vm_compute. reflexivity. Qed.

(** The same message when a position is required, which the station does not have. *)
Example hello_suppressed :
  fst (station_request 6000000 hello_app hello_request (Some hello_packet) (snd (require_position_fix true sending_station)))
  = Returns (Accepted, []).
Proof. vm_compute. reflexivity. Qed.

(** * Dispatching *)

(** A packet for port 2001 with two octets of payload. *)
Definition btp_b_packet : CohesivePacket.CohesivePacket :=
  CohesivePacket.make_CohesivePacket [0x07; 0xD1; 0; 0; 1; 2] Transport.

Definition btp_b_indication : DataIndication :=
  set_common_fields 0 BTP_B default_DataIndication.

Lemma btp_dispatch_correct_witness :
  let ops := [SetNonInteractiveHandler 2001 (Some 3%nat); AddPromiscuousHook (Some 5%nat);
              SetNonInteractiveHandler 2001 (Some 4%nat); AddPromiscuousHook (Some 5%nat)] in
  let '(outcome, d') := Btp.indicate btp_b_indication (Cohesive btp_b_packet) (history ops) in
  outcome = Returns () /\ exists hooks p',
    NoDup hooks /\ (forall h, h ∈ hooks <-> listens h ops) /\
    CohesivePacket.layer Transport p' = [0x07; 0xD1; 0; 0] /\
    CohesivePacket.layer Session p' = [1; 2] /\
    Btp.m_calls d' = [] ++ calls_for btp_b_indication (read_indication btp_b_indication [0x07; 0xD1; 0; 0; 1; 2])
      (Cohesive p') hooks (Some 4%nat).
Proof.
  intros ops. assert (all_bytes (header_octets btp_b_packet)) as Hb by (vm_compute; repeat constructor; discriminate).
  exact (btp_dispatch_correct ops btp_b_indication btp_b_packet (CohesivePacket.make_cohesive_ok _ _) Hb).
Defined.

(** * A short packet *)

(** The frame of a single-hop broadcast with three octets, which are too few for the header
    of the transport protocol. *)
Definition short_frame : bytes :=
  create_ethernet_header cBroadcastMacAddress (mk_MacAddress 2 0 0 0 0 7) GeoNetworking_ether_type
  ++ serialize_BasicHeader (mk_BasicHeader 1 NextHeaderBasic_Common 0 (Lifetime_set 1 60) 1)
  ++ serialize_CommonHeader (mk_CommonHeader NextHeaderCommon_BTP_B 0 TSB_Single_Hop 0 0 3 1 0)
  ++ serialize_ShbHeader (mk_ShbHeader sample_source (DccRaw 0)) ++ [1; 2; 3].

(** The exception of the archive leaves [on_read] of a station without security: nothing
    between the socket and the main loop catches it. *)
Theorem short_packet_ends_station :
  fst (receive_frame 6000000 6000001 short_frame receiving_station) = Throws (runtime_error "incomplete read").
Proof. vm_compute. reflexivity. Qed.
